(* ===== verification/_CoqProject ===== *)
-Q . S2P
Prelude.v
Decimal.v
Micro.v
Config.v
Domain.v
RiskTypes.v
CircuitBreaker.v
Accounting.v
Ledger.v
Bloom.v
Blacklist.v
Drawdown.v
Context.v
Sizing.v
Checks.v
Pipeline.v
Interfaces.v
Reconciliation.v
Engine.v
Recovery.v
EngineSafety.v
Exposure.v
Book.v
OrderBook.v
Fees.v
FactorModel.v
AuditChain.v
Factors.v
Registry.v
Governance.v
Execution.v
ExecutionPipeline.v
Calibration.v
Detector.v
OpportunityPipeline.v
Text.v
RuntimeConfig.v
ConfigSafety.v
Positions.v
Settlement.v
ScoredSnapshot.v
TradeStore.v
PostTrade.v
Orphans.v
TradeFlow.v
Markets.v
Catalog.v
MarketFeed.v
Ingestion.v
Lifecycle.v
MetricsRefresh.v
ModeTransition.v
Scanner.v
BookReplay.v
ExecutionEvidence.v
EvidenceStages.v
FactorBuild.v
PointInTime.v
Materialization.v
MaterializationRunner.v
