(* ===== verification/Prelude.v ===== *)
(** * Verification of oxide-arb

    oxide-arb is a trading system for prediction markets.  A detector proposes opportunities, a
    risk engine admits and sizes them, an executor reserves capital and places orders, and
    post-trade processing feeds fills and settlements back into the risk engine.  The risk engine
    is the authority on whether money may be spent; this library models it in full, together with
    the fixed-point money types, the configuration it reads, the capital reservations, the order
    books and the execution pipeline that acts on its decisions.

    ** Parts and files (paths under src/crates/)

    - [Prelude]: machine integers, results, list and map sums, the hint database [oxide].
    - [Decimal]: [rust_decimal] and [chrono] as parameters ([DecimalOps], [DecimalLaws], [Chrono]),
      with the exact-rational and UTC instances the witnesses compute with.
    - [Micro]: oxide-arb-models/src/types/micro.rs, integer prices, shares and amounts.
    - [Config]: oxide-arb-models/src/runtime_config (risk section, redeem routing).
    - [Domain]: records and enumerations of oxide-arb-models/src/{domain,enums}.
    - [RiskTypes], [Context]: oxide-arb-risk/src/{types,context,snapshot}.rs.
    - [CircuitBreaker]: circuit_breaker.rs, the five-state breaker.
    - [Accounting]: accounting/{daily,weekly,hourly}.rs.
    - [Ledger]: position.rs, worst-case losses of unsettled positions.
    - [Bloom], [Blacklist]: snapshot.rs and blacklist.rs.
    - [Drawdown], [Sizing]: sizing.rs.
    - [Checks], [Pipeline]: pipeline/{checks,mod}.rs, the thirty-two gates.
    - [Interfaces]: traits.rs and audit.rs; the metrics source and the stores are classes.
    - [Reconciliation]: reconciliation.rs.
    - [Engine]: engine.rs, every method of the engine.
    - [Recovery]: state_store.rs and builder.rs.
    - [EngineSafety]: the theorems about the engine.
    - [Exposure]: oxide-arb-core/src/exposure/in_memory.rs and execution/capital_manager.rs, with
      oxide-arb-error/src/reservation.rs: capital reservations, called from several tasks at once.
    - [Book], [OrderBook]: oxide-arb-models/src/domain/market/book.rs, oxide-arb-algorithm/src/
      walker.rs, and oxide-arb-core/src/pipeline/{order_book,book_gate,staleness_classifier}.rs.
    - [Fees]: oxide-arb-api/src/fees, oxide-arb-core/src/bridge/fee_estimator.rs.
    - [FactorModel], [Factors]: control factors and publications (oxide-arb-models/src/domain/
      control_factor, oxide-arb-control/src/governance/publication.rs), their compilation, the
      live slots and the refresher (oxide-arb-core/src/control/factor_refresher.rs).
    - [AuditChain], [Registry], [Governance]: the hash-chained audit log and the tables of
      oxide-arb-repository/src/postgres/control_factor.rs, and the governance service of
      oxide-arb-control/src/governance that drives them; they feed the refresher of [Factors].
    - [Execution]: oxide-arb-core/src/execution/{fsm,validator,plan_builder,clob_outcome,
      fok_strategy,dispatcher}.rs.
    - [ExecutionPipeline]: execution/{execution_pipeline,market_inflight}.rs and
      oxide-arb-models/src/domain/trading/{execution,trade}.rs.
    - [Calibration], [Detector], [OpportunityPipeline]: oxide-arb-algorithm/src/{calibration,
      endgame} and pipeline.rs, from a book view to an emitted opportunity.
    - [Text], [RuntimeConfig], [ConfigSafety]: the configuration document, its validation
      (oxide-arb-models/src/runtime_config/validation.rs) and what a valid one guarantees.
    - [Positions], [Settlement]: the position table and the settlement sweep
      (oxide-arb-core/src/execution/settlement/service.rs, oxide-arb-api/src/oracle).
    - [ScoredSnapshot], [TradeStore], [PostTrade]: the trade table
      (oxide-arb-repository/src/postgres/trading/trade.rs) and the consumer that books fills
      (oxide-arb-core/src/post_trade/consumer.rs).
    - [Orphans], [TradeFlow]: reconciliation of trades with an unknown outcome
      (oxide-arb-core/src/post_trade/reconciliation), and boot, heartbeat and kill switch over the
      trade table, the reservations and the emergency state machine.
    - [Markets], [Catalog]: the market registry, the scan cache and the synchronisation of the
      catalog (oxide-arb-core/src/pipeline/{market_registry,market_cache}.rs, service/{gamma,
      catalog_lifecycle,ws_subscription}.rs, oxide-arb-api/src/gamma).
    - [MarketFeed]: oxide-arb-api/src/ws, subscriptions, shards and their actors, normalisation.
    - [Ingestion]: the book store and its workers, the update coalescer and the priority queue of
      the funnel (oxide-arb-core/src/{pipeline,detection,observability}).
    - [Lifecycle]: operational phases, readiness, health checks and alerts
      (oxide-arb-core/src/{service,infra,control}).
    - [MetricsRefresh]: the metrics of the running system, their refresh and the adapter through which
      the risk engine reads them (oxide-arb-core/src/service/{risk_metrics,equity_valuator}.rs,
      bridge/risk_metrics.rs); it is the instance of the metrics class of [Interfaces].
    - [ModeTransition]: oxide-arb-core/src/control/mode_transition.rs, the switch between dry runs,
      paper trading and live trading, with the executions that run meanwhile.
    - [Scanner]: the scanner, its task and the funnel, and the composition of feed, ingestion,
      lifecycle and detection as one step system (oxide-arb-core/src/detection).
    - [BookReplay], [ExecutionEvidence], [EvidenceStages]: oxide-arb-control/src/evidence, from
      recorded books, audits and trades to the artifacts and the status of each stage.
    - [FactorBuild]: oxide-arb-control/src/{factor,gates}, the builders of control factors and the
      quality gates that make them candidates or reject them.
    - [PointInTime]: materialization/pit.rs, the inputs that a run may see and the queries behind them.
    - [Materialization], [MaterializationRunner]: the table of runs, the scheduler, the replay
      endpoint and the runner (oxide-arb-control/src/{materialization,scheduler}), whose factors
      go into the tables of [Registry].

    ** How the code is modelled

    A method that mutates its object is a function from the object to the new object, paired with
    what it returns; errors are [Result].  A clock reading is an argument [now]; wall-clock
    durations are arguments.  In the engine, locks, [ArcSwap] and atomics protect single assignments
    and are modelled by them: one operation of the engine runs at a time.  Reservations are called
    concurrently: besides its sequential definition each method is a sequence of atomic steps on
    the counters and on the locked shards of the maps, and runs are arbitrary interleavings.  A [u32], [u64] or [i64] is a [Z]
    with the saturation, wrap-around or checked conversion of the operation written out.  A
    [Decimal] is an abstract value with the rational it denotes ([dval]); an operation that
    overflows its 96-bit mantissa panics, so the model describes runs in which none does.  Log lines
    are left out.  Strings of reasons and details are those of the code.

    Every call to a store may fail: [RiskPersistence] is an interface, and the theorems about the
    engine quantify over all its implementations.  [Interfaces.Scripted] is a store that fails at
    scripted calls and [Interfaces.Frozen] a metrics source; the witnesses run on them.

    ** What is proved

    - Engine: an approved decision is safe in every state reachable by any operations and failures;
      a failed write halts; fills are applied once and rolled back when they cannot be committed; a
      breached cap stops trading; denials name their gate ([EngineSafety]).
    - Restart: the books survive and a blocked engine stays blocked ([Recovery]).
    - Breaker: refinement of the documented diagram, halts last until an operator acts, cooldowns
      block, recovery completes, the back-off formula ([CircuitBreaker]).
    - Gates: lazy two-phase evaluation equals one-shot evaluation, the modes agree, and passing
      gates mean that every limit holds ([Pipeline]).
    - Sizing: bets stay under every ceiling, control factors only tighten, the Kelly stake and the
      drawdown factor are bounded ([Sizing], [Drawdown]).
    - Books: window sums, exact running totals, idempotent entries ([Accounting], [Ledger]).
    - Blacklist: compiled snapshots answer as the live manager, entries are never weakened, filters
      have no false negatives ([Blacklist], [Bloom]).
    - Reconciliation is sound and complete for drifts ([Reconciliation]).
    - Money: affordable quantities, averages and conversions ([Micro]).
    - Reservations: in every interleaving the counters respect the limits and account for the
      reservations, pinned ones survive, a call alone behaves as its sequential definition, and the
      only way to get stuck is the lock inversion of reserve and collection ([Exposure]).
    - Order books: changes act on the price-to-size maps the sides stand for, the sides stay
      sorted, and the walks respect budget and offer ([OrderBook], [Book]).
    - Execution: capital follows the outcome whatever fails, and the venue is asked only after the
      durable intent and with the clearance of the risk engine ([ExecutionPipeline]).
    - Fees and control factors: the fee formula and its estimates ([Fees]); an activated
      publication is governed ([FactorModel]); a compiled snapshot is the worst of its factors and
      the refresher serves verified publications only ([Factors]).
    - Registry: one live publication per mode, memberships and statuses agree, factors follow their
      lifecycle when transactions are serialised ([Registry]); unapproved publications never relax
      and a published one is served ([Governance]); the tip of the audit log commits to the whole
      history ([AuditChain]).
    - Opportunities: posteriors are probabilities and tiered lookups are exact ([Calibration]);
      what the pipeline emits was detected, scored and in its zone ([OpportunityPipeline]).
    - Configuration: validation is exactly the declared constraints, and a valid document makes the
      components' parameters sane ([RuntimeConfig], [ConfigSafety]).
    - Settlement: the outcome of a position on every branch ([Settlement]).
    - Trades: rows follow their lifecycle ([TradeStore]); settled trades are booked and the drain
      terminates ([PostTrade]); verdicts are backed by evidence and orphans keep their reservation
      ([Orphans]); a start restores every obligation and the kill switch clears under guard
      ([TradeFlow]).
    - Catalog: the registry's indexes agree after any registrations ([Markets]), the chosen tokens
      respect their budget, and a market that closes between full syncs is never looked at again
      ([Catalog]).
    - Feed: the shards serve exactly the union of the two sources ([MarketFeed]); the published
      books follow the received events and the funnel is a priority queue ([Ingestion]).
    - Detection: what an opportunity went through before a runner receives it, and that a half-open
      breaker receives no probes ([Scanner]); a parked shard forbids detection and alerts are
      edge-triggered ([Lifecycle]).
    - Live metrics: a trade admitted in live mode has seen the venue's own balance, not marked stale
      since its positions were read; the window of errors never counts too few ([MetricsRefresh]).
    - Modes: a switch that fails leaves the kill switch set, one that succeeds is durable; under two
      stated conditions that the code does not ensure, an execution has one mode from its gates to its
      order; positions that wait for redemption have a plan when live trading begins ([ModeTransition]).
    - Evidence: a book at a decision is the replay of the changes up to it, and replaying a recorded
      change is what the live book does ([BookReplay]); a replayed order spends what the book offers
      ([ExecutionEvidence]); examples see nothing after their decision, and a settlement stage passes
      exactly on complete joins ([EvidenceStages]).
    - Inputs of a run: nothing written after its window is seen, and what exactly makes them eligible
      for production ([PointInTime]); three of the four schedules can never put a candidate out
      ([MaterializationRunner]).
    - Factors from evidence: built factors can be registered and the gates decide their status
      ([FactorBuild]); runs follow their lifecycle in every interleaving of the queries and scheduled
      windows are disjoint ([Materialization]); an executed run ends, stores what the gates left, and
      is completed exactly when it is of production grade ([MaterializationRunner]).

    Several lemmas state flaws of the code: a run on a concrete state, evaluated by the kernel.

    ** Fuel and bounds

    Loops are structural recursions on the lists the code iterates, with two exceptions.  The
    binary search of a book side has the length of the side as fuel: every step shortens the
    searched interval, and the search is proved to find exactly the prices the side holds.  The
    drain of the post-trade consumer asks the store again until it is empty:
    [PostTrade.drain_terminates] proves that a fuel above the number of rows that can be claimed
    gives a result.

    ** What is not modelled

    Network clients, web routes, migrations, list and report queries, metrics, log lines, macros,
    binaries and test fixtures are I/O, generated code or glue.  Of a materialization run the
    replay of detections through the detector is an input: the runner is proved for whatever it and
    the resolver answer.  Cryptographic digests, signatures and the chain are
    parameters with their documented laws. *)

From Stdlib Require Export ZArith QArith Qabs Qround Lia Lqa.
From stdpp Require Export base gmap strings list pretty.

#[global] Open Scope Z_scope.

(** ** Machine integers

    A Rust integer of width [w] is a [Z] inside its range.  Only the operations the
    sources use are given: the saturating ones, the checked conversions of
    [ToPrimitive], and wrap-around for the plain operators (the release profile
    leaves overflow checks off). *)

Definition i32_max : Z := 2147483647.
Definition i32_min : Z := -2147483648.
Definition i64_max : Z := 9223372036854775807.
Definition i64_min : Z := -9223372036854775808.
Definition u32_max : Z := 4294967295.
Definition u64_max : Z := 18446744073709551615.

Definition in_i32 (z : Z) : Prop := i32_min <= z <= i32_max.
Definition in_i64 (z : Z) : Prop := i64_min <= z <= i64_max.
Definition in_u32 (z : Z) : Prop := 0 <= z <= u32_max.
Definition in_u64 (z : Z) : Prop := 0 <= z <= u64_max.

(** Clamp to an interval: the shape of every saturating operation. *)
Definition clampZ (lo hi z : Z) : Z := Z.max lo (Z.min hi z).

Definition sat_i64 (z : Z) : Z := clampZ i64_min i64_max z.
Definition sat_u32 (z : Z) : Z := clampZ 0 u32_max z.
Definition sat_u64 (z : Z) : Z := clampZ 0 u64_max z.

Definition wrap_u32 (z : Z) : Z := z mod 4294967296.
Definition wrap_u64 (z : Z) : Z := z mod 18446744073709551616.
(** Two's complement wrap of a signed 64-bit result. *)
Definition wrap_i64 (z : Z) : Z := (z + 9223372036854775808) mod 18446744073709551616 - 9223372036854775808.

Definition checked (lo hi z : Z) : option Z :=
  if (lo <=? z) && (z <=? hi) then Some z else None.
Definition to_i32 : Z -> option Z := checked i32_min i32_max.
Definition to_i64 : Z -> option Z := checked i64_min i64_max.
Definition to_u32 : Z -> option Z := checked 0 u32_max.
Definition to_u64 : Z -> option Z := checked 0 u64_max.

(** [Option::unwrap_or]. *)
Definition unwrap_or {A} (o : option A) (d : A) : A :=
  match o with Some a => a | None => d end.

(** [2_u64.saturating_pow(e)]. *)
Definition sat_pow2_u64 (e : Z) : Z := if e <? 64 then 2 ^ e else u64_max.

Ltac unfold_ints :=
  unfold in_i32, in_i64, in_u32, in_u64, sat_i64, sat_u32, sat_u64, clampZ,
    i32_min, i32_max, i64_min, i64_max, u32_max, u64_max in *.

Lemma clampZ_range lo hi z : lo <= hi -> lo <= clampZ lo hi z <= hi.
Proof. unfold clampZ. lia. Qed.

Lemma clampZ_id lo hi z : lo <= z <= hi -> clampZ lo hi z = z.
Proof. unfold clampZ. lia. Qed.

Lemma sat_i64_in z : in_i64 (sat_i64 z).
Proof. unfold_ints. lia. Qed.

Lemma sat_i64_id z : in_i64 z -> sat_i64 z = z.
Proof. unfold_ints. lia. Qed.

Lemma wrap_i64_id z : in_i64 z -> wrap_i64 z = z.
Proof. unfold_ints. unfold wrap_i64. intros. rewrite Z.mod_small; lia. Qed.

Lemma wrap_u32_id z : in_u32 z -> wrap_u32 z = z.
Proof. unfold_ints. unfold wrap_u32. intros. apply Z.mod_small. lia. Qed.

Lemma wrap_u64_id z : in_u64 z -> wrap_u64 z = z.
Proof. unfold_ints. unfold wrap_u64. intros. apply Z.mod_small. lia. Qed.

Lemma checked_in lo hi z : lo <= z <= hi -> checked lo hi z = Some z.
Proof.
  intros. unfold checked.
  destruct (Z.leb_spec lo z), (Z.leb_spec z hi); simpl; try done; lia.
Qed.

Lemma checked_out lo hi z : z < lo \/ hi < z -> checked lo hi z = None.
Proof.
  intros. unfold checked.
  destruct (Z.leb_spec lo z), (Z.leb_spec z hi); simpl; try done; lia.
Qed.

Lemma checked_Some lo hi z z' : checked lo hi z = Some z' -> z' = z /\ lo <= z <= hi.
Proof.
  unfold checked.
  destruct (Z.leb_spec lo z), (Z.leb_spec z hi); simpl; intros; simplify_eq; lia.
Qed.

Lemma to_i64_in z : in_i64 z -> to_i64 z = Some z.
Proof. apply checked_in. Qed.

(** The rounding conversions of the fixed-point types: [to_i64().unwrap_or(i64::MAX)]. *)
Lemma unwrap_i64_in z d : in_i64 z -> unwrap_or (to_i64 z) d = z.
Proof. intros. by rewrite to_i64_in. Qed.

Lemma unwrap_i64_range z d : in_i64 d -> in_i64 (unwrap_or (to_i64 z) d).
Proof.
  intros Hd. unfold to_i64. destruct (checked _ _ z) eqn:E; simpl; [|done].
  apply checked_Some in E as [-> ?]. done.
Qed.

Lemma unwrap_i64_le z : 0 <= z -> 0 <= unwrap_or (to_i64 z) i64_max <= z \/
                                   (unwrap_or (to_i64 z) i64_max = i64_max /\ i64_max < z).
Proof.
  intros. destruct (Z.le_gt_cases z i64_max).
  - rewrite unwrap_i64_in; [lia|]. unfold_ints. lia.
  - unfold to_i64. rewrite checked_out; simpl; [|lia]. unfold_ints. lia.
Qed.

(** Rust [/] on integers truncates towards zero: [Z.quot].  For non-negative operands
    it is the usual division. *)
Lemma quot_nonneg_div a b : 0 <= a -> 0 < b -> a ÷ b = a / b.
Proof. intros. apply Z.quot_div_nonneg; lia. Qed.

Lemma div_le_upper a b c : 0 < b -> a <= b * c -> a / b <= c.
Proof. intros. apply Z.div_le_upper_bound; lia. Qed.

(** ** Boolean comparisons *)

Ltac zbool :=
  repeat match goal with
  | H : (_ <=? _) = true |- _ => apply Z.leb_le in H
  | H : (_ <=? _) = false |- _ => apply Z.leb_gt in H
  | H : (_ <? _) = true |- _ => apply Z.ltb_lt in H
  | H : (_ <? _) = false |- _ => apply Z.ltb_ge in H
  | H : (_ =? _) = true |- _ => apply Z.eqb_eq in H
  | H : (_ =? _) = false |- _ => apply Z.eqb_neq in H
  | H : (_ && _)%bool = true |- _ => apply andb_true_iff in H as [? ?]
  | H : (_ || _)%bool = false |- _ => apply orb_false_iff in H as [? ?]
  | H : negb _ = true |- _ => apply negb_true_iff in H
  | H : negb _ = false |- _ => apply negb_false_iff in H
  end.

(** ** Errors: [OxideResult] and friends *)

Inductive Result (A E : Type) : Type :=
| Ok (a : A)
| Err (e : E).
Arguments Ok {A E} a.
Arguments Err {A E} e.

Definition is_ok {A E} (r : Result A E) : bool :=
  match r with Ok _ => true | Err _ => false end.

(** [?]: continue on [Ok], return the error otherwise. *)
Notation "'let?' x := r 'in' k" :=
  (match r with Ok x => k | Err e => Err e end)
    (at level 10, x pattern, r at level 100, k at level 200).

(** [Option::ok_or]. *)
Definition ok_or {A E} (o : option A) (e : E) : Result A E :=
  match o with Some a => Ok a | None => Err e end.

(** ** Lists *)

(** [iter().min_by(cmp)]: the first of the minimal elements ([Iterator::min_by] keeps
    the earlier one on a tie); [le a b] decides [a <= b]. *)
Definition min_by_step {A} (le : A -> A -> bool) (acc : A) (x : A) : A :=
  if le acc x then acc else x.

Definition min_by {A} (le : A -> A -> bool) (l : list A) : option A :=
  match l with
  | [] => None
  | x :: xs => Some (foldl (min_by_step le) x xs)
  end.

Section MinBy.
Context {A : Type} (le : A -> A -> bool).
Context (le_trans : forall a b c, le a b = true -> le b c = true -> le a c = true).
Context (le_total : forall a b, le a b = true \/ le b a = true).

Lemma min_by_step_l a x : le (min_by_step le a x) a = true.
Proof.
  unfold min_by_step. destruct (le a x) eqn:E.
  - destruct (le_total a a); done.
  - destruct (le_total a x); congruence.
Qed.

Lemma min_by_step_r a x : le (min_by_step le a x) x = true.
Proof.
  unfold min_by_step. destruct (le a x) eqn:E; [done|].
  destruct (le_total x x); done.
Qed.

Lemma foldl_min_le xs : forall a,
  le (foldl (min_by_step le) a xs) a = true /\
  Forall (fun x => le (foldl (min_by_step le) a xs) x = true) xs.
Proof.
  induction xs as [|x xs IH]; intros a; simpl.
  - split; [destruct (le_total a a); done | constructor].
  - destruct (IH (min_by_step le a x)) as [H1 H2]. split.
    + eapply le_trans; [exact H1 | apply min_by_step_l].
    + constructor; [|done].
      eapply le_trans; [exact H1 | apply min_by_step_r].
Qed.

Lemma foldl_min_in xs : forall a, foldl (min_by_step le) a xs ∈ a :: xs.
Proof.
  induction xs as [|x xs IH]; intros a; simpl; [by left|].
  specialize (IH (min_by_step le a x)).
  apply elem_of_cons in IH as [-> | IH]; [|by right; right].
  unfold min_by_step. destruct (le a x); [by left | by right; left].
Qed.

(** The result is an element of the list that is below every element of it. *)
Lemma min_by_spec l m :
  min_by le l = Some m -> m ∈ l /\ Forall (fun x => le m x = true) l.
Proof.
  destruct l as [|a xs]; simpl; intros; simplify_eq.
  split; [apply foldl_min_in|].
  destruct (foldl_min_le xs a). by constructor.
Qed.
End MinBy.

(** [iter().find(p)]. *)
Lemma find_false_Forall {A} (p : A -> bool) (l : list A) :
  List.find p l = None <-> Forall (fun x => p x = false) l.
Proof.
  rewrite Forall_forall. split.
  - intros H x Hx%list_elem_of_In. eapply List.find_none; eauto.
  - intros H. destruct (List.find p l) eqn:E; [|done].
    apply List.find_some in E as [Hin Hp].
    rewrite H in Hp; [done | by apply list_elem_of_In].
Qed.

Lemma forallb_Forall {A} (p : A -> bool) (l : list A) :
  forallb p l = true <-> Forall (fun x => p x = true) l.
Proof.
  rewrite forallb_forall, Forall_forall.
  split; intros H x Hx; apply H; by apply list_elem_of_In.
Qed.

(** Integer sums over lists and over the values of a finite map. *)
Definition sumZ {A} (f : A -> Z) (l : list A) : Z := foldr (fun a acc => f a + acc) 0 l.

Lemma sumZ_app {A} (f : A -> Z) l1 l2 : sumZ f (l1 ++ l2) = sumZ f l1 + sumZ f l2.
Proof. unfold sumZ. induction l1; simpl; lia. Qed.

Lemma sumZ_nonneg {A} (f : A -> Z) l : Forall (fun a => 0 <= f a) l -> 0 <= sumZ f l.
Proof. unfold sumZ. induction 1; simpl; lia. Qed.

Lemma sumZ_perm {A} (f : A -> Z) l1 l2 : l1 ≡ₚ l2 -> sumZ f l1 = sumZ f l2.
Proof. unfold sumZ. induction 1; simpl; lia. Qed.

Lemma sumZ_insert {A} (f : A -> Z) l i x y :
  l !! i = Some x -> sumZ f (<[i := y]> l) = sumZ f l - f x + f y.
Proof.
  revert i. induction l as [|a l IH]; intros [|i] Hi; simplify_eq/=; [lia|].
  rewrite IH by done. lia.
Qed.

Lemma sumZ_member {A} (f : A -> Z) l i x :
  Forall (fun a => 0 <= f a) l -> l !! i = Some x -> f x <= sumZ f l.
Proof.
  intros Hl. revert i. induction Hl as [|a l Ha Hl IH]; intros [|i] Hi; simplify_eq/=.
  - pose proof (sumZ_nonneg f l Hl). lia.
  - specialize (IH i Hi). lia.
Qed.

Definition map_sum {K V} `{Countable K} (f : V -> Z) (m : gmap K V) : Z :=
  map_fold (fun _ v acc => f v + acc) 0 m.

Section MapSum.
Context {K V : Type} `{Countable K} (f : V -> Z).
Implicit Types (m : gmap K V).

Lemma map_sum_empty : map_sum f (∅ : gmap K V) = 0.
Proof. unfold map_sum. by rewrite map_fold_empty. Qed.

Lemma map_sum_insert m i v :
  m !! i = None -> map_sum f (<[i := v]> m) = f v + map_sum f m.
Proof.
  intros Hi. unfold map_sum.
  rewrite map_fold_insert_L; [done| |done].
  intros; lia.
Qed.

Lemma map_sum_delete m i v :
  m !! i = Some v -> map_sum f m = f v + map_sum f (delete i m).
Proof.
  intros Hi. rewrite <- (map_sum_insert (delete i m) i v) by (by rewrite lookup_delete_eq).
  by rewrite insert_delete_id.
Qed.

(** Overwriting a key exchanges its contribution. *)
Lemma map_sum_update m i v w :
  m !! i = Some v -> map_sum f (<[i := w]> m) = map_sum f m - f v + f w.
Proof.
  intros Hi. rewrite <- (insert_delete_eq m i w).
  rewrite map_sum_insert by (by rewrite lookup_delete_eq).
  rewrite (map_sum_delete m i v Hi). lia.
Qed.

Lemma map_sum_nonneg m : (forall i v, m !! i = Some v -> 0 <= f v) -> 0 <= map_sum f m.
Proof.
  induction m as [|i v m Hi IH] using map_ind; intros Hpos.
  - by rewrite map_sum_empty.
  - rewrite map_sum_insert by done.
    assert (0 <= f v) by (apply (Hpos i); by simplify_map_eq).
    assert (0 <= map_sum f m); [|lia].
    apply IH. intros j w Hj. apply (Hpos j).
    rewrite lookup_insert_ne; [done|]. intros ->. congruence.
Qed.

Lemma map_sum_member m i v :
  (forall j w, m !! j = Some w -> 0 <= f w) -> m !! i = Some v -> f v <= map_sum f m.
Proof.
  intros Hpos Hi. rewrite (map_sum_delete m i v Hi).
  assert (0 <= map_sum f (delete i m)); [|lia].
  apply map_sum_nonneg. intros j w. rewrite lookup_delete_Some. intros [_ Hj]. eauto.
Qed.
End MapSum.

(** Two functions that agree on the entries have the same sum. *)
Lemma map_sum_ext {K V} `{Countable K} (f g : V -> Z) (m : gmap K V) :
  (forall i v, m !! i = Some v -> f v = g v) -> map_sum f m = map_sum g m.
Proof.
  induction m as [|i v m Hi IH] using map_ind; intros Heq; [done|].
  rewrite !map_sum_insert by done. rewrite (Heq i v) by (by simplify_map_eq).
  f_equal. apply IH. intros j w Hj. apply (Heq j).
  rewrite lookup_insert_ne; [done|]. intros ->. congruence.
Qed.

(** ** Proof automation of the development *)

Create HintDb oxide discriminated.
#[export] Hint Resolve sat_i64_in : oxide.
Create Rewrite HintDb oxide_rw.
#[export] Hint Rewrite @map_sum_empty : oxide_rw.

(** Split every conditional and match of the goal and hypotheses, closing what is
    absurd.  The workhorse of the per-branch proofs. *)
Ltac branch :=
  repeat (case_match; simplify_eq/=); zbool; try done.
