(* ===== verification/Decimal.v ===== *)
(** * Decimal and calendar parameters

    [rust_decimal::Decimal] and [chrono] are third-party crates: the development takes
    them as parameters.  [DecimalOps] lists the operations the sources call and
    [DecimalLaws] the documented behaviour the proofs rely on; [Chrono] does the same
    for the calendar functions.  Every theorem that needs a law takes the class, and
    the exact-rational instance [exactQ] and the proleptic-Gregorian day count
    [utc_chrono] show that the laws can hold; the witnesses compute with them.

    A [Decimal] is a 96-bit integer mantissa [m] with a scale [0 <= s <= 28], denoting
    [m / 10^s].  [dval] is that number; comparison and equality of decimals are those of
    the numbers they denote.  Overflow of the 96-bit mantissa panics, which stops the
    process: the model describes the runs in which no decimal operation panics. *)

From S2P Require Import Prelude.

Class DecimalOps : Type := {
  D : Type;
  dval : D -> Q;
  dadd : D -> D -> D;
  dsub : D -> D -> D;
  dmul : D -> D -> D;
  ddiv : D -> D -> D;
  dabs : D -> D;
  dround_dp : Z -> D -> D;    (** [round_dp(n)] *)
  dtrunc : D -> D;            (** [trunc()] *)
  dfloor : D -> D;            (** [floor()] *)
  dceil : D -> D;             (** [ceil()] *)
  dnormalize : D -> D;        (** [normalize()] *)
  dlit : Z -> Z -> D;         (** [dec!(..)]: [dlit m s] is [m / 10^s] *)
  dof_Z : Z -> D;             (** [Decimal::from(integer)] *)
  dsign_neg : D -> bool;      (** [is_sign_negative()] *)
  dto_Z : D -> Z;             (** integer part, the number [to_i64]/[to_u64] range-check *)
  dshow : D -> string;        (** [Display] *)
  dshow_dp : Z -> D -> string (** [format!("{:.n}")] *)
}.

Declare Scope dec_scope.
Delimit Scope dec_scope with dec.
Notation "x + y" := (dadd x y) : dec_scope.
Notation "x - y" := (dsub x y) : dec_scope.
Notation "x * y" := (dmul x y) : dec_scope.
Notation "x / y" := (ddiv x y) : dec_scope.

(** Order of decimals: the order of the numbers. *)
Definition dleb `{DecimalOps} (x y : D) : bool := Qle_bool (dval x) (dval y).
Definition dltb `{DecimalOps} (x y : D) : bool := negb (dleb y x).
Definition deqb `{DecimalOps} (x y : D) : bool := Qeq_bool (dval x) (dval y).
Definition dmin `{DecimalOps} (x y : D) : D := if dltb y x then y else x.
Definition dmax `{DecimalOps} (x y : D) : D := if dltb x y then y else x.
Definition d0 `{DecimalOps} : D := dlit 0 0.
Definition d1 `{DecimalOps} : D := dlit 1 0.
(** [clamp(lo, hi)]. *)
Definition dclamp `{DecimalOps} (x lo hi : D) : D :=
  if dltb x lo then lo else if dltb hi x then hi else x.

Notation "x <=? y" := (dleb x y) : dec_scope.
Notation "x <? y" := (dltb x y) : dec_scope.
Notation "x >=? y" := (dleb y x) (at level 70, only parsing) : dec_scope.
Notation "x >? y" := (dltb y x) (at level 70, only parsing) : dec_scope.

(** The number a literal denotes. *)
Definition grid (m s : Z) : Q := m # Z.to_pos (10 ^ s).

(** Documented behaviour: every operation returns the exact result rounded to a value
    a decimal can hold, and the rounding is monotone and leaves representable numbers
    alone; [round_dp(n)] rounds to the nearest multiple of [10^-n]. *)
Class DecimalLaws (ops : DecimalOps) : Type := {
  repr : Q -> Prop;
  rnd : Q -> Q;
  repr_grid : forall m s, Z.abs m < 2 ^ 96 -> 0 <= s <= 28 -> repr (grid m s);
  repr_val : forall x : D, repr (dval x);
  rnd_mono : forall p q : Q, (p <= q)%Q -> (rnd p <= rnd q)%Q;
  rnd_repr : forall q : Q, repr q -> (rnd q == q)%Q;
  repr_ext : forall p q : Q, (p == q)%Q -> repr p -> repr q;
  dadd_spec : forall x y : D, (dval (dadd x y) == rnd (dval x + dval y))%Q;
  dsub_spec : forall x y : D, (dval (dsub x y) == rnd (dval x - dval y))%Q;
  dmul_spec : forall x y : D, (dval (dmul x y) == rnd (dval x * dval y))%Q;
  ddiv_spec : forall x y : D,
    ~ (dval y == 0)%Q -> (dval (ddiv x y) == rnd (dval x / dval y))%Q;
  dabs_spec : forall x : D, (dval (dabs x) == Qabs.Qabs (dval x))%Q;
  dlit_spec : forall m s, Z.abs m < 2 ^ 96 -> 0 <= s <= 28 -> (dval (dlit m s) == grid m s)%Q;
  dof_Z_spec : forall z, Z.abs z < 2 ^ 96 -> (dval (dof_Z z) == inject_Z z)%Q;
  dround_dp_mono : forall n x y, (dval x <= dval y)%Q ->
    (dval (dround_dp n x) <= dval (dround_dp n y))%Q;
  dround_dp_near : forall n x, 0 <= n <= 28 ->
    (Qabs.Qabs (dval (dround_dp n x) - dval x) <= (1 # 2) * grid 1 n)%Q;
  dround_dp_grid : forall n m x, 0 <= n <= 28 -> Z.abs m < 2 ^ 96 ->
    (dval x == grid m n)%Q -> (dval (dround_dp n x) == grid m n)%Q;
  dtrunc_spec : forall x, (0 <= dval x)%Q ->
    (dval (dtrunc x) == inject_Z (Qround.Qfloor (dval x)))%Q;
  dfloor_spec : forall x, (dval (dfloor x) == inject_Z (Qround.Qfloor (dval x)))%Q;
  dceil_spec : forall x, (dval (dceil x) == inject_Z (Qround.Qceiling (dval x)))%Q;
  dnormalize_spec : forall x, (dval (dnormalize x) == dval x)%Q;
  dsign_neg_pos : forall x, (0 < dval x)%Q -> dsign_neg x = false;
  dsign_neg_neg : forall x, (dval x < 0)%Q -> dsign_neg x = true;
  dto_Z_spec : forall x z, (dval x == inject_Z z)%Q -> dto_Z x = z
}.

(** ** Order lemmas: no law is needed *)

Section Order.
Context `{DO : DecimalOps}.
Implicit Types x y z : D.

Lemma dleb_le x y : dleb x y = true <-> (dval x <= dval y)%Q.
Proof. apply Qle_bool_iff. Qed.

Lemma dleb_gt x y : dleb x y = false <-> (dval y < dval x)%Q.
Proof.
  rewrite <- not_true_iff_false, dleb_le. split; [apply Qnot_le_lt | apply Qlt_not_le].
Qed.

Lemma dltb_lt x y : dltb x y = true <-> (dval x < dval y)%Q.
Proof. unfold dltb. rewrite negb_true_iff. apply dleb_gt. Qed.

Lemma dltb_ge x y : dltb x y = false <-> (dval y <= dval x)%Q.
Proof. unfold dltb. rewrite negb_false_iff. apply dleb_le. Qed.

Lemma dleb_refl x : dleb x x = true.
Proof. apply dleb_le, Qle_refl. Qed.

Lemma dleb_trans x y z : dleb x y = true -> dleb y z = true -> dleb x z = true.
Proof. rewrite !dleb_le. apply Qle_trans. Qed.

Lemma dleb_total x y : dleb x y = true \/ dleb y x = true.
Proof. rewrite !dleb_le. destruct (Qlt_le_dec (dval x) (dval y)); [left; by apply Qlt_le_weak | by right]. Qed.

Lemma dmax_cases x y : (dmax x y = x /\ dval y <= dval x)%Q \/ (dmax x y = y /\ dval x < dval y)%Q.
Proof. unfold dmax. destruct (dltb x y) eqn:E; [apply dltb_lt in E | apply dltb_ge in E]; auto. Qed.

Lemma dmin_cases x y : (dmin x y = x /\ dval x <= dval y)%Q \/ (dmin x y = y /\ dval y < dval x)%Q.
Proof. unfold dmin. destruct (dltb y x) eqn:E; [apply dltb_lt in E | apply dltb_ge in E]; auto. Qed.
End Order.

(** Turn decimal comparisons in the context and goal into inequalities on [dval], and
    finish with linear arithmetic over [Q]. *)
Ltac dbool :=
  repeat match goal with
  | H : dleb _ _ = true |- _ => apply dleb_le in H
  | H : dleb _ _ = false |- _ => apply dleb_gt in H
  | H : dltb _ _ = true |- _ => apply dltb_lt in H
  | H : dltb _ _ = false |- _ => apply dltb_ge in H
  | |- dleb _ _ = true => apply dleb_le
  | |- dleb _ _ = false => apply dleb_gt
  | |- dltb _ _ = true => apply dltb_lt
  | |- dltb _ _ = false => apply dltb_ge
  end.

Ltac dcases :=
  repeat match goal with
  | |- context [dmax ?x ?y] => destruct (dmax_cases x y) as [[-> ?] | [-> ?]]
  | |- context [dmin ?x ?y] => destruct (dmin_cases x y) as [[-> ?] | [-> ?]]
  | H : context [dmax ?x ?y] |- _ => destruct (dmax_cases x y) as [[-> ?] | [-> ?]]
  | H : context [dmin ?x ?y] |- _ => destruct (dmin_cases x y) as [[-> ?] | [-> ?]]
  end.

(** ** Arithmetic lemmas from the laws *)

Section Laws.
Context `{DL : DecimalLaws}.
Implicit Types x y z : D.

#[export] Instance rnd_proper : Proper (Qeq ==> Qeq) rnd.
Proof.
  intros p q E. apply Qle_antisym; apply rnd_mono; rewrite E; apply Qle_refl.
Qed.

Lemma dval_lit m s : Z.abs m < 2 ^ 96 -> 0 <= s <= 28 -> (dval (dlit m s) == grid m s)%Q.
Proof. apply dlit_spec. Qed.

Lemma dval_d0 : (dval d0 == 0)%Q.
Proof. unfold d0. rewrite dlit_spec by lia. done. Qed.

Lemma dval_d1 : (dval d1 == 1)%Q.
Proof. unfold d1. rewrite dlit_spec by lia. done. Qed.

Lemma rnd_0 : (rnd 0 == 0)%Q.
Proof. rewrite <- dval_d0. apply rnd_repr, repr_val. Qed.

Lemma rnd_val x : (rnd (dval x) == dval x)%Q.
Proof. apply rnd_repr, repr_val. Qed.

Lemma rnd_nonneg q : (0 <= q)%Q -> (0 <= rnd q)%Q.
Proof. intros Hq. rewrite <- rnd_0. by apply rnd_mono. Qed.

Lemma rnd_le_val q x : (q <= dval x)%Q -> (rnd q <= dval x)%Q.
Proof. intros Hq. rewrite <- (rnd_val x). by apply rnd_mono. Qed.

Lemma rnd_ge_val q x : (dval x <= q)%Q -> (dval x <= rnd q)%Q.
Proof. intros Hq. rewrite <- (rnd_val x). by apply rnd_mono. Qed.

Lemma dmul_nonneg x y : (0 <= dval x)%Q -> (0 <= dval y)%Q -> (0 <= dval (dmul x y))%Q.
Proof. intros. rewrite dmul_spec. apply rnd_nonneg, Qmult_le_0_compat; done. Qed.

(** Scaling by a fraction never exceeds the scaled amount. *)
Lemma dmul_le_l x y : (0 <= dval x)%Q -> (dval y <= 1)%Q -> (dval (dmul x y) <= dval x)%Q.
Proof. intros. rewrite dmul_spec. apply rnd_le_val. nra. Qed.

Lemma dadd_ge_l x y : (0 <= dval y)%Q -> (dval x <= dval (dadd x y))%Q.
Proof. intros. rewrite dadd_spec. apply rnd_ge_val. lra. Qed.

Lemma dadd_nonneg x y : (0 <= dval x)%Q -> (0 <= dval y)%Q -> (0 <= dval (dadd x y))%Q.
Proof. intros. rewrite dadd_spec. apply rnd_nonneg. lra. Qed.

Lemma dadd_mono x y x' y' : (dval x <= dval x')%Q -> (dval y <= dval y')%Q ->
  (dval (dadd x y) <= dval (dadd x' y'))%Q.
Proof. intros. rewrite !dadd_spec. apply rnd_mono. lra. Qed.

Lemma dadd_0_r x y : (dval y == 0)%Q -> (dval (dadd x y) == dval x)%Q.
Proof. intros E. rewrite dadd_spec, E, Qplus_0_r. apply rnd_val. Qed.

Lemma dsub_le_l x y : (0 <= dval y)%Q -> (dval (dsub x y) <= dval x)%Q.
Proof. intros. rewrite dsub_spec. apply rnd_le_val. lra. Qed.

Lemma dsub_nonneg x y : (dval y <= dval x)%Q -> (0 <= dval (dsub x y))%Q.
Proof. intros. rewrite dsub_spec. apply rnd_nonneg. lra. Qed.

Lemma dsub_mono x y x' y' : (dval x <= dval x')%Q -> (dval y' <= dval y)%Q ->
  (dval (dsub x y) <= dval (dsub x' y'))%Q.
Proof. intros. rewrite !dsub_spec. apply rnd_mono. lra. Qed.

Lemma ddiv_nonneg x y : (0 <= dval x)%Q -> (0 < dval y)%Q -> (0 <= dval (ddiv x y))%Q.
Proof.
  intros. rewrite ddiv_spec by lra. apply rnd_nonneg.
  apply Qle_shift_div_l; lra.
Qed.

Lemma ddiv_le_1 x y : (dval x <= dval y)%Q -> (0 < dval y)%Q -> (dval (ddiv x y) <= 1)%Q.
Proof.
  intros. rewrite ddiv_spec by lra. rewrite <- dval_d1. apply rnd_le_val.
  rewrite dval_d1. apply Qle_shift_div_r; lra.
Qed.

Lemma dround_nonneg n x : 0 <= n <= 28 -> (0 <= dval x)%Q -> (0 <= dval (dround_dp n x))%Q.
Proof.
  intros Hn Hx.
  assert (dval (dround_dp n d0) == 0)%Q as <-.
  { rewrite (dround_dp_grid n 0); [|lia|lia|].
    - unfold grid, Qeq. simpl. lia.
    - rewrite dval_d0. unfold grid, Qeq. simpl. lia. }
  apply dround_dp_mono. by rewrite dval_d0.
Qed.
End Laws.

(** ** Money on the column grid

    [Usd] columns are [NUMERIC(28, 8)]: an amount is an integer number [m] of
    [10^-8] dollars with [|m| < 10^28].  On this grid sums and differences are exact. *)

Section Money.
Context `{DL : DecimalLaws}.

Definition units (x : D) (m : Z) : Prop := (dval x == grid m 8)%Q.
Definition fits (m : Z) : Prop := Z.abs m < 10 ^ 28.

Lemma grid_add a b : (grid a 8 + grid b 8 == grid (a + b) 8)%Q.
Proof. unfold grid, Qeq, Qplus. simpl. lia. Qed.

Lemma grid_sub a b : (grid a 8 - grid b 8 == grid (a - b) 8)%Q.
Proof. unfold grid, Qeq, Qminus, Qplus, Qopp. simpl. lia. Qed.

Lemma grid_le a b : (grid a 8 <= grid b 8)%Q <-> a <= b.
Proof. unfold grid, Qle. simpl. lia. Qed.

Lemma grid_lt a b : (grid a 8 < grid b 8)%Q <-> a < b.
Proof. unfold grid, Qlt. simpl. lia. Qed.

Lemma rnd_grid m : fits m -> (rnd (grid m 8) == grid m 8)%Q.
Proof. intros. apply rnd_repr, repr_grid; unfold fits in *; lia. Qed.

Lemma units_add x y a b : units x a -> units y b -> fits (a + b) -> units (dadd x y) (a + b).
Proof.
  unfold units. intros Hx Hy Hf.
  rewrite dadd_spec, Hx, Hy, grid_add. by apply rnd_grid.
Qed.

Lemma units_sub x y a b : units x a -> units y b -> fits (a - b) -> units (dsub x y) (a - b).
Proof.
  unfold units. intros Hx Hy Hf.
  rewrite dsub_spec, Hx, Hy, grid_sub. by apply rnd_grid.
Qed.

Lemma units_0 : units d0 0.
Proof. unfold units. rewrite dval_d0. unfold grid, Qeq. simpl. lia. Qed.

Lemma units_max x y a b : units x a -> units y b -> units (dmax x y) (Z.max a b).
Proof.
  unfold units. intros Hx Hy. destruct (dmax_cases x y) as [[-> H] | [-> H]];
    rewrite Hx, Hy in H; [apply (proj1 (grid_le _ _)) in H | apply (proj1 (grid_lt _ _)) in H].
  - rewrite Z.max_l by lia. exact Hx.
  - rewrite Z.max_r by lia. exact Hy.
Qed.

Lemma units_leb x y a b : units x a -> units y b -> dleb x y = (a <=? b).
Proof.
  unfold units. intros Hx Hy. apply eq_bool_prop_intro.
  rewrite !Is_true_true, dleb_le, Hx, Hy, grid_le, Z.leb_le. done.
Qed.

Lemma units_abs x a : units x a -> units (dabs x) (Z.abs a).
Proof. unfold units. intros Hx. rewrite dabs_spec, Hx. done. Qed.
End Money.

#[export] Hint Resolve units_0 : oxide.

(** ** The exact instance

    Decimals as exact rationals kept in lowest terms: no rounding except in the
    functions that ask for it.  It satisfies the laws and computes. *)

Module ExactQ.
Definition pow10 (n : Z) : Q := inject_Z (10 ^ n).
Definition round_half (q : Q) : Z := Qfloor (q + (1 # 2)).
Definition round_at (n : Z) (q : Q) : Q := Qred (inject_Z (round_half (q * pow10 n)) / pow10 n).
Definition show (q : Q) : string := pretty (Qnum q) +:+ "/" +:+ pretty (Zpos (Qden q)).

#[global] Instance exactQ : DecimalOps := {
  D := Q;
  dval := fun q => q;
  dadd := fun x y => Qred (x + y);
  dsub := fun x y => Qred (x - y);
  dmul := fun x y => Qred (x * y);
  ddiv := fun x y => Qred (x / y);
  dabs := Qabs;
  dround_dp := round_at;
  dtrunc := fun q => inject_Z (Qfloor q);
  dfloor := fun q => inject_Z (Qfloor q);
  dceil := fun q => inject_Z (Qceiling q);
  dnormalize := Qred;
  dlit := fun m s => Qred (grid m s);
  dof_Z := inject_Z;
  dsign_neg := fun q => Qnum q <? 0;
  dto_Z := Qfloor;
  dshow := show;
  dshow_dp := fun n q => show (round_at n q)
}.

Lemma pow10_pos n : 0 <= n -> (0 < pow10 n)%Q.
Proof. intros. unfold pow10, Qlt, inject_Z. simpl. pose proof (Z.pow_pos_nonneg 10 n). lia. Qed.

Lemma grid_pow10 m n : 0 <= n -> (grid m n == inject_Z m / pow10 n)%Q.
Proof.
  intros. pose proof (Z.pow_pos_nonneg 10 n). unfold grid, pow10, inject_Z, Qdiv, Qinv, Qmult, Qeq. simpl.
  destruct (10 ^ n) eqn:E; simpl; lia.
Qed.

Lemma div_mul_cancel (a b : Q) : ~ (b == 0)%Q -> (a / b * b == a)%Q.
Proof. intros. by field. Qed.

Lemma round_half_bounds q : (q - (1 # 2) <= inject_Z (round_half q) <= q + (1 # 2))%Q.
Proof.
  unfold round_half. pose proof (Qfloor_le (q + (1 # 2))). pose proof (Qlt_floor (q + (1 # 2))).
  rewrite inject_Z_plus in *. change (inject_Z 1) with 1%Q in *. split; lra.
Qed.

Lemma round_at_near n x : 0 <= n -> (Qabs (round_at n x - x) <= (1 # 2) * grid 1 n)%Q.
Proof.
  intros Hn. pose proof (pow10_pos n Hn) as Hp. unfold round_at.
  rewrite Qred_correct, grid_pow10 by done.
  destruct (round_half_bounds (x * pow10 n)) as [Hl Hu].
  apply Qabs_Qle_condition. change (inject_Z 1) with 1%Q.
  assert ((1 # 2) * (1 / pow10 n) == (1 # 2) / pow10 n)%Q as -> by (field; lra).
  assert (inject_Z (round_half (x * pow10 n)) / pow10 n - x
          == (inject_Z (round_half (x * pow10 n)) - x * pow10 n) / pow10 n)%Q as ->
    by (field; lra).
  split.
  - assert (- ((1 # 2) / pow10 n) == (- (1 # 2)) / pow10 n)%Q as -> by (field; lra).
    apply Qle_shift_div_l; [done|]. rewrite div_mul_cancel; lra.
  - apply Qle_shift_div_r; [done|]. rewrite div_mul_cancel; lra.
Qed.

Lemma round_at_mono n x y : (x <= y)%Q -> 0 <= n -> (round_at n x <= round_at n y)%Q.
Proof.
  intros Hxy Hn. pose proof (pow10_pos n Hn) as Hp. unfold round_at.
  rewrite !Qred_correct. apply Qle_shift_div_l; [done|].
  rewrite div_mul_cancel by lra.
  rewrite <- Zle_Qle. unfold round_half. apply Qfloor_resp_le.
  assert (x * pow10 n <= y * pow10 n)%Q by (apply Qmult_le_compat_r; lra). lra.
Qed.

Lemma pow10_neg n : n < 0 -> pow10 n = 0%Q.
Proof. intros. unfold pow10. rewrite Z.pow_neg_r; done. Qed.

Lemma round_at_neg n x : n < 0 -> (round_at n x == 0)%Q.
Proof. intros. unfold round_at. rewrite Qred_correct, pow10_neg by done. unfold Qdiv. change (/ 0)%Q with 0%Q. ring. Qed.

Lemma round_half_Z z q : (q == inject_Z z)%Q -> round_half q = z.
Proof.
  intros E. destruct (round_half_bounds q) as [Hl Hu]. unfold round_half.
  assert (z <= Qfloor (q + (1 # 2))) as H1.
  { rewrite <- (Qfloor_Z z) at 1. apply Qfloor_resp_le. rewrite E. lra. }
  assert (Qfloor (q + (1 # 2)) < z + 1) as H2; [|lia].
  rewrite Zlt_Qlt, inject_Z_plus. change (inject_Z 1) with 1%Q.
  pose proof (Qfloor_le (q + (1 # 2))). lra.
Qed.

#[global, refine] Instance exactQ_laws : DecimalLaws exactQ := {
  repr := fun _ => True;
  rnd := fun q => q
}.
Proof.
all: simpl; intros; try done.
all: try (by rewrite Qred_correct).
- destruct (Z.le_gt_cases 0 n); [by apply round_at_mono|].
  rewrite !round_at_neg by done. lra.
- apply round_at_near. lia.
- unfold round_at. rewrite Qred_correct. rewrite (round_half_Z m).
  + symmetry. apply grid_pow10. lia.
  + rewrite H1, grid_pow10 by lia. field. pose proof (pow10_pos n ltac:(lia)). lra.
- apply Z.ltb_ge. unfold Qlt in *. simpl in *. lia.
- apply Z.ltb_lt. unfold Qlt in *. simpl in *. lia.
- rewrite H. apply Qfloor_Z.
Defined.
End ExactQ.

(** ** Calendar

    Instants are nanoseconds since the Unix epoch and dates are days since 1970-01-01,
    both as integers: the content of [DateTime<Utc>] and [NaiveDate].  The functions the
    sources call on them are parameters. *)

Definition nanos_per_sec : Z := 1000000000.
Definition nanos_per_day : Z := 86400 * nanos_per_sec.

(** The span of instants chrono can hold is wider than this many nanoseconds around the
    epoch (about two hundred thousand years each way). *)
Definition chrono_span : Z := 6 * 10 ^ 21.

Class Chrono : Type := {
  duration_seconds : Z -> Z;          (** [Duration::seconds(n)], in nanoseconds *)
  duration_from_std : Z -> option Z;  (** [Duration::from_std(d)] of a [d]-second duration *)
  time_add : Z -> Z -> Z;             (** [instant + duration] *)
  date_naive : Z -> Z;                (** [instant.date_naive()] *)
  hour_of : Z -> Z;                   (** [instant.hour()] *)
  weekday_from_monday : Z -> Z;       (** [date.weekday().num_days_from_monday()] *)
  date_hour_start : Z -> Z -> Z;      (** [date.and_hms_opt(h, 0, 0).unwrap().and_utc()] *)

  duration_seconds_spec : forall s, 0 <= s <= i64_max / 1000 -> duration_seconds s = s * nanos_per_sec;
  duration_from_std_spec : forall s,
    0 <= s <= i64_max / 1000 -> duration_from_std s = Some (s * nanos_per_sec);
  time_add_spec : forall t d, Z.abs t <= chrono_span -> 0 <= d -> t + d <= chrono_span ->
    time_add t d = t + d;
  date_naive_mono : forall t u, t <= u -> date_naive t <= date_naive u;
  hour_range : forall t, 0 <= hour_of t < 24;
  (** The date and the hour of an instant determine its hour-long window. *)
  date_hour_window : forall t,
    Z.abs t <= chrono_span ->
    date_hour_start (date_naive t) (hour_of t) <= t < date_hour_start (date_naive t) (hour_of t) + 3600 * nanos_per_sec;
  date_hour_start_date : forall d h, 0 <= h < 24 -> date_naive (date_hour_start d h) = d;
  date_hour_start_hour : forall d h, 0 <= h < 24 -> hour_of (date_hour_start d h) = h;
  weekday_range : forall d, 0 <= weekday_from_monday d < 7;
  (** Stepping back to Monday lands on a Monday, and weeks are seven days. *)
  weekday_monday : forall d, weekday_from_monday (d - weekday_from_monday d) = 0;
  weekday_within : forall d k, weekday_from_monday d = 0 -> 0 <= k < 7 -> weekday_from_monday (d + k) = k
}.

Section ChronoLemmas.
Context `{CH : Chrono}.

(** Adding a number of seconds that stays inside chrono's span. *)
Lemma time_add_seconds t s :
  Z.abs t <= chrono_span -> 0 <= s <= i64_max / 1000 -> t + s * nanos_per_sec <= chrono_span ->
  time_add t (duration_seconds s) = t + s * nanos_per_sec.
Proof.
  intros. rewrite duration_seconds_spec by done.
  apply time_add_spec; [done | unfold nanos_per_sec; lia | done].
Qed.
End ChronoLemmas.

(** UTC without leap seconds: days of 86400 seconds counted from the epoch, a Thursday. *)
#[global, refine] Instance utc_chrono : Chrono := {
  duration_seconds := fun s => s * nanos_per_sec;
  duration_from_std := fun s =>
    if (0 <=? s) && (s <=? i64_max / 1000) then Some (s * nanos_per_sec) else None;
  time_add := fun t d => t + d;
  date_naive := fun t => t / nanos_per_day;
  hour_of := fun t => (t mod nanos_per_day) / (3600 * nanos_per_sec);
  weekday_from_monday := fun d => (d + 3) mod 7;
  date_hour_start := fun d h => d * nanos_per_day + h * (3600 * nanos_per_sec)
}.
Proof.
  all: unfold nanos_per_day, nanos_per_sec; simpl; intros; try done.
  all: change (86400 * 1000000000) with 86400000000000 in *;
       change (3600 * 1000000000) with 3600000000000 in *.
  - rewrite !(proj2 (Z.leb_le _ _)) by lia. done.
  - apply Z.div_le_mono; lia.
  - pose proof (Z.mod_pos_bound t 86400000000000 ltac:(lia)). split; [apply Z.div_pos; lia|].
    apply Z.div_lt_upper_bound; lia.
  - pose proof (Z.div_mod t 86400000000000 ltac:(lia)).
    pose proof (Z.div_mod (t mod 86400000000000) 3600000000000 ltac:(lia)).
    pose proof (Z.mod_pos_bound (t mod 86400000000000) 3600000000000 ltac:(lia)). lia.
  - symmetry. apply (Z.div_unique _ _ _ (h * 3600000000000)); lia.
  - rewrite (Z.add_comm (d * _)), Z.mod_add, Z.mod_small by lia. apply Z.div_mul. lia.
  - apply Z.mod_pos_bound. lia.
  - pose proof (Z.div_mod (d + 3) 7 ltac:(lia)).
    replace (d - (d + 3) mod 7 + 3) with ((d + 3) / 7 * 7) by lia. apply Z.mod_mul. lia.
  - rewrite <- (Z.mod_small k 7) at 2 by lia.
    replace (d + k + 3) with (d + 3 + k) by lia. rewrite Z.add_mod, H by lia.
    rewrite Z.add_0_l. apply Z.mod_mod. lia.
Defined.
