(* ===== verification/Micro.v ===== *)
(** * Fixed-point money: [oxide-arb-models/src/types/micro.rs]

    The hot-path types are newtypes over [i64] counting millionths.  Products and
    quotients go through [i128] (no overflow: the operands are 64-bit and the factors at
    most [2^63]) and come back with [to_i64().unwrap_or(..)]. *)

From S2P Require Import Prelude Decimal.

(** [models/types/micro.rs:17-17] `MICRO_SCALE` *)
Definition MICRO_SCALE : Z := 1000000.

(** [models/types/micro.rs:21-21] `MicroConversionError` *)
Inductive MicroConversionError := mk_MicroConversionError.

(** [models/types/micro.rs:31-86] `micro_newtype!` *)
Definition micro : Type := Z.

Abbreviation MicroPrice := micro (only parsing).
Abbreviation MicroShares := micro (only parsing).
Abbreviation MicroUsd := micro (only parsing).
Abbreviation MicroScore := micro (only parsing).

(** [models/types/micro.rs:63-65] `is_positive` *)
Definition is_positive (x : micro) : bool := 0 <? x.

(** [models/types/micro.rs:57-59] `is_zero` *)
Definition is_zero (x : micro) : bool := x =? 0.

(** [models/types/micro.rs:100-113] `Add`, `AddAssign` *)
Definition micro_add (x y : micro) : micro := sat_i64 (x + y).

(** [models/types/micro.rs:115-128] `Sub`, `SubAssign` *)
Definition micro_sub (x y : micro) : micro := sat_i64 (x - y).

Section Conversions.
Context `{DO : DecimalOps}.

(** [models/types/micro.rs:67-78] `try_from_decimal` *)
Definition try_from_decimal (d : D) : Result micro MicroConversionError :=
  let scaled := dmul d (dof_Z MICRO_SCALE) in
  if dsign_neg scaled then Err mk_MicroConversionError
  else match to_i64 (dto_Z (dtrunc scaled)) with
       | Some v => if 0 <=? v then Ok v else Err mk_MicroConversionError
       | None => Err mk_MicroConversionError
       end.

(** [models/types/micro.rs:83-85] `to_decimal` *)
Definition to_decimal (x : micro) : D :=
  dnormalize (ddiv (dof_Z x) (dof_Z MICRO_SCALE)).
End Conversions.

(** [models/types/micro.rs:151-154] `MicroPrice::mul_shares` *)
Definition mul_shares (price : MicroPrice) (shares : MicroShares) : MicroUsd :=
  unwrap_or (to_i64 (price * shares ÷ MICRO_SCALE)) i64_max.

(** [models/types/micro.rs:159-165] `MicroPrice::affordable_shares` *)
Definition affordable_shares (price : MicroPrice) (budget : MicroUsd) : MicroShares :=
  if price <=? 0 then 0
  else unwrap_or (to_i64 (budget * MICRO_SCALE ÷ price)) i64_max.

(** [models/types/micro.rs:170-178] `MicroPrice::vwap_from_cost` *)
Definition vwap_from_cost (total_cost : MicroUsd) (total_shares : MicroShares) : MicroPrice :=
  if total_shares <=? 0 then 0
  else
    let num := total_cost * MICRO_SCALE in
    let den := total_shares in
    unwrap_or (to_i64 ((num + den ÷ 2) ÷ den)) i64_max.

(** [models/types/micro.rs:185-187] `MicroShares::cost_at` *)
Definition cost_at (shares : MicroShares) (price : MicroPrice) : MicroUsd :=
  mul_shares price shares.

(** [models/types/micro.rs:194-200] `MicroUsd::percent_of` *)
Definition percent_of (self total : MicroUsd) : Z :=
  if total <=? 0 then 0 else unwrap_or (to_i64 (self * 100 ÷ total)) 0.

(** [models/types/micro.rs:205-211] `MicroUsd::ratio_bps` *)
Definition ratio_bps (self total : MicroUsd) : Z :=
  if total <=? 0 then 0 else unwrap_or (to_i32 (self * 10000 ÷ total)) 0.

(** [models/types/micro.rs:216-222] `MicroUsd::vwap_price` *)
Definition vwap_price (self : MicroUsd) (shares : MicroShares) : MicroPrice :=
  if shares <=? 0 then 0
  else unwrap_or (to_i64 (self * MICRO_SCALE ÷ shares)) i64_max.

Module MicroProb.
(** [models/types/micro.rs:254-262] `MicroProb::from_micro` *)
Definition from_micro (v : Z) : micro :=
  if v <? 0 then 0 else if MICRO_SCALE <? v then MICRO_SCALE else v.

(** [models/types/micro.rs:267-269] `MicroProb::from_factor_micro` *)
Definition from_factor_micro (v : Z) : micro := if v <? 0 then 0 else v.

(** [models/types/micro.rs:290-293] `MicroProb::saturating_mul` *)
Definition saturating_mul (self other : micro) : micro :=
  from_factor_micro (unwrap_or (to_i64 (self * other ÷ MICRO_SCALE)) i64_max).

(** [models/types/micro.rs:298-307] `MicroProb::blend` *)
Definition blend (self other : micro) (weight_num weight_den : Z) : micro :=
  if weight_den =? 0 then self
  else
    let w := weight_num * MICRO_SCALE ÷ weight_den in
    let one_minus_w := MICRO_SCALE - w in
    let v := (self * one_minus_w + other * w) ÷ MICRO_SCALE in
    from_micro (unwrap_or (to_i64 v) i64_max).

(** [models/types/micro.rs:311-313] `MicroProb::clamp_prob` *)
Definition clamp_prob (self floor ceiling : micro) : micro :=
  from_micro (clampZ floor ceiling self).
End MicroProb.

Module MicroScore.
(** [models/types/micro.rs:343-346] `MicroScore::from_profit_prob` *)
Definition from_profit_prob (profit : MicroUsd) (prob : micro) : micro :=
  unwrap_or (to_i64 (profit * prob ÷ MICRO_SCALE)) i64_max.

(** [models/types/micro.rs:351-354] `MicroScore::scale_by_factor` *)
Definition scale_by_factor (self factor : micro) : micro :=
  unwrap_or (to_i64 (self * factor ÷ MICRO_SCALE)) i64_max.
End MicroScore.

(** ** Arithmetic facts *)

Lemma micro_add_in x y : in_i64 (micro_add x y).
Proof. apply sat_i64_in. Qed.

Lemma micro_sub_in x y : in_i64 (micro_sub x y).
Proof. apply sat_i64_in. Qed.

(** A non-negative quotient that fits comes back unchanged; one that does not comes
    back as the (smaller) maximum. *)
Lemma conv_le z : 0 <= z -> 0 <= unwrap_or (to_i64 z) i64_max <= z.
Proof. intros Hz. destruct (unwrap_i64_le z Hz) as [?|[-> ?]]; unfold_ints; lia. Qed.

Lemma mul_shares_bounds p s : 0 <= p -> 0 <= s ->
  0 <= mul_shares p s /\ mul_shares p s * MICRO_SCALE <= p * s.
Proof.
  intros. unfold mul_shares, MICRO_SCALE.
  assert (0 <= p * s) by nia. rewrite quot_nonneg_div by lia.
  pose proof (Z.div_pos (p * s) 1000000). pose proof (Z.mul_div_le (p * s) 1000000).
  destruct (conv_le (p * s / 1000000)); lia.
Qed.

Lemma mul_shares_exact p s : 0 <= p -> 0 <= s -> p * s / MICRO_SCALE <= i64_max ->
  mul_shares p s = p * s / MICRO_SCALE.
Proof.
  intros. unfold mul_shares. rewrite quot_nonneg_div by (unfold MICRO_SCALE; nia).
  apply unwrap_i64_in. pose proof (Z.div_pos (p * s) MICRO_SCALE). unfold MICRO_SCALE in *.
  unfold_ints. nia.
Qed.

Lemma affordable_bounds p b : 0 < p -> 0 <= b ->
  0 <= affordable_shares p b /\ affordable_shares p b * p <= b * MICRO_SCALE.
Proof.
  intros. unfold affordable_shares. destruct (Z.leb_spec p 0); [lia|].
  assert (0 <= b * MICRO_SCALE) by (unfold MICRO_SCALE; lia).
  rewrite quot_nonneg_div by lia.
  pose proof (Z.div_pos (b * MICRO_SCALE) p). pose proof (Z.mul_div_le (b * MICRO_SCALE) p).
  destruct (conv_le (b * MICRO_SCALE / p)); nia.
Qed.

(** ** Properties *)

(** Buying the shares a budget affords never costs more than the budget, and the
    quantity is the largest one: one more micro-share would cost more than the budget. *)
Theorem affordable_within_budget (price : MicroPrice) (budget : MicroUsd) :
  0 < price -> 0 <= budget -> budget * MICRO_SCALE / price <= i64_max ->
  let n := affordable_shares price budget in
  0 <= n /\ cost_at n price <= budget /\ budget * MICRO_SCALE < price * (n + 1).
Proof.
  intros Hp Hb Hfit n. destruct (affordable_bounds price budget) as [Hn0 Hn]; [lia..|].
  fold n in Hn0, Hn. split; [done|]. split.
  - unfold cost_at. destruct (mul_shares_bounds price n) as [_ H]; unfold MICRO_SCALE in *; nia.
  - unfold n, affordable_shares. destruct (Z.leb_spec price 0); [lia|].
    assert (0 <= budget * MICRO_SCALE) by (unfold MICRO_SCALE; lia).
    rewrite quot_nonneg_div by lia.
    rewrite unwrap_i64_in by (pose proof (Z.div_pos (budget * MICRO_SCALE) price); unfold_ints; lia).
    pose proof (Z.mul_succ_div_gt (budget * MICRO_SCALE) price). lia.
Qed.

Lemma affordable_within_budget_witness :
  affordable_shares 970000 50000000 = 51546391 /\ cost_at 51546391 970000 <= 50000000.
Proof.
  split; [vm_compute; reflexivity|].
  destruct (affordable_within_budget 970000 50000000) as (_ & H & _);
    [lia | lia | vm_compute; discriminate | exact H].
Defined.

(** The volume-weighted price is the exact quotient rounded to the nearest micro:
    re-multiplying by the shares is off by at most half a share-micro. *)
Theorem vwap_from_cost_nearest (cost : MicroUsd) (shares : MicroShares) :
  0 <= cost -> 0 < shares -> (cost * MICRO_SCALE + shares / 2) / shares <= i64_max ->
  2 * Z.abs (vwap_from_cost cost shares * shares - cost * MICRO_SCALE) <= shares.
Proof.
  intros Hc Hs Hfit. unfold vwap_from_cost. destruct (Z.leb_spec shares 0); [lia|].
  cbv zeta. rewrite (quot_nonneg_div shares 2) by lia.
  assert (0 <= shares / 2) by (apply Z.div_pos; lia).
  rewrite quot_nonneg_div by (unfold MICRO_SCALE in *; lia).
  set (num := cost * MICRO_SCALE + shares / 2) in *.
  assert (0 <= num) by (unfold num, MICRO_SCALE; lia).
  rewrite unwrap_i64_in by (pose proof (Z.div_pos num shares); unfold_ints; lia).
  pose proof (Z.mul_div_le num shares). pose proof (Z.mul_succ_div_gt num shares).
  pose proof (Z.div_mod shares 2). pose proof (Z.mod_pos_bound shares 2).
  unfold num in *. lia.
Qed.

Lemma vwap_from_cost_nearest_witness :
  vwap_from_cost 97000000 100000000 = 970000 /\
  2 * Z.abs (vwap_from_cost 97000001 100000000 * 100000000 - 97000001 * MICRO_SCALE) <= 100000000.
Proof.
  split; [vm_compute; reflexivity|].
  apply vwap_from_cost_nearest; [lia | lia | vm_compute; discriminate].
Defined.

(** Blending two probabilities with a weight of at most one stays between them, and
    the end weights return the end points. *)
Theorem blend_between (a b num den : Z) :
  0 <= a <= MICRO_SCALE -> 0 <= b <= MICRO_SCALE -> 0 <= num <= den -> 0 < den ->
  Z.min a b <= MicroProb.blend a b num den <= Z.max a b /\
  (num = 0 -> MicroProb.blend a b num den = a) /\
  (num = den -> MicroProb.blend a b num den = b).
Proof.
  intros Ha Hb Hn Hd. unfold MicroProb.blend. destruct (Z.eqb_spec den 0); [lia|].
  cbv zeta. rewrite (quot_nonneg_div (num * MICRO_SCALE)) by (unfold MICRO_SCALE; nia).
  set (w := num * MICRO_SCALE / den).
  assert (0 <= w <= MICRO_SCALE) as Hw.
  { unfold w, MICRO_SCALE. split; [apply Z.div_pos; lia | apply div_le_upper; nia]. }
  assert (0 <= a * (MICRO_SCALE - w) + b * w) by nia.
  rewrite quot_nonneg_div by (unfold MICRO_SCALE in *; lia).
  set (v := (a * (MICRO_SCALE - w) + b * w) / MICRO_SCALE).
  assert (Z.min a b <= v <= Z.max a b) as Hv.
  { unfold v. split.
    - apply Z.div_le_lower_bound; [unfold MICRO_SCALE; lia|]. nia.
    - apply div_le_upper; [unfold MICRO_SCALE; lia|]. nia. }
  assert (MicroProb.from_micro (unwrap_or (to_i64 v) i64_max) = v) as ->.
  { rewrite unwrap_i64_in by (unfold MICRO_SCALE in *; unfold_ints; lia).
    unfold MicroProb.from_micro. destruct (Z.ltb_spec v 0); [lia|].
    destruct (Z.ltb_spec MICRO_SCALE v); lia. }
  split; [done|]. split; intros E; unfold v, w; subst num.
  - rewrite Z.mul_0_l, Z.div_0_l by lia. rewrite Z.sub_0_r, Z.mul_0_r, Z.add_0_r.
    apply Z.div_mul. unfold MICRO_SCALE. lia.
  - rewrite (Z.mul_comm den), Z.div_mul by lia. rewrite Z.sub_diag, Z.mul_0_r, Z.add_0_l.
    apply Z.div_mul. unfold MICRO_SCALE. lia.
Qed.

Lemma blend_between_witness :
  MicroProb.blend 900000 600000 1 3 = 800000 /\
  Z.min 900000 600000 <= MicroProb.blend 900000 600000 1 3 <= Z.max 900000 600000.
Proof.
  split; [vm_compute; reflexivity|].
  apply blend_between; unfold MICRO_SCALE; lia.
Defined.

Section RoundTrip.
Context `{DL : DecimalLaws}.

Lemma to_decimal_val (m : micro) : in_i64 m -> (dval (to_decimal m) == grid m 6)%Q.
Proof.
  intros Hm. unfold to_decimal, MICRO_SCALE. unfold_ints.
  rewrite dnormalize_spec, ddiv_spec by (rewrite dof_Z_spec by lia; unfold Qeq; simpl; lia).
  rewrite !dof_Z_spec by lia.
  assert (inject_Z m / inject_Z 1000000 == grid m 6)%Q as ->.
  { unfold grid, inject_Z, Qdiv, Qinv, Qmult, Qeq. simpl. lia. }
  apply rnd_repr, repr_grid; lia.
Qed.

(** A non-negative amount on the micro grid converts to its count of micros. *)
Lemma try_from_decimal_grid (d : D) (m : micro) :
  (dval d == grid m 6)%Q -> 0 < m <= i64_max -> try_from_decimal d = Ok m.
Proof.
  intros Hd Hm. assert (in_i64 m) as Hi by (unfold_ints; lia).
  set (s := dmul d (dof_Z MICRO_SCALE)).
  assert (dval s == inject_Z m)%Q as Hs.
  { unfold s. rewrite dmul_spec, Hd, dof_Z_spec by (unfold MICRO_SCALE; lia).
    assert (grid m 6 * inject_Z MICRO_SCALE == grid m 0)%Q as ->.
    { unfold grid, inject_Z, MICRO_SCALE, Qmult, Qeq. simpl. lia. }
    rewrite rnd_repr by (apply repr_grid; unfold_ints; lia).
    unfold grid, inject_Z, Qeq. simpl. lia. }
  unfold try_from_decimal. fold s.
  rewrite dsign_neg_pos by (rewrite Hs; unfold Qlt, inject_Z; simpl; lia).
  rewrite (dto_Z_spec (dtrunc s) m).
  - rewrite to_i64_in by done. rewrite (proj2 (Z.leb_le 0 m)) by lia. done.
  - rewrite dtrunc_spec by (rewrite Hs; unfold Qle, inject_Z; simpl; lia).
    rewrite Hs, Qfloor_Z. done.
Qed.

(** A positive fixed-point amount survives the conversion to a decimal and back:
    the boundary conversions lose nothing. *)
Theorem micro_decimal_roundtrip (m : micro) :
  0 < m <= i64_max -> try_from_decimal (to_decimal m) = Ok m.
Proof. intros. apply try_from_decimal_grid; [apply to_decimal_val; unfold_ints; lia | done]. Qed.
End RoundTrip.

Lemma micro_decimal_roundtrip_witness :
  try_from_decimal (to_decimal (DO := ExactQ.exactQ) 970000) = Ok 970000.
Proof. apply micro_decimal_roundtrip. unfold_ints. lia. Defined.
