(* ===== verification/Config.v ===== *)
(** * Runtime configuration: [oxide-arb-models/src/runtime_config/{risk,settlement,redeem_routing}.rs]

    The risk section with its defaults, the derived reservation limits, and the
    resolution of a redeem route for a market.  A [u64] or [usize] setting is an integer;
    the serde/schema attributes carry no behaviour. *)

From S2P Require Import Prelude Decimal.

(** Identifiers: [StrId] types wrap a string, [UuidId] types a 128-bit number. *)
Abbreviation MarketId := string (only parsing).
Abbreviation TokenId := string (only parsing).
Abbreviation EventId := string (only parsing).
Abbreviation OpportunityId := Z (only parsing).
Abbreviation TradeId := Z (only parsing).
Abbreviation LedgerId := Z (only parsing).
Abbreviation ReservationId := Z (only parsing).
(** [DateTime<Utc>] and [NaiveDate]: see [Decimal.Chrono]. *)
Abbreviation Time := Z (only parsing).
Abbreviation Date := Z (only parsing).

(** [models/enums/common.rs:50-55] `ExecutionMode` *)
Inductive ExecutionMode := DryRun | Paper | Live.
#[global] Instance ExecutionMode_eq_dec : EqDecision ExecutionMode.
Proof. solve_decision. Defined.

(** [models/runtime_config/risk.rs:465-492] `CircuitBreakerConfig` *)
Record CircuitBreakerConfig := {
  l1_cooldown_secs : Z;
  l2_cooldown_secs : Z;
  l3_cooldown_secs : Z;
  l4_cooldown_secs : Z;
  half_open_probes : Z;
  recovery_observation_secs : Z;
  cb_max_cooldown_secs : Z
}.

(** [models/runtime_config/risk.rs:494-528] `CircuitBreakerConfig::default` *)
Definition CircuitBreakerConfig_default : CircuitBreakerConfig := {|
  l1_cooldown_secs := 60;
  l2_cooldown_secs := 900;
  l3_cooldown_secs := 3600;
  l4_cooldown_secs := 7200;
  half_open_probes := 2;
  recovery_observation_secs := 300;
  cb_max_cooldown_secs := 14400
|}.

Section RiskSection.
  Context `{DO : DecimalOps}.

(** [models/runtime_config/risk.rs:374-393] `KellyConfig` *)
Record KellyConfig := {
  max_kelly : D;
  min_edge_bps : D;
  min_probability_confidence : D;
  min_calibration_samples : Z;
  max_probability_staleness_secs : Z
}.

(** [models/runtime_config/risk.rs:395-421] `KellyConfig::default` *)
Definition KellyConfig_default : KellyConfig := {|
  max_kelly := dlit 25 2;
  min_edge_bps := dlit 200 0;
  min_probability_confidence := dlit 3 1;
  min_calibration_samples := 10;
  max_probability_staleness_secs := 7200
|}.

(** [models/runtime_config/risk.rs:426-434] `DrawdownConfig` *)
Record DrawdownConfig := {
  cfg_max_drawdown_pct : D;
  drawdown_reduction_factor : D
}.

(** [models/runtime_config/risk.rs:436-450] `DrawdownConfig::default` *)
Definition DrawdownConfig_default : DrawdownConfig := {|
  cfg_max_drawdown_pct := dlit 10 0;
  drawdown_reduction_factor := dlit 5 1
|}.

(** [models/runtime_config/risk.rs:24-200] `RiskConfig` *)
Record RiskConfig := {
  min_depth_usd : D;
  max_depth_usage_pct : D;
  max_consecutive_misses : Z;
  max_hourly_loss_usd : D;
  max_hourly_fee_spend_usd : D;
  base_cooldown_secs : Z;
  cfg_cooldown_multiplier : D;
  max_cooldown_secs : Z;
  max_daily_loss_usd : D;
  max_daily_fee_spend_usd : D;
  max_single_loss_usd : D;
  max_weekly_loss_usd : D;
  daily_budget_usd : D;
  ws_disconnect_threshold_secs : Z;
  min_balance_usd : D;
  market_miss_blacklist_count : Z;
  market_miss_blacklist_duration_secs : Z;
  permanent_blacklist_markets : list string;
  permanent_blacklist_tokens : list string;
  max_total_exposure_usd : D;
  reserve_balance_usd : D;
  cfg_max_open_positions : Z;
  max_single_market_exposure_usd : D;
  max_single_bet_usd : D;
  reservation_ttl_secs : Z;
  reservation_gc_interval_secs : Z;
  max_total_exposure_pct : D;
  metrics_refresh_interval_secs : Z;
  max_metrics_staleness_secs : Z;
  reconciliation_interval_secs : Z;
  reconciliation_tolerance_usd : D;
  circuit_breaker : CircuitBreakerConfig;
  kelly_fraction : D;
  bankroll_usd : D;
  min_trade_usd : D;
  kelly : KellyConfig;
  drawdown : DrawdownConfig;
  api_error_rate_threshold : D;
  heartbeat_max_failures : Z;
  potential_loss_escalation_secs : Z;
  max_concurrent_directional : Z;
  daily_directional_budget : Z
}.

(** [models/runtime_config/risk.rs:202-369] `RiskConfig::default` *)
Definition RiskConfig_default : RiskConfig := {|
  min_depth_usd := dlit 200 0;
  max_depth_usage_pct := dlit 30 0;
  max_consecutive_misses := 3;
  max_hourly_loss_usd := dlit 30 0;
  max_hourly_fee_spend_usd := dlit 10 0;
  base_cooldown_secs := 900;
  cfg_cooldown_multiplier := dlit 20 1;
  max_cooldown_secs := 7200;
  max_daily_loss_usd := dlit 75 0;
  max_daily_fee_spend_usd := dlit 25 0;
  max_single_loss_usd := dlit 30 0;
  max_weekly_loss_usd := dlit 120 0;
  daily_budget_usd := dlit 50 0;
  ws_disconnect_threshold_secs := 30;
  min_balance_usd := dlit 50 0;
  market_miss_blacklist_count := 3;
  market_miss_blacklist_duration_secs := 3600;
  permanent_blacklist_markets := [];
  permanent_blacklist_tokens := [];
  max_total_exposure_usd := dlit 5000 0;
  reserve_balance_usd := dlit 100 0;
  cfg_max_open_positions := 3;
  max_single_market_exposure_usd := dlit 500 0;
  max_single_bet_usd := dlit 25 0;
  reservation_ttl_secs := 300;
  reservation_gc_interval_secs := 30;
  max_total_exposure_pct := dlit 80 0;
  metrics_refresh_interval_secs := 5;
  max_metrics_staleness_secs := 5 * 3;
  reconciliation_interval_secs := 300;
  reconciliation_tolerance_usd := dlit 10 1;
  circuit_breaker := CircuitBreakerConfig_default;
  kelly_fraction := dlit 25 2;
  bankroll_usd := dlit 1000 0;
  min_trade_usd := dlit 1 0;
  kelly := KellyConfig_default;
  drawdown := DrawdownConfig_default;
  api_error_rate_threshold := dlit 10 2;
  heartbeat_max_failures := 3;
  potential_loss_escalation_secs := 3600;
  max_concurrent_directional := 3;
  daily_directional_budget := 10
|}.

(** [models/runtime_config/risk.rs:564-566] `usd_decimal_to_cents` *)
Definition usd_decimal_to_cents (value : D) : Z :=
  unwrap_or (to_u64 (dto_Z (dceil (dmul value (dlit 100 0))))) u64_max.

(** [models/runtime_config/risk.rs:539-549] `ExposureReservationConfig` *)
Record ExposureReservationConfig := {
  max_total_exposure_cents : Z;
  max_per_market_cents : Z;
  default_ttl_secs : Z;
  gc_interval_secs : Z
}.

(** [models/runtime_config/risk.rs:255-262] `RiskConfig::exposure_reservation_config` *)
Definition exposure_reservation_config (c : RiskConfig) : ExposureReservationConfig := {|
  max_total_exposure_cents := usd_decimal_to_cents (max_total_exposure_usd c);
  max_per_market_cents := usd_decimal_to_cents (max_single_market_exposure_usd c);
  default_ttl_secs := reservation_ttl_secs c;
  gc_interval_secs := reservation_gc_interval_secs c
|}.
End RiskSection.

(** ** Redeem routing *)

(** [models/enums/common.rs:649-653] `StandardRedeemRoute` *)
Inductive StandardRedeemRoute := StandardCtf | CtfCollateralAdapter.
(** [models/enums/common.rs:674-678] `NegRiskRedeemRoute` *)
Inductive NegRiskRedeemRoute := NegRiskLegacyAdapter | NegRiskCollateralAdapter.
(** [models/enums/common.rs:699-704] `ResolvedRedeemRoute` *)
Inductive ResolvedRedeemRoute :=
| RStandardCtf | RCtfCollateralAdapter | RNegRiskLegacyAdapter | RNegRiskCollateralAdapter.
#[global] Instance ResolvedRedeemRoute_eq_dec : EqDecision ResolvedRedeemRoute.
Proof. solve_decision. Defined.
(** [models/enums/common.rs:766-770] `RedeemResolutionSource` *)
Inductive RedeemResolutionSource := Override | ClassStandard | ClassNegRisk.

(** [models/enums/common.rs:708-715] `ResolvedRedeemRoute::as_str` *)
Definition route_as_str (r : ResolvedRedeemRoute) : string :=
  match r with
  | RStandardCtf => "standard_ctf"
  | RCtfCollateralAdapter => "ctf_collateral_adapter"
  | RNegRiskLegacyAdapter => "neg_risk_legacy_adapter"
  | RNegRiskCollateralAdapter => "neg_risk_collateral_adapter"
  end.

(** [models/enums/common.rs:747-755] `ResolvedRedeemRoute::from_str` *)
Definition route_from_str (s : string) : Result ResolvedRedeemRoute unit :=
  if decide (s = "standard_ctf") then Ok RStandardCtf
  else if decide (s = "ctf_collateral_adapter") then Ok RCtfCollateralAdapter
  else if decide (s = "neg_risk_legacy_adapter") then Ok RNegRiskLegacyAdapter
  else if decide (s = "neg_risk_collateral_adapter") then Ok RNegRiskCollateralAdapter
  else Err tt.

(** [models/enums/common.rs:718-723] `ResolvedRedeemRoute::expects_neg_risk` *)
Definition route_expects_neg_risk (r : ResolvedRedeemRoute) : bool :=
  match r with RNegRiskLegacyAdapter | RNegRiskCollateralAdapter => true | _ => false end.

(** [models/enums/common.rs:726-733] `From<StandardRedeemRoute>` *)
Definition from_standard (r : StandardRedeemRoute) : ResolvedRedeemRoute :=
  match r with StandardCtf => RStandardCtf | CtfCollateralAdapter => RCtfCollateralAdapter end.

(** [models/enums/common.rs:735-742] `From<NegRiskRedeemRoute>` *)
Definition from_neg_risk (r : NegRiskRedeemRoute) : ResolvedRedeemRoute :=
  match r with
  | NegRiskLegacyAdapter => RNegRiskLegacyAdapter
  | NegRiskCollateralAdapter => RNegRiskCollateralAdapter
  end.

(** [models/runtime_config/settlement.rs:145-151] `StandardRedeemPolicy` *)
Record StandardRedeemPolicy := { sp_route : StandardRedeemRoute; sp_holder_address : option string }.
(** [models/runtime_config/settlement.rs:156-162] `NegRiskRedeemPolicy` *)
Record NegRiskRedeemPolicy := { np_route : NegRiskRedeemRoute; np_holder_address : option string }.

(** [models/runtime_config/settlement.rs:167-170] `RedeemClassPolicy` *)
Inductive RedeemClassPolicy :=
| ClsStandard (p : StandardRedeemPolicy)
| ClsNegRisk (p : NegRiskRedeemPolicy).

(** [models/runtime_config/settlement.rs:174-176] `RedeemClassPolicy::expects_neg_risk` *)
Definition policy_expects_neg_risk (p : RedeemClassPolicy) : bool :=
  match p with ClsNegRisk _ => true | _ => false end.

(** [models/runtime_config/settlement.rs:179-184] `RedeemClassPolicy::holder_address` *)
Definition policy_holder_address (p : RedeemClassPolicy) : option string :=
  match p with ClsStandard q => sp_holder_address q | ClsNegRisk q => np_holder_address q end.

(** [models/runtime_config/settlement.rs:187-192] `RedeemClassPolicy::route` *)
Definition policy_route (p : RedeemClassPolicy) : ResolvedRedeemRoute :=
  match p with ClsStandard q => from_standard (sp_route q) | ClsNegRisk q => from_neg_risk (np_route q) end.

(** [models/runtime_config/settlement.rs:197-203] `ResolvedRedeemPlan` *)
Record ResolvedRedeemPlan := {
  plan_route : ResolvedRedeemRoute;
  plan_holder_address : option string;
  plan_neg_risk : bool;
  plan_gas_limit : Z;
  plan_resolution : RedeemResolutionSource
}.

Section Routing.
  Context `{DO : DecimalOps}.

(** [models/runtime_config/settlement.rs:113-128] `RedeemRoutingPolicy` *)
Record RedeemRoutingPolicy := {
  rp_standard : option StandardRedeemPolicy;
  rp_neg_risk : option NegRiskRedeemPolicy;
  rp_overrides : gmap MarketId RedeemClassPolicy;
  rp_gas_limit : Z;
  rp_matic_usd_price : D
}.

(** [models/runtime_config/redeem_routing.rs:49-57] `plan_from_standard` *)
Definition plan_from_standard (p : StandardRedeemPolicy) (gas_limit : Z) : ResolvedRedeemPlan := {|
  plan_route := from_standard (sp_route p);
  plan_holder_address := sp_holder_address p;
  plan_neg_risk := false;
  plan_gas_limit := gas_limit;
  plan_resolution := ClassStandard
|}.

(** [models/runtime_config/redeem_routing.rs:59-67] `plan_from_neg_risk` *)
Definition plan_from_neg_risk (p : NegRiskRedeemPolicy) (gas_limit : Z) : ResolvedRedeemPlan := {|
  plan_route := from_neg_risk (np_route p);
  plan_holder_address := np_holder_address p;
  plan_neg_risk := true;
  plan_gas_limit := gas_limit;
  plan_resolution := ClassNegRisk
|}.

(** [models/runtime_config/redeem_routing.rs:69-82] `plan_from_policy` *)
Definition plan_from_policy (p : RedeemClassPolicy) (neg_risk : bool)
    (resolution : RedeemResolutionSource) (gas_limit : Z) : ResolvedRedeemPlan := {|
  plan_route := policy_route p;
  plan_holder_address := policy_holder_address p;
  plan_neg_risk := neg_risk;
  plan_gas_limit := gas_limit;
  plan_resolution := resolution
|}.

(** [models/runtime_config/redeem_routing.rs:18-40] `RedeemRoutingPolicy::resolve` *)
Definition resolve (self : RedeemRoutingPolicy) (market_id : MarketId) (neg_risk : bool)
    : option ResolvedRedeemPlan :=
  match rp_overrides self !! market_id with
  | Some override_policy =>
      if negb (Bool.eqb (policy_expects_neg_risk override_policy) neg_risk) then None
      else Some (plan_from_policy override_policy neg_risk Override (rp_gas_limit self))
  | None =>
      if neg_risk then
        option_map (fun p => plan_from_neg_risk p (rp_gas_limit self)) (rp_neg_risk self)
      else
        option_map (fun p => plan_from_standard p (rp_gas_limit self)) (rp_standard self)
  end.

(** [models/runtime_config/redeem_routing.rs:44-46] `has_any_live_class` *)
Definition has_any_live_class (self : RedeemRoutingPolicy) : bool :=
  match rp_standard self, rp_neg_risk self with None, None => false | _, _ => true end.

(** A resolved redeem plan always matches the market: its class and its on-chain route
    are those of the market's [neg_risk] flag, whatever the overrides say. *)
Theorem resolve_matches_class (self : RedeemRoutingPolicy) (m : MarketId) (neg_risk : bool) plan :
  resolve self m neg_risk = Some plan ->
  plan_neg_risk plan = neg_risk /\
  route_expects_neg_risk (plan_route plan) = neg_risk /\
  plan_gas_limit plan = rp_gas_limit self /\
  route_from_str (route_as_str (plan_route plan)) = Ok (plan_route plan).
Proof.
  unfold resolve. intros H.
  assert (route_from_str (route_as_str (plan_route plan)) = Ok (plan_route plan))
    by (by destruct (plan_route plan)).
  repeat split; try done.
  all: repeat (case_match; simplify_eq/=); try done.
  all: try (destruct (rp_neg_risk self) as [[[] ?]|]; simplify_eq/=; done).
  all: try (destruct (rp_standard self) as [[[] ?]|]; simplify_eq/=; done).
  all: destruct r as [[[] ?]|[[] ?]], neg_risk; simplify_eq/=; done.
Qed.
End Routing.

Lemma resolve_matches_class_witness :
  let policy := {| rp_standard := Some {| sp_route := StandardCtf; sp_holder_address := None |};
                   rp_neg_risk := None; rp_overrides := ∅;
                   rp_gas_limit := 500000; rp_matic_usd_price := (1 # 2)%Q |} in
  plan_neg_risk (plan_from_standard {| sp_route := StandardCtf; sp_holder_address := None |} 500000) = false.
Proof.
  intros policy.
  destruct (resolve_matches_class (DO := ExactQ.exactQ) policy "m" false
              (plan_from_standard {| sp_route := StandardCtf; sp_holder_address := None |} 500000))
    as [H _]; [vm_compute; reflexivity | exact H].
Defined.
