(* ===== verification/Domain.v ===== *)
(** * Shared domain data: [oxide-arb-models/src/{enums,domain}]

    The records and enumerations the risk crate exchanges with the rest of the system:
    opportunities, trades, blacklist and potential-loss rows, the persisted engine state,
    the integrity snapshot and the control-factor decision bundle. *)

From S2P Require Import Prelude Decimal Config.

(** ** Enumerations *)

(** [models/enums/common.rs:18-21] `Side` *)
Inductive Side := Buy | Sell.
(** [models/enums/common.rs:64-69] `StalenessLevel` *)
Inductive StalenessLevel := Fresh | Acceptable | Stale | Expired.
(** [models/enums/common.rs:90-97] `TradeBusinessOutcome` *)
Inductive TradeBusinessOutcome := Success | Miss | Failed.
(** [models/enums/common.rs:322-333] `MarketCategory` *)
Inductive MarketCategory :=
| Geopolitics | Sports | Politics | Finance | Tech | Culture | Weather | Economics | Crypto | Other.
(** [models/enums/common.rs:794-798] `LedgerStatus` *)
Inductive LedgerStatus := LActive | LResolved | LExpired.

(** [models/enums/risk.rs:19-30] `BreakerStateName` *)
Inductive BreakerStateName := NClosed | NOpen | NHalfOpen | NRecovered | NHalted.
(** [models/enums/risk.rs:36-41] `CircuitBreakerLevel` *)
Inductive CircuitBreakerLevel := Trade | Session | Daily | System.
(** [models/enums/risk.rs:47-54] `CircuitBreakerLevel::as_u8` *)
Definition as_u8 (l : CircuitBreakerLevel) : Z :=
  match l with Trade => 1 | Session => 2 | Daily => 3 | System => 4 end.
(** [models/enums/risk.rs:62-66] `BlacklistScope` *)
Inductive BlacklistScope := DataPath | TradingPath | Full.
(** [models/enums/risk.rs:72-79] `BlacklistReason` *)
Inductive BlacklistReason :=
| ConsecutiveFokFailures | TradeFailedAfterMatched | DepthDrop | TickChange | Manual | DataNotFound.
(** [models/enums/risk.rs:92-97] `TradeAccountingPhase` *)
Inductive TradeAccountingPhase := Fill | Settlement.
(** [models/enums/risk.rs:110-114] `ReconciliationStatus` *)
Inductive ReconciliationStatus := ROk | RWarning | RCritical.
(** [models/enums/risk.rs:119-132] `RiskAuditEventType` *)
Inductive RiskAuditEventType :=
| TradeAllowed | TradeDenied | BreakerTripped | BreakerRecovered | BreakerReset | BlacklistAdded
| BlacklistRemoved | AccountingRollover | ReconciliationCompleted | EngineHalted | EngineResumed
| PostTradeUpdate.

#[global] Instance Side_eq_dec : EqDecision Side.
Proof. solve_decision. Defined.
#[global] Instance Outcome_eq_dec : EqDecision TradeBusinessOutcome.
Proof. solve_decision. Defined.
#[global] Instance Staleness_eq_dec : EqDecision StalenessLevel.
Proof. solve_decision. Defined.
#[global] Instance LedgerStatus_eq_dec : EqDecision LedgerStatus.
Proof. solve_decision. Defined.
#[global] Instance Level_eq_dec : EqDecision CircuitBreakerLevel.
Proof. solve_decision. Defined.
#[global] Instance StateName_eq_dec : EqDecision BreakerStateName.
Proof. solve_decision. Defined.
#[global] Instance Scope_eq_dec : EqDecision BlacklistScope.
Proof. solve_decision. Defined.
#[global] Instance Reason_eq_dec : EqDecision BlacklistReason.
Proof. solve_decision. Defined.
#[global] Instance ReconciliationStatus_eq_dec : EqDecision ReconciliationStatus.
Proof. solve_decision. Defined.

(** The derived orders of [CircuitBreakerLevel] and [BlacklistScope]. *)
Definition level_leb (a b : CircuitBreakerLevel) : bool := as_u8 a <=? as_u8 b.
Definition scope_rank (s : BlacklistScope) : Z :=
  match s with DataPath => 0 | TradingPath => 1 | Full => 2 end.
Definition scope_leb (a b : BlacklistScope) : bool := scope_rank a <=? scope_rank b.

(** [Display] of the string enums: the strings of their declarations. *)
Definition reason_str (r : BlacklistReason) : string :=
  match r with
  | ConsecutiveFokFailures => "consecutive_fok_failures"
  | TradeFailedAfterMatched => "trade_failed_after_matched"
  | DepthDrop => "depth_drop"
  | TickChange => "tick_change"
  | Manual => "manual"
  | DataNotFound => "data_not_found"
  end.
Definition scope_str (s : BlacklistScope) : string :=
  match s with DataPath => "data_path" | TradingPath => "trading_path" | Full => "full" end.
Definition level_str (l : CircuitBreakerLevel) : string :=
  match l with Trade => "trade" | Session => "session" | Daily => "daily" | System => "system" end.
Definition staleness_str (s : StalenessLevel) : string :=
  match s with Fresh => "fresh" | Acceptable => "acceptable" | Stale => "stale" | Expired => "expired" end.
Definition outcome_str (o : TradeBusinessOutcome) : string :=
  match o with Success => "success" | Miss => "miss" | Failed => "failed" end.

(** [models/enums/calibration.rs:14-25] `PriceZone` *)
Inductive PriceZone := Z95 | Z96 | Z97 | Z98 | Z99.
(** [models/enums/calibration.rs:83-92] `DurationBucket` *)
Inductive DurationBucket := Short | Medium | Long | VeryLong.
(** [models/enums/calibration.rs:106-113] `DurationBucket::from_secs` *)
Definition duration_bucket_from_secs (secs : Z) : DurationBucket :=
  if secs <? 3600 then Short
  else if secs <? 21600 then Medium
  else if secs <? 86400 then Long
  else VeryLong.

(** [models/enums/control_factor.rs:8-14] `ControlFactorType` *)
Inductive ControlFactorType := BucketRisk | ExecutionQuality | PortfolioRisk | ReconciliationHealth | MarketAnomaly.

(** [models/domain/governance/calibration.rs:25-29] `BucketKey` *)
Record BucketKey := { bk_category : MarketCategory; bk_price_zone : PriceZone; bk_duration_bucket : DurationBucket }.

(** ** Blacklist rows *)

(** [models/domain/risk/blacklist.rs:20-29] `BlacklistInfo` *)
Record BlacklistInfo := {
  bl_market_id : MarketId;
  bl_token_id : option TokenId;
  bl_scope : BlacklistScope;
  bl_reason : BlacklistReason;
  bl_expires_at : option Time;
  bl_miss_count : Z;
  bl_created_at : Time;
  bl_updated_at : Time
}.

(** [models/domain/risk/blacklist.rs:34-36] `is_expired` *)
Definition bl_is_expired (e : BlacklistInfo) (now : Time) : bool :=
  match bl_expires_at e with Some exp => exp <=? now | None => false end.

(** [models/domain/risk/blacklist.rs:40-42] `is_permanent` *)
Definition bl_is_permanent (e : BlacklistInfo) : bool :=
  match bl_expires_at e with Some _ => false | None => true end.

(** [models/domain/risk/blacklist.rs:46-48] `blocks_trading` *)
Definition bl_blocks_trading (e : BlacklistInfo) : bool := scope_leb TradingPath (bl_scope e).

(** [models/domain/risk/blacklist.rs:61-68] `UpsertBlacklistEntry` *)
Record UpsertBlacklistEntry := {
  ub_market_id : MarketId;
  ub_token_id : option TokenId;
  ub_scope : BlacklistScope;
  ub_reason : BlacklistReason;
  ub_expires_at : option Time;
  ub_miss_count : Z
}.

Section Data.
Context `{DO : DecimalOps}.

(** [models/enums/calibration.rs:44-57] `PriceZone::from_price` *)
Definition price_zone_from_price (p : D) : PriceZone :=
  if dleb (dlit 99 2) p then Z99
  else if dleb (dlit 98 2) p then Z98
  else if dleb (dlit 97 2) p then Z97
  else if dleb (dlit 96 2) p then Z96
  else Z95.

(** ** Potential losses *)

(** [models/domain/accounting/potential_loss.rs:20-30] `PotentialLossInfo` *)
Record PotentialLossInfo := {
  pl_ledger_id : LedgerId;
  pl_market_id : MarketId;
  pl_token_id : TokenId;
  pl_shares : D;
  pl_entry_price : D;
  pl_max_loss_usd : D;
  pl_status : LedgerStatus;
  pl_created_at : Time;
  pl_resolved_at : option Time
}.

(** [models/domain/accounting/potential_loss.rs:35-37] `is_active` *)
Definition pl_is_active (e : PotentialLossInfo) : bool := bool_decide (pl_status e = LActive).

(** [models/domain/accounting/potential_loss.rs:50-57] `NewPotentialLoss` *)
Record NewPotentialLoss := {
  npl_ledger_id : LedgerId;
  npl_market_id : MarketId;
  npl_token_id : TokenId;
  npl_shares : D;
  npl_entry_price : D;
  npl_max_loss_usd : D
}.

(** ** Opportunities and trades *)

(** [models/enums/opportunity.rs:8-16] `PayoutModel` *)
Inductive PayoutModel :=
| DirectionalSettlement (projected_payout_if_correct expected_payout : D) (predicted_side : Side).

(** [models/enums/opportunity.rs:20-26] `PayoutModel::compute_pnl` *)
Definition compute_pnl (m : PayoutModel) (total_cost total_fees : D) : D :=
  match m with
  | DirectionalSettlement _ expected_payout _ => dsub (dsub expected_payout total_cost) total_fees
  end.

(** [models/domain/governance/calibration.rs:39-55] `CalibrationSnapshot` *)
Record CalibrationSnapshot := {
  cal_bucket_key : BucketKey;
  cal_posterior_mean : D;
  cal_sample_size : Z;
  cal_alpha_prior : D;
  cal_beta_prior : D;
  cal_fallback_tier : Z;
  cal_fused_probability : D
}.

(** [models/domain/trading/opportunity.rs:57-68] `EndgameMeta` *)
Record EndgameMeta := {
  predicted_yes : bool;
  meta_confidence : D;
  convergence_duration_secs : Z;
  meta_price_zone : PriceZone;
  meta_duration_bucket : DurationBucket;
  settlement_deadline : option Time
}.

(** [models/domain/trading/opportunity.rs:25-53] `Opportunity` *)
Record Opportunity := {
  opportunity_id : OpportunityId;
  opp_market_id : MarketId;
  opp_event_id : EventId;
  opp_token_id : TokenId;
  opp_side : Side;
  payout_model : PayoutModel;
  opp_shares : D;
  opp_entry_price : D;
  total_cost : D;
  total_fees : D;
  net_profit : D;
  expected_net_profit : D;
  opp_edge_bps : D;
  resolution_adjust : D;
  depth_used_pct : D;
  staleness : StalenessLevel;
  opp_category : MarketCategory;
  meta : EndgameMeta;
  calibration : CalibrationSnapshot;
  detected_at : Time
}.

(** [models/domain/trading/trade.rs:99-110] `PostTradeInput` *)
Record PostTradeInput := {
  pt_trade_id : TradeId;
  pt_market_id : MarketId;
  pt_token_id : TokenId;
  pt_side : Side;
  pt_outcome : TradeBusinessOutcome;
  pt_cost_usd : D;
  pt_fee_usd : D;
  pt_net_profit_usd : option D;
  pt_shares : D;
  pt_entry_price : D
}.

(** [models/domain/trading/trade.rs:114-116] `is_success` *)
Definition pt_is_success (t : PostTradeInput) : bool := bool_decide (pt_outcome t = Success).

(** [models/domain/trading/trade.rs:119-121] `is_miss` *)
Definition pt_is_miss (t : PostTradeInput) : bool := bool_decide (pt_outcome t = Miss).

(** [models/domain/risk/engine.rs:391-407] `ProbabilityInput` *)
Record ProbabilityInput := {
  calibrated_win_prob : D;
  fill_prob : D;
  calibration_confidence : D;
  prob_sample_size : Z;
  model_staleness_secs : Z;
  expected_slippage_pct : D;
  expected_failure_cost_pct : D
}.

(** ** Durable-trade integrity *)

(** [models/domain/trading/integrity.rs:13-26] `TradeIntegritySnapshot` *)
Record TradeIntegritySnapshot := {
  blocking_count : Z;
  needs_reconcile_count : Z;
  intent_orphan_count : Z;
  oldest_blocking_age_secs : Z;
  ti_active_reservation_count : Z;
  ti_reserved_usd : D;
  ti_checked_at : Time
}.

(** [models/domain/trading/integrity.rs:31-41] `TradeIntegritySnapshot::zero` *)
Definition integrity_zero (checked_at : Time) : TradeIntegritySnapshot := {|
  blocking_count := 0;
  needs_reconcile_count := 0;
  intent_orphan_count := 0;
  oldest_blocking_age_secs := 0;
  ti_active_reservation_count := 0;
  ti_reserved_usd := d0;
  ti_checked_at := checked_at
|}.

(** [models/domain/trading/integrity.rs:45-50] `blocks_admission` *)
Definition blocks_admission (self : TradeIntegritySnapshot) (mode : ExecutionMode) : bool :=
  match mode with
  | Live | Paper => 0 <? blocking_count self
  | DryRun => false
  end.

(** ** Control-factor decisions *)

(** [models/domain/control_factor/live/applied.rs:23-30] `AppliedControlFactor` *)
Record AppliedControlFactor := {
  af_factor_id : Z;
  af_factor_type : ControlFactorType;
  af_publication_id : Z;
  af_input_value : D;
  af_output_value : D;
  af_reason : string
}.

(** [models/domain/control_factor/live/applied.rs:55-64] `ReconciliationHealthDecision` *)
Record ReconciliationHealthDecision := {
  force_maintenance_mode : bool;
  rh_size_multiplier : D;
  require_manual_ack : bool;
  rh_source : option AppliedControlFactor
}.

(** [models/domain/control_factor/live/applied.rs:79-90] `MarketAnomalyDecision` *)
Record MarketAnomalyDecision := {
  block_market : bool;
  block_event : bool;
  manual_ack_required : bool;
  reason_code : option string;
  ma_source : option AppliedControlFactor
}.

(** [models/domain/control_factor/live/applied.rs:95-97] `MarketAnomalyDecision::is_blocking` *)
Definition is_blocking (d : MarketAnomalyDecision) : bool := block_market d || block_event d.

(** [models/domain/control_factor/live/applied.rs:102-110] `PortfolioRiskDecision` *)
Record PortfolioRiskDecision := {
  global_size_multiplier : D;
  category_size_multiplier : option D;
  daily_budget_multiplier : D;
  kelly_fraction_multiplier : D;
  pr_max_open_positions : option Z;
  pr_category : option MarketCategory;
  pr_source : option AppliedControlFactor
}.

(** [models/domain/control_factor/live/applied.rs:132-145] `FactorDecisionContext` *)
Record FactorDecisionContext := {
  publication_id : option Z;
  snapshot_expired : bool;
  fail_closed : bool;
  reconciliation_health : ReconciliationHealthDecision;
  market_anomaly : MarketAnomalyDecision;
  portfolio_risk : PortfolioRiskDecision;
  bucket_size_multiplier : D;
  applied_factors : list AppliedControlFactor
}.

(** [models/domain/control_factor/live/applied.rs:66-75] `ReconciliationHealthDecision::default` *)
Definition reconciliation_health_default : ReconciliationHealthDecision := {|
  force_maintenance_mode := false; rh_size_multiplier := d1; require_manual_ack := false; rh_source := None |}.

(** [models/domain/control_factor/live/applied.rs:112-124] `PortfolioRiskDecision::default` *)
Definition portfolio_risk_default : PortfolioRiskDecision := {|
  global_size_multiplier := d1; category_size_multiplier := None; daily_budget_multiplier := d1;
  kelly_fraction_multiplier := d1; pr_max_open_positions := None; pr_category := None; pr_source := None |}.

(** [models/domain/control_factor/live/applied.rs:156-167] `FactorDecisionContext::neutral` *)
Definition factor_neutral : FactorDecisionContext := {|
  publication_id := None;
  snapshot_expired := false;
  fail_closed := false;
  reconciliation_health := reconciliation_health_default;
  market_anomaly := {| block_market := false; block_event := false; manual_ack_required := false;
                       reason_code := None; ma_source := None |};
  portfolio_risk := portfolio_risk_default;
  bucket_size_multiplier := d1;
  applied_factors := []
|}.

(** [models/domain/control_factor/live/applied.rs:171-173] `is_snapshot_stale_fail_closed` *)
Definition is_snapshot_stale_fail_closed (c : FactorDecisionContext) : bool :=
  snapshot_expired c && fail_closed c.

(** [models/domain/control_factor/live/applied.rs:177-179] `is_hard_rejected` *)
Definition is_hard_rejected (c : FactorDecisionContext) : bool :=
  force_maintenance_mode (reconciliation_health c) || is_blocking (market_anomaly c).

(** ** The persisted engine state *)

(** [models/domain/risk/engine.rs:23-56] `RiskEngineState` *)
Record RiskEngineState := {
  st_breaker_state : BreakerStateName;
  st_breaker_level : option CircuitBreakerLevel;
  st_is_halted : bool;
  st_halt_reason : option string;
  st_cooldown_until : option Time;
  st_total_exposure : D;
  st_hourly_loss_usd : D;
  st_hourly_fee_usd : D;
  st_hourly_trade_count : Z;
  st_hourly_success_count : Z;
  st_hourly_miss_count : Z;
  st_hourly_window_start : Time;
  st_daily_pnl : D;
  st_daily_loss_usd : D;
  st_daily_fee_usd : D;
  st_daily_budget_spent : D;
  st_daily_trade_count : Z;
  st_daily_success_count : Z;
  st_daily_miss_count : Z;
  st_daily_window_start : Date;
  st_weekly_loss_usd : D;
  st_weekly_trade_count : Z;
  st_weekly_window_start : Date;
  st_consecutive_misses : Z;
  st_cooldown_multiplier : Z;
  st_hwm_equity : D;
  st_total_realized_pnl : D;
  st_last_emergency_at : option Time;
  st_last_emergency_reason : option string;
  st_snapshot_at : Time
}.

(** [models/domain/risk/engine.rs:63-95] `RiskStateInfo` *)
Record RiskStateInfo := {
  ri_id : Z;
  ri_breaker_state : BreakerStateName;
  ri_breaker_level : option CircuitBreakerLevel;
  ri_is_halted : bool;
  ri_halt_reason : option string;
  ri_cooldown_until : option Time;
  ri_total_exposure : D;
  ri_hourly_loss_usd : D;
  ri_hourly_fee_usd : D;
  ri_hourly_trade_count : Z;
  ri_hourly_success_count : Z;
  ri_hourly_miss_count : Z;
  ri_hourly_window_start : Time;
  ri_daily_pnl : D;
  ri_daily_loss_usd : D;
  ri_daily_fee_usd : D;
  ri_daily_budget_spent : D;
  ri_daily_trade_count : Z;
  ri_daily_success_count : Z;
  ri_daily_miss_count : Z;
  ri_daily_window_start : Date;
  ri_weekly_loss_usd : D;
  ri_weekly_trade_count : Z;
  ri_weekly_window_start : Date;
  ri_consecutive_misses : Z;
  ri_cooldown_multiplier : Z;
  ri_hwm_equity : D;
  ri_total_realized_pnl : D;
  ri_last_emergency_at : option Time;
  ri_last_emergency_reason : option string;
  ri_updated_at : Time
}.

(** [models/domain/risk/engine.rs:110-145] `From<&RiskStateInfo> for RiskEngineState` *)
Definition state_of_info (info : RiskStateInfo) : RiskEngineState := {|
  st_breaker_state := ri_breaker_state info;
  st_breaker_level := ri_breaker_level info;
  st_is_halted := ri_is_halted info;
  st_halt_reason := ri_halt_reason info;
  st_cooldown_until := ri_cooldown_until info;
  st_total_exposure := ri_total_exposure info;
  st_hourly_loss_usd := ri_hourly_loss_usd info;
  st_hourly_fee_usd := ri_hourly_fee_usd info;
  st_hourly_trade_count := ri_hourly_trade_count info;
  st_hourly_success_count := ri_hourly_success_count info;
  st_hourly_miss_count := ri_hourly_miss_count info;
  st_hourly_window_start := ri_hourly_window_start info;
  st_daily_pnl := ri_daily_pnl info;
  st_daily_loss_usd := ri_daily_loss_usd info;
  st_daily_fee_usd := ri_daily_fee_usd info;
  st_daily_budget_spent := ri_daily_budget_spent info;
  st_daily_trade_count := ri_daily_trade_count info;
  st_daily_success_count := ri_daily_success_count info;
  st_daily_miss_count := ri_daily_miss_count info;
  st_daily_window_start := ri_daily_window_start info;
  st_weekly_loss_usd := ri_weekly_loss_usd info;
  st_weekly_trade_count := ri_weekly_trade_count info;
  st_weekly_window_start := ri_weekly_window_start info;
  st_consecutive_misses := ri_consecutive_misses info;
  st_cooldown_multiplier := ri_cooldown_multiplier info;
  st_hwm_equity := ri_hwm_equity info;
  st_total_realized_pnl := ri_total_realized_pnl info;
  st_last_emergency_at := ri_last_emergency_at info;
  st_last_emergency_reason := ri_last_emergency_reason info;
  st_snapshot_at := ri_updated_at info
|}.

(** [models/domain/risk/engine.rs:166-197] `UpsertRiskEngineState` *)
Record UpsertRiskEngineState := {
  up_id : Z;
  up_breaker_state : BreakerStateName;
  up_breaker_level : option CircuitBreakerLevel;
  up_is_halted : bool;
  up_halt_reason : option string;
  up_cooldown_until : option Time;
  up_total_exposure : D;
  up_hourly_loss_usd : D;
  up_hourly_fee_usd : D;
  up_hourly_trade_count : Z;
  up_hourly_success_count : Z;
  up_hourly_miss_count : Z;
  up_hourly_window_start : Time;
  up_daily_pnl : D;
  up_daily_loss_usd : D;
  up_daily_fee_usd : D;
  up_daily_budget_spent : D;
  up_daily_trade_count : Z;
  up_daily_success_count : Z;
  up_daily_miss_count : Z;
  up_daily_window_start : Date;
  up_weekly_loss_usd : D;
  up_weekly_trade_count : Z;
  up_weekly_window_start : Date;
  up_consecutive_misses : Z;
  up_cooldown_multiplier : Z;
  up_hwm_equity : D;
  up_total_realized_pnl : D;
  up_last_emergency_at : option Time;
  up_last_emergency_reason : option string
}.

(** [models/domain/risk/engine.rs:199-234] `From<&RiskEngineState> for UpsertRiskEngineState` *)
Definition upsert_of_state (s : RiskEngineState) : UpsertRiskEngineState := {|
  up_id := 1;
  up_breaker_state := st_breaker_state s;
  up_breaker_level := st_breaker_level s;
  up_is_halted := st_is_halted s;
  up_halt_reason := st_halt_reason s;
  up_cooldown_until := st_cooldown_until s;
  up_total_exposure := st_total_exposure s;
  up_hourly_loss_usd := st_hourly_loss_usd s;
  up_hourly_fee_usd := st_hourly_fee_usd s;
  up_hourly_trade_count := st_hourly_trade_count s;
  up_hourly_success_count := st_hourly_success_count s;
  up_hourly_miss_count := st_hourly_miss_count s;
  up_hourly_window_start := st_hourly_window_start s;
  up_daily_pnl := st_daily_pnl s;
  up_daily_loss_usd := st_daily_loss_usd s;
  up_daily_fee_usd := st_daily_fee_usd s;
  up_daily_budget_spent := st_daily_budget_spent s;
  up_daily_trade_count := st_daily_trade_count s;
  up_daily_success_count := st_daily_success_count s;
  up_daily_miss_count := st_daily_miss_count s;
  up_daily_window_start := st_daily_window_start s;
  up_weekly_loss_usd := st_weekly_loss_usd s;
  up_weekly_trade_count := st_weekly_trade_count s;
  up_weekly_window_start := st_weekly_window_start s;
  up_consecutive_misses := st_consecutive_misses s;
  up_cooldown_multiplier := st_cooldown_multiplier s;
  up_hwm_equity := st_hwm_equity s;
  up_total_realized_pnl := st_total_realized_pnl s;
  up_last_emergency_at := st_last_emergency_at s;
  up_last_emergency_reason := st_last_emergency_reason s
|}.

(** [models/domain/risk/engine.rs:97-107] `info_from_model!(RiskStateInfo)`: the row read back after
    an upsert; the database sets [updated_at]. *)
Definition info_of_upsert (u : UpsertRiskEngineState) (updated_at : Time) : RiskStateInfo := {|
  ri_id := up_id u;
  ri_breaker_state := up_breaker_state u;
  ri_breaker_level := up_breaker_level u;
  ri_is_halted := up_is_halted u;
  ri_halt_reason := up_halt_reason u;
  ri_cooldown_until := up_cooldown_until u;
  ri_total_exposure := up_total_exposure u;
  ri_hourly_loss_usd := up_hourly_loss_usd u;
  ri_hourly_fee_usd := up_hourly_fee_usd u;
  ri_hourly_trade_count := up_hourly_trade_count u;
  ri_hourly_success_count := up_hourly_success_count u;
  ri_hourly_miss_count := up_hourly_miss_count u;
  ri_hourly_window_start := up_hourly_window_start u;
  ri_daily_pnl := up_daily_pnl u;
  ri_daily_loss_usd := up_daily_loss_usd u;
  ri_daily_fee_usd := up_daily_fee_usd u;
  ri_daily_budget_spent := up_daily_budget_spent u;
  ri_daily_trade_count := up_daily_trade_count u;
  ri_daily_success_count := up_daily_success_count u;
  ri_daily_miss_count := up_daily_miss_count u;
  ri_daily_window_start := up_daily_window_start u;
  ri_weekly_loss_usd := up_weekly_loss_usd u;
  ri_weekly_trade_count := up_weekly_trade_count u;
  ri_weekly_window_start := up_weekly_window_start u;
  ri_consecutive_misses := up_consecutive_misses u;
  ri_cooldown_multiplier := up_cooldown_multiplier u;
  ri_hwm_equity := up_hwm_equity u;
  ri_total_realized_pnl := up_total_realized_pnl u;
  ri_last_emergency_at := up_last_emergency_at u;
  ri_last_emergency_reason := up_last_emergency_reason u;
  ri_updated_at := updated_at
|}.

(** ** Scored opportunities *)

(** [algo/scorer/endgame_scorer.rs:22-39] `ScoredOpportunity`, without its latency trace *)
Record ScoredOpportunity := {
  opportunity : Opportunity;
  so_token_yes : TokenId;
  so_token_no : TokenId;
  so_book_yes_version : Z;
  so_book_no_version : Z;
  so_score : Z;
  so_fill_probability : Z;
  so_urgency_factor : Z;
  so_category_weight : Z;
  so_staleness_discount : Z;
  so_applied_factors : list AppliedControlFactor
}.

(** Crash recovery reads back what was persisted: upserting an engine state and reading the
    row again restores every field, the snapshot time being the row's update time. *)
Lemma state_persistence_roundtrip (s : RiskEngineState) (updated_at : Time) :
  let s' := state_of_info (info_of_upsert (upsert_of_state s) updated_at) in
  st_snapshot_at s' = updated_at /\ upsert_of_state s' = upsert_of_state s.
Proof. done. Qed.
End Data.
