(* ===== verification/RiskTypes.v ===== *)
(** * Crate-local types of the risk engine: [oxide-arb-risk/src/types.rs], [traits.rs] data

    The breaker states, the check identifiers and results, the pipeline report, sizing
    outputs, period statistics, reconciliation mismatches and execution events. *)

From S2P Require Import Prelude Decimal Config Domain.

(** [risk/types.rs:28-44] `StateVersion` *)
Definition StateVersion : Type := Z.
(** [risk/types.rs:66-68] `AtomicStateVersion::increment` *)
Definition version_increment (v : StateVersion) : StateVersion := wrap_u64 (v + 1).

(** [risk/types.rs:85-90] `ReportMode` *)
Inductive ReportMode := ShortCircuit | FullReport.

(** [risk/types.rs:107-130] `BreakerState` *)
Inductive BreakerState :=
| Closed
| Open (level : CircuitBreakerLevel) (reason : string) (tripped_at cooldown_until : Time)
| HalfOpen (level : CircuitBreakerLevel) (entered_at : Time) (successful_probes required_probes : Z)
| Recovered (entered_at observation_until : Time)
| Halted (level : CircuitBreakerLevel) (reason : string) (halted_at : Time).

(** [risk/types.rs:135-143] `BreakerState::to_name` *)
Definition to_name (s : BreakerState) : BreakerStateName :=
  match s with
  | Closed => NClosed
  | Open _ _ _ _ => NOpen
  | HalfOpen _ _ _ _ => NHalfOpen
  | Recovered _ _ => NRecovered
  | Halted _ _ _ => NHalted
  end.

(** [risk/types.rs:147-149] `BreakerState::allows_trading` *)
Definition state_allows_trading (s : BreakerState) : bool :=
  match s with Closed | HalfOpen _ _ _ _ => true | _ => false end.

(** [risk/types.rs:153-155] `BreakerState::is_probe_mode` *)
Definition state_is_probe_mode (s : BreakerState) : bool :=
  match s with HalfOpen _ _ _ _ => true | _ => false end.

(** [risk/types.rs:159-161] `BreakerState::is_halted` *)
Definition state_is_halted (s : BreakerState) : bool :=
  match s with Halted _ _ _ => true | _ => false end.

(** [risk/types.rs:171-210] `RiskCheckId` *)
Inductive RiskCheckId :=
| CkManualHalt | CkCircuitBreaker | CkBlacklistTradingPath | CkTokenBlacklist | CkMarketAnomalyBlock
| CkReconciliationMaintenance | CkControlFactorManualAckRequired | CkControlFactorSnapshotExpired
| CkBlockingTrades | CkRedeemRouteResolvable | CkMetricsFreshness | CkMinDepth | CkMaxDepthUsage
| CkStaleness | CkDailyBudget | CkDailyLossCap | CkWeeklyLossCap | CkHourlyLossCap | CkFeeSpend
| CkMaxSingleBet | CkMarketExposure | CkTotalExposure | CkExposurePct | CkPotentialLossCap
| CkMaxPositions | CkWsConnectivity | CkMinBalance | CkDirectionalConcentration
| CkDailyDirectionalBudget | CkDuplicateMarket | CkDrawdownGuard | CkApiErrorRate.
#[global] Instance RiskCheckId_eq_dec : EqDecision RiskCheckId.
Proof. solve_decision. Defined.

(** [risk/types.rs:220-225] `RiskCheckKind` *)
Inductive RiskCheckKind := Gate | SizingConstraint.
#[global] Instance RiskCheckKind_eq_dec : EqDecision RiskCheckKind.
Proof. solve_decision. Defined.

(** [risk/types.rs:229-236] `RiskCheckResult` *)
Record RiskCheckResult := {
  check_id : RiskCheckId;
  cr_passed : bool;
  detail : option string;
  threshold : option string;
  actual : option string;
  elapsed_us : Z
}.

(** [risk/types.rs:242-251] `RiskCheckResult::passed` *)
Definition passed (id : RiskCheckId) : RiskCheckResult := {|
  check_id := id; cr_passed := true; detail := None; threshold := None; actual := None; elapsed_us := 0 |}.

(** [risk/types.rs:255-269] `RiskCheckResult::failed` *)
Definition failed (id : RiskCheckId) (det thr act : string) : RiskCheckResult := {|
  check_id := id; cr_passed := false; detail := Some det; threshold := Some thr; actual := Some act;
  elapsed_us := 0 |}.

(** [risk/types.rs:479-484] `PipelineReport` *)
Record PipelineReport := {
  pr_results : list RiskCheckResult;
  has_failed_hard_gate : bool;
  first_failure : option RiskCheckId;
  total_elapsed_us : Z
}.

(** [risk/types.rs:488-495] `PipelineReport::merge` *)
Definition merge (self other : PipelineReport) : PipelineReport := {|
  pr_results := pr_results self ++ pr_results other;
  has_failed_hard_gate := has_failed_hard_gate self || has_failed_hard_gate other;
  first_failure := match first_failure self with None => first_failure other | Some x => Some x end;
  total_elapsed_us := sat_u64 (total_elapsed_us self + total_elapsed_us other)
|}.

(** [risk/types.rs:358-362] `DrawdownAction` *)
Inductive DrawdownAction := DNormal | DReduce | DHalt.
#[global] Instance DrawdownAction_eq_dec : EqDecision DrawdownAction.
Proof. solve_decision. Defined.

(** [risk/types.rs:457-460] `BlacklistKey` *)
Inductive BlacklistKey := KMarket (m : MarketId) | KToken (t : TokenId).
#[global] Instance BlacklistKey_eq_dec : EqDecision BlacklistKey.
Proof. solve_decision. Defined.

Definition key_to_sum (k : BlacklistKey) : string + string :=
  match k with KMarket m => inl m | KToken t => inr t end.
Definition key_of_sum (s : string + string) : BlacklistKey :=
  match s with inl m => KMarket m | inr t => KToken t end.
#[global] Instance BlacklistKey_countable : Countable BlacklistKey.
Proof. apply (inj_countable' key_to_sum key_of_sum). by intros []. Defined.

(** [risk/context.rs:67-70] `CircuitBreakerGate` *)
Record CircuitBreakerGate := { cb_allows_trading : bool; cb_is_probe : bool }.

(** [risk/context.rs:74-77] `ManualHaltGate` *)
Inductive ManualHaltGate := HaltClear | HaltBlocked (reason : string).

(** [risk/context.rs:82-84] `ManualHaltGate::allows_trading` *)
Definition manual_allows_trading (g : ManualHaltGate) : bool :=
  match g with HaltClear => true | HaltBlocked _ => false end.

(** [risk/context.rs:87-92] `ManualHaltGate::denial_detail` *)
Definition manual_denial_detail (g : ManualHaltGate) : option string :=
  match g with HaltClear => None | HaltBlocked reason => Some reason end.

Section Data.
Context `{DO : DecimalOps}.

(** [risk/types.rs:302-310] `KellyResult` *)
Record KellyResult := {
  kr_bet_usd : D;
  kelly_raw : D;
  kelly_fractional : D;
  edge_bps : D;
  effective_win_prob : D;
  net_odds : D;
  binding_reason : string
}.

(** [risk/types.rs:314-317] `SizeConstraint` *)
Record SizeConstraint := { sc_name : string; sc_max_usd : D }.

(** [risk/types.rs:321-323] `SizeBreakdown` *)
Record SizeBreakdown := { constraints : list SizeConstraint }.

(** [risk/types.rs:327-332] `SizeResult` *)
Record SizeResult := {
  bet_usd : D;
  kelly_result : KellyResult;
  binding_constraint : string;
  breakdown : SizeBreakdown
}.

(** [risk/types.rs:336-353] `SizeResult::zero` *)
Definition SizeResult_zero : SizeResult := {|
  bet_usd := d0;
  kelly_result := {| kr_bet_usd := d0; kelly_raw := d0; kelly_fractional := d0; edge_bps := d0;
                     effective_win_prob := d0; net_odds := d0; binding_reason := "zero" |};
  binding_constraint := "zero";
  breakdown := {| constraints := [] |}
|}.

(** [risk/types.rs:371-380] `PeriodStats` *)
Record PeriodStats := {
  ps_loss : D;
  ps_fees : D;
  ps_pnl : D;
  ps_trade_count : Z;
  ps_success_count : Z;
  ps_miss_count : Z;
  ps_max_single_loss : D;
  ps_max_single_profit : D
}.

(** [risk/types.rs:370-371] `PeriodStats::default` *)
Definition PeriodStats_default : PeriodStats := {|
  ps_loss := d0; ps_fees := d0; ps_pnl := d0; ps_trade_count := 0; ps_success_count := 0;
  ps_miss_count := 0; ps_max_single_loss := d0; ps_max_single_profit := d0 |}.

(** [risk/types.rs:386-402] `ReconciliationMismatch` *)
Inductive ReconciliationMismatch :=
| BalanceDrift (internal external drift : D)
| PositionDrift (market_id : MarketId) (internal external drift : D)
| OrphanedReservation (reservation_id : ReservationId) (amount : D).

(** [risk/types.rs:407-412] `ReconciliationMismatch::drift_abs` *)
Definition drift_abs (m : ReconciliationMismatch) : D :=
  match m with
  | BalanceDrift _ _ drift | PositionDrift _ _ _ drift => dabs drift
  | OrphanedReservation _ amount => amount
  end.

(** [risk/types.rs:417-428] `ReconciliationReport` *)
Record ReconciliationReport := {
  rr_status : ReconciliationStatus;
  rr_mismatches : list ReconciliationMismatch;
  rr_internal_balance : D;
  rr_external_balance : D;
  rr_internal_exposure : D;
  rr_external_exposure : D;
  rr_reserved : D;
  rr_tolerance : D;
  rr_checked_at : Time;
  rr_duration_ms : Z
}.

(** [risk/types.rs:435-451] `ExecutionRiskEvent` *)
Inductive ExecutionRiskEvent :=
| EvFokFailure (market_id : MarketId) (token_id : TokenId) (consecutive : Z)
| EvTradeFailed (market_id : MarketId) (token_id : TokenId)
| EvDepthDrop (market_id : MarketId) (pct_drop : D)
| EvHeartbeatFailure
| EvHeartbeatSuccess.

(** [risk/types.rs:466-473] `PostTradeReport` *)
Record PostTradeReport := {
  pt_snapshot : RiskEngineState;
  daily_rolled : bool;
  weekly_rolled : bool;
  hourly_rolled : bool;
  breaker_tripped : option CircuitBreakerLevel;
  auto_blacklisted : option MarketId
}.

(** [risk/traits.rs:37-60] `RiskMetricsSnapshot` *)
Record RiskMetricsSnapshot := {
  ms_version : Z;
  cash_balance : D;
  position_mark_value : D;
  equity : D;
  ms_total_exposure : D;
  market_exposure : D;
  open_position_count : Z;
  active_reservation_count : Z;
  reserved_usd : D;
  open_directional_count_buy : Z;
  open_directional_count_sell : Z;
  daily_directional_trades_buy : Z;
  daily_directional_trades_sell : Z;
  consecutive_market_misses : Z;
  market_ws_disconnect_secs : Z;
  ms_ws_disconnect_secs : Z;
  api_error_count : Z;
  api_request_count : Z;
  is_stale : bool;
  metrics_age_secs : Z;
  is_authoritative : bool
}.

(** [risk/traits.rs:64-88] `RiskMetricsSnapshot::zeroed` *)
Definition metrics_zeroed : RiskMetricsSnapshot := {|
  ms_version := 0; cash_balance := d0; position_mark_value := d0; equity := d0; ms_total_exposure := d0;
  market_exposure := d0; open_position_count := 0; active_reservation_count := 0; reserved_usd := d0;
  open_directional_count_buy := 0; open_directional_count_sell := 0; daily_directional_trades_buy := 0;
  daily_directional_trades_sell := 0; consecutive_market_misses := 0; market_ws_disconnect_secs := 0;
  ms_ws_disconnect_secs := 0; api_error_count := 0; api_request_count := 0; is_stale := true;
  metrics_age_secs := u64_max; is_authoritative := false |}.

(** [risk/traits.rs:91-96] `RiskMetricsSnapshot::open_directional_count` *)
Definition open_directional_count (m : RiskMetricsSnapshot) (side : Side) : Z :=
  match side with Buy => open_directional_count_buy m | Sell => open_directional_count_sell m end.

(** [risk/traits.rs:99-104] `RiskMetricsSnapshot::daily_directional_trades` *)
Definition daily_directional_trades (m : RiskMetricsSnapshot) (side : Side) : Z :=
  match side with Buy => daily_directional_trades_buy m | Sell => daily_directional_trades_sell m end.

(** [risk/context.rs:26-29] `SizedIntent` *)
Record SizedIntent := { si_bet_usd : D; si_fee_usd : D }.

(** [risk/context.rs:120-124] `SettlementGateInput` *)
Record SettlementGateInput := {
  sg_mode : ExecutionMode;
  market_neg_risk : option bool;
  redeem_policy : option RedeemRoutingPolicy
}.
End Data.
