(* ===== verification/CircuitBreaker.v ===== *)
(** * Circuit breaker: [oxide-arb-risk/src/circuit_breaker.rs]

    The five-state breaker.  Each method is a function of the breaker and of the instant
    [now] its clock returns; [exec] runs a sequence of timed calls.  The abstract machine
    [edge] is the diagram of the module documentation on state names, and the detailed
    functions refine it.  Counters are [u32]: [+= 1] wraps, [saturating_add] saturates;
    durations are [u64] seconds. *)

From S2P Require Import Prelude Decimal Config Domain RiskTypes.

(** [risk/circuit_breaker.rs:29-36] `CircuitBreaker` *)
Record CircuitBreaker := {
  cb_config : CircuitBreakerConfig;
  cb_state : BreakerState;
  l2_trip_count : Z;
  heartbeat_failures : Z;
  last_transition_at : Time
}.

Definition set_state (cb : CircuitBreaker) (s : BreakerState) (now : Time) : CircuitBreaker := {|
  cb_config := cb_config cb; cb_state := s; l2_trip_count := l2_trip_count cb;
  heartbeat_failures := heartbeat_failures cb; last_transition_at := now |}.

Definition set_trip_count (cb : CircuitBreaker) (n : Z) : CircuitBreaker := {|
  cb_config := cb_config cb; cb_state := cb_state cb; l2_trip_count := n;
  heartbeat_failures := heartbeat_failures cb; last_transition_at := last_transition_at cb |}.

Definition set_heartbeat (cb : CircuitBreaker) (n : Z) : CircuitBreaker := {|
  cb_config := cb_config cb; cb_state := cb_state cb; l2_trip_count := l2_trip_count cb;
  heartbeat_failures := n; last_transition_at := last_transition_at cb |}.

(** [risk/circuit_breaker.rs:41-51] `CircuitBreaker::new` *)
Definition cb_new (config : CircuitBreakerConfig) (now : Time) : CircuitBreaker := {|
  cb_config := config; cb_state := Closed; l2_trip_count := 0; heartbeat_failures := 0;
  last_transition_at := now |}.

(** [risk/circuit_breaker.rs:57-59] `CircuitBreaker::set_config` *)
Definition cb_set_config (cb : CircuitBreaker) (config : CircuitBreakerConfig) : CircuitBreaker := {|
  cb_config := config; cb_state := cb_state cb; l2_trip_count := l2_trip_count cb;
  heartbeat_failures := heartbeat_failures cb; last_transition_at := last_transition_at cb |}.

(** [risk/circuit_breaker.rs:153-155] `CircuitBreaker::allows_trading` *)
Definition allows_trading (cb : CircuitBreaker) : bool := state_allows_trading (cb_state cb).

(** [risk/circuit_breaker.rs:159-161] `CircuitBreaker::is_probe_mode` *)
Definition is_probe_mode (cb : CircuitBreaker) : bool := state_is_probe_mode (cb_state cb).

(** [risk/circuit_breaker.rs:396-408] `CircuitBreaker::cooldown_for_level` *)
Definition cooldown_for_level (cb : CircuitBreaker) (level : CircuitBreakerLevel) : Z :=
  match level with
  | Trade => l1_cooldown_secs (cb_config cb)
  | Session =>
      let base := l2_cooldown_secs (cb_config cb) in
      let exponent := sat_u32 (l2_trip_count cb - 1) in
      let multiplied := sat_u64 (base * sat_pow2_u64 exponent) in
      Z.min multiplied (cb_max_cooldown_secs (cb_config cb))
  | Daily => l3_cooldown_secs (cb_config cb)
  | System => l4_cooldown_secs (cb_config cb)
  end.

Section Operations.
Context `{CH : Chrono}.

(** [chrono::Duration::seconds(to_i64(secs).unwrap_or(i64::MAX))] added to [now]. *)
Definition after_secs (now : Time) (secs : Z) : Time :=
  time_add now (duration_seconds (unwrap_or (to_i64 secs) i64_max)).

(** [risk/circuit_breaker.rs:169-206] `CircuitBreaker::trip` *)
Definition trip (cb : CircuitBreaker) (now : Time) (level : CircuitBreakerLevel) (reason : string)
    : CircuitBreaker :=
  let cooldown_until := after_secs now (cooldown_for_level cb level) in
  let cb :=
    if decide (level = Session) then set_trip_count cb (wrap_u32 (l2_trip_count cb + 1)) else cb in
  let should_trip :=
    match cb_state cb with
    | Halted _ _ _ => false
    | Closed | HalfOpen _ _ _ _ | Recovered _ _ => true
    | Open current_level _ _ _ => level_leb current_level level
    end in
  if should_trip then set_state cb (Open level reason now cooldown_until) now else cb.

(** [risk/circuit_breaker.rs:212-232] `CircuitBreaker::halt` *)
Definition halt (cb : CircuitBreaker) (now : Time) (level : CircuitBreakerLevel) (reason : string)
    : CircuitBreaker :=
  let should_halt :=
    match cb_state cb with
    | Halted current _ _ => negb (level_leb level current)
    | _ => true
    end in
  if should_halt then set_state cb (Halted level reason now) now else cb.

(** [risk/circuit_breaker.rs:238-253] `CircuitBreaker::acknowledge_and_resume` *)
Definition acknowledge_and_resume (cb : CircuitBreaker) (now : Time) : CircuitBreaker * bool :=
  match cb_state cb with
  | Halted _ _ _ => (set_trip_count (set_state cb Closed now) 0, true)
  | _ => (cb, false)
  end.

(** [risk/circuit_breaker.rs:261-294] `CircuitBreaker::tick` *)
Definition tick (cb : CircuitBreaker) (now : Time) : CircuitBreaker * bool :=
  match cb_state cb with
  | Open level _ _ cooldown_until =>
      if cooldown_until <=? now
      then (set_state cb (HalfOpen level now 0 (half_open_probes (cb_config cb))) now, true)
      else (cb, false)
  | Recovered _ observation_until =>
      if observation_until <=? now
      then (set_trip_count (set_state cb Closed now) 0, true)
      else (cb, false)
  | _ => (cb, false)
  end.

(** A state change that leaves the transition time alone: a probe count update in place. *)
Definition set_probes (cb : CircuitBreaker) (s : BreakerState) : CircuitBreaker :=
  set_state cb s (last_transition_at cb).

(** [risk/circuit_breaker.rs:297-346] `CircuitBreaker::on_trade_result` *)
Definition cb_on_trade_result (cb : CircuitBreaker) (now : Time) (success : bool) : CircuitBreaker :=
  match cb_state cb with
  | HalfOpen level entered_at successful_probes required_probes =>
      if success then
        let successful_probes := wrap_u32 (successful_probes + 1) in
        let cb := set_probes cb (HalfOpen level entered_at successful_probes required_probes) in
        if required_probes <=? successful_probes
        then set_state cb (Recovered now (after_secs now (recovery_observation_secs (cb_config cb)))) now
        else cb
      else
        let cooldown_secs := wrap_u64 (cooldown_for_level cb level * 2) in
        let cooldown_secs := Z.min cooldown_secs (cb_max_cooldown_secs (cb_config cb)) in
        set_state cb (Open level "probe trade failed in HalfOpen" now (after_secs now cooldown_secs)) now
  | _ => cb
  end.

(** [risk/circuit_breaker.rs:349-358] `CircuitBreaker::reset` *)
Definition reset (cb : CircuitBreaker) (now : Time) : CircuitBreaker :=
  set_trip_count (set_state cb Closed now) 0.

(** [risk/circuit_breaker.rs:371-380] `CircuitBreaker::on_heartbeat_failure` *)
Definition on_heartbeat_failure (cb : CircuitBreaker) (now : Time) (max_failures : Z)
    : CircuitBreaker * bool :=
  let cb := set_heartbeat cb (sat_u32 (heartbeat_failures cb + 1)) in
  if max_failures <=? heartbeat_failures cb then
    (halt cb now System (pretty (heartbeat_failures cb) +:+ " consecutive heartbeat failures"), true)
  else (cb, false).

(** [risk/circuit_breaker.rs:383-385] `CircuitBreaker::on_heartbeat_success` *)
Definition on_heartbeat_success (cb : CircuitBreaker) : CircuitBreaker := set_heartbeat cb 0.

(** [OxideError::Internal(message)]. *)
Inductive OxideError := Internal (msg : string).

Section FromSnapshot.
Context `{DO : DecimalOps}.

(** [risk/circuit_breaker.rs:66-143] `CircuitBreaker::from_snapshot` *)
Definition from_snapshot (config : CircuitBreakerConfig) (snapshot : RiskEngineState)
    : Result CircuitBreaker OxideError :=
  let? state :=
    match st_breaker_state snapshot with
    | NClosed => Ok Closed
    | NOpen =>
        let? level := ok_or (st_breaker_level snapshot)
          (Internal "corrupt breaker snapshot: Open state missing breaker_level") in
        let? reason := ok_or (st_halt_reason snapshot)
          (Internal "corrupt breaker snapshot: Open state missing halt_reason") in
        let? cooldown_until := ok_or (st_cooldown_until snapshot)
          (Internal "corrupt breaker snapshot: Open state missing cooldown_until") in
        Ok (Open level reason (st_snapshot_at snapshot) cooldown_until)
    | NHalfOpen =>
        let? level := ok_or (st_breaker_level snapshot)
          (Internal "corrupt breaker snapshot: HalfOpen state missing breaker_level") in
        Ok (HalfOpen level (st_snapshot_at snapshot) 0 (half_open_probes config))
    | NRecovered =>
        Ok (Recovered (st_snapshot_at snapshot)
              (after_secs (st_snapshot_at snapshot) (recovery_observation_secs config)))
    | NHalted =>
        let? level := ok_or (st_breaker_level snapshot)
          (Internal "corrupt breaker snapshot: Halted state missing breaker_level") in
        let? reason := ok_or (st_halt_reason snapshot)
          (Internal "corrupt breaker snapshot: Halted state missing halt_reason") in
        Ok (Halted level reason (st_snapshot_at snapshot))
    end in
  Ok {| cb_config := config; cb_state := state;
        l2_trip_count := unwrap_or (to_u32 (st_cooldown_multiplier snapshot)) 0;
        heartbeat_failures := 0; last_transition_at := st_snapshot_at snapshot |}.
End FromSnapshot.

(** ** Sequences of calls *)

Inductive op :=
| OpTrip (level : CircuitBreakerLevel) (reason : string)
| OpHalt (level : CircuitBreakerLevel) (reason : string)
| OpAck
| OpTick
| OpTradeResult (success : bool)
| OpReset
| OpHeartbeatFailure (max_failures : Z)
| OpHeartbeatSuccess
| OpSetConfig (config : CircuitBreakerConfig).

Definition apply_op (cb : CircuitBreaker) (now : Time) (o : op) : CircuitBreaker :=
  match o with
  | OpTrip level reason => trip cb now level reason
  | OpHalt level reason => halt cb now level reason
  | OpAck => (acknowledge_and_resume cb now).1
  | OpTick => (tick cb now).1
  | OpTradeResult success => cb_on_trade_result cb now success
  | OpReset => reset cb now
  | OpHeartbeatFailure max_failures => (on_heartbeat_failure cb now max_failures).1
  | OpHeartbeatSuccess => on_heartbeat_success cb
  | OpSetConfig config => cb_set_config cb config
  end.

Fixpoint exec (cb : CircuitBreaker) (calls : list (Time * op)) : CircuitBreaker :=
  match calls with
  | [] => cb
  | (now, o) :: rest => exec (apply_op cb now o) rest
  end.

(** The operator's interventions. *)
Definition is_operator (o : op) : bool := match o with OpAck | OpReset => true | _ => false end.

(** ** The abstract machine: the diagram of the documentation

    Labels say which event drives the edge. *)
Inductive edge : BreakerStateName -> op -> BreakerStateName -> Prop :=
| e_stay n o : edge n o n
| e_trip n l r : n <> NHalted -> edge n (OpTrip l r) NOpen
| e_halt n l r : edge n (OpHalt l r) NHalted
| e_heartbeat n k : edge n (OpHeartbeatFailure k) NHalted
| e_cooldown : edge NOpen OpTick NHalfOpen
| e_observed : edge NRecovered OpTick NClosed
| e_probes : edge NHalfOpen (OpTradeResult true) NRecovered
| e_probe_fail : edge NHalfOpen (OpTradeResult false) NOpen
| e_ack : edge NHalted OpAck NClosed
| e_reset n : edge n OpReset NClosed.

Inductive path : BreakerStateName -> list op -> BreakerStateName -> Prop :=
| p_nil n : path n [] n
| p_cons n o n' os n'' : edge n o n' -> path n' os n'' -> path n (o :: os) n''.

#[local] Hint Constructors edge path : oxide.

Lemma level_leb_refl l : level_leb l l = true.
Proof. by destruct l. Qed.

Lemma apply_op_edge cb now o : edge (to_name (cb_state cb)) o (to_name (cb_state (apply_op cb now o))).
Proof.
  destruct cb as [config st n h t].
  destruct o; simpl; unfold trip, halt, acknowledge_and_resume, tick, cb_on_trade_result,
    reset, on_heartbeat_failure, halt; simpl.
  all: destruct st; simpl; repeat (case_match; simpl); auto with oxide.
  all: try (constructor; discriminate); try done.
Qed.


(** The level of a halt never goes down without the operator. *)
Definition halted_at_least (l : CircuitBreakerLevel) (s : BreakerState) : Prop :=
  match s with Halted l' _ _ => level_leb l l' = true | _ => False end.

Lemma level_leb_trans a b c : level_leb a b = true -> level_leb b c = true -> level_leb a c = true.
Proof. unfold level_leb. rewrite !Z.leb_le. lia. Qed.

Lemma level_leb_total a b : level_leb a b = false -> level_leb b a = true.
Proof. unfold level_leb. rewrite Z.leb_gt, Z.leb_le. lia. Qed.

Lemma apply_op_halted cb now o l :
  halted_at_least l (cb_state cb) -> is_operator o = false ->
  halted_at_least l (cb_state (apply_op cb now o)).
Proof.
  destruct cb as [config st n h t]. destruct st as [| | | |lv r ht]; try done.
  intros Hl Ho. destruct o as [lv' r'|lv' r'| | | | |mf| |]; simpl in *; try done.
  - unfold trip; simpl. destruct (decide (lv' = Session)); done.
  - unfold halt; simpl. destruct (level_leb lv' lv) eqn:E; simpl; [done|].
    apply level_leb_total in E. eapply level_leb_trans; eauto.
  - unfold on_heartbeat_failure, halt; simpl. repeat (case_match; simpl); try done.
    all: zbool. all: by destruct l.
Qed.

(** A halt is sticky: from a [Halted] state of some level, any sequence of calls that contains
    no operator acknowledgement and no manual reset leaves the breaker halted at that level or a
    higher one, and trading stays blocked. *)
Theorem halted_until_operator (cb : CircuitBreaker) (l : CircuitBreakerLevel) calls :
  halted_at_least l (cb_state cb) ->
  forallb (fun c => negb (is_operator c.2)) calls = true ->
  halted_at_least l (cb_state (exec cb calls)) /\ allows_trading (exec cb calls) = false.
Proof.
  intros Hl Hops. assert (halted_at_least l (cb_state (exec cb calls))) as H.
  { revert cb Hl Hops. induction calls as [|[now o] calls IH]; intros cb Hl Hops; [done|].
    simpl in Hops. apply andb_true_iff in Hops as [Ho Hops]. apply negb_true_iff in Ho.
    simpl. apply IH; [by apply apply_op_halted | done]. }
  split; [done|]. unfold allows_trading. by destruct (cb_state (exec cb calls)).
Qed.

(** ** Cooldowns *)

Definition config_wf (c : CircuitBreakerConfig) : Prop :=
  0 <= l1_cooldown_secs c /\ 0 <= l2_cooldown_secs c /\ 0 <= l3_cooldown_secs c /\
  0 <= l4_cooldown_secs c /\ 0 <= half_open_probes c <= u32_max /\
  0 <= recovery_observation_secs c <= i64_max / 1000 /\
  0 <= cb_max_cooldown_secs c <= i64_max / 1000.

Lemma sat_pow2_mono a b : 0 <= a <= b -> sat_pow2_u64 a <= sat_pow2_u64 b.
Proof.
  intros H. unfold sat_pow2_u64. destruct (Z.ltb_spec a 64), (Z.ltb_spec b 64); try lia.
  - apply Z.pow_le_mono_r; lia.
  - assert (2 ^ a <= 2 ^ 63) by (apply Z.pow_le_mono_r; lia). unfold u64_max. lia.
Qed.

Lemma sat_pow2_pos a : 0 <= a -> 1 <= sat_pow2_u64 a.
Proof. intros. change 1 with (sat_pow2_u64 0) at 1. apply sat_pow2_mono. lia. Qed.

Definition session_cooldown (c : CircuitBreakerConfig) (count : Z) : Z :=
  Z.min (sat_u64 (l2_cooldown_secs c * sat_pow2_u64 (sat_u32 (count - 1)))) (cb_max_cooldown_secs c).

Lemma session_cooldown_range c n : config_wf c -> 0 <= session_cooldown c n <= cb_max_cooldown_secs c.
Proof.
  intros (_ & H2 & _ & _ & _ & _ & Hm). unfold session_cooldown.
  pose proof (sat_pow2_pos (sat_u32 (n - 1))) as Hp.
  assert (0 <= sat_u32 (n - 1)) by (unfold_ints; lia).
  assert (0 <= l2_cooldown_secs c * sat_pow2_u64 (sat_u32 (n - 1))) by nia. unfold_ints. lia.
Qed.

(** The exponential back-off never shrinks as trips accumulate. *)
Lemma session_cooldown_mono c a b : config_wf c -> a <= b -> session_cooldown c a <= session_cooldown c b.
Proof.
  intros (_ & H2 & _ & _ & _ & _ & Hm) Hab. unfold session_cooldown.
  assert (0 <= sat_u32 (a - 1) <= sat_u32 (b - 1)) as Hs by (unfold_ints; lia).
  pose proof (sat_pow2_mono _ _ Hs). 
  assert (l2_cooldown_secs c * sat_pow2_u64 (sat_u32 (a - 1)) <= l2_cooldown_secs c * sat_pow2_u64 (sat_u32 (b - 1))) by nia.
  unfold_ints. lia.
Qed.

(** The session cooldown is the exponential back-off capped by the configured maximum: with
    [k] trips already counted it is [min (l2 * 2^(k-1), max)] whenever the product fits 64 bits
    (the first two trips, [k = 0, 1], both wait the base time), and it never exceeds the cap. *)
Theorem session_backoff_formula (cb : CircuitBreaker) :
  config_wf (cb_config cb) -> 0 <= l2_trip_count cb <= u32_max ->
  let k := Z.max 0 (l2_trip_count cb - 1) in
  0 <= cooldown_for_level cb Session <= cb_max_cooldown_secs (cb_config cb) /\
  (k < 64 -> l2_cooldown_secs (cb_config cb) * 2 ^ k <= u64_max ->
   cooldown_for_level cb Session = Z.min (l2_cooldown_secs (cb_config cb) * 2 ^ k) (cb_max_cooldown_secs (cb_config cb))).
Proof.
  intros Hwf Hn k. split; [by apply (session_cooldown_range _ (l2_trip_count cb))|].
  intros Hk Hfit. simpl. assert (sat_u32 (l2_trip_count cb - 1) = k) as -> by (unfold k; unfold_ints; lia).
  unfold sat_pow2_u64. rewrite (proj2 (Z.ltb_lt k 64)) by done.
  f_equal. destruct Hwf as (_ & H2 & _).
  assert (0 <= 2 ^ k) by (apply Z.pow_nonneg; lia). unfold sat_u64. apply clampZ_id. nia.
Qed.

Lemma after_secs_val now s :
  Z.abs now <= chrono_span -> 0 <= s <= i64_max / 1000 -> now + s * nanos_per_sec <= chrono_span ->
  after_secs now s = now + s * nanos_per_sec.
Proof.
  intros. unfold after_secs. rewrite unwrap_i64_in; [by apply time_add_seconds|].
  unfold_ints. assert (9223372036854775807 / 1000 <= 9223372036854775807) by (vm_compute; discriminate). lia.
Qed.

(** The calls the engine makes while a session trip is cooling down: session trips, halts, ticks,
    trade results and heartbeats. *)
Definition session_call (o : op) : bool :=
  match o with
  | OpTrip Session _ | OpHalt _ _ | OpTick | OpTradeResult _ | OpHeartbeatFailure _ | OpHeartbeatSuccess => true
  | _ => false
  end.

(** Blocked until [deadline]: open at session level with at least that deadline, or halted. *)
Definition blocked_until (config : CircuitBreakerConfig) (deadline k : Z) (cb : CircuitBreaker) : Prop :=
  cb_config cb = config /\ k <= l2_trip_count cb /\
  match cb_state cb with
  | Open Session _ _ c => deadline <= c
  | Halted _ _ _ => True
  | _ => False
  end.

Lemma apply_op_blocked config deadline k t0 cb now o :
  config_wf config -> 0 <= k -> l2_trip_count cb + 1 <= u32_max ->
  deadline <= t0 + session_cooldown config k * nanos_per_sec ->
  Z.abs now <= chrono_span -> t0 <= now < deadline ->
  now + cb_max_cooldown_secs config * nanos_per_sec <= chrono_span ->
  session_call o = true -> blocked_until config deadline k cb ->
  blocked_until config deadline k (apply_op cb now o) /\
  l2_trip_count (apply_op cb now o) <= l2_trip_count cb + 1.
Proof.
  intros Hwf Hk Hcnt Hdl Habs Hnow Hspan Ho (Hc & Hn & Hst). destruct cb as [cfg st n h t]; simpl in *. subst cfg.
  assert (deadline <= after_secs now (session_cooldown config n)) as Hnew.
  { pose proof (session_cooldown_range config n Hwf). pose proof (session_cooldown_mono config k n Hwf Hn).
    rewrite after_secs_val; [|done|destruct Hwf as (_&_&_&_&_&_&?); lia|unfold nanos_per_sec in *; nia].
    unfold nanos_per_sec in *. nia. }
  assert (wrap_u32 (n + 1) = n + 1) as Hw by (apply wrap_u32_id; unfold_ints; lia).
  destruct st as [|[] ? ? c| | |]; try done;
    destruct o as [[]| | | | | | | |]; try done; unfold blocked_until; simpl;
    unfold trip, halt, tick, cb_on_trade_result, on_heartbeat_failure, halt; simpl; rewrite ?Hw.
  all: repeat (case_match; simpl); simplify_eq; zbool; repeat split; try done; try lia.
Qed.

(** A session trip blocks trading for its whole cooldown: after a trip at [t0], no sequence
    of session trips, halts, ticks, trade results and heartbeats made before the cooldown is over
    lets trading resume. *)
Theorem cooldown_blocks_trading (cb : CircuitBreaker) (t0 : Time) (reason : string) calls :
  config_wf (cb_config cb) -> state_is_halted (cb_state cb) = false ->
  (forall l r a c, cb_state cb = Open l r a c -> level_leb l Session = true) ->
  0 <= l2_trip_count cb -> l2_trip_count cb + 1 + Z.of_nat (length calls) <= u32_max ->
  Z.abs t0 + 2 * cb_max_cooldown_secs (cb_config cb) * nanos_per_sec <= chrono_span ->
  let cooldown := cooldown_for_level cb Session * nanos_per_sec in
  Forall (fun c => t0 <= c.1 < t0 + cooldown /\ session_call c.2 = true) calls ->
  allows_trading (exec (trip cb t0 Session reason) calls) = false.
Proof.
  intros Hwf Hnh Hopen Hn0 Hcnt Hspan cooldown Hcalls.
  set (config := cb_config cb) in *. set (k := l2_trip_count cb) in *.
  pose proof (session_cooldown_range config k Hwf) as Hr.
  assert (cb_max_cooldown_secs config <= i64_max / 1000) as Hmax by apply Hwf.
  assert (after_secs t0 (session_cooldown config k) = t0 + cooldown) as Hafter.
  { rewrite after_secs_val; [done|unfold nanos_per_sec in *; lia|lia|unfold nanos_per_sec in *; lia]. }
  assert (blocked_until config (t0 + cooldown) k (trip cb t0 Session reason) /\
          l2_trip_count (trip cb t0 Session reason) = k + 1) as [Hb Hk].
  { assert (wrap_u32 (k + 1) = k + 1) as Hw by (apply wrap_u32_id; unfold_ints; lia).
    unfold trip. rewrite decide_True by done. change (cb_state (set_trip_count _ _)) with (cb_state cb).
    change (l2_trip_count cb) with k. rewrite Hw.
    assert (forall s, blocked_until config (t0 + cooldown) k
      (set_state (set_trip_count cb (k + 1)) (Open Session s t0 (after_secs t0 (cooldown_for_level cb Session))) t0)) as Hnew.
    { intros s. unfold blocked_until. simpl. repeat split; [lia|]. 
      change (Z.min _ _) with (session_cooldown config k). rewrite Hafter. lia. }
    destruct (cb_state cb) as [|l r a c| | |] eqn:E; try done.
    rewrite (Hopen l r a c eq_refl). done. }
  assert (forall cb', blocked_until config (t0 + cooldown) k cb' ->
            l2_trip_count cb' + Z.of_nat (length calls) <= u32_max ->
            exists d, blocked_until config d k (exec cb' calls)) as Hind.
  { assert (cooldown = session_cooldown config k * nanos_per_sec) as Hcd by reflexivity.
    clearbody cooldown. clear Hb Hk Hcnt. induction Hcalls as [|[now o] calls [Ht Ho] Hcalls IH]; intros cb' Hb Hl; [by eexists|].
    simpl in *.
    destruct (apply_op_blocked config (t0 + cooldown) k t0 cb' now o) as [Hb' Hl'];
      try done; try (unfold nanos_per_sec in *; lia).
    apply IH; [done | lia]. }
  destruct (Hind _ Hb) as [d (_ & _ & Hfin)]; [lia|].
  unfold allows_trading. destruct (cb_state (exec _ calls)) as [|[]| | |]; done.
Qed.

(** ** Recovery *)

Lemma exec_app cb l1 l2 : exec cb (l1 ++ l2) = exec (exec cb l1) l2.
Proof. revert cb. induction l1 as [|[now o] l1 IH]; intros cb; simpl; [done|apply IH]. Qed.

(** [n] successful probes in a row, each before the requirement is met, count up to [p + n]. *)
Lemma exec_probes cb now n : forall level e p req,
  cb_state cb = HalfOpen level e p req -> 0 <= p -> p + Z.of_nat n < req -> req <= u32_max ->
  let cb' := exec cb (replicate n (now, OpTradeResult true)) in
  cb_state cb' = HalfOpen level e (p + Z.of_nat n) req /\ cb_config cb' = cb_config cb.
Proof.
  revert cb. induction n as [|n IH]; intros cb level e p req Hst Hp Hlt Hreq; simpl.
  - by rewrite Z.add_0_r.
  - unfold cb_on_trade_result. rewrite Hst. rewrite wrap_u32_id by (unfold_ints; lia).
    destruct (Z.leb_spec req (p + 1)); [lia|].
    specialize (IH (set_probes cb (HalfOpen level e (p + 1) req)) level e (p + 1) req eq_refl).
    destruct IH as [IH1 IH2]; [lia..|]. rewrite IH1, IH2. split; [f_equal; lia | done].
Qed.

Lemma probe_completes cb now level e p req :
  cb_state cb = HalfOpen level e p req -> 0 <= p -> p + 1 <= u32_max -> req <= p + 1 ->
  cb_state (cb_on_trade_result cb now true) =
    Recovered now (after_secs now (recovery_observation_secs (cb_config cb))).
Proof.
  intros Hst Hp Hu Hreq. unfold cb_on_trade_result. rewrite Hst, wrap_u32_id by (unfold_ints; lia).
  rewrite (proj2 (Z.leb_le req (p + 1))) by done. done.
Qed.

(** The automatic recovery completes: an open breaker whose cooldown is over takes a tick to
    half-open, the configured number of successful probes to recovered, and a tick after the
    observation period back to closed with its trip counter cleared, trading allowed. *)
Theorem recovery_completes (cb : CircuitBreaker) level reason a c (t1 t2 t3 : Time) :
  config_wf (cb_config cb) -> cb_state cb = Open level reason a c ->
  1 <= half_open_probes (cb_config cb) -> c <= t1 ->
  Z.abs t2 <= chrono_span ->
  t2 + recovery_observation_secs (cb_config cb) * nanos_per_sec <= Z.min t3 chrono_span ->
  let probes := Z.to_nat (half_open_probes (cb_config cb)) in
  let final := exec cb ((t1, OpTick) :: replicate probes (t2, OpTradeResult true) ++ [(t3, OpTick)]) in
  cb_state final = Closed /\ l2_trip_count final = 0 /\ allows_trading final = true.
Proof.
  intros Hwf Hst Hprobes Hc Ht2 Ht3 probes final.
  assert (0 <= half_open_probes (cb_config cb) <= u32_max) as Hu by apply Hwf.
  set (h := half_open_probes (cb_config cb)) in *.
  set (cb1 := set_state cb (HalfOpen level t1 0 h) t1).
  assert (final = exec cb1 (replicate probes (t2, OpTradeResult true) ++ [(t3, OpTick)])) as ->.
  { unfold final. simpl. unfold tick. rewrite Hst. rewrite (proj2 (Z.leb_le c t1)) by done. done. }
  replace probes with (Z.to_nat (h - 1) + 1)%nat by (unfold probes; lia).
  rewrite replicate_add, <- app_assoc, exec_app.
  destruct (exec_probes cb1 t2 (Z.to_nat (h - 1)) level t1 0 h) as [H1 H2]; [done | lia..|].
  set (cb2 := exec cb1 _) in *. simpl.
  unfold tick. rewrite (probe_completes cb2 t2 _ _ _ _ H1) by (unfold_ints; lia).
  rewrite H2, after_secs_val; [|done|apply Hwf|]; simpl.
  - rewrite (proj2 (Z.leb_le _ t3)) by lia. done.
  - change (cb_config cb1) with (cb_config cb). lia.
Qed.

(** Consecutive heartbeat failures end in a system halt: after [max_failures] of them, with no
    success in between, the breaker is halted at the highest level, whatever its state was. *)
Theorem heartbeats_halt (cb : CircuitBreaker) (times : list Time) (max_failures : Z) :
  heartbeat_failures cb = 0 -> 1 <= max_failures <= u32_max ->
  Z.of_nat (length times) = max_failures ->
  let final := exec cb ((fun t => (t, OpHeartbeatFailure max_failures)) <$> times) in
  halted_at_least System (cb_state final) /\ allows_trading final = false.
Proof.
  intros H0 Hm Hlen final.
  assert (forall ts c, 0 <= heartbeat_failures c -> heartbeat_failures c + Z.of_nat (length ts) = max_failures ->
      ts <> [] ->
      halted_at_least System (cb_state (exec c ((fun t => (t, OpHeartbeatFailure max_failures)) <$> ts)))) as Hgen.
  { induction ts as [|t ts IH]; intros c Hc Hs Hne; [done|]. simpl in *.
    assert (sat_u32 (heartbeat_failures c + 1) = heartbeat_failures c + 1) as Hsat by (unfold_ints; lia).
    unfold on_heartbeat_failure; simpl. rewrite Hsat. destruct ts as [|t' ts].
    - simpl. destruct (Z.leb_spec max_failures (heartbeat_failures c + 1)); [|simpl in Hs; lia].
      unfold halt; simpl. destruct (cb_state c) as [| | | |[] ? ?] eqn:E; simpl; by rewrite ?E.
    - destruct (Z.leb_spec max_failures (heartbeat_failures c + 1)); [simpl in Hs; lia|].
      apply IH; simpl in *; [lia | lia | done]. }
  assert (halted_at_least System (cb_state final)) as Hf.
  { apply Hgen; [lia | lia | intros ->; simpl in Hlen; lia]. }
  split; [done|]. unfold allows_trading. by destruct (cb_state final).
Qed.

Section Restore.
Context `{DO : DecimalOps}.

(** Recovery is fail-closed: restoring a snapshot succeeds exactly when the fields its state
    needs are present, the restored breaker is in the persisted state, and it allows trading only
    if the persisted state was closed or half-open. *)
Theorem from_snapshot_fail_closed (config : CircuitBreakerConfig) (s : RiskEngineState) :
  match from_snapshot config s with
  | Ok cb =>
      to_name (cb_state cb) = st_breaker_state s /\
      (allows_trading cb = true <-> st_breaker_state s = NClosed \/ st_breaker_state s = NHalfOpen)
  | Err _ =>
      (st_breaker_state s = NOpen /\
         (st_breaker_level s = None \/ st_halt_reason s = None \/ st_cooldown_until s = None)) \/
      (st_breaker_state s = NHalfOpen /\ st_breaker_level s = None) \/
      (st_breaker_state s = NHalted /\ (st_breaker_level s = None \/ st_halt_reason s = None))
  end.
Proof.
  unfold from_snapshot, allows_trading.
  destruct (st_breaker_state s), (st_breaker_level s), (st_halt_reason s), (st_cooldown_until s);
    simpl; intuition (done || congruence).
Qed.
End Restore.
End Operations.

(** ** Witnesses *)

Definition demo_breaker : CircuitBreaker := cb_new CircuitBreakerConfig_default 0.

Lemma config_default_wf : config_wf CircuitBreakerConfig_default.
Proof. unfold config_wf; simpl. unfold_ints. repeat split; try lia; vm_compute; discriminate. Qed.

Lemma halted_until_operator_witness :
  allows_trading (exec (halt demo_breaker 0 Daily "cap") [(1, OpTick); (2, OpTrip Session "misses"); (3, OpTradeResult true)]) = false.
Proof. apply (halted_until_operator _ Daily); vm_compute; reflexivity. Defined.

Lemma session_backoff_formula_witness :
  cooldown_for_level (set_trip_count demo_breaker 3) Session = Z.min (900 * 2 ^ 2) 14400.
Proof.
  apply (session_backoff_formula (set_trip_count demo_breaker 3));
    [apply config_default_wf | unfold_ints; simpl; lia | simpl; lia | vm_compute; discriminate].
Defined.

Lemma cooldown_blocks_trading_witness :
  allows_trading (exec (trip demo_breaker 1000 Session "misses")
     [(2000, OpTick); (3000, OpTrip Session "again"); (800 * nanos_per_sec, OpTick)]) = false.
Proof.
  apply cooldown_blocks_trading;
    [apply config_default_wf | reflexivity | intros; discriminate | vm_compute; discriminate
    | vm_compute; discriminate | vm_compute; discriminate |].
  repeat (apply Forall_cons; split; [split; [split; [vm_compute; discriminate | vm_compute; reflexivity] | reflexivity]|]).
  apply Forall_nil, I.
Defined.

Lemma recovery_completes_witness :
  cb_state (exec (trip demo_breaker 0 Session "misses")
     ((900 * nanos_per_sec, OpTick) :: replicate 2 (901 * nanos_per_sec, OpTradeResult true) ++ [(1201 * nanos_per_sec, OpTick)])) = Closed.
Proof.
  apply (recovery_completes (trip demo_breaker 0 Session "misses") Session "misses" 0 (900 * nanos_per_sec)
           (900 * nanos_per_sec) (901 * nanos_per_sec) (1201 * nanos_per_sec));
    [apply config_default_wf | reflexivity | vm_compute; discriminate ..].
Defined.

Lemma heartbeats_halt_witness :
  allows_trading (exec demo_breaker ((fun t => (t, OpHeartbeatFailure 3)) <$> [1; 2; 3])) = false.
Proof. apply (heartbeats_halt demo_breaker [1; 2; 3] 3); [done | unfold_ints; lia | done]. Defined.
