(* ===== verification/Accounting.v ===== *)
(** * Period accounting: [oxide-arb-risk/src/accounting/{daily,weekly,hourly}.rs]

    Accumulators that reset when the clock enters a new day, ISO week or hour.  The instant
    [now] is the reading of the clock in the operation; [clock.today()] is its date.
    [u32] counters are incremented with [+=].  The theorems compare the accumulators with
    the sums of the trades of the current window. *)

From S2P Require Import Prelude Decimal Config Domain RiskTypes.

Section Stats.
Context `{DO : DecimalOps}.

(** [risk/accounting/daily.rs:65-72] `DailyAccounting::record_trade` (counters): the updates the three
    accumulators share: trade count, profit, fees and the outcome counters. *)
Definition record_counts (s : PeriodStats) (net_profit fees : D) (outcome : TradeBusinessOutcome) : PeriodStats := {|
  ps_loss := ps_loss s;
  ps_fees := dadd (ps_fees s) fees;
  ps_pnl := dadd (ps_pnl s) net_profit;
  ps_trade_count := wrap_u32 (ps_trade_count s + 1);
  ps_success_count := match outcome with Success => wrap_u32 (ps_success_count s + 1) | _ => ps_success_count s end;
  ps_miss_count := match outcome with Miss => wrap_u32 (ps_miss_count s + 1) | _ => ps_miss_count s end;
  ps_max_single_loss := ps_max_single_loss s;
  ps_max_single_profit := ps_max_single_profit s
|}.

Definition with_loss (s : PeriodStats) (loss max_loss max_profit : D) : PeriodStats := {|
  ps_loss := loss; ps_fees := ps_fees s; ps_pnl := ps_pnl s; ps_trade_count := ps_trade_count s;
  ps_success_count := ps_success_count s; ps_miss_count := ps_miss_count s;
  ps_max_single_loss := max_loss; ps_max_single_profit := max_profit |}.

(** [risk/accounting/daily.rs:73-79] `DailyAccounting::record_trade` (loss) *)
Definition record_extremes (s : PeriodStats) (net_profit : D) : PeriodStats :=
  if dltb net_profit d0 then
    let abs_loss := dabs net_profit in
    with_loss s (dadd (ps_loss s) abs_loss) (dmax (ps_max_single_loss s) abs_loss) (ps_max_single_profit s)
  else
    with_loss s (ps_loss s) (ps_max_single_loss s) (dmax (ps_max_single_profit s) net_profit).
End Stats.

Module Day.
Section Day.
Context `{DO : DecimalOps} `{CH : Chrono}.

(** [risk/accounting/daily.rs:9-15] `DailyAccounting` *)
Record DailyAccounting := {
  da_window_start : Date;
  da_stats : PeriodStats;
  budget_remaining : D;
  initial_budget : D
}.

(** [risk/accounting/daily.rs:19-27] `DailyAccounting::new` *)
Definition daily_new (budget : D) (now : Time) : DailyAccounting := {|
  da_window_start := date_naive now; da_stats := PeriodStats_default;
  budget_remaining := budget; initial_budget := budget |}.

(** [risk/accounting/daily.rs:30-44] `DailyAccounting::from_snapshot` *)
Definition daily_from_snapshot (window_start : Date) (stats : PeriodStats) (budget spent : D) : DailyAccounting := {|
  da_window_start := window_start; da_stats := stats;
  budget_remaining := dsub budget spent; initial_budget := budget |}.

(** [risk/accounting/daily.rs:128-130] `DailyAccounting::budget_spent` *)
Definition budget_spent (a : DailyAccounting) : D := dsub (initial_budget a) (budget_remaining a).

(** [risk/accounting/daily.rs:51-55] `DailyAccounting::set_budget` *)
Definition set_budget (a : DailyAccounting) (budget : D) : DailyAccounting :=
  let spent := budget_spent a in
  {| da_window_start := da_window_start a; da_stats := da_stats a;
     budget_remaining := dmax (dsub budget spent) d0; initial_budget := budget |}.

(** [risk/accounting/daily.rs:132-148] `DailyAccounting::maybe_rollover` *)
Definition daily_maybe_rollover (a : DailyAccounting) (now : Time) : DailyAccounting * bool :=
  let today := date_naive now in
  if da_window_start a <? today then
    ({| da_window_start := today; da_stats := PeriodStats_default;
        budget_remaining := initial_budget a; initial_budget := initial_budget a |}, true)
  else (a, false).

(** [risk/accounting/daily.rs:57-82] `DailyAccounting::record_trade` *)
Definition daily_record_trade (a : DailyAccounting) (now : Time) (net_profit fees cost : D)
    (outcome : TradeBusinessOutcome) : DailyAccounting * bool :=
  let (a, rolled) := daily_maybe_rollover a now in
  let stats := record_extremes (record_counts (da_stats a) net_profit fees outcome) net_profit in
  ({| da_window_start := da_window_start a; da_stats := stats;
      budget_remaining := dsub (budget_remaining a) cost; initial_budget := initial_budget a |}, rolled).

(** [risk/accounting/daily.rs:86-88] `DailyAccounting::daily_loss` *)
Definition daily_loss (a : DailyAccounting) : D := ps_loss (da_stats a).
(** [risk/accounting/daily.rs:92-94] `DailyAccounting::daily_pnl` *)
Definition daily_pnl (a : DailyAccounting) : D := ps_pnl (da_stats a).
(** [risk/accounting/daily.rs:98-100] `DailyAccounting::fees` *)
Definition daily_fees (a : DailyAccounting) : D := ps_fees (da_stats a).
(** [risk/accounting/daily.rs:110-112] `DailyAccounting::is_budget_exhausted` *)
Definition is_budget_exhausted (a : DailyAccounting) : bool := dleb (budget_remaining a) d0.
End Day.
End Day.

Module Week.
Section Week.
Context `{DO : DecimalOps} `{CH : Chrono}.

(** [risk/accounting/weekly.rs:9-13] `WeeklyAccounting` *)
Record WeeklyAccounting := { week_start : Date; wa_stats : PeriodStats }.

(** [risk/accounting/weekly.rs:95-99] `WeeklyAccounting::current_monday_from` *)
Definition current_monday (now : Time) : Date :=
  let today := date_naive now in today - weekday_from_monday today.

(** [risk/accounting/weekly.rs:17-24] `WeeklyAccounting::new` *)
Definition weekly_new (now : Time) : WeeklyAccounting := {|
  week_start := current_monday now; wa_stats := PeriodStats_default |}.

(** [risk/accounting/weekly.rs:27-33] `WeeklyAccounting::from_snapshot` *)
Definition weekly_from_snapshot (week_start : Date) (stats : PeriodStats) : WeeklyAccounting := {|
  week_start := week_start; wa_stats := stats |}.

(** [risk/accounting/weekly.rs:74-89] `WeeklyAccounting::maybe_rollover` *)
Definition weekly_maybe_rollover (a : WeeklyAccounting) (now : Time) : WeeklyAccounting * bool :=
  let monday := current_monday now in
  if week_start a <? monday then ({| week_start := monday; wa_stats := PeriodStats_default |}, true)
  else (a, false).

(** [risk/accounting/weekly.rs:35-54] `WeeklyAccounting::record_trade` *)
Definition weekly_record_trade (a : WeeklyAccounting) (now : Time) (net_profit fees : D)
    (outcome : TradeBusinessOutcome) : WeeklyAccounting * bool :=
  let (a, rolled) := weekly_maybe_rollover a now in
  let stats := record_counts (wa_stats a) net_profit fees outcome in
  let stats := if dltb net_profit d0
    then with_loss stats (dadd (ps_loss stats) (dabs net_profit)) (ps_max_single_loss stats) (ps_max_single_profit stats)
    else stats in
  ({| week_start := week_start a; wa_stats := stats |}, rolled).

(** [risk/accounting/weekly.rs:58-60] `WeeklyAccounting::weekly_loss` *)
Definition weekly_loss (a : WeeklyAccounting) : D := ps_loss (wa_stats a).
End Week.
End Week.

Module Hour.
Section Hour.
Context `{DO : DecimalOps} `{CH : Chrono}.

(** [risk/accounting/hourly.rs:9-14] `HourlyAccounting` *)
Record HourlyAccounting := { window_start_hour : Z; window_start_date : Date; ha_stats : PeriodStats }.

(** [risk/accounting/hourly.rs:18-26] `HourlyAccounting::new` *)
Definition hourly_new (now : Time) : HourlyAccounting := {|
  window_start_hour := hour_of now; window_start_date := date_naive now; ha_stats := PeriodStats_default |}.

(** [risk/accounting/hourly.rs:29-41] `HourlyAccounting::from_snapshot` *)
Definition hourly_from_snapshot (hour : Z) (date : Date) (stats : PeriodStats) : HourlyAccounting := {|
  window_start_hour := hour; window_start_date := date; ha_stats := stats |}.

(** [risk/accounting/hourly.rs:116-119] `HourlyAccounting::should_rollover` *)
Definition should_rollover (a : HourlyAccounting) (now : Time) : bool :=
  negb (date_naive now =? window_start_date a) || negb (hour_of now =? window_start_hour a).

(** [risk/accounting/hourly.rs:86-106] `HourlyAccounting::maybe_rollover` *)
Definition hourly_maybe_rollover (a : HourlyAccounting) (now : Time) : HourlyAccounting * bool :=
  if should_rollover a now then
    ({| window_start_hour := hour_of now; window_start_date := date_naive now; ha_stats := PeriodStats_default |}, true)
  else (a, false).

(** [risk/accounting/hourly.rs:43-66] `HourlyAccounting::record_trade` *)
Definition hourly_record_trade (a : HourlyAccounting) (now : Time) (net_profit fees : D)
    (outcome : TradeBusinessOutcome) : HourlyAccounting * bool :=
  let (a, rolled) := hourly_maybe_rollover a now in
  let stats := record_extremes (record_counts (ha_stats a) net_profit fees outcome) net_profit in
  ({| window_start_hour := window_start_hour a; window_start_date := window_start_date a; ha_stats := stats |}, rolled).

(** [risk/accounting/hourly.rs:70-72] `HourlyAccounting::hourly_loss` *)
Definition hourly_loss (a : HourlyAccounting) : D := ps_loss (ha_stats a).
(** [risk/accounting/hourly.rs:76-78] `HourlyAccounting::fees` *)
Definition hourly_fees (a : HourlyAccounting) : D := ps_fees (ha_stats a).

(** [risk/accounting/hourly.rs:109-114] `HourlyAccounting::window_start` *)
Definition hourly_window_start (a : HourlyAccounting) : Time :=
  date_hour_start (window_start_date a) (window_start_hour a).
End Hour.
End Hour.

Export Day Week Hour.

(** ** Windowed sums

    An accumulator over windows identified by an increasing integer key: a recorded item of
    the current window adds its amount, an item of a later window starts again from [base].
    After items with non-decreasing keys the accumulator holds [base] plus the sum of the
    items of the last window (plus what it held, if that window is the initial one). *)

Section Windowed.
Context {St T : Type} (key : T -> Z) (amount : T -> Z) (rec : St -> T -> St).
Context (win : St -> Z) (holds : St -> Z -> Prop) (base : Z).
Context (rec_same : forall s t m, key t = win s -> holds s m -> fits (m + amount t) ->
  win (rec s t) = win s /\ holds (rec s t) (m + amount t)).
Context (rec_new : forall s t m, win s < key t -> holds s m -> fits (base + amount t) ->
  win (rec s t) = key t /\ holds (rec s t) (base + amount t)).

Fixpoint ordered (w : Z) (l : list T) : Prop :=
  match l with [] => True | t :: l => w <= key t /\ ordered (key t) l end.

Definition final_window (w : Z) (l : list T) : Z := foldl (fun _ t => key t) w l.

Definition window_total (k : Z) (l : list T) : Z :=
  sumZ (fun t => if key t =? k then amount t else 0) l.

(** The largest magnitude any partial sum can have is on the money grid. *)
Definition sums_fit (m : Z) (l : list T) : Prop :=
  Z.max (Z.abs m) (Z.abs base) + sumZ (fun t => Z.abs (amount t)) l < 10 ^ 28.

Lemma sums_fit_cons m t l : sums_fit m (t :: l) ->
  fits (m + amount t) /\ fits (base + amount t) /\ sums_fit (m + amount t) l /\ sums_fit (base + amount t) l.
Proof.
  unfold sums_fit, fits. change (sumZ (fun t => Z.abs (amount t)) (t :: l))
    with (Z.abs (amount t) + sumZ (fun t => Z.abs (amount t)) l).
  assert (0 <= sumZ (fun t => Z.abs (amount t)) l).
  { apply sumZ_nonneg, Forall_forall. intros; lia. }
  lia.
Qed.

Lemma final_window_ge w l : ordered w l -> w <= final_window w l.
Proof.
  revert w. induction l as [|t l IH]; intros w; simpl; [unfold final_window; simpl; lia|].
  intros [H1 H2]. apply IH in H2. unfold final_window in *. simpl. lia.
Qed.

Lemma windowed_sum s m l :
  holds s m -> ordered (win s) l -> sums_fit m l ->
  let k := final_window (win s) l in
  win (foldl rec s l) = k /\
  holds (foldl rec s l) ((if k =? win s then m else base) + window_total k l).
Proof.
  revert s m. induction l as [|t l IH]; intros s m Hm Ho Hf; simpl.
  - rewrite Z.eqb_refl, Z.add_0_r. done.
  - destruct Ho as [Hle Ho]. apply sums_fit_cons in Hf as (Hf1 & Hf2 & Hf3 & Hf4).
    change (final_window (win s) (t :: l)) with (final_window (key t) l).
    change (window_total ?k (t :: l)) with ((if key t =? k then amount t else 0) + window_total k l).
    pose proof (final_window_ge _ _ Ho) as Hge.
    destruct (Z.eq_dec (key t) (win s)) as [E | NE].
    + destruct (rec_same s t m E Hm Hf1) as [Hw Hh].
      destruct (IH (rec s t) (m + amount t)) as [IH1 IH2]; [done | by rewrite Hw, <- E | done |].
      rewrite Hw, <- E in IH1, IH2. split; [done|]. rewrite <- E, Z.add_assoc.
      rewrite (Z.eqb_sym (key t)). destruct (_ =? _); [done | by rewrite Z.add_0_r].
    + destruct (rec_new s t m) as [Hw Hh]; [lia | done | done |].
      destruct (IH (rec s t) (base + amount t)) as [IH1 IH2]; [done | by rewrite Hw | done |].
      rewrite Hw in IH1, IH2. split; [done|].
      rewrite (proj2 (Z.eqb_neq (final_window _ _) (win s))) by lia.
      rewrite (Z.eqb_sym (key t)), Z.add_assoc.
      destruct (_ =? _); [done | by rewrite Z.add_0_r].
Qed.
End Windowed.

(** ** The accumulators hold the sums of their window *)

(** A recorded trade, with its amounts in units of the money grid. *)
Record trade := { tr_at : Time; tr_net : Z; tr_fees : Z; tr_cost : Z; tr_outcome : TradeBusinessOutcome }.

Definition loss_of (t : trade) : Z := Z.max 0 (- tr_net t).

Section Sums.
Context `{DL : DecimalLaws} `{CH : Chrono}.
(** How the caller represents an amount. *)
Context (usd : Z -> D) (usd_units : forall m, units (usd m) m).

Definition day_rec (a : DailyAccounting) (t : trade) : DailyAccounting :=
  (daily_record_trade a (tr_at t) (usd (tr_net t)) (usd (tr_fees t)) (usd (tr_cost t)) (tr_outcome t)).1.
Definition week_rec (a : WeeklyAccounting) (t : trade) : WeeklyAccounting :=
  (weekly_record_trade a (tr_at t) (usd (tr_net t)) (usd (tr_fees t)) (tr_outcome t)).1.
Definition hour_rec (a : HourlyAccounting) (t : trade) : HourlyAccounting :=
  (hourly_record_trade a (tr_at t) (usd (tr_net t)) (usd (tr_fees t)) (tr_outcome t)).1.

Definition day_key (t : trade) : Z := date_naive (tr_at t).
Definition week_key (t : trade) : Z := current_monday (tr_at t).
Definition hour_key (t : trade) : Z := date_naive (tr_at t) * 24 + hour_of (tr_at t).
Definition hour_win (a : HourlyAccounting) : Z := window_start_date a * 24 + window_start_hour a.

Lemma usd_neg m : dltb (usd m) d0 = (m <? 0).
Proof.
  unfold dltb. rewrite (units_leb d0 (usd m) 0 m units_0 (usd_units m)).
  by rewrite Z.leb_antisym, negb_involutive.
Qed.

(** The loss after recording: the loss before plus the loss of the trade. *)
Lemma extremes_loss s net m :
  units (ps_loss s) m -> fits (m + Z.max 0 (- net)) ->
  units (ps_loss (record_extremes s (usd net))) (m + Z.max 0 (- net)).
Proof.
  intros Hm Hf. unfold record_extremes. rewrite usd_neg. destruct (Z.ltb_spec net 0); simpl.
  - replace (Z.max 0 (- net)) with (Z.abs net) in * by lia. apply units_add; [done | by apply units_abs | done].
  - rewrite Z.max_l, Z.add_0_r by lia. done.
Qed.

Lemma extremes_fees s net : ps_fees (record_extremes s net) = ps_fees s.
Proof. unfold record_extremes. by destruct (dltb net d0). Qed.
Lemma extremes_pnl s net : ps_pnl (record_extremes s net) = ps_pnl s.
Proof. unfold record_extremes. by destruct (dltb net d0). Qed.

Lemma day_rec_same a t : day_key t = da_window_start a -> day_rec a t = {|
  da_window_start := da_window_start a;
  da_stats := record_extremes (record_counts (da_stats a) (usd (tr_net t)) (usd (tr_fees t)) (tr_outcome t)) (usd (tr_net t));
  budget_remaining := dsub (budget_remaining a) (usd (tr_cost t)); initial_budget := initial_budget a |}.
Proof.
  unfold day_key, day_rec, daily_record_trade, daily_maybe_rollover. intros ->. by rewrite Z.ltb_irrefl.
Qed.

Lemma day_rec_new a t : da_window_start a < day_key t -> day_rec a t = {|
  da_window_start := day_key t;
  da_stats := record_extremes (record_counts PeriodStats_default (usd (tr_net t)) (usd (tr_fees t)) (tr_outcome t)) (usd (tr_net t));
  budget_remaining := dsub (initial_budget a) (usd (tr_cost t)); initial_budget := initial_budget a |}.
Proof.
  unfold day_key, day_rec, daily_record_trade, daily_maybe_rollover. intros ->%Z.ltb_lt. done.
Qed.

(** The daily accumulator is exact: after any trades recorded at instants of non-decreasing
    dates, the daily loss is the sum of the losses of the trades of the current day and the
    remaining budget is the daily budget minus the cost of that day's trades; earlier days have no
    influence. *)
Theorem daily_is_window_sum (B : Z) (now : Time) (l : list trade) :
  ordered day_key (date_naive now) l ->
  sums_fit loss_of 0 0 l -> sums_fit (fun t => - tr_cost t) B B l ->
  let a := foldl day_rec (daily_new (usd B) now) l in
  let today := final_window day_key (date_naive now) l in
  da_window_start a = today /\
  units (daily_loss a) (window_total day_key loss_of today l) /\
  units (budget_remaining a) (B + window_total day_key (fun t => - tr_cost t) today l).
Proof.
  intros Ho Hl Hb a today.
  destruct (fun H H' => windowed_sum day_key loss_of day_rec da_window_start
    (fun s m => units (daily_loss s) m) 0 H H' (daily_new (usd B) now) 0 l) as [H1 H2]; try done.
  - intros s t m Hk Hm Hf. rewrite day_rec_same by done. split; [done | by apply extremes_loss].
  - intros s t m Hk Hm Hf. rewrite day_rec_new by done. split; [done | by apply extremes_loss; [apply units_0|]].
  - apply units_0.
  - destruct (fun H H' => windowed_sum day_key (fun t => - tr_cost t) day_rec da_window_start
      (fun s m => initial_budget s = usd B /\ units (budget_remaining s) m) B H H' (daily_new (usd B) now) B l)
      as [_ [_ H3]]; try done.
    + intros s t m Hk [Hi Hm] Hf. rewrite day_rec_same by done. repeat split; [done | by apply units_sub].
    + intros s t m Hk [Hi Hm] Hf. rewrite day_rec_new by done. repeat split; [done | simpl; rewrite Hi; by apply units_sub].
    + split; [done | apply usd_units].
    + simpl in H2, H3. split; [exact H1|]. fold today in H2, H3.
      destruct (today =? date_naive now) in H2, H3; rewrite ?Z.add_0_l in H2; done.
Qed.

Lemma week_rec_same a t : week_key t = week_start a ->
  week_start (week_rec a t) = week_start a /\
  ps_loss (wa_stats (week_rec a t)) =
    (if dltb (usd (tr_net t)) d0 then dadd (ps_loss (wa_stats a)) (dabs (usd (tr_net t))) else ps_loss (wa_stats a)).
Proof.
  unfold week_key, week_rec, weekly_record_trade, weekly_maybe_rollover. intros ->.
  rewrite Z.ltb_irrefl. simpl. by destruct (dltb _ _).
Qed.

Lemma week_rec_new a t : week_start a < week_key t ->
  week_start (week_rec a t) = week_key t /\
  ps_loss (wa_stats (week_rec a t)) =
    (if dltb (usd (tr_net t)) d0 then dadd d0 (dabs (usd (tr_net t))) else d0).
Proof.
  unfold week_key, week_rec, weekly_record_trade, weekly_maybe_rollover. intros ->%Z.ltb_lt.
  simpl. by destruct (dltb _ _).
Qed.

Lemma add_loss x m net : units x m -> fits (m + Z.max 0 (- net)) ->
  units (if dltb (usd net) d0 then dadd x (dabs (usd net)) else x) (m + Z.max 0 (- net)).
Proof.
  intros Hx Hf. rewrite usd_neg. destruct (Z.ltb_spec net 0).
  - replace (Z.max 0 (- net)) with (Z.abs net) in * by lia. apply units_add; [done | by apply units_abs | done].
  - rewrite Z.max_l, Z.add_0_r by lia. done.
Qed.

(** The weekly accumulator is exact and its windows are ISO weeks: the weekly loss is the sum
    of the losses since the Monday of the last trade's week, and that Monday is at most six days
    before the trade. *)
Theorem weekly_is_window_sum (now : Time) (l : list trade) (t : trade) :
  ordered week_key (current_monday now) (l ++ [t]) -> sums_fit loss_of 0 0 (l ++ [t]) ->
  let a := foldl week_rec (weekly_new now) (l ++ [t]) in
  week_start a = week_key t /\ weekday_from_monday (week_start a) = 0 /\
  week_start a <= date_naive (tr_at t) <= week_start a + 6 /\
  units (weekly_loss a) (window_total week_key loss_of (week_key t) (l ++ [t])).
Proof.
  intros Ho Hl a.
  destruct (fun H H' => windowed_sum week_key loss_of week_rec week_start
    (fun s m => units (weekly_loss s) m) 0 H H' (weekly_new now) 0 (l ++ [t])) as [H1 H2]; try done.
  - intros s x m Hk Hm Hf. destruct (week_rec_same s x Hk) as [-> E]. split; [done|].
    unfold weekly_loss. rewrite E. by apply add_loss.
  - intros s x m Hk Hm Hf. destruct (week_rec_new s x Hk) as [-> E]. split; [done|].
    unfold weekly_loss. rewrite E. apply add_loss; [apply units_0 | done].
  - apply units_0.
  - fold a in H1, H2. unfold final_window in H1, H2. rewrite foldl_app in H1, H2. simpl in H1, H2.
    rewrite H1. split; [done|]. unfold week_key, current_monday.
    pose proof (weekday_range (date_naive (tr_at t))). split; [apply weekday_monday|]. split; [lia|].
    fold (current_monday (tr_at t)). fold (week_key t). destruct (_ =? _) in H2; done.
Qed.

Lemma hour_keys a t : 0 <= window_start_hour a < 24 -> (hour_key t = hour_win a <-> should_rollover a (tr_at t) = false).
Proof.
  intros Ha. pose proof (hour_range (tr_at t)). unfold hour_key, hour_win, should_rollover. split.
  - intros E. assert (date_naive (tr_at t) = window_start_date a) as -> by lia.
    assert (hour_of (tr_at t) = window_start_hour a) as -> by lia. by rewrite !Z.eqb_refl.
  - intros [?%negb_false_iff%Z.eqb_eq ?%negb_false_iff%Z.eqb_eq]%orb_false_iff. lia.
Qed.

(** The hourly accumulator is exact: the hourly loss is the sum of the losses of the trades
    whose date and hour are those of the last trade. *)
Theorem hourly_is_window_sum (now : Time) (l : list trade) (t : trade) :
  let start := date_naive now * 24 + hour_of now in
  ordered hour_key start (l ++ [t]) -> sums_fit loss_of 0 0 (l ++ [t]) ->
  let a := foldl hour_rec (hourly_new now) (l ++ [t]) in
  window_start_date a = date_naive (tr_at t) /\ window_start_hour a = hour_of (tr_at t) /\
  units (hourly_loss a) (window_total hour_key loss_of (hour_key t) (l ++ [t])).
Proof.
  intros start Ho Hl a.
  destruct (fun H H' => windowed_sum hour_key loss_of hour_rec hour_win
    (fun s m => 0 <= window_start_hour s < 24 /\ units (hourly_loss s) m) 0 H H' (hourly_new now) 0 (l ++ [t]))
    as [H1 [H2 H3]]; try done.
  - intros s x m Hk [Hh Hm] Hf. apply (hour_keys s x Hh) in Hk.
    unfold hour_rec, hourly_record_trade, hourly_maybe_rollover. rewrite Hk. split; [done|].
    split; [exact Hh | by apply extremes_loss].
  - intros s x m Hk [Hh Hm] Hf. pose proof (hour_range (tr_at x)).
    assert (should_rollover s (tr_at x) = true) as Hr.
    { apply not_false_iff_true. rewrite <- hour_keys by done. lia. }
    unfold hour_rec, hourly_record_trade, hourly_maybe_rollover. rewrite Hr. split; [done|].
    split; [done | apply extremes_loss; [apply units_0 | done]].
  - split; [apply hour_range | apply units_0].
  - fold a in H1, H2, H3. unfold final_window in H1, H3. rewrite foldl_app in H1, H3. simpl in H1, H3.
    pose proof (hour_range (tr_at t)). unfold hour_win, hour_key in H1.
    split; [lia|]. split; [lia|]. destruct (_ =? _) in H3; done.
Qed.
End Sums.

(** ** Changing the budget *)

Section Budget.
Context `{DL : DecimalLaws} `{CH : Chrono}.

(** Reloading the daily budget: when the new budget covers what was spent today, the amount spent
    is preserved and the remaining budget is the difference; otherwise nothing remains, the budget
    is exhausted, and the accumulator then reports the (smaller) new budget as spent. *)
Theorem set_budget_branches (a : DailyAccounting) (b0 b1 spent : Z) (new_budget : D) :
  units (initial_budget a) b0 -> units (budget_remaining a) (b0 - spent) -> units new_budget b1 ->
  fits spent -> fits (b1 - spent) -> fits b1 ->
  let a' := set_budget a new_budget in
  initial_budget a' = new_budget /\
  (spent <= b1 -> units (budget_remaining a') (b1 - spent) /\ units (budget_spent a') spent) /\
  (b1 < spent -> units (budget_remaining a') 0 /\ is_budget_exhausted a' = true /\ units (budget_spent a') b1).
Proof.
  intros H0 Hr H1 Hs Hd Hb1 a'.
  assert (units (budget_spent a) spent) as Hsp.
  { unfold budget_spent. replace spent with (b0 - (b0 - spent)) by lia. apply units_sub; [done | done |].
    by replace (b0 - (b0 - spent)) with spent by lia. }
  assert (units (budget_remaining a') (Z.max (b1 - spent) 0)) as Hr'.
  { unfold a', set_budget. simpl. apply units_max; [|apply units_0]. by apply units_sub. }
  split; [done|]. split; intros Hc.
  - rewrite Z.max_l in Hr' by lia. split; [done|]. unfold budget_spent at 1.
    replace spent with (b1 - (b1 - spent)) by lia. apply units_sub; [done | done |].
    by replace (b1 - (b1 - spent)) with spent by lia.
  - rewrite Z.max_r in Hr' by lia. split; [done|]. split.
    + unfold is_budget_exhausted. rewrite (units_leb _ _ 0 0 Hr' units_0). done.
    + unfold budget_spent at 1. replace b1 with (b1 - 0) by lia. apply units_sub; [done | done |].
      by rewrite Z.sub_0_r.
Qed.
End Budget.

(** ** Witnesses *)

Definition cents (m : Z) : Q := Qred (grid m 8).

Lemma cents_units m : units (ops := ExactQ.exactQ) (cents m) m.
Proof. unfold units, cents. simpl. apply Qred_correct. Qed.

Definition demo_trade (at_secs net : Z) : trade := {|
  tr_at := at_secs * nanos_per_sec; tr_net := net; tr_fees := 1; tr_cost := 1000; tr_outcome := Success |}.

(** A losing trade late on the first day, then one on the next day: only the second counts. *)
Definition demo_trades : list trade := [demo_trade 86000 (-500); demo_trade 86500 (-300); demo_trade 86600 200].

Lemma daily_is_window_sum_witness :
  units (ops := ExactQ.exactQ)
    (daily_loss (foldl (day_rec (ops := ExactQ.exactQ) cents) (daily_new (DO := ExactQ.exactQ) (cents 50000) 0) demo_trades)) 300.
Proof.
  destruct (daily_is_window_sum (DL := ExactQ.exactQ_laws) cents cents_units 50000 0 demo_trades) as (_ & H & _);
    [repeat split; vm_compute; discriminate | vm_compute; reflexivity .. | exact H].
Defined.

Lemma weekly_is_window_sum_witness :
  units (ops := ExactQ.exactQ)
    (weekly_loss (foldl (week_rec (ops := ExactQ.exactQ) cents) (weekly_new (DO := ExactQ.exactQ) 0)
       ([demo_trade 86000 (-500)] ++ [demo_trade 86500 (-300)]))) 800.
Proof.
  destruct (weekly_is_window_sum (DL := ExactQ.exactQ_laws) cents cents_units 0 [demo_trade 86000 (-500)] (demo_trade 86500 (-300))) as (_ & _ & _ & H);
    [repeat split; vm_compute; discriminate | vm_compute; reflexivity | exact H].
Defined.

Lemma hourly_is_window_sum_witness :
  units (ops := ExactQ.exactQ)
    (hourly_loss (foldl (hour_rec (ops := ExactQ.exactQ) cents) (hourly_new (DO := ExactQ.exactQ) 0)
       ([demo_trade 100 (-500)] ++ [demo_trade 3700 (-300)]))) 300.
Proof.
  destruct (hourly_is_window_sum (DL := ExactQ.exactQ_laws) cents cents_units 0 [demo_trade 100 (-500)] (demo_trade 3700 (-300))) as (_ & _ & H);
    [repeat split; vm_compute; discriminate | vm_compute; reflexivity | exact H].
Defined.

(** 100 budget, 80 spent, lowered to 50: the accumulator now reports 50 as spent. *)
Lemma set_budget_branches_witness :
  let a : DailyAccounting (DO := ExactQ.exactQ) := daily_from_snapshot (DO := ExactQ.exactQ) 0 PeriodStats_default (cents 100) (cents 80) in
  units (ops := ExactQ.exactQ) (budget_spent (set_budget a (cents 50))) 50.
Proof.
  intros a.
  destruct (set_budget_branches (DL := ExactQ.exactQ_laws) a 100 50 80 (cents 50)) as (_ & _ & H);
    [apply cents_units | vm_compute; reflexivity | apply cents_units | vm_compute; reflexivity .. |].
  apply H. lia.
Defined.
