(* ===== verification/Ledger.v ===== *)
(** * Potential-loss ledger: [oxide-arb-risk/src/position.rs]

    Unsettled positions by ledger id with a running total of their worst-case losses.  The
    reference definition is the sum of [max_loss_usd] over the active entries; the running
    total is proved equal to it after every sequence of operations. *)

From S2P Require Import Prelude Decimal Config Domain.

Section Ledger.
Context `{DO : DecimalOps}.

(** [risk/position.rs:22-25] `PotentialLossLedger` *)
Record PotentialLossLedger := {
  pll_entries : gmap LedgerId PotentialLossInfo;
  running_total : D
}.

(** [risk/position.rs:29-34] `PotentialLossLedger::new` *)
Definition ledger_new : PotentialLossLedger := {| pll_entries := ∅; running_total := d0 |}.

(** [risk/position.rs:38-52] `PotentialLossLedger::from_entries` *)
Definition ledger_from_entries (entries : list PotentialLossInfo) : PotentialLossLedger := {|
  pll_entries := foldl (fun m e => <[pl_ledger_id e := e]> m) ∅ entries;
  running_total := foldl dadd d0 (pl_max_loss_usd <$> List.filter pl_is_active entries)
|}.

(** [risk/position.rs:55-74] `PotentialLossLedger::record_entry` *)
Definition record_entry (l : PotentialLossLedger) (entry : PotentialLossInfo) : PotentialLossLedger :=
  match pll_entries l !! pl_ledger_id entry with
  | Some _ => l
  | None =>
      let running_total :=
        if pl_is_active entry then dadd (running_total l) (pl_max_loss_usd entry) else running_total l in
      {| pll_entries := <[pl_ledger_id entry := entry]> (pll_entries l); running_total := running_total |}
  end.

Definition with_resolved (e : PotentialLossInfo) (now : Time) : PotentialLossInfo := {|
  pl_ledger_id := pl_ledger_id e; pl_market_id := pl_market_id e; pl_token_id := pl_token_id e;
  pl_shares := pl_shares e; pl_entry_price := pl_entry_price e; pl_max_loss_usd := pl_max_loss_usd e;
  pl_status := LResolved; pl_created_at := pl_created_at e; pl_resolved_at := Some now |}.

(** [risk/position.rs:77-90] `PotentialLossLedger::resolve` *)
Definition ledger_resolve (l : PotentialLossLedger) (ledger_id : LedgerId) (now : Time) : PotentialLossLedger :=
  match pll_entries l !! ledger_id with
  | Some entry =>
      let running_total :=
        if pl_is_active entry then dmax (dsub (running_total l) (pl_max_loss_usd entry)) d0
        else running_total l in
      {| pll_entries := <[ledger_id := with_resolved entry now]> (pll_entries l); running_total := running_total |}
  | None => l
  end.

(** [risk/position.rs:95-97] `PotentialLossLedger::total_potential_loss` *)
Definition total_potential_loss (l : PotentialLossLedger) : D := running_total l.

(** [risk/position.rs:100-102] `PotentialLossLedger::active_count` *)
Definition active_count (l : PotentialLossLedger) : Z :=
  map_sum (fun e => if pl_is_active e then 1 else 0) (pll_entries l).

(** ** Specification *)

(** The number of money-grid units an amount is. *)
Definition uz (x : D) : Z := Qfloor (dval x * inject_Z 100000000).

Definition active_units (e : PotentialLossInfo) : Z := if pl_is_active e then uz (pl_max_loss_usd e) else 0.

(** Amounts are non-negative and on the money grid. *)
Definition entry_ok (e : PotentialLossInfo) : Prop :=
  units (pl_max_loss_usd e) (uz (pl_max_loss_usd e)) /\ 0 <= uz (pl_max_loss_usd e).

Definition active_total (l : PotentialLossLedger) : Z := map_sum active_units (pll_entries l).

Definition ledger_inv (l : PotentialLossLedger) : Prop :=
  (forall id e, pll_entries l !! id = Some e -> pl_ledger_id e = id /\ entry_ok e) /\
  units (running_total l) (active_total l).

Inductive ledger_op := LRecord (e : PotentialLossInfo) | LResolve (id : LedgerId) (now : Time).

Definition ledger_step (l : PotentialLossLedger) (o : ledger_op) : PotentialLossLedger :=
  match o with LRecord e => record_entry l e | LResolve id now => ledger_resolve l id now end.

Definition op_units (o : ledger_op) : Z := match o with LRecord e => active_units e | LResolve _ _ => 0 end.
Definition op_ok (o : ledger_op) : Prop := match o with LRecord e => entry_ok e | LResolve _ _ => True end.
End Ledger.

Section Proofs.
Context `{DL : DecimalLaws}.
Implicit Types (l : PotentialLossLedger) (e : PotentialLossInfo).

Lemma uz_units x m : units x m -> uz x = m.
Proof.
  unfold units, uz. intros ->. rewrite <- (Qfloor_Z m) at 2. apply Qfloor_comp.
  unfold grid. change (Z.to_pos (10 ^ 8)) with 100000000%positive.
  unfold inject_Z, Qmult, Qeq. cbn [Qnum Qden]. lia.
Qed.

Lemma active_units_nonneg e : entry_ok e -> 0 <= active_units e.
Proof. unfold active_units. intros [_ ?]. destruct (pl_is_active e); lia. Qed.

Lemma ledger_inv_nonneg l : ledger_inv l -> forall id e, pll_entries l !! id = Some e -> 0 <= active_units e.
Proof. intros [H _] id e He. apply active_units_nonneg. by destruct (H id e He). Qed.

Lemma ledger_new_inv : ledger_inv ledger_new.
Proof. split; [by intros ? ?|]. unfold active_total, ledger_new. simpl. rewrite map_sum_empty. apply units_0. Qed.

Lemma record_entry_inv l e :
  ledger_inv l -> entry_ok e -> fits (active_total l + active_units e) ->
  ledger_inv (record_entry l e) /\
  active_total (record_entry l e) =
    match pll_entries l !! pl_ledger_id e with Some _ => active_total l | None => active_total l + active_units e end.
Proof.
  intros [Hids Ht] Hok Hf. unfold record_entry.
  destruct (pll_entries l !! pl_ledger_id e) eqn:E; [done|].
  assert (map_sum active_units (<[pl_ledger_id e:=e]> (pll_entries l)) = active_total l + active_units e) as Hs.
  { rewrite map_sum_insert by done. unfold active_total. lia. }
  split; [split|]; simpl.
  - intros id e' [[<- <-]|[_ H]]%lookup_insert_Some; [done | by apply Hids].
  - unfold active_total at 1. simpl. rewrite Hs. unfold active_units in *. destruct (pl_is_active e).
    + apply units_add; [done | apply Hok | done].
    + by rewrite Z.add_0_r.
  - exact Hs.
Qed.

Lemma resolve_inv l id now :
  ledger_inv l -> fits (active_total l) ->
  ledger_inv (ledger_resolve l id now) /\
  active_total (ledger_resolve l id now) =
    active_total l - match pll_entries l !! id with Some e => active_units e | None => 0 end.
Proof.
  intros Hinv Hf. pose proof (ledger_inv_nonneg l Hinv) as Hnn. destruct Hinv as [Hids Ht].
  unfold ledger_resolve. destruct (pll_entries l !! id) as [e|] eqn:E; [|by rewrite Z.sub_0_r].
  assert (active_units e <= active_total l) as Hle by (by apply (map_sum_member _ _ id)).
  assert (0 <= active_units e) by (by eapply Hnn).
  assert (map_sum active_units (<[id:=with_resolved e now]> (pll_entries l)) = active_total l - active_units e) as Hs.
  { rewrite (map_sum_update _ _ _ e) by done. unfold active_total.
    change (active_units (with_resolved e now)) with 0. lia. }
  destruct (Hids id e E) as [Hid Hok]. split; [split|]; simpl.
  - intros id' e' [[<- <-]|[_ H']]%lookup_insert_Some; [done | by apply Hids].
  - unfold active_total at 1. simpl. rewrite Hs. unfold active_units in *. destruct (pl_is_active e).
    + replace (active_total l - uz (pl_max_loss_usd e)) with (Z.max (active_total l - uz (pl_max_loss_usd e)) 0) by lia.
      apply units_max; [|apply units_0]. apply units_sub; [done | apply Hok | unfold fits in *; lia].
    + by rewrite Z.sub_0_r.
  - exact Hs.
Qed.

Lemma ledger_step_inv l o :
  ledger_inv l -> op_ok o -> fits (active_total l + op_units o) ->
  ledger_inv (ledger_step l o) /\ active_total (ledger_step l o) <= active_total l + op_units o.
Proof.
  intros Hi Ho Hf. assert (0 <= active_total l) by (apply map_sum_nonneg; by apply ledger_inv_nonneg).
  destruct o as [e|id now]; simpl in *.
  - destruct (record_entry_inv l e Hi Ho Hf) as [H1 ->]. split; [done|].
    pose proof (active_units_nonneg e Ho). case_match; lia.
  - rewrite Z.add_0_r in Hf. destruct (resolve_inv l id now Hi Hf) as [H1 ->]. split; [done|].
    destruct (pll_entries l !! id) eqn:E; [|lia]. pose proof (ledger_inv_nonneg l Hi _ _ E). lia.
Qed.

(** The running total is exact: after any sequence of recordings and resolutions the total the
    risk gates read is the sum of the worst-case losses of the entries still active (floors at
    zero never fire, duplicates and repeated resolutions never skew it). *)
Theorem ledger_total_exact (calls : list ledger_op) :
  Forall op_ok calls -> fits (sumZ op_units calls) ->
  let l := foldl ledger_step ledger_new calls in
  units (total_potential_loss l) (active_total l) /\ 0 <= active_total l <= sumZ op_units calls.
Proof.
  intros Hok Hf.
  assert (forall l, ledger_inv l -> fits (active_total l + sumZ op_units calls) ->
    ledger_inv (foldl ledger_step l calls) /\ active_total (foldl ledger_step l calls) <= active_total l + sumZ op_units calls) as H.
  { clear Hf. induction Hok as [|o calls Ho Hok IH]; intros l Hi Hf.
    - change (sumZ op_units []) with 0. split; [done | simpl; lia].
    - change (sumZ op_units (o :: calls)) with (op_units o + sumZ op_units calls) in *. simpl.
      assert (0 <= sumZ op_units calls).
      { apply sumZ_nonneg. eapply Forall_impl; [exact Hok|]. intros []; simpl; [apply active_units_nonneg | lia]. }
      assert (0 <= active_total l) by (apply map_sum_nonneg; by apply ledger_inv_nonneg).
      assert (0 <= op_units o) by (destruct o; simpl in *; [by apply active_units_nonneg | lia]).
      destruct (ledger_step_inv l o Hi Ho) as [Hi' Ht']; [unfold fits in *; lia|].
      assert (0 <= active_total (ledger_step l o)) by (apply map_sum_nonneg; by apply ledger_inv_nonneg).
      destruct (IH _ Hi'); [unfold fits in *; lia|]. split; [done | lia]. }
  assert (active_total ledger_new = 0) as H0 by (unfold active_total, ledger_new; simpl; apply map_sum_empty).
  destruct (H ledger_new ledger_new_inv) as [Hi Hle]; [by rewrite H0|].
  split; [apply Hi|]. split; [|lia]. apply map_sum_nonneg. by apply ledger_inv_nonneg.
Qed.

(** A replayed fill changes nothing: recording an entry whose id is already present leaves the
    ledger as it is, so recording twice is recording once; and resolving a recorded entry returns the
    total to what it was before. *)
Theorem record_entry_idempotent l e (now : Time) :
  record_entry (record_entry l e) e = record_entry l e /\
  (ledger_inv l -> entry_ok e -> pll_entries l !! pl_ledger_id e = None -> fits (active_total l + active_units e) ->
   let l' := ledger_resolve (record_entry l e) (pl_ledger_id e) now in
   units (total_potential_loss l') (active_total l) /\
   total_potential_loss (ledger_resolve l' (pl_ledger_id e) now) = total_potential_loss l').
Proof.
  split.
  - unfold record_entry at 2 3. destruct (pll_entries l !! pl_ledger_id e) eqn:E.
    + unfold record_entry. by rewrite E.
    + unfold record_entry. simpl. by rewrite lookup_insert_eq.
  - intros Hi Hok Hn Hf l'. destruct (record_entry_inv l e Hi Hok Hf) as [Hi' Ht']. rewrite Hn in Ht'.
    assert (pll_entries (record_entry l e) !! pl_ledger_id e = Some e) as Hl.
    { unfold record_entry. rewrite Hn. simpl. by rewrite lookup_insert_eq. }
    destruct (resolve_inv (record_entry l e) (pl_ledger_id e) now Hi') as [Hi'' Ht'']; [by rewrite Ht'|].
    split.
    + rewrite Hl, Ht' in Ht''. replace (active_total l) with (active_total l') by (unfold l'; lia). apply Hi''.
    + unfold l', ledger_resolve, total_potential_loss. rewrite Hl. simpl. by rewrite lookup_insert_eq.
Qed.
End Proofs.

(** ** Witnesses *)

Definition demo_loss (id m : Z) : PotentialLossInfo (DO := ExactQ.exactQ) := {|
  pl_ledger_id := id; pl_market_id := "m"; pl_token_id := "t"; pl_shares := 1%Q; pl_entry_price := 1%Q;
  pl_max_loss_usd := Qred (grid m 8); pl_status := LActive; pl_created_at := 0; pl_resolved_at := None |}.

Lemma ledger_total_exact_witness :
  units (ops := ExactQ.exactQ)
    (total_potential_loss (foldl ledger_step (ledger_new (DO := ExactQ.exactQ))
       [LRecord (demo_loss 1 500); LRecord (demo_loss 2 300); LRecord (demo_loss 1 500); LResolve 2 7])) 500.
Proof.
  destruct (ledger_total_exact (DL := ExactQ.exactQ_laws)
    [LRecord (demo_loss 1 500); LRecord (demo_loss 2 300); LRecord (demo_loss 1 500); LResolve 2 7]) as [H _].
  - repeat (apply Forall_cons; split; [try (split; [vm_compute; reflexivity | vm_compute; discriminate]); exact I|]).
    apply Forall_nil, I.
  - vm_compute; reflexivity.
  - exact H.
Defined.

Lemma record_entry_idempotent_witness :
  units (ops := ExactQ.exactQ)
    (total_potential_loss (ledger_resolve (record_entry ledger_new (demo_loss 1 500)) 1 9)) 0.
Proof.
  destruct (record_entry_idempotent (DL := ExactQ.exactQ_laws) ledger_new (demo_loss 1 500) 9) as [_ H].
  destruct H as [H _]; [apply ledger_new_inv | split; [vm_compute; reflexivity | vm_compute; discriminate]
    | reflexivity | vm_compute; reflexivity | exact H].
Defined.
