(* ===== verification/Bloom.v ===== *)
(** * Blacklist snapshot: [oxide-arb-risk/src/snapshot.rs], the bloom filter and its exact tables

    A 512-bit filter in eight 64-bit words with three FNV-1a hashes.  Words are [Z], shifts and
    masks are bit operations on [Z], and the 32-bit hash arithmetic wraps.  The filter only
    short-circuits negatives: [trading_path_block_detail] and [is_token_blacklisted] confirm
    positives in exact tables. *)

From S2P Require Import Prelude Decimal Config Domain.
From Stdlib Require Import Ascii.

(** [id.as_str().as_bytes()]: the bytes of a string. *)
Definition as_bytes (s : string) : list Z := (fun a => Z.of_N (N_of_ascii a)) <$> String.list_ascii_of_string s.

(** [risk/snapshot.rs:19-21] `BloomFilter512` *)
Record BloomFilter512 := { bits : list Z }.

(** [risk/snapshot.rs:18-18] `BloomFilter512::default` *)
Definition bloom_default : BloomFilter512 := {| bits := replicate 8 0 |}.

(** [risk/snapshot.rs:24-24] `M` *)
Definition BLOOM_M : Z := 512.
(** [risk/snapshot.rs:25-25] `K` *)
Definition BLOOM_K : nat := 3.

(** [risk/snapshot.rs:60-67] `BloomFilter512::hash` *)
Definition hash (key : list Z) (seed : Z) : Z :=
  let h := Z.lxor 2166136261 (wrap_u32 (seed * 16777619)) in
  foldl (fun h b => wrap_u32 (Z.lxor h b * 16777619)) h key.

(** [risk/snapshot.rs:46-50] `BloomFilter512::set_bit` *)
Definition set_bit (self : BloomFilter512) (bit : Z) : BloomFilter512 :=
  let word := Z.to_nat (bit / 64) in
  let offset := bit mod 64 in
  {| bits := <[word := Z.lor (bits self !!! word) (Z.shiftl 1 offset)]> (bits self) |}.

(** [risk/snapshot.rs:53-57] `BloomFilter512::test_bit` *)
Definition test_bit (self : BloomFilter512) (bit : Z) : bool :=
  let word := Z.to_nat (bit / 64) in
  let offset := bit mod 64 in
  negb (Z.land (bits self !!! word) (Z.shiftl 1 offset) =? 0).

Definition key_bit (key : list Z) (i : nat) : Z := hash key (Z.of_nat i) mod BLOOM_M.

(** [risk/snapshot.rs:27-32] `BloomFilter512::insert` *)
Definition bloom_insert (self : BloomFilter512) (key : list Z) : BloomFilter512 :=
  foldl (fun b i => set_bit b (key_bit key i)) self (seq 0 BLOOM_K).

(** [risk/snapshot.rs:35-43] `BloomFilter512::may_contain` *)
Definition may_contain (self : BloomFilter512) (key : list Z) : bool :=
  forallb (fun i => test_bit self (key_bit key i)) (seq 0 BLOOM_K).

(** [risk/snapshot.rs:72-76] `TradingPathBlock` *)
Record TradingPathBlock := { tb_market_id : MarketId; tb_reason : BlacklistReason; tb_scope : BlacklistScope }.

(** [risk/snapshot.rs:80-85] `BlacklistSnapshot` *)
Record BlacklistSnapshot := {
  market_bloom : BloomFilter512;
  token_bloom : BloomFilter512;
  trading_path_blocks : list TradingPathBlock;
  blacklisted_tokens : list TokenId
}.

(** [risk/snapshot.rs:89-96] `BlacklistSnapshot::empty` *)
Definition blacklist_snapshot_empty : BlacklistSnapshot := {|
  market_bloom := bloom_default; token_bloom := bloom_default; trading_path_blocks := []; blacklisted_tokens := [] |}.

(** [risk/snapshot.rs:99-101] `BlacklistSnapshot::may_contain_market` *)
Definition may_contain_market (s : BlacklistSnapshot) (id : MarketId) : bool := may_contain (market_bloom s) (as_bytes id).

(** [risk/snapshot.rs:104-106] `BlacklistSnapshot::may_contain_token` *)
Definition may_contain_token (s : BlacklistSnapshot) (id : TokenId) : bool := may_contain (token_bloom s) (as_bytes id).

(** [format!("{} (scope: {})", reason, scope)]. *)
Definition block_detail (reason : BlacklistReason) (scope : BlacklistScope) : string :=
  reason_str reason +:+ " (scope: " +:+ scope_str scope +:+ ")".

(** [risk/snapshot.rs:110-118] `BlacklistSnapshot::trading_path_block_detail` *)
Definition trading_path_block_detail (s : BlacklistSnapshot) (market_id : MarketId) : option string :=
  if negb (may_contain_market s market_id) then None
  else option_map (fun b => block_detail (tb_reason b) (tb_scope b))
         (List.find (fun b => bool_decide (tb_market_id b = market_id)) (trading_path_blocks s)).

(** [risk/snapshot.rs:121-126] `BlacklistSnapshot::is_token_blacklisted` *)
Definition snap_is_token_blacklisted (s : BlacklistSnapshot) (token_id : TokenId) : bool :=
  if negb (may_contain_token s token_id) then false
  else existsb (fun t => bool_decide (t = token_id)) (blacklisted_tokens s).

(** ** Bits *)

Definition bloom_wf (b : BloomFilter512) : Prop := length (bits b) = 8%nat.

Lemma bloom_default_wf : bloom_wf bloom_default.
Proof. done. Qed.

Lemma mask_testbit x o : 0 <= o -> negb (Z.land x (Z.shiftl 1 o) =? 0) = Z.testbit x o.
Proof.
  intros Ho. rewrite Z.shiftl_1_l. destruct (Z.testbit x o) eqn:E.
  - apply negb_true_iff, Z.eqb_neq. intros H.
    assert (Z.testbit (Z.land x (2 ^ o)) o = false) as Hf by (by rewrite H, Z.bits_0).
    rewrite Z.land_spec, E, Z.pow2_bits_true in Hf by done. done.
  - apply negb_false_iff, Z.eqb_eq. apply Z.bits_inj'. intros n Hn.
    rewrite Z.land_spec, Z.pow2_bits_eqb, Z.bits_0 by done.
    destruct (Z.eqb_spec o n) as [<-|]; [by rewrite E | apply andb_false_r].
Qed.

Lemma test_set_bit b i j : bloom_wf b -> 0 <= i < 512 -> 0 <= j < 512 ->
  test_bit (set_bit b i) j = (i =? j) || test_bit b j.
Proof.
  intros Hwf Hi Hj. unfold test_bit, set_bit. cbn [bits].
  assert (0 <= i mod 64 < 64) by (apply Z.mod_pos_bound; lia).
  assert (0 <= j mod 64 < 64) by (apply Z.mod_pos_bound; lia).
  assert (0 <= i / 64 < 8) by (split; [apply Z.div_pos; lia | apply Z.div_lt_upper_bound; lia]).
  assert (0 <= j / 64 < 8) by (split; [apply Z.div_pos; lia | apply Z.div_lt_upper_bound; lia]).
  pose proof (Z.div_mod i 64). pose proof (Z.div_mod j 64).
  rewrite !mask_testbit by lia. destruct (Z.eq_dec (i / 64) (j / 64)) as [E|NE].
  - rewrite E, list_lookup_total_insert_eq by (unfold bloom_wf in Hwf; lia).
    rewrite Z.lor_spec, Z.shiftl_1_l, Z.pow2_bits_eqb, orb_comm by lia. f_equal.
    destruct (Z.eqb_spec (i mod 64) (j mod 64)), (Z.eqb_spec i j); done || lia.
  - rewrite list_lookup_total_insert_ne by lia.
    destruct (Z.eqb_spec i j); [congruence | done].
Qed.

Lemma set_bit_wf b i : bloom_wf b -> bloom_wf (set_bit b i).
Proof. unfold bloom_wf, set_bit. simpl. by rewrite length_insert. Qed.

Lemma key_bit_range key i : 0 <= key_bit key i < 512.
Proof. apply Z.mod_pos_bound. unfold BLOOM_M. lia. Qed.

Lemma foldl_set_bit key idx b : bloom_wf b ->
  bloom_wf (foldl (fun b i => set_bit b (key_bit key i)) b idx) /\
  forall j, 0 <= j < 512 ->
    test_bit (foldl (fun b i => set_bit b (key_bit key i)) b idx) j =
    existsb (fun i => key_bit key i =? j) idx || test_bit b j.
Proof.
  revert b. induction idx as [|i idx IH]; intros b Hwf; simpl; [done|].
  destruct (IH (set_bit b (key_bit key i)) (set_bit_wf _ _ Hwf)) as [H1 H2]. split; [done|].
  intros j Hj. rewrite H2, test_set_bit by (done || apply key_bit_range).
  rewrite orb_assoc. f_equal. apply orb_comm.
Qed.

Lemma bloom_insert_wf b key : bloom_wf b -> bloom_wf (bloom_insert b key).
Proof. intros. by apply foldl_set_bit. Qed.

(** Inserting another key never clears a bit. *)
Lemma bloom_insert_mono b key key' : bloom_wf b -> may_contain b key' = true -> may_contain (bloom_insert b key) key' = true.
Proof.
  intros Hwf. unfold may_contain. rewrite !forallb_forall. intros H i Hi.
  unfold bloom_insert. rewrite (proj2 (foldl_set_bit key _ b Hwf)) by apply key_bit_range.
  rewrite (H i Hi). apply orb_true_r.
Qed.

Lemma bloom_insert_self b key : bloom_wf b -> may_contain (bloom_insert b key) key = true.
Proof.
  intros Hwf. unfold may_contain. apply forallb_forall. intros i Hi.
  unfold bloom_insert. rewrite (proj2 (foldl_set_bit key _ b Hwf)) by apply key_bit_range.
  apply orb_true_iff. left. apply existsb_exists. exists i. split; [done | apply Z.eqb_refl].
Qed.

Lemma foldl_bloom_insert keys b : bloom_wf b ->
  bloom_wf (foldl bloom_insert b keys) /\
  (forall k, may_contain b k = true \/ k ∈ keys -> may_contain (foldl bloom_insert b keys) k = true).
Proof.
  revert b. induction keys as [|k keys IH]; intros b Hwf; simpl.
  - split; [done|]. intros k [H|H]; [done | by apply elem_of_nil in H].
  - destruct (IH (bloom_insert b k) (bloom_insert_wf _ _ Hwf)) as [H1 H2]. split; [done|].
    intros k' [H | [-> | H]%elem_of_cons]; apply H2.
    + left. by apply bloom_insert_mono.
    + left. by apply bloom_insert_self.
    + by right.
Qed.

(** The bloom filter has no false negatives: every key inserted, in any order and among any
    other keys, is reported as possibly present. *)
Theorem bloom_no_false_negatives (keys : list (list Z)) (key : list Z) :
  key ∈ keys -> may_contain (foldl bloom_insert bloom_default keys) key = true.
Proof. intros Hk. apply (foldl_bloom_insert keys bloom_default bloom_default_wf). by right. Qed.

Lemma bloom_no_false_negatives_witness :
  may_contain (foldl bloom_insert bloom_default [as_bytes "market-a"; as_bytes "market-b"]) (as_bytes "market-a") = true /\
  may_contain (foldl bloom_insert bloom_default [as_bytes "market-a"]) (as_bytes "market-c") = false.
Proof. split; [apply bloom_no_false_negatives; by left | vm_compute; reflexivity]. Defined.
