(* ===== verification/Blacklist.v ===== *)
(** * Blacklist manager: [oxide-arb-risk/src/blacklist.rs]

    The in-memory projection of blacklisted markets and tokens.  The [DashMap] is a finite map;
    each method is one atomic step of it at the instant [now].  The order in which the map is
    iterated is that of [map_to_list]; no theorem depends on it. *)

From S2P Require Import Prelude Decimal Config Domain RiskTypes Bloom.

(** [models/enums/blacklist.rs:8-17] `BlacklistCheckResult` *)
Inductive BlacklistCheckResult :=
| Clear
| Blocked (reason : BlacklistReason) (scope : BlacklistScope) (expires_at : option Time).

(** [risk/blacklist.rs:33-38] `BlacklistManager` *)
Record BlacklistManager := {
  bm_entries : gmap BlacklistKey BlacklistInfo;
  bm_miss_count : Z;
  bm_duration_secs : Z
}.

Definition with_entries (m : BlacklistManager) (e : gmap BlacklistKey BlacklistInfo) : BlacklistManager := {|
  bm_entries := e; bm_miss_count := bm_miss_count m; bm_duration_secs := bm_duration_secs m |}.

(** [entry(key).or_insert_with(..)]. *)
Definition or_insert (e : gmap BlacklistKey BlacklistInfo) (k : BlacklistKey) (v : BlacklistInfo) : gmap BlacklistKey BlacklistInfo :=
  match e !! k with Some _ => e | None => <[k := v]> e end.

(** The key of an entry: its token if it has one, its market otherwise. *)
Definition entry_key (market_id : MarketId) (token_id : option TokenId) : BlacklistKey :=
  match token_id with Some t => KToken t | None => KMarket market_id end.

Definition permanent_market (now : Time) (m : string) : BlacklistInfo := {|
  bl_market_id := m; bl_token_id := None; bl_scope := Full; bl_reason := Manual; bl_expires_at := None;
  bl_miss_count := 0; bl_created_at := now; bl_updated_at := now |}.
Definition permanent_token (now : Time) (t : string) : BlacklistInfo := {|
  bl_market_id := "_token_blacklist_"; bl_token_id := Some t; bl_scope := Full; bl_reason := Manual;
  bl_expires_at := None; bl_miss_count := 0; bl_created_at := now; bl_updated_at := now |}.

Section Manager.
Context `{DO : DecimalOps} `{CH : Chrono}.

(** [risk/blacklist.rs:87-118] `BlacklistManager::merge_permanent_entries` *)
Definition merge_permanent_entries (m : BlacklistManager) (config : RiskConfig) (now : Time) : BlacklistManager :=
  let e := foldl (fun e s => or_insert e (KMarket s) (permanent_market now s)) (bm_entries m)
             (permanent_blacklist_markets config) in
  let e := foldl (fun e s => or_insert e (KToken s) (permanent_token now s)) e
             (permanent_blacklist_tokens config) in
  with_entries m e.

(** [risk/blacklist.rs:44-62] `BlacklistManager::new` *)
Definition blacklist_new (config : RiskConfig) (now : Time) : BlacklistManager :=
  merge_permanent_entries
    {| bm_entries := ∅; bm_miss_count := market_miss_blacklist_count config;
       bm_duration_secs := market_miss_blacklist_duration_secs config |} config now.

(** [risk/blacklist.rs:70-78] `BlacklistManager::reload` *)
Definition blacklist_reload (m : BlacklistManager) (config : RiskConfig) (now : Time) : BlacklistManager :=
  merge_permanent_entries
    {| bm_entries := bm_entries m; bm_miss_count := market_miss_blacklist_count config;
       bm_duration_secs := market_miss_blacklist_duration_secs config |} config now.

(** [risk/blacklist.rs:82-84] `BlacklistManager::miss_threshold` *)
Definition miss_threshold (m : BlacklistManager) : Z := bm_miss_count m.

(** [risk/blacklist.rs:121-138] `BlacklistManager::load_entries` *)
Definition load_entries (m : BlacklistManager) (entries : list BlacklistInfo) (now : Time) : BlacklistManager :=
  with_entries m
    (foldl (fun acc e => if bl_is_expired e now then acc
                         else <[entry_key (bl_market_id e) (bl_token_id e) := e]> acc)
       (bm_entries m) entries).

(** [risk/blacklist.rs:145-172] `BlacklistManager::check` *)
Definition check (m : BlacklistManager) (now : Time) (market_id : MarketId) (required_scope : BlacklistScope)
    : BlacklistManager * BlacklistCheckResult :=
  let key := KMarket market_id in
  match bm_entries m !! key with
  | Some entry =>
      if bl_is_expired entry now then (with_entries m (delete key (bm_entries m)), Clear)
      else if scope_leb required_scope (bl_scope entry)
           then (m, Blocked (bl_reason entry) (bl_scope entry) (bl_expires_at entry))
           else (m, Clear)
  | None => (m, Clear)
  end.

(** [now + Duration::from_std(duration).unwrap_or(hours(1))]. *)
Definition expiry (now : Time) (duration_secs : Z) : Time :=
  time_add now (unwrap_or (duration_from_std duration_secs) (3600 * nanos_per_sec)).

(** [risk/blacklist.rs:178-232] `BlacklistManager::add_temporary` *)
Definition add_temporary (m : BlacklistManager) (now : Time) (market_id : MarketId) (token_id : option TokenId)
    (scope : BlacklistScope) (reason : BlacklistReason) (duration_secs miss_count : Z)
    : BlacklistManager * BlacklistInfo :=
  let expires_at := expiry now duration_secs in
  let key := entry_key market_id token_id in
  let misses := unwrap_or (to_i32 miss_count) i32_max in
  match bm_entries m !! key with
  | Some existing =>
      if bl_is_permanent existing then (m, existing)
      else
        let updated := {|
          bl_market_id := bl_market_id existing; bl_token_id := bl_token_id existing;
          bl_scope := if scope_leb scope (bl_scope existing) then bl_scope existing else scope;
          bl_reason := bl_reason existing;
          bl_expires_at := match bl_expires_at existing with
                           | Some old => if old <? expires_at then Some expires_at else Some old
                           | None => Some expires_at
                           end;
          bl_miss_count := misses; bl_created_at := bl_created_at existing; bl_updated_at := bl_updated_at existing |} in
        (with_entries m (<[key := updated]> (bm_entries m)), updated)
  | None =>
      let new_entry := {|
        bl_market_id := market_id; bl_token_id := token_id; bl_scope := scope; bl_reason := reason;
        bl_expires_at := Some expires_at; bl_miss_count := misses; bl_created_at := now; bl_updated_at := now |} in
      (with_entries m (<[key := new_entry]> (bm_entries m)), new_entry)
  end.

(** [risk/blacklist.rs:235-259] `BlacklistManager::add_permanent` *)
Definition add_permanent (m : BlacklistManager) (now : Time) (market_id : MarketId) (reason : BlacklistReason)
    : BlacklistManager * BlacklistInfo :=
  let entry := {|
    bl_market_id := market_id; bl_token_id := None; bl_scope := Full; bl_reason := reason; bl_expires_at := None;
    bl_miss_count := 0; bl_created_at := now; bl_updated_at := now |} in
  (with_entries m (<[KMarket market_id := entry]> (bm_entries m)), entry).

(** [risk/blacklist.rs:264-271] `BlacklistManager::remove` *)
Definition remove (m : BlacklistManager) (market_id : MarketId) : BlacklistManager * bool :=
  (with_entries m (delete (KMarket market_id) (bm_entries m)), bool_decide (is_Some (bm_entries m !! KMarket market_id))).

(** [risk/blacklist.rs:275-291] `BlacklistManager::gc` *)
Definition gc (m : BlacklistManager) (now : Time) : BlacklistManager * nat :=
  let kept := filter (fun kv => bl_is_permanent kv.2 || negb (bl_is_expired kv.2 now) = true) (bm_entries m) in
  (with_entries m kept, (size (bm_entries m) - size kept)%nat).

(** [risk/blacklist.rs:298-333] `BlacklistManager::maybe_auto_blacklist` *)
Definition maybe_auto_blacklist (m : BlacklistManager) (now : Time) (market_id : MarketId) (consecutive_misses : Z)
    : BlacklistManager * option BlacklistInfo :=
  if consecutive_misses <? bm_miss_count m then (m, None)
  else match bm_entries m !! KMarket market_id with
       | Some _ => (m, None)
       | None =>
           let (m, entry) := add_temporary m now market_id None TradingPath ConsecutiveFokFailures
                               (bm_duration_secs m) consecutive_misses in
           (m, Some entry)
       end.

(** [risk/blacklist.rs:337-349] `BlacklistManager::is_token_blacklisted` *)
Definition is_token_blacklisted (m : BlacklistManager) (now : Time) (token_id : TokenId) : BlacklistManager * bool :=
  let key := KToken token_id in
  match bm_entries m !! key with
  | Some entry =>
      if bl_is_expired entry now then (with_entries m (delete key (bm_entries m)), false) else (m, true)
  | None => (m, false)
  end.

(** [risk/blacklist.rs:353-360] `BlacklistManager::active_entries` *)
Definition active_entries (m : BlacklistManager) (now : Time) : list BlacklistInfo :=
  List.filter (fun e => negb (bl_is_expired e now)) (snd <$> map_to_list (bm_entries m)).

(** One iteration of the loop of [build_bloom_snapshot]. *)
Definition snapshot_step (now : Time) (s : BlacklistSnapshot) (kv : BlacklistKey * BlacklistInfo) : BlacklistSnapshot :=
  let info := kv.2 in
  if bl_is_expired info now then s
  else match kv.1 with
       | KMarket market_id => {|
           market_bloom := bloom_insert (market_bloom s) (as_bytes market_id);
           token_bloom := token_bloom s;
           trading_path_blocks :=
             if scope_leb TradingPath (bl_scope info)
             then trading_path_blocks s ++ [{| tb_market_id := market_id; tb_reason := bl_reason info; tb_scope := bl_scope info |}]
             else trading_path_blocks s;
           blacklisted_tokens := blacklisted_tokens s |}
       | KToken token_id => {|
           market_bloom := market_bloom s;
           token_bloom := bloom_insert (token_bloom s) (as_bytes token_id);
           trading_path_blocks := trading_path_blocks s;
           blacklisted_tokens := blacklisted_tokens s ++ [token_id] |}
       end.

(** [risk/blacklist.rs:373-409] `BlacklistManager::build_bloom_snapshot` *)
Definition build_bloom_snapshot (m : BlacklistManager) (now : Time) : BlacklistSnapshot :=
  foldl (snapshot_step now) blacklist_snapshot_empty (map_to_list (bm_entries m)).
End Manager.

(** ** The published snapshot agrees with the live map *)

Section SnapshotSpec.
Implicit Types (l : list (BlacklistKey * BlacklistInfo)).

(** The market blocks, market ids and token ids a list of entries contributes. *)
Definition block_of (now : Time) (kv : BlacklistKey * BlacklistInfo) : option TradingPathBlock :=
  match kv.1 with
  | KMarket m => if negb (bl_is_expired kv.2 now) && scope_leb TradingPath (bl_scope kv.2)
                 then Some {| tb_market_id := m; tb_reason := bl_reason kv.2; tb_scope := bl_scope kv.2 |} else None
  | KToken _ => None
  end.
Definition live_market (now : Time) (kv : BlacklistKey * BlacklistInfo) : option (list Z) :=
  match kv.1 with KMarket m => if bl_is_expired kv.2 now then None else Some (as_bytes m) | KToken _ => None end.
Definition live_token (now : Time) (kv : BlacklistKey * BlacklistInfo) : option TokenId :=
  match kv.1 with KToken t => if bl_is_expired kv.2 now then None else Some t | KMarket _ => None end.

Lemma snapshot_fold now l s :
  foldl (snapshot_step now) s l = {|
    market_bloom := foldl bloom_insert (market_bloom s) (omap (live_market now) l);
    token_bloom := foldl bloom_insert (token_bloom s) (as_bytes <$> omap (live_token now) l);
    trading_path_blocks := trading_path_blocks s ++ omap (block_of now) l;
    blacklisted_tokens := blacklisted_tokens s ++ omap (live_token now) l |}.
Proof.
  revert s. induction l as [|[k e] l IH]; intros s; simpl.
  - rewrite !app_nil_r. by destruct s.
  - rewrite IH. unfold snapshot_step, live_market, live_token, block_of. simpl.
    destruct (bl_is_expired e now) eqn:E; [by destruct k|].
    destruct k; simpl; [destruct (scope_leb TradingPath (bl_scope e)); simpl|]; by rewrite <- ?app_assoc.
Qed.

Lemma snapshot_token (m : BlacklistManager) now t :
  snap_is_token_blacklisted (build_bloom_snapshot m now) t = true <->
  exists e, bm_entries m !! KToken t = Some e /\ bl_is_expired e now = false.
Proof.
  unfold build_bloom_snapshot. rewrite snapshot_fold. unfold snap_is_token_blacklisted, may_contain_token. simpl.
  set (l := map_to_list (bm_entries m)).
  assert (t ∈ omap (live_token now) l <-> exists e, bm_entries m !! KToken t = Some e /\ bl_is_expired e now = false) as Hin.
  { rewrite list_elem_of_omap. split.
    - intros ([k e] & H1 & H2). apply elem_of_map_to_list in H1. unfold live_token in H2. simpl in H2.
      destruct k; [done|]. destruct (bl_is_expired e now) eqn:E; simplify_eq. by exists e.
    - intros (e & H1 & H2). exists (KToken t, e). split; [by apply elem_of_map_to_list|].
      unfold live_token. simpl. by rewrite H2. }
  rewrite <- Hin. destruct (may_contain _ _) eqn:Hm; simpl.
  - rewrite existsb_exists. split.
    + intros (x & Hx & ->%bool_decide_eq_true). by apply list_elem_of_In.
    + intros Hx. exists t. split; [by apply list_elem_of_In | by apply bool_decide_eq_true].
  - split; [done|]. intros Hx. exfalso.
    assert (may_contain (foldl bloom_insert bloom_default (as_bytes <$> omap (live_token now) l)) (as_bytes t) = true); [|congruence].
    apply foldl_bloom_insert; [done|]. right. by apply list_elem_of_fmap_2.
Qed.

Lemma block_of_inv now l b : b ∈ omap (block_of now) l ->
  exists e, (KMarket (tb_market_id b), e) ∈ l /\ bl_is_expired e now = false /\
    scope_leb TradingPath (bl_scope e) = true /\ tb_reason b = bl_reason e /\ tb_scope b = bl_scope e.
Proof.
  rewrite list_elem_of_omap. intros ([k e] & H1 & H2). unfold block_of in H2. simpl in H2.
  destruct k; [|done]. destruct (bl_is_expired e now) eqn:E, (scope_leb TradingPath (bl_scope e)) eqn:E'; simplify_eq/=.
  by exists e.
Qed.

(** Reading the published snapshot is reading the live blacklist: for every market the snapshot
    built at an instant reports a trading-path block exactly when the live check at that instant
    blocks it, with the same reason and scope, and for every token it agrees with the live token
    check; the bloom filter in front changes nothing. *)
Theorem snapshot_matches_live (m : BlacklistManager) (now : Time) (market : MarketId) (token : TokenId) :
  trading_path_block_detail (build_bloom_snapshot m now) market =
    match (check m now market TradingPath).2 with
    | Blocked reason scope _ => Some (block_detail reason scope)
    | Clear => None
    end /\
  snap_is_token_blacklisted (build_bloom_snapshot m now) token = (is_token_blacklisted m now token).2.
Proof.
  split.
  - unfold build_bloom_snapshot. rewrite snapshot_fold. unfold trading_path_block_detail, may_contain_market, check. simpl.
    set (l := map_to_list (bm_entries m)). set (p := fun b => bool_decide (tb_market_id b = market)).
    destruct (List.find p (omap (block_of now) l)) as [b|] eqn:Hf.
    + apply List.find_some in Hf as [Hin Hp]. apply bool_decide_eq_true in Hp. subst market.
      apply list_elem_of_In, block_of_inv in Hin as (e & He & Hexp & Hsc & Hr & Hs).
      pose proof He as He'. apply elem_of_map_to_list in He'. rewrite He', Hexp, Hsc. simpl.
      rewrite (proj2 (foldl_bloom_insert _ bloom_default bloom_default_wf)); simpl; [congruence|].
      right. apply list_elem_of_omap. exists (KMarket (tb_market_id b), e). split; [done|].
      unfold live_market. simpl. by rewrite Hexp.
    + transitivity (None (A := string)); [by destruct (negb _)|]. symmetry.
      destruct (bm_entries m !! KMarket market) as [e|] eqn:He; [|done].
      destruct (bl_is_expired e now) eqn:Hexp; [done|].
      destruct (scope_leb TradingPath (bl_scope e)) eqn:Hsc; [|done]. exfalso.
      apply find_false_Forall in Hf. rewrite Forall_forall in Hf.
      set (b := {| tb_market_id := market; tb_reason := bl_reason e; tb_scope := bl_scope e |}).
      assert (p b = false); [|by unfold p in *; rewrite bool_decide_eq_false in *].
      apply Hf, list_elem_of_omap. exists (KMarket market, e). split; [by apply elem_of_map_to_list|].
      unfold block_of. simpl. by rewrite Hexp, Hsc.
  - apply eq_bool_prop_intro. rewrite !Is_true_true, snapshot_token. unfold is_token_blacklisted.
    destruct (bm_entries m !! KToken token) as [e|]; [destruct (bl_is_expired e now) eqn:E|]; simpl.
    + split; [intros (? & ? & ?); congruence | done].
    + split; [done | by exists e].
    + split; [by intros (? & ? & ?) | done].
Qed.
End SnapshotSpec.

(** ** Entries only get stronger *)

Section Stronger.
Context `{DO : DecimalOps} `{CH : Chrono}.

(** No expiry is later than any instant. *)
Definition expiry_le (a b : option Time) : Prop :=
  match a, b with Some x, Some y => x <= y | Some _, None => True | None, None => True | None, Some _ => False end.

Definition stronger (e e' : BlacklistInfo) : Prop :=
  scope_leb (bl_scope e) (bl_scope e') = true /\ expiry_le (bl_expires_at e) (bl_expires_at e').

Lemma scope_leb_refl s : scope_leb s s = true.
Proof. by destruct s. Qed.

Lemma scope_leb_trans a b c : scope_leb a b = true -> scope_leb b c = true -> scope_leb a c = true.
Proof. unfold scope_leb. rewrite !Z.leb_le. lia. Qed.

Lemma stronger_refl e : stronger e e.
Proof. split; [apply scope_leb_refl|]. unfold expiry_le. destruct (bl_expires_at e); [lia | done]. Qed.

Lemma stronger_trans a b c : stronger a b -> stronger b c -> stronger a c.
Proof.
  intros [H1 H2] [H3 H4]. split; [by eapply scope_leb_trans|].
  unfold expiry_le in *. repeat case_match; done || lia.
Qed.

Lemma stronger_expired e e' now : stronger e e' -> bl_is_expired e now = false -> bl_is_expired e' now = false.
Proof.
  intros [_ H]. unfold bl_is_expired, expiry_le in *. repeat case_match; try done.
  rewrite !Z.leb_gt. lia.
Qed.

(** The operations, apart from an operator's removal and the start-up load. *)
Inductive bl_op :=
| BCheck (market : MarketId) (scope : BlacklistScope)
| BTokenCheck (token : TokenId)
| BAddTemporary (market : MarketId) (token : option TokenId) (scope : BlacklistScope) (reason : BlacklistReason) (secs misses : Z)
| BAddPermanent (market : MarketId) (reason : BlacklistReason)
| BGc
| BAuto (market : MarketId) (misses : Z)
| BReload (config : RiskConfig).

Definition bl_apply (m : BlacklistManager) (now : Time) (o : bl_op) : BlacklistManager :=
  match o with
  | BCheck market scope => (check m now market scope).1
  | BTokenCheck token => (is_token_blacklisted m now token).1
  | BAddTemporary market token scope reason secs misses => (add_temporary m now market token scope reason secs misses).1
  | BAddPermanent market reason => (add_permanent m now market reason).1
  | BGc => (gc m now).1
  | BAuto market misses => (maybe_auto_blacklist m now market misses).1
  | BReload config => blacklist_reload m config now
  end.

Lemma or_insert_keeps e k v k' x : e !! k' = Some x -> or_insert e k v !! k' = Some x.
Proof.
  intros H. unfold or_insert. destruct (e !! k) eqn:E; [done|].
  rewrite lookup_insert_ne; [done|]. intros ->. congruence.
Qed.

Lemma foldl_or_insert_keeps {A} (f : A -> BlacklistKey) (g : A -> BlacklistInfo) l e k x :
  e !! k = Some x -> foldl (fun e a => or_insert e (f a) (g a)) e l !! k = Some x.
Proof. revert e. induction l as [|a l IH]; intros e H; simpl; [done|]. apply IH. by apply or_insert_keeps. Qed.

Lemma delete_expired_keeps (m : BlacklistManager) k e k' e' now :
  bm_entries m !! k = Some e -> bl_is_expired e now = false ->
  bm_entries m !! k' = Some e' -> bl_is_expired e' now = true -> delete k' (bm_entries m) !! k = Some e.
Proof. intros H1 H2 H3 H4. rewrite lookup_delete_ne; [done|]. intros ->. congruence. Qed.

Lemma add_temporary_keeps m now market token scope reason secs misses k e :
  bm_entries m !! k = Some e ->
  exists e', bm_entries (add_temporary m now market token scope reason secs misses).1 !! k = Some e' /\ stronger e e'.
Proof.
  intros He. unfold add_temporary. set (key := entry_key market token).
  destruct (decide (key = k)) as [<- | NE].
  - rewrite He. destruct (bl_is_permanent e) eqn:P; simpl; [exists e; split; [done | apply stronger_refl]|].
    rewrite lookup_insert_eq. eexists. split; [done|]. split; simpl.
    + destruct (scope_leb scope (bl_scope e)) eqn:Hs; [apply scope_leb_refl|].
      unfold scope_leb in *. rewrite Z.leb_gt in Hs. apply Z.leb_le. lia.
    + unfold bl_is_permanent in P. destruct (bl_expires_at e) as [old|]; [|done].
      destruct (Z.ltb_spec old (expiry now secs)); simpl; lia.
  - destruct (bm_entries m !! key) as [x|]; [destruct (bl_is_permanent x)|]; simpl;
      rewrite ?lookup_insert_ne by done; exists e; (split; [done | apply stronger_refl]).
Qed.

Lemma bl_apply_keeps m now o k e :
  bm_entries m !! k = Some e -> bl_is_expired e now = false ->
  exists e', bm_entries (bl_apply m now o) !! k = Some e' /\ stronger e e'.
Proof.
  intros He Hx. assert (stronger e e) by apply stronger_refl. destruct o; simpl.
  - unfold check. destruct (bm_entries m !! KMarket market) as [e'|] eqn:E; [|by exists e].
    destruct (bl_is_expired e' now) eqn:X; [|destruct (scope_leb _ _); by exists e].
    exists e. split; [by apply (delete_expired_keeps m _ _ _ e' now) | done].
  - unfold is_token_blacklisted. destruct (bm_entries m !! KToken token) as [e'|] eqn:E; [|by exists e].
    destruct (bl_is_expired e' now) eqn:X; [|by exists e].
    exists e. split; [by apply (delete_expired_keeps m _ _ _ e' now) | done].
  - by apply add_temporary_keeps.
  - destruct (decide (KMarket market = k)) as [<-|NE].
    + rewrite lookup_insert_eq. eexists. split; [done|]. split; simpl; [by destruct (bl_scope e)|].
      by destruct (bl_expires_at e).
    + rewrite lookup_insert_ne by done. by exists e.
  - exists e. split; [|done]. apply map_lookup_filter_Some_2; [done|]. simpl. rewrite Hx. apply orb_true_r.
  - unfold maybe_auto_blacklist. destruct (misses <? bm_miss_count m); [by exists e|].
    destruct (bm_entries m !! KMarket market) eqn:E; [by exists e|].
    pose proof (add_temporary_keeps m now market None TradingPath ConsecutiveFokFailures (bm_duration_secs m) misses k e He) as H'.
    by destruct (add_temporary _ _ _ _ _ _ _ _).
  - exists e. split; [|done]. simpl. by do 2 apply foldl_or_insert_keeps.
Qed.

Fixpoint bl_exec (m : BlacklistManager) (calls : list (Time * bl_op)) : BlacklistManager :=
  match calls with [] => m | (now, o) :: rest => bl_exec (bl_apply m now o) rest end.

(** A blacklist entry is never weakened behind the operator's back: until it expires, no sequence
    of checks, temporary or permanent additions, garbage collections, automatic blacklistings and
    configuration reloads removes it or lowers its scope or expiry, so the market stays blocked at
    every scope the entry covered. *)
Theorem blacklist_never_weakened (m : BlacklistManager) (market : MarketId) (e : BlacklistInfo) calls (now : Time) :
  bm_entries m !! KMarket market = Some e ->
  Forall (fun c => bl_is_expired e c.1 = false) calls -> bl_is_expired e now = false ->
  (exists e', bm_entries (bl_exec m calls) !! KMarket market = Some e' /\ stronger e e') /\
  (forall scope, scope_leb scope (bl_scope e) = true ->
     exists r s x, (check (bl_exec m calls) now market scope).2 = Blocked r s x).
Proof.
  intros He Hc Hn.
  assert (forall e0 m, bm_entries m !! KMarket market = Some e0 -> stronger e e0 ->
    exists e', bm_entries (bl_exec m calls) !! KMarket market = Some e' /\ stronger e e') as H.
  { clear Hn He m. induction Hc as [|[t o] calls Ht Hc IH]; intros e0 m He Hs; simpl; [by exists e0|].
    destruct (bl_apply_keeps m t o _ e0 He) as (e1 & He1 & Hs1); [by eapply stronger_expired|].
    apply (IH e1); [done | by eapply stronger_trans]. }
  specialize (H e m He (stronger_refl e)).
  split; [done|]. destruct H as (e' & He' & Hs). intros scope Hsc. unfold check. rewrite He'.
  rewrite (stronger_expired e e' now Hs Hn). destruct Hs as [Hs _].
  rewrite (scope_leb_trans _ _ _ Hsc Hs). by eexists _, _, _.
Qed.

(** Automatic blacklisting: at the miss threshold a market without an entry becomes blocked for
    trading until its time-to-live ends; below the threshold, or with any entry present -- an expired
    one included -- the call changes nothing. *)
Theorem auto_blacklist_branches (m : BlacklistManager) (now t : Time) (market : MarketId) (misses : Z) :
  let r := maybe_auto_blacklist m now market misses in
  (bm_miss_count m <= misses -> bm_entries m !! KMarket market = None ->
     t < expiry now (bm_duration_secs m) ->
     exists x, (check r.1 t market TradingPath).2 = Blocked ConsecutiveFokFailures TradingPath x) /\
  (misses < bm_miss_count m \/ is_Some (bm_entries m !! KMarket market) -> r = (m, None)).
Proof.
  intros r. unfold r, maybe_auto_blacklist. split.
  - intros Hm Hn Ht. destruct (Z.ltb_spec misses (bm_miss_count m)); [lia|]. rewrite Hn.
    unfold add_temporary. simpl. rewrite Hn. simpl. unfold check. simpl. rewrite lookup_insert_eq.
    unfold bl_is_expired. simpl. rewrite (proj2 (Z.leb_gt _ _)) by done. by eexists.
  - intros [H | [x H]].
    + destruct (Z.ltb_spec misses (bm_miss_count m)); [done | lia].
    + rewrite H. by destruct (misses <? bm_miss_count m).
Qed.
End Stronger.

(** ** Witnesses *)

Definition demo_manager : BlacklistManager :=
  (add_temporary (blacklist_new (DO := ExactQ.exactQ) RiskConfig_default 0) 0 "m" None TradingPath DepthDrop 3600 0).1.

Lemma blacklist_never_weakened_witness :
  exists r s x, (check (bl_exec (DO := ExactQ.exactQ) demo_manager
    [(10, BGc); (20, BAddTemporary "m" None DataPath TickChange 1 0); (30, BReload RiskConfig_default)]) 40 "m" DataPath).2 = Blocked r s x.
Proof.
  apply (blacklist_never_weakened (DO := ExactQ.exactQ) demo_manager "m"
    {| bl_market_id := "m"; bl_token_id := None; bl_scope := TradingPath; bl_reason := DepthDrop;
       bl_expires_at := Some (3600 * nanos_per_sec); bl_miss_count := 0; bl_created_at := 0; bl_updated_at := 0 |});
    [vm_compute; reflexivity | repeat constructor | reflexivity | reflexivity].
Defined.

Lemma auto_blacklist_branches_witness :
  let m := blacklist_new (DO := ExactQ.exactQ) RiskConfig_default 0 in
  exists x, (check (maybe_auto_blacklist m 5 "m" 3).1 7 "m" TradingPath).2 = Blocked ConsecutiveFokFailures TradingPath x.
Proof.
  intros m. apply (auto_blacklist_branches m 5 7 "m" 3); [vm_compute; discriminate | reflexivity | vm_compute; reflexivity].
Defined.
