(* ===== verification/Drawdown.v ===== *)
(** * Drawdown guard: [oxide-arb-risk/src/sizing.rs] (`DrawdownGuard`)

    Tracks the high-water mark of equity and turns the current drawdown into an action and a
    size factor. *)

From S2P Require Import Prelude Decimal Config Domain RiskTypes.

Section Guard.
Context `{DO : DecimalOps}.

(** [risk/sizing.rs:288-292] `DrawdownGuard` *)
Record DrawdownGuard := { hwm : D; max_drawdown_pct : D; reduction_factor : D }.

(** [risk/sizing.rs:296-318] `DrawdownGuard::new`, `DrawdownGuard::from_snapshot` *)
Definition guard_new (initial_equity max_drawdown_pct reduction_factor : D) : DrawdownGuard := {|
  hwm := initial_equity; max_drawdown_pct := max_drawdown_pct; reduction_factor := reduction_factor |}.

(** [risk/sizing.rs:319-323] `DrawdownGuard::update_equity` *)
Definition update_equity (g : DrawdownGuard) (current_equity : D) : DrawdownGuard :=
  if dltb (hwm g) current_equity
  then {| hwm := current_equity; max_drawdown_pct := max_drawdown_pct g; reduction_factor := reduction_factor g |}
  else g.

(** [risk/sizing.rs:326-329] `DrawdownGuard::set_params` *)
Definition set_params (g : DrawdownGuard) (max_drawdown_pct reduction_factor : D) : DrawdownGuard := {|
  hwm := hwm g; max_drawdown_pct := max_drawdown_pct; reduction_factor := reduction_factor |}.

(** [risk/sizing.rs:331-348] `DrawdownGuard::evaluate` *)
Definition evaluate (g : DrawdownGuard) (current_equity : D) : D * DrawdownAction :=
  if dleb (hwm g) d0 then (d0, DNormal)
  else
    let drawdown := dsub (hwm g) current_equity in
    let drawdown_pct :=
      if dltb d0 drawdown then ddiv (dmul drawdown (dlit 100 0)) (hwm g) else d0 in
    if dleb (max_drawdown_pct g) drawdown_pct then (drawdown_pct, DHalt)
    else if dltb d0 drawdown_pct then (drawdown_pct, DReduce)
    else (drawdown_pct, DNormal).

(** [risk/sizing.rs:350-360] `DrawdownGuard::sizing_factor` *)
Definition sizing_factor (g : DrawdownGuard) (current_equity : D) : D :=
  let (drawdown_pct, action) := evaluate g current_equity in
  match action with
  | DNormal => d1
  | DReduce =>
      let ratio := ddiv drawdown_pct (max_drawdown_pct g) in
      dsub d1 (dmul ratio (dsub d1 (reduction_factor g)))
  | DHalt => d0
  end.
End Guard.

Section Proofs.
Context `{DL : DecimalLaws}.
Implicit Types g : DrawdownGuard.

(** A sensible policy: a positive limit and a reduction factor that is a fraction. *)
Definition guard_wf g : Prop :=
  (0 < dval (max_drawdown_pct g))%Q /\ (0 <= dval (reduction_factor g) <= 1)%Q.

Definition drawdown_pct_of g (e : D) : D :=
  let drawdown := dsub (hwm g) e in
  if dltb d0 drawdown then ddiv (dmul drawdown (dlit 100 0)) (hwm g) else d0.

Lemma dval_100 : (dval (dlit 100 0) == 100)%Q.
Proof. rewrite dlit_spec by lia. done. Qed.

Lemma ddiv_mono x y c : (0 < dval c)%Q -> (dval x <= dval y)%Q -> (dval (ddiv x c) <= dval (ddiv y c))%Q.
Proof.
  intros Hc Hxy. rewrite !ddiv_spec by lra. apply rnd_mono. unfold Qdiv.
  apply Qmult_le_compat_r; [done|]. apply Qlt_le_weak, Qinv_lt_0_compat. done.
Qed.

Lemma dmul_mono_l x y c : (0 <= dval c)%Q -> (dval x <= dval y)%Q -> (dval (dmul x c) <= dval (dmul y c))%Q.
Proof. intros Hc Hxy. rewrite !dmul_spec. apply rnd_mono. apply Qmult_le_compat_r; done. Qed.

Lemma drawdown_pct_nonneg g e : (0 < dval (hwm g))%Q -> (0 <= dval (drawdown_pct_of g e))%Q.
Proof.
  intros Hh. unfold drawdown_pct_of. destruct (dltb d0 _) eqn:E; [|rewrite dval_d0; lra].
  apply dltb_lt in E. rewrite dval_d0 in E. apply ddiv_nonneg; [|done].
  apply dmul_nonneg; [lra | rewrite dval_100; lra].
Qed.

(** Less equity, more drawdown. *)
Lemma drawdown_pct_antitone g e e' : (0 < dval (hwm g))%Q -> (dval e <= dval e')%Q ->
  (dval (drawdown_pct_of g e') <= dval (drawdown_pct_of g e))%Q.
Proof.
  intros Hh He. assert (dval (dsub (hwm g) e') <= dval (dsub (hwm g) e))%Q as Hd.
  { apply dsub_mono; [apply Qle_refl | done]. }
  pose proof (drawdown_pct_nonneg g e Hh) as Hn. unfold drawdown_pct_of in *.
  destruct (dltb d0 (dsub (hwm g) e')) eqn:E'; [|rewrite dval_d0; done].
  assert (dltb d0 (dsub (hwm g) e) = true) as ->.
  { dbool. lra. }
  apply ddiv_mono; [done|]. apply dmul_mono_l; [rewrite dval_100; lra | done].
Qed.

Lemma evaluate_pos g e : (0 < dval (hwm g))%Q ->
  evaluate g e =
    let p := drawdown_pct_of g e in
    (p, if dleb (max_drawdown_pct g) p then DHalt else if dltb d0 p then DReduce else DNormal).
Proof.
  intros Hh. unfold evaluate, drawdown_pct_of.
  assert (dleb (hwm g) d0 = false) as -> by (dbool; rewrite dval_d0; done).
  cbv zeta. by repeat case_match.
Qed.

(** The factor while reducing. *)
Definition reduce_factor g (p : D) : D :=
  dsub d1 (dmul (ddiv p (max_drawdown_pct g)) (dsub d1 (reduction_factor g))).

Lemma one_minus_r g : guard_wf g -> (0 <= dval (dsub d1 (reduction_factor g)) <= 1)%Q.
Proof.
  intros [_ Hr]. split; [apply dsub_nonneg; rewrite dval_d1; lra|].
  eapply Qle_trans; [apply dsub_le_l; lra | rewrite dval_d1; lra].
Qed.

Lemma reduce_factor_antitone g p p' : guard_wf g -> (dval p <= dval p')%Q ->
  (dval (reduce_factor g p') <= dval (reduce_factor g p))%Q.
Proof.
  intros Hwf Hp. unfold reduce_factor. apply dsub_mono; [apply Qle_refl|].
  apply dmul_mono_l; [apply one_minus_r, Hwf|]. apply ddiv_mono; [apply Hwf | done].
Qed.

Lemma reduce_factor_range g p : guard_wf g -> (0 <= dval p <= dval (max_drawdown_pct g))%Q ->
  (0 <= dval (reduce_factor g p) <= 1)%Q.
Proof.
  intros Hwf [Hp0 Hp]. pose proof (one_minus_r g Hwf) as Hs. destruct Hwf as [Hm _].
  assert (0 <= dval (ddiv p (max_drawdown_pct g)))%Q by (apply ddiv_nonneg; lra).
  assert (dval (ddiv p (max_drawdown_pct g)) <= 1)%Q by (apply ddiv_le_1; lra).
  assert (0 <= dval (dmul (ddiv p (max_drawdown_pct g)) (dsub d1 (reduction_factor g))))%Q by (apply dmul_nonneg; lra).
  assert (dval (dmul (ddiv p (max_drawdown_pct g)) (dsub d1 (reduction_factor g))) <= dval (ddiv p (max_drawdown_pct g)))%Q
    by (apply dmul_le_l; lra).
  split; [apply dsub_nonneg; rewrite dval_d1; lra|].
  unfold reduce_factor. eapply Qle_trans; [apply dsub_le_l; done | rewrite dval_d1; lra].
Qed.

Lemma sizing_factor_eq g e : (0 < dval (hwm g))%Q ->
  sizing_factor g e =
    let p := drawdown_pct_of g e in
    if dleb (max_drawdown_pct g) p then d0 else if dltb d0 p then reduce_factor g p else d1.
Proof. intros Hh. unfold sizing_factor. rewrite evaluate_pos by done. simpl. by repeat case_match. Qed.

Lemma sizing_factor_range g e : guard_wf g -> (0 < dval (hwm g))%Q -> (0 <= dval (sizing_factor g e) <= 1)%Q.
Proof.
  intros Hwf Hh. rewrite sizing_factor_eq by done. cbv zeta.
  pose proof (drawdown_pct_nonneg g e Hh).
  destruct (dleb _ _) eqn:E1; [rewrite dval_d0; lra|].
  destruct (dltb _ _) eqn:E2; [|rewrite dval_d1; lra].
  apply reduce_factor_range; [done|]. apply dleb_gt in E1. lra.
Qed.

(** The drawdown factor is a monotone fraction: it lies between zero and one, it is zero exactly
    from the configured limit on (where the action is to halt), one without drawdown, and losing
    more equity never increases it. *)
Theorem drawdown_factor_monotone g (e e' : D) :
  guard_wf g -> (0 < dval (hwm g))%Q -> (dval e <= dval e')%Q ->
  (0 <= dval (sizing_factor g e))%Q /\ (dval (sizing_factor g e) <= dval (sizing_factor g e'))%Q /\
  (dval (sizing_factor g e') <= 1)%Q /\
  ((evaluate g e).2 = DHalt -> (dval (sizing_factor g e) == 0)%Q) /\
  ((dval (hwm g) <= dval e)%Q -> (dval (sizing_factor g e) == 1)%Q).
Proof.
  intros Hwf Hh He. pose proof (sizing_factor_range g e Hwf Hh). pose proof (sizing_factor_range g e' Hwf Hh) as Hr'.
  pose proof (drawdown_pct_antitone g e e' Hh He) as Hp. pose proof (drawdown_pct_nonneg g e' Hh).
  split; [tauto|]. split; [|split; [tauto|split]].
  - rewrite !sizing_factor_eq in * by done. cbv zeta in *.
    destruct (dleb (max_drawdown_pct g) (drawdown_pct_of g e)) eqn:E1; [rewrite dval_d0; tauto|].
    assert (dleb (max_drawdown_pct g) (drawdown_pct_of g e') = false) as E1' by (dbool; lra).
    rewrite E1' in *. destruct (dltb d0 (drawdown_pct_of g e')) eqn:E2'.
    + assert (dltb d0 (drawdown_pct_of g e) = true) as -> by (dbool; lra). by apply reduce_factor_antitone.
    + rewrite dval_d1. tauto.
  - rewrite evaluate_pos, sizing_factor_eq by done. simpl. repeat case_match; try done. intros _. apply dval_d0.
  - intros Hfull. rewrite sizing_factor_eq by done. cbv zeta.
    assert (dval (drawdown_pct_of g e) == 0)%Q as Hz.
    { unfold drawdown_pct_of. assert (dltb d0 (dsub (hwm g) e) = false) as ->; [|apply dval_d0].
      dbool. rewrite dval_d0. rewrite <- (dval_d0 (DL := DL)). rewrite dsub_spec. apply rnd_le_val. rewrite dval_d0. lra. }
    assert (dleb (max_drawdown_pct g) (drawdown_pct_of g e) = false) as -> by (dbool; rewrite Hz; apply Hwf).
    assert (dltb d0 (drawdown_pct_of g e) = false) as -> by (dbool; rewrite Hz, dval_d0; lra).
    apply dval_d1.
Qed.

(** The high-water mark only goes up. *)
Lemma hwm_mono g e : (dval (hwm g) <= dval (hwm (update_equity g e)))%Q /\ (dval e <= dval (hwm (update_equity g e)))%Q.
Proof. unfold update_equity. destruct (dltb (hwm g) e) eqn:E; dbool; simpl; lra. Qed.
End Proofs.

Definition demo_guard : DrawdownGuard (DO := ExactQ.exactQ) := guard_new (DO := ExactQ.exactQ) (1000 # 1)%Q (10 # 1)%Q (1 # 2)%Q.

Lemma drawdown_factor_monotone_witness :
  (sizing_factor demo_guard (950 # 1)%Q == 3 # 4)%Q /\
  (sizing_factor demo_guard (950 # 1)%Q <= sizing_factor demo_guard (970 # 1)%Q)%Q.
Proof.
  split; [vm_compute; reflexivity|].
  apply (drawdown_factor_monotone (DL := ExactQ.exactQ_laws) demo_guard (950 # 1)%Q (970 # 1)%Q).
  - split; [vm_compute; reflexivity | split; vm_compute; discriminate].
  - vm_compute; reflexivity.
  - vm_compute; discriminate.
Defined.
