(* ===== verification/Context.v ===== *)
(** * Decision context: [oxide-arb-risk/src/context.rs], [snapshot.rs] (the published snapshot)

    A pre-trade decision reads one frozen [RiskSnapshot] and one metrics snapshot. *)

From S2P Require Import Prelude Decimal Config Domain RiskTypes Bloom Drawdown.

Section Context.
Context `{DO : DecimalOps}.

(** [risk/snapshot.rs:145-148] `CircuitBreakerSnapshot` *)
Record CircuitBreakerSnapshot := { snap_circuit_breaker : CircuitBreakerGate; snap_manual_halt : ManualHaltGate }.

(** [risk/snapshot.rs:152-157] `DailyAccountingSnapshot` *)
Record DailyAccountingSnapshot := {
  snap_daily_loss : D; snap_daily_fee : D; snap_daily_pnl : D; snap_daily_budget_remaining : D }.

(** [risk/snapshot.rs:161-163] `WeeklyAccountingSnapshot` *)
Record WeeklyAccountingSnapshot := { snap_weekly_loss : D }.

(** [risk/snapshot.rs:167-170] `HourlyAccountingSnapshot` *)
Record HourlyAccountingSnapshot := { snap_hourly_loss : D; snap_hourly_fee : D }.

(** [risk/snapshot.rs:176-180] `DrawdownSnapshot`: the parameters of a guard. *)
Definition DrawdownSnapshot : Type := DrawdownGuard.

(** [risk/snapshot.rs:200-208] `RiskSnapshot` *)
Record RiskSnapshot := {
  rs_circuit_breaker : CircuitBreakerSnapshot;
  rs_daily : DailyAccountingSnapshot;
  rs_weekly : WeeklyAccountingSnapshot;
  rs_hourly : HourlyAccountingSnapshot;
  rs_drawdown : DrawdownSnapshot;
  rs_total_potential_loss : D;
  rs_blacklist : BlacklistSnapshot
}.

(** [risk/snapshot.rs:212-242] `RiskSnapshot::zeroed` *)
Definition risk_snapshot_zeroed : RiskSnapshot := {|
  rs_circuit_breaker := {| snap_circuit_breaker := {| cb_allows_trading := true; cb_is_probe := false |};
                           snap_manual_halt := HaltClear |};
  rs_daily := {| snap_daily_loss := d0; snap_daily_fee := d0; snap_daily_pnl := d0; snap_daily_budget_remaining := d0 |};
  rs_weekly := {| snap_weekly_loss := d0 |};
  rs_hourly := {| snap_hourly_loss := d0; snap_hourly_fee := d0 |};
  rs_drawdown := guard_new d0 d0 d1;
  rs_total_potential_loss := d0;
  rs_blacklist := blacklist_snapshot_empty
|}.

(** [risk/context.rs:46-63] `PreTradeContext` *)
Record PreTradeContext := {
  ctx_opportunity : Opportunity;
  ctx_probability : ProbabilityInput;
  ctx_snap : RiskSnapshot;
  ctx_metrics : RiskMetricsSnapshot;
  ctx_factor_context : option FactorDecisionContext;
  ctx_settlement_gate : SettlementGateInput;
  ctx_integrity : TradeIntegritySnapshot;
  ctx_now : Time;
  ctx_sized_intent : option SizedIntent
}.

(** [risk/context.rs:142-144] `PreTradeContext::manual_halt` *)
Definition manual_halt (c : PreTradeContext) : ManualHaltGate := snap_manual_halt (rs_circuit_breaker (ctx_snap c)).
(** [risk/context.rs:147-149] `PreTradeContext::circuit_breaker` *)
Definition breaker_gate (c : PreTradeContext) : CircuitBreakerGate := snap_circuit_breaker (rs_circuit_breaker (ctx_snap c)).
(** [risk/context.rs:152-154] `PreTradeContext::market_exposure_before` *)
Definition market_exposure_before (c : PreTradeContext) : D := market_exposure (ctx_metrics c).
(** [risk/context.rs:157-159] `PreTradeContext::total_exposure_before` *)
Definition total_exposure_before (c : PreTradeContext) : D := ms_total_exposure (ctx_metrics c).

(** [risk/context.rs:164-167] `PreTradeContext::intended_cost_usd` *)
Definition intended_cost_usd (c : PreTradeContext) : D :=
  match ctx_sized_intent c with Some intent => si_bet_usd intent | None => total_cost (ctx_opportunity c) end.

(** [risk/context.rs:172-175] `PreTradeContext::intended_fee_usd` *)
Definition intended_fee_usd (c : PreTradeContext) : D :=
  match ctx_sized_intent c with Some intent => si_fee_usd intent | None => total_fees (ctx_opportunity c) end.

(** [risk/context.rs:228-234] `PreTradeContext::ws_disconnect_secs` *)
Definition ws_disconnect_secs (c : PreTradeContext) : Z :=
  if ms_ws_disconnect_secs (ctx_metrics c) <? market_ws_disconnect_secs (ctx_metrics c)
  then market_ws_disconnect_secs (ctx_metrics c)
  else ms_ws_disconnect_secs (ctx_metrics c).

(** [risk/context.rs:237-239] `PreTradeContext::open_directional_count_same_side` *)
Definition open_directional_count_same_side (c : PreTradeContext) : Z :=
  open_directional_count (ctx_metrics c) (opp_side (ctx_opportunity c)).
(** [risk/context.rs:242-244] `PreTradeContext::daily_directional_trades_same_side` *)
Definition daily_directional_trades_same_side (c : PreTradeContext) : Z :=
  daily_directional_trades (ctx_metrics c) (opp_side (ctx_opportunity c)).

(** [risk/context.rs:297-299] `PreTradeContext::drawdown_factor` *)
Definition drawdown_factor (c : PreTradeContext) : D := sizing_factor (rs_drawdown (ctx_snap c)) (equity (ctx_metrics c)).
(** [risk/context.rs:302-304] `PreTradeContext::drawdown_action` *)
Definition drawdown_action (c : PreTradeContext) : DrawdownAction :=
  (evaluate (rs_drawdown (ctx_snap c)) (equity (ctx_metrics c))).2.

(** [risk/context.rs:308-312] `PreTradeContext::is_market_blacklisted_trading_path` *)
Definition is_market_blacklisted_trading_path (c : PreTradeContext) : option string :=
  trading_path_block_detail (rs_blacklist (ctx_snap c)) (opp_market_id (ctx_opportunity c)).
(** [risk/context.rs:315-319] `PreTradeContext::is_token_blacklisted` *)
Definition ctx_is_token_blacklisted (c : PreTradeContext) : bool :=
  snap_is_token_blacklisted (rs_blacklist (ctx_snap c)) (opp_token_id (ctx_opportunity c)).
End Context.

(** ** Sample values

    A concrete opportunity, metrics and snapshot over exact rationals, on which the default
    configuration's gates pass: the theorems about decisions are instantiated on them. *)

Module Demo.
#[local] Existing Instance ExactQ.exactQ.

Definition opportunity : Opportunity := {|
  opportunity_id := 1; opp_market_id := "m"; opp_event_id := "e"; opp_token_id := "t"; opp_side := Buy;
  payout_model := DirectionalSettlement (20 # 1)%Q (19 # 1)%Q Buy;
  opp_shares := (20 # 1)%Q; opp_entry_price := (1 # 2)%Q; total_cost := (10 # 1)%Q; total_fees := (1 # 10)%Q;
  net_profit := (9 # 1)%Q; expected_net_profit := (8 # 1)%Q; opp_edge_bps := (8000 # 1)%Q;
  resolution_adjust := (9 # 10)%Q; depth_used_pct := (1 # 1)%Q; staleness := Fresh; opp_category := Politics;
  meta := {| predicted_yes := true; meta_confidence := (9 # 10)%Q; convergence_duration_secs := 4000;
             meta_price_zone := Z97; meta_duration_bucket := Medium; settlement_deadline := None |};
  calibration := {| cal_bucket_key := {| bk_category := Politics; bk_price_zone := Z97; bk_duration_bucket := Medium |};
                    cal_posterior_mean := (9 # 10)%Q; cal_sample_size := 50; cal_alpha_prior := 1%Q; cal_beta_prior := 1%Q;
                    cal_fallback_tier := 1; cal_fused_probability := (9 # 10)%Q |};
  detected_at := 0 |}.

Definition probability : ProbabilityInput := {|
  calibrated_win_prob := (95 # 100)%Q; fill_prob := (95 # 100)%Q; calibration_confidence := (95 # 100)%Q;
  prob_sample_size := 50; model_staleness_secs := 0; expected_slippage_pct := 0%Q; expected_failure_cost_pct := 0%Q |}.

Definition metrics : RiskMetricsSnapshot := {|
  ms_version := 1; cash_balance := (1000 # 1)%Q; position_mark_value := 0%Q; equity := (1000 # 1)%Q;
  ms_total_exposure := 0%Q; market_exposure := 0%Q; open_position_count := 0; active_reservation_count := 0;
  reserved_usd := 0%Q; open_directional_count_buy := 0; open_directional_count_sell := 0;
  daily_directional_trades_buy := 0; daily_directional_trades_sell := 0; consecutive_market_misses := 0;
  market_ws_disconnect_secs := 0; ms_ws_disconnect_secs := 0; api_error_count := 0; api_request_count := 100;
  is_stale := false; metrics_age_secs := 1; is_authoritative := true |}.

Definition snap : RiskSnapshot := {|
  rs_circuit_breaker := {| snap_circuit_breaker := {| cb_allows_trading := true; cb_is_probe := false |};
                           snap_manual_halt := HaltClear |};
  rs_daily := {| snap_daily_loss := 0%Q; snap_daily_fee := 0%Q; snap_daily_pnl := 0%Q; snap_daily_budget_remaining := (50 # 1)%Q |};
  rs_weekly := {| snap_weekly_loss := 0%Q |};
  rs_hourly := {| snap_hourly_loss := 0%Q; snap_hourly_fee := 0%Q |};
  rs_drawdown := guard_new (1000 # 1)%Q (10 # 1)%Q (1 # 2)%Q;
  rs_total_potential_loss := 0%Q;
  rs_blacklist := blacklist_snapshot_empty |}.

Definition ctx (factors : option FactorDecisionContext) : PreTradeContext := {|
  ctx_opportunity := opportunity; ctx_probability := probability; ctx_snap := snap; ctx_metrics := metrics;
  ctx_factor_context := factors;
  ctx_settlement_gate := {| sg_mode := Paper; market_neg_risk := None; redeem_policy := None |};
  ctx_integrity := integrity_zero 0; ctx_now := 0; ctx_sized_intent := None |}.

(** A neutral bundle but for a bucket cap of one half. *)
Definition half_bucket : FactorDecisionContext := {|
  publication_id := Some 7; snapshot_expired := false; fail_closed := true;
  reconciliation_health := reconciliation_health_default;
  market_anomaly := {| block_market := false; block_event := false; manual_ack_required := false;
                       reason_code := None; ma_source := None |};
  portfolio_risk := portfolio_risk_default; bucket_size_multiplier := (1 # 2)%Q; applied_factors := [] |}.
End Demo.
