(* ===== verification/Sizing.v ===== *)
(** * Position sizing: [oxide-arb-risk/src/sizing.rs]

    Quarter-Kelly with a list of ceilings; the smallest one binds.  The theorems bound the
    result by every ceiling (up to the final rounding to cents), show that control factors only
    tighten it, and that the Kelly stake stays within the capped fraction of the bankroll. *)

From S2P Require Import Prelude Decimal Config Domain RiskTypes Bloom Drawdown Context.

Section Sizing.
Context `{DO : DecimalOps}.

(** [risk/sizing.rs:11-18] `QuarterKellyCalculator` *)
Record QuarterKellyCalculator := {
  kc_kelly_fraction : D;
  kc_min_edge_bps : D;
  kc_max_kelly_fraction : D;
  kc_min_probability_confidence : D;
  kc_min_calibration_samples : Z;
  kc_max_probability_staleness_secs : Z
}.

(** [risk/sizing.rs:22-31] `QuarterKellyCalculator::new` *)
Definition kelly_new (config : RiskConfig) : QuarterKellyCalculator := {|
  kc_kelly_fraction := kelly_fraction config;
  kc_min_edge_bps := min_edge_bps (kelly config);
  kc_max_kelly_fraction := max_kelly (kelly config);
  kc_min_probability_confidence := min_probability_confidence (kelly config);
  kc_min_calibration_samples := min_calibration_samples (kelly config);
  kc_max_probability_staleness_secs := max_probability_staleness_secs (kelly config)
|}.

(** [risk/sizing.rs:39-47] `zero` (with the overridden fields) *)
Definition kelly_zero (edge_bps effective_p net_odds : D) (reason : string) : KellyResult := {|
  kr_bet_usd := d0; kelly_raw := d0; kelly_fractional := d0; edge_bps := edge_bps;
  effective_win_prob := effective_p; net_odds := net_odds; binding_reason := reason |}.

(** [risk/sizing.rs:33-122] `QuarterKellyCalculator::calculate` *)
Definition kelly_calculate (self : QuarterKellyCalculator) (prob : ProbabilityInput) (entry_price bankroll : D)
    : KellyResult :=
  if dleb entry_price d0 || dleb d1 entry_price || dleb bankroll d0 then kelly_zero d0 d0 d0 "invalid_input"
  else if dltb (calibration_confidence prob) (kc_min_probability_confidence self) then kelly_zero d0 d0 d0 "low_confidence"
  else if prob_sample_size prob <? kc_min_calibration_samples self then kelly_zero d0 d0 d0 "insufficient_samples"
  else if kc_max_probability_staleness_secs self <? model_staleness_secs prob then kelly_zero d0 d0 d0 "stale_model"
  else
    let confidence_haircut := calibration_confidence prob in
    let staleness_ratio :=
      ddiv (dof_Z (model_staleness_secs prob)) (dof_Z (kc_max_probability_staleness_secs self)) in
    let staleness_haircut := dmax (dsub d1 staleness_ratio) d0 in
    let effective_p :=
      dmul (dmul (dmul (calibrated_win_prob prob) (fill_prob prob)) confidence_haircut) staleness_haircut in
    let gross_odds := ddiv (dsub d1 entry_price) entry_price in
    let net_odds := dsub (dsub gross_odds (expected_slippage_pct prob)) (expected_failure_cost_pct prob) in
    if dleb net_odds d0 then kelly_zero d0 effective_p net_odds "negative_odds_after_costs"
    else
      let edge_bps :=
        if dltb d0 entry_price then dmul (ddiv (dsub effective_p entry_price) entry_price) (dlit 10000 0) else d0 in
      if dltb edge_bps (kc_min_edge_bps self) then kelly_zero edge_bps effective_p net_odds "below_min_edge"
      else
        let q := dsub d1 effective_p in
        let kelly_raw := dmax (ddiv (dsub (dmul effective_p net_odds) q) net_odds) d0 in
        let kelly_fractional := dmin (dmul kelly_raw (kc_kelly_fraction self)) (kc_max_kelly_fraction self) in
        let bet := dround_dp 2 (dmul bankroll kelly_fractional) in
        {| kr_bet_usd := bet; kelly_raw := kelly_raw; kelly_fractional := kelly_fractional; edge_bps := edge_bps;
           effective_win_prob := effective_p; net_odds := net_odds; binding_reason := "kelly" |}.

(** [risk/sizing.rs:127-136] `MultiConstraintSizer` *)
Record MultiConstraintSizer := {
  sz_kelly : QuarterKellyCalculator;
  sz_max_single_bet_usd : D;
  sz_max_single_loss_usd : D;
  sz_max_single_market_exposure_usd : D;
  sz_max_total_exposure_usd : D;
  sz_max_weekly_loss_usd : D;
  sz_reserve_balance_usd : D;
  sz_min_trade_usd : D
}.

(** [risk/sizing.rs:140-151] `MultiConstraintSizer::new` *)
Definition sizer_new (config : RiskConfig) : MultiConstraintSizer := {|
  sz_kelly := kelly_new config;
  sz_max_single_bet_usd := max_single_bet_usd config;
  sz_max_single_loss_usd := max_single_loss_usd config;
  sz_max_single_market_exposure_usd := max_single_market_exposure_usd config;
  sz_max_total_exposure_usd := max_total_exposure_usd config;
  sz_max_weekly_loss_usd := max_weekly_loss_usd config;
  sz_reserve_balance_usd := reserve_balance_usd config;
  sz_min_trade_usd := min_trade_usd config
|}.

(** [a.max_usd <= b.max_usd], the order of [min_by]. *)
Definition constraint_leb (a b : SizeConstraint) : bool := dleb (sc_max_usd a) (sc_max_usd b).

(** [risk/sizing.rs:166-214] `MultiConstraintSizer::size` (the nine ceilings) *)
Definition base_constraints (self : MultiConstraintSizer) (ctx : PreTradeContext) (kelly_bet bankroll drawdown_factor : D)
    : list SizeConstraint := [
  {| sc_name := "kelly_upper_bound"; sc_max_usd := kelly_bet |};
  {| sc_name := "max_single_bet"; sc_max_usd := sz_max_single_bet_usd self |};
  {| sc_name := "max_single_loss"; sc_max_usd := sz_max_single_loss_usd self |};
  {| sc_name := "market_exposure_headroom";
     sc_max_usd := dmax (dsub (sz_max_single_market_exposure_usd self) (market_exposure_before ctx)) d0 |};
  {| sc_name := "portfolio_exposure_headroom";
     sc_max_usd := dmax (dsub (sz_max_total_exposure_usd self) (total_exposure_before ctx)) d0 |};
  {| sc_name := "daily_budget_remaining";
     sc_max_usd := dmax (snap_daily_budget_remaining (rs_daily (ctx_snap ctx))) d0 |};
  {| sc_name := "weekly_loss_headroom";
     sc_max_usd := dmax (dsub (sz_max_weekly_loss_usd self) (snap_weekly_loss (rs_weekly (ctx_snap ctx)))) d0 |};
  {| sc_name := "available_balance";
     sc_max_usd := dmax (dsub (dsub (dsub (equity (ctx_metrics ctx)) (sz_reserve_balance_usd self))
                                 (reserved_usd (ctx_metrics ctx)))
                           (rs_total_potential_loss (ctx_snap ctx))) d0 |};
  {| sc_name := "drawdown_scaled";
     sc_max_usd := if dleb drawdown_factor d0 then d0 else dmul bankroll drawdown_factor |}
].

(** [risk/sizing.rs:243-284] `MultiConstraintSizer::push_factor_constraints` *)
Definition push_factor_constraints (ctx : PreTradeContext) (constraints : list SizeConstraint) : list SizeConstraint :=
  match ctx_factor_context ctx with
  | None => constraints
  | Some factor_context =>
      let base := unwrap_or (min_by dleb (sc_max_usd <$> constraints)) d0 in
      let scale (multiplier : D) := dmax (dmul base (dclamp multiplier d0 d1)) d0 in
      let cap (name : string) (multiplier : D) (l : list SizeConstraint) :=
        if dltb multiplier d1 then l ++ [{| sc_name := name; sc_max_usd := scale multiplier |}] else l in
      let constraints := cap "factor_bucket_size_cap" (bucket_size_multiplier factor_context) constraints in
      let portfolio := portfolio_risk factor_context in
      let portfolio_multiplier :=
        dmul (global_size_multiplier portfolio) (unwrap_or (category_size_multiplier portfolio) d1) in
      let constraints := cap "factor_portfolio_size_cap" portfolio_multiplier constraints in
      cap "factor_reconciliation_size_cap" (rh_size_multiplier (reconciliation_health factor_context)) constraints
  end.

(** [risk/sizing.rs:224-229] `MultiConstraintSizer::size` (floor, minimum trade, rounding) *)
Definition finalize (self : MultiConstraintSizer) (binding : D) : D :=
  let final_usd := dmax binding d0 in
  let final_usd := if dltb final_usd (sz_min_trade_usd self) then d0 else final_usd in
  dround_dp 2 final_usd.

(** [risk/sizing.rs:154-237] `MultiConstraintSizer::size` *)
Definition size (self : MultiConstraintSizer) (ctx : PreTradeContext) (bankroll drawdown_factor : D) : SizeResult :=
  let kelly := kelly_calculate (sz_kelly self) (ctx_probability ctx) (opp_entry_price (ctx_opportunity ctx)) bankroll in
  let constraints := push_factor_constraints ctx (base_constraints self ctx (kr_bet_usd kelly) bankroll drawdown_factor) in
  match min_by constraint_leb constraints with
  | Some binding => {| bet_usd := finalize self (sc_max_usd binding); kelly_result := kelly;
                       binding_constraint := sc_name binding; breakdown := {| constraints := constraints |} |}
  | None => SizeResult_zero (* [expect("constraints is non-empty")] *)
  end.
End Sizing.

(** ** Kelly *)

Section Proofs.
Context `{DL : DecimalLaws}.

Lemma half_cent n : n = 2 -> ((1 # 2) * grid 1 n == 1 # 200)%Q.
Proof. intros ->. done. Qed.

Lemma round2_near x : (Qabs (dval (dround_dp 2 x) - dval x) <= 1 # 200)%Q.
Proof. pose proof (dround_dp_near 2 x) as H. rewrite half_cent in H by done. apply H. lia. Qed.

Lemma round2_le x : (dval (dround_dp 2 x) <= dval x + (1 # 200))%Q.
Proof. pose proof (round2_near x) as H. apply Qabs_Qle_condition in H as [_ H]. lra. Qed.

Lemma dmax_0_nonneg x : (0 <= dval (dmax x d0))%Q.
Proof. destruct (dmax_cases x d0) as [[-> H] | [-> H]]; rewrite dval_d0 in *; lra. Qed.

Lemma dmax_0_mono x y : (dval x <= dval y)%Q -> (dval (dmax x d0) <= dval (dmax y d0))%Q.
Proof.
  intros. destruct (dmax_cases x d0) as [[-> ?]|[-> ?]], (dmax_cases y d0) as [[-> ?]|[-> ?]];
    rewrite dval_d0 in *; lra.
Qed.

Definition kelly_wf (k : QuarterKellyCalculator) : Prop :=
  (0 <= dval (kc_kelly_fraction k))%Q /\ (0 <= dval (kc_max_kelly_fraction k))%Q.

(** The Kelly stake is bounded and gated: it is never negative, never more than the configured cap
    of the bankroll (plus half a cent of rounding), and it is zero unless the entry price is strictly
    between zero and one, the bankroll is positive, the calibration is confident, sampled and
    fresh enough, the net odds are positive and the edge reaches the configured minimum. *)
Theorem kelly_bounded_and_gated (k : QuarterKellyCalculator) (p : ProbabilityInput) (price bankroll : D) :
  kelly_wf k -> (0 <= dval bankroll)%Q ->
  let r := kelly_calculate k p price bankroll in
  (0 <= dval (kr_bet_usd r))%Q /\
  (dval (kr_bet_usd r) <= dval (dmul bankroll (kc_max_kelly_fraction k)) + (1 # 200))%Q /\
  ((0 < dval (kr_bet_usd r))%Q ->
     (0 < dval price < 1)%Q /\ (0 < dval bankroll)%Q /\
     (dval (kc_min_probability_confidence k) <= dval (calibration_confidence p))%Q /\
     kc_min_calibration_samples k <= prob_sample_size p /\
     model_staleness_secs p <= kc_max_probability_staleness_secs k /\
     (0 < dval (net_odds r))%Q /\ (dval (kc_min_edge_bps k) <= dval (edge_bps r))%Q).
Proof.
  intros [Hf Hm] Hb r.
  assert (0 <= dval (dmul bankroll (kc_max_kelly_fraction k)))%Q as Hcap by (by apply dmul_nonneg).
  unfold r, kelly_calculate.
  repeat match goal with
  | |- context [if ?b then kelly_zero _ _ _ _ else _] =>
      let E := fresh "E" in destruct b eqn:E;
        [simpl; rewrite dval_d0; split; [lra|]; split; [lra|]; intros; lra|]
  end.
  apply orb_false_iff in E as [E Eb]. apply orb_false_iff in E as [Ep Ep1].
  rewrite (proj2 (dltb_lt d0 price)) in * by (apply dleb_gt in Ep; done).
  set (raw := dmax _ d0). set (frac := dmin _ _). cbn [kr_bet_usd net_odds edge_bps].
  assert (0 <= dval frac)%Q.
  { unfold frac. destruct (dmin_cases (dmul raw (kc_kelly_fraction k)) (kc_max_kelly_fraction k)) as [[-> _] | [-> _]];
      [apply dmul_nonneg; [apply dmax_0_nonneg | done] | done]. }
  assert (dval frac <= dval (kc_max_kelly_fraction k))%Q.
  { unfold frac. destruct (dmin_cases (dmul raw (kc_kelly_fraction k)) (kc_max_kelly_fraction k)) as [[-> ?] | [-> ?]]; lra. }
  split; [apply dround_nonneg; [lia | by apply dmul_nonneg]|]. split.
  - eapply Qle_trans; [apply round2_le|]. 
    assert (dval (dmul bankroll frac) <= dval (dmul bankroll (kc_max_kelly_fraction k)))%Q; [|lra].
    rewrite !dmul_spec. apply rnd_mono. rewrite !(Qmult_comm (dval bankroll)). by apply Qmult_le_compat_r.
  - intros _. zbool. dbool. rewrite dval_d0, dval_d1 in *. repeat split; done.
Qed.

(** ** The binding constraint *)

Lemma constraint_leb_trans a b c : constraint_leb a b = true -> constraint_leb b c = true -> constraint_leb a c = true.
Proof. apply dleb_trans. Qed.
Lemma constraint_leb_total a b : constraint_leb a b = true \/ constraint_leb b a = true.
Proof. apply dleb_total. Qed.

Lemma finalize_nonneg s x : (0 <= dval (finalize s x))%Q.
Proof.
  unfold finalize. apply dround_nonneg; [lia|]. destruct (dltb _ _); [rewrite dval_d0; lra | apply dmax_0_nonneg].
Qed.

Lemma finalize_le s x : (dval (finalize s x) <= dval (dmax x d0) + (1 # 200))%Q.
Proof.
  unfold finalize. eapply Qle_trans; [apply round2_le|]. pose proof (dmax_0_nonneg x).
  destruct (dltb _ _); [rewrite dval_d0|]; lra.
Qed.

Lemma finalize_mono s x y : (0 <= dval (sz_min_trade_usd s))%Q -> (dval x <= dval y)%Q ->
  (dval (finalize s x) <= dval (finalize s y))%Q.
Proof.
  intros Hm Hxy. unfold finalize. apply dround_dp_mono.
  pose proof (dmax_0_mono x y Hxy).
  pose proof (dmax_0_nonneg x). pose proof (dmax_0_nonneg y).
  destruct (dltb (dmax x d0) _) eqn:E1, (dltb (dmax y d0) _) eqn:E2; dbool; rewrite ?dval_d0; lra.
Qed.

Lemma push_factor_prefix ctx l : exists caps, push_factor_constraints ctx l = l ++ caps.
Proof.
  unfold push_factor_constraints. destruct (ctx_factor_context ctx); [|exists []; by rewrite app_nil_r].
  cbv zeta. repeat case_match; rewrite <- ?app_assoc; eexists; try done; by rewrite app_nil_r.
Qed.

Lemma size_breakdown s ctx bankroll dd :
  let kr := kelly_calculate (sz_kelly s) (ctx_probability ctx) (opp_entry_price (ctx_opportunity ctx)) bankroll in
  kelly_result (size s ctx bankroll dd) = kr /\
  constraints (breakdown (size s ctx bankroll dd)) =
    push_factor_constraints ctx (base_constraints s ctx (kr_bet_usd kr) bankroll dd).
Proof.
  intros kr. unfold size. fold kr.
  destruct (push_factor_prefix ctx (base_constraints s ctx (kr_bet_usd kr) bankroll dd)) as [caps E].
  rewrite E. done.
Qed.

Lemma size_cases s ctx bankroll dd :
  exists b, b ∈ constraints (breakdown (size s ctx bankroll dd)) /\
    Forall (fun c => (dval (sc_max_usd b) <= dval (sc_max_usd c))%Q) (constraints (breakdown (size s ctx bankroll dd))) /\
    bet_usd (size s ctx bankroll dd) = finalize s (sc_max_usd b).
Proof.
  unfold size. set (kr := kelly_calculate _ _ _ _).
  destruct (push_factor_prefix ctx (base_constraints s ctx (kr_bet_usd kr) bankroll dd)) as [caps E].
  destruct (min_by constraint_leb (push_factor_constraints ctx (base_constraints s ctx (kr_bet_usd kr) bankroll dd))) as [b|] eqn:Eb.
  - simpl. destruct (min_by_spec constraint_leb constraint_leb_trans constraint_leb_total _ _ Eb) as [H1 H2].
    exists b. split; [done|]. split; [|done]. eapply Forall_impl; [exact H2|]. intros c Hc. by apply dleb_le.
  - rewrite E in Eb. done.
Qed.

(** C13: the sized bet respects every ceiling: it is never negative and exceeds none of the ceilings of
    its breakdown -- the Kelly stake, the single-bet and single-loss limits, the exposure, budget,
    weekly-loss and balance headrooms, the drawdown-scaled bankroll and the control-factor caps -- by
    more than the half cent of the final rounding. *)
Theorem size_within_every_ceiling (s : MultiConstraintSizer) (ctx : PreTradeContext) (bankroll dd : D) :
  let r := size s ctx bankroll dd in
  (0 <= dval (bet_usd r))%Q /\
  Forall (fun c => (dval (bet_usd r) <= dval (dmax (sc_max_usd c) d0) + (1 # 200))%Q) (constraints (breakdown r)) /\
  exists caps, constraints (breakdown r) =
    base_constraints s ctx (kr_bet_usd (kelly_result r)) bankroll dd ++ caps.
Proof.
  intros r. destruct (size_cases s ctx bankroll dd) as (b & Hb & Hmin & Hbet). fold r in Hb, Hmin, Hbet.
  rewrite Hbet. split; [apply finalize_nonneg|]. split.
  - eapply Forall_impl; [exact Hmin|]. intros c Hc. simpl in Hc. eapply Qle_trans; [apply finalize_le|].
    apply Qplus_le_compat; [by apply dmax_0_mono | apply Qle_refl].
  - destruct (size_breakdown s ctx bankroll dd) as [Hk Hc]. fold r in Hk, Hc. rewrite Hc, Hk.
    apply push_factor_prefix.
Qed.

(** ** Control factors *)

Definition without_factors (ctx : PreTradeContext) : PreTradeContext := {|
  ctx_opportunity := ctx_opportunity ctx; ctx_probability := ctx_probability ctx; ctx_snap := ctx_snap ctx;
  ctx_metrics := ctx_metrics ctx; ctx_factor_context := None; ctx_settlement_gate := ctx_settlement_gate ctx;
  ctx_integrity := ctx_integrity ctx; ctx_now := ctx_now ctx; ctx_sized_intent := ctx_sized_intent ctx |}.

(** No multiplier below one. *)
Definition factors_neutral (f : FactorDecisionContext) : bool :=
  dleb d1 (bucket_size_multiplier f) &&
  dleb d1 (dmul (global_size_multiplier (portfolio_risk f)) (unwrap_or (category_size_multiplier (portfolio_risk f)) d1)) &&
  dleb d1 (rh_size_multiplier (reconciliation_health f)).

Lemma push_factor_neutral ctx f l :
  ctx_factor_context ctx = Some f -> factors_neutral f = true -> push_factor_constraints ctx l = l.
Proof.
  intros Hc Hf. unfold factors_neutral in Hf. zbool. unfold push_factor_constraints. rewrite Hc. cbv zeta.
  unfold dltb. rewrite H, H1, H0. done.
Qed.

(** Control factors only tighten: the bet sized with a published factor bundle is at most the bet
    sized without one, whatever the multipliers are, and a neutral bundle (no multiplier below one)
    changes nothing. *)
Theorem factor_caps_only_tighten (s : MultiConstraintSizer) (ctx : PreTradeContext) (bankroll dd : D) :
  (0 <= dval (sz_min_trade_usd s))%Q ->
  (dval (bet_usd (size s ctx bankroll dd)) <= dval (bet_usd (size s (without_factors ctx) bankroll dd)))%Q /\
  (forall f, ctx_factor_context ctx = Some f -> factors_neutral f = true ->
     size s ctx bankroll dd = size s (without_factors ctx) bankroll dd).
Proof.
  intros Hmin. split.
  - destruct (size_cases s ctx bankroll dd) as (b & _ & Hb & ->).
    destruct (size_cases s (without_factors ctx) bankroll dd) as (b' & Hb' & _ & ->).
    apply finalize_mono; [done|]. rewrite Forall_forall in Hb. apply Hb.
    destruct (size_breakdown s ctx bankroll dd) as [_ ->].
    destruct (size_breakdown s (without_factors ctx) bankroll dd) as [_ Hc]. rewrite Hc in Hb'.
    destruct (push_factor_prefix ctx (base_constraints s ctx (kr_bet_usd (kelly_calculate (sz_kelly s)
      (ctx_probability ctx) (opp_entry_price (ctx_opportunity ctx)) bankroll)) bankroll dd)) as [caps ->].
    apply elem_of_app. by left.
  - intros f Hc Hn. unfold size. rewrite (push_factor_neutral ctx f) by done. done.
Qed.
End Proofs.

(** ** Witnesses *)

Definition demo_sizer : MultiConstraintSizer := sizer_new (DO := ExactQ.exactQ) RiskConfig_default.

Lemma kelly_bounded_and_gated_witness :
  (0 < kr_bet_usd (kelly_calculate (sz_kelly demo_sizer) Demo.probability (1 # 2)%Q (900 # 1)%Q))%Q /\
  (kr_bet_usd (kelly_calculate (sz_kelly demo_sizer) Demo.probability (1 # 2)%Q (900 # 1)%Q) <= (225 # 1) + (1 # 200))%Q.
Proof.
  split; [vm_compute; reflexivity|].
  destruct (kelly_bounded_and_gated (DL := ExactQ.exactQ_laws) (sz_kelly demo_sizer) Demo.probability (1 # 2)%Q (900 # 1)%Q)
    as (_ & H & _); [split; vm_compute; discriminate | vm_compute; discriminate |].
  eapply Qle_trans; [exact H | vm_compute; discriminate].
Defined.

Lemma factor_caps_only_tighten_witness :
  (bet_usd (size demo_sizer (Demo.ctx (Some Demo.half_bucket)) (900 # 1)%Q 1%Q) == 25 # 2)%Q /\
  (bet_usd (size demo_sizer (Demo.ctx (Some Demo.half_bucket)) (900 # 1)%Q 1%Q)
     <= bet_usd (size demo_sizer (Demo.ctx None) (900 # 1)%Q 1%Q))%Q.
Proof.
  split; [vm_compute; reflexivity|].
  apply (factor_caps_only_tighten (DL := ExactQ.exactQ_laws) demo_sizer (Demo.ctx (Some Demo.half_bucket)) (900 # 1)%Q 1%Q).
  vm_compute; discriminate.
Defined.
