(* ===== verification/Checks.v ===== *)
(** * The thirty-two gates: [oxide-arb-risk/src/pipeline/checks.rs]

    Each check is a value of [RiskCheck], the trait of [pipeline/mod.rs]: its id, its kind, whether
    it needs live metrics, and its evaluation on a context.  A check struct that stores a limit is
    the function of that configuration. *)

From S2P Require Import Prelude Decimal Config Domain RiskTypes Bloom Drawdown Context.

Section Checks.
Context `{DO : DecimalOps}.

(** [risk/pipeline/mod.rs:29-43] `RiskCheck` *)
Record RiskCheck := {
  rc_id : RiskCheckId;
  rc_kind : RiskCheckKind;
  rc_requires_metrics : bool;
  rc_evaluate : PreTradeContext -> RiskCheckResult
}.

(** A gate that reads the published snapshot only, and one that needs live metrics. *)
Definition snap_gate (id : RiskCheckId) (f : PreTradeContext -> RiskCheckResult) : RiskCheck := {|
  rc_id := id; rc_kind := Gate; rc_requires_metrics := false; rc_evaluate := f |}.
Definition live_gate (id : RiskCheckId) (f : PreTradeContext -> RiskCheckResult) : RiskCheck := {|
  rc_id := id; rc_kind := Gate; rc_requires_metrics := true; rc_evaluate := f |}.

(** [format!("${}", x)] and the like. *)
Definition usd_str (x : D) : string := "$" +:+ dshow x.

(** [risk/pipeline/checks.rs:26-52] `ManualHaltCheck` *)
Definition ManualHaltCheck : RiskCheck := snap_gate CkManualHalt (fun ctx =>
  if manual_allows_trading (manual_halt ctx) then passed CkManualHalt
  else failed CkManualHalt (unwrap_or (manual_denial_detail (manual_halt ctx)) "engine manually halted")
         "not halted" "halted").

(** [risk/pipeline/checks.rs:58-82] `CircuitBreakerCheck` *)
Definition CircuitBreakerCheck : RiskCheck := snap_gate CkCircuitBreaker (fun ctx =>
  if cb_allows_trading (breaker_gate ctx) then passed CkCircuitBreaker
  else failed CkCircuitBreaker "circuit breaker is open" "closed or half-open" "open").

(** [risk/pipeline/checks.rs:88-112] `BlacklistCheck` *)
Definition BlacklistCheck : RiskCheck := snap_gate CkBlacklistTradingPath (fun ctx =>
  match is_market_blacklisted_trading_path ctx with
  | Some detail => failed CkBlacklistTradingPath detail "not blacklisted" "blacklisted"
  | None => passed CkBlacklistTradingPath
  end).

(** [risk/pipeline/checks.rs:118-142] `TokenBlacklistCheck` *)
Definition TokenBlacklistCheck : RiskCheck := snap_gate CkTokenBlacklist (fun ctx =>
  if negb (ctx_is_token_blacklisted ctx) then passed CkTokenBlacklist
  else failed CkTokenBlacklist "token is blacklisted" "not blacklisted" "blacklisted").

(** [risk/pipeline/checks.rs:153-185] `MarketAnomalyBlockCheck` *)
Definition MarketAnomalyBlockCheck : RiskCheck := snap_gate CkMarketAnomalyBlock (fun ctx =>
  match ctx_factor_context ctx with
  | None => passed CkMarketAnomalyBlock
  | Some factor_context =>
      let anomaly := market_anomaly factor_context in
      if is_blocking anomaly
      then failed CkMarketAnomalyBlock (unwrap_or (reason_code anomaly) "market anomaly block")
             "no active anomaly block" "blocked"
      else passed CkMarketAnomalyBlock
  end).

(** [risk/pipeline/checks.rs:193-220] `ReconciliationMaintenanceCheck` *)
Definition ReconciliationMaintenanceCheck : RiskCheck := snap_gate CkReconciliationMaintenance (fun ctx =>
  match ctx_factor_context ctx with
  | None => passed CkReconciliationMaintenance
  | Some factor_context =>
      if force_maintenance_mode (reconciliation_health factor_context)
      then failed CkReconciliationMaintenance "reconciliation health forced maintenance mode"
             "trading healthy" "maintenance"
      else passed CkReconciliationMaintenance
  end).

(** [risk/pipeline/checks.rs:228-272] `ControlFactorManualAckRequiredCheck` *)
Definition ControlFactorManualAckRequiredCheck : RiskCheck := snap_gate CkControlFactorManualAckRequired (fun ctx =>
  match ctx_factor_context ctx with
  | None => passed CkControlFactorManualAckRequired
  | Some factor_context =>
      if require_manual_ack (reconciliation_health factor_context)
      then failed CkControlFactorManualAckRequired "reconciliation health requires manual acknowledgement"
             "acknowledged" "pending"
      else if manual_ack_required (market_anomaly factor_context)
      then failed CkControlFactorManualAckRequired
             (match reason_code (market_anomaly factor_context) with
              | None => "market anomaly requires manual acknowledgement"
              | Some code => "market anomaly " +:+ code +:+ " requires manual acknowledgement"
              end) "acknowledged" "pending"
      else passed CkControlFactorManualAckRequired
  end).

(** [risk/pipeline/checks.rs:281-310] `ControlFactorSnapshotExpiredCheck` *)
Definition ControlFactorSnapshotExpiredCheck : RiskCheck := snap_gate CkControlFactorSnapshotExpired (fun ctx =>
  match ctx_factor_context ctx with
  | None => passed CkControlFactorSnapshotExpired
  | Some factor_context =>
      if is_snapshot_stale_fail_closed factor_context
      then failed CkControlFactorSnapshotExpired "control-factor publication TTL expired"
             "publication active" "expired"
      else passed CkControlFactorSnapshotExpired
  end).

(** [risk/pipeline/checks.rs:317-347] `BlockingTradesCheck` *)
Definition BlockingTradesCheck : RiskCheck := snap_gate CkBlockingTrades (fun ctx =>
  if negb (blocks_admission (ctx_integrity ctx) (sg_mode (ctx_settlement_gate ctx))) then passed CkBlockingTrades
  else failed CkBlockingTrades
         (pretty (blocking_count (ctx_integrity ctx)) +:+
            " durable trade(s) block new entries — reconcile via GET /api/trades/reconciliation")
         "0 blocking" (pretty (blocking_count (ctx_integrity ctx)))).

(** [risk/pipeline/checks.rs:354-406] `RedeemRouteResolvableCheck` *)
Definition RedeemRouteResolvableCheck : RiskCheck := snap_gate CkRedeemRouteResolvable (fun ctx =>
  let market := opp_market_id (ctx_opportunity ctx) in
  match sg_mode (ctx_settlement_gate ctx) with
  | Live =>
      match market_neg_risk (ctx_settlement_gate ctx) with
      | None => failed CkRedeemRouteResolvable ("market " +:+ market +:+ " not in registry") "registry neg_risk" "missing"
      | Some neg_risk =>
          match redeem_policy (ctx_settlement_gate ctx) with
          | None => failed CkRedeemRouteResolvable "settlement.redeem policy unavailable" "policy present" "missing"
          | Some policy =>
              match resolve policy market neg_risk with
              | Some _ => passed CkRedeemRouteResolvable
              | None => failed CkRedeemRouteResolvable
                  ("settlement.redeem: no route for market " +:+ market +:+ " (neg_risk=" +:+
                     (if neg_risk then "true" else "false") +:+ ")") "resolvable route" "none"
              end
          end
      end
  | _ => passed CkRedeemRouteResolvable
  end).

(** [risk/pipeline/checks.rs:412-465] `MetricsFreshnessCheck` *)
Definition MetricsFreshnessCheck (config : RiskConfig) : RiskCheck := live_gate CkMetricsFreshness (fun ctx =>
  if negb (is_authoritative (ctx_metrics ctx))
  then failed CkMetricsFreshness "risk metrics source is not authoritative" "authoritative" "non-authoritative"
  else if is_stale (ctx_metrics ctx)
  then failed CkMetricsFreshness "risk metrics snapshot has been marked stale" "not stale" "stale"
  else
    let actual := metrics_age_secs (ctx_metrics ctx) in
    if actual <=? max_metrics_staleness_secs config then passed CkMetricsFreshness
    else failed CkMetricsFreshness ("risk metrics snapshot is stale: " +:+ pretty actual +:+ "s")
           ("≤ " +:+ pretty (max_metrics_staleness_secs config) +:+ "s") (pretty actual +:+ "s")).

(** [risk/pipeline/checks.rs:471-519] `MinDepthCheck` *)
Definition MinDepthCheck (config : RiskConfig) : RiskCheck := live_gate CkMinDepth (fun ctx =>
  let depth_pct := depth_used_pct (ctx_opportunity ctx) in
  if deqb depth_pct d0
  then failed CkMinDepth "depth_used_pct is zero — cannot infer available depth"
         ("≥ " +:+ usd_str (min_depth_usd config)) "unknown"
  else
    let available_depth := ddiv (dmul (total_cost (ctx_opportunity ctx)) (dlit 100 0)) depth_pct in
    if dleb (min_depth_usd config) available_depth then passed CkMinDepth
    else failed CkMinDepth
           ("available depth $" +:+ dshow_dp 2 available_depth +:+ " below min " +:+ usd_str (min_depth_usd config))
           ("≥ " +:+ usd_str (min_depth_usd config)) ("$" +:+ dshow_dp 2 available_depth)).

(** [risk/pipeline/checks.rs:525-562] `MaxDepthUsageCheck` *)
Definition MaxDepthUsageCheck (config : RiskConfig) : RiskCheck := live_gate CkMaxDepthUsage (fun ctx =>
  let actual := depth_used_pct (ctx_opportunity ctx) in
  if dleb actual (max_depth_usage_pct config) then passed CkMaxDepthUsage
  else failed CkMaxDepthUsage
         ("depth usage " +:+ dshow actual +:+ "% exceeds max " +:+ dshow (max_depth_usage_pct config) +:+ "%")
         ("≤ " +:+ dshow (max_depth_usage_pct config) +:+ "%") (dshow actual +:+ "%")).

(** The derived order of [StalenessLevel]. *)
Definition staleness_rank (s : StalenessLevel) : Z :=
  match s with Fresh => 0 | Acceptable => 1 | Stale => 2 | Expired => 3 end.

(** [risk/pipeline/checks.rs:568-592] `StalenessCheck` *)
Definition StalenessCheck : RiskCheck := live_gate CkStaleness (fun ctx =>
  let s := staleness (ctx_opportunity ctx) in
  if staleness_rank s <? staleness_rank Stale then passed CkStaleness
  else failed CkStaleness ("data staleness '" +:+ staleness_str s +:+ "' is unacceptable") "< stale" (staleness_str s)).

(** [risk/pipeline/checks.rs:598-622] `DailyBudgetCheck` *)
Definition DailyBudgetCheck : RiskCheck := live_gate CkDailyBudget (fun ctx =>
  let remaining := snap_daily_budget_remaining (rs_daily (ctx_snap ctx)) in
  if dleb (intended_cost_usd ctx) remaining then passed CkDailyBudget
  else failed CkDailyBudget ("budget exhausted (remaining: " +:+ dshow remaining +:+ ")") "> $0" (usd_str remaining)).

(** The failure of a loss or fee at or above its cap. *)
Definition cap_failed (id : RiskCheckId) (what : string) (actual cap : D) : RiskCheckResult :=
  failed id (what +:+ " " +:+ usd_str actual +:+ " ≥ cap " +:+ usd_str cap) ("< " +:+ usd_str cap) (usd_str actual).

(** A loss that must stay strictly below its cap. *)
Definition cap_check (id : RiskCheckId) (what : string) (actual cap : D) : RiskCheckResult :=
  if dltb actual cap then passed id else cap_failed id what actual cap.

(** [risk/pipeline/checks.rs:628-664] `DailyLossCapCheck` *)
Definition DailyLossCapCheck (config : RiskConfig) : RiskCheck := live_gate CkDailyLossCap (fun ctx =>
  cap_check CkDailyLossCap "daily loss" (snap_daily_loss (rs_daily (ctx_snap ctx))) (max_daily_loss_usd config)).

(** [risk/pipeline/checks.rs:670-706] `WeeklyLossCapCheck` *)
Definition WeeklyLossCapCheck (config : RiskConfig) : RiskCheck := live_gate CkWeeklyLossCap (fun ctx =>
  cap_check CkWeeklyLossCap "weekly loss" (snap_weekly_loss (rs_weekly (ctx_snap ctx))) (max_weekly_loss_usd config)).

(** [risk/pipeline/checks.rs:712-748] `HourlyLossCapCheck` *)
Definition HourlyLossCapCheck (config : RiskConfig) : RiskCheck := live_gate CkHourlyLossCap (fun ctx =>
  cap_check CkHourlyLossCap "hourly loss" (snap_hourly_loss (rs_hourly (ctx_snap ctx))) (max_hourly_loss_usd config)).

(** [risk/pipeline/checks.rs:754-808] `FeeSpendCheck` *)
Definition FeeSpendCheck (config : RiskConfig) : RiskCheck := snap_gate CkFeeSpend (fun ctx =>
  let daily_fee := snap_daily_fee (rs_daily (ctx_snap ctx)) in
  let hourly_fee := snap_hourly_fee (rs_hourly (ctx_snap ctx)) in
  if dleb (max_daily_fee_spend_usd config) daily_fee
  then cap_failed CkFeeSpend "daily fees" daily_fee (max_daily_fee_spend_usd config)
  else if dleb (max_hourly_fee_spend_usd config) hourly_fee
  then cap_failed CkFeeSpend "hourly fees" hourly_fee (max_hourly_fee_spend_usd config)
  else passed CkFeeSpend).

(** [risk/pipeline/checks.rs:814-848] `MaxSingleBetCheck` *)
Definition MaxSingleBetCheck (config : RiskConfig) : RiskCheck := live_gate CkMaxSingleBet (fun ctx =>
  let actual := intended_cost_usd ctx in
  if dleb actual (max_single_bet_usd config) then passed CkMaxSingleBet
  else failed CkMaxSingleBet ("bet " +:+ usd_str actual +:+ " exceeds max " +:+ usd_str (max_single_bet_usd config))
         ("≤ " +:+ usd_str (max_single_bet_usd config)) (usd_str actual)).

(** [risk/pipeline/checks.rs:854-891] `MarketExposureCheck` *)
Definition MarketExposureCheck (config : RiskConfig) : RiskCheck := live_gate CkMarketExposure (fun ctx =>
  let post_trade := dadd (market_exposure_before ctx) (intended_cost_usd ctx) in
  if dleb post_trade (max_single_market_exposure_usd config) then passed CkMarketExposure
  else failed CkMarketExposure
         ("post-trade market exposure " +:+ usd_str post_trade +:+ " exceeds max " +:+ usd_str (max_single_market_exposure_usd config))
         ("≤ " +:+ usd_str (max_single_market_exposure_usd config)) (usd_str post_trade)).

(** [risk/pipeline/checks.rs:897-934] `TotalExposureCheck` *)
Definition TotalExposureCheck (config : RiskConfig) : RiskCheck := live_gate CkTotalExposure (fun ctx =>
  let post_trade := dadd (total_exposure_before ctx) (intended_cost_usd ctx) in
  if dleb post_trade (max_total_exposure_usd config) then passed CkTotalExposure
  else failed CkTotalExposure
         ("post-trade total exposure " +:+ usd_str post_trade +:+ " exceeds max " +:+ usd_str (max_total_exposure_usd config))
         ("≤ " +:+ usd_str (max_total_exposure_usd config)) (usd_str post_trade)).

(** [risk/pipeline/checks.rs:940-987] `ExposurePctCheck` *)
Definition ExposurePctCheck (config : RiskConfig) : RiskCheck := live_gate CkExposurePct (fun ctx =>
  let cash := cash_balance (ctx_metrics ctx) in
  if dleb cash d0
  then failed CkExposurePct "cash balance is zero or negative — cannot compute exposure %"
         ("≤ " +:+ dshow (max_total_exposure_pct config) +:+ "%") "N/A"
  else
    let post_trade := dadd (total_exposure_before ctx) (intended_cost_usd ctx) in
    let pct := dmul (ddiv post_trade cash) (dlit 100 0) in
    if dleb pct (max_total_exposure_pct config) then passed CkExposurePct
    else failed CkExposurePct
           ("exposure " +:+ dshow_dp 1 pct +:+ "% exceeds max " +:+ dshow (max_total_exposure_pct config) +:+ "%")
           ("≤ " +:+ dshow (max_total_exposure_pct config) +:+ "%") (dshow_dp 1 pct +:+ "%")).

(** [risk/pipeline/checks.rs:993-1020] `PotentialLossCapCheck` *)
Definition PotentialLossCapCheck : RiskCheck := live_gate CkPotentialLossCap (fun ctx =>
  let post_trade_potential :=
    dadd (dadd (rs_total_potential_loss (ctx_snap ctx)) (intended_cost_usd ctx)) (intended_fee_usd ctx) in
  let cash := cash_balance (ctx_metrics ctx) in
  if dleb post_trade_potential cash then passed CkPotentialLossCap
  else failed CkPotentialLossCap
         ("potential loss " +:+ usd_str post_trade_potential +:+ " exceeds balance " +:+ usd_str cash)
         ("≤ " +:+ usd_str cash) (usd_str post_trade_potential)).

(** [risk/pipeline/checks.rs:1026-1060] `MaxPositionsCheck` *)
Definition MaxPositionsCheck (config : RiskConfig) : RiskCheck := live_gate CkMaxPositions (fun ctx =>
  let actual := open_position_count (ctx_metrics ctx) in
  if actual <? cfg_max_open_positions config then passed CkMaxPositions
  else failed CkMaxPositions
         ("open positions " +:+ pretty actual +:+ " ≥ max " +:+ pretty (cfg_max_open_positions config))
         ("< " +:+ pretty (cfg_max_open_positions config)) (pretty actual)).

(** [risk/pipeline/checks.rs:1066-1100] `WsConnectivityCheck` *)
Definition WsConnectivityCheck (config : RiskConfig) : RiskCheck := live_gate CkWsConnectivity (fun ctx =>
  let actual := ws_disconnect_secs ctx in
  if actual <? ws_disconnect_threshold_secs config then passed CkWsConnectivity
  else failed CkWsConnectivity ("WS disconnected for " +:+ pretty actual +:+ "s")
         ("< " +:+ pretty (ws_disconnect_threshold_secs config) +:+ "s") (pretty actual +:+ "s")).

(** [risk/pipeline/checks.rs:1106-1140] `MinBalanceCheck` *)
Definition MinBalanceCheck (config : RiskConfig) : RiskCheck := live_gate CkMinBalance (fun ctx =>
  let balance := cash_balance (ctx_metrics ctx) in
  if dleb (min_balance_usd config) balance then passed CkMinBalance
  else failed CkMinBalance ("balance " +:+ usd_str balance +:+ " below min " +:+ usd_str (min_balance_usd config))
         ("≥ " +:+ usd_str (min_balance_usd config)) (usd_str balance)).

(** [risk/pipeline/checks.rs:1146-1183] `DirectionalConcentrationCheck` *)
Definition DirectionalConcentrationCheck (config : RiskConfig) : RiskCheck := live_gate CkDirectionalConcentration (fun ctx =>
  let actual := open_directional_count_same_side ctx in
  if actual <? max_concurrent_directional config then passed CkDirectionalConcentration
  else failed CkDirectionalConcentration
         ("directional concentration " +:+ pretty actual +:+ " ≥ max " +:+ pretty (max_concurrent_directional config))
         ("< " +:+ pretty (max_concurrent_directional config)) (pretty actual)).

(** [risk/pipeline/checks.rs:1189-1226] `DailyDirectionalBudgetCheck` *)
Definition DailyDirectionalBudgetCheck (config : RiskConfig) : RiskCheck := live_gate CkDailyDirectionalBudget (fun ctx =>
  let actual := daily_directional_trades_same_side ctx in
  if actual <? daily_directional_budget config then passed CkDailyDirectionalBudget
  else failed CkDailyDirectionalBudget
         ("daily directional trades " +:+ pretty actual +:+ " ≥ budget " +:+ pretty (daily_directional_budget config))
         ("< " +:+ pretty (daily_directional_budget config)) (pretty actual)).

(** [risk/pipeline/checks.rs:1232-1256] `DuplicateMarketCheck` *)
Definition DuplicateMarketCheck : RiskCheck := live_gate CkDuplicateMarket (fun ctx =>
  if dleb (market_exposure_before ctx) d0 then passed CkDuplicateMarket
  else failed CkDuplicateMarket ("market already has exposure " +:+ usd_str (market_exposure_before ctx))
         "$0" (usd_str (market_exposure_before ctx))).

(** [format!("{:?}", action)]. *)
Definition action_str (a : DrawdownAction) : string :=
  match a with DNormal => "Normal" | DReduce => "Reduce" | DHalt => "Halt" end.

(** [risk/pipeline/checks.rs:1262-1283] `DrawdownGuardCheck` *)
Definition DrawdownGuardCheck : RiskCheck := live_gate CkDrawdownGuard (fun ctx =>
  if decide (drawdown_action ctx = DHalt)
  then failed CkDrawdownGuard ("drawdown halt (factor: " +:+ dshow (drawdown_factor ctx) +:+ ")") "!= Halt"
         (action_str (drawdown_action ctx))
  else passed CkDrawdownGuard).

(** [risk/pipeline/checks.rs:1289-1329] `ApiErrorRateCheck` *)
Definition ApiErrorRateCheck (config : RiskConfig) : RiskCheck := live_gate CkApiErrorRate (fun ctx =>
  if api_request_count (ctx_metrics ctx) =? 0 then passed CkApiErrorRate
  else
    let error_rate := ddiv (dof_Z (api_error_count (ctx_metrics ctx))) (dof_Z (api_request_count (ctx_metrics ctx))) in
    if dltb error_rate (api_error_rate_threshold config) then passed CkApiErrorRate
    else failed CkApiErrorRate
           ("API error rate " +:+ dshow_dp 2 error_rate +:+ " >= threshold " +:+ dshow (api_error_rate_threshold config))
           ("< " +:+ dshow (api_error_rate_threshold config)) (dshow_dp 2 error_rate)).

(** [risk/pipeline/mod.rs:118-153] `StaticRiskPipeline::check_refs_in_order` *)
Definition check_refs_in_order (config : RiskConfig) : list RiskCheck := [
  ManualHaltCheck; CircuitBreakerCheck; BlacklistCheck; TokenBlacklistCheck; MarketAnomalyBlockCheck;
  ReconciliationMaintenanceCheck; ControlFactorManualAckRequiredCheck; ControlFactorSnapshotExpiredCheck;
  BlockingTradesCheck; RedeemRouteResolvableCheck; MetricsFreshnessCheck config; MinDepthCheck config;
  MaxDepthUsageCheck config; StalenessCheck; DailyBudgetCheck; DailyLossCapCheck config;
  WeeklyLossCapCheck config; HourlyLossCapCheck config; FeeSpendCheck config; MaxSingleBetCheck config;
  MarketExposureCheck config; TotalExposureCheck config; ExposurePctCheck config; PotentialLossCapCheck;
  MaxPositionsCheck config; WsConnectivityCheck config; ApiErrorRateCheck config; MinBalanceCheck config;
  DirectionalConcentrationCheck config; DailyDirectionalBudgetCheck config; DuplicateMarketCheck;
  DrawdownGuardCheck ].

(** [risk/pipeline/mod.rs:162-171] `StaticRiskPipeline::sized_gate_refs` *)
Definition sized_gate_refs (config : RiskConfig) : list RiskCheck := [
  DailyBudgetCheck; MaxSingleBetCheck config; MarketExposureCheck config; TotalExposureCheck config;
  ExposurePctCheck config; PotentialLossCapCheck ].
End Checks.
