(* ===== verification/Pipeline.v ===== *)
(** * The gate pipeline: [oxide-arb-risk/src/pipeline/mod.rs]

    The loop over the thirty-two gates with its two report modes, the split between gates that
    read the published snapshot and gates that need live metrics, and the gates re-run after
    sizing.  Time stamps are inputs: [elapsed id] is what the clock measured around the check
    [id], [total] what it measured around the loop. *)

From S2P Require Import Prelude Decimal Config Domain RiskTypes Bloom Drawdown Context Checks.

Section Pipeline.
Context `{DO : DecimalOps}.
Implicit Types (ctx : PreTradeContext) (l : list RiskCheck) (check : RiskCheck).

(** [risk/pipeline/mod.rs:46-81] `StaticRiskPipeline`: the check fields are functions of the
    configuration they were built from. *)
Record StaticRiskPipeline := { sp_config : RiskConfig; metrics_split : nat }.

(** [risk/pipeline/mod.rs:85-87] `StaticRiskPipeline::len` *)
Definition pipeline_len : nat := 32.

(** [iter().position(p)]. *)
Fixpoint position (p : RiskCheck -> bool) (l : list RiskCheck) : option nat :=
  match l with
  | [] => None
  | c :: rest => if p c then Some 0%nat else S <$> position p rest
  end.

(** [risk/pipeline/mod.rs:155-160] `StaticRiskPipeline::compute_metrics_split` *)
Definition compute_metrics_split (config : RiskConfig) : nat :=
  unwrap_or (position rc_requires_metrics (check_refs_in_order config)) pipeline_len.

(** [risk/pipeline/mod.rs:332-373] `build_default_pipeline` *)
Definition build_default_pipeline (config : RiskConfig) : StaticRiskPipeline := {|
  sp_config := config; metrics_split := compute_metrics_split config |}.

(** [risk/pipeline/mod.rs:102-107] `StaticRiskPipeline::requires_metrics_profile` *)
Definition requires_metrics_profile (p : StaticRiskPipeline) : list (RiskCheckId * bool) :=
  map (fun c => (rc_id c, rc_requires_metrics c)) (check_refs_in_order (sp_config p)).

(** [risk/pipeline/mod.rs:111-116] `StaticRiskPipeline::check_order` *)
Definition check_order (p : StaticRiskPipeline) : list RiskCheckId :=
  map rc_id (check_refs_in_order (sp_config p)).

(** The three variables a run mutates. *)
Record RunState := {
  run_results : list RiskCheckResult; run_failed : bool; run_first : option RiskCheckId }.
Definition run_init : RunState := {| run_results := []; run_failed := false; run_first := None |}.

(** [result.elapsed_us = ..]. *)
Definition timed (r : RiskCheckResult) (us : Z) : RiskCheckResult := {|
  check_id := check_id r; cr_passed := cr_passed r; detail := detail r; threshold := threshold r;
  actual := actual r; elapsed_us := us |}.

Section Run.
Context (elapsed : RiskCheckId -> Z).

(** [risk/pipeline/mod.rs:305-328] `run_check` *)
Definition run_check check (kind : RiskCheckKind) ctx (mode : ReportMode) (st : RunState) : RunState * bool :=
  let result := timed (rc_evaluate check ctx) (elapsed (rc_id check)) in
  let hit := negb (cr_passed result) && bool_decide (kind = Gate) in
  let failed' := if hit then true else run_failed st in
  let first' := if hit then match run_first st with None => Some (rc_id check) | Some i => Some i end
                else run_first st in
  ({| run_results := run_results st ++ [result]; run_failed := failed'; run_first := first' |},
   negb (failed' && match mode with ShortCircuit => true | FullReport => false end)).

(** [risk/pipeline/mod.rs:238-292] `evaluate_range` (the labelled block: one [gate!] per check) *)
Fixpoint gate_block ctx (mode : ReportMode) (start_ end_ idx : nat) l (st : RunState) : RunState :=
  match l with
  | [] => st
  | check :: rest =>
      if Nat.leb end_ idx then st
      else if Nat.leb start_ idx then
        let (st', go) := run_check check Gate ctx mode st in
        if go then gate_block ctx mode start_ end_ (S idx) rest st' else st'
      else gate_block ctx mode start_ end_ (S idx) rest st
  end.

Definition report_of (st : RunState) (total : Z) : PipelineReport := {|
  pr_results := run_results st; has_failed_hard_gate := run_failed st; first_failure := run_first st;
  total_elapsed_us := total |}.

(** [risk/pipeline/mod.rs:215-301] `StaticRiskPipeline::evaluate_range` *)
Definition evaluate_range (p : StaticRiskPipeline) ctx (mode : ReportMode) (start_ end_ : nat) (total : Z) : PipelineReport :=
  report_of (gate_block ctx mode start_ end_ 0 (check_refs_in_order (sp_config p)) run_init) total.

(** [risk/pipeline/mod.rs:174-176] `StaticRiskPipeline::evaluate` *)
Definition evaluate_all (p : StaticRiskPipeline) ctx (mode : ReportMode) (total : Z) : PipelineReport :=
  evaluate_range p ctx mode 0 pipeline_len total.

(** The [for] loop with [break]. *)
Fixpoint run_checks ctx (mode : ReportMode) l (st : RunState) : RunState :=
  match l with
  | [] => st
  | check :: rest =>
      let (st', go) := run_check check Gate ctx mode st in
      if go then run_checks ctx mode rest st' else st'
  end.

(** [risk/pipeline/mod.rs:180-211] `StaticRiskPipeline::evaluate_sized_gates` *)
Definition evaluate_sized_gates (p : StaticRiskPipeline) ctx (mode : ReportMode) (total : Z) : PipelineReport :=
  report_of (run_checks ctx mode (sized_gate_refs (sp_config p)) run_init) total.

(** The same context with another metrics snapshot ([..phase1_ctx]). *)
Definition with_metrics (m : RiskMetricsSnapshot) ctx : PreTradeContext := {|
  ctx_opportunity := ctx_opportunity ctx; ctx_probability := ctx_probability ctx; ctx_snap := ctx_snap ctx;
  ctx_metrics := m; ctx_factor_context := ctx_factor_context ctx; ctx_settlement_gate := ctx_settlement_gate ctx;
  ctx_integrity := ctx_integrity ctx; ctx_now := ctx_now ctx; ctx_sized_intent := ctx_sized_intent ctx |}.

(** [risk/engine.rs:180-194] `RiskEngine::pre_trade_check_core` (the two phases): gates below the
    split see zeroed metrics; live metrics are loaded unless phase one already denied. *)
Definition two_phase (p : StaticRiskPipeline) (phase1_ctx : PreTradeContext) (live : RiskMetricsSnapshot)
    (mode : ReportMode) (t1 t2 : Z) : PipelineReport * PreTradeContext :=
  let gate_report := evaluate_range p phase1_ctx mode 0 (metrics_split p) t1 in
  if has_failed_hard_gate gate_report && match mode with ShortCircuit => true | FullReport => false end
  then (gate_report, phase1_ctx)
  else
    let full_ctx := with_metrics live phase1_ctx in
    (merge gate_report (evaluate_range p full_ctx mode (metrics_split p) pipeline_len t2), full_ctx).

(** ** What a run returns *)

Definition fails ctx check : bool := negb (cr_passed (rc_evaluate check ctx)).

(** The checks that are run: all of them in a full report, up to and including the first
    failure when short-circuiting. *)
Fixpoint visited ctx (mode : ReportMode) l : list RiskCheck :=
  match l with
  | [] => []
  | check :: rest =>
      if fails ctx check && match mode with ShortCircuit => true | FullReport => false end
      then [check] else check :: visited ctx mode rest
  end.

Definition result_of ctx check : RiskCheckResult := timed (rc_evaluate check ctx) (elapsed (rc_id check)).

(** The run continues from [st]: [st] did not stop it. *)
Definition live_run (mode : ReportMode) (st : RunState) : Prop := mode = ShortCircuit -> run_failed st = false.

Definition after_run ctx mode l (st : RunState) : RunState := {|
  run_results := run_results st ++ map (result_of ctx) (visited ctx mode l);
  run_failed := run_failed st || existsb (fails ctx) l;
  run_first := match run_first st with Some i => Some i | None => rc_id <$> List.find (fails ctx) l end |}.

(** One step of a run on a gate. *)
Lemma run_check_gate check ctx mode st :
  run_check check Gate ctx mode st =
    ({| run_results := run_results st ++ [result_of ctx check];
        run_failed := fails ctx check || run_failed st;
        run_first := if fails ctx check then Some (unwrap_or (run_first st) (rc_id check)) else run_first st |},
     negb ((fails ctx check || run_failed st) && match mode with ShortCircuit => true | FullReport => false end)).
Proof.
  unfold run_check, result_of, fails. rewrite bool_decide_true by done. cbn. rewrite andb_true_r.
  destruct (negb (cr_passed (rc_evaluate check ctx))), (run_first st); done.
Qed.

Lemma run_checks_spec ctx mode l st : live_run mode st -> run_checks ctx mode l st = after_run ctx mode l st.
Proof.
  revert st. induction l as [|check rest IH]; intros st Hst; unfold after_run; cbn -[run_check].
  - destruct st as [r f []]; cbn; by rewrite app_nil_r, orb_false_r.
  - rewrite run_check_gate. destruct (fails ctx check) eqn:Ef, mode; cbn -[run_check].
    + rewrite orb_true_r. by destruct (run_first st).
    + rewrite IH by (by intros). unfold after_run; cbn. rewrite <- app_assoc, orb_true_r.
      by destruct (run_first st).
    + rewrite (Hst eq_refl). cbn. rewrite IH by (intros ?; cbn; auto).
      unfold after_run; cbn. by rewrite <- app_assoc.
    + rewrite andb_false_r. cbn. rewrite IH by (by intros). unfold after_run; cbn. by rewrite <- app_assoc.
Qed.

(** A range of the block is a run over the slice. *)
Lemma gate_block_run ctx mode s e l : forall idx st, (s <= idx)%nat ->
  gate_block ctx mode s e idx l st = run_checks ctx mode (take (e - idx) l) st.
Proof.
  induction l as [|check rest IH]; intros idx st Hs; [by rewrite take_nil|].
  cbn [gate_block]. destruct (Nat.leb_spec e idx).
  - by replace (e - idx)%nat with 0%nat by lia.
  - replace (e - idx)%nat with (S (e - S idx)) by lia. cbn [take run_checks].
    destruct (Nat.leb_spec s idx); [|lia].
    destruct (run_check check Gate ctx mode st) as [st' []]; [|done]. apply IH. lia.
Qed.

Lemma gate_block_slice ctx mode s e l : forall idx st, (idx <= s <= e)%nat ->
  gate_block ctx mode s e idx l st = run_checks ctx mode (take (e - s) (drop (s - idx) l)) st.
Proof.
  induction l as [|check rest IH]; intros idx st Hs; [by rewrite drop_nil, take_nil|].
  destruct (decide (idx = s)) as [->|].
  - rewrite Nat.sub_diag. cbn [drop]. by apply gate_block_run.
  - cbn [gate_block]. destruct (Nat.leb_spec e idx); [lia|]. destruct (Nat.leb_spec s idx); [lia|].
    rewrite IH by lia. by replace (s - idx)%nat with (S (s - S idx)) by lia.
Qed.

(** The report of a range. *)
Definition report_spec ctx mode l (total : Z) : PipelineReport := {|
  pr_results := map (result_of ctx) (visited ctx mode l);
  has_failed_hard_gate := existsb (fails ctx) l;
  first_failure := rc_id <$> List.find (fails ctx) l;
  total_elapsed_us := total |}.

Lemma run_report ctx mode l total :
  report_of (run_checks ctx mode l run_init) total = report_spec ctx mode l total.
Proof. rewrite run_checks_spec by (by intros). done. Qed.

Lemma evaluate_range_spec p ctx mode s e total : (s <= e)%nat ->
  evaluate_range p ctx mode s e total
    = report_spec ctx mode (take (e - s) (drop s (check_refs_in_order (sp_config p)))) total.
Proof.
  intros. unfold evaluate_range. rewrite gate_block_slice by lia. rewrite Nat.sub_0_r. apply run_report.
Qed.

(** The checks before the split ignore live metrics. *)
Lemma split_is_10 config : compute_metrics_split config = 10%nat.
Proof. reflexivity. Qed.

Lemma phase1_ignores_metrics config check ctx m :
  check ∈ take 10 (check_refs_in_order config) -> rc_evaluate check (with_metrics m ctx) = rc_evaluate check ctx.
Proof.
  cbn. rewrite !elem_of_cons, elem_of_nil. intros [->|[->|[->|[->|[->|[->|[->|[->|[->|[->|[]]]]]]]]]]]; reflexivity.
Qed.

Lemma visited_ext ctx ctx' mode l :
  (forall c, c ∈ l -> rc_evaluate c ctx = rc_evaluate c ctx') ->
  visited ctx mode l = visited ctx' mode l /\ existsb (fails ctx) l = existsb (fails ctx') l /\
  List.find (fails ctx) l = List.find (fails ctx') l /\
  map (result_of ctx) (visited ctx mode l) = map (result_of ctx') (visited ctx' mode l).
Proof.
  induction l as [|c rest IH]; intros Heq; [done|].
  destruct IH as (IH1 & IH2 & IH3 & IH4); [intros; apply Heq; by right|].
  assert (Hc : rc_evaluate c ctx = rc_evaluate c ctx') by (apply Heq; by left).
  cbn. assert (fails ctx c = fails ctx' c) as -> by (unfold fails; by rewrite Hc).
  assert (Hr : result_of ctx c = result_of ctx' c) by (unfold result_of; by rewrite Hc).
  rewrite IH1, IH2, IH3. destruct (fails ctx' c), mode; cbn; rewrite ?Hr; repeat split; try done;
    f_equal; by rewrite <- IH4, IH1.
Qed.

Lemma visited_app ctx mode l1 l2 :
  visited ctx mode (l1 ++ l2) =
    visited ctx mode l1 ++
      (if existsb (fails ctx) l1 && match mode with ShortCircuit => true | FullReport => false end
       then [] else visited ctx mode l2).
Proof.
  induction l1 as [|c rest IH]; [by cbn; destruct mode|].
  cbn. rewrite IH. by destruct (fails ctx c), mode, (existsb (fails ctx) rest).
Qed.

Lemma find_app ctx l1 l2 :
  List.find (fails ctx) (l1 ++ l2) =
    match List.find (fails ctx) l1 with Some c => Some c | None => List.find (fails ctx) l2 end.
Proof. induction l1 as [|c rest IH]; [done|]. cbn. by destruct (fails ctx c). Qed.

Lemma find_existsb ctx l :
  existsb (fails ctx) l = match List.find (fails ctx) l with Some _ => true | None => false end.
Proof. induction l as [|c rest IH]; [done|]. cbn. by destruct (fails ctx c). Qed.

(** The decision-relevant part of a report: everything but the wall-clock total. *)
Definition verdict (r : PipelineReport) : list RiskCheckResult * bool * option RiskCheckId :=
  (pr_results r, has_failed_hard_gate r, first_failure r).

Lemma two_phase_verdict config phase1_ctx live mode t1 t2 t :
  verdict (two_phase (build_default_pipeline config) phase1_ctx live mode t1 t2).1
    = verdict (evaluate_all (build_default_pipeline config) (with_metrics live phase1_ctx) mode t).
Proof.
  unfold two_phase, evaluate_all. cbn [build_default_pipeline metrics_split]. rewrite split_is_10.
  rewrite !evaluate_range_spec by (unfold pipeline_len; lia).
  cbn [sp_config build_default_pipeline]. rewrite !drop_0.
  change (10 - 0)%nat with 10%nat. change (pipeline_len - 10)%nat with 22%nat.
  set (l := check_refs_in_order config). set (full := with_metrics live phase1_ctx).
  replace (take (pipeline_len - 0) l) with (take 10 l ++ take 22 (drop 10 l)) by reflexivity.
  destruct (visited_ext full phase1_ctx mode (take 10 l)) as (V & X & F & R).
  { intros c Hc. by apply (phase1_ignores_metrics config). }
  generalize dependent (take 10 l). generalize (take 22 (drop 10 l)). clear l. intros l2 l1 V X F R.
  unfold report_spec at 1, verdict, report_spec, merge. cbn [has_failed_hard_gate].
  rewrite visited_app, map_app, existsb_app, find_app, X, F, R.
  pose proof (find_existsb phase1_ctx l1) as FE.
  destruct (existsb (fails phase1_ctx) l1), (List.find (fails phase1_ctx) l1), mode; try discriminate;
    cbn; rewrite ?app_nil_r; reflexivity.
Qed.

Lemma two_phase_ctx config phase1_ctx live mode t1 t2 :
  has_failed_hard_gate (two_phase (build_default_pipeline config) phase1_ctx live mode t1 t2).1 = false ->
  (two_phase (build_default_pipeline config) phase1_ctx live mode t1 t2).2 = with_metrics live phase1_ctx.
Proof.
  unfold two_phase. destruct (has_failed_hard_gate (evaluate_range _ _ mode 0 _ t1)) eqn:E; cbn [andb]; [|done].
  destruct mode; [|done]. cbn [fst]. by rewrite E.
Qed.

Lemma verdict_eq (a b : PipelineReport) : verdict a = verdict b ->
  pr_results a = pr_results b /\ has_failed_hard_gate a = has_failed_hard_gate b /\ first_failure a = first_failure b.
Proof. unfold verdict. intros E. by injection E. Qed.

(** The two-phase evaluation of a decision is the one-shot evaluation.  Running the first
    gates on zeroed metrics and the rest on the live snapshot (with the live snapshot not even
    loaded when phase one denies) yields the same check results, the same verdict and the same
    first failure as running all thirty-two gates on the live snapshot, in both report modes; and when no gate
    failed, sizing runs on the live context. *)
Theorem two_phase_is_one_shot config phase1_ctx live mode t1 t2 t :
  let run := two_phase (build_default_pipeline config) phase1_ctx live mode t1 t2 in
  verdict run.1 = verdict (evaluate_all (build_default_pipeline config) (with_metrics live phase1_ctx) mode t) /\
  (has_failed_hard_gate run.1 = false -> run.2 = with_metrics live phase1_ctx).
Proof. split; [apply two_phase_verdict | apply two_phase_ctx]. Qed.

(** The report mode never changes the verdict: short-circuiting and the full report agree on
    whether a gate failed and on the first gate that failed, and the short-circuit results are the
    full results cut after the first failure. *)
Theorem report_mode_agrees p ctx t :
  let short := evaluate_all p ctx ShortCircuit t in
  let full := evaluate_all p ctx FullReport t in
  has_failed_hard_gate short = has_failed_hard_gate full /\
  first_failure short = first_failure full /\
  length (pr_results full) = pipeline_len /\
  exists n, pr_results short = take n (pr_results full).
Proof.
  cbn zeta. unfold evaluate_all. rewrite !evaluate_range_spec by lia. rewrite drop_0.
  replace (take (pipeline_len - 0) (check_refs_in_order (sp_config p))) with (check_refs_in_order (sp_config p))
    by reflexivity.
  assert (Hfull : forall l, visited ctx FullReport l = l).
  { induction l as [|c rest IH]; cbn; [done|]. by rewrite andb_false_r, IH. }
  cbn [has_failed_hard_gate first_failure pr_results report_spec]. rewrite Hfull.
  repeat split. clear Hfull.
  induction (check_refs_in_order (sp_config p)) as [|c rest [n IH]]; [by exists 0%nat|].
  cbn [visited]. rewrite andb_true_r. destruct (fails ctx c); [by exists 1%nat|].
  exists (S n). cbn. by rewrite <- IH.
Qed.

(** No hard gate failed: every check of the list passes. *)
Lemma no_failure_all_pass ctx mode l total :
  has_failed_hard_gate (report_spec ctx mode l total) = false ->
  Forall (fun c => cr_passed (rc_evaluate c ctx) = true) l.
Proof.
  cbn. induction l as [|c rest IH]; cbn; [constructor|]. unfold fails at 1.
  intros [Hc Hr]%orb_false_iff. apply negb_false_iff in Hc. constructor; auto.
Qed.

(** A failed gate shows in the results: the first failing result is the first failure. *)
Lemma first_failing_result ctx mode l :
  List.find (fun r => negb (cr_passed r)) (map (result_of ctx) (visited ctx mode l)) = result_of ctx <$> List.find (fails ctx) l.
Proof.
  induction l as [|c rest IH]; cbn; [done|].
  destruct (fails ctx c) eqn:E; cbn.
  - destruct mode; cbn; change (negb (cr_passed (rc_evaluate c ctx))) with (fails ctx c); by rewrite E.
  - change (negb (cr_passed (rc_evaluate c ctx))) with (fails ctx c). by rewrite E.
Qed.
End Run.

(** ** What the gates enforce *)

(** The limits a sized intent must respect. *)
Record sized_limits (config : RiskConfig) ctx : Prop := {
  lim_budget : (dval (intended_cost_usd ctx) <= dval (snap_daily_budget_remaining (rs_daily (ctx_snap ctx))))%Q;
  lim_single : (dval (intended_cost_usd ctx) <= dval (max_single_bet_usd config))%Q;
  lim_market : (dval (dadd (market_exposure_before ctx) (intended_cost_usd ctx)) <= dval (max_single_market_exposure_usd config))%Q;
  lim_total : (dval (dadd (total_exposure_before ctx) (intended_cost_usd ctx)) <= dval (max_total_exposure_usd config))%Q;
  lim_cash : (dval d0 < dval (cash_balance (ctx_metrics ctx)))%Q;
  lim_pct : (dval (dmul (ddiv (dadd (total_exposure_before ctx) (intended_cost_usd ctx)) (cash_balance (ctx_metrics ctx))) (dlit 100 0))
              <= dval (max_total_exposure_pct config))%Q;
  lim_potential : (dval (dadd (dadd (rs_total_potential_loss (ctx_snap ctx)) (intended_cost_usd ctx)) (intended_fee_usd ctx))
                    <= dval (cash_balance (ctx_metrics ctx)))%Q
}.

(** The published factors neither block the market or its event, nor force maintenance, nor wait
    for an acknowledgement, nor -- where that fails closed -- have expired. *)
Definition factors_permit ctx : Prop := forall fc, ctx_factor_context ctx = Some fc ->
  is_hard_rejected fc = false /\ require_manual_ack (reconciliation_health fc) = false /\
  manual_ack_required (market_anomaly fc) = false /\ is_snapshot_stale_fail_closed fc = false.

(** A Live order's market is registered and its winnings can be redeemed. *)
Definition redeemable ctx : Prop := sg_mode (ctx_settlement_gate ctx) = Live ->
  exists neg policy, market_neg_risk (ctx_settlement_gate ctx) = Some neg /\
    redeem_policy (ctx_settlement_gate ctx) = Some policy /\
    is_Some (resolve policy (opp_market_id (ctx_opportunity ctx)) neg).

(** What every admitted decision implies about the published snapshot and the metrics. *)
Record admissible (config : RiskConfig) ctx : Prop := {
  adm_halt : manual_halt ctx = HaltClear;
  adm_breaker : cb_allows_trading (breaker_gate ctx) = true;
  adm_market : is_market_blacklisted_trading_path ctx = None;
  adm_token : ctx_is_token_blacklisted ctx = false;
  adm_fresh : is_authoritative (ctx_metrics ctx) = true /\ is_stale (ctx_metrics ctx) = false /\
              metrics_age_secs (ctx_metrics ctx) <= max_metrics_staleness_secs config;
  adm_daily_loss : (dval (snap_daily_loss (rs_daily (ctx_snap ctx))) < dval (max_daily_loss_usd config))%Q;
  adm_weekly_loss : (dval (snap_weekly_loss (rs_weekly (ctx_snap ctx))) < dval (max_weekly_loss_usd config))%Q;
  adm_hourly_loss : (dval (snap_hourly_loss (rs_hourly (ctx_snap ctx))) < dval (max_hourly_loss_usd config))%Q;
  adm_daily_fee : (dval (snap_daily_fee (rs_daily (ctx_snap ctx))) < dval (max_daily_fee_spend_usd config))%Q;
  adm_hourly_fee : (dval (snap_hourly_fee (rs_hourly (ctx_snap ctx))) < dval (max_hourly_fee_spend_usd config))%Q;
  adm_positions : open_position_count (ctx_metrics ctx) < cfg_max_open_positions config;
  adm_balance : (dval (min_balance_usd config) <= dval (cash_balance (ctx_metrics ctx)))%Q;
  adm_duplicate : (dval (market_exposure_before ctx) <= dval d0)%Q;
  adm_ws : ws_disconnect_secs ctx < ws_disconnect_threshold_secs config;
  adm_directional : open_directional_count_same_side ctx < max_concurrent_directional config;
  adm_daily_directional : daily_directional_trades_same_side ctx < daily_directional_budget config;
  adm_drawdown : drawdown_action ctx <> DHalt;
  adm_factors : factors_permit ctx;
  adm_integrity : blocks_admission (ctx_integrity ctx) (sg_mode (ctx_settlement_gate ctx)) = false;
  adm_redeem : redeemable ctx
}.

Definition passes ctx check : Prop := cr_passed (rc_evaluate check ctx) = true.

(** Read the conditions of a passing gate off its definition. *)
Ltac gate_facts :=
  repeat match goal with
  | H : passes _ _ |- _ =>
      unfold passes in H;
      cbv [rc_evaluate snap_gate live_gate cap_check cap_failed ManualHaltCheck CircuitBreakerCheck BlacklistCheck TokenBlacklistCheck
        MetricsFreshnessCheck DailyBudgetCheck DailyLossCapCheck WeeklyLossCapCheck HourlyLossCapCheck FeeSpendCheck
        MaxSingleBetCheck MarketExposureCheck TotalExposureCheck ExposurePctCheck PotentialLossCapCheck MaxPositionsCheck
        WsConnectivityCheck MinBalanceCheck DirectionalConcentrationCheck DailyDirectionalBudgetCheck DuplicateMarketCheck
        DrawdownGuardCheck] in H;
      repeat (case_match; try discriminate H)
  end.

Ltac forall_facts H :=
  repeat (let G := fresh "G" in apply Forall_cons in H as [G H]); clear H.

Lemma sized_gates_enforce config ctx :
  Forall (passes ctx) (sized_gate_refs config) -> sized_limits config ctx.
Proof. intros H. unfold sized_gate_refs in H. forall_facts H. gate_facts. dbool. by constructor. Qed.

Lemma factor_gates_enforce ctx :
  passes ctx MarketAnomalyBlockCheck -> passes ctx ReconciliationMaintenanceCheck ->
  passes ctx ControlFactorManualAckRequiredCheck -> passes ctx ControlFactorSnapshotExpiredCheck -> factors_permit ctx.
Proof.
  intros H1 H2 H3 H4 fc Hf. unfold passes in *.
  cbv [rc_evaluate snap_gate MarketAnomalyBlockCheck ReconciliationMaintenanceCheck ControlFactorManualAckRequiredCheck
       ControlFactorSnapshotExpiredCheck] in *. rewrite Hf in *.
  repeat (case_match; try done). unfold is_hard_rejected. repeat split; try done. by apply orb_false_iff.
Qed.

Lemma redeem_gate_enforces ctx : passes ctx RedeemRouteResolvableCheck -> redeemable ctx.
Proof.
  intros H Hm. unfold passes in H. cbv [rc_evaluate snap_gate RedeemRouteResolvableCheck] in H. rewrite Hm in H.
  repeat (case_match; try done). eauto 10.
Qed.

Lemma all_gates_enforce config ctx :
  Forall (passes ctx) (check_refs_in_order config) -> admissible config ctx.
Proof.
  intros H. unfold check_refs_in_order in H. forall_facts H.
  pose proof (factor_gates_enforce ctx G3 G4 G5 G6). pose proof (redeem_gate_enforces ctx G8).
  assert (blocks_admission (ctx_integrity ctx) (sg_mode (ctx_settlement_gate ctx)) = false) as Hi
    by (revert G7; unfold passes; cbv [rc_evaluate snap_gate BlockingTradesCheck]; by destruct (blocks_admission _ _)).
  clear G3 G4 G5 G6 G7 G8 G10 G11 G12 G13 G18 G19 G20 G21 G22 G25.
  gate_facts. dbool. zbool. unfold manual_allows_trading in *.
  constructor; try done. by destruct (manual_halt ctx).
Qed.

(** The gates of the sized re-check are among the gates of the first pass. *)
Lemma sized_gates_subset config : sized_gate_refs config ⊆ check_refs_in_order config.
Proof.
  intros c Hc. unfold sized_gate_refs in Hc.
  repeat (apply elem_of_cons in Hc as [-> | Hc]); [..|by apply elem_of_nil in Hc];
    unfold check_refs_in_order; repeat (first [by left | right]).
Qed.

Lemma full_list p : take (pipeline_len - 0) (drop 0 (check_refs_in_order (sp_config p))) = check_refs_in_order (sp_config p).
Proof. reflexivity. Qed.

(** An admitted trade respects every limit.  When no gate of the pipeline failed, trading is
    neither halted nor tripped, market and token are not blacklisted, the published factors permit
    the trade, no unresolved trade blocks it, a Live market can be redeemed, the metrics are
    authoritative and fresh, losses and fees are strictly below their caps, and the intended cost
    keeps the single-bet, market, total, percentage and potential-loss limits. *)
Theorem gates_enforce_limits elapsed p ctx mode t
    (H : has_failed_hard_gate (evaluate_all elapsed p ctx mode t) = false) :
  admissible (sp_config p) ctx /\ sized_limits (sp_config p) ctx.
Proof.
  unfold evaluate_all in H. rewrite evaluate_range_spec, full_list in H by (unfold pipeline_len; lia).
  apply no_failure_all_pass in H. split; [by apply all_gates_enforce|].
  apply sized_gates_enforce. rewrite Forall_forall in *. intros c Hc. by apply H, sized_gates_subset.
Qed.

(** What a failure-free two-phase run of the pipeline implies. *)
Lemma two_phase_enforces elapsed config phase1_ctx live mode t1 t2 :
  has_failed_hard_gate (two_phase elapsed (build_default_pipeline config) phase1_ctx live mode t1 t2).1 = false ->
  admissible config (with_metrics live phase1_ctx) /\ sized_limits config (with_metrics live phase1_ctx).
Proof.
  intros H. pose proof (two_phase_verdict elapsed config phase1_ctx live mode t1 t2 0) as V.
  apply verdict_eq in V as (_ & V & _). rewrite H in V. symmetry in V.
  unfold evaluate_all in V. rewrite evaluate_range_spec, full_list in V by (unfold pipeline_len; lia).
  apply no_failure_all_pass in V. split; [by apply all_gates_enforce|].
  apply sized_gates_enforce. rewrite Forall_forall in *. intros c Hc. by apply V, sized_gates_subset.
Qed.

(** The verdict, the first failure and the first failing result all come from the first gate
    that fails on the live metrics. *)
Lemma two_phase_find elapsed config phase1_ctx live mode t1 t2 :
  let r := (two_phase elapsed (build_default_pipeline config) phase1_ctx live mode t1 t2).1 in
  let first := List.find (fails (with_metrics live phase1_ctx)) (check_refs_in_order config) in
  has_failed_hard_gate r = match first with Some _ => true | None => false end /\
  first_failure r = rc_id <$> first /\
  List.find (fun x => negb (cr_passed x)) (pr_results r) = result_of elapsed (with_metrics live phase1_ctx) <$> first.
Proof.
  intros r. pose proof (two_phase_verdict elapsed config phase1_ctx live mode t1 t2 0) as V.
  fold r in V. clearbody r. apply verdict_eq in V as (V1 & V2 & V3).
  unfold evaluate_all in V1, V2, V3. rewrite evaluate_range_spec, full_list in V1, V2, V3 by (unfold pipeline_len; lia).
  change (sp_config (build_default_pipeline config)) with config in *.
  generalize dependent (check_refs_in_order config). intros l V1 V2 V3. cbv zeta.
  cbn [pr_results has_failed_hard_gate first_failure report_spec] in V1, V2, V3.
  by rewrite V1, V2, V3, first_failing_result, find_existsb.
Qed.

Lemma sized_run_enforces elapsed p ctx mode t :
  has_failed_hard_gate (evaluate_sized_gates elapsed p ctx mode t) = false -> sized_limits (sp_config p) ctx.
Proof.
  intros H. unfold evaluate_sized_gates in H. rewrite run_report in H. apply no_failure_all_pass in H.
  by apply sized_gates_enforce.
Qed.

(** The order of evaluation departs from the order of the identifiers: the API error rate, last
    in [RiskCheckId], runs before the balance check. *)
Definition id_rank_api_before_balance (p : StaticRiskPipeline) : Prop :=
  exists a b c, check_order p = a ++ CkApiErrorRate :: b ++ CkMinBalance :: c.
Lemma check_order_departs p : id_rank_api_before_balance p.
Proof. exists (take 26 (check_order p)), [], (drop 28 (check_order p)). reflexivity. Qed.
End Pipeline.

(** ** Instances *)

Lemma gates_enforce_limits_witness :
  admissible (DO := ExactQ.exactQ) RiskConfig_default (Demo.ctx None) /\ sized_limits (DO := ExactQ.exactQ) RiskConfig_default (Demo.ctx None).
Proof.
  apply (gates_enforce_limits (DO := ExactQ.exactQ) (fun _ => 0)
    (build_default_pipeline (DO := ExactQ.exactQ) RiskConfig_default) (Demo.ctx None) ShortCircuit 0).
  vm_compute. reflexivity.
Defined.
