(* ===== verification/Interfaces.v ===== *)
(** * Interfaces of the risk engine: [oxide-arb-risk/src/{traits,audit}.rs]

    The traits through which the engine reads live metrics ([RiskMetrics]) and writes durable
    state ([RiskPersistence], [PotentialLossStore]), as classes over a state type: an
    implementation may fail at any call.  The audit events and their database columns, and the
    no-op stores of [builder.rs], are here too.  The JSON payload of a row is the typed value it
    serialises. *)

From S2P Require Import Prelude Decimal Config Domain RiskTypes CircuitBreaker.

(** [OxideResult<A>]. *)
Abbreviation Outcome A := (Result A OxideError).

Section Data.
Context `{DO : DecimalOps}.

(** [risk/audit.rs:103-109] `RiskDecisionTrace` *)
Record RiskDecisionTrace := {
  tr_check_results : list RiskCheckResult;
  tr_sizing_breakdown : option SizeBreakdown;
  tr_state_version : StateVersion;
  tr_total_elapsed_us : Z;
  tr_evaluated_at : Time
}.

(** [models/enums/risk.rs:146-150] `WindowType` *)
Inductive WindowType := WHourly | WDaily | WWeekly.

(** [risk/audit.rs:28-94] `RiskAuditEvent` *)
Inductive RiskAuditEvent :=
| AvTradeAllowed (trace : RiskDecisionTrace) (opportunity : OpportunityId) (market : MarketId)
| AvTradeAllowedSummary (opportunity : OpportunityId) (market : MarketId) (version : StateVersion)
    (check_count : nat) (elapsed_us : Z) (evaluated_at : Time)
| AvTradeDenied (trace : RiskDecisionTrace) (opportunity : OpportunityId) (market : MarketId)
| AvBreakerTripped (level : CircuitBreakerLevel) (reason : string) (previous_state : BreakerStateName)
| AvBreakerRecovered (from : BreakerStateName)
| AvBreakerReset (operator_reason : string)
| AvBlacklistAdded (entry : BlacklistInfo) (operator_reason : string)
| AvBlacklistRemoved (market : MarketId) (operator_reason : string)
| AvAccountingRollover (window : WindowType) (old_start new_start : Date) (final_stats : PeriodStats)
| AvReconciliationCompleted (status : ReconciliationStatus) (mismatch_count : nat)
| AvEngineHalted (reason : string)
| AvEngineResumed
| AvPostTradeUpdate (trade_id : TradeId) (outcome : TradeBusinessOutcome) (phase : TradeAccountingPhase)
    (daily_loss_after weekly_loss_after hourly_loss_after : D) (breaker_tripped : option CircuitBreakerLevel)
    (auto_blacklisted : option MarketId) (daily_rolled weekly_rolled hourly_rolled : bool).

(** [risk/audit.rs:131-137] `AuditEventColumns` *)
Record AuditEventColumns := {
  col_event_type : RiskAuditEventType;
  col_market_id : option MarketId;
  col_opportunity_id : option OpportunityId;
  col_trade_id : option TradeId;
  col_rejection_reason : option string
}.

(** [risk/audit.rs:140-148] `AuditEventColumns::bare` *)
Definition columns_bare (t : RiskAuditEventType) : AuditEventColumns := {|
  col_event_type := t; col_market_id := None; col_opportunity_id := None; col_trade_id := None;
  col_rejection_reason := None |}.

(** [risk/types.rs:212-216] `Display for RiskCheckId`: the name of the variant. *)
Definition check_id_str (i : RiskCheckId) : string :=
  match i with
  | CkManualHalt => "ManualHalt" | CkCircuitBreaker => "CircuitBreaker"
  | CkBlacklistTradingPath => "BlacklistTradingPath" | CkTokenBlacklist => "TokenBlacklist"
  | CkMarketAnomalyBlock => "MarketAnomalyBlock" | CkReconciliationMaintenance => "ReconciliationMaintenance"
  | CkControlFactorManualAckRequired => "ControlFactorManualAckRequired"
  | CkControlFactorSnapshotExpired => "ControlFactorSnapshotExpired" | CkBlockingTrades => "BlockingTrades"
  | CkRedeemRouteResolvable => "RedeemRouteResolvable" | CkMetricsFreshness => "MetricsFreshness"
  | CkMinDepth => "MinDepth" | CkMaxDepthUsage => "MaxDepthUsage" | CkStaleness => "Staleness"
  | CkDailyBudget => "DailyBudget" | CkDailyLossCap => "DailyLossCap" | CkWeeklyLossCap => "WeeklyLossCap"
  | CkHourlyLossCap => "HourlyLossCap" | CkFeeSpend => "FeeSpend" | CkMaxSingleBet => "MaxSingleBet"
  | CkMarketExposure => "MarketExposure" | CkTotalExposure => "TotalExposure" | CkExposurePct => "ExposurePct"
  | CkPotentialLossCap => "PotentialLossCap" | CkMaxPositions => "MaxPositions"
  | CkWsConnectivity => "WsConnectivity" | CkMinBalance => "MinBalance"
  | CkDirectionalConcentration => "DirectionalConcentration"
  | CkDailyDirectionalBudget => "DailyDirectionalBudget" | CkDuplicateMarket => "DuplicateMarket"
  | CkDrawdownGuard => "DrawdownGuard" | CkApiErrorRate => "ApiErrorRate"
  end.

(** [parts.join("; ")]. *)
Fixpoint join (sep : string) (parts : list string) : string :=
  match parts with
  | [] => ""
  | [p] => p
  | p :: rest => p +:+ sep +:+ join sep rest
  end.

(** [risk/audit.rs:153-170] `denial_reason` *)
Definition denial_reason (trace : RiskDecisionTrace) : option string :=
  let parts := map (fun c => match detail c with
                             | None => check_id_str (check_id c)
                             | Some d => check_id_str (check_id c) +:+ ": " +:+ d
                             end)
                 (List.filter (fun c => negb (cr_passed c)) (tr_check_results trace)) in
  match parts with [] => None | _ => Some (join "; " parts) end.

(** [risk/audit.rs:172-239] `audit_event_columns` *)
Definition audit_event_columns (event : RiskAuditEvent) : AuditEventColumns :=
  match event with
  | AvTradeAllowed _ o m | AvTradeAllowedSummary o m _ _ _ _ =>
      {| col_event_type := TradeAllowed; col_market_id := Some m; col_opportunity_id := Some o;
         col_trade_id := None; col_rejection_reason := None |}
  | AvTradeDenied trace o m =>
      {| col_event_type := TradeDenied; col_market_id := Some m; col_opportunity_id := Some o;
         col_trade_id := None; col_rejection_reason := denial_reason trace |}
  | AvBreakerTripped _ reason _ =>
      {| col_event_type := BreakerTripped; col_market_id := None; col_opportunity_id := None;
         col_trade_id := None; col_rejection_reason := Some reason |}
  | AvBreakerRecovered _ => columns_bare BreakerRecovered
  | AvBreakerReset _ => columns_bare BreakerReset
  | AvBlacklistAdded entry operator_reason =>
      {| col_event_type := BlacklistAdded; col_market_id := Some (bl_market_id entry); col_opportunity_id := None;
         col_trade_id := None; col_rejection_reason := Some operator_reason |}
  | AvBlacklistRemoved m _ =>
      {| col_event_type := BlacklistRemoved; col_market_id := Some m; col_opportunity_id := None;
         col_trade_id := None; col_rejection_reason := None |}
  | AvAccountingRollover _ _ _ _ => columns_bare AccountingRollover
  | AvReconciliationCompleted _ _ => columns_bare ReconciliationCompleted
  | AvEngineHalted reason =>
      {| col_event_type := EngineHalted; col_market_id := None; col_opportunity_id := None;
         col_trade_id := None; col_rejection_reason := Some reason |}
  | AvEngineResumed => columns_bare EngineResumed
  | AvPostTradeUpdate trade_id _ _ _ _ _ _ _ _ _ _ =>
      {| col_event_type := PostTradeUpdate; col_market_id := None; col_opportunity_id := None;
         col_trade_id := Some trade_id; col_rejection_reason := None |}
  end.

(** [models/domain/risk/engine.rs:298-305] `NewRiskAuditEvent` *)
Record NewRiskAuditEvent := { na_columns : AuditEventColumns; na_payload : RiskAuditEvent }.

(** [risk/audit.rs:111-125] `From<RiskAuditEvent> for NewRiskAuditEvent` *)
Definition new_audit (event : RiskAuditEvent) : NewRiskAuditEvent := {|
  na_columns := audit_event_columns event; na_payload := event |}.

(** [models/domain/risk/engine.rs:310-317] `NewEmergencySnapshot` *)
Record NewEmergencySnapshot := {
  em_trigger_level : CircuitBreakerLevel;
  em_reason : string;
  em_risk_state : RiskEngineState;
  em_open_positions_count : Z;
  em_open_reservations_count : Z;
  em_triggered_at : Time
}.

(** [models/domain/risk/engine.rs:357-368] `NewReconciliationReport` *)
Record NewReconciliationReport := {
  nr_status : ReconciliationStatus;
  nr_mismatches : list ReconciliationMismatch;
  nr_internal_balance : D;
  nr_external_balance : D;
  nr_internal_exposure : D;
  nr_external_exposure : D;
  nr_reserved : D;
  nr_tolerance : D;
  nr_checked_at : Time;
  nr_duration_ms : Z
}.

(** [models/domain/risk/engine.rs:377-382] `FillCommit` *)
Record FillCommit := {
  fc_trade_id : TradeId;
  fc_potential_loss : option NewPotentialLoss;
  fc_state : UpsertRiskEngineState;
  fc_audit : NewRiskAuditEvent
}.

(** [risk/traits.rs:25-28] `FillClaim` *)
Inductive FillClaim := Claimed | AlreadyApplied.

(** ** Live metrics *)

(** [risk/traits.rs:113-205] `RiskMetrics`: of an open position only its market is read. *)
Class RiskMetrics (M : Type) : Type := {
  mt_total_exposure : M -> D;
  mt_market_exposure : M -> MarketId -> D;
  mt_open_position_count : M -> Z;
  mt_open_positions : M -> list MarketId;
  mt_cash_balance : M -> D;
  mt_position_mark_value : M -> D;
  mt_equity : M -> D;
  mt_active_reservation_count : M -> Z;
  mt_reserved_usd : M -> D;
  mt_open_directional_count : M -> Side -> Z;
  mt_daily_directional_trades : M -> Side -> Z;
  mt_consecutive_market_misses : M -> MarketId -> Z;
  mt_record_trade_outcome : M -> Side -> MarketId -> bool -> M;
  mt_ws_disconnect_secs : M -> Z;
  mt_api_error_count : M -> Z;
  mt_api_request_count : M -> Z;
  mt_metrics_age_secs : M -> Z;
  mt_is_stale : M -> bool;
  mt_is_authoritative : M -> bool;
  mt_snapshot_for : M -> MarketId -> RiskMetricsSnapshot
}.

(** [risk/traits.rs:180-204] `RiskMetrics::snapshot_for` (the default method), from the accessors it
    delegates to. *)
Definition default_snapshot_for (cash mark eq total : D) (market : MarketId -> D) (open : Z) (reservations : Z)
    (reserved : D) (open_side daily_side : Side -> Z) (misses : MarketId -> Z) (ws errors requests age : Z)
    (stale authoritative : bool) (m : MarketId) : RiskMetricsSnapshot := {|
  ms_version := 0; cash_balance := cash; position_mark_value := mark; equity := eq; ms_total_exposure := total;
  market_exposure := market m; open_position_count := open; active_reservation_count := reservations;
  reserved_usd := reserved; open_directional_count_buy := open_side Buy; open_directional_count_sell := open_side Sell;
  daily_directional_trades_buy := daily_side Buy; daily_directional_trades_sell := daily_side Sell;
  consecutive_market_misses := misses m; market_ws_disconnect_secs := ws; ms_ws_disconnect_secs := ws;
  api_error_count := errors; api_request_count := requests; is_stale := stale; metrics_age_secs := age;
  is_authoritative := authoritative |}.

(** ** Durable state *)

(** [risk/traits.rs:213-247] `RiskPersistence`, [RiskFillCommitGuard], and the two methods of
    [PotentialLossStore] the engine calls, over the state [W] of the store. *)
Class RiskPersistence (W : Type) : Type := {
  upsert_state : W -> UpsertRiskEngineState -> W * Outcome unit;
  begin_fill : W -> TradeId -> Time -> W * Outcome FillClaim;
  commit_fill : W -> FillCommit -> W * Outcome unit;
  upsert_blacklist : W -> UpsertBlacklistEntry -> W * Outcome unit;
  remove_blacklist : W -> MarketId -> W * Outcome unit;
  create_emergency : W -> NewEmergencySnapshot -> W * Outcome unit;
  create_reconciliation : W -> NewReconciliationReport -> W * Outcome unit;
  create_audit : W -> NewRiskAuditEvent -> W * Outcome unit;
  loss_resolve : W -> LedgerId -> W * Outcome unit;
  loss_find_stale : W -> Z -> W * Outcome (list PotentialLossInfo)
}.

(** What the engine relies on for exactly-once fills: a committed marker is reported as applied
    by every later claim, whatever else is written in between. *)
Class FillMarkers (W : Type) (P : RiskPersistence W) : Type := {
  marked : W -> TradeId -> Prop;
  commit_marks : forall w c w', commit_fill w c = (w', Ok tt) -> marked w' (fc_trade_id c);
  claim_of_marked : forall w t now, marked w t -> exists w', begin_fill w t now = (w', Ok AlreadyApplied) /\ marked w' t;
  marked_upsert_state : forall w t x, marked w t -> marked (upsert_state w x).1 t;
  marked_begin_fill : forall w t x now, marked w t -> marked (begin_fill w x now).1 t;
  marked_commit_fill : forall w t x, marked w t -> marked (commit_fill w x).1 t;
  marked_upsert_blacklist : forall w t x, marked w t -> marked (upsert_blacklist w x).1 t;
  marked_remove_blacklist : forall w t x, marked w t -> marked (remove_blacklist w x).1 t;
  marked_create_emergency : forall w t x, marked w t -> marked (create_emergency w x).1 t;
  marked_create_reconciliation : forall w t x, marked w t -> marked (create_reconciliation w x).1 t;
  marked_create_audit : forall w t x, marked w t -> marked (create_audit w x).1 t;
  marked_loss_resolve : forall w t x, marked w t -> marked (loss_resolve w x).1 t;
  marked_loss_find_stale : forall w t x, marked w t -> marked (loss_find_stale w x).1 t
}.

(** [risk/builder.rs:313-418] `NoopPersistence`, [NoopPotentialLossStore] *)
Definition NoopPersistence : RiskPersistence unit := {|
  upsert_state := fun w _ => (w, Ok tt);
  begin_fill := fun w _ _ => (w, Ok Claimed);
  commit_fill := fun w _ => (w, Ok tt);
  upsert_blacklist := fun w _ => (w, Ok tt);
  remove_blacklist := fun w _ => (w, Ok tt);
  create_emergency := fun w _ => (w, Ok tt);
  create_reconciliation := fun w _ => (w, Ok tt);
  create_audit := fun w _ => (w, Ok tt);
  loss_resolve := fun w _ => (w, Ok tt);
  loss_find_stale := fun w _ => (w, Ok [])
|}.
End Data.

(** ** A store that can fail

    Rows kept in lists, the fill markers in a set, and a script of failures: the store counts its
    calls and call [n] fails when [n] is in the script.  It instantiates the interface. *)
Module Scripted.
Section Scripted.
Context `{DO : DecimalOps}.

Record Store := {
  calls : nat;
  failing : list nat;
  markers : gset TradeId;
  states : list UpsertRiskEngineState;
  audits : list NewRiskAuditEvent;
  stale_losses : list PotentialLossInfo
}.

Definition next (w : Store) (markers : gset TradeId) (states : list UpsertRiskEngineState) (audits : list NewRiskAuditEvent) : Store := {|
  calls := S (calls w); failing := failing w; markers := markers; states := states; audits := audits;
  stale_losses := stale_losses w |}.

Definition call {A} (w : Store) (m : gset TradeId) (s : list UpsertRiskEngineState) (au : list NewRiskAuditEvent) (a : A)
    : Store * Outcome A :=
  if bool_decide (calls w ∈ failing w) then (next w (markers w) (states w) (audits w), Err (Internal "store failure"))
  else (next w m s au, Ok a).

Definition quiet {A} (w : Store) (a : A) : Store * Outcome A := call w (markers w) (states w) (audits w) a.

#[global] Instance persistence : RiskPersistence Store := {|
  upsert_state := fun w x => call w (markers w) (states w ++ [x]) (audits w) tt;
  begin_fill := fun w t _ =>
    if bool_decide (t ∈ markers w) then (next w (markers w) (states w) (audits w), Ok AlreadyApplied) else quiet w Claimed;
  commit_fill := fun w c => call w ({[fc_trade_id c]} ∪ markers w) (states w ++ [fc_state c]) (audits w ++ [fc_audit c]) tt;
  upsert_blacklist := fun w _ => quiet w tt;
  remove_blacklist := fun w _ => quiet w tt;
  create_emergency := fun w _ => quiet w tt;
  create_reconciliation := fun w _ => quiet w tt;
  create_audit := fun w x => call w (markers w) (states w) (audits w ++ [x]) tt;
  loss_resolve := fun w _ => quiet w tt;
  loss_find_stale := fun w _ => quiet w (stale_losses w)
|}.

Lemma call_marks {A} w m s au (a : A) t : markers w ⊆ m -> t ∈ markers w -> t ∈ markers (call w m s au a).1.
Proof. unfold call. case_bool_decide; cbn; set_solver. Qed.

#[global, refine] Instance fill_markers : FillMarkers Store persistence := { marked := fun w t => t ∈ markers w }.
Proof.
  - cbn. unfold call. intros w c w' H. case_bool_decide; simplify_eq/=. set_solver.
  - cbn. intros w t now H. rewrite bool_decide_true by done. eauto.
  - intros. by apply call_marks.
  - cbn. intros. case_bool_decide; [done|]. by apply call_marks.
  - intros. apply call_marks; [set_solver|done].
  - intros. by apply call_marks.
  - intros. by apply call_marks.
  - intros. by apply call_marks.
  - intros. by apply call_marks.
  - intros. by apply call_marks.
  - intros. by apply call_marks.
  - intros. by apply call_marks.
Defined.

Definition empty_store (script : list nat) : Store := {|
  calls := 0; failing := script; markers := ∅; states := []; audits := []; stale_losses := [] |}.
End Scripted.
End Scripted.

(** ** A frozen metrics source

    One snapshot answers every query: the accessors read its fields, and recording an outcome
    changes nothing.  It instantiates the interface. *)
Module Frozen.
Section Frozen.
Context `{DO : DecimalOps}.

#[global] Instance metrics : RiskMetrics RiskMetricsSnapshot := {|
  mt_total_exposure := ms_total_exposure;
  mt_market_exposure := fun m _ => market_exposure m;
  mt_open_position_count := open_position_count;
  mt_open_positions := fun m => repeat "m"%string (Z.to_nat (open_position_count m));
  mt_cash_balance := cash_balance;
  mt_position_mark_value := position_mark_value;
  mt_equity := equity;
  mt_active_reservation_count := active_reservation_count;
  mt_reserved_usd := reserved_usd;
  mt_open_directional_count := open_directional_count;
  mt_daily_directional_trades := daily_directional_trades;
  mt_consecutive_market_misses := fun m _ => consecutive_market_misses m;
  mt_record_trade_outcome := fun m _ _ _ => m;
  mt_ws_disconnect_secs := ms_ws_disconnect_secs;
  mt_api_error_count := api_error_count;
  mt_api_request_count := api_request_count;
  mt_metrics_age_secs := metrics_age_secs;
  mt_is_stale := is_stale;
  mt_is_authoritative := is_authoritative;
  mt_snapshot_for := fun m _ => m
|}.
End Frozen.
End Frozen.
