(* ===== verification/Reconciliation.v ===== *)
(** * Ledger reconciliation: [oxide-arb-risk/src/reconciliation.rs]

    Comparison of the internal balance and positions with an external snapshot, and the
    classification of the drifts it finds. *)

From S2P Require Import Prelude Decimal Config Domain RiskTypes CircuitBreaker Interfaces.

Section Reconcile.
Context `{DO : DecimalOps} {M : Type} {RM : RiskMetrics M}.
Implicit Types (metrics : M).

(** [risk/reconciliation.rs:24-26] `LedgerReconciler` *)
Record LedgerReconciler := { lr_tolerance : D }.

(** [risk/reconciliation.rs:30-34] `LedgerReconciler::new` *)
Definition reconciler_new (tolerance_usd : D) : LedgerReconciler := {| lr_tolerance := tolerance_usd |}.

(** [risk/reconciliation.rs:162-179] `LedgerReconciler::classify` *)
Definition classify (mismatches : list ReconciliationMismatch) (critical_threshold : D) : ReconciliationStatus :=
  match mismatches with
  | [] => ROk
  | _ => if existsb (fun m => dleb critical_threshold (drift_abs m)) mismatches then RCritical else RWarning
  end.

(** [if drift.abs() > self.tolerance { mismatches.push(..) }]. *)
Definition push_if (r : LedgerReconciler) (drift : D) (m : ReconciliationMismatch) : list ReconciliationMismatch :=
  if dltb (lr_tolerance r) (dabs drift) then [m] else [].

(** [risk/reconciliation.rs:91-104] `LedgerReconciler::reconcile_fetched` (external positions) *)
Definition external_mismatches (r : LedgerReconciler) metrics (ext : list (MarketId * D)) : list ReconciliationMismatch :=
  concat (map (fun mv : MarketId * D =>
    let internal_value := mt_market_exposure metrics mv.1 in
    let drift := dsub internal_value mv.2 in
    push_if r drift (PositionDrift mv.1 internal_value mv.2 drift)) ext).

(** [risk/reconciliation.rs:106-120] `LedgerReconciler::reconcile_fetched` (positions the venue does not report) *)
Definition missing_mismatches (r : LedgerReconciler) metrics (ext : list (MarketId * D)) : list ReconciliationMismatch :=
  concat (map (fun market =>
    if bool_decide (market ∈ map fst ext) then []
    else
      let internal_value := mt_market_exposure metrics market in
      push_if r internal_value (PositionDrift market internal_value d0 internal_value)) (mt_open_positions metrics)).

(** [risk/reconciliation.rs:62-160] `LedgerReconciler::reconcile_fetched` *)
Definition reconcile_fetched (r : LedgerReconciler) metrics (internal_balance ext_available ext_locked : D)
    (ext_positions : option (list (MarketId * D))) (checked_at : Time) (duration_ms : Z) : ReconciliationReport :=
  let external_balance := dadd ext_available ext_locked in
  let balance_drift := dsub internal_balance external_balance in
  let mismatches := push_if r balance_drift (BalanceDrift internal_balance external_balance balance_drift) in
  let mismatches :=
    match ext_positions with
    | Some ext => mismatches ++ external_mismatches r metrics ext ++ missing_mismatches r metrics ext
    | None => mismatches
    end in
  let external_exposure :=
    match ext_positions with Some ext => foldl (fun acc mv => dadd acc mv.2) d0 ext | None => d0 end in
  {| rr_status := classify mismatches (dmul (lr_tolerance r) (dlit 10 0));
     rr_mismatches := mismatches; rr_internal_balance := internal_balance; rr_external_balance := external_balance;
     rr_internal_exposure := mt_total_exposure metrics; rr_external_exposure := external_exposure;
     rr_reserved := mt_reserved_usd metrics; rr_tolerance := lr_tolerance r; rr_checked_at := checked_at;
     rr_duration_ms := duration_ms |}.

(** [risk/reconciliation.rs:40-54] `LedgerReconciler::reconcile`: the two queries of the venue, which
    may fail, then the comparison. *)
Definition reconcile (r : LedgerReconciler) metrics (query_balance : Outcome (D * D))
    (query_positions : Outcome (list (MarketId * D))) (checked_at : Time) (duration_ms : Z) : Outcome ReconciliationReport :=
  let? (ext_available, ext_locked) := query_balance in
  let? ext_positions := query_positions in
  Ok (reconcile_fetched r metrics (mt_cash_balance metrics) ext_available ext_locked (Some ext_positions) checked_at duration_ms).

(** ** Specification: every drift there is to find *)

(** The drifts of a comparison: the balance, each reported market, each open position the venue
    does not report. *)
Inductive drift_of metrics (internal_balance external_balance : D) (ext : option (list (MarketId * D)))
    : D -> Prop :=
| drift_balance : drift_of metrics internal_balance external_balance ext (dsub internal_balance external_balance)
| drift_reported l m v : ext = Some l -> (m, v) ∈ l ->
    drift_of metrics internal_balance external_balance ext (dsub (mt_market_exposure metrics m) v)
| drift_missing l m : ext = Some l -> m ∈ mt_open_positions metrics -> m ∉ map fst l ->
    drift_of metrics internal_balance external_balance ext (mt_market_exposure metrics m).

Definition is_drift_mismatch (r : LedgerReconciler) (m : ReconciliationMismatch) (drift : D) : Prop :=
  drift_abs m = dabs drift /\ dltb (lr_tolerance r) (dabs drift) = true.

Lemma elem_push_if r drift m x : x ∈ push_if r drift m <-> x = m /\ dltb (lr_tolerance r) (dabs drift) = true.
Proof. unfold push_if. destruct (dltb _ _); rewrite ?list_elem_of_singleton, ?elem_of_nil; naive_solver. Qed.

Lemma elem_concat_map {A B} (f : A -> list B) l b : b ∈ concat (map f l) <-> exists a, a ∈ l /\ b ∈ f a.
Proof.
  induction l as [|a l IH]; cbn.
  - rewrite elem_of_nil. split; [done|]. intros (a & H & _). by apply elem_of_nil in H.
  - rewrite elem_of_app, IH. setoid_rewrite elem_of_cons. naive_solver.
Qed.

(** A mismatch is recorded exactly for each drift beyond the tolerance. *)
Lemma mismatches_complete r metrics ib ea el ext t d :
  (forall m, m ∈ rr_mismatches (reconcile_fetched r metrics ib ea el ext t d) ->
     exists drift, drift_of metrics ib (dadd ea el) ext drift /\ is_drift_mismatch r m drift) /\
  (forall drift, drift_of metrics ib (dadd ea el) ext drift -> dltb (lr_tolerance r) (dabs drift) = true ->
     exists m, m ∈ rr_mismatches (reconcile_fetched r metrics ib ea el ext t d) /\ drift_abs m = dabs drift).
Proof.
  cbn. split.
  - assert (Hb : forall m, m ∈ push_if r (dsub ib (dadd ea el)) (BalanceDrift ib (dadd ea el) (dsub ib (dadd ea el))) ->
      exists drift, drift_of metrics ib (dadd ea el) ext drift /\ is_drift_mismatch r m drift).
    { intros m [-> Hd]%elem_push_if. eexists. split; [apply drift_balance | split; done]. }
    intros m Hm. destruct ext as [l|]; [|by apply Hb].
    apply elem_of_app in Hm as [Hm | [Hm | Hm]%elem_of_app]; [by apply Hb| |].
    + apply elem_concat_map in Hm as ([mk v] & Hin & [-> Hd]%elem_push_if).
      eexists. split; [by eapply drift_reported | split; done].
    + apply elem_concat_map in Hm as (mk & Hin & Hm). case_bool_decide; [by apply elem_of_nil in Hm|].
      apply elem_push_if in Hm as [-> Hd]. eexists. split; [by eapply drift_missing | split; done].
  - intros drift Hd Ht. inversion Hd as [|l m v E Hin|l m E Hin Hout]; subst.
    + eexists (BalanceDrift _ _ _). split; [|done].
      destruct ext; [apply elem_of_app; left|]; by apply elem_push_if.
    + eexists (PositionDrift m _ _ _). split; [|done]. apply elem_of_app; right; apply elem_of_app; left.
      apply elem_concat_map. exists (m, v). split; [done|]. by apply elem_push_if.
    + eexists (PositionDrift m _ _ _). split; [|done]. apply elem_of_app; right; apply elem_of_app; right.
      apply elem_concat_map. exists m. split; [done|]. rewrite bool_decide_false by done. by apply elem_push_if.
Qed.

(** Reconciliation is sound and complete.  The report is clean exactly when every drift (the
    balance, each market the venue reports, each open position it does not report) is within
    the tolerance; it is critical exactly when some drift beyond the tolerance reaches ten
    times the tolerance; it is a warning otherwise. *)
Theorem reconciliation_status_exact r metrics ib ea el ext t d :
  let report := reconcile_fetched r metrics ib ea el ext t d in
  let drifts := drift_of metrics ib (dadd ea el) ext in
  (rr_status report = ROk <-> forall drift, drifts drift -> (dval (dabs drift) <= dval (lr_tolerance r))%Q) /\
  (rr_status report = RCritical <->
     exists drift, drifts drift /\ (dval (lr_tolerance r) < dval (dabs drift))%Q /\
       (dval (dmul (lr_tolerance r) (dlit 10 0)) <= dval (dabs drift))%Q).
Proof.
  cbn zeta. destruct (mismatches_complete r metrics ib ea el ext t d) as [Hs Hc].
  assert (Hst : rr_status (reconcile_fetched r metrics ib ea el ext t d) =
    classify (rr_mismatches (reconcile_fetched r metrics ib ea el ext t d)) (dmul (lr_tolerance r) (dlit 10 0))) by done.
  rewrite Hst. generalize dependent (rr_mismatches (reconcile_fetched r metrics ib ea el ext t d)).
  intros ms Hs Hc _. split; split.
  - destruct ms as [|m ms]; cbn; [intros _ | by case_match]. intros drift Hd.
    apply dltb_ge. apply not_true_iff_false. intros Ht. destruct (Hc drift Hd Ht) as (m & Hm & _). by apply elem_of_nil in Hm.
  - intros Hall. destruct ms as [|m ms]; [done|]. exfalso.
    destruct (Hs m) as (drift & Hd & _ & Ht); [by left|]. apply dltb_lt in Ht. specialize (Hall drift Hd). lra.
  - destruct ms as [|m0 ms]; [done|]. cbn [classify].
    destruct (existsb _ _) eqn:E; [|done]. intros _. apply existsb_exists in E as (m & Hin & Hth).
    destruct (Hs m) as (drift & Hd & Ha & Ht); [by apply list_elem_of_In|].
    rewrite Ha in Hth. dbool. eauto.
  - intros (drift & Hd & Ht & Hth). destruct (Hc drift Hd) as (m & Hm & Ha); [by apply dltb_lt|].
    destruct ms as [|m0 ms]; [by apply elem_of_nil in Hm|]. cbn [classify].
    rewrite (proj2 (existsb_exists _ _)); [done|]. exists m. split; [by apply list_elem_of_In|].
    rewrite Ha. by apply dleb_le.
Qed.
End Reconcile.
