(* ===== verification/Engine.v ===== *)
(** * The risk engine: [oxide-arb-risk/src/engine.rs]

    The engine owns the breaker, the accounting windows, the potential-loss ledger, the blacklist
    and the drawdown guard, publishes a frozen snapshot of them for the decision path, and writes
    every change through to its stores.  A method is a function of the engine and of the instant
    [now] its clock reads; methods that await the stores return the result of the call.  The
    metrics and the stores are the interfaces of [Interfaces]: the theorems hold for every
    implementation, failing ones included.  One operation runs at a time. *)

From S2P Require Import Prelude Decimal Config Domain RiskTypes CircuitBreaker Accounting Ledger Bloom Blacklist Drawdown.
From S2P Require Import Context Sizing Checks Pipeline Interfaces Reconciliation.

Section Engine.
Context `{DO : DecimalOps} `{CH : Chrono} {M W : Type} {RM : RiskMetrics M} {RP : RiskPersistence W}.

(** [risk/engine.rs:78-83] `EngineParams` *)
Record EngineParams := {
  ep_config : RiskConfig;
  ep_pipeline : StaticRiskPipeline;
  ep_sizer : MultiConstraintSizer;
  ep_reconciler : LedgerReconciler
}.

(** [risk/engine.rs:86-93] `EngineParams::from_config` *)
Definition params_from_config (config : RiskConfig) : EngineParams := {|
  ep_config := config;
  ep_pipeline := build_default_pipeline config;
  ep_sizer := sizer_new config;
  ep_reconciler := reconciler_new (reconciliation_tolerance_usd config)
|}.

(** The two events of [CoreEvent] the engine publishes. *)
Inductive CoreEvent :=
| CircuitBreakerChanged (state : RiskEngineState)
| PnlUpdate (daily total : D).

(** [risk/engine.rs:96-122] `RiskEngine`: the two stores are one field of type [W]; the audit sink and
    the event bus, when configured, are the lists of what was offered to them. *)
Record Engine := {
  e_circuit_breaker : CircuitBreaker;
  e_daily : DailyAccounting;
  e_weekly : WeeklyAccounting;
  e_hourly : HourlyAccounting;
  e_potential_loss : PotentialLossLedger;
  e_lifetime_realized : D;
  e_params : EngineParams;
  e_risk_snapshot : RiskSnapshot;
  e_blacklist : BlacklistManager;
  e_drawdown : DrawdownGuard;
  e_persistence : W;
  e_audit_sink : option (list RiskAuditEvent);
  e_event_publisher : option (list CoreEvent);
  e_state_version : StateVersion;
  e_last_emergency : option (Time * string)
}.

(** Assignments to one field. *)
Definition set_circuit_breaker (e : Engine) (x : CircuitBreaker) : Engine := {|
  e_circuit_breaker := x; e_daily := e_daily e; e_weekly := e_weekly e; e_hourly := e_hourly e; e_potential_loss
  := e_potential_loss e; e_lifetime_realized := e_lifetime_realized e; e_params := e_params e; e_risk_snapshot
  := e_risk_snapshot e; e_blacklist := e_blacklist e; e_drawdown := e_drawdown e; e_persistence := e_persistence
  e; e_audit_sink := e_audit_sink e; e_event_publisher := e_event_publisher e; e_state_version :=
  e_state_version e; e_last_emergency := e_last_emergency e |}.
Definition set_daily (e : Engine) (x : DailyAccounting) : Engine := {|
  e_circuit_breaker := e_circuit_breaker e; e_daily := x; e_weekly := e_weekly e; e_hourly := e_hourly e;
  e_potential_loss := e_potential_loss e; e_lifetime_realized := e_lifetime_realized e; e_params := e_params e;
  e_risk_snapshot := e_risk_snapshot e; e_blacklist := e_blacklist e; e_drawdown := e_drawdown e; e_persistence
  := e_persistence e; e_audit_sink := e_audit_sink e; e_event_publisher := e_event_publisher e; e_state_version
  := e_state_version e; e_last_emergency := e_last_emergency e |}.
Definition set_weekly (e : Engine) (x : WeeklyAccounting) : Engine := {|
  e_circuit_breaker := e_circuit_breaker e; e_daily := e_daily e; e_weekly := x; e_hourly := e_hourly e;
  e_potential_loss := e_potential_loss e; e_lifetime_realized := e_lifetime_realized e; e_params := e_params e;
  e_risk_snapshot := e_risk_snapshot e; e_blacklist := e_blacklist e; e_drawdown := e_drawdown e; e_persistence
  := e_persistence e; e_audit_sink := e_audit_sink e; e_event_publisher := e_event_publisher e; e_state_version
  := e_state_version e; e_last_emergency := e_last_emergency e |}.
Definition set_hourly (e : Engine) (x : HourlyAccounting) : Engine := {|
  e_circuit_breaker := e_circuit_breaker e; e_daily := e_daily e; e_weekly := e_weekly e; e_hourly := x;
  e_potential_loss := e_potential_loss e; e_lifetime_realized := e_lifetime_realized e; e_params := e_params e;
  e_risk_snapshot := e_risk_snapshot e; e_blacklist := e_blacklist e; e_drawdown := e_drawdown e; e_persistence
  := e_persistence e; e_audit_sink := e_audit_sink e; e_event_publisher := e_event_publisher e; e_state_version
  := e_state_version e; e_last_emergency := e_last_emergency e |}.
Definition set_potential_loss (e : Engine) (x : PotentialLossLedger) : Engine := {|
  e_circuit_breaker := e_circuit_breaker e; e_daily := e_daily e; e_weekly := e_weekly e; e_hourly := e_hourly
  e; e_potential_loss := x; e_lifetime_realized := e_lifetime_realized e; e_params := e_params e;
  e_risk_snapshot := e_risk_snapshot e; e_blacklist := e_blacklist e; e_drawdown := e_drawdown e; e_persistence
  := e_persistence e; e_audit_sink := e_audit_sink e; e_event_publisher := e_event_publisher e; e_state_version
  := e_state_version e; e_last_emergency := e_last_emergency e |}.
Definition set_lifetime_realized (e : Engine) (x : D) : Engine := {|
  e_circuit_breaker := e_circuit_breaker e; e_daily := e_daily e; e_weekly := e_weekly e; e_hourly := e_hourly
  e; e_potential_loss := e_potential_loss e; e_lifetime_realized := x; e_params := e_params e; e_risk_snapshot
  := e_risk_snapshot e; e_blacklist := e_blacklist e; e_drawdown := e_drawdown e; e_persistence := e_persistence
  e; e_audit_sink := e_audit_sink e; e_event_publisher := e_event_publisher e; e_state_version :=
  e_state_version e; e_last_emergency := e_last_emergency e |}.
Definition set_engine_params (e : Engine) (x : EngineParams) : Engine := {|
  e_circuit_breaker := e_circuit_breaker e; e_daily := e_daily e; e_weekly := e_weekly e; e_hourly := e_hourly
  e; e_potential_loss := e_potential_loss e; e_lifetime_realized := e_lifetime_realized e; e_params := x;
  e_risk_snapshot := e_risk_snapshot e; e_blacklist := e_blacklist e; e_drawdown := e_drawdown e; e_persistence
  := e_persistence e; e_audit_sink := e_audit_sink e; e_event_publisher := e_event_publisher e; e_state_version
  := e_state_version e; e_last_emergency := e_last_emergency e |}.
Definition set_risk_snapshot (e : Engine) (x : RiskSnapshot) : Engine := {|
  e_circuit_breaker := e_circuit_breaker e; e_daily := e_daily e; e_weekly := e_weekly e; e_hourly := e_hourly
  e; e_potential_loss := e_potential_loss e; e_lifetime_realized := e_lifetime_realized e; e_params := e_params
  e; e_risk_snapshot := x; e_blacklist := e_blacklist e; e_drawdown := e_drawdown e; e_persistence :=
  e_persistence e; e_audit_sink := e_audit_sink e; e_event_publisher := e_event_publisher e; e_state_version :=
  e_state_version e; e_last_emergency := e_last_emergency e |}.
Definition set_blacklist (e : Engine) (x : BlacklistManager) : Engine := {|
  e_circuit_breaker := e_circuit_breaker e; e_daily := e_daily e; e_weekly := e_weekly e; e_hourly := e_hourly
  e; e_potential_loss := e_potential_loss e; e_lifetime_realized := e_lifetime_realized e; e_params := e_params
  e; e_risk_snapshot := e_risk_snapshot e; e_blacklist := x; e_drawdown := e_drawdown e; e_persistence :=
  e_persistence e; e_audit_sink := e_audit_sink e; e_event_publisher := e_event_publisher e; e_state_version :=
  e_state_version e; e_last_emergency := e_last_emergency e |}.
Definition set_drawdown (e : Engine) (x : DrawdownGuard) : Engine := {|
  e_circuit_breaker := e_circuit_breaker e; e_daily := e_daily e; e_weekly := e_weekly e; e_hourly := e_hourly
  e; e_potential_loss := e_potential_loss e; e_lifetime_realized := e_lifetime_realized e; e_params := e_params
  e; e_risk_snapshot := e_risk_snapshot e; e_blacklist := e_blacklist e; e_drawdown := x; e_persistence :=
  e_persistence e; e_audit_sink := e_audit_sink e; e_event_publisher := e_event_publisher e; e_state_version :=
  e_state_version e; e_last_emergency := e_last_emergency e |}.
Definition set_persistence (e : Engine) (x : W) : Engine := {|
  e_circuit_breaker := e_circuit_breaker e; e_daily := e_daily e; e_weekly := e_weekly e; e_hourly := e_hourly
  e; e_potential_loss := e_potential_loss e; e_lifetime_realized := e_lifetime_realized e; e_params := e_params
  e; e_risk_snapshot := e_risk_snapshot e; e_blacklist := e_blacklist e; e_drawdown := e_drawdown e;
  e_persistence := x; e_audit_sink := e_audit_sink e; e_event_publisher := e_event_publisher e; e_state_version
  := e_state_version e; e_last_emergency := e_last_emergency e |}.
Definition set_audit_sink (e : Engine) (x : option (list RiskAuditEvent)) : Engine := {|
  e_circuit_breaker := e_circuit_breaker e; e_daily := e_daily e; e_weekly := e_weekly e; e_hourly := e_hourly
  e; e_potential_loss := e_potential_loss e; e_lifetime_realized := e_lifetime_realized e; e_params := e_params
  e; e_risk_snapshot := e_risk_snapshot e; e_blacklist := e_blacklist e; e_drawdown := e_drawdown e;
  e_persistence := e_persistence e; e_audit_sink := x; e_event_publisher := e_event_publisher e; e_state_version
  := e_state_version e; e_last_emergency := e_last_emergency e |}.
Definition set_event_publisher (e : Engine) (x : option (list CoreEvent)) : Engine := {|
  e_circuit_breaker := e_circuit_breaker e; e_daily := e_daily e; e_weekly := e_weekly e; e_hourly := e_hourly
  e; e_potential_loss := e_potential_loss e; e_lifetime_realized := e_lifetime_realized e; e_params := e_params
  e; e_risk_snapshot := e_risk_snapshot e; e_blacklist := e_blacklist e; e_drawdown := e_drawdown e;
  e_persistence := e_persistence e; e_audit_sink := e_audit_sink e; e_event_publisher := x; e_state_version :=
  e_state_version e; e_last_emergency := e_last_emergency e |}.
Definition set_state_version (e : Engine) (x : StateVersion) : Engine := {|
  e_circuit_breaker := e_circuit_breaker e; e_daily := e_daily e; e_weekly := e_weekly e; e_hourly := e_hourly
  e; e_potential_loss := e_potential_loss e; e_lifetime_realized := e_lifetime_realized e; e_params := e_params
  e; e_risk_snapshot := e_risk_snapshot e; e_blacklist := e_blacklist e; e_drawdown := e_drawdown e;
  e_persistence := e_persistence e; e_audit_sink := e_audit_sink e; e_event_publisher := e_event_publisher e;
  e_state_version := x; e_last_emergency := e_last_emergency e |}.
Definition set_last_emergency (e : Engine) (x : option (Time * string)) : Engine := {|
  e_circuit_breaker := e_circuit_breaker e; e_daily := e_daily e; e_weekly := e_weekly e; e_hourly := e_hourly
  e; e_potential_loss := e_potential_loss e; e_lifetime_realized := e_lifetime_realized e; e_params := e_params
  e; e_risk_snapshot := e_risk_snapshot e; e_blacklist := e_blacklist e; e_drawdown := e_drawdown e;
  e_persistence := e_persistence e; e_audit_sink := e_audit_sink e; e_event_publisher := e_event_publisher e;
  e_state_version := e_state_version e; e_last_emergency := x |}.

Definition e_config (e : Engine) : RiskConfig := ep_config (e_params e).

(** [state_version.increment()]. *)
Definition bump (e : Engine) : Engine := set_state_version e (version_increment (e_state_version e)).

(** [Display] of an error. *)
Definition err_str (err : OxideError) : string := match err with Internal m => "Internal error: " +:+ m end.

(** ** Publishing *)

(** [risk/engine.rs:1428-1478] `RiskEngine::compile_risk_snapshot` *)
Definition compile_risk_snapshot (e : Engine) (now : Time) : RiskSnapshot :=
  let cb := e_circuit_breaker e in
  {| rs_circuit_breaker := {|
       snap_circuit_breaker := {| cb_allows_trading := allows_trading cb; cb_is_probe := is_probe_mode cb |};
       snap_manual_halt :=
         match cb_state cb with Halted _ reason _ => HaltBlocked reason | _ => HaltClear end |};
     rs_daily := {|
       snap_daily_loss := daily_loss (e_daily e); snap_daily_fee := daily_fees (e_daily e);
       snap_daily_pnl := daily_pnl (e_daily e); snap_daily_budget_remaining := budget_remaining (e_daily e) |};
     rs_weekly := {| snap_weekly_loss := weekly_loss (e_weekly e) |};
     rs_hourly := {| snap_hourly_loss := hourly_loss (e_hourly e); snap_hourly_fee := hourly_fees (e_hourly e) |};
     rs_drawdown := guard_new (hwm (e_drawdown e)) (cfg_max_drawdown_pct (drawdown (e_config e)))
                      (drawdown_reduction_factor (drawdown (e_config e)));
     rs_total_potential_loss := total_potential_loss (e_potential_loss e);
     rs_blacklist := build_bloom_snapshot (e_blacklist e) now |}.

(** [risk/engine.rs:1480-1483] `RiskEngine::publish_risk_snapshot` *)
Definition publish_risk_snapshot (e : Engine) (now : Time) : Engine :=
  set_risk_snapshot e (compile_risk_snapshot e now).

(** [to_i32().unwrap_or(i32::MAX)]. *)
Definition i32_or_max (z : Z) : Z := unwrap_or (to_i32 z) i32_max.

(** [risk/engine.rs:1230-1297] `RiskEngine::snapshot` *)
Definition snapshot (e : Engine) (now : Time) (metrics : M) : RiskEngineState :=
  let cb := e_circuit_breaker e in
  let daily := e_daily e in
  let weekly := e_weekly e in
  let hourly := e_hourly e in
  {| st_breaker_state := to_name (cb_state cb);
     st_breaker_level := match cb_state cb with
                         | Open level _ _ _ | HalfOpen level _ _ _ | Halted level _ _ => Some level
                         | _ => None end;
     st_is_halted := state_is_halted (cb_state cb);
     st_halt_reason := match cb_state cb with Open _ reason _ _ | Halted _ reason _ => Some reason | _ => None end;
     st_cooldown_until := match cb_state cb with Open _ _ _ cooldown_until => Some cooldown_until | _ => None end;
     st_total_exposure := mt_total_exposure metrics;
     st_hourly_loss_usd := hourly_loss hourly;
     st_hourly_fee_usd := ps_fees (ha_stats hourly);
     st_hourly_trade_count := i32_or_max (ps_trade_count (ha_stats hourly));
     st_hourly_success_count := i32_or_max (ps_success_count (ha_stats hourly));
     st_hourly_miss_count := i32_or_max (ps_miss_count (ha_stats hourly));
     st_hourly_window_start := hourly_window_start hourly;
     st_daily_pnl := daily_pnl daily;
     st_daily_loss_usd := daily_loss daily;
     st_daily_fee_usd := ps_fees (da_stats daily);
     st_daily_budget_spent := budget_spent daily;
     st_daily_trade_count := i32_or_max (ps_trade_count (da_stats daily));
     st_daily_success_count := i32_or_max (ps_success_count (da_stats daily));
     st_daily_miss_count := i32_or_max (ps_miss_count (da_stats daily));
     st_daily_window_start := da_window_start daily;
     st_weekly_loss_usd := weekly_loss weekly;
     st_weekly_trade_count := i32_or_max (ps_trade_count (wa_stats weekly));
     st_weekly_window_start := week_start weekly;
     st_consecutive_misses := unwrap_or (to_i32 (mt_consecutive_market_misses metrics "_global_")) 0;
     st_cooldown_multiplier := i32_or_max (l2_trip_count cb);
     st_hwm_equity := hwm (e_drawdown e);
     st_total_realized_pnl := e_lifetime_realized e;
     st_last_emergency_at := fst <$> e_last_emergency e;
     st_last_emergency_reason := snd <$> e_last_emergency e;
     st_snapshot_at := now |}.

(** [publisher.publish(event)] when a publisher is configured. *)
Definition publish (e : Engine) (event : CoreEvent) : Engine :=
  match e_event_publisher e with None => e | Some l => set_event_publisher e (Some (l ++ [event])) end.

(** [risk/engine.rs:1485-1492] `RiskEngine::publish_breaker_state` *)
Definition publish_breaker_state (e : Engine) (now : Time) (metrics : M) : Engine :=
  publish e (CircuitBreakerChanged (snapshot e now metrics)).

(** [risk/engine.rs:1344-1350] `RiskEngine::halt_internal` *)
Definition halt_internal (e : Engine) (now : Time) (reason : string) : Engine :=
  publish_risk_snapshot (set_circuit_breaker e (halt (e_circuit_breaker e) now System reason)) now.

(** ** Calls to the stores *)

(** A call that returns to the caller as it is. *)
Definition call {A} (e : Engine) (f : W -> W * Outcome A) : Engine * Outcome A :=
  let (w, r) := f (e_persistence e) in (set_persistence e w, r).

(** [let _ = store.f(..).await]. *)
Definition call_ {A} (e : Engine) (f : W -> W * Outcome A) : Engine := (call e f).1.

(** [if let Err(e) = .. { self.halt_internal(format!("context{e}")); return Err(e); }]. *)
Definition or_halt {A B} (now : Time) (context : string) (er : Engine * Outcome A) (k : Engine -> A -> Engine * Outcome B)
    : Engine * Outcome B :=
  match er with
  | (e, Ok a) => k e a
  | (e, Err err) => (halt_internal e now (context +:+ err_str err), Err err)
  end.

(** [..await?]. *)
Definition and_then {A B} (er : Engine * Outcome A) (k : Engine -> A -> Engine * Outcome B) : Engine * Outcome B :=
  match er with
  | (e, Ok a) => k e a
  | (e, Err err) => (e, Err err)
  end.

(** [risk/engine.rs:1403-1418] `RiskEngine::persist_and_audit` *)
Definition persist_and_audit (e : Engine) (now : Time) (snap : RiskEngineState) (audit : NewRiskAuditEvent) : Engine * Outcome unit :=
  or_halt now "persist failed: " (call e (fun w => upsert_state w (upsert_of_state snap))) (fun e _ =>
  or_halt now "audit failed: " (call e (fun w => create_audit w audit)) (fun e _ => (e, Ok tt))).

(** [risk/engine.rs:1420-1426] `RiskEngine::persist_audit_event` *)
Definition persist_audit_event (e : Engine) (now : Time) (audit : NewRiskAuditEvent) : Engine * Outcome unit :=
  or_halt now "audit persist failed: " (call e (fun w => create_audit w audit)) (fun e _ => (e, Ok tt)).

(** [risk/engine.rs:1324-1342] `RiskEngine::record_emergency` *)
Definition record_emergency (e : Engine) (now : Time) (level : CircuitBreakerLevel) (reason : string) (metrics : M)
    : Engine * Outcome unit :=
  let e := set_last_emergency e (Some (now, reason)) in
  let emergency := {|
    em_trigger_level := level; em_reason := reason; em_risk_state := snapshot e now metrics;
    em_open_positions_count := i32_or_max (mt_open_position_count metrics);
    em_open_reservations_count := i32_or_max (mt_active_reservation_count metrics); em_triggered_at := now |} in
  call e (fun w => create_emergency w emergency).

(** ** Decisions *)

(** [risk/types.rs:278-286] `RiskDecision` *)
Record RiskDecision := {
  allowed : bool;
  rd_denial_reason : option string;
  recommended_size : option SizeResult;
  rd_drawdown_factor : D;
  rd_evaluated_at : Time;
  rd_state_version : StateVersion;
  rd_trace : RiskDecisionTrace
}.

(** [risk/engine.rs:1494-1532] `RiskEngine::enqueue_pre_trade_audit` *)
Definition enqueue_pre_trade_audit (e : Engine) (allowed : bool) (trace : RiskDecisionTrace) (opportunity : OpportunityId)
    (market : MarketId) (mode : ReportMode) : Engine :=
  match e_audit_sink e with
  | None => e
  | Some queue =>
      let audit :=
        match allowed, mode with
        | true, ShortCircuit => AvTradeAllowedSummary opportunity market (tr_state_version trace)
            (length (tr_check_results trace)) (tr_total_elapsed_us trace) (tr_evaluated_at trace)
        | true, FullReport => AvTradeAllowed trace opportunity market
        | false, _ => AvTradeDenied trace opportunity market
        end in
      set_audit_sink e (Some (queue ++ [audit]))
  end.

(** [risk/engine.rs:1544-1554] `available_bankroll` *)
Definition available_bankroll (equity reserve reserved_usd potential_loss config_bankroll : D) : D :=
  let dynamic := dmax (dsub (dsub (dsub equity reserve) reserved_usd) potential_loss) d0 in
  let capped := dmin config_bankroll dynamic in
  dmax capped d0.

(** [results.iter().find(|c| !c.passed).map(format!(..))]. *)
Definition first_denial (results : list RiskCheckResult) : option string :=
  (fun c => check_id_str (check_id c) +:+ ": " +:+ unwrap_or (detail c) "failed") <$>
    List.find (fun c => negb (cr_passed c)) results.

(** What the clock measured during a decision. *)
Record Timings := { tm_check : RiskCheckId -> Z; tm_phase1 : Z; tm_phase2 : Z; tm_total : Z }.

(** [risk/context.rs:128-131] `AdmissionGateInput` *)
Record AdmissionGateInput := { ag_settlement : SettlementGateInput; ag_integrity : TradeIntegritySnapshot }.

(** [risk/engine.rs:150-266] `RiskEngine::pre_trade_check_core` *)
Definition pre_trade_check_core (e : Engine) (now : Time) (tm : Timings) (opp : Opportunity) (probability : ProbabilityInput)
    (metrics : M) (factor_context : option FactorDecisionContext) (admission : AdmissionGateInput) (mode : ReportMode)
    : Engine * RiskDecision :=
  let version := e_state_version e in
  let config := e_config e in
  let phase1_ctx := {|
    ctx_opportunity := opp; ctx_probability := probability; ctx_snap := e_risk_snapshot e; ctx_metrics := metrics_zeroed;
    ctx_factor_context := factor_context; ctx_settlement_gate := ag_settlement admission;
    ctx_integrity := ag_integrity admission; ctx_now := now; ctx_sized_intent := None |} in
  let (gate_report, ctx) := two_phase (tm_check tm) (ep_pipeline (e_params e)) phase1_ctx
    (mt_snapshot_for metrics (opp_market_id opp)) mode (tm_phase1 tm) (tm_phase2 tm) in
  let '(ok, denial, size_, sizing_breakdown) :=
    if has_failed_hard_gate gate_report then (false, first_denial (pr_results gate_report), None, None)
    else
      let bankroll := available_bankroll (equity (ctx_metrics ctx)) (reserve_balance_usd config)
        (reserved_usd (ctx_metrics ctx)) (rs_total_potential_loss (ctx_snap ctx)) (bankroll_usd config) in
      let size_result := size (ep_sizer (e_params e)) ctx bankroll (drawdown_factor ctx) in
      if dltb d0 (bet_usd size_result) && dleb (min_trade_usd config) (bet_usd size_result)
      then (true, None, Some size_result, None)
      else (false,
            Some ("sizing returned " +:+ dshow (bet_usd size_result) +:+ " (binding: " +:+ binding_constraint size_result
                    +:+ ", min_trade: " +:+ dshow (min_trade_usd config) +:+ ")"),
            None, Some (breakdown size_result)) in
  let trace := {|
    tr_check_results := pr_results gate_report; tr_sizing_breakdown := sizing_breakdown; tr_state_version := version;
    tr_total_elapsed_us := tm_total tm; tr_evaluated_at := now |} in
  let decision := {|
    allowed := ok; rd_denial_reason := denial; recommended_size := size_; rd_drawdown_factor := drawdown_factor ctx;
    rd_evaluated_at := now; rd_state_version := version; rd_trace := trace |} in
  (enqueue_pre_trade_audit e ok trace (opportunity_id opp) (opp_market_id opp) mode, decision).

(** [risk/context.rs:33-42] `SizedPreTradeInput` *)
Record SizedPreTradeInput := {
  sp_opportunity : Opportunity;
  approved_size : D;
  approved_fee : D;
  sp_metrics : M;
  sp_factor_context : option FactorDecisionContext;
  sp_settlement_gate : SettlementGateInput;
  sp_integrity : TradeIntegritySnapshot;
  sp_mode : ReportMode
}.

(** The context of the sized re-check. *)
Definition sized_ctx (e : Engine) (now : Time) (input : SizedPreTradeInput) : PreTradeContext :=
  let opp := sp_opportunity input in
  {| ctx_opportunity := opp;
     ctx_probability := {|
       calibrated_win_prob := cal_fused_probability (calibration opp); fill_prob := d1;
       calibration_confidence := meta_confidence (meta opp); prob_sample_size := cal_sample_size (calibration opp);
       model_staleness_secs := 0; expected_slippage_pct := d0; expected_failure_cost_pct := d0 |};
     ctx_snap := e_risk_snapshot e; ctx_metrics := mt_snapshot_for (sp_metrics input) (opp_market_id opp);
     ctx_factor_context := sp_factor_context input; ctx_settlement_gate := sp_settlement_gate input;
     ctx_integrity := sp_integrity input; ctx_now := now;
     ctx_sized_intent := Some {| si_bet_usd := approved_size input; si_fee_usd := approved_fee input |} |}.

(** [risk/engine.rs:271-347] `RiskEngine::pre_trade_check_sized` *)
Definition pre_trade_check_sized (e : Engine) (now : Time) (tm : Timings) (input : SizedPreTradeInput) : Engine * RiskDecision :=
  let opp := sp_opportunity input in
  let ctx := sized_ctx e now input in
  let gate_report := evaluate_sized_gates (tm_check tm) (ep_pipeline (e_params e)) ctx (sp_mode input) (tm_phase1 tm) in
  let ok := negb (has_failed_hard_gate gate_report) in
  let denial := if ok then None else first_denial (pr_results gate_report) in
  let trace := {|
    tr_check_results := pr_results gate_report; tr_sizing_breakdown := None; tr_state_version := e_state_version e;
    tr_total_elapsed_us := tm_total tm; tr_evaluated_at := now |} in
  let decision := {|
    allowed := ok; rd_denial_reason := denial; recommended_size := None; rd_drawdown_factor := drawdown_factor ctx;
    rd_evaluated_at := now; rd_state_version := e_state_version e; rd_trace := trace |} in
  (enqueue_pre_trade_audit e ok trace (opportunity_id opp) (opp_market_id opp) (sp_mode input), decision).

(** [risk/engine.rs:351-361] `RiskEngine::available_bankroll_for_sizing` *)
Definition available_bankroll_for_sizing (e : Engine) (metrics : M) : D :=
  available_bankroll (mt_equity metrics) (reserve_balance_usd (e_config e)) (mt_reserved_usd metrics)
    (rs_total_potential_loss (e_risk_snapshot e)) (bankroll_usd (e_config e)).

(** [models/domain/api/system.rs:105-111] `ExposureBindingLimit` *)
Inductive ExposureBindingLimit := AbsoluteTotal | AbsoluteMarket | PercentOfCash | ReservationBackend | BankrollCap.

(** [risk/engine.rs:377-405] `RiskEngine::binding_exposure_limit` (the five headrooms) *)
Definition headrooms (e : Engine) (metrics : M) (intent_cost : D) (market : MarketId) : list (ExposureBindingLimit * D) :=
  let config := e_config e in
  let total_exposure := mt_total_exposure metrics in
  let cash := mt_cash_balance metrics in
  let pct_cap_usd := if dltb d0 cash then ddiv (dmul cash (max_total_exposure_pct config)) (dlit 100 0) else d0 in
  let reservation_cap := ddiv (dof_Z (max_total_exposure_cents (exposure_reservation_config config))) (dlit 100 0) in
  [ (AbsoluteTotal, dsub (dsub (max_total_exposure_usd config) total_exposure) intent_cost);
    (AbsoluteMarket, dsub (dsub (max_single_market_exposure_usd config) (mt_market_exposure metrics market)) intent_cost);
    (PercentOfCash, dsub (dsub pct_cap_usd total_exposure) intent_cost);
    (ReservationBackend, dsub reservation_cap (mt_reserved_usd metrics));
    (BankrollCap, dsub (available_bankroll_for_sizing e metrics) intent_cost) ].

(** [risk/engine.rs:371-412] `RiskEngine::binding_exposure_limit` *)
Definition binding_exposure_limit (e : Engine) (metrics : M) (intent_cost : D) (market : MarketId) : ExposureBindingLimit :=
  match min_by (fun l r : ExposureBindingLimit * D => dleb l.2 r.2) (headrooms e metrics intent_cost market) with
  | Some (limit, _) => limit
  | None => BankrollCap
  end.

(** ** Accounting of a trade *)

(** [risk/engine.rs:1536-1538] `escalate` *)
Definition escalate (current : option CircuitBreakerLevel) (new : CircuitBreakerLevel) : option CircuitBreakerLevel :=
  Some (match current with None => new | Some existing => if level_leb existing new then new else existing end).

(** [risk/engine.rs:573-586] `RiskEngine::fill_potential_loss_entry` *)
Definition fill_potential_loss_entry (trade : PostTradeInput) : option NewPotentialLoss :=
  if negb (pt_is_success trade) then None
  else Some {| npl_ledger_id := pt_trade_id trade; npl_market_id := pt_market_id trade; npl_token_id := pt_token_id trade;
               npl_shares := pt_shares trade; npl_entry_price := pt_entry_price trade;
               npl_max_loss_usd := dadd (pt_cost_usd trade) (pt_fee_usd trade) |}.

(** [risk/engine.rs:670-701] `RiskEngine::apply_fill` *)
Definition apply_fill (e : Engine) (now : Time) (trade : PostTradeInput) : Engine * (bool * bool * bool) :=
  let (daily, daily_rolled) := daily_record_trade (e_daily e) now d0 (pt_fee_usd trade) (pt_cost_usd trade) (pt_outcome trade) in
  let e := set_daily e daily in
  let (weekly, weekly_rolled) := weekly_record_trade (e_weekly e) now d0 (pt_fee_usd trade) (pt_outcome trade) in
  let e := set_weekly e weekly in
  let (hourly, hourly_rolled) := hourly_record_trade (e_hourly e) now d0 (pt_fee_usd trade) (pt_outcome trade) in
  let e := set_hourly e hourly in
  let e := if pt_is_success trade
    then set_potential_loss e (record_entry (e_potential_loss e) {|
           pl_ledger_id := pt_trade_id trade; pl_market_id := pt_market_id trade; pl_token_id := pt_token_id trade;
           pl_shares := pt_shares trade; pl_entry_price := pt_entry_price trade;
           pl_max_loss_usd := dadd (pt_cost_usd trade) (pt_fee_usd trade); pl_status := LActive; pl_created_at := now;
           pl_resolved_at := None |})
    else e in
  (e, (daily_rolled, weekly_rolled, hourly_rolled)).

(** [risk/engine.rs:704-726] `RiskEngine::apply_settlement` *)
Definition apply_settlement (e : Engine) (now : Time) (trade : PostTradeInput) : Engine * (bool * bool * bool) :=
  let net_profit := unwrap_or (pt_net_profit_usd trade) d0 in
  let e := set_lifetime_realized e (dadd (e_lifetime_realized e) net_profit) in
  let (daily, daily_rolled) := daily_record_trade (e_daily e) now net_profit d0 d0 (pt_outcome trade) in
  let e := set_daily e daily in
  let (weekly, weekly_rolled) := weekly_record_trade (e_weekly e) now net_profit d0 (pt_outcome trade) in
  let e := set_weekly e weekly in
  let (hourly, hourly_rolled) := hourly_record_trade (e_hourly e) now net_profit d0 (pt_outcome trade) in
  let e := set_hourly e hourly in
  let e := set_potential_loss e (ledger_resolve (e_potential_loss e) (pt_trade_id trade) now) in
  (e, (daily_rolled, weekly_rolled, hourly_rolled)).

(** The breaker under the write lock. *)
Definition cb_halt (e : Engine) (now : Time) (level : CircuitBreakerLevel) (reason : string) : Engine :=
  set_circuit_breaker e (halt (e_circuit_breaker e) now level reason).
Definition cb_trip (e : Engine) (now : Time) (level : CircuitBreakerLevel) (reason : string) : Engine :=
  set_circuit_breaker e (trip (e_circuit_breaker e) now level reason).

(** One cap of [check_loss_caps]: when [actual >= cap], act on the breaker and escalate. *)
Definition cap_action (act : Engine -> Time -> CircuitBreakerLevel -> string -> Engine) (now : Time)
    (level : CircuitBreakerLevel) (what : string) (actual cap : D) (st : Engine * option CircuitBreakerLevel)
    : Engine * option CircuitBreakerLevel :=
  if dleb cap actual
  then (act st.1 now level (what +:+ " cap breached: " +:+ dshow actual), escalate st.2 level)
  else st.

(** [risk/engine.rs:732-783] `RiskEngine::check_loss_caps` *)
Definition check_loss_caps (e : Engine) (now : Time) : Engine * option CircuitBreakerLevel :=
  let config := e_config e in
  let st := cap_action cb_halt now Daily "daily loss" (daily_loss (e_daily e)) (max_daily_loss_usd config) (e, None) in
  let st := cap_action cb_halt now System "weekly loss" (weekly_loss (e_weekly e)) (max_weekly_loss_usd config) st in
  let st := cap_action cb_halt now Daily "single loss" (ps_max_single_loss (da_stats (e_daily e))) (max_single_loss_usd config) st in
  let st := cap_action cb_halt now Daily "daily fee spend" (daily_fees (e_daily e)) (max_daily_fee_spend_usd config) st in
  cap_action cb_trip now Session "hourly loss" (hourly_loss (e_hourly e)) (max_hourly_loss_usd config) st.

(** [risk/engine.rs:786-855] `RiskEngine::apply_common_checks` *)
Definition apply_common_checks (e : Engine) (now : Time) (trade : PostTradeInput) (metrics : M)
    : Engine * option CircuitBreakerLevel :=
  let config := e_config e in
  let e := if is_probe_mode (e_circuit_breaker e)
           then set_circuit_breaker e (cb_on_trade_result (e_circuit_breaker e) now (pt_is_success trade)) else e in
  let e := set_drawdown e (update_equity (e_drawdown e) (mt_equity metrics)) in
  let miss_count := mt_consecutive_market_misses metrics (pt_market_id trade) in
  let st :=
    if max_consecutive_misses config <=? miss_count
    then (cb_trip e now Session ("consecutive misses: " +:+ pretty miss_count +:+ " >= " +:+ pretty (max_consecutive_misses config)),
          Some Session)
    else (e, None) in
  let daily_fee := daily_fees (e_daily e) in
  let st :=
    if dleb (max_daily_fee_spend_usd config) daily_fee
    then (cb_halt st.1 now Daily ("daily fee spend cap breached: " +:+ dshow daily_fee), Some Daily) else st in
  let hourly_fee := hourly_fees (e_hourly e) in
  let st :=
    if dleb (max_hourly_fee_spend_usd config) hourly_fee
    then (cb_trip st.1 now Session ("hourly fee spend cap breached: " +:+ dshow hourly_fee), escalate st.2 Session) else st in
  let req_count := mt_api_request_count metrics in
  if 0 <? req_count then
    let error_rate := ddiv (dof_Z (mt_api_error_count metrics)) (dof_Z req_count) in
    if dleb (api_error_rate_threshold config) error_rate
    then (cb_trip st.1 now Session ("API error rate " +:+ dshow_dp 2 error_rate +:+ " >= threshold "
                                      +:+ dshow (api_error_rate_threshold config)), escalate st.2 Session)
    else st
  else st.

(** [risk/engine.rs:602-667] `RiskEngine::apply_trade_result` *)
Definition apply_trade_result (e : Engine) (now : Time) (phase : TradeAccountingPhase) (trade : PostTradeInput) (metrics : M)
    : Engine * (PostTradeReport * NewRiskAuditEvent * option BlacklistInfo) :=
  let '(e, breaker_tripped, (daily_rolled, weekly_rolled, hourly_rolled)) :=
    match phase with
    | Fill => let (e, rolled) := apply_fill e now trade in (e, None, rolled)
    | Settlement =>
        let (e, rolled) := apply_settlement e now trade in
        let (e, tripped) := check_loss_caps e now in
        (e, tripped, rolled)
    end in
  let (e, auto_bl_entry) :=
    if pt_is_miss trade then
      let miss_count := mt_consecutive_market_misses metrics (pt_market_id trade) in
      let (bl, entry) := maybe_auto_blacklist (e_blacklist e) now (pt_market_id trade) miss_count in
      (set_blacklist e bl, entry)
    else (e, None) in
  let auto_bl := match auto_bl_entry with Some _ => Some (pt_market_id trade) | None => None end in
  let (e, common) := apply_common_checks e now trade metrics in
  let breaker_tripped := match common with Some bt => escalate breaker_tripped bt | None => breaker_tripped end in
  let e := bump e in
  let e := publish_risk_snapshot e now in
  let snap := snapshot e now metrics in
  let audit_event := new_audit (AvPostTradeUpdate (pt_trade_id trade) (pt_outcome trade) phase (st_daily_loss_usd snap)
    (st_weekly_loss_usd snap) (st_hourly_loss_usd snap) breaker_tripped auto_bl daily_rolled weekly_rolled hourly_rolled) in
  (e, ({| pt_snapshot := snap; daily_rolled := daily_rolled; weekly_rolled := weekly_rolled; hourly_rolled := hourly_rolled;
          breaker_tripped := breaker_tripped; auto_blacklisted := auto_bl |}, audit_event, auto_bl_entry)).

Definition upsert_of_entry (entry : BlacklistInfo) : UpsertBlacklistEntry := {|
  ub_market_id := bl_market_id entry; ub_token_id := bl_token_id entry; ub_scope := bl_scope entry;
  ub_reason := bl_reason entry; ub_expires_at := bl_expires_at entry; ub_miss_count := bl_miss_count entry |}.

(** [risk/engine.rs:492-549] `RiskEngine::persist_post_trade_followups` *)
Definition persist_post_trade_followups (e : Engine) (now : Time) (report : PostTradeReport) (auto_bl_entry : option BlacklistInfo)
    (previous_breaker_state : BreakerStateName) (metrics : M) : Engine * Outcome unit :=
  let e :=
    match breaker_tripped report with
    | Some tripped_level =>
        let reason := match cb_state (e_circuit_breaker e) with
                      | Open _ reason _ _ | Halted _ reason _ => reason
                      | _ => "loss cap breached" end in
        let e := call_ e (fun w => create_audit w (new_audit (AvBreakerTripped tripped_level reason previous_breaker_state))) in
        let e := (record_emergency e now tripped_level reason metrics).1 in
        publish e (CircuitBreakerChanged (snapshot e now metrics))
    | None => e
    end in
  let pnl (e : Engine) := (publish e (PnlUpdate (daily_pnl (e_daily e)) (e_lifetime_realized e)), Ok tt) in
  match auto_bl_entry with
  | Some entry =>
      or_halt now "auto-blacklist persist failed: " (call e (fun w => upsert_blacklist w (upsert_of_entry entry)))
        (fun e _ => pnl e)
  | None => pnl e
  end.

(** [risk/engine.rs:124-132] `MutableRiskState` *)
Record MutableRiskState := {
  mr_circuit_breaker : CircuitBreaker;
  mr_daily : DailyAccounting;
  mr_weekly : WeeklyAccounting;
  mr_hourly : HourlyAccounting;
  mr_potential_loss : PotentialLossLedger;
  mr_drawdown : DrawdownGuard;
  mr_state_version : StateVersion
}.

(** [risk/engine.rs:1301-1311] `RiskEngine::capture_mutable_state` *)
Definition capture_mutable_state (e : Engine) : MutableRiskState := {|
  mr_circuit_breaker := e_circuit_breaker e; mr_daily := e_daily e; mr_weekly := e_weekly e; mr_hourly := e_hourly e;
  mr_potential_loss := e_potential_loss e; mr_drawdown := e_drawdown e; mr_state_version := e_state_version e |}.

(** [risk/engine.rs:1313-1322] `RiskEngine::restore_mutable_state` *)
Definition restore_mutable_state (e : Engine) (now : Time) (s : MutableRiskState) : Engine :=
  let e := set_circuit_breaker e (mr_circuit_breaker s) in
  let e := set_daily e (mr_daily s) in
  let e := set_weekly e (mr_weekly s) in
  let e := set_hourly e (mr_hourly s) in
  let e := set_potential_loss e (mr_potential_loss s) in
  let e := set_drawdown e (mr_drawdown s) in
  let e := set_state_version e (mr_state_version s) in
  publish_risk_snapshot e now.

(** [risk/engine.rs:588-600] `RiskEngine::persist_settlement_potential_loss` *)
Definition persist_settlement_potential_loss (e : Engine) (now : Time) (trade : PostTradeInput) : Engine * Outcome unit :=
  if negb (pt_is_success trade) then (e, Ok tt)
  else or_halt now "potential loss resolve failed: " (call e (fun w => loss_resolve w (pt_trade_id trade))) (fun e _ => (e, Ok tt)).

(** [risk/engine.rs:427-490] `RiskEngine::on_trade_result`: returns the metrics too, which
    [record_trade_outcome] updates. *)
Definition on_trade_result (e : Engine) (now : Time) (phase : TradeAccountingPhase) (trade : PostTradeInput) (metrics : M)
    : (Engine * Outcome (option PostTradeReport)) * M :=
  match phase with
  | Fill =>
      match call e (fun w => begin_fill w (pt_trade_id trade) now) with
      | (e, Ok AlreadyApplied) => ((e, Ok None), metrics)
      | (e, Err err) => ((halt_internal e now ("risk fill marker claim failed: " +:+ err_str err), Err err), metrics)
      | (e, Ok Claimed) =>
          let previous_breaker_state := to_name (cb_state (e_circuit_breaker e)) in
          let fill_potential_loss := fill_potential_loss_entry trade in
          let pre_commit_state := capture_mutable_state e in
          let metrics := mt_record_trade_outcome metrics (pt_side trade) (pt_market_id trade) (pt_is_miss trade) in
          let '(e, (report, audit_event, auto_bl_entry)) := apply_trade_result e now phase trade metrics in
          let commit := {| fc_trade_id := pt_trade_id trade; fc_potential_loss := fill_potential_loss;
                           fc_state := upsert_of_state (pt_snapshot report); fc_audit := audit_event |} in
          match call e (fun w => commit_fill w commit) with
          | (e, Err err) =>
              let e := restore_mutable_state e now pre_commit_state in
              ((halt_internal e now ("risk fill commit failed: " +:+ err_str err), Err err), metrics)
          | (e, Ok _) =>
              (and_then (persist_post_trade_followups e now report auto_bl_entry previous_breaker_state metrics)
                 (fun e _ => (e, Ok (Some report))), metrics)
          end
      end
  | Settlement =>
      (and_then (persist_settlement_potential_loss e now trade) (fun e _ =>
         let previous_breaker_state := to_name (cb_state (e_circuit_breaker e)) in
         let '(e, (report, audit_event, auto_bl_entry)) := apply_trade_result e now phase trade metrics in
         and_then (persist_and_audit e now (pt_snapshot report) audit_event) (fun e _ =>
         and_then (persist_post_trade_followups e now report auto_bl_entry previous_breaker_state metrics) (fun e _ =>
           (e, Ok (Some report))))), metrics)
  end.

(** [models/domain/trading/settlement.rs:31-43] `MarketSettlementInput` (the fields the engine reads) *)
Record MarketSettlementInput := {
  set_trade_id : TradeId;
  set_market_id : MarketId;
  set_token_id : TokenId;
  set_side : Side;
  set_shares : D;
  set_entry_price : D;
  set_cost_usd : D;
  set_fee_usd : D;
  set_realized_pnl_usd : D
}.

(** [risk/engine.rs:551-571] `RiskEngine::on_market_settled` *)
Definition on_market_settled (e : Engine) (now : Time) (input : MarketSettlementInput) (metrics : M)
    : (Engine * Outcome (option PostTradeReport)) * M :=
  let trade := {|
    pt_trade_id := set_trade_id input; pt_market_id := set_market_id input; pt_token_id := set_token_id input;
    pt_side := set_side input; pt_outcome := Success; pt_cost_usd := set_cost_usd input; pt_fee_usd := set_fee_usd input;
    pt_net_profit_usd := Some (set_realized_pnl_usd input); pt_shares := set_shares input;
    pt_entry_price := set_entry_price input |} in
  on_trade_result e now Settlement trade metrics.

(** ** Periodic work and operations *)

(** [if rolled { let _ = create_audit(AccountingRollover { .. }) }]. *)
Definition audit_rollover (e : Engine) (rolled : bool) (window : WindowType) (old_start new_start : Date) (stats : PeriodStats) : Engine :=
  if rolled then call_ e (fun w => create_audit w (new_audit (AvAccountingRollover window old_start new_start stats))) else e.

(** [risk/engine.rs:908-954] `RiskEngine::tick` (after the stale-loss escalation) *)
Definition tick_audits (e : Engine) (now : Time) (metrics : M) (pre : Engine) (cb_transitioned daily_rolled weekly_rolled hourly_rolled : bool)
    : Engine :=
  let e := audit_rollover e daily_rolled WDaily (da_window_start (e_daily pre)) (da_window_start (e_daily e)) (da_stats (e_daily pre)) in
  let e := audit_rollover e weekly_rolled WWeekly (week_start (e_weekly pre)) (week_start (e_weekly e)) (wa_stats (e_weekly pre)) in
  let e := audit_rollover e hourly_rolled WHourly (date_naive (hourly_window_start (e_hourly pre)))
             (date_naive (hourly_window_start (e_hourly e))) (ha_stats (e_hourly pre)) in
  if cb_transitioned then
    let e := publish_breaker_state e now metrics in
    if bool_decide (to_name (cb_state (e_circuit_breaker pre)) = NRecovered) &&
       bool_decide (to_name (cb_state (e_circuit_breaker e)) = NClosed)
    then call_ e (fun w => create_audit w (new_audit (AvBreakerRecovered NRecovered)))
    else e
  else e.

(** [risk/engine.rs:861-954] `RiskEngine::tick` *)
Definition engine_tick (e : Engine) (now : Time) (metrics : M) : Engine * Outcome bool :=
  let pre := e in
  let (cb, cb_transitioned) := tick (e_circuit_breaker e) now in
  let e := set_circuit_breaker e cb in
  let (daily, daily_rolled) := daily_maybe_rollover (e_daily e) now in
  let e := set_daily e daily in
  let (weekly, weekly_rolled) := weekly_maybe_rollover (e_weekly e) now in
  let e := set_weekly e weekly in
  let (hourly, hourly_rolled) := hourly_maybe_rollover (e_hourly e) now in
  let e := set_hourly e hourly in
  let e := set_blacklist e (gc (e_blacklist e) now).1 in
  let secs := potential_loss_escalation_secs (e_config e) in
  and_then (call e (fun w => loss_find_stale w secs)) (fun e stale =>
    match stale with
    | _ :: _ =>
        let reason := pretty (Z.of_nat (length stale)) +:+ " stale potential-loss entries exceeded " +:+ pretty secs +:+ "s" in
        let e := cb_halt e now System reason in
        let e := publish_risk_snapshot e now in
        let e := publish_breaker_state e now metrics in
        and_then (record_emergency e now System reason metrics) (fun e _ => (e, Ok true))
    | [] =>
        let any_change := cb_transitioned || daily_rolled || weekly_rolled || hourly_rolled in
        let finish (e : Engine) := (tick_audits e now metrics pre cb_transitioned daily_rolled weekly_rolled hourly_rolled, Ok any_change) in
        if any_change then
          let e := publish_risk_snapshot e now in
          or_halt now "tick persist failed: " (call e (fun w => upsert_state w (upsert_of_state (snapshot e now metrics))))
            (fun e _ => finish e)
        else finish e
    end).

(** [risk/engine.rs:960-1015] `RiskEngine::on_reconciliation_result` *)
Definition on_reconciliation_result (e : Engine) (now : Time) (report : ReconciliationReport) (metrics : M) : Engine * Outcome unit :=
  let new_report := {|
    nr_status := rr_status report; nr_mismatches := rr_mismatches report; nr_internal_balance := rr_internal_balance report;
    nr_external_balance := rr_external_balance report; nr_internal_exposure := rr_internal_exposure report;
    nr_external_exposure := rr_external_exposure report; nr_reserved := rr_reserved report; nr_tolerance := rr_tolerance report;
    nr_checked_at := rr_checked_at report; nr_duration_ms := unwrap_or (to_i64 (rr_duration_ms report)) i64_max |} in
  or_halt now "reconciliation report persist failed: " (call e (fun w => create_reconciliation w new_report)) (fun e _ =>
  and_then (persist_audit_event e now (new_audit (AvReconciliationCompleted (rr_status report) (length (rr_mismatches report))))) (fun e _ =>
    if bool_decide (rr_status report = RCritical) then
      let reason := "reconciliation critical drift: " +:+ pretty (Z.of_nat (length (rr_mismatches report))) +:+ " mismatches" in
      let e := cb_halt e now System reason in
      let e := publish_risk_snapshot (bump e) now in
      or_halt now "reconciliation breaker persist failed: "
        (call e (fun w => upsert_state w (upsert_of_state (snapshot e now metrics)))) (fun e _ =>
        ((record_emergency e now System reason metrics).1, Ok tt))
    else (e, Ok tt))).

(** [risk/engine.rs:1020-1022] `RiskEngine::is_halted` *)
Definition is_halted (e : Engine) : bool := state_is_halted (cb_state (e_circuit_breaker e)).

(** [risk/engine.rs:1026-1030] `RiskEngine::allows_trading` *)
Definition engine_allows_trading (e : Engine) : bool :=
  let snap := rs_circuit_breaker (e_risk_snapshot e) in
  cb_allows_trading (snap_circuit_breaker snap) && manual_allows_trading (snap_manual_halt snap).

(** [risk/engine.rs:1041-1046] `RiskEngine::halt` *)
Definition engine_halt (e : Engine) (now : Time) (reason : string) : Engine :=
  let e := halt_internal e now reason in
  call_ e (fun w => create_audit w (new_audit (AvEngineHalted reason))).

(** [risk/engine.rs:1052-1071] `RiskEngine::acknowledge_and_resume` *)
Definition engine_acknowledge_and_resume (e : Engine) (now : Time) : Engine * Outcome unit :=
  let e := set_circuit_breaker e (acknowledge_and_resume (e_circuit_breaker e) now).1 in
  let e := publish_risk_snapshot (bump e) now in
  or_halt now "resume audit failed: " (call e (fun w => create_audit w (new_audit AvEngineResumed))) (fun e _ => (e, Ok tt)).

(** [risk/engine.rs:1074-1097] `RiskEngine::reset_circuit_breaker` *)
Definition reset_circuit_breaker (e : Engine) (now : Time) (reason : string) (metrics : M) : Engine * Outcome unit :=
  let e := set_circuit_breaker e (reset (e_circuit_breaker e) now) in
  let e := publish_risk_snapshot (bump e) now in
  let e := publish_breaker_state e now metrics in
  persist_and_audit e now (snapshot e now metrics) (new_audit (AvBreakerReset reason)).

(** [risk/engine.rs:1100-1133] `RiskEngine::add_blacklist` *)
Definition add_blacklist (e : Engine) (now : Time) (market : MarketId) (blacklist_reason : BlacklistReason) (operator_reason : string)
    (metrics : M) : Engine * Outcome unit :=
  let (bl, entry) := add_permanent (e_blacklist e) now market blacklist_reason in
  let e := set_blacklist e bl in
  or_halt now "blacklist persist failed: " (call e (fun w => upsert_blacklist w (upsert_of_entry entry))) (fun e _ =>
    let e := publish_risk_snapshot (bump e) now in
    let e := publish_breaker_state e now metrics in
    persist_and_audit e now (snapshot e now metrics) (new_audit (AvBlacklistAdded entry operator_reason))).

(** [risk/engine.rs:1136-1159] `RiskEngine::remove_blacklist` *)
Definition engine_remove_blacklist (e : Engine) (now : Time) (market : MarketId) (reason : string) (metrics : M) : Engine * Outcome unit :=
  let e := set_blacklist e (remove (e_blacklist e) market).1 in
  or_halt now "blacklist remove persist failed: " (call e (fun w => remove_blacklist w market)) (fun e _ =>
    let e := publish_risk_snapshot (bump e) now in
    persist_and_audit e now (snapshot e now metrics) (new_audit (AvBlacklistRemoved market reason))).

(** [risk/engine.rs:1162-1178] `RiskEngine::resolve_potential_loss` *)
Definition resolve_potential_loss (e : Engine) (now : Time) (ledger_id : LedgerId) (metrics : M) : Engine * Outcome unit :=
  let e := set_potential_loss e (ledger_resolve (e_potential_loss e) ledger_id now) in
  let e := publish_risk_snapshot (bump e) now in
  or_halt now "potential loss resolve persist failed: "
    (call e (fun w => upsert_state w (upsert_of_state (snapshot e now metrics)))) (fun e _ => (e, Ok tt)).

(** [risk/engine.rs:1210-1227] `RiskEngine::reload` *)
Definition reload (e : Engine) (now : Time) (config : RiskConfig) : Engine :=
  let params := params_from_config config in
  let e := set_circuit_breaker e (cb_set_config (e_circuit_breaker e) (circuit_breaker config)) in
  let e := set_drawdown e (set_params (e_drawdown e) (cfg_max_drawdown_pct (drawdown config)) (drawdown_reduction_factor (drawdown config))) in
  let e := set_daily e (set_budget (e_daily e) (daily_budget_usd config)) in
  let e := set_blacklist e (blacklist_reload (e_blacklist e) config now) in
  let e := set_engine_params e params in
  publish_risk_snapshot (bump e) now.

(** [risk/engine.rs:1353-1401] `RiskEngine::on_execution_event` *)
Definition on_execution_event (e : Engine) (now : Time) (event : ExecutionRiskEvent) : Engine :=
  let config := e_config e in
  match event with
  | EvHeartbeatFailure =>
      let (cb, tripped) := on_heartbeat_failure (e_circuit_breaker e) now (heartbeat_max_failures config) in
      let e := set_circuit_breaker e cb in
      if tripped then publish_risk_snapshot (bump e) now else e
  | EvHeartbeatSuccess => set_circuit_breaker e (on_heartbeat_success (e_circuit_breaker e))
  | EvFokFailure market_id _ consecutive =>
      if max_consecutive_misses config <=? consecutive then
        let reason := "consecutive FOK failures on " +:+ market_id +:+ ": " +:+ pretty consecutive +:+ " >= "
                        +:+ pretty (max_consecutive_misses config) in
        publish_risk_snapshot (bump (cb_trip e now Session reason)) now
      else e
  | EvTradeFailed _ _ => e
  | EvDepthDrop _ _ => e
  end.
End Engine.
