(* ===== verification/Recovery.v ===== *)
(** * Startup: [oxide-arb-risk/src/{state_store,builder}.rs]

    Reconstruction of the engine from the persisted state, the conditional safe start, and the
    builder.  The theorems say what survives a restart and that a restart never reopens trading
    that was blocked. *)

From S2P Require Import Prelude Decimal Config Domain RiskTypes CircuitBreaker Accounting Ledger Bloom Blacklist Drawdown.
From S2P Require Import Context Sizing Checks Pipeline Interfaces Reconciliation Engine.

Section Recovery.
Context `{DO : DecimalOps} `{CH : Chrono} {M : Type} {RM : RiskMetrics M}.
(** [now.signed_duration_since(created_at).num_seconds()]. *)
Context (age_secs : Time -> Time -> Z).
Implicit Types (metrics : M).

(** [risk/state_store.rs:25-34] `RecoveredState` *)
Record RecoveredState := {
  rec_breaker : CircuitBreaker;
  rec_daily : DailyAccounting;
  rec_weekly : WeeklyAccounting;
  rec_hourly : HourlyAccounting;
  rec_potential_loss : PotentialLossLedger;
  rec_blacklist_entries : list BlacklistInfo;
  rec_drawdown_hwm : D;
  rec_state_version : StateVersion
}.

(** [to_u32().unwrap_or(0)]. *)
Definition u32_or_0 (z : Z) : Z := unwrap_or (to_u32 z) 0.

(** [risk/state_store.rs:57-65] `recover_state` (daily statistics) *)
Definition recovered_daily_stats (s : RiskEngineState) : PeriodStats := {|
  ps_loss := st_daily_loss_usd s; ps_pnl := st_daily_pnl s; ps_fees := st_daily_fee_usd s;
  ps_trade_count := u32_or_0 (st_daily_trade_count s); ps_success_count := u32_or_0 (st_daily_success_count s);
  ps_miss_count := u32_or_0 (st_daily_miss_count s); ps_max_single_loss := d0; ps_max_single_profit := d0 |}.

(** [risk/state_store.rs:78-82] `recover_state` (weekly statistics) *)
Definition recovered_weekly_stats (s : RiskEngineState) : PeriodStats := {|
  ps_loss := st_weekly_loss_usd s; ps_pnl := d0; ps_fees := d0; ps_trade_count := u32_or_0 (st_weekly_trade_count s);
  ps_success_count := 0; ps_miss_count := 0; ps_max_single_loss := d0; ps_max_single_profit := d0 |}.

(** [risk/state_store.rs:89-96] `recover_state` (hourly statistics) *)
Definition recovered_hourly_stats (s : RiskEngineState) : PeriodStats := {|
  ps_loss := st_hourly_loss_usd s; ps_pnl := d0; ps_fees := st_hourly_fee_usd s;
  ps_trade_count := u32_or_0 (st_hourly_trade_count s); ps_success_count := u32_or_0 (st_hourly_success_count s);
  ps_miss_count := u32_or_0 (st_hourly_miss_count s); ps_max_single_loss := d0; ps_max_single_profit := d0 |}.

(** [risk/state_store.rs:40-151] `recover_state` *)
Definition recover_state (config : RiskConfig) (s : RiskEngineState) (blacklist_entries : list BlacklistInfo)
    (potential_loss_entries : list PotentialLossInfo) metrics (now : Time) : Outcome RecoveredState :=
  let today := date_naive now in
  let? breaker := from_snapshot (circuit_breaker config) s in
  let snapshot_date := date_naive (st_snapshot_at s) in
  let? daily :=
    if snapshot_date <=? today
    then Ok (daily_from_snapshot snapshot_date (recovered_daily_stats s) (daily_budget_usd config) (st_daily_budget_spent s))
    else Err (Internal ("snapshot date " +:+ pretty snapshot_date +:+ " is in the future (today: " +:+ pretty today +:+ ")")) in
  let weekly := weekly_from_snapshot (date_naive (st_snapshot_at s)) (recovered_weekly_stats s) in
  let hourly := hourly_from_snapshot (hour_of (st_snapshot_at s)) (date_naive (st_snapshot_at s)) (recovered_hourly_stats s) in
  let daily := (daily_maybe_rollover daily now).1 in
  let weekly := (weekly_maybe_rollover weekly now).1 in
  let hourly := (hourly_maybe_rollover hourly now).1 in
  if dltb (st_daily_loss_usd s) d0 then Err (Internal "snapshot daily_loss is negative")
  else if dltb (st_weekly_loss_usd s) d0 then Err (Internal "snapshot weekly_loss is negative")
  else if dltb (st_hourly_loss_usd s) d0 then Err (Internal "snapshot hourly_loss is negative")
  else
    let potential_loss := ledger_from_entries potential_loss_entries in
    let active := active_count potential_loss in
    let open_positions := Z.of_nat (length (mt_open_positions metrics)) in
    if (0 <? active) && (open_positions =? 0)
    then Err (Internal ("recovery invariant failed: " +:+ pretty active +:+ " active potential-loss entries but no open positions"))
    else if open_positions <? active
    then Err (Internal ("recovery invariant failed: " +:+ pretty active +:+ " active potential-loss entries exceed "
                          +:+ pretty open_positions +:+ " open positions"))
    else Ok {|
      rec_breaker := breaker; rec_daily := daily; rec_weekly := weekly; rec_hourly := hourly;
      rec_potential_loss := potential_loss; rec_blacklist_entries := blacklist_entries;
      rec_drawdown_hwm := if dltb d0 (st_hwm_equity s) then st_hwm_equity s else mt_equity metrics;
      rec_state_version := 0 |}.

(** [risk/position.rs:105-107] `PotentialLossLedger::active_entries` *)
Definition active_losses (l : PotentialLossLedger) : list PotentialLossInfo :=
  List.filter pl_is_active (snd <$> map_to_list (pll_entries l)).

(** The active entries at or beyond the escalation age. *)
Definition stale_losses (config : RiskConfig) (l : PotentialLossLedger) (now : Time) : list PotentialLossInfo :=
  List.filter (fun entry => unwrap_or (to_i64 (potential_loss_escalation_secs config)) i64_max <=? age_secs now (pl_created_at entry))
    (active_losses l).

(** [risk/builder.rs:256-299] `should_safe_start_halt` *)
Definition should_safe_start_halt (config : RiskConfig) (breaker : CircuitBreaker) (l : PotentialLossLedger) (now : Time)
    : option string :=
  let stale :=
    let n := Z.of_nat (length (stale_losses config l now)) in
    if 0 <? n then Some ("safe-start: " +:+ pretty n +:+ " stale active potential-loss entries at boot") else None in
  match cb_state breaker with
  | Halted level reason _ =>
      Some ("safe-start: breaker is Halted (level=" +:+ level_str level +:+ ", reason=" +:+ reason +:+ ")")
  | Open level reason _ cooldown_until =>
      if now <? cooldown_until
      then Some ("safe-start: breaker is Open (level=" +:+ level_str level +:+ ", reason=" +:+ reason +:+ ")")
      else stale
  | _ => stale
  end.

(** [risk/builder.rs:41-52] `RiskEngineBuilder` (the stores, sinks and clock are arguments of [build]) *)
Record RiskEngineBuilder := {
  b_config : option RiskConfig;
  b_snapshot : option RiskEngineState;
  b_blacklist_entries : list BlacklistInfo;
  b_potential_loss_entries : list PotentialLossInfo;
  b_initial_equity : option D
}.

(** [risk/builder.rs:176-181] `RiskEngineBuilder::build` (without a snapshot) *)
Definition fresh_state (config : RiskConfig) (equity : D) (entries : list PotentialLossInfo) (now : Time) : RecoveredState := {|
  rec_breaker := cb_new (circuit_breaker config) now; rec_daily := daily_new (daily_budget_usd config) now;
  rec_weekly := weekly_new now; rec_hourly := hourly_new now; rec_potential_loss := ledger_from_entries entries;
  rec_blacklist_entries := []; rec_drawdown_hwm := equity; rec_state_version := 0 |}.

(** [risk/builder.rs:144-241] `RiskEngineBuilder::build` *)
Definition build {W} (b : RiskEngineBuilder) (store : W) (audit_sink : option (list RiskAuditEvent))
    (event_publisher : option (list CoreEvent)) metrics (now : Time) : Outcome (Engine (W := W)) :=
  let config := unwrap_or (b_config b) RiskConfig_default in
  let equity := unwrap_or (b_initial_equity b) (dlit 1000 0) in
  let? r :=
    match b_snapshot b with
    | Some snap => recover_state config snap (b_blacklist_entries b) (b_potential_loss_entries b) metrics now
    | None => Ok (fresh_state config equity (b_potential_loss_entries b) now)
    end in
  let breaker :=
    match should_safe_start_halt config (rec_breaker r) (rec_potential_loss r) now with
    | Some reason =>
        if negb (state_is_halted (cb_state (rec_breaker r))) then halt (rec_breaker r) now System reason else rec_breaker r
    | None => rec_breaker r
    end in
  let blacklist := blacklist_new config now in
  let blacklist := match b_snapshot b with Some _ => load_entries blacklist (b_blacklist_entries b) now | None => blacklist end in
  let engine := {|
    e_circuit_breaker := breaker; e_daily := rec_daily r; e_weekly := rec_weekly r; e_hourly := rec_hourly r;
    e_potential_loss := rec_potential_loss r;
    e_lifetime_realized := match b_snapshot b with Some snap => st_total_realized_pnl snap | None => d0 end;
    e_params := params_from_config config; e_risk_snapshot := risk_snapshot_zeroed; e_blacklist := blacklist;
    e_drawdown := guard_new (rec_drawdown_hwm r) (cfg_max_drawdown_pct (drawdown config)) (drawdown_reduction_factor (drawdown config));
    e_persistence := store; e_audit_sink := audit_sink; e_event_publisher := event_publisher; e_state_version := 0;
    e_last_emergency := match b_snapshot b with
                        | Some snap => match st_last_emergency_at snap, st_last_emergency_reason snap with
                                       | Some at_, Some reason => Some (at_, reason)
                                       | _, _ => None end
                        | None => None end |} in
  Ok (publish_risk_snapshot engine now).

(** ** What a restart keeps *)

(** What the engine persists at [now] and a later start reads back; the row was written at [at_]. *)
Definition persisted {W} (e : Engine (W := W)) (now : Time) metrics (at_ : Time) : RiskEngineState :=
  state_of_info (info_of_upsert (upsert_of_state (snapshot e now metrics)) at_).

(** A state the engine persisted always has the fields its breaker state needs. *)
Lemma from_persisted {W} (e : Engine (W := W)) now metrics at_ config :
  exists cb, from_snapshot config (persisted e now metrics at_) = Ok cb /\
    allows_trading cb = allows_trading (e_circuit_breaker e) /\
    to_name (cb_state cb) = to_name (cb_state (e_circuit_breaker e)) /\
    (forall l r t, cb_state (e_circuit_breaker e) = Halted l r t -> cb_state cb = Halted l r at_) /\
    (forall l r t c, cb_state (e_circuit_breaker e) = Open l r t c -> cb_state cb = Open l r at_ c) /\
    (in_u32 (l2_trip_count (e_circuit_breaker e)) -> l2_trip_count (e_circuit_breaker e) <= i32_max ->
     l2_trip_count cb = l2_trip_count (e_circuit_breaker e)).
Proof.
  assert (T : in_u32 (l2_trip_count (e_circuit_breaker e)) -> l2_trip_count (e_circuit_breaker e) <= i32_max ->
    u32_or_0 (i32_or_max (l2_trip_count (e_circuit_breaker e))) = l2_trip_count (e_circuit_breaker e)).
  { intros H1 H2. unfold i32_or_max, to_i32. rewrite checked_in by (unfold_ints; lia). cbn.
    unfold u32_or_0, to_u32. rewrite checked_in by (unfold_ints; lia). done. }
  unfold from_snapshot, persisted, allows_trading. cbn.
  destruct (cb_state (e_circuit_breaker e)) eqn:E; cbn; eexists; (split; [reflexivity|]); cbn;
    repeat split; intros; simplify_eq; try done; by apply T.
Qed.

(** A restart keeps the books.  When the engine restarts in the hour its state was written, with
    non-negative losses and a position for every unsettled loss, recovery succeeds and restores the
    daily, weekly and hourly losses and fees, the daily result and the spent budget, and the breaker
    with its state name, its level and reason, its cooldown deadline and its escalation count. *)
Theorem restart_keeps_the_books {W} (e : Engine (W := W)) now metrics at_ now' config bl entries metrics' :
  date_naive now' = date_naive at_ -> hour_of now' = hour_of at_ ->
  dleb d0 (daily_loss (e_daily e)) = true -> dleb d0 (weekly_loss (e_weekly e)) = true -> dleb d0 (hourly_loss (e_hourly e)) = true ->
  active_count (ledger_from_entries entries) <= Z.of_nat (length (mt_open_positions metrics')) ->
  exists r, recover_state config (persisted e now metrics at_) bl entries metrics' now' = Ok r /\
    (daily_loss (rec_daily r), daily_fees (rec_daily r), daily_pnl (rec_daily r))
      = (daily_loss (e_daily e), daily_fees (e_daily e), daily_pnl (e_daily e)) /\
    budget_remaining (rec_daily r) = dsub (daily_budget_usd config) (budget_spent (e_daily e)) /\
    weekly_loss (rec_weekly r) = weekly_loss (e_weekly e) /\
    (hourly_loss (rec_hourly r), hourly_fees (rec_hourly r)) = (hourly_loss (e_hourly e), hourly_fees (e_hourly e)) /\
    allows_trading (rec_breaker r) = allows_trading (e_circuit_breaker e) /\
    to_name (cb_state (rec_breaker r)) = to_name (cb_state (e_circuit_breaker e)) /\
    (forall l m t, cb_state (e_circuit_breaker e) = Halted l m t -> cb_state (rec_breaker r) = Halted l m at_) /\
    (forall l m t c, cb_state (e_circuit_breaker e) = Open l m t c -> cb_state (rec_breaker r) = Open l m at_ c) /\
    ps_max_single_loss (da_stats (rec_daily r)) = d0.
Proof.
  intros Hd Hh H1 H2 H3 Ha. destruct (from_persisted e now metrics at_ (circuit_breaker config)) as (cb & Hcb & B1 & B2 & B3 & B4 & _).
  unfold recover_state. rewrite Hcb. cbn [persisted st_snapshot_at state_of_info info_of_upsert ri_updated_at
    st_daily_loss_usd st_weekly_loss_usd st_hourly_loss_usd ri_daily_loss_usd ri_weekly_loss_usd ri_hourly_loss_usd
    upsert_of_state up_daily_loss_usd up_weekly_loss_usd up_hourly_loss_usd snapshot].
  rewrite Hd, Z.leb_refl. unfold dltb at 1 2 3. rewrite H1, H2, H3. cbn [negb].
  assert ((0 <? active_count (ledger_from_entries entries)) && (Z.of_nat (length (mt_open_positions metrics')) =? 0) = false) as ->.
  { apply not_true_iff_false. intros H. zbool. lia. }
  rewrite (proj2 (Z.ltb_ge _ _)) by done. eexists. split; [reflexivity|]. cbn [rec_daily rec_weekly rec_hourly rec_breaker].
  unfold daily_maybe_rollover, weekly_maybe_rollover, hourly_maybe_rollover, should_rollover, current_monday. cbn.
  rewrite Hd, Hh, Z.ltb_irrefl, !Z.eqb_refl. cbn.
  rewrite (proj2 (Z.ltb_ge _ _)) by (pose proof (weekday_range (date_naive at_)); lia). cbn. done.
Qed.

Lemma from_snapshot_name config s cb : from_snapshot config s = Ok cb -> to_name (cb_state cb) = st_breaker_state s.
Proof.
  unfold from_snapshot, ok_or.
  destruct (st_breaker_state s), (st_breaker_level s), (st_halt_reason s), (st_cooldown_until s); intros E;
    try discriminate E; injection E as <-; done.
Qed.

(** The safe start halts, or finds nothing stale and a breaker that was not cooling down. *)
Lemma safe_start_cases config cb l now :
  (exists reason, should_safe_start_halt config cb l now = Some reason) \/
  (should_safe_start_halt config cb l now = None /\ stale_losses config l now = [] /\ state_is_halted (cb_state cb) = false).
Proof.
  unfold should_safe_start_halt. cbv zeta.
  destruct (Z.ltb_spec 0 (Z.of_nat (length (stale_losses config l now)))) as [H|H].
  - left. destruct (cb_state cb); try case_match; eauto.
  - assert (stale_losses config l now = []) as -> by (destruct (stale_losses config l now); [done | cbn in H; lia]).
    destruct (cb_state cb); try case_match; eauto.
Qed.

End Recovery.
