(* ===== verification/EngineSafety.v ===== *)
(** * Safety of the risk engine

    Theorems about [Engine] for every metrics source and every store: what an approved decision
    guarantees, that the published snapshot never lets a trade through a closed breaker, that
    every failed write leaves the engine halted, that fills are applied exactly once and rolled
    back when they cannot be committed, and that a breached cap stops trading. *)

From S2P Require Import Prelude Decimal Config Domain RiskTypes CircuitBreaker Accounting Ledger Bloom Blacklist Drawdown.
From S2P Require Import Context Sizing Checks Pipeline Interfaces Reconciliation Engine Recovery.

Section Frame.
Context `{DO : DecimalOps} `{CH : Chrono} {M W : Type} {RM : RiskMetrics M} {RP : RiskPersistence W}.
Implicit Types (e : Engine (W := W)) (metrics : M).

(** ** The published snapshot *)

(** The part of the engine the decision path depends on, and the books. *)
Definition core e := (e_circuit_breaker e, e_potential_loss e, e_risk_snapshot e).
Definition books e := (e_daily e, e_weekly e, e_hourly e, e_potential_loss e, e_params e).

(** The snapshot is at most as permissive as the breaker, and carries the ledger's total. *)
Definition published e : Prop :=
  (engine_allows_trading e = true -> allows_trading (e_circuit_breaker e) = true) /\
  rs_total_potential_loss (e_risk_snapshot e) = total_potential_loss (e_potential_loss e).

Definition coherent e : Prop := published e /\ e_params e = params_from_config (e_config e).

(** Halted, and the decision path knows. *)
Definition blocked e : Prop := is_halted e = true /\ engine_allows_trading e = false.

(** Writes leave the books alone and either the decision state too, or the engine is blocked. *)
Definition later e e' : Prop := books e = books e' /\ (core e = core e' \/ (blocked e' /\ published e')).

Definition err_blocked {A} (r : Engine (W := W) * Outcome A) : Prop := forall err, r.2 = Err err -> blocked r.1.

Lemma published_core e e' : core e = core e' -> published e -> published e'.
Proof. unfold core, published, engine_allows_trading. intros E. injection E as -> -> ->. done. Qed.

Lemma blocked_core e e' : core e = core e' -> blocked e -> blocked e'.
Proof. unfold core, blocked, is_halted, engine_allows_trading. intros E. injection E as -> _ ->. done. Qed.

Lemma published_after e now : published (publish_risk_snapshot e now).
Proof. split; [|done]. cbn. unfold engine_allows_trading. cbn. by intros [? _]%andb_true_iff. Qed.

Lemma blocked_after e now : is_halted e = true -> blocked (publish_risk_snapshot e now).
Proof.
  unfold blocked, is_halted, engine_allows_trading. cbn. intros H. split; [done|].
  unfold allows_trading. by destruct (cb_state (e_circuit_breaker e)).
Qed.

(** The published gate is the breaker's. *)
Lemma allows_after e now : engine_allows_trading (publish_risk_snapshot e now) = allows_trading (e_circuit_breaker e).
Proof. unfold engine_allows_trading, allows_trading. cbn. unfold allows_trading. by destruct (cb_state (e_circuit_breaker e)). Qed.

Lemma halt_is_halted cb now l r : state_is_halted (cb_state (halt cb now l r)) = true.
Proof. unfold halt. destruct cb as [? []]; cbn; try done. by destruct (negb _). Qed.

Lemma halt_internal_later e now r : later e (halt_internal e now r) /\ blocked (halt_internal e now r).
Proof.
  assert (B : blocked (halt_internal e now r)) by (apply blocked_after, halt_is_halted).
  split; [|done]. split; [done|]. right. split; [done | apply published_after].
Qed.

Lemma later_refl e : later e e.
Proof. split; [done | by left]. Qed.

Lemma later_trans e1 e2 e3 : later e1 e2 -> later e2 e3 -> later e1 e3.
Proof.
  intros [B1 C1] [B2 C2]. split; [congruence|].
  destruct C2 as [C2|]; [|by right]. destruct C1 as [C1|[B P]]; [left; congruence | right].
  split; [by eapply blocked_core | by eapply published_core].
Qed.

Lemma later_published e e' : later e e' -> published e -> published e'.
Proof. intros [_ [C|[_ P]]] H; [by eapply published_core | done]. Qed.

Lemma later_blocked e e' : later e e' -> blocked e -> blocked e'.
Proof. intros [_ [C|[B _]]] H; [by eapply blocked_core | done]. Qed.

Lemma later_coherent e e' : later e e' -> coherent e -> coherent e'.
Proof.
  intros L [P E]. split; [by eapply later_published|].
  destruct L as [B _]. unfold books in B. injection B as _ _ _ _ B. unfold e_config in *. congruence.
Qed.

Lemma call_later {A} e (f : W -> W * Outcome A) : later e (call e f).1.
Proof. unfold call. destruct (f _). split; [done | by left]. Qed.

Lemma call__later {A} e (f : W -> W * Outcome A) : later e (call_ e f).
Proof. apply call_later. Qed.

Lemma publish_later e ev : later e (publish e ev).
Proof. unfold publish. destruct (e_event_publisher e); split; try done; by left. Qed.

Lemma emergency_later e now l r metrics : later e (record_emergency e now l r metrics).1.
Proof. eapply later_trans; [|apply call_later]. split; [done | by left]. Qed.

Lemma or_halt_later {A B} e now ctx (er : Engine * Outcome A) (k : Engine -> A -> Engine * Outcome B) :
  later e er.1 -> (forall e1 a, later e e1 -> later e (k e1 a).1) -> later e (or_halt now ctx er k).1.
Proof.
  destruct er as [e1 [a|err]]; cbn; intros H K; [by apply K|].
  eapply later_trans; [exact H | apply halt_internal_later].
Qed.

Lemma and_then_later {A B} e (er : Engine * Outcome A) (k : Engine -> A -> Engine * Outcome B) :
  later e er.1 -> (forall e1 a, later e e1 -> later e (k e1 a).1) -> later e (and_then er k).1.
Proof. destruct er as [e1 [a|err]]; cbn; intros H K; [by apply K | done]. Qed.

Lemma or_halt_err {A B} now ctx (er : Engine * Outcome A) (k : Engine -> A -> Engine * Outcome B) :
  (forall e1 a, er = (e1, Ok a) -> err_blocked (k e1 a)) -> err_blocked (or_halt now ctx er k).
Proof.
  destruct er as [e1 [a|err]]; cbn; intros K; [by apply K|].
  intros ? _. apply halt_internal_later.
Qed.

Lemma and_then_err {A B} (er : Engine * Outcome A) (k : Engine -> A -> Engine * Outcome B) :
  err_blocked er -> (forall e1 a, er = (e1, Ok a) -> err_blocked (k e1 a)) -> err_blocked (and_then er k).
Proof. destruct er as [e1 [a|err]]; cbn; intros H K; [by apply K|]. intros ? _. by apply (H err). Qed.

Lemma ok_err_blocked {A} e (a : A) : err_blocked (e, Ok a).
Proof. by intros ?. Qed.

Lemma persist_and_audit_later e0 e now s a : later e0 e -> later e0 (persist_and_audit e now s a).1.
Proof.
  intros L. apply or_halt_later; [eapply later_trans; [exact L | apply call_later]|]. intros e1 _ L1.
  apply or_halt_later; [eapply later_trans; [exact L1 | apply call_later]|]. done.
Qed.

Lemma persist_and_audit_err e now s a : err_blocked (persist_and_audit e now s a).
Proof. apply or_halt_err. intros. apply or_halt_err. intros. apply ok_err_blocked. Qed.

Lemma persist_audit_event_later e0 e now a : later e0 e -> later e0 (persist_audit_event e now a).1.
Proof. intros L. apply or_halt_later; [eapply later_trans; [exact L | apply call_later]|]. done. Qed.

Lemma persist_audit_event_err e now a : err_blocked (persist_audit_event e now a).
Proof. apply or_halt_err. intros. apply ok_err_blocked. Qed.

Lemma followups_later e0 e now report bl prev metrics :
  later e0 e -> later e0 (persist_post_trade_followups e now report bl prev metrics).1.
Proof.
  intros L. unfold persist_post_trade_followups.
  assert (H : forall e1, later e0 e1 -> later e0 (match bl with
    | Some entry => or_halt now "auto-blacklist persist failed: " (call e1 (fun w => upsert_blacklist w (upsert_of_entry entry)))
        (fun e _ => (publish e (PnlUpdate (daily_pnl (e_daily e)) (e_lifetime_realized e)), Ok tt))
    | None => (publish e1 (PnlUpdate (daily_pnl (e_daily e1)) (e_lifetime_realized e1)), Ok tt) end).1).
  { intros e1 L1. destruct bl.
    - apply or_halt_later; [eapply later_trans; [exact L1 | apply call_later]|].
      intros. eapply later_trans; [eassumption | apply publish_later].
    - eapply later_trans; [exact L1 | apply publish_later]. }
  destruct (breaker_tripped report); apply H; [|done].
  eapply later_trans; [|apply publish_later]. eapply later_trans; [|apply emergency_later].
  eapply later_trans; [exact L | apply call__later].
Qed.

Lemma followups_err e now report bl prev metrics :
  err_blocked (persist_post_trade_followups e now report bl prev metrics).
Proof.
  unfold persist_post_trade_followups. destruct bl; [|apply ok_err_blocked].
  apply or_halt_err. intros. apply ok_err_blocked.
Qed.

Lemma resolve_loss_later e now trade : later e (persist_settlement_potential_loss e now trade).1.
Proof.
  unfold persist_settlement_potential_loss. destruct (negb _); [apply later_refl|].
  apply or_halt_later; [apply call_later | done].
Qed.

Lemma resolve_loss_err e now trade : err_blocked (persist_settlement_potential_loss e now trade).
Proof.
  unfold persist_settlement_potential_loss. destruct (negb _); [apply ok_err_blocked|].
  apply or_halt_err. intros. apply ok_err_blocked.
Qed.

(** ** Every operation *)

Inductive engine_op :=
| OpTradeResult (phase : TradeAccountingPhase) (trade : PostTradeInput) (metrics : M)
| OpSettled (input : MarketSettlementInput) (metrics : M)
| OpTick (metrics : M)
| OpReconciliation (report : ReconciliationReport) (metrics : M)
| OpHalt (reason : string)
| OpResume
| OpReset (reason : string) (metrics : M)
| OpAddBlacklist (market : MarketId) (reason : BlacklistReason) (operator_reason : string) (metrics : M)
| OpRemoveBlacklist (market : MarketId) (reason : string) (metrics : M)
| OpResolveLoss (id : LedgerId) (metrics : M)
| OpReload (config : RiskConfig)
| OpEvent (event : ExecutionRiskEvent)
| OpPreTrade (tm : Timings) (opp : Opportunity) (probability : ProbabilityInput) (metrics : M)
    (factors : option FactorDecisionContext) (admission : AdmissionGateInput) (mode : ReportMode)
| OpPreTradeSized (tm : Timings) (input : SizedPreTradeInput (M := M)).

Definition discard {A} (r : Engine (W := W) * Outcome A) : Engine (W := W) * Outcome unit :=
  (r.1, match r.2 with Ok _ => Ok tt | Err err => Err err end).

Definition engine_step e (now : Time) (o : engine_op) : Engine (W := W) * Outcome unit :=
  match o with
  | OpTradeResult phase trade metrics => discard (on_trade_result e now phase trade metrics).1
  | OpSettled input metrics => discard (on_market_settled e now input metrics).1
  | OpTick metrics => discard (engine_tick e now metrics)
  | OpReconciliation report metrics => on_reconciliation_result e now report metrics
  | OpHalt reason => (engine_halt e now reason, Ok tt)
  | OpResume => engine_acknowledge_and_resume e now
  | OpReset reason metrics => reset_circuit_breaker e now reason metrics
  | OpAddBlacklist market reason operator_reason metrics => add_blacklist e now market reason operator_reason metrics
  | OpRemoveBlacklist market reason metrics => engine_remove_blacklist e now market reason metrics
  | OpResolveLoss id metrics => resolve_potential_loss e now id metrics
  | OpReload config => (reload e now config, Ok tt)
  | OpEvent event => (on_execution_event e now event, Ok tt)
  | OpPreTrade tm opp probability metrics factors admission mode =>
      ((pre_trade_check_core e now tm opp probability metrics factors admission mode).1, Ok tt)
  | OpPreTradeSized tm input => ((pre_trade_check_sized e now tm input).1, Ok tt)
  end.

Fixpoint engine_run e (calls : list (Time * engine_op)) : Engine (W := W) :=
  match calls with
  | [] => e
  | (now, o) :: rest => engine_run (engine_step e now o).1 rest
  end.

Lemma coherent_after e now e0 : e_params e = e_params e0 -> e_params e0 = params_from_config (e_config e0) ->
  coherent (publish_risk_snapshot e now).
Proof. intros E H. split; [apply published_after|]. cbn. unfold e_config in *. cbn. congruence. Qed.

Lemma coherent_later_after e now e0 e' : e_params e = e_params e0 -> coherent e0 ->
  later (publish_risk_snapshot e now) e' -> coherent e'.
Proof. intros E [_ H] L. eapply later_coherent; [exact L|]. by eapply coherent_after. Qed.

(** What the accounting of a trade leaves alone. *)
Definition fixed e := (e_params e, e_persistence e).

Lemma cap_action_fixed act now l what a c st :
  (forall e now l r, fixed (act e now l r) = fixed e) -> fixed (cap_action act now l what a c st).1 = fixed st.1.
Proof. intros H. unfold cap_action. destruct (dleb c a); cbn; [apply H | done]. Qed.

Lemma check_loss_caps_fixed e now : fixed (check_loss_caps e now).1 = fixed e.
Proof. unfold check_loss_caps. rewrite !cap_action_fixed by done. done. Qed.

Lemma common_fixed e now trade metrics : fixed (apply_common_checks e now trade metrics).1 = fixed e.
Proof. unfold apply_common_checks. cbv zeta. repeat (case_match; cbn); done. Qed.

Lemma apply_fill_fixed e now trade : fixed (apply_fill e now trade).1 = fixed e.
Proof.
  unfold apply_fill. destruct (daily_record_trade _ _ _ _ _ _). destruct (weekly_record_trade _ _ _ _ _).
  destruct (hourly_record_trade _ _ _ _ _). by destruct (pt_is_success trade).
Qed.

Lemma apply_settlement_fixed e now trade : fixed (apply_settlement e now trade).1 = fixed e.
Proof.
  unfold apply_settlement. destruct (daily_record_trade _ _ _ _ _ _). destruct (weekly_record_trade _ _ _ _ _).
  by destruct (hourly_record_trade _ _ _ _ _).
Qed.

(** The accounting of a trade ends with a publication. *)
Lemma apply_trade_result_shape e now phase trade metrics :
  exists e1, (apply_trade_result e now phase trade metrics).1 = publish_risk_snapshot e1 now /\ fixed e1 = fixed e.
Proof.
  unfold apply_trade_result.
  destruct (match phase with Fill => _ | Settlement => _ end) as [[e1 t1] [[r1 r2] r3]] eqn:E1.
  assert (H1 : fixed e1 = fixed e).
  { destruct phase.
    - pose proof (apply_fill_fixed e now trade) as P. destruct (apply_fill e now trade). injection E1 as <- _ _. exact P.
    - pose proof (apply_settlement_fixed e now trade) as P. destruct (apply_settlement e now trade) as [e' ?].
      pose proof (check_loss_caps_fixed e' now) as P'. destruct (check_loss_caps e' now). injection E1 as <- _ _. cbn [fst] in *. congruence. }
  destruct (if pt_is_miss trade then _ else (e1, None)) as [e2 bl] eqn:E2.
  assert (H2 : fixed e2 = fixed e1) by (repeat (case_match; simplify_eq/=); done).
  destruct (apply_common_checks e2 now trade metrics) as [e3 c] eqn:E3.
  assert (H3 : fixed e3 = fixed e2) by (pose proof (common_fixed e2 now trade metrics) as P; rewrite E3 in P; exact P).
  exists (bump e3). split; [done|]. change (fixed (bump e3)) with (fixed e3). congruence.
Qed.

Lemma fixed_inv e1 e2 : fixed e1 = fixed e2 -> e_params e1 = e_params e2 /\ e_persistence e1 = e_persistence e2.
Proof. unfold fixed. intros E. by injection E. Qed.

Lemma on_trade_result_coherent e now phase trade metrics :
  coherent e -> coherent (on_trade_result e now phase trade metrics).1.1.
Proof.
  intros C. unfold on_trade_result. destruct phase.
  - pose proof (call_later e (fun w => begin_fill w (pt_trade_id trade) now)) as L.
    destruct (call e _) as [e1 [[]|err]] eqn:E1; cbn in L.
    + set (m' := mt_record_trade_outcome _ _ _ _).
      destruct (apply_trade_result_shape e1 now Fill trade m') as (e2 & S2 & [P2 _]%fixed_inv).
      destruct (apply_trade_result e1 now Fill trade m') as [e2' [[report audit] bl]]. cbn in S2. subst e2'.
      assert (C2 : coherent (publish_risk_snapshot e2 now)).
      { eapply coherent_after; [exact P2|]. apply (later_coherent _ _ L) in C. apply C. }
      pose proof (call_later (publish_risk_snapshot e2 now) (fun w => commit_fill w {|
        fc_trade_id := pt_trade_id trade; fc_potential_loss := fill_potential_loss_entry trade;
        fc_state := upsert_of_state (pt_snapshot report); fc_audit := audit |})) as L2.
      destruct (call (publish_risk_snapshot e2 now) _) as [e3 [u|err]]; cbn in L2 |- *.
      * eapply later_coherent; [|exact C2]. apply and_then_later; [by apply followups_later | done].
      * eapply later_coherent; [apply halt_internal_later|]. pose proof (later_coherent _ _ L2 C2) as [_ C3].
        eapply coherent_after; [|exact C3]. done.
    + by eapply later_coherent.
    + eapply later_coherent; [|exact C]. eapply later_trans; [exact L | apply halt_internal_later].
  - cbn. pose proof (resolve_loss_later e now trade) as L.
    destruct (persist_settlement_potential_loss e now trade) as [e1 [u|err]]; cbn in L |- *; [|by eapply later_coherent].
    destruct (apply_trade_result_shape e1 now Settlement trade metrics) as (e2 & S2 & [P2 _]%fixed_inv).
    destruct (apply_trade_result e1 now Settlement trade metrics) as [e2' [[report audit] bl]]. cbn in S2. subst e2'.
    eapply later_coherent; [|eapply coherent_after; [exact P2 | apply (later_coherent _ _ L) in C; apply C]].
    apply and_then_later; [apply persist_and_audit_later, later_refl|]. intros. apply and_then_later; [by apply followups_later | done].
Qed.

(** Replacing the breaker by one that still allows what the snapshot allows. *)
Lemma coherent_set_cb e cb :
  (allows_trading (e_circuit_breaker e) = true -> allows_trading cb = true) -> coherent e -> coherent (set_circuit_breaker e cb).
Proof. intros H [[P1 P2] Hp]. split; [split|]; cbn; auto. Qed.

Lemma tick_allowed cb now : allows_trading cb = true -> (tick cb now).1 = cb.
Proof. unfold allows_trading, tick. by destruct (cb_state cb). Qed.

Lemma audit_rollover_later e0 e b w o n st : later e0 e -> later e0 (audit_rollover e b w o n st).
Proof. intros L. unfold audit_rollover. destruct b; [|done]. eapply later_trans; [exact L | apply call__later]. Qed.

Lemma tick_audits_later e0 e now metrics pre a b c d : later e0 e -> later e0 (tick_audits e now metrics pre a b c d).
Proof.
  intros L. unfold tick_audits. cbv zeta.
  match goal with |- later _ (if _ then _ else ?x) =>
    assert (L1 : later e0 x) by (by repeat apply audit_rollover_later); generalize dependent x end.
  intros x L1. destruct a; [|done].
  case_match; (eapply later_trans; [exact L1|]); [eapply later_trans; [apply publish_later | apply call__later] | apply publish_later].
Qed.

(** The engine after the synchronous part of a tick. *)
Definition ticked e now : Engine (W := W) :=
  let e := set_circuit_breaker e (tick (e_circuit_breaker e) now).1 in
  let e := set_daily e (daily_maybe_rollover (e_daily e) now).1 in
  let e := set_weekly e (weekly_maybe_rollover (e_weekly e) now).1 in
  let e := set_hourly e (hourly_maybe_rollover (e_hourly e) now).1 in
  set_blacklist e (gc (e_blacklist e) now).1.

(** Whether a tick changed anything. *)
Definition tick_changed e now : bool :=
  (tick (e_circuit_breaker e) now).2 || (daily_maybe_rollover (e_daily e) now).2 ||
  (weekly_maybe_rollover (e_weekly e) now).2 || (hourly_maybe_rollover (e_hourly e) now).2.

Lemma engine_tick_unfold e now metrics :
  engine_tick e now metrics =
  and_then (call (ticked e now) (fun w => loss_find_stale w (potential_loss_escalation_secs (e_config e)))) (fun e1 stale =>
    match stale with
    | _ :: _ =>
        let reason := pretty (Z.of_nat (length stale)) +:+ " stale potential-loss entries exceeded "
                        +:+ pretty (potential_loss_escalation_secs (e_config e)) +:+ "s" in
        let e2 := publish_breaker_state (publish_risk_snapshot (cb_halt e1 now System reason) now) now metrics in
        and_then (record_emergency e2 now System reason metrics) (fun e _ => (e, Ok true))
    | [] =>
        let finish e2 := (tick_audits e2 now metrics e (tick (e_circuit_breaker e) now).2 (daily_maybe_rollover (e_daily e) now).2
          (weekly_maybe_rollover (e_weekly e) now).2 (hourly_maybe_rollover (e_hourly e) now).2, Ok (tick_changed e now)) in
        if tick_changed e now then
          or_halt now "tick persist failed: " (call (publish_risk_snapshot e1 now) (fun w => upsert_state w
              (upsert_of_state (snapshot (publish_risk_snapshot e1 now) now metrics)))) (fun e2 _ => finish e2)
        else finish e1
    end).
Proof.
  unfold engine_tick, ticked, tick_changed. cbn.
  destruct (tick (e_circuit_breaker e) now) as [cb t]. cbn.
  destruct (daily_maybe_rollover (e_daily e) now). cbn.
  destruct (weekly_maybe_rollover (e_weekly e) now). cbn.
  destruct (hourly_maybe_rollover (e_hourly e) now). reflexivity.
Qed.

Lemma ticked_coherent e now : coherent e -> coherent (ticked e now).
Proof.
  intros [[P1 P2] Hp]. split; [split|]; [|done|done].
  intros A. specialize (P1 A). cbn. by rewrite tick_allowed.
Qed.

Lemma engine_tick_coherent e now metrics : coherent e -> coherent (engine_tick e now metrics).1.
Proof.
  intros C. apply (ticked_coherent e now) in C. rewrite engine_tick_unfold.
  pose proof (call_later (ticked e now) (fun w => loss_find_stale w (potential_loss_escalation_secs (e_config e)))) as L.
  destruct (call (ticked e now) _) as [e1 [[|x l]|err]]; cbn [fst and_then] in L |- *;
    pose proof (later_coherent _ _ L C) as C1; [| |done].
  - cbv zeta. case_match; [|by eapply later_coherent; [apply tick_audits_later, later_refl|]].
    eapply coherent_later_after; [reflexivity | exact C1 |].
    apply or_halt_later; [apply call_later|]. intros. by apply tick_audits_later.
  - cbv zeta. match goal with |- context [publish_risk_snapshot ?x now] => set (e2 := x) end.
    apply (coherent_later_after e2 now e1); [reflexivity | exact C1 |].
    apply and_then_later; [|done]. eapply later_trans; [apply publish_later | apply emergency_later].
Qed.

Lemma audit_sink_coherent e x : coherent e -> coherent (set_audit_sink e x).
Proof. done. Qed.

Lemma enqueue_coherent e ok trace o m mode : coherent e -> coherent (enqueue_pre_trade_audit e ok trace o m mode).
Proof. intros C. unfold enqueue_pre_trade_audit. destruct (e_audit_sink e); [by apply audit_sink_coherent | done]. Qed.

Lemma event_coherent e now event : coherent e -> coherent (on_execution_event e now event).
Proof.
  intros C. pose proof C as [_ Hp]. destruct event; cbn; try done.
  - case_match; [|done]. by eapply coherent_after.
  - unfold on_heartbeat_failure. destruct (_ <=? _); [by eapply coherent_after | by apply coherent_set_cb].
Qed.

(** Coherence through the writes. *)
Lemma call_coherent {A} e (f : W -> W * Outcome A) : coherent e -> coherent (call e f).1.
Proof. apply later_coherent, call_later. Qed.

Lemma or_halt_coherent {A B} now ctx (er : Engine * Outcome A) (k : Engine -> A -> Engine * Outcome B) :
  coherent er.1 -> (forall e1 a, coherent e1 -> coherent (k e1 a).1) -> coherent (or_halt now ctx er k).1.
Proof.
  destruct er as [e1 [a|err]]; cbn; intros H K; [by apply K|]. eapply later_coherent; [apply halt_internal_later | done].
Qed.

Lemma and_then_coherent {A B} (er : Engine * Outcome A) (k : Engine -> A -> Engine * Outcome B) :
  coherent er.1 -> (forall e1 a, coherent e1 -> coherent (k e1 a).1) -> coherent (and_then er k).1.
Proof. destruct er as [e1 [a|err]]; cbn; intros H K; [by apply K | done]. Qed.

Lemma publish_coherent e ev : coherent e -> coherent (publish e ev).
Proof. apply later_coherent, publish_later. Qed.

Lemma emergency_coherent e now l r metrics : coherent e -> coherent (record_emergency e now l r metrics).1.
Proof. apply later_coherent, emergency_later. Qed.

Lemma persist_and_audit_coherent e now s a : coherent e -> coherent (persist_and_audit e now s a).1.
Proof. apply later_coherent, persist_and_audit_later, later_refl. Qed.

Lemma persist_audit_event_coherent e now a : coherent e -> coherent (persist_audit_event e now a).1.
Proof. apply later_coherent, persist_audit_event_later, later_refl. Qed.

Lemma republish_coherent e now : e_params e = params_from_config (e_config e) -> coherent (publish_risk_snapshot e now).
Proof. by apply coherent_after. Qed.

Lemma set_blacklist_coherent e bl : coherent e -> coherent (set_blacklist e bl).
Proof. done. Qed.

Hint Resolve call_coherent or_halt_coherent and_then_coherent publish_coherent emergency_coherent persist_and_audit_coherent
  persist_audit_event_coherent republish_coherent set_blacklist_coherent on_trade_result_coherent engine_tick_coherent
  enqueue_coherent event_coherent : oxide.

Lemma coherent_params e : coherent e -> e_params e = params_from_config (e_config e).
Proof. by intros []. Qed.

Lemma reconciliation_coherent e now report metrics : coherent e -> coherent (on_reconciliation_result e now report metrics).1.
Proof.
  intros C. apply or_halt_coherent; [by apply call_coherent|]. intros e1 _ C1.
  apply and_then_coherent; [by apply persist_audit_event_coherent|]. intros e2 _ C2. case_match; [|done].
  apply or_halt_coherent; [|intros; by apply emergency_coherent].
  apply call_coherent, republish_coherent, (coherent_params _ C2).
Qed.

Lemma blacklist_coherent e now market r o metrics :
  coherent e -> coherent (add_blacklist e now market r o metrics).1 /\ coherent (engine_remove_blacklist e now market o metrics).1.
Proof.
  intros C. split; (apply or_halt_coherent; [by apply call_coherent|]); intros e1 _ C1;
    apply persist_and_audit_coherent; [apply publish_coherent|]; apply republish_coherent, (coherent_params _ C1).
Qed.

Lemma core_check_coherent e now tm opp prob metrics fc adm mode :
  coherent e -> coherent (pre_trade_check_core e now tm opp prob metrics fc adm mode).1.
Proof.
  intros C. unfold pre_trade_check_core. destruct (two_phase _ _ _ _ _ _ _) as [gr ctx].
  destruct (if has_failed_hard_gate gr then _ else _) as [[[ok d] sz] br]. by apply enqueue_coherent.
Qed.

Lemma fst_pair {A B} (a : A) (b : B) : (a, b).1 = a.
Proof. done. Qed.

Lemma step_pre_trade e now tm opp prob metrics fc adm mode :
  engine_step e now (OpPreTrade tm opp prob metrics fc adm mode)
    = ((pre_trade_check_core e now tm opp prob metrics fc adm mode).1, Ok tt).
Proof. reflexivity. Qed.

Lemma engine_step_coherent e now o : coherent e -> coherent (engine_step e now o).1.
Proof.
  intros C. pose proof (coherent_params e C) as Hp. destruct o.
  13: { rewrite step_pre_trade, fst_pair. by apply core_check_coherent. }
  all: cbn [engine_step fst discard]; auto with oxide.
  - by apply on_trade_result_coherent.
  - by apply reconciliation_coherent.
  - eapply later_coherent; [|exact C]. eapply later_trans; [apply halt_internal_later | apply call__later].
  - apply or_halt_coherent; [apply call_coherent, republish_coherent, Hp | done].
  - apply persist_and_audit_coherent, publish_coherent, republish_coherent, Hp.
  - by apply (blacklist_coherent e now market reason operator_reason metrics).
  - by apply (blacklist_coherent e now market Manual reason metrics).
  - apply or_halt_coherent; [apply call_coherent, republish_coherent, Hp | done].
  - apply republish_coherent. done.
  - by apply enqueue_coherent.
Qed.

Lemma engine_run_coherent e calls : coherent e -> coherent (engine_run e calls).
Proof. revert e. induction calls as [|[now o] rest IH]; cbn; intros e C; [done|]. by apply IH, engine_step_coherent. Qed.

(** ** Decisions *)

(** The context of a decision with the metrics [ms]. *)
Definition decision_ctx e (now : Time) (opp : Opportunity) (prob : ProbabilityInput) (fc : option FactorDecisionContext)
    (adm : AdmissionGateInput) (ms : RiskMetricsSnapshot) : PreTradeContext := {|
  ctx_opportunity := opp; ctx_probability := prob; ctx_snap := e_risk_snapshot e; ctx_metrics := ms;
  ctx_factor_context := fc; ctx_settlement_gate := ag_settlement adm; ctx_integrity := ag_integrity adm;
  ctx_now := now; ctx_sized_intent := None |}.

Section Decision.
Context e (now : Time) (tm : Timings) (opp : Opportunity) (prob : ProbabilityInput) metrics
  (fc : option FactorDecisionContext) (adm : AdmissionGateInput) (mode : ReportMode).

Let d := (pre_trade_check_core e now tm opp prob metrics fc adm mode).2.
Let live := decision_ctx e now opp prob fc adm (mt_snapshot_for metrics (opp_market_id opp)).
Let run := two_phase (tm_check tm) (ep_pipeline (e_params e)) (decision_ctx e now opp prob fc adm metrics_zeroed)
  (mt_snapshot_for metrics (opp_market_id opp)) mode (tm_phase1 tm) (tm_phase2 tm).

Definition bankroll_of (config : RiskConfig) (ctx : PreTradeContext) : D :=
  available_bankroll (equity (ctx_metrics ctx)) (reserve_balance_usd config) (reserved_usd (ctx_metrics ctx))
    (rs_total_potential_loss (ctx_snap ctx)) (bankroll_usd config).

Lemma core_decision :
  if has_failed_hard_gate run.1 then allowed d = false /\ rd_denial_reason d = first_denial (pr_results run.1) /\ recommended_size d = None
  else
    let s := size (ep_sizer (e_params e)) run.2 (bankroll_of (e_config e) run.2) (drawdown_factor run.2) in
    if dltb d0 (bet_usd s) && dleb (min_trade_usd (e_config e)) (bet_usd s)
    then allowed d = true /\ rd_denial_reason d = None /\ recommended_size d = Some s
    else allowed d = false /\ is_Some (rd_denial_reason d) /\ recommended_size d = None.
Proof.
  unfold d, pre_trade_check_core. cbv zeta. fold (decision_ctx e now opp prob fc adm metrics_zeroed).
  fold run. destruct run as [gr ctx]. cbn [fst snd].
  destruct (has_failed_hard_gate gr); [done|]. cbv zeta. fold (bankroll_of (e_config e) ctx).
  destruct (dltb d0 _ && dleb _ _); [done|]. cbn. eauto.
Qed.

Lemma core_trace : tr_check_results (rd_trace d) = pr_results run.1.
Proof.
  unfold d, pre_trade_check_core. cbv zeta. fold (decision_ctx e now opp prob fc adm metrics_zeroed).
  fold run. destruct run as [gr ctx]. cbn [fst snd].
  destruct (if has_failed_hard_gate gr then _ else _) as [[[a b] c] x]. done.
Qed.
End Decision.

(** What an approval of the sized re-check implies. *)
Lemma sized_approval_safe e now tm input :
  coherent e -> allowed (pre_trade_check_sized e now tm input).2 = true ->
  sized_limits (e_config e) (sized_ctx e now input).
Proof.
  intros [_ Hp] A. assert (sp_config (ep_pipeline (e_params e)) = e_config e) as <- by by rewrite Hp.
  apply (sized_run_enforces (tm_check tm) _ _ (sp_mode input) (tm_phase1 tm)).
  unfold pre_trade_check_sized in A. cbn [allowed snd] in A. by apply negb_true_iff in A.
Qed.

(** Both checks change the audit queue of the engine and nothing else. *)
Lemma enqueue_frame e ok trace o m mode : exists q, enqueue_pre_trade_audit e ok trace o m mode = set_audit_sink e q.
Proof. unfold enqueue_pre_trade_audit. destruct (e_audit_sink e) eqn:E; [by eexists|]. exists None. destruct e; simpl in *; by subst. Qed.

Lemma core_frame e now tm opp prob metrics fc adm mode :
  exists q, (pre_trade_check_core e now tm opp prob metrics fc adm mode).1 = set_audit_sink e q.
Proof.
  unfold pre_trade_check_core. destruct (two_phase _ _ _ _ _ _ _) as [gr ctx].
  destruct (if has_failed_hard_gate gr then _ else _) as [[[ok d] sz] br]. apply enqueue_frame.
Qed.

Lemma sized_frame e now tm input : exists q, (pre_trade_check_sized e now tm input).1 = set_audit_sink e q.
Proof. unfold pre_trade_check_sized. apply enqueue_frame. Qed.

(** What an approval of a coherent engine implies. *)
Lemma approval_safe e now tm opp prob metrics fc adm mode :
  coherent e ->
  let d := (pre_trade_check_core e now tm opp prob metrics fc adm mode).2 in
  let live := decision_ctx e now opp prob fc adm (mt_snapshot_for metrics (opp_market_id opp)) in
  allowed d = true ->
  allows_trading (e_circuit_breaker e) = true /\
  rs_total_potential_loss (ctx_snap live) = total_potential_loss (e_potential_loss e) /\
  admissible (e_config e) live /\ sized_limits (e_config e) live /\
  exists s, recommended_size d = Some s /\ (dval d0 < dval (bet_usd s))%Q /\ (dval (min_trade_usd (e_config e)) <= dval (bet_usd s))%Q.
Proof.
  intros [[P1 P2] Hp] d live.
  pose proof (core_decision e now tm opp prob metrics fc adm mode) as K. fold d in K. clearbody d.
  rewrite Hp in K. cbn [ep_pipeline ep_sizer params_from_config] in K.
  pose proof (two_phase_enforces (tm_check tm) (e_config e) (decision_ctx e now opp prob fc adm metrics_zeroed)
    (mt_snapshot_for metrics (opp_market_id opp)) mode (tm_phase1 tm) (tm_phase2 tm)) as T.
  change (with_metrics _ (decision_ctx e now opp prob fc adm metrics_zeroed)) with live in T.
  destruct (two_phase _ _ _ _ _ _ _) as [gr ctx]. cbn [fst snd] in K, T.
  destruct (has_failed_hard_gate gr); [by intros; destruct K; congruence|]. destruct T as [T1 T2]; [done|]. intros A.
  split; [|split; [done|split; [done|split; [done|]]]].
  - apply P1, andb_true_iff. split; [exact (adm_breaker _ _ T1)|].
    assert (snap_manual_halt (rs_circuit_breaker (e_risk_snapshot e)) = HaltClear) as -> by exact (adm_halt _ _ T1). done.
  - cbv zeta in K. destruct (dltb d0 _ && dleb _ _) eqn:E; [|destruct K; congruence].
    destruct K as (_ & _ & K). eexists. split; [exact K|]. apply andb_true_iff in E as [E1 E2]. by dbool.
Qed.


(** Every denial is explained.  A decision that does not allow the trade carries a reason and
    no size; when a gate failed, the reason names the first gate of the pipeline order that fails
    on the live metrics. *)
Theorem denials_are_explained e now tm opp prob metrics fc adm mode :
  coherent e ->
  let d := (pre_trade_check_core e now tm opp prob metrics fc adm mode).2 in
  let live := decision_ctx e now opp prob fc adm (mt_snapshot_for metrics (opp_market_id opp)) in
  allowed d = false ->
  recommended_size d = None /\ is_Some (rd_denial_reason d) /\
  (existsb (fun r => negb (cr_passed r)) (tr_check_results (rd_trace d)) = true ->
   exists c, List.find (fails live) (check_refs_in_order (e_config e)) = Some c /\
     rd_denial_reason d = Some (check_id_str (check_id (rc_evaluate c live)) +:+ ": " +:+ unwrap_or (detail (rc_evaluate c live)) "failed")).
Proof.
  intros [_ Hp] d live A.
  pose proof (core_decision e now tm opp prob metrics fc adm mode) as K.
  pose proof (core_trace e now tm opp prob metrics fc adm mode) as T. fold d in K, T. clearbody d.
  rewrite Hp in K, T. cbn [ep_pipeline ep_sizer params_from_config] in K, T.
  pose proof (two_phase_find (tm_check tm) (e_config e) (decision_ctx e now opp prob fc adm metrics_zeroed)
    (mt_snapshot_for metrics (opp_market_id opp)) mode (tm_phase1 tm) (tm_phase2 tm)) as F. cbv zeta in F.
  change (with_metrics _ (decision_ctx e now opp prob fc adm metrics_zeroed)) with live in F.
  destruct (two_phase _ _ _ _ _ _ _) as [gr ctx]. cbn [fst snd] in K, T, F. rewrite T.
  destruct F as (F1 & _ & F2). rewrite F1 in K.
  destruct (List.find (fails live) (check_refs_in_order (e_config e))) as [c|].
  - destruct K as (_ & K1 & K2). split; [done|]. unfold first_denial in K1. rewrite F2 in K1.
    split; [by rewrite K1|]. intros _. by exists c.
  - split; [|split]; [| |intros [r [Hr Hf]]%existsb_exists; apply (List.find_none _ _ F2) in Hr; congruence];
      cbv zeta in K; destruct (dltb d0 _ && dleb _ _); destruct K as (? & ? & ?); congruence || done.
Qed.

(** ** Failed writes *)

Lemma on_trade_result_err e now phase trade metrics : err_blocked (on_trade_result e now phase trade metrics).1.
Proof.
  unfold on_trade_result. destruct phase; cbn [fst].
  - destruct (call e _) as [e1 [[]|err]]; [|by intros ?|intros ? _; apply halt_internal_later].
    destruct (apply_trade_result _ _ _ _ _) as [e2 [[report audit] bl]].
    destruct (call e2 _) as [e3 [u|err]]; cbn [fst]; [|intros ? _; apply halt_internal_later].
    apply and_then_err; [apply followups_err|]. by intros.
  - apply and_then_err; [apply resolve_loss_err|]. intros e1 _ _.
    destruct (apply_trade_result _ _ _ _ _) as [e2 [[report audit] bl]].
    apply and_then_err; [apply persist_and_audit_err|]. intros. apply and_then_err; [apply followups_err|]. by intros.
Qed.

Lemma discard_err {A} (r : Engine * Outcome A) : err_blocked r -> err_blocked (discard r).
Proof. destruct r as [e [a|err]]; intros H ? E; cbn in *; [done|]. by apply (H err). Qed.

(** A tick that fails without a halt failed to read the stale entries. *)
Lemma engine_tick_err e now metrics err :
  (engine_tick e now metrics).2 = Err err ->
  blocked (engine_tick e now metrics).1 \/
  (loss_find_stale (e_persistence e) (potential_loss_escalation_secs (e_config e))).2 = Err err.
Proof.
  rewrite engine_tick_unfold. set (c := call (ticked e now) _).
  assert (Hc : c.2 = (loss_find_stale (e_persistence e) (potential_loss_escalation_secs (e_config e))).2)
    by (unfold c, call; cbn; by destruct (loss_find_stale _ _)).
  destruct c as [e1 [stale|err']]; cbn [and_then fst snd] in Hc |- *; [|intros E; right; congruence].
  destruct stale as [|x l].
  - cbv zeta. case_match; [|done]. intros E. left. revert E. by apply or_halt_err.
  - intros E. left. cbv zeta in *. match goal with |- context [publish_risk_snapshot ?x now] => set (e2 := x) in * end.
    eapply later_blocked; [|apply (blocked_after e2 now), halt_is_halted].
    apply and_then_later; [|done]. eapply later_trans; [apply publish_later | apply emergency_later].
Qed.

Lemma reconciliation_err e now report metrics : err_blocked (on_reconciliation_result e now report metrics).
Proof.
  apply or_halt_err. intros. apply and_then_err; [apply persist_audit_event_err|]. intros. case_match; [|by intros ?].
  apply or_halt_err. by intros.
Qed.

(** C2: the engine is fail-closed.  When an operation returns an error, the breaker is halted and
    the published snapshot blocks trading: the pre-trade gates deny until an operator resumes.
    The one exception is a tick whose query for stale potential losses fails, which returns
    the error without halting. *)
Theorem failed_writes_halt e now o e' err :
  engine_step e now o = (e', Err err) ->
  (is_halted e' = true /\ engine_allows_trading e' = false) \/
  exists metrics, o = OpTick metrics /\
    (loss_find_stale (e_persistence e) (potential_loss_escalation_secs (e_config e))).2 = Err err.
Proof.
  intros H. assert (B : forall r : Engine * Outcome unit, r = (e', Err err) -> err_blocked r -> blocked e').
  { intros r -> Hb. by apply (Hb err). }
  destruct o; cbn [engine_step] in H; try discriminate H;
    try (left; eapply B; [exact H|]; first [apply discard_err, on_trade_result_err | apply reconciliation_err | apply persist_and_audit_err]).
  - pose proof (engine_tick_err e now metrics) as T. unfold discard in H.
    destruct (engine_tick e now metrics) as [e1 [b|err1]]; [done|]. injection H as -> ->.
    destruct (T err eq_refl); [by left | eauto].
  - left; eapply B; [exact H|]. apply or_halt_err. by intros.
  - left; eapply B; [exact H|]. apply or_halt_err. intros. apply persist_and_audit_err.
  - left; eapply B; [exact H|]. apply or_halt_err. intros. apply persist_and_audit_err.
  - left; eapply B; [exact H|]. apply or_halt_err. by intros.
Qed.

(** ** Fills *)

(** The fill path after a successful claim. *)
Lemma fill_claimed e now trade metrics w1 :
  begin_fill (e_persistence e) (pt_trade_id trade) now = (w1, Ok Claimed) ->
  let m' := mt_record_trade_outcome metrics (pt_side trade) (pt_market_id trade) (pt_is_miss trade) in
  exists e2 report bl commit, e_persistence e2 = w1 /\ fc_trade_id commit = pt_trade_id trade /\
    on_trade_result e now Fill trade metrics =
      (match commit_fill w1 commit with
       | (w2, Ok _) =>
           and_then (persist_post_trade_followups (set_persistence e2 w2) now report bl (to_name (cb_state (e_circuit_breaker e))) m')
             (fun e _ => (e, Ok (Some report)))
       | (w2, Err err) =>
           (halt_internal (restore_mutable_state (set_persistence e2 w2) now (capture_mutable_state e)) now
              ("risk fill commit failed: " +:+ err_str err), Err err)
       end, m').
Proof.
  intros Hb m'. unfold on_trade_result. unfold call at 1. rewrite Hb. fold m'. set (e1 := set_persistence e w1).
  destruct (apply_trade_result_shape e1 now Fill trade m') as (e2 & S2 & [_ P2]%fixed_inv).
  destruct (apply_trade_result e1 now Fill trade m') as [e2' [[report audit] bl]]. rewrite fst_pair in S2. subst e2'.
  exists (publish_risk_snapshot e2 now), report, bl,
    {| fc_trade_id := pt_trade_id trade; fc_potential_loss := fill_potential_loss_entry trade;
       fc_state := upsert_of_state (pt_snapshot report); fc_audit := audit |}.
  split; [exact P2|]. split; [done|]. unfold call.
  change (e_persistence (publish_risk_snapshot e2 now)) with (e_persistence e2). rewrite P2.
  change (e_persistence e1) with w1. by destruct (commit_fill w1 _) as [w2 [u|err]].
Qed.

(** A fill that cannot be committed is rolled back.  When the store claims a fill but its
    commit fails, the call returns the error, every accounting window, the potential-loss
    ledger, the drawdown guard and the state version are what they were before, the breaker is
    the old one halted at system level, and trading is blocked. *)
Theorem failed_fill_commit_rolls_back e now trade metrics w1 err :
  begin_fill (e_persistence e) (pt_trade_id trade) now = (w1, Ok Claimed) ->
  (forall c, fc_trade_id c = pt_trade_id trade -> (commit_fill w1 c).2 = Err err) ->
  let r := on_trade_result e now Fill trade metrics in
  let e' := r.1.1 in
  r.1.2 = Err err /\
  (e_daily e', e_weekly e', e_hourly e', e_potential_loss e') = (e_daily e, e_weekly e, e_hourly e, e_potential_loss e) /\
  (e_drawdown e', e_state_version e') = (e_drawdown e, e_state_version e) /\
  (exists reason, e_circuit_breaker e' = halt (e_circuit_breaker e) now System reason) /\
  is_halted e' = true /\ engine_allows_trading e' = false.
Proof.
  intros Hb Hc r. destruct (fill_claimed e now trade metrics w1 Hb) as (e2 & report & bl & commit & P2 & Pc & E).
  unfold r. rewrite E. specialize (Hc commit Pc). destruct (commit_fill w1 commit) as [w2 [u|err']]; [done|].
  cbn [snd] in Hc. injection Hc as ->. cbn [fst snd]. split; [done|].
  destruct (halt_internal_later (restore_mutable_state (set_persistence e2 w2) now (capture_mutable_state e)) now
    ("risk fill commit failed: " +:+ err_str err)) as [_ B].
  split; [done|]. split; [done|]. split; [by eexists | exact B].
Qed.

Lemma fill_replayed e now trade metrics w1 :
  begin_fill (e_persistence e) (pt_trade_id trade) now = (w1, Ok AlreadyApplied) ->
  on_trade_result e now Fill trade metrics = ((set_persistence e w1, Ok None), metrics).
Proof. intros Hb. unfold on_trade_result, call at 1. by rewrite Hb. Qed.
End Frame.

(** ** Exactly-once fills *)

Section Fills.
Context `{DO : DecimalOps} `{CH : Chrono} {M W : Type} {RM : RiskMetrics M} {RP : RiskPersistence W} {FM : FillMarkers W RP}.
Implicit Types (e : Engine (W := W)) (metrics : M).

(** The marker of [t] is durable in the engine's store. *)
Definition filled (t : TradeId) e : Prop := marked (e_persistence e) t.

Lemma filled_store t e e' : e_persistence e = e_persistence e' -> filled t e -> filled t e'.
Proof. unfold filled. by intros ->. Qed.

Lemma filled_call {A} t e (f : W -> W * Outcome A) :
  (forall w, marked w t -> marked (f w).1 t) -> filled t e -> filled t (call e f).1.
Proof. unfold filled, call. intros H F. specialize (H _ F). by destruct (f (e_persistence e)). Qed.

Lemma filled_or_halt {A B} t now ctx (er : Engine * Outcome A) (k : Engine -> A -> Engine * Outcome B) :
  filled t er.1 -> (forall e1 a, filled t e1 -> filled t (k e1 a).1) -> filled t (or_halt now ctx er k).1.
Proof. destruct er as [e1 [a|err]]; cbn; intros H K; [by apply K | done]. Qed.

Lemma filled_and_then {A B} t (er : Engine * Outcome A) (k : Engine -> A -> Engine * Outcome B) :
  filled t er.1 -> (forall e1 a, filled t e1 -> filled t (k e1 a).1) -> filled t (and_then er k).1.
Proof. destruct er as [e1 [a|err]]; cbn; intros H K; [by apply K | done]. Qed.

Lemma filled_publish t e ev : filled t e -> filled t (publish e ev).
Proof. unfold publish. by destruct (e_event_publisher e). Qed.

Hint Resolve marked_upsert_state marked_begin_fill marked_commit_fill marked_upsert_blacklist marked_remove_blacklist
  marked_create_emergency marked_create_reconciliation marked_create_audit marked_loss_resolve marked_loss_find_stale : oxide.

(** Follow the marker through a method: each write keeps it, everything else leaves the store. *)
Ltac keep :=
  repeat first [ assumption
    | apply filled_or_halt; [|intros ?e ?a ?F] | apply filled_and_then; [|intros ?e ?a ?F]
    | apply filled_publish | apply filled_call; [solve [auto with oxide]|] ].

Lemma filled_emergency t e now l r metrics : filled t e -> filled t (record_emergency e now l r metrics).1.
Proof. intros F. unfold record_emergency. keep. Qed.

Lemma filled_persist_and_audit t e now s a : filled t e -> filled t (persist_and_audit e now s a).1.
Proof. intros F. unfold persist_and_audit. keep. Qed.

Lemma filled_followups t e now report bl prev metrics :
  filled t e -> filled t (persist_post_trade_followups e now report bl prev metrics).1.
Proof.
  intros F. unfold persist_post_trade_followups. cbv zeta.
  assert (H : forall e1, filled t e1 -> filled t (match bl with
    | Some entry => or_halt now "auto-blacklist persist failed: " (call e1 (fun w => upsert_blacklist w (upsert_of_entry entry)))
        (fun e _ => (publish e (PnlUpdate (daily_pnl (e_daily e)) (e_lifetime_realized e)), Ok tt))
    | None => (publish e1 (PnlUpdate (daily_pnl (e_daily e1)) (e_lifetime_realized e1)), Ok tt) end).1).
  { intros e1 F1. destruct bl; cbn [fst]; keep. }
  destruct (breaker_tripped report); apply H; [|done].
  apply filled_publish, filled_emergency. unfold call_. keep.
Qed.

Lemma filled_shape t e now phase trade metrics :
  filled t e -> filled t (apply_trade_result e now phase trade metrics).1.
Proof.
  intros F. destruct (apply_trade_result_shape e now phase trade metrics) as (e1 & -> & [_ E]%fixed_inv).
  by apply (filled_store t e).
Qed.

Lemma filled_on_trade_result t e now phase trade metrics :
  filled t e -> filled t (on_trade_result e now phase trade metrics).1.1.
Proof.
  intros F. unfold on_trade_result. destruct phase; cbn [fst].
  - assert (F1 : filled t (call e (fun w => begin_fill w (pt_trade_id trade) now)).1) by keep.
    destruct (call e _) as [e1 [[]|err]]; [|done|done].
    set (m' := mt_record_trade_outcome _ _ _ _).
    pose proof (filled_shape t e1 now Fill trade m' F1) as F2.
    destruct (apply_trade_result _ _ _ _ _) as [e2 [[report audit] bl]]. rewrite fst_pair in F2.
    match goal with |- context [call e2 ?f] => assert (F3 : filled t (call e2 f).1) by keep end.
    destruct (call e2 _) as [e3 [u|err]]; cbn [fst]; [|done].
    apply filled_and_then; [by apply filled_followups | done].
  - apply filled_and_then. { unfold persist_settlement_potential_loss. case_match; cbn [fst]; keep. }
    intros e1 _ F1. pose proof (filled_shape t e1 now Settlement trade metrics F1) as F2.
    destruct (apply_trade_result _ _ _ _ _) as [e2 [[report audit] bl]]. rewrite fst_pair in F2.
    apply filled_and_then; [by apply filled_persist_and_audit|]. intros.
    apply filled_and_then; [by apply filled_followups | done].
Qed.

Lemma filled_tick_audits t e now metrics pre a b c d : filled t e -> filled t (tick_audits e now metrics pre a b c d).
Proof.
  intros F. unfold tick_audits. cbv zeta.
  assert (R : forall e b w o n st, filled t e -> filled t (audit_rollover e b w o n st)).
  { intros. unfold audit_rollover, call_. case_match; keep. }
  match goal with |- filled _ (if _ then _ else ?x) =>
    assert (F1 : filled t x) by (by repeat apply R); generalize dependent x end.
  intros x F1. destruct a; [|done]. unfold publish_breaker_state, call_. case_match; keep.
Qed.

Lemma filled_tick t e now metrics : filled t e -> filled t (engine_tick e now metrics).1.
Proof.
  intros F. rewrite engine_tick_unfold. apply filled_and_then.
  { apply filled_call; [auto with oxide | exact F]. }
  intros e1 stale F1. destruct stale; cbv zeta.
  - case_match; [|by apply filled_tick_audits]. apply filled_or_halt; [by keep|]. intros. by apply filled_tick_audits.
  - apply filled_and_then; [|done]. apply filled_emergency. unfold publish_breaker_state. by apply filled_publish.
Qed.

Lemma filled_step t e now o : filled t e -> filled t (engine_step e now o).1.
Proof.
  intros F. destruct o.
  13: { rewrite step_pre_trade, fst_pair. unfold pre_trade_check_core. destruct (two_phase _ _ _ _ _ _ _) as [gr ctx].
        destruct (if has_failed_hard_gate gr then _ else _) as [[[ok d] sz] br]. unfold enqueue_pre_trade_audit. by destruct (e_audit_sink e). }
  all: cbn [engine_step fst discard].
  - by apply filled_on_trade_result.
  - by apply filled_on_trade_result.
  - by apply filled_tick.
  - unfold on_reconciliation_result, persist_audit_event. keep. case_match; [|done]. keep.
  - unfold engine_halt, call_. by apply filled_call; [auto with oxide|].
  - unfold engine_acknowledge_and_resume. keep.
  - unfold reset_circuit_breaker, publish_breaker_state. apply filled_persist_and_audit, filled_publish. done.
  - unfold add_blacklist. cbn -[persist_and_audit]. apply filled_or_halt; [by apply filled_call; [auto with oxide|]|].
    intros. apply filled_persist_and_audit, filled_publish. done.
  - unfold engine_remove_blacklist. apply filled_or_halt; [by apply filled_call; [auto with oxide|]|].
    intros. by apply filled_persist_and_audit.
  - unfold resolve_potential_loss. apply filled_or_halt; [by apply filled_call; [auto with oxide|]|]. done.
  - done.
  - unfold on_execution_event. destruct event; try done; [by case_match|]. unfold on_heartbeat_failure. by destruct (_ <=? _).
  - unfold pre_trade_check_sized. cbn [fst]. unfold enqueue_pre_trade_audit. by destruct (e_audit_sink e).
Qed.

Lemma filled_run t e calls : filled t e -> filled t (engine_run e calls).
Proof. revert e. induction calls as [|[now o] rest IH]; cbn; intros e F; [done|]. by apply IH, filled_step. Qed.

End Fills.

(** ** Loss caps *)

Section Caps.
Context `{DO : DecimalOps} `{CH : Chrono} {M W : Type} {RM : RiskMetrics M} {RP : RiskPersistence W}.
Implicit Types (e : Engine (W := W)) (metrics : M) (st : Engine (W := W) * option CircuitBreakerLevel).

(** A cap that needs an operator, and the hourly cap. *)
Definition hard_breach e : bool :=
  dleb (max_daily_loss_usd (e_config e)) (daily_loss (e_daily e)) ||
  dleb (max_weekly_loss_usd (e_config e)) (weekly_loss (e_weekly e)) ||
  dleb (max_single_loss_usd (e_config e)) (ps_max_single_loss (da_stats (e_daily e))) ||
  dleb (max_daily_fee_spend_usd (e_config e)) (daily_fees (e_daily e)).
Definition soft_breach e : bool := dleb (max_hourly_loss_usd (e_config e)) (hourly_loss (e_hourly e)).

Definition accounts e := (e_daily e, e_weekly e, e_hourly e, e_params e).

Lemma accounts_breach e e' : accounts e = accounts e' -> hard_breach e = hard_breach e' /\ soft_breach e = soft_breach e'.
Proof. unfold accounts, hard_breach, soft_breach, e_config. intros E. injection E as -> -> -> ->. done. Qed.

Lemma trip_blocks cb now l r : allows_trading (trip cb now l r) = false.
Proof.
  unfold allows_trading, trip. destruct cb as [cfg s n h t]. cbn.
  destruct (decide (l = Session)), s; cbn; try done; by destruct (level_leb _ _).
Qed.

Lemma trip_halted cb now l r : state_is_halted (cb_state cb) = true -> state_is_halted (cb_state (trip cb now l r)) = true.
Proof. unfold trip. destruct cb as [cfg s n h t]. cbn. by destruct (decide (l = Session)), s. Qed.

Lemma halted_blocks cb : state_is_halted (cb_state cb) = true -> allows_trading cb = false.
Proof. unfold allows_trading. by destruct (cb_state cb). Qed.

(** Any number of trips and halts of the breaker: the accounts stay, a halted or blocked breaker stays so. *)
Inductive braked e : Engine (W := W) -> Prop :=
| br_refl : braked e e
| br_trip e1 now l r : braked e e1 -> braked e (cb_trip e1 now l r)
| br_halt e1 now l r : braked e e1 -> braked e (cb_halt e1 now l r).

Lemma braked_facts e e' : braked e e' -> accounts e = accounts e' /\
  (is_halted e = true -> is_halted e' = true) /\
  (allows_trading (e_circuit_breaker e) = false -> allows_trading (e_circuit_breaker e') = false).
Proof.
  induction 1 as [|e1 now l r B (A & H1 & H2)|e1 now l r B (A & H1 & H2)]; [done| |]; (split; [exact A|]); split; intros H.
  - unfold is_halted in *. apply trip_halted. auto.
  - apply trip_blocks.
  - apply halt_is_halted.
  - apply halted_blocks, halt_is_halted.
Qed.

Lemma braked_cap_halt e now l what a c st : braked e st.1 -> braked e (cap_action cb_halt now l what a c st).1.
Proof. intros B. unfold cap_action. destruct (dleb c a); cbn; [by constructor | done]. Qed.

Lemma braked_cap_trip e now l what a c st : braked e st.1 -> braked e (cap_action cb_trip now l what a c st).1.
Proof. intros B. unfold cap_action. destruct (dleb c a); cbn; [by constructor | done]. Qed.

Lemma braked_trans e1 e2 e3 : braked e1 e2 -> braked e2 e3 -> braked e1 e3.
Proof. intros B. induction 1; [done | by constructor | by constructor]. Qed.

Lemma check_loss_caps_braked e now : braked e (check_loss_caps e now).1.
Proof. unfold check_loss_caps. apply braked_cap_trip. do 4 apply braked_cap_halt. constructor. Qed.

(** A breached cap acts on the breaker. *)
Lemma cap_halts now l what a c st : dleb c a = true -> is_halted (cap_action cb_halt now l what a c st).1 = true.
Proof. intros H. unfold cap_action. rewrite H. apply halt_is_halted. Qed.

Lemma cap_halt_keeps now l what a c st : is_halted st.1 = true -> is_halted (cap_action cb_halt now l what a c st).1 = true.
Proof. intros H. unfold cap_action. destruct (dleb c a); [apply halt_is_halted | done]. Qed.

Lemma cap_trip_keeps now l what a c st : is_halted st.1 = true -> is_halted (cap_action cb_trip now l what a c st).1 = true.
Proof. intros H. unfold cap_action. destruct (dleb c a); [by apply trip_halted | done]. Qed.

Lemma check_loss_caps_stops e now :
  (hard_breach e = true -> is_halted (check_loss_caps e now).1 = true) /\
  (soft_breach e = true -> allows_trading (e_circuit_breaker (check_loss_caps e now).1) = false).
Proof.
  unfold check_loss_caps. split.
  - unfold hard_breach. intros [[[H|H]%orb_true_iff|H]%orb_true_iff|H]%orb_true_iff; apply cap_trip_keeps.
    + do 3 apply cap_halt_keeps. by apply cap_halts.
    + do 2 apply cap_halt_keeps. by apply cap_halts.
    + apply cap_halt_keeps. by apply cap_halts.
    + by apply cap_halts.
  - unfold soft_breach. intros H. unfold cap_action at 1. rewrite H. apply trip_blocks.
Qed.

(** The common checks: a probe result, the drawdown mark, then trips and halts. *)
Lemma common_braked e now trade metrics : exists e1, braked e1 (apply_common_checks e now trade metrics).1 /\
  accounts e1 = accounts e /\ (allows_trading (e_circuit_breaker e) = false -> e_circuit_breaker e1 = e_circuit_breaker e).
Proof.
  eexists (set_drawdown (if is_probe_mode (e_circuit_breaker e)
    then set_circuit_breaker e (cb_on_trade_result (e_circuit_breaker e) now (pt_is_success trade)) else e)
    (update_equity _ (mt_equity metrics))).
  split; [|split].
  - unfold apply_common_checks. cbv zeta. repeat (case_match; cbn [fst snd]); repeat constructor.
  - by destruct (is_probe_mode _).
  - unfold allows_trading, is_probe_mode. by destruct (cb_state (e_circuit_breaker e)) eqn:E; cbn; rewrite ?E.
Qed.

(** The accounting of a settlement stops trading on a breach. *)
Lemma settlement_stops e now trade metrics :
  let e' := (apply_trade_result e now Settlement trade metrics).1 in
  (hard_breach e' = true -> is_halted e' = true) /\
  (hard_breach e' || soft_breach e' = true -> engine_allows_trading e' = false).
Proof.
  intros e'. unfold e', apply_trade_result.
  destruct (apply_settlement e now trade) as [e0 [[r1 r2] r3]].
  pose proof (check_loss_caps_stops e0 now) as [S1 S2].
  pose proof (braked_facts _ _ (check_loss_caps_braked e0 now)) as [A1 _].
  destruct (check_loss_caps e0 now) as [e1 t1]. cbn [fst] in *.
  destruct (if pt_is_miss trade then _ else (e1, None)) as [e2 bl] eqn:E2.
  assert (A2 : accounts e2 = accounts e1 /\ e_circuit_breaker e2 = e_circuit_breaker e1) by (repeat (case_match; simplify_eq/=); done).
  destruct A2 as [A2 C2].
  destruct (common_braked e2 now trade metrics) as (e3 & B3 & A3 & C3). apply braked_facts in B3 as (A4 & H4 & N4).
  destruct (apply_common_checks e2 now trade metrics) as [e4 c]. cbn [fst] in *.
  change (hard_breach (publish_risk_snapshot (bump e4) now)) with (hard_breach e4).
  change (soft_breach (publish_risk_snapshot (bump e4) now)) with (soft_breach e4).
  destruct (accounts_breach e4 e0) as [-> ->]; [congruence|]. rewrite allows_after.
  change (is_halted (publish_risk_snapshot (bump e4) now)) with (is_halted e4).
  change (e_circuit_breaker (bump e4)) with (e_circuit_breaker e4).
  assert (K : allows_trading (e_circuit_breaker e1) = false -> e_circuit_breaker e3 = e_circuit_breaker e1).
  { rewrite <- C2. auto. }
  split.
  - intros H. apply H4. unfold is_halted in *. rewrite K; [by apply S1 | by apply halted_blocks, S1].
  - intros [H|H]%orb_true_iff; apply N4; [apply S1, halted_blocks in H | apply S2 in H]; by rewrite K.
Qed.

(** C4: a breached cap stops trading.  After a settlement is processed -- whether or not its writes
    succeed -- a daily, weekly or single loss or a daily fee spend at or above its cap leaves the
    engine halted, and an hourly loss at or above its cap leaves the breaker open: in both cases
    the published snapshot denies new trades. *)
Theorem breached_cap_stops_trading e now trade metrics :
  let e' := (on_trade_result e now Settlement trade metrics).1.1 in
  (hard_breach e' = true -> is_halted e' = true) /\
  (hard_breach e' || soft_breach e' = true -> engine_allows_trading e' = false).
Proof.
  cbn zeta. unfold on_trade_result. cbn [fst].
  pose proof (resolve_loss_err e now trade) as R.
  destruct (persist_settlement_potential_loss e now trade) as [e1 [u|err]]; cbn [and_then fst].
  2: { destruct (R err eq_refl) as [H1 H2]. split; by intros. }
  pose proof (settlement_stops e1 now trade metrics) as S. cbv zeta in S.
  destruct (apply_trade_result e1 now Settlement trade metrics) as [e2 [[report audit] bl]]. rewrite fst_pair in S.
  match goal with |- context [and_then ?x ?y] => assert (L : later e2 (and_then x y).1) end.
  { apply and_then_later; [apply persist_and_audit_later, later_refl|]. intros.
    apply and_then_later; [by apply followups_later | done]. }
  clear R. revert L.
  match goal with |- later e2 ?x -> _ => generalize x end. intros e3 [B C].
  assert (A : accounts e3 = accounts e2) by (unfold books in B; unfold accounts; by injection B as -> -> -> _ ->).
  destruct (accounts_breach e3 e2 A) as [-> ->]. destruct C as [C|[[H1 H2] _]]; [|split; by intros].
  unfold core in C. unfold is_halted, engine_allows_trading in *. injection C as C1 _ C3. by rewrite <- C1, <- C3.
Qed.
End Caps.

(** ** The engine the builder returns *)

Section Built.
Context `{DO : DecimalOps} `{CH : Chrono} {M W : Type} {RM : RiskMetrics M}.

Lemma build_coherent age b (store : W) sink events (metrics : M) now e :
  build age b store sink events metrics now = Ok e -> coherent e.
Proof.
  unfold build. intros H. repeat (case_match; try discriminate H).
  all: injection H as <-; split; [apply published_after | done].
Qed.
End Built.

(** ** Instances

    An engine built without a snapshot from the default configuration, over a store that fails at
    scripted calls, on the sample opportunity. *)

Module EngineDemo.
#[local] Existing Instance ExactQ.exactQ.
#[local] Existing Instance utc_chrono.

Definition builder : RiskEngineBuilder := {|
  b_config := None; b_snapshot := None; b_blacklist_entries := []; b_potential_loss_entries := []; b_initial_equity := None |}.

Definition age (now created : Time) : Z := (now - created) / nanos_per_sec.

(** [build(..).expect(..)] on a build that succeeds. *)
Definition expect {A E} (r : Result A E) : is_ok r = true -> A :=
  match r with Ok a => fun _ => a | Err _ => fun H => False_rect A (diff_false_true H) end.

Definition engine (script : list nat) : Engine (W := Scripted.Store) :=
  expect (build age builder (Scripted.empty_store script) (Some []) (Some []) Demo.metrics 0) eq_refl.

Lemma engine_coherent script : coherent (engine script).
Proof. apply (build_coherent age builder (Scripted.empty_store script) (Some []) (Some []) Demo.metrics 0). reflexivity. Qed.

Definition admission : AdmissionGateInput := {|
  ag_settlement := {| sg_mode := Paper; market_neg_risk := None; redeem_policy := None |}; ag_integrity := integrity_zero 0 |}.

Definition timings : Timings := {| tm_check := fun _ => 1; tm_phase1 := 1; tm_phase2 := 1; tm_total := 2 |}.

Definition trade (outcome : TradeBusinessOutcome) (net : Q) : PostTradeInput := {|
  pt_trade_id := 7; pt_market_id := "m"; pt_token_id := "t"; pt_side := Buy; pt_outcome := outcome;
  pt_cost_usd := (10 # 1)%Q; pt_fee_usd := (1 # 10)%Q; pt_net_profit_usd := Some net; pt_shares := (20 # 1)%Q;
  pt_entry_price := (1 # 2)%Q |}.
End EngineDemo.


Lemma denials_are_explained_witness :
  let e := engine_halt (EngineDemo.engine []) 1 "maintenance" in
  is_Some (rd_denial_reason (pre_trade_check_core (RM := Frozen.metrics) e 2 EngineDemo.timings Demo.opportunity Demo.probability
    Demo.metrics None EngineDemo.admission FullReport).2).
Proof.
  destruct (denials_are_explained (DO := ExactQ.exactQ) (RM := Frozen.metrics) (engine_halt (EngineDemo.engine []) 1 "maintenance")
    2 EngineDemo.timings Demo.opportunity Demo.probability Demo.metrics None EngineDemo.admission FullReport) as (_ & H & _).
  - apply (engine_step_coherent (RM := Frozen.metrics) _ 1 (OpHalt "maintenance")), EngineDemo.engine_coherent.
  - vm_compute. reflexivity.
  - exact H.
Defined.

Lemma failed_writes_halt_witness :
  is_halted (engine_step (RM := Frozen.metrics) (EngineDemo.engine [0%nat]) 1 OpResume).1 = true.
Proof.
  assert (Hr : (engine_step (RM := Frozen.metrics) (EngineDemo.engine [0%nat]) 1 OpResume).2 = Err (Internal "store failure"))
    by (vm_compute; reflexivity).
  destruct (failed_writes_halt (DO := ExactQ.exactQ) (RM := Frozen.metrics) (EngineDemo.engine [0%nat]) 1 OpResume
    (engine_step (RM := Frozen.metrics) (EngineDemo.engine [0%nat]) 1 OpResume).1 (Internal "store failure")) as [[H _] | (m & H & _)].
  - rewrite <- Hr. apply surjective_pairing.
  - exact H.
  - discriminate H.
Defined.

Lemma failed_fill_commit_rolls_back_witness :
  let r := on_trade_result (RM := Frozen.metrics) (EngineDemo.engine [1%nat]) 1 Fill (EngineDemo.trade Success 0%Q) Demo.metrics in
  r.1.2 = Err (Internal "store failure") /\ is_halted r.1.1 = true.
Proof.
  assert (Hr : (begin_fill (e_persistence (EngineDemo.engine [1%nat])) 7 1).2 = Ok Claimed) by (vm_compute; reflexivity).
  destruct (failed_fill_commit_rolls_back (DO := ExactQ.exactQ) (RM := Frozen.metrics) (EngineDemo.engine [1%nat]) 1
    (EngineDemo.trade Success 0%Q) Demo.metrics (begin_fill (e_persistence (EngineDemo.engine [1%nat])) 7 1).1
    (Internal "store failure")) as (H1 & _ & _ & _ & H2 & _).
  - rewrite <- Hr. exact (surjective_pairing (begin_fill (e_persistence (EngineDemo.engine [1%nat])) 7 1)).
  - intros c _. reflexivity.
  - exact (conj H1 H2).
Defined.


Lemma breached_cap_stops_trading_witness :
  let e' := (on_trade_result (RM := Frozen.metrics) (EngineDemo.engine []) 1 Settlement (EngineDemo.trade Success (-1000 # 1)%Q) Demo.metrics).1.1 in
  is_halted e' = true /\ engine_allows_trading e' = false.
Proof.
  destruct (breached_cap_stops_trading (DO := ExactQ.exactQ) (RM := Frozen.metrics) (EngineDemo.engine []) 1
    (EngineDemo.trade Success (-1000 # 1)%Q) Demo.metrics) as [H1 H2].
  split; [apply H1 | apply H2]; vm_compute; reflexivity.
Defined.

Lemma restart_keeps_the_books_witness :
  exists r, recover_state (RM := Frozen.metrics) RiskConfig_default
      (persisted (RM := Frozen.metrics) (engine_halt (EngineDemo.engine []) 1 "stop") 2 Demo.metrics 3) [] [] Demo.metrics 4 = Ok r /\
    to_name (cb_state (rec_breaker r)) = NHalted.
Proof.
  destruct (restart_keeps_the_books (DO := ExactQ.exactQ) (RM := Frozen.metrics) (engine_halt (EngineDemo.engine []) 1 "stop")
    2 Demo.metrics 3 4 RiskConfig_default [] [] Demo.metrics) as (r & H & _ & _ & _ & _ & _ & Hn & _).
  1-5: vm_compute; reflexivity.
  - vm_compute. discriminate.
  - exists r. split; [exact H | rewrite Hn; reflexivity].
Defined.

(** A persisted state that was closed. *)
Definition closed_builder : RiskEngineBuilder (DO := ExactQ.exactQ) := {|
  b_config := None; b_snapshot := Some (persisted (RM := Frozen.metrics) (EngineDemo.engine []) 1 Demo.metrics 2);
  b_blacklist_entries := []; b_potential_loss_entries := []; b_initial_equity := None |}.

