(* ===== verification/Exposure.v ===== *)
(** * Exposure reservations: [oxide-arb-core/src/exposure/in_memory.rs]

    Execution workers reserve capital concurrently: an atomic total moved by a
    compare-and-swap loop, a sharded map of per-market counters and a sharded map of
    reservations.  The first half gives every method as a function of the shared state, what
    the method does when it runs alone.  The second half is the concurrent machine: a thread is
    the point its method has reached, one step is one access to shared memory, and a step that
    needs a shard lock waits while another thread holds it.  The theorems hold in every
    interleaving. *)

From S2P Require Import Prelude Decimal Config.

(** [error/reservation.rs:5-22] `ReservationError`; the id is kept as a number *)
Inductive ReservationError :=
| ExceedsLimit (current_cents requested_cents max_cents : Z)
| NotFound (id : ReservationId)
| Backend (message : string).

(** [error/reservation.rs:8-21] `Display` of `ReservationError` *)
Definition reservation_error_str (e : ReservationError) : string :=
  match e with
  | ExceedsLimit current requested max =>
      "exposure limit exceeded: current=" +:+ pretty current +:+ " requested=" +:+ pretty requested
      +:+ " max=" +:+ pretty max
  | NotFound id => "reservation not found: " +:+ pretty id
  | Backend message => "reservation backend error: " +:+ message
  end.

(** [core/exposure/in_memory.rs:20-25] `ReservationEntry` *)
Record ReservationEntry := {
  re_market_id : MarketId;
  re_amount_cents : Z;
  re_expires_at : Z;
  re_reconcile_pinned : bool
}.

(** [core/exposure/in_memory.rs:27-32] `InMemoryExposureReservation` *)
Record InMemoryExposureReservation := {
  reservations : gmap ReservationId ReservationEntry;
  total_reserved_cents : Z;
  per_market_cents : gmap MarketId Z;
  reservation_config : ExposureReservationConfig
}.
Abbreviation Shared := InMemoryExposureReservation (only parsing).

Definition set_reservations (s : Shared) r : Shared := {|
  reservations := r; total_reserved_cents := total_reserved_cents s;
  per_market_cents := per_market_cents s; reservation_config := reservation_config s |}.
Definition set_total (s : Shared) t : Shared := {|
  reservations := reservations s; total_reserved_cents := t;
  per_market_cents := per_market_cents s; reservation_config := reservation_config s |}.
Definition set_markets (s : Shared) m : Shared := {|
  reservations := reservations s; total_reserved_cents := total_reserved_cents s;
  per_market_cents := m; reservation_config := reservation_config s |}.

(** The counter of a market; a market without one counts as zero. *)
Definition market_counter (s : Shared) (m : MarketId) : Z := default 0 (per_market_cents s !! m).

(** [core/exposure/in_memory.rs:35-42] `InMemoryExposureReservation::new` *)
Definition new_exposure (config : ExposureReservationConfig) : Shared := {|
  reservations := ∅; total_reserved_cents := 0; per_market_cents := ∅;
  reservation_config := config |}.

(** [core/exposure/in_memory.rs:49-51] `InMemoryExposureReservation::reload` *)
Definition exposure_reload (s : Shared) (config : ExposureReservationConfig) : Shared := {|
  reservations := reservations s; total_reserved_cents := total_reserved_cents s;
  per_market_cents := per_market_cents s; reservation_config := config |}.

(** [core/exposure/in_memory.rs:306-307] `remove_reservation_entry`, the total: [fetch_sub] wraps
    around at 64 bits *)
Definition sub_total (s : Shared) (cents : Z) : Shared :=
  set_total s (wrap_u64 (total_reserved_cents s - cents)).
(** [core/exposure/in_memory.rs:308-310] `remove_reservation_entry`, the market: a market without a
    counter is skipped *)
Definition sub_market (s : Shared) (m : MarketId) (cents : Z) : Shared :=
  match per_market_cents s !! m with
  | Some c => set_markets s (<[m := wrap_u64 (c - cents)]> (per_market_cents s))
  | None => s
  end.

(** ** Queries and operations *)

Section Operations.
Context `{DecimalOps}.

(** [core/exposure/in_memory.rs:66-69] `total_reserved_usd_sync` *)
Definition total_reserved_usd_sync (s : Shared) : D :=
  ddiv (dof_Z (total_reserved_cents s)) (dlit 100 0).

(** [core/exposure/in_memory.rs:55-63] `max_market_reserved_usd_sync` *)
Definition max_market_reserved_usd_sync (s : Shared) : D :=
  ddiv (dof_Z (map_fold (fun _ c acc => Z.max c acc) 0 (per_market_cents s))) (dlit 100 0).

(** [core/exposure/in_memory.rs:72-74] `active_count_sync` *)
Definition active_count_sync (s : Shared) : Z := Z.of_nat (size (reservations s)).

(** [core/exposure/in_memory.rs:77-81] `per_market_reserved_sync` *)
Definition per_market_reserved_sync (s : Shared) (m : MarketId) : D :=
  match per_market_cents s !! m with
  | Some c => ddiv (dof_Z c) (dlit 100 0)
  | None => d0
  end.

(** [core/exposure/in_memory.rs:85-91] `reservation_snapshot_sync` *)
Definition reservation_snapshot_sync (s : Shared) (m : MarketId) : D * D * Z :=
  (total_reserved_usd_sync s, per_market_reserved_sync s m, active_count_sync s).

(** [core/exposure/in_memory.rs:115-125] `usd_to_cents` *)
Definition usd_to_cents (amount : D) : Result Z ReservationError :=
  let cents := dfloor (dmul amount (dlit 100 0)) in
  if dsign_neg cents then Err (Backend "amount overflow or negative")
  else ok_or (to_u64 (dto_Z cents)) (Backend "amount overflow or negative").

(** What an admission wants to enter: a new reservation with a time to live, or a durable one
    from before a restart. *)
Inductive AdmitKind :=
| Reserve (ttl : Z)
| Restore (expires_at : Z) (pinned : bool).

Record Admission := {
  ad_id : ReservationId;
  ad_market : MarketId;
  ad_cents : Z;
  ad_limits : ExposureReservationConfig;
  ad_kind : AdmitKind
}.

(** The suffix of the overflow messages. *)
Definition on_restore (k : AdmitKind) (msg : string) : string :=
  match k with Reserve _ => msg | Restore _ _ => (msg +:+ " on restore")%string end.

(** [core/exposure/in_memory.rs:139-163] `try_reserve_sync`, one turn of the loop on the
    total: the sum to swap in, or the refusal *)
Definition check_total (a : Admission) (current : Z) : Result Z ReservationError :=
  match to_u64 (current + ad_cents a) with
  | None => Err (Backend (on_restore (ad_kind a) "reservation total overflow"))
  | Some new_total =>
      if max_total_exposure_cents (ad_limits a) <? new_total
      then Err (ExceedsLimit current (ad_cents a) (max_total_exposure_cents (ad_limits a)))
      else Ok new_total
  end.

(** [core/exposure/in_memory.rs:165-191] `try_reserve_sync`, the section under the guard of the
    market's counter: add, check, and take the amount back when the check fails *)
Definition enter_market (s : Shared) (a : Admission) : Shared * option ReservationError :=
  let market_current := market_counter s (ad_market a) in
  let added := wrap_u64 (market_current + ad_cents a) in
  let undone := set_markets s (<[ad_market a := wrap_u64 (added - ad_cents a)]> (per_market_cents s)) in
  match to_u64 (market_current + ad_cents a) with
  | None => (undone, Some (Backend (on_restore (ad_kind a) "reservation market total overflow")))
  | Some market_new_total =>
      if max_per_market_cents (ad_limits a) <? market_new_total
      then (undone, Some (ExceedsLimit market_current (ad_cents a) (max_per_market_cents (ad_limits a))))
      else (set_markets s (<[ad_market a := added]> (per_market_cents s)), None)
  end.

(** [core/exposure/in_memory.rs:193-200] `try_reserve_sync`, the entry; [now] is the clock *)
Definition entry_of (a : Admission) (now : Z) : ReservationEntry := {|
  re_market_id := ad_market a;
  re_amount_cents := ad_cents a;
  re_expires_at := match ad_kind a with Reserve ttl => now + ttl | Restore e _ => e end;
  re_reconcile_pinned := match ad_kind a with Reserve _ => false | Restore _ p => p end |}.

(** [core/exposure/in_memory.rs:192-200] `try_reserve_sync`, the insertion *)
Definition insert_entry (s : Shared) (a : Admission) (now : Z) : Shared :=
  set_reservations s (<[ad_id a := entry_of a now]> (reservations s)).

(** Admission without interference: total, market, entry; the swap of the total succeeds. *)
Definition admit_alone (s : Shared) (a : Admission) (now : Z) : Shared * option ReservationError :=
  match check_total a (total_reserved_cents s) with
  | Err e => (s, Some e)
  | Ok new_total =>
      match enter_market (set_total s new_total) a with
      | (s', Some e) => (sub_total s' (ad_cents a), Some e)
      | (s', None) => (insert_entry s' a now, None)
      end
  end.

(** [core/exposure/in_memory.rs:128-203] `try_reserve_sync`; [id] is the identifier
    [ReservationId::from_v7] draws *)
Definition try_reserve_sync (s : Shared) (id : ReservationId) (now : Z) (m : MarketId)
    (amount : D) (ttl : Z) : Shared * Result ReservationId ReservationError :=
  match usd_to_cents amount with
  | Err e => (s, Err e)
  | Ok cents =>
      match admit_alone s {| ad_id := id; ad_market := m; ad_cents := cents;
                             ad_limits := reservation_config s; ad_kind := Reserve ttl |} now with
      | (s', Some e) => (s', Err e)
      | (s', None) => (s', Ok id)
      end
  end.

(** [core/exposure/in_memory.rs:221-296] `restore_sync` *)
Definition restore_sync (s : Shared) (id : ReservationId) (m : MarketId) (amount : D)
    (pinned : bool) (expires_at : Z) : Shared * Result unit ReservationError :=
  match reservations s !! id with
  | Some _ => (s, Ok tt)
  | None =>
      match usd_to_cents amount with
      | Err e => (s, Err e)
      | Ok cents =>
          match admit_alone s {| ad_id := id; ad_market := m; ad_cents := cents;
                                 ad_limits := reservation_config s;
                                 ad_kind := Restore expires_at pinned |} 0 with
          | (s', Some e) => (s', Err e)
          | (s', None) => (s', Ok tt)
          end
      end
  end.

(** [core/exposure/in_memory.rs:210-218] `pin_for_reconciliation_sync` *)
Definition pin_for_reconciliation_sync (s : Shared) (id : ReservationId) : Shared * Result unit ReservationError :=
  match reservations s !! id with
  | None => (s, Err (NotFound id))
  | Some e =>
      (set_reservations s (<[id := {| re_market_id := re_market_id e;
                                      re_amount_cents := re_amount_cents e;
                                      re_expires_at := re_expires_at e;
                                      re_reconcile_pinned := true |}]> (reservations s)), Ok tt)
  end.

(** [core/exposure/in_memory.rs:298-312] `remove_reservation_entry` *)
Definition remove_reservation_entry (s : Shared) (id : ReservationId) : Shared * Result ReservationEntry ReservationError :=
  match reservations s !! id with
  | None => (s, Err (NotFound id))
  | Some e =>
      (sub_market (sub_total (set_reservations s (delete id (reservations s))) (re_amount_cents e))
                  (re_market_id e) (re_amount_cents e), Ok e)
  end.

(** [core/exposure/in_memory.rs:315-318] `release_sync` *)
Definition release_sync (s : Shared) (id : ReservationId) : Shared * Result unit ReservationError :=
  match remove_reservation_entry s id with
  | (s', Ok _) => (s', Ok tt)
  | (s', Err e) => (s', Err e)
  end.

(** [core/exposure/in_memory.rs:324-341] `resize_sync`, the section under the guard of the
    entry: [Ok (Some delta)] asks for [delta] to be taken off the counters *)
Definition shrink_entry (s : Shared) (id : ReservationId) (new_cents : Z) : Shared * Result (option (Z * MarketId)) ReservationError :=
  match reservations s !! id with
  | None => (s, Err (NotFound id))
  | Some e =>
      let old_cents := re_amount_cents e in
      if new_cents =? old_cents then (s, Ok None)
      else if old_cents <? new_cents
      then (s, Err (Backend "resize cannot increase reservation amount"))
      else (set_reservations s (<[id := {| re_market_id := re_market_id e;
                                           re_amount_cents := new_cents;
                                           re_expires_at := re_expires_at e;
                                           re_reconcile_pinned := re_reconcile_pinned e |}]> (reservations s)),
            Ok (Some (old_cents - new_cents, re_market_id e)))
  end.

(** [core/exposure/in_memory.rs:321-347] `resize_sync` *)
Definition resize_sync (s : Shared) (id : ReservationId) (new_amount : D) : Shared * Result unit ReservationError :=
  match usd_to_cents new_amount with
  | Err e => (s, Err e)
  | Ok new_cents =>
      match shrink_entry s id new_cents with
      | (s', Err e) => (s', Err e)
      | (s', Ok None) => (s', Ok tt)
      | (s', Ok (Some (delta, m))) => (sub_market (sub_total s' delta) m delta, Ok tt)
      end
  end.

(** [core/exposure/in_memory.rs:99-109] `gc_expired`, the test of the closure *)
Definition expired (now : Z) (e : ReservationEntry) : bool :=
  (re_expires_at e <=? now) && negb (re_reconcile_pinned e).

(** One entry of the scan; the count is a [u32]. *)
Definition gc_entry (now : Z) (acc : Shared * Z) (id : ReservationId) : Shared * Z :=
  let '(s, count) := acc in
  match reservations s !! id with
  | Some e => if expired now e then ((remove_reservation_entry s id).1, wrap_u32 (count + 1)) else acc
  | None => acc
  end.
End Operations.

(** *** The capital manager: [oxide-arb-core/src/execution/capital_manager.rs] *)

Section Capital.
Context `{DecimalOps}.

(** [core/execution/capital_manager.rs:16-19] `CapitalManager` *)
Record CapitalManager := {
  cm_backend : Shared;
  cm_reservation_ttl_secs : Z
}.

(** [models/domain/trading/execution.rs:124-128] `ReservationHandle` *)
Record ReservationHandle := {
  rh_id : ReservationId;
  rh_amount : D;
  rh_market_id : MarketId
}.

(** [core/execution/capital_manager.rs:22-30] `CapitalManager::new` *)
Definition new_capital_manager (backend : Shared) (config : ExposureReservationConfig) : CapitalManager :=
  {| cm_backend := backend; cm_reservation_ttl_secs := default_ttl_secs config |}.

(** [core/execution/capital_manager.rs:35-38] `CapitalManager::reload` *)
Definition capital_reload (cm : CapitalManager) (config : ExposureReservationConfig) : CapitalManager :=
  {| cm_backend := cm_backend cm; cm_reservation_ttl_secs := default_ttl_secs config |}.

Definition set_backend (cm : CapitalManager) (s : Shared) : CapitalManager :=
  {| cm_backend := s; cm_reservation_ttl_secs := cm_reservation_ttl_secs cm |}.

(** [core/execution/capital_manager.rs:40-52] `CapitalManager::reserve_sync`, also `reserve` *)
Definition capital_reserve_sync (cm : CapitalManager) (id : ReservationId) (now : Z) (m : MarketId)
    (amount : D) : CapitalManager * Result ReservationHandle ReservationError :=
  match try_reserve_sync (cm_backend cm) id now m amount (cm_reservation_ttl_secs cm) with
  | (s, Ok id) => (set_backend cm s, Ok {| rh_id := id; rh_amount := amount; rh_market_id := m |})
  | (s, Err e) => (set_backend cm s, Err e)
  end.

(** [core/execution/capital_manager.rs:54-56] `CapitalManager::release_sync`, also `release` and
    `confirm` *)
Definition capital_release_sync (cm : CapitalManager) (handle : ReservationHandle) : CapitalManager * Result unit ReservationError :=
  let '(s, r) := release_sync (cm_backend cm) (rh_id handle) in (set_backend cm s, r).

(** [core/execution/capital_manager.rs:59-72] `CapitalManager::restore_sync` *)
Definition capital_restore_sync (cm : CapitalManager) (handle : ReservationHandle) (pinned : bool)
    (expires_at : Z) : CapitalManager * Result unit ReservationError :=
  let '(s, r) := restore_sync (cm_backend cm) (rh_id handle) (rh_market_id handle) (rh_amount handle)
                   pinned expires_at in (set_backend cm s, r).

(** [core/execution/capital_manager.rs:74-79] `CapitalManager::pin_for_reconciliation_sync` *)
Definition capital_pin_sync (cm : CapitalManager) (handle : ReservationHandle) : CapitalManager * Result unit ReservationError :=
  let '(s, r) := pin_for_reconciliation_sync (cm_backend cm) (rh_id handle) in (set_backend cm s, r).

(** [core/execution/capital_manager.rs:81-87] `CapitalManager::resize_sync` *)
Definition capital_resize_sync (cm : CapitalManager) (handle : ReservationHandle) (new_amount : D) : CapitalManager * Result unit ReservationError :=
  let '(s, r) := resize_sync (cm_backend cm) (rh_id handle) new_amount in (set_backend cm s, r).
End Capital.

(** ** The concurrent machine

    [DashMap] spreads its keys over shards, each behind a reader-writer lock.  The placement of
    a key is the library's: the two functions below are parameters, and [shards] lists the
    shards of the reservation map in the order [retain] visits them. *)

Class Sharding := {
  market_shard : MarketId -> nat;
  reservation_shard : ReservationId -> nat;
  shards : list nat
}.

Section Machine.
Context `{DecimalOps} `{Sharding}.

(** The identifiers in one shard of the reservation map. *)
Definition ids_of_shard (s : Shared) (k : nat) : list ReservationId :=
  filter (fun id => reservation_shard id = k) (map_to_list (reservations s)).*1.

(** [core/exposure/in_memory.rs:94-113] `gc_expired`: shard by shard, entry by entry *)
Definition gc_expired (s : Shared) (now : Z) : Shared * Z :=
  foldl (fun acc k => foldl (gc_entry now) acc (ids_of_shard acc.1 k)) (s, 0) shards.

(** What a method returns. *)
Inductive Outcome :=
| Reserved (id : ReservationId)
| Completed
| Cleaned (count : Z).

(** The scan of [retain]: the clock reading, the count so far, the shard whose lock is held, the
    entries of it still to visit and the shards still to lock. *)
Record GcCursor := {
  gc_now : Z;
  gc_count : Z;
  gc_shard : nat;
  gc_ids : list ReservationId;
  gc_rest : list nat
}.

(** Where a thread goes on after taking an amount off the counters. *)
Inductive Continuation :=
| Return (r : Result Outcome ReservationError)
| Resume (g : GcCursor).

(** The point a call has reached. *)
Inductive Thread :=
| Finished (r : Result Outcome ReservationError)
| StartRestore (id : ReservationId) (m : MarketId) (amount : D) (pinned : bool) (expires_at : Z)
| LoadConfig (id : ReservationId) (m : MarketId) (amount : D) (k : AdmitKind)
| LoadTotal (a : Admission)
| SwapTotal (a : Admission) (current new_total : Z)
| EnterMarket (a : Admission)
| UndoTotal (a : Admission) (e : ReservationError)
| InsertEntry (a : Admission)
| StartRelease (id : ReservationId)
| StartPin (id : ReservationId)
| StartResize (id : ReservationId) (new_amount : D)
| StartReload (config : ExposureReservationConfig)
| StartGc
| GcShards (now count : Z) (rest : list nat)
| GcScan (g : GcCursor)
| SubTotal (cents : Z) (m : MarketId) (k : Continuation)
| SubMarket (cents : Z) (m : MarketId) (k : Continuation).

(** A call of [try_reserve_sync] begins with the conversion of the amount; [id] is the
    identifier it will draw. *)
Definition start_reserve (id : ReservationId) (m : MarketId) (amount : D) (ttl : Z) : Thread :=
  LoadConfig id m amount (Reserve ttl).

(** [Ok(id)] of a reservation, [Ok(())] of a restoration. *)
Definition admitted (a : Admission) : Outcome :=
  match ad_kind a with Reserve _ => Reserved (ad_id a) | Restore _ _ => Completed end.

Definition continue (k : Continuation) : Thread :=
  match k with Return r => Finished r | Resume g => GcScan g end.

(** What the scheduler decides: whether a weak compare-and-swap fails although the value is the
    expected one, and what the clock shows. *)
Record Choice := { spurious : bool; clock : Z }.

(** [core/exposure/in_memory.rs:99-109] `gc_expired`, one entry under the shard lock.  The lock
    hides when the entry leaves the shard, which the model does first. *)
Definition gc_visit (s : Shared) (g : GcCursor) : Shared * Thread :=
  match gc_ids g with
  | [] => (s, GcShards (gc_now g) (gc_count g) (gc_rest g))
  | id :: ids =>
      let next count := {| gc_now := gc_now g; gc_count := count; gc_shard := gc_shard g;
                           gc_ids := ids; gc_rest := gc_rest g |} in
      match reservations s !! id with
      | Some e =>
          if expired (gc_now g) e
          then (set_reservations s (delete id (reservations s)),
                SubTotal (re_amount_cents e) (re_market_id e) (Resume (next (wrap_u32 (gc_count g + 1)))))
          else (s, GcScan (next (gc_count g)))
      | None => (s, GcScan (next (gc_count g)))
      end
  end.

(** [core/exposure/in_memory.rs:94-347] `InMemoryExposureReservation`, the steps of every
    method; [None] when the call has returned *)
Definition thread_step (c : Choice) (s : Shared) (t : Thread) : option (Shared * Thread) :=
  match t with
  | Finished _ => None
  | StartRestore id m amount pinned expires_at =>
      match reservations s !! id with
      | Some _ => Some (s, Finished (Ok Completed))
      | None => Some (s, LoadConfig id m amount (Restore expires_at pinned))
      end
  | LoadConfig id m amount k =>
      match usd_to_cents amount with
      | Err e => Some (s, Finished (Err e))
      | Ok cents => Some (s, LoadTotal {| ad_id := id; ad_market := m; ad_cents := cents;
                                          ad_limits := reservation_config s; ad_kind := k |})
      end
  | LoadTotal a =>
      let current := total_reserved_cents s in
      match check_total a current with
      | Err e => Some (s, Finished (Err e))
      | Ok new_total => Some (s, SwapTotal a current new_total)
      end
  | SwapTotal a current new_total =>
      if (total_reserved_cents s =? current) && negb (spurious c)
      then Some (set_total s new_total, EnterMarket a)
      else Some (s, LoadTotal a)
  | EnterMarket a =>
      match enter_market s a with
      | (s', Some e) => Some (s', UndoTotal a e)
      | (s', None) => Some (s', InsertEntry a)
      end
  | UndoTotal a e => Some (sub_total s (ad_cents a), Finished (Err e))
  | InsertEntry a => Some (insert_entry s a (clock c), Finished (Ok (admitted a)))
  | StartRelease id =>
      match reservations s !! id with
      | None => Some (s, Finished (Err (NotFound id)))
      | Some e => Some (set_reservations s (delete id (reservations s)),
                        SubTotal (re_amount_cents e) (re_market_id e) (Return (Ok Completed)))
      end
  | StartPin id =>
      match pin_for_reconciliation_sync s id with
      | (s', Ok _) => Some (s', Finished (Ok Completed))
      | (s', Err e) => Some (s', Finished (Err e))
      end
  | StartResize id new_amount =>
      match usd_to_cents new_amount with
      | Err e => Some (s, Finished (Err e))
      | Ok new_cents =>
          match shrink_entry s id new_cents with
          | (s', Err e) => Some (s', Finished (Err e))
          | (s', Ok None) => Some (s', Finished (Ok Completed))
          | (s', Ok (Some (delta, m))) => Some (s', SubTotal delta m (Return (Ok Completed)))
          end
      end
  | StartReload config => Some (exposure_reload s config, Finished (Ok Completed))
  | StartGc => Some (s, GcShards (clock c) 0 shards)
  | GcShards _ count [] => Some (s, Finished (Ok (Cleaned count)))
  | GcShards now count (k :: rest) =>
      Some (s, GcScan {| gc_now := now; gc_count := count; gc_shard := k;
                         gc_ids := ids_of_shard s k; gc_rest := rest |})
  | GcScan g => Some (gc_visit s g)
  | SubTotal cents m k => Some (sub_total s cents, SubMarket cents m k)
  | SubMarket cents m k => Some (sub_market s m cents, continue k)
  end.

(** *** Shard locks *)

(** [try_reserve_sync] keeps the guard of the market's counter until it returns, so it holds the
    shard while it inserts; [restore_sync] drops the guard first (line 283). *)
Definition holds_market (t : Thread) : option nat :=
  match t with
  | InsertEntry a =>
      match ad_kind a with Reserve _ => Some (market_shard (ad_market a)) | Restore _ _ => None end
  | _ => None
  end.

(** [retain] holds the shard it scans, also while its closure runs. *)
Definition holds_reservation (t : Thread) : option nat :=
  match t with
  | GcScan g | SubTotal _ _ (Resume g) | SubMarket _ _ (Resume g) => Some (gc_shard g)
  | _ => None
  end.

Definition needs_market (t : Thread) : option nat :=
  match t with
  | EnterMarket a => Some (market_shard (ad_market a))
  | SubMarket _ m _ => Some (market_shard m)
  | _ => None
  end.

Definition needs_reservation (t : Thread) : option nat :=
  match t with
  | StartRestore id _ _ _ _ | StartRelease id | StartPin id => Some (reservation_shard id)
  | StartResize id amount =>
      match usd_to_cents amount with Ok _ => Some (reservation_shard id) | Err _ => None end
  | InsertEntry a => Some (reservation_shard (ad_id a))
  | GcShards _ _ (k :: _) => Some k
  | _ => None
  end.

Definition collide (need held : option nat) : bool :=
  match need, held with Some a, Some b => bool_decide (a = b) | _, _ => false end.

(** [t] waits for a lock [u] holds. *)
Definition waits_for (t u : Thread) : bool :=
  collide (needs_market t) (holds_market u) || collide (needs_reservation t) (holds_reservation u).

(** *** Interleavings *)

Definition System : Type := InMemoryExposureReservation * list Thread.

(** Thread [i] takes a step, unless it has returned or waits for a lock. *)
Definition sys_step (i : nat) (c : Choice) (σ : System) : option System :=
  match σ.2 !! i with
  | None => None
  | Some t =>
      if existsb (waits_for t) σ.2 then None
      else match thread_step c σ.1 t with
           | Some (s', t') => Some (s', <[i := t']> σ.2)
           | None => None
           end
  end.

Inductive interleaves : System -> System -> Prop :=
| interleave i c σ σ' : sys_step i c σ = Some σ' -> interleaves σ σ'.

Fixpoint run_schedule (sch : list (nat * Choice)) (σ : System) : option System :=
  match sch with
  | [] => Some σ
  | (i, c) :: sch' => match sys_step i c σ with Some σ' => run_schedule sch' σ' | None => None end
  end.

Lemma run_schedule_reachable sch : forall σ σ',
  run_schedule sch σ = Some σ' -> rtc interleaves σ σ'.
Proof.
  induction sch as [|[i c] sch IH]; intros σ σ'; simpl; intros Hr; simplify_eq; [done|].
  destruct (sys_step i c σ) eqn:E; [|done]. eapply rtc_l; [by econstructor | by apply IH].
Qed.

Definition finished (t : Thread) : bool := match t with Finished _ => true | _ => false end.
End Machine.

(** ** Accounting: what the counters should show *)

Definition in_market (m : MarketId) (m' : MarketId) (cents : Z) : Z :=
  if decide (m' = m) then cents else 0.

Definition reserved_total (s : Shared) : Z := map_sum re_amount_cents (reservations s).
Definition reserved_market (s : Shared) (m : MarketId) : Z :=
  map_sum (fun e => in_market m (re_market_id e) (re_amount_cents e)) (reservations s).

(** How far a counter is ahead of the reservations. *)
Definition drift_total (s : Shared) : Z := total_reserved_cents s - reserved_total s.
Definition drift_market (s : Shared) (m : MarketId) : Z := market_counter s m - reserved_market s m.

Section Drift.
Implicit Types s : Shared.

Lemma market_counter_insert s m c m' :
  market_counter (set_markets s (<[m := c]> (per_market_cents s))) m' =
  if decide (m = m') then c else market_counter s m'.
Proof.
  unfold market_counter. simpl. case_decide as E.
  - subst. by rewrite lookup_insert_eq.
  - by rewrite lookup_insert_ne.
Qed.

Lemma sub_total_drift s c :
  0 <= c <= total_reserved_cents s -> total_reserved_cents s <= u64_max ->
  total_reserved_cents (sub_total s c) = total_reserved_cents s - c /\
  drift_total (sub_total s c) = drift_total s - c.
Proof.
  intros Hc Hm. assert (wrap_u64 (total_reserved_cents s - c) = total_reserved_cents s - c) as E
    by (apply wrap_u64_id; unfold_ints; lia).
  unfold drift_total, reserved_total, sub_total. simpl. rewrite E. lia.
Qed.

Lemma sub_market_counter s m c m' :
  0 <= c <= market_counter s m -> market_counter s m <= u64_max ->
  market_counter (sub_market s m c) m' = market_counter s m' - in_market m' m c.
Proof.
  intros Hc Hm. unfold sub_market, in_market. unfold market_counter in Hc, Hm.
  destruct (per_market_cents s !! m) as [n|] eqn:E; simpl in *.
  - rewrite market_counter_insert. case_decide; [subst|lia].
    rewrite wrap_u64_id by (unfold_ints; lia). unfold market_counter. rewrite E. simpl. lia.
  - case_decide; lia.
Qed.

Lemma sub_market_frame s m c :
  reservations (sub_market s m c) = reservations s /\
  total_reserved_cents (sub_market s m c) = total_reserved_cents s /\
  reservation_config (sub_market s m c) = reservation_config s.
Proof. unfold sub_market. by case_match. Qed.

Lemma reserved_market_set s r m :
  reserved_market (set_reservations s r) m =
  map_sum (fun e => in_market m (re_market_id e) (re_amount_cents e)) r.
Proof. done. Qed.

(** Taking an entry out leaves its amount on the counters; shrinking it leaves the difference. *)
Lemma delete_drift s id e :
  reservations s !! id = Some e ->
  let s' := set_reservations s (delete id (reservations s)) in
  drift_total s' = drift_total s + re_amount_cents e /\
  forall m, drift_market s' m = drift_market s m + in_market m (re_market_id e) (re_amount_cents e).
Proof.
  intros E s'. unfold drift_total, drift_market, reserved_total, reserved_market, market_counter. simpl.
  split; [|intros m]; rewrite (map_sum_delete _ _ _ _ E); lia.
Qed.

Lemma update_drift s id e e' :
  reservations s !! id = Some e -> re_market_id e' = re_market_id e ->
  let s' := set_reservations s (<[id := e']> (reservations s)) in
  drift_total s' = drift_total s + (re_amount_cents e - re_amount_cents e') /\
  forall m, drift_market s' m =
            drift_market s m + in_market m (re_market_id e) (re_amount_cents e - re_amount_cents e').
Proof.
  intros E Em s'. unfold drift_total, drift_market, reserved_total, reserved_market, market_counter. simpl.
  split; [|intros m]; rewrite (map_sum_update _ _ _ _ _ E); [lia|].
  rewrite Em. unfold in_market. case_decide; lia.
Qed.

Lemma insert_drift s a now :
  reservations s !! ad_id a = None ->
  let s' := insert_entry s a now in
  drift_total s' = drift_total s - ad_cents a /\
  forall m, drift_market s' m = drift_market s m - in_market m (ad_market a) (ad_cents a).
Proof.
  intros E s'. unfold drift_total, drift_market, reserved_total, reserved_market, market_counter. simpl.
  split; [|intros m]; rewrite (map_sum_insert _ _ _ _ E); simpl; lia.
Qed.

Lemma check_total_ok a current new_total :
  check_total a current = Ok new_total ->
  new_total = current + ad_cents a /\ new_total <= max_total_exposure_cents (ad_limits a).
Proof.
  unfold check_total. destruct (to_u64 _) eqn:E; [|done]. apply checked_Some in E as [-> _].
  case_match eqn:E; intros; simplify_eq. zbool. lia.
Qed.

(** The guarded section adds the amount within the limit or changes nothing. *)
Lemma enter_market_spec s a s' r :
  enter_market s a = (s', r) -> 0 <= ad_cents a ->
  0 <= market_counter s (ad_market a) <= u64_max ->
  reservations s' = reservations s /\ total_reserved_cents s' = total_reserved_cents s /\
  reservation_config s' = reservation_config s /\
  match r with
  | None => market_counter s' (ad_market a) <= max_per_market_cents (ad_limits a) /\
            forall m, market_counter s' m = market_counter s m + in_market m (ad_market a) (ad_cents a)
  | Some _ => forall m, market_counter s' m = market_counter s m
  end.
Proof.
  set (n := market_counter s (ad_market a)). intros Hs Hc Hn. unfold enter_market in Hs. fold n in Hs.
  assert (wrap_u64 (wrap_u64 (n + ad_cents a) - ad_cents a) = n) as Hundo.
  { unfold wrap_u64. rewrite Zminus_mod_idemp_l, Z.mod_small; unfold_ints; lia. }
  assert (forall m, (if decide (ad_market a = m) then n else market_counter s m) = market_counter s m) as Hsame
    by (intros m; case_decide; by subst).
  destruct (to_u64 (n + ad_cents a)) as [k|] eqn:E; [|simplify_eq; repeat split; try done].
  - apply checked_Some in E as [-> Hk]. case_match eqn:El; simplify_eq; repeat split; try done; zbool.
    + intros m. by rewrite market_counter_insert, Hundo.
    + rewrite market_counter_insert, decide_True by done. rewrite wrap_u64_id; unfold_ints; lia.
    + intros m. rewrite market_counter_insert. unfold in_market. case_decide as Em; [rewrite <- Em|lia].
      rewrite wrap_u64_id; unfold_ints; lia.
  - intros m. by rewrite market_counter_insert, Hundo.
Qed.
End Drift.

(** ** The invariant of the machine *)

Section Invariant.
Context `{DecimalOps} `{Sharding}.
Implicit Types (s : Shared) (t : Thread) (a : Admission).

(** What a thread has put on a counter that no reservation accounts for: added before the entry
    goes in, or still to be taken off after it went out. *)
Definition total_share t : Z :=
  match t with
  | EnterMarket a | UndoTotal a _ | InsertEntry a => ad_cents a
  | SubTotal cents _ _ => cents
  | _ => 0
  end.

Definition market_share (m : MarketId) t : Z :=
  match t with
  | InsertEntry a => in_market m (ad_market a) (ad_cents a)
  | SubTotal cents m' _ | SubMarket cents m' _ => in_market m m' cents
  | _ => 0
  end.

(** The identifier a thread may still insert. *)
Definition pending_id t : option ReservationId :=
  match t with
  | StartRestore id _ _ _ _ | LoadConfig id _ _ _ => Some id
  | LoadTotal a | SwapTotal a _ _ | EnterMarket a | InsertEntry a => Some (ad_id a)
  | _ => None
  end.

(** A restoration that has not looked yet may find its reservation; every other pending
    identifier is new. *)
Definition fresh s t : Prop :=
  match t with
  | StartRestore _ _ _ _ _ => True
  | _ => forall id, pending_id t = Some id -> reservations s !! id = None
  end.

(** Limits in force during the run never exceed [L] in total and [M] per market. *)
Context (L M : Z).

Definition limits_ok (c : ExposureReservationConfig) : Prop :=
  max_total_exposure_cents c <= L /\ max_per_market_cents c <= M.

Definition sane_admission a : Prop := 0 <= ad_cents a /\ limits_ok (ad_limits a).

Definition sane t : Prop :=
  match t with
  | LoadTotal a | EnterMarket a | UndoTotal a _ | InsertEntry a => sane_admission a
  | SwapTotal a current new_total => sane_admission a /\ check_total a current = Ok new_total
  | SubTotal cents _ _ | SubMarket cents _ _ => 0 <= cents
  | StartReload config => limits_ok config
  | _ => True
  end.

Definition entries_ok s : Prop :=
  forall id e, reservations s !! id = Some e -> 0 <= re_amount_cents e.

(** What holds of the shared state alone. *)
Record bounded s : Prop := {
  bd_config : limits_ok (reservation_config s);
  bd_entries : entries_ok s;
  bd_total : total_reserved_cents s <= L;
  bd_market : forall m, market_counter s m <= M
}.

(** No two threads may insert the same identifier. *)
Definition distinct_ids (ts : list Thread) : Prop :=
  forall i j t u id, ts !! i = Some t -> ts !! j = Some u ->
    pending_id t = Some id -> pending_id u = Some id -> i = j.

Record books (σ : System) : Prop := {
  bk_bounded : bounded σ.1;
  bk_sane : Forall sane σ.2;
  bk_total : drift_total σ.1 = sumZ total_share σ.2;
  bk_market : forall m, drift_market σ.1 m = sumZ (market_share m) σ.2;
  bk_ids : distinct_ids σ.2;
  bk_fresh : Forall (fresh σ.1) σ.2
}.

(** *** One step of one thread *)

Record step_ok s t s' t' : Prop := {
  so_bounded : bounded s';
  so_sane : sane t';
  so_total : drift_total s' - total_share t' = drift_total s - total_share t;
  so_market : forall m, drift_market s' m - market_share m t' = drift_market s m - market_share m t
}.

Context (HL : L <= u64_max) (HM : M <= u64_max).

(** What the accounting of all threads implies for one of them. *)
Record thread_pre s t : Prop := {
  tp_bounded : bounded s;
  tp_sane : sane t;
  tp_fresh : fresh s t;
  tp_total : 0 <= total_share t <= total_reserved_cents s;
  tp_market : forall m, 0 <= market_share m t <= market_counter s m
}.

Lemma step_ok_local s t t' :
  bounded s -> sane t' -> total_share t' = total_share t ->
  (forall m, market_share m t' = market_share m t) -> step_ok s t s t'.
Proof. intros ? ? Ht Hm. split; [done..|lia|intros m; rewrite Hm; lia]. Qed.

Lemma usd_to_cents_nonneg amount cents : usd_to_cents amount = Ok cents -> 0 <= cents.
Proof.
  unfold usd_to_cents, ok_or. case_match; [done|]. destruct (to_u64 _) eqn:E; [|done].
  apply checked_Some in E as [-> ?]. intros; simplify_eq. lia.
Qed.

Lemma delete_entries_ok s id :
  entries_ok s -> entries_ok (set_reservations s (delete id (reservations s))).
Proof. intros He i e. simpl. rewrite lookup_delete_Some. intros [_ ?]. eauto. Qed.

Lemma insert_entries_ok s id e :
  entries_ok s -> 0 <= re_amount_cents e -> entries_ok (set_reservations s (<[id := e]> (reservations s))).
Proof. intros He Ha i e'. simpl. rewrite lookup_insert_Some. intros [[_ <-] | [_ ?]]; eauto. Qed.

(** Taking an entry out hands its amount to the thread that must take it off the counters. *)
Lemma delete_step_ok s t id e k :
  bounded s -> reservations s !! id = Some e ->
  total_share t = 0 -> (forall m, market_share m t = 0) ->
  step_ok s t (set_reservations s (delete id (reservations s)))
              (SubTotal (re_amount_cents e) (re_market_id e) k).
Proof.
  intros [Hc He Ht Hm] E Hst Hsm. destruct (delete_drift s id e E) as [Hd1 Hd2].
  split; [split|..]; simpl; eauto using delete_entries_ok.
  - rewrite Hd1, Hst. lia.
  - intros m. rewrite Hd2, Hsm. lia.
Qed.

Lemma gc_visit_ok s g :
  bounded s -> step_ok s (GcScan g) (gc_visit s g).1 (gc_visit s g).2.
Proof.
  intros Hb. unfold gc_visit. destruct (gc_ids g) as [|id ids]; simpl; [by apply step_ok_local|].
  destruct (reservations s !! id) as [e|] eqn:E; simpl; [|by apply step_ok_local].
  destruct (expired _ e); simpl; [by apply delete_step_ok | by apply step_ok_local].
Qed.

Lemma resize_step_ok s t id n s' r :
  bounded s -> 0 <= n -> total_share t = 0 -> (forall m, market_share m t = 0) ->
  shrink_entry s id n = (s', r) ->
  match r with
  | Ok (Some (delta, m)) => forall k, step_ok s t s' (SubTotal delta m k)
  | Ok None | Err _ => s' = s
  end.
Proof.
  intros [Hc He Ht Hm] Hn Hst Hsm. unfold shrink_entry.
  destruct (reservations s !! id) as [e|] eqn:E; [|by intros; simplify_eq].
  case_match; [by intros; simplify_eq|]. case_match; [by intros; simplify_eq|].
  intros Heq. injection Heq as <- <-. intros k. zbool.
  match goal with |- context [<[id := ?e']> _] => destruct (update_drift s id e e' E eq_refl) as [Hd1 Hd2] end.
  split; [split; [done | by apply insert_entries_ok | done | done] | simpl; lia | rewrite Hd1, Hst; simpl; lia |].
  intros m. rewrite Hd2, Hsm. simpl. lia.
Qed.

Lemma pin_step_ok s t t' id :
  bounded s -> sane t' -> total_share t' = total_share t ->
  (forall m, market_share m t' = market_share m t) ->
  step_ok s t (pin_for_reconciliation_sync s id).1 t'.
Proof.
  intros Hb Hs' Ht Hm. unfold pin_for_reconciliation_sync.
  destruct (reservations s !! id) as [e|] eqn:E; simpl; [|by apply step_ok_local].
  match goal with |- context [<[id := ?e']> _] => destruct (update_drift s id e e' E eq_refl) as [Hd1 Hd2] end.
  destruct Hb as [Hc He Hbt Hbm].
  split; [split; [done | apply insert_entries_ok; [done | exact (He _ _ E)] | done | done] | done | rewrite Hd1, Ht; simpl; lia |].
  intros m. rewrite Hd2, Hm. unfold in_market. case_decide; simpl; lia.
Qed.

Lemma enter_step_ok s a s' r :
  thread_pre s (EnterMarket a) -> enter_market s a = (s', r) ->
  step_ok s (EnterMarket a) s' (match r with Some e => UndoTotal a e | None => InsertEntry a end).
Proof.
  intros [[Hc He Ht Hm] [Ha Hl] _ _ Hpos] E.
  pose proof (Hpos (ad_market a)) as Hp. pose proof (Hm (ad_market a)) as Hpm. simpl in Hp.
  destruct (enter_market_spec _ _ _ _ E) as (Er & Et & Ec & Hr); [done | lia |].
  assert (forall m, reserved_market s' m = reserved_market s m) as Hrm
    by (intros m; unfold reserved_market; by rewrite Er).
  assert (drift_total s' = drift_total s) as Hdt by (unfold drift_total, reserved_total; by rewrite Er, Et).
  assert (bounded s' <-> forall m, market_counter s' m <= M) as Hb.
  { split; [intros Hb; apply Hb|]. intros. split; rewrite ?Ec, ?Et; try done. intros i e. rewrite Er. apply He. }
  destruct r as [e|]; [|destruct Hr as [Hlim Hr]]; split; simpl; rewrite ?Hb, ?Hdt; try done.
  - intros m. rewrite Hr. apply Hm.
  - intros m. unfold drift_market. rewrite Hr, Hrm. lia.
  - intros m. destruct (decide (ad_market a = m)) as [<-|Hne]; [destruct Hl; lia|].
    rewrite Hr. unfold in_market. rewrite decide_False by done. specialize (Hm m). lia.
  - intros m. unfold drift_market. rewrite Hr, Hrm. lia.
Qed.

Lemma swap_step_ok s a current new_total :
  thread_pre s (SwapTotal a current new_total) -> total_reserved_cents s = current ->
  step_ok s (SwapTotal a current new_total) (set_total s new_total) (EnterMarket a).
Proof.
  intros [[Hc He Ht Hm] [[Ha Hl] Hck] _ _ _] <-. apply check_total_ok in Hck as [-> Hlim].
  split; [split; simpl; try done | done | unfold drift_total, reserved_total; simpl; lia | ].
  - destruct Hl. lia.
  - intros m. unfold drift_market, market_counter, reserved_market. simpl. lia.
Qed.

Lemma insert_step_ok s a now r :
  thread_pre s (InsertEntry a) -> step_ok s (InsertEntry a) (insert_entry s a now) (Finished r).
Proof.
  intros [[Hc He Ht Hm] [Ha Hl] Hf _ _].
  destruct (insert_drift s a now) as [Hd1 Hd2]; [by apply Hf|].
  split; [split; [done | by apply insert_entries_ok | done | done] | done | rewrite Hd1; simpl; lia |].
  intros m. rewrite Hd2. simpl. lia.
Qed.

Lemma sub_total_step_ok s t t' cents :
  bounded s -> sane t' -> total_share t = cents -> total_share t' = 0 -> 0 <= cents <= total_reserved_cents s ->
  (forall m, market_share m t' = market_share m t) -> step_ok s t (sub_total s cents) t'.
Proof.
  intros [Hc He Ht Hm] Hs' Hst Hst' Hpos Hsm.
  destruct (sub_total_drift s cents) as [Et Hd]; [lia|lia|].
  split; [split; rewrite ?Et; try done; lia | done | rewrite Hd; lia |].
  intros m. rewrite Hsm. unfold drift_market, market_counter, reserved_market. simpl. lia.
Qed.

Lemma sub_market_step_ok s cents m k :
  thread_pre s (SubMarket cents m k) ->
  step_ok s (SubMarket cents m k) (sub_market s m cents) (continue k).
Proof.
  intros [[Hc He Ht Hm] Hs _ _ Hpos]. simpl in Hs.
  assert (0 <= cents <= market_counter s m) as Hp.
  { specialize (Hpos m). simpl in Hpos. unfold in_market in Hpos. by rewrite decide_True in Hpos. }
  pose proof (fun m' => sub_market_counter s m cents m' Hp ltac:(specialize (Hm m); lia)) as Hmc.
  destruct (sub_market_frame s m cents) as (Er & Et & Ec).
  assert (forall m', market_counter (sub_market s m cents) m' <= market_counter s m') as Hle.
  { intros m'. rewrite Hmc. unfold in_market. case_decide; lia. }
  split; [split; rewrite ?Ec, ?Et; try done | by destruct k |..].
  - intros i e. rewrite Er. apply He.
  - intros m'. specialize (Hle m'). specialize (Hm m'). lia.
  - unfold drift_total, reserved_total. rewrite Er, Et. by destruct k; simpl.
  - intros m'. unfold drift_market, reserved_market. rewrite Er, Hmc. by destruct k; simpl; lia.
Qed.

Lemma thread_step_ok c s t s' t' :
  thread_pre s t -> thread_step c s t = Some (s', t') -> step_ok s t s' t'.
Proof.
  intros Hpre. pose proof (tp_bounded _ _ Hpre) as Hb. pose proof (tp_sane _ _ Hpre) as Hs.
  pose proof (tp_total _ _ Hpre) as Hpt.
  destruct t; simpl; intros Hst; simpl in Hs.
  - done.
  - case_match; simplify_eq; by apply step_ok_local.
  - destruct (usd_to_cents amount) eqn:E; simplify_eq; apply step_ok_local; try done.
    split; [by eapply usd_to_cents_nonneg | apply Hb].
  - destruct (check_total a _) eqn:E; simplify_eq; by apply step_ok_local.
  - destruct (_ && _) eqn:E; simplify_eq; zbool; [by apply swap_step_ok | apply step_ok_local; try done; apply Hs].
  - destruct (enter_market s a) as [s1 [e|]] eqn:E; simplify_eq; exact (enter_step_ok _ _ _ _ Hpre E).
  - simplify_eq. by apply sub_total_step_ok.
  - simplify_eq. by apply insert_step_ok.
  - destruct (reservations s !! id) eqn:E; simplify_eq; [by apply delete_step_ok | by apply step_ok_local].
  - destruct (pin_for_reconciliation_sync s id) as [s1 [u|e]] eqn:E; simplify_eq;
      replace s' with (pin_for_reconciliation_sync s id).1 by (by rewrite E); by apply pin_step_ok.
  - destruct (usd_to_cents new_amount) as [n|e] eqn:En; simplify_eq; [|by apply step_ok_local].
    apply usd_to_cents_nonneg in En.
    destruct (shrink_entry s id n) as [s1 [[[delta m]|]|e]] eqn:E;
      pose proof (resize_step_ok s (StartResize id new_amount) id n _ _ Hb En eq_refl (fun _ => eq_refl) E);
      simplify_eq; eauto; by apply step_ok_local.
  - simplify_eq. split; [split; simpl; try apply Hb; done | done | done | done].
  - simplify_eq. by apply step_ok_local.
  - destruct rest; simplify_eq; by apply step_ok_local.
  - injection Hst as Hst. pose proof (gc_visit_ok s g Hb) as Hg. by rewrite Hst in Hg.
  - simplify_eq. by apply sub_total_step_ok.
  - simplify_eq. by apply sub_market_step_ok.
Qed.

(** *** Identifiers *)

(** A step keeps or drops the identifier of its thread, and inserts no other. *)
Record step_ids s t s' t' : Prop := {
  si_pending : forall id, pending_id t' = Some id -> pending_id t = Some id;
  si_fresh : fresh s' t';
  si_insert : forall id, reservations s !! id = None -> pending_id t <> Some id \/ pending_id t' = Some id ->
              reservations s' !! id = None
}.

Lemma step_ids_frame s t s' t' :
  reservations s' = reservations s -> (forall id, pending_id t' = Some id -> pending_id t = Some id) ->
  fresh s t' -> step_ids s t s' t'.
Proof.
  intros Er Hp Hf. split; rewrite ?Er; try done.
  destruct t'; simpl in *; try done; intros ?; rewrite Er; apply Hf.
Qed.

Lemma step_ids_silent s t s' t' :
  pending_id t' = None -> (forall id, reservations s !! id = None -> reservations s' !! id = None) ->
  step_ids s t s' t'.
Proof.
  intros Hp Hd. split; [by rewrite Hp | | by eauto].
  destruct t'; simpl in *; try done; intros ? [=].
Qed.

Lemma delete_keeps_none s id' id :
  reservations s !! id = None -> reservations (set_reservations s (delete id' (reservations s))) !! id = None.
Proof. simpl. rewrite lookup_delete_None. auto. Qed.

Lemma update_keeps_none s id' e e' id :
  reservations s !! id' = Some e -> reservations s !! id = None ->
  reservations (set_reservations s (<[id' := e']> (reservations s))) !! id = None.
Proof. simpl. intros Hs Hn. rewrite lookup_insert_None. split; [done | intros ->; congruence]. Qed.

Lemma pin_keeps_none s id' id :
  reservations s !! id = None -> reservations (pin_for_reconciliation_sync s id').1 !! id = None.
Proof.
  unfold pin_for_reconciliation_sync. destruct (reservations s !! id') eqn:E; [|done].
  by apply update_keeps_none with (1 := E).
Qed.

Lemma shrink_keeps_none s id' n id :
  reservations s !! id = None -> reservations (shrink_entry s id' n).1 !! id = None.
Proof.
  unfold shrink_entry. destruct (reservations s !! id') eqn:E; [|done].
  do 2 (case_match; [done|]). by apply update_keeps_none with (1 := E).
Qed.

Lemma enter_market_frame s a : reservations (enter_market s a).1 = reservations s.
Proof. unfold enter_market. by repeat case_match. Qed.

Lemma gc_visit_ids s g : step_ids s (GcScan g) (gc_visit s g).1 (gc_visit s g).2.
Proof.
  unfold gc_visit. repeat case_match; apply step_ids_silent; simpl; try done.
  intros. by apply delete_keeps_none.
Qed.

Lemma insert_step_ids s a now r : step_ids s (InsertEntry a) (insert_entry s a now) (Finished r).
Proof.
  split; simpl; [done | done |]. intros id Hn [Hne|]; [|done].
  rewrite lookup_insert_ne; [done | congruence].
Qed.

Lemma thread_step_ids c s t s' t' :
  fresh s t -> thread_step c s t = Some (s', t') -> step_ids s t s' t'.
Proof.
  intros Hf. destruct t; simpl; intros Hst; simpl in Hf.
  - done.
  - destruct (reservations s !! id) eqn:E; simplify_eq; apply step_ids_frame; try done.
    simpl. intros ? [= <-]. done.
  - destruct (usd_to_cents amount); simplify_eq; by apply step_ids_frame.
  - destruct (check_total a _); simplify_eq; by apply step_ids_frame.
  - destruct (_ && _); simplify_eq; by apply step_ids_frame.
  - pose proof (enter_market_frame s a) as Er.
    destruct (enter_market s a) as [s1 [e|]]; simplify_eq; by apply step_ids_frame.
  - simplify_eq. by apply step_ids_frame.
  - simplify_eq. apply insert_step_ids.
  - destruct (reservations s !! id); simplify_eq; apply step_ids_silent; eauto using delete_keeps_none.
  - pose proof (pin_keeps_none s id) as Hk.
    destruct (pin_for_reconciliation_sync s id) as [s1 [u|e]]; simplify_eq; by apply step_ids_silent.
  - destruct (usd_to_cents new_amount) as [n|e]; simplify_eq; [|by apply step_ids_frame].
    pose proof (shrink_keeps_none s id n) as Hk.
    destruct (shrink_entry s id n) as [s1 [[[delta m]|]|e]]; simplify_eq; by apply step_ids_silent.
  - simplify_eq. by apply step_ids_frame.
  - simplify_eq. by apply step_ids_frame.
  - destruct rest; simplify_eq; by apply step_ids_frame.
  - injection Hst as Hst. pose proof (gc_visit_ids s g) as Hg. by rewrite Hst in Hg.
  - simplify_eq. by apply step_ids_frame.
  - simplify_eq. apply step_ids_frame; [apply sub_market_frame | by destruct k; intros ? [=] | by destruct k; intros ? [=]].
Qed.

(** *** All threads *)

Lemma share_nonneg t : sane t -> 0 <= total_share t /\ forall m, 0 <= market_share m t.
Proof.
  destruct t; simpl; unfold sane_admission; intros Hs; split; intros; try lia;
    try apply Hs; unfold in_market; case_decide; lia.
Qed.

Lemma reserved_nonneg s : entries_ok s -> 0 <= reserved_total s /\ forall m, 0 <= reserved_market s m.
Proof.
  intros He. split; [|intros m]; apply map_sum_nonneg; intros id e Hid; specialize (He id e Hid); [done|].
  unfold in_market. case_decide; lia.
Qed.

Lemma books_shares σ :
  books σ -> 0 <= sumZ total_share σ.2 /\ forall m, 0 <= sumZ (market_share m) σ.2.
Proof.
  intros Hb. split; [|intros m]; apply sumZ_nonneg; eapply Forall_impl; try apply Hb;
    intros t Ht; by apply share_nonneg in Ht as [? ?].
Qed.

Lemma books_thread_pre σ i t : books σ -> σ.2 !! i = Some t -> thread_pre σ.1 t.
Proof.
  intros [Hb Hs Ht Hm Hi Hf] E. assert (sane t) as Hst by (by eapply Forall_lookup_1).
  destruct (share_nonneg t Hst) as [Hp1 Hp2]. destruct (reserved_nonneg σ.1 (bd_entries _ Hb)) as [Hr1 Hr2].
  split; try done.
  - by eapply Forall_lookup_1.
  - assert (total_share t <= sumZ total_share σ.2) by (eapply sumZ_member; [|done]; eapply Forall_impl;
      [exact Hs|]; intros u Hu; by apply share_nonneg in Hu as [? ?]).
    unfold drift_total in Ht. lia.
  - intros m. specialize (Hp2 m). specialize (Hr2 m). specialize (Hm m).
    assert (market_share m t <= sumZ (market_share m) σ.2) by (eapply sumZ_member; [|done]; eapply Forall_impl;
      [exact Hs|]; intros u Hu; by apply share_nonneg in Hu as [? ?]).
    unfold drift_market in Hm. lia.
Qed.

Lemma distinct_ids_insert ts i t t' :
  distinct_ids ts -> ts !! i = Some t ->
  (forall id, pending_id t' = Some id -> pending_id t = Some id) -> distinct_ids (<[i := t']> ts).
Proof.
  intros Hd Hi Hp j k u v id Hj Hk Hu Hv.
  apply list_lookup_insert_Some in Hj as [(<- & <- & _) | [Hne1 Hj]];
  apply list_lookup_insert_Some in Hk as [(<- & <- & _) | [Hne2 Hk]]; eauto.
Qed.

Lemma fresh_others s s' t t' ts i :
  distinct_ids ts -> ts !! i = Some t -> Forall (fresh s) ts -> step_ids s t s' t' ->
  Forall (fresh s') (<[i := t']> ts).
Proof.
  intros Hd Hi Hf [Hp Hft Hins]. apply Forall_lookup. intros j u Hj.
  apply list_lookup_insert_Some in Hj as [(_ & <- & _) | [Hne Hj]]; [done|].
  assert (fresh s u) as Hfu by (by eapply Forall_lookup_1).
  assert (forall id, pending_id u = Some id -> reservations s !! id = None -> reservations s' !! id = None) as Hk.
  { intros id Hu Hn. apply Hins; [done|]. left. intros Ht. apply Hne. by eapply Hd. }
  destruct u; simpl in *; eauto.
Qed.

Lemma books_step σ σ' : books σ -> interleaves σ σ' -> books σ'.
Proof.
  intros Hbk Hst. destruct Hst as [i c [s ts] σ1 Hst]. unfold sys_step in Hst. simpl in Hst.
  destruct (ts !! i) as [t|] eqn:Ei; [|done]. destruct (existsb _ _); [done|].
  destruct (thread_step c s t) as [[s' t']|] eqn:E; [|done]. injection Hst as <-.
  destruct (thread_step_ok _ _ _ _ _ (books_thread_pre _ i t Hbk Ei) E) as [Hb' Hs' Ht' Hm'].
  destruct Hbk as [Hb Hs Ht Hm Hi Hf]. simpl in *.
  assert (step_ids s t s' t') as Hids by (eapply thread_step_ids; [by eapply Forall_lookup_1 | done]).
  split; simpl.
  - done.
  - by apply Forall_insert.
  - rewrite (sumZ_insert _ _ _ _ _ Ei). lia.
  - intros m. rewrite (sumZ_insert _ _ _ _ _ Ei). specialize (Hm m). specialize (Hm' m). lia.
  - eapply distinct_ids_insert; eauto. apply Hids.
  - by eapply fresh_others.
Qed.

Lemma books_reachable σ σ' : rtc interleaves σ σ' -> books σ -> books σ'.
Proof. induction 1; eauto using books_step. Qed.

(** A call that has not begun. *)
Definition starting t : bool :=
  match t with
  | LoadConfig _ _ _ _ | StartRestore _ _ _ _ _ | StartRelease _ | StartPin _ | StartResize _ _
  | StartReload _ | StartGc => true
  | _ => false
  end.

Lemma starting_shares ts :
  Forall starting ts -> sumZ total_share ts = 0 /\ forall m, sumZ (market_share m) ts = 0.
Proof.
  induction 1 as [|t ts Ht Hts [IH1 IH2]]; [done|].
  split; [|intros m]; simpl; rewrite ?IH1, ?IH2; by destruct t.
Qed.

Lemma finished_shares ts :
  Forall finished ts -> sumZ total_share ts = 0 /\ forall m, sumZ (market_share m) ts = 0.
Proof.
  induction 1 as [|t ts Ht Hts [IH1 IH2]]; [done|].
  split; [|intros m]; simpl; rewrite ?IH1, ?IH2; by destruct t.
Qed.

Lemma books_init config ts :
  limits_ok config -> 0 <= L -> 0 <= M -> Forall starting ts -> Forall sane ts -> distinct_ids ts ->
  books (new_exposure config, ts).
Proof.
  intros Hc HL0 HM0 Hst Hs Hd. destruct (starting_shares ts Hst) as [E1 E2].
  split; simpl; rewrite ?E1; try done.
  eapply Forall_impl; [exact Hst|]. intros t Ht. by destruct t.
Qed.
End Invariant.

(** ** Deadlock *)

Section Deadlock.
Context `{DecimalOps} `{Sharding}.
Implicit Types (t u : Thread) (σ : System).

(** No thread can take a step. *)
Definition stuck σ : Prop := forall i c, sys_step i c σ = None.

Lemma step_or_finished c s t : finished t = false -> is_Some (thread_step c s t).
Proof. destruct t; simpl; intros; try done; repeat case_match; eauto. Qed.

Lemma stuck_waits σ t :
  stuck σ -> t ∈ σ.2 -> finished t = false -> exists u, u ∈ σ.2 /\ waits_for t u = true.
Proof.
  intros Hst [i Hi]%list_elem_of_lookup Hf.
  specialize (Hst i {| spurious := false; clock := 0 |}). unfold sys_step in Hst. rewrite Hi in Hst.
  destruct (existsb (waits_for t) σ.2) eqn:E.
  - apply existsb_exists in E as (u & Hu & Hw). exists u. split; [by apply list_elem_of_In | done].
  - destruct (step_or_finished {| spurious := false; clock := 0 |} σ.1 t Hf) as [[s' t'] Es].
    by rewrite Es in Hst.
Qed.

Lemma collide_true need held : collide need held = true -> exists k, need = Some k /\ held = Some k.
Proof.
  destruct need, held; simpl; try done. intros E%bool_decide_eq_true. subst. eauto.
Qed.

Lemma holds_market_reserve u k :
  holds_market u = Some k ->
  exists a ttl, u = InsertEntry a /\ ad_kind a = Reserve ttl /\ k = market_shard (ad_market a).
Proof. destruct u; simpl; try done. case_match; intros; simplify_eq; eauto. Qed.

(** A reservation about to insert its entry, and a collection inside the closure of [retain]. *)
Definition inserting a σ : Prop := InsertEntry a ∈ σ.2 /\ exists ttl, ad_kind a = Reserve ttl.
Definition collecting m g σ : Prop := exists cents, SubMarket cents m (Resume g) ∈ σ.2.

Lemma stuck_collecting σ u k :
  stuck σ -> u ∈ σ.2 -> holds_reservation u = Some k ->
  exists m g a, collecting m g σ /\ inserting a σ /\ k = gc_shard g /\
                market_shard m = market_shard (ad_market a).
Proof.
  intros Hst Hu Hk.
  assert (finished u = false) as Hf by (by destruct u).
  destruct (stuck_waits σ u Hst Hu Hf) as (v & Hv & Hw). unfold waits_for in Hw.
  destruct u; simpl in Hk, Hw; try done; try by destruct k0.
  destruct k0 as [r|g]; [done|]. injection Hk as <-. rewrite orb_false_r in Hw.
  apply (collide_true (Some (market_shard m))) in Hw as (j & [= <-] & Hj).
  apply holds_market_reserve in Hj as (a & ttl & -> & Ha & Hj).
  exists m, g, a. unfold collecting, inserting. repeat split; eauto.
Qed.

Lemma stuck_inserting σ a :
  stuck σ -> inserting a σ ->
  exists m g a', collecting m g σ /\ inserting a' σ /\ reservation_shard (ad_id a) = gc_shard g /\
                 market_shard m = market_shard (ad_market a').
Proof.
  intros Hst [Ha _]. destruct (stuck_waits σ _ Hst Ha eq_refl) as (v & Hv & Hw). unfold waits_for in Hw.
  simpl in Hw. apply (collide_true (Some _)) in Hw as (j & [= <-] & Hj).
  by eapply stuck_collecting.
Qed.

(** C7: A set of calls that can make no progress although one has not returned always contains the
    same inversion: a [try_reserve_sync] that keeps a market shard locked and waits for the
    reservation shard a [gc_expired] is scanning, while that collection waits for a market shard
    a [try_reserve_sync] keeps locked.  Hence without a collection in progress, or with no
    reservation between its market guard and its insertion, some call can always go on. *)
Theorem deadlock_is_lock_inversion σ t :
  stuck σ -> t ∈ σ.2 -> finished t = false ->
  exists a m g a', inserting a σ /\ collecting m g σ /\ inserting a' σ /\
    reservation_shard (ad_id a) = gc_shard g /\ market_shard m = market_shard (ad_market a').
Proof.
  intros Hst Ht Hf.
  assert (exists a, inserting a σ) as [a Ha].
  { destruct (stuck_waits σ t Hst Ht Hf) as (u & Hu & Hw). unfold waits_for in Hw.
    apply orb_true_iff in Hw as [Hw | Hw]; apply collide_true in Hw as (k & _ & Hk).
    - apply holds_market_reserve in Hk as (a & ttl & -> & Ha & _). exists a. split; eauto.
    - destruct (stuck_collecting σ u k Hst Hu Hk) as (_ & _ & a & _ & Ha & _). eauto. }
  destruct (stuck_inserting σ a Hst Ha) as (m & g & a' & Hg & Ha' & E1 & E2).
  exists a, m, g, a'. auto.
Qed.
End Deadlock.

(** ** Limits in every interleaving *)


(** ** Who removes a reservation *)

Section Retention.
Context `{DecimalOps} `{Sharding}.
Implicit Types (s : Shared) (t : Thread).

(** An entry as it may look after a step that keeps it: same market and expiry, an amount that
    only shrinks, a pin that stays. *)
Definition kept (e e' : ReservationEntry) : Prop :=
  re_market_id e' = re_market_id e /\ re_expires_at e' = re_expires_at e /\
  re_amount_cents e' <= re_amount_cents e /\
  (re_reconcile_pinned e = true -> re_reconcile_pinned e' = true).

#[export] Instance kept_preorder : PreOrder kept.
Proof.
  split; [by intros e|]. intros e1 e2 e3 (? & ? & ? & ?) (? & ? & ? & ?).
  split; [congruence|]. split; [congruence|]. split; [lia|auto].
Qed.

(** The removals the code allows: a release of this reservation, or a collection that found it
    expired and unpinned. *)
Definition may_remove t (id : ReservationId) (e : ReservationEntry) : Prop :=
  t = StartRelease id \/ exists g, t = GcScan g /\ expired (gc_now g) e = true.

Definition retained t id e s' : Prop :=
  match reservations s' !! id with Some e' => kept e e' | None => may_remove t id e end.

Lemma retained_same t id e s' : reservations s' !! id = Some e -> retained t id e s'.
Proof. unfold retained. intros ->. reflexivity. Qed.

Lemma retained_frame t id e s s' :
  reservations s !! id = Some e -> reservations s' = reservations s -> retained t id e s'.
Proof. intros E Er. apply retained_same. by rewrite Er. Qed.

Lemma retained_delete t id id' e s :
  reservations s !! id = Some e -> (id' = id -> may_remove t id e) ->
  retained t id e (set_reservations s (delete id' (reservations s))).
Proof.
  intros E Hm. unfold retained. simpl. destruct (decide (id' = id)) as [->|Hne].
  - rewrite lookup_delete_eq. auto.
  - rewrite lookup_delete_ne, E by done. reflexivity.
Qed.

Lemma retained_update t id id' e e0 e' s :
  reservations s !! id = Some e -> reservations s !! id' = Some e0 -> kept e0 e' ->
  retained t id e (set_reservations s (<[id' := e']> (reservations s))).
Proof.
  intros E E0 Hk. unfold retained. simpl. destruct (decide (id' = id)) as [->|Hne].
  - rewrite lookup_insert_eq. by simplify_eq.
  - rewrite lookup_insert_ne, E by done. reflexivity.
Qed.

Lemma gc_visit_retains s g id e :
  reservations s !! id = Some e -> retained (GcScan g) id e (gc_visit s g).1.
Proof.
  intros E. unfold gc_visit. destruct (gc_ids g) as [|i ids]; [by apply retained_same|].
  destruct (reservations s !! i) as [e0|] eqn:E0; [|by apply retained_same].
  destruct (expired _ e0) eqn:Ex; [|by apply retained_same].
  apply retained_delete; [done|]. intros ->. simplify_eq. right. eauto.
Qed.

Lemma thread_step_retains c s t s' t' id e :
  fresh s t -> thread_step c s t = Some (s', t') -> reservations s !! id = Some e -> retained t id e s'.
Proof.
  intros Hf Hst E.
  destruct t; simpl in Hst; try (repeat case_match; simplify_eq; by eapply retained_frame).
  - pose proof (enter_market_frame s a) as Er.
    destruct (enter_market s a) as [s1 [e1|]]; simplify_eq; by eapply retained_frame.
  - simplify_eq. apply retained_same. simpl. rewrite lookup_insert_ne; [done|].
    intros <-. simpl in Hf. rewrite Hf in E; done.
  - destruct (reservations s !! id0) eqn:E0; simplify_eq; [|by apply retained_same].
    apply retained_delete; [done|]. intros ->. by left.
  - unfold pin_for_reconciliation_sync in Hst.
    destruct (reservations s !! id0) eqn:E0; simplify_eq; [|by apply retained_same].
    by eapply retained_update.
  - destruct (usd_to_cents new_amount); simplify_eq; [|by apply retained_same].
    unfold shrink_entry in Hst. destruct (reservations s !! id0) as [e0|] eqn:E0; simplify_eq; [|by apply retained_same].
    repeat case_match; simplify_eq; try (by apply retained_same).
    zbool. eapply retained_update; [done | done |]. by split_and!.
  - injection Hst as Hst. pose proof (gc_visit_retains s g id e E) as Hg. by rewrite Hst in Hg.
  - simplify_eq. eapply retained_frame; [done | apply sub_market_frame].
Qed.

(** No step starts a release: a release in progress was one from the beginning. *)
Lemma thread_step_not_release c s t s' t' id :
  thread_step c s t = Some (s', t') -> t' <> StartRelease id.
Proof.
  destruct t; simpl; intros Hst; try (repeat case_match; simplify_eq; done).
  - injection Hst as Hst. unfold gc_visit in Hst. repeat case_match; by simplify_eq.
  - simplify_eq. by destruct k.
Qed.
End Retention.


(** ** A call that runs alone *)

Section Alone.
Context `{DecimalOps} `{Sharding}.
Implicit Types (s : Shared).

(** The steps of one call when no other call interferes and no swap fails for no reason. *)
Inductive alone (now : Z) : Shared * Thread -> Shared * Thread -> Prop :=
| alone_step s t s' t' :
    thread_step {| spurious := false; clock := now |} s t = Some (s', t') -> alone now (s, t) (s', t').

Abbreviation returns now s t s' r := (rtc (alone now) (s, t) (s', Finished r)).

Lemma alone_l now s t s1 t1 s' r :
  thread_step {| spurious := false; clock := now |} s t = Some (s1, t1) ->
  returns now s1 t1 s' r -> returns now s t s' r.
Proof. intros. eapply rtc_l; [by constructor | done]. Qed.

Lemma admit_returns now s a s' r :
  admit_alone s a now = (s', r) ->
  returns now s (LoadTotal a) s' (match r with Some e => Err e | None => Ok (admitted a) end).
Proof.
  unfold admit_alone. intros Ha. destruct (check_total a _) as [n|e] eqn:E; [|injection Ha as <- <-].
  2: { eapply alone_l; [simpl; by rewrite E | done]. }
  eapply alone_l; [simpl; by rewrite E|].
  eapply alone_l; [simpl; by rewrite Z.eqb_refl|].
  destruct (enter_market _ a) as [s1 [e|]] eqn:Em; injection Ha as <- <-;
    (eapply alone_l; [simpl; by rewrite Em|]; eapply alone_l; [done | done]).
Qed.

Lemma reserve_returns now s id m amount ttl :
  let '(s', r) := try_reserve_sync s id now m amount ttl in
  returns now s (start_reserve id m amount ttl) s'
    (match r with Ok i => Ok (Reserved i) | Err e => Err e end).
Proof.
  unfold try_reserve_sync. destruct (usd_to_cents amount) as [cents|e] eqn:E.
  - destruct (admit_alone s _ now) as [s' r] eqn:Ea. apply admit_returns in Ea.
    destruct r; (eapply alone_l; [simpl; by rewrite E | exact Ea]).
  - eapply alone_l; [simpl; by rewrite E | done].
Qed.

Lemma restore_returns now s id m amount pinned expires_at :
  let '(s', r) := restore_sync s id m amount pinned expires_at in
  returns now s (StartRestore id m amount pinned expires_at) s'
    (match r with Ok _ => Ok Completed | Err e => Err e end).
Proof.
  unfold restore_sync. destruct (reservations s !! id) eqn:Ei.
  { eapply alone_l; [simpl; by rewrite Ei | done]. }
  destruct (usd_to_cents amount) as [cents|e] eqn:E.
  - destruct (admit_alone s _ 0) as [s' r] eqn:Ea.
    assert (admit_alone s {| ad_id := id; ad_market := m; ad_cents := cents;
                             ad_limits := reservation_config s; ad_kind := Restore expires_at pinned |} now
            = (s', r)) as Ea' by exact Ea.
    apply admit_returns in Ea'.
    destruct r; (eapply alone_l; [simpl; by rewrite Ei|]; eapply alone_l; [simpl; by rewrite E | exact Ea']).
  - eapply alone_l; [simpl; by rewrite Ei|]. eapply alone_l; [simpl; by rewrite E | done].
Qed.

(** Taking an entry off the counters, then going on. *)
Lemma sub_returns now s cents m k s' r :
  returns now (sub_market (sub_total s cents) m cents) (continue k) s' r ->
  returns now s (SubTotal cents m k) s' r.
Proof. intros. eapply alone_l; [done|]. by eapply alone_l. Qed.

Lemma release_returns now s id :
  let '(s', r) := release_sync s id in
  returns now s (StartRelease id) s' (match r with Ok _ => Ok Completed | Err e => Err e end).
Proof.
  unfold release_sync, remove_reservation_entry. destruct (reservations s !! id) eqn:E.
  - eapply alone_l; [simpl; by rewrite E|]. by apply sub_returns.
  - eapply alone_l; [simpl; by rewrite E | done].
Qed.

Lemma pin_returns now s id :
  let '(s', r) := pin_for_reconciliation_sync s id in
  returns now s (StartPin id) s' (match r with Ok _ => Ok Completed | Err e => Err e end).
Proof.
  destruct (pin_for_reconciliation_sync s id) as [s' [u|e]] eqn:E;
    (eapply alone_l; [simpl; by rewrite E | done]).
Qed.

Lemma resize_returns now s id amount :
  let '(s', r) := resize_sync s id amount in
  returns now s (StartResize id amount) s' (match r with Ok _ => Ok Completed | Err e => Err e end).
Proof.
  unfold resize_sync. destruct (usd_to_cents amount) as [n|e] eqn:En.
  - destruct (shrink_entry s id n) as [s1 [[[delta m]|]|e]] eqn:E;
      (eapply alone_l; [simpl; by rewrite En, E|]); [by apply sub_returns | done | done].
  - eapply alone_l; [simpl; by rewrite En | done].
Qed.

Lemma gc_scan_returns now ids : forall s n count k rest s' r,
  (let acc := foldl (gc_entry n) (s, count) ids in returns now acc.1 (GcShards n acc.2 rest) s' r) ->
  returns now s (GcScan {| gc_now := n; gc_count := count; gc_shard := k; gc_ids := ids; gc_rest := rest |}) s' r.
Proof.
  induction ids as [|id ids IH]; intros s n count k rest s' r Hr; simpl in Hr; [by eapply alone_l|].
  unfold remove_reservation_entry in Hr.
  destruct (reservations s !! id) as [e|] eqn:E; [destruct (expired n e) eqn:Ex|].
  - eapply alone_l; [simpl; unfold gc_visit; simpl; by rewrite E, Ex|]. apply sub_returns. by apply IH.
  - eapply alone_l; [simpl; unfold gc_visit; simpl; by rewrite E, Ex|]. by apply IH.
  - eapply alone_l; [simpl; unfold gc_visit; simpl; by rewrite E|]. by apply IH.
Qed.

Lemma gc_shards_returns now n rest : forall s count s' count',
  foldl (fun acc k => foldl (gc_entry n) acc (ids_of_shard acc.1 k)) (s, count) rest = (s', count') ->
  returns now s (GcShards n count rest) s' (Ok (Cleaned count')).
Proof.
  induction rest as [|k rest IH]; intros s count s' count' Hf; simpl in Hf.
  - injection Hf as <- <-. by eapply alone_l.
  - eapply alone_l; [done|]. apply gc_scan_returns. simpl. apply IH. by rewrite <- surjective_pairing.
Qed.

(** A call that runs alone returns, and its steps add up to the sequential definition of its
    method: same final counters and reservations, same result, on every branch. *)
Theorem alone_is_sequential now s :
  (forall id m amount ttl,
     let '(s', r) := try_reserve_sync s id now m amount ttl in
     returns now s (start_reserve id m amount ttl) s'
       (match r with Ok i => Ok (Reserved i) | Err e => Err e end)) /\
  (forall id m amount pinned expires_at,
     let '(s', r) := restore_sync s id m amount pinned expires_at in
     returns now s (StartRestore id m amount pinned expires_at) s'
       (match r with Ok _ => Ok Completed | Err e => Err e end)) /\
  (forall id,
     let '(s', r) := release_sync s id in
     returns now s (StartRelease id) s' (match r with Ok _ => Ok Completed | Err e => Err e end)) /\
  (forall id,
     let '(s', r) := pin_for_reconciliation_sync s id in
     returns now s (StartPin id) s' (match r with Ok _ => Ok Completed | Err e => Err e end)) /\
  (forall id amount,
     let '(s', r) := resize_sync s id amount in
     returns now s (StartResize id amount) s' (match r with Ok _ => Ok Completed | Err e => Err e end)) /\
  (let '(s', count) := gc_expired s now in returns now s StartGc s' (Ok (Cleaned count))).
Proof.
  split_and!; intros.
  - apply reserve_returns.
  - apply restore_returns.
  - apply release_returns.
  - apply pin_returns.
  - apply resize_returns.
  - destruct (gc_expired s now) as [s' count] eqn:E.
    eapply alone_l; [done|]. by apply gc_shards_returns.
Qed.
End Alone.

(** ** A reservation and its release *)

Section RoundTrip.
Context `{DecimalOps}.
Implicit Types (s : Shared).

(** Counters within the range of their type. *)
Definition counters_ok s : Prop :=
  0 <= total_reserved_cents s <= u64_max /\ forall m, 0 <= market_counter s m <= u64_max.

(** Same reservations and same counters; a market may have gained a counter at zero. *)
Definition same_exposure s s' : Prop :=
  reservations s' = reservations s /\ total_reserved_cents s' = total_reserved_cents s /\
  forall m, market_counter s' m = market_counter s m.

#[export] Instance same_exposure_equiv : Equivalence same_exposure.
Proof.
  split; [by intros s | |].
  - intros s s' (E1 & E2 & E3). split_and!; [done.. | intros m; by rewrite E3].
  - intros s1 s2 s3 (E1 & E2 & E3) (F1 & F2 & F3). split_and!; [congruence.. | intros m; by rewrite F3, E3].
Qed.

(** [s'] is [s] with one more reservation. *)
Definition adds_entry s (id : ReservationId) (e : ReservationEntry) s' : Prop :=
  reservations s' = <[id := e]> (reservations s) /\ 0 <= re_amount_cents e /\
  (total_reserved_cents s' = total_reserved_cents s + re_amount_cents e /\ total_reserved_cents s' <= u64_max) /\
  forall m, market_counter s' m = market_counter s m + in_market m (re_market_id e) (re_amount_cents e) /\
            market_counter s' m <= u64_max.

Lemma check_total_fits a current n : check_total a current = Ok n -> n <= u64_max.
Proof.
  unfold check_total. destruct (to_u64 _) eqn:E; [|done]. apply checked_Some in E as [-> ?].
  case_match; intros; simplify_eq. lia.
Qed.

Lemma enter_market_fits s a s' : enter_market s a = (s', None) -> market_counter s (ad_market a) + ad_cents a <= u64_max.
Proof.
  unfold enter_market. destruct (to_u64 _) eqn:E; [|done]. apply checked_Some in E as [-> ?]. intros _. lia.
Qed.

Lemma admit_alone_spec s a now s' r :
  counters_ok s -> 0 <= ad_cents a -> admit_alone s a now = (s', r) ->
  match r with
  | None => adds_entry s (ad_id a) (entry_of a now) s'
  | Some _ => same_exposure s s'
  end.
Proof.
  intros [Ht Hm] Ha. unfold admit_alone.
  destruct (check_total a (total_reserved_cents s)) as [n|e] eqn:Ec; [|by intros; simplify_eq].
  pose proof (check_total_fits _ _ _ Ec) as Hfit. apply check_total_ok in Ec as [-> _].
  destruct (enter_market (set_total s (total_reserved_cents s + ad_cents a)) a) as [s1 r1] eqn:Em.
  pose proof (enter_market_spec _ _ _ _ Em Ha (Hm (ad_market a))) as (Er & Et & _ & Hr).
  destruct r1 as [e|]; intros Heq; injection Heq as <- <-.
  - destruct (sub_total_drift s1 (ad_cents a)) as [Ht' _]; rewrite ?Et; simpl; [lia..|].
    split_and!; [done | rewrite Ht', Et; simpl; lia | intros m; apply Hr].
  - destruct Hr as [_ Hr]. apply enter_market_fits in Em. split_and!; simpl; [by rewrite Er | done | by rewrite Et | by rewrite Et |].
    intros m. change (market_counter (insert_entry s1 a now) m) with (market_counter s1 m).
    rewrite (Hr m). change (market_counter (set_total s _)) with (market_counter s) in *.
    split; [done|]. unfold in_market. specialize (Hm m). case_decide; [by subst|lia].
Qed.

Lemma reserve_spec s id now m amount ttl s' r :
  counters_ok s -> try_reserve_sync s id now m amount ttl = (s', r) ->
  match r with
  | Ok id' => id' = id /\ exists e, adds_entry s id e s'
  | Err _ => same_exposure s s'
  end.
Proof.
  intros Hok. unfold try_reserve_sync. destruct (usd_to_cents amount) as [c|e] eqn:E; [|by intros; simplify_eq].
  destruct (admit_alone s _ now) as [s1 r1] eqn:Ea. apply admit_alone_spec in Ea; [|done|simpl; by eapply usd_to_cents_nonneg].
  destruct r1; intros; simplify_eq; [done|]. split; [done|]. by eexists.
Qed.

(** Releasing the added reservation gives the exposure of before. *)
Lemma release_added s id e s1 :
  counters_ok s -> reservations s !! id = None -> adds_entry s id e s1 ->
  same_exposure s (release_sync s1 id).1 /\ is_ok (release_sync s1 id).2 = true.
Proof.
  intros [Ht Hm] Hn (Er & Ha & [Et Htm] & Hc). unfold release_sync, remove_reservation_entry.
  rewrite Er, lookup_insert_eq. simpl. split; [|done].
  set (s2 := set_reservations s1 _). set (s3 := sub_total s2 _).
  assert (total_reserved_cents s3 = total_reserved_cents s) as E3.
  { destruct (sub_total_drift s2 (re_amount_cents e)) as [E _]; [simpl; lia | simpl; lia |].
    unfold s3. rewrite E. simpl. lia. }
  assert (forall m, market_counter (sub_market s3 (re_market_id e) (re_amount_cents e)) m = market_counter s m) as Emk.
  { intros m. change (market_counter s3) with (market_counter s1) in *.
    destruct (Hc (re_market_id e)) as [He1 He2]. unfold in_market in He1. rewrite decide_True in He1 by done.
    rewrite sub_market_counter; change (market_counter s3) with (market_counter s1); [|specialize (Hm (re_market_id e)); lia..].
    destruct (Hc m) as [-> _]. lia. }
  destruct (sub_market_frame s3 (re_market_id e) (re_amount_cents e)) as (F1 & F2 & _).
  split_and!; [|by rewrite F2 | done].
  rewrite F1. simpl. rewrite delete_insert_id; done.
Qed.

(** Pinning keeps the amounts and the counters. *)
Lemma pin_added s id e s1 :
  adds_entry s id e s1 ->
  exists e', adds_entry s id e' (pin_for_reconciliation_sync s1 id).1 /\ re_reconcile_pinned e' = true /\
             is_ok (pin_for_reconciliation_sync s1 id).2 = true.
Proof.
  intros (Er & Ha & Et & Hc). unfold pin_for_reconciliation_sync. rewrite Er, lookup_insert_eq. simpl.
  exists {| re_market_id := re_market_id e; re_amount_cents := re_amount_cents e;
            re_expires_at := re_expires_at e; re_reconcile_pinned := true |}.
  split_and!; [|done..]. split_and!; simpl; [by rewrite insert_insert_eq | done | apply Et | apply Et | done].
Qed.
End RoundTrip.

(** ** Runs on concrete calls *)

Module ExposureDemo.

(** Four shards, reservations placed by their number and markets by the length of their name. *)
Definition demo_sharding : Sharding := {|
  market_shard := fun m => (String.length m mod 4)%nat;
  reservation_shard := fun id => Z.to_nat (id mod 4);
  shards := [0; 1; 2; 3]%nat |}.
#[local] Existing Instance demo_sharding.

Definition demo_limits : ExposureReservationConfig := {|
  max_total_exposure_cents := 10000; max_per_market_cents := 5000;
  default_ttl_secs := 60; gc_interval_secs := 5 |}.

(** Two reservations of forty dollars, the first expiring at once, and a collection. *)
Definition demo_calls : list Thread :=
  [start_reserve 3 "alpha" (dlit 40 0) 0; start_reserve 7 "delta" (dlit 40 0) 60; StartGc].

Definition turns (i n : nat) (now : Z) : list (nat * Choice) :=
  repeat (i, {| spurious := false; clock := now |}) n.

(** The first reservation completes, the second stops before its insertion, the collection
    removes the first. *)
Definition inversion_schedule : list (nat * Choice) := turns 0 5 0 ++ turns 1 4 0 ++ turns 2 10 1.

(** The same calls one after the other. *)
Definition serial_schedule : list (nat * Choice) := turns 0 5 0 ++ turns 1 5 0 ++ turns 2 14 1.

Definition end_of (sch : list (nat * Choice)) : System :=
  default (new_exposure demo_limits, []) (run_schedule sch (new_exposure demo_limits, demo_calls)).

Lemma end_of_reachable sch :
  bool_decide (is_Some (run_schedule sch (new_exposure demo_limits, demo_calls))) = true ->
  rtc interleaves (new_exposure demo_limits, demo_calls) (end_of sch).
Proof.
  intros [σ E]%bool_decide_eq_true. unfold end_of. rewrite E. by apply run_schedule_reachable in E.
Qed.

Lemma stuck_of (σ : System) :
  Forall (fun t => finished t = true \/ existsb (waits_for t) σ.2 = true) σ.2 -> stuck σ.
Proof.
  intros Hall i c. unfold sys_step. destruct (σ.2 !! i) as [t|] eqn:E; [|done].
  destruct (Forall_lookup_1 _ _ _ _ Hall E) as [Hf | Hw]; [|by rewrite Hw].
  destruct (existsb _ _); [done|]. by destruct t.
Qed.

Lemma inversion_stuck : stuck (end_of inversion_schedule).
Proof.
  apply stuck_of.
  assert (map finished (end_of inversion_schedule).2 = [true; false; false]) as Hf by (by vm_compute).
  assert (map (fun t => existsb (waits_for t) (end_of inversion_schedule).2) (end_of inversion_schedule).2
          = [false; true; true]) as Hw by (by vm_compute).
  generalize dependent (existsb (A := Thread)). intros ex Hw.
  destruct (end_of inversion_schedule).2 as [|t1 [|t2 [|t3 [|]]]]; simplify_eq/=.
  apply Forall_cons_2; [by left|]. apply Forall_cons_2; [by right|]. apply Forall_cons_2; [by right | done].
Qed.

Lemma demo_distinct : distinct_ids demo_calls.
Proof.
  intros i j t u id Hi Hj Ht Hu. apply list_elem_of_lookup_2 in Hi as Hi'. apply list_elem_of_lookup_2 in Hj as Hj'.
  destruct i as [|[|[|i]]], j as [|[|[|j]]]; simplify_eq/=; done.
Qed.

(** The code can deadlock: a reservation that has passed its market check and a collection
    that removes an expired reservation of a market in the same shard wait for each other's
    locks for ever, with two ordinary reservations and one collection. *)
Theorem reserve_gc_deadlock :
  exists σ, rtc interleaves (new_exposure demo_limits, demo_calls) σ /\ stuck σ /\
            map finished σ.2 = [true; false; false].
Proof.
  exists (end_of inversion_schedule). split; [|split; [exact inversion_stuck | by vm_compute]].
  apply end_of_reachable. by vm_compute.
Qed.

Lemma deadlock_is_lock_inversion_witness :
  exists a m g a', inserting a (end_of inversion_schedule) /\ collecting m g (end_of inversion_schedule) /\
    inserting a' (end_of inversion_schedule) /\
    reservation_shard (ad_id a) = gc_shard g /\ market_shard m = market_shard (ad_market a').
Proof.
  assert (exists t, t ∈ (end_of inversion_schedule).2 /\ finished t = false) as (t & Ht & Hf).
  { assert (map finished (end_of inversion_schedule).2 = [true; false; false]) as Hf by (by vm_compute).
    destruct (end_of inversion_schedule).2 as [|t1 [|t2 [|t3 [|]]]]; simplify_eq/=.
    exists t2. split; [right; left | done]. }
  exact (deadlock_is_lock_inversion (end_of inversion_schedule) t inversion_stuck Ht Hf).
Defined.


(** A reservation that is pinned, and a collection after its expiry. *)
Definition pin_calls : list Thread := [start_reserve 3 "alpha" (dlit 40 0) 0; StartPin 3; StartGc].
Definition run_pin (sch : list (nat * Choice)) (σ : System) : System := default σ (run_schedule sch σ).
Definition pinned_state : System := run_pin (turns 0 5 0 ++ turns 1 1 0) (new_exposure demo_limits, pin_calls).
Definition collected_state : System := run_pin (turns 2 11 1) pinned_state.

Lemma run_pin_reachable sch σ : rtc interleaves σ (run_pin sch σ).
Proof.
  unfold run_pin. destruct (run_schedule sch σ) eqn:E; [|done]. by apply run_schedule_reachable in E.
Qed.

End ExposureDemo.
