(* ===== verification/Book.v ===== *)
(** * Order books as data: [oxide-arb-models/src/domain/market/book.rs],
    [oxide-arb-core/src/pipeline/{book_gate,staleness_classifier}.rs],
    [oxide-arb-algorithm/src/walker.rs]

    Price levels, published snapshots and the views the detector reads, the quality gate in
    front of detection, the staleness ladder, and the walk that simulates buying through the ask
    levels.  A slice is a list; an [Arc] is its contents. *)

From S2P Require Import Prelude Decimal Micro Config Domain.

(** ** Levels and snapshots *)

(** [models/domain/market/book.rs:49-52] `BookLevel` *)
Record BookLevel := { lv_price : MicroPrice; lv_size : MicroShares }.

#[global] Instance BookLevel_eq_dec : EqDecision BookLevel.
Proof. solve_decision. Defined.

Section Levels.
Context `{DecimalOps}.

(** [models/domain/market/book.rs:55-71] `BookLevel::from_decimal`, also `try_from_decimal` *)
Definition level_from_decimal (price size : D) : Result BookLevel MicroConversionError :=
  if dleb price d0 || dltb d1 price then Err mk_MicroConversionError
  else
    let? p := try_from_decimal price in
    let? s := try_from_decimal size in
    Ok {| lv_price := p; lv_size := s |}.

(** [models/domain/market/book.rs:85-87] `BookLevel::price_decimal` *)
Definition price_decimal (l : BookLevel) : D := to_decimal (lv_price l).

(** [models/domain/market/book.rs:91-93] `BookLevel::size_decimal` *)
Definition size_decimal (l : BookLevel) : D := to_decimal (lv_size l).
End Levels.

(** [models/domain/market/book.rs:97-99] `BookLevel::depth_usd` *)
Definition depth_usd (l : BookLevel) : MicroUsd := mul_shares (lv_price l) (lv_size l).

(** [models/domain/market/book.rs:105-109] `total_depth_usd` *)
Definition total_depth_usd (levels : list BookLevel) : MicroUsd :=
  foldl (fun acc l => micro_add acc (depth_usd l)) 0 levels.

Fixpoint take_while {A} (p : A -> bool) (l : list A) : list A :=
  match l with [] => [] | x :: xs => if p x then x :: take_while p xs else [] end.

Section Depth.
Context `{DecimalOps}.

(** [models/domain/market/book.rs:113-120] `ask_depth_up_to` *)
Definition ask_depth_up_to (levels : list BookLevel) (limit_price : D) : D :=
  foldl (fun acc l => dadd acc (to_decimal (lv_size l))) d0
    (take_while (fun l => dleb (price_decimal l) limit_price) levels).

(** [models/domain/market/book.rs:124-131] `bid_depth_down_to` *)
Definition bid_depth_down_to (levels : list BookLevel) (limit_price : D) : D :=
  foldl (fun acc l => dadd acc (to_decimal (lv_size l))) d0
    (take_while (fun l => dleb limit_price (price_decimal l)) levels).

(** [models/domain/market/book.rs:135-142] `ask_notional_up_to` *)
Definition ask_notional_up_to (levels : list BookLevel) (limit_price : D) : D :=
  foldl (fun acc l => dadd acc (dmul (price_decimal l) (size_decimal l))) d0
    (take_while (fun l => dleb (price_decimal l) limit_price) levels).
End Depth.

(** [models/domain/market/book.rs:149-159] `BookSnapshot` *)
Record BookSnapshot := {
  bs_bids : list BookLevel;
  bs_asks : list BookLevel;
  bs_timestamp_ms : Z;
  bs_version : Z;
  bs_total_ask_depth_usd : MicroUsd;
  bs_total_bid_depth_usd : MicroUsd
}.

(** [models/domain/market/book.rs:163-177] `BookSnapshot::new` *)
Definition new_book_snapshot (bids asks : list BookLevel) (timestamp_ms version : Z) : BookSnapshot := {|
  bs_bids := bids; bs_asks := asks; bs_timestamp_ms := timestamp_ms; bs_version := version;
  bs_total_ask_depth_usd := total_depth_usd asks;
  bs_total_bid_depth_usd := total_depth_usd bids |}.

(** [models/domain/market/book.rs:235-239] `BookSideView` *)
Record BookSideView := {
  sv_levels : list BookLevel;
  sv_timestamp_ms : Z;
  sv_total_depth_usd : MicroUsd
}.

(** [models/domain/market/book.rs:181-187] `BookSnapshot::bid_view` *)
Definition bid_view (b : BookSnapshot) : BookSideView := {|
  sv_levels := bs_bids b; sv_timestamp_ms := bs_timestamp_ms b;
  sv_total_depth_usd := bs_total_bid_depth_usd b |}.

(** [models/domain/market/book.rs:191-197] `BookSnapshot::ask_view` *)
Definition ask_view (b : BookSnapshot) : BookSideView := {|
  sv_levels := bs_asks b; sv_timestamp_ms := bs_timestamp_ms b;
  sv_total_depth_usd := bs_total_ask_depth_usd b |}.

(** [models/domain/market/book.rs:250-252] `BookSideView::best_price_micro` *)
Definition best_price_micro (v : BookSideView) : option MicroPrice := lv_price <$> head (sv_levels v).

(** [models/domain/market/book.rs:244-246] `BookSideView::best_price` *)
Definition best_price `{DecimalOps} (v : BookSideView) : option D := price_decimal <$> head (sv_levels v).

(** [models/domain/market/book.rs:256-258] `BookSideView::is_empty` *)
Definition view_is_empty (v : BookSideView) : bool :=
  match sv_levels v with [] => true | _ => false end.

(** [models/domain/market/book.rs:263-268] `EndgameBookView` *)
Record EndgameBookView := {
  yes_bids : BookSideView;
  yes_asks : BookSideView;
  no_bids : BookSideView;
  no_asks : BookSideView
}.

(** [models/domain/market/book.rs:305-308] `EndgameBookPair` *)
Record EndgameBookPair := { bp_yes : BookSnapshot; bp_no : BookSnapshot }.

(** [models/domain/market/book.rs:313-320] `EndgameBookPair::view` *)
Definition pair_view (p : EndgameBookPair) : EndgameBookView := {|
  yes_bids := bid_view (bp_yes p); yes_asks := ask_view (bp_yes p);
  no_bids := bid_view (bp_no p); no_asks := ask_view (bp_no p) |}.

(** [u64::saturating_sub]. *)
Definition sat_sub_u64 (a b : Z) : Z := sat_u64 (a - b).

(** [models/domain/market/book.rs:273-279] `EndgameBookView::max_staleness_ms` *)
Definition max_staleness_ms (v : EndgameBookView) (now_ms : Z) : Z :=
  let a := sat_sub_u64 now_ms (sv_timestamp_ms (yes_bids v)) in
  let b := sat_sub_u64 now_ms (sv_timestamp_ms (yes_asks v)) in
  let c := sat_sub_u64 now_ms (sv_timestamp_ms (no_bids v)) in
  let d := sat_sub_u64 now_ms (sv_timestamp_ms (no_asks v)) in
  Z.max (Z.max (Z.max a b) c) d.

(** [models/domain/market/book.rs:16-19] `BookGateLeg` *)
Inductive BookGateLeg := LegYes | LegNo.

(** [models/domain/market/book.rs:283-300] `EndgameBookView::stalest_leg` *)
Definition stalest_leg (v : EndgameBookView) (now_ms : Z) (token_yes token_no : TokenId) : BookGateLeg * TokenId * Z :=
  let yes_age := Z.max (sat_sub_u64 now_ms (sv_timestamp_ms (yes_bids v)))
                       (sat_sub_u64 now_ms (sv_timestamp_ms (yes_asks v))) in
  let no_age := Z.max (sat_sub_u64 now_ms (sv_timestamp_ms (no_bids v)))
                      (sat_sub_u64 now_ms (sv_timestamp_ms (no_asks v))) in
  if no_age <=? yes_age then (LegYes, token_yes, yes_age) else (LegNo, token_no, no_age).

(** ** The quality gate and the staleness ladder *)

Section Gate.
Context `{DecimalOps}.

(** [models/domain/market/book.rs:23-45] `BookGateError` *)
Inductive BookGateError :=
| EmptySide (token_id : TokenId) (side : string)
| GateStale (leg : BookGateLeg) (token_id : TokenId) (age_ms threshold_ms : Z)
| CrossedBook (token_id : TokenId) (best_bid best_ask : D).

(** [core/pipeline/book_gate.rs:78-90] `BookGate::check_side_empty` *)
Definition check_side_empty (side : BookSideView) (token_id : TokenId) (name : string) : list BookGateError :=
  if view_is_empty side then [EmptySide token_id name] else [].

(** [core/pipeline/book_gate.rs:92-107] `BookGate::check_crossed` *)
Definition check_crossed (bids asks : BookSideView) (token_id : TokenId) : list BookGateError :=
  match best_price bids, best_price asks with
  | Some bid, Some ask => if dleb ask bid then [CrossedBook token_id bid ask] else []
  | _, _ => []
  end.

(** [core/pipeline/book_gate.rs:14-43] `BookGate::check` *)
Definition gate_check (book : EndgameBookView) (now_ms expired_threshold_ms : Z) (token_yes token_no : TokenId) : list BookGateError :=
  check_side_empty (yes_bids book) token_yes "bids" ++
  check_side_empty (yes_asks book) token_yes "asks" ++
  check_side_empty (no_bids book) token_no "bids" ++
  check_side_empty (no_asks book) token_no "asks" ++
  check_crossed (yes_bids book) (yes_asks book) token_yes ++
  check_crossed (no_bids book) (no_asks book) token_no ++
  (if expired_threshold_ms <? max_staleness_ms book now_ms
   then let '(leg, token_id, age_ms) := stalest_leg book now_ms token_yes token_no in
        [GateStale leg token_id age_ms expired_threshold_ms]
   else []).

(** [core/pipeline/book_gate.rs:71-76] `BookGate::is_crossed` *)
Definition view_is_crossed (bids asks : BookSideView) : bool :=
  match best_price bids, best_price asks with
  | Some bid, Some ask => dleb ask bid
  | _, _ => false
  end.

(** [core/pipeline/book_gate.rs:47-68] `BookGate::pass` *)
Definition gate_pass (pair : EndgameBookPair) (now_ms acceptable_threshold_ms : Z) : bool :=
  let book := pair_view pair in
  if view_is_empty (yes_bids book) || view_is_empty (yes_asks book) ||
     view_is_empty (no_bids book) || view_is_empty (no_asks book) then false
  else if view_is_crossed (yes_bids book) (yes_asks book) ||
          view_is_crossed (no_bids book) (no_asks book) then false
  else max_staleness_ms book now_ms <=? acceptable_threshold_ms.
End Gate.

(** [core/pipeline/staleness_classifier.rs:15-20] `StalenessThresholds` *)
Record StalenessThresholds := {
  th_fresh : Z; th_acceptable : Z; th_stale : Z; th_expired : Z
}.

(** [core/pipeline/staleness_classifier.rs:56-67] `StalenessClassifier::classify` *)
Definition classify_staleness (t : StalenessThresholds) (age_ms : Z) : StalenessLevel :=
  if age_ms <=? th_fresh t then Fresh
  else if age_ms <=? th_acceptable t then Acceptable
  else if age_ms <=? th_stale t then Stale
  else Expired.

(** ** Walking the asks *)

(** [algo/walker.rs:12-20] `WalkResult` *)
Record WalkResult := {
  wr_shares : MicroShares;
  wr_vwap : MicroPrice;
  wr_total_cost : MicroUsd;
  wr_levels_consumed : Z;
  wr_fully_filled : bool;
  wr_depth_used_pct : Z
}.

(** The mutable variables of a walk: the budget or quantity left, the totals and the count. *)
Record Walk := { wk_left : Z; wk_shares : Z; wk_cost : Z; wk_levels : Z }.

(** One purchase of [fill] shares at [price]; the plain operators wrap around. *)
Definition buy (w : Walk) (left : Z) (fill cost : Z) : Walk := {|
  wk_left := left;
  wk_shares := wrap_i64 (wk_shares w + fill);
  wk_cost := wrap_i64 (wk_cost w + cost);
  wk_levels := wk_levels w + 1 |}.

(** [algo/walker.rs:44-64] `OrderbookWalker::walk_asks_by_cost`, the loop *)
Fixpoint walk_cost_loop (asks : list BookLevel) (price_floor : MicroPrice) (w : Walk) : Walk :=
  match asks with
  | [] => w
  | level :: rest =>
      let price := lv_price level in
      let size := lv_size level in
      if (price <=? 0) || (size <=? 0) then walk_cost_loop rest price_floor w
      else if price <? price_floor then w
      else if wk_left w <=? 0 then w
      else
        let affordable := affordable_shares price (wk_left w) in
        let fill := Z.min affordable size in
        let cost := mul_shares price fill in
        walk_cost_loop rest price_floor (buy w (wrap_i64 (wk_left w - cost)) fill cost)
  end.

(** [algo/walker.rs:97-117] `OrderbookWalker::walk_asks_by_shares`, the loop *)
Fixpoint walk_shares_loop (asks : list BookLevel) (price_floor : MicroPrice) (w : Walk) : Walk :=
  match asks with
  | [] => w
  | level :: rest =>
      if is_zero (wk_left w) then w
      else
        let price := lv_price level in
        let size := lv_size level in
        if (price <=? 0) || (size <=? 0) then walk_shares_loop rest price_floor w
        else if price <? price_floor then w
        else
          let fill := Z.min (wk_left w) size in
          let cost := mul_shares price fill in
          walk_shares_loop rest price_floor (buy w (wrap_i64 (wk_left w - fill)) fill cost)
  end.

Definition start_walk (left : Z) : Walk := {| wk_left := left; wk_shares := 0; wk_cost := 0; wk_levels := 0 |}.

(** [algo/walker.rs:66-81] `OrderbookWalker::walk_asks_by_cost`, the result *)
Definition walk_result (w : Walk) (total_ask_depth_usd : MicroUsd) (fully_filled : bool) : option WalkResult :=
  if is_zero (wk_shares w) then None
  else Some {|
    wr_shares := wk_shares w;
    wr_vwap := vwap_from_cost (wk_cost w) (wk_shares w);
    wr_total_cost := wk_cost w;
    wr_levels_consumed := wk_levels w;
    wr_fully_filled := fully_filled;
    wr_depth_used_pct := percent_of (wk_cost w) total_ask_depth_usd |}.

(** [algo/walker.rs:32-82] `OrderbookWalker::walk_asks_by_cost` *)
Definition walk_asks_by_cost (asks : list BookLevel) (max_cost_usd : MicroUsd) (price_floor : MicroPrice)
    (total_ask_depth_usd : MicroUsd) : option WalkResult :=
  let w := walk_cost_loop asks price_floor (start_walk max_cost_usd) in
  walk_result w total_ask_depth_usd (is_positive (wk_left w)).

(** [algo/walker.rs:87-136] `OrderbookWalker::walk_asks_by_shares` *)
Definition walk_asks_by_shares (asks : list BookLevel) (target_shares : MicroShares) (price_floor : MicroPrice)
    (total_ask_depth_usd : MicroUsd) : option WalkResult :=
  let w := walk_shares_loop asks price_floor (start_walk target_shares) in
  walk_result w total_ask_depth_usd (is_zero (wk_left w)).

(** The levels a walk may buy from: valid ones, up to the first valid one below the floor. *)
Fixpoint eligible (price_floor : MicroPrice) (asks : list BookLevel) : list BookLevel :=
  match asks with
  | [] => []
  | l :: rest =>
      if (lv_price l <=? 0) || (lv_size l <=? 0) then eligible price_floor rest
      else if lv_price l <? price_floor then []
      else l :: eligible price_floor rest
  end.

Definition sizes (levels : list BookLevel) : Z := sumZ lv_size levels.

(** *** The walk by cost *)

Lemma affordable_saturates price budget :
  0 < price -> 0 <= budget ->
  affordable_shares price budget = i64_max \/ budget * MICRO_SCALE < (affordable_shares price budget + 1) * price.
Proof.
  intros Hp Hb. unfold affordable_shares. destruct (Z.leb_spec price 0); [lia|].
  assert (0 <= budget * MICRO_SCALE) by (unfold MICRO_SCALE; lia). rewrite quot_nonneg_div by lia.
  pose proof (Z.div_pos (budget * MICRO_SCALE) price ltac:(lia) Hp).
  destruct (unwrap_i64_le (budget * MICRO_SCALE / price)) as [?|[-> _]]; [lia| |by left].
  destruct (Z.le_gt_cases (budget * MICRO_SCALE / price) i64_max) as [Hle|Hgt].
  - right. rewrite unwrap_i64_in by (unfold_ints; lia).
    pose proof (Z.mul_succ_div_gt (budget * MICRO_SCALE) price Hp). lia.
  - left. unfold to_i64. by rewrite checked_out by lia.
Qed.

(** A purchase costs at most the budget; when it does not take the whole level it leaves at most
    one micro-dollar, prices being at most one dollar. *)
Lemma purchase_cost price size budget :
  0 < price <= MICRO_SCALE -> 0 < size <= i64_max -> 0 <= budget <= i64_max ->
  let fill := Z.min (affordable_shares price budget) size in
  let cost := mul_shares price fill in
  0 <= fill <= size /\ 0 <= cost <= budget /\ (fill = 0 -> cost = 0) /\ (fill = size \/ budget - cost <= 1).
Proof.
  intros Hp Hs Hb fill cost.
  destruct (affordable_bounds price budget) as [Ha1 Ha2]; [lia..|].
  assert (0 <= fill <= size) as Hf by lia.
  destruct (mul_shares_bounds price fill) as [Hc1 Hc2]; [lia..|]. fold cost in Hc1, Hc2.
  assert (price * fill <= budget * MICRO_SCALE) as Hpf by nia.
  assert (cost <= budget) by (unfold MICRO_SCALE in *; lia).
  split; [done|]. split; [lia|]. split; [unfold MICRO_SCALE in *; nia|].
  destruct (Z.le_gt_cases size (affordable_shares price budget)) as [Hle|Hgt]; [left; lia|right].
  destruct (affordable_saturates price budget) as [Heq|Hlt]; [lia..|].
  assert (fill = affordable_shares price budget) as Ef by lia.
  assert (cost = price * fill / MICRO_SCALE) as Ec.
  { apply mul_shares_exact; [lia..|]. apply div_le_upper; unfold MICRO_SCALE in *; lia. }
  pose proof (Z.mul_succ_div_gt (price * fill) MICRO_SCALE ltac:(done)).
  unfold MICRO_SCALE in *. nia.
Qed.

Lemma eligible_sizes floor asks : Forall (fun l => lv_price l <= MICRO_SCALE /\ lv_size l <= i64_max) asks ->
  Forall (fun l => 0 < lv_price l <= MICRO_SCALE /\ floor <= lv_price l /\ 0 < lv_size l <= i64_max) (eligible floor asks)
  /\ 0 <= sizes (eligible floor asks).
Proof.
  intros Ha. assert (Forall (fun l => 0 < lv_price l <= MICRO_SCALE /\ floor <= lv_price l /\ 0 < lv_size l <= i64_max)
                       (eligible floor asks)) as Hf.
  { induction Ha as [|l asks Hl Ha IH]; simpl; [done|].
    destruct (_ || _) eqn:E; [done|]. case_match eqn:Ef; [done|]. zbool. constructor; [lia|done]. }
  split; [done|]. apply sumZ_nonneg. eapply Forall_impl; [exact Hf|]. simpl. lia.
Qed.

(** What the loop on the budget keeps and reaches. *)
Lemma walk_cost_loop_spec floor asks : forall w,
  Forall (fun l => lv_price l <= MICRO_SCALE /\ lv_size l <= i64_max) asks ->
  0 <= wk_left w -> 0 <= wk_shares w -> 0 <= wk_cost w -> wk_cost w + wk_left w <= i64_max ->
  wk_shares w + sizes (eligible floor asks) <= i64_max ->
  let w' := walk_cost_loop asks floor w in
  0 <= wk_left w' /\ wk_cost w <= wk_cost w' /\ wk_cost w' + wk_left w' = wk_cost w + wk_left w /\
  wk_shares w <= wk_shares w' <= wk_shares w + sizes (eligible floor asks) /\
  (wk_shares w' = wk_shares w -> wk_cost w' = wk_cost w) /\
  (wk_shares w' = wk_shares w + sizes (eligible floor asks) \/ wk_left w' <= 1).
Proof.
  induction asks as [|l asks IH]; intros w Ha Hl Hs Hc Hcl Hsz w'; simpl in w'.
  { subst w'. unfold sizes. simpl. lia. }
  apply Forall_cons in Ha as [[Hp Hz] Ha]. simpl in Hsz. subst w'. simpl.
  destruct (_ || _) eqn:E; [by apply IH|].
  destruct (lv_price l <? floor) eqn:Ef; [unfold sizes; simpl; lia|].
  zbool. unfold sizes in *. simpl in *. destruct (eligible_sizes floor asks Ha) as [_ Hpos].
  unfold sizes in Hpos. destruct (wk_left w <=? 0) eqn:El; zbool; [lia|].
  destruct (purchase_cost (lv_price l) (lv_size l) (wk_left w)) as (Hf & Hco & Hz0 & Hx); [lia..|].
  set (fill := Z.min _ _) in *. set (cost := mul_shares _ _) in *.
  assert (wk_left (buy w (wrap_i64 (wk_left w - cost)) fill cost) = wk_left w - cost) as E1
    by (simpl; rewrite wrap_i64_id; unfold_ints; lia).
  assert (wk_shares (buy w (wrap_i64 (wk_left w - cost)) fill cost) = wk_shares w + fill) as E2
    by (simpl; rewrite wrap_i64_id; unfold_ints; lia).
  assert (wk_cost (buy w (wrap_i64 (wk_left w - cost)) fill cost) = wk_cost w + cost) as E3
    by (simpl; rewrite wrap_i64_id; unfold_ints; lia).
  edestruct (IH (buy w (wrap_i64 (wk_left w - cost)) fill cost)) as (H1 & H2 & H3 & H4 & H5 & H6); done || lia.
Qed.

(** Simulated buying never spends more than its budget and never buys more than the book
    offers at or above the floor; it stops short of the offer only when at most one
    micro-dollar of the budget is left.  No sum wraps around, and there is no result exactly
    when nothing was bought. *)
Theorem walk_spends_budget_or_book (asks : list BookLevel) (budget : MicroUsd) (floor : MicroPrice)
    (depth : MicroUsd) :
  Forall (fun l => lv_price l <= MICRO_SCALE /\ lv_size l <= i64_max) asks ->
  0 <= budget <= i64_max -> sizes (eligible floor asks) <= i64_max ->
  match walk_asks_by_cost asks budget floor depth with
  | Some r =>
      0 < wr_shares r <= sizes (eligible floor asks) /\ 0 <= wr_total_cost r <= budget /\
      (wr_shares r = sizes (eligible floor asks) \/ budget - wr_total_cost r <= 1) /\
      (wr_fully_filled r = true <-> wr_total_cost r < budget)
  | None => sizes (eligible floor asks) = 0 \/ budget <= 1
  end.
Proof.
  intros Ha Hb Hs. unfold walk_asks_by_cost.
  destruct (walk_cost_loop_spec floor asks (start_walk budget)) as (H1 & H2 & H3 & H4 & H5 & H6); simpl; try done; try lia.
  set (w := walk_cost_loop asks floor (start_walk budget)) in *. simpl in *.
  destruct (eligible_sizes floor asks Ha) as [_ Hpos].
  unfold walk_result, is_zero, is_positive. destruct (Z.eqb_spec (wk_shares w) 0); simpl; [lia|].
  split; [lia|]. split; [lia|]. split; [lia|]. rewrite Z.ltb_lt. lia.
Qed.

Lemma walk_spends_budget_or_book_witness :
  let asks := [ {| lv_price := 970000; lv_size := 50000000 |}; {| lv_price := 980000; lv_size := 50000000 |} ] in
  match walk_asks_by_cost asks 60000000 950000 97500000 with
  | Some r => wr_shares r = 61734693 /\ wr_total_cost r <= 60000000
  | None => False
  end.
Proof.
  intros asks.
  pose proof (walk_spends_budget_or_book asks 60000000 950000 97500000) as H.
  assert (walk_asks_by_cost asks 60000000 950000 97500000 =
          Some {| wr_shares := 61734693; wr_vwap := 971901; wr_total_cost := 59999999;
                  wr_levels_consumed := 2; wr_fully_filled := true; wr_depth_used_pct := 61 |}) as E
    by (vm_compute; reflexivity).
  rewrite E in *. split; [reflexivity|]. apply H.
  - repeat constructor; vm_compute; discriminate.
  - split; vm_compute; discriminate.
  - vm_compute; discriminate.
Defined.

(** *** The walk by quantity *)

(** The loop on the quantity buys exactly the smaller of the target and the offer. *)
Lemma walk_shares_loop_spec floor asks : forall w,
  Forall (fun l => lv_price l <= MICRO_SCALE /\ lv_size l <= i64_max) asks ->
  0 <= wk_left w -> 0 <= wk_shares w -> wk_shares w + wk_left w <= i64_max ->
  let w' := walk_shares_loop asks floor w in
  wk_left w' = wk_left w - Z.min (wk_left w) (sizes (eligible floor asks)) /\
  wk_shares w' = wk_shares w + Z.min (wk_left w) (sizes (eligible floor asks)).
Proof.
  induction asks as [|l asks IH]; intros w Ha Hl Hs Hsl w'; simpl in w'.
  { subst w'. unfold sizes. simpl. lia. }
  apply Forall_cons in Ha as [[Hp Hz] Ha]. subst w'. simpl.
  destruct (eligible_sizes floor (l :: asks)) as [_ Hpos0]; [by constructor|]. simpl in Hpos0.
  unfold is_zero. destruct (Z.eqb_spec (wk_left w) 0) as [E0|E0]; [simpl; lia|].
  destruct (_ || _) eqn:E; [by apply IH|].
  destruct (lv_price l <? floor) eqn:Ef; [unfold sizes; simpl; lia|].
  zbool. unfold sizes in *. simpl in *. destruct (eligible_sizes floor asks Ha) as [_ Hpos].
  unfold sizes in Hpos. set (fill := Z.min _ _). set (cost := mul_shares _ _).
  assert (wk_left (buy w (wrap_i64 (wk_left w - fill)) fill cost) = wk_left w - fill) as E1
    by (simpl; rewrite wrap_i64_id; unfold_ints; lia).
  assert (wk_shares (buy w (wrap_i64 (wk_left w - fill)) fill cost) = wk_shares w + fill) as E2
    by (simpl; rewrite wrap_i64_id; unfold_ints; lia).
  destruct (IH (buy w (wrap_i64 (wk_left w - fill)) fill cost)) as [H1 H2]; try done; try lia.
Qed.

(** Buying a quantity gives exactly the smaller of the target and the offer, and the flag tells
    which. *)
Lemma walk_by_shares_exact asks target floor depth :
  Forall (fun l => lv_price l <= MICRO_SCALE /\ lv_size l <= i64_max) asks -> 0 <= target <= i64_max ->
  match walk_asks_by_shares asks target floor depth with
  | Some r => wr_shares r = Z.min target (sizes (eligible floor asks)) /\
              (wr_fully_filled r = true <-> wr_shares r = target)
  | None => Z.min target (sizes (eligible floor asks)) = 0
  end.
Proof.
  intros Ha Ht. unfold walk_asks_by_shares.
  destruct (walk_shares_loop_spec floor asks (start_walk target)) as [H1 H2]; simpl; try done; try lia.
  set (w := walk_shares_loop asks floor (start_walk target)) in *. simpl in *.
  unfold walk_result, is_zero. destruct (Z.eqb_spec (wk_shares w) 0); simpl; [lia|].
  split; [lia|]. rewrite Z.eqb_eq. lia.
Qed.

(** ** The gate *)

Section GateFacts.
Context `{DecimalOps}.

Lemma stale_leg_is_oldest v now ty tn :
  (stalest_leg v now ty tn).2 = max_staleness_ms v now.
Proof. unfold stalest_leg, max_staleness_ms. case_match eqn:E; zbool; simpl; lia. Qed.

(** The gate passes exactly when its diagnostic form, run with the same threshold, finds nothing. *)
Lemma gate_pass_iff_no_error pair now threshold ty tn :
  gate_pass pair now threshold = true <-> gate_check (pair_view pair) now threshold ty tn = [].
Proof.
  unfold gate_pass, gate_check, check_side_empty, check_crossed, view_is_crossed.
  rewrite Z.leb_antisym.
  repeat case_match; simplify_eq/=; try done; naive_solver.
Qed.
End GateFacts.
