(* ===== verification/OrderBook.v ===== *)
(** * The live order book: [oxide-arb-core/src/pipeline/order_book.rs]

    The writer-side book of one token: whole snapshots, incremental changes located by binary
    search, and the snapshots it publishes.  Copy-on-write is invisible to the values, so an
    [Arc] slice is a list.  Each side is an ordered list that should stand for a map from prices
    to sizes; the theorems say that it does. *)

From stdpp Require Import sorting.
From S2P Require Import Prelude Decimal Micro Config Domain Book.

(** [core/pipeline/order_book.rs:16-21] `OrderBook` *)
Record OrderBook := {
  ob_bids : list BookLevel;
  ob_asks : list BookLevel;
  ob_last_update_ms : Z;
  ob_token_id : TokenId
}.

(** [core/pipeline/order_book.rs:24-31] `OrderBook::new` *)
Definition new_order_book (token_id : TokenId) : OrderBook :=
  {| ob_bids := []; ob_asks := []; ob_last_update_ms := 0; ob_token_id := token_id |}.

(** The sort key of a side: bids are kept by falling price, asks by rising price. *)
Definition key (descending : bool) (price : MicroPrice) : Z := if descending then - price else price.
Definition lkey (descending : bool) (l : BookLevel) : Z := key descending (lv_price l).

(** [sort_by_key]: stable, so insertion sort gives the same list. *)
Fixpoint sort_insert (descending : bool) (x : BookLevel) (l : list BookLevel) : list BookLevel :=
  match l with
  | [] => [x]
  | y :: ys => if lkey descending x <=? lkey descending y then x :: l else y :: sort_insert descending x ys
  end.
Definition sort_levels (descending : bool) (l : list BookLevel) : list BookLevel :=
  foldr (sort_insert descending) [] l.

(** [core/pipeline/order_book.rs:34-49] `OrderBook::apply_snapshot` *)
Definition apply_snapshot (ob : OrderBook) (bids asks : list BookLevel) (timestamp_ms : Z) : OrderBook := {|
  ob_bids := filter (fun l => is_positive (lv_size l)) (sort_levels true bids);
  ob_asks := filter (fun l => is_positive (lv_size l)) (sort_levels false asks);
  ob_last_update_ms := timestamp_ms; ob_token_id := ob_token_id ob |}.

(** [core/pipeline/order_book.rs:52-71] `OrderBook::apply_snapshot_validated`, also
    `apply_snapshot_arc` *)
Definition apply_snapshot_validated (ob : OrderBook) (bids asks : list BookLevel) (timestamp_ms : Z) : OrderBook := {|
  ob_bids := bids; ob_asks := asks; ob_last_update_ms := timestamp_ms; ob_token_id := ob_token_id ob |}.

(** *** Binary search

    [slice::binary_search_by]: the candidate range starts at [base] and has [size] elements;
    every turn halves it.  [fuel] bounds the turns; the length of the slice is enough. *)
Fixpoint search_loop (fuel : nat) (levels : list BookLevel) (descending : bool) (k : Z) (base size : nat) : nat :=
  match fuel with
  | O => base
  | S fuel =>
      if (size <=? 1)%nat then base
      else
        let half := (size / 2)%nat in
        let mid := (base + half)%nat in
        let base' := match levels !! mid with
                     | Some l => if k <? lkey descending l then base else mid
                     | None => base
                     end in
        search_loop fuel levels descending k base' (size - half)
  end.

(** [core/pipeline/order_book.rs:224-233] `find_level`: [Ok] is the index of a level at the price,
    [Err] the index to insert at *)
Definition find_level (levels : list BookLevel) (price : MicroPrice) (descending : bool) : Result nat nat :=
  let base := search_loop (length levels) levels descending (key descending price) 0 (length levels) in
  match levels !! base with
  | None => Err 0%nat
  | Some l =>
      match lkey descending l ?= key descending price with
      | Eq => Ok base
      | Lt => Err (S base)
      | Gt => Err base
      end
  end.

(** [core/pipeline/order_book.rs:236-251] `apply_level_delta` *)
Definition apply_level_delta (levels : list BookLevel) (level : BookLevel) (descending : bool) : list BookLevel :=
  match find_level levels (lv_price level) descending with
  | Ok idx =>
      if is_positive (lv_size level)
      then alter (fun l => {| lv_price := lv_price l; lv_size := lv_size level |}) idx levels
      else delete idx levels
  | Err idx =>
      if is_positive (lv_size level) then take idx levels ++ level :: drop idx levels else levels
  end.

(** [core/pipeline/order_book.rs:212-221] `apply_side_deltas` *)
Definition apply_side_deltas (side : list BookLevel) (changes : list BookLevel) (descending : bool) : list BookLevel :=
  foldl (fun levels level => apply_level_delta levels level descending) side changes.

Section Deltas.
Context `{DecimalOps}.

(** [core/pipeline/order_book.rs:146-148] `OrderBook::best_bid` *)
Definition ob_best_bid (ob : OrderBook) : option D := price_decimal <$> head (ob_bids ob).
(** [core/pipeline/order_book.rs:151-153] `OrderBook::best_ask` *)
Definition ob_best_ask (ob : OrderBook) : option D := price_decimal <$> head (ob_asks ob).

(** [core/pipeline/order_book.rs:156-161] `OrderBook::spread` *)
Definition spread (ob : OrderBook) : option D :=
  match ob_best_ask ob, ob_best_bid ob with
  | Some ask, Some bid => Some (dsub ask bid)
  | _, _ => None
  end.

(** [core/pipeline/order_book.rs:164-169] `OrderBook::is_crossed` *)
Definition ob_is_crossed (ob : OrderBook) : bool :=
  match ob_best_bid ob, ob_best_ask ob with
  | Some bid, Some ask => dleb ask bid
  | _, _ => false
  end.

(** [core/pipeline/order_book.rs:198-208] `OrderBook::should_place_on_bids` *)
Definition should_place_on_bids (ob : OrderBook) (price : D) : bool :=
  match ob_best_bid ob, ob_best_ask ob with
  | Some bid, Some ask => dltb price (ddiv (dadd bid ask) (dlit 2 0))
  | Some bid, None => dleb price bid
  | None, Some ask => dltb price ask
  | None, None => true
  end.

Definition is_buy (s : Side) : bool := match s with Buy => true | Sell => false end.

(** Where a change goes: to the bids, to the asks or nowhere. *)
Inductive Route := ToBids | ToAsks | Dropped.

(** [core/pipeline/order_book.rs:91-111] `OrderBook::apply_delta_cow`, the routing of a change *)
Definition route (ob : OrderBook) (side : Side) (price : D) (level : BookLevel) : Route :=
  let on_bids := is_buy side || is_ok (find_level (ob_bids ob) (lv_price level) true) in
  let on_asks := negb (is_buy side) || is_ok (find_level (ob_asks ob) (lv_price level) false) in
  if on_bids && negb on_asks then ToBids
  else if on_asks && negb on_bids then ToAsks
  else if on_bids then ToBids
  else if on_asks then ToAsks
  else if is_positive (lv_size level) then
    if is_buy side || should_place_on_bids ob price then ToBids else ToAsks
  else Dropped.

(** [core/pipeline/order_book.rs:85-112] `OrderBook::apply_delta_cow`, the two lists of changes *)
Fixpoint split_changes (ob : OrderBook) (changes : list (Side * D * D)) : list BookLevel * list BookLevel :=
  match changes with
  | [] => ([], [])
  | (side, price, size) :: rest =>
      let '(b, a) := split_changes ob rest in
      match level_from_decimal price size with
      | Err _ => (b, a)
      | Ok level =>
          match route ob side price level with
          | ToBids => (level :: b, a)
          | ToAsks => (b, level :: a)
          | Dropped => (b, a)
          end
      end
  end.

(** [core/pipeline/order_book.rs:81-115] `OrderBook::apply_delta_cow`, also `apply_delta` *)
Definition apply_delta_cow (ob : OrderBook) (changes : list (Side * D * D)) (timestamp_ms : Z) : OrderBook :=
  let '(bid_changes, ask_changes) := split_changes ob changes in
  {| ob_bids := apply_side_deltas (ob_bids ob) bid_changes true;
     ob_asks := apply_side_deltas (ob_asks ob) ask_changes false;
     ob_last_update_ms := timestamp_ms; ob_token_id := ob_token_id ob |}.
End Deltas.

(** [core/pipeline/order_book.rs:120-133] `OrderBook::publish_cow`, also `publish` *)
Definition publish_cow (ob : OrderBook) (version : Z) : BookSnapshot :=
  new_book_snapshot (ob_bids ob) (ob_asks ob) (ob_last_update_ms ob) version.

(** ** A side stands for a map *)

(** Strictly ordered by price, every size positive. *)
Definition side_ok (descending : bool) (levels : list BookLevel) : Prop :=
  StronglySorted (fun a b => lkey descending a < lkey descending b) levels /\
  Forall (fun l => 0 < lv_size l) levels.

Definition side_map (levels : list BookLevel) : gmap MicroPrice MicroShares :=
  list_to_map ((fun l => (lv_price l, lv_size l)) <$> levels).

(** What a change does to the map: a positive size is stored, another removes the price. *)
Definition map_delta (m : gmap MicroPrice MicroShares) (level : BookLevel) : gmap MicroPrice MicroShares :=
  if is_positive (lv_size level) then <[lv_price level := lv_size level]> m else delete (lv_price level) m.

#[local] Arguments Nat.div : simpl never.

Section SideFacts.
Context (descending : bool).
Implicit Types (levels : list BookLevel).

Lemma key_inj p q : key descending p = key descending q -> p = q.
Proof. unfold key. destruct descending; lia. Qed.

(** *** Binary search finds the price or the place for it *)

(** Non-strictly ordered, by index. *)
Definition ordered levels : Prop :=
  forall i j a b, (i < j)%nat -> levels !! i = Some a -> levels !! j = Some b -> lkey descending a <= lkey descending b.

Lemma side_ok_ordered levels : side_ok descending levels -> ordered levels.
Proof.
  intros [Hs _] i j a b Hij Ha Hb.
  assert (levels = take j levels ++ b :: drop (S j) levels) as E by (by rewrite take_drop_middle).
  rewrite E in Hs. apply StronglySorted_app in Hs as (Hs & _ & _).
  assert (lkey descending a < lkey descending b); [|lia].
  apply Hs; [|by left]. apply list_elem_of_lookup. exists i. by rewrite lookup_take_lt.
Qed.

Lemma search_loop_spec levels k : ordered levels ->
  forall fuel base size, (size <= S fuel)%nat -> (0 < size)%nat -> (base + size <= length levels)%nat ->
  (base = 0%nat \/ exists l, levels !! base = Some l /\ lkey descending l <= k) ->
  (forall j l, (base + size <= j)%nat -> levels !! j = Some l -> k < lkey descending l) ->
  let b := search_loop fuel levels descending k base size in
  (b < length levels)%nat /\
  (b = 0%nat \/ exists l, levels !! b = Some l /\ lkey descending l <= k) /\
  (forall j l, (b < j)%nat -> levels !! j = Some l -> k < lkey descending l).
Proof.
  intros Ho. induction fuel as [|fuel IH]; intros base size Hf Hs Hl Hb Hhi; simpl.
  { split; [lia|]. split; [done|]. intros j l Hj. apply Hhi. lia. }
  destruct (Nat.leb_spec size 1) as [Hs1|Hs1].
  { split; [lia|]. split; [done|]. intros j l Hj. apply Hhi. lia. }
  assert (0 < size / 2 < size /\ 2 * (size / 2) <= size)%nat as Hh.
  { split_and!; [apply Nat.div_str_pos; lia | apply Nat.div_lt; lia | apply Nat.Div0.mul_div_le]. }
  destruct (lookup_lt_is_Some_2 levels (base + size / 2)%nat) as [l Hmid]; [lia|]. rewrite Hmid.
  destruct (Z.ltb_spec k (lkey descending l)) as [Hk|Hk]; apply IH; try lia; try done.
  - intros j l' Hj Hl'. destruct (Nat.eq_dec j (base + size / 2)%nat) as [->|Hne].
    + by simplify_eq.
    + assert (base + size / 2 < j)%nat as Hlt by lia. pose proof (Ho _ _ _ _ Hlt Hmid Hl'). lia.
  - right. eauto.
  - intros j l' Hj. apply Hhi. lia.
Qed.

Lemma find_level_spec levels price : ordered levels ->
  match find_level levels price descending with
  | Ok i => exists l, levels !! i = Some l /\ lv_price l = price
  | Err i => (i <= length levels)%nat /\
             (forall j l, (j < i)%nat -> levels !! j = Some l -> lkey descending l < key descending price) /\
             (forall j l, (i <= j)%nat -> levels !! j = Some l -> key descending price < lkey descending l)
  end.
Proof.
  intros Ho. unfold find_level. set (k := key descending price).
  destruct (decide (levels = [])) as [->|Hne]; [simpl; split_and!; intros; try done; lia|].
  assert (0 < length levels)%nat as Hlen by (destruct levels; [done | simpl; lia]).
  destruct (search_loop_spec levels k Ho (length levels) 0 (length levels)) as (Hb & Hlo & Hhi); [lia | lia | lia | by left | |].
  { intros j l Hj Hl. apply lookup_lt_Some in Hl. lia. }
  set (b := search_loop _ _ _ _ _ _) in *.
  destruct (lookup_lt_is_Some_2 levels b Hb) as [l El]. rewrite El.
  destruct (Z.compare_spec (lkey descending l) k) as [E|E|E].
  - exists l. split; [done|]. by apply key_inj.
  - split; [lia|]. split.
    + intros j l' Hj Hl'. destruct (Nat.eq_dec j b) as [->|Hjb]; [by simplify_eq|].
      assert (j < b)%nat as Hlt by lia. pose proof (Ho _ _ _ _ Hlt Hl' El). lia.
    + intros j l' Hj. apply Hhi. lia.
  - destruct Hlo as [->|(l' & El' & Hle)]; [|simplify_eq; lia].
    split; [lia|]. split; [intros; lia|]. intros j l' Hj Hl'.
    destruct (Nat.eq_dec j 0%nat) as [->|Hj0]; [by simplify_eq|]. apply (Hhi j); [lia|done].
Qed.

(** *** A change to one level is a change to the map *)

Lemma side_map_app l1 l2 : side_map (l1 ++ l2) = side_map l1 ∪ side_map l2.
Proof. unfold side_map. by rewrite fmap_app, list_to_map_app. Qed.

Lemma side_map_cons l ls : side_map (l :: ls) = <[lv_price l := lv_size l]> (side_map ls).
Proof. done. Qed.

Lemma side_map_None levels p : Forall (fun l => lv_price l <> p) levels -> side_map levels !! p = None.
Proof.
  intros Hf. unfold side_map. apply not_elem_of_list_to_map_1. intros Hin.
  apply list_elem_of_fmap in Hin as ([q z] & -> & Hin). apply list_elem_of_fmap in Hin as (l & [= -> ->] & Hl).
  by eapply Forall_forall in Hf; [apply Hf|].
Qed.

(** A side with [x] in the middle: everything before is better, everything after is worse. *)
Lemma side_ok_middle l1 x l2 :
  side_ok descending (l1 ++ x :: l2) <->
  side_ok descending l1 /\ side_ok descending l2 /\ 0 < lv_size x /\
  Forall (fun a => lkey descending a < lkey descending x) l1 /\
  Forall (fun b => lkey descending x < lkey descending b) l2 /\
  (forall a b, a ∈ l1 -> b ∈ l2 -> lkey descending a < lkey descending b).
Proof.
  unfold side_ok. rewrite StronglySorted_app, StronglySorted_cons, Forall_app, !Forall_cons, !Forall_forall.
  setoid_rewrite elem_of_cons. naive_solver.
Qed.

Lemma lt_key_neq (l : BookLevel) p : lkey descending l < key descending p -> lv_price l <> p.
Proof. unfold lkey. intros Hlt E. rewrite E in Hlt. lia. Qed.

Lemma gt_key_neq (l : BookLevel) p : key descending p < lkey descending l -> lv_price l <> p.
Proof. unfold lkey. intros Hlt E. rewrite E in Hlt. lia. Qed.

(** The parts of the map around the middle do not contain its price. *)
Lemma middle_absent l1 l2 p :
  Forall (fun a => lkey descending a < key descending p) l1 ->
  Forall (fun b => key descending p < lkey descending b) l2 ->
  side_map l1 !! p = None /\ side_map l2 !! p = None.
Proof.
  intros H1 H2. split; apply side_map_None; eapply Forall_impl; try done; intros; eauto using lt_key_neq, gt_key_neq.
Qed.

Lemma side_map_middle l1 x l2 :
  side_map l1 !! lv_price x = None ->
  side_map (l1 ++ x :: l2) = <[lv_price x := lv_size x]> (side_map l1 ∪ side_map l2).
Proof. intros Hn. rewrite side_map_app, side_map_cons. by rewrite <- insert_union_r. Qed.

Lemma alter_middle {A} (f : A -> A) (l1 l2 : list A) x :
  alter f (length l1) (l1 ++ x :: l2) = l1 ++ f x :: l2.
Proof. induction l1 as [|a l1 IH]; [done|]. unfold alter in *. simpl. by rewrite IH. Qed.

Lemma delta_found l1 x l2 level :
  side_ok descending (l1 ++ x :: l2) -> lv_price x = lv_price level ->
  let levels := l1 ++ x :: l2 in
  let levels' := if is_positive (lv_size level)
                 then alter (fun l => {| lv_price := lv_price l; lv_size := lv_size level |}) (length l1) levels
                 else delete (length l1) levels in
  side_ok descending levels' /\ side_map levels' = map_delta (side_map levels) level.
Proof.
  intros Hok Ex. apply side_ok_middle in Hok as (H1 & H2 & Hx & Hlo & Hhi & Hcross). cbv zeta.
  unfold lkey in Hlo at 2, Hhi at 1. rewrite Ex in Hlo, Hhi.
  destruct (middle_absent l1 l2 (lv_price level) Hlo Hhi) as [N1 N2].
  unfold map_delta, is_positive. destruct (Z.ltb_spec 0 (lv_size level)) as [Hs|Hs].
  - rewrite alter_middle. split.
    + apply side_ok_middle. unfold lkey at 2 4. simpl. rewrite Ex. done.
    + rewrite !side_map_middle by (simpl; by rewrite Ex). simpl. rewrite Ex. by rewrite insert_insert_eq.
  - rewrite delete_middle. split.
    + unfold side_ok in *. rewrite StronglySorted_app, Forall_app. naive_solver.
    + rewrite side_map_middle by (by rewrite Ex). rewrite Ex, delete_insert_id, side_map_app; [done|].
      rewrite lookup_union, N1, N2. done.
Qed.

Lemma delta_absent l1 l2 level :
  side_ok descending (l1 ++ l2) ->
  Forall (fun a => lkey descending a < key descending (lv_price level)) l1 ->
  Forall (fun b => key descending (lv_price level) < lkey descending b) l2 ->
  let levels' := if is_positive (lv_size level) then l1 ++ level :: l2 else l1 ++ l2 in
  side_ok descending levels' /\ side_map levels' = map_delta (side_map (l1 ++ l2)) level.
Proof.
  intros [Hs Hpos] Hlo Hhi. cbv zeta. destruct (middle_absent l1 l2 (lv_price level) Hlo Hhi) as [N1 N2].
  unfold map_delta, is_positive. destruct (Z.ltb_spec 0 (lv_size level)) as [Hz|Hz].
  - split; [|by rewrite side_map_middle, side_map_app by done].
    apply side_ok_middle. unfold side_ok. rewrite StronglySorted_app in Hs. rewrite Forall_app in Hpos.
    destruct Hs as (Hc & Hs1 & Hs2), Hpos as [Hp1 Hp2]. by split_and!.
  - split; [done|]. rewrite delete_id; [done|]. by rewrite side_map_app, lookup_union, N1, N2.
Qed.

Lemma apply_level_delta_spec levels level :
  side_ok descending levels ->
  side_ok descending (apply_level_delta levels level descending) /\
  side_map (apply_level_delta levels level descending) = map_delta (side_map levels) level.
Proof.
  intros Hok. unfold apply_level_delta.
  pose proof (find_level_spec levels (lv_price level) (side_ok_ordered _ Hok)) as Hf.
  destruct (find_level levels (lv_price level) descending) as [i|i].
  - destruct Hf as (x & Hi & Ex). apply list_elem_of_split_length in Hi as (l1 & l2 & -> & ->).
    by apply delta_found.
  - destruct Hf as (Hlen & Hlo & Hhi). pose proof (delta_absent (take i levels) (drop i levels) level) as Hd.
    rewrite take_drop in Hd. apply Hd; [done | |].
    + apply Forall_lookup. intros j l Hj. apply lookup_take_Some in Hj as [Hj Hji]. eauto.
    + apply Forall_lookup. intros j l Hj. rewrite lookup_drop in Hj. eapply Hhi; [|done]. lia.
Qed.

Lemma apply_side_deltas_spec changes : forall levels,
  side_ok descending levels ->
  side_ok descending (apply_side_deltas levels changes descending) /\
  side_map (apply_side_deltas levels changes descending) = foldl map_delta (side_map levels) changes.
Proof.
  unfold apply_side_deltas. induction changes as [|l changes IH]; intros levels Hok; simpl; [done|].
  destruct (apply_level_delta_spec levels l Hok) as [Hok' Hm]. rewrite <- Hm. by apply IH.
Qed.
End SideFacts.

(** *** Snapshots *)

Section SnapshotFacts.
Context (descending : bool).
Implicit Types (levels : list BookLevel).

Lemma sort_insert_perm x levels : sort_insert descending x levels ≡ₚ x :: levels.
Proof.
  induction levels as [|y ys IH]; simpl; [done|]. case_match; [done|]. rewrite IH. by apply Permutation_swap.
Qed.

Lemma sort_levels_perm levels : sort_levels descending levels ≡ₚ levels.
Proof. induction levels as [|x xs IH]; simpl; [done|]. by rewrite sort_insert_perm, IH. Qed.

Lemma sort_insert_sorted x levels :
  StronglySorted (fun a b => lkey descending a <= lkey descending b) levels ->
  StronglySorted (fun a b => lkey descending a <= lkey descending b) (sort_insert descending x levels).
Proof.
  induction 1 as [|y ys Hs IH Hy]; simpl; [by repeat constructor|].
  destruct (Z.leb_spec (lkey descending x) (lkey descending y)).
  - constructor; [by constructor|]. constructor; [done|].
    eapply Forall_impl; [exact Hy|]. simpl. lia.
  - constructor; [done|]. apply Forall_forall. intros z Hz.
    rewrite sort_insert_perm in Hz. apply elem_of_cons in Hz as [->|Hz]; [lia|].
    by eapply Forall_forall in Hy.
Qed.

Lemma sort_levels_sorted levels :
  StronglySorted (fun a b => lkey descending a <= lkey descending b) (sort_levels descending levels).
Proof. induction levels; simpl; [constructor | by apply sort_insert_sorted]. Qed.

Lemma sorted_strict levels :
  StronglySorted (fun a b => lkey descending a <= lkey descending b) levels -> NoDup (lv_price <$> levels) ->
  StronglySorted (fun a b => lkey descending a < lkey descending b) levels.
Proof.
  induction 1 as [|y ys Hs IH Hy]; simpl; [constructor|]. intros [Hnot Hnd]%NoDup_cons.
  constructor; [by apply IH|]. apply Forall_forall. intros z Hz.
  assert (lkey descending y <= lkey descending z) by (by eapply Forall_forall in Hy).
  assert (lkey descending y <> lkey descending z); [|lia].
  intros E. apply key_inj in E. apply Hnot. rewrite E. by apply list_elem_of_fmap_2.
Qed.

Lemma filter_sorted {A} (R : A -> A -> Prop) (P : A -> Prop) `{forall x, Decision (P x)} (l : list A) :
  StronglySorted R l -> StronglySorted R (filter P l).
Proof.
  induction 1 as [|y ys Hs IH Hy]; [constructor|]. rewrite filter_cons. case_decide; [|done].
  constructor; [done|]. apply Forall_forall. intros z Hz%list_elem_of_filter. destruct Hz as [_ Hz].
  by eapply Forall_forall in Hy.
Qed.

Lemma NoDup_prices_filter (P : BookLevel -> Prop) `{forall x, Decision (P x)} levels :
  NoDup (lv_price <$> levels) -> NoDup (lv_price <$> filter P levels).
Proof.
  intros Hn. eapply sublist_NoDup; [exact Hn|]. apply fmap_sublist, sublist_filter.
Qed.

Lemma snapshot_side levels :
  NoDup (lv_price <$> levels) ->
  side_ok descending (filter (fun l => is_positive (lv_size l)) (sort_levels descending levels)) /\
  side_map (filter (fun l => is_positive (lv_size l)) (sort_levels descending levels)) =
  side_map (filter (fun l => is_positive (lv_size l)) levels).
Proof.
  intros Hn. assert (NoDup (lv_price <$> sort_levels descending levels)) as Hn' by (by rewrite sort_levels_perm).
  split; [split|].
  - apply filter_sorted, sorted_strict; [apply sort_levels_sorted | done].
  - apply Forall_forall. intros l [Hl _]%list_elem_of_filter. unfold is_positive in Hl.
    destruct (Z.ltb_spec 0 (lv_size l)); [done|]. by destruct Hl.
  - unfold side_map. apply list_to_map_proper.
    + rewrite <- list_fmap_compose. change (fst ∘ _) with lv_price. by apply NoDup_prices_filter.
    + by rewrite sort_levels_perm.
Qed.
End SnapshotFacts.

(** ** The book *)

Definition book_ok (ob : OrderBook) : Prop := side_ok true (ob_bids ob) /\ side_ok false (ob_asks ob).

Section BookFacts.
Context `{DecimalOps}.
Implicit Types (ob : OrderBook).

Lemma find_level_in_map descending levels p :
  side_ok descending levels ->
  is_ok (find_level levels p descending) = bool_decide (is_Some (side_map levels !! p)).
Proof.
  intros Hok. pose proof (find_level_spec descending levels p (side_ok_ordered _ _ Hok)) as Hf.
  symmetry. destruct (find_level levels p descending) as [i|i]; simpl.
  - destruct Hf as (x & Hi & Ex). apply bool_decide_eq_true.
    apply list_elem_of_split_length in Hi as (l1 & l2 & -> & _).
    rewrite side_map_app, lookup_union, side_map_cons, Ex, lookup_insert_eq.
    destruct (side_map l1 !! p); eauto.
  - destruct Hf as (_ & Hlo & Hhi). apply bool_decide_eq_false.
    rewrite side_map_None; [by intros [? ?]|].
    apply Forall_lookup. intros j l Hj. destruct (Nat.lt_ge_cases j i);
      eauto using lt_key_neq, gt_key_neq.
Qed.

(** The changes of one side, in order; unreadable ones are skipped. *)
Definition changes_of (side : Side) (changes : list (Side * D * D)) : list BookLevel :=
  omap (fun c => if decide (c.1.1 = side)
                 then match level_from_decimal c.1.2 c.2 with Ok l => Some l | Err _ => None end
                 else None) changes.

(** No sale is announced at a price the bids hold. *)
Definition sales_clear_of_bids ob (changes : list (Side * D * D)) : Prop :=
  Forall (fun l => side_map (ob_bids ob) !! lv_price l = None) (changes_of Sell changes).

Lemma route_buy ob price l : route ob Buy price l = ToBids.
Proof. unfold route. simpl. by destruct (is_ok _). Qed.

Lemma route_sell ob price l : book_ok ob ->
  route ob Sell price l = match side_map (ob_bids ob) !! lv_price l with Some _ => ToBids | None => ToAsks end.
Proof.
  intros [Hb _]. unfold route. simpl. rewrite (find_level_in_map true _ _ Hb).
  by destruct (side_map (ob_bids ob) !! lv_price l) eqn:E; rewrite ?bool_decide_true, ?bool_decide_false by naive_solver.
Qed.

Lemma split_changes_spec ob changes :
  book_ok ob -> sales_clear_of_bids ob changes ->
  split_changes ob changes = (changes_of Buy changes, changes_of Sell changes).
Proof.
  intros Hok. induction changes as [|[[side price] size] rest IH]; intros Hc; [done|].
  unfold sales_clear_of_bids in *. simpl in *. destruct side; simpl in *.
  - rewrite IH by (revert Hc; by destruct (level_from_decimal price size)).
    destruct (level_from_decimal price size); [by rewrite route_buy | done].
  - destruct (level_from_decimal price size) as [l|] eqn:El; simpl in *; [|by rewrite IH].
    apply Forall_cons in Hc as [Hl Hc]. rewrite IH by done. rewrite route_sell by done. by rewrite Hl.
Qed.

Lemma delta_keeps_book_ok ob changes ts : book_ok ob -> book_ok (apply_delta_cow ob changes ts).
Proof.
  intros [Hb Ha]. unfold apply_delta_cow. destruct (split_changes ob changes) as [b a].
  split; simpl; by apply apply_side_deltas_spec.
Qed.

(** C12: Each side of the book is a price-sorted list without duplicates or empty levels that stands
    for a map from prices to sizes: a batch of changes leaves it so, and, when no sale is
    announced at a price the bids hold, its effect on the two maps is the changes of each side
    applied in order: a positive size is stored, another size removes the price. *)
Theorem delta_updates_maps ob changes ts :
  book_ok ob -> sales_clear_of_bids ob changes ->
  let ob' := apply_delta_cow ob changes ts in
  book_ok ob' /\
  side_map (ob_bids ob') = foldl map_delta (side_map (ob_bids ob)) (changes_of Buy changes) /\
  side_map (ob_asks ob') = foldl map_delta (side_map (ob_asks ob)) (changes_of Sell changes).
Proof.
  intros Hok Hc ob'. split; [by apply delta_keeps_book_ok|].
  subst ob'. unfold apply_delta_cow. rewrite split_changes_spec by done. simpl.
  destruct Hok as [Hb Ha]. split; by apply apply_side_deltas_spec.
Qed.

(** A sale announced at a price where the book holds a bid is stored as a bid, also when the same
    batch withdraws that bid first: the offer shows as demand and is missing from the asks. *)
Theorem sale_at_bid_price_becomes_bid ob price (old : D) size l0 l n ts :
  book_ok ob ->
  level_from_decimal price old = Ok l0 -> lv_size l0 = 0 ->
  level_from_decimal price size = Ok l -> 0 < lv_size l ->
  side_map (ob_bids ob) !! lv_price l = Some n -> lv_price l0 = lv_price l ->
  let ob' := apply_delta_cow ob [(Buy, price, old); (Sell, price, size)] ts in
  side_map (ob_bids ob') !! lv_price l = Some (lv_size l) /\ ob_asks ob' = ob_asks ob.
Proof.
  intros Hok E0 Hz E Hs Hb Ep ob'. subst ob'. unfold apply_delta_cow. simpl.
  rewrite E0, E, (route_sell ob price l Hok), Hb, route_buy. simpl. split; [|done].
  destruct Hok as [Hbids _].
  destruct (apply_level_delta_spec true (ob_bids ob) l0 Hbids) as [Hok1 _].
  destruct (apply_level_delta_spec true (apply_level_delta (ob_bids ob) l0 true) l Hok1) as [_ Hm].
  rewrite Hm. unfold map_delta, is_positive. rewrite (proj2 (Z.ltb_lt 0 (lv_size l)) Hs).
  by rewrite lookup_insert_eq.
Qed.
End BookFacts.

(** What a book may be told: whole snapshots with distinct prices on each side, or changes. *)
Inductive book_event `{DecimalOps} :=
| Snapshot (bids asks : list BookLevel) (timestamp_ms : Z)
| Delta (changes : list (Side * D * D)) (timestamp_ms : Z).

Definition book_step `{DecimalOps} (ob : OrderBook) (e : book_event) : OrderBook :=
  match e with
  | Snapshot bids asks ts => apply_snapshot ob bids asks ts
  | Delta changes ts => apply_delta_cow ob changes ts
  end.

Definition event_ok `{DecimalOps} (e : book_event) : Prop :=
  match e with
  | Snapshot bids asks _ => NoDup (lv_price <$> bids) /\ NoDup (lv_price <$> asks)
  | Delta _ _ => True
  end.

Lemma book_run_ok `{DecimalOps} events : forall ob,
  book_ok ob -> Forall event_ok events -> book_ok (foldl book_step ob events).
Proof.
  induction events as [|e events IH]; intros ob Hok Hev; [done|].
  apply Forall_cons in Hev as [He Hev]. simpl. apply IH; [|done].
  destruct e as [bids asks ts|changes ts]; simpl; [|by apply delta_keeps_book_ok].
  destruct He as [Hb Ha]. split; simpl; by apply snapshot_side.
Qed.

(** After any sequence of snapshots and changes the published book has its best bid first and
    highest and its best ask first and lowest, its levels have positive sizes, and the search
    finds exactly the prices it holds. *)
Theorem book_stays_sorted `{DecimalOps} token events version :
  Forall event_ok events ->
  let ob := foldl book_step (new_order_book token) events in
  let snap := publish_cow ob version in
  (forall i l, bs_bids snap !! i = Some l -> 0 < lv_size l /\
     forall j l', (i < j)%nat -> bs_bids snap !! j = Some l' -> lv_price l' < lv_price l) /\
  (forall i l, bs_asks snap !! i = Some l -> 0 < lv_size l /\
     forall j l', (i < j)%nat -> bs_asks snap !! j = Some l' -> lv_price l < lv_price l') /\
  (forall p, is_ok (find_level (bs_bids snap) p true) = bool_decide (is_Some (side_map (bs_bids snap) !! p))) /\
  (forall p, is_ok (find_level (bs_asks snap) p false) = bool_decide (is_Some (side_map (bs_asks snap) !! p))).
Proof.
  intros Hev ob snap.
  assert (book_ok ob) as [Hb Ha] by (apply book_run_ok; [by repeat constructor | done]).
  assert (forall d levels, side_ok d levels -> forall i l, levels !! i = Some l -> 0 < lv_size l /\
     forall j l', (i < j)%nat -> levels !! j = Some l' -> lkey d l < lkey d l') as Hgen.
  { intros d levels [Hs Hp] i l Hi. split; [by eapply Forall_lookup_1 in Hp|]. intros j l' Hij Hj.
    rewrite <- (take_drop_middle levels i l Hi) in Hs. apply StronglySorted_app in Hs as (_ & _ & Hs).
    apply StronglySorted_cons in Hs as [Hlt _]. eapply Forall_forall in Hlt; [exact Hlt|].
    apply list_elem_of_lookup. exists (j - S i)%nat. rewrite lookup_drop. by replace (S i + (j - S i))%nat with j by lia. }
  split_and!; simpl.
  - intros i l Hi. destruct (Hgen _ _ Hb i l Hi) as [Hs Hlt]. split; [done|].
    intros j l' Hij Hj. specialize (Hlt j l' Hij Hj). unfold lkey, key in Hlt. lia.
  - intros i l Hi. destruct (Hgen _ _ Ha i l Hi) as [Hs Hlt]. split; [done|].
    intros j l' Hij Hj. specialize (Hlt j l' Hij Hj). unfold lkey, key in Hlt. lia.
  - intros p. by apply find_level_in_map.
  - intros p. by apply find_level_in_map.
Qed.

(** ** A book in use *)

Definition demo_book : OrderBook :=
  apply_snapshot (new_order_book "token")
    [ {| lv_price := 500000; lv_size := 10000000 |}; {| lv_price := 600000; lv_size := 5000000 |};
      {| lv_price := 550000; lv_size := 0 |} ]
    [ {| lv_price := 700000; lv_size := 8000000 |}; {| lv_price := 650000; lv_size := 3000000 |} ] 100.

Definition demo_changes : list (Side * D * D) :=
  [ (Buy, dlit 50 2, dlit 20 0); (Sell, dlit 70 2, dlit 0 0); (Sell, dlit 68 2, dlit 4 0) ].

Lemma demo_book_ok : book_ok demo_book.
Proof.
  apply (book_run_ok [Snapshot _ _ 100] (new_order_book "token")); [by repeat constructor|].
  constructor; [|done]. split; apply (bool_decide_unpack _); by vm_compute.
Qed.

Lemma delta_updates_maps_witness :
  side_map (ob_bids (apply_delta_cow demo_book demo_changes 200)) =
    foldl map_delta (side_map (ob_bids demo_book)) [ {| lv_price := 500000; lv_size := 20000000 |} ] /\
  ob_asks (apply_delta_cow demo_book demo_changes 200) =
    [ {| lv_price := 650000; lv_size := 3000000 |}; {| lv_price := 680000; lv_size := 4000000 |} ].
Proof.
  split; [|by vm_compute].
  destruct (delta_updates_maps demo_book demo_changes 200) as (_ & Hb & _).
  - exact demo_book_ok.
  - unfold sales_clear_of_bids. apply (bool_decide_unpack _). by vm_compute.
  - exact Hb.
Defined.

Lemma sale_at_bid_price_becomes_bid_witness :
  let ob' := apply_delta_cow demo_book [(Buy, dlit 60 2, dlit 0 0); (Sell, dlit 60 2, dlit 9 0)] 200 in
  side_map (ob_bids ob') !! 600000 = Some 9000000 /\ ob_asks ob' = ob_asks demo_book.
Proof.
  apply (sale_at_bid_price_becomes_bid demo_book (dlit 60 2) (dlit 0 0) (dlit 9 0)
           {| lv_price := 600000; lv_size := 0 |} {| lv_price := 600000; lv_size := 9000000 |} 5000000 200);
    first [exact demo_book_ok | by vm_compute | done].
Defined.

Definition demo_events : list book_event :=
  [Snapshot [ {| lv_price := 500000; lv_size := 10000000 |}; {| lv_price := 600000; lv_size := 5000000 |} ] [] 1;
   Delta demo_changes 2].

Lemma book_stays_sorted_witness :
  let snap := publish_cow (foldl book_step (new_order_book "token") demo_events) 7 in
  bs_bids snap !! 0%nat = Some {| lv_price := 600000; lv_size := 5000000 |} /\
  bs_bids snap !! 1%nat = Some {| lv_price := 500000; lv_size := 20000000 |} /\
  500000 < 600000.
Proof.
  intros snap. split; [by vm_compute|]. split; [by vm_compute|].
  destruct (book_stays_sorted "token" demo_events 7) as (Hb & _).
  - constructor; [|by repeat constructor]. split; apply (bool_decide_unpack _); by vm_compute.
  - destruct (Hb 0%nat {| lv_price := 600000; lv_size := 5000000 |}) as [_ Hlt]; [by vm_compute|].
    apply (Hlt 1%nat {| lv_price := 500000; lv_size := 20000000 |}); [lia | by vm_compute].
Defined.
