(* ===== verification/Fees.v ===== *)
(** * Venue fees: [oxide-arb-api/src/fees], [oxide-arb-models/src/config/fees.rs]

    The fee formula with its precomputed endgame table, the schedule book with market-scoped and
    category schedules, quotes for the execution modes, and the estimator the detector uses.
    [MathematicalOps::powd] of the decimal crate is a parameter. *)

From S2P Require Import Prelude Decimal Micro Config Domain.

(** The categories in declaration order, as [MarketCategory::iter] yields them. *)
Definition all_categories : list MarketCategory :=
  [Geopolitics; Sports; Politics; Finance; Tech; Culture; Weather; Economics; Crypto; Other].

(** [models/enums/common.rs:351-367] `MarketCategory::table_index` *)
Definition table_index (c : MarketCategory) : nat :=
  match c with
  | Geopolitics => 0 | Sports => 1 | Politics => 2 | Finance => 3 | Tech => 4
  | Culture => 5 | Weather => 6 | Economics => 7 | Crypto => 8 | Other => 9
  end.

#[global] Instance MarketCategory_eq_dec : EqDecision MarketCategory.
Proof. solve_decision. Defined.
#[global, refine] Instance MarketCategory_countable : Countable MarketCategory :=
  inj_countable table_index (fun i => all_categories !! i) _.
Proof. by intros []. Defined.

Definition category_str (c : MarketCategory) : string :=
  match c with
  | Geopolitics => "geopolitics" | Sports => "sports" | Politics => "politics" | Finance => "finance"
  | Tech => "tech" | Culture => "culture" | Weather => "weather" | Economics => "economics"
  | Crypto => "crypto" | Other => "other"
  end.

(** Two's complement wrap of a signed 128-bit product. *)
Definition wrap_i128 (z : Z) : Z := (z + 2 ^ 127) mod 2 ^ 128 - 2 ^ 127.

Lemma wrap_i128_id z : - 2 ^ 127 <= z < 2 ^ 127 -> wrap_i128 z = z.
Proof. intros. unfold wrap_i128. rewrite Z.mod_small; lia. Qed.

(** [powd] of [rust_decimal]: documented as the power function; the first power is the number. *)
Class DecimalPow `{DecimalOps} := dpow : D -> D -> D.
Class DecimalPowLaws `{DecimalPow} : Prop :=
  dpow_one : forall x e : D, (dval e == 1)%Q -> (dval (dpow x e) == dval x)%Q.

(** ** The formula *)

Section Formula.
Context {DO : DecimalOps} {DP : DecimalPow}.

(** [(x * Decimal::from(MICRO_SCALE)).trunc().to_i64().unwrap_or(0)] *)
Definition trunc_micro (x : D) : Z := unwrap_or (to_i64 (dto_Z (dtrunc (dmul x (dof_Z MICRO_SCALE))))) 0.

(** [api/fees/formula.rs:12-27] `ENDGAME_VOL_MICRO_LUT` *)
Definition ENDGAME_VOL_MICRO_LUT : list (list Z) :=
  let pc cent := let p := ddiv (dof_Z cent) (dlit 100 0) in dmul p (dsub d1 p) in
  [ (fun cent => trunc_micro (pc cent)) <$> [95; 96; 97; 98; 99];
    (fun cent => trunc_micro (dpow (pc cent) (dlit 15 1))) <$> [95; 96; 97; 98; 99] ].

(** [api/fees/formula.rs:30-38] `exp_index` *)
Definition exp_index (exponent : D) : option nat :=
  if deqb exponent (dlit 1 0) then Some 0%nat
  else if deqb exponent (dlit 15 1) then Some 1%nat
  else None.

(** [api/fees/formula.rs:40-57] `volatility_factor_micro` *)
Definition volatility_factor_micro (price : MicroPrice) (exponent : D) : Z :=
  let general :=
    let p := to_decimal price in
    let p_complement := dsub d1 p in
    trunc_micro (dpow (dmul p p_complement) exponent) in
  match exp_index exponent with
  | Some exp_idx =>
      let cents := dtrunc (dmul (to_decimal price) (dlit 100 0)) in
      match checked 0 255 (dto_Z cents) with
      | Some cent =>
          if (95 <=? cent) && (cent <=? 99)
          then nth (Z.to_nat (cent - 95)) (nth exp_idx ENDGAME_VOL_MICRO_LUT []) 0
          else general
      | None => general
      end
  | None => general
  end.

(** [api/fees/formula.rs:59-74] `calculate_fee_micro` *)
Definition calculate_fee_micro (shares : MicroShares) (price : MicroPrice) (fee_rate_micro : Z) (exponent : D) : MicroUsd :=
  if (price <=? 0) || (MICRO_SCALE <=? price) || (shares <=? 0) then 0
  else
    let vol := volatility_factor_micro price exponent in
    let raw := wrap_i128 (wrap_i128 (shares * fee_rate_micro) * vol) ÷ MICRO_SCALE ÷ MICRO_SCALE in
    unwrap_or (to_i64 raw) i64_max.

Definition or_zero (r : Result micro MicroConversionError) : micro :=
  match r with Ok m => m | Err _ => 0 end.

(** [api/fees/formula.rs:76-97] `calculate_fee` *)
Definition calculate_fee (shares price fee_rate exponent : D) : D :=
  if deqb price d0 || deqb price d1 then d0
  else
    let shares_m := or_zero (try_from_decimal shares) in
    let price_m := or_zero (try_from_decimal price) in
    let fee_rate_micro := trunc_micro fee_rate in
    let fee := calculate_fee_micro shares_m price_m fee_rate_micro exponent in
    let rounded := dround_dp 5 (to_decimal fee) in
    if dltb rounded (dlit 1 5) then d0 else rounded.

(** ** Configuration and schedules *)

(** [models/config/fees.rs:16-24] `FeesConfig` *)
Record FeesConfig := {
  fc_exponent : D;
  unknown_category_rate : D;
  category_rates : gmap MarketCategory D
}.

(** [models/config/fees.rs:44-59] `default_category_rates` *)
Definition default_category_rates : gmap MarketCategory D :=
  list_to_map
    [ (Geopolitics, dlit 0 0); (Sports, dlit 3 2); (Crypto, dlit 72 3); (Finance, dlit 4 2); (Politics, dlit 4 2);
      (Tech, dlit 4 2); (Economics, dlit 5 2); (Culture, dlit 5 2); (Weather, dlit 5 2); (Other, dlit 5 2) ].

(** [models/config/fees.rs:26-42] `FeesConfig::default` *)
Definition fees_config_default : FeesConfig := {|
  fc_exponent := dlit 1 0; unknown_category_rate := dlit 5 2; category_rates := default_category_rates |}.

(** [models/config/fees.rs:62-69] `FeesConfig::rate_for` *)
Definition rate_for (c : FeesConfig) (category : MarketCategory) : D :=
  unwrap_or (category_rates c !! category) (unknown_category_rate c).

(** [models/config/fees.rs:71-75] `FeesConfig::all_category_rates` *)
Definition all_category_rates (c : FeesConfig) : list (MarketCategory * D * D) :=
  (fun category => (category, rate_for c category, fc_exponent c)) <$> all_categories.

(** [models/enums/fee.rs:5-11] `FeeSource` *)
Inductive FeeSource := ClobMarketInfo | GammaFeeSchedule | CategoryDefault.

(** [models/enums/fee.rs:24-29] `FeeLiquidityRole` *)
Inductive FeeLiquidityRole := Taker | Maker.

(** [models/domain/accounting/fee.rs:20-30] `MarketFeeSchedule` *)
Record MarketFeeSchedule := {
  fs_market_id : MarketId;
  fees_enabled : bool;
  fs_fee_rate : D;
  fs_exponent : D;
  taker_only : bool;
  rebate_rate : option D;
  fs_source : FeeSource;
  fs_observed_at : Time
}.

(** [models/domain/accounting/fee.rs:32-42] `FeeQuoteInput` *)
Record FeeQuoteInput := {
  fq_market_id : MarketId;
  fq_token_id : TokenId;
  fq_category : MarketCategory;
  fq_side : Side;
  fq_liquidity_role : FeeLiquidityRole;
  fq_shares : D;
  fq_price : D;
  fq_allow_category_fallback : bool
}.

(** [models/domain/accounting/fee.rs:44-50] `FeeQuote` *)
Record FeeQuote := {
  fee_usd : D;
  fq_schedule : MarketFeeSchedule;
  formula_version : string;
  rounded_scale : Z
}.

(** [error/fee.rs:9-13] `FeeQuoteError` *)
Inductive FeeQuoteError := MissingSchedule (market_id detail : string).

(** [error/fee.rs:10-12] `FeeQuoteError`, its message *)
Definition fee_quote_error_str (e : FeeQuoteError) : string :=
  match e with
  | MissingSchedule market_id detail => "missing fee schedule for market " +:+ market_id +:+ ": " +:+ detail
  end.

(** [api/fees/rate_cache.rs:63-69] `CategoryFeeParams` *)
Record CategoryFeeParams := { cp_fee_rate : D; cp_exponent : D }.

(** [api/fees/rate_cache.rs:14-20] `FeeSnapshot` *)
Record FeeSnapshot := {
  market_schedules : gmap MarketId MarketFeeSchedule;
  category_defaults : gmap MarketCategory CategoryFeeParams;
  fs_updated_at : Time
}.

(** [api/fees/rate_cache.rs:23-38] `FeeSnapshot::from_config` *)
Definition fee_snapshot_from_config (config : FeesConfig) (now : Time) : FeeSnapshot := {|
  market_schedules := ∅;
  category_defaults := list_to_map
    ((fun '(category, fee_rate, exponent) => (category, {| cp_fee_rate := fee_rate; cp_exponent := exponent |}))
       <$> all_category_rates config);
  fs_updated_at := now |}.

(** [api/fees/rate_cache.rs:40-60] `FeeSnapshot::category_default_schedule` *)
Definition category_default_schedule (s : FeeSnapshot) (market_id : MarketId) (category : MarketCategory) : option MarketFeeSchedule :=
  match (match category_defaults s !! category with
         | Some params => Some params
         | None => category_defaults s !! Other
         end) with
  | None => None
  | Some params => Some {|
      fs_market_id := market_id; fees_enabled := dltb d0 (cp_fee_rate params); fs_fee_rate := cp_fee_rate params;
      fs_exponent := cp_exponent params; taker_only := true; rebate_rate := None; fs_source := CategoryDefault;
      fs_observed_at := fs_updated_at s |}
  end.

(** [api/fees/mod.rs:72-107] `FeeCalculator::quote` *)
Definition quote (s : FeeSnapshot) (input : FeeQuoteInput) : Result FeeQuote FeeQuoteError :=
  let schedule :=
    match market_schedules s !! fq_market_id input with
    | Some schedule => Ok schedule
    | None =>
        if fq_allow_category_fallback input
        then match category_default_schedule s (fq_market_id input) (fq_category input) with
             | Some schedule => Ok schedule
             | None => Err (MissingSchedule (fq_market_id input) ("no category fallback for " +:+ category_str (fq_category input)))
             end
        else Err (MissingSchedule (fq_market_id input) "category fallback disabled")
    end in
  match schedule with
  | Err e => Err e
  | Ok schedule =>
      let fee := if negb (fees_enabled schedule) || match fq_liquidity_role input with Maker => true | Taker => false end
                 then d0
                 else calculate_fee (fq_shares input) (fq_price input) (fs_fee_rate schedule) (fs_exponent schedule) in
      Ok {| fee_usd := fee; fq_schedule := schedule; formula_version := "polymarket-v1"; rounded_scale := 5 |}
  end.

(** [input.allow_category_fallback = false]. *)
Definition without_fallback (input : FeeQuoteInput) : FeeQuoteInput := {|
  fq_market_id := fq_market_id input; fq_token_id := fq_token_id input; fq_category := fq_category input;
  fq_side := fq_side input; fq_liquidity_role := fq_liquidity_role input; fq_shares := fq_shares input;
  fq_price := fq_price input; fq_allow_category_fallback := false |}.

(** [api/fees/mod.rs:109-119] `FeeCalculator::quote_for_mode` *)
Definition quote_for_mode (s : FeeSnapshot) (mode : ExecutionMode) (input : FeeQuoteInput) : Result FeeQuote FeeQuoteError :=
  quote s (match mode with Live => without_fallback input | DryRun | Paper => input end).

(** [api/fees/mod.rs:47-70] `FeeCalculator::calculate` *)
Definition calculate (s : FeeSnapshot) (shares price : D) (category : MarketCategory) (market_id : MarketId) (token_id : TokenId) : D :=
  match quote s {| fq_market_id := market_id; fq_token_id := token_id; fq_category := category; fq_side := Buy;
                   fq_liquidity_role := Taker; fq_shares := shares; fq_price := price;
                   fq_allow_category_fallback := true |} with
  | Ok q => fee_usd q
  | Err _ => d0
  end.

(** [api/fees/mod.rs:121-138] `FeeCalculator::ingest_market_fee_schedules` *)
Definition ingest_market_fee_schedules (s : FeeSnapshot) (schedules : list MarketFeeSchedule) (now : Time) : FeeSnapshot :=
  match schedules with
  | [] => s
  | _ :: _ => {|
      market_schedules := foldl (fun m schedule => <[fs_market_id schedule := schedule]> m) (market_schedules s) schedules;
      category_defaults := category_defaults s;
      fs_updated_at := now |}
  end.

(** [core/bridge/fee_estimator.rs:11-27] `CoreFeeEstimator::estimate_fee` *)
Definition estimate_fee (s : FeeSnapshot) (shares price : D) (category : MarketCategory) (token_id : TokenId) : D :=
  calculate s shares price category token_id token_id.
End Formula.

(** ** The quoted fee against the venue's formula *)

(** The price whose volatility the calculator uses: in the endgame table a price counts as the
    whole cent below it. *)
Definition effective_price (p : MicroPrice) : MicroPrice := if 950000 <=? p then p / 10000 * 10000 else p.

(** [shares * rate * p * (1 - p)], the venue's formula with its documented exponent. *)
Definition venue_fee (s p r : Z) : Q := (grid s 6 * grid r 6 * (grid p 6 * (1 - grid p 6)))%Q.

Section FormulaFacts.
Context `{DL : DecimalLaws} {DP : DecimalPow} {PL : DecimalPowLaws}.

Lemma pow10_gt s : 0 <= s -> 0 < 10 ^ s.
Proof. intros. apply Z.pow_pos_nonneg; lia. Qed.

Lemma dmul_grid x y a s b t : (dval x == grid a s)%Q -> (dval y == grid b t)%Q ->
  0 <= s -> 0 <= t -> s + t <= 28 -> Z.abs (a * b) < 2 ^ 96 -> (dval (dmul x y) == grid (a * b) (s + t))%Q.
Proof.
  intros Hx Hy Hs Ht Hst Hab. rewrite dmul_spec, Hx, Hy.
  assert (grid a s * grid b t == grid (a * b) (s + t))%Q as ->.
  { pose proof (pow10_gt s Hs). pose proof (pow10_gt t Ht). unfold grid, Qmult, Qeq. simpl.
    rewrite Z.pow_add_r, Z2Pos.inj_mul by lia. done. }
  apply rnd_repr, repr_grid; lia.
Qed.

Lemma dsub_one_grid x a s : (dval x == grid a s)%Q -> 0 <= s <= 28 -> Z.abs (10 ^ s - a) < 2 ^ 96 ->
  (dval (dsub d1 x) == grid (10 ^ s - a) s)%Q.
Proof.
  intros Hx Hs Ha. rewrite dsub_spec, dval_d1, Hx.
  assert (1 - grid a s == grid (10 ^ s - a) s)%Q as ->.
  { pose proof (pow10_gt s ltac:(lia)). unfold grid, Qminus, Qplus, Qopp, Qeq. cbn [Qnum Qden].
    rewrite ?Pos2Z.inj_mul, !Z2Pos.id by lia. ring. }
  apply rnd_repr, repr_grid; lia.
Qed.

Lemma floor_grid n s : 0 <= s -> Qfloor (grid n s) = n / 10 ^ s.
Proof. intros Hs. pose proof (pow10_gt s Hs). unfold grid, Qfloor. by rewrite Z2Pos.id by lia. Qed.

Lemma trunc_grid x n s : (dval x == grid n s)%Q -> 0 <= n -> 0 <= s -> dto_Z (dtrunc x) = n / 10 ^ s.
Proof.
  intros Hx Hn Hs. apply dto_Z_spec. rewrite dtrunc_spec, Hx, floor_grid by
    (done || rewrite ?Hx; unfold grid, Qle; simpl; lia). done.
Qed.

Lemma trunc_micro_grid x n : (dval x == grid n 12)%Q -> 0 <= n <= 10 ^ 12 -> trunc_micro x = n / 10 ^ 6.
Proof.
  intros Hx Hn. unfold trunc_micro.
  assert (dval (dof_Z MICRO_SCALE) == grid 1000000 0)%Q as Hm by (rewrite dof_Z_spec; unfold MICRO_SCALE; [done | lia]).
  rewrite (trunc_grid _ (n * 1000000) 12); [|rewrite (dmul_grid _ _ _ _ _ _ Hx Hm) by lia; done | lia | lia].
  replace (10 ^ 12) with (10 ^ 6 * 1000000) by lia. rewrite Z.div_mul_cancel_r by lia.
  apply unwrap_i64_in. pose proof (Z.div_pos n (10 ^ 6)). assert (n / 10 ^ 6 <= 10 ^ 6) by (apply div_le_upper; lia).
  unfold_ints. lia.
Qed.

Lemma lut_value cent : 95 <= cent <= 99 ->
  nth (Z.to_nat (cent - 95)) (nth 0 ENDGAME_VOL_MICRO_LUT []) 0 = cent * (100 - cent) * 100.
Proof.
  intros Hc. assert (forall c, 95 <= c <= 99 ->
    trunc_micro (dmul (ddiv (dof_Z c) (dlit 100 0)) (dsub d1 (ddiv (dof_Z c) (dlit 100 0)))) = c * (100 - c) * 100) as Hl.
  { intros c Hcc. assert (dval (ddiv (dof_Z c) (dlit 100 0)) == grid c 2)%Q as Hp.
    { rewrite ddiv_spec, dof_Z_spec, dval_lit by (rewrite ?dval_lit; try lia; unfold grid, Qeq; simpl; lia).
      transitivity (rnd (grid c 2)); [|apply rnd_repr, repr_grid; lia].
      apply rnd_proper. unfold grid, inject_Z, Qdiv, Qinv, Qmult, Qeq. simpl. lia. }
    pose proof (dsub_one_grid _ _ _ Hp) as Hq. change (10 ^ 2) with 100 in Hq.
    rewrite (trunc_micro_grid _ (c * (100 - c) * 10 ^ 8)); [|rewrite (dmul_grid _ _ _ _ _ _ Hp (Hq ltac:(lia) ltac:(lia))) by nia|nia].
    - replace (c * (100 - c) * 10 ^ 8) with (c * (100 - c) * 100 * 10 ^ 6) by lia. apply Z.div_mul. lia.
    - unfold grid, Qeq. simpl. lia. }
  assert (cent = 95 \/ cent = 96 \/ cent = 97 \/ cent = 98 \/ cent = 99) as Hcases by lia.
  unfold ENDGAME_VOL_MICRO_LUT. cbv zeta. destruct Hcases as [->|[->|[->|[->| ->]]]]; simpl; by rewrite Hl by lia.
Qed.

Lemma volatility_spec p e : 0 < p < MICRO_SCALE -> (dval e == 1)%Q ->
  volatility_factor_micro p e = effective_price p * (MICRO_SCALE - effective_price p) / MICRO_SCALE.
Proof.
  unfold MICRO_SCALE. intros Hp He. pose proof (to_decimal_val p) as Hd. unfold_ints. specialize (Hd ltac:(lia)).
  unfold volatility_factor_micro, exp_index.
  assert (deqb e (dlit 1 0) = true) as -> by (unfold deqb; apply Qeq_bool_iff; rewrite He, dval_lit by lia; done).
  assert (trunc_micro (dpow (dmul (to_decimal p) (dsub d1 (to_decimal p))) e) = p * (1000000 - p) / 1000000) as Hg.
  { pose proof (dsub_one_grid _ _ _ Hd ltac:(lia) ltac:(lia)) as Hq. change (10 ^ 6) with 1000000 in Hq.
    rewrite (trunc_micro_grid _ (p * (1000000 - p))); [done | | nia].
    rewrite dpow_one by done. rewrite (dmul_grid _ _ _ _ _ _ Hd Hq) by nia. done. }
  assert (dto_Z (dtrunc (dmul (to_decimal p) (dlit 100 0))) = p / 10000) as Hc.
  { rewrite (trunc_grid _ (p * 100) 6); [|rewrite (dmul_grid _ _ _ _ 100 0 Hd) by (apply dval_lit || lia; lia); done | lia | lia].
    change (10 ^ 6) with (10000 * 100). apply Z.div_mul_cancel_r; lia. }
  rewrite Hc. assert (0 <= p / 10000 <= 99) by (pose proof (Z.div_pos p 10000); assert (p / 10000 < 100) by (apply Z.div_lt_upper_bound; lia); lia).
  rewrite checked_in by lia. unfold effective_price.
  destruct (Z.leb_spec 95 (p / 10000)) as [H95|H95]; cbv beta iota zeta delta [andb].
  - rewrite (proj2 (Z.leb_le (p / 10000) 99)) by lia. rewrite lut_value by lia.
    destruct (Z.leb_spec 950000 p); [|pose proof (Z.div_lt_upper_bound p 10000 95); lia].
    replace (p / 10000 * 10000 * (1000000 - p / 10000 * 10000))
      with (p / 10000 * (100 - p / 10000) * 100 * 1000000) by lia. by rewrite Z.div_mul by lia.
  - destruct (Z.leb_spec 950000 p); [|exact Hg]. pose proof (Z.div_le_lower_bound p 10000 95). lia.
Qed.

Lemma effective_range p : 0 < p < MICRO_SCALE -> 0 < effective_price p <= p.
Proof.
  unfold MICRO_SCALE, effective_price. intros. destruct (Z.leb_spec 950000 p); [|lia].
  pose proof (Z.mul_div_le p 10000). pose proof (Z.div_le_lower_bound p 10000 95). lia.
Qed.

(** The fixed-point fee is the exact product cut off at a micro-dollar. *)
Lemma fee_micro_spec s p r e : 0 < s <= 10 ^ 15 -> 0 < p < MICRO_SCALE -> 0 <= r <= MICRO_SCALE -> (dval e == 1)%Q ->
  calculate_fee_micro s p r e = s * r * (effective_price p * (MICRO_SCALE - effective_price p) / MICRO_SCALE) / 10 ^ 12.
Proof.
  intros Hs Hp Hr He. unfold calculate_fee_micro. rewrite volatility_spec by done.
  pose proof (effective_range p Hp). set (q := effective_price p) in *. unfold MICRO_SCALE in *.
  rewrite (proj2 (Z.leb_gt p 0)), (proj2 (Z.leb_gt 1000000 p)), (proj2 (Z.leb_gt s 0)) by lia. cbv zeta beta iota delta [orb].
  assert (0 <= q * (1000000 - q) / 1000000 <= 1000000) as Hv
    by (split; [apply Z.div_pos; nia | apply div_le_upper; nia]).
  set (v := q * (1000000 - q) / 1000000) in *.
  assert (0 <= s * r <= 10 ^ 21) by nia. assert (0 <= s * r * v <= 10 ^ 27) by nia.
  rewrite !wrap_i128_id by (rewrite ?wrap_i128_id; lia).
  rewrite (quot_nonneg_div (s * r * v)) by lia.
  rewrite quot_nonneg_div by (try apply Z.div_pos; lia).
  rewrite Z.div_div by lia. change (1000000 * 1000000) with (10 ^ 12).
  apply unwrap_i64_in. pose proof (Z.div_pos (s * r * v) (10 ^ 12)).
  assert (s * r * v / 10 ^ 12 <= 10 ^ 15) by (apply div_le_upper; lia). unfold_ints. lia.
Qed.

Lemma grid_pos_nonzero d n s : (dval d == grid n s)%Q -> 0 < n -> deqb d d0 = false.
Proof.
  intros Hd Hn. apply not_true_iff_false. unfold deqb. rewrite Qeq_bool_iff, Hd, dval_d0.
  unfold grid, Qeq. simpl. lia.
Qed.

Lemma price_not_edge d p : (dval d == grid p 6)%Q -> 0 < p < MICRO_SCALE -> deqb d d0 || deqb d d1 = false.
Proof.
  unfold MICRO_SCALE. intros Hd Hp. rewrite (grid_pos_nonzero d p 6) by (done || lia). simpl.
  apply not_true_iff_false. unfold deqb. rewrite Qeq_bool_iff, Hd, dval_d1. unfold grid, Qeq. simpl. lia.
Qed.

(** Rounding a non-negative amount to five digits and flushing what is below one unit to zero
    is off by at most one unit. *)
Lemma round_fee_near x : (0 <= dval x)%Q ->
  let rounded := dround_dp 5 x in
  (Qabs (dval (if dltb rounded (dlit 1 5) then d0 else rounded) - dval x) <= grid 1 5)%Q.
Proof.
  intros Hx. cbv zeta. pose proof (dround_dp_near 5 x ltac:(lia)) as Hn.
  pose proof (dround_nonneg 5 x ltac:(lia) Hx) as H0. apply Qabs_Qle_condition in Hn.
  assert (grid 1 5 == 1 # 100000)%Q as Hg by done.
  apply Qabs_Qle_condition. destruct (dltb _ _) eqn:E; dbool.
  - rewrite dval_lit in E by lia. rewrite dval_d0. destruct (Qlt_le_dec (dval x) (grid 1 5)) as [Hlt|Hge].
    + rewrite Hg in *. lra.
    + assert (dval (dlit 1 5) <= dval x)%Q as Hl by (rewrite dval_lit by lia; done).
      apply (dround_dp_mono 5) in Hl. rewrite (dround_dp_grid 5 1) in Hl by (try apply dval_lit; lia). lra.
  - rewrite Hg in *. lra.
Qed.

Lemma venue_fee_micro s q r : venue_fee s q r == (s * r * (q * (MICRO_SCALE - q))) # (10 ^ 24).
Proof. unfold venue_fee, grid, MICRO_SCALE, Qmult, Qminus, Qplus, Qopp, Qeq. cbn [Qnum Qden]. lia. Qed.

(** Cutting the volatility and the product off loses at most a micro-dollar and a millionth of
    the notional rate. *)
Lemma fee_micro_near s p r e : 0 < s <= 10 ^ 15 -> 0 < p < MICRO_SCALE -> 0 <= r <= MICRO_SCALE -> (dval e == 1)%Q ->
  let f := calculate_fee_micro s p r e in
  0 <= f <= 10 ^ 15 /\
  (venue_fee s (effective_price p) r - (grid 1 6 + ((s * r) # (10 ^ 18))) <= grid f 6 <= venue_fee s (effective_price p) r)%Q.
Proof.
  intros Hs Hp Hr He f. subst f. rewrite fee_micro_spec, venue_fee_micro by done.
  pose proof (effective_range p Hp). set (q := effective_price p) in *. unfold MICRO_SCALE in *.
  set (w := q * (1000000 - q)). assert (0 <= w <= 10 ^ 12) by (unfold w; nia).
  pose proof (Z.mul_div_le w 1000000). pose proof (Z.mul_succ_div_gt w 1000000). pose proof (Z.div_pos w 1000000).
  set (v := w / 1000000) in *. assert (0 <= s * r <= 10 ^ 21) as Hn by nia. set (n := s * r) in *.
  pose proof (Z.mul_div_le (n * v) (10 ^ 12)). pose proof (Z.mul_succ_div_gt (n * v) (10 ^ 12)).
  pose proof (Z.div_pos (n * v) (10 ^ 12)). set (f := n * v / 10 ^ 12) in *.
  assert (0 <= n * v <= n * 10 ^ 6) by nia. split; [lia|].
  unfold grid, Qle, Qminus, Qplus, Qopp. cbn [Qnum Qden]. rewrite ?Pos2Z.inj_mul. cbn. split; nia.
Qed.

(** With the documented exponent the quoted fee is the venue's formula up to rounding, at the
    effective price; the effective price is the price itself except in the endgame table, where
    it is the whole cent below: there the quote never falls short of the formula but charges a
    price between two cents as the lower one. *)
Theorem quoted_fee_follows_formula (shares price rate e : D) (s p r : Z) :
  (dval shares == grid s 6)%Q -> (dval price == grid p 6)%Q -> (dval rate == grid r 6)%Q -> (dval e == 1)%Q ->
  0 < s <= 10 ^ 15 -> 0 < p < MICRO_SCALE -> 0 <= r <= MICRO_SCALE ->
  let q := effective_price p in
  let fee := dval (calculate_fee shares price rate e) in
  (venue_fee s q r - (grid 11 6 + ((s * r) # (10 ^ 18))) <= fee <= venue_fee s q r + grid 1 5)%Q /\
  (venue_fee s p r <= venue_fee s q r)%Q /\
  (p < 950000 \/ p mod 10000 = 0 -> q = p).
Proof.
  intros Hsh Hpr Hra He Hs Hp Hr q fee. split; [|split].
  - subst fee. unfold calculate_fee. rewrite (price_not_edge price p) by done.
    rewrite (try_from_decimal_grid shares s), (try_from_decimal_grid price p) by (done || unfold MICRO_SCALE in *; unfold_ints; lia).
    assert (trunc_micro rate = r) as ->.
    { rewrite (trunc_micro_grid rate (r * 10 ^ 6)); [apply Z.div_mul; lia | | unfold MICRO_SCALE in *; lia].
      rewrite Hra. unfold grid, Qeq. simpl. lia. }
    cbv zeta. cbn [or_zero]. destruct (fee_micro_near s p r e Hs Hp Hr He) as [Hf [Hlo Hhi]]. fold q in Hlo, Hhi.
    set (f := calculate_fee_micro s p r e) in *.
    pose proof (to_decimal_val f ltac:(unfold_ints; lia)) as Hd.
    assert (0 <= dval (to_decimal f))%Q as H0 by (rewrite Hd; unfold grid, Qle; simpl; lia).
    pose proof (round_fee_near _ H0) as Hn. apply Qabs_Qle_condition in Hn. rewrite Hd in Hn.
    assert (grid 11 6 == grid 1 6 + grid 1 5)%Q as -> by done. split; lra.
  - rewrite !venue_fee_micro. unfold q, effective_price, MICRO_SCALE in *. unfold Qle. cbn [Qnum Qden].
    destruct (Z.leb_spec 950000 p); [|lia]. pose proof (Z.mul_div_le p 10000). pose proof (Z.div_le_lower_bound p 10000 95).
    apply Z.mul_le_mono_nonneg_r; [lia|]. apply Z.mul_le_mono_nonneg_l; nia.
  - unfold q, effective_price. destruct (Z.leb_spec 950000 p); [|done]. intros [?|Hm]; [lia|].
    pose proof (Z.div_mod p 10000). lia.
Qed.
End FormulaFacts.

(** ** Schedules *)

Section Schedules.
Context {DO : DecimalOps} {DP : DecimalPow}.

(** The schedule a market ends up with after a batch. *)
Lemma ingest_fold l (m : gmap MarketId MarketFeeSchedule) k :
  let m' := foldl (fun m schedule => <[fs_market_id schedule := schedule]> m) m l in
  match m' !! k with
  | Some sc => sc ∈ l /\ fs_market_id sc = k \/ m !! k = Some sc /\ ~ exists sc', sc' ∈ l /\ fs_market_id sc' = k
  | None => m !! k = None /\ ~ exists sc', sc' ∈ l /\ fs_market_id sc' = k
  end.
Proof.
  revert m. induction l as [|a l IH]; intros m; simpl.
  - destruct (m !! k); [right|]; (split; [done|]); intros (? & ?%elem_of_nil & ?); done.
  - specialize (IH (<[fs_market_id a := a]> m)). cbv zeta in IH. destruct (foldl _ _ _ !! k) as [sc|].
    + destruct (decide (fs_market_id a = k)) as [<-|Hk]; rewrite ?lookup_insert_eq, ?lookup_insert_ne in IH by done.
      * left. destruct IH as [[? ?]|[? ?]]; simplify_eq; split; set_solver.
      * destruct IH as [[? ?]|[? Hno]]; [left; set_solver | right]. split; [done|].
        intros (sc' & [->|Hin]%elem_of_cons & He); [done|]. apply Hno. eauto.
    + destruct (decide (fs_market_id a = k)) as [<-|Hk]; rewrite ?lookup_insert_eq, ?lookup_insert_ne in IH by done.
      * by destruct IH.
      * destruct IH as [? Hno]. split; [done|]. intros (sc' & [->|Hin]%elem_of_cons & He); [done|]. apply Hno. eauto.
Qed.

Lemma ingest_lookup config now now' schedules k :
  match market_schedules (ingest_market_fee_schedules (fee_snapshot_from_config config now) schedules now') !! k with
  | Some sc => sc ∈ schedules /\ fs_market_id sc = k
  | None => ~ exists sc, sc ∈ schedules /\ fs_market_id sc = k
  end.
Proof.
  pose proof (ingest_fold schedules ∅ k) as Hl. cbv zeta in Hl. destruct schedules as [|a l].
  - simpl in *. rewrite lookup_empty in *. apply Hl.
  - cbn [ingest_market_fee_schedules market_schedules fee_snapshot_from_config].
    destruct (foldl _ _ _ !! k); [|apply Hl]. destruct Hl as [?|[[=] _]]. done.
Qed.

Lemma category_default_some config now c :
  exists params, category_defaults (fee_snapshot_from_config config now) !! c = Some params.
Proof. destruct c; eexists; vm_compute; reflexivity. Qed.

(** A live quote needs the market's own schedule: it is refused for an unknown market, and when
    it is given it comes from the ingested schedule; the simulated modes fall back to the
    category and, with a configured book, are always quoted. *)
Theorem live_quote_needs_schedule (config : FeesConfig) (now now' : Time) (schedules : list MarketFeeSchedule) (input : FeeQuoteInput) :
  let s := ingest_market_fee_schedules (fee_snapshot_from_config config now) schedules now' in
  let known := exists sc, sc ∈ schedules /\ fs_market_id sc = fq_market_id input in
  match quote_for_mode s Live input with
  | Ok q => fq_schedule q ∈ schedules /\ fs_market_id (fq_schedule q) = fq_market_id input
  | Err e => ~ known /\ e = MissingSchedule (fq_market_id input) "category fallback disabled"
  end /\
  (fq_allow_category_fallback input = true -> exists q, quote_for_mode s Paper input = Ok q /\
     (known -> fq_schedule q ∈ schedules)).
Proof.
  intros s known. unfold quote_for_mode, quote, without_fallback. cbn [fq_market_id fq_allow_category_fallback fq_category].
  pose proof (ingest_lookup config now now' schedules (fq_market_id input)) as Hl. fold s in Hl.
  destruct (market_schedules s !! fq_market_id input) as [sc|]; simpl.
  - split; [exact Hl|]. intros _. eexists. split; [reflexivity|]. intros _. apply Hl.
  - split; [by split|]. intros ->. unfold category_default_schedule.
    assert (category_defaults s = category_defaults (fee_snapshot_from_config config now)) as -> by (unfold s; by destruct schedules).
    destruct (category_default_some config now (fq_category input)) as [params ->]. eexists. split; [reflexivity|]. done.
Qed.

(** The estimator of the detector passes the token as the market, so that it never sees the
    schedule of a market: unless a market carries a token's name, ingesting schedules changes no
    estimate, whatever the schedules say. *)
Theorem estimates_ignore_market_schedules (s : FeeSnapshot) (schedules : list MarketFeeSchedule) (now : Time)
    (shares price : D) (category : MarketCategory) (token : TokenId) :
  (forall sc, sc ∈ schedules -> fs_market_id sc <> token) ->
  estimate_fee (ingest_market_fee_schedules s schedules now) shares price category token = estimate_fee s shares price category token.
Proof.
  intros Hn. unfold estimate_fee, calculate, quote. cbn [fq_market_id fq_allow_category_fallback fq_category].
  pose proof (ingest_fold schedules (market_schedules s) token) as Hl. cbv zeta in Hl.
  destruct schedules as [|sc l]; [done|]. unfold ingest_market_fee_schedules. cbn [market_schedules].
  destruct (foldl _ _ _ !! token) as [sc'|] eqn:E.
  - destruct Hl as [[Hin He]|[-> _]]; [by destruct (Hn sc')|]. done.
  - destruct Hl as [-> _]. unfold category_default_schedule. cbn [category_defaults fs_updated_at].
    by destruct (match category_defaults s !! category with Some _ => _ | None => _ end).
Qed.
End Schedules.

Module FeesDemo.
#[local] Instance demo_pow : DecimalPow (H := ExactQ.exactQ) := fun x _ => x.
#[local] Instance demo_pow_laws : DecimalPowLaws (H := ExactQ.exactQ).
Proof. by intros x e _. Qed.

(** A thousand shares at 0.995 with a rate of five per cent: the formula says 0.24875, the table
    charges the 0.495 of the whole cent 0.99. *)
Lemma quoted_fee_follows_formula_witness :
  calculate_fee (1000 # 1)%Q (995 # 1000)%Q (5 # 100)%Q (1 # 1)%Q = (99 # 200)%Q /\
  (venue_fee 1000000000 995000 50000 == 199 # 800)%Q /\
  (venue_fee 1000000000 995000 50000 <= venue_fee 1000000000 (effective_price 995000%Z) 50000)%Q.
Proof.
  split; [vm_compute; reflexivity|]. split; [vm_compute; reflexivity|].
  apply (quoted_fee_follows_formula (ops := ExactQ.exactQ) (1000 # 1)%Q (995 # 1000)%Q (5 # 100)%Q (1 # 1)%Q 1000000000 995000 50000);
    try (vm_compute; reflexivity); unfold MICRO_SCALE; lia.
Defined.

Definition demo_fees : FeeSnapshot := fee_snapshot_from_config fees_config_default 0.
Definition free_market : MarketFeeSchedule := {|
  fs_market_id := "market"; fees_enabled := false; fs_fee_rate := 0%Q; fs_exponent := 1%Q; taker_only := true;
  rebate_rate := None; fs_source := GammaFeeSchedule; fs_observed_at := 5 |}.

Lemma estimates_ignore_market_schedules_witness :
  estimate_fee (ingest_market_fee_schedules demo_fees [free_market] 5) (100 # 1)%Q (1 # 2)%Q Sports "token" = (3 # 4)%Q.
Proof.
  rewrite (estimates_ignore_market_schedules (DO := ExactQ.exactQ) demo_fees [free_market] 5).
  - vm_compute. reflexivity.
  - intros sc Hsc. apply list_elem_of_singleton in Hsc as ->. discriminate.
Defined.
End FeesDemo.
