(* ===== verification/FactorModel.v ===== *)
(** * Control factors: [oxide-arb-models/src/domain/control_factor], [enums/control_factor.rs]

    The five factor families with their typed dimensions and payloads, the safety rules of the
    payloads, the registry status machine, the evidence a factor must carry and the rules of a
    publication.  Identifiers are integers; serialised forms, source references and the parts of
    the evidence no rule reads are left out. *)

From S2P Require Import Prelude Decimal Config Domain Fees.

(** ** Text *)

(** [char::is_whitespace] on the UTF-8 bytes of a string: the first character of [s] is white
    space, and this is what follows it. *)
Definition skip_space (s : list Z) : option (list Z) :=
  match s with
  | b :: r =>
      if ((9 <=? b) && (b <=? 13)) || (b =? 32) then Some r
      else match b, r with
           | 194, c :: r' => if (c =? 133) || (c =? 160) then Some r' else None
           | 225, 154 :: 128 :: r' => Some r'
           | 226, 128 :: c :: r' =>
               if ((128 <=? c) && (c <=? 138)) || (c =? 168) || (c =? 169) || (c =? 175) then Some r' else None
           | 226, 129 :: 159 :: r' => Some r'
           | 227, 128 :: 128 :: r' => Some r'
           | _, _ => None
           end
  | [] => None
  end.

Fixpoint all_space (fuel : nat) (s : list Z) : bool :=
  match fuel, s with
  | _, [] => true
  | S fuel, _ => match skip_space s with Some r => all_space fuel r | None => false end
  | O, _ => false
  end.

Definition bytes_of (s : string) : list Z :=
  (fun c => Z.of_nat (Ascii.nat_of_ascii c)) <$> String.list_ascii_of_string s.

(** [s.trim().is_empty()]: every character is white space. *)
Definition blank (s : string) : bool := all_space (String.length s) (bytes_of s).

(** ** Enumerations *)

(** [models/enums/control_factor.rs:421-428] `FactorSeverity` *)
Inductive FactorSeverity := SevInfo | SevWarning | SevCritical.

(** [models/enums/control_factor.rs:28-35] `TradingHealth` *)
Inductive TradingHealth := Healthy | Degraded | MaintenanceRequired | ThHalted.

(** [models/enums/control_factor.rs:61-71] `FactorExpiryBehavior` *)
Inductive FactorExpiryBehavior := FailNeutral | FailClosedIfCritical | NeutralAfterTtlUnlessManualHalt.

(** [models/enums/control_factor.rs:159-173] `FactorStatus` *)
Inductive FactorStatus :=
| FDraft | FReportOnly | FCandidate | FRejected | FShadow | FPublished | FSuperseded | FExpired | FRolledBack.

(** [models/enums/control_factor.rs:175-181] `PublicationMode` *)
Inductive PublicationMode := PmShadow | PmPublished.

(** [models/enums/control_factor.rs:183-193] `PublicationStatus` *)
Inductive PublicationStatus := PsPending | PsActive | PsSuperseded | PsExpired | PsRolledBack | PsRejected.

#[global] Instance ControlFactorType_eq_dec : EqDecision ControlFactorType.
Proof. solve_decision. Defined.
#[global] Instance FactorStatus_eq_dec : EqDecision FactorStatus.
Proof. solve_decision. Defined.
#[global] Instance PublicationMode_eq_dec : EqDecision PublicationMode.
Proof. solve_decision. Defined.
#[global] Instance FactorSeverity_eq_dec : EqDecision FactorSeverity.
Proof. solve_decision. Defined.
#[global] Instance PriceZone_eq_dec : EqDecision PriceZone.
Proof. solve_decision. Defined.
#[global] Instance DurationBucket_eq_dec : EqDecision DurationBucket.
Proof. solve_decision. Defined.

(** [models/enums/control_factor.rs:87-97] `ControlFactorType::expiry_behavior` *)
Definition expiry_behavior (t : ControlFactorType) : FactorExpiryBehavior :=
  match t with
  | BucketRisk | ExecutionQuality | PortfolioRisk => FailNeutral
  | ReconciliationHealth => FailClosedIfCritical
  | MarketAnomaly => NeutralAfterTtlUnlessManualHalt
  end.

(** [models/enums/control_factor.rs:119-133] `ControlFactorType::effective_expiry_behavior` *)
Definition effective_expiry_behavior (t : ControlFactorType) (severity : FactorSeverity) : FactorExpiryBehavior :=
  match t, expiry_behavior t with
  | ReconciliationHealth, FailClosedIfCritical =>
      match severity with SevCritical => FailClosedIfCritical | SevInfo | SevWarning => FailNeutral end
  | _, behavior => behavior
  end.

(** [models/domain/control_factor/value.rs:117-122] `TimeToSettlementBucket` *)
Inductive TimeToSettlementBucket := UnderOneHour | OneToSixHours | SixToTwentyFourHours | OverTwentyFourHours.
(** [models/domain/control_factor/value.rs:126-131] `FeeProfileBucket` *)
Inductive FeeProfileBucket := FeeZero | FeeLow | FeeStandard | FeeHigh.
(** [models/domain/control_factor/value.rs:135-140] `SpreadBucket` *)
Inductive SpreadBucket := SpTight | SpNormal | SpWide | SpVeryWide.
(** [models/domain/control_factor/value.rs:144-148] `DepthBucket` *)
Inductive DepthBucket := DpThin | DpNormal | DpDeep.
(** [models/domain/control_factor/value.rs:152-157] `BookAgeBucket` *)
Inductive BookAgeBucket := BaFresh | BaRecent | BaStale | BaVeryStale.
(** [models/domain/control_factor/value.rs:161-164] `LatencyBucket` *)
Inductive LatencyBucket := LatNamed (name : string) | LatUnknown.
(** [models/domain/control_factor/value.rs:168-174] `PortfolioRegime` *)
Inductive PortfolioRegime := RgNormal | RgCapitalPressure | RgDrawdown | RgSettlementBacklog | RgIncident.
(** [models/domain/control_factor/value.rs:178-184] `CountBucket` *)
Inductive CountBucket := CbZero | CbOne | CbTwoToFive | CbSixToTen | CbOverTen.
(** [models/domain/control_factor/value.rs:188-194] `UsdExposureBucket` *)
Inductive UsdExposureBucket := UeNone | UeLow | UeMedium | UeHigh | UeCritical.
(** [models/domain/control_factor/value.rs:198-204] `DrawdownBucket` *)
Inductive DrawdownBucket := DdNone | DdLow | DdMedium | DdHigh | DdCritical.
(** [models/domain/control_factor/value.rs:208-211] `AccountScope` *)
Inductive AccountScope := AsGlobal | AsHolder (address : string).
(** [models/domain/control_factor/value.rs:215-220] `AssetScope` *)
Inductive AssetScope := AllAssets | Collateral | ConditionalTokens | MarketAsset (market_id : MarketId).
(** [models/domain/control_factor/value.rs:224-229] `MetricsFreshnessBucket` *)
Inductive MetricsFreshnessBucket := MfFresh | MfDelayed | MfStale | MfExpired.
(** [models/domain/control_factor/value.rs:233-238] `RedeemStatusBucket` *)
Inductive RedeemStatusBucket := NotRedeemable | Redeemable | RedeemDelayed | RedeemFailed.
(** [models/domain/control_factor/value.rs:242-249] `AnomalyType` *)
Inductive AnomalyType := PriceReversal | AbnormalBook | OracleMismatch | SettlementDelay | ManualIncident | CategorySpike.

(** ** Dimensions *)

(** [models/domain/control_factor/value.rs:45-52] `BucketRiskDimensions` *)
Record BucketRiskDimensions := {
  bd_category : MarketCategory;
  bd_price_zone : PriceZone;
  bd_duration_bucket : DurationBucket;
  hours_to_settlement_bucket : option TimeToSettlementBucket;
  bd_neg_risk : option bool;
  fee_profile : option FeeProfileBucket
}.

(** [models/domain/control_factor/value.rs:60-73] `BucketRiskDimensions::coarse` *)
Definition coarse (category : MarketCategory) (price_zone : PriceZone) (duration_bucket : DurationBucket) : BucketRiskDimensions := {|
  bd_category := category; bd_price_zone := price_zone; bd_duration_bucket := duration_bucket;
  hours_to_settlement_bucket := None; bd_neg_risk := None; fee_profile := None |}.

(** [models/domain/control_factor/value.rs:77-85] `ExecutionQualityDimensions` *)
Record ExecutionQualityDimensions := {
  ed_category : MarketCategory;
  ed_price_zone : PriceZone;
  ed_spread_bucket : SpreadBucket;
  ed_depth_bucket : DepthBucket;
  ed_book_age_bucket : BookAgeBucket;
  ed_latency_bucket : LatencyBucket;
  ed_staleness_level : StalenessLevel
}.

(** [models/domain/control_factor/value.rs:88-95] `PortfolioRiskDimensions` *)
Record PortfolioRiskDimensions := {
  pd_regime : PortfolioRegime;
  pd_category : option MarketCategory;
  open_position_bucket : CountBucket;
  potential_loss_bucket : UsdExposureBucket;
  drawdown_bucket : DrawdownBucket;
  settlement_backlog_bucket : CountBucket
}.

(** [models/domain/control_factor/value.rs:98-104] `ReconciliationHealthDimensions` *)
Record ReconciliationHealthDimensions := {
  account_scope : AccountScope;
  asset_scope : AssetScope;
  drift_severity : FactorSeverity;
  metrics_freshness_bucket : MetricsFreshnessBucket;
  redeem_status_bucket : RedeemStatusBucket
}.

(** [models/domain/control_factor/value.rs:107-113] `MarketAnomalyDimensions` *)
Record MarketAnomalyDimensions := {
  md_market_id : option MarketId;
  md_event_id : option EventId;
  md_category : option MarketCategory;
  anomaly_type : AnomalyType;
  md_severity : FactorSeverity
}.

(** [models/domain/control_factor/value.rs:20-28] `FactorDimensions` *)
Inductive FactorDimensions :=
| DimBucketRisk (d : BucketRiskDimensions)
| DimExecutionQuality (d : ExecutionQualityDimensions)
| DimPortfolioRisk (d : PortfolioRiskDimensions)
| DimReconciliationHealth (d : ReconciliationHealthDimensions)
| DimMarketAnomaly (d : MarketAnomalyDimensions)
| DimUnspecified.

(** [models/domain/control_factor/value.rs:32-41] `FactorDimensions::factor_type` *)
Definition dim_factor_type (d : FactorDimensions) : option ControlFactorType :=
  match d with
  | DimBucketRisk _ => Some BucketRisk
  | DimExecutionQuality _ => Some ExecutionQuality
  | DimPortfolioRisk _ => Some PortfolioRisk
  | DimReconciliationHealth _ => Some ReconciliationHealth
  | DimMarketAnomaly _ => Some MarketAnomaly
  | DimUnspecified => None
  end.

#[global] Instance FactorDimensions_eq_dec : EqDecision FactorDimensions.
Proof. unfold EqDecision, Decision. repeat (decide equality). Defined.
#[global] Instance BucketRiskDimensions_eq_dec : EqDecision BucketRiskDimensions.
Proof. unfold EqDecision, Decision. repeat (decide equality). Defined.
#[global] Instance ExecutionQualityDimensions_eq_dec : EqDecision ExecutionQualityDimensions.
Proof. unfold EqDecision, Decision. repeat (decide equality). Defined.

(** Keys of the compiled indexes. *)
Definition position {A} `{EqDecision A} (l : list A) (x : A) : nat :=
  match list_find (fun y => y = x) l with Some (i, _) => i | None => 0%nat end.

#[global, refine] Instance PriceZone_countable : Countable PriceZone :=
  inj_countable (position [Z95; Z96; Z97; Z98; Z99]) (fun i => [Z95; Z96; Z97; Z98; Z99] !! i) _.
Proof. by intros []. Defined.
#[global, refine] Instance DurationBucket_countable : Countable DurationBucket :=
  inj_countable (position [Short; Medium; Long; VeryLong]) (fun i => [Short; Medium; Long; VeryLong] !! i) _.
Proof. by intros []. Defined.
#[global, refine] Instance Staleness_countable : Countable StalenessLevel :=
  inj_countable (position [Fresh; Acceptable; Stale; Expired]) (fun i => [Fresh; Acceptable; Stale; Expired] !! i) _.
Proof. by intros []. Defined.
#[global] Instance TimeToSettlement_eq_dec : EqDecision TimeToSettlementBucket.
Proof. solve_decision. Defined.
#[global, refine] Instance TimeToSettlement_countable : Countable TimeToSettlementBucket :=
  inj_countable (position [UnderOneHour; OneToSixHours; SixToTwentyFourHours; OverTwentyFourHours])
    (fun i => [UnderOneHour; OneToSixHours; SixToTwentyFourHours; OverTwentyFourHours] !! i) _.
Proof. by intros []. Defined.
#[global] Instance FeeProfile_eq_dec : EqDecision FeeProfileBucket.
Proof. solve_decision. Defined.
#[global, refine] Instance FeeProfile_countable : Countable FeeProfileBucket :=
  inj_countable (position [FeeZero; FeeLow; FeeStandard; FeeHigh]) (fun i => [FeeZero; FeeLow; FeeStandard; FeeHigh] !! i) _.
Proof. by intros []. Defined.
#[global] Instance SpreadBucket_eq_dec : EqDecision SpreadBucket.
Proof. solve_decision. Defined.
#[global, refine] Instance SpreadBucket_countable : Countable SpreadBucket :=
  inj_countable (position [SpTight; SpNormal; SpWide; SpVeryWide]) (fun i => [SpTight; SpNormal; SpWide; SpVeryWide] !! i) _.
Proof. by intros []. Defined.
#[global] Instance DepthBucket_eq_dec : EqDecision DepthBucket.
Proof. solve_decision. Defined.
#[global, refine] Instance DepthBucket_countable : Countable DepthBucket :=
  inj_countable (position [DpThin; DpNormal; DpDeep]) (fun i => [DpThin; DpNormal; DpDeep] !! i) _.
Proof. by intros []. Defined.
#[global] Instance BookAgeBucket_eq_dec : EqDecision BookAgeBucket.
Proof. solve_decision. Defined.
#[global, refine] Instance BookAgeBucket_countable : Countable BookAgeBucket :=
  inj_countable (position [BaFresh; BaRecent; BaStale; BaVeryStale]) (fun i => [BaFresh; BaRecent; BaStale; BaVeryStale] !! i) _.
Proof. by intros []. Defined.
#[global] Instance LatencyBucket_eq_dec : EqDecision LatencyBucket.
Proof. solve_decision. Defined.
#[global, refine] Instance LatencyBucket_countable : Countable LatencyBucket :=
  inj_countable' (fun l => match l with LatNamed s => Some s | LatUnknown => None end)
    (fun o => match o with Some s => LatNamed s | None => LatUnknown end) _.
Proof. by intros []. Defined.
#[global, refine] Instance BucketRiskDimensions_countable : Countable BucketRiskDimensions :=
  inj_countable' (fun d => (bd_category d, bd_price_zone d, bd_duration_bucket d, hours_to_settlement_bucket d, bd_neg_risk d, fee_profile d))
    (fun '(c, z, b, h, n, f) => Build_BucketRiskDimensions c z b h n f) _.
Proof. by intros []. Defined.
#[global, refine] Instance ExecutionQualityDimensions_countable : Countable ExecutionQualityDimensions :=
  inj_countable' (fun d => (ed_category d, ed_price_zone d, ed_spread_bucket d, ed_depth_bucket d, ed_book_age_bucket d,
                            ed_latency_bucket d, ed_staleness_level d))
    (fun '(c, z, s, d, a, l, t) => Build_ExecutionQualityDimensions c z s d a l t) _.
Proof. by intros []. Defined.

(** ** Payloads *)

(** [error/control.rs:34-43] `PayloadSafetyError` *)
Inductive PayloadSafetyError :=
| MultiplierOutOfRange (field : string)
| NegativeAddon (field : string)
| RiskExpandingWithoutApproval (field : string)
| BlockFlagRelaxed (field : string).

(** [?] on a unit result. *)
Definition and_then {E} (r : Result unit E) (k : Result unit E) : Result unit E :=
  match r with Ok _ => k | Err e => Err e end.
Infix "?>" := and_then (at level 60, right associativity).

Section Payloads.
Context `{DO : DecimalOps}.

(** [models/domain/control_factor/payload.rs:129-134] `BucketRiskPayload` *)
Record BucketRiskPayload := {
  resolution_haircut_factor : D;
  bp_size_multiplier : D;
  min_edge_bps_addon : D;
  block_new_entries : bool
}.

(** [models/domain/control_factor/payload.rs:146-151] `ExecutionQualityPayload` *)
Record ExecutionQualityPayload := {
  fill_probability_multiplier : D;
  max_depth_usage_pct : option D;
  slippage_bps_addon : D;
  min_liquidity_score : option D
}.

(** [models/domain/control_factor/payload.rs:171-177] `PortfolioRiskPayload` *)
Record PortfolioRiskPayload := {
  pp_global_size_multiplier : D;
  pp_category_size_multiplier : option D;
  pp_daily_budget_multiplier : D;
  pp_max_open_positions : option Z;
  pp_kelly_fraction_multiplier : D
}.

(** [models/domain/control_factor/payload.rs:192-198] `ReconciliationHealthPayload` *)
Record ReconciliationHealthPayload := {
  trading_health : TradingHealth;
  rp_size_multiplier : D;
  rp_require_manual_ack : bool;
  rp_force_maintenance_mode : bool;
  fail_closed_after_secs : option Z
}.

(** [models/domain/control_factor/payload.rs:208-215] `MarketAnomalyPayload` *)
Record MarketAnomalyPayload := {
  mp_severity : FactorSeverity;
  mp_block_market : bool;
  mp_block_event : bool;
  mp_category_cooldown_secs : option Z;
  mp_reason_code : string;
  mp_manual_ack_required : bool
}.

(** [models/domain/control_factor/payload.rs:12-18] `FactorPayload` *)
Inductive FactorPayload :=
| PayBucketRisk (p : BucketRiskPayload)
| PayExecutionQuality (p : ExecutionQualityPayload)
| PayPortfolioRisk (p : PortfolioRiskPayload)
| PayReconciliationHealth (p : ReconciliationHealthPayload)
| PayMarketAnomaly (p : MarketAnomalyPayload).

(** [models/domain/control_factor/payload.rs:22-30] `FactorPayload::factor_type` *)
Definition pay_factor_type (p : FactorPayload) : ControlFactorType :=
  match p with
  | PayBucketRisk _ => BucketRisk
  | PayExecutionQuality _ => ExecutionQuality
  | PayPortfolioRisk _ => PortfolioRisk
  | PayReconciliationHealth _ => ReconciliationHealth
  | PayMarketAnomaly _ => MarketAnomaly
  end.

(** [models/domain/control_factor/safety.rs:6-14] `ensure_multiplier` *)
Definition ensure_multiplier (value : D) (field : string) : Result unit PayloadSafetyError :=
  if dltb value d0 || dltb d1 value then Err (MultiplierOutOfRange field) else Ok tt.

(** [models/domain/control_factor/safety.rs:16-24] `ensure_non_negative` *)
Definition ensure_non_negative (value : D) (field : string) : Result unit PayloadSafetyError :=
  if dltb value d0 then Err (NegativeAddon field) else Ok tt.

Definition ensure_opt (value : option D) (field : string) : Result unit PayloadSafetyError :=
  match value with Some v => ensure_multiplier v field | None => Ok tt end.

(** [models/domain/control_factor/payload.rs:136-142] `BucketRiskPayload::validate_safety` *)
Definition validate_bucket (b : BucketRiskPayload) : Result unit PayloadSafetyError :=
  ensure_multiplier (resolution_haircut_factor b) "resolution_haircut_factor" ?>
  ensure_multiplier (bp_size_multiplier b) "size_multiplier" ?>
  ensure_non_negative (min_edge_bps_addon b) "min_edge_bps_addon".

(** [models/domain/control_factor/payload.rs:153-167] `ExecutionQualityPayload::validate_safety` *)
Definition validate_quality (e : ExecutionQualityPayload) : Result unit PayloadSafetyError :=
  ensure_multiplier (fill_probability_multiplier e) "fill_probability_multiplier" ?>
  ensure_opt (max_depth_usage_pct e) "max_depth_usage_pct" ?>
  ensure_opt (min_liquidity_score e) "min_liquidity_score" ?>
  ensure_non_negative (slippage_bps_addon e) "slippage_bps_addon".

(** [models/domain/control_factor/payload.rs:179-188] `PortfolioRiskPayload::validate_safety` *)
Definition validate_portfolio (q : PortfolioRiskPayload) : Result unit PayloadSafetyError :=
  ensure_multiplier (pp_global_size_multiplier q) "global_size_multiplier" ?>
  ensure_opt (pp_category_size_multiplier q) "category_size_multiplier" ?>
  ensure_multiplier (pp_daily_budget_multiplier q) "daily_budget_multiplier" ?>
  ensure_multiplier (pp_kelly_fraction_multiplier q) "kelly_fraction_multiplier".

(** [models/domain/control_factor/payload.rs:200-204] `ReconciliationHealthPayload::validate_safety` *)
Definition validate_health (r : ReconciliationHealthPayload) : Result unit PayloadSafetyError :=
  ensure_multiplier (rp_size_multiplier r) "size_multiplier".

(** [models/domain/control_factor/payload.rs:217-226] `MarketAnomalyPayload::validate_safety` *)
Definition validate_anomaly (m : MarketAnomalyPayload) : Result unit PayloadSafetyError :=
  if blank (mp_reason_code m) then Err (RiskExpandingWithoutApproval "reason_code") else Ok tt.

(** [models/domain/control_factor/payload.rs:32-40] `FactorPayload::validate_safety` *)
Definition validate_safety (p : FactorPayload) : Result unit PayloadSafetyError :=
  match p with
  | PayBucketRisk b => validate_bucket b
  | PayExecutionQuality e => validate_quality e
  | PayPortfolioRisk q => validate_portfolio q
  | PayReconciliationHealth r => validate_health r
  | PayMarketAnomaly m => validate_anomaly m
  end.

(** [models/domain/control_factor/payload.rs:42-55] `FactorPayload::severity` *)
Definition severity (p : FactorPayload) : option FactorSeverity :=
  match p with
  | PayReconciliationHealth r => if rp_force_maintenance_mode r then Some SevCritical else Some SevWarning
  | PayMarketAnomaly m => Some (mp_severity m)
  | _ => None
  end.

(** [models/domain/control_factor/payload.rs:109-116] `looser_when_larger_or_none` *)
Definition looser_when_larger_or_none {A} (gt : A -> A -> bool) (current prior : option A) : bool :=
  match current, prior with
  | None, Some _ => true
  | Some c, Some p => gt c p
  | _, _ => false
  end.

(** [models/domain/control_factor/payload.rs:118-125] `looser_when_smaller_or_none` *)
Definition looser_when_smaller_or_none {A} (lt : A -> A -> bool) (current prior : option A) : bool :=
  match current, prior with
  | None, Some _ => true
  | Some c, Some p => lt c p
  | _, _ => false
  end.

(** [models/domain/control_factor/payload.rs:57-106] `FactorPayload::relaxes` *)
Definition relaxes (self prior : FactorPayload) : bool :=
  match self, prior with
  | PayBucketRisk a, PayBucketRisk b =>
      dltb (resolution_haircut_factor b) (resolution_haircut_factor a)
      || dltb (bp_size_multiplier b) (bp_size_multiplier a)
      || dltb (min_edge_bps_addon a) (min_edge_bps_addon b)
      || (negb (block_new_entries a) && block_new_entries b)
  | PayExecutionQuality a, PayExecutionQuality b =>
      dltb (fill_probability_multiplier b) (fill_probability_multiplier a)
      || dltb (slippage_bps_addon a) (slippage_bps_addon b)
      || looser_when_larger_or_none (fun c p => dltb p c) (max_depth_usage_pct a) (max_depth_usage_pct b)
      || looser_when_smaller_or_none (fun c p => dltb c p) (min_liquidity_score a) (min_liquidity_score b)
  | PayPortfolioRisk a, PayPortfolioRisk b =>
      dltb (pp_global_size_multiplier b) (pp_global_size_multiplier a)
      || dltb (pp_daily_budget_multiplier b) (pp_daily_budget_multiplier a)
      || dltb (pp_kelly_fraction_multiplier b) (pp_kelly_fraction_multiplier a)
      || dltb (unwrap_or (pp_category_size_multiplier b) d1) (unwrap_or (pp_category_size_multiplier a) d1)
      || looser_when_larger_or_none (fun c p => p <? c) (pp_max_open_positions a) (pp_max_open_positions b)
  | PayReconciliationHealth a, PayReconciliationHealth b =>
      dltb (rp_size_multiplier b) (rp_size_multiplier a)
      || (negb (rp_force_maintenance_mode a) && rp_force_maintenance_mode b)
      || (negb (rp_require_manual_ack a) && rp_require_manual_ack b)
      || looser_when_larger_or_none (fun c p => p <? c) (fail_closed_after_secs a) (fail_closed_after_secs b)
  | PayMarketAnomaly a, PayMarketAnomaly b =>
      (negb (mp_block_market a) && mp_block_market b)
      || (negb (mp_block_event a) && mp_block_event b)
      || (negb (mp_manual_ack_required a) && mp_manual_ack_required b)
      || looser_when_smaller_or_none (fun c p => c <? p) (mp_category_cooldown_secs a) (mp_category_cooldown_secs b)
  | _, _ => false
  end.
End Payloads.

(** ** The registry status machine *)

(** [models/domain/control_factor/lifecycle.rs:11-32] `TRANSITIONS` *)
Definition TRANSITIONS : list (FactorStatus * FactorStatus) :=
  [ (FDraft, FCandidate); (FDraft, FRejected); (FDraft, FReportOnly); (FReportOnly, FDraft); (FReportOnly, FRejected);
    (FCandidate, FShadow); (FCandidate, FRejected); (FShadow, FPublished); (FShadow, FRejected);
    (FPublished, FSuperseded); (FPublished, FExpired); (FPublished, FRolledBack); (FSuperseded, FRolledBack);
    (FCandidate, FExpired); (FShadow, FExpired); (FReportOnly, FExpired) ].

(** [models/domain/control_factor/lifecycle.rs:35-39] `FactorLifecycle::can_transition` *)
Definition can_transition (from to : FactorStatus) : bool :=
  bool_decide (from = to) || bool_decide ((from, to) ∈ TRANSITIONS).

(** [models/domain/control_factor/lifecycle.rs:41-57] `FactorLifecycle::is_materialization_output` *)
Definition is_materialization_output (s : FactorStatus) : bool :=
  match s with FDraft | FCandidate | FRejected | FReportOnly => true | _ => false end.

(** [models/domain/control_factor/lifecycle.rs:59-66] `FactorLifecycle::requires_governed_evidence` *)
Definition requires_governed_evidence (s : FactorStatus) : bool :=
  match s with FCandidate | FShadow | FPublished => true | _ => false end.

(** [error/control.rs:46-67] `FactorValueError` *)
Inductive FactorValueError :=
| PayloadTypeMismatch (factor_type : ControlFactorType) (payload_type : option ControlFactorType)
| InvalidExpiry
| InsufficientEvidence
| IllegalTransition (from : FactorStatus) (to : option FactorStatus)
| ReportOnlyPromotionForbidden (target : FactorStatus)
| PayloadSafety (e : PayloadSafetyError).

(** [models/domain/control_factor/lifecycle.rs:68-77] `FactorLifecycle::assert_transition` *)
Definition assert_transition (from to : FactorStatus) : Result unit FactorValueError :=
  if can_transition from to then Ok tt else Err (IllegalTransition from (Some to)).

(** [models/domain/control_factor/lifecycle.rs:79-96] `FactorLifecycle::assert_not_report_only_promotion` *)
Definition assert_not_report_only_promotion (from target : FactorStatus) : Result unit FactorValueError :=
  match from, target with
  | FReportOnly, (FCandidate | FShadow | FPublished) => Err (ReportOnlyPromotionForbidden target)
  | _, _ => Ok tt
  end.

(** ** Values and publications *)

Section Values.
Context `{DO : DecimalOps}.

(** [models/domain/control_factor/evidence.rs:62-68] `DataCoverageReport` *)
Record DataCoverageReport := {
  expected_rows : Z;
  observed_rows : Z;
  missing_rows : Z;
  coverage_ratio : D;
  insufficient_reasons : list string
}.

(** [models/domain/control_factor/evidence.rs:71-77] `DataCoverageReport::is_sufficient` *)
Definition coverage_is_sufficient (c : DataCoverageReport) : bool :=
  (missing_rows c =? 0) && (0 <? observed_rows c) && dleb d1 (coverage_ratio c)
  && match insufficient_reasons c with [] => true | _ => false end.

(** [models/domain/control_factor/materialization.rs:600-607] `PointInTimeInputManifest`, what the
    rules read; errors are their codes *)
Record PointInTimeInputManifest := {
  production_eligible : bool;
  fatal_errors : list string;
  manifest_hash : string
}.

(** [models/domain/control_factor/materialization.rs:609-614] `is_production_eligible` *)
Definition is_production_eligible (m : PointInTimeInputManifest) : bool :=
  production_eligible m && match fatal_errors m with [] => true | _ => false end.

(** [models/domain/control_factor/evidence.rs:17-41] `FactorEvidence` *)
Record FactorEvidence := {
  fe_stage_report_ids : list Z;
  fe_window_from : Time;
  fe_window_to : Time;
  fe_market_count : Z;
  fe_event_count : Z;
  fe_opportunity_count : Z;
  fe_settlement_count : Z;
  fe_sample_count : Z;
  fe_data_coverage : DataCoverageReport;
  fe_point_in_time_inputs : PointInTimeInputManifest;
  fe_baseline_config_hash : string;
  fe_code_git_sha : string;
  fe_dataset_hash : string;
  fe_feature_schema_hash : string;
  fe_label_schema_hash : string;
  fe_query_fingerprint : string
}.

Definition nonempty (s : string) : bool := match s with EmptyString => false | _ => true end.

(** [models/domain/control_factor/evidence.rs:44-57] `FactorEvidence::is_sufficient_for_candidate` *)
Definition is_sufficient_for_candidate (e : FactorEvidence) : bool :=
  (fe_window_from e <? fe_window_to e) && (0 <? fe_sample_count e)
  && match fe_stage_report_ids e with [] => false | _ => true end
  && nonempty (fe_baseline_config_hash e) && nonempty (fe_code_git_sha e) && nonempty (fe_dataset_hash e)
  && nonempty (fe_feature_schema_hash e) && nonempty (fe_label_schema_hash e) && nonempty (fe_query_fingerprint e)
  && coverage_is_sufficient (fe_data_coverage e) && production_eligible (fe_point_in_time_inputs e).

(** [models/domain/control_factor/value.rs:259-270] `ControlFactorValue` *)
Record ControlFactorValue := {
  cf_factor_id : Z;
  cf_factor_type : ControlFactorType;
  cf_dimensions : FactorDimensions;
  cf_payload : FactorPayload;
  cf_evidence : FactorEvidence;
  cf_status : FactorStatus;
  cf_generated_at : Time;
  cf_expires_at : Time;
  cf_owner : string;
  cf_schema_version : Z
}.

(** The dimensions are absent or of the given family. *)
Definition dims_agree (d : FactorDimensions) (t : ControlFactorType) : bool :=
  match dim_factor_type d with Some t' => bool_decide (t' = t) | None => true end.

(** [models/domain/control_factor/value.rs:273-315] `ControlFactorValue::validate_for_transition` *)
Definition validate_for_transition (self : ControlFactorValue) (target : FactorStatus) : Result unit FactorValueError :=
  assert_transition (cf_status self) target ?>
  assert_not_report_only_promotion (cf_status self) target ?>
  (if negb (bool_decide (cf_factor_type self = pay_factor_type (cf_payload self)))
   then Err (PayloadTypeMismatch (cf_factor_type self) (Some (pay_factor_type (cf_payload self))))
   else if negb (dims_agree (cf_dimensions self) (cf_factor_type self))
   then Err (PayloadTypeMismatch (cf_factor_type self) (dim_factor_type (cf_dimensions self)))
   else if cf_expires_at self <=? cf_generated_at self then Err InvalidExpiry
   else match validate_safety (cf_payload self) with
        | Err e => Err (PayloadSafety e)
        | Ok _ => if requires_governed_evidence target && negb (is_sufficient_for_candidate (cf_evidence self))
                  then Err InsufficientEvidence else Ok tt
        end).

(** [models/domain/control_factor/value.rs:317-329] `validate_as_materialization_output` *)
Definition validate_as_materialization_output (self : ControlFactorValue) : Result unit FactorValueError :=
  if negb (is_materialization_output (cf_status self)) then Err (IllegalTransition (cf_status self) None)
  else validate_for_transition self (cf_status self).

(** [models/domain/control_factor/publication.rs:14-25] `ControlFactorPublication` *)
Record ControlFactorPublication := {
  cp_publication_id : Z;
  cp_mode : PublicationMode;
  cp_factor_ids : list Z;
  cp_previous_publication_id : option Z;
  cp_status : PublicationStatus;
  cp_effective_from : Time;
  cp_expires_at : Time;
  cp_approved_by : option string;
  cp_approval_reason : string;
  cp_publication_hash : string
}.

(** [models/domain/control_factor/publication.rs:28-35] `target_factor_status` *)
Definition target_factor_status (p : ControlFactorPublication) : FactorStatus :=
  match cp_mode p with PmShadow => FShadow | PmPublished => FPublished end.

(** [models/domain/control_factor/publication.rs:37-44] `required_member_status` *)
Definition required_member_status (p : ControlFactorPublication) : FactorStatus :=
  match cp_mode p with PmShadow => FCandidate | PmPublished => FShadow end.

(** [error/control.rs:138-174] `GovernanceError` *)
Inductive GovernanceError :=
| GeFactorValue (e : FactorValueError)
| EmptyPublication
| InvalidPublicationWindow
| FactorSetMismatch
| CanonicalDigest (message : string)
| PublicationHashMismatch (expected actual : string)
| FactorNotReadyForPublication (factor_id : Z) (mode : PublicationMode) (expected actual : FactorStatus)
| MissingReason
| MissingField (field : string)
| IdempotencyConflict (key : string)
| RiskExpansionNotApproved
| RollbackTargetMissing
| PublicationLockConflict.

(** [models/domain/control_factor/publication.rs:65-86] `validate_for_activation`, one member *)
Definition validate_member (self : ControlFactorPublication) (factor : ControlFactorValue) : Result unit GovernanceError :=
  if negb (bool_decide (cf_factor_id factor ∈ cp_factor_ids self)) then Err FactorSetMismatch
  else if negb (bool_decide (cf_status factor = required_member_status self))
  then Err (FactorNotReadyForPublication (cf_factor_id factor) (cp_mode self) (required_member_status self) (cf_status factor))
  else match validate_for_transition factor (target_factor_status self) with
       | Err e => Err (GeFactorValue e)
       | Ok _ => Ok tt
       end.

Fixpoint validate_members (self : ControlFactorPublication) (factors : list ControlFactorValue) : Result unit GovernanceError :=
  match factors with
  | [] => Ok tt
  | factor :: rest => validate_member self factor ?> validate_members self rest
  end.

(** [models/domain/control_factor/publication.rs:46-88] `validate_for_activation` *)
Definition validate_for_activation (self : ControlFactorPublication) (factors : list ControlFactorValue) : Result unit GovernanceError :=
  match cp_factor_ids self with
  | [] => Err EmptyPublication
  | _ :: _ =>
      if cp_expires_at self <=? cp_effective_from self then Err InvalidPublicationWindow
      else if negb (Nat.eqb (length (cp_factor_ids self)) (length factors)) then Err FactorSetMismatch
      else validate_members self factors
  end.

(** [control/governance/publication.rs:62-77] `PublicationManager::check_rollback_target` *)
Definition check_rollback_target (mode : PublicationMode) (previous_publication_id : option Z) (has_active : bool) : Result unit GovernanceError :=
  match mode, has_active, previous_publication_id with
  | PmPublished, true, None => Err RollbackTargetMissing
  | _, _, _ => Ok tt
  end.

(** [control/governance/publication.rs:79-98] `PublicationManager::check_risk_expansion` *)
Definition check_risk_expansion (new_factors active_factors : list ControlFactorValue) (approved : bool) : Result unit GovernanceError :=
  if approved then Ok tt
  else if existsb (fun new => existsb (fun prior =>
            bool_decide (cf_dimensions new = cf_dimensions prior) && relaxes (cf_payload new) (cf_payload prior)) active_factors) new_factors
  then Err RiskExpansionNotApproved
  else Ok tt.
End Values.

(** ** Facts *)

Lemma and_then_ok {E} (r k : Result unit E) : (r ?> k) = Ok tt <-> r = Ok tt /\ k = Ok tt.
Proof. destruct r as [[]|]; simpl; naive_solver. Qed.

(** The graph as the transitive closure of its edges. *)
Definition advances (s t : FactorStatus) : Prop := can_transition s t = true.

Definition promotable (s : FactorStatus) : bool :=
  match s with FDraft | FReportOnly | FCandidate | FShadow | FPublished => true | _ => false end.

Lemma promotable_back s t : advances s t -> promotable t = true -> promotable s = true.
Proof. unfold advances. destruct s, t; vm_compute; auto. Qed.

(** Exactly the drafts, report-only rows, candidates, shadows and published factors can ever be
    published: what was rejected, superseded, expired or rolled back never comes back; and only
    a shadow becomes published in one step. *)
Theorem publishable_statuses s :
  (rtc advances s FPublished <-> promotable s = true) /\
  (advances s FPublished <-> s = FShadow \/ s = FPublished).
Proof.
  split; split.
  - intros Hr. remember FPublished as t eqn:Ht. induction Hr as [|a b c Hs Hr IH]; subst; [done|].
    apply (promotable_back a b); auto.
  - assert (rtc advances FShadow FPublished) as H1 by (apply rtc_once; vm_compute; reflexivity).
    assert (rtc advances FCandidate FPublished) as H2 by (eapply rtc_l; [|exact H1]; vm_compute; reflexivity).
    assert (rtc advances FDraft FPublished) as H3 by (eapply rtc_l; [|exact H2]; vm_compute; reflexivity).
    destruct s; try discriminate; intros _; auto using rtc_refl.
    eapply rtc_l; [|exact H3]. vm_compute. reflexivity.
  - unfold advances. destruct s; vm_compute; auto; discriminate.
  - by intros [->| ->].
Qed.

(** A report-only row is refused as a candidate, but a detour through the draft status makes it one. *)
Lemma report_only_detour :
  assert_transition FReportOnly FCandidate = Err (IllegalTransition FReportOnly (Some FCandidate)) /\
  assert_transition FReportOnly FDraft = Ok tt /\ assert_not_report_only_promotion FReportOnly FDraft = Ok tt /\
  assert_transition FDraft FCandidate = Ok tt /\ assert_not_report_only_promotion FDraft FCandidate = Ok tt.
Proof. repeat split; vm_compute; reflexivity. Qed.

Section PayloadFacts.
Context `{DO : DecimalOps}.

(** A value a size or probability can be scaled by without growing. *)
Definition unit_range (x : D) : Prop := dleb d0 x = true /\ dleb x d1 = true.

Definition unit_opt (o : option D) : Prop := match o with Some x => unit_range x | None => True end.

(** What a validated payload promises: it can only tighten. *)
Definition conservative (p : FactorPayload) : Prop :=
  match p with
  | PayBucketRisk b => unit_range (resolution_haircut_factor b) /\ unit_range (bp_size_multiplier b) /\ dleb d0 (min_edge_bps_addon b) = true
  | PayExecutionQuality e =>
      unit_range (fill_probability_multiplier e) /\ unit_opt (max_depth_usage_pct e) /\ unit_opt (min_liquidity_score e) /\
      dleb d0 (slippage_bps_addon e) = true
  | PayPortfolioRisk q =>
      unit_range (pp_global_size_multiplier q) /\ unit_opt (pp_category_size_multiplier q) /\
      unit_range (pp_daily_budget_multiplier q) /\ unit_range (pp_kelly_fraction_multiplier q)
  | PayReconciliationHealth r => unit_range (rp_size_multiplier r)
  | PayMarketAnomaly m => blank (mp_reason_code m) = false
  end.

Lemma ensure_multiplier_ok x f : ensure_multiplier x f = Ok tt <-> unit_range x.
Proof.
  unfold ensure_multiplier, unit_range, dltb. destruct (dleb d0 x), (dleb x d1); simpl; naive_solver.
Qed.

Lemma ensure_opt_ok o f : ensure_opt o f = Ok tt <-> unit_opt o.
Proof. destruct o; simpl; [apply ensure_multiplier_ok | naive_solver]. Qed.

Lemma ensure_non_negative_ok x f : ensure_non_negative x f = Ok tt <-> dleb d0 x = true.
Proof. unfold ensure_non_negative, dltb. destruct (dleb d0 x); simpl; naive_solver. Qed.

Lemma validate_safety_iff p : validate_safety p = Ok tt <-> conservative p.
Proof.
  destruct p; simpl; unfold validate_bucket, validate_quality, validate_portfolio, validate_health, validate_anomaly;
    rewrite ?and_then_ok, ?ensure_multiplier_ok, ?ensure_opt_ok, ?ensure_non_negative_ok; try done.
  destruct (blank _); naive_solver.
Qed.

(** The payloads of one family, ordered by what they permit. *)
Definition tighter (a b : FactorPayload) : Prop := pay_factor_type a = pay_factor_type b /\ relaxes a b = false.

Lemma dltb_trans_false x y z : dltb y x = false -> dltb z y = false -> dltb z x = false.
Proof. rewrite !dltb_ge. intros. eapply Qle_trans; eassumption. Qed.

Lemma larger_trans {A} (gt : A -> A -> bool) (Hgt : forall x y z, gt x y = false -> gt y z = false -> gt x z = false) a b c :
  looser_when_larger_or_none gt a b = false -> looser_when_larger_or_none gt b c = false -> looser_when_larger_or_none gt a c = false.
Proof. destruct a, b, c; simpl; try done. apply Hgt. Qed.

Lemma smaller_trans {A} (lt : A -> A -> bool) (Hlt : forall x y z, lt x y = false -> lt y z = false -> lt x z = false) a b c :
  looser_when_smaller_or_none lt a b = false -> looser_when_smaller_or_none lt b c = false -> looser_when_smaller_or_none lt a c = false.
Proof. destruct a, b, c; simpl; try done. apply Hlt. Qed.

Lemma flag_trans a b c : negb a && b = false -> negb b && c = false -> negb a && c = false.
Proof. by destruct a, b, c. Qed.

Lemma ltb_trans_false (x y z : Z) : (y <? x) = false -> (z <? y) = false -> (z <? x) = false.
Proof. rewrite !Z.ltb_ge. lia. Qed.

Lemma relaxes_refl p : relaxes p p = false.
Proof.
  assert (forall x : D, dltb x x = false) as Hd by (intros; unfold dltb; by rewrite dleb_refl).
  assert (forall (A : Type) (f : A -> A -> bool) o, (forall x, f x x = false) -> looser_when_larger_or_none f o o = false) as Hl
    by (intros A f [] Hf; simpl; auto).
  assert (forall (A : Type) (f : A -> A -> bool) o, (forall x, f x x = false) -> looser_when_smaller_or_none f o o = false) as Hs
    by (intros A f [] Hf; simpl; auto).
  destruct p; simpl; rewrite ?Hd, ?Hl, ?Hs, ?andb_negb_l by (intros; auto using Z.ltb_irrefl); done.
Qed.

Lemma tighter_trans a b c : tighter a b -> tighter b c -> tighter a c.
Proof.
  unfold tighter. intros [E1 H1] [E2 H2]. split; [congruence|].
  destruct a, b, c; try discriminate; simpl in *; rewrite ?orb_false_iff in *; destruct_and?;
    repeat split; eauto using dltb_trans_false, flag_trans, larger_trans, smaller_trans.
  all: (eapply larger_trans || eapply smaller_trans); [|eassumption..]; cbv beta; intros x y z; rewrite ?dltb_ge, ?Z.ltb_ge;
    first [lia | intros; eapply Qle_trans; eassumption].
Qed.
End PayloadFacts.

Section Governance.
Context `{DO : DecimalOps}.
Implicit Types (f g : ControlFactorValue) (p : ControlFactorPublication).

Lemma validate_for_transition_ok f target : validate_for_transition f target = Ok tt ->
  advances (cf_status f) target /\ cf_factor_type f = pay_factor_type (cf_payload f) /\
  dims_agree (cf_dimensions f) (cf_factor_type f) = true /\ cf_generated_at f < cf_expires_at f /\
  conservative (cf_payload f) /\ (requires_governed_evidence target = true -> is_sufficient_for_candidate (cf_evidence f) = true).
Proof.
  unfold validate_for_transition. rewrite !and_then_ok. intros (Ht & _ & H).
  unfold assert_transition in Ht. destruct (can_transition _ _) eqn:Et; [|done].
  case_bool_decide as Htype; simpl in H; [|done].
  destruct (dims_agree _ _) eqn:Ed; simpl in H; [|done].
  destruct (Z.leb_spec (cf_expires_at f) (cf_generated_at f)) as [|Hlt]; [done|].
  destruct (validate_safety (cf_payload f)) as [[]|] eqn:Es; [|done]. apply validate_safety_iff in Es.
  repeat split; auto. intros Hg. rewrite Hg in H. by destruct (is_sufficient_for_candidate _).
Qed.

(** What activation guarantees of one member. *)
Definition governed p f : Prop :=
  cf_status f = required_member_status p /\ advances (cf_status f) (target_factor_status p) /\
  cf_factor_type f = pay_factor_type (cf_payload f) /\ cf_generated_at f < cf_expires_at f /\
  conservative (cf_payload f) /\ is_sufficient_for_candidate (cf_evidence f) = true.

Lemma validate_members_ok p fs : validate_members p fs = Ok tt ->
  Forall (governed p) fs /\ forall i, i ∈ cf_factor_id <$> fs -> i ∈ cp_factor_ids p.
Proof.
  induction fs as [|f fs IH]; simpl; [by intros; split; [|intros i ?%elem_of_nil]|].
  rewrite and_then_ok. intros [Hm [Hf Hi]%IH]. unfold validate_member in Hm.
  case_bool_decide as Hin; simpl in Hm; [|done]. case_bool_decide as Hs; simpl in Hm; [|done].
  destruct (validate_for_transition _ _) as [[]|] eqn:Et; [|done].
  apply validate_for_transition_ok in Et as (? & ? & ? & ? & ? & Hev). split.
  - constructor; [|done]. repeat split; auto. apply Hev. unfold target_factor_status. by destruct (cp_mode p).
  - intros i [->|?]%elem_of_cons; auto.
Qed.

(** A publication that passes the activation rules has a window, and each of its members is at
    the status the mode requires, typed, unexpired at birth, conservative and backed by sufficient
    evidence; when the loaded members are distinct they are exactly the listed ones. *)
Theorem activated_publication_is_governed p fs :
  validate_for_activation p fs = Ok tt ->
  cp_effective_from p < cp_expires_at p /\ Forall (governed p) fs /\
  (NoDup (cf_factor_id <$> fs) -> cf_factor_id <$> fs ≡ₚ cp_factor_ids p).
Proof.
  unfold validate_for_activation. destruct (cp_factor_ids p) as [|i ids] eqn:Ei; [done|]. rewrite <- Ei.
  destruct (Z.leb_spec (cp_expires_at p) (cp_effective_from p)); [done|].
  destruct (Nat.eqb_spec (length (cp_factor_ids p)) (length fs)) as [El|]; simpl; [|done].
  intros [Hf Hi]%validate_members_ok. split; [lia|]. split; [done|]. intros Hnd.
  apply submseteq_length_Permutation; [by apply NoDup_submseteq|]. rewrite length_fmap. lia.
Qed.

(** A factor of a publication for the given dimensions, with its payload of their family. *)
Definition covers (d : FactorDimensions) f : Prop :=
  cf_dimensions f = d /\ dim_factor_type d = Some (pay_factor_type (cf_payload f)).

(** A publication that replaces another without approval while both govern the dimensions. *)
Definition replaces (d : FactorDimensions) (old new : list ControlFactorValue) : Prop :=
  (exists f, f ∈ old /\ covers d f) /\ check_risk_expansion new old false = Ok tt.

Lemma replaces_tighter d old new f g :
  replaces d old new -> f ∈ old -> covers d f -> g ∈ new -> covers d g -> tighter (cf_payload g) (cf_payload f).
Proof.
  intros [_ Hc] Hf [Df Tf] Hg [Dg Tg]. split; [congruence|]. unfold check_risk_expansion in Hc.
  destruct (existsb _ new) eqn:E; [done|]. rewrite <- not_true_iff_false, existsb_exists in E.
  apply not_true_iff_false. intros Hr. apply E. exists g. split; [by apply list_elem_of_In|].
  apply existsb_exists. exists f. split; [by apply list_elem_of_In|]. rewrite bool_decide_true by congruence. done.
Qed.

(** Along any chain of publications activated without a risk-expansion approval, what governs a
    dimension throughout is never loosened, however long the chain. *)
Theorem unapproved_chain_only_tightens d old new f g :
  tc (replaces d) old new -> f ∈ old -> covers d f -> g ∈ new -> covers d g -> tighter (cf_payload g) (cf_payload f).
Proof.
  intros Hc. revert f. induction Hc as [old new Hs|old mid new Hs Hc IH]; intros f Hf Cf Hg Cg.
  - eapply replaces_tighter; eassumption.
  - assert (exists h, h ∈ mid /\ covers d h) as (h & Hh & Ch) by (destruct Hc as [?? [? _]|??? [? _]]; done).
    eapply tighter_trans; [eapply IH; eassumption | eapply replaces_tighter; eassumption].
Qed.

(** The gate compares factors of the same dimensions only: a publication that drops a factor passes
    without approval, whatever the dropped factor restricted. *)
Lemma dropping_is_not_expansion new active :
  (forall f g, f ∈ active -> g ∈ new -> cf_dimensions g <> cf_dimensions f) -> check_risk_expansion new active false = Ok tt.
Proof.
  intros Hd. unfold check_risk_expansion. destruct (existsb _ new) eqn:E; [|done].
  apply existsb_exists in E as (g & Hg & E). apply existsb_exists in E as (f & Hf & E).
  apply andb_true_iff in E as [E _]. apply bool_decide_eq_true in E.
  by destruct (Hd f g); [apply list_elem_of_In..|].
Qed.
End Governance.

Module FactorDemo.
Definition demo_evidence : FactorEvidence (DO := ExactQ.exactQ) := {|
  fe_stage_report_ids := [1]; fe_window_from := 0; fe_window_to := 100; fe_market_count := 30; fe_event_count := 10;
  fe_opportunity_count := 200; fe_settlement_count := 60; fe_sample_count := 200;
  fe_data_coverage := {| expected_rows := 10; observed_rows := 10; missing_rows := 0; coverage_ratio := 1%Q; insufficient_reasons := [] |};
  fe_point_in_time_inputs := {| production_eligible := true; fatal_errors := []; manifest_hash := "pit" |};
  fe_baseline_config_hash := "cfg"; fe_code_git_sha := "sha"; fe_dataset_hash := "ds"; fe_feature_schema_hash := "fs";
  fe_label_schema_hash := "ls"; fe_query_fingerprint := "fp" |}.

Definition demo_dims : FactorDimensions := DimBucketRisk (coarse Politics Z97 Short).

(** A bucket factor with the given size multiplier. *)
Definition demo_factor (id : Z) (m : Q) (status : FactorStatus) : ControlFactorValue (DO := ExactQ.exactQ) := {|
  cf_factor_id := id; cf_factor_type := BucketRisk; cf_dimensions := demo_dims;
  cf_payload := PayBucketRisk {| resolution_haircut_factor := (9 # 10)%Q; bp_size_multiplier := m; min_edge_bps_addon := 0%Q;
                                 block_new_entries := false |};
  cf_evidence := demo_evidence; cf_status := status; cf_generated_at := 100; cf_expires_at := 1000; cf_owner := "risk";
  cf_schema_version := 1 |}.

Definition demo_publication : ControlFactorPublication := {|
  cp_publication_id := 7; cp_mode := PmPublished; cp_factor_ids := [1; 2]; cp_previous_publication_id := None;
  cp_status := PsPending; cp_effective_from := 100; cp_expires_at := 900; cp_approved_by := Some "operator";
  cp_approval_reason := "review"; cp_publication_hash := "h" |}.

Lemma activated_publication_is_governed_witness :
  cf_factor_id <$> [demo_factor 2 (1 # 2) FShadow; demo_factor 1 (1 # 3) FShadow] ≡ₚ cp_factor_ids demo_publication.
Proof.
  destruct (activated_publication_is_governed (DO := ExactQ.exactQ) demo_publication
    [demo_factor 2 (1 # 2) FShadow; demo_factor 1 (1 # 3) FShadow]) as (_ & _ & H); [vm_compute; reflexivity|].
  apply H. change (NoDup [2; 1]). repeat constructor; set_solver.
Defined.

Lemma unapproved_chain_only_tightens_witness :
  tighter (cf_payload (demo_factor 3 (1 # 4) FShadow)) (cf_payload (demo_factor 1 (1 # 2) FShadow)).
Proof.
  apply (unapproved_chain_only_tightens (DO := ExactQ.exactQ) demo_dims
    [demo_factor 1 (1 # 2) FShadow] [demo_factor 3 (1 # 4) FShadow]);
    [|apply list_elem_of_singleton; reflexivity | split; reflexivity
     | apply list_elem_of_singleton; reflexivity | split; reflexivity].
  apply tc_l with [demo_factor 2 (1 # 3) FShadow]; [|apply tc_once];
    (split; [eexists; split; [apply list_elem_of_singleton; reflexivity | split; reflexivity] | vm_compute; reflexivity]).
Defined.

(** Dropping a maintenance-mode factor altogether needs no approval. *)
Lemma dropping_is_not_expansion_example :
  check_risk_expansion (DO := ExactQ.exactQ) [demo_factor 1 1 FShadow]
    [ {| cf_factor_id := 9; cf_factor_type := ReconciliationHealth;
         cf_dimensions := DimReconciliationHealth {| account_scope := AsGlobal; asset_scope := AllAssets; drift_severity := SevCritical;
                            metrics_freshness_bucket := MfFresh; redeem_status_bucket := NotRedeemable |};
         cf_payload := PayReconciliationHealth {| trading_health := MaintenanceRequired; rp_size_multiplier := 0%Q;
                         rp_require_manual_ack := true; rp_force_maintenance_mode := true; fail_closed_after_secs := None |};
         cf_evidence := demo_evidence; cf_status := FPublished; cf_generated_at := 0; cf_expires_at := 1000; cf_owner := "risk";
         cf_schema_version := 1 |} ] false = Ok tt.
Proof. vm_compute. reflexivity. Qed.
End FactorDemo.
