(* ===== verification/AuditChain.v ===== *)
(** * The governance audit chain

    [oxide-arb-models/src/domain/control_factor/audit.rs] and the audit part of
    [oxide-arb-repository/src/postgres/control_factor.rs]: one global chain of events, each with the
    next sequence number, the hash of its predecessor and a hash of its own content.  The digest
    (BLAKE3 over canonical JSON) and the resolution of a time stamp column are parameters: they are
    the code of libraries and of the database.  Time is in nanoseconds. *)

From stdpp Require Import sorting.
From S2P Require Import Prelude Config.

(** ** Data *)

(** JSON values as the code builds them. *)
Inductive Json :=
| JNull
| JBool (b : bool)
| JNum (n : Z)
| JStr (s : string)
| JArr (l : list Json)
| JObj (fields : list (string * Json)).

(** [models/enums/control_factor.rs:394-407] `ControlAuditEventType` *)
Inductive ControlAuditEventType :=
| AeFactorCreated | AeFactorTransitioned | AeFactorRejected | AeFactorExpired
| AePublicationCreated | AePublicationActivated | AePublicationRolledBack | AePublicationExpired
| AeRuntimeConfigVersionCreated | AeRuntimeConfigActivated | AeRuntimeConfigRolledBack | AeSnapshotLoadFailed.

(** [models/enums/control_factor.rs:412-418] `AuditResourceType` *)
Inductive AuditResourceType := RtFactor | RtPublication | RtMaterializationRun | RtRuntimeConfigVersion | RtSnapshot.

#[global] Instance ControlAuditEventType_eq_dec : EqDecision ControlAuditEventType.
Proof. solve_decision. Defined.

(** [models/domain/control_factor/audit.rs:24-38] `AuditEventContent` *)
Record AuditEventContent := {
  ac_sequence : Z;
  ac_event_type : ControlAuditEventType;
  ac_actor : string;
  ac_actor_role : string;
  ac_resource_type : AuditResourceType;
  ac_resource_id : string;
  ac_request_id : string;
  ac_reason : string;
  ac_before_hash : option string;
  ac_after_hash : option string;
  ac_diff : Json;
  ac_prev_event_hash : option string;
  ac_created_at : Time
}.

(** [models/domain/control_factor/persistence.rs:364-380] `ControlFactorAuditEventInfo` *)
Record AuditEventInfo := {
  ae_event_id : Z;
  ae_sequence : Z;
  ae_event_type : ControlAuditEventType;
  ae_actor : string;
  ae_actor_role : string;
  ae_resource_type : AuditResourceType;
  ae_resource_id : string;
  ae_request_id : string;
  ae_reason : string;
  ae_before_hash : option string;
  ae_after_hash : option string;
  ae_diff : Json;
  ae_prev_event_hash : option string;
  ae_event_hash : string;
  ae_created_at : Time
}.

(** [models/domain/control_factor/persistence.rs:411-422] `NewControlFactorAuditEvent` *)
Record NewAuditEvent := {
  na_event_type : ControlAuditEventType;
  na_actor : string;
  na_actor_role : string;
  na_resource_type : AuditResourceType;
  na_resource_id : string;
  na_request_id : string;
  na_reason : string;
  na_before_hash : option string;
  na_after_hash : option string;
  na_diff : Json
}.

(** [error/control.rs:16-31] `AuditChainError` *)
Inductive AuditChainError :=
| SequenceGap (expected actual : Z)
| BrokenLink (sequence : Z)
| GenesisPrevNotNull (sequence : Z)
| HashMismatch (sequence : Z) (expected actual : string)
| DigestFailed (message : string).

(** BLAKE3 over the JSON of an event; the serialisation can fail. *)
Class EventDigest := event_hash : AuditEventContent -> Result string string.

(** What a time stamp column gives back of a stored time. *)
Class TimestampColumn := column_time : Time -> Time.

(** [error/storage.rs:9-67] `StorageError`, as far as the control plane tells its cases apart *)
Inductive StorageError :=
| SeDatabase (message : string)
| SeCodec (message : string)
| SeNotFound (entity : string) (id : Z)
| SeConflict (message : string).

Section Chain.
Context {ED : EventDigest} {TC : TimestampColumn}.

(** ** The verifier *)

(** [models/domain/control_factor/audit.rs:82-97] `AuditChain::verify`, the content whose hash is recomputed *)
Definition content_of (event : AuditEventInfo) : AuditEventContent := {|
  ac_sequence := ae_sequence event;
  ac_event_type := ae_event_type event;
  ac_actor := ae_actor event;
  ac_actor_role := ae_actor_role event;
  ac_resource_type := ae_resource_type event;
  ac_resource_id := ae_resource_id event;
  ac_request_id := ae_request_id event;
  ac_reason := ae_reason event;
  ac_before_hash := ae_before_hash event;
  ac_after_hash := ae_after_hash event;
  ac_diff := ae_diff event;
  ac_prev_event_hash := ae_prev_event_hash event;
  ac_created_at := ae_created_at event
|}.

(** [models/domain/control_factor/audit.rs:62-81] `AuditChain::verify`, the link of an event to the one before it *)
Definition check_link (prev : option AuditEventInfo) (event : AuditEventInfo) : Result unit AuditChainError :=
  match prev with
  | Some previous =>
      let expected_sequence := ae_sequence previous + 1 in
      if negb (ae_sequence event =? expected_sequence) then Err (SequenceGap expected_sequence (ae_sequence event))
      else if negb (bool_decide (ae_prev_event_hash event = Some (ae_event_hash previous)))
      then Err (BrokenLink (ae_sequence event))
      else Ok tt
  | None =>
      if (ae_sequence event =? 1) && bool_decide (is_Some (ae_prev_event_hash event))
      then Err (GenesisPrevNotNull (ae_sequence event))
      else Ok tt
  end.

(** [models/domain/control_factor/audit.rs:82-106] `AuditChain::verify`, the recomputed hash *)
Definition check_hash (event : AuditEventInfo) : Result unit AuditChainError :=
  match event_hash (content_of event) with
  | Err message => Err (DigestFailed message)
  | Ok recomputed =>
      if bool_decide (recomputed = ae_event_hash event) then Ok tt
      else Err (HashMismatch (ae_sequence event) recomputed (ae_event_hash event))
  end.

(** [models/domain/control_factor/audit.rs:59-108] `AuditChain::verify`, its loop *)
Fixpoint verify_from (prev : option AuditEventInfo) (events : list AuditEventInfo) : Result unit AuditChainError :=
  match events with
  | [] => Ok tt
  | event :: rest =>
      match check_link prev event with
      | Err e => Err e
      | Ok _ => match check_hash event with
                | Err e => Err e
                | Ok _ => verify_from (Some event) rest
                end
      end
  end.

(** [models/domain/control_factor/audit.rs:58-59] `AuditChain::verify` *)
Definition verify (events : list AuditEventInfo) : Result unit AuditChainError := verify_from None events.

(** ** The table *)

(** [repo/postgres/control_factor.rs:534-548] `find_audit_event_by_idempotency_q` *)
Definition find_audit_event_by_idempotency_q (db : list AuditEventInfo) (request_id : string)
    (event_type : ControlAuditEventType) (resource_id : string) : option AuditEventInfo :=
  List.find (fun e => bool_decide (ae_request_id e = request_id) && bool_decide (ae_event_type e = event_type)
                      && bool_decide (ae_resource_id e = resource_id)) db.

(** [repo/postgres/control_factor.rs:574-578] `append_audit_event_chained_q`, the row with the largest sequence *)
Definition tip (db : list AuditEventInfo) : option AuditEventInfo :=
  foldl (fun best e => match best with
                       | Some b => if ae_sequence b <? ae_sequence e then Some e else Some b
                       | None => Some e
                       end) None db.

(** [repo/postgres/control_factor.rs:584-600] `append_audit_event_chained_q`, the hashed content *)
Definition new_content (event : NewAuditEvent) (sequence : Z) (prev_event_hash : option string) (now : Time) : AuditEventContent := {|
  ac_sequence := sequence;
  ac_event_type := na_event_type event;
  ac_actor := na_actor event;
  ac_actor_role := na_actor_role event;
  ac_resource_type := na_resource_type event;
  ac_resource_id := na_resource_id event;
  ac_request_id := na_request_id event;
  ac_reason := na_reason event;
  ac_before_hash := na_before_hash event;
  ac_after_hash := na_after_hash event;
  ac_diff := na_diff event;
  ac_prev_event_hash := prev_event_hash;
  ac_created_at := now
|}.

(** [repo/postgres/control_factor.rs:602-618] `append_audit_event_chained_q`, the row as the database holds it *)
Definition audit_row (event_id : Z) (event : NewAuditEvent) (sequence : Z) (prev_event_hash : option string)
    (hash : string) (now : Time) : AuditEventInfo := {|
  ae_event_id := event_id;
  ae_sequence := sequence;
  ae_event_type := na_event_type event;
  ae_actor := na_actor event;
  ae_actor_role := na_actor_role event;
  ae_resource_type := na_resource_type event;
  ae_resource_id := na_resource_id event;
  ae_request_id := na_request_id event;
  ae_reason := na_reason event;
  ae_before_hash := na_before_hash event;
  ae_after_hash := na_after_hash event;
  ae_diff := na_diff event;
  ae_prev_event_hash := prev_event_hash;
  ae_event_hash := hash;
  ae_created_at := column_time now
|}.

(** [models/idens/control_factor_audit_event.rs:119-158] the primary key and the unique indexes of the table *)
Definition insert_audit_row (db : list AuditEventInfo) (row : AuditEventInfo) : Result (list AuditEventInfo) StorageError :=
  if existsb (fun e => (ae_event_id e =? ae_event_id row) || (ae_sequence e =? ae_sequence row)
                       || bool_decide (ae_event_hash e = ae_event_hash row)
                       || bool_decide (ae_request_id e = ae_request_id row) && bool_decide (ae_event_type e = ae_event_type row)
                          && bool_decide (ae_resource_id e = ae_resource_id row)) db
  then Err (SeDatabase "unique violation")
  else Ok (db ++ [row]).

(** [repo/postgres/control_factor.rs:555-623] `append_audit_event_chained_q` *)
Definition append_audit_event_chained_q (db : list AuditEventInfo) (event_id : Z) (event : NewAuditEvent) (now : Time)
    : Result (list AuditEventInfo * AuditEventInfo) StorageError :=
  match find_audit_event_by_idempotency_q db (na_request_id event) (na_event_type event) (na_resource_id event) with
  | Some existing => Ok (db, existing)
  | None =>
      let '(sequence, prev_event_hash) := match tip db with
                                          | Some t => (ae_sequence t + 1, Some (ae_event_hash t))
                                          | None => (1, None)
                                          end in
      match event_hash (new_content event sequence prev_event_hash now) with
      | Err message => Err (SeCodec message)
      | Ok hash =>
          let row := audit_row event_id event sequence prev_event_hash hash now in
          match insert_audit_row db row with
          | Err e => Err e
          | Ok db' => Ok (db', row)
          end
      end
  end.

Definition by_sequence (a b : AuditEventInfo) : Prop := ae_sequence a <= ae_sequence b.
#[local] Instance by_sequence_dec a b : Decision (by_sequence a b) := Z_le_dec _ _.

(** [repo/postgres/control_factor.rs:625-638] `load_audit_chain_q` *)
Definition load_audit_chain_q (db : list AuditEventInfo) (from_sequence : Z) (limit : nat) : list AuditEventInfo :=
  take limit (merge_sort by_sequence (List.filter (fun e => from_sequence <=? ae_sequence e) db)).

(** [repo/postgres/control_factor.rs:640-649] `load_audit_event_by_id_q` *)
Definition load_audit_event_by_id_q (db : list AuditEventInfo) (event_id : Z) : option AuditEventInfo :=
  List.find (fun e => ae_event_id e =? event_id) db.

(** [repo/postgres/control_factor.rs:651-664] `load_audit_events_by_resource_q` *)
Definition load_audit_events_by_resource_q (db : list AuditEventInfo) (resource_id : string) (limit : nat) : list AuditEventInfo :=
  take limit (reverse (merge_sort by_sequence (List.filter (fun e => bool_decide (ae_resource_id e = resource_id)) db))).

(** ** The chain view of the console *)

(** [models/domain/api/control_factor.rs:127-132] `AuditChainResponse` *)
Record AuditChainResponse := { acr_events : list AuditEventInfo; acr_verified : bool; acr_broken_at : option Z }.

(** The answers of the console that are not a page. *)
Inductive WebError := BadRequest (message : string) | NotFound (message : string).

Definition DEFAULT_AUDIT_LIMIT : Z := 100.
Definition MAX_AUDIT_LIMIT : Z := 1000.

(** [web/routes/control_factors.rs:503-511] `audit_break_sequence` *)
Definition audit_break_sequence (error : AuditChainError) : option Z :=
  match error with
  | SequenceGap _ actual => Some actual
  | BrokenLink sequence | GenesisPrevNotNull sequence | HashMismatch sequence _ _ => Some sequence
  | DigestFailed _ => None
  end.

(** [web/routes/control_factors.rs:356-366] `audit_chain`, the first sequence of the page *)
Definition chain_page_start (db : list AuditEventInfo) (event_id from_sequence : option Z) (limit : Z) : Result Z WebError :=
  match event_id with
  | Some id => match load_audit_event_by_id_q db id with
               | None => Err (NotFound ("audit event not found: " +:+ pretty id))
               | Some target => Ok (Z.max (ae_sequence target - limit / 2) 1)
               end
  | None => Ok (Z.max (unwrap_or from_sequence 1) 1)
  end.

(** [web/routes/control_factors.rs:343-381] `audit_chain` *)
Definition audit_chain (db : list AuditEventInfo) (event_id from_sequence limit : option Z) : Result AuditChainResponse WebError :=
  match event_id, from_sequence with
  | Some _, Some _ => Err (BadRequest "event_id and from_sequence are mutually exclusive")
  | _, _ =>
      let limit := Z.min (unwrap_or limit DEFAULT_AUDIT_LIMIT) MAX_AUDIT_LIMIT in
      match chain_page_start db event_id from_sequence limit with
      | Err e => Err e
      | Ok start =>
          let events := load_audit_chain_q db start (Z.to_nat limit) in
          Ok match verify events with
             | Ok _ => {| acr_events := events; acr_verified := true; acr_broken_at := None |}
             | Err error => {| acr_events := events; acr_verified := false; acr_broken_at := audit_break_sequence error |}
             end
      end
  end.

(** ** Facts *)

(** The tables that appending builds, with the time of each row. *)
Inductive appended : list AuditEventInfo -> list Time -> Prop :=
| appended_nil : appended [] []
| appended_again db times event_id event now row :
    appended db times -> append_audit_event_chained_q db event_id event now = Ok (db, row) -> appended db times
| appended_row db times event_id event now row :
    appended db times -> append_audit_event_chained_q db event_id event now = Ok (db ++ [row], row) ->
    appended (db ++ [row]) (times ++ [now]).

Lemma append_logged db event_id event now db' row : append_audit_event_chained_q db event_id event now = Ok (db', row) ->
  row ∈ db' /\ ae_request_id row = na_request_id event /\ ae_event_type row = na_event_type event /\ ae_resource_id row = na_resource_id event.
Proof.
  unfold append_audit_event_chained_q. destruct (find_audit_event_by_idempotency_q _ _ _ _) as [x|] eqn:Ef.
  - intros [= <- ->]. unfold find_audit_event_by_idempotency_q in Ef. apply find_some in Ef as [Hin%list_elem_of_In Hx].
    rewrite !andb_true_iff, !bool_decide_eq_true in Hx. naive_solver.
  - destruct (match tip db with Some t => _ | None => _ end) as [sequence prev]. destruct (event_hash _) as [hash|]; [|done].
    unfold insert_audit_row. destruct (existsb _ _); [done|]. intros [= <- <-]. set_solver.
Qed.

Lemma appended_extend (clock : Time -> Prop) db times event_id event now db' row :
  appended db times -> Forall clock times -> clock now -> append_audit_event_chained_q db event_id event now = Ok (db', row) ->
  exists times', appended db' times' /\ Forall clock times'.
Proof.
  intros Ha Hc Hn H. pose proof H as Hx. unfold append_audit_event_chained_q in Hx.
  destruct (find_audit_event_by_idempotency_q _ _ _ _); [injection Hx as <- ->; exists times; split; [by eapply appended_again|done]|].
  destruct (match tip db with Some t => _ | None => _ end) as [sequence prev]. destruct (event_hash _) as [hash|]; [|done].
  unfold insert_audit_row in Hx. destruct (existsb _ _); [done|]. injection Hx as <- <-.
  eexists. split; [by eapply appended_row|]. apply Forall_app. by split; [|constructor].
Qed.

Definition content_at (now : Time) (e : AuditEventInfo) : AuditEventContent := {|
  ac_sequence := ae_sequence e; ac_event_type := ae_event_type e; ac_actor := ae_actor e; ac_actor_role := ae_actor_role e;
  ac_resource_type := ae_resource_type e; ac_resource_id := ae_resource_id e; ac_request_id := ae_request_id e;
  ac_reason := ae_reason e; ac_before_hash := ae_before_hash e; ac_after_hash := ae_after_hash e; ac_diff := ae_diff e;
  ac_prev_event_hash := ae_prev_event_hash e; ac_created_at := now |}.

(** The row at position [i] of a chain: its sequence, its link and its hash. *)
Record row_ok (db : list AuditEventInfo) (i : nat) (e : AuditEventInfo) (now : Time) : Prop := {
  ro_sequence : ae_sequence e = Z.of_nat i + 1;
  ro_prev : ae_prev_event_hash e = match i with O => None | S j => ae_event_hash <$> db !! j end;
  ro_time : ae_created_at e = column_time now;
  ro_hash : event_hash (content_at now e) = Ok (ae_event_hash e)
}.

Definition chain_ok (db : list AuditEventInfo) (times : list Time) : Prop :=
  length times = length db /\ forall i e now, db !! i = Some e -> times !! i = Some now -> row_ok db i e now.

Lemma tip_last db times : chain_ok db times -> tip db = last db.
Proof.
  unfold chain_ok, tip. revert times. induction db as [|e db IH] using rev_ind; intros times [Hl H]; [done|].
  rewrite foldl_snoc, last_snoc. destruct times as [|now times _] using rev_ind; [by rewrite length_app in Hl; simpl in Hl; lia|].
  rewrite !length_app in Hl. simpl in Hl. assert (Hc : chain_ok db times).
  { split; [lia|]. intros i e' now' Hi Ht.
    assert (Hlt := lookup_lt_Some _ _ _ Hi). destruct (H i e' now') as [? Hp ? ?]; [by apply lookup_app_l_Some..|].
    split; try done. rewrite Hp. destruct i as [|j]; [done|]. by rewrite lookup_app_l by lia. }
  rewrite (IH times Hc). destruct (last db) as [b|] eqn:Eb; [|done].
  rewrite last_lookup in Eb. assert (Hlt := lookup_lt_Some _ _ _ Eb).
  destruct (lookup_lt_is_Some_2 times (Nat.pred (length db))) as [nb Hnb]; [lia|].
  destruct Hc as [_ Hc]. destruct (Hc _ _ _ Eb Hnb) as [Hs _ _ _].
  destruct (H (length db) e now) as [He _ _ _]; [apply list_lookup_middle; lia| |].
  { rewrite lookup_app_r by lia. by replace (length db - length times)%nat with O by lia. }
  destruct (Z.ltb_spec (ae_sequence b) (ae_sequence e)); [done|lia].
Qed.

Lemma append_cases db event_id event now db' row :
  append_audit_event_chained_q db event_id event now = Ok (db', row) ->
  (db' = db /\ find_audit_event_by_idempotency_q db (na_request_id event) (na_event_type event) (na_resource_id event) = Some row) \/
  (db' = db ++ [row] /\ exists sequence prev hash,
     (sequence, prev) = match tip db with Some t => (ae_sequence t + 1, Some (ae_event_hash t)) | None => (1, None) end /\
     row = audit_row event_id event sequence prev hash now /\ event_hash (new_content event sequence prev now) = Ok hash).
Proof.
  unfold append_audit_event_chained_q. destruct (find_audit_event_by_idempotency_q _ _ _ _) as [x|] eqn:Ef.
  { intros [= <- <-]. by left. }
  destruct (match tip db with Some t => _ | None => _ end) as [sequence prev] eqn:Et.
  destruct (event_hash _) as [hash|] eqn:Eh; [|done]. unfold insert_audit_row. destruct (existsb _ _); [done|].
  intros [= <- <-]. right. split; [done|]. by exists sequence, prev, hash.
Qed.

Lemma app_one_neq {A} (l : list A) x : l <> l ++ [x].
Proof. intros H%(f_equal length). rewrite length_app in H. simpl in H. lia. Qed.

Lemma appended_chain db times : appended db times -> chain_ok db times.
Proof.
  induction 1 as [|db times ? ? ? ? _ IH _|db times id ev now row _ IH Ha]; [split; [done|intros i e now Hi; by rewrite lookup_nil in Hi]|done|].
  apply append_cases in Ha as [[Hx _]|(_ & sequence & prev & hash & Et & -> & Hh)]; [by destruct (app_one_neq db row)|].
  rewrite (tip_last _ _ IH) in Et. destruct IH as [Hl IH]. split; [rewrite !length_app; simpl; lia|]. intros i e t Hi Ht.
  destruct (decide (i < length db)%nat) as [Hlt|Hge].
  - rewrite lookup_app_l in Hi by lia. rewrite lookup_app_l in Ht by lia. destruct (IH _ _ _ Hi Ht) as [? Hp ? ?]. split; try done. rewrite Hp.
    destruct i; [done|]. by rewrite lookup_app_l by lia.
  - assert (Hb := lookup_lt_Some _ _ _ Hi). rewrite length_app in Hb. simpl in Hb.
    assert (i = length db) as -> by lia. rewrite list_lookup_middle in Hi by done. injection Hi as <-.
    rewrite lookup_app_r in Ht by lia. replace (length db - length times)%nat with O in Ht by lia. injection Ht as <-.
    rewrite last_lookup in Et. destruct (length db) as [|n] eqn:En; simpl in Et.
    + apply nil_length_inv in En as ->. injection Et as -> ->. by split.
    + destruct (db !! n) as [b|] eqn:Eb; [|by apply lookup_ge_None in Eb; lia]. injection Et as -> ->.
      destruct (lookup_lt_is_Some_2 times n) as [tb Htb]; [lia|]. destruct (IH _ _ _ Eb Htb) as [Hs _ _ _].
      split; try done; simpl; [lia|]. by rewrite lookup_app_l, Eb by lia.
Qed.

Lemma chain_sorted db times : chain_ok db times -> StronglySorted by_sequence db.
Proof.
  revert times. induction db as [|e db IH] using rev_ind; intros times [Hl H]; [constructor|].
  destruct times as [|now times _] using rev_ind; [by rewrite length_app in Hl; simpl in Hl; lia|].
  rewrite !length_app in Hl. simpl in Hl. assert (Hseq : forall i e', db !! i = Some e' -> ae_sequence e' = Z.of_nat i + 1).
  { intros i e' Hi. assert (Hlt := lookup_lt_Some _ _ _ Hi). destruct (lookup_lt_is_Some_2 times i) as [t Ht]; [lia|].
    by destruct (H i e' t); [apply lookup_app_l_Some..|]. }
  apply StronglySorted_app. repeat split; [|apply (IH times)|repeat constructor].
  - intros a b Ha ->%list_elem_of_singleton. apply list_elem_of_lookup in Ha as [i Hi].
    assert (Hlt := lookup_lt_Some _ _ _ Hi). unfold by_sequence. rewrite (Hseq _ _ Hi).
    destruct (H (length db) e now) as [-> _ _ _]; [by apply list_lookup_middle| |lia].
    apply list_lookup_middle. lia.
  - split; [lia|]. intros i e' now' Hi Ht. assert (Hlt := lookup_lt_Some _ _ _ Hi).
    destruct (H i e' now') as [? Hp ? ?]; [by apply lookup_app_l_Some..|].
    split; try done. rewrite Hp. destruct i as [|j]; [done|]. by rewrite lookup_app_l by lia.
Qed.

Lemma chain_sequence db times i e : chain_ok db times -> db !! i = Some e -> ae_sequence e = Z.of_nat i + 1.
Proof.
  intros [Hl H] Hi. assert (Hlt := lookup_lt_Some _ _ _ Hi). destruct (lookup_lt_is_Some_2 times i) as [t Ht]; [lia|].
  by destruct (H _ _ _ Hi Ht).
Qed.

Lemma filter_from (db : list AuditEventInfo) from k : (forall i e, db !! i = Some e -> ae_sequence e = Z.of_nat (k + i) + 1) ->
  List.filter (fun e => from <=? ae_sequence e) db = drop (Z.to_nat (from - 1) - k) db.
Proof.
  revert k. induction db as [|e db IH]; intros k H; simpl; [by rewrite drop_nil|].
  rewrite (IH (S k)) by (intros i x Hi; rewrite (H (S i) x Hi); lia).
  assert (He := H O e eq_refl). destruct (Z.leb_spec from (ae_sequence e)) as [Hle|Hgt].
  - replace (Z.to_nat (from - 1) - k)%nat with O by lia. by replace (Z.to_nat (from - 1) - S k)%nat with O by lia.
  - by replace (Z.to_nat (from - 1) - k)%nat with (S (Z.to_nat (from - 1) - S k)) by lia.
Qed.

Lemma by_sequence_unique db times a b : chain_ok db times -> a ∈ db -> b ∈ db -> ae_sequence a = ae_sequence b -> a = b.
Proof.
  intros Hc [i Hi]%list_elem_of_lookup [j Hj]%list_elem_of_lookup E.
  rewrite (chain_sequence _ _ _ _ Hc Hi), (chain_sequence _ _ _ _ Hc Hj) in E. assert (i = j) as -> by lia. congruence.
Qed.

#[local] Instance by_sequence_total : Total by_sequence.
Proof. intros a b. unfold by_sequence. lia. Qed.
#[local] Instance by_sequence_trans : Transitive by_sequence.
Proof. intros a b c. unfold by_sequence. lia. Qed.

(** A page of the chain is a contiguous slice of the table. *)
Lemma load_slice db times from limit : chain_ok db times ->
  load_audit_chain_q db from limit = take limit (drop (Z.to_nat (from - 1)) db).
Proof.
  intros Hc. unfold load_audit_chain_q. f_equal. rewrite (filter_from db from 0), Nat.sub_0_r by (intros; by apply (chain_sequence _ _ _ _ Hc)).
  set (l := drop _ db). assert (Hin : forall x, x ∈ l -> x ∈ db).
  { intros x Hx. rewrite <- (take_drop (Z.to_nat (from - 1)) db). set_solver. }
  apply StronglySorted_unique_strong with by_sequence.
  - intros a b Ha Hb ??. rewrite merge_sort_Permutation in Ha. apply (by_sequence_unique _ _ _ _ Hc); auto. unfold by_sequence in *. lia.
  - apply StronglySorted_merge_sort; apply _.
  - assert (Hs := chain_sorted _ _ Hc). rewrite <- (take_drop (Z.to_nat (from - 1)) db) in Hs. by apply StronglySorted_app in Hs as (_ & _ & ?).
  - apply merge_sort_Permutation.
Qed.

Lemma linked_verifies prev events :
  (forall e, events !! O = Some e -> check_link prev e = Ok tt) ->
  (forall i a b, events !! i = Some a -> events !! S i = Some b -> check_link (Some a) b = Ok tt) ->
  verify_from prev events = Ok tt <-> Forall (fun e => check_hash e = Ok tt) events.
Proof.
  revert prev. induction events as [|e events IH]; intros prev H0 HS; simpl; [done|].
  rewrite (H0 e eq_refl), Forall_cons. destruct (check_hash e) as [[]|err]; [|naive_solver].
  rewrite IH; [naive_solver| |]; [intros x Hx; by apply (HS O)|intros i a b Ha Hb; by apply (HS (S i))].
Qed.

Lemma verified_hashes prev events : verify_from prev events = Ok tt -> Forall (fun e => check_hash e = Ok tt) events.
Proof.
  revert prev. induction events as [|e events IH]; intros prev; simpl; [done|].
  destruct (check_link prev e); [|done]. destruct (check_hash e) as [[]|] eqn:E; [|done]. intros H%IH. by constructor.
Qed.

(** Verification of a page only depends on the hashes: the links always hold. *)
Lemma slice_verifies_iff db times from limit : chain_ok db times ->
  verify (load_audit_chain_q db from limit) = Ok tt <-> Forall (fun e => check_hash e = Ok tt) (load_audit_chain_q db from limit).
Proof.
  intros Hc. rewrite (load_slice _ _ _ _ Hc). unfold verify. set (k := Z.to_nat (from - 1)).
  assert (Hget : forall i e, take limit (drop k db) !! i = Some e -> db !! (k + i)%nat = Some e).
  { intros i e Hi. apply lookup_take_Some in Hi as [Hi _]. by rewrite lookup_drop in Hi. }
  destruct Hc as [Hl H]. assert (Hrow : forall i e, db !! i = Some e -> exists t, row_ok db i e t).
  { intros i e Hi. assert (Hlt := lookup_lt_Some _ _ _ Hi). destruct (lookup_lt_is_Some_2 times i) as [t Ht]; [lia|]. by eauto. }
  apply linked_verifies.
  - intros e He%Hget. destruct (Hrow _ _ He) as [t [Hs Hp _ _]]. simpl. destruct (Z.eqb_spec (ae_sequence e) 1); [|done].
    assert (k + 0 = 0)%nat as Ek by lia. rewrite Ek in Hp.
    rewrite bool_decide_false; [done|]. rewrite Hp. by intros [].
  - intros i a b Ha%Hget Hb%Hget. destruct (Hrow _ _ Ha) as [? [Hsa _ _ _]], (Hrow _ _ Hb) as [? [Hsb Hpb _ _]].
    replace (k + S i)%nat with (S (k + i)) in * by lia. rewrite Ha in Hpb. simpl.
    destruct (Z.eqb_spec (ae_sequence b) (ae_sequence a + 1)); [|lia]. simpl. rewrite Hpb. simpl. by rewrite bool_decide_true.
Qed.

Lemma exact_row_hash db i e now : row_ok db i e now -> column_time now = now -> check_hash e = Ok tt.
Proof.
  intros [_ _ Ht Hh] Hex. unfold check_hash. assert (content_of e = content_at now e) as ->.
  { unfold content_of, content_at. by rewrite Ht, Hex. }
  rewrite Hh. by rewrite bool_decide_true.
Qed.

Lemma slice_elem db times from limit e : chain_ok db times -> e ∈ load_audit_chain_q db from limit ->
  exists i now, row_ok db i e now /\ now ∈ times.
Proof.
  intros Hc He. rewrite (load_slice _ _ _ _ Hc) in He. apply list_elem_of_lookup in He as [i Hi].
  apply lookup_take_Some in Hi as [Hi _]. rewrite lookup_drop in Hi. destruct Hc as [Hl H].
  assert (Hlt := lookup_lt_Some _ _ _ Hi). destruct (lookup_lt_is_Some_2 times (Z.to_nat (from - 1) + i)) as [t Ht]; [lia|].
  eexists _, t. split; [by eauto|]. by eapply list_elem_of_lookup_2.
Qed.

Lemma page_verified db event_id from_sequence limit r : audit_chain db event_id from_sequence limit = Ok r ->
  acr_verified r = is_ok (verify (acr_events r)) /\ exists start n, acr_events r = load_audit_chain_q db start n.
Proof.
  unfold audit_chain. intros H.
  destruct (chain_page_start _ _ _ _) as [start|]; [|by destruct event_id, from_sequence].
  set (n := Z.to_nat _) in H. set (l := load_audit_chain_q db start n) in H.
  assert (r = match verify l with
              | Ok _ => {| acr_events := l; acr_verified := true; acr_broken_at := None |}
              | Err e => {| acr_events := l; acr_verified := false; acr_broken_at := audit_break_sequence e |}
              end) as -> by (destruct event_id, from_sequence; congruence).
  split; [by destruct (verify l) eqn:E; simpl; rewrite E|]. exists start, n. by destruct (verify l).
Qed.

(** A time that the column does not return exactly (the clock has nanoseconds, a time stamp column
    has microseconds) makes every page with the new event fail, although nothing was tampered with. *)
Theorem rounded_time_breaks_chain db times event_id event now row from limit :
  appended db times -> append_audit_event_chained_q db event_id event now = Ok (db ++ [row], row) ->
  column_time now <> now ->
  (forall h, event_hash (content_of row) = Ok h -> event_hash (content_at now row) = Ok h -> content_of row = content_at now row) ->
  row ∈ load_audit_chain_q (db ++ [row]) from limit ->
  verify (load_audit_chain_q (db ++ [row]) from limit) <> Ok tt.
Proof.
  intros Ha Hr Hne Hinj Hin Hv.
  assert (Hc : chain_ok (db ++ [row]) (times ++ [now])) by (apply appended_chain; by eapply appended_row).
  apply (slice_verifies_iff _ _ _ _ Hc) in Hv. apply (proj1 (Forall_forall _ _) Hv) in Hin.
  assert (Hl : length times = length db) by apply (appended_chain _ _ Ha).
  destruct Hc as [_ Hc]. destruct (Hc (length db) row now) as [_ _ Ht Hh]; [by apply list_lookup_middle|by apply list_lookup_middle|].
  unfold check_hash in Hin. destruct (event_hash (content_of row)) as [h|] eqn:Eh; [|done].
  case_bool_decide as Hx; [|done]. subst h. specialize (Hinj _ eq_refl Hh). apply (f_equal ac_created_at) in Hinj. simpl in Hinj.
  congruence.
Qed.

(** The keys of the requests are unique. *)
Definition same_request (a b : AuditEventInfo) : Prop :=
  ae_request_id a = ae_request_id b /\ ae_event_type a = ae_event_type b /\ ae_resource_id a = ae_resource_id b.

Lemma find_idempotency_none db r t i : find_audit_event_by_idempotency_q db r t i = None ->
  forall e, e ∈ db -> ~ (ae_request_id e = r /\ ae_event_type e = t /\ ae_resource_id e = i).
Proof.
  intros H e He (<- & <- & <-). apply List.find_none with (x := e) in H; [|by apply list_elem_of_In].
  by rewrite !bool_decide_true in H.
Qed.

Lemma requests_unique db times : appended db times -> forall a b, a ∈ db -> b ∈ db -> same_request a b -> a = b.
Proof.
  induction 1 as [|db times ? ? ? ? _ IH _|db times id ev now row _ IH Ha]; intros a b Hina Hinb Hs; [by apply elem_of_nil in Hina|auto|].
  assert (Hnew : forall x, x ∈ db -> ~ same_request x row).
  { pose proof Ha as Hc. apply append_cases in Hc as [[Hx _]|(_ & sequence & prev & hash & _ & -> & _)]; [by destruct (app_one_neq db row)|].
    unfold append_audit_event_chained_q in Ha. destruct (find_audit_event_by_idempotency_q _ _ _ _) eqn:Ef.
    { exfalso. by apply (app_one_neq db (audit_row id ev sequence prev hash now)); injection Ha. }
    intros x Hx (? & ? & ?). by apply (find_idempotency_none _ _ _ _ Ef x Hx). }
  apply elem_of_app in Hina as [Hina| ->%list_elem_of_singleton], Hinb as [Hinb| ->%list_elem_of_singleton]; auto.
  - by destruct (Hnew a).
  - destruct (Hnew b Hinb). unfold same_request in *. naive_solver.
Qed.

Lemma chain_verifies db times from limit : appended db times -> Forall (fun now => column_time now = now) times ->
  verify (load_audit_chain_q db from limit) = Ok tt.
Proof.
  intros Ha%appended_chain Hex.
  apply (slice_verifies_iff _ _ _ _ Ha). apply Forall_forall. intros e He.
  destruct (slice_elem _ _ _ _ _ Ha He) as (i & now & Hr & Hin). apply (exact_row_hash _ _ _ _ Hr).
  by apply (proj1 (Forall_forall _ _) Hex).
Qed.

(** The chain that appending builds verifies on every page an auditor may load, whatever its start
    and its length, when the database returns the times the events were hashed with; and no request
    is logged twice. *)
Theorem audit_pages_verify db times from limit :
  appended db times -> Forall (fun now => column_time now = now) times ->
  verify (load_audit_chain_q db from limit) = Ok tt /\ forall a b, a ∈ db -> b ∈ db -> same_request a b -> a = b.
Proof. intros Ha Hex. split; [by apply (chain_verifies _ times)|by apply (requests_unique _ _ Ha)]. Qed.

Lemma check_hash_ok e : check_hash e = Ok tt -> event_hash (content_of e) = Ok (ae_event_hash e).
Proof. unfold check_hash. destruct (event_hash _) as [h|] eqn:E; [|done]. case_bool_decide as Hb; [|done]. by subst h. Qed.

(** No two different contents of the two chains have the same digest. *)
Definition no_collision (l1 l2 : list AuditEventInfo) : Prop :=
  forall a b h, a ∈ l1 -> b ∈ l2 -> event_hash (content_of a) = Ok h -> event_hash (content_of b) = Ok h -> content_of a = content_of b.

Lemma verify_snoc prev l e : verify_from prev (l ++ [e]) = Ok tt <->
  verify_from prev l = Ok tt /\ check_hash e = Ok tt /\ check_link (match last l with Some p => Some p | None => prev end) e = Ok tt.
Proof.
  revert prev. induction l as [|x l IH]; intros prev; simpl.
  - destruct (check_link prev e) as [[]|], (check_hash e) as [[]|]; naive_solver.
  - destruct (check_link prev x) as [[]|]; [|naive_solver]. destruct (check_hash x) as [[]|]; [|naive_solver].
    rewrite IH. change (match l with [] => Some x | _ :: _ => last l end) with (last (x :: l)). rewrite last_cons. by destruct (last l).
Qed.

Lemma link_some p e : check_link (Some p) e = Ok tt -> ae_sequence e = ae_sequence p + 1 /\ ae_prev_event_hash e = Some (ae_event_hash p).
Proof.
  simpl. destruct (Z.eqb_spec (ae_sequence e) (ae_sequence p + 1)); simpl; [|done]. by case_bool_decide.
Qed.

Definition from_genesis (l : list AuditEventInfo) : Prop := exists g, head l = Some g /\ ae_sequence g = 1.

Lemma verified_length l e : verify l = Ok tt -> from_genesis l -> last l = Some e -> ae_sequence e = Z.of_nat (length l).
Proof.
  unfold verify. revert e. induction l as [|x l IH] using rev_ind; intros e V G L; [done|]. rewrite last_snoc in L. injection L as ->.
  apply verify_snoc in V as (V & _ & K). rewrite length_app. simpl. destruct (last l) as [p|] eqn:Ep.
  - apply link_some in K as [-> _]. rewrite (IH p V); [lia| |done]. destruct G as (g & Hg & E). exists g. split; [by destruct l|done].
  - apply last_None in Ep as ->. destruct G as (g & [= <-] & E). simpl. lia.
Qed.

(** C18: Tampering shows: two verified chains from the first event on that end in the same hash have the
    same contents throughout, unless the digest collides on one of their contents. *)
Theorem tip_commits_history l1 l2 e1 e2 :
  verify l1 = Ok tt -> verify l2 = Ok tt -> from_genesis l1 -> from_genesis l2 ->
  last l1 = Some e1 -> last l2 = Some e2 -> ae_event_hash e1 = ae_event_hash e2 -> no_collision l1 l2 ->
  content_of <$> l1 = content_of <$> l2.
Proof.
  revert l2 e1 e2. induction l1 as [|e l1 IH] using rev_ind; intros l2 e1 e2 V1 V2 G1 G2 L1 L2 He Hnc; [done|].
  destruct l2 as [|f l2 _] using rev_ind; [done|].
  assert (S1 := verified_length _ _ V1 G1 L1). assert (S2 := verified_length _ _ V2 G2 L2).
  rewrite last_snoc in L1, L2. injection L1 as ->. injection L2 as ->. unfold verify in *.
  apply verify_snoc in V1 as (V1 & H1%check_hash_ok & K1). apply verify_snoc in V2 as (V2 & H2%check_hash_ok & K2).
  assert (Hc : content_of e1 = content_of e2) by (rewrite He in H1; apply (Hnc e1 e2 (ae_event_hash e2)); set_solver).
  rewrite !fmap_app. simpl. rewrite Hc. f_equal. assert (Hs := f_equal ac_sequence Hc). simpl in Hs. rewrite !length_app in *. simpl in *.
  destruct (last l1) as [p1|] eqn:E1, (last l2) as [p2|] eqn:E2.
  - apply link_some in K1 as [_ P1], K2 as [_ P2]. assert (Hp := f_equal ac_prev_event_hash Hc). simpl in Hp.
    apply (IH l2 p1 p2); try done; [..|congruence|].
    + destruct G1 as (g & Hg & E). exists g. split; [by destruct l1|done].
    + destruct G2 as (g & Hg & E). exists g. split; [by destruct l2|done].
    + intros a b h Ha Hb. apply Hnc; set_solver.
  - apply last_None in E2 as ->. destruct l1; [done|simpl in *; lia].
  - apply last_None in E1 as ->. destruct l2; [done|simpl in *; lia].
  - by apply last_None in E1 as ->, E2 as ->.
Qed.
End Chain.

(** ** Witnesses: a digest that writes the content out, times in whole microseconds *)

Module AuditDemo.

Fixpoint show_json (fuel : nat) (j : Json) : string :=
  match fuel with
  | O => ""
  | S fuel =>
      match j with
      | JNull => "null"
      | JBool b => if b then "true" else "false"
      | JNum n => pretty n
      | JStr s => s
      | JArr l => foldr (fun x acc => show_json fuel x +:+ "," +:+ acc) "]" l
      | JObj l => foldr (fun x acc => x.1 +:+ ":" +:+ show_json fuel x.2 +:+ "," +:+ acc) "}" l
      end
  end.

#[global] Instance demo_digest : EventDigest := fun c =>
  Ok ("h:" +:+ pretty (ac_sequence c) +:+ ":" +:+ ac_actor c +:+ ":" +:+ ac_resource_id c +:+ ":" +:+ ac_request_id c +:+ ":"
      +:+ show_json 5 (ac_diff c) +:+ ":" +:+ unwrap_or (ac_prev_event_hash c) "-" +:+ ":" +:+ pretty (ac_created_at c)).

(** Microseconds, as PostgreSQL stores them. *)
#[global] Instance demo_column : TimestampColumn := fun t => t / 1000 * 1000.

Definition demo_event (request : string) : NewAuditEvent := {|
  na_event_type := AeFactorRejected; na_actor := "op"; na_actor_role := "operator"; na_resource_type := RtFactor;
  na_resource_id := "1"; na_request_id := request; na_reason := "test"; na_before_hash := None; na_after_hash := None;
  na_diff := JObj [("reason", JStr "test")] |}.

Definition append_at db id request now := append_audit_event_chained_q db id (demo_event request) now.

Definition table_of (r : Result (list AuditEventInfo * AuditEventInfo) StorageError) : list AuditEventInfo :=
  match r with Ok (db, _) => db | Err _ => [] end.

Definition demo_one : list AuditEventInfo := Eval vm_compute in table_of (append_at [] 7 "a" 1000).
Definition demo_two : list AuditEventInfo := Eval vm_compute in table_of (append_at demo_one 8 "b" 2000).

Lemma demo_appended : appended demo_two [1000; 2000].
Proof.
  destruct (append_at [] 7 "a" 1000) as [[db1 r1]|] eqn:E1; [|by vm_compute in E1].
  apply (appended_row demo_one [1000] 8 (demo_event "b") 2000); [|by vm_compute].
  by apply (appended_row [] [] 7 (demo_event "a") 1000); [constructor|vm_compute].
Qed.

Lemma audit_pages_verify_witness :
  (verify (load_audit_chain_q demo_two 2 5) = Ok tt /\ forall a b, a ∈ demo_two -> b ∈ demo_two -> same_request a b -> a = b) /\ length (load_audit_chain_q demo_two 2 5) = 1%nat /\
  append_at demo_two 9 "a" 3000 = Ok (demo_two, List.hd (List.hd (audit_row 0 (demo_event "") 0 None "" 0) demo_two) demo_two).
Proof.
  split; [apply (audit_pages_verify demo_two [1000; 2000] 2 5 demo_appended); by repeat constructor|].
  split; by vm_compute.
Defined.

Definition rounded_row : AuditEventInfo := audit_row 9 (demo_event "c") 3 (Some (ae_event_hash (List.last demo_two (audit_row 0 (demo_event "") 0 None "" 0))))
  "h:3:op:1:c:reason:test,}:h:2:op:1:b:reason:test,}:h:1:op:1:a:reason:test,}:-:1000:2000:3001" 3001.

(** With a clock that is finer than the column the freshly appended chain does not verify. *)
Lemma rounded_time_breaks_chain_witness :
  verify (load_audit_chain_q (demo_two ++ [rounded_row]) 1 100) <> Ok tt.
Proof.
  apply (rounded_time_breaks_chain demo_two [1000; 2000] 9 (demo_event "c") 3001 rounded_row 1 100 demo_appended).
  - by vm_compute.
  - by vm_compute.
  - intros h H1 H2. exfalso. assert (H : event_hash (content_of rounded_row) = event_hash (content_at 3001 rounded_row)) by congruence.
    by vm_compute in H.
  - assert (List.nth_error (load_audit_chain_q (demo_two ++ [rounded_row]) 1 100) 2 = Some rounded_row) as H by by vm_compute.
    apply list_elem_of_In. by eapply nth_error_In.
Defined.

Lemma tip_commits_history_witness :
  content_of <$> load_audit_chain_q demo_two 1 9 = content_of <$> demo_two.
Proof.
  apply (tip_commits_history (load_audit_chain_q demo_two 1 9) demo_two (List.last demo_two rounded_row) (List.last demo_two rounded_row)); try by vm_compute.
  - eexists. split; [by vm_compute|done].
  - eexists. split; [by vm_compute|done].
  - assert (load_audit_chain_q demo_two 1 9 = demo_two) as -> by by vm_compute.
    intros a b h Ha Hb. unfold demo_two in *. rewrite !elem_of_cons, elem_of_nil in Ha, Hb.
    destruct Ha as [->|[->|[]]], Hb as [->|[->|[]]]; try done; vm_compute; intros H1 H2; congruence.
Defined.
End AuditDemo.
