(* ===== verification/Factors.v ===== *)
(** * Live control factors: [oxide-arb-models/src/domain/control_factor/live],
    [oxide-arb-core/src/control/{factor_snapshot,factor_refresher,factor_shadow}.rs]

    An active publication compiled into read-only indexes, the decisions the execution pipeline
    takes from them, the arithmetic of their effects, the refresher that keeps the published and
    the shadow snapshot current, and the comparison of the two.  The repository that stores
    publications and factors is an interface; digests are a parameter; metrics, timers and log
    lines are left out. *)

From S2P Require Import Prelude Decimal Micro Config Domain Fees FactorModel Book.

Section Live.
Context `{DO : DecimalOps}.

(** ** Indexes *)

(** [models/domain/control_factor/live/index.rs:26-29] `IndexedFactor` *)
Record IndexedFactor (P : Type) := { if_factor_id : Z; if_payload : P }.
Arguments if_factor_id {P} _.
Arguments if_payload {P} _.

(** [models/domain/control_factor/live/index.rs:33-35] `BucketRiskIndex` *)
Definition BucketRiskIndex : Type := gmap BucketRiskDimensions (IndexedFactor BucketRiskPayload).

Definition with_fee_profile (d : BucketRiskDimensions) f : BucketRiskDimensions :=
  Build_BucketRiskDimensions (bd_category d) (bd_price_zone d) (bd_duration_bucket d) (hours_to_settlement_bucket d) (bd_neg_risk d) f.
Definition with_neg_risk (d : BucketRiskDimensions) n : BucketRiskDimensions :=
  Build_BucketRiskDimensions (bd_category d) (bd_price_zone d) (bd_duration_bucket d) (hours_to_settlement_bucket d) n (fee_profile d).
Definition with_hours (d : BucketRiskDimensions) h : BucketRiskDimensions :=
  Build_BucketRiskDimensions (bd_category d) (bd_price_zone d) (bd_duration_bucket d) h (bd_neg_risk d) (fee_profile d).

(** [models/domain/control_factor/live/index.rs:73-92] `BucketRiskIndex::fallback_keys` *)
Definition fallback_keys (d : BucketRiskDimensions) : list BucketRiskDimensions :=
  let k1 := with_fee_profile d None in
  let k2 := with_neg_risk k1 None in
  [d; k1; k2; with_hours k2 None].

(** The first of the keys the index holds. *)
Fixpoint first_found {K V} `{Countable K} (m : gmap K V) (keys : list K) : option V :=
  match keys with
  | [] => None
  | k :: rest => match m !! k with Some v => Some v | None => first_found m rest end
  end.

(** [models/domain/control_factor/live/index.rs:58-71] `BucketRiskIndex::lookup` *)
Definition bucket_lookup (m : BucketRiskIndex) (d : BucketRiskDimensions) : option (IndexedFactor BucketRiskPayload) :=
  first_found m (fallback_keys d).

(** [models/domain/control_factor/live/index.rs:97-99] `ExecutionQualityIndex` *)
Definition ExecutionQualityIndex : Type := gmap ExecutionQualityDimensions (IndexedFactor ExecutionQualityPayload).

Definition with_latency (d : ExecutionQualityDimensions) l : ExecutionQualityDimensions :=
  Build_ExecutionQualityDimensions (ed_category d) (ed_price_zone d) (ed_spread_bucket d) (ed_depth_bucket d)
    (ed_book_age_bucket d) l (ed_staleness_level d).

(** [models/domain/control_factor/live/index.rs:122-142] `ExecutionQualityIndex::lookup` *)
Definition quality_lookup (m : ExecutionQualityIndex) (d : ExecutionQualityDimensions) : option (IndexedFactor ExecutionQualityPayload) :=
  match m !! d with
  | Some found => Some found
  | None =>
      if bool_decide (ed_latency_bucket d = LatUnknown) then None else m !! with_latency d LatUnknown
  end.

(** [models/domain/control_factor/live/index.rs:147-151] `MarketAnomalyIndex` *)
Record MarketAnomalyIndex := {
  blocked_markets : gmap MarketId (IndexedFactor MarketAnomalyPayload);
  blocked_events : gmap EventId (IndexedFactor MarketAnomalyPayload);
  category_cooldowns : gmap MarketCategory (IndexedFactor MarketAnomalyPayload)
}.

(** [models/domain/control_factor/live/index.rs:184-189] `MarketAnomalyIndex::is_empty` *)
Definition anomalies_empty (m : MarketAnomalyIndex) : bool :=
  bool_decide (blocked_markets m = ∅) && bool_decide (blocked_events m = ∅) && bool_decide (category_cooldowns m = ∅).

Definition keep_if {P} (test : P -> bool) (o : option (IndexedFactor P)) : option (IndexedFactor P) :=
  match o with Some e => if test (if_payload e) then Some e else None | None => None end.

(** [models/domain/control_factor/live/index.rs:191-200] `MarketAnomalyIndex::market_block` *)
Definition market_block (m : MarketAnomalyIndex) (market_id : MarketId) : option (IndexedFactor MarketAnomalyPayload) :=
  keep_if mp_block_market (blocked_markets m !! market_id).

(** [models/domain/control_factor/live/index.rs:202-208] `MarketAnomalyIndex::event_block` *)
Definition event_block (m : MarketAnomalyIndex) (event_id : EventId) : option (IndexedFactor MarketAnomalyPayload) :=
  keep_if mp_block_event (blocked_events m !! event_id).

(** [models/domain/control_factor/live/index.rs:210-216] `MarketAnomalyIndex::category_cooldown_secs` *)
Definition category_cooldown_secs (m : MarketAnomalyIndex) (category : MarketCategory) : option Z :=
  match category_cooldowns m !! category with Some e => mp_category_cooldown_secs (if_payload e) | None => None end.

Definition needs_ack (o : option (IndexedFactor MarketAnomalyPayload)) : bool :=
  match o with Some e => mp_manual_ack_required (if_payload e) | None => false end.

(** [models/domain/control_factor/live/index.rs:218-250] `MarketAnomalyIndex::decision` *)
Definition anomaly_decision (m : MarketAnomalyIndex) (publication_id : Z) (market_id : MarketId) (event_id : EventId) : MarketAnomalyDecision :=
  let market := market_block m market_id in
  let event := event_block m event_id in
  let source := match market with Some e => Some e | None => event end in
  {| block_market := bool_decide (is_Some market);
     block_event := bool_decide (is_Some event);
     manual_ack_required := needs_ack (blocked_markets m !! market_id) || needs_ack (blocked_events m !! event_id);
     reason_code := (fun e => mp_reason_code (if_payload e)) <$> source;
     ma_source := (fun e => {| af_factor_id := if_factor_id e; af_factor_type := MarketAnomaly; af_publication_id := publication_id;
                               af_input_value := d0; af_output_value := d1;
                               af_reason := "market anomaly block: " +:+ mp_reason_code (if_payload e) |}) <$> source |}.

(** [models/domain/control_factor/live/index.rs:255-262] `PortfolioRiskState` *)
Record PortfolioRiskState := {
  ps_global_size_multiplier : D;
  ps_daily_budget_multiplier : D;
  ps_kelly_fraction_multiplier : D;
  ps_max_open_positions : option Z;
  ps_category_multipliers : gmap MarketCategory D;
  ps_binding_factor_id : option Z
}.

(** [models/domain/control_factor/live/index.rs:264-275] `PortfolioRiskState::default` *)
Definition portfolio_default : PortfolioRiskState := {|
  ps_global_size_multiplier := d1; ps_daily_budget_multiplier := d1; ps_kelly_fraction_multiplier := d1;
  ps_max_open_positions := None; ps_category_multipliers := ∅; ps_binding_factor_id := None |}.

(** [models/domain/control_factor/live/index.rs:413-420] `min_optional` *)
Definition min_optional (current candidate : option Z) : option Z :=
  match current, candidate with
  | Some a, Some b => Some (Z.min a b)
  | Some a, None => Some a
  | None, Some b => Some b
  | None, None => None
  end.

(** [models/domain/control_factor/live/index.rs:278-291] `PortfolioRiskState::absorb` *)
Definition portfolio_absorb (s : PortfolioRiskState) (factor_id : Z) (p : PortfolioRiskPayload) : PortfolioRiskState :=
  let lower := dltb (pp_global_size_multiplier p) (ps_global_size_multiplier s) in {|
  ps_global_size_multiplier := if lower then pp_global_size_multiplier p else ps_global_size_multiplier s;
  ps_daily_budget_multiplier := dmin (ps_daily_budget_multiplier s) (pp_daily_budget_multiplier p);
  ps_kelly_fraction_multiplier := dmin (ps_kelly_fraction_multiplier s) (pp_kelly_fraction_multiplier p);
  ps_max_open_positions := min_optional (ps_max_open_positions s) (pp_max_open_positions p);
  ps_category_multipliers := ps_category_multipliers s;
  ps_binding_factor_id := if lower then Some factor_id else ps_binding_factor_id s |}.

(** [models/domain/control_factor/live/index.rs:293-299] `PortfolioRiskState::absorb_category` *)
Definition absorb_category (s : PortfolioRiskState) (category : MarketCategory) (multiplier : D) : PortfolioRiskState := {|
  ps_global_size_multiplier := ps_global_size_multiplier s; ps_daily_budget_multiplier := ps_daily_budget_multiplier s;
  ps_kelly_fraction_multiplier := ps_kelly_fraction_multiplier s; ps_max_open_positions := ps_max_open_positions s;
  ps_category_multipliers :=
    <[category := dmin (unwrap_or (ps_category_multipliers s !! category) d1) multiplier]> (ps_category_multipliers s);
  ps_binding_factor_id := ps_binding_factor_id s |}.

(** [models/domain/control_factor/live/index.rs:310-337] `PortfolioRiskState::decision` *)
Definition portfolio_decision (s : PortfolioRiskState) (publication_id : Z) (category : MarketCategory) : PortfolioRiskDecision := {|
  global_size_multiplier := ps_global_size_multiplier s;
  category_size_multiplier := ps_category_multipliers s !! category;
  daily_budget_multiplier := ps_daily_budget_multiplier s;
  kelly_fraction_multiplier := ps_kelly_fraction_multiplier s;
  pr_max_open_positions := ps_max_open_positions s;
  pr_category := Some category;
  pr_source := (fun factor_id => {| af_factor_id := factor_id; af_factor_type := PortfolioRisk; af_publication_id := publication_id;
                  af_input_value := d1; af_output_value := ps_global_size_multiplier s;
                  af_reason := "portfolio risk worst-of size multiplier" |}) <$> ps_binding_factor_id s |}.

(** [models/domain/control_factor/live/index.rs:342-347] `ReconciliationHealthState` *)
Record ReconciliationHealthState := {
  hs_force_maintenance_mode : bool;
  hs_size_multiplier : D;
  hs_require_manual_ack : bool;
  hs_binding_factor_id : option Z
}.

(** [models/domain/control_factor/live/index.rs:349-358] `ReconciliationHealthState::default` *)
Definition health_default : ReconciliationHealthState := {|
  hs_force_maintenance_mode := false; hs_size_multiplier := d1; hs_require_manual_ack := false; hs_binding_factor_id := None |}.

(** [models/domain/control_factor/live/index.rs:361-378] `ReconciliationHealthState::absorb` *)
Definition health_absorb (s : ReconciliationHealthState) (factor_id : Z) (p : ReconciliationHealthPayload) : ReconciliationHealthState :=
  let forces := rp_force_maintenance_mode p && negb (hs_force_maintenance_mode s) in
  let maintenance := hs_force_maintenance_mode s || rp_force_maintenance_mode p in
  let binding := if forces then Some factor_id else hs_binding_factor_id s in
  let lower := dltb (rp_size_multiplier p) (hs_size_multiplier s) in
  {| hs_force_maintenance_mode := maintenance;
     hs_size_multiplier := if lower then rp_size_multiplier p else hs_size_multiplier s;
     hs_require_manual_ack := hs_require_manual_ack s || rp_require_manual_ack p;
     hs_binding_factor_id :=
       if lower && (bool_decide (binding = None) || negb maintenance) then Some factor_id else binding |}.

(** [models/domain/control_factor/live/index.rs:380-385] `ReconciliationHealthState::is_neutral` *)
Definition health_is_neutral (s : ReconciliationHealthState) : bool :=
  negb (hs_force_maintenance_mode s) && deqb (hs_size_multiplier s) d1 && negb (hs_require_manual_ack s).

(** [models/domain/control_factor/live/index.rs:387-410] `ReconciliationHealthState::decision` *)
Definition health_decision (s : ReconciliationHealthState) (publication_id : Z) : ReconciliationHealthDecision := {|
  force_maintenance_mode := hs_force_maintenance_mode s;
  rh_size_multiplier := hs_size_multiplier s;
  require_manual_ack := hs_require_manual_ack s;
  rh_source := (fun factor_id => {| af_factor_id := factor_id; af_factor_type := ReconciliationHealth; af_publication_id := publication_id;
                  af_input_value := d1; af_output_value := hs_size_multiplier s;
                  af_reason := if hs_force_maintenance_mode s then "reconciliation maintenance mode"
                               else "reconciliation size throttle" |}) <$> hs_binding_factor_id s |}.

(** ** The snapshot *)

(** [models/domain/control_factor/live/snapshot.rs:26-26] `LIVE_SNAPSHOT_SCHEMA_VERSION` *)
Definition LIVE_SNAPSHOT_SCHEMA_VERSION : Z := 1.

(** [models/domain/control_factor/live/snapshot.rs:30-41] `ControlFactorSnapshot` *)
Record ControlFactorSnapshot := {
  sn_publication_id : option Z;
  sn_loaded_at : Time;
  sn_expires_at : option Time;
  sn_source_version : string;
  sn_schema_version : Z;
  sn_bucket_risk : BucketRiskIndex;
  sn_execution_quality : ExecutionQualityIndex;
  sn_portfolio_risk : PortfolioRiskState;
  sn_reconciliation_health : ReconciliationHealthState;
  sn_market_anomalies : MarketAnomalyIndex
}.

(** [models/domain/control_factor/live/snapshot.rs:44-59] `ControlFactorSnapshot::neutral` *)
Definition snapshot_neutral (loaded_at : Time) : ControlFactorSnapshot := {|
  sn_publication_id := None; sn_loaded_at := loaded_at; sn_expires_at := None; sn_source_version := "";
  sn_schema_version := LIVE_SNAPSHOT_SCHEMA_VERSION; sn_bucket_risk := ∅; sn_execution_quality := ∅;
  sn_portfolio_risk := portfolio_default; sn_reconciliation_health := health_default;
  sn_market_anomalies := {| blocked_markets := ∅; blocked_events := ∅; category_cooldowns := ∅ |} |}.

(** [error/control.rs:75-114] `SnapshotBuildError`; times instead of their texts *)
Inductive SnapshotBuildError :=
| SchemaMismatch (factor_id actual supported : Z)
| DimensionPayloadMismatch (factor_id : Z)
| PayloadConstraint (factor_id : Z) (source : PayloadSafetyError)
| MissingMember (factor_id : string)
| ExpiredSafetyFactor (factor_id : Z) (expires_at now : Time)
| SbPublicationHashMismatch (expected actual : string)
| PayloadHashMismatch (factor_id : Z) (expected actual : string)
| DimensionsHashMismatch (factor_id : Z) (expected actual : string).

Definition set_indexes (s : ControlFactorSnapshot) br eq pr rh ma : ControlFactorSnapshot := {|
  sn_publication_id := sn_publication_id s; sn_loaded_at := sn_loaded_at s; sn_expires_at := sn_expires_at s;
  sn_source_version := sn_source_version s; sn_schema_version := sn_schema_version s; sn_bucket_risk := br;
  sn_execution_quality := eq; sn_portfolio_risk := pr; sn_reconciliation_health := rh; sn_market_anomalies := ma |}.

(** [models/domain/control_factor/live/snapshot.rs:171-196] `ControlFactorSnapshot::route`, an
    anomaly, with `insert_market`, `insert_event` and `insert_category` of the index *)
Definition route_anomaly (m : MarketAnomalyIndex) (d : MarketAnomalyDimensions) (factor_id : Z) (p : MarketAnomalyPayload) : MarketAnomalyIndex :=
  let entry := {| if_factor_id := factor_id; if_payload := p |} in
  {| blocked_markets := match mp_block_market p, md_market_id d with
                        | true, Some market_id => <[market_id := entry]> (blocked_markets m)
                        | _, _ => blocked_markets m
                        end;
     blocked_events := match mp_block_event p, md_event_id d with
                       | true, Some event_id => <[event_id := entry]> (blocked_events m)
                       | _, _ => blocked_events m
                       end;
     category_cooldowns := match mp_category_cooldown_secs p, md_category d with
                           | Some _, Some category => <[category := entry]> (category_cooldowns m)
                           | _, _ => category_cooldowns m
                           end |}.

(** [models/domain/control_factor/live/snapshot.rs:142-206] `ControlFactorSnapshot::route` *)
Definition route (s : ControlFactorSnapshot) (factor : ControlFactorValue) : Result ControlFactorSnapshot SnapshotBuildError :=
  let id := cf_factor_id factor in
  let br := sn_bucket_risk s in
  let eq := sn_execution_quality s in
  let pr := sn_portfolio_risk s in
  let rh := sn_reconciliation_health s in
  let ma := sn_market_anomalies s in
  match cf_dimensions factor, cf_payload factor with
  | DimBucketRisk d, PayBucketRisk p =>
      Ok (set_indexes s (<[d := {| if_factor_id := id; if_payload := p |}]> br) eq pr rh ma)
  | DimExecutionQuality d, PayExecutionQuality p =>
      Ok (set_indexes s br (<[d := {| if_factor_id := id; if_payload := p |}]> eq) pr rh ma)
  | DimPortfolioRisk d, PayPortfolioRisk p =>
      let pr := portfolio_absorb pr id p in
      let pr := match pd_category d, pp_category_size_multiplier p with
                | Some category, Some multiplier => absorb_category pr category multiplier
                | _, _ => pr
                end in
      Ok (set_indexes s br eq pr rh ma)
  | DimReconciliationHealth _, PayReconciliationHealth p => Ok (set_indexes s br eq pr (health_absorb rh id p) ma)
  | DimMarketAnomaly d, PayMarketAnomaly p => Ok (set_indexes s br eq pr rh (route_anomaly ma d id p))
  | _, _ => Err (DimensionPayloadMismatch id)
  end.

(** The behaviour of an expired factor. *)
Definition expired_behavior (factor : ControlFactorValue) : FactorExpiryBehavior :=
  match severity (cf_payload factor) with
  | None => expiry_behavior (cf_factor_type factor)
  | Some s => effective_expiry_behavior (cf_factor_type factor) s
  end.

(** [models/domain/control_factor/live/snapshot.rs:78-124] `ControlFactorSnapshot::compile`, one
    factor *)
Definition compile_factor (now : Time) (fail_closed : bool) (s : ControlFactorSnapshot) (factor : ControlFactorValue) : Result ControlFactorSnapshot SnapshotBuildError :=
  let id := cf_factor_id factor in
  if negb (cf_schema_version factor =? LIVE_SNAPSHOT_SCHEMA_VERSION)
  then Err (SchemaMismatch id (cf_schema_version factor) LIVE_SNAPSHOT_SCHEMA_VERSION)
  else if negb (bool_decide (cf_factor_type factor = pay_factor_type (cf_payload factor))) then Err (DimensionPayloadMismatch id)
  else if negb (dims_agree (cf_dimensions factor) (cf_factor_type factor)) then Err (DimensionPayloadMismatch id)
  else match validate_safety (cf_payload factor) with
       | Err e => Err (PayloadConstraint id e)
       | Ok _ =>
           if cf_expires_at factor <=? now
           then match expired_behavior factor, fail_closed with
                | FailClosedIfCritical, true => Err (ExpiredSafetyFactor id (cf_expires_at factor) now)
                | _, _ => Ok s
                end
           else route s factor
       end.

Fixpoint compile_factors (now : Time) (fail_closed : bool) (s : ControlFactorSnapshot) (factors : list ControlFactorValue) : Result ControlFactorSnapshot SnapshotBuildError :=
  match factors with
  | [] => Ok s
  | factor :: rest =>
      match compile_factor now fail_closed s factor with
      | Err e => Err e
      | Ok s => compile_factors now fail_closed s rest
      end
  end.

(** [models/domain/control_factor/live/snapshot.rs:61-127] `ControlFactorSnapshot::compile` *)
Definition compile (publication : ControlFactorPublication) (factors : list ControlFactorValue) (now : Time) (fail_closed : bool) : Result ControlFactorSnapshot SnapshotBuildError :=
  let s := snapshot_neutral now in
  compile_factors now fail_closed
    {| sn_publication_id := Some (cp_publication_id publication); sn_loaded_at := sn_loaded_at s;
       sn_expires_at := Some (cp_expires_at publication); sn_source_version := cp_publication_hash publication;
       sn_schema_version := sn_schema_version s; sn_bucket_risk := sn_bucket_risk s;
       sn_execution_quality := sn_execution_quality s; sn_portfolio_risk := sn_portfolio_risk s;
       sn_reconciliation_health := sn_reconciliation_health s; sn_market_anomalies := sn_market_anomalies s |} factors.

(** [models/domain/control_factor/live/snapshot.rs:129-133] `ControlFactorSnapshot::is_expired_at` *)
Definition is_expired_at (s : ControlFactorSnapshot) (now : Time) : bool :=
  match sn_expires_at s with Some e => e <=? now | None => false end.

(** [models/domain/control_factor/live/snapshot.rs:135-140] `has_active_safety_factor` *)
Definition has_active_safety_factor (s : ControlFactorSnapshot) : bool :=
  negb (health_is_neutral (sn_reconciliation_health s)) || negb (anomalies_empty (sn_market_anomalies s)).

(** ** Effects *)

(** [models/domain/control_factor/live/apply.rs:16-21] `clamp_unit` *)
Definition clamp_unit (x : D) : D := dclamp x d0 d1.

(** [models/domain/control_factor/live/apply.rs:23-28] `effective_resolution_prob` *)
Definition effective_resolution_prob (base haircut : D) : D := clamp_unit (dmul base (clamp_unit haircut)).

(** [models/domain/control_factor/live/apply.rs:30-43] `expected_net_profit` *)
Definition expected_net_profit_at (payout_if_correct total_cost total_fees effective_p : D) : D :=
  dsub (dsub (dmul payout_if_correct effective_p) total_cost) total_fees.

(** [models/domain/control_factor/live/apply.rs:45-50] `effective_min_edge_bps` *)
Definition effective_min_edge_bps (base_min_edge_bps addon : D) : D := dadd base_min_edge_bps (dmax addon d0).

(** [models/domain/control_factor/live/apply.rs:52-57] `effective_fill_probability` *)
Definition effective_fill_probability (base multiplier : D) : D := clamp_unit (dmul base (clamp_unit multiplier)).

(** [models/domain/control_factor/live/apply.rs:59-67] `effective_slippage_limit_bps` *)
Definition effective_slippage_limit_bps (base_limit_bps addon : D) : D := dsub base_limit_bps (dmax addon d0).

(** [models/domain/control_factor/live/apply.rs:69-74] `size_cap` *)
Definition size_cap (base_size multiplier : D) : D := dmax (dmul base_size (clamp_unit multiplier)) d0.

(** [models/domain/control_factor/live/apply.rs:76-92] `bucket_resolution_trace` *)
Definition bucket_resolution_trace (factor_id publication_id : Z) (base_prob effective_prob : D) : AppliedControlFactor := {|
  af_factor_id := factor_id; af_factor_type := BucketRisk; af_publication_id := publication_id; af_input_value := base_prob;
  af_output_value := effective_prob; af_reason := "bucket resolution haircut" |}.

(** [models/domain/control_factor/live/apply.rs:94-110] `execution_quality_fill_trace` *)
Definition execution_quality_fill_trace (factor_id publication_id : Z) (base_fill effective_fill : D) : AppliedControlFactor := {|
  af_factor_id := factor_id; af_factor_type := ExecutionQuality; af_publication_id := publication_id; af_input_value := base_fill;
  af_output_value := effective_fill; af_reason := "execution quality fill probability discount" |}.

(** ** Classification of the live book *)

(** [models/domain/control_factor/live/classify.rs:44-60] `spread_bucket` *)
Definition spread_bucket (best_bid best_ask : option D) : SpreadBucket :=
  match best_bid, best_ask with
  | Some bid, Some ask =>
      let spread := dmax (dsub ask bid) d0 in
      if dltb spread (dlit 1 2) then SpTight
      else if dltb spread (dlit 3 2) then SpNormal
      else if dltb spread (dlit 6 2) then SpWide
      else SpVeryWide
  | _, _ => SpVeryWide
  end.

(** [models/domain/control_factor/live/classify.rs:62-72] `depth_bucket` *)
Definition depth_bucket (ask_depth_usd : D) : DepthBucket :=
  if dleb (dlit 1000 0) ask_depth_usd then DpDeep
  else if dleb (dlit 100 0) ask_depth_usd then DpNormal
  else DpThin.

(** [models/domain/control_factor/live/classify.rs:74-86] `book_age_bucket` *)
Definition book_age_bucket (age_ms : Z) : BookAgeBucket :=
  if age_ms <? 500 then BaFresh
  else if age_ms <? 2000 then BaRecent
  else if age_ms <? 5000 then BaStale
  else BaVeryStale.

(** [models/domain/control_factor/live/classify.rs:88-109] `execution_quality_dimensions` *)
Definition execution_quality_dimensions (category : MarketCategory) (price_zone : PriceZone) (staleness : StalenessLevel)
    (book : BookSnapshot) (now_ms : Z) : ExecutionQualityDimensions := {|
  ed_category := category;
  ed_price_zone := price_zone;
  ed_spread_bucket := spread_bucket (price_decimal <$> head (bs_bids book)) (price_decimal <$> head (bs_asks book));
  ed_depth_bucket := depth_bucket (to_decimal (bs_total_ask_depth_usd book));
  ed_book_age_bucket := book_age_bucket (sat_sub_u64 now_ms (bs_timestamp_ms book));
  ed_latency_bucket := LatUnknown;
  ed_staleness_level := staleness |}.

(** ** Decisions of the execution pipeline *)

(** [core/execution/execution_pipeline.rs:671-721] `ExecutionPipeline::build_factor_context` *)
Definition build_factor_context (published : ControlFactorSnapshot) (opp : Opportunity) (now : Time) (live : bool) : FactorDecisionContext :=
  match sn_publication_id published with
  | None => factor_neutral
  | Some id =>
      let health := health_decision (sn_reconciliation_health published) id in
      let anomaly := anomaly_decision (sn_market_anomalies published) id (opp_market_id opp) (opp_event_id opp) in
      let portfolio := portfolio_decision (sn_portfolio_risk published) id (opp_category opp) in
      let dims := coarse (opp_category opp) (meta_price_zone (meta opp)) (meta_duration_bucket (meta opp)) in
      {| publication_id := Some id;
         snapshot_expired := is_expired_at published now;
         fail_closed := live;
         reconciliation_health := health;
         market_anomaly := anomaly;
         portfolio_risk := portfolio;
         bucket_size_multiplier :=
           match bucket_lookup (sn_bucket_risk published) dims with
           | Some found => bp_size_multiplier (if_payload found)
           | None => d1
           end;
         applied_factors := option_list (rh_source health) ++ option_list (ma_source anomaly) ++ option_list (pr_source portfolio) |}
  end.

(** [core/execution/execution_pipeline.rs:631-668] `ExecutionPipeline::execution_quality_violation`
    on the book of the traded token *)
Definition execution_quality_violation (published : ControlFactorSnapshot) (opp : Opportunity) (book : option BookSnapshot)
    (now_ms : Z) (max_slippage_bps slippage_bps : D) : option string :=
  match sn_publication_id published, book with
  | Some _, Some b =>
      let dims := execution_quality_dimensions (opp_category opp) (meta_price_zone (meta opp)) (staleness opp) b now_ms in
      match quality_lookup (sn_execution_quality published) dims with
      | None => None
      | Some found =>
          let payload := if_payload found in
          let used_fraction := ddiv (depth_used_pct opp) (dof_Z 100) in
          let limit := effective_slippage_limit_bps max_slippage_bps (slippage_bps_addon payload) in
          let slippage :=
            if dltb limit d0 then Some "execution-quality slippage addon leaves no admissible slippage"
            else if dltb limit slippage_bps
            then Some ("slippage " +:+ dshow slippage_bps +:+ " exceeds execution-quality tightened limit " +:+ dshow limit +:+ " bps")
            else None in
          match max_depth_usage_pct payload with
          | Some cap =>
              if dltb cap used_fraction
              then Some ("execution-quality depth usage " +:+ dshow used_fraction +:+ " exceeds factor cap " +:+ dshow cap)
              else slippage
          | None => slippage
          end
      end
  | _, _ => None
  end.

(** ** Shadow comparison *)

(** [core/control/factor_shadow.rs:36-42] `FactorEffect` *)
Record FactorEffect := {
  fx_resolution_multiplier : D;
  fx_fill_multiplier : D;
  fx_size_multiplier : D;
  fx_would_reject : bool;
  fx_applied : list AppliedControlFactor
}.

(** [core/control/factor_shadow.rs:45-53] `FactorEffect::neutral` *)
Definition effect_neutral : FactorEffect := {|
  fx_resolution_multiplier := d1; fx_fill_multiplier := d1; fx_size_multiplier := d1; fx_would_reject := false; fx_applied := [] |}.

(** [core/control/factor_shadow.rs:55-125] `FactorEffect::compute` *)
Definition effect_compute (s : ControlFactorSnapshot) (opp : Opportunity) (bucket_dims : BucketRiskDimensions)
    (eq_dims : ExecutionQualityDimensions) : FactorEffect :=
  match sn_publication_id s with
  | None => effect_neutral
  | Some id =>
      let bucket := bucket_lookup (sn_bucket_risk s) bucket_dims in
      let quality := quality_lookup (sn_execution_quality s) eq_dims in
      let anomaly := anomaly_decision (sn_market_anomalies s) id (opp_market_id opp) (opp_event_id opp) in
      let recon := health_decision (sn_reconciliation_health s) id in
      let portfolio := portfolio_decision (sn_portfolio_risk s) id (opp_category opp) in
      let size := match bucket with Some f => dmul d1 (bp_size_multiplier (if_payload f)) | None => d1 end in
      let size := dmul size (rh_size_multiplier recon) in
      let size := dmul size (global_size_multiplier portfolio) in
      let size := match category_size_multiplier portfolio with Some m => dmul size m | None => size end in
      {| fx_resolution_multiplier := match bucket with Some f => resolution_haircut_factor (if_payload f) | None => d1 end;
         fx_fill_multiplier := match quality with Some f => fill_probability_multiplier (if_payload f) | None => d1 end;
         fx_size_multiplier := size;
         fx_would_reject := match bucket with Some f => block_new_entries (if_payload f) | None => false end
                            || is_blocking anomaly || force_maintenance_mode recon;
         fx_applied :=
           match bucket with
           | Some f => [bucket_resolution_trace (if_factor_id f) id (resolution_adjust opp)
                          (effective_resolution_prob (resolution_adjust opp) (resolution_haircut_factor (if_payload f)))]
           | None => []
           end ++
           match quality with
           | Some f => [execution_quality_fill_trace (if_factor_id f) id d1 (fill_probability_multiplier (if_payload f))]
           | None => []
           end ++
           (if is_blocking anomaly then option_list (ma_source anomaly) else []) ++
           option_list (rh_source recon) ++ option_list (pr_source portfolio) |}
  end.

(** [models/enums/fact.rs:10-17] `ShadowDecisionType` *)
Inductive ShadowDecisionType := WouldReject | WouldSize | WouldScore | NoEffect.

(** [core/control/factor_shadow.rs:198-208] `NewShadowDecision`, the fields of its JSON documents as values *)
Record NewShadowDecision := {
  sd_publication_id : Z;
  sd_opportunity_id : OpportunityId;
  sd_decision_type : ShadowDecisionType;
  sd_baseline : FactorEffect;
  sd_baseline_size : D;
  sd_shadow : FactorEffect;
  sd_shadow_size : D;
  sd_size_delta : D;
  sd_affected_factor_ids : list Z
}.

(** [core/control/factor_shadow.rs:132-193] `ShadowEvaluator::evaluate` *)
Definition shadow_evaluate (published shadow : ControlFactorSnapshot) (opp : Opportunity) (bucket_dims : BucketRiskDimensions)
    (eq_dims : ExecutionQualityDimensions) (baseline_size_usd : D) : option NewShadowDecision :=
  match sn_publication_id shadow with
  | None => None
  | Some id =>
      let baseline := effect_compute published opp bucket_dims eq_dims in
      let candidate := effect_compute shadow opp bucket_dims eq_dims in
      let baseline_size := size_cap baseline_size_usd (fx_size_multiplier baseline) in
      let shadow_size := size_cap baseline_size_usd (fx_size_multiplier candidate) in
      Some {|
        sd_publication_id := id;
        sd_opportunity_id := opportunity_id opp;
        sd_decision_type :=
          if fx_would_reject candidate && negb (fx_would_reject baseline) then WouldReject
          else if negb (deqb shadow_size baseline_size) then WouldSize
          else if negb (deqb (fx_fill_multiplier candidate) (fx_fill_multiplier baseline))
                  || negb (deqb (fx_resolution_multiplier candidate) (fx_resolution_multiplier baseline)) then WouldScore
          else NoEffect;
        sd_baseline := baseline; sd_baseline_size := baseline_size; sd_shadow := candidate; sd_shadow_size := shadow_size;
        sd_size_delta := dsub shadow_size baseline_size;
        sd_affected_factor_ids := af_factor_id <$> fx_applied candidate |}
  end.
End Live.

Arguments if_factor_id {P} _.
Arguments if_payload {P} _.

(** ** The refresher *)

Section Refresher.
Context `{DO : DecimalOps}.

(** The repository of publications and factors: every call may fail.  A stored factor row either
    decodes with matching digests or yields the error of its check. *)
Class FactorRepository (W : Type) := {
  load_active_publication : W -> PublicationMode -> W * Result (option ControlFactorPublication) string;
  load_factors_by_ids : W -> list Z -> W * Result (list (Result ControlFactorValue SnapshotBuildError)) string
}.

(** BLAKE3 over the canonical fields of a publication. *)
Class PublicationDigest := publication_digest : ControlFactorPublication -> Result string string.

Context {W : Type} {FR : FactorRepository W} {PD : PublicationDigest}.

(** [control/governance/hash.rs:31-49] `PublicationHasher::verify` *)
Definition verify_publication (p : ControlFactorPublication) : Result unit GovernanceError :=
  match cp_publication_hash p with
  | EmptyString => Err (PublicationHashMismatch "<non-empty>" "")
  | _ => match publication_digest p with
         | Err e => Err (CanonicalDigest e)
         | Ok expected => if bool_decide (cp_publication_hash p = expected) then Ok tt
                          else Err (PublicationHashMismatch expected (cp_publication_hash p))
         end
  end.

(** What a refresh can fail with. *)
Inductive RefreshError := ReStorage (e : string) | ReBuild (e : SnapshotBuildError).

(** [core/control/factor_snapshot.rs:14-17] `FactorSnapshotStore` *)
Record FactorSnapshotStore := { st_published : ControlFactorSnapshot; st_shadow : ControlFactorSnapshot }.

(** [core/control/factor_snapshot.rs:20-27] `FactorSnapshotStore::new` *)
Definition new_store (now : Time) : FactorSnapshotStore := {| st_published := snapshot_neutral now; st_shadow := snapshot_neutral now |}.

(** [core/control/factor_refresher.rs:61-69] `FactorRefresher` *)
Record FactorRefresher := {
  rf_world : W;
  rf_store : FactorSnapshotStore;
  rf_fail_closed : bool;
  rf_published_version : option string;
  rf_shadow_version : option string
}.

(** [core/control/factor_refresher.rs:73-88] `FactorRefresher::new` *)
Definition new_refresher (w : W) (fail_closed : bool) (now : Time) : FactorRefresher := {|
  rf_world := w; rf_store := new_store now; rf_fail_closed := fail_closed; rf_published_version := None; rf_shadow_version := None |}.

Definition set_rf_world (r : FactorRefresher) w : FactorRefresher := {|
  rf_world := w; rf_store := rf_store r; rf_fail_closed := rf_fail_closed r; rf_published_version := rf_published_version r;
  rf_shadow_version := rf_shadow_version r |}.

Definition version_of (r : FactorRefresher) (mode : PublicationMode) : option string :=
  match mode with PmPublished => rf_published_version r | PmShadow => rf_shadow_version r end.

Definition slot (r : FactorRefresher) (mode : PublicationMode) : ControlFactorSnapshot :=
  match mode with PmPublished => st_published (rf_store r) | PmShadow => st_shadow (rf_store r) end.

(** [core/control/factor_refresher.rs:226-242] `FactorRefresher::store` *)
Definition store_slot (r : FactorRefresher) (mode : PublicationMode) (snapshot : ControlFactorSnapshot) (version : option string) : FactorRefresher :=
  match mode with
  | PmPublished => {| rf_world := rf_world r;
      rf_store := {| st_published := snapshot; st_shadow := st_shadow (rf_store r) |};
      rf_fail_closed := rf_fail_closed r; rf_published_version := version; rf_shadow_version := rf_shadow_version r |}
  | PmShadow => {| rf_world := rf_world r;
      rf_store := {| st_published := st_published (rf_store r); st_shadow := snapshot |};
      rf_fail_closed := rf_fail_closed r; rf_published_version := rf_published_version r; rf_shadow_version := version |}
  end.

(** [core/control/factor_refresher.rs:244-262] `FactorRefresher::apply_neutral` *)
Definition apply_neutral (r : FactorRefresher) (mode : PublicationMode) (now : Time) : FactorRefresher :=
  match version_of r mode with
  | None => r
  | Some _ => store_slot r mode (snapshot_neutral now) None
  end.

(** The rows that decode, or the first error. *)
Fixpoint decode_rows (rows : list (Result ControlFactorValue SnapshotBuildError)) : Result (list ControlFactorValue) SnapshotBuildError :=
  match rows with
  | [] => Ok []
  | Err e :: _ => Err e
  | Ok f :: rest => match decode_rows rest with Ok fs => Ok (f :: fs) | Err e => Err e end
  end.

(** [core/control/factor_refresher.rs:172-224] `FactorRefresher::compile` *)
Definition compile_publication (w : W) (p : ControlFactorPublication) (now : Time) (fail_closed : bool) : W * Result ControlFactorSnapshot RefreshError :=
  match verify_publication p with
  | Err (PublicationHashMismatch expected actual) => (w, Err (ReBuild (SbPublicationHashMismatch expected actual)))
  | Err (CanonicalDigest message) => (w, Err (ReBuild (MissingMember message)))
  | Err _ => (w, Err (ReBuild (MissingMember "")))
  | Ok _ =>
      match load_factors_by_ids w (cp_factor_ids p) with
      | (w, Err e) => (w, Err (ReStorage e))
      | (w, Ok rows) =>
          match decode_rows rows with
          | Err e => (w, Err (ReBuild e))
          | Ok factors =>
              match find (fun member => negb (bool_decide (member ∈ cf_factor_id <$> factors))) (cp_factor_ids p) with
              | Some member => (w, Err (ReBuild (MissingMember (pretty member))))
              | None => match compile p factors now fail_closed with
                        | Err e => (w, Err (ReBuild e))
                        | Ok s => (w, Ok s)
                        end
              end
          end
      end
  end.

(** [core/control/factor_refresher.rs:151-170] `FactorRefresher::refresh_mode` *)
Definition refresh_mode (r : FactorRefresher) (mode : PublicationMode) (now : Time) : FactorRefresher * Result unit RefreshError :=
  match load_active_publication (rf_world r) mode with
  | (w, Err e) => (set_rf_world r w, Err (ReStorage e))
  | (w, Ok None) => (apply_neutral (set_rf_world r w) mode now, Ok tt)
  | (w, Ok (Some p)) =>
      let r := set_rf_world r w in
      if bool_decide (version_of r mode = Some (cp_publication_hash p)) then (r, Ok tt)
      else
        let fail_closed := match mode with PmPublished => rf_fail_closed r | PmShadow => false end in
        match compile_publication (rf_world r) p now fail_closed with
        | (w, Err e) => (set_rf_world r w, Err e)
        | (w, Ok s) => (store_slot (set_rf_world r w) mode s (Some (cp_publication_hash p)), Ok tt)
        end
  end.

(** [core/control/factor_refresher.rs:138-149] `FactorRefresher::refresh_tick` *)
Definition refresh_tick (r : FactorRefresher) (now : Time) : FactorRefresher :=
  (refresh_mode (refresh_mode r PmPublished now).1 PmShadow now).1.

(** [core/control/factor_refresher.rs:96-114] `FactorRefresher::startup` *)
Definition startup (r : FactorRefresher) (now : Time) : FactorRefresher * Result unit RefreshError :=
  match refresh_mode r PmPublished now with
  | (r, Err e) => if rf_fail_closed r then (r, Err e) else ((refresh_mode r PmShadow now).1, Ok tt)
  | (r, Ok _) => ((refresh_mode r PmShadow now).1, Ok tt)
  end.
End Refresher.

(** ** A compiled snapshot is the worst of its factors *)

Section WorstOf.
Context `{DO : DecimalOps}.
Implicit Types (s : ControlFactorSnapshot) (f : ControlFactorValue) (fs : list ControlFactorValue).

(** What a single factor asks for. *)
Definition forces f : bool := match cf_payload f with PayReconciliationHealth p => rp_force_maintenance_mode p | _ => false end.
Definition acks f : bool := match cf_payload f with PayReconciliationHealth p => rp_require_manual_ack p | _ => false end.
Definition health_cap f : option D := match cf_payload f with PayReconciliationHealth p => Some (rp_size_multiplier p) | _ => None end.
Definition global_cap f : option D := match cf_payload f with PayPortfolioRisk p => Some (pp_global_size_multiplier p) | _ => None end.
Definition budget_cap f : option D := match cf_payload f with PayPortfolioRisk p => Some (pp_daily_budget_multiplier p) | _ => None end.
Definition kelly_cap f : option D := match cf_payload f with PayPortfolioRisk p => Some (pp_kelly_fraction_multiplier p) | _ => None end.
Definition category_cap (c : MarketCategory) f : option D :=
  match cf_dimensions f, cf_payload f with
  | DimPortfolioRisk d, PayPortfolioRisk p =>
      if bool_decide (pd_category d = Some c) then pp_category_size_multiplier p else None
  | _, _ => None
  end.
Definition blocks_market (m : MarketId) f : bool :=
  match cf_dimensions f, cf_payload f with
  | DimMarketAnomaly d, PayMarketAnomaly p => mp_block_market p && bool_decide (md_market_id d = Some m)
  | _, _ => false
  end.
Definition blocks_event (e : EventId) f : bool :=
  match cf_dimensions f, cf_payload f with
  | DimMarketAnomaly d, PayMarketAnomaly p => mp_block_event p && bool_decide (md_event_id d = Some e)
  | _, _ => false
  end.

(** [r] is the least of [x] and [caps]. *)
Definition is_worst (x : D) (caps : list D) (r : D) : Prop :=
  (r = x \/ r ∈ caps) /\ forall c, c = x \/ c ∈ caps -> dleb r c = true.

Definition tight (x : D) (o : option D) (y : D) : Prop :=
  (y = x \/ o = Some y) /\ dleb y x = true /\ forall c, o = Some c -> dleb y c = true.

Lemma tight_none x : tight x None x.
Proof. split; [auto|]. split; [apply dleb_refl | done]. Qed.

Lemma tight_pick x c : tight x (Some c) (if dltb c x then c else x).
Proof.
  destruct (dltb c x) eqn:E; (split; [auto|]); dbool; (split; [|intros ? [= <-]]);
    apply dleb_le; auto using Qlt_le_weak, Qle_refl.
Qed.

Lemma is_worst_nil x : is_worst x [] x.
Proof. split; [auto|]. intros c [->|[]%elem_of_nil]. apply dleb_refl. Qed.

Lemma is_worst_step x o y l r : tight x o y -> is_worst y l r -> is_worst x (option_list o ++ l) r.
Proof.
  intros (Hy & Hyx & Hyc) [Hr Hle]. split.
  - destruct Hr as [->|Hr]; [destruct Hy as [->| ->]; [auto | right; set_solver] | right; set_solver].
  - intros c [->|Hc]; [eapply dleb_trans; [apply Hle; by left | done]|].
    apply elem_of_app in Hc as [Hc|Hc]; [|apply Hle; by right].
    destruct o as [d|]; simpl in Hc; [apply list_elem_of_singleton in Hc as ->|by apply elem_of_nil in Hc].
    eapply dleb_trans; [apply Hle; by left | by apply Hyc].
Qed.

Lemma omap_cons_list {A B} (g : A -> option B) a l : omap g (a :: l) = option_list (g a) ++ omap g l.
Proof. simpl. by destruct (g a). Qed.

Definition blocked_market s (m : MarketId) : bool := bool_decide (is_Some (market_block (sn_market_anomalies s) m)).
Definition blocked_event s (e : EventId) : bool := bool_decide (is_Some (event_block (sn_market_anomalies s) e)).
Definition category_multiplier s (c : MarketCategory) : D := unwrap_or (ps_category_multipliers (sn_portfolio_risk s) !! c) d1.

(** [r] is what is left of [s] after the factors [fs]. *)
Record worst_of s fs (r : ControlFactorSnapshot) : Prop := {
  wo_maintenance : hs_force_maintenance_mode (sn_reconciliation_health r) = hs_force_maintenance_mode (sn_reconciliation_health s) || existsb forces fs;
  wo_ack : hs_require_manual_ack (sn_reconciliation_health r) = hs_require_manual_ack (sn_reconciliation_health s) || existsb acks fs;
  wo_health : is_worst (hs_size_multiplier (sn_reconciliation_health s)) (omap health_cap fs) (hs_size_multiplier (sn_reconciliation_health r));
  wo_global : is_worst (ps_global_size_multiplier (sn_portfolio_risk s)) (omap global_cap fs) (ps_global_size_multiplier (sn_portfolio_risk r));
  wo_budget : is_worst (ps_daily_budget_multiplier (sn_portfolio_risk s)) (omap budget_cap fs) (ps_daily_budget_multiplier (sn_portfolio_risk r));
  wo_kelly : is_worst (ps_kelly_fraction_multiplier (sn_portfolio_risk s)) (omap kelly_cap fs) (ps_kelly_fraction_multiplier (sn_portfolio_risk r));
  wo_category : forall c, is_worst (category_multiplier s c) (omap (category_cap c) fs) (category_multiplier r c);
  wo_market : forall m, blocked_market r m = blocked_market s m || existsb (blocks_market m) fs;
  wo_event : forall e, blocked_event r e = blocked_event s e || existsb (blocks_event e) fs
}.

(** The effect of routing one factor. *)
Record routed s f (s' : ControlFactorSnapshot) : Prop := {
  ro_maintenance : hs_force_maintenance_mode (sn_reconciliation_health s') = hs_force_maintenance_mode (sn_reconciliation_health s) || forces f;
  ro_ack : hs_require_manual_ack (sn_reconciliation_health s') = hs_require_manual_ack (sn_reconciliation_health s) || acks f;
  ro_health : tight (hs_size_multiplier (sn_reconciliation_health s)) (health_cap f) (hs_size_multiplier (sn_reconciliation_health s'));
  ro_global : tight (ps_global_size_multiplier (sn_portfolio_risk s)) (global_cap f) (ps_global_size_multiplier (sn_portfolio_risk s'));
  ro_budget : tight (ps_daily_budget_multiplier (sn_portfolio_risk s)) (budget_cap f) (ps_daily_budget_multiplier (sn_portfolio_risk s'));
  ro_kelly : tight (ps_kelly_fraction_multiplier (sn_portfolio_risk s)) (kelly_cap f) (ps_kelly_fraction_multiplier (sn_portfolio_risk s'));
  ro_category : forall c, tight (category_multiplier s c) (category_cap c f) (category_multiplier s' c);
  ro_market : forall m, blocked_market s' m = blocked_market s m || blocks_market m f;
  ro_event : forall e, blocked_event s' e = blocked_event s e || blocks_event e f
}.

Lemma keep_if_insert {K P} `{Countable K} (test : P -> bool) (m : gmap K (IndexedFactor P)) k e k' :
  test (if_payload e) = true ->
  bool_decide (is_Some (keep_if test (<[k := e]> m !! k'))) = bool_decide (is_Some (keep_if test (m !! k'))) || bool_decide (Some k = Some k').
Proof.
  intros Ht. destruct (decide (k = k')) as [<-|Hk].
  - rewrite lookup_insert_eq. simpl. rewrite Ht, (bool_decide_true (Some k = Some k)) by done. rewrite orb_true_r.
    by apply bool_decide_true.
  - rewrite lookup_insert_ne by done. rewrite (bool_decide_false (Some k = Some k')) by congruence. by rewrite orb_false_r.
Qed.

Lemma route_anomaly_market m d id p k :
  bool_decide (is_Some (market_block (route_anomaly m d id p) k))
  = bool_decide (is_Some (market_block m k)) || mp_block_market p && bool_decide (md_market_id d = Some k).
Proof.
  unfold market_block, route_anomaly. cbn [blocked_markets].
  destruct (mp_block_market p) eqn:Eb, (md_market_id d) as [m'|]; simpl; rewrite ?orb_false_r; try done.
  by apply (keep_if_insert mp_block_market).
Qed.

Lemma route_anomaly_event m d id p k :
  bool_decide (is_Some (event_block (route_anomaly m d id p) k))
  = bool_decide (is_Some (event_block m k)) || mp_block_event p && bool_decide (md_event_id d = Some k).
Proof.
  unfold event_block, route_anomaly. cbn [blocked_events].
  destruct (mp_block_event p) eqn:Eb, (md_event_id d) as [m'|]; simpl; rewrite ?orb_false_r; try done.
  by apply (keep_if_insert mp_block_event).
Qed.

Lemma absorb_category_lookup pr c m c' :
  tight (unwrap_or (ps_category_multipliers pr !! c') d1) (if bool_decide (Some c = Some c') then Some m else None)
    (unwrap_or (ps_category_multipliers (absorb_category pr c m) !! c') d1).
Proof.
  unfold absorb_category. cbn [ps_category_multipliers]. destruct (decide (c = c')) as [<-|Hc].
  - rewrite lookup_insert_eq, bool_decide_true by done. apply tight_pick.
  - rewrite lookup_insert_ne, bool_decide_false by congruence. apply tight_none.
Qed.

Lemma route_routed s f s' : route s f = Ok s' -> routed s f s'.
Proof.
  unfold route. intros H.
  destruct (cf_dimensions f) as [d|d|d|d|d|] eqn:Ed; destruct (cf_payload f) as [p|p|p|p|p] eqn:Ep; try done; simplify_eq.
  all: split; unfold forces, acks, health_cap, global_cap, budget_cap, kelly_cap, category_cap, blocks_market, blocks_event,
    blocked_market, blocked_event, category_multiplier; rewrite ?Ed, ?Ep; simpl; intros; rewrite ?orb_false_r;
    auto using tight_none, tight_pick, route_anomaly_market, route_anomaly_event.
  1-3: by repeat case_match; apply tight_pick.
  destruct (pd_category d) as [c'|]; [|apply tight_none]. destruct (pp_category_size_multiplier p) as [m|].
  - exact (absorb_category_lookup (portfolio_absorb (sn_portfolio_risk s) (cf_factor_id f) p) c' m c).
  - case_bool_decide; apply tight_none.
Qed.

Lemma worst_of_nil s : worst_of s [] s.
Proof. split; simpl; intros; rewrite ?orb_false_r; auto using is_worst_nil. Qed.

Lemma worst_of_cons s f s' fs r : routed s f s' -> worst_of s' fs r -> worst_of s (f :: fs) r.
Proof.
  intros [] []. split; intros; rewrite ?omap_cons_list; simpl; try (by eapply is_worst_step; eauto).
  all: rewrite orb_assoc; congruence.
Qed.

(** The factors still in force. *)
Definition in_force (now : Time) fs : list ControlFactorValue := filter (fun f => now < cf_expires_at f) fs.

(** A factor the compiler accepts. *)
Definition acceptable (now : Time) (fc : bool) f : Prop :=
  cf_schema_version f = LIVE_SNAPSHOT_SCHEMA_VERSION /\ cf_factor_type f = pay_factor_type (cf_payload f) /\
  dims_agree (cf_dimensions f) (cf_factor_type f) = true /\ conservative (cf_payload f) /\
  if cf_expires_at f <=? now then expired_behavior f = FailClosedIfCritical -> fc = false
  else dim_factor_type (cf_dimensions f) = Some (cf_factor_type f).

Lemma route_total s f : cf_factor_type f = pay_factor_type (cf_payload f) -> dims_agree (cf_dimensions f) (cf_factor_type f) = true ->
  is_ok (route s f) = true <-> dim_factor_type (cf_dimensions f) = Some (cf_factor_type f).
Proof.
  intros -> Hd. unfold route, dims_agree in *. destruct (cf_dimensions f), (cf_payload f); simpl in *; try done;
    try (apply bool_decide_eq_true in Hd; discriminate).
Qed.

Lemma compile_factor_iff now fc s f : is_ok (compile_factor now fc s f) = true <-> acceptable now fc f.
Proof.
  unfold compile_factor, acceptable. destruct (Z.eqb_spec (cf_schema_version f) LIVE_SNAPSHOT_SCHEMA_VERSION); simpl; [|naive_solver].
  case_bool_decide as Ht; simpl; [|naive_solver]. destruct (dims_agree _ _) eqn:Ed; simpl; [|naive_solver].
  rewrite <- validate_safety_iff. destruct (validate_safety _) as [[]|]; [|naive_solver].
  destruct (cf_expires_at f <=? now).
  - destruct (expired_behavior f), fc; simpl; naive_solver.
  - rewrite route_total by done. naive_solver.
Qed.

Lemma compile_factors_iff now fc s fs : is_ok (compile_factors now fc s fs) = true <-> Forall (acceptable now fc) fs.
Proof.
  revert s. induction fs as [|f fs IH]; intros s; simpl; [by rewrite Forall_nil|]. rewrite Forall_cons, <- (compile_factor_iff now fc s).
  destruct (compile_factor now fc s f) as [s'|]; simpl; [rewrite IH | ]; naive_solver.
Qed.

(** Compilation succeeds exactly when every factor is of the supported schema, typed, conservative,
    routable while in force and, in the fail-closed mode, not an expired critical safety factor. *)
Theorem compile_succeeds_iff (p : ControlFactorPublication) fs now fc :
  is_ok (compile p fs now fc) = true <-> Forall (acceptable now fc) fs.
Proof.
  unfold compile. apply compile_factors_iff.
Qed.

Lemma compile_factor_ok now fc s f s' : compile_factor now fc s f = Ok s' ->
  cf_schema_version f = LIVE_SNAPSHOT_SCHEMA_VERSION /\ cf_factor_type f = pay_factor_type (cf_payload f) /\
  conservative (cf_payload f) /\
  (cf_expires_at f <= now /\ s' = s /\ (expired_behavior f = FailClosedIfCritical -> fc = false) \/
   now < cf_expires_at f /\ route s f = Ok s').
Proof.
  unfold compile_factor. destruct (Z.eqb_spec (cf_schema_version f) LIVE_SNAPSHOT_SCHEMA_VERSION); simpl; [|done].
  case_bool_decide; simpl; [|done]. destruct (dims_agree _ _); simpl; [|done].
  destruct (validate_safety _) as [[]|] eqn:Es; [|done]. apply validate_safety_iff in Es.
  destruct (Z.leb_spec (cf_expires_at f) now).
  - intros Hs. repeat split; auto. left. split; [done|]. destruct (expired_behavior f), fc; simplify_eq; done.
  - intros Hs. repeat split; auto.
Qed.

Lemma compile_factors_ok now fc s fs r : compile_factors now fc s fs = Ok r ->
  worst_of s (in_force now fs) r /\ Forall (fun f => conservative (cf_payload f)) fs /\
  (fc = true -> Forall (fun f => cf_expires_at f <= now -> expired_behavior f <> FailClosedIfCritical) fs) /\
  sn_publication_id r = sn_publication_id s /\ sn_expires_at r = sn_expires_at s.
Proof.
  revert s. induction fs as [|f fs IH]; intros s; simpl.
  - intros [= <-]. repeat split; auto using worst_of_nil, Forall_nil; apply worst_of_nil.
  - destruct (compile_factor _ _ _ _) as [s'|] eqn:E; [|done]. apply compile_factor_ok in E as (_ & _ & Hc & Hcase).
    intros (Hw & Hf & Hx & Hp & He)%IH. unfold in_force. rewrite filter_cons.
    destruct Hcase as [(Hle & -> & Hb)|[Hlt Hr]].
    + rewrite decide_False by lia. repeat split; auto; try apply Hw. intros Hfc. constructor; auto. intros _ Hb'.
      specialize (Hb Hb'). congruence.
    + rewrite decide_True by lia. split; [eapply worst_of_cons; [apply route_routed; eassumption|done]|].
      assert (sn_publication_id s' = sn_publication_id s /\ sn_expires_at s' = sn_expires_at s) as [Hp' He'].
      { unfold route in Hr. destruct (cf_dimensions f), (cf_payload f); simplify_eq; done. }
      repeat split; auto; try congruence. intros Hfc. constructor; auto. lia.
Qed.

End WorstOf.

(** ** What the refresher serves *)

Section Serving.
Context {DO : DecimalOps} {W : Type} {FR : FactorRepository W} {PD : PublicationDigest}.
Implicit Types (r : FactorRefresher (W := W)) (mode : PublicationMode).

(** A slot holds the neutral snapshot, or a verified publication compiled with all its members. *)
Definition slot_ok r mode : Prop :=
  match version_of r mode with
  | None => exists t, slot r mode = snapshot_neutral t
  | Some v => exists p fs t, cp_publication_hash p = v /\ verify_publication p = Ok tt /\
      (forall i, i ∈ cp_factor_ids p -> exists f, f ∈ fs /\ cf_factor_id f = i) /\
      compile p fs t (match mode with PmPublished => rf_fail_closed r | PmShadow => false end) = Ok (slot r mode)
  end.

Lemma compile_publication_ok w p now fc w' s : compile_publication w p now fc = (w', Ok s) ->
  verify_publication p = Ok tt /\
  exists fs, (forall i, i ∈ cp_factor_ids p -> exists f, f ∈ fs /\ cf_factor_id f = i) /\ compile p fs now fc = Ok s.
Proof.
  unfold compile_publication. destruct (verify_publication p) as [[]|[]]; try done.
  destruct (load_factors_by_ids _ _) as [w1 [rows|]]; [|done]. destruct (decode_rows rows) as [fs|]; [|done].
  destruct (find _ _) eqn:Ef; [done|]. destruct (compile _ _ _ _) eqn:Ec; [|done]. intros [= <- <-].
  split; [done|]. exists fs. split; [|done]. intros i Hi. apply list_elem_of_In in Hi.
  pose proof (find_none _ _ Ef i Hi) as Hn. cbv beta in Hn. apply negb_false_iff, bool_decide_eq_true in Hn.
  apply list_elem_of_fmap in Hn as (f & -> & ?). eauto.
Qed.

Lemma slot_store r mode s v mode' : slot (store_slot r mode s v) mode' = if decide (mode = mode') then s else slot r mode'.
Proof. by destruct mode, mode'. Qed.

Lemma version_store r mode s v mode' : version_of (store_slot r mode s v) mode' = if decide (mode = mode') then v else version_of r mode'.
Proof. by destruct mode, mode'. Qed.

Lemma fail_closed_store r mode s v : rf_fail_closed (store_slot r mode s v) = rf_fail_closed r.
Proof. by destruct mode. Qed.

Lemma refresh_mode_ok r mode now mode' : slot_ok r mode' -> slot_ok (refresh_mode r mode now).1 mode' /\
  rf_fail_closed (refresh_mode r mode now).1 = rf_fail_closed r.
Proof.
  intros Hok. unfold refresh_mode. destruct (load_active_publication _ _) as [w [[p|]|e]]; [| |done].
  - case_bool_decide; [done|]. destruct (compile_publication _ _ _ _) as [w' [s|e]] eqn:Ec; [|done].
    apply compile_publication_ok in Ec as (Hv & fs & Hm & Hc). cbn [fst]. rewrite fail_closed_store. split; [|done].
    unfold slot_ok. rewrite version_store, slot_store, fail_closed_store. destruct (decide (mode = mode')) as [->|]; [|exact Hok].
    exists p, fs, now. auto.
  - unfold apply_neutral. cbn [fst]. destruct (version_of (set_rf_world r w) mode); [|done]. rewrite fail_closed_store. split; [|done].
    unfold slot_ok. rewrite version_store, slot_store, fail_closed_store. destruct (decide (mode = mode')) as [->|]; [|exact Hok]. eauto.
Qed.

(** States the refresher can be in: a start and any number of ticks, at any times. *)
Inductive refreshed (w : W) (fc : bool) : FactorRefresher (W := W) -> Prop :=
| refreshed_new t : refreshed w fc (new_refresher w fc t)
| refreshed_startup r t : refreshed w fc r -> refreshed w fc (startup r t).1
| refreshed_tick r t : refreshed w fc r -> refreshed w fc (refresh_tick r t).

(** C15: Whatever the repository answers, the published and the shadow slot hold the neutral snapshot
    or a publication whose digest was verified, compiled with every member it lists and, for the
    published one, with the fail-closed policy of the refresher. *)
Theorem refresher_serves_verified w fc r mode : refreshed w fc r -> slot_ok r mode /\ rf_fail_closed r = fc.
Proof.
  assert (forall r t m, slot_ok r m -> rf_fail_closed r = fc ->
    slot_ok (refresh_mode r PmShadow t).1 m /\ rf_fail_closed (refresh_mode r PmShadow t).1 = fc) as Hs.
  { intros r0 t m Hok Hfc. destruct (refresh_mode_ok r0 PmShadow t m Hok) as [? ->]. done. }
  induction 1 as [t|r t _ [IH Hfc]|r t _ [IH Hfc]].
  - split; [|done]. destruct mode; exists t; done.
  - destruct (refresh_mode_ok r PmPublished t mode IH) as [H1 H2]. unfold startup.
    destruct (refresh_mode r PmPublished t) as [r' [u|e]]; simpl in *; [apply Hs; [done | congruence]|].
    destruct (rf_fail_closed r') eqn:E; simpl; [split; [done | congruence] | apply Hs; [done | congruence]].
  - destruct (refresh_mode_ok r PmPublished t mode IH) as [H1 H2]. unfold refresh_tick. apply Hs; [done | congruence].
Qed.

(** A refresh that fails, or finds the publication it already serves, leaves the snapshot alone; the
    expiry of single factors is not looked at again. *)
Lemma refresh_keeps_snapshot r mode now :
  match refresh_mode r mode now with
  | (r', Err _) => slot r' mode = slot r mode
  | (r', Ok _) => forall w p, load_active_publication (rf_world r) mode = (w, Ok (Some p)) ->
                  version_of r mode = Some (cp_publication_hash p) -> slot r' mode = slot r mode
  end.
Proof.
  unfold refresh_mode. destruct (load_active_publication _ _) as [w [[p|]|e]]; simpl; [| done | by destruct mode].
  case_bool_decide as Hv; [by destruct mode|].
  destruct (compile_publication _ _ _ _) as [w' [s|e]]; [|by destruct mode].
  intros ?? [= <- <-] Hv'. destruct Hv. by destruct mode.
Qed.
End Serving.

Module LiveDemo.
Import FactorDemo.

(** A maintenance factor in force until 1000, and a bucket factor. *)
Definition maintenance_factor (expires : Time) : ControlFactorValue (DO := ExactQ.exactQ) := {|
  cf_factor_id := 2; cf_factor_type := ReconciliationHealth;
  cf_dimensions := DimReconciliationHealth {| account_scope := AsGlobal; asset_scope := AllAssets; drift_severity := SevCritical;
                     metrics_freshness_bucket := MfFresh; redeem_status_bucket := NotRedeemable |};
  cf_payload := PayReconciliationHealth {| trading_health := MaintenanceRequired; rp_size_multiplier := (1 # 4)%Q;
                  rp_require_manual_ack := false; rp_force_maintenance_mode := true; fail_closed_after_secs := None |};
  cf_evidence := demo_evidence; cf_status := FPublished; cf_generated_at := 0; cf_expires_at := expires; cf_owner := "risk";
  cf_schema_version := 1 |}.

Definition demo_factors : list (ControlFactorValue (DO := ExactQ.exactQ)) := [demo_factor 1 (1 # 2) FPublished; maintenance_factor 1000].

Definition demo_compiled : ControlFactorSnapshot (DO := ExactQ.exactQ) :=
  match compile demo_publication demo_factors 200 true with Ok r => r | Err _ => snapshot_neutral 0 end.


#[local] Instance demo_digest : PublicationDigest := fun _ => Ok "h".
#[local] Instance demo_repository : FactorRepository (DO := ExactQ.exactQ) unit := {|
  load_active_publication := fun w mode => (w, Ok (match mode with PmPublished => Some demo_publication | PmShadow => None end));
  load_factors_by_ids := fun w _ => (w, Ok (Ok <$> demo_factors)) |}.

Lemma refresher_serves_verified_witness :
  slot_ok (startup (new_refresher (DO := ExactQ.exactQ) tt true 100) 200).1 PmPublished.
Proof. apply (refresher_serves_verified (DO := ExactQ.exactQ) tt true). apply refreshed_startup, refreshed_new. Defined.

(** After its factor expired, the refresher still serves the maintenance mode, although compiling the
    same publication now would refuse (fail closed) or drop the factor. *)
Lemma expired_factor_still_served :
  let r := (startup (new_refresher (DO := ExactQ.exactQ) tt true 100) 200).1 in
  hs_force_maintenance_mode (sn_reconciliation_health (st_published (rf_store (refresh_tick r 5000)))) = true /\
  compile demo_publication demo_factors 5000 true = Err (ExpiredSafetyFactor 2 1000 5000) /\
  match compile demo_publication demo_factors 5000 false with
  | Ok s => hs_force_maintenance_mode (sn_reconciliation_health s) = false
  | Err _ => False
  end.
Proof. vm_compute. done. Qed.
End LiveDemo.
