(* ===== verification/Registry.v ===== *)
(** * The control-factor registry: [oxide-arb-repository/src/postgres/control_factor.rs]

    The tables of factors, publications and their members, and the audit chain, with the transactions
    that change them.  A transaction commits as a whole or changes nothing; the statement that breaks
    a constraint of the schema makes it fail.  The reads a transaction makes before it writes are
    taken from the registry it [saw], which other transactions may have changed by the time of its
    writes: only publications and rollbacks of one mode exclude each other.  Rows of a query without
    an order come in order of insertion; time stamps of rows the code does not read, and the link
    of a factor to its run, are left out. *)

From S2P Require Import Prelude Decimal Config Domain Fees FactorModel AuditChain Factors.

(** Several fallible statements. *)
Definition bind_ok {A B E} (r : Result A E) (k : A -> Result B E) : Result B E :=
  match r with Ok a => k a | Err e => Err e end.

Section Registry.
Context {DO : DecimalOps} {ED : EventDigest} {TC : TimestampColumn}.

(** ** Tables *)

(** [models/domain/control_factor/persistence.rs:30-47] `ControlFactorValueInfo`: the typed content its JSON columns encode, with its digests *)
Record FactorRow := {
  fr_value : ControlFactorValue;
  fr_run_id : Z;
  fr_dimensions_hash : string;
  fr_payload_hash : string;
  fr_status_reason : option string
}.

(** [models/domain/control_factor/persistence.rs:306-318] `NewControlFactorPublication` *)
Record NewPublication := {
  np_publication_id : Z;
  np_mode : PublicationMode;
  np_factor_ids : list Z;
  np_previous_publication_id : option Z;
  np_status : PublicationStatus;
  np_effective_from : Time;
  np_expires_at : Time;
  np_approved_by : option string;
  np_approval_reason : string;
  np_idempotency_key : string;
  np_publication_hash : string
}.

(** [models/domain/control_factor/persistence.rs:252-264] `ControlFactorPublicationRowInfo`, with the key of the request *)
Record PublicationRow := {
  pr_publication_id : Z;
  pr_mode : PublicationMode;
  pr_previous_publication_id : option Z;
  pr_status : PublicationStatus;
  pr_effective_from : Time;
  pr_expires_at : Time;
  pr_approved_by : option string;
  pr_approval_reason : string;
  pr_idempotency_key : string;
  pr_publication_hash : string
}.

(** The four tables. *)
Record Registry := {
  rg_factors : gmap Z FactorRow;
  rg_publications : gmap Z PublicationRow;
  rg_members : list (Z * Z);
  rg_audit : list AuditEventInfo
}.

Definition empty_registry : Registry := {| rg_factors := ∅; rg_publications := ∅; rg_members := []; rg_audit := [] |}.

#[global] Instance PublicationStatus_eq_dec : EqDecision PublicationStatus.
Proof. solve_decision. Defined.

Definition set_status (f : ControlFactorValue) (status : FactorStatus) : ControlFactorValue := {|
  cf_factor_id := cf_factor_id f; cf_factor_type := cf_factor_type f; cf_dimensions := cf_dimensions f;
  cf_payload := cf_payload f; cf_evidence := cf_evidence f; cf_status := status; cf_generated_at := cf_generated_at f;
  cf_expires_at := cf_expires_at f; cf_owner := cf_owner f; cf_schema_version := cf_schema_version f |}.

Definition set_publication_status (p : PublicationRow) (status : PublicationStatus) : PublicationRow := {|
  pr_publication_id := pr_publication_id p; pr_mode := pr_mode p; pr_previous_publication_id := pr_previous_publication_id p;
  pr_status := status; pr_effective_from := pr_effective_from p; pr_expires_at := pr_expires_at p;
  pr_approved_by := pr_approved_by p; pr_approval_reason := pr_approval_reason p;
  pr_idempotency_key := pr_idempotency_key p; pr_publication_hash := pr_publication_hash p |}.

Definition with_factors (r : Registry) fs : Registry :=
  {| rg_factors := fs; rg_publications := rg_publications r; rg_members := rg_members r; rg_audit := rg_audit r |}.
Definition with_publications (r : Registry) ps : Registry :=
  {| rg_factors := rg_factors r; rg_publications := ps; rg_members := rg_members r; rg_audit := rg_audit r |}.
Definition with_members (r : Registry) ms : Registry :=
  {| rg_factors := rg_factors r; rg_publications := rg_publications r; rg_members := ms; rg_audit := rg_audit r |}.
Definition with_audit (r : Registry) a : Registry :=
  {| rg_factors := rg_factors r; rg_publications := rg_publications r; rg_members := rg_members r; rg_audit := a |}.

(** ** Factors *)

(** What the columns give back of an inserted factor. *)
Definition stored_factor (f : ControlFactorValue) : ControlFactorValue := {|
  cf_factor_id := cf_factor_id f; cf_factor_type := cf_factor_type f; cf_dimensions := cf_dimensions f;
  cf_payload := cf_payload f; cf_evidence := cf_evidence f; cf_status := cf_status f;
  cf_generated_at := column_time (cf_generated_at f); cf_expires_at := column_time (cf_expires_at f);
  cf_owner := cf_owner f; cf_schema_version := cf_schema_version f |}.

(** [models/idens/control_factor_value.rs:157-171] the unique key of a factor within its run *)
Definition same_run_payload (a b : FactorRow) : bool :=
  (fr_run_id a =? fr_run_id b) && bool_decide (cf_factor_type (fr_value a) = cf_factor_type (fr_value b))
  && bool_decide (fr_dimensions_hash a = fr_dimensions_hash b) && bool_decide (fr_payload_hash a = fr_payload_hash b).

(** [repo/postgres/control_factor.rs:440-449] `insert_factor_q` *)
Definition insert_factor_q (r : Registry) (factor : FactorRow) : Result (Registry * FactorRow) StorageError :=
  let id := cf_factor_id (fr_value factor) in
  match rg_factors r !! id with
  | Some _ => Err (SeDatabase "duplicate factor")
  | None =>
      if existsb (fun kv => same_run_payload kv.2 factor) (map_to_list (rg_factors r)) then Err (SeDatabase "unique violation")
      else let row := {| fr_value := stored_factor (fr_value factor); fr_run_id := fr_run_id factor;
                         fr_dimensions_hash := fr_dimensions_hash factor; fr_payload_hash := fr_payload_hash factor;
                         fr_status_reason := fr_status_reason factor |} in
           Ok (with_factors r (<[id := row]> (rg_factors r)), row)
  end.

(** [repo/postgres/control_factor.rs:453-470] `set_factor_status_q` *)
Definition set_factor_status_q (r : Registry) (factor_id : Z) (status : FactorStatus) (status_reason : option string) : Registry :=
  with_factors r (alter (fun row => {|
    fr_value := set_status (fr_value row) status; fr_run_id := fr_run_id row; fr_dimensions_hash := fr_dimensions_hash row;
    fr_payload_hash := fr_payload_hash row;
    fr_status_reason := match status_reason with Some x => Some x | None => fr_status_reason row end |}) factor_id (rg_factors r)).

(** [repo/postgres/control_factor.rs:472-481] `load_factor_q` *)
Definition load_factor_q (r : Registry) (factor_id : Z) : option FactorRow := rg_factors r !! factor_id.

(** [repo/postgres/control_factor.rs:483-496] `load_factors_by_ids_q` *)
Definition load_factors_by_ids_q (r : Registry) (factor_ids : list Z) : list FactorRow :=
  match factor_ids with
  | [] => []
  | _ => omap (fun kv => if bool_decide (kv.1 ∈ factor_ids) then Some kv.2 else None) (map_to_list (rg_factors r))
  end.

(** The audit append of a transaction. *)
Definition append_event (r : Registry) (event_id : Z) (event : NewAuditEvent) (now : Time) : Result (Registry * AuditEventInfo) StorageError :=
  bind_ok (append_audit_event_chained_q (rg_audit r) event_id event now) (fun x => Ok (with_audit r x.1, x.2)).

(** ** Publications *)

(** [repo/postgres/control_factor.rs:927-937] `load_publication_factor_ids_q` *)
Definition load_publication_factor_ids_q (r : Registry) (publication_id : Z) : list Z :=
  omap (fun m => if m.1 =? publication_id then Some m.2 else None) (rg_members r).

(** [repo/postgres/control_factor.rs:918-925] `enrich_publication_q`, as the domain publication of [to_publication] *)
Definition enrich_publication_q (r : Registry) (p : PublicationRow) : ControlFactorPublication := {|
  cp_publication_id := pr_publication_id p; cp_mode := pr_mode p;
  cp_factor_ids := load_publication_factor_ids_q r (pr_publication_id p);
  cp_previous_publication_id := pr_previous_publication_id p; cp_status := pr_status p;
  cp_effective_from := pr_effective_from p; cp_expires_at := pr_expires_at p; cp_approved_by := pr_approved_by p;
  cp_approval_reason := pr_approval_reason p; cp_publication_hash := pr_publication_hash p |}.

(** The rows of a table that satisfy a filter. *)
Definition find_publication (r : Registry) (keep : PublicationRow -> bool) : option PublicationRow :=
  List.find keep ((map_to_list (rg_publications r)).*2).

(** [repo/postgres/control_factor.rs:668-681] `find_publication_by_idempotency_q` *)
Definition find_publication_by_idempotency_q (r : Registry) (idempotency_key : string) : option ControlFactorPublication :=
  enrich_publication_q r <$> find_publication r (fun p => bool_decide (pr_idempotency_key p = idempotency_key)).

Definition active_in (mode : PublicationMode) (p : PublicationRow) : bool :=
  bool_decide (pr_mode p = mode) && bool_decide (pr_status p = PsActive).

(** [repo/postgres/control_factor.rs:874-888] `load_active_publication_q` *)
Definition load_active_publication_q (r : Registry) (mode : PublicationMode) : option ControlFactorPublication :=
  enrich_publication_q r <$> find_publication r (active_in mode).

(** [repo/postgres/control_factor.rs:890-902] `load_publication_info_q` *)
Definition load_publication_info_q (r : Registry) (publication_id : Z) : option ControlFactorPublication :=
  enrich_publication_q r <$> rg_publications r !! publication_id.

(** [repo/postgres/control_factor.rs:904-916] `load_publication_model_q` *)
Definition load_publication_model_q (r : Registry) (publication_id : Z) : Result PublicationRow StorageError :=
  ok_or (rg_publications r !! publication_id) (SeNotFound "control_factor_publication" publication_id).

(** [repo/postgres/control_factor.rs:939-954] `publication_for_validation` *)
Definition publication_for_validation (p : NewPublication) : ControlFactorPublication := {|
  cp_publication_id := np_publication_id p; cp_mode := np_mode p; cp_factor_ids := np_factor_ids p;
  cp_previous_publication_id := np_previous_publication_id p; cp_status := PsPending;
  cp_effective_from := np_effective_from p; cp_expires_at := np_expires_at p; cp_approved_by := np_approved_by p;
  cp_approval_reason := np_approval_reason p; cp_publication_hash := np_publication_hash p |}.

(** [repo/postgres/control_factor.rs:956-961] `factor_status_for_mode` *)
Definition factor_status_for_mode (mode : PublicationMode) : FactorStatus :=
  match mode with PmShadow => FShadow | PmPublished => FPublished end.

(** [models/domain/control_factor/persistence.rs:337-350] `From<&NewControlFactorPublication> for NewControlFactorPublicationRow`, stored with the status of its insertion *)
Definition publication_row (p : NewPublication) (status : PublicationStatus) : PublicationRow := {|
  pr_publication_id := np_publication_id p; pr_mode := np_mode p; pr_previous_publication_id := np_previous_publication_id p;
  pr_status := status; pr_effective_from := column_time (np_effective_from p); pr_expires_at := column_time (np_expires_at p);
  pr_approved_by := np_approved_by p; pr_approval_reason := np_approval_reason p;
  pr_idempotency_key := np_idempotency_key p; pr_publication_hash := np_publication_hash p |}.

(** [models/idens/control_factor_publication.rs:95-103] the unique index on the active publication of a mode *)
Definition one_active_per_mode (ps : gmap Z PublicationRow) : bool :=
  forallb (fun mode => (length (List.filter (active_in mode) ((map_to_list ps).*2)) <=? 1)%nat) [PmShadow; PmPublished].

(** An update of the publication table fails when its result breaks the index. *)
Definition update_publications (r : Registry) (change : PublicationRow -> PublicationRow) : Result Registry StorageError :=
  let ps := change <$> rg_publications r in
  if one_active_per_mode ps then Ok (with_publications r ps) else Err (SeDatabase "unique violation").

(** Insertion of the header: primary key and key of the request are unique. *)
Definition insert_publication (r : Registry) (p : PublicationRow) : Result Registry StorageError :=
  match rg_publications r !! pr_publication_id p with
  | Some _ => Err (SeDatabase "duplicate publication")
  | None => if bool_decide (is_Some (find_publication r (fun q => bool_decide (pr_idempotency_key q = pr_idempotency_key p))))
            then Err (SeDatabase "unique violation")
            else Ok (with_publications r (<[pr_publication_id p := p]> (rg_publications r)))
  end.

(** [models/idens/control_factor_publication_factor.rs:35-72] insertion of the members: the pair is the primary key, and the factor exists *)
Definition insert_members (r : Registry) (publication_id : Z) (factor_ids : list Z) : Result Registry StorageError :=
  if bool_decide (NoDup factor_ids) && forallb (fun id => bool_decide (is_Some (rg_factors r !! id))) factor_ids
     && forallb (fun id => negb (bool_decide ((publication_id, id) ∈ rg_members r))) factor_ids
  then Ok (with_members r (rg_members r ++ ((fun id => (publication_id, id)) <$> factor_ids)))
  else Err (SeDatabase "constraint violation").

(** Loading the members one by one, decoded. *)
Fixpoint load_members (r : Registry) (factor_ids : list Z) : Result (list ControlFactorValue) StorageError :=
  match factor_ids with
  | [] => Ok []
  | id :: ids => match load_factor_q r id with
                 | None => Err (SeNotFound "control_factor_value" id)
                 | Some row => bind_ok (load_members r ids) (fun fs => Ok (fr_value row :: fs))
                 end
  end.

(** [models/domain/control_factor/persistence.rs:465-472] `AuditedOutcome` *)
Record AuditedOutcome (A : Type) := { ao_value : A; ao_audit_event_id : Z; ao_audit_sequence : Z }.
#[global] Arguments ao_value {A} _.
#[global] Arguments ao_audit_event_id {A} _.
#[global] Arguments ao_audit_sequence {A} _.

(** [models/domain/control_factor/persistence.rs:487-494] `PublishPublicationOutcome` *)
Inductive PublishOutcome :=
| PoPublished (outcome : AuditedOutcome ControlFactorPublication)
| PoAlreadyApplied (publication : ControlFactorPublication).

Definition audited {A} (value : A) (event : AuditEventInfo) : AuditedOutcome A :=
  {| ao_value := value; ao_audit_event_id := ae_event_id event; ao_audit_sequence := ae_sequence event |}.

Definition set_statuses (r : Registry) (factor_ids : list Z) (status : FactorStatus) : Registry :=
  foldl (fun r id => set_factor_status_q r id status None) r factor_ids.

(** [repo/postgres/control_factor.rs:726-787] `publish_publication_q`, its writes: header, members, supersede, activate, members' statuses, audit *)
Definition write_publication (r : Registry) (publication : NewPublication) (event_id : Z) (audit : NewAuditEvent) (now : Time)
    : Result (Registry * PublishOutcome) StorageError :=
  let id := np_publication_id publication in
  bind_ok (insert_publication r (publication_row publication PsPending)) (fun r =>
  bind_ok (insert_members r id (np_factor_ids publication)) (fun r =>
  bind_ok (update_publications r (fun p => if active_in (np_mode publication) p then set_publication_status p PsSuperseded else p)) (fun r =>
  bind_ok (update_publications r (fun p => if pr_publication_id p =? id then set_publication_status p PsActive else p)) (fun r =>
  let r := set_statuses r (np_factor_ids publication) (target_factor_status (publication_for_validation publication)) in
  bind_ok (append_event r event_id audit now) (fun x =>
  match load_publication_info_q x.1 id with
  | None => Err (SeNotFound "control_factor_publication" id)
  | Some info => Ok (x.1, PoPublished (audited info x.2))
  end))))).

(** [repo/postgres/control_factor.rs:683-788] `publish_publication_q`: [early] is the registry before the lock was taken, [saw] the one its checks read *)
Definition publish_publication_q (early saw r : Registry) (publication : NewPublication) (event_id : Z) (audit : NewAuditEvent) (now : Time)
    : Result (Registry * PublishOutcome) StorageError :=
  match np_factor_ids publication with
  | [] => Err (SeCodec "control-factor publication must contain at least one factor")
  | _ =>
      match find_publication_by_idempotency_q early (np_idempotency_key publication) with
      | Some existing => Ok (r, PoAlreadyApplied existing)
      | None =>
          match find_publication_by_idempotency_q saw (np_idempotency_key publication) with
          | Some existing => Ok (r, PoAlreadyApplied existing)
          | None =>
              bind_ok (load_members saw (np_factor_ids publication)) (fun factors =>
              match validate_for_activation (publication_for_validation publication) factors with
              | Err _ => Err (SeConflict "publication is not ready for activation")
              | Ok _ => write_publication r publication event_id audit now
              end)
          end
      end
  end.

Fixpoint validate_transitions (factors : list ControlFactorValue) (target : FactorStatus) : Result unit StorageError :=
  match factors with
  | [] => Ok tt
  | f :: rest => match validate_for_transition f target with
                 | Err _ => Err (SeConflict "illegal factor transition")
                 | Ok _ => validate_transitions rest target
                 end
  end.

(** [repo/postgres/control_factor.rs:790-849] `rollback_publication_q` *)
Definition rollback_publication_q (saw r : Registry) (active_publication_id target_publication_id : Z) (event_id : Z)
    (audit : NewAuditEvent) (now : Time) : Result (Registry * AuditedOutcome ControlFactorPublication) StorageError :=
  bind_ok (load_publication_model_q saw target_publication_id) (fun target =>
  let factor_ids := load_publication_factor_ids_q saw target_publication_id in
  let target_factor_status := factor_status_for_mode (pr_mode target) in
  bind_ok (load_members saw factor_ids) (fun factors =>
  bind_ok (validate_transitions factors target_factor_status) (fun _ =>
  bind_ok (update_publications r (fun p => if pr_publication_id p =? active_publication_id then set_publication_status p PsRolledBack else p)) (fun r =>
  bind_ok (update_publications r (fun p => if pr_publication_id p =? target_publication_id then set_publication_status p PsActive else p)) (fun r =>
  let r := set_statuses r factor_ids target_factor_status in
  bind_ok (append_event r event_id audit now) (fun x =>
  match load_publication_info_q x.1 target_publication_id with
  | None => Err (SeNotFound "control_factor_publication" target_publication_id)
  | Some info => Ok (x.1, audited info x.2)
  end)))))).

(** ** The transactions of the repository *)

(** [repo/postgres/control_factor.rs:1103-1113] `create_factor` *)
Definition create_factor (r : Registry) (factor : FactorRow) (event_id : Z) (audit : NewAuditEvent) (now : Time)
    : Result (Registry * FactorRow) StorageError :=
  bind_ok (insert_factor_q r factor) (fun x =>
  bind_ok (append_event x.1 event_id audit now) (fun y => Ok (y.1, x.2))).

(** [repo/postgres/control_factor.rs:1144-1174] `reject_factor` *)
Definition reject_factor (saw r : Registry) (factor_id : Z) (status_reason : string) (event_id : Z) (audit : NewAuditEvent) (now : Time)
    : Result (Registry * option (AuditedOutcome FactorRow)) StorageError :=
  match load_factor_q saw factor_id with
  | None => Ok (r, None)
  | Some row =>
      match validate_for_transition (fr_value row) FRejected with
      | Err _ => Err (SeConflict "illegal factor transition")
      | Ok _ =>
          let r := set_factor_status_q r factor_id FRejected (Some status_reason) in
          bind_ok (append_event r event_id audit now) (fun x =>
          match load_factor_q x.1 factor_id with
          | None => Err (SeNotFound "control_factor_value" factor_id)
          | Some updated => Ok (x.1, Some (audited updated x.2))
          end)
      end
  end.

(** [models/domain/control_factor/persistence.rs:432-437] `AuditActor` *)
Record AuditActor := { aa_actor : string; aa_actor_role : string; aa_request_id : string; aa_reason : string }.

(** [models/domain/control_factor/persistence.rs:441-454] `AuditActor::validate` *)
Definition validate_actor (a : AuditActor) : Result unit GovernanceError :=
  if blank (aa_actor a) then Err (MissingField "actor")
  else if blank (aa_request_id a) then Err (MissingField "request_id")
  else if blank (aa_reason a) then Err MissingReason
  else Ok tt.

Definition expirable (s : FactorStatus) : bool :=
  match s with FCandidate | FShadow | FPublished | FReportOnly => true | _ => false end.

Definition status_name (s : FactorStatus) : string :=
  match s with
  | FDraft => "draft" | FReportOnly => "report_only" | FCandidate => "candidate" | FRejected => "rejected" | FShadow => "shadow"
  | FPublished => "published" | FSuperseded => "superseded" | FExpired => "expired" | FRolledBack => "rolled_back"
  end.

(** [repo/postgres/control_factor.rs:1197-1212] `expire_factors`, the event of one factor *)
Definition expiry_event (actor : AuditActor) (f : ControlFactorValue) : NewAuditEvent := {|
  na_event_type := AeFactorExpired; na_actor := aa_actor actor; na_actor_role := aa_actor_role actor;
  na_resource_type := RtFactor; na_resource_id := pretty (cf_factor_id f); na_request_id := aa_request_id actor;
  na_reason := aa_reason actor; na_before_hash := None; na_after_hash := None;
  na_diff := JObj [("from_status", JStr (status_name (cf_status f))); ("to_status", JStr (status_name FExpired));
                   ("expires_at", JNum (cf_expires_at f))] |}.

(** [repo/postgres/control_factor.rs:1194-1215] `expire_factors`, its loop *)
Fixpoint expire_each (r : Registry) (due : list ControlFactorValue) (event_ids : list Z) (actor : AuditActor) (now : Time)
    : Result (Registry * list Z) StorageError :=
  match due, event_ids with
  | [], _ => Ok (r, [])
  | f :: rest, event_id :: event_ids =>
      let r := set_factor_status_q r (cf_factor_id f) FExpired None in
      bind_ok (append_event r event_id (expiry_event actor f) now) (fun x =>
      bind_ok (expire_each x.1 rest event_ids actor now) (fun y => Ok (y.1, cf_factor_id f :: y.2)))
  | _ :: _, [] => Err (SeDatabase "no event id")
  end.

(** [repo/postgres/control_factor.rs:1176-1218] `expire_factors` *)
Definition expire_factors (saw r : Registry) (event_ids : list Z) (actor : AuditActor) (now : Time) : Result (Registry * list Z) StorageError :=
  let due := List.filter (fun f => (cf_expires_at f <=? now) && expirable (cf_status f)) (fr_value <$> (map_to_list (rg_factors saw)).*2) in
  expire_each r due event_ids actor now.

(** ** What transactions keep *)

(** One transaction at time [now], with what its checks saw; [early] for a publication. *)
Inductive transaction (early saw r : Registry) (now : Time) : Registry -> Prop :=
| tx_create factor event_id audit row r' :
    create_factor r factor event_id audit now = Ok (r', row) -> transaction early saw r now r'
| tx_reject factor_id reason event_id audit o r' :
    reject_factor saw r factor_id reason event_id audit now = Ok (r', o) -> transaction early saw r now r'
| tx_expire event_ids actor ids r' :
    expire_factors saw r event_ids actor now = Ok (r', ids) -> transaction early saw r now r'
| tx_publish publication event_id audit o r' :
    publish_publication_q early saw r publication event_id audit now = Ok (r', o) -> transaction early saw r now r'
| tx_rollback active target event_id audit o r' :
    rollback_publication_q saw r active target event_id audit now = Ok (r', o) -> transaction early saw r now r'
| tx_append event_id audit event r' :
    append_event r event_id audit now = Ok (r', event) -> transaction early saw r now r'.

(** Transactions that ran at times of [clock]: in any interleaving ([serial] is false), a check may
    have seen any registry of the past; serialised, it saw the one the transaction writes to. *)
Inductive reachable (clock : Time -> Prop) (serial : bool) : Registry -> Prop :=
| reachable_empty : reachable clock serial empty_registry
| reachable_step early saw r now r' :
    reachable clock serial early -> reachable clock serial saw -> reachable clock serial r ->
    (serial = true -> saw = r) -> clock now ->
    transaction early saw r now r' -> reachable clock serial r'.

Lemma active_in_true mode p : active_in mode p = true <-> pr_mode p = mode /\ pr_status p = PsActive.
Proof. unfold active_in. by rewrite andb_true_iff, !bool_decide_eq_true. Qed.

Definition unique_active (ps : gmap Z PublicationRow) : Prop :=
  forall i j p q, ps !! i = Some p -> ps !! j = Some q -> pr_status p = PsActive -> pr_status q = PsActive ->
  pr_mode p = pr_mode q -> i = j.

Lemma filter_values_length {A} (P : A -> bool) (l : list (Z * A)) :
  List.filter P (l.*2) = (List.filter (fun kv => P kv.2) l).*2.
Proof. induction l as [|[k a] l IH]; [done|]. rewrite fmap_cons. cbn [List.filter snd]. rewrite IH. by destruct (P a). Qed.

Lemma NoDup_List_filter {A} (P : A -> bool) (l : list A) : NoDup l -> NoDup (List.filter P l).
Proof.
  induction 1 as [|x l Hx _ IH]; simpl; [constructor|]. destruct (P x); [|done]. constructor; [|done].
  rewrite list_elem_of_In, filter_In, <- list_elem_of_In. tauto.
Qed.

Lemma at_most_one {A} (l : list A) : NoDup l -> (forall x y, x ∈ l -> y ∈ l -> x = y) -> (length l <= 1)%nat.
Proof.
  intros Hn H. destruct l as [|x [|y l]]; simpl; [lia..|]. exfalso. apply NoDup_cons in Hn as [Hn _]. apply Hn.
  rewrite (H x y) by set_solver. set_solver.
Qed.

Lemma one_active_spec ps : one_active_per_mode ps = true <-> unique_active ps.
Proof.
  unfold one_active_per_mode. rewrite forallb_forall. split.
  - intros H i j p q Hp Hq Ap Aq Hm.
    assert (Hmode : (length (List.filter (active_in (pr_mode p)) ((map_to_list ps).*2)) <=? 1)%nat = true) by (apply H; simpl; destruct (pr_mode p); auto).
    apply Nat.leb_le in Hmode. rewrite filter_values_length, length_fmap in Hmode.
    set (l := List.filter _ _) in Hmode.
    assert (Hin : forall k row, ps !! k = Some row -> active_in (pr_mode p) row = true -> (k, row) ∈ l).
    { intros k row Hk Ha. apply list_elem_of_In, filter_In. split; [|done]. by apply list_elem_of_In, elem_of_map_to_list. }
    assert (Hi := Hin i p Hp). assert (Hj := Hin j q Hq). rewrite !active_in_true in Hi, Hj.
    specialize (Hi ltac:(auto)). specialize (Hj ltac:(auto)). destruct l as [|a [|b l']]; simpl in Hmode; [set_solver| |lia].
    rewrite list_elem_of_singleton in Hi, Hj. congruence.
  - intros H mode _. apply Nat.leb_le. rewrite filter_values_length, length_fmap. apply at_most_one.
    + apply NoDup_List_filter, NoDup_map_to_list.
    + intros [i p] [j q] Hi Hj. rewrite list_elem_of_In, filter_In, <- list_elem_of_In, elem_of_map_to_list in Hi, Hj. simpl in Hi, Hj.
      rewrite active_in_true in Hi, Hj. destruct Hi as (Hi & Hm & Ha), Hj as (Hj & Hm' & Ha').
      assert (i = j) as -> by (eapply H; eauto; congruence). congruence.
Qed.

(** What holds of every registry. *)
Record registry_ok (clock : Time -> Prop) (r : Registry) : Prop := {
  ok_active : unique_active (rg_publications r);
  ok_factor_keys : forall i row, rg_factors r !! i = Some row -> cf_factor_id (fr_value row) = i;
  ok_publication_keys : forall i p, rg_publications r !! i = Some p -> pr_publication_id p = i;
  ok_members : forall m, m ∈ rg_members r -> is_Some (rg_publications r !! m.1) /\ is_Some (rg_factors r !! m.2);
  ok_audit : exists times, appended (rg_audit r) times /\ Forall clock times
}.

Lemma registry_ok_weaken (clock clock' : Time -> Prop) r : (forall t, clock t -> clock' t) -> registry_ok clock r -> registry_ok clock' r.
Proof. intros H [? ? ? ? (times & ? & Hc)]. split; try done. exists times. split; [done|]. by eapply Forall_impl. Qed.

Definition restatus (status : FactorStatus) (row : FactorRow) : FactorRow := {|
  fr_value := set_status (fr_value row) status; fr_run_id := fr_run_id row; fr_dimensions_hash := fr_dimensions_hash row;
  fr_payload_hash := fr_payload_hash row; fr_status_reason := fr_status_reason row |}.

Lemma set_statuses_lookup r ids status i :
  rg_factors (set_statuses r ids status) !! i = (if bool_decide (i ∈ ids) then restatus status else fun x => x) <$> rg_factors r !! i.
Proof.
  unfold set_statuses. revert r. induction ids as [|id ids IH]; intros r; cbn [foldl].
  - rewrite bool_decide_false by apply not_elem_of_nil. by destruct (rg_factors r !! i).
  - rewrite IH. unfold set_factor_status_q. cbn [rg_factors with_factors]. destruct (decide (i = id)) as [->|Hne].
    + rewrite lookup_alter_eq, (bool_decide_true (id ∈ id :: ids)) by set_solver.
      destruct (rg_factors r !! id); simpl; [|done]. by case_bool_decide.
    + rewrite lookup_alter_ne by done. f_equal. by rewrite (bool_decide_ext (i ∈ id :: ids) (i ∈ ids)) by set_solver.
Qed.

Lemma set_statuses_frame r ids status :
  rg_publications (set_statuses r ids status) = rg_publications r /\ rg_members (set_statuses r ids status) = rg_members r /\
  rg_audit (set_statuses r ids status) = rg_audit r.
Proof. unfold set_statuses. revert r. induction ids as [|id ids IH]; intros r; simpl; [done|]. destruct (IH (set_factor_status_q r id status None)) as (-> & -> & ->). done. Qed.

(** Take a successful sequence of statements apart. *)
Ltac unbind H :=
  match type of H with
  | bind_ok ?x _ = Ok _ => let E := fresh "E" in destruct x eqn:E; cbn [bind_ok] in H; [|discriminate H]
  end.

Lemma append_event_ok r event_id audit now r' event : append_event r event_id audit now = Ok (r', event) ->
  append_audit_event_chained_q (rg_audit r) event_id audit now = Ok (rg_audit r', event) /\ r' = with_audit r (rg_audit r').
Proof. unfold append_event. intros H. unbind H. destruct a as [a e]. by injection H as <- <-. Qed.

Lemma update_publications_ok r change r' : update_publications r change = Ok r' ->
  r' = with_publications r (change <$> rg_publications r) /\ unique_active (change <$> rg_publications r).
Proof. unfold update_publications. destruct (one_active_per_mode _) eqn:E; [|done]. apply one_active_spec in E. by intros [= <-]. Qed.

Lemma insert_publication_ok r p r' : insert_publication r p = Ok r' ->
  r' = with_publications r (<[pr_publication_id p := p]> (rg_publications r)) /\ rg_publications r !! pr_publication_id p = None.
Proof. unfold insert_publication. destruct (_ !! _); [done|]. case_bool_decide; [done|]. by intros [= <-]. Qed.

Lemma insert_members_ok r id ids r' : insert_members r id ids = Ok r' ->
  r' = with_members r (rg_members r ++ ((fun f => (id, f)) <$> ids)) /\ NoDup ids /\ forall f, f ∈ ids -> is_Some (rg_factors r !! f).
Proof.
  unfold insert_members. destruct (bool_decide (NoDup ids)) eqn:En; [|done]. destruct (forallb _ ids) eqn:Ef; [|done]. simpl.
  destruct (forallb _ ids) in |- *; [|done]. intros [= <-]. apply bool_decide_eq_true in En. repeat split; [done|].
  intros f Hf. rewrite forallb_forall in Ef. by apply list_elem_of_In, Ef, bool_decide_eq_true in Hf.
Qed.

Definition supersede (mode : PublicationMode) (p : PublicationRow) : PublicationRow :=
  if active_in mode p then set_publication_status p PsSuperseded else p.
Definition mark (id : Z) (status : PublicationStatus) (p : PublicationRow) : PublicationRow :=
  if pr_publication_id p =? id then set_publication_status p status else p.

(** What a new publication writes. *)
Record published (r : Registry) (p : NewPublication) (event_id : Z) (audit : NewAuditEvent) (now : Time) (r' : Registry)
    (o : PublishOutcome) : Prop := {
  pb_fresh : rg_publications r !! np_publication_id p = None;
  pb_distinct : NoDup (np_factor_ids p);
  pb_exist : forall f, f ∈ np_factor_ids p -> is_Some (rg_factors r !! f);
  pb_publications : rg_publications r' = mark (np_publication_id p) PsActive <$> (supersede (np_mode p) <$>
    <[np_publication_id p := publication_row p PsPending]> (rg_publications r));
  pb_unique : unique_active (rg_publications r');
  pb_members : rg_members r' = rg_members r ++ ((fun f => (np_publication_id p, f)) <$> np_factor_ids p);
  pb_factors : forall i, rg_factors r' !! i =
    (if bool_decide (i ∈ np_factor_ids p) then restatus (factor_status_for_mode (np_mode p)) else fun x => x) <$> rg_factors r !! i;
  pb_audit : exists event, append_audit_event_chained_q (rg_audit r) event_id audit now = Ok (rg_audit r', event) /\
    exists info, load_publication_info_q r' (np_publication_id p) = Some info /\ o = PoPublished (audited info event)
}.

Lemma write_publication_ok r p event_id audit now r' o :
  write_publication r p event_id audit now = Ok (r', o) -> published r p event_id audit now r' o.
Proof.
  unfold write_publication. intros H. do 4 unbind H.
  apply insert_publication_ok in E as [-> Hf]. apply insert_members_ok in E0 as (-> & Hn & He).
  apply update_publications_ok in E1 as [-> _]. apply update_publications_ok in E2 as [-> Hu]. simpl in Hf.
  match type of H with context [set_statuses ?x ?ids ?st] => set (r1 := x) in H; destruct (set_statuses_frame r1 ids st) as (Ep & Em & Ea);
    assert (El := set_statuses_lookup r1 ids st) end.
  unbind H. destruct a as [r2 event]. apply append_event_ok in E as [Hap Hr2]. cbn [fst snd] in H.
  destruct (load_publication_info_q r2 (np_publication_id p)) as [info|] eqn:Ei; [|discriminate H]. injection H as <- <-.
  assert (Fp : rg_publications r2 = rg_publications r1) by (rewrite Hr2; exact Ep).
  assert (Fm : rg_members r2 = rg_members r1) by (rewrite Hr2; exact Em).
  assert (Ff : rg_factors r2 = rg_factors (set_statuses r1 (np_factor_ids p) (factor_status_for_mode (np_mode p))))
    by (rewrite Hr2; reflexivity).
  rewrite Ea in Hap. split; try done; [by rewrite Fp..| |].
  - intros i. rewrite Ff. apply El.
  - exists event. split; [done|]. by exists info.
Qed.

(** What a rollback writes. *)
Record rolled_back (saw r : Registry) (active target event_id : Z) (audit : NewAuditEvent) (now : Time) (r' : Registry)
    (o : AuditedOutcome ControlFactorPublication) : Prop := {
  rb_target : exists t, rg_publications saw !! target = Some t /\
    (forall i, rg_factors r' !! i = (if bool_decide (i ∈ load_publication_factor_ids_q saw target)
                                     then restatus (factor_status_for_mode (pr_mode t)) else fun x => x) <$> rg_factors r !! i) /\
    exists fs, load_members saw (load_publication_factor_ids_q saw target) = Ok fs /\
               validate_transitions fs (factor_status_for_mode (pr_mode t)) = Ok tt;
  rb_publications : rg_publications r' = mark target PsActive <$> (mark active PsRolledBack <$> rg_publications r);
  rb_unique : unique_active (rg_publications r');
  rb_members : rg_members r' = rg_members r;
  rb_audit : exists event, append_audit_event_chained_q (rg_audit r) event_id audit now = Ok (rg_audit r', event) /\
    exists info, load_publication_info_q r' target = Some info /\ o = audited info event
}.

Lemma rollback_publication_ok saw r active target event_id audit now r' o :
  rollback_publication_q saw r active target event_id audit now = Ok (r', o) -> rolled_back saw r active target event_id audit now r' o.
Proof.
  unfold rollback_publication_q. intros H. unbind H. rename E into Et. unbind H. rename E into El. unbind H. rename E into Ev.
  do 2 unbind H. apply update_publications_ok in E as [-> _]. apply update_publications_ok in E0 as [-> Hu].
  match type of H with context [set_statuses ?x ?ids ?st] => set (r1 := x) in H; destruct (set_statuses_frame r1 ids st) as (Ep & Em & Ea);
    assert (Els := set_statuses_lookup r1 ids st) end.
  unbind H. destruct a2 as [r2 event]. apply append_event_ok in E as [Hap Hr2]. cbn [fst snd] in H.
  destruct (load_publication_info_q r2 target) as [info|] eqn:Ei; [|discriminate H]. injection H as <- <-.
  assert (Fp : rg_publications r2 = rg_publications r1) by (rewrite Hr2; exact Ep).
  assert (Fm : rg_members r2 = rg_members r1) by (rewrite Hr2; exact Em).
  rewrite Ea in Hap. unfold load_publication_model_q, ok_or in Et. destruct (rg_publications saw !! target) as [t|] eqn:Es; [|done]. injection Et as ->.
  split; [|by rewrite Fp|by rewrite Fp|exact Fm|].
  - exists a. split; [exact Es|]. split; [intros i; rewrite Hr2; apply Els|]. exists a0. split; [done|]. by destruct a1.
  - exists event. split; [done|]. by exists info.
Qed.

Lemma validate_transitions_ok fs target : validate_transitions fs target = Ok tt -> Forall (fun f => validate_for_transition f target = Ok tt) fs.
Proof.
  induction fs as [|f fs IH]; simpl; [done|]. destruct (validate_for_transition f target) as [[]|] eqn:E; [|done]. intros H. constructor; auto.
Qed.

Lemma load_members_ok r ids fs : load_members r ids = Ok fs -> forall id, id ∈ ids -> exists row, rg_factors r !! id = Some row /\ fr_value row ∈ fs.
Proof.
  revert fs. induction ids as [|i ids IH]; intros fs; cbn [load_members]; [by intros _ ? ?%elem_of_nil|].
  unfold load_factor_q. destruct (rg_factors r !! i) as [row|] eqn:E; [|done]. intros H. unbind H. injection H as <-.
  intros id [->|Hin]%elem_of_cons; [exists row; set_solver|]. destruct (IH _ eq_refl id Hin) as (x & ? & ?). exists x. set_solver.
Qed.

Lemma expire_each_ok r due event_ids actor now r' ids : expire_each r due event_ids actor now = Ok (r', ids) ->
  rg_publications r' = rg_publications r /\ rg_members r' = rg_members r /\
  (forall i, rg_factors r' !! i = (if bool_decide (i ∈ cf_factor_id <$> due) then restatus FExpired else fun x => x) <$> rg_factors r !! i) /\
  (forall (clock : Time -> Prop) times, appended (rg_audit r) times -> Forall clock times -> clock now ->
     exists times', appended (rg_audit r') times' /\ Forall clock times').
Proof.
  revert r event_ids ids. induction due as [|f due IH]; intros r event_ids ids; cbn [expire_each].
  - intros [= <- <-]. repeat split; [|eauto]. intros i. rewrite bool_decide_false by apply not_elem_of_nil. by destruct (_ !! i).
  - destruct event_ids as [|e event_ids]; [done|]. intros H. unbind H. destruct a as [r1 event]. cbn [fst] in H. unbind H. destruct a as [r2 l].
    injection H as <- <-. apply append_event_ok in E as [Hap Hr1]. apply IH in E0 as (Ep & Em & Ef & Ea).
    rewrite Ep, Em, Hr1. split; [done|]. split; [done|]. split.
    + intros i. rewrite Ef, Hr1. unfold set_factor_status_q. cbn [rg_factors with_factors with_audit]. rewrite fmap_cons.
      destruct (decide (i = cf_factor_id f)) as [->|Hne].
      * rewrite lookup_alter_eq, (bool_decide_true (cf_factor_id f ∈ cf_factor_id f :: _)) by set_solver.
        destruct (rg_factors r !! _); simpl; [|done]. by case_bool_decide.
      * rewrite lookup_alter_ne by done. f_equal.
        by rewrite (bool_decide_ext (i ∈ cf_factor_id f :: (cf_factor_id <$> due)) (i ∈ cf_factor_id <$> due)) by set_solver.
    + intros clock times Ht Hc Hn. destruct (appended_extend clock _ _ _ _ _ _ _ Ht Hc Hn Hap) as (t1 & Ht1 & Hc1). by apply (Ea clock t1).
Qed.

(** Changing statuses keeps the keys and the members. *)
Lemma keys_restatus clock r r' (change : Z -> bool) status :
  registry_ok clock r -> rg_publications r' = rg_publications r -> rg_members r' = rg_members r ->
  (forall i, rg_factors r' !! i = (if change i then restatus status else fun x => x) <$> rg_factors r !! i) ->
  (exists times, appended (rg_audit r') times /\ Forall clock times) -> registry_ok clock r'.
Proof.
  intros [Ha Hf Hp Hm _] Ep Em Ef Hau. split; [by rewrite Ep| |by rewrite Ep| |done].
  - intros i row Hi. rewrite Ef in Hi. destruct (rg_factors r !! i) as [x|] eqn:Ex; [|done]. injection Hi as <-.
    transitivity (cf_factor_id (fr_value x)); [by destruct (change i)|by apply Hf].
  - rewrite Ep, Em. intros m Hin. destruct (Hm m Hin) as [? [x Hx]]. split; [done|]. rewrite Ef, Hx. by eexists.
Qed.

Lemma restatus_exists (change : Z -> bool) status r r' i :
  (forall i, rg_factors r' !! i = (if change i then restatus status else fun x => x) <$> rg_factors r !! i) ->
  is_Some (rg_factors r !! i) -> is_Some (rg_factors r' !! i).
Proof. intros -> [x ->]. by eexists. Qed.

Lemma mark_id id status p : pr_publication_id (mark id status p) = pr_publication_id p.
Proof. unfold mark. by destruct (_ =? _). Qed.
Lemma supersede_id mode p : pr_publication_id (supersede mode p) = pr_publication_id p.
Proof. unfold supersede. by destruct (active_in mode p). Qed.

Lemma published_ok clock r p event_id audit now r' o :
  registry_ok clock r -> clock now -> published r p event_id audit now r' o -> registry_ok clock r'.
Proof.
  intros [Ha Hf Hp Hm (times & Ht & Hc)] Hn [Fr Nd Ex Ep Eu Em Ef (event & Hap & _)].
  assert (Hpub : forall i, is_Some (rg_publications r !! i) \/ i = np_publication_id p -> is_Some (rg_publications r' !! i)).
  { intros i Hi. rewrite Ep, !lookup_fmap. destruct (decide (i = np_publication_id p)) as [->|]; [rewrite lookup_insert_eq; by eexists|].
    rewrite lookup_insert_ne by done. destruct Hi as [[x ->]|]; [by eexists|done]. }
  split; [done| | | |by apply (appended_extend clock _ times _ _ _ _ _ Ht Hc Hn Hap)].
  - intros i row Hi. rewrite Ef in Hi. destruct (rg_factors r !! i) as [x|] eqn:Ex'; [|done]. injection Hi as <-.
    transitivity (cf_factor_id (fr_value x)); [by case_bool_decide|by apply Hf].
  - intros i q Hi. rewrite Ep, !lookup_fmap in Hi. destruct (decide (i = np_publication_id p)) as [->|Hne].
    + rewrite lookup_insert_eq in Hi. injection Hi as <-. by rewrite mark_id, supersede_id.
    + rewrite lookup_insert_ne in Hi by done. destruct (rg_publications r !! i) as [x|] eqn:Ex'; [|done]. injection Hi as <-.
      rewrite mark_id, supersede_id. by apply Hp.
  - rewrite Em. intros m [Hin|(f & -> & Hin)%list_elem_of_fmap]%elem_of_app.
    + destruct (Hm m Hin). split; [by apply Hpub; left|by apply (restatus_exists (fun i => bool_decide (i ∈ _)) _ _ _ _ Ef)].
    + split; [by apply Hpub; right|]. apply (restatus_exists (fun i => bool_decide (i ∈ _)) _ _ _ _ Ef). by apply Ex.
Qed.

Lemma rolled_back_ok clock saw r active target event_id audit now r' o :
  registry_ok clock r -> clock now -> rolled_back saw r active target event_id audit now r' o -> registry_ok clock r'.
Proof.
  intros [Ha Hf Hp Hm (times & Ht & Hc)] Hn [(t & Et & Ef & _) Ep Eu Em (event & Hap & _)].
  split; [done| | | |by apply (appended_extend clock _ times _ _ _ _ _ Ht Hc Hn Hap)].
  - intros i row Hi. rewrite Ef in Hi. destruct (rg_factors r !! i) as [x|] eqn:Ex'; [|done]. injection Hi as <-.
    transitivity (cf_factor_id (fr_value x)); [by case_bool_decide|by apply Hf].
  - intros i q Hi. rewrite Ep, !lookup_fmap in Hi. destruct (rg_publications r !! i) as [x|] eqn:Ex'; [|done]. injection Hi as <-.
    rewrite !mark_id. by apply Hp.
  - rewrite Em. intros m Hin. destruct (Hm m Hin) as [[x Hx] ?]. split; [|by apply (restatus_exists (fun i => bool_decide (i ∈ _)) _ _ _ _ Ef)].
    rewrite Ep, !lookup_fmap, Hx. by eexists.
Qed.

(** The outcome of a publication: nothing changed, or the writes above. *)
Lemma publish_cases early saw r p event_id audit now r' o :
  publish_publication_q early saw r p event_id audit now = Ok (r', o) ->
  (r' = r /\ exists seen info, (seen = early \/ seen = saw) /\ find_publication_by_idempotency_q seen (np_idempotency_key p) = Some info /\
                              o = PoAlreadyApplied info) \/
  (published r p event_id audit now r' o /\ exists fs, load_members saw (np_factor_ids p) = Ok fs /\
     validate_for_activation (publication_for_validation p) fs = Ok tt).
Proof.
  unfold publish_publication_q. destruct (np_factor_ids p) as [|i ids] eqn:Ei; [done|]. rewrite <- Ei.
  destruct (find_publication_by_idempotency_q early _) as [x|] eqn:E1; [intros [= <- <-]; left; split; [done|]; exists early, x; auto|].
  destruct (find_publication_by_idempotency_q saw _) as [x|] eqn:E2; [intros [= <- <-]; left; split; [done|]; exists saw, x; auto|].
  intros H. unbind H. destruct (validate_for_activation _ _) as [[]|] eqn:Ev; [|done]. apply write_publication_ok in H.
  right. split; [done|]. by exists a.
Qed.

Lemma transaction_ok clock early saw r now r' :
  registry_ok clock r -> clock now -> transaction early saw r now r' -> registry_ok clock r'.
Proof.
  intros Hr Hn H. pose proof Hr as [Ha Hf Hp Hm (times & Ht & Hc)]. destruct H as [? ? ? ? ? H|? ? ? ? ? ? H|? ? ? ? H|? ? ? ? ? H|? ? ? ? ? ? H|? ? ? ? H].
  - unfold create_factor in H. unbind H. destruct a as [r1 row1]. unbind H. destruct a as [r2 event]. injection H as <- <-. cbn [fst] in *.
    apply append_event_ok in E0 as [Hap Hr2]. unfold insert_factor_q in E. destruct (rg_factors r !! _) eqn:Ei; [done|].
    destruct (existsb _ _); [done|]. injection E as <- <-. rewrite Hr2. cbn [rg_audit with_factors] in Hap. split; cbn; [done| |done| |].
    + intros i x Hi. destruct (decide (i = cf_factor_id (fr_value factor))) as [->|Hne]; [rewrite lookup_insert_eq in Hi; by injection Hi as <-|].
      rewrite lookup_insert_ne in Hi by done. by apply Hf.
    + intros m Hin. destruct (Hm m Hin) as [? ?]. split; [done|]. destruct (decide (m.2 = cf_factor_id (fr_value factor))) as [->|Hne];
        [rewrite lookup_insert_eq; by eexists|by rewrite lookup_insert_ne].
    + by apply (appended_extend clock _ times _ _ _ _ _ Ht Hc Hn Hap).
  - unfold reject_factor in H. destruct (load_factor_q saw factor_id); [|by injection H as <- <-].
    destruct (validate_for_transition _ _); [|done]. unbind H. match goal with E : append_event _ _ _ _ = Ok ?x |- _ => destruct x as [r1 event] end.
    cbn [fst snd] in H. destruct (load_factor_q r1 factor_id); [|done]. injection H as <- <-. apply append_event_ok in E as [Hap Hr1]. rewrite Hr1.
    split; cbn; [done| |done| |by apply (appended_extend clock _ times _ _ _ _ _ Ht Hc Hn Hap)].
    + intros i x Hi. rewrite lookup_alter_Some in Hi. destruct Hi as [(<- & y & Hy & ->)|[_ Hi]]; [cbn; by apply (Hf _ _ Hy)|by apply Hf].
    + intros m Hin. destruct (Hm m Hin) as [? ?]. split; [done|]. rewrite lookup_alter_is_Some; done.
  - apply expire_each_ok in H as (Ep & Em & Ef & Ea). apply (keys_restatus clock r _ (fun i => bool_decide (i ∈ _)) FExpired Hr Ep Em Ef). by apply (Ea clock times).
  - apply publish_cases in H as [(-> & _)|[H _]]; [done|]. by eapply published_ok.
  - apply rollback_publication_ok in H. by eapply rolled_back_ok.
  - apply append_event_ok in H as [Hap Hr1]. rewrite Hr1. split; cbn; try done. by apply (appended_extend clock _ times _ _ _ _ _ Ht Hc Hn Hap).
Qed.

Lemma reachable_ok clock serial r : reachable clock serial r -> registry_ok clock r.
Proof.
  induction 1 as [|early saw r now r' _ _ _ _ _ IH _ Hn H]; [|by eapply transaction_ok].
  split; cbn; [by intros i j p q Hi; rewrite lookup_empty in Hi|by intros i x Hi; rewrite lookup_empty in Hi..|by intros m ?%elem_of_nil|].
  exists []. by split; [constructor|].
Qed.

(** ** Reading the active publication *)

Lemma find_active r mode id p : unique_active (rg_publications r) -> rg_publications r !! id = Some p -> active_in mode p = true ->
  find_publication r (active_in mode) = Some p.
Proof.
  intros Hu Hp Ha. unfold find_publication. destruct (List.find _ _) as [q|] eqn:Ef.
  - apply find_some in Ef as [Hin Hq]. apply list_elem_of_In, list_elem_of_fmap in Hin as ([j q'] & -> & Hj%elem_of_map_to_list). simpl in *.
    rewrite active_in_true in Ha, Hq. destruct Ha, Hq. assert (id = j) as -> by (eapply Hu; eauto; congruence). congruence.
  - assert (Hin : p ∈ (map_to_list (rg_publications r)).*2) by (apply list_elem_of_fmap; exists (id, p); split; [done|by apply elem_of_map_to_list]).
    apply List.find_none with (x := p) in Ef; [congruence|by apply list_elem_of_In].
Qed.

Lemma find_active_some r mode p : find_publication r (active_in mode) = Some p ->
  exists id, rg_publications r !! id = Some p /\ pr_mode p = mode /\ pr_status p = PsActive.
Proof.
  unfold find_publication. intros [Hin Hq]%find_some. apply list_elem_of_In, list_elem_of_fmap in Hin as ([j q'] & -> & Hj%elem_of_map_to_list).
  apply active_in_true in Hq as [? ?]. by exists j.
Qed.

Lemma omap_step {A B} (f : A -> option B) x l : omap f (x :: l) = match f x with Some y => y :: omap f l | None => omap f l end.
Proof. done. Qed.

Lemma new_member_ids (ms : list (Z * Z)) id ids : (forall m, m ∈ ms -> m.1 <> id) ->
  omap (fun m => if m.1 =? id then Some m.2 else None) (ms ++ ((fun f => (id, f)) <$> ids)) = ids.
Proof.
  intros H. rewrite omap_app. assert (omap (fun m => if m.1 =? id then Some m.2 else None) ms = []) as ->.
  { induction ms as [|m ms IH]; [done|]. rewrite omap_step. cbn beta. destruct (Z.eqb_spec m.1 id) as [E|]; [by destruct (H m); set_solver|]. apply IH. set_solver. }
  simpl. induction ids as [|i ids IH]; [done|]. rewrite fmap_cons, omap_step. cbn [fst snd]. rewrite Z.eqb_refl. by f_equal.
Qed.

Lemma old_member_ids (ms : list (Z * Z)) id id' ids : id <> id' ->
  omap (fun m => if m.1 =? id' then Some m.2 else None) (ms ++ ((fun f => (id, f)) <$> ids)) =
  omap (fun m => if m.1 =? id' then Some m.2 else None) ms.
Proof.
  intros H. rewrite omap_app. rewrite <- (app_nil_r (omap _ ms)) at 2. f_equal.
  induction ids as [|i ids IH]; [done|]. rewrite fmap_cons, omap_step. cbn [fst]. destruct (Z.eqb_spec id id'); [done|]. apply IH.
Qed.

Lemma published_row clock r p event_id audit now r' o : registry_ok clock r -> published r p event_id audit now r' o ->
  rg_publications r' !! np_publication_id p = Some (publication_row p PsActive) /\
  load_publication_factor_ids_q r' (np_publication_id p) = np_factor_ids p.
Proof.
  intros Hr [Fr _ _ Ep _ Em _ _]. split.
  - rewrite Ep, !lookup_fmap, lookup_insert_eq. simpl. unfold supersede, active_in. simpl. rewrite andb_false_r.
    unfold mark. simpl. by rewrite Z.eqb_refl.
  - unfold load_publication_factor_ids_q. rewrite Em. apply new_member_ids. intros m Hin Hm.
    destruct (ok_members _ _ Hr m Hin) as [[x Hx] _]. congruence.
Qed.

Lemma published_other clock r p event_id audit now r' o i q : registry_ok clock r -> published r p event_id audit now r' o ->
  rg_publications r !! i = Some q -> rg_publications r' !! i = Some (supersede (np_mode p) q).
Proof.
  intros Hr [Fr _ _ Ep _ _ _ _] Hi. rewrite Ep, !lookup_fmap. rewrite lookup_insert_ne by (intros E; congruence). rewrite Hi. simpl.
  unfold mark. rewrite supersede_id, (ok_publication_keys _ _ Hr _ _ Hi). destruct (Z.eqb_spec i (np_publication_id p)); [congruence|done].
Qed.

Lemma publication_effect clock serial early saw r p event_id audit now r' o :
  reachable clock serial r -> publish_publication_q early saw r p event_id audit now = Ok (r', PoPublished o) ->
  load_active_publication_q r' (np_mode p) = Some (ao_value o) /\
  cp_publication_id (ao_value o) = np_publication_id p /\ cp_factor_ids (ao_value o) = np_factor_ids p /\
  (forall mode, mode <> np_mode p -> load_active_publication_q r' mode = load_active_publication_q r mode) /\
  (forall i q, rg_publications r !! i = Some q -> active_in (np_mode p) q = true ->
     rg_publications r' !! i = Some (set_publication_status q PsSuperseded)) /\
  (forall i row, rg_factors r !! i = Some row -> exists row', rg_factors r' !! i = Some row' /\
     row' = if bool_decide (i ∈ np_factor_ids p) then restatus (factor_status_for_mode (np_mode p)) row else row) /\
  exists event, event ∈ rg_audit r' /\ ae_request_id event = na_request_id audit /\ ae_sequence event = ao_audit_sequence o.
Proof.
  intros Hr%reachable_ok H. apply publish_cases in H as [(_ & ? & ? & _ & _ & [=])|[H _]].
  destruct (published_row _ _ _ _ _ _ _ _ Hr H) as [Hrow Hids]. pose proof H as [Fr _ _ _ Eu Em Ef (event & Hap & info & Hi & [= ->])].
  unfold load_publication_info_q in Hi. rewrite Hrow in Hi. injection Hi as <-. cbn [audited ao_value ao_audit_sequence].
  assert (Hact : find_publication r' (active_in (np_mode p)) = Some (publication_row p PsActive)).
  { apply (find_active _ _ _ _ Eu Hrow). by apply active_in_true. }
  unfold load_active_publication_q. rewrite Hact. split; [done|]. split; [done|]. split; [exact Hids|]. split.
  { intros mode Hm. destruct (find_publication r (active_in mode)) as [q|] eqn:Eq.
    - destruct (find_active_some _ _ _ Eq) as (id & Hq & Hqm & Hqs). assert (Hq' := published_other _ _ _ _ _ _ _ _ _ _ Hr H Hq).
      assert (supersede (np_mode p) q = q) as E.
      { unfold supersede. destruct (active_in (np_mode p) q) eqn:Ea; [|done]. apply active_in_true in Ea as [? _]. congruence. }
      rewrite E in Hq'. rewrite (find_active _ mode _ _ Eu Hq') by by apply active_in_true. simpl. f_equal.
      unfold enrich_publication_q. f_equal. unfold load_publication_factor_ids_q. rewrite Em. apply old_member_ids.
      rewrite (ok_publication_keys _ _ Hr _ _ Hq). congruence.
    - destruct (find_publication r' (active_in mode)) as [q|] eqn:Eq'; [|done]. exfalso.
      destruct (find_active_some _ _ _ Eq') as (id & Hq & Hqm & Hqs).
      destruct (decide (id = np_publication_id p)) as [->|Hne]; [rewrite Hrow in Hq; injection Hq as <-; by apply Hm|].
      destruct (rg_publications r !! id) as [x|] eqn:Ex.
      + rewrite (published_other _ _ _ _ _ _ _ _ _ _ Hr H Ex) in Hq. injection Hq as <-. unfold supersede in Hqm, Hqs.
        destruct (active_in (np_mode p) x) eqn:Ea; [done|].
        rewrite (find_active _ mode _ _ (ok_active _ _ Hr) Ex) in Eq; [done|by apply active_in_true].
      + rewrite (pb_publications _ _ _ _ _ _ _ H), !lookup_fmap, lookup_insert_ne, Ex in Hq by done. done. }
  split; [|split].
  - intros i q Hq Ha. rewrite (published_other _ _ _ _ _ _ _ _ _ _ Hr H Hq). unfold supersede. by rewrite Ha.
  - intros i row Hi. rewrite Ef, Hi. eexists. split; [done|]. by case_bool_decide.
  - exists event. split; [by eapply append_logged|]. split; [|done]. by eapply append_logged.
Qed.

(** A publication that went through is the one served in its mode from then on, with exactly the
    requested members, all of them at the status of the mode; the publication it replaces is
    superseded; the other mode and every other factor are as before; and the audit chain holds an
    event for the request. *)
Theorem publication_takes_effect clock serial early saw r p event_id audit now r' o :
  reachable clock serial r -> publish_publication_q early saw r p event_id audit now = Ok (r', PoPublished o) ->
  load_active_publication_q r' (np_mode p) = Some (ao_value o) /\
  cp_publication_id (ao_value o) = np_publication_id p /\ cp_factor_ids (ao_value o) = np_factor_ids p /\
  (forall mode, mode <> np_mode p -> load_active_publication_q r' mode = load_active_publication_q r mode) /\
  (forall i q, rg_publications r !! i = Some q -> active_in (np_mode p) q = true ->
     rg_publications r' !! i = Some (set_publication_status q PsSuperseded)) /\
  (forall i row, rg_factors r !! i = Some row -> exists row', rg_factors r' !! i = Some row' /\
     row' = if bool_decide (i ∈ np_factor_ids p) then restatus (factor_status_for_mode (np_mode p)) row else row) /\
  exists event, event ∈ rg_audit r' /\ ae_request_id event = na_request_id audit /\ ae_sequence event = ao_audit_sequence o.
Proof. apply publication_effect. Qed.

(** C16: However transactions interleave, each mode has at most one active publication, the members of
    every publication are stored, no request is logged twice, and the audit chain verifies on every
    page when the clock readings fit the column. *)
Theorem registry_invariant clock serial r :
  reachable clock serial r ->
  unique_active (rg_publications r) /\
  (forall m, m ∈ rg_members r -> is_Some (rg_publications r !! m.1) /\ is_Some (rg_factors r !! m.2)) /\
  (forall a b, a ∈ rg_audit r -> b ∈ rg_audit r -> same_request a b -> a = b) /\
  ((forall now, clock now -> column_time now = now) ->
   forall from limit, verify (load_audit_chain_q (rg_audit r) from limit) = Ok tt).
Proof.
  intros [Ha _ _ Hm (times & Ht & Hc)]%reachable_ok. split; [done|]. split; [done|]. split; [by apply (requests_unique _ _ Ht)|].
  intros Hex from limit. apply (chain_verifies _ times _ _ Ht). by eapply Forall_impl.
Qed.

(** ** Serialised transactions and the life of a factor *)

Definition status_of (r : Registry) (i : Z) : option FactorStatus := (fun row => cf_status (fr_value row)) <$> rg_factors r !! i.

(** The content of a factor without its status. *)
Definition content_of_factor (r : Registry) (i : Z) := (fun row => set_status (fr_value row) FDraft) <$> rg_factors r !! i.

Lemma restatus_content status row : set_status (fr_value (restatus status row)) FDraft = set_status (fr_value row) FDraft.
Proof. done. Qed.

(** What a serialised transaction may do to a stored factor. *)
Definition moved (row row' : FactorRow) : Prop :=
  set_status (fr_value row') FDraft = set_status (fr_value row) FDraft /\
  can_transition (cf_status (fr_value row)) (cf_status (fr_value row')) = true.

Lemma can_stay s : can_transition s s = true.
Proof. unfold can_transition. by rewrite bool_decide_true. Qed.

Lemma moved_refl row : moved row row.
Proof. split; [done|apply can_stay]. Qed.

Lemma moved_restatus r r' (change : Z -> bool) status :
  (forall i, rg_factors r' !! i = (if change i then restatus status else fun x => x) <$> rg_factors r !! i) ->
  (forall i row, change i = true -> rg_factors r !! i = Some row -> can_transition (cf_status (fr_value row)) status = true) ->
  forall i row, rg_factors r !! i = Some row -> exists row', rg_factors r' !! i = Some row' /\ moved row row'.
Proof.
  intros Hl Hc i row Hi. rewrite Hl, Hi. eexists. split; [done|]. destruct (change i) eqn:E; [|apply moved_refl].
  split; [done|]. by apply (Hc i).
Qed.

Lemma validated_moves f target : validate_for_transition f target = Ok tt -> can_transition (cf_status f) target = true.
Proof. intros H. by apply validate_for_transition_ok in H as (? & _). Qed.

Lemma members_move r ids fs status : load_members r ids = Ok fs -> Forall (fun f => validate_for_transition f status = Ok tt) fs ->
  forall i row, bool_decide (i ∈ ids) = true -> rg_factors r !! i = Some row -> can_transition (cf_status (fr_value row)) status = true.
Proof.
  intros Hl Hf i row Hin%bool_decide_eq_true Hi. destruct (load_members_ok _ _ _ Hl i Hin) as (x & Hx & Hxf).
  rewrite Hi in Hx. injection Hx as <-. apply validated_moves. by apply (proj1 (Forall_forall _ _) Hf).
Qed.

Lemma activation_validates p fs : validate_for_activation p fs = Ok tt ->
  Forall (fun f => validate_for_transition f (target_factor_status p) = Ok tt) fs.
Proof.
  unfold validate_for_activation. destruct (cp_factor_ids p); [done|]. destruct (_ <=? _); [done|]. destruct (negb _); [done|].
  induction fs as [|f fs IH]; [constructor|]. cbn [validate_members]. rewrite and_then_ok. intros [Hm H]. constructor; [|auto].
  unfold validate_member in Hm. destruct (negb _); [done|]. destruct (negb _); [done|]. destruct (validate_for_transition _ _) as [[]|]; done.
Qed.

(** Serialised transactions only move factors along the lifecycle: whatever a committed transaction
    does to a stored factor, its content stays the same and its status follows an edge of the
    diagram. *)
Theorem serialised_factors_follow_lifecycle clock r now early r' i row :
  reachable clock true r -> transaction early r r now r' -> rg_factors r !! i = Some row ->
  exists row', rg_factors r' !! i = Some row' /\ moved row row'.
Proof.
  intros Hr%reachable_ok H Hi. destruct H as [? ? ? ? ? H|? ? ? ? ? ? H|? ? ? ? H|? ? ? ? ? H|? ? ? ? ? ? H|? ? ? ? H].
  - unfold create_factor in H. unbind H. destruct a as [r1 row1]. unbind H. destruct a as [r2 event]. injection H as <- <-. cbn [fst] in *.
    apply append_event_ok in E0 as [_ Hr2]. unfold insert_factor_q in E. destruct (rg_factors r !! cf_factor_id _) eqn:Ei; [done|].
    destruct (existsb _ _); [done|]. injection E as <- <-. exists row. split; [|apply moved_refl]. rewrite Hr2. cbn.
    rewrite lookup_insert_ne; [done|congruence].
  - unfold reject_factor, load_factor_q in H. destruct (rg_factors r !! factor_id) as [x|] eqn:Ex; [|injection H as <- <-; exists row; split; [done|apply moved_refl]].
    destruct (validate_for_transition _ _) as [[]|] eqn:Ev; [|done]. unbind H. match goal with E : append_event _ _ _ _ = Ok ?x |- _ => destruct x as [r1 event] end.
    cbn [fst snd] in H. destruct (rg_factors r1 !! factor_id); [|done]. injection H as <- <-. apply append_event_ok in E as [_ Hr1].
    rewrite Hr1. cbn. destruct (decide (i = factor_id)) as [->|Hne].
    + rewrite lookup_alter_eq, Hi. eexists. split; [done|]. split; [done|]. rewrite Hi in Ex. injection Ex as <-. by apply validated_moves.
    + rewrite lookup_alter_ne by done. exists row. split; [done|apply moved_refl].
  - apply expire_each_ok in H as (_ & _ & Ef & _). apply (moved_restatus _ _ (fun i => bool_decide (i ∈ _)) _ Ef); [|done].
    intros j x Hj%bool_decide_eq_true Hx. apply list_elem_of_fmap in Hj as (f & -> & Hf). rewrite list_elem_of_In, filter_In, <- list_elem_of_In in Hf.
    destruct Hf as [Hf [_ He]%andb_prop]. apply list_elem_of_fmap in Hf as (y & -> & Hy). apply list_elem_of_fmap in Hy as ([k y'] & -> & Hy%elem_of_map_to_list).
    simpl in *. rewrite (ok_factor_keys _ _ Hr _ _ Hy) in Hx. rewrite Hx in Hy. injection Hy as ->. by destruct (cf_status (fr_value y')).
  - apply publish_cases in H as [(-> & _)|[H (fs & Hl & Hv%activation_validates)]]; [exists row; split; [done|apply moved_refl]|].
    apply (moved_restatus _ _ (fun i => bool_decide (i ∈ _)) _ (pb_factors _ _ _ _ _ _ _ H)); [|done]. by apply (members_move _ _ fs).
  - apply rollback_publication_ok in H as [(t & _ & Ef & fs & Hl & Hv%validate_transitions_ok) _ _ _ _].
    apply (moved_restatus _ _ (fun i => bool_decide (i ∈ _)) _ Ef); [|done]. by apply (members_move _ _ fs).
  - apply append_event_ok in H as [_ ->]. exists row. split; [done|apply moved_refl].
Qed.

Lemma mark_eq id status p : pr_publication_id p = id -> mark id status p = set_publication_status p status.
Proof. intros <-. unfold mark. by rewrite Z.eqb_refl. Qed.
Lemma mark_ne id status p : pr_publication_id p <> id -> mark id status p = p.
Proof. unfold mark. by destruct (Z.eqb_spec (pr_publication_id p) id). Qed.

Lemma reads_of_members r r' p : rg_members r' = rg_members r -> enrich_publication_q r' p = enrich_publication_q r p.
Proof. intros H. unfold enrich_publication_q, load_publication_factor_ids_q. by rewrite H. Qed.

(** An active publication of the mode a rollback does not target was there before, and is not the one withdrawn. *)
Lemma rollback_other_mode clock r r' active target t mode id q : registry_ok clock r ->
  rg_publications r' = mark target PsActive <$> (mark active PsRolledBack <$> rg_publications r) ->
  rg_publications r !! target = Some t -> mode <> pr_mode t ->
  rg_publications r' !! id = Some q -> pr_mode q = mode -> pr_status q = PsActive ->
  rg_publications r !! id = Some q /\ id <> active.
Proof.
  intros Hr Ep Ht Hm Hq Hqm Hqs. rewrite Ep, !lookup_fmap in Hq. destruct (rg_publications r !! id) as [x|] eqn:Ex; [|done].
  injection Hq as <-. assert (Hxi := ok_publication_keys _ _ Hr _ _ Ex). destruct (decide (id = target)) as [->|Hnt].
  - rewrite mark_eq in Hqm by (by rewrite mark_id). unfold mark in Hqm. simpl in Hqm. destruct (_ =? _) in Hqm; simpl in Hqm; congruence.
  - rewrite (mark_ne target) in * by (rewrite mark_id; congruence). destruct (decide (id = active)) as [->|Hna]; [by rewrite mark_eq in Hqs|].
    by rewrite (mark_ne active) in * by congruence.
Qed.

(** A rollback puts its target back in service with the members it was published with.  It also
    takes the publication it was told to withdraw out of service, without asking whether that is the
    active one of the target's mode: the other mode keeps its active publication exactly when it was
    not the one named. *)
Theorem rollback_takes_effect clock serial r target active event_id audit now r' o :
  reachable clock serial r -> rollback_publication_q r r active target event_id audit now = Ok (r', o) ->
  exists t, rg_publications r !! target = Some t /\
  load_active_publication_q r' (pr_mode t) = Some (ao_value o) /\
  cp_publication_id (ao_value o) = target /\ cp_factor_ids (ao_value o) = load_publication_factor_ids_q r target /\
  forall mode, mode <> pr_mode t ->
    load_active_publication_q r' mode =
    match load_active_publication_q r mode with
    | Some p => if cp_publication_id p =? active then None else Some p
    | None => None
    end.
Proof.
  intros Hr%reachable_ok H%rollback_publication_ok. pose proof H as [(t & Ht & _) Ep Eu Em (event & _ & info & Hi & ->)].
  assert (Hid := ok_publication_keys _ _ Hr _ _ Ht).
  set (u := set_publication_status (mark active PsRolledBack t) PsActive).
  assert (Hrow : rg_publications r' !! target = Some u).
  { rewrite Ep, !lookup_fmap, Ht. simpl. f_equal. apply mark_eq. by rewrite mark_id. }
  assert (Hu : pr_mode u = pr_mode t /\ pr_status u = PsActive /\ pr_publication_id u = target).
  { unfold u, mark. by destruct (_ =? _). }
  destruct Hu as (Hum & Hus & Hui). unfold load_publication_info_q in Hi. rewrite Hrow in Hi. injection Hi as <-.
  exists t. split; [done|]. unfold load_active_publication_q.
  rewrite (find_active r' (pr_mode t) _ _ Eu Hrow) by (by apply active_in_true). split; [done|]. split; [done|]. split.
  { cbn [audited ao_value enrich_publication_q cp_factor_ids]. unfold load_publication_factor_ids_q. by rewrite Em, Hui. }
  intros mode Hm. destruct (find_publication r (active_in mode)) as [q|] eqn:Eq; cbn [fmap option_fmap option_map].
  - destruct (find_active_some _ _ _ Eq) as (id & Hq & Hqm & Hqs). assert (Hqi := ok_publication_keys _ _ Hr _ _ Hq).
    assert (id <> target) by congruence. cbn [enrich_publication_q cp_publication_id]. rewrite Hqi. destruct (Z.eqb_spec id active) as [->|Hne].
    + destruct (find_publication r' (active_in mode)) as [q'|] eqn:Eq'; [|done]. exfalso.
      destruct (find_active_some _ _ _ Eq') as (id' & Hq' & Hqm' & Hqs').
      destruct (rollback_other_mode _ _ _ _ _ _ mode _ _ Hr Ep Ht Hm Hq' Hqm' Hqs') as [Ex Hna].
      apply Hna. apply (ok_active _ _ Hr _ _ _ _ Ex Hq); congruence.
    + assert (Hq' : rg_publications r' !! id = Some q).
      { rewrite Ep, !lookup_fmap, Hq. simpl. f_equal. by rewrite (mark_ne active), (mark_ne target) by congruence. }
      rewrite (find_active r' mode _ _ Eu Hq') by (by apply active_in_true). simpl. f_equal. by apply reads_of_members.
  - destruct (find_publication r' (active_in mode)) as [q'|] eqn:Eq'; [|done]. exfalso.
    destruct (find_active_some _ _ _ Eq') as (id' & Hq' & Hqm' & Hqs').
    destruct (rollback_other_mode _ _ _ _ _ _ mode _ _ Hr Ep Ht Hm Hq' Hqm' Hqs') as [Ex _].
    rewrite (find_active r mode _ _ (ok_active _ _ Hr) Ex) in Eq; [done|by apply active_in_true].
Qed.
End Registry.
