(* ===== verification/Governance.v ===== *)
(** * Control-factor governance: [oxide-arb-control/src/governance]

    The registry service: operators' envelopes, the risk-expansion gate, sealed publications, and the
    hand-over to the live refresher of [Factors], which reads the same tables.  BLAKE3 over canonical
    JSON is a parameter, for publications and for the content of factors.  The service reads the
    registry ([seen]) before it calls a repository transaction; others may commit in between. *)

From stdpp Require Import sorting.
From S2P Require Import Prelude Decimal Config Domain Fees FactorModel AuditChain Factors Registry.

(** [control/governance/hash.rs:12-21] `PublicationCanonicalInput` *)
Record PublicationCanonicalInput := {
  pc_publication_id : string;
  pc_mode : string;
  pc_factor_ids : list string;
  pc_previous_publication_id : option string;
  pc_effective_from : Time;
  pc_expires_at : Time;
  pc_approved_by : option string;
  pc_approval_reason : string
}.

(** Hexadecimal BLAKE3 over the JSON of the canonical fields; the serialisation can fail. *)
Class CanonicalPublicationDigest := canonical_digest : PublicationCanonicalInput -> Result string string.

(** [models/hashing.rs:26-31] `CanonicalDigest::prefixed_bytes` *)
Definition prefixed (raw_hex : string) : string := "blake3:" +:+ raw_hex.

(** BLAKE3 over the JSON of the dimensions and the payload of a factor. *)
Class FactorDigest {DO : DecimalOps} := {
  dimensions_digest : FactorDimensions -> Result string string;
  payload_digest : FactorPayload -> Result string string
}.

Definition mode_name (mode : PublicationMode) : string := match mode with PmShadow => "shadow" | PmPublished => "published" end.

Definition string_le (a b : string) : Prop := String.leb a b = true.
#[global] Instance string_le_dec a b : Decision (string_le a b).
Proof. unfold string_le. apply _. Defined.

(** [control/governance/hash.rs:57-78] `canonical_input` *)
Definition canonical_input (p : ControlFactorPublication) : PublicationCanonicalInput := {|
  pc_publication_id := pretty (cp_publication_id p);
  pc_mode := mode_name (cp_mode p);
  pc_factor_ids := merge_sort string_le (pretty <$> cp_factor_ids p);
  pc_previous_publication_id := pretty <$> cp_previous_publication_id p;
  pc_effective_from := cp_effective_from p;
  pc_expires_at := cp_expires_at p;
  pc_approved_by := cp_approved_by p;
  pc_approval_reason := cp_approval_reason p |}.

Section Governance.
Context {DO : DecimalOps} {ED : EventDigest} {TC : TimestampColumn} {CD : CanonicalPublicationDigest} {FD : FactorDigest}.

(** [control/governance/hash.rs:27-29] `PublicationHasher::compute` *)
#[global] Instance compute_publication : PublicationDigest := fun p =>
  let? raw_hex := canonical_digest (canonical_input p) in Ok (prefixed raw_hex).

(** [control/governance/hash.rs:51-54] `PublicationHasher::seal` *)
Definition seal_hash (p : ControlFactorPublication) : Result ControlFactorPublication GovernanceError :=
  match compute_publication p with
  | Err message => Err (CanonicalDigest message)
  | Ok hash => Ok {| cp_publication_id := cp_publication_id p; cp_mode := cp_mode p; cp_factor_ids := cp_factor_ids p;
                     cp_previous_publication_id := cp_previous_publication_id p; cp_status := cp_status p;
                     cp_effective_from := cp_effective_from p; cp_expires_at := cp_expires_at p;
                     cp_approved_by := cp_approved_by p; cp_approval_reason := cp_approval_reason p;
                     cp_publication_hash := hash |}
  end.

(** [control/governance/publication.rs:16-26] `PublicationDraft` *)
Record PublicationDraft := {
  pd_publication_id : Z;
  pd_mode : PublicationMode;
  pd_factor_ids : list Z;
  pd_previous_publication_id : option Z;
  pd_effective_from : Time;
  pd_expires_at : Time;
  pd_approved_by : string;
  pd_approval_reason : string;
  pd_idempotency_key : string
}.

(** [control/governance/publication.rs:33-60] `PublicationManager::seal` *)
Definition seal (draft : PublicationDraft) : Result NewPublication GovernanceError :=
  let domain := {| cp_publication_id := pd_publication_id draft; cp_mode := pd_mode draft; cp_factor_ids := pd_factor_ids draft;
                   cp_previous_publication_id := pd_previous_publication_id draft; cp_status := PsPending;
                   cp_effective_from := pd_effective_from draft; cp_expires_at := pd_expires_at draft;
                   cp_approved_by := Some (pd_approved_by draft); cp_approval_reason := pd_approval_reason draft;
                   cp_publication_hash := "" |} in
  let? domain := seal_hash domain in
  Ok {| np_publication_id := cp_publication_id domain; np_mode := cp_mode domain; np_factor_ids := cp_factor_ids domain;
        np_previous_publication_id := cp_previous_publication_id domain; np_status := cp_status domain;
        np_effective_from := cp_effective_from domain; np_expires_at := cp_expires_at domain;
        np_approved_by := cp_approved_by domain; np_approval_reason := cp_approval_reason domain;
        np_idempotency_key := pd_idempotency_key draft; np_publication_hash := cp_publication_hash domain |}.

(** [control/governance/service.rs:33-39] `PublicationRequest` *)
Record PublicationRequest := {
  rq_factor_ids : list Z;
  rq_idempotency_key : string;
  rq_effective_from : option Time;
  rq_expires_at : Time;
  rq_manual_risk_expansion_approval : bool
}.

(** [error/control.rs:178-185] `RegistryError` *)
Inductive RegistryError := ReGovernance (e : GovernanceError) | ReStorageError (e : StorageError).

(** [control/governance/service.rs:42-48] `ControlFactorRegistry`: the tables, and the wake-up permit of the refresher when one is attached *)
Record ControlFactorRegistry := { cr_registry : Registry; cr_refresh_notify : option bool }.

(** [control/governance/service.rs:245-249] `signal_snapshot_refresh` *)
Definition signal_snapshot_refresh (notify : option bool) : option bool := (fun _ => true) <$> notify.

(** [control/governance/service.rs:252-269] `factor_audit` *)
Definition factor_audit (event_type : ControlAuditEventType) (envelope : AuditActor) (factor_id : Z) : NewAuditEvent := {|
  na_event_type := event_type; na_actor := aa_actor envelope; na_actor_role := aa_actor_role envelope;
  na_resource_type := RtFactor; na_resource_id := pretty factor_id; na_request_id := aa_request_id envelope;
  na_reason := aa_reason envelope; na_before_hash := None; na_after_hash := None;
  na_diff := JObj [("reason", JStr (aa_reason envelope))] |}.

(** [control/governance/service.rs:271-289] `publication_audit` *)
Definition publication_audit (event_type : ControlAuditEventType) (envelope : AuditActor) (publication_id : Z) (diff : Json) : NewAuditEvent := {|
  na_event_type := event_type; na_actor := aa_actor envelope; na_actor_role := aa_actor_role envelope;
  na_resource_type := RtPublication; na_resource_id := pretty publication_id; na_request_id := aa_request_id envelope;
  na_reason := aa_reason envelope; na_before_hash := None; na_after_hash := None; na_diff := diff |}.

(** [control/governance/service.rs:230-241] `load_typed_factors` *)
Definition load_typed_factors (seen : Registry) (factor_ids : list Z) : list ControlFactorValue :=
  omap (fun id => fr_value <$> load_factor_q seen id) factor_ids.

(** [control/governance/service.rs:117-126] `publish_internal`, the risk-expansion gate *)
Definition expansion_gate (seen : Registry) (mode : PublicationMode) (active : option ControlFactorPublication)
    (request : PublicationRequest) : Result unit GovernanceError :=
  match mode, active with
  | PmPublished, Some active =>
      check_risk_expansion (load_typed_factors seen (rq_factor_ids request)) (load_typed_factors seen (cp_factor_ids active))
        (rq_manual_risk_expansion_approval request)
  | _, _ => Ok tt
  end.

(** [control/governance/service.rs:128-139] `publish_internal`, the sealed draft *)
Definition draft_of (publication_id : Z) (mode : PublicationMode) (previous : option Z) (envelope : AuditActor)
    (request : PublicationRequest) (now : Time) : PublicationDraft := {|
  pd_publication_id := publication_id; pd_mode := mode; pd_factor_ids := rq_factor_ids request;
  pd_previous_publication_id := previous; pd_effective_from := unwrap_or (rq_effective_from request) now;
  pd_expires_at := rq_expires_at request; pd_approved_by := aa_actor envelope; pd_approval_reason := aa_reason envelope;
  pd_idempotency_key := rq_idempotency_key request |}.

(** [control/governance/service.rs:105-155] `publish_internal` *)
Definition publish_internal (seen early saw : Registry) (s : ControlFactorRegistry) (envelope : AuditActor) (mode : PublicationMode)
    (request : PublicationRequest) (publication_id event_id : Z) (now : Time) : ControlFactorRegistry * Result PublishOutcome RegistryError :=
  match validate_actor envelope with
  | Err e => (s, Err (ReGovernance e))
  | Ok _ =>
      let active := load_active_publication_q seen mode in
      let previous := cp_publication_id <$> active in
      match check_rollback_target mode previous (bool_decide (is_Some active)) with
      | Err e => (s, Err (ReGovernance e))
      | Ok _ =>
          match expansion_gate seen mode active request with
          | Err e => (s, Err (ReGovernance e))
          | Ok _ =>
              match seal (draft_of publication_id mode previous envelope request now) with
              | Err e => (s, Err (ReGovernance e))
              | Ok publication =>
                  let audit := publication_audit AePublicationCreated envelope (np_publication_id publication)
                    (JObj [("mode", JStr (mode_name mode)); ("factor_ids", JArr ((fun i => JStr (pretty i)) <$> np_factor_ids publication));
                           ("manual_risk_expansion_approval", JBool (rq_manual_risk_expansion_approval request))]) in
                  match publish_publication_q early saw (cr_registry s) publication event_id audit now with
                  | Err e => (s, Err (ReStorageError e))
                  | Ok (r, outcome) =>
                      ({| cr_registry := r; cr_refresh_notify := signal_snapshot_refresh (cr_refresh_notify s) |}, Ok outcome)
                  end
              end
          end
      end
  end.

(** [control/governance/service.rs:86-93] `promote_to_shadow` *)
Definition promote_to_shadow seen early saw s envelope request publication_id event_id now :=
  publish_internal seen early saw s envelope PmShadow request publication_id event_id now.

(** [control/governance/service.rs:96-103] `publish` *)
Definition publish seen early saw s envelope request publication_id event_id now :=
  publish_internal seen early saw s envelope PmPublished request publication_id event_id now.

(** [control/governance/service.rs:72-83] `reject_factor` *)
Definition reject (saw : Registry) (s : ControlFactorRegistry) (envelope : AuditActor) (factor_id event_id : Z) (now : Time)
    : ControlFactorRegistry * Result (option (AuditedOutcome FactorRow)) RegistryError :=
  match validate_actor envelope with
  | Err e => (s, Err (ReGovernance e))
  | Ok _ =>
      match reject_factor saw (cr_registry s) factor_id (aa_reason envelope) event_id (factor_audit AeFactorRejected envelope factor_id) now with
      | Err e => (s, Err (ReStorageError e))
      | Ok (r, outcome) => ({| cr_registry := r; cr_refresh_notify := cr_refresh_notify s |}, Ok outcome)
      end
  end.

(** [control/governance/service.rs:158-177] `rollback_publication` *)
Definition rollback_publication (saw : Registry) (s : ControlFactorRegistry) (envelope : AuditActor) (active_publication_id target_publication_id event_id : Z)
    (now : Time) : ControlFactorRegistry * Result (AuditedOutcome ControlFactorPublication) RegistryError :=
  match validate_actor envelope with
  | Err e => (s, Err (ReGovernance e))
  | Ok _ =>
      let audit := publication_audit AePublicationRolledBack envelope active_publication_id
        (JObj [("target_publication_id", JStr (pretty target_publication_id))]) in
      match rollback_publication_q saw (cr_registry s) active_publication_id target_publication_id event_id audit now with
      | Err e => (s, Err (ReStorageError e))
      | Ok (r, outcome) => ({| cr_registry := r; cr_refresh_notify := signal_snapshot_refresh (cr_refresh_notify s) |}, Ok outcome)
      end
  end.

(** [control/governance/service.rs:180-186] `expire_due_factors` *)
Definition expire_due_factors (saw : Registry) (s : ControlFactorRegistry) (envelope : AuditActor) (event_ids : list Z) (now : Time)
    : ControlFactorRegistry * Result (list Z) RegistryError :=
  match validate_actor envelope with
  | Err e => (s, Err (ReGovernance e))
  | Ok _ =>
      match expire_factors saw (cr_registry s) event_ids envelope now with
      | Err e => (s, Err (ReStorageError e))
      | Ok (r, expired) => ({| cr_registry := r; cr_refresh_notify := cr_refresh_notify s |}, Ok expired)
      end
  end.

(** ** Rows *)

(** [models/domain/control_factor/persistence.rs:185-211] `NewControlFactorValue::from_typed`; the run is given *)
Definition from_typed (run_id : Z) (value : ControlFactorValue) (status_reason : option string) : Result FactorRow string :=
  let? dims := dimensions_digest (cf_dimensions value) in
  let? pay := payload_digest (cf_payload value) in
  Ok {| fr_value := {| cf_factor_id := cf_factor_id value; cf_factor_type := cf_factor_type value; cf_dimensions := cf_dimensions value;
          cf_payload := cf_payload value; cf_evidence := cf_evidence value; cf_status := cf_status value;
          cf_generated_at := cf_generated_at value; cf_expires_at := cf_expires_at value; cf_owner := cf_owner value;
          cf_schema_version := unwrap_or (to_i32 (cf_schema_version value)) i32_max |};
        fr_run_id := run_id; fr_dimensions_hash := dims; fr_payload_hash := pay; fr_status_reason := status_reason |}.

(** [models/domain/control_factor/persistence.rs:87-123] `verify_stored_hashes`, with the row's typed value *)
Definition verify_stored_hashes (row : FactorRow) : Result ControlFactorValue SnapshotBuildError :=
  let typed := fr_value row in
  match payload_digest (cf_payload typed) with
  | Err source => Err (PayloadHashMismatch (cf_factor_id typed) "" ("digest failed: " +:+ source))
  | Ok expected_payload =>
      if negb (bool_decide (fr_payload_hash row = expected_payload))
      then Err (PayloadHashMismatch (cf_factor_id typed) expected_payload (fr_payload_hash row))
      else match dimensions_digest (cf_dimensions typed) with
           | Err source => Err (DimensionsHashMismatch (cf_factor_id typed) "" ("digest failed: " +:+ source))
           | Ok expected_dims =>
               if negb (bool_decide (fr_dimensions_hash row = expected_dims))
               then Err (DimensionsHashMismatch (cf_factor_id typed) expected_dims (fr_dimensions_hash row))
               else Ok typed
           end
  end.

(** The refresher reads the registry. *)
#[global] Instance registry_repository : FactorRepository Registry := {|
  load_active_publication := fun w mode => (w, Ok (load_active_publication_q w mode));
  load_factors_by_ids := fun w ids => (w, Ok (verify_stored_hashes <$> load_factors_by_ids_q w ids)) |}.

(** ** Facts *)

Lemma seal_ok draft p : seal draft = Ok p ->
  np_publication_id p = pd_publication_id draft /\ np_mode p = pd_mode draft /\ np_factor_ids p = pd_factor_ids draft /\
  np_effective_from p = pd_effective_from draft /\ np_expires_at p = pd_expires_at draft /\
  compute_publication (publication_for_validation p) = Ok (np_publication_hash p).
Proof.
  unfold seal, seal_hash. match goal with |- context [compute_publication ?x] => set (domain := x) end.
  destruct (compute_publication domain) as [h|] eqn:E; [|done]. intros [= <-]. repeat split. exact E.
Qed.

(** What a publication through the service did. *)
Lemma publish_internal_ok seen early saw s envelope mode request id event_id now s' o :
  publish_internal seen early saw s envelope mode request id event_id now = (s', Ok o) ->
  expansion_gate seen mode (load_active_publication_q seen mode) request = Ok tt /\
  cr_refresh_notify s' = signal_snapshot_refresh (cr_refresh_notify s) /\
  exists p audit, np_publication_id p = id /\ np_mode p = mode /\ np_factor_ids p = rq_factor_ids request /\
    np_effective_from p = unwrap_or (rq_effective_from request) now /\ np_expires_at p = rq_expires_at request /\
    compute_publication (publication_for_validation p) = Ok (np_publication_hash p) /\
    publish_publication_q early saw (cr_registry s) p event_id audit now = Ok (cr_registry s', o).
Proof.
  unfold publish_internal. destruct (validate_actor envelope); [|done]. destruct (check_rollback_target _ _ _); [|done].
  destruct (expansion_gate _ _ _ _) as [[]|]; [|done]. destruct (seal _) as [p|] eqn:Es; [|done].
  destruct (publish_publication_q _ _ _ _ _ _ _) as [[r out]|] eqn:Ep; [|done]. intros [= <- <-].
  apply seal_ok in Es as (H1 & H2 & H3 & H4 & H5 & H6). split; [done|]. split; [done|]. exists p. eexists. by repeat split.
Qed.

Lemma load_typed_elem seen ids i row : i ∈ ids -> rg_factors seen !! i = Some row -> fr_value row ∈ load_typed_factors seen ids.
Proof.
  intros Hi Hr. unfold load_typed_factors. apply list_elem_of_omap. exists i. split; [done|]. unfold load_factor_q. by rewrite Hr.
Qed.

(** C17: Serialised, a publication without approval replaces no factor of the active one by a more
    permissive factor for the same dimensions, and it is the active one afterwards. *)
Theorem unapproved_publication_never_relaxes clock serial early r s envelope request id event_id now s' o old i j row row' :
  cr_registry s = r ->
  reachable clock serial r ->
  publish r early r s envelope request id event_id now = (s', Ok (PoPublished o)) ->
  rq_manual_risk_expansion_approval request = false ->
  load_active_publication_q r PmPublished = Some old ->
  i ∈ cp_factor_ids old -> rg_factors r !! i = Some row ->
  j ∈ cp_factor_ids (ao_value o) -> rg_factors (cr_registry s') !! j = Some row' ->
  cf_dimensions (fr_value row') = cf_dimensions (fr_value row) ->
  load_active_publication_q (cr_registry s') PmPublished = Some (ao_value o) /\
  relaxes (cf_payload (fr_value row')) (cf_payload (fr_value row)) = false.
Proof.
  intros <- Hr H Happ Hold Hi Hrow Hj Hrow' Hd. apply publish_internal_ok in H as (Hg & _ & p & audit & _ & Hm & Hids & _ & _ & _ & Hp).
  set (r := cr_registry s) in *.
  destruct (publication_effect _ _ _ _ _ _ _ _ _ _ _ Hr Hp) as (Ha & _ & Hc & _ & _ & Hf & _). rewrite Hm in Ha. split; [done|].
  rewrite Hold in Hg. unfold expansion_gate in Hg. rewrite Happ in Hg. rewrite Hc, Hids in Hj.
  assert (exists x, rg_factors r !! j = Some x) as [x Hx].
  { apply publish_cases in Hp as [(_ & ? & ? & _ & _ & [=])|[Hpb _]]. apply (pb_exist _ _ _ _ _ _ _ Hpb). by rewrite Hids. }
  destruct (Hf j x Hx) as (y & Hy & Ey). rewrite Hrow' in Hy. injection Hy as <-.
  assert (cf_dimensions (fr_value row') = cf_dimensions (fr_value x) /\ cf_payload (fr_value row') = cf_payload (fr_value x)) as [Ed Epay]
    by (rewrite Ey; by case_bool_decide).
  unfold check_risk_expansion in Hg. destruct (existsb _ _) eqn:Ex; [done|]. rewrite Epay.
  destruct (relaxes _ _) eqn:El; [|done]. rewrite <- Ex. symmetry. apply existsb_exists. exists (fr_value x).
  split; [by apply list_elem_of_In, (load_typed_elem r _ j)|]. apply existsb_exists. exists (fr_value row).
  split; [by apply list_elem_of_In, (load_typed_elem r _ i)|]. rewrite El, andb_true_r. apply bool_decide_eq_true. congruence.
Qed.

(** ** From the registry to the live snapshot *)

Lemma members_loaded r ids row : (forall i x, rg_factors r !! i = Some x -> cf_factor_id (fr_value x) = i) ->
  row ∈ load_factors_by_ids_q r ids -> exists i, i ∈ ids /\ rg_factors r !! i = Some row.
Proof.
  intros Hk H. unfold load_factors_by_ids_q in H. destruct ids as [|k ids]; [by apply elem_of_nil in H|].
  apply list_elem_of_omap in H as ([i x] & Hin & Hx). simpl in Hx. case_bool_decide as Hi; [|done]. injection Hx as ->.
  exists i. split; [done|]. by apply elem_of_map_to_list.
Qed.

Lemma loaded_member r ids i row : i ∈ ids -> rg_factors r !! i = Some row -> row ∈ load_factors_by_ids_q r ids.
Proof.
  intros Hi Hr. unfold load_factors_by_ids_q. destruct ids as [|k ids]; [by apply elem_of_nil in Hi|].
  apply list_elem_of_omap. exists (i, row). split; [by apply elem_of_map_to_list|]. simpl. by rewrite bool_decide_true.
Qed.

Lemma decode_all rows : Forall (fun row => verify_stored_hashes row = Ok (fr_value row)) rows ->
  decode_rows (verify_stored_hashes <$> rows) = Ok (fr_value <$> rows).
Proof. induction 1 as [|row rows H _ IH]; [done|]. rewrite !fmap_cons, H. cbn [decode_rows]. by rewrite IH. Qed.

Lemma stored_input r p : load_publication_factor_ids_q r (np_publication_id p) = np_factor_ids p ->
  let e := canonical_input (enrich_publication_q r (publication_row p PsActive)) in
  let c := canonical_input (publication_for_validation p) in
  pc_effective_from e = column_time (np_effective_from p) /\ pc_effective_from c = np_effective_from p /\
  (column_time (np_effective_from p) = np_effective_from p -> column_time (np_expires_at p) = np_expires_at p -> e = c).
Proof.
  intros Hi e c. split; [done|]. split; [done|]. intros E1 E2. unfold e, c, canonical_input. simpl. by rewrite Hi, E1, E2.
Qed.

(** The refresher's fail-closed policy for a mode. *)
Definition policy (f : FactorRefresher (W := Registry)) (mode : PublicationMode) : bool :=
  match mode with PmPublished => rf_fail_closed f | PmShadow => false end.

Lemma prefixed_inj a b : prefixed a = prefixed b -> a = b.
Proof. unfold prefixed. intros [= H]. exact H. Qed.

Lemma verify_prefixed pub raw : cp_publication_hash pub = prefixed raw ->
  verify_publication pub = match canonical_digest (canonical_input pub) with
                           | Err e => Err (CanonicalDigest e)
                           | Ok x => if bool_decide (raw = x) then Ok tt else Err (PublicationHashMismatch (prefixed x) (prefixed raw))
                           end.
Proof.
  intros H. unfold verify_publication. rewrite H. change (prefixed raw) with (String (Ascii.ascii_of_nat 98) ("lake3:" +:+ raw)) at 1. cbv iota.
  unfold publication_digest, compute_publication. destruct (canonical_digest _) as [x|]; [|done].
  by rewrite (bool_decide_ext (prefixed raw = prefixed x) (raw = x)) by (split; [apply prefixed_inj|congruence]).
Qed.

(** A verified publication all of whose members are stored, decode and are acceptable compiles. *)
Lemma compile_publication_total r pub now fc :
  (forall i x, rg_factors r !! i = Some x -> cf_factor_id (fr_value x) = i) ->
  verify_publication pub = Ok tt ->
  (forall i, i ∈ cp_factor_ids pub -> exists row, rg_factors r !! i = Some row /\
     verify_stored_hashes row = Ok (fr_value row) /\ acceptable now fc (fr_value row)) ->
  exists snapshot, compile_publication r pub now fc = (r, Ok snapshot) /\ sn_publication_id snapshot = Some (cp_publication_id pub).
Proof.
  intros Hk Hv Hm. unfold compile_publication. rewrite Hv. cbn [load_factors_by_ids registry_repository].
  set (rows := load_factors_by_ids_q r (cp_factor_ids pub)).
  assert (Hrows : Forall (fun row => verify_stored_hashes row = Ok (fr_value row) /\ acceptable now fc (fr_value row)) rows).
  { apply Forall_forall. intros row (i & Hi & Hrow)%members_loaded; [|done]. destruct (Hm i Hi) as (x & Hx & ?). rewrite Hrow in Hx. by injection Hx as <-. }
  rewrite decode_all by (eapply Forall_impl; [exact Hrows|]; by intros ? [? _]).
  destruct (List.find _ (cp_factor_ids pub)) as [i|] eqn:Ef.
  { apply find_some in Ef as [Hin%list_elem_of_In Hn%negb_true_iff%bool_decide_eq_false]. destruct (Hm i Hin) as (row & Hrow & _).
    destruct Hn. apply list_elem_of_fmap. exists (fr_value row). split; [by rewrite (Hk _ _ Hrow)|].
    apply list_elem_of_fmap. exists row. split; [done|]. by apply (loaded_member r _ i). }
  assert (Hc : is_ok (compile pub (fr_value <$> rows) now fc) = true).
  { apply compile_factors_iff. apply Forall_fmap. eapply Forall_impl; [exact Hrows|]. by intros ? [_ ?]. }
  destruct (compile _ _ _ _) as [snapshot|] eqn:Ec; [|done]. exists snapshot. split; [done|].
  by apply compile_factors_ok in Ec as (_ & _ & _ & -> & _).
Qed.

(** A publication that the service reports as published reaches the live system: when its window
    fits the time stamp columns and each member is stored with right digests and acceptable to the
    compiler, the next refresh succeeds and serves it; when its start does not fit and the digest
    tells the two apart, every refresh refuses it. *)
Theorem published_factors_are_served clock serial seen early saw s envelope mode request id event_id now s' o f now' :
  reachable clock serial (cr_registry s) ->
  publish_internal seen early saw s envelope mode request id event_id now = (s', Ok (PoPublished o)) ->
  rf_world f = cr_registry s' -> version_of f mode <> Some (cp_publication_hash (ao_value o)) ->
  let start := unwrap_or (rq_effective_from request) now in
  (column_time start = start -> column_time (rq_expires_at request) = rq_expires_at request ->
   (forall i row, i ∈ rq_factor_ids request -> rg_factors (cr_registry s') !! i = Some row ->
      verify_stored_hashes row = Ok (fr_value row) /\ acceptable now' (policy f mode) (fr_value row)) ->
   (refresh_mode f mode now').2 = Ok tt /\ sn_publication_id (slot (refresh_mode f mode now').1 mode) = Some id) /\
  (column_time start <> start ->
   (forall a b h, pc_effective_from a = column_time start -> pc_effective_from b = start ->
      canonical_digest a = Ok h -> canonical_digest b <> Ok h) ->
   is_ok (refresh_mode f mode now').2 = false /\ slot (refresh_mode f mode now').1 mode = slot f mode).
Proof.
  intros Hr H Hw Hv start. apply publish_internal_ok in H as (_ & _ & p & audit & Hpid & Hpm & Hids & Hst & Hex & Hh & Hp).
  pose proof Hp as Hq. apply publish_cases in Hq as [(_ & ? & ? & _ & _ & [=])|[Hpb _]].
  destruct (publication_effect _ _ _ _ _ _ _ _ _ _ _ Hr Hp) as (Ha & Hoid & Hoids & _).
  assert (Hok' := registry_ok_weaken clock (fun _ => True) _ (fun _ _ => I) (reachable_ok _ _ _ Hr)).
  destruct (published_row _ _ _ _ _ _ _ _ Hok' Hpb) as [Hrow Hlids].
  assert (Hk := ok_factor_keys _ _ (published_ok _ _ _ _ _ _ _ _ Hok' I Hpb)).
  assert (Eo : ao_value o = enrich_publication_q (cr_registry s') (publication_row p PsActive)).
  { destruct Hpb as [_ _ _ _ _ _ _ (event & _ & info & Hi & [= ->])]. unfold load_publication_info_q in Hi. rewrite Hrow in Hi. by injection Hi as <-. }
  destruct (stored_input _ _ Hlids) as (In1 & In2 & In3). rewrite <- Eo in In1, In3. rewrite Hst in In1, In2, In3. rewrite Hex in In3.
  unfold compute_publication in Hh. destruct (canonical_digest (canonical_input (publication_for_validation p))) as [raw|] eqn:Er; [|done].
  injection Hh as Hh. assert (Hhash : cp_publication_hash (ao_value o) = prefixed raw) by (rewrite Eo; exact (eq_sym Hh)).
  unfold refresh_mode. rewrite Hw. cbn [load_active_publication registry_repository]. rewrite Hpm in Ha. rewrite Ha, bool_decide_false by exact Hv.
  split.
  - intros E1 E2 Hmem. assert (Hver : verify_publication (ao_value o) = Ok tt).
    { rewrite (verify_prefixed _ _ Hhash), (In3 E1 E2), Er. by rewrite bool_decide_true. }
    destruct (compile_publication_total (cr_registry s') (ao_value o) now' (policy f mode) Hk Hver) as (snapshot & Hc & Hid).
    { intros i Hi. rewrite Hoids, Hids in Hi. destruct (pb_exist _ _ _ _ _ _ _ Hpb i) as [x Hx]; [by rewrite Hids|].
      assert (Hx' : is_Some (rg_factors (cr_registry s') !! i)) by (rewrite (pb_factors _ _ _ _ _ _ _ Hpb), Hx; by eexists).
      destruct Hx' as [y Hy]. exists y. split; [done|]. by apply (Hmem i). }
    unfold policy in Hc. cbn [set_rf_world rf_world rf_fail_closed]. rewrite Hc. cbn [fst snd]. split; [done|].
    rewrite slot_store, decide_True by done. by rewrite Hid, Hoid, Hpid.
  - intros Hne Hinj. assert (exists e, verify_publication (ao_value o) = Err e) as [e Hver].
    { rewrite (verify_prefixed _ _ Hhash). destruct (canonical_digest (canonical_input (ao_value o))) as [raw'|] eqn:Er'; [|by eexists].
      rewrite bool_decide_false; [by eexists|]. intros <-.
      apply (Hinj (canonical_input (ao_value o)) (canonical_input (publication_for_validation p)) raw In1 In2 Er' Er). }
    cbn [set_rf_world rf_world]. unfold compile_publication. rewrite Hver. by destruct e.
Qed.
End Governance.

(** ** Witnesses and hazards *)

Module GovernanceDemo.
Import FactorDemo AuditDemo.

#[local] Instance demo_canonical : CanonicalPublicationDigest := fun c => Ok (pretty (pc_effective_from c)).
#[local] Instance demo_factor_digest : FactorDigest (DO := ExactQ.exactQ) := {|
  dimensions_digest := fun _ => Ok "dims"; payload_digest := fun _ => Ok "pay" |}.

Definition operator (request : string) : AuditActor := {| aa_actor := "op"; aa_actor_role := "risk"; aa_request_id := request; aa_reason := "review" |}.

Definition row (id : Z) (m : Q) (expires : Time) : FactorRow (DO := ExactQ.exactQ) := {|
  fr_value := {| cf_factor_id := id; cf_factor_type := BucketRisk; cf_dimensions := demo_dims; cf_payload := cf_payload (demo_factor id m FCandidate);
                 cf_evidence := demo_evidence; cf_status := FCandidate; cf_generated_at := 1000; cf_expires_at := expires; cf_owner := "risk";
                 cf_schema_version := 1 |};
  fr_run_id := id; fr_dimensions_hash := "dims"; fr_payload_hash := "pay"; fr_status_reason := None |}.

Definition result_registry {A} (d : Registry (DO := ExactQ.exactQ)) (x : Result (Registry * A) StorageError) : Registry :=
  match x with Ok (r, _) => r | Err _ => d end.

Lemma took {A} d (x : Result (Registry (DO := ExactQ.exactQ) * A) StorageError) : is_ok x = true -> exists a, x = Ok (result_registry d x, a).
Proof. destruct x as [[r a]|]; [|done]. by exists a. Qed.

Definition created (r : Registry (DO := ExactQ.exactQ)) (id : Z) (m : Q) : Result (Registry * FactorRow) StorageError :=
  create_factor r (row id m 100000000) id (factor_audit AeFactorCreated (operator ("create" +:+ pretty id)) id) 5000.

(** Three candidates, for the same dimensions, that keep a half, a third and a tenth of the size. *)
Definition reg1 := result_registry empty_registry (created empty_registry 1 (1 # 2)).
Definition reg2 := result_registry reg1 (created reg1 2 (1 # 3)).
Definition reg3 := result_registry reg2 (created reg2 3 (1 # 10)).

Definition service (r : Registry (DO := ExactQ.exactQ)) : ControlFactorRegistry := {| cr_registry := r; cr_refresh_notify := Some false |}.

Definition request (ids : list Z) (key : string) : PublicationRequest := {|
  rq_factor_ids := ids; rq_idempotency_key := key; rq_effective_from := None; rq_expires_at := 90000000; rq_manual_risk_expansion_approval := false |}.

Definition shadowed := promote_to_shadow reg3 reg3 reg3 (service reg3) (operator "shadow") (request [1] "k-shadow") 100 10 6000.
Definition reg4 := cr_registry shadowed.1.
Definition first := publish reg4 reg4 reg4 (service reg4) (operator "first") (request [1] "k1") 101 11 7000.
Definition reg_first := cr_registry first.1.
Definition staged := promote_to_shadow reg_first reg_first reg_first (service reg_first) (operator "stage") (request [2; 3] "k-stage") 104 14 7500.
Definition reg5 := cr_registry staged.1.

Lemma created_reachable serial r id m : is_ok (created r id m) = true -> reachable (fun _ => True) serial r ->
  reachable (fun _ => True) serial (result_registry r (created r id m)).
Proof.
  intros H Hr. destruct (took r _ H) as [a Ha]. eapply (reachable_step _ _ r r r 5000); try done. eapply tx_create. exact Ha.
Qed.

Lemma published_reachable serial r envelope mode rq id event now s' o :
  publish_internal r r r (service r) envelope mode rq id event now = (s', Ok o) -> reachable (fun _ => True) serial r ->
  reachable (fun _ => True) serial (cr_registry s').
Proof.
  intros (_ & _ & p & audit & _ & _ & _ & _ & _ & _ & Hp)%publish_internal_ok Hr.
  eapply (reachable_step _ _ r r r now); try done. eapply tx_publish. exact Hp.
Qed.

Lemma reg3_reachable serial : reachable (fun _ => True) serial reg3.
Proof. do 3 (apply created_reachable; [by vm_compute|]). constructor. Qed.

Lemma reg4_reachable serial : reachable (fun _ => True) serial reg4.
Proof.
  unfold reg4. destruct shadowed as [s' [o|]] eqn:E; [|exfalso; assert (is_ok shadowed.2 = true) as H by (by vm_compute); by rewrite E in H].
  by apply (published_reachable _ _ _ _ _ _ _ _ _ _ E), reg3_reachable.
Qed.

Lemma reg_first_reachable serial : reachable (fun _ => True) serial reg_first.
Proof.
  unfold reg_first. destruct first as [s' [o|]] eqn:E; [|exfalso; assert (is_ok first.2 = true) as H by (by vm_compute); by rewrite E in H].
  by apply (published_reachable _ _ _ _ _ _ _ _ _ _ E), reg4_reachable.
Qed.

Lemma reg5_reachable serial : reachable (fun _ => True) serial reg5.
Proof.
  unfold reg5. destruct staged as [s' [o|]] eqn:E; [|exfalso; assert (is_ok staged.2 = true) as H by (by vm_compute); by rewrite E in H].
  by apply (published_reachable _ _ _ _ _ _ _ _ _ _ E), reg_first_reachable.
Qed.

(** Two operators read the same active publication [1] (half size).  One replaces it by the factor
    that keeps a tenth; the other, whose gate compared with the half, replaces that by the factor that
    keeps a third: the restriction in force is relaxed without approval. *)
Definition tightened := publish reg5 reg5 reg5 (service reg5) (operator "tighten") (request [3] "k2") 102 12 8000.
Definition relaxed := publish reg5 reg5 (cr_registry tightened.1) tightened.1 (operator "loosen") (request [2] "k3") 103 13 9000.

Lemma concurrent_publication_relaxes_unapproved :
  is_ok tightened.2 = true /\ is_ok relaxed.2 = true /\
  cp_factor_ids <$> load_active_publication_q (cr_registry tightened.1) PmPublished = Some [3] /\
  cp_factor_ids <$> load_active_publication_q (cr_registry relaxed.1) PmPublished = Some [2] /\
  relaxes (cf_payload (fr_value (row 2 (1 # 3) 0))) (cf_payload (fr_value (row 3 (1 # 10) 0))) = true /\
  is_ok (publish (cr_registry tightened.1) reg5 (cr_registry tightened.1) tightened.1 (operator "loosen") (request [2] "k3") 103 13 9000).2 = false.
Proof. repeat split; by vm_compute. Qed.

(** A factor that is rejected while a publication with it is being activated comes back to life. *)
Definition rejected := reject reg3 (service reg3) (operator "no") 1 20 6000.
Definition revived := promote_to_shadow reg3 reg3 reg3 rejected.1 (operator "shadow") (request [1] "k-shadow") 100 21 6001.

Lemma rejected_factor_revived :
  is_ok rejected.2 = true /\ status_of (cr_registry rejected.1) 1 = Some FRejected /\
  is_ok revived.2 = true /\ status_of (cr_registry revived.1) 1 = Some FShadow /\ can_transition FRejected FShadow = false /\
  is_ok (promote_to_shadow reg3 reg3 (cr_registry rejected.1) rejected.1 (operator "shadow") (request [1] "k-shadow") 100 21 6001).2 = false.
Proof. repeat split; by vm_compute. Qed.

(** A rollback to the shadow publication that names the live one withdraws every live restriction. *)
Definition disarmed := rollback_publication reg5 (service reg5) (operator "oops") 101 104 30 9000.

Lemma rollback_across_modes_disarms :
  load_active_publication_q reg5 PmPublished <> None /\
  is_ok disarmed.2 = true /\ load_active_publication_q (cr_registry disarmed.1) PmPublished = None.
Proof. split; [by vm_compute|]. split; by vm_compute. Qed.

(** Compare states by name before evaluating them. *)
#[local] Strategy 1000 [reg1 reg2 reg3 shadowed reg4 first reg_first staged reg5].

Lemma service_registry r : cr_registry (service r) = r.
Proof. done. Qed.

Lemma registry_invariant_witness : unique_active (rg_publications reg5).
Proof. by apply (registry_invariant (fun _ => True) false reg5 (reg5_reachable false)). Defined.

Lemma publication_takes_effect_witness :
  exists p, load_active_publication_q (cr_registry tightened.1) PmPublished = Some p /\ cp_factor_ids p = [3].
Proof.
  assert (Hok : match tightened.2 with Ok (PoPublished _) => true | _ => false end = true) by (by vm_compute).
  destruct tightened as [s' [[o|]|]] eqn:E; [|discriminate Hok..]. clear Hok. apply publish_internal_ok in E as (_ & _ & p & audit & Hid & Hm & Hids & _ & _ & _ & Hp).
  cbn [service cr_registry] in Hp.
  destruct (publication_takes_effect _ _ _ _ _ _ _ _ _ _ _ (reg5_reachable false) Hp) as (Ha & _ & Hf & _).
  exists (ao_value o). rewrite Hm in Ha. rewrite Hids in Hf. by split.
Defined.

Lemma unapproved_publication_never_relaxes_witness :
  exists row, rg_factors (cr_registry tightened.1) !! 3 = Some row /\
  relaxes (cf_payload (fr_value row)) (cf_payload (demo_factor 1 (1 # 2) FCandidate)) = false.
Proof.
  assert (Hok : match tightened.2 with Ok (PoPublished o) => bool_decide (cp_factor_ids (ao_value o) = [3]) | _ => false end = true) by (by vm_compute).
  assert (Hd : (cf_dimensions <$> (fr_value <$> rg_factors (cr_registry tightened.1) !! 3)) = Some demo_dims) by (by vm_compute).
  assert (Hold : cp_factor_ids <$> load_active_publication_q reg5 PmPublished = Some [1]) by (by vm_compute).
  assert (Hx : (fun x => (cf_dimensions (fr_value x), cf_payload (fr_value x))) <$> rg_factors reg5 !! 1 =
               Some (demo_dims, cf_payload (demo_factor 1 (1 # 2) FCandidate))) by (by vm_compute).
  destruct (load_active_publication_q reg5 PmPublished) as [old|] eqn:Eo; [|discriminate Hold]. apply (inj Some) in Hold.
  destruct (rg_factors reg5 !! 1) as [x|] eqn:Ex; [|discriminate Hx]. apply (inj Some) in Hx. apply pair_equal_spec in Hx as [Hxd Hxp].
  destruct tightened as [s' [[o|]|]] eqn:E; [|discriminate Hok..]. apply bool_decide_eq_true in Hok. cbn [fst] in *.
  rewrite <- Hxp. destruct (rg_factors (cr_registry s') !! 3) as [row|] eqn:Hrow; [|discriminate Hd].
  exists row. split; [reflexivity|]. apply (inj Some) in Hd. unfold tightened in E.
  refine (proj2 (unapproved_publication_never_relaxes (fun _ => True) true reg5 reg5 (service reg5) (operator "tighten") (request [3] "k2") 102 12 8000
    s' o old 1 3 x row (service_registry reg5) (reg5_reachable true) E eq_refl Eo _ Ex _ Hrow _));
    [rewrite Hold; apply list_elem_of_here|rewrite Hok; apply list_elem_of_here|exact (eq_trans Hd (eq_sym Hxd))].
Defined.

Lemma serialised_factors_follow_lifecycle_witness :
  exists row', rg_factors (cr_registry tightened.1) !! 3 = Some row' /\ can_transition FShadow (cf_status (fr_value row')) = true.
Proof.
  assert (Hok : match tightened.2 with Ok (PoPublished _) => true | _ => false end = true) by (by vm_compute).
  assert (Hx : status_of reg5 3 = Some FShadow) by (by vm_compute). unfold status_of in Hx.
  destruct (rg_factors reg5 !! 3) as [x|] eqn:Ex; [|discriminate Hx]. apply (inj Some) in Hx.
  destruct tightened as [s' [[o|]|]] eqn:E; [|discriminate Hok..]. apply publish_internal_ok in E as (_ & _ & p & audit & _ & _ & _ & _ & _ & _ & Hp).
  cbn [service cr_registry] in Hp.
  destruct (serialised_factors_follow_lifecycle (fun _ => True) reg5 8000 reg5 (cr_registry s') 3 x (reg5_reachable true)
    ltac:(eapply tx_publish; exact Hp) Ex) as (row' & Hr & _ & Hc). exists row'. split; [exact Hr|]. by rewrite <- Hx.
Defined.

(** A proper rollback: back from the factor [3] to the publication of the factor [1]. *)
Definition restored := rollback_publication_q (cr_registry tightened.1) (cr_registry tightened.1) 102 101 40
  (publication_audit AePublicationRolledBack (operator "undo") 102 JNull) 9500.

Lemma tightened_reachable : reachable (fun _ => True) true (cr_registry tightened.1).
Proof.
  destruct tightened as [s' [o|]] eqn:E; [|exfalso; assert (is_ok tightened.2 = true) as H by (by vm_compute); by rewrite E in H].
  by apply (published_reachable _ _ _ _ _ _ _ _ _ _ E), reg5_reachable.
Qed.

Lemma rollback_takes_effect_witness :
  exists r' p, load_active_publication_q r' PmPublished = Some p /\ cp_publication_id p = 101.
Proof.
  assert (Hok : is_ok restored = true) by (by vm_compute). unfold restored in Hok.
  destruct (rollback_publication_q _ _ _ _ _ _ _) as [[r' o]|] eqn:E; [|done].
  destruct (rollback_takes_effect _ _ _ _ _ _ _ _ _ _ tightened_reachable E) as (t & Ht & Ha & Hid & _).
  assert (Hm : pr_mode <$> rg_publications (cr_registry tightened.1) !! 101 = Some PmPublished) by (by vm_compute).
  rewrite Ht in Hm. apply (inj Some) in Hm.
  exists r', (ao_value o). split; [rewrite <- Hm; exact Ha|exact Hid].
Defined.

Definition live (r : Registry (DO := ExactQ.exactQ)) : FactorRefresher (W := Registry) := new_refresher r true 0.

(** The published factor reaches the live snapshot when its window is in whole microseconds. *)
Lemma published_factors_are_served_witness :
  sn_publication_id (slot (refresh_mode (live (cr_registry tightened.1)) PmPublished 9000).1 PmPublished) = Some 102.
Proof.
  assert (Hok : match tightened.2 with Ok (PoPublished _) => true | _ => false end = true) by (by vm_compute).
  assert (Hrow : (fun row => (verify_stored_hashes row, fr_value row)) <$> rg_factors (cr_registry tightened.1) !! 3 =
                 Some (Ok (set_status (fr_value (row 3 (1 # 10) 100000000)) FPublished), set_status (fr_value (row 3 (1 # 10) 100000000)) FPublished)) by (by vm_compute).
  destruct tightened as [s' [[o|]|]] eqn:E; [|discriminate Hok..]. cbn [fst] in *.
  unfold tightened, publish in E.
  refine (proj2 (proj1 (published_factors_are_served (fun _ => True) true reg5 reg5 reg5 (service reg5) (operator "tighten") PmPublished (request [3] "k2")
    102 12 8000 s' o (live (cr_registry s')) 9000 _ E eq_refl _) _ _ _)); [rewrite service_registry; exact (reg5_reachable true)|discriminate|reflexivity..|].
  intros i x Hi Hx. apply list_elem_of_singleton in Hi. subst i. rewrite Hx in Hrow. apply (inj Some), pair_equal_spec in Hrow as [Hv Hf].
  rewrite Hv, Hf. split; [reflexivity|]. apply compile_factor_iff with (s := snapshot_neutral 0). by vm_compute.
Defined.

(** The same publication, sent at a time with nanoseconds: no refresh ever serves it. *)
Definition unaligned := publish reg5 reg5 reg5 (service reg5) (operator "tighten") (request [3] "k2") 102 12 8001.

Lemma unaligned_publication_is_refused :
  is_ok unaligned.2 = true /\
  (refresh_mode (live (cr_registry unaligned.1)) PmPublished 9000).2 = Err (ReBuild (SbPublicationHashMismatch "blake3:8000" "blake3:8001")) /\
  verify (load_audit_chain_q (rg_audit (cr_registry unaligned.1)) 1 100) <> Ok tt.
Proof. split; [by vm_compute|]. split; by vm_compute. Qed.
End GovernanceDemo.
