(* ===== verification/Execution.v ===== *)
(** * Order execution: [oxide-arb-core/src/execution/{fsm,venue_guard,validator,plan_builder,
    clob_outcome,fok_strategy,dispatcher,market_inflight}.rs]

    The kill switch with its emergency classes, the pre-submit validation against the live book,
    the plan of an order, the mapping of venue replies to outcomes and the fill-or-kill strategy.
    Metrics, alerts and log lines are left out; clock readings and the venue are arguments, fees
    are those of the fee snapshot in force. *)

From S2P Require Import Prelude Decimal Micro Config Domain Fees Book.

(** ** The kill switch *)

(** [core/execution/fsm.rs:28-35] `EmergencyClass` *)
Inductive EmergencyClass := VenueFault | ReservationFault | PersistenceFault.

#[global] Instance EmergencyClass_eq_dec : EqDecision EmergencyClass.
Proof. solve_decision. Defined.

(** [core/execution/fsm.rs:39-41] `EmergencyClass::allows_auto_recover` *)
Definition allows_auto_recover (c : EmergencyClass) : bool :=
  match c with VenueFault => true | _ => false end.

(** [core/execution/fsm.rs:44-46] `EmergencyClass::requires_operator_ack` *)
Definition requires_operator_ack (c : EmergencyClass) : bool := negb (allows_auto_recover c).

(** [core/execution/fsm.rs:61-72] `EmergencyAckError` *)
Inductive EmergencyAckError :=
| NotInEmergency
| AutoRecoverable
| BlockingTrades (count : Z)
| RiskBlocking
| AckGate (error : string).

(** [core/execution/fsm.rs:103-109] `ExecutionFSM` *)
Record ExecutionFSM := {
  fsm_emergency : bool;
  fsm_class : EmergencyClass;
  fsm_last_reason : option string
}.

(** [core/execution/fsm.rs:112-120] `ExecutionFSM::new` *)
Definition new_fsm : ExecutionFSM := {| fsm_emergency := false; fsm_class := VenueFault; fsm_last_reason := None |}.

(** [core/execution/fsm.rs:123-141] `ExecutionFSM::enter_emergency` *)
Definition enter_emergency (f : ExecutionFSM) (class : EmergencyClass) (reason : string) : ExecutionFSM :=
  {| fsm_emergency := true; fsm_class := class; fsm_last_reason := Some reason |}.

(** [core/execution/fsm.rs:147-166] `ExecutionFSM::enter_planned_halt` *)
Definition enter_planned_halt (f : ExecutionFSM) (reason : string) : ExecutionFSM :=
  {| fsm_emergency := true; fsm_class := VenueFault; fsm_last_reason := Some reason |}.

(** [core/execution/fsm.rs:168-173] `ExecutionFSM::clear_emergency` *)
Definition clear_emergency (f : ExecutionFSM) : ExecutionFSM :=
  {| fsm_emergency := false; fsm_class := VenueFault; fsm_last_reason := None |}.

(** [core/execution/fsm.rs:195-216] `ExecutionFSM::try_auto_recover` *)
Definition try_auto_recover (f : ExecutionFSM) (blocking_count : Z) (risk_allows_trading : bool) : ExecutionFSM * bool :=
  if negb (fsm_emergency f) then (f, false)
  else if negb (allows_auto_recover (fsm_class f)) then (f, false)
  else if 0 <? blocking_count then (f, false)
  else if risk_allows_trading then (clear_emergency f, true)
  else (f, false).

(** [core/execution/fsm.rs:219-247] `ExecutionFSM::ack_operator_emergency`; [refreshed] is the
    number of blocking trades after the refresh, or its error *)
Definition ack_operator_emergency (f : ExecutionFSM) (refreshed : Result Z string) (risk_allows_trading : bool) : ExecutionFSM * Result EmergencyClass EmergencyAckError :=
  if negb (fsm_emergency f) then (f, Err NotInEmergency)
  else if allows_auto_recover (fsm_class f) then (f, Err AutoRecoverable)
  else match refreshed with
       | Err e => (f, Err (AckGate e))
       | Ok count =>
           if 0 <? count then (f, Err (BlockingTrades count))
           else if negb risk_allows_trading then (f, Err RiskBlocking)
           else (clear_emergency f, Ok (fsm_class f))
       end.

(** ** Orders and outcomes *)

Abbreviation OrderId := string (only parsing).
Abbreviation ExecutionId := Z (only parsing).

(** [models/enums/order.rs:9-22] `OrderStatus` *)
Inductive OrderStatus := OsFilled | OsPartiallyFilled | OsRejected | OsCancelled | OsOpen | OsExpired.

(** [models/enums/order.rs:24-35] `OrderStatus::fmt` *)
Definition order_status_str (s : OrderStatus) : string :=
  match s with
  | OsFilled => "filled" | OsPartiallyFilled => "partially_filled" | OsRejected => "rejected"
  | OsCancelled => "cancelled" | OsOpen => "open" | OsExpired => "expired"
  end.

Section Outcomes.
Context {DO : DecimalOps}.

(** [models/domain/trading/order.rs:53-63] `OrderResponse` *)
Record OrderResponse := {
  resp_order_id : OrderId;
  resp_status : OrderStatus;
  resp_tx_hash : option string;
  resp_filled_shares : D;
  resp_avg_fill_price : option D
}.

(** [models/enums/execution.rs:11-33] `ExecutionOutcome` *)
Inductive ExecutionOutcome :=
| EoFilled (order_id : OrderId) (filled_shares : D) (avg_fill_price : option D) (fee_paid : D)
    (tx_hash : option string) (mode : ExecutionMode) (latency_ms : Z)
| EoMiss (reason : string) (mode : ExecutionMode)
| EoFailed (error : string) (mode : ExecutionMode)
| EoUnknown (reason : string) (mode : ExecutionMode).

(** [models/domain/trading/execution.rs:40-57] `ExecutionPlan` *)
Record ExecutionPlan := {
  plan_execution_id : ExecutionId;
  plan_opportunity_id : OpportunityId;
  plan_market_id : MarketId;
  plan_event_id : EventId;
  plan_token_id : TokenId;
  plan_side : Side;
  plan_shares : D;
  plan_limit_price : D;
  plan_estimated_cost : D;
  plan_estimated_fee : D;
  plan_category : MarketCategory;
  plan_neg_risk : bool;
  plan_reservation_id : ReservationId;
  plan_detected_at : Time;
  plan_planned_at : Time
}.

Context {DP : DecimalPow} (fees : FeeSnapshot).

(** [mode != ExecutionMode::Live]. *)
Definition not_live (mode : ExecutionMode) : bool := match mode with Live => false | DryRun | Paper => true end.

(** [core/execution/clob_outcome.rs:56-65] `map_order_response`, the quote it asks for *)
Definition fill_quote_input (plan : ExecutionPlan) (mode : ExecutionMode) (token_id : TokenId) (shares price : D) : FeeQuoteInput := {|
  fq_market_id := plan_market_id plan; fq_token_id := token_id; fq_category := plan_category plan;
  fq_side := plan_side plan; fq_liquidity_role := Taker; fq_shares := shares; fq_price := price;
  fq_allow_category_fallback := not_live mode |}.

(** [core/execution/clob_outcome.rs:19-102] `map_order_response` *)
Definition map_order_response (resp : OrderResponse) (plan : ExecutionPlan) (mode : ExecutionMode)
    (latency_ms : Z) (token_id : TokenId) : ExecutionOutcome :=
  match resp_status resp with
  | OsPartiallyFilled =>
      EoUnknown ("FOK partial fill " +:+ dshow (resp_filled_shares resp) +:+ " of " +:+ dshow (plan_shares plan)
                 +:+ " shares for order " +:+ resp_order_id resp) mode
  | OsFilled =>
      if dleb (resp_filled_shares resp) d0
      then EoMiss ("order " +:+ resp_order_id resp +:+ " returned zero fill") mode
      else if dltb (resp_filled_shares resp) (plan_shares plan)
      then EoUnknown ("FOK underfill " +:+ dshow (resp_filled_shares resp) +:+ " of " +:+ dshow (plan_shares plan)
                      +:+ " shares for order " +:+ resp_order_id resp) mode
      else
        let avg_fill_price := match resp_avg_fill_price resp with
                              | Some p => Some p
                              | None => Some (plan_limit_price plan)
                              end in
        let fill_price := unwrap_or avg_fill_price (plan_limit_price plan) in
        match quote_for_mode fees mode (fill_quote_input plan mode token_id (resp_filled_shares resp) fill_price) with
        | Err e => EoFailed (fee_quote_error_str e) mode
        | Ok quote => EoFilled (resp_order_id resp) (resp_filled_shares resp) avg_fill_price (fee_usd quote)
                        (resp_tx_hash resp) mode latency_ms
        end
  | OsRejected | OsCancelled | OsExpired =>
      EoMiss ("order " +:+ resp_order_id resp +:+ " " +:+ order_status_str (resp_status resp)) mode
  | OsOpen =>
      EoMiss ("order " +:+ resp_order_id resp +:+ " resting open — FOK expected immediate fill or kill") mode
  end.

(** What the venue answers to an order: a response, an error, or nothing in time. *)
Inductive VenueReply :=
| Responded (resp : OrderResponse) (latency_ms : Z)
| VenueError (error : string)
| TimedOut (timeout_ms : Z).

(** [models/domain/trading/order.rs:15-18] `OrderAmount` *)
Inductive OrderAmount := AmountUsd (usd : D) | AmountShares (shares : D).

(** [models/domain/trading/order.rs:40-49] `OrderRequest`, always fill-or-kill *)
Record OrderRequest := {
  req_market_id : MarketId;
  req_token_id : TokenId;
  req_side : Side;
  req_amount : OrderAmount;
  req_price : D;
  req_neg_risk : bool
}.

(** [core/execution/fok_strategy.rs:98-109] `FokOrderStrategy::execute_live_fok`, the request *)
Definition fok_request (plan : ExecutionPlan) : OrderRequest := {|
  req_market_id := plan_market_id plan;
  req_token_id := plan_token_id plan;
  req_side := plan_side plan;
  req_amount := match plan_side plan with
                | Buy => AmountUsd (plan_estimated_cost plan)
                | Sell => AmountShares (plan_shares plan)
                end;
  req_price := plan_limit_price plan;
  req_neg_risk := plan_neg_risk plan |}.

(** [core/execution/fok_strategy.rs:84-154] `FokOrderStrategy::execute_live_fok`; without a client
    the order is not sent *)
Definition live_outcome (plan : ExecutionPlan) (reply : option VenueReply) : ExecutionOutcome :=
  match reply with
  | None => EoFailed "ClobClient unavailable in Live mode" Live
  | Some (Responded resp latency_ms) => map_order_response resp plan Live latency_ms (plan_token_id plan)
  | Some (VenueError e) => EoFailed e Live
  | Some (TimedOut ms) => EoUnknown ("CLOB FOK order timeout after " +:+ pretty ms +:+ "ms") Live
  end.

(** [core/execution/dispatcher.rs:61-85] `Dispatcher::dry_run` *)
Definition dry_run (plan : ExecutionPlan) : ExecutionOutcome :=
  EoFilled ("dry-" +:+ pretty (plan_execution_id plan)) (plan_shares plan) (Some (plan_limit_price plan))
    (calculate fees (plan_shares plan) (plan_limit_price plan) (plan_category plan) (plan_market_id plan) (plan_token_id plan))
    None DryRun 0.

(** [core/execution/dispatcher.rs:124-139] `Dispatcher::has_sufficient_depth_at_price` *)
Definition has_sufficient_depth_at_price (book : option BookSnapshot) (side : Side) (limit_price buy_budget sell_shares : D) : bool :=
  match book with
  | None => false
  | Some b =>
      match side with
      | Buy => dleb buy_budget (ask_notional_up_to (bs_asks b) limit_price)
      | Sell => dleb sell_shares (bid_depth_down_to (bs_bids b) limit_price)
      end
  end.

(** [core/execution/dispatcher.rs:87-122] `Dispatcher::paper_trade` *)
Definition paper_trade (plan : ExecutionPlan) (book : option BookSnapshot) : ExecutionOutcome :=
  if negb (has_sufficient_depth_at_price book (plan_side plan) (plan_limit_price plan) (plan_estimated_cost plan) (plan_shares plan))
  then EoMiss ("paper: insufficient depth for " +:+ dshow (plan_estimated_cost plan) +:+ " at "
               +:+ dshow (plan_limit_price plan)) Paper
  else EoFilled ("paper-" +:+ pretty (plan_execution_id plan)) (plan_shares plan) (Some (plan_limit_price plan))
         (calculate fees (plan_shares plan) (plan_limit_price plan) (plan_category plan) (plan_market_id plan) (plan_token_id plan))
         None Paper 5.
End Outcomes.

(** ** Validation against the live book *)

Section Validation.
Context {DO : DecimalOps}.

(** [models/domain/market/book.rs:331-339] `TopOfBook` *)
Record TopOfBook := {
  yes_best_bid : option D;
  yes_best_ask : option D;
  no_best_bid : option D;
  no_best_ask : option D;
  top_max_staleness_ms : Z;
  yes_version : Z;
  no_version : Z
}.

(** [core/pipeline/book_store.rs:198-217] `BookStore::top_of_book_tokens`, from the two books *)
Definition top_of_book (yes no : option BookSnapshot) (now_ms : Z) : option TopOfBook :=
  match yes, no with
  | Some y, Some n => Some {|
      yes_best_bid := price_decimal <$> head (bs_bids y);
      yes_best_ask := price_decimal <$> head (bs_asks y);
      no_best_bid := price_decimal <$> head (bs_bids n);
      no_best_ask := price_decimal <$> head (bs_asks n);
      top_max_staleness_ms := Z.max (sat_sub_u64 now_ms (bs_timestamp_ms y)) (sat_sub_u64 now_ms (bs_timestamp_ms n));
      yes_version := bs_version y;
      no_version := bs_version n |}
  | _, _ => None
  end.

(** [core/execution/validator.rs:19-22] `ValidatorParams`, with the ladder of the classifier *)
Record ValidatorParams := {
  vp_max_slippage_bps : D;
  vp_max_book_to_order_ms : Z;
  vp_ladder : StalenessThresholds
}.

(** [models/domain/trading/execution.rs:115-120] `ValidationResult` *)
Record ValidationResult := {
  val_current_price : D;
  val_staleness : StalenessLevel;
  val_slippage_bps : D
}.

Definition staleness_debug (s : StalenessLevel) : string :=
  match s with Fresh => "Fresh" | Acceptable => "Acceptable" | Stale => "Stale" | Expired => "Expired" end.

Definition tradeable (s : StalenessLevel) : bool :=
  match s with Fresh | Acceptable => true | Stale | Expired => false end.

(** [core/execution/validator.rs:122-128] `Validator::validate`, the slippage *)
Definition slippage_of (current_price entry_price : D) : D :=
  if dltb d0 entry_price
  then dround_dp 0 (dmul (ddiv (dabs (dsub current_price entry_price)) entry_price) (dlit 10000 0))
  else d0.

(** [error/trading.rs:11-12] `TradingError::Validation`, its message *)
Definition validation_error (detail : string) : string := "Order validation failed: " +:+ detail.

(** [core/execution/validator.rs:78-144] `Validator::validate` *)
Definition validate (p : ValidatorParams) (top : option TopOfBook) (side : Side) (entry_price : D)
    (book_yes_version book_no_version : Z) : Result ValidationResult string :=
  match top with
  | None => Err (validation_error "book not available")
  | Some t =>
      if (yes_version t <? book_yes_version) || (no_version t <? book_no_version)
      then Err (validation_error "book version regressed since detection")
      else if vp_max_book_to_order_ms p <? top_max_staleness_ms t
      then Err (validation_error ("book age " +:+ pretty (top_max_staleness_ms t) +:+ "ms exceeds SLO-2 budget "
                +:+ pretty (vp_max_book_to_order_ms p) +:+ "ms"))
      else
        let level := classify_staleness (vp_ladder p) (top_max_staleness_ms t) in
        if negb (tradeable level) then Err (validation_error ("book staleness " +:+ staleness_debug level))
        else
          match (match side with Buy => yes_best_ask t | Sell => yes_best_bid t end) with
          | None => Err (validation_error "no price on relevant side")
          | Some current_price =>
              let slippage_bps := slippage_of current_price entry_price in
              if dltb (vp_max_slippage_bps p) slippage_bps
              then Err (validation_error ("slippage " +:+ dshow slippage_bps +:+ "bps exceeds max "
                        +:+ dshow (vp_max_slippage_bps p) +:+ "bps"))
              else Ok {| val_current_price := current_price; val_staleness := level;
                         val_slippage_bps := slippage_bps |}
          end
  end.

(** [core/execution/plan_builder.rs:42-49] `PlanBuilder::shares_for_size` *)
Definition shares_for_size (entry_price approved_size : D) : D :=
  if dleb entry_price d0 then d0
  else
    let raw := ddiv approved_size entry_price in
    let lot_scale := dlit 100 0 in
    ddiv (dfloor (dmul raw lot_scale)) lot_scale.

(** [core/execution/plan_builder.rs:52-74] `PlanBuilder::preview_fee` *)
Definition preview_fee {DP : DecimalPow} (fees : FeeSnapshot) (mode : ExecutionMode) (opp : Opportunity) (approved_size : D) : Result D string :=
  let input := {|
    fq_market_id := opp_market_id opp; fq_token_id := opp_token_id opp; fq_category := opp_category opp;
    fq_side := opp_side opp; fq_liquidity_role := Taker;
    fq_shares := shares_for_size (opp_entry_price opp) approved_size; fq_price := opp_entry_price opp;
    fq_allow_category_fallback := not_live mode |} in
  match quote_for_mode fees mode input with
  | Ok quote => Ok (fee_usd quote)
  | Err e => Err (fee_quote_error_str e)
  end.
End Validation.

(** ** Facts *)

(** Recovery without an operator needs a venue fault, no blocking trade and a risk engine that
    allows trading, and it leaves nothing of the emergency behind. *)
Lemma auto_recovery_guarded f blocking allows f' :
  try_auto_recover f blocking allows = (f', true) ->
  fsm_emergency f = true /\ fsm_class f = VenueFault /\ blocking <= 0 /\ allows = true /\ f' = new_fsm.
Proof.
  unfold try_auto_recover. destruct (fsm_emergency f), (fsm_class f); simpl; try done.
  destruct (Z.ltb_spec 0 blocking), allows; intros; by simplify_eq.
Qed.

(** The class of a later emergency replaces that of the one in force: a venue fault or a planned
    halt after a persistence fault lets execution resume without an operator. *)
Lemma later_fault_enables_auto_recovery f r1 r2 :
  let persistence := enter_emergency f PersistenceFault r1 in
  (try_auto_recover persistence 0 true).2 = false /\
  (try_auto_recover (enter_emergency persistence VenueFault r2) 0 true).2 = true /\
  (try_auto_recover (enter_planned_halt persistence r2) 0 true).2 = true.
Proof. done. Qed.

Section Facts.
Context {DO : DecimalOps}.

(** Validation reads the prices of the YES token only: the NO prices never matter, also for an
    order that buys the NO token. *)
Lemma validation_ignores_no_prices p top side entry vy vn bid ask :
  validate p (Some top) side entry vy vn =
  validate p (Some {| yes_best_bid := yes_best_bid top; yes_best_ask := yes_best_ask top;
                      no_best_bid := bid; no_best_ask := ask;
                      top_max_staleness_ms := top_max_staleness_ms top;
                      yes_version := yes_version top; no_version := no_version top |}) side entry vy vn.
Proof. done. Qed.

Context {DP : DecimalPow}.

(** A fully filled Live order of a market without a fee schedule is reported as failed, although
    the venue has executed it. *)
Lemma filled_without_schedule_is_failed fees resp plan latency token :
  resp_status resp = OsFilled -> dleb (resp_filled_shares resp) d0 = false ->
  dltb (resp_filled_shares resp) (plan_shares plan) = false ->
  market_schedules fees !! plan_market_id plan = None ->
  exists e, map_order_response fees resp plan Live latency token = EoFailed e Live.
Proof.
  intros Hs Hp Hf Hn. unfold map_order_response. rewrite Hs, Hp, Hf. cbv zeta.
  unfold quote_for_mode, quote. simpl. rewrite Hn. eauto.
Qed.

(** The shares of a plan are whole hundredths that cost no more than the approved size, before
    rounding of the division. *)
Lemma shares_for_size_le {DL : DecimalLaws DO} entry size :
  (0 < dval entry)%Q -> (0 <= dval size)%Q ->
  (dval (shares_for_size entry size) <= rnd (rnd (rnd (dval size / dval entry) * 100) / 100))%Q.
Proof.
  intros He Hs. unfold shares_for_size.
  assert (dleb entry d0 = false) as -> by (dbool; rewrite dval_d0; done).
  assert (dval (dlit 100 0) == 100)%Q as E100 by (rewrite dval_lit by lia; done).
  rewrite ddiv_spec, E100 by (rewrite E100; done). apply rnd_mono.
  apply Qmult_le_compat_r; [|done]. rewrite dfloor_spec. eapply Qle_trans; [apply Qfloor_le|].
  rewrite dmul_spec, E100. apply Qle_lteq. right. apply rnd_proper. rewrite ddiv_spec; [done|].
  intros E. rewrite E in He. by apply Qlt_irrefl in He.
Qed.
End Facts.
