(* ===== verification/ExecutionPipeline.v ===== *)
(** * The execution pipeline: [oxide-arb-core/src/execution/execution_pipeline.rs]

    One scored opportunity from the kill switch to the recorded outcome: validation against the
    book, the execution-quality factor, the risk engine with its sizing, the fee preview, the sized
    re-check, the decision context, reservation, durable intent, pre-submit markers, the venue,
    and the bookkeeping of its reply.  The risk engine, the fee schedules, the published factors
    and the reservation book are the modelled components; the trade store and the venue are an
    interface that may fail at any call.  The execution mode and the hot-swapped snapshots are
    those of the start of the call.  Rejection audit rows, shadow decisions, metrics and log lines
    are left out.  [ex_log] is a history variable: the calls that matter for ordering, latest
    first. *)

From S2P Require Import Prelude Decimal Micro Config Domain RiskTypes CircuitBreaker Accounting Ledger Bloom Blacklist Drawdown.
From S2P Require Import Context Sizing Checks Pipeline Interfaces Reconciliation Engine Recovery EngineSafety.
From S2P Require Import Exposure Fees FactorModel Factors Book Execution.

(** [models/enums/common.rs:155-180] `TradeState` *)
Inductive TradeState :=
| TsIntent | TsSubmitted | TsFillObserved | TsMissObserved | TsFailObserved | TsFillProcessing
| TsMissProcessing | TsFailProcessing | TsSettled | TsMissed | TsFailed | TsOrphaned.

Section Data.
Context {DO : DecimalOps}.

(** [models/domain/trading/trade.rs:154-173] `NewTrade`; the serialized snapshot is left out *)
Record NewTrade := {
  nt_trade_id : TradeId;
  nt_execution_id : ExecutionId;
  nt_reservation_id : ReservationId;
  nt_opportunity_id : OpportunityId;
  nt_market_id : MarketId;
  nt_event_id : EventId;
  nt_token_id : TokenId;
  nt_side : Side;
  nt_shares : D;
  nt_price : D;
  nt_cost_usd : D;
  nt_fee_usd : D;
  nt_detected_edge_bps : option D;
  nt_detected_profit_usd : option D;
  nt_category : MarketCategory;
  nt_execution_mode : ExecutionMode
}.

(** [models/domain/trading/trade.rs:181-193] `TradeObservation` *)
Record TradeObservation := {
  ob_state : TradeState;
  ob_shares : D;
  ob_price : D;
  ob_cost_usd : D;
  ob_fee_usd : D;
  ob_order_id : option OrderId;
  ob_tx_hash : option string;
  ob_net_profit_usd : option D;
  ob_latency_ms : option Z;
  ob_error_message : option string
}.

(** [models/domain/trading/execution.rs:28-36] `fill_expected_net_profit` *)
Definition fill_expected_net_profit (fused_p filled_shares cost_usd fee_usd : D) : D :=
  dsub (dsub (dmul filled_shares fused_p) cost_usd) fee_usd.

(** [models/domain/trading/execution.rs:140-157] `ResolvedOutcome` *)
Record ResolvedOutcome := {
  ro_business_outcome : TradeBusinessOutcome;
  ro_filled_shares : D;
  ro_avg_fill_price : D;
  ro_cost_usd : D;
  ro_fee_usd : D;
  ro_net_profit_usd : option D;
  ro_order_id : option OrderId;
  ro_tx_hash : option string;
  ro_latency_ms : option Z;
  ro_error_message : option string
}.

Definition unfilled (outcome : TradeBusinessOutcome) (entry_price : D) (message : string) : ResolvedOutcome := {|
  ro_business_outcome := outcome; ro_filled_shares := d0; ro_avg_fill_price := entry_price;
  ro_cost_usd := d0; ro_fee_usd := d0; ro_net_profit_usd := None; ro_order_id := None;
  ro_tx_hash := None; ro_latency_ms := None; ro_error_message := Some message |}.

(** [models/domain/trading/execution.rs:161-222] `ResolvedOutcome::try_resolve`; [fused_p] is the
    frozen probability as a decimal *)
Definition try_resolve (outcome : ExecutionOutcome) (entry_price fused_p : D) : option ResolvedOutcome :=
  match outcome with
  | EoFilled order_id filled_shares avg_fill_price fee_paid tx_hash _ latency_ms =>
      let price := unwrap_or avg_fill_price entry_price in
      let cost := dmul filled_shares price in
      Some {| ro_business_outcome := Success; ro_filled_shares := filled_shares; ro_avg_fill_price := price;
              ro_cost_usd := cost; ro_fee_usd := fee_paid;
              ro_net_profit_usd := Some (fill_expected_net_profit fused_p filled_shares cost fee_paid);
              ro_order_id := Some order_id; ro_tx_hash := tx_hash; ro_latency_ms := Some latency_ms;
              ro_error_message := None |}
  | EoMiss reason _ => Some (unfilled Miss entry_price reason)
  | EoFailed error _ => Some (unfilled Failed entry_price error)
  | EoUnknown _ _ => None
  end.

(** [models/domain/trading/execution.rs:226-232] `ResolvedOutcome::observed_state` *)
Definition observed_state (r : ResolvedOutcome) : TradeState :=
  match ro_business_outcome r with Success => TsFillObserved | Miss => TsMissObserved | Failed => TsFailObserved end.

(** [models/domain/trading/execution.rs:236-251] `ResolvedOutcome::to_observation` *)
Definition to_observation (r : ResolvedOutcome) : TradeObservation := {|
  ob_state := observed_state r; ob_shares := ro_filled_shares r; ob_price := ro_avg_fill_price r;
  ob_cost_usd := ro_cost_usd r; ob_fee_usd := ro_fee_usd r; ob_order_id := ro_order_id r;
  ob_tx_hash := ro_tx_hash r; ob_net_profit_usd := ro_net_profit_usd r;
  ob_latency_ms := (fun ms => unwrap_or (to_i32 ms) i32_max) <$> ro_latency_ms r;
  ob_error_message := ro_error_message r |}.

(** What the pipeline asks of the trade repository, the chain client and the venue.  [None]
    stands for a client that is not configured. *)
Class ExecutionWorld (W : Type) := {
  create_trade : W -> NewTrade -> W * Result unit string;
  position_balance : W -> TokenId -> W * option (Result D string);
  set_pre_submit_ctf_balance : W -> TradeId -> D -> W * Result bool string;
  mark_submitted : W -> TradeId -> Time -> W * Result bool string;
  mark_orphaned : W -> TradeId -> W * Result bool string;
  mark_observed : W -> TradeId -> TradeObservation -> W * Result unit string;
  refresh_integrity : W -> W * Result unit string;
  place_order : W -> OrderRequest -> W * option VenueReply;
  load_book : W -> TokenId -> option BookSnapshot
}.

(** One scored opportunity with what this call reads of the configuration, the metrics, the
    hot-swapped snapshots, the clocks ([rq_instant] is the monotonic one, in seconds) and the
    identifier generator. *)
Record Request {M : Type} := {
  rq_mode : ExecutionMode;
  rq_now : Time;
  rq_now_ms : Z;
  rq_instant : Z;
  rq_scored : ScoredOpportunity;
  rq_execution_id : ExecutionId;
  rq_reservation_id : ReservationId;
  rq_trade_id : TradeId;
  rq_validator : ValidatorParams;
  rq_published : ControlFactorSnapshot;
  rq_fees : FeeSnapshot;
  rq_metrics : M;
  rq_timings : Timings;
  rq_sized_timings : Timings;
  rq_neg_risk : option bool;
  rq_redeem : RedeemRoutingPolicy;
  rq_integrity : TradeIntegritySnapshot;
  rq_context_eligible : bool;
  rq_context_written : bool;
  rq_snapshot_json : Result unit string;
  rq_fused_p : D
}.

(** [scored.opportunity] *)
Definition rq_opportunity {M} (rq : Request (M := M)) : Opportunity := opportunity (rq_scored rq).

(** [models/domain/trading/execution.rs:60-67] `ExecutionResult`, without its clock readings *)
Inductive ExecutionResult :=
| Completed_ (outcome : ExecutionOutcome)
| Rejected (stage reason : string).

(** [core/execution/execution_pipeline.rs:132-137] `PreparedDispatch` *)
Record PreparedDispatch := { pd_trade_id : TradeId; pd_plan : ExecutionPlan; pd_reservation : ReservationHandle }.

(** Calls recorded for the ordering theorem. *)
Inductive Effect :=
| FxReserved (id : ReservationId)
| FxReleased (id : ReservationId)
| FxCreated (id : TradeId)
| FxSubmitted (id : TradeId)
| FxVenue (id : TradeId) (plan : ExecutionPlan).
End Data.

(** ** The pipeline *)

Section Pipeline.
Context {DO : DecimalOps} {DP : DecimalPow} {CH : Chrono} {M P W : Type}.
Context {RM : RiskMetrics M} {RP : RiskPersistence P} {EW : ExecutionWorld W}.
Implicit Types rq : Request (M := M).

(** [core/execution/execution_pipeline.rs:105-130] `ExecutionPipeline`, what it can change *)
Record Exec := {
  ex_world : W;
  ex_risk : Engine (W := P);
  ex_fsm : ExecutionFSM;
  ex_capital : CapitalManager;
  ex_inflight : gset MarketId;
  ex_metrics_stale : bool;
  ex_relay_rings : Z;
  ex_reconcile_rings : Z;
  ex_log : list Effect
}.

Definition set_world (x : Exec) w : Exec := {|
  ex_world := w; ex_risk := ex_risk x; ex_fsm := ex_fsm x; ex_capital := ex_capital x; ex_inflight := ex_inflight x; ex_metrics_stale := ex_metrics_stale x; ex_relay_rings := ex_relay_rings x; ex_reconcile_rings := ex_reconcile_rings x; ex_log := ex_log x |}.
Definition set_risk (x : Exec) e : Exec := {|
  ex_world := ex_world x; ex_risk := e; ex_fsm := ex_fsm x; ex_capital := ex_capital x; ex_inflight := ex_inflight x; ex_metrics_stale := ex_metrics_stale x; ex_relay_rings := ex_relay_rings x; ex_reconcile_rings := ex_reconcile_rings x; ex_log := ex_log x |}.
Definition set_capital (x : Exec) cm : Exec := {|
  ex_world := ex_world x; ex_risk := ex_risk x; ex_fsm := ex_fsm x; ex_capital := cm; ex_inflight := ex_inflight x; ex_metrics_stale := ex_metrics_stale x; ex_relay_rings := ex_relay_rings x; ex_reconcile_rings := ex_reconcile_rings x; ex_log := ex_log x |}.
Definition set_inflight (x : Exec) ms : Exec := {|
  ex_world := ex_world x; ex_risk := ex_risk x; ex_fsm := ex_fsm x; ex_capital := ex_capital x; ex_inflight := ms; ex_metrics_stale := ex_metrics_stale x; ex_relay_rings := ex_relay_rings x; ex_reconcile_rings := ex_reconcile_rings x; ex_log := ex_log x |}.
Definition log (x : Exec) (fx : Effect) : Exec := {|
  ex_world := ex_world x; ex_risk := ex_risk x; ex_fsm := ex_fsm x; ex_capital := ex_capital x; ex_inflight := ex_inflight x; ex_metrics_stale := ex_metrics_stale x; ex_relay_rings := ex_relay_rings x; ex_reconcile_rings := ex_reconcile_rings x; ex_log := fx :: ex_log x |}.
Definition emergency (x : Exec) (class : EmergencyClass) (reason : string) : Exec := {|
  ex_world := ex_world x; ex_risk := ex_risk x; ex_fsm := enter_emergency (ex_fsm x) class reason; ex_capital := ex_capital x; ex_inflight := ex_inflight x; ex_metrics_stale := ex_metrics_stale x; ex_relay_rings := ex_relay_rings x; ex_reconcile_rings := ex_reconcile_rings x; ex_log := ex_log x |}.
Definition ring (x : Exec) (relay reconcile : Z) : Exec := {|
  ex_world := ex_world x; ex_risk := ex_risk x; ex_fsm := ex_fsm x; ex_capital := ex_capital x; ex_inflight := ex_inflight x; ex_metrics_stale := true; ex_relay_rings := ex_relay_rings x + relay; ex_reconcile_rings := ex_reconcile_rings x + reconcile; ex_log := ex_log x |}.

(** [core/execution/market_inflight.rs:23-34] `MarketInFlightRegistry::try_acquire` *)
Definition try_acquire (active : gset MarketId) (m : MarketId) : option (gset MarketId) :=
  if decide (m ∈ active) then None else Some ({[ m ]} ∪ active).

(** [core/execution/market_inflight.rs:55-57] `InFlightGuard::drop` *)
Definition release_guard (x : Exec) (m : MarketId) : Exec := set_inflight x (ex_inflight x ∖ {[ m ]}).

(** [core/execution/execution_pipeline.rs:1002-1015] `build_probability_input` *)
Definition build_probability_input (scored : ScoredOpportunity) : ProbabilityInput :=
  let opp := opportunity scored in {|
    calibrated_win_prob := cal_fused_probability (calibration opp);
    fill_prob := to_decimal (so_fill_probability scored);
    calibration_confidence := meta_confidence (meta opp);
    prob_sample_size := cal_sample_size (calibration opp);
    model_staleness_secs := 0;
    expected_slippage_pct := dlit 5 3;
    expected_failure_cost_pct := dlit 2 3 |}.

(** [SettlementGateInput { .. }] as both checks build it *)
Definition settlement_gate rq : SettlementGateInput := {|
  sg_mode := rq_mode rq; market_neg_risk := rq_neg_risk rq; redeem_policy := Some (rq_redeem rq) |}.

(** [core/execution/execution_pipeline.rs:497-521] `ExecutionPipeline::pre_trade_risk_decision` *)
Definition pre_trade_risk_decision (x : Exec) rq (factor_context : FactorDecisionContext) : Exec * RiskDecision :=
  let '(e, d) := pre_trade_check_core (ex_risk x) (rq_now rq) (rq_timings rq) (rq_opportunity rq)
    (build_probability_input (rq_scored rq)) (rq_metrics rq) (Some factor_context)
    {| ag_settlement := settlement_gate rq; ag_integrity := rq_integrity rq |} ShortCircuit in
  (set_risk x e, d).

(** [SizedPreTradeInput { .. }] of the sized re-check *)
Definition sized_input rq (size fee : D) (factor_context : FactorDecisionContext) : SizedPreTradeInput (M := M) := {|
  sp_opportunity := rq_opportunity rq; approved_size := size; approved_fee := fee; sp_metrics := rq_metrics rq;
  sp_factor_context := Some factor_context; sp_settlement_gate := settlement_gate rq;
  sp_integrity := rq_integrity rq; sp_mode := ShortCircuit |}.

(** [core/execution/execution_pipeline.rs:971-993] `ExecutionPipeline::record_risk_denial`, its
    result *)
Definition risk_denial (d : RiskDecision) : string * string := ("risk", unwrap_or (rd_denial_reason d) "risk denied").

(** [core/execution/execution_pipeline.rs:451-495] `ExecutionPipeline::gate_sized_exposure` *)
Definition gate_sized_exposure (x : Exec) rq (size : D) (factor_context : FactorDecisionContext) : Exec * Result D (string * string) :=
  match preview_fee (rq_fees rq) (rq_mode rq) (rq_opportunity rq) size with
  | Err e => (x, Err ("fee_quote", e))
  | Ok fee =>
      let '(e, d) := pre_trade_check_sized (ex_risk x) (rq_now rq) (rq_sized_timings rq) (sized_input rq size fee factor_context) in
      (set_risk x e, if allowed d then Ok size else Err (risk_denial d))
  end.

(** [core/execution/execution_pipeline.rs:599-610] `ExecutionPipeline::traded_book` *)
Definition traded_book (x : Exec) rq : option BookSnapshot :=
  load_book (ex_world x) (if predicted_yes (meta (rq_opportunity rq)) then so_token_yes (rq_scored rq) else so_token_no (rq_scored rq)).

(** The factor decisions of this call. *)
Definition factor_context_of rq : FactorDecisionContext :=
  build_factor_context (rq_published rq) (rq_opportunity rq) (rq_now rq) (negb (not_live (rq_mode rq))).

(** The top of the two books of the market, as the validator reads it. *)
Definition live_top (x : Exec) rq : option TopOfBook :=
  top_of_book (load_book (ex_world x) (so_token_yes (rq_scored rq))) (load_book (ex_world x) (so_token_no (rq_scored rq))) (rq_now_ms rq).

(** [core/execution/execution_pipeline.rs:346-449] `ExecutionPipeline::validate_and_size`: the
    approved size, or the stage and reason of the rejection *)
Definition validate_and_size (x : Exec) rq : Exec * Result D (string * string) :=
  let opp := rq_opportunity rq in
  match validate (rq_validator rq) (live_top x rq) (opp_side opp) (opp_entry_price opp)
          (so_book_yes_version (rq_scored rq)) (so_book_no_version (rq_scored rq)) with
  | Err e => (x, Err ("validation", e))
  | Ok validation =>
      match execution_quality_violation (rq_published rq) opp (traded_book x rq) (rq_now_ms rq)
              (vp_max_slippage_bps (rq_validator rq)) (val_slippage_bps validation) with
      | Some reason => (x, Err ("factor_validation", reason))
      | None =>
          let factor_context := factor_context_of rq in
          let '(x, d) := pre_trade_risk_decision x rq factor_context in
          if negb (allowed d) then (x, Err (risk_denial d))
          else
            let size := match recommended_size d with Some s => bet_usd s | None => d0 end in
            if dleb size d0 then (x, Err ("sizing", "Kelly sizing returned zero"))
            else gate_sized_exposure x rq size factor_context
      end
  end.

(** [core/execution/execution_pipeline.rs:523-568] `capture_required_context` and
    `capture_scored_context`: whether the order may proceed *)
Definition capture_required_context (x : Exec) rq : Result unit (string * string) :=
  match load_book (ex_world x) (so_token_yes (rq_scored rq)), load_book (ex_world x) (so_token_no (rq_scored rq)) with
  | Some _, Some _ =>
      if negb (rq_context_written rq) && negb (not_live (rq_mode rq))
      then Err ("decision_context", "book decision context writer unavailable")
      else if negb (not_live (rq_mode rq)) && negb (rq_context_eligible rq)
      then Err ("decision_context", "book decision context is insufficient for Live order admission")
      else Ok tt
  | _, _ => Err ("decision_context", "book pair unavailable")
  end.

(** [let _ = self.capital_manager.release_sync(..)]: the result is ignored. *)
Definition release_ignoring (x : Exec) (h : ReservationHandle) : Exec :=
  log (set_capital x (capital_release_sync (ex_capital x) h).1) (FxReleased (rh_id h)).

(** [core/execution/plan_builder.rs:98-126] `PlanBuilder::build_plan_inner`, once the fee is known *)
Definition build_plan_inner rq (size fee : D) (h : ReservationHandle) (neg_risk : bool) : ExecutionPlan :=
  let opp := rq_opportunity rq in {|
    plan_execution_id := rq_execution_id rq;
    plan_opportunity_id := opportunity_id opp;
    plan_market_id := opp_market_id opp;
    plan_event_id := opp_event_id opp;
    plan_token_id := opp_token_id opp;
    plan_side := opp_side opp;
    plan_shares := shares_for_size (opp_entry_price opp) size;
    plan_limit_price := opp_entry_price opp;
    plan_estimated_cost := size;
    plan_estimated_fee := fee;
    plan_category := opp_category opp;
    plan_neg_risk := neg_risk;
    plan_reservation_id := rh_id h;
    plan_detected_at := detected_at opp;
    plan_planned_at := rq_now rq |}.

(** [core/execution/plan_builder.rs:76-96] `PlanBuilder::build` *)
Definition build_plan rq (size : D) (h : ReservationHandle) : Result ExecutionPlan string :=
  match preview_fee (rq_fees rq) (rq_mode rq) (rq_opportunity rq) size with
  | Err e => Err e
  | Ok fee => Ok (build_plan_inner rq size fee h (unwrap_or (rq_neg_risk rq) false))
  end.

(** [core/execution/execution_pipeline.rs:1049-1075] `build_pending_trade`, when the snapshot
    serializes *)
Definition build_pending_trade rq (plan : ExecutionPlan) : NewTrade :=
  let opp := rq_opportunity rq in {|
    nt_trade_id := rq_trade_id rq; nt_execution_id := plan_execution_id plan; nt_reservation_id := plan_reservation_id plan;
    nt_opportunity_id := opportunity_id opp; nt_market_id := opp_market_id opp; nt_event_id := opp_event_id opp;
    nt_token_id := opp_token_id opp; nt_side := opp_side opp; nt_shares := plan_shares plan;
    nt_price := plan_limit_price plan; nt_cost_usd := plan_estimated_cost plan; nt_fee_usd := plan_estimated_fee plan;
    nt_detected_edge_bps := Some (opp_edge_bps opp); nt_detected_profit_usd := Some (expected_net_profit opp);
    nt_category := plan_category plan; nt_execution_mode := rq_mode rq |}.

(** [core/execution/execution_pipeline.rs:759-844] `persist_dispatch_plan` *)
Definition persist_dispatch_plan (x : Exec) rq (size : D) : Exec * Result PreparedDispatch (string * string) :=
  match capital_reserve_sync (ex_capital x) (rq_reservation_id rq) (rq_instant rq) (opp_market_id (rq_opportunity rq)) size with
  | (cm, Err e) => (set_capital x cm, Err ("reservation", reservation_error_str e))
  | (cm, Ok h) =>
      let x := log (set_capital x cm) (FxReserved (rh_id h)) in
      match build_plan rq size h with
      | Err e => (release_ignoring x h, Err ("fee_quote", e))
      | Ok plan =>
          match rq_snapshot_json rq with
          | Err e => (emergency (release_ignoring x h) PersistenceFault "scored snapshot serialization failed",
                      Err ("trade_persist", e))
          | Ok _ =>
              match create_trade (ex_world x) (build_pending_trade rq plan) with
              | (w, Err e) => (release_ignoring (set_world x w) h, Err ("trade_persist", e))
              | (w, Ok _) => (log (set_world x w) (FxCreated (rq_trade_id rq)),
                              Ok {| pd_trade_id := rq_trade_id rq; pd_plan := plan; pd_reservation := h |})
              end
          end
      end
  end.

(** [core/execution/execution_pipeline.rs:225-257] `prepare_dispatch` *)
Definition prepare_dispatch (x : Exec) rq : Exec * Result PreparedDispatch (string * string) :=
  match validate_and_size x rq with
  | (x, Err r) => (x, Err r)
  | (x, Ok size) =>
      match capture_required_context x rq with
      | Err r => (x, Err r)
      | Ok _ => persist_dispatch_plan x rq size
      end
  end.

(** [core/execution/execution_pipeline.rs:269-314] `capture_pre_submit_ctf_balance` *)
Definition capture_pre_submit_ctf_balance (x : Exec) (p : PreparedDispatch) : Exec * Result unit (string * string) :=
  match position_balance (ex_world x) (plan_token_id (pd_plan p)) with
  | (w, None) => (set_world x w, Ok tt)
  | (w, Some (Err e)) =>
      (emergency (release_ignoring (set_world x w) (pd_reservation p)) VenueFault "pre-submit CTF balance read failed",
       Err ("submit_persist", e))
  | (w, Some (Ok balance)) =>
      match set_pre_submit_ctf_balance w (pd_trade_id p) balance with
      | (w, Err e) =>
          (emergency (release_ignoring (set_world x w) (pd_reservation p)) PersistenceFault
             "pre-submit CTF balance snapshot failed", Err ("submit_persist", e))
      | (w, Ok _) => (set_world x w, Ok tt)
      end
  end.

(** [core/execution/execution_pipeline.rs:316-344] `mark_submitted_or_abort` *)
Definition mark_submitted_or_abort (x : Exec) (p : PreparedDispatch) (now : Time) : Exec * Result unit (string * string) :=
  match mark_submitted (ex_world x) (pd_trade_id p) now with
  | (w, Ok true) => (log (set_world x w) (FxSubmitted (pd_trade_id p)), Ok tt)
  | (w, Ok false) =>
      (emergency (release_ignoring (set_world x w) (pd_reservation p)) PersistenceFault "mark submitted skipped",
       Err ("submit_persist", "trade was not in intent state"))
  | (w, Err e) =>
      (emergency (release_ignoring (set_world x w) (pd_reservation p)) PersistenceFault "mark submitted failed",
       Err ("submit_persist", e))
  end.

(** [core/execution/execution_pipeline.rs:259-267] `persist_pre_submit_state` *)
Definition persist_pre_submit_state (x : Exec) rq (p : PreparedDispatch) : Exec * Result unit (string * string) :=
  match (match rq_mode rq with
         | Live => capture_pre_submit_ctf_balance x p
         | DryRun | Paper => (x, Ok tt)
         end) with
  | (x, Err r) => (x, Err r)
  | (x, Ok _) => mark_submitted_or_abort x p (rq_now rq)
  end.

(** [core/execution/fok_strategy.rs:66-82] `FokOrderStrategy::execute` with the dispatcher of the
    simulated modes (`dispatcher.rs:38-49`) *)
Definition submit (x : Exec) rq (p : PreparedDispatch) : Exec * ExecutionOutcome :=
  let plan := pd_plan p in
  match rq_mode rq with
  | DryRun => (log x (FxVenue (pd_trade_id p) plan), dry_run (rq_fees rq) plan)
  | Paper => (log x (FxVenue (pd_trade_id p) plan), paper_trade (rq_fees rq) plan (load_book (ex_world x) (plan_token_id plan)))
  | Live =>
      let '(w, reply) := place_order (ex_world x) (fok_request plan) in
      (log (set_world x w) (FxVenue (pd_trade_id p) plan), live_outcome (rq_fees rq) plan reply)
  end.

(** [core/execution/execution_pipeline.rs:846-863] `settle_reservation` *)
Definition settle_reservation (x : Exec) (outcome : ExecutionOutcome) (h : ReservationHandle) : Exec :=
  match outcome with
  | EoMiss _ _ | EoFailed _ _ =>
      match capital_release_sync (ex_capital x) h with
      | (cm, Ok _) => log (set_capital x cm) (FxReleased (rh_id h))
      | (cm, Err _) => emergency (set_capital x cm) ReservationFault "reservation release failed"
      end
  | EoFilled _ _ _ _ _ _ _ | EoUnknown _ _ => x
  end.

(** [core/execution/execution_pipeline.rs:866-965] `observe_outcome` *)
Definition observe_outcome (x : Exec) rq (p : PreparedDispatch) (outcome : ExecutionOutcome) : Exec :=
  match try_resolve outcome (plan_limit_price (pd_plan p)) (rq_fused_p rq) with
  | None =>
      match mark_orphaned (ex_world x) (pd_trade_id p) with
      | (w, Ok true) =>
          let x := set_world x w in
          match capital_pin_sync (ex_capital x) (pd_reservation p) with
          | (cm, Err _) => emergency (set_capital x cm) ReservationFault "unknown outcome reservation pin failed"
          | (cm, Ok _) =>
              let x := ring (set_capital x cm) 0 1 in
              set_world x (refresh_integrity (ex_world x)).1
          end
      | (w, Ok false) => emergency (set_world x w) PersistenceFault "unknown outcome reconciliation mark skipped"
      | (w, Err _) => emergency (set_world x w) PersistenceFault "unknown outcome reconciliation mark failed"
      end
  | Some resolved =>
      match mark_observed (ex_world x) (pd_trade_id p) (to_observation resolved) with
      | (w, Err _) => emergency (set_world x w) PersistenceFault "mark observed failed"
      | (w, Ok _) =>
          let x := ring (set_world x w) 1 0 in
          set_world x (refresh_integrity (ex_world x)).1
      end
  end.

(** [core/execution/execution_pipeline.rs:170-223] `execute`, behind the in-flight guard *)
Definition execute_guarded (x : Exec) rq : Exec * ExecutionResult :=
  match prepare_dispatch x rq with
  | (x, Err (stage, reason)) => (x, Rejected stage reason)
  | (x, Ok p) =>
      match persist_pre_submit_state x rq p with
      | (x, Err (stage, reason)) => (x, Rejected stage reason)
      | (x, Ok _) =>
          let '(x, outcome) := submit x rq p in
          let x := settle_reservation x outcome (pd_reservation p) in
          (observe_outcome x rq p outcome, Completed_ outcome)
      end
  end.

(** [core/execution/execution_pipeline.rs:170-223] `ExecutionPipeline::execute` *)
Definition execute (x : Exec) rq : Exec * ExecutionResult :=
  let m := opp_market_id (rq_opportunity rq) in
  if fsm_emergency (ex_fsm x) || negb (engine_allows_trading (ex_risk x))
  then (x, Rejected "halted" "execution halted — trading blocked")
  else match try_acquire (ex_inflight x) m with
       | None => (x, Rejected "inflight" "market already executing")
       | Some active =>
           let '(x, r) := execute_guarded (set_inflight x active) rq in
           (release_guard x m, r)
       end.
End Pipeline.

(** ** What an execution does to the reserved capital *)

Section Capital.
Context {DO : DecimalOps} {DP : DecimalPow} {CH : Chrono} {M P W : Type}.
Context {RM : RiskMetrics M} {RP : RiskPersistence P} {EW : ExecutionWorld W}.
Implicit Types (x : Exec (P := P) (W := W)) (rq : Request (M := M)) (p : PreparedDispatch).

Definition backend x : InMemoryExposureReservation := cm_backend (ex_capital x).

Lemma capital_reserve_spec cm id now m amount cm' r :
  counters_ok (cm_backend cm) -> capital_reserve_sync cm id now m amount = (cm', r) ->
  match r with
  | Ok h => rh_id h = id /\ exists e, adds_entry (cm_backend cm) id e (cm_backend cm')
  | Err _ => same_exposure (cm_backend cm) (cm_backend cm')
  end.
Proof.
  intros Hok. unfold capital_reserve_sync.
  destruct (try_reserve_sync _ _ _ _ _ _) as [s r1] eqn:E. apply reserve_spec in E; [|done].
  destruct r1; intros; simplify_eq/=; [|done]. destruct E as [-> E]. done.
Qed.

Lemma release_ignoring_spec s0 x h e :
  counters_ok s0 -> reservations s0 !! rh_id h = None -> adds_entry s0 (rh_id h) e (backend x) ->
  same_exposure s0 (backend (release_ignoring x h)).
Proof.
  intros Hok Hn Ha. destruct (release_added _ _ _ _ Hok Hn Ha) as [Hs _].
  unfold release_ignoring, capital_release_sync, backend. simpl.
  unfold backend in Hs. by destruct (release_sync (cm_backend (ex_capital x)) (rh_id h)).
Qed.

(** Validation and sizing change the audit queue of the risk engine and nothing else. *)
Lemma validate_and_size_frame x rq x' r :
  validate_and_size x rq = (x', r) -> exists q, x' = set_risk x (set_audit_sink (ex_risk x) q).
Proof.
  assert (exists q, x = set_risk x (set_audit_sink (ex_risk x) q)) as Hx
    by (exists (e_audit_sink (ex_risk x)); destruct x as [? []]; done).
  unfold validate_and_size. destruct (validate _ _ _ _ _ _) as [v|]; [|intros; by simplify_eq].
  destruct (execution_quality_violation _ _ _ _ _ _); [intros; by simplify_eq|]. cbv zeta.
  unfold pre_trade_risk_decision. set (prob := build_probability_input _). set (adm := {| ag_settlement := _ |}).
  destruct (core_frame (ex_risk x) (rq_now rq) (rq_timings rq) (rq_opportunity rq) prob (rq_metrics rq)
              (Some (factor_context_of rq)) adm ShortCircuit) as [q Hq].
  destruct (pre_trade_check_core _ _ _ _ _ _ _ _ _) as [e d]. rewrite fst_pair in Hq. subst e.
  destruct (negb (allowed d)); [intros; simplify_eq; by exists q|].
  destruct (dleb _ d0); [intros; simplify_eq; by exists q|]. unfold gate_sized_exposure.
  destruct (preview_fee _ _ _ _) as [fee|]; [|intros; simplify_eq; by exists q]. set (input := sized_input _ _ _ _).
  match goal with |- context [pre_trade_check_sized ?e ?n ?t ?i] => destruct (sized_frame e n t i) as [q' Hq'] end.
  destruct (pre_trade_check_sized _ _ _ _) as [e' d']. rewrite fst_pair in Hq'. subst e'. intros; simplify_eq. by exists q'.
Qed.

(** A prepared order whose reservation is in force on top of [s0]. *)
Definition prepared_on (s0 : InMemoryExposureReservation) rq p x : Prop :=
  rh_id (pd_reservation p) = rq_reservation_id rq /\
  exists e, adds_entry s0 (rq_reservation_id rq) e (backend x).

Section Stages.
Context (s0 : InMemoryExposureReservation) (rq : Request (M := M)).
Context (Hok : counters_ok s0) (Hfresh : reservations s0 !! rq_reservation_id rq = None).

Lemma release_prepared x p : prepared_on s0 rq p x -> same_exposure s0 (backend (release_ignoring x (pd_reservation p))).
Proof.
  intros [Hid [e Ha]]. eapply release_ignoring_spec; [done | by rewrite Hid | rewrite Hid; exact Ha].
Qed.

Lemma persist_dispatch_spec x size x' r :
  backend x = s0 -> persist_dispatch_plan x rq size = (x', r) ->
  match r with Err _ => same_exposure s0 (backend x') | Ok p => prepared_on s0 rq p x' end.
Proof.
  intros Hx. unfold persist_dispatch_plan.
  destruct (capital_reserve_sync _ _ _ _ _) as [cm [h|e]] eqn:E; apply capital_reserve_spec in E;
    try (unfold backend in Hx; by rewrite Hx); rewrite <- Hx; unfold backend; [|by intros; simplify_eq].
  destruct E as [Hid [e Ha]].
  assert (forall y, cm_backend (ex_capital y) = cm_backend cm ->
                    same_exposure (cm_backend (ex_capital x)) (backend (release_ignoring y h))) as Hrel.
  { intros y Hy. unfold backend in Hx. rewrite Hx. eapply release_ignoring_spec; [done | by rewrite Hid|].
    rewrite Hid. unfold backend. rewrite Hy, <- Hx. exact Ha. }
  destruct (build_plan rq size h); [|intros; simplify_eq; by apply Hrel].
  destruct (rq_snapshot_json rq); [|intros; simplify_eq; by apply Hrel].
  destruct (create_trade _ _) as [w [u|e']]; intros; simplify_eq; [|by apply Hrel].
  split; [done|]. by exists e.
Qed.

Lemma prepare_dispatch_spec x x' r :
  backend x = s0 -> prepare_dispatch x rq = (x', r) ->
  match r with Err _ => same_exposure s0 (backend x') | Ok p => prepared_on s0 rq p x' end.
Proof.
  intros Hx. unfold prepare_dispatch. destruct (validate_and_size x rq) as [y [size|e]] eqn:E;
    apply validate_and_size_frame in E as (e' & ->); [|intros; by simplify_eq].
  destruct (capture_required_context _ rq); [|intros; by simplify_eq]. by apply persist_dispatch_spec.
Qed.

Lemma pre_submit_spec x p x' r :
  prepared_on s0 rq p x -> persist_pre_submit_state x rq p = (x', r) ->
  match r with Err _ => same_exposure s0 (backend x') | Ok _ => prepared_on s0 rq p x' end.
Proof.
  intros Hp.
  assert (forall y, backend y = backend x -> same_exposure s0 (backend (release_ignoring y (pd_reservation p)))) as Hrel.
  { intros y Hy. apply release_prepared. destruct Hp as [Hid [e Ha]]. split; [done|]. exists e. by rewrite Hy. }
  assert (forall y now y' q, backend y = backend x -> mark_submitted_or_abort y p now = (y', q) ->
    match q with Err _ => same_exposure s0 (backend y') | Ok _ => prepared_on s0 rq p y' end) as Hmark.
  { intros y now y' q Hy. unfold mark_submitted_or_abort.
    destruct (mark_submitted _ _ _) as [w [[]|e]]; intros; simplify_eq; try by apply Hrel.
    destruct Hp as [Hid [e Ha]]. split; [done|]. exists e. change (adds_entry s0 (rq_reservation_id rq) e (backend y)). by rewrite Hy. }
  unfold persist_pre_submit_state, capture_pre_submit_ctf_balance. destruct (rq_mode rq); [by apply Hmark.. |].
  destruct (position_balance _ _) as [w [[b|e]|]]; [|intros; simplify_eq; by apply Hrel | by apply Hmark].
  destruct (set_pre_submit_ctf_balance _ _ _) as [w' [u|e]]; [by apply Hmark | intros; simplify_eq; by apply Hrel].
Qed.

Lemma submit_spec x p x' o : submit x rq p = (x', o) -> backend x' = backend x.
Proof.
  unfold submit. destruct (rq_mode rq); [intros; by simplify_eq..|].
  destruct (place_order _ _). intros; by simplify_eq.
Qed.

(** Misses and failures give the capital back, without an emergency; other outcomes keep it. *)
Lemma settle_spec x p o :
  prepared_on s0 rq p x ->
  let x' := settle_reservation x o (pd_reservation p) in
  match o with
  | EoMiss _ _ | EoFailed _ _ => same_exposure s0 (backend x')
  | EoFilled _ _ _ _ _ _ _ | EoUnknown _ _ => x' = x
  end.
Proof.
  intros [Hid [e Ha]]. destruct (release_added s0 (rq_reservation_id rq) e _ Hok Hfresh Ha) as [Hs Hr].
  unfold settle_reservation, capital_release_sync. unfold backend in Hs, Hr. rewrite Hid.
  destruct o; simpl; try done;
    by destruct (release_sync (cm_backend (ex_capital x)) (rq_reservation_id rq)) as [s [u|?]].
Qed.

Lemma observe_known_spec x p o r :
  try_resolve o (plan_limit_price (pd_plan p)) (rq_fused_p rq) = Some r ->
  backend (observe_outcome x rq p o) = backend x.
Proof. unfold observe_outcome. intros ->. by destruct (mark_observed _ _ _) as [w [u|e]]. Qed.

Lemma observe_unknown_spec x p reason mode :
  prepared_on s0 rq p x ->
  let x' := observe_outcome x rq p (EoUnknown reason mode) in
  exists e, adds_entry s0 (rq_reservation_id rq) e (backend x') /\
    (re_reconcile_pinned e = true \/
     fsm_emergency (ex_fsm x') = true /\ requires_operator_ack (fsm_class (ex_fsm x')) = true).
Proof.
  intros [Hid [e Ha]]. unfold observe_outcome. simpl.
  destruct (mark_orphaned _ _) as [w [[]|err]]; [|exists e; split; [exact Ha | by right]..].
  destruct (pin_added _ _ _ _ Ha) as (e' & Ha' & Hp & Hr). unfold capital_pin_sync. simpl.
  unfold backend in Ha', Hr. rewrite Hid.
  destruct (pin_for_reconciliation_sync _ _) as [s [u|?]]; [|done]. exists e'. split; [exact Ha' | by left].
Qed.
End Stages.

(** C8: Capital follows the outcome of an execution, whatever the store and the venue do: after a
    rejection at any stage, a miss or a failure the reservations and counters are those of
    before; after a fill the reservation stays; after an unknown outcome it stays and is either
    pinned against expiry or execution is halted until an operator acts. *)
Theorem capital_follows_outcome x rq :
  counters_ok (backend x) -> reservations (backend x) !! rq_reservation_id rq = None ->
  let '(x', r) := execute x rq in
  match r with
  | Rejected _ _ | Completed_ (EoMiss _ _) | Completed_ (EoFailed _ _) => same_exposure (backend x) (backend x')
  | Completed_ (EoFilled _ _ _ _ _ _ _) => exists e, adds_entry (backend x) (rq_reservation_id rq) e (backend x')
  | Completed_ (EoUnknown _ _) =>
      exists e, adds_entry (backend x) (rq_reservation_id rq) e (backend x') /\
        (re_reconcile_pinned e = true \/
         fsm_emergency (ex_fsm x') = true /\ requires_operator_ack (fsm_class (ex_fsm x')) = true)
  end.
Proof.
  intros Hok Hn. unfold execute. destruct (fsm_emergency (ex_fsm x) || _); [reflexivity|].
  destruct (try_acquire _ _) as [active|]; [|reflexivity].
  set (y := set_inflight x active). change (backend x) with (backend y) in Hok, Hn |- *.
  clearbody y. unfold execute_guarded.
  destruct (prepare_dispatch y rq) as [x1 [p|[st re]]] eqn:E1;
    apply (prepare_dispatch_spec _ _ Hok Hn) in E1; try done.
  destruct (persist_pre_submit_state x1 rq p) as [x2 [u|[st re]]] eqn:E2;
    apply (pre_submit_spec _ _ Hok Hn) in E2; try done.
  destruct (submit x2 rq p) as [x3 o] eqn:E3. apply submit_spec in E3.
  assert (prepared_on (backend y) rq p x3) as Hp by (destruct E2 as [Hid He]; split; [done | by rewrite E3]).
  pose proof (settle_spec _ _ Hok Hn x3 p o Hp) as Hs. cbv zeta in Hs.
  destruct o as [oid sh pr fee tx mo la|reason mo|err mo|reason mo].
  - rewrite Hs. change (backend (release_guard ?z ?m)) with (backend z). erewrite observe_known_spec by done. apply Hp.
  - change (backend (release_guard ?z ?m)) with (backend z). by erewrite observe_known_spec.
  - change (backend (release_guard ?z ?m)) with (backend z). by erewrite observe_known_spec.
  - rewrite Hs. change (ex_fsm (release_guard ?z ?m)) with (ex_fsm z).
    change (backend (release_guard ?z ?m)) with (backend z). by apply observe_unknown_spec.
Qed.
End Capital.

(** ** The order of durable writes *)

Section Order.
Context {DO : DecimalOps} {DP : DecimalPow} {CH : Chrono} {M P W : Type}.
Context {RM : RiskMetrics M} {RP : RiskPersistence P} {EW : ExecutionWorld W}.
Implicit Types (x : Exec (P := P) (W := W)) (rq : Request (M := M)) (p : PreparedDispatch).

Definition rid rq : ReservationId := rq_reservation_id rq.
Definition tid rq : TradeId := rq_trade_id rq.

(** How often the relay and the reconciliation worker have been woken. *)
Definition rings x : Z := ex_relay_rings x + ex_reconcile_rings x.

(** The prepared order carries the identifiers of the request. *)
Definition carries rq p : Prop := rh_id (pd_reservation p) = rid rq /\ pd_trade_id p = tid rq.

Lemma reserve_id cm id now m amount cm' h :
  capital_reserve_sync cm id now m amount = (cm', Ok h) -> rh_id h = id.
Proof.
  unfold capital_reserve_sync, try_reserve_sync. destruct (usd_to_cents amount); [|done].
  destruct (admit_alone _ _ _) as [s [e|]]; intros; by simplify_eq/=.
Qed.

Lemma prepare_log x rq x' r :
  prepare_dispatch x rq = (x', r) ->
  rings x' = rings x /\
  match r with
  | Err _ => ex_log x' = ex_log x \/ ex_log x' = FxReleased (rid rq) :: FxReserved (rid rq) :: ex_log x
  | Ok p => carries rq p /\ ex_log x' = FxCreated (tid rq) :: FxReserved (rid rq) :: ex_log x
  end.
Proof.
  unfold prepare_dispatch, persist_dispatch_plan. destruct (validate_and_size x rq) as [y [size|e]] eqn:Ev;
    apply validate_and_size_frame in Ev as (q & ->); [|intros; simplify_eq; auto].
  destruct (capture_required_context _ rq); [|intros; simplify_eq; auto].
  destruct (capital_reserve_sync _ _ _ _ _) as [cm [h|e]] eqn:E; [|intros; simplify_eq; auto].
  apply reserve_id in E as Hid.
  destruct (build_plan rq size h); [|intros; simplify_eq/=; rewrite Hid; auto].
  destruct (rq_snapshot_json rq); [|intros; simplify_eq/=; rewrite Hid; auto].
  destruct (create_trade _ _) as [w [u|e']]; intros; simplify_eq/=; rewrite Hid; auto.
  split; [done|]. split; [|done]. by split.
Qed.

Lemma pre_submit_log x rq p x' r :
  carries rq p -> persist_pre_submit_state x rq p = (x', r) ->
  rings x' = rings x /\
  ex_log x' = match r with Err _ => FxReleased (rid rq) | Ok _ => FxSubmitted (tid rq) end :: ex_log x.
Proof.
  intros [Hr Ht]. unfold persist_pre_submit_state, capture_pre_submit_ctf_balance.
  assert (forall y now y' q, rings y = rings x -> ex_log y = ex_log x -> mark_submitted_or_abort y p now = (y', q) ->
    rings y' = rings x /\
    ex_log y' = match q with Err _ => FxReleased (rid rq) | Ok _ => FxSubmitted (tid rq) end :: ex_log x) as Hmark.
  { intros y now y' q Hy Hl. unfold mark_submitted_or_abort, rings in *.
    destruct (mark_submitted _ _ _) as [w [[]|e]]; intros; simplify_eq/=; by rewrite ?Hr, ?Ht, Hl. }
  destruct (rq_mode rq); [by apply Hmark.. |].
  destruct (position_balance _ _) as [w [[b|e]|]];
    [|intros; simplify_eq/=; by rewrite Hr | by apply Hmark].
  destruct (set_pre_submit_ctf_balance _ _ _) as [w' [u|e]]; [by apply Hmark | intros; simplify_eq/=; by rewrite Hr].
Qed.

Lemma submit_log x rq p x' o :
  carries rq p -> submit x rq p = (x', o) -> rings x' = rings x /\ ex_log x' = FxVenue (tid rq) (pd_plan p) :: ex_log x.
Proof.
  intros [_ Ht]. unfold submit. destruct (rq_mode rq); [intros; simplify_eq/=; by rewrite Ht.. |].
  destruct (place_order _ _). intros; simplify_eq/=. by rewrite Ht.
Qed.

Lemma settle_log x rq p o :
  carries rq p ->
  let x' := settle_reservation x o (pd_reservation p) in
  rings x' = rings x /\ (ex_log x' = ex_log x \/ ex_log x' = FxReleased (rid rq) :: ex_log x).
Proof.
  intros [Hr _]. unfold settle_reservation. destruct o; simpl; auto;
    destruct (capital_release_sync _ _) as [cm [u|e]]; simpl; rewrite ?Hr; auto.
Qed.

(** The outcome is recorded and a worker woken, or execution is halted. *)
Lemma observe_log x rq p o :
  let x' := observe_outcome x rq p o in
  ex_log x' = ex_log x /\ (fsm_emergency (ex_fsm x') = true \/ rings x' = rings x + 1).
Proof.
  unfold observe_outcome, rings.
  destruct (try_resolve _ _ _); [destruct (mark_observed _ _ _) as [w [u|e]] |
    destruct (mark_orphaned _ _) as [w [[]|e]]; [destruct (capital_pin_sync _ _) as [cm [u|e]]|..]]; simpl; auto;
    split; auto; right; lia.
Qed.

(** What a run of [execute] did, and the prepared order it submitted. *)
Lemma execute_effects x rq :
  let '(x', r) := execute x rq in
  exists fx, ex_log x' = fx ++ ex_log x /\
  match r with
  | Rejected _ _ =>
      fx = [] \/ fx = [FxReleased (rid rq); FxReserved (rid rq)] \/
      fx = [FxReleased (rid rq); FxCreated (tid rq); FxReserved (rid rq)]
  | Completed_ _ =>
      exists active x1 p,
        fsm_emergency (ex_fsm x) = false /\ prepare_dispatch (set_inflight x active) rq = (x1, Ok p) /\
        (fx = [FxVenue (tid rq) (pd_plan p); FxSubmitted (tid rq); FxCreated (tid rq); FxReserved (rid rq)] \/
         fx = [FxReleased (rid rq); FxVenue (tid rq) (pd_plan p); FxSubmitted (tid rq); FxCreated (tid rq); FxReserved (rid rq)]) /\
        (fsm_emergency (ex_fsm x') = true \/ rings x' = rings x + 1)
  end.
Proof.
  unfold execute. destruct (fsm_emergency (ex_fsm x)) eqn:Ef; [exists []; auto|].
  destruct (negb _); [exists []; auto|]. cbv [orb].
  destruct (try_acquire _ _) as [active|]; [|exists []; auto].
  set (y := set_inflight x active). change (ex_log x) with (ex_log y). change (rings x) with (rings y).
  unfold execute_guarded.
  destruct (prepare_dispatch y rq) as [x1 [p|[st re]]] eqn:E1; pose proof E1 as E0; apply prepare_log in E1 as [R1 L1].
  2: { change (ex_log (release_guard ?z ?m)) with (ex_log z). destruct L1 as [->| ->]; [exists [] | eexists [_; _]]; auto. }
  destruct L1 as [Hc L1].
  destruct (persist_pre_submit_state x1 rq p) as [x2 [u|[st re]]] eqn:E2; apply pre_submit_log in E2 as [R2 L2]; try done.
  2: { exists [FxReleased (rid rq); FxCreated (tid rq); FxReserved (rid rq)].
       change (ex_log (release_guard ?z ?m)) with (ex_log z). rewrite L2, L1. auto. }
  destruct (submit x2 rq p) as [x3 o] eqn:E3. apply submit_log in E3 as [R3 L3]; [|done].
  destruct (settle_log x3 rq p o Hc) as [R4 L4]. set (x4 := settle_reservation x3 o (pd_reservation p)) in *.
  destruct (observe_log x4 rq p o) as [L5 R5].
  change (ex_log (release_guard ?z ?m)) with (ex_log z). change (rings (release_guard ?z ?m)) with (rings z).
  change (ex_fsm (release_guard ?z ?m)) with (ex_fsm z). rewrite L5.
  destruct L4 as [-> | ->]; rewrite L3, L2, L1;
    [eexists [_; _; _; _] | eexists [_; _; _; _; _]]; (split; [done|]; exists active, x1, p; split; [done|]; split; [done|]; split; [auto|];
     destruct R5 as [?|R5]; [by left | right; lia]).
Qed.

End Order.

(** ** What the venue is asked for *)

Section Cleared.
Context {DO : DecimalOps} {DP : DecimalPow} {CH : Chrono} {M P W : Type}.
Context {RM : RiskMetrics M} {RP : RiskPersistence P} {EW : ExecutionWorld W}.
Implicit Types (x : Exec (P := P) (W := W)) (rq : Request (M := M)) (p : PreparedDispatch).

(** The context of the first risk decision on a request, with the metrics of the call. *)
Definition risk_ctx x rq : PreTradeContext :=
  decision_ctx (ex_risk x) (rq_now rq) (rq_opportunity rq) (build_probability_input (rq_scored rq))
    (Some (factor_context_of rq)) {| ag_settlement := settlement_gate rq; ag_integrity := rq_integrity rq |}
    (mt_snapshot_for (rq_metrics rq) (opp_market_id (rq_opportunity rq))).

(** The price the validator compares with the entry price. *)
Definition relevant_price (side : Side) (t : TopOfBook) : option D :=
  match side with Buy => yes_best_ask t | Sell => yes_best_bid t end.

(** The book is no older than the budget and than the versions of detection, and its price is
    within the permitted slippage of the entry price. *)
Definition book_permits x rq : Prop :=
  exists t price, live_top x rq = Some t /\
    so_book_yes_version (rq_scored rq) <= yes_version t /\ so_book_no_version (rq_scored rq) <= no_version t /\
    top_max_staleness_ms t <= vp_max_book_to_order_ms (rq_validator rq) /\
    relevant_price (opp_side (rq_opportunity rq)) t = Some price /\
    (dval (slippage_of price (opp_entry_price (rq_opportunity rq))) <= dval (vp_max_slippage_bps (rq_validator rq)))%Q.

(** What has been checked of an order for [size] at [fee]. *)
Record cleared x rq (size fee : D) : Prop := {
  cl_breaker : allows_trading (e_circuit_breaker (ex_risk x)) = true;
  cl_book : book_permits x rq;
  cl_gates : admissible (e_config (ex_risk x)) (risk_ctx x rq);
  cl_positive : (dval d0 < dval size)%Q;
  cl_minimum : (dval (min_trade_usd (e_config (ex_risk x))) <= dval size)%Q;
  cl_fee : preview_fee (rq_fees rq) (rq_mode rq) (rq_opportunity rq) size = Ok fee;
  cl_limits : sized_limits (e_config (ex_risk x)) (sized_ctx (ex_risk x) (rq_now rq) (sized_input rq size fee (factor_context_of rq)))
}.

Lemma validate_permits vp top side entry vy vn v :
  validate vp top side entry vy vn = Ok v ->
  exists t price, top = Some t /\ vy <= yes_version t /\ vn <= no_version t /\
    top_max_staleness_ms t <= vp_max_book_to_order_ms vp /\ relevant_price side t = Some price /\
    (dval (slippage_of price entry) <= dval (vp_max_slippage_bps vp))%Q.
Proof.
  unfold validate. destruct top as [t|]; [|done].
  destruct (Z.ltb_spec (yes_version t) vy), (Z.ltb_spec (no_version t) vn); try done.
  destruct (Z.ltb_spec (vp_max_book_to_order_ms vp) (top_max_staleness_ms t)); [done|].
  simpl. destruct (negb _); [done|]. fold (relevant_price side t).
  destruct (relevant_price side t) as [price|] eqn:E; [|done].
  destruct (dltb _ _) eqn:Es; [done|]. intros _. exists t, price. dbool. repeat split; try done; lia.
Qed.

Lemma validate_and_size_cleared x rq x' size :
  coherent (ex_risk x) -> validate_and_size x rq = (x', Ok size) -> exists fee, cleared x rq size fee.
Proof.
  intros C. unfold validate_and_size. destruct (validate _ _ _ _ _ _) as [v|] eqn:Ev; [|done].
  apply validate_permits in Ev. destruct (execution_quality_violation _ _ _ _ _ _); [done|]. cbv zeta.
  unfold pre_trade_risk_decision. set (prob := build_probability_input _). set (adm := {| ag_settlement := _ |}).
  pose proof (approval_safe (ex_risk x) (rq_now rq) (rq_timings rq) (rq_opportunity rq) prob (rq_metrics rq)
                (Some (factor_context_of rq)) adm ShortCircuit C) as A. cbv zeta in A.
  destruct (core_frame (ex_risk x) (rq_now rq) (rq_timings rq) (rq_opportunity rq) prob (rq_metrics rq)
              (Some (factor_context_of rq)) adm ShortCircuit) as [q Hq].
  destruct (pre_trade_check_core _ _ _ _ _ _ _ _ _) as [e d]. cbn [fst snd] in A, Hq. subst e.
  destruct (negb (allowed d)) eqn:Ea; [done|]. apply negb_false_iff in Ea.
  destruct (A Ea) as (Hb & _ & Ha & _ & s & Hs & H0 & Hm). rewrite Hs.
  destruct (dleb (bet_usd s) d0); [done|]. unfold gate_sized_exposure.
  destruct (preview_fee _ _ _ _) as [fee|] eqn:Ef; [|done]. set (input := sized_input _ _ _ _).
  set (x1 := set_risk x (set_audit_sink (ex_risk x) q)).
  pose proof (sized_approval_safe (ex_risk x1) (rq_now rq) (rq_sized_timings rq) input (audit_sink_coherent _ _ C)) as Z.
  destruct (pre_trade_check_sized (ex_risk x1) _ _ _) as [e' d']. cbn [snd] in Z.
  destruct (allowed d') eqn:Ed; [|done]. intros; simplify_eq. exists fee. by constructor; try apply Z.
Qed.

(** The plan of a prepared order is that of a cleared size and its fee. *)
Lemma prepared_cleared x rq x' p :
  coherent (ex_risk x) -> prepare_dispatch x rq = (x', Ok p) ->
  (exists neg, pd_plan p = build_plan_inner rq (plan_estimated_cost (pd_plan p)) (plan_estimated_fee (pd_plan p)) (pd_reservation p) neg) /\
  cleared x rq (plan_estimated_cost (pd_plan p)) (plan_estimated_fee (pd_plan p)).
Proof.
  intros C. unfold prepare_dispatch. destruct (validate_and_size x rq) as [y [size|e]] eqn:E; [|done].
  apply validate_and_size_cleared in E as (fee & Hc); [|done].
  destruct (capture_required_context y rq); [|done]. unfold persist_dispatch_plan, build_plan.
  destruct (capital_reserve_sync _ _ _ _ _) as [cm [h|e]]; [|done]. rewrite (cl_fee _ _ _ _ Hc).
  destruct (rq_snapshot_json rq); [|done]. destruct (create_trade _ _) as [w [u|e]]; [|done].
  intros; simplify_eq/=. split; [by eexists | done].
Qed.

(** ** Sequences of executions and engine operations *)

Inductive exec_op :=
| Execute (rq : Request (M := M))
| RiskOp (now : Time) (o : engine_op (M := M)).

Definition exec_step x (o : exec_op) : Exec :=
  match o with
  | Execute rq => (execute x rq).1
  | RiskOp now o => set_risk x (engine_step (ex_risk x) now o).1
  end.

Definition exec_run x (ops : list exec_op) : Exec := foldl exec_step x ops.

(** An execution leaves the engine as it was but for its audit queue. *)
Ltac keep_risk := repeat case_match; simplify_eq/=; try done.

Lemma persist_risk x rq size x' r : persist_dispatch_plan x rq size = (x', r) -> ex_risk x' = ex_risk x.
Proof. unfold persist_dispatch_plan, release_ignoring. intros. keep_risk. Qed.

Lemma pre_submit_risk x rq p x' r : persist_pre_submit_state x rq p = (x', r) -> ex_risk x' = ex_risk x.
Proof.
  unfold persist_pre_submit_state, capture_pre_submit_ctf_balance, mark_submitted_or_abort, release_ignoring. intros. keep_risk.
Qed.

Lemma after_submit_risk x rq p x' o : submit x rq p = (x', o) ->
  ex_risk (observe_outcome (settle_reservation x' o (pd_reservation p)) rq p o) = ex_risk x.
Proof.
  intros H. assert (ex_risk x' = ex_risk x) as <- by (unfold submit in H; keep_risk).
  unfold observe_outcome, settle_reservation. keep_risk.
Qed.

Lemma execute_risk x rq : exists q, ex_risk (execute x rq).1 = set_audit_sink (ex_risk x) q.
Proof.
  assert (exists q, ex_risk x = set_audit_sink (ex_risk x) q) as Hx by (exists (e_audit_sink (ex_risk x)); by destruct (ex_risk x)).
  unfold execute. destruct (_ || _); [done|]. destruct (try_acquire _ _) as [active|]; [|done].
  unfold execute_guarded, prepare_dispatch.
  destruct (validate_and_size _ _) as [y [size|[st re]]] eqn:E; apply validate_and_size_frame in E as (q & ->); [|by exists q].
  destruct (capture_required_context _ _) as [u|[st re]]; [|by exists q].
  destruct (persist_dispatch_plan _ _ _) as [x1 [p|[st re]]] eqn:E1; apply persist_risk in E1; [|by exists q].
  destruct (persist_pre_submit_state _ _ _) as [x2 [u'|[st re]]] eqn:E2; apply pre_submit_risk in E2; [|exists q; simpl; by rewrite E2].
  destruct (submit _ _ _) as [x3 o] eqn:E3. apply after_submit_risk in E3. exists q. simpl. by rewrite E3, E2, E1.
Qed.

Lemma exec_step_coherent x o : coherent (ex_risk x) -> coherent (ex_risk (exec_step x o)).
Proof.
  intros C. destruct o as [rq|now o]; [|by apply engine_step_coherent].
  simpl. destruct (execute_risk x rq) as [q ->]. by apply audit_sink_coherent.
Qed.

Lemma exec_run_coherent x ops : coherent (ex_risk x) -> coherent (ex_risk (exec_run x ops)).
Proof. revert x. induction ops as [|o ops IH]; intros x C; [done|]. by apply IH, exec_step_coherent. Qed.

Lemma execute_venue x rq id plan :
  coherent (ex_risk x) -> FxVenue id plan ∈ ex_log (execute x rq).1 ->
  FxVenue id plan ∈ ex_log x \/
  id = rq_trade_id rq /\ fsm_emergency (ex_fsm x) = false /\
  (exists h neg, plan = build_plan_inner rq (plan_estimated_cost plan) (plan_estimated_fee plan) h neg) /\
  cleared x rq (plan_estimated_cost plan) (plan_estimated_fee plan).
Proof.
  intros C. pose proof (execute_effects x rq) as H. destruct (execute x rq) as [x' r]. destruct H as (fx & L & H). simpl. rewrite L.
  intros [Hin|Hin]%elem_of_app; [right|by left]. destruct r as [o|]; [|by destruct H as [->|[->| ->]]; set_solver].
  destruct H as (active & x1 & p & Hf & Hp & Hfx & _). apply prepared_cleared in Hp as [[neg Hp] Hc]; [|done].
  assert (id = tid rq /\ plan = pd_plan p) as [-> ->] by (destruct Hfx as [->| ->]; set_solver).
  split; [done|]. split; [done|]. split; [by exists (pd_reservation p), neg|]. destruct Hc. by constructor.
Qed.

(** The venue is only asked for orders that were cleared.  However executions and risk-engine
    operations interleave, whatever the stores and the venue answered, every order that reached
    the venue was built from a request at a moment when the kill switch was off, the breaker
    allowed trading, the book was fresh and within slippage, every gate of the risk pipeline held
    and the published factors permitted the trade, and its cost and quoted fee kept the exposure
    limits. *)
Theorem venue_orders_are_cleared x ops id plan :
  coherent (ex_risk x) -> ex_log x = [] -> FxVenue id plan ∈ ex_log (exec_run x ops) ->
  exists before rq after, ops = before ++ Execute rq :: after /\
    let y := exec_run x before in
    id = rq_trade_id rq /\ fsm_emergency (ex_fsm y) = false /\
    (exists h neg, plan = build_plan_inner rq (plan_estimated_cost plan) (plan_estimated_fee plan) h neg) /\
    cleared y rq (plan_estimated_cost plan) (plan_estimated_fee plan).
Proof.
  intros C L. induction ops as [|o ops IH] using rev_ind; [simpl; rewrite L; set_solver|].
  unfold exec_run. rewrite foldl_app. fold (exec_run x ops). simpl. intros Hin.
  assert (FxVenue id plan ∈ ex_log (exec_run x ops) \/
          exists rq, o = Execute rq /\ FxVenue id plan ∈ ex_log (execute (exec_run x ops) rq).1) as [Hold|(rq & -> & Hnew)]
    by (destruct o; eauto).
  - destruct (IH Hold) as (before & rq & after & -> & H). exists before, rq, (after ++ [o]). by rewrite <- app_assoc.
  - apply execute_venue in Hnew as [Hold|H]; [|by exists ops, rq, []|by apply exec_run_coherent].
    destruct (IH Hold) as (before & rq' & after & -> & H). exists before, rq', (after ++ [Execute rq]). by rewrite <- app_assoc.
Qed.
End Cleared.

(** ** A run against a venue that does not answer *)

Module ExecutionDemo.
#[local] Existing Instance ExactQ.exactQ.
#[local] Existing Instance utc_chrono.
#[local] Instance demo_pow : DecimalPow := fun x _ => x.

(** A store that accepts every write, books with one level a side, and a venue that times out. *)
Definition demo_snapshot : BookSnapshot :=
  new_book_snapshot [ {| lv_price := 490000; lv_size := 100000000 |} ]
                    [ {| lv_price := 500000; lv_size := 100000000 |} ] 1000 1.

#[local] Instance demo_world : ExecutionWorld unit := {|
  create_trade := fun w _ => (w, Ok tt);
  position_balance := fun w _ => (w, Some (Ok 0%Q));
  set_pre_submit_ctf_balance := fun w _ _ => (w, Ok true);
  mark_submitted := fun w _ _ => (w, Ok true);
  mark_orphaned := fun w _ => (w, Ok true);
  mark_observed := fun w _ _ => (w, Ok tt);
  refresh_integrity := fun w => (w, Ok tt);
  place_order := fun w _ => (w, Some (TimedOut 500));
  load_book := fun _ _ => Some demo_snapshot |}.

(** A Live request for the sample opportunity, in a market with a fee schedule. *)
Definition demo_request : Request := {|
  rq_mode := Live; rq_now := 1100; rq_now_ms := 1100; rq_instant := 1;
  rq_scored := {| opportunity := Demo.opportunity; so_token_yes := "t"; so_token_no := "u"; so_book_yes_version := 1;
                  so_book_no_version := 1; so_score := 1; so_fill_probability := 950000; so_urgency_factor := 1000000;
                  so_category_weight := 1000000; so_staleness_discount := 1000000; so_applied_factors := [] |};
  rq_execution_id := 11; rq_reservation_id := 12; rq_trade_id := 13;
  rq_validator := {| vp_max_slippage_bps := (50 # 1)%Q; vp_max_book_to_order_ms := 500;
                     vp_ladder := {| th_fresh := 200; th_acceptable := 400; th_stale := 800; th_expired := 1600 |} |};
  rq_published := snapshot_neutral 0;
  rq_fees := ingest_market_fee_schedules (fee_snapshot_from_config fees_config_default 0)
    [ {| fs_market_id := "m"; fees_enabled := true; fs_fee_rate := (1 # 100)%Q; fs_exponent := 1%Q; taker_only := true;
         rebate_rate := None; fs_source := GammaFeeSchedule; fs_observed_at := 5 |} ] 5;
  rq_metrics := Demo.metrics; rq_timings := EngineDemo.timings; rq_sized_timings := EngineDemo.timings;
  rq_neg_risk := Some false;
  rq_redeem := {| rp_standard := Some {| sp_route := StandardCtf; sp_holder_address := None |};
                  rp_neg_risk := None; rp_overrides := ∅; rp_gas_limit := 300000; rp_matic_usd_price := 1%Q |};
  rq_integrity := integrity_zero 0; rq_context_eligible := true; rq_context_written := true;
  rq_snapshot_json := Ok tt; rq_fused_p := (9 # 10)%Q |}.

Definition demo_exec : Exec (P := Scripted.Store) (W := unit) := {|
  ex_world := tt; ex_risk := EngineDemo.engine []; ex_fsm := new_fsm;
  ex_capital := new_capital_manager (new_exposure ExposureDemo.demo_limits) ExposureDemo.demo_limits;
  ex_inflight := ∅; ex_metrics_stale := false; ex_relay_rings := 0; ex_reconcile_rings := 0; ex_log := [] |}.

Lemma capital_follows_outcome_witness :
  exists x' reason mode e,
    execute demo_exec demo_request = (x', Completed_ (EoUnknown reason mode)) /\
    adds_entry (backend demo_exec) 12 e (backend x') /\
    (re_reconcile_pinned e = true \/
     fsm_emergency (ex_fsm x') = true /\ requires_operator_ack (fsm_class (ex_fsm x')) = true).
Proof.
  assert (match (execute demo_exec demo_request).2 with Completed_ (EoUnknown _ _) => true | _ => false end = true) as Hr
    by (vm_compute; reflexivity).
  pose proof (capital_follows_outcome demo_exec demo_request) as Hc.
  destruct (execute demo_exec demo_request) as [x' [[]|]]; simpl in Hr; try discriminate.
  destruct Hc as [e He].
  - split; [split; vm_compute; discriminate|]. intros m. unfold market_counter. simpl. rewrite lookup_empty.
    split; vm_compute; discriminate.
  - reflexivity.
  - exists x', reason, mode, e. split; [reflexivity | exact He].
Defined.

(** The order the venue was asked for. *)
Definition demo_plan : option ExecutionPlan :=
  match ex_log (exec_run demo_exec [RiskOp 1000 (OpEvent EvHeartbeatSuccess); Execute demo_request]) with
  | FxVenue _ plan :: _ => Some plan
  | _ => None
  end.

Lemma demo_plan_logged plan : demo_plan = Some plan ->
  exists id, FxVenue id plan ∈ ex_log (exec_run demo_exec [RiskOp 1000 (OpEvent EvHeartbeatSuccess); Execute demo_request]).
Proof.
  unfold demo_plan. destruct (ex_log _) as [|[id|id|id|id|id q] l]; try discriminate.
  intros H. assert (q = plan) as -> by congruence. exists id. left.
Qed.

Lemma demo_plan_exists : match demo_plan with Some _ => True | None => False end.
Proof. vm_compute. exact I. Qed.

Lemma venue_orders_are_cleared_witness :
  match demo_plan with
  | Some plan => (dval (plan_estimated_cost plan) <= dval (max_single_bet_usd RiskConfig_default))%Q
  | None => False
  end.
Proof.
  pose proof demo_plan_exists as Hsome. pose proof demo_plan_logged as Hin.
  destruct demo_plan as [plan|]; [|exact Hsome]. destruct (Hin plan eq_refl) as [id Hlog].
  destruct (venue_orders_are_cleared demo_exec _ id plan (EngineDemo.engine_coherent []) eq_refl Hlog)
    as (before & rq & after & Hops & _ & _ & _ & Hc). apply cl_limits, lim_single in Hc.
  destruct before as [|o1 [|o2 before]]; cbn [app] in Hops; try discriminate Hops.
  - assert (o1 = RiskOp 1000 (OpEvent EvHeartbeatSuccess)) as -> by congruence.
    assert (rq = demo_request) as -> by congruence. exact Hc.
  - assert (length (before ++ Execute rq :: after) = 0%nat) as Hl by (injection Hops as _ _ <-; reflexivity).
    rewrite length_app in Hl. simpl in Hl. lia.
Defined.
End ExecutionDemo.
