(* ===== verification/Calibration.v ===== *)
(** * Resolution calibration: [oxide-arb-algorithm/src/calibration]

    The in-memory store of calibration buckets with its two fallback indexes, the four-tier
    lookup, the method-of-moments prior and the updater that confirms outcomes and re-estimates
    priors.  A [DashMap] is a finite map; its iteration order, which the code leaves open, is that
    of [map_to_list].  The data source is an interface that may fail at any call; the digests of
    the snapshot rows are parameters. *)

From S2P Require Import Prelude Decimal Micro Config Domain Fees FactorModel.

#[global] Instance BucketKey_eq_dec : EqDecision BucketKey.
Proof. solve_decision. Defined.
#[global, refine] Instance BucketKey_countable : Countable BucketKey :=
  inj_countable' (fun k => (bk_category k, bk_price_zone k, bk_duration_bucket k))
    (fun '(c, z, d) => Build_BucketKey c z d) _.
Proof. by intros []. Defined.

Section Calibration.
Context {DO : DecimalOps}.

(** [models/runtime_config/detection.rs:120-147] `CalibrationConfig` *)
Record CalibrationConfig := {
  min_sample_size : Z;
  refresh_interval_secs : Z;
  fusion_prior_strength : Z;
  fused_p_floor : D;
  fused_p_ceiling : D;
  bootstrap_alpha : D;
  bootstrap_beta : D
}.

(** [models/runtime_config/detection.rs:149-183] `CalibrationConfig::default` *)
Definition calibration_config_default : CalibrationConfig := {|
  min_sample_size := 30; refresh_interval_secs := 3600; fusion_prior_strength := 20; fused_p_floor := dlit 80 2;
  fused_p_ceiling := dlit 995 3; bootstrap_alpha := dlit 20 1; bootstrap_beta := dlit 2 1 |}.

(** [algo/calibration/types.rs:18-26] `CalibrationEntry` *)
Record CalibrationEntry := {
  ce_bucket_key : BucketKey;
  ce_total_count : Z;
  ce_correct_count : Z;
  ce_alpha_prior : D;
  ce_beta_prior : D;
  ce_fallback_tier : Z
}.

(** [algo/calibration/types.rs:34-43] `CalibrationEntry::posterior_mean` *)
Definition posterior_mean (e : CalibrationEntry) : D :=
  let alpha := dadd (ce_alpha_prior e) (dof_Z (ce_correct_count e)) in
  let beta := dadd (ce_beta_prior e) (dof_Z (sat_u32 (ce_total_count e - ce_correct_count e))) in
  let denominator := dadd alpha beta in
  if deqb denominator d0 then ddiv (ce_alpha_prior e) (dadd (ce_alpha_prior e) (ce_beta_prior e))
  else ddiv alpha denominator.

(** [algo/calibration/types.rs:53-55] `CalibrationEntry::is_credible` *)
Definition is_credible (e : CalibrationEntry) (min_samples : Z) : bool := min_samples <=? ce_total_count e.

(** [algo/calibration/types.rs:60-70] `CalibrationEntry::to_snapshot` *)
Definition to_snapshot (e : CalibrationEntry) (fused_probability : D) : CalibrationSnapshot := {|
  cal_bucket_key := ce_bucket_key e; cal_posterior_mean := posterior_mean e; cal_sample_size := ce_total_count e;
  cal_alpha_prior := ce_alpha_prior e; cal_beta_prior := ce_beta_prior e; cal_fallback_tier := ce_fallback_tier e;
  cal_fused_probability := fused_probability |}.

(** [models/domain/governance/calibration.rs:93-102] `UpsertCalibration` *)
Record UpsertCalibration := {
  uc_key : BucketKey;
  uc_total_count : Z;
  uc_correct_count : Z;
  uc_alpha_prior : D;
  uc_beta_prior : D;
  uc_posterior_mean : option D
}.

(** [algo/calibration/types.rs:74-85] `CalibrationEntry::to_upsert` *)
Definition to_upsert (e : CalibrationEntry) : UpsertCalibration := {|
  uc_key := ce_bucket_key e;
  uc_total_count := unwrap_or (to_i32 (ce_total_count e)) i32_max;
  uc_correct_count := unwrap_or (to_i32 (ce_correct_count e)) i32_max;
  uc_alpha_prior := ce_alpha_prior e;
  uc_beta_prior := ce_beta_prior e;
  uc_posterior_mean := Some (posterior_mean e) |}.

(** [algo/calibration/types.rs:88-103] `CalibrationEntry::from`, from the columns of a row *)
Definition entry_of_row (key : BucketKey) (total correct : Z) (alpha beta : D) : CalibrationEntry := {|
  ce_bucket_key := key;
  ce_total_count := unwrap_or (to_u32 (Z.max total 0)) u32_max;
  ce_correct_count := unwrap_or (to_u32 (Z.max correct 0)) u32_max;
  ce_alpha_prior := alpha; ce_beta_prior := beta; ce_fallback_tier := 1 |}.

(** ** Fallback indexes *)

(** [algo/calibration/fallback.rs:28-34] `AggregatedCalibration` *)
Record AggregatedCalibration := {
  ag_total_count : Z;
  ag_correct_count : Z;
  ag_alpha_prior : D;
  ag_beta_prior : D;
  ag_bucket_count : Z
}.

(** [algo/calibration/fallback.rs:22-25] `FallbackIndexes` *)
Record FallbackIndexes := {
  by_category_zone : gmap (MarketCategory * PriceZone) AggregatedCalibration;
  by_zone : gmap PriceZone AggregatedCalibration
}.

Definition no_indexes : FallbackIndexes := {| by_category_zone := ∅; by_zone := ∅ |}.

(** The two projections of a bucket key. *)
Definition category_zone (k : BucketKey) : MarketCategory * PriceZone := (bk_category k, bk_price_zone k).

(** [algo/calibration/fallback.rs:61-85] `FallbackIndexes::merge_into` *)
Definition merge_into {K} `{Countable K} (map : gmap K AggregatedCalibration) (key : K) (entry : CalibrationEntry) : gmap K AggregatedCalibration :=
  match map !! key with
  | Some agg =>
      let old_n := ag_bucket_count agg in
      let new_n := old_n + 1 in
      <[key := {|
          ag_total_count := sat_u32 (ag_total_count agg + ce_total_count entry);
          ag_correct_count := sat_u32 (ag_correct_count agg + ce_correct_count entry);
          ag_alpha_prior := ddiv (dadd (dmul (ag_alpha_prior agg) (dof_Z old_n)) (ce_alpha_prior entry)) (dof_Z new_n);
          ag_beta_prior := ddiv (dadd (dmul (ag_beta_prior agg) (dof_Z old_n)) (ce_beta_prior entry)) (dof_Z new_n);
          ag_bucket_count := new_n |}]> map
  | None =>
      <[key := {|
          ag_total_count := ce_total_count entry; ag_correct_count := ce_correct_count entry;
          ag_alpha_prior := ce_alpha_prior entry; ag_beta_prior := ce_beta_prior entry; ag_bucket_count := 1 |}]> map
  end.

(** [algo/calibration/fallback.rs:52-59] `FallbackIndexes::add_entry` *)
Definition add_entry (ix : FallbackIndexes) (key : BucketKey) (entry : CalibrationEntry) : FallbackIndexes := {|
  by_category_zone := merge_into (by_category_zone ix) (category_zone key) entry;
  by_zone := merge_into (by_zone ix) (bk_price_zone key) entry |}.

(** [algo/calibration/fallback.rs:38-44] `FallbackIndexes::rebuild` *)
Definition rebuild (buckets : gmap BucketKey CalibrationEntry) : FallbackIndexes :=
  map_fold (fun key entry ix => add_entry ix key entry) no_indexes buckets.

(** [algo/calibration/fallback.rs:94-99] `FallbackIndexes::bump_outcome`, on one aggregate *)
Definition bump (was_correct : bool) (agg : AggregatedCalibration) : AggregatedCalibration := {|
  ag_total_count := sat_u32 (ag_total_count agg + 1);
  ag_correct_count := if was_correct then sat_u32 (ag_correct_count agg + 1) else ag_correct_count agg;
  ag_alpha_prior := ag_alpha_prior agg; ag_beta_prior := ag_beta_prior agg; ag_bucket_count := ag_bucket_count agg |}.

(** [algo/calibration/fallback.rs:93-109] `FallbackIndexes::bump_outcome` *)
Definition bump_outcome (ix : FallbackIndexes) (key : BucketKey) (was_correct : bool) : FallbackIndexes := {|
  by_category_zone := alter (bump was_correct) (category_zone key) (by_category_zone ix);
  by_zone := alter (bump was_correct) (bk_price_zone key) (by_zone ix) |}.

(** [algo/calibration/fallback.rs:118-127] `AggregatedCalibration::to_entry` *)
Definition to_entry (agg : AggregatedCalibration) (bucket_key : BucketKey) (fallback_tier : Z) : CalibrationEntry := {|
  ce_bucket_key := bucket_key; ce_total_count := ag_total_count agg; ce_correct_count := ag_correct_count agg;
  ce_alpha_prior := ag_alpha_prior agg; ce_beta_prior := ag_beta_prior agg; ce_fallback_tier := fallback_tier |}.

Definition at_tier (e : CalibrationEntry) (key : BucketKey) (tier : Z) : CalibrationEntry := {|
  ce_bucket_key := key; ce_total_count := ce_total_count e; ce_correct_count := ce_correct_count e;
  ce_alpha_prior := ce_alpha_prior e; ce_beta_prior := ce_beta_prior e; ce_fallback_tier := tier |}.

(** Keep a tier only when it has enough samples. *)
Definition credible (min_samples : Z) (e : option CalibrationEntry) : option CalibrationEntry :=
  match e with Some e => if is_credible e min_samples then Some e else None | None => None end.

(** [algo/calibration/fallback.rs:132-182] `lookup_with_fallback` *)
Definition lookup_with_fallback (buckets : gmap BucketKey CalibrationEntry) (ix : FallbackIndexes) (key : BucketKey)
    (min_samples : Z) (alpha beta : D) : CalibrationEntry :=
  match credible min_samples ((fun e => at_tier e key 1) <$> buckets !! key) with
  | Some tier1 => tier1
  | None =>
      match credible min_samples ((fun agg => to_entry agg key 2) <$> by_category_zone ix !! category_zone key) with
      | Some tier2 => tier2
      | None =>
          match credible min_samples ((fun agg => to_entry agg key 3) <$> by_zone ix !! bk_price_zone key) with
          | Some tier3 => tier3
          | None => {| ce_bucket_key := key; ce_total_count := 0; ce_correct_count := 0;
                       ce_alpha_prior := alpha; ce_beta_prior := beta; ce_fallback_tier := 4 |}
          end
      end
  end.

(** ** The calibrator *)

(** [algo/calibration/calibrator.rs:21-25] `ResolutionCalibrator` *)
Record ResolutionCalibrator := {
  rc_buckets : gmap BucketKey CalibrationEntry;
  rc_indexes : FallbackIndexes;
  rc_config : CalibrationConfig
}.

(** [for entry in entries { buckets.insert(entry.bucket_key, entry) }] *)
Definition insert_entries (entries : list CalibrationEntry) : gmap BucketKey CalibrationEntry :=
  foldl (fun m e => <[ce_bucket_key e := e]> m) ∅ entries.

(** [algo/calibration/calibrator.rs:30-41] `ResolutionCalibrator::from_entries` *)
Definition from_entries (entries : list CalibrationEntry) (config : CalibrationConfig) : ResolutionCalibrator :=
  let buckets := insert_entries entries in
  {| rc_buckets := buckets; rc_indexes := rebuild buckets; rc_config := config |}.

(** [algo/calibration/calibrator.rs:45-51] `ResolutionCalibrator::empty` *)
Definition calibrator_empty (config : CalibrationConfig) : ResolutionCalibrator := {|
  rc_buckets := ∅; rc_indexes := no_indexes; rc_config := config |}.

(** [algo/calibration/calibrator.rs:57-59] `ResolutionCalibrator::reload` *)
Definition calibrator_reload (c : ResolutionCalibrator) (config : CalibrationConfig) : ResolutionCalibrator := {|
  rc_buckets := rc_buckets c; rc_indexes := rc_indexes c; rc_config := config |}.

(** [algo/calibration/calibrator.rs:68-78] `ResolutionCalibrator::lookup` *)
Definition calibrator_lookup (c : ResolutionCalibrator) (key : BucketKey) : CalibrationEntry :=
  let config := rc_config c in
  lookup_with_fallback (rc_buckets c) (rc_indexes c) key (min_sample_size config) (bootstrap_alpha config) (bootstrap_beta config).

(** The occupied branch of [record_outcome]. *)
Definition count_outcome (was_correct : bool) (e : CalibrationEntry) : CalibrationEntry := {|
  ce_bucket_key := ce_bucket_key e; ce_total_count := sat_u32 (ce_total_count e + 1);
  ce_correct_count := if was_correct then sat_u32 (ce_correct_count e + 1) else ce_correct_count e;
  ce_alpha_prior := ce_alpha_prior e; ce_beta_prior := ce_beta_prior e; ce_fallback_tier := ce_fallback_tier e |}.

(** [algo/calibration/calibrator.rs:83-109] `ResolutionCalibrator::record_outcome` *)
Definition record_outcome (c : ResolutionCalibrator) (key : BucketKey) (was_correct : bool) : ResolutionCalibrator :=
  match rc_buckets c !! key with
  | Some entry => {|
      rc_buckets := <[key := count_outcome was_correct entry]> (rc_buckets c);
      rc_indexes := bump_outcome (rc_indexes c) key was_correct;
      rc_config := rc_config c |}
  | None =>
      let entry := {|
        ce_bucket_key := key; ce_total_count := 1; ce_correct_count := if was_correct then 1 else 0;
        ce_alpha_prior := bootstrap_alpha (rc_config c); ce_beta_prior := bootstrap_beta (rc_config c); ce_fallback_tier := 1 |} in
      {| rc_buckets := <[key := entry]> (rc_buckets c);
         rc_indexes := add_entry (rc_indexes c) key entry;
         rc_config := rc_config c |}
  end.

(** [algo/calibration/calibrator.rs:112-121] `ResolutionCalibrator::replace_entries` *)
Definition replace_entries (c : ResolutionCalibrator) (entries : list CalibrationEntry) : ResolutionCalibrator :=
  from_entries entries (rc_config c).

(** [algo/calibration/calibrator.rs:125-127] `ResolutionCalibrator::all_entries` *)
Definition all_entries (c : ResolutionCalibrator) : list CalibrationEntry := (map_to_list (rc_buckets c)).*2.

(** ** Prior estimation *)

Definition dsum (l : list D) : D := foldl dadd d0 l.

(** [algo/calibration/prior.rs:28-79] `estimate_mom_prior` *)
Definition estimate_mom_prior (entries : list CalibrationEntry) (min_samples : Z) (fallback_alpha fallback_beta : D) : D * D :=
  let rates := (fun e => ddiv (dof_Z (ce_correct_count e)) (dof_Z (ce_total_count e))) <$>
    filter (fun e => 0 < ce_total_count e) (filter (fun e => min_samples <= ce_total_count e) entries) in
  let fallback := (fallback_alpha, fallback_beta) in
  if Z.of_nat (length rates) <? 3 then fallback
  else match to_u32 (Z.of_nat (length rates)) with
       | None => fallback
       | Some len =>
           let n := dof_Z len in
           let mu := ddiv (dsum rates) n in
           let variance := ddiv (dsum ((fun p => let diff := dsub p mu in dmul diff diff) <$> rates)) (dsub n d1) in
           if deqb variance d0 || dsign_neg variance then fallback
           else
             let mu_complement := dsub d1 mu in
             let common := dsub (ddiv (dmul mu mu_complement) variance) d1 in
             if dleb common d0 then fallback
             else
               let alpha := dmul mu common in
               let beta := dmul mu_complement common in
               if dltb d0 alpha && dltb d0 beta then (alpha, beta) else fallback
       end.

(** [algo/calibration/updater.rs:181-186] `CalibrationUpdater::update_priors`, the sparse buckets *)
Definition reprior (min_samples : Z) (alpha beta : D) (e : CalibrationEntry) : CalibrationEntry :=
  if ce_total_count e <? min_samples
  then {| ce_bucket_key := ce_bucket_key e; ce_total_count := ce_total_count e; ce_correct_count := ce_correct_count e;
          ce_alpha_prior := alpha; ce_beta_prior := beta; ce_fallback_tier := ce_fallback_tier e |}
  else e.

Definition reprior_buckets (c : ResolutionCalibrator) (min_samples : Z) (alpha beta : D) : ResolutionCalibrator := {|
  rc_buckets := reprior min_samples alpha beta <$> rc_buckets c; rc_indexes := rc_indexes c; rc_config := rc_config c |}.

(** ** The updater *)

(** [algo/calibration/updater.rs:51-56] `UnresolvedOutcome` *)
Record UnresolvedOutcome := {
  uo_outcome_id : Z;
  uo_market_id : MarketId;
  uo_bucket_key : BucketKey;
  uo_predicted_yes : bool
}.

(** [algo/calibration/updater.rs:60-64] `UpdateStats` *)
Record UpdateStats := { total_unresolved : Z; us_resolved : Z; gamma_miss : Z }.

(** [models/clickhouse/calibration_snapshot.rs:10-27] `CalibrationSnapshotRow`: the counts and priors of
    the row are those of the upsert *)
Record CalibrationSnapshotRow := {
  cs_upsert : UpsertCalibration;
  cs_config_hash : string;
  cs_snapshot_hash : string;
  cs_event_time : Z;
  cs_sequence : Z
}.

(** Digests of the canonical texts. *)
Class CalibrationDigests := {
  calibration_config_hash : CalibrationConfig -> string;
  calibration_snapshot_hash : UpsertCalibration -> string
}.

(** [algo/calibration/updater.rs:23-47] `CalibrationDataSource` *)
Class CalibrationDataSource (W : Type) := {
  get_unresolved_outcomes : W -> W * Result (list UnresolvedOutcome) string;
  check_gamma_resolution : W -> MarketId -> W * Result (option bool) string;
  check_ctf_resolution : W -> MarketId -> W * Result (option bool) string;
  upsert_buckets : W -> list UpsertCalibration -> W * Result unit string;
  write_calibration_snapshots : W -> list CalibrationSnapshotRow -> W * Result unit string;
  resolve_outcome : W -> Z -> bool -> W * Result unit string
}.

Context {W : Type} {DS : CalibrationDataSource W} {CD : CalibrationDigests}.

(** [algo/calibration/updater.rs:75-79] `CalibrationUpdater`; the source is its state *)
Record CalibrationUpdater := {
  cu_calibrator : ResolutionCalibrator;
  cu_data_source : W;
  cu_config : CalibrationConfig
}.

Definition set_source (u : CalibrationUpdater) w : CalibrationUpdater := {|
  cu_calibrator := cu_calibrator u; cu_data_source := w; cu_config := cu_config u |}.
Definition set_calibrator (u : CalibrationUpdater) c : CalibrationUpdater := {|
  cu_calibrator := c; cu_data_source := cu_data_source u; cu_config := cu_config u |}.

(** [algo/calibration/updater.rs:101-104] `CalibrationUpdater::reload` *)
Definition updater_reload (u : CalibrationUpdater) (config : CalibrationConfig) : CalibrationUpdater := {|
  cu_calibrator := calibrator_reload (cu_calibrator u) config; cu_data_source := cu_data_source u; cu_config := config |}.

(** [algo/calibration/updater.rs:122-150] `CalibrationUpdater::tick`: what Gamma and the chain say
    of one outcome; [None] for a miss, [Some None] for a disagreement *)
Definition confirm (w : W) (market : MarketId) : W * option (option bool) :=
  match check_gamma_resolution w market with
  | (w, Ok (Some gamma_yes)) =>
      match check_ctf_resolution w market with
      | (w, Ok (Some ctf_yes)) => (w, Some (if Bool.eqb ctf_yes gamma_yes then Some gamma_yes else None))
      | (w, _) => (w, Some (Some gamma_yes))
      end
  | (w, _) => (w, None)
  end.

Definition missed (s : UpdateStats) : UpdateStats := {|
  total_unresolved := total_unresolved s; us_resolved := us_resolved s; gamma_miss := gamma_miss s + 1 |}.
Definition one_resolved (s : UpdateStats) : UpdateStats := {|
  total_unresolved := total_unresolved s; us_resolved := us_resolved s + 1; gamma_miss := gamma_miss s |}.

(** [algo/calibration/updater.rs:121-160] `CalibrationUpdater::tick`, its loop *)
Fixpoint tick_outcomes (u : CalibrationUpdater) (stats : UpdateStats) (outcomes : list UnresolvedOutcome)
    : CalibrationUpdater * Result UpdateStats string :=
  match outcomes with
  | [] => (u, Ok stats)
  | o :: rest =>
      match confirm (cu_data_source u) (uo_market_id o) with
      | (w, None) => tick_outcomes (set_source u w) (missed stats) rest
      | (w, Some None) => tick_outcomes (set_source u w) stats rest
      | (w, Some (Some confirmed)) =>
          let was_correct := Bool.eqb confirmed (uo_predicted_yes o) in
          let u := set_calibrator (set_source u w) (record_outcome (cu_calibrator u) (uo_bucket_key o) was_correct) in
          match resolve_outcome (cu_data_source u) (uo_outcome_id o) confirmed with
          | (w, Err e) => (set_source u w, Err e)
          | (w, Ok _) => tick_outcomes (set_source u w) (one_resolved stats) rest
          end
      end
  end.

(** [algo/calibration/updater.rs:194-217] `CalibrationUpdater::update_priors`, the snapshot rows *)
Definition snapshot_rows (config : CalibrationConfig) (now_ms : Z) (upserts : list UpsertCalibration) : list CalibrationSnapshotRow :=
  imap (fun i r => {| cs_upsert := r; cs_config_hash := calibration_config_hash config;
                      cs_snapshot_hash := calibration_snapshot_hash r; cs_event_time := now_ms;
                      cs_sequence := Z.of_nat i |}) upserts.

(** [algo/calibration/updater.rs:170-222] `CalibrationUpdater::update_priors` *)
Definition update_priors (u : CalibrationUpdater) (now_ms : Z) : CalibrationUpdater * Result unit string :=
  let config := cu_config u in
  let entries := all_entries (cu_calibrator u) in
  let '(alpha, beta) := estimate_mom_prior entries (min_sample_size config) (bootstrap_alpha config) (bootstrap_beta config) in
  let u := set_calibrator u (reprior_buckets (cu_calibrator u) (min_sample_size config) alpha beta) in
  let upserts := to_upsert <$> entries in
  match upsert_buckets (cu_data_source u) upserts with
  | (w, Err e) => (set_source u w, Err e)
  | (w, Ok _) =>
      match write_calibration_snapshots w (snapshot_rows config now_ms upserts) with
      | (w, Err e) => (set_source u w, Err e)
      | (w, Ok _) => (set_source u w, Ok tt)
      end
  end.

(** [algo/calibration/updater.rs:114-167] `CalibrationUpdater::tick` *)
Definition calibration_tick (u : CalibrationUpdater) (now_ms : Z) : CalibrationUpdater * Result UpdateStats string :=
  match get_unresolved_outcomes (cu_data_source u) with
  | (w, Err e) => (set_source u w, Err e)
  | (w, Ok unresolved) =>
      let stats := {| total_unresolved := unwrap_or (to_u32 (Z.of_nat (length unresolved))) u32_max; us_resolved := 0; gamma_miss := 0 |} in
      match tick_outcomes (set_source u w) stats unresolved with
      | (u, Err e) => (u, Err e)
      | (u, Ok stats) =>
          if 0 <? us_resolved stats
          then match update_priors u now_ms with
               | (u, Err e) => (u, Err e)
               | (u, Ok _) => (u, Ok stats)
               end
          else (u, Ok stats)
      end
  end.
End Calibration.

(** ** The indexes hold the sums of the buckets *)

(** Adding to a saturated sum of counts saturates the sum. *)
Lemma sat_add_sat a b : 0 <= a -> 0 <= b -> sat_u32 (sat_u32 a + b) = sat_u32 (a + b).
Proof. unfold_ints. lia. Qed.

(** Counting one more of a saturating term of a sum. *)
Lemma sat_bump s e : 0 <= e <= s -> e <= u32_max -> sat_u32 (sat_u32 s + 1) = sat_u32 (s - e + sat_u32 (e + 1)).
Proof.
  intros. destruct (Z.leb_spec (e + 1) u32_max).
  - rewrite (sat_add_sat s 1) by lia. f_equal. unfold_ints. lia.
  - unfold_ints. lia.
Qed.

Section IndexFacts.
Context {DO : DecimalOps}.
Implicit Types (m : gmap BucketKey CalibrationEntry) (e : CalibrationEntry).

(** Counts are 32-bit and no bucket has more hits than outcomes. *)
Definition counts_ok e : Prop := 0 <= ce_correct_count e <= ce_total_count e /\ ce_total_count e <= u32_max.

(** An aggregate against the buckets it stands for. *)
Definition agg_matches (agg : option AggregatedCalibration) m : Prop :=
  match agg with
  | None => m = ∅
  | Some a => m <> ∅ /\ ag_total_count a = sat_u32 (map_sum ce_total_count m) /\
              ag_correct_count a = sat_u32 (map_sum ce_correct_count m) /\ ag_bucket_count a = Z.of_nat (size m)
  end.

Definition all_ok m : Prop := map_Forall (fun _ e => counts_ok e) m.

Lemma total_sum_nonneg m : all_ok m -> 0 <= map_sum ce_total_count m.
Proof. intros H. apply map_sum_nonneg. intros i e Hi. specialize (H i e Hi). unfold counts_ok in H. lia. Qed.

Lemma correct_sum_nonneg m : all_ok m -> 0 <= map_sum ce_correct_count m.
Proof. intros H. apply map_sum_nonneg. intros i e Hi. specialize (H i e Hi). unfold counts_ok in H. lia. Qed.

Lemma correct_sum_le m : all_ok m -> map_sum ce_correct_count m <= map_sum ce_total_count m.
Proof.
  induction m as [|k e m Hk IH] using map_ind; intros H; [done|].
  rewrite !map_sum_insert by done. apply map_Forall_insert in H as [[He _] H]; [|done]. specialize (IH H). lia.
Qed.

Section Index.
Context {K : Type} `{Countable K} (proj : BucketKey -> K).
Implicit Types ix : gmap K AggregatedCalibration.

Definition bucket_group (k : K) m : gmap BucketKey CalibrationEntry := filter (fun kv => proj kv.1 = k) m.

Definition index_ok ix m : Prop := forall k, agg_matches (ix !! k) (bucket_group k m).

Lemma group_ok k m : all_ok m -> all_ok (bucket_group k m).
Proof. intros Hm i e. unfold bucket_group. rewrite map_lookup_filter_Some. intros [Hi _]. eauto. Qed.

Lemma group_insert k m i e :
  bucket_group k (<[i := e]> m) = if decide (proj i = k) then <[i := e]> (bucket_group k m) else bucket_group k (delete i m).
Proof. unfold bucket_group. rewrite map_filter_insert. simpl. destruct (decide (proj i = k)); done. Qed.

Lemma group_other k m i : proj i <> k -> bucket_group k (delete i m) = bucket_group k m.
Proof.
  intros Hk. unfold bucket_group. apply map_eq. intros j. apply option_eq. intros e.
  rewrite !map_lookup_filter_Some, lookup_delete_Some. simpl. naive_solver congruence.
Qed.

Lemma group_lookup_none k m i : m !! i = None -> bucket_group k m !! i = None.
Proof. intros Hi. apply map_lookup_filter_None. by left. Qed.

Lemma group_lookup m i e : m !! i = Some e -> bucket_group (proj i) m !! i = Some e.
Proof. intros Hi. by apply map_lookup_filter_Some. Qed.

Lemma merge_ok ix m i e : m !! i = None -> all_ok m -> counts_ok e ->
  index_ok ix m -> index_ok (merge_into ix (proj i) e) (<[i := e]> m).
Proof.
  intros Hi Hm He Hix k. rewrite group_insert. pose proof (Hix k) as Hk. unfold merge_into.
  destruct (decide (proj i = k)) as [<-|Hne].
  - pose proof (total_sum_nonneg _ (group_ok (proj i) m Hm)). pose proof (correct_sum_nonneg _ (group_ok (proj i) m Hm)).
    pose proof (group_lookup_none (proj i) m i Hi) as Hn.
    destruct (ix !! proj i) as [a|]; rewrite lookup_insert_eq; (split; [apply insert_non_empty|]);
      rewrite !map_sum_insert by done; simpl.
    + destruct Hk as (_ & -> & -> & ->). unfold counts_ok in He. rewrite !sat_add_sat, map_size_insert_None by (done || lia).
      split; [f_equal; lia|]. split; [f_equal|]; lia.
    + simpl in Hk. rewrite Hk, !map_sum_empty, map_size_insert_None, map_size_empty by done.
      unfold counts_ok in He. unfold_ints. lia.
  - rewrite group_other by done. destruct (ix !! proj i); by rewrite lookup_insert_ne.
Qed.

Lemma bump_ok ix m i e b : m !! i = Some e -> all_ok m ->
  index_ok ix m -> index_ok (alter (bump b) (proj i) ix) (<[i := count_outcome b e]> m).
Proof.
  intros Hi Hm Hix k. rewrite group_insert. pose proof (Hix k) as Hk.
  destruct (decide (proj i = k)) as [<-|Hne]; [|rewrite group_other by done; by rewrite lookup_alter_ne].
  rewrite lookup_alter_eq. pose proof (group_lookup m i e Hi) as Hg.
  destruct (ix !! proj i) as [a|]; simpl in *; [|by rewrite Hk in Hg].
  destruct Hk as (Hne & Ht & Hc & Hn). split; [apply insert_non_empty|].
  rewrite map_size_insert_Some by (by rewrite Hg). rewrite !(map_sum_update _ _ _ _ _ Hg), Ht, Hc. pose proof (group_ok (proj i) m Hm) as Hgok. specialize (Hm i e Hi) as (Hle & Hmax).
  pose proof (map_sum_member ce_total_count (bucket_group (proj i) m) i e) as Mt.
  pose proof (map_sum_member ce_correct_count (bucket_group (proj i) m) i e) as Mc.
  assert (ce_total_count e <= map_sum ce_total_count (bucket_group (proj i) m)) by
    (apply Mt; [|done]; intros j w Hj; apply Hgok in Hj; unfold counts_ok in Hj; lia).
  assert (ce_correct_count e <= map_sum ce_correct_count (bucket_group (proj i) m)) by
    (apply Mc; [|done]; intros j w Hj; apply Hgok in Hj; unfold counts_ok in Hj; lia).
  simpl. rewrite (sat_bump _ (ce_total_count e)) by lia. split; [done|]. split; [|done].
  destruct b; [by rewrite (sat_bump _ (ce_correct_count e)) by lia | f_equal; lia].
Qed.

Lemma map_sum_fmap_same (f : CalibrationEntry -> Z) (g : CalibrationEntry -> CalibrationEntry) m :
  (forall e, f (g e) = f e) -> map_sum f (g <$> m) = map_sum f m.
Proof.
  intros Hg. induction m as [|i e m Hi IH] using map_ind; [by rewrite fmap_empty|].
  rewrite fmap_insert, !map_sum_insert, Hg, IH; [done|done|by rewrite lookup_fmap, Hi].
Qed.

Lemma group_fmap k (g : CalibrationEntry -> CalibrationEntry) m : bucket_group k (g <$> m) = g <$> bucket_group k m.
Proof. unfold bucket_group. by rewrite map_filter_fmap. Qed.

Lemma reprior_ok ix m n a b : index_ok ix m -> index_ok ix (reprior n a b <$> m).
Proof.
  intros Hix k. specialize (Hix k). rewrite group_fmap. destruct (ix !! k) as [g|]; simpl in *; [|by rewrite Hix, fmap_empty].
  destruct Hix as (Hne & -> & -> & ->). split; [by rewrite fmap_empty_iff|]. rewrite map_size_fmap.
  rewrite (map_sum_fmap_same ce_total_count), (map_sum_fmap_same ce_correct_count); [done|..];
    intros e; unfold reprior; by destruct (ce_total_count e <? n).
Qed.
End Index.

(** ** Reachable calibrators *)

Definition calibrated (c : ResolutionCalibrator) : Prop :=
  all_ok (rc_buckets c) /\ index_ok category_zone (by_category_zone (rc_indexes c)) (rc_buckets c) /\
  index_ok bk_price_zone (by_zone (rc_indexes c)) (rc_buckets c).

Lemma no_indexes_ok {K} `{Countable K} (proj : BucketKey -> K) : index_ok proj ∅ ∅.
Proof. intros k. rewrite lookup_empty. unfold bucket_group. by rewrite map_filter_empty. Qed.

Lemma rebuild_ok m : all_ok m ->
  index_ok category_zone (by_category_zone (rebuild m)) m /\ index_ok bk_price_zone (by_zone (rebuild m)) m.
Proof.
  unfold rebuild. apply (map_fold_weak_ind (fun r m => all_ok m -> index_ok category_zone (by_category_zone r) m /\ index_ok bk_price_zone (by_zone r) m)).
  - split; apply no_indexes_ok.
  - intros i e m' r Hi IH Hm. apply map_Forall_insert in Hm as [He Hm]; [|done].
    destruct (IH Hm). simpl. split; by apply merge_ok.
Qed.

Lemma insert_buckets_ok es : Forall counts_ok es -> all_ok (insert_entries es).
Proof.
  unfold insert_entries. generalize (map_Forall_empty (M := gmap BucketKey) (fun _ => counts_ok)).
  generalize (∅ : gmap BucketKey CalibrationEntry). induction es as [|e es IH]; intros m Hm Hes; [exact Hm|].
  inversion Hes; subst. simpl. apply IH; [|done]. by apply map_Forall_insert_2.
Qed.

Lemma from_entries_calibrated es config : Forall counts_ok es -> calibrated (from_entries es config).
Proof. intros Hes. apply insert_buckets_ok in Hes. split; [done | by apply rebuild_ok]. Qed.

Lemma count_outcome_ok b e : counts_ok e -> counts_ok (count_outcome b e).
Proof. unfold counts_ok. simpl. destruct b; unfold_ints; lia. Qed.

Lemma record_calibrated c k b : calibrated c -> calibrated (record_outcome c k b).
Proof.
  intros (Hm & Hc & Hz). unfold record_outcome. destruct (rc_buckets c !! k) as [e|] eqn:E.
  - split; [|split]; simpl; [apply map_Forall_insert_2; [|done]; by apply count_outcome_ok, (Hm k)|by apply bump_ok..].
  - assert (forall e, ce_total_count e = 1 -> 0 <= ce_correct_count e <= 1 -> counts_ok e) as Hone
      by (intros e Ht Hcc; unfold counts_ok; unfold_ints; lia).
    split; [|split]; simpl; [apply map_Forall_insert_2; [|done] | apply merge_ok; try done ..];
      apply Hone; simpl; by destruct b.
Qed.

Lemma reprior_calibrated c n a b : calibrated c -> calibrated (reprior_buckets c n a b).
Proof.
  intros (Hm & Hc & Hz). split; [|split]; simpl; [|by apply reprior_ok..].
  intros i e. rewrite lookup_fmap. destruct (rc_buckets c !! i) as [e'|] eqn:E; [|done]. intros [= <-].
  specialize (Hm i e' E). unfold reprior. by destruct (_ <? _).
Qed.

(** Operations on a calibrator. *)
Inductive calibrator_op :=
| OpRecord (key : BucketKey) (was_correct : bool)
| OpReplace (entries : list CalibrationEntry)
| OpReloadConfig (config : CalibrationConfig)
| OpReprior (min_samples : Z) (alpha beta : D).

Definition calibrator_step (c : ResolutionCalibrator) (o : calibrator_op) : ResolutionCalibrator :=
  match o with
  | OpRecord key b => record_outcome c key b
  | OpReplace entries => replace_entries c entries
  | OpReloadConfig config => calibrator_reload c config
  | OpReprior n a b => reprior_buckets c n a b
  end.

Definition op_ok (o : calibrator_op) : Prop := match o with OpReplace es => Forall counts_ok es | _ => True end.

Lemma run_calibrated c ops : calibrated c -> Forall op_ok ops -> calibrated (foldl calibrator_step c ops).
Proof.
  revert c. induction ops as [|o ops IH]; intros c Hc Hops; [done|]. inversion Hops; subst. simpl. apply IH; [|done].
  destruct o; simpl; [by apply record_calibrated | by apply from_entries_calibrated | done | by apply reprior_calibrated].
Qed.

(** ** The lookup against its definition *)

(** The counts of all buckets that agree with [k] under a projection, when there is one. *)
Definition group_counts {K} `{Countable K} (proj : BucketKey -> K) (k : BucketKey) m : option (Z * Z) :=
  let g := bucket_group proj (proj k) m in
  if decide (g = ∅) then None else Some (sat_u32 (map_sum ce_total_count g), sat_u32 (map_sum ce_correct_count g)).

(** The first tier with enough samples: the bucket, all durations, all categories, nothing. *)
Definition reference_lookup m (min_samples : Z) (k : BucketKey) : Z * Z * Z :=
  let enough (tier : Z) (o : option (Z * Z)) : option (Z * Z * Z) :=
    match o with Some (total, correct) => if min_samples <=? total then Some (tier, total, correct) else None | None => None end in
  match enough 1 ((fun e => (ce_total_count e, ce_correct_count e)) <$> m !! k) with
  | Some r => r
  | None => match enough 2 (group_counts category_zone k m) with
            | Some r => r
            | None => default (4, 0, 0) (enough 3 (group_counts bk_price_zone k m))
            end
  end.

Definition counts_of e : Z * Z * Z := (ce_fallback_tier e, ce_total_count e, ce_correct_count e).

Lemma group_counts_index {K} `{Countable K} (proj : BucketKey -> K) ix m k :
  index_ok proj ix m -> group_counts proj k m = (fun a => (ag_total_count a, ag_correct_count a)) <$> ix !! proj k.
Proof.
  intros Hix. specialize (Hix (proj k)). unfold group_counts. destruct (ix !! proj k) as [a|]; simpl in *.
  - destruct Hix as (Hne & -> & -> & _). by rewrite decide_False.
  - by rewrite decide_True.
Qed.

Lemma lookup_counts c k : calibrated c ->
  counts_of (calibrator_lookup c k) = reference_lookup (rc_buckets c) (min_sample_size (rc_config c)) k.
Proof.
  intros (_ & Hc & Hz). unfold calibrator_lookup, lookup_with_fallback, reference_lookup.
  rewrite (group_counts_index _ _ _ _ Hc), (group_counts_index _ _ _ _ Hz). unfold credible, is_credible, counts_of.
  destruct (rc_buckets c !! k) as [e|]; simpl; [destruct (_ <=? ce_total_count e); [done|]|];
    (destruct (by_category_zone _ !! _) as [a|]; simpl; [destruct (_ <=? ag_total_count a); [done|]|]);
    (destruct (by_zone _ !! _) as [z|]; simpl; [destruct (_ <=? ag_total_count z)|]; done).
Qed.

(** C19: The fallback lookup is exact.  However outcomes, reloads, replacements and re-estimated
    priors interleave, a lookup answers with the first of the four tiers that has enough samples,
    and with exactly the counts one gets by summing the buckets of that tier (saturating at 32
    bits), although the calibrator only keeps running aggregates. *)
Theorem calibration_lookup_exact es config ops k :
  Forall counts_ok es -> Forall op_ok ops ->
  let c := foldl calibrator_step (from_entries es config) ops in
  counts_of (calibrator_lookup c k) = reference_lookup (rc_buckets c) (min_sample_size (rc_config c)) k.
Proof. intros Hes Hops c. apply lookup_counts, run_calibrated; [by apply from_entries_calibrated | done]. Qed.
End IndexFacts.

(** ** Posterior means are probabilities *)

Definition all_keys : list BucketKey :=
  c ← all_categories; z ← [Z95; Z96; Z97; Z98; Z99]; d ← [Short; Medium; Long; VeryLong];
  [ {| bk_category := c; bk_price_zone := z; bk_duration_bucket := d |} ].

Lemma bucket_size {V} (m : gmap BucketKey V) : (size m <= 200)%nat.
Proof.
  rewrite <- length_map_to_list, <- (length_fmap fst). change 200%nat with (length all_keys).
  apply submseteq_length, NoDup_submseteq; [apply NoDup_fst_map_to_list|].
  intros k _. apply (bool_decide_unpack (k ∈ all_keys)). by destruct k as [[] [] []].
Qed.

Section Posterior.
Context {DO : DecimalOps} {DL : DecimalLaws DO}.
Implicit Types (e : CalibrationEntry) (c : ResolutionCalibrator).

Definition priors_ok (a b : D) : Prop := (0 <= dval a)%Q /\ (0 <= dval b)%Q.

Lemma dof_Z_nonneg z : 0 <= z <= u32_max -> (0 <= dval (dof_Z z))%Q.
Proof. unfold_ints. intros. rewrite dof_Z_spec by lia. by apply (Qle_trans _ (inject_Z 0)); [|rewrite <- Zle_Qle; lia]. Qed.

Lemma dof_Z_ge_1 z : 1 <= z <= u32_max -> (1 <= dval (dof_Z z))%Q.
Proof. unfold_ints. intros. rewrite dof_Z_spec by lia. change 1%Q with (inject_Z 1). rewrite <- Zle_Qle. lia. Qed.

(** Non-negative priors and a positive denominator give a mean between zero and one. *)
Lemma posterior_unit e : counts_ok e -> priors_ok (ce_alpha_prior e) (ce_beta_prior e) ->
  (1 <= ce_total_count e \/ (0 < dval (ce_alpha_prior e))%Q \/ (0 < dval (ce_beta_prior e))%Q) ->
  (0 <= dval (posterior_mean e) <= 1)%Q.
Proof.
  intros [Hc Ht] [Ha Hb] Hpos. unfold posterior_mean. cbv zeta.
  assert (sat_u32 (ce_total_count e - ce_correct_count e) = ce_total_count e - ce_correct_count e) as -> by (unfold_ints; lia).
  set (x := dadd (ce_alpha_prior e) _). set (y := dadd (ce_beta_prior e) _).
  assert (0 <= dval (dof_Z (ce_correct_count e)))%Q as Hcc by (apply dof_Z_nonneg; lia).
  assert (0 <= dval (dof_Z (ce_total_count e - ce_correct_count e)))%Q as Hmc by (apply dof_Z_nonneg; lia).
  assert (0 <= dval x)%Q as Hx by by apply dadd_nonneg. assert (0 <= dval y)%Q as Hy by by apply dadd_nonneg.
  assert (dval x <= dval (dadd x y))%Q as Hle by by apply dadd_ge_l.
  assert (dval y <= dval (dadd x y))%Q as Hle'.
  { rewrite dadd_spec, <- (rnd_val y). apply rnd_mono. rewrite rnd_val. lra. }
  assert (dval (ce_alpha_prior e) <= dval x)%Q as Hax by by apply dadd_ge_l.
  assert (dval (ce_beta_prior e) <= dval y)%Q as Hby by by apply dadd_ge_l.
  assert (forall p q, 0 <= dval p -> dval q <= dval (dadd p q))%Q as Hr.
  { intros p q Hp. rewrite dadd_spec, <- (rnd_val q) at 1. apply rnd_mono. lra. }
  assert (0 < dval (dadd x y))%Q as Hden.
  { destruct Hpos as [H1|[H1|H1]]; [|lra..].
    destruct (Z.leb_spec 1 (ce_correct_count e)).
    - pose proof (dof_Z_ge_1 (ce_correct_count e) ltac:(lia)). pose proof (Hr _ (dof_Z (ce_correct_count e)) Ha) as H3. fold x in H3. lra.
    - pose proof (dof_Z_ge_1 (ce_total_count e - ce_correct_count e) ltac:(lia)).
      pose proof (Hr _ (dof_Z (ce_total_count e - ce_correct_count e)) Hb) as H3. fold y in H3. lra. }
  assert (deqb (dadd x y) d0 = false) as ->.
  { apply not_true_iff_false. unfold deqb. rewrite Qeq_bool_iff, dval_d0. lra. }
  split; [by apply ddiv_nonneg | by apply ddiv_le_1].
Qed.

(** ** Priors stay non-negative *)

Definition aggs_ok {K} `{Countable K} (ix : gmap K AggregatedCalibration) : Prop :=
  map_Forall (fun _ a => priors_ok (ag_alpha_prior a) (ag_beta_prior a)) ix.

Definition entry_priors_ok e : Prop := priors_ok (ce_alpha_prior e) (ce_beta_prior e).

Definition config_ok (config : CalibrationConfig) : Prop :=
  1 <= min_sample_size config /\ priors_ok (bootstrap_alpha config) (bootstrap_beta config) /\
  ((0 < dval (bootstrap_alpha config))%Q \/ (0 < dval (bootstrap_beta config))%Q).

Definition priors_inv c : Prop :=
  calibrated c /\ map_Forall (fun _ => entry_priors_ok) (rc_buckets c) /\
  aggs_ok (by_category_zone (rc_indexes c)) /\ aggs_ok (by_zone (rc_indexes c)) /\ config_ok (rc_config c).

Lemma weighted_nonneg a n b : (0 <= dval a)%Q -> (0 <= dval b)%Q -> 0 <= n <= 200 ->
  (0 <= dval (ddiv (dadd (dmul a (dof_Z n)) b) (dof_Z (n + 1))))%Q.
Proof.
  intros Ha Hb Hn. apply ddiv_nonneg.
  - apply dadd_nonneg; [|done]. apply dmul_nonneg; [done|]. apply dof_Z_nonneg. unfold_ints. lia.
  - pose proof (dof_Z_ge_1 (n + 1)) as H. unfold_ints. specialize (H ltac:(lia)). lra.
Qed.

Lemma merge_priors {K} `{Countable K} (proj : BucketKey -> K) ix m k e :
  index_ok proj ix m -> aggs_ok ix -> entry_priors_ok e -> aggs_ok (merge_into ix (proj k) e).
Proof.
  intros Hix Ha [He1 He2]. specialize (Hix (proj k)). unfold merge_into. destruct (ix !! proj k) as [a|] eqn:E.
  - destruct Hix as (_ & _ & _ & Hn). pose proof (bucket_size (bucket_group proj (proj k) m)).
    destruct (Ha _ _ E). apply map_Forall_insert_2; [|done]. simpl. rewrite Hn. split; apply weighted_nonneg; done || lia.
  - by apply map_Forall_insert_2.
Qed.

Lemma bump_priors {K} `{Countable K} (ix : gmap K AggregatedCalibration) k b : aggs_ok ix -> aggs_ok (alter (bump b) k ix).
Proof.
  intros Ha i a. destruct (decide (k = i)) as [<-|]; [rewrite lookup_alter_eq | rewrite lookup_alter_ne by done; eauto].
  destruct (ix !! k) as [a'|] eqn:E; [|done]. intros [= <-]. apply (Ha _ _ E).
Qed.

Lemma rebuild_priors m : all_ok m -> map_Forall (fun _ => entry_priors_ok) m ->
  aggs_ok (by_category_zone (rebuild m)) /\ aggs_ok (by_zone (rebuild m)).
Proof.
  assert (all_ok m -> map_Forall (fun _ => entry_priors_ok) m ->
    (index_ok category_zone (by_category_zone (rebuild m)) m /\ index_ok bk_price_zone (by_zone (rebuild m)) m) /\
    aggs_ok (by_category_zone (rebuild m)) /\ aggs_ok (by_zone (rebuild m))) as Hall; [|intros; by apply Hall].
  unfold rebuild. apply (map_fold_weak_ind (fun r m => all_ok m -> map_Forall (fun _ => entry_priors_ok) m ->
    (index_ok category_zone (by_category_zone r) m /\ index_ok bk_price_zone (by_zone r) m) /\
    aggs_ok (by_category_zone r) /\ aggs_ok (by_zone r))).
  - intros _ _. split; [split; apply no_indexes_ok | split; apply map_Forall_empty].
  - intros i e m' r Hi IH Hm Hp. apply map_Forall_insert in Hm as [He Hm]; [|done].
    apply map_Forall_insert in Hp as [Hep Hp]; [|done]. destruct (IH Hm Hp) as [[Hc Hz] [Hac Haz]]. simpl.
    split; split; [by apply merge_ok..| by eapply merge_priors | by eapply merge_priors].
Qed.

Lemma from_entries_priors es config : Forall counts_ok es -> Forall entry_priors_ok es -> config_ok config ->
  priors_inv (from_entries es config).
Proof.
  intros Hes Hps Hcfg. pose proof (from_entries_calibrated es config Hes) as Hcal. split; [done|].
  assert (map_Forall (fun _ => entry_priors_ok) (insert_entries es)) as Hp.
  { clear -Hps. unfold insert_entries. generalize (map_Forall_empty (M := gmap BucketKey) (fun _ => entry_priors_ok)).
    generalize (∅ : gmap BucketKey CalibrationEntry). induction es as [|e es IH]; intros m Hm; [exact Hm|].
    inversion Hps; subst. simpl. apply IH; [done|]. by apply map_Forall_insert_2. }
  destruct (rebuild_priors (insert_entries es)) as [H1 H2]; [apply Hcal | done |]. done.
Qed.

Definition op_priors_ok (o : calibrator_op) : Prop :=
  match o with
  | OpRecord _ _ => True
  | OpReplace es => Forall counts_ok es /\ Forall entry_priors_ok es
  | OpReloadConfig config => config_ok config
  | OpReprior _ a b => priors_ok a b
  end.

Lemma step_priors c o : op_priors_ok o -> priors_inv c -> priors_inv (calibrator_step c o).
Proof.
  intros Ho (Hcal & Hb & Hc & Hz & Hcfg). destruct o as [k b|es|config|n a b]; simpl in *.
  - pose proof (record_calibrated c k b Hcal) as Hcal'. split; [done|]. clear Hcal'. destruct Hcal as (_ & Hic & Hiz).
    unfold record_outcome. destruct (rc_buckets c !! k) as [e|] eqn:E; simpl.
    + split; [apply map_Forall_insert_2; [apply (Hb k e E) | done]|]. split; [by apply bump_priors|]. by split; [apply bump_priors|].
    + destruct Hcfg as (H1 & H2 & H3). split; [by apply map_Forall_insert_2|].
      split; [by eapply merge_priors|]. by split; [eapply merge_priors|].
  - destruct Ho. by apply from_entries_priors.
  - done.
  - split; [by apply reprior_calibrated|]. split; [|done]. intros i e. simpl. rewrite lookup_fmap.
    destruct (rc_buckets c !! i) as [e'|] eqn:E; [|done]. intros [= <-]. unfold reprior.
    destruct (_ <? _); [done | apply (Hb i e' E)].
Qed.

Lemma lookup_unit c k : priors_inv c -> (0 <= dval (posterior_mean (calibrator_lookup c k)) <= 1)%Q.
Proof.
  intros ((Hm & Hic & Hiz) & Hb & Hc & Hz & Hcfg). unfold calibrator_lookup, lookup_with_fallback, credible, is_credible.
  assert (forall K `{Countable K} (proj : BucketKey -> K) (ix : gmap K AggregatedCalibration) tier a,
    index_ok proj ix (rc_buckets c) -> aggs_ok ix -> ix !! proj k = Some a ->
    (min_sample_size (rc_config c) <=? ag_total_count a) = true -> (0 <= dval (posterior_mean (to_entry a k tier)) <= 1)%Q) as Hagg.
  { intros K ?? proj ix tier a Hix Ha E Hn. specialize (Hix (proj k)). rewrite E in Hix. destruct Hix as (_ & Ht & Hcc & _).
    pose proof (correct_sum_le _ (group_ok proj (proj k) _ Hm)). pose proof (correct_sum_nonneg _ (group_ok proj (proj k) _ Hm)).
    apply posterior_unit; [|exact (Ha _ _ E)|left; destruct Hcfg; simpl; apply Z.leb_le in Hn; lia].
    unfold counts_ok. simpl. rewrite Ht, Hcc. unfold_ints. lia. }
  destruct Hcfg as (H1 & H2 & H3). destruct (rc_buckets c !! k) as [e|] eqn:E; simpl.
  1: destruct (_ <=? ce_total_count e) eqn:En.
  1: { apply posterior_unit; [apply (Hm k e E) | apply (Hb k e E) | left; simpl; apply Z.leb_le in En; lia]. }
  all: destruct (by_category_zone (rc_indexes c) !! category_zone k) as [a|] eqn:Ea; simpl;
    [destruct (_ <=? ag_total_count a) eqn:En2; [exact (Hagg _ _ _ category_zone _ 2 a Hic Hc Ea En2)|]|];
    (destruct (by_zone (rc_indexes c) !! bk_price_zone k) as [z|] eqn:Ez; simpl;
       [destruct (_ <=? ag_total_count z) eqn:En3; [exact (Hagg _ _ _ bk_price_zone _ 3 z Hiz Hz Ez En3)|]|]);
    (apply posterior_unit; [unfold counts_ok; simpl; unfold_ints; lia | done | by right]).
Qed.

(** Posterior means are probabilities.  Starting from stored buckets with non-negative priors
    and no more hits than outcomes, whatever outcomes, reloads, replacements and re-estimated
    priors follow, every lookup -- exact, aggregated or bootstrap -- yields a posterior mean
    between zero and one. *)
Theorem posterior_is_probability es config ops k :
  Forall counts_ok es -> Forall entry_priors_ok es -> config_ok config -> Forall op_priors_ok ops ->
  (0 <= dval (posterior_mean (calibrator_lookup (foldl calibrator_step (from_entries es config) ops) k)) <= 1)%Q.
Proof.
  intros Hes Hps Hcfg Hops. apply lookup_unit.
  pose proof (from_entries_priors es config Hes Hps Hcfg) as Hinv. revert Hinv.
  generalize (from_entries es config). induction Hops as [|o ops Ho Hops IH]; intros c Hc; [done|]. by apply IH, step_priors.
Qed.
End Posterior.

(** ** The updater *)

Section Updater.
Context {DO : DecimalOps} {W : Type} {DS : CalibrationDataSource W} {CD : CalibrationDigests}.
Implicit Types (u : CalibrationUpdater (W := W)) (o : UnresolvedOutcome).

(** Recording what was confirmed of an outcome. *)
Definition record_confirmed (c : ResolutionCalibrator) (p : UnresolvedOutcome * bool) : ResolutionCalibrator :=
  record_outcome c (uo_bucket_key p.1) (Bool.eqb p.2 (uo_predicted_yes p.1)).

Lemma tick_outcomes_spec outcomes u stats u' r :
  tick_outcomes u stats outcomes = (u', r) ->
  exists confirmed, confirmed.*1 `sublist_of` outcomes /\
    cu_calibrator u' = foldl record_confirmed (cu_calibrator u) confirmed /\ cu_config u' = cu_config u /\
    match r with
    | Ok stats' => us_resolved stats' = us_resolved stats + Z.of_nat (length confirmed) /\
                   us_resolved stats' + gamma_miss stats' <= us_resolved stats + gamma_miss stats + Z.of_nat (length outcomes)
    | Err _ => True
    end.
Proof.
  revert u stats. induction outcomes as [|o rest IH]; intros u stats; simpl.
  { intros; simplify_eq. exists []. repeat split; try done; simpl; lia. }
  destruct (confirm _ _) as [w [[confirmed|]|]].
  - destruct (resolve_outcome _ _ _) as [w' [[]|e]]; intros H.
    + apply IH in H as (l & Hsub & Hc & Hcfg & Hr). exists ((o, confirmed) :: l).
      split; [by constructor|]. split; [done|]. split; [done|]. destruct r; [|done]. simpl in *. lia.
    + simplify_eq. exists [(o, confirmed)]. split; [by constructor; apply sublist_nil_l | done].
  - intros H. apply IH in H as (l & Hsub & Hc & Hcfg & Hr). exists l. split; [by constructor|]. split; [done|]. split; [done|].
    destruct r; [|done]. simpl in *. lia.
  - intros H. apply IH in H as (l & Hsub & Hc & Hcfg & Hr). exists l. split; [by constructor|]. split; [done|]. split; [done|].
    destruct r; [|done]. simpl in *. lia.
Qed.

(** The counts of a bucket. *)
Definition bucket_counts (c : ResolutionCalibrator) (k : BucketKey) : option (Z * Z) :=
  (fun e => (ce_total_count e, ce_correct_count e)) <$> rc_buckets c !! k.

Lemma update_priors_counts u now_ms k :
  bucket_counts (cu_calibrator (update_priors u now_ms).1) k = bucket_counts (cu_calibrator u) k.
Proof.
  unfold update_priors. destruct (estimate_mom_prior _ _ _ _) as [a b].
  assert (forall u', cu_calibrator u' = reprior_buckets (cu_calibrator u) (min_sample_size (cu_config u)) a b ->
    bucket_counts (cu_calibrator u') k = bucket_counts (cu_calibrator u) k) as H.
  { intros u' ->. unfold bucket_counts. simpl. rewrite lookup_fmap. destruct (rc_buckets _ !! k) as [e|]; [|done].
    simpl. unfold reprior. by destruct (_ <? _). }
  destruct (upsert_buckets _ _) as [w [|]]; [|by apply H].
  destruct (write_calibration_snapshots _ _) as [w' [|]]; by apply H.
Qed.

(** A successful calibration tick counts every confirmed outcome once.  The outcomes that were
    resolved are a selection of the unresolved ones in order; the hit and outcome counts of every
    bucket are those of recording each of them exactly once (re-estimated priors do not touch
    counts); and the statistics report how many there were. *)
Theorem tick_counts_confirmed_once u now_ms u' stats w outcomes :
  get_unresolved_outcomes (cu_data_source u) = (w, Ok outcomes) ->
  calibration_tick u now_ms = (u', Ok stats) ->
  exists confirmed, confirmed.*1 `sublist_of` outcomes /\ us_resolved stats = Z.of_nat (length confirmed) /\
    us_resolved stats + gamma_miss stats <= Z.of_nat (length outcomes) /\
    forall k, bucket_counts (cu_calibrator u') k = bucket_counts (foldl record_confirmed (cu_calibrator u) confirmed) k.
Proof.
  intros Hget. unfold calibration_tick. rewrite Hget. destruct (tick_outcomes _ _ _) as [u1 [s|e]] eqn:E; [|done].
  apply tick_outcomes_spec in E as (confirmed & Hsub & Hc & _ & Hr). simpl in Hc, Hr. destruct Hr as [Hr1 Hr2].
  assert (us_resolved s + gamma_miss s <= Z.of_nat (length outcomes)) as Hle by (simpl in Hr2; lia).
  destruct (0 <? us_resolved s).
  - pose proof (update_priors_counts u1 now_ms) as Hu. destruct (update_priors u1 now_ms) as [u2 [|]]; intros; simplify_eq.
    exists confirmed. split; [done|]. split; [lia|]. split; [done|]. intros k. rewrite <- Hc. apply Hu.
  - intros; simplify_eq. exists confirmed. split; [done|]. split; [lia|]. split; [done|]. intros k. by rewrite <- Hc.
Qed.

(** An outcome whose resolution cannot be stored is counted again.  The in-memory bucket is
    updated before the row is marked resolved: when that write fails the tick returns the error
    with the outcome already counted, and the next tick, finding it still unresolved, counts it a
    second time. *)
Theorem failed_resolution_counts_again u now_ms o yes r err :
  get_unresolved_outcomes (cu_data_source u) = (cu_data_source u, Ok [o]) ->
  check_gamma_resolution (cu_data_source u) (uo_market_id o) = (cu_data_source u, Ok (Some yes)) ->
  check_ctf_resolution (cu_data_source u) (uo_market_id o) = (cu_data_source u, r) -> r <> Ok (Some (negb yes)) ->
  resolve_outcome (cu_data_source u) (uo_outcome_id o) yes = (cu_data_source u, Err err) ->
  let '(u1, r1) := calibration_tick u now_ms in
  let '(u2, r2) := calibration_tick u1 now_ms in
  r1 = Err err /\ r2 = Err err /\
  cu_calibrator u2 = record_confirmed (record_confirmed (cu_calibrator u) (o, yes)) (o, yes).
Proof.
  intros Hget Hg Hc Hr Hres.
  assert (forall v, cu_data_source v = cu_data_source u ->
    calibration_tick v now_ms = (set_calibrator v (record_confirmed (cu_calibrator v) (o, yes)), Err err)) as Htick.
  { intros v Hv. unfold calibration_tick. rewrite Hv, Hget. simpl. unfold confirm. simpl. rewrite Hg, Hc.
    assert (match r with Ok (Some ctf_yes) => (cu_data_source u, Some (if Bool.eqb ctf_yes yes then Some yes else None))
            | _ => (cu_data_source u, Some (Some yes)) end = (cu_data_source u, Some (Some yes))) as ->.
    { destruct r as [[b|]|]; try done. destruct b, yes; done. }
    simpl. rewrite Hres. unfold set_source, set_calibrator. simpl. by rewrite <- Hv. }
  rewrite (Htick u eq_refl), Htick by done. done.
Qed.

(** ** What is persisted of the priors *)

(** A store of bucket rows that upserts by key. *)
Class BucketStore := {
  stored : W -> gmap BucketKey UpsertCalibration;
  upsert_stores : forall w rows w', upsert_buckets w rows = (w', Ok tt) ->
    stored w' = foldl (fun m r => <[uc_key r := r]> m) (stored w) rows;
  snapshots_keep : forall w rows, stored (write_calibration_snapshots w rows).1 = stored w
}.

Definition store_rows (m : gmap BucketKey UpsertCalibration) (rows : list UpsertCalibration) : gmap BucketKey UpsertCalibration :=
  foldl (fun m r => <[uc_key r := r]> m) m rows.

Lemma store_rows_other rows m k : k ∉ uc_key <$> rows -> store_rows m rows !! k = m !! k.
Proof.
  revert m. induction rows as [|x rows IH]; intros m Hk; [done|]. rewrite fmap_cons, not_elem_of_cons in Hk.
  simpl. rewrite IH by tauto. by rewrite lookup_insert_ne by (intros E; by destruct Hk).
Qed.

Lemma store_rows_lookup rows m r : NoDup (uc_key <$> rows) -> r ∈ rows -> store_rows m rows !! uc_key r = Some r.
Proof.
  revert m. induction rows as [|x rows IH]; intros m Hd Hr; [by apply not_elem_of_nil in Hr|].
  rewrite fmap_cons, NoDup_cons in Hd. destruct Hd as [Hx Hd]. apply elem_of_cons in Hr as [->|Hr]; [|by apply IH].
  simpl. rewrite store_rows_other by done. apply lookup_insert_eq.
Qed.

(** Every bucket is filed under its own key. *)
Definition keyed (c : ResolutionCalibrator) : Prop := map_Forall (fun k e => ce_bucket_key e = k) (rc_buckets c).

Lemma from_entries_keyed es config : keyed (from_entries es config).
Proof.
  unfold keyed, from_entries, insert_entries. simpl.
  generalize (map_Forall_empty (M := gmap BucketKey) (fun k e => ce_bucket_key e = k)).
  generalize (∅ : gmap BucketKey CalibrationEntry). induction es as [|e es IH]; intros m Hm; [exact Hm|].
  simpl. by apply IH, map_Forall_insert_2.
Qed.

Lemma all_entries_keys c : keyed c -> ce_bucket_key <$> all_entries c = (map_to_list (rc_buckets c)).*1.
Proof.
  intros Hk. unfold all_entries. rewrite <- list_fmap_compose. apply list_fmap_ext. intros i [k e] Hi.
  apply list_elem_of_lookup_2, elem_of_map_to_list in Hi. by apply Hk.
Qed.

(** The priors of sparse buckets that are persisted are those from before their re-estimation.
    After a successful re-estimation every bucket below the sample threshold has the new prior in
    memory while its stored row carries the old one, so a restart before the next resolved
    outcome loses the estimate. *)
Theorem persisted_priors_lag {BS : BucketStore} u now_ms u' k e :
  keyed (cu_calibrator u) -> rc_buckets (cu_calibrator u) !! k = Some e ->
  ce_total_count e < min_sample_size (cu_config u) -> update_priors u now_ms = (u', Ok tt) ->
  (fun e => (ce_alpha_prior e, ce_beta_prior e)) <$> rc_buckets (cu_calibrator u') !! k =
    Some (estimate_mom_prior (all_entries (cu_calibrator u)) (min_sample_size (cu_config u))
            (bootstrap_alpha (cu_config u)) (bootstrap_beta (cu_config u))) /\
  (fun r => (uc_alpha_prior r, uc_beta_prior r)) <$> stored (cu_data_source u') !! k = Some (ce_alpha_prior e, ce_beta_prior e).
Proof.
  intros Hk He Hn. unfold update_priors. destruct (estimate_mom_prior _ _ _ _) as [a b].
  destruct (upsert_buckets _ _) as [w [[]|]] eqn:Eu; [|done]. apply upsert_stores in Eu.
  pose proof (snapshots_keep w (snapshot_rows (cu_config u) now_ms (to_upsert <$> all_entries (cu_calibrator u)))) as Hs.
  destruct (write_calibration_snapshots _ _) as [w' [[]|]]; [|done]. intros; simplify_eq. simpl. split.
  - rewrite lookup_fmap, He. simpl. unfold reprior. by rewrite (proj2 (Z.ltb_lt _ _)) by lia.
  - simpl in Hs. rewrite Hs, Eu. change (foldl _ _ _) with (store_rows (stored (cu_data_source u)) (to_upsert <$> all_entries (cu_calibrator u))).
    assert (uc_key (to_upsert e) = k) as Hke by by apply (Hk k e). rewrite <- Hke.
    rewrite store_rows_lookup; [done| |].
    + rewrite <- list_fmap_compose. change (uc_key ∘ to_upsert) with ce_bucket_key.
      rewrite all_entries_keys by done. apply NoDup_fst_map_to_list.
    + apply list_elem_of_fmap. exists e. split; [done|]. unfold all_entries. apply list_elem_of_fmap. exists (k, e).
      split; [done|]. by apply elem_of_map_to_list.
Qed.
End Updater.

(** ** Instances *)

Module CalibrationDemo.
#[local] Existing Instance ExactQ.exactQ.

Definition key (d : DurationBucket) : BucketKey := {| bk_category := Sports; bk_price_zone := Z97; bk_duration_bucket := d |}.
Definition entry (d : DurationBucket) (total correct : Z) : CalibrationEntry := {|
  ce_bucket_key := key d; ce_total_count := total; ce_correct_count := correct; ce_alpha_prior := (2 # 1)%Q;
  ce_beta_prior := (1 # 5)%Q; ce_fallback_tier := 1 |}.
Definition entries : list CalibrationEntry := [entry Short 20 18; entry Medium 15 12; entry Long 4 4].
Definition ops : list calibrator_op := [OpRecord (key Long) true; OpReprior 30 (3 # 1)%Q (1 # 2)%Q; OpRecord (key VeryLong) false].

Lemma entries_counts : Forall counts_ok entries.
Proof. repeat constructor; simpl; unfold counts_ok; simpl; unfold_ints; lia. Qed.

(** No bucket has thirty outcomes; the three of the category and zone have forty-one together. *)
Lemma calibration_lookup_exact_witness :
  let c := foldl calibrator_step (from_entries entries calibration_config_default) ops in
  counts_of (calibrator_lookup c (key Short)) = (2, 41, 35).
Proof.
  pose proof (calibration_lookup_exact (DO := ExactQ.exactQ) entries calibration_config_default ops (key Short) entries_counts) as H.
  cbv zeta in *. rewrite H; [vm_compute; reflexivity|]. repeat constructor.
Defined.

Lemma posterior_is_probability_witness :
  let c := foldl calibrator_step (from_entries entries calibration_config_default) ops in
  (0 <= dval (posterior_mean (calibrator_lookup c (key Short))) <= 1)%Q.
Proof.
  apply (posterior_is_probability (DO := ExactQ.exactQ) (DL := ExactQ.exactQ_laws)); [apply entries_counts | | |].
  - repeat constructor; vm_compute; discriminate.
  - split; [simpl; lia|]. split; [split; vm_compute; discriminate | left; vm_compute; reflexivity].
  - repeat constructor; vm_compute; discriminate.
Defined.

(** A source with one unresolved outcome that Gamma confirms and whose resolution is never stored. *)
Definition outcome : UnresolvedOutcome := {| uo_outcome_id := 7; uo_market_id := "m"; uo_bucket_key := key Short; uo_predicted_yes := true |}.

#[local] Instance stuck_source : CalibrationDataSource (gmap BucketKey UpsertCalibration) := {|
  get_unresolved_outcomes := fun w => (w, Ok [outcome]);
  check_gamma_resolution := fun w _ => (w, Ok (Some true));
  check_ctf_resolution := fun w _ => (w, Ok None);
  upsert_buckets := fun w rows => (store_rows w rows, Ok tt);
  write_calibration_snapshots := fun w _ => (w, Ok tt);
  resolve_outcome := fun w _ _ => (w, Err "database unavailable") |}.

#[local, refine] Instance stuck_store : BucketStore := {| stored := fun w => w |}.
Proof. - by intros w rows w' [= <-]. - done. Defined.

#[local] Instance no_digests : CalibrationDigests := {|
  calibration_config_hash := fun _ => ""; calibration_snapshot_hash := fun _ => "" |}.

Definition updater : CalibrationUpdater (W := gmap BucketKey UpsertCalibration) := {|
  cu_calibrator := from_entries entries calibration_config_default; cu_data_source := ∅; cu_config := calibration_config_default |}.

(** Twenty outcomes become twenty-two, although one market was resolved. *)
Lemma failed_resolution_counts_again_witness :
  bucket_counts (cu_calibrator (calibration_tick (calibration_tick updater 0).1 0).1) (key Short) = Some (22, 20).
Proof.
  pose proof (failed_resolution_counts_again updater 0 outcome true (Ok None) "database unavailable" eq_refl eq_refl eq_refl) as H.
  specialize (H ltac:(discriminate) eq_refl).
  destruct (calibration_tick updater 0) as [u1 r1]. cbn [fst]. destruct (calibration_tick u1 0) as [u2 r2]. cbn [fst].
  destruct H as (_ & _ & ->). vm_compute. reflexivity.
Defined.

Lemma persisted_priors_lag_witness :
  (fun r => (uc_alpha_prior r, uc_beta_prior r)) <$> stored (cu_data_source (update_priors updater 0).1) !! key Long
    = Some ((2 # 1)%Q, (1 # 5)%Q).
Proof.
  assert ((update_priors updater 0).2 = Ok tt) as Hr by (vm_compute; reflexivity).
  destruct (update_priors updater 0) as [u' r] eqn:E. cbn [snd fst] in *. subst r.
  apply (persisted_priors_lag updater 0 u' (key Long) (entry Long 4 4)) in E as [_ E].
  - exact E.
  - apply from_entries_keyed.
  - vm_compute. reflexivity.
  - vm_compute. reflexivity.
Defined.

#[local] Instance good_source : CalibrationDataSource unit := {|
  get_unresolved_outcomes := fun w => (w, Ok [outcome; outcome]);
  check_gamma_resolution := fun w _ => (w, Ok (Some true));
  check_ctf_resolution := fun w _ => (w, Ok None);
  upsert_buckets := fun w _ => (w, Ok tt);
  write_calibration_snapshots := fun w _ => (w, Ok tt);
  resolve_outcome := fun w _ _ => (w, Ok tt) |}.

Lemma tick_counts_confirmed_once_witness :
  exists confirmed : list (UnresolvedOutcome * bool),
    us_resolved {| total_unresolved := 2; us_resolved := 2; gamma_miss := 0 |} = Z.of_nat (length confirmed) /\
    confirmed.*1 `sublist_of` [outcome; outcome].
Proof.
  set (u := {| cu_calibrator := from_entries entries calibration_config_default; cu_data_source := tt; cu_config := calibration_config_default |}).
  assert ((calibration_tick u 0).2 = Ok {| total_unresolved := 2; us_resolved := 2; gamma_miss := 0 |}) as Hr by (vm_compute; reflexivity).
  destruct (calibration_tick u 0) as [u' r] eqn:E. cbn [snd] in Hr. subst r.
  assert (get_unresolved_outcomes (CalibrationDataSource := good_source) tt = (tt, Ok [outcome; outcome])) as Hg by reflexivity.
  destruct (tick_counts_confirmed_once u 0 u' _ tt [outcome; outcome] Hg E) as (confirmed & H1 & H2 & _).
  exists confirmed. split; assumption.
Defined.
End CalibrationDemo.
