(* ===== verification/Detector.v ===== *)
(** * Endgame detection: [oxide-arb-algorithm/src/{endgame,cooldown,urgency,staleness,fill_probability,scorer}]

    The convergence tracker and the emission cooldown over a third-party cache, the confidence
    fusion, the fill-probability, urgency and staleness factors, the detector that turns a pair of
    books into an opportunity, and the scorer.  The cache is an interface that may forget an entry
    at any time but never invents one; identifiers and clock readings are arguments; the floating
    point product of the cooldown is taken exactly. *)

From S2P Require Import Prelude Decimal Micro Config Domain Fees FactorModel Book Calibration.

(** ** Configuration *)

Section Configs.
Context {DO : DecimalOps}.

(** [models/runtime_config/detection.rs:190-207] `FillProbabilityConfig` *)
Record FillProbabilityConfig := {
  fp_base_fill_prob : D;
  fp_depth_penalty_threshold_pct : D;
  fp_depth_penalty_per_pct : D;
  fp_staleness_penalty_per_level : D;
  fp_resolution_proximity_bonus : D
}.

(** [models/runtime_config/detection.rs:209-235] `FillProbabilityConfig::default` *)
Definition fill_probability_default : FillProbabilityConfig := {|
  fp_base_fill_prob := dlit 90 2; fp_depth_penalty_threshold_pct := dlit 20 0; fp_depth_penalty_per_pct := dlit 2 2;
  fp_staleness_penalty_per_level := dlit 5 2; fp_resolution_proximity_bonus := dlit 5 2 |}.

(** [models/runtime_config/detection.rs:246-261] `ScorerConfig` *)
Record ScorerConfig := {
  sc_min_score : D;
  sc_max_depth_usage_pct : D;
  sc_category_weights : gmap MarketCategory D
}.

(** [models/runtime_config/detection.rs:282-295] `default_category_weights` *)
Definition default_category_weights : gmap MarketCategory D := list_to_map
  [(Geopolitics, dlit 15 1); (Sports, dlit 12 1); (Politics, dlit 10 1); (Finance, dlit 10 1); (Tech, dlit 10 1);
   (Culture, dlit 8 1); (Weather, dlit 8 1); (Economics, dlit 8 1); (Crypto, dlit 8 1); (Other, dlit 8 1)].

(** [models/runtime_config/detection.rs:263-278] `ScorerConfig::default` *)
Definition scorer_config_default : ScorerConfig := {|
  sc_min_score := dlit 10 2; sc_max_depth_usage_pct := dlit 50 0; sc_category_weights := default_category_weights |}.

(** [models/runtime_config/detection.rs:302-315] `EmissionCooldownConfig` *)
Record EmissionCooldownConfig := {
  ec_base_cooldown_secs : Z;
  ec_max_multiplier : D;
  ec_max_capacity : Z
}.

(** [models/runtime_config/detection.rs:317-335] `EmissionCooldownConfig::default` *)
Definition emission_cooldown_default : EmissionCooldownConfig := {|
  ec_base_cooldown_secs := 30; ec_max_multiplier := dlit 160 1; ec_max_capacity := 4096 |}.

(** [models/runtime_config/detection.rs:342-352] `ConvergenceTrackerConfig` *)
Record ConvergenceTrackerConfig := { tc_max_idle_secs : Z; tc_max_capacity : Z }.

(** [models/runtime_config/detection.rs:50-81] `EndgameDetectionConfig` *)
Record EndgameDetectionConfig := {
  ed_settlement_window_hours : Z;
  ed_high_threshold : D;
  ed_min_convergence_duration_secs : Z;
  ed_min_profit_per_share : D;
  ed_max_investment_usd : D;
  ed_fill_probability : FillProbabilityConfig;
  ed_scorer : ScorerConfig;
  ed_emission_cooldown : EmissionCooldownConfig;
  ed_convergence_tracker : ConvergenceTrackerConfig
}.

(** [models/runtime_config/detection.rs:83-113] `EndgameDetectionConfig::default` *)
Definition endgame_detection_default : EndgameDetectionConfig := {|
  ed_settlement_window_hours := 24; ed_high_threshold := dlit 95 2; ed_min_convergence_duration_secs := 300;
  ed_min_profit_per_share := dlit 5 3; ed_max_investment_usd := dlit 500 0;
  ed_fill_probability := fill_probability_default; ed_scorer := scorer_config_default;
  ed_emission_cooldown := emission_cooldown_default;
  ed_convergence_tracker := {| tc_max_idle_secs := 7200; tc_max_capacity := 10000 |} |}.

(** [models/runtime_config/detection.rs:18-29] `DetectionConfig` *)
Record DetectionConfig := {
  dc_min_profit_threshold_usd : D;
  dc_endgame : EndgameDetectionConfig;
  dc_calibration : CalibrationConfig
}.

(** [models/runtime_config/detection.rs:31-43] `DetectionConfig::default` *)
Definition detection_config_default : DetectionConfig := {|
  dc_min_profit_threshold_usd := dlit 50 2; dc_endgame := endgame_detection_default; dc_calibration := calibration_config_default |}.
End Configs.

(** [result.unwrap_or(default)] *)
Definition ok_or {A E} (r : Result A E) (d : A) : A := match r with Ok a => a | Err _ => d end.

(** [models/types/micro.rs:323-326] `MicroPct::try_from_pct_decimal` *)
Definition try_from_pct_decimal {DO : DecimalOps} (d : D) : Result micro MicroConversionError :=
  try_from_decimal (ddiv d (dof_Z 100)).

(** ** Time spans *)

(** [TimeDelta::num_seconds] and [num_hours] cut off towards zero. *)
Definition num_seconds (delta : Z) : Z := delta ÷ nanos_per_sec.
Definition num_hours (delta : Z) : Z := delta ÷ (3600 * nanos_per_sec).

(** ** Caches

    A concurrent cache with expiry: reading may refresh the expiry of an entry, and an entry may
    be gone at any time. *)

Class MarketCache (C V : Type) := {
  cache_new : Z -> Z -> C;                                  (** capacity and life of an entry in seconds *)
  cache_get : C -> MarketId -> Time -> Z -> C * option V;   (** with the life after this touch *)
  cache_insert : C -> MarketId -> V -> Time -> Z -> C;
  cache_invalidate : C -> MarketId -> C;
  cache_holds : C -> MarketId -> V -> Prop                  (** what a later read may return *)
}.

(** A read returns only what was inserted for that market and not removed since. *)
Class MarketCacheLaws {C V} (MC : MarketCache C V) : Prop := {
  new_holds : forall n ttl m v, ~ cache_holds (cache_new n ttl) m v;
  get_holds : forall c m now life c' v, cache_get c m now life = (c', Some v) -> cache_holds c m v;
  get_keeps : forall c m now life m' v', cache_holds (cache_get c m now life).1 m' v' -> cache_holds c m' v';
  insert_holds : forall c m v now life m' v', cache_holds (cache_insert c m v now life) m' v' ->
    (m' = m /\ v' = v) \/ (m' <> m /\ cache_holds c m' v');
  invalidate_holds : forall c m m' v', cache_holds (cache_invalidate c m) m' v' -> m' <> m /\ cache_holds c m' v'
}.

(** ** Convergence *)

(** [algo/endgame/convergence.rs:24-29] `ConvergenceDirection` *)
Inductive ConvergenceDirection := YesLikely | NoLikely.

#[global] Instance ConvergenceDirection_eq_dec : EqDecision ConvergenceDirection.
Proof. solve_decision. Defined.

(** [algo/endgame/convergence.rs:33-36] `ConvergenceEntry` *)
Record ConvergenceEntry := { cv_direction : ConvergenceDirection; cv_first_seen : Time }.

(** [algo/endgame/convergence.rs:86-89] `InMemoryConvergenceTracker` *)
Record InMemoryConvergenceTracker {C : Type} := { ct_entries : C; ct_max_idle_secs : Z }.

Section Convergence.
Context {C : Type} {MC : MarketCache C ConvergenceEntry}.
Abbreviation Tracker := (InMemoryConvergenceTracker (C := C)).

(** [algo/endgame/convergence.rs:94-105] `InMemoryConvergenceTracker::new` *)
Definition new_tracker (config : ConvergenceTrackerConfig) : Tracker := {|
  ct_entries := cache_new (tc_max_capacity config) (tc_max_idle_secs config); ct_max_idle_secs := tc_max_idle_secs config |}.

(** [algo/endgame/convergence.rs:112-114] `InMemoryConvergenceTracker::set_max_idle_secs` *)
Definition set_max_idle_secs (t : Tracker) (secs : Z) : Tracker := {| ct_entries := ct_entries t; ct_max_idle_secs := secs |}.

(** [algo/endgame/convergence.rs:122-144] `InMemoryConvergenceTracker::update_and_get` *)
Definition update_and_get (t : Tracker) (market_id : MarketId) (direction : ConvergenceDirection) (now : Time) : Tracker * Z :=
  let '(entries, found) := cache_get (ct_entries t) market_id now (ct_max_idle_secs t) in
  let fresh := {| ct_entries := cache_insert entries market_id {| cv_direction := direction; cv_first_seen := now |} now (ct_max_idle_secs t);
                  ct_max_idle_secs := ct_max_idle_secs t |} in
  match found with
  | Some existing =>
      if decide (cv_direction existing = direction)
      then ({| ct_entries := entries; ct_max_idle_secs := ct_max_idle_secs t |},
            unwrap_or (to_u64 (Z.max (num_seconds (now - cv_first_seen existing)) 0)) 0)
      else (fresh, 0)
  | None => (fresh, 0)
  end.

(** [algo/endgame/convergence.rs:147-149] `InMemoryConvergenceTracker::remove` *)
Definition tracker_remove (t : Tracker) (market_id : MarketId) : Tracker := {|
  ct_entries := cache_invalidate (ct_entries t) market_id; ct_max_idle_secs := ct_max_idle_secs t |}.
End Convergence.

(** ** Emission cooldown *)

(** [algo/cooldown.rs:24-27] `CooldownEntry` *)
Record CooldownEntry := { cd_emitted_at : Time; cd_consecutive_hits : Z }.

Section Cooldown.
Context {DO : DecimalOps} {C : Type} {MC : MarketCache C CooldownEntry}.

(** [algo/cooldown.rs:30-37] `CooldownParams` *)
Record CooldownParams := {
  cp_base_cooldown_secs : Z;
  cp_max_multiplier : D;
  cp_max_capacity : Z;
  cp_entry_ttl_secs : Z
}.

(** [algo/cooldown.rs:40-49] `CooldownParams::from_config` *)
Definition cooldown_params (config : EmissionCooldownConfig) : CooldownParams :=
  let max_mult_secs := unwrap_or (to_u64 (dto_Z (dceil (ec_max_multiplier config)))) 16 in
  {| cp_base_cooldown_secs := ec_base_cooldown_secs config;
     cp_max_multiplier := ec_max_multiplier config;
     cp_max_capacity := ec_max_capacity config;
     cp_entry_ttl_secs := sat_u64 (ec_base_cooldown_secs config * max_mult_secs) |}.

(** [algo/cooldown.rs:51-56] `CooldownParams::build_cache` *)
Definition build_cache (p : CooldownParams) : C := cache_new (cp_max_capacity p) (cp_entry_ttl_secs p).

(** [algo/cooldown.rs:65-69] `InMemoryEmissionCooldown` *)
Record InMemoryEmissionCooldown := { ecd_entries : C; ecd_params : CooldownParams; ecd_suppressed_count : Z }.

(** [algo/cooldown.rs:74-81] `InMemoryEmissionCooldown::new` *)
Definition new_cooldown (config : EmissionCooldownConfig) : InMemoryEmissionCooldown :=
  let p := cooldown_params config in {| ecd_entries := build_cache p; ecd_params := p; ecd_suppressed_count := 0 |}.

(** [algo/cooldown.rs:89-102] `InMemoryEmissionCooldown::reload` *)
Definition cooldown_reload (cd : InMemoryEmissionCooldown) (config : EmissionCooldownConfig) : InMemoryEmissionCooldown :=
  let new_params := cooldown_params config in
  let old_params := ecd_params cd in
  let needs_rebuild := negb (cp_max_capacity new_params =? cp_max_capacity old_params)
    || negb (cp_entry_ttl_secs new_params =? cp_entry_ttl_secs old_params) in
  {| ecd_entries := if needs_rebuild then build_cache new_params else ecd_entries cd;
     ecd_params := new_params; ecd_suppressed_count := ecd_suppressed_count cd |}.

(** [algo/cooldown.rs:156-160] `effective_multiplier` *)
Definition effective_multiplier (consecutive_hits : Z) (max_multiplier : D) : Q :=
  let power := inject_Z (2 ^ Z.min consecutive_hits 30) in
  if Qle_bool power (dval max_multiplier) then power else dval max_multiplier.

(** Whether [elapsed] nanoseconds reach the cooldown. *)
Definition cooled_down (p : CooldownParams) (hits elapsed : Z) : bool :=
  Qle_bool (inject_Z (cp_base_cooldown_secs p * nanos_per_sec) * effective_multiplier hits (cp_max_multiplier p))%Q (inject_Z elapsed).

(** [algo/cooldown.rs:107-122] `InMemoryEmissionCooldown::may_emit` *)
Definition may_emit (cd : InMemoryEmissionCooldown) (market_id : MarketId) (now : Time) : InMemoryEmissionCooldown * bool :=
  let '(entries, found) := cache_get (ecd_entries cd) market_id now (cp_entry_ttl_secs (ecd_params cd)) in
  match found with
  | None => ({| ecd_entries := entries; ecd_params := ecd_params cd; ecd_suppressed_count := ecd_suppressed_count cd |}, true)
  | Some entry =>
      if cooled_down (ecd_params cd) (cd_consecutive_hits entry) (now - cd_emitted_at entry)
      then ({| ecd_entries := entries; ecd_params := ecd_params cd; ecd_suppressed_count := ecd_suppressed_count cd |}, true)
      else ({| ecd_entries := entries; ecd_params := ecd_params cd; ecd_suppressed_count := ecd_suppressed_count cd + 1 |}, false)
  end.

(** [algo/cooldown.rs:125-136] `InMemoryEmissionCooldown::record_emission` *)
Definition record_emission (cd : InMemoryEmissionCooldown) (market_id : MarketId) (now : Time) : InMemoryEmissionCooldown :=
  let ttl := cp_entry_ttl_secs (ecd_params cd) in
  let '(entries, found) := cache_get (ecd_entries cd) market_id now ttl in
  let consecutive_hits := match found with Some e => cd_consecutive_hits e | None => 0 end in
  {| ecd_entries := cache_insert entries market_id {| cd_emitted_at := now; cd_consecutive_hits := consecutive_hits + 1 |} now ttl;
     ecd_params := ecd_params cd; ecd_suppressed_count := ecd_suppressed_count cd |}.

(** [algo/cooldown.rs:139-141] `InMemoryEmissionCooldown::reset` *)
Definition cooldown_reset (cd : InMemoryEmissionCooldown) (market_id : MarketId) : InMemoryEmissionCooldown := {|
  ecd_entries := cache_invalidate (ecd_entries cd) market_id; ecd_params := ecd_params cd; ecd_suppressed_count := ecd_suppressed_count cd |}.

(** [algo/cooldown.rs:144-146] `InMemoryEmissionCooldown::take_suppressed_count` *)
Definition take_suppressed_count (cd : InMemoryEmissionCooldown) : InMemoryEmissionCooldown * Z :=
  ({| ecd_entries := ecd_entries cd; ecd_params := ecd_params cd; ecd_suppressed_count := 0 |}, ecd_suppressed_count cd).
End Cooldown.

(** ** Factors of the score *)

(** [algo/staleness.rs:12-36] `StalenessPolicy::confidence_discount` *)
Definition confidence_discount (level : StalenessLevel) : micro :=
  match level with Fresh => MICRO_SCALE | Acceptable => 950000 | Stale => 700000 | Expired => 0 end.

(** [algo/staleness.rs:41-43] `StalenessPolicy::is_tradeable` *)
Definition is_tradeable (level : StalenessLevel) : bool :=
  match level with Fresh | Acceptable => true | Stale | Expired => false end.

(** [algo/urgency.rs:21-38] `UrgencyFactor::compute` *)
Definition urgency (hours_remaining window_hours : Z) : micro :=
  if window_hours =? 0 then MICRO_SCALE
  else
    let h_rem := Z.min (Z.max hours_remaining 0) window_hours in
    let progress := unwrap_or (to_i64 ((window_hours - h_rem) * MICRO_SCALE ÷ window_hours)) MICRO_SCALE in
    let t := clampZ 0 MICRO_SCALE progress in
    let inner := 3 * MICRO_SCALE - 2 * t in
    let smoothstep := t * t * inner ÷ MICRO_SCALE ÷ MICRO_SCALE in
    MicroProb.from_factor_micro (unwrap_or (to_i64 (MICRO_SCALE + 2 * smoothstep)) MICRO_SCALE).

(** [algo/endgame/confidence.rs:96-105] `duration_confidence_factor` *)
Definition duration_confidence_factor (secs : Z) : micro :=
  let v := if secs <=? 300 then secs * 200000 ÷ 300
           else if secs <=? 3600 then 200000 + (secs - 300) * 400000 ÷ 3300
           else if secs <=? 21600 then 600000 + (secs - 3600) * 250000 ÷ 18000
           else if secs <=? 86400 then 850000 + (secs - 21600) * 150000 ÷ 64800
           else MICRO_SCALE in
  MicroProb.from_micro (unwrap_or (to_i64 v) MICRO_SCALE).

(** [algo/endgame/confidence.rs:64-92] `compute_realtime_confidence` *)
Definition compute_realtime_confidence (entry_price : MicroPrice) (convergence_secs : Z) (high_threshold : MicroPrice) : micro :=
  let range := sat_i64 (MICRO_SCALE - high_threshold) in
  let price_conf :=
    if range <=? 0 then MicroProb.from_micro 990000
    else
      let excess := sat_i64 (entry_price - high_threshold) in
      let scaled := excess * 190000 ÷ range in
      MicroProb.from_micro (800000 + unwrap_or (to_i64 scaled) 0) in
  let duration_conf := duration_confidence_factor convergence_secs in
  let raw := (price_conf * 700000 + duration_conf * 300000) ÷ MICRO_SCALE in
  MicroProb.clamp_prob (MicroProb.from_micro (unwrap_or (to_i64 raw) 0)) 500000 995000.

Section Scoring.
Context {DO : DecimalOps}.

(** [algo/endgame/confidence.rs:19-23] `ConfidenceFusion` *)
Record ConfidenceFusion := { cf_prior_strength : Z; cf_p_floor : micro; cf_p_ceiling : micro }.

(** [algo/endgame/confidence.rs:28-35] `ConfidenceFusion::new` *)
Definition new_fusion (config : CalibrationConfig) : ConfidenceFusion := {|
  cf_prior_strength := fusion_prior_strength config;
  cf_p_floor := ok_or (try_from_decimal (fused_p_floor config)) 0;
  cf_p_ceiling := ok_or (try_from_decimal (fused_p_ceiling config)) MICRO_SCALE |}.

(** [algo/endgame/confidence.rs:42-55] `ConfidenceFusion::fuse` *)
Definition fuse (f : ConfidenceFusion) (p_calibrator p_realtime : micro) (sample_count : Z) : micro :=
  let denom := sat_u32 (sample_count + cf_prior_strength f) in
  let blended := if denom =? 0 then p_realtime else MicroProb.blend p_realtime p_calibrator sample_count denom in
  MicroProb.clamp_prob blended (cf_p_floor f) (cf_p_ceiling f).

(** [algo/fill_probability/estimator.rs:18-24] `FillProbabilityEstimator` *)
Record FillProbabilityEstimator := {
  fe_base_fill_prob : micro;
  fe_depth_penalty_threshold_pct : micro;
  fe_depth_penalty_per_pct : micro;
  fe_staleness_penalty_per_level : micro;
  fe_resolution_proximity_bonus : micro
}.

(** [algo/fill_probability/estimator.rs:29-48] `FillProbabilityEstimator::new` *)
Definition new_fill_estimator (config : FillProbabilityConfig) : FillProbabilityEstimator := {|
  fe_base_fill_prob := ok_or (try_from_decimal (fp_base_fill_prob config)) 0;
  fe_depth_penalty_threshold_pct := ok_or (try_from_pct_decimal (fp_depth_penalty_threshold_pct config)) 0;
  fe_depth_penalty_per_pct := ok_or (try_from_decimal (fp_depth_penalty_per_pct config)) 0;
  fe_staleness_penalty_per_level := ok_or (try_from_decimal (fp_staleness_penalty_per_level config)) 0;
  fe_resolution_proximity_bonus := ok_or (try_from_decimal (fp_resolution_proximity_bonus config)) 0 |}.

Definition staleness_steps (level : StalenessLevel) : Z :=
  match level with Fresh => 0 | Acceptable => 1 | Stale => 2 | Expired => 3 end.

(** [algo/fill_probability/estimator.rs:60-95] `FillProbabilityEstimator::estimate` *)
Definition estimate_fill_probability (fe : FillProbabilityEstimator) (depth_used : micro) (level : StalenessLevel) (hours_to_settlement : Z) : micro :=
  let p := fe_base_fill_prob fe in
  let excess := sat_i64 (depth_used - fe_depth_penalty_threshold_pct fe) in
  let p := if 0 <? excess
           then sat_i64 (p - unwrap_or (to_i64 (excess * fe_depth_penalty_per_pct fe * 100 ÷ MICRO_SCALE)) i64_max)
           else p in
  let p := sat_i64 (p - wrap_i64 (staleness_steps level * fe_staleness_penalty_per_level fe)) in
  let p := if (0 <=? hours_to_settlement) && (hours_to_settlement <=? 6)
           then
             let fraction := MICRO_SCALE - Z.max hours_to_settlement 0 * MICRO_SCALE ÷ 6 in
             let bonus := fe_resolution_proximity_bonus fe * fraction ÷ MICRO_SCALE in
             sat_i64 (p + unwrap_or (to_i64 bonus) 0)
           else p in
  MicroProb.clamp_prob (MicroProb.from_micro p) 100000 990000.

(** [algo/scorer/endgame_scorer.rs:43-49] `ScoreDraft` *)
Record ScoreDraft := {
  sd_score : micro;
  sd_fill_probability : micro;
  sd_urgency_factor : micro;
  sd_category_weight : micro;
  sd_staleness_discount : micro
}.

(** [algo/scorer/endgame_scorer.rs:62-66] `ScorerParams` *)
Record ScorerParams := {
  sp_category_weights : list micro;
  sp_fill_estimator : FillProbabilityEstimator;
  sp_settlement_window_hours : Z
}.

(** [algo/scorer/endgame_scorer.rs:69-84] `ScorerParams::from_config` *)
Definition scorer_params (config : ScorerConfig) (fill_config : FillProbabilityConfig) (settlement_window_hours : Z) : ScorerParams := {|
  sp_category_weights := foldl (fun weights '(cat, weight) =>
      <[table_index cat := match try_from_decimal weight with Ok w => MicroProb.from_factor_micro w | Err _ => MICRO_SCALE end]> weights)
    (replicate 10 MICRO_SCALE) (map_to_list (sc_category_weights config));
  sp_fill_estimator := new_fill_estimator fill_config;
  sp_settlement_window_hours := settlement_window_hours |}.

(** [opp.meta.settlement_deadline.map_or(i64::MAX, |d| (d - now).num_hours())] *)
Definition hours_to_settlement_of (opp : Opportunity) (now : Time) : Z :=
  match settlement_deadline (meta opp) with Some d => num_hours (d - now) | None => i64_max end.

(** [algo/scorer/endgame_scorer.rs:128-139] `EndgameScorer::estimate_fill` *)
Definition estimate_fill (p : ScorerParams) (opp : Opportunity) (now : Time) : micro :=
  estimate_fill_probability (sp_fill_estimator p) (ok_or (try_from_pct_decimal (depth_used_pct opp)) 0) (staleness opp)
    (hours_to_settlement_of opp now).

(** [algo/scorer/endgame_scorer.rs:147-188] `EndgameScorer::score` *)
Definition score (p : ScorerParams) (opp : Opportunity) (now : Time) (fill_override : option micro) : ScoreDraft :=
  let category_weight := nth (table_index (opp_category opp)) (sp_category_weights p) MICRO_SCALE in
  let hours := hours_to_settlement_of opp now in
  let fill_prob := match fill_override with Some f => f | None => estimate_fill p opp now end in
  let u := urgency (Z.max hours 0) (sp_settlement_window_hours p) in
  let discount := confidence_discount (staleness opp) in
  let profit := ok_or (try_from_decimal (expected_net_profit opp)) 0 in
  let s := MicroScore.from_profit_prob profit fill_prob in
  let s := MicroScore.scale_by_factor s u in
  let s := MicroScore.scale_by_factor s category_weight in
  let s := MicroScore.scale_by_factor s discount in
  {| sd_score := s; sd_fill_probability := fill_prob; sd_urgency_factor := u; sd_category_weight := category_weight;
     sd_staleness_discount := discount |}.
End Scoring.

(** ** The detector *)

(** [algo/detection_reject.rs:11-49] `DetectionRejectReason` *)
Inductive DetectionRejectReason :=
| RjCatalogNotReady | RjLifecycleGated | RjMissingBookPair | RjBookGate | RjMarketAnomaly | RjEmissionCooldown
| RjStalenessExpired | RjNoConvergenceDirection | RjOutsideSettlementWindow
| RjConvergenceInsufficient (elapsed_secs required_secs : Z)
| RjWalkFailed | RjMinProfitPerShare | RjBucketRiskBlocked | RjBucketRiskEdgeFloor | RjMinProfitThreshold
| RjMaxDepthUsage | RjMinScore.

Section Detector.
Context {DO : DecimalOps} {C : Type} {MC : MarketCache C ConvergenceEntry}.

(** [models/enums/calibration.rs:44-57] `PriceZone::from_price` *)
Definition zone_from_price (p : D) : PriceZone :=
  if dleb (dlit 99 2) p then Z99 else if dleb (dlit 98 2) p then Z98 else if dleb (dlit 97 2) p then Z97
  else if dleb (dlit 96 2) p then Z96 else Z95.

(** [models/enums/calibration.rs:106-113] `DurationBucket::from_secs` *)
Definition bucket_from_secs (secs : Z) : DurationBucket :=
  if secs <? 3600 then Short else if secs <? 21600 then Medium else if secs <? 86400 then Long else VeryLong.

(** [algo/endgame/detector.rs:56-66] `EndgameDetectInput` *)
Record EndgameDetectInput := {
  di_market_id : MarketId;
  di_event_id : EventId;
  di_token_yes : TokenId;
  di_token_no : TokenId;
  di_book : EndgameBookPair;
  di_direction : ConvergenceDirection;
  di_category : MarketCategory;
  di_staleness : StalenessLevel;
  di_settlement_deadline : option Time
}.

(** [algo/endgame/detector.rs:69-76] `DetectorParams` *)
Record DetectorParams := {
  dp_settlement_window_hours : Z;
  dp_min_convergence_duration_secs : Z;
  dp_high_threshold : MicroPrice;
  dp_max_investment_usd : MicroUsd;
  dp_min_profit_per_share : MicroPrice;
  dp_fusion : ConfidenceFusion
}.

(** [algo/endgame/detector.rs:79-91] `DetectorParams::from_config` *)
Definition detector_params (config : EndgameDetectionConfig) (calibration : CalibrationConfig) : DetectorParams := {|
  dp_settlement_window_hours := ed_settlement_window_hours config;
  dp_min_convergence_duration_secs := ed_min_convergence_duration_secs config;
  dp_high_threshold := ok_or (try_from_decimal (ed_high_threshold config)) 0;
  dp_max_investment_usd := ok_or (try_from_decimal (ed_max_investment_usd config)) 0;
  dp_min_profit_per_share := ok_or (try_from_decimal (ed_min_profit_per_share config)) 0;
  dp_fusion := new_fusion calibration |}.

(** [algo/endgame/detector.rs:94-99] `EndgameDetector`; the fee estimator is a function *)
Record EndgameDetector := {
  det_params : DetectorParams;
  det_convergence : InMemoryConvergenceTracker (C := C);
  det_calibrator : ResolutionCalibrator;
  det_fee_estimator : D -> D -> MarketCategory -> TokenId -> D
}.

Definition set_convergence (d : EndgameDetector) t : EndgameDetector := {|
  det_params := det_params d; det_convergence := t; det_calibrator := det_calibrator d; det_fee_estimator := det_fee_estimator d |}.

(** [algo/endgame/detector.rs:103-115] `EndgameDetector::new` *)
Definition new_detector (config : EndgameDetectionConfig) (calibration : CalibrationConfig) (calibrator : ResolutionCalibrator)
    (fee : D -> D -> MarketCategory -> TokenId -> D) : EndgameDetector := {|
  det_params := detector_params config calibration; det_convergence := new_tracker (ed_convergence_tracker config);
  det_calibrator := calibrator; det_fee_estimator := fee |}.

(** [algo/endgame/detector.rs:123-128] `EndgameDetector::reload` *)
Definition detector_reload (d : EndgameDetector) (config : EndgameDetectionConfig) (calibration : CalibrationConfig) : EndgameDetector := {|
  det_params := detector_params config calibration;
  det_convergence := set_max_idle_secs (det_convergence d) (tc_max_idle_secs (ed_convergence_tracker config));
  det_calibrator := det_calibrator d; det_fee_estimator := det_fee_estimator d |}.

Definition at_least (threshold : MicroPrice) (p : option MicroPrice) : bool :=
  match p with Some p => threshold <=? p | None => false end.

(** [algo/endgame/detector.rs:132-149] `EndgameDetector::detect_direction` *)
Definition detect_direction (d : EndgameDetector) (book : EndgameBookView) : option ConvergenceDirection :=
  let high_threshold := dp_high_threshold (det_params d) in
  if at_least high_threshold (best_price_micro (yes_asks book)) then Some YesLikely
  else if at_least high_threshold (best_price_micro (no_asks book)) then Some NoLikely
  else None.

(** Whether a deadline is outside the settlement window. *)
Definition outside_window (d : EndgameDetector) (deadline now : Time) : bool :=
  let hours_remaining := num_hours (deadline - now) in
  (hours_remaining <? 0) || (unwrap_or (to_i64 (dp_settlement_window_hours (det_params d))) i64_max <? hours_remaining).

(** [algo/endgame/detector.rs:152-169] `EndgameDetector::should_reset_market_state` *)
Definition should_reset_market_state (d : EndgameDetector) (direction : option ConvergenceDirection) (deadline : option Time) (now : Time) : bool :=
  match deadline with
  | None => true
  | Some deadline => if outside_window d deadline now then true else match direction with None => true | Some _ => false end
  end.

(** [algo/endgame/detector.rs:237-317] `EndgameDetector::build_opportunity` *)
Definition build_opportunity (d : EndgameDetector) (id : OpportunityId) (input : EndgameDetectInput) (walk : WalkResult) (target_token : TokenId)
    (entry_price : D) (convergence_secs : Z) (deadline now : Time) : Opportunity :=
  let shares := to_decimal (wr_shares walk) in
  let cost := to_decimal (wr_total_cost walk) in
  let bucket_key := {| bk_category := di_category input; bk_price_zone := zone_from_price entry_price;
                       bk_duration_bucket := bucket_from_secs convergence_secs |} in
  let cal_entry := calibrator_lookup (det_calibrator d) bucket_key in
  let entry_price_micro := ok_or (try_from_decimal entry_price) 0 in
  let realtime_conf := compute_realtime_confidence entry_price_micro convergence_secs (dp_high_threshold (det_params d)) in
  let fused_p := fuse (dp_fusion (det_params d)) (ok_or (try_from_decimal (posterior_mean cal_entry)) 0) realtime_conf (ce_total_count cal_entry) in
  let fused_p_dec := to_decimal fused_p in
  let fees := det_fee_estimator d shares entry_price (di_category input) target_token in
  let net := dsub (dsub shares cost) fees in
  let expected_payout := dmul shares fused_p_dec in
  let expected_net := dsub (dsub expected_payout cost) fees in
  let cost_plus_fees := dadd cost fees in
  let edge_bps := if deqb cost_plus_fees d0 then d0
                  else dround_dp 0 (dmul (ddiv expected_net cost_plus_fees) (dlit 10000 0)) in
  {| opportunity_id := id; opp_market_id := di_market_id input; opp_event_id := di_event_id input; opp_token_id := target_token;
     opp_side := Buy; payout_model := DirectionalSettlement shares expected_payout Buy;
     opp_shares := shares; opp_entry_price := entry_price; total_cost := cost; total_fees := fees;
     net_profit := net; expected_net_profit := expected_net; opp_edge_bps := edge_bps; resolution_adjust := fused_p_dec;
     depth_used_pct := dof_Z (wr_depth_used_pct walk); staleness := di_staleness input; opp_category := di_category input;
     meta := {| predicted_yes := match di_direction input with YesLikely => true | NoLikely => false end;
                meta_confidence := fused_p_dec; convergence_duration_secs := convergence_secs;
                meta_price_zone := bk_price_zone bucket_key; meta_duration_bucket := bk_duration_bucket bucket_key;
                settlement_deadline := Some deadline |};
     calibration := to_snapshot cal_entry fused_p_dec; detected_at := now |}.

(** [algo/endgame/detector.rs:172-235] `EndgameDetector::detect_with_direction` *)
Definition detect_with_direction (d : EndgameDetector) (id : OpportunityId) (input : EndgameDetectInput) (now : Time)
    : EndgameDetector * Result Opportunity DetectionRejectReason :=
  match di_settlement_deadline input with
  | None => (d, Err RjOutsideSettlementWindow)
  | Some deadline =>
      if outside_window d deadline now
      then (set_convergence d (tracker_remove (det_convergence d) (di_market_id input)), Err RjOutsideSettlementWindow)
      else
        let params := det_params d in
        let view := pair_view (di_book input) in
        let '(tracker, convergence_secs) := update_and_get (det_convergence d) (di_market_id input) (di_direction input) now in
        let d := set_convergence d tracker in
        if convergence_secs <? dp_min_convergence_duration_secs params
        then (d, Err (RjConvergenceInsufficient convergence_secs (dp_min_convergence_duration_secs params)))
        else
          let '(target_asks, target_token) :=
            match di_direction input with
            | YesLikely => (yes_asks view, di_token_yes input)
            | NoLikely => (no_asks view, di_token_no input)
            end in
          match walk_asks_by_cost (sv_levels target_asks) (dp_max_investment_usd params) (dp_high_threshold params) (sv_total_depth_usd target_asks) with
          | None => (d, Err RjWalkFailed)
          | Some walk =>
              let entry_price := to_decimal (wr_vwap walk) in
              if sat_i64 (MICRO_SCALE - wr_vwap walk) <? dp_min_profit_per_share params
              then (d, Err RjMinProfitPerShare)
              else (d, Ok (build_opportunity d id input walk target_token entry_price convergence_secs deadline now))
          end
  end.
End Detector.

(** ** Convergence durations are backed by observations *)

Section Backed.
Context {C : Type} {MC : MarketCache C ConvergenceEntry} {ML : MarketCacheLaws MC}.

(** What happens to a tracker. *)
Inductive tracker_op :=
| Touch (market : MarketId) (direction : ConvergenceDirection) (now : Time)
| Remove (market : MarketId)
| SetIdle (secs : Z).

Definition tracker_step (t : InMemoryConvergenceTracker (C := C)) (o : tracker_op) : InMemoryConvergenceTracker :=
  match o with
  | Touch m dir now => (update_and_get t m dir now).1
  | Remove m => tracker_remove t m
  | SetIdle secs => set_max_idle_secs t secs
  end.

Definition tracker_run (config : ConvergenceTrackerConfig) (ops : list tracker_op) : InMemoryConvergenceTracker :=
  foldl tracker_step (new_tracker config) ops.

(** [o] neither removes [m] nor sees it converge the other way. *)
Definition undisturbed (m : MarketId) (dir : ConvergenceDirection) (o : tracker_op) : Prop :=
  match o with Touch m' dir' _ => m' = m -> dir' = dir | Remove m' => m' <> m | SetIdle _ => True end.

(** Since [t] the market was only ever seen converging in direction [dir]. *)
Definition converging_since (ops : list tracker_op) (m : MarketId) (dir : ConvergenceDirection) (t : Time) : Prop :=
  exists before after, ops = before ++ Touch m dir t :: after /\ Forall (undisturbed m dir) after.

Lemma converging_extend ops m dir t o : undisturbed m dir o -> converging_since ops m dir t -> converging_since (ops ++ [o]) m dir t.
Proof.
  intros Ho (before & after & -> & Ha). exists before, (after ++ [o]). rewrite <- app_assoc. split; [done|].
  apply Forall_app. by split; [|apply Forall_singleton].
Qed.

Lemma tracked_backed config ops m e : cache_holds (ct_entries (tracker_run config ops)) m e ->
  converging_since ops m (cv_direction e) (cv_first_seen e).
Proof.
  unfold tracker_run. revert m e. induction ops as [|o ops IH] using rev_ind; intros m e; [by intros ?%new_holds|].
  rewrite foldl_app. simpl. set (t := foldl tracker_step (new_tracker config) ops) in *.
  destruct o as [m' dir now|m'|secs]; simpl.
  - unfold update_and_get. pose proof (get_keeps (ct_entries t) m' now (ct_max_idle_secs t) m e) as Hk.
    destruct (cache_get _ _ _ _) as [entries found] eqn:Eg. simpl in Hk.
    assert (cache_holds (cache_insert entries m' {| cv_direction := dir; cv_first_seen := now |} now (ct_max_idle_secs t)) m e ->
            converging_since (ops ++ [Touch m' dir now]) m (cv_direction e) (cv_first_seen e)) as Hins.
    { intros [[-> ->]|[Hne Hh]]%insert_holds; [by exists ops, []|]. apply converging_extend; [by intros ->|]. by apply IH, Hk. }
    destruct found as [existing|]; [|done]. destruct (decide (cv_direction existing = dir)) as [<-|]; [|done].
    simpl. intros Hh. destruct (decide (m' = m)) as [->|Hne].
    + assert (cache_holds (ct_entries t) m e) as Hh' by auto. apply get_holds in Eg.
      apply IH in Hh' as He. destruct (decide (cv_direction existing = cv_direction e)) as [->|Hd]; [by apply converging_extend|].
      exfalso. apply IH in Eg. destruct He as (b1 & a1 & E1 & F1), Eg as (b2 & a2 & E2 & F2). rewrite E1 in E2.
      clear -E2 F1 F2 Hd. revert b2 E2. induction b1 as [|x b1 IHb]; intros [|y b2] E2; simpl in *; simplify_eq.
      * rewrite Forall_app in F1. destruct F1 as [_ F1]. apply Forall_cons in F1 as [F1 _]. by apply Hd, F1.
      * rewrite Forall_app in F2. destruct F2 as [_ F2]. apply Forall_cons in F2 as [F2 _]. simpl in F2. by rewrite F2 in Hd.
      * by eapply IHb.
    + apply converging_extend; [by intros -> | auto].
  - intros [Hne Hh]%invalidate_holds. apply converging_extend; [by intros -> | auto].
  - intros Hh. apply converging_extend; [done | auto].
Qed.

(** A reported convergence time is backed by observations.  Whatever was tracked, evicted,
    removed or reloaded before, when the tracker reports a positive time for a market then some
    earlier scan saw it converging in that direction exactly that many seconds ago, and no scan
    since saw it converge the other way or removed it. *)
Theorem convergence_time_is_backed config ops m dir now :
  let secs := (update_and_get (tracker_run config ops) m dir now).2 in
  0 < secs -> exists t, converging_since ops m dir t /\ secs = num_seconds (now - t).
Proof.
  unfold update_and_get. destruct (cache_get _ _ _ _) as [entries found] eqn:Eg. simpl.
  destruct found as [e|]; [|simpl; lia]. destruct (decide _) as [<-|]; simpl; [|lia].
  intros Hpos. exists (cv_first_seen e). split; [by apply (tracked_backed config), (get_holds _ _ _ _ _ _ Eg)|].
  unfold to_u64, checked in *. destruct (_ && _); simpl in *; lia.
Qed.
End Backed.

(** ** Suppression is bounded *)

Section Suppression.
Context {DO : DecimalOps} {C : Type} {MC : MarketCache C CooldownEntry} {ML : MarketCacheLaws MC}.

(** What happens to a cooldown. *)
Inductive cooldown_op :=
| Ask (market : MarketId) (now : Time)
| Emit (market : MarketId) (now : Time)
| ResetMarket (market : MarketId)
| Reconfigure (config : EmissionCooldownConfig)
| TakeCount.

Definition cooldown_step (cd : InMemoryEmissionCooldown (C := C)) (o : cooldown_op) : InMemoryEmissionCooldown :=
  match o with
  | Ask m now => (may_emit cd m now).1
  | Emit m now => record_emission cd m now
  | ResetMarket m => cooldown_reset cd m
  | Reconfigure config => cooldown_reload cd config
  | TakeCount => (take_suppressed_count cd).1
  end.

Definition cooldown_run (config : EmissionCooldownConfig) (ops : list cooldown_op) : InMemoryEmissionCooldown :=
  foldl cooldown_step (new_cooldown config) ops.

(** The market emitted at [t] and neither emitted again nor was reset since. *)
Definition last_emitted (ops : list cooldown_op) (m : MarketId) (t : Time) : Prop :=
  exists before after, ops = before ++ Emit m t :: after /\
    Forall (fun o => match o with Emit m' _ | ResetMarket m' => m' <> m | _ => True end) after.

Lemma last_emitted_extend ops m t o : match o with Emit m' _ | ResetMarket m' => m' <> m | _ => True end ->
  last_emitted ops m t -> last_emitted (ops ++ [o]) m t.
Proof.
  intros Ho (before & after & -> & Ha). exists before, (after ++ [o]). rewrite <- app_assoc. split; [done|].
  apply Forall_app. by split; [|apply Forall_singleton].
Qed.

Lemma cooldown_backed config ops m e : cache_holds (ecd_entries (cooldown_run config ops)) m e -> last_emitted ops m (cd_emitted_at e).
Proof.
  unfold cooldown_run. revert m e. induction ops as [|o ops IH] using rev_ind; intros m e; [by intros ?%new_holds|].
  rewrite foldl_app. simpl. set (cd := foldl cooldown_step (new_cooldown config) ops) in *.
  destruct o as [m' now|m' now|m'|config'|]; simpl.
  - unfold may_emit. pose proof (get_keeps (ecd_entries cd) m' now (cp_entry_ttl_secs (ecd_params cd)) m e) as Hk.
    destruct (cache_get _ _ _ _) as [entries found]. simpl in Hk. intros Hh.
    apply last_emitted_extend; [done|]. apply IH, Hk. by destruct found as [?|]; [case_match|].
  - unfold record_emission. pose proof (get_keeps (ecd_entries cd) m' now (cp_entry_ttl_secs (ecd_params cd)) m e) as Hk.
    destruct (cache_get _ _ _ _) as [entries found]. simpl in Hk |- *.
    intros [[-> ->]|[Hne Hh]]%insert_holds; [by exists ops, []|]. apply last_emitted_extend; [by intros -> | auto].
  - intros [Hne Hh]%invalidate_holds. apply last_emitted_extend; [by intros -> | auto].
  - intros Hh. apply last_emitted_extend; [done|]. apply IH. unfold cooldown_reload in Hh. simpl in Hh.
    destruct (_ || _); [by apply new_holds in Hh | done].
  - intros Hh. apply last_emitted_extend; [done | auto].
Qed.

Lemma multiplier_capped hits cap : (effective_multiplier hits cap <= dval cap)%Q.
Proof. unfold effective_multiplier. case_match eqn:E; [by apply Qle_bool_iff | apply Qle_refl]. Qed.

(** Suppression is bounded.  Whatever was asked, emitted, evicted, reset or reconfigured before, a
    market is held back only when it emitted less than the base cooldown times the largest
    multiplier ago and was not reset since: it is never suppressed for longer, however often it
    emitted. *)
Theorem suppression_is_bounded config ops m now :
  let cd := cooldown_run config ops in
  0 <= cp_base_cooldown_secs (ecd_params cd) -> (may_emit cd m now).2 = false ->
  exists t, last_emitted ops m t /\
    (inject_Z (now - t) < inject_Z (cp_base_cooldown_secs (ecd_params cd) * nanos_per_sec) * dval (cp_max_multiplier (ecd_params cd)))%Q.
Proof.
  intros cd Hb. unfold may_emit. destruct (cache_get _ _ _ _) as [entries found] eqn:Eg.
  destruct found as [e|]; [|done]. destruct (cooled_down _ _ _) eqn:Ec; [done|]. intros _.
  exists (cd_emitted_at e). split; [by apply (cooldown_backed config), (get_holds _ _ _ _ _ _ Eg)|].
  unfold cooled_down in Ec. apply not_true_iff_false in Ec. rewrite Qle_bool_iff in Ec. apply Qnot_le_lt in Ec.
  eapply Qlt_le_trans; [exact Ec|]. rewrite !(Qmult_comm (inject_Z (_ * _))).
  apply Qmult_le_compat_r; [apply multiplier_capped|]. rewrite <- (Zle_Qle 0). unfold nanos_per_sec. lia.
Qed.
End Suppression.

(** ** A cache that keeps what it is given until its life is over *)

(** Values with the time until which they are readable. *)
Abbreviation LivingMap V := (gmap MarketId (V * Time)).

#[global] Instance living_cache V : MarketCache (LivingMap V) V := {|
  cache_new := fun _ _ => ∅;
  cache_get := fun c m now life =>
    match c !! m with
    | Some (v, until) => if now <? until then (<[m := (v, now + life * nanos_per_sec)]> c, Some v) else (c, None)
    | None => (c, None)
    end;
  cache_insert := fun c m v now life => <[m := (v, now + life * nanos_per_sec)]> c;
  cache_invalidate := fun c m => delete m c;
  cache_holds := fun c m v => fst <$> c !! m = Some v |}.

#[global] Instance living_laws V : MarketCacheLaws (living_cache V).
Proof.
  split; simpl.
  - by intros.
  - intros c m now life c' v. destruct (c !! m) as [[v0 until]|]; [|done]. destruct (_ <? _); [|done]. by intros [= _ <-].
  - intros c m now life m' v'. destruct (c !! m) as [[v0 until]|] eqn:E; [|done]. destruct (_ <? _); [|done]. simpl.
    destruct (decide (m = m')) as [<-|]; [rewrite lookup_insert_eq, E; done | by rewrite lookup_insert_ne].
  - intros c m v now life m' v'. destruct (decide (m = m')) as [<-|]; [rewrite lookup_insert_eq | rewrite lookup_insert_ne by done].
    + intros [= <-]. by left.
    + right. split; [by intros ->|done].
  - intros c m m' v'. destruct (decide (m = m')) as [<-|]; [by rewrite lookup_delete_eq | rewrite lookup_delete_ne by done].
    intros. split; [by intros ->|done].
Qed.

Lemma convergence_time_is_backed_witness :
  let ops := [Touch "m" NoLikely 0; Touch "m" YesLikely nanos_per_sec] in
  exists t, converging_since ops "m" YesLikely t /\ 299 = num_seconds (300 * nanos_per_sec - t).
Proof.
  intros ops. destruct (convergence_time_is_backed (C := LivingMap ConvergenceEntry) {| tc_max_idle_secs := 7200; tc_max_capacity := 10 |}
    ops "m" YesLikely (300 * nanos_per_sec)) as (t & Ht & E); [vm_compute; reflexivity|].
  exists t. split; [exact Ht|]. rewrite <- E. vm_compute. reflexivity.
Defined.

Lemma suppression_is_bounded_witness :
  exists t, last_emitted (DO := ExactQ.exactQ) [Emit "m" 0; Ask "m" nanos_per_sec] "m" t /\ (inject_Z (40 * nanos_per_sec - t) < inject_Z (480 * nanos_per_sec))%Q.
Proof.
  pose (config := {| ec_base_cooldown_secs := 30; ec_max_multiplier := (16 # 1)%Q : @D ExactQ.exactQ; ec_max_capacity := 10 |}).
  destruct (suppression_is_bounded (C := LivingMap CooldownEntry) config [Emit "m" 0; Ask "m" nanos_per_sec] "m" (40 * nanos_per_sec))
    as (t & Ht & Hq); [vm_compute; discriminate | vm_compute; reflexivity |].
  exists t. split; [exact Ht|]. eapply Qlt_le_trans; [exact Hq|]. vm_compute. discriminate.
Defined.

(** ** The settlement window *)

(** A deadline that has passed within the hour counts as inside the window: the remaining time
    is cut off to whole hours towards zero, so up to an hour after settlement the market is still
    detected and traded. *)
Theorem passed_deadline_stays_in_window {DO : DecimalOps} {C} (d : EndgameDetector (C := C)) (deadline now : Time) :
  now - 3600 * nanos_per_sec < deadline <= now -> 0 <= dp_settlement_window_hours (det_params d) ->
  outside_window d deadline now = false.
Proof.
  intros Hd Hw. unfold outside_window, num_hours.
  assert ((deadline - now) ÷ (3600 * nanos_per_sec) = 0) as ->.
  { rewrite <- (Z.opp_involutive (deadline - now)), Z.quot_opp_l by (unfold nanos_per_sec; lia).
    rewrite Z.quot_small; [done|]. unfold nanos_per_sec in *. lia. }
  simpl. apply Z.ltb_ge. unfold to_i64, checked. destruct (_ && _); simpl; [done|]. unfold_ints. lia.
Qed.

Lemma passed_deadline_stays_in_window_witness :
  let d := new_detector (C := LivingMap ConvergenceEntry) (DO := ExactQ.exactQ) endgame_detection_default calibration_config_default
             (calibrator_empty calibration_config_default) (fun _ _ _ _ => 0%Q) in
  outside_window d (7200 * nanos_per_sec) (10799 * nanos_per_sec) = false.
Proof.
  intros d. apply (passed_deadline_stays_in_window d); [vm_compute; split; congruence | vm_compute; discriminate].
Defined.

(** ** Ranges of the score factors *)

Lemma clampZ_in lo hi z : lo <= hi -> lo <= clampZ lo hi z <= hi.
Proof. apply clampZ_range. Qed.

Lemma clamp_prob_range p lo hi : 0 <= lo <= hi -> hi <= MICRO_SCALE -> lo <= MicroProb.clamp_prob p lo hi <= hi.
Proof.
  intros Hl Hh. unfold MicroProb.clamp_prob, MicroProb.from_micro. pose proof (clampZ_range lo hi p ltac:(lia)).
  destruct (Z.ltb_spec (clampZ lo hi p) 0); [lia|]. destruct (Z.ltb_spec MICRO_SCALE (clampZ lo hi p)); lia.
Qed.

Lemma from_micro_range z : 0 <= MicroProb.from_micro z <= MICRO_SCALE.
Proof. unfold MicroProb.from_micro, MICRO_SCALE. destruct (Z.ltb_spec z 0), (Z.ltb_spec 1000000 z); lia. Qed.

Lemma fill_range fe depth level hours : 100000 <= estimate_fill_probability fe depth level hours <= 990000.
Proof. apply clamp_prob_range; unfold MICRO_SCALE; lia. Qed.

Lemma realtime_range p secs t : 500000 <= compute_realtime_confidence p secs t <= 995000.
Proof. apply clamp_prob_range; unfold MICRO_SCALE; lia. Qed.

Lemma fuse_range f a b n : 0 <= cf_p_floor f <= cf_p_ceiling f -> cf_p_ceiling f <= MICRO_SCALE ->
  cf_p_floor f <= fuse f a b n <= cf_p_ceiling f.
Proof. intros. by apply clamp_prob_range. Qed.

(** How far the window has elapsed, and the curve through it. *)
Definition progress (hours window : Z) : Z := (window - Z.min (Z.max hours 0) window) * MICRO_SCALE / window.
Definition smoothstep (t : Z) : Z := t * t * (3 * MICRO_SCALE - 2 * t) / MICRO_SCALE / MICRO_SCALE.

Lemma progress_range hours window : 0 < window -> 0 <= progress hours window <= MICRO_SCALE.
Proof.
  intros Hw. unfold progress, MICRO_SCALE. split; [apply Z.div_pos; nia|]. apply div_le_upper; nia.
Qed.

Lemma smoothstep_mono t t' : 0 <= t <= t' -> t' <= MICRO_SCALE -> 0 <= smoothstep t <= smoothstep t' /\ smoothstep t' <= MICRO_SCALE.
Proof.
  unfold smoothstep, MICRO_SCALE. intros Ht Ht'.
  assert (t * t * (3 * 1000000 - 2 * t) <= t' * t' * (3 * 1000000 - 2 * t')) as Hm.
  { assert (0 <= (t' - t) * (3 * 1000000 * (t + t') - 2 * (t * t + t * t' + t' * t'))) by (apply Z.mul_nonneg_nonneg; nia). nia. }
  assert (t' * t' * (3 * 1000000 - 2 * t') <= 1000000 * 1000000 * 1000000).
  { assert (0 <= (1000000 - t') * (1000000 - t') * (1000000 + 2 * t')) by (apply Z.mul_nonneg_nonneg; nia). nia. }
  split.
  - split; [apply Z.div_pos; [apply Z.div_pos; nia | lia] | do 2 (apply Z.div_le_mono; [lia|]); done].
  - apply div_le_upper; [lia|]. apply div_le_upper; [lia|]. lia.
Qed.

Lemma urgency_eq hours window : 0 < window -> urgency hours window = MICRO_SCALE + 2 * smoothstep (progress hours window).
Proof.
  intros Hw. unfold urgency. destruct (Z.eqb_spec window 0); [lia|]. cbv zeta.
  pose proof (progress_range hours window Hw) as Hp.
  assert ((window - Z.min (Z.max hours 0) window) * MICRO_SCALE ÷ window = progress hours window) as ->
    by (apply quot_nonneg_div; unfold MICRO_SCALE; nia).
  rewrite (unwrap_i64_in (progress hours window)) by (unfold MICRO_SCALE in *; unfold_ints; lia). rewrite clampZ_id by done.
  set (t := progress hours window) in *. destruct (smoothstep_mono t t) as [Hs Hs']; [lia..|].
  assert (0 <= t * t * (3 * MICRO_SCALE - 2 * t)) by (unfold MICRO_SCALE in *; nia).
  rewrite (quot_nonneg_div (t * t * _)) by (unfold MICRO_SCALE in *; lia).
  rewrite quot_nonneg_div by (try apply Z.div_pos; unfold MICRO_SCALE in *; lia). fold (smoothstep t).
  rewrite unwrap_i64_in by (unfold MICRO_SCALE in *; unfold_ints; lia).
  unfold MicroProb.from_factor_micro. destruct (Z.ltb_spec (MICRO_SCALE + 2 * smoothstep t) 0); [unfold MICRO_SCALE in *; lia | done].
Qed.

Lemma progress_antitone h h' window : 0 < window -> h <= h' -> progress h' window <= progress h window.
Proof. intros Hw Hh. unfold progress. apply Z.div_le_mono; [lia|]. unfold MICRO_SCALE. nia. Qed.

(** Urgency grows towards the deadline.  The factor stays between one and three, is one for a
    market at or beyond the settlement window and three at the deadline, and never decreases as
    the deadline comes closer. *)
Theorem urgency_grows_to_deadline hours hours' window :
  0 < window -> hours <= hours' ->
  MICRO_SCALE <= urgency hours' window <= urgency hours window /\ urgency hours window <= 3 * MICRO_SCALE /\
  (window <= hours -> urgency hours window = MICRO_SCALE) /\ (hours <= 0 -> urgency hours window = 3 * MICRO_SCALE).
Proof.
  intros Hw Hh. rewrite !urgency_eq by done. pose proof (progress_range hours window Hw). pose proof (progress_range hours' window Hw).
  pose proof (progress_antitone hours hours' window Hw Hh).
  destruct (smoothstep_mono (progress hours' window) (progress hours window)) as [Hm Hs]; [lia..|].
  split; [lia|]. split; [lia|]. split; intros He; unfold progress.
  - rewrite Z.min_r by lia. replace ((window - window) * MICRO_SCALE) with 0 by lia. rewrite Z.div_0_l by lia. done.
  - rewrite Z.max_r, Z.min_l by lia. replace ((window - 0) * MICRO_SCALE) with (MICRO_SCALE * window) by lia.
    by rewrite Z.div_mul by lia.
Qed.

Lemma urgency_grows_to_deadline_witness :
  MICRO_SCALE <= urgency 12 24 <= urgency 2 24 /\ urgency 2 24 = 2960646.
Proof.
  split; [|vm_compute; reflexivity]. apply (urgency_grows_to_deadline 2 12 24); lia.
Defined.
