(* ===== verification/OpportunityPipeline.v ===== *)
(** * The opportunity pipeline: [oxide-arb-algorithm/src/pipeline.rs]

    One scan of a market: the anomaly gate, the emission cooldown, the staleness gate, direction
    and detection, the bucket-risk factor, the profit and depth gates, the execution-quality
    factor, the score gate and the emission; and the batch scan with its ranking.  The published
    factor snapshot, identifiers and clock readings are arguments. *)

From Stdlib Require Import Sorted.
From S2P Require Import Prelude Decimal Micro Config Domain Fees FactorModel Factors Book Calibration Detector.

Section Pipeline.
Context {DO : DecimalOps} {CC CE : Type} {MC : MarketCache CC CooldownEntry} {ME : MarketCache CE ConvergenceEntry}.

(** [algo/pipeline.rs:49-59] `MarketScanInputRef`, without its latency trace *)
Record MarketScanInput := {
  si_market_id : MarketId;
  si_event_id : EventId;
  si_token_yes : TokenId;
  si_token_no : TokenId;
  si_book : EndgameBookPair;
  si_category : MarketCategory;
  si_staleness : StalenessLevel;
  si_settlement_deadline : option Time
}.

(** [algo/pipeline.rs:79-83] `PipelineParams` *)
Record PipelineParams := {
  pp_min_profit_threshold_usd : MicroUsd;
  pp_max_depth_usage_pct : micro;
  pp_min_score : micro
}.

(** [algo/pipeline.rs:86-97] `PipelineParams::from_config` *)
Definition pipeline_params (config : DetectionConfig) : PipelineParams := {|
  pp_min_profit_threshold_usd := ok_or (try_from_decimal (dc_min_profit_threshold_usd config)) 0;
  pp_max_depth_usage_pct := ok_or (try_from_pct_decimal (sc_max_depth_usage_pct (ed_scorer (dc_endgame config)))) 0;
  pp_min_score := ok_or (try_from_decimal (sc_min_score (ed_scorer (dc_endgame config)))) 0 |}.

(** [algo/pipeline.rs:100-106] `OpportunityPipeline`; the factor provider is an argument of a scan *)
Record OpportunityPipeline := {
  pl_detector : EndgameDetector (C := CE);
  pl_scorer : ScorerParams;
  pl_cooldown : InMemoryEmissionCooldown (C := CC);
  pl_params : PipelineParams
}.

Definition set_detector (p : OpportunityPipeline) d : OpportunityPipeline := {|
  pl_detector := d; pl_scorer := pl_scorer p; pl_cooldown := pl_cooldown p; pl_params := pl_params p |}.
Definition set_cooldown (p : OpportunityPipeline) cd : OpportunityPipeline := {|
  pl_detector := pl_detector p; pl_scorer := pl_scorer p; pl_cooldown := cd; pl_params := pl_params p |}.

(** [algo/pipeline.rs:110-124] `OpportunityPipeline::new` with the constructors of its parts *)
Definition new_pipeline (config : DetectionConfig) (calibrator : ResolutionCalibrator) (fee : D -> D -> MarketCategory -> TokenId -> D) : OpportunityPipeline :=
  let endgame := dc_endgame config in {|
    pl_detector := new_detector endgame (dc_calibration config) calibrator fee;
    pl_scorer := scorer_params (ed_scorer endgame) (ed_fill_probability endgame) (ed_settlement_window_hours endgame);
    pl_cooldown := new_cooldown (ed_emission_cooldown endgame);
    pl_params := pipeline_params config |}.

(** [algo/pipeline.rs:131-141] `OpportunityPipeline::reload` *)
Definition pipeline_reload (p : OpportunityPipeline) (config : DetectionConfig) : OpportunityPipeline :=
  let endgame := dc_endgame config in {|
    pl_detector := detector_reload (pl_detector p) endgame (dc_calibration config);
    pl_scorer := scorer_params (ed_scorer endgame) (ed_fill_probability endgame) (ed_settlement_window_hours endgame);
    pl_cooldown := cooldown_reload (pl_cooldown p) (ed_emission_cooldown endgame);
    pl_params := pipeline_params config |}.

(** [opp.expected_net_profit = ..; opp.resolution_adjust = ..]. *)
Definition with_effective_prob (opp : Opportunity) (expected prob : D) : Opportunity := {|
  opportunity_id := opportunity_id opp; opp_market_id := opp_market_id opp; opp_event_id := opp_event_id opp;
  opp_token_id := opp_token_id opp; opp_side := opp_side opp; payout_model := payout_model opp; opp_shares := opp_shares opp;
  opp_entry_price := opp_entry_price opp; total_cost := total_cost opp; total_fees := total_fees opp; net_profit := net_profit opp;
  expected_net_profit := expected; opp_edge_bps := opp_edge_bps opp; resolution_adjust := prob; depth_used_pct := depth_used_pct opp;
  staleness := staleness opp; opp_category := opp_category opp; meta := meta opp; calibration := calibration opp;
  detected_at := detected_at opp |}.

(** [algo/pipeline.rs:260-300] `OpportunityPipeline::apply_bucket_risk`: the adjusted opportunity
    and the trace, or the reason to reject *)
Definition apply_bucket_risk (snapshot : ControlFactorSnapshot) (opp : Opportunity) : Result (Opportunity * list AppliedControlFactor) DetectionRejectReason :=
  match sn_publication_id snapshot with
  | None => Ok (opp, [])
  | Some publication_id =>
      let dims := coarse (opp_category opp) (meta_price_zone (meta opp)) (meta_duration_bucket (meta opp)) in
      match bucket_lookup (sn_bucket_risk snapshot) dims with
      | None => Ok (opp, [])
      | Some found =>
          let payload := if_payload found in
          if block_new_entries payload then Err RjBucketRiskBlocked
          else if dltb (opp_edge_bps opp) (min_edge_bps_addon payload) then Err RjBucketRiskEdgeFloor
          else
            let base_prob := resolution_adjust opp in
            let effective_prob := effective_resolution_prob base_prob (resolution_haircut_factor payload) in
            let payout_if_correct := dadd (dadd (net_profit opp) (total_cost opp)) (total_fees opp) in
            Ok (with_effective_prob opp (expected_net_profit_at payout_if_correct (total_cost opp) (total_fees opp) effective_prob) effective_prob,
                [bucket_resolution_trace (if_factor_id found) publication_id base_prob effective_prob])
      end
  end.

(** [u64::try_from(now.timestamp_millis()).unwrap_or(0)] *)
Definition timestamp_millis (now : Time) : Z := unwrap_or (to_u64 (now / 1000000)) 0.

(** [algo/pipeline.rs:304-340] `OpportunityPipeline::apply_execution_quality` *)
Definition apply_execution_quality (p : OpportunityPipeline) (snapshot : ControlFactorSnapshot) (opp : Opportunity) (book : EndgameBookPair) (now : Time)
    : option (micro * AppliedControlFactor) :=
  match sn_publication_id snapshot with
  | None => None
  | Some publication_id =>
      let traded_book := if predicted_yes (meta opp) then bp_yes book else bp_no book in
      let dims := execution_quality_dimensions (opp_category opp) (meta_price_zone (meta opp)) (staleness opp) traded_book (timestamp_millis now) in
      match quality_lookup (sn_execution_quality snapshot) dims with
      | None => None
      | Some found =>
          let base_fill := estimate_fill (pl_scorer p) opp now in
          let effective := effective_fill_probability (to_decimal base_fill) (fill_probability_multiplier (if_payload found)) in
          let effective_fill := ok_or (try_from_decimal effective) base_fill in
          Some (effective_fill, execution_quality_fill_trace (if_factor_id found) publication_id (to_decimal base_fill) (to_decimal effective_fill))
      end
  end.

(** [algo/scorer/endgame_scorer.rs:195-216] `EndgameScorer::finalize` *)
Definition finalize (opp : Opportunity) (draft : ScoreDraft) (input : MarketScanInput) (applied : list AppliedControlFactor) : ScoredOpportunity := {|
  opportunity := opp; so_token_yes := si_token_yes input; so_token_no := si_token_no input;
  so_book_yes_version := bs_version (bp_yes (si_book input)); so_book_no_version := bs_version (bp_no (si_book input));
  so_score := sd_score draft; so_fill_probability := sd_fill_probability draft; so_urgency_factor := sd_urgency_factor draft;
  so_category_weight := sd_category_weight draft; so_staleness_discount := sd_staleness_discount draft; so_applied_factors := applied |}.

(** The anomaly gate in front of a scan. *)
Definition anomaly_blocks (snapshot : ControlFactorSnapshot) (input : MarketScanInput) : bool :=
  let anomalies := sn_market_anomalies snapshot in
  bool_decide (is_Some (market_block anomalies (si_market_id input))) || bool_decide (is_Some (event_block anomalies (si_event_id input)))
  || bool_decide (is_Some (category_cooldown_secs anomalies (si_category input))).

Definition detect_input (input : MarketScanInput) (direction : ConvergenceDirection) : EndgameDetectInput := {|
  di_market_id := si_market_id input; di_event_id := si_event_id input; di_token_yes := si_token_yes input; di_token_no := si_token_no input;
  di_book := si_book input; di_direction := direction; di_category := si_category input; di_staleness := si_staleness input;
  di_settlement_deadline := si_settlement_deadline input |}.

(** [algo/pipeline.rs:207-256] `OpportunityPipeline::process_ref`, once an opportunity was detected *)
Definition gate_and_score (p : OpportunityPipeline) (snapshot : ControlFactorSnapshot) (input : MarketScanInput) (opp : Opportunity) (now : Time)
    : OpportunityPipeline * Result ScoredOpportunity DetectionRejectReason :=
  match apply_bucket_risk snapshot opp with
  | Err reason => (p, Err reason)
  | Ok (opp, applied) =>
      let profit := ok_or (try_from_decimal (expected_net_profit opp)) 0 in
      if profit <? pp_min_profit_threshold_usd (pl_params p) then (p, Err RjMinProfitThreshold)
      else
        let depth_pct := ok_or (try_from_pct_decimal (depth_used_pct opp)) 0 in
        if pp_max_depth_usage_pct (pl_params p) <? depth_pct then (p, Err RjMaxDepthUsage)
        else
          let quality := apply_execution_quality p snapshot opp (si_book input) now in
          let draft := score (pl_scorer p) opp now (fst <$> quality) in
          if sd_score draft <? pp_min_score (pl_params p) then (p, Err RjMinScore)
          else (set_cooldown p (record_emission (pl_cooldown p) (si_market_id input) now),
                Ok (finalize opp draft input (applied ++ option_list (snd <$> quality))))
  end.

(** [algo/pipeline.rs:144-256] `OpportunityPipeline::process_ref` *)
Definition process_ref (p : OpportunityPipeline) (snapshot : ControlFactorSnapshot) (id : OpportunityId) (input : MarketScanInput) (now : Time)
    : OpportunityPipeline * Result ScoredOpportunity DetectionRejectReason :=
  if anomaly_blocks snapshot input then (p, Err RjMarketAnomaly)
  else
    let '(cooldown, may) := may_emit (pl_cooldown p) (si_market_id input) now in
    let p := set_cooldown p cooldown in
    if negb may then (p, Err RjEmissionCooldown)
    else if negb (is_tradeable (si_staleness input)) then (p, Err RjStalenessExpired)
    else
      let direction := detect_direction (pl_detector p) (pair_view (si_book input)) in
      let p := if should_reset_market_state (pl_detector p) direction (si_settlement_deadline input) now
               then set_cooldown p (cooldown_reset (pl_cooldown p) (si_market_id input)) else p in
      match direction with
      | None => (p, Err RjNoConvergenceDirection)
      | Some direction =>
          let '(d, r) := detect_with_direction (pl_detector p) id (detect_input input direction) now in
          let p := set_detector p d in
          match r with
          | Err reason => (p, Err reason)
          | Ok opp => gate_and_score p snapshot input opp now
          end
      end.

(** A stable sort by descending score. *)
Fixpoint insert_desc (x : ScoredOpportunity) (l : list ScoredOpportunity) : list ScoredOpportunity :=
  match l with
  | [] => [x]
  | y :: rest => if so_score x <? so_score y then y :: insert_desc x rest else x :: l
  end.
Definition sort_desc (l : list ScoredOpportunity) : list ScoredOpportunity := foldr insert_desc [] l.

(** One scan after the other, the emitted opportunities in order. *)
Fixpoint scan_inputs (p : OpportunityPipeline) (snapshot : ControlFactorSnapshot) (inputs : list (OpportunityId * MarketScanInput)) (now : Time)
    : OpportunityPipeline * list ScoredOpportunity :=
  match inputs with
  | [] => (p, [])
  | (id, input) :: rest =>
      let '(p, r) := process_ref p snapshot id input now in
      let '(p, found) := scan_inputs p snapshot rest now in
      (p, match r with Ok so => so :: found | Err _ => found end)
  end.

(** [algo/pipeline.rs:342-354] `OpportunityPipeline::scan_batch` *)
Definition scan_batch (p : OpportunityPipeline) (snapshot : ControlFactorSnapshot) (inputs : list (OpportunityId * MarketScanInput)) (now : Time)
    : OpportunityPipeline * list ScoredOpportunity :=
  let '(p, found) := scan_inputs p snapshot inputs now in (p, sort_desc found).
End Pipeline.

(** ** What an emission guarantees *)

Section Emission.
Context {DO : DecimalOps} {CC CE : Type} {MC : MarketCache CC CooldownEntry} {ME : MarketCache CE ConvergenceEntry}.
Abbreviation Pipe := (OpportunityPipeline (CC := CC) (CE := CE)).

Definition traded_side (dir : ConvergenceDirection) (view : EndgameBookView) : BookSideView :=
  match dir with YesLikely => yes_asks view | NoLikely => no_asks view end.
Definition traded_token (dir : ConvergenceDirection) (yes no : TokenId) : TokenId :=
  match dir with YesLikely => yes | NoLikely => no end.

(** The purchase the detector simulates. *)
Definition simulated (d : EndgameDetector (C := CE)) (dir : ConvergenceDirection) (pair : EndgameBookPair) : option WalkResult :=
  let side := traded_side dir (pair_view pair) in
  walk_asks_by_cost (sv_levels side) (dp_max_investment_usd (det_params d)) (dp_high_threshold (det_params d)) (sv_total_depth_usd side).

(** A detection succeeds only inside the window, on a long enough convergence and a worthwhile
    purchase, and reports exactly these. *)
Lemma detect_ok (d : EndgameDetector (C := CE)) id input now d' o :
  detect_with_direction d id input now = (d', Ok o) ->
  exists deadline walk,
    let '(tracker, secs) := update_and_get (det_convergence d) (di_market_id input) (di_direction input) now in
    di_settlement_deadline input = Some deadline /\ outside_window d deadline now = false /\
    dp_min_convergence_duration_secs (det_params d) <= secs /\
    simulated d (di_direction input) (di_book input) = Some walk /\
    dp_min_profit_per_share (det_params d) <= sat_i64 (MICRO_SCALE - wr_vwap walk) /\
    d' = set_convergence d tracker /\
    o = build_opportunity d' id input walk (traded_token (di_direction input) (di_token_yes input) (di_token_no input))
          (to_decimal (wr_vwap walk)) secs deadline now.
Proof.
  unfold detect_with_direction, simulated. destruct (di_settlement_deadline input) as [deadline|]; [|done].
  destruct (outside_window d deadline now) eqn:Ew; [done|].
  destruct (update_and_get _ _ _ _) as [tracker secs]. destruct (Z.ltb_spec secs (dp_min_convergence_duration_secs (det_params d))); [done|].
  destruct (di_direction input); simpl; (destruct (walk_asks_by_cost _ _ _ _) as [walk|]; [|done]);
    (destruct (Z.ltb_spec (sat_i64 (MICRO_SCALE - wr_vwap walk)) (dp_min_profit_per_share (det_params d))); [done|]);
    intros [= <- <-]; exists deadline, walk; repeat split; done || lia.
Qed.

(** The bucket factor changes the probability and the expectation, nothing else. *)
Lemma bucket_risk_frame snapshot opp opp' applied : apply_bucket_risk snapshot opp = Ok (opp', applied) ->
  exists expected prob, opp' = with_effective_prob opp expected prob.
Proof.
  unfold apply_bucket_risk. intros E. repeat case_match; simplify_eq; try (by eexists _, _);
    (exists (expected_net_profit opp'), (resolution_adjust opp'); by destruct opp').
Qed.

Lemma gate_and_score_ok (p : Pipe) snapshot input opp now p' so : gate_and_score p snapshot input opp now = (p', Ok so) ->
  exists expected prob, let opp' := with_effective_prob opp expected prob in
    opportunity so = opp' /\
    pp_min_profit_threshold_usd (pl_params p) <= ok_or (try_from_decimal expected) 0 /\
    ok_or (try_from_pct_decimal (depth_used_pct opp)) 0 <= pp_max_depth_usage_pct (pl_params p) /\
    pp_min_score (pl_params p) <= so_score so /\
    so_urgency_factor so = urgency (Z.max (hours_to_settlement_of opp now) 0) (sp_settlement_window_hours (pl_scorer p)) /\
    pl_detector p' = pl_detector p.
Proof.
  unfold gate_and_score. destruct (apply_bucket_risk snapshot opp) as [[opp' applied]|] eqn:Eb; [|done].
  destruct (bucket_risk_frame _ _ _ _ Eb) as (expected & prob & ->).
  destruct (_ <? _) eqn:E1; [done|]. destruct (pp_max_depth_usage_pct _ <? _) eqn:E2; [done|].
  destruct (_ <? pp_min_score _) eqn:E3; [done|]. zbool. intros [= <- <-]. exists expected, prob. by repeat split.
Qed.

(** What an emitted opportunity satisfies, in terms of the pipeline, the published factors and the
    scanned market. *)
Record emission_sound (p : Pipe) (snapshot : ControlFactorSnapshot) (input : MarketScanInput) (now : Time) (so : ScoredOpportunity) : Prop := {
  es_unblocked : anomaly_blocks snapshot input = false;
  es_cooled : (may_emit (pl_cooldown p) (si_market_id input) now).2 = true;
  es_fresh : is_tradeable (si_staleness input) = true /\ staleness (opportunity so) = si_staleness input;
  es_window : exists deadline, si_settlement_deadline input = Some deadline /\ outside_window (pl_detector p) deadline now = false
    /\ settlement_deadline (meta (opportunity so)) = Some deadline;
  es_purchase : exists dir walk,
    detect_direction (pl_detector p) (pair_view (si_book input)) = Some dir /\
    opp_token_id (opportunity so) = traded_token dir (si_token_yes input) (si_token_no input) /\
    convergence_duration_secs (meta (opportunity so)) = (update_and_get (det_convergence (pl_detector p)) (si_market_id input) dir now).2 /\
    simulated (pl_detector p) dir (si_book input) = Some walk /\
    opp_shares (opportunity so) = to_decimal (wr_shares walk) /\ total_cost (opportunity so) = to_decimal (wr_total_cost walk) /\
    dp_min_profit_per_share (det_params (pl_detector p)) <= sat_i64 (MICRO_SCALE - wr_vwap walk);
  es_converged : dp_min_convergence_duration_secs (det_params (pl_detector p)) <= convergence_duration_secs (meta (opportunity so));
  es_profit : pp_min_profit_threshold_usd (pl_params p) <= ok_or (try_from_decimal (expected_net_profit (opportunity so))) 0;
  es_depth : ok_or (try_from_pct_decimal (depth_used_pct (opportunity so))) 0 <= pp_max_depth_usage_pct (pl_params p);
  es_score : pp_min_score (pl_params p) <= so_score so;
  es_urgency : 0 <= sp_settlement_window_hours (pl_scorer p) -> MICRO_SCALE <= so_urgency_factor so <= 3 * MICRO_SCALE
}.

Lemma urgency_range hours window : 0 <= window -> MICRO_SCALE <= urgency hours window <= 3 * MICRO_SCALE.
Proof.
  intros Hw. destruct (decide (window = 0)) as [->|]; [vm_compute; split; discriminate|].
  rewrite urgency_eq by lia. pose proof (progress_range hours window ltac:(lia)).
  destruct (smoothstep_mono (progress hours window) (progress hours window)); lia.
Qed.

(** A scan that emits passed every gate in turn. *)
Lemma process_ref_ok (p : Pipe) snapshot id input now p' so : process_ref p snapshot id input now = (p', Ok so) ->
  anomaly_blocks snapshot input = false /\ (may_emit (pl_cooldown p) (si_market_id input) now).2 = true /\
  is_tradeable (si_staleness input) = true /\
  exists dir d opp p1, detect_direction (pl_detector p) (pair_view (si_book input)) = Some dir /\
    detect_with_direction (pl_detector p) id (detect_input input dir) now = (d, Ok opp) /\
    gate_and_score p1 snapshot input opp now = (p', Ok so) /\ pl_params p1 = pl_params p /\ pl_scorer p1 = pl_scorer p.
Proof.
  unfold process_ref. destruct (anomaly_blocks snapshot input); [done|].
  destruct (may_emit _ _ _) as [cd may]. destruct may; [|done]. simpl.
  destruct (is_tradeable _); [|done]. simpl. destruct (detect_direction _ _) as [dir|]; [|by destruct (should_reset_market_state _ _ _ _)].
  intros E. do 3 (split; [done|]). exists dir.
  destruct (should_reset_market_state _ _ _ _); simpl in E;
    (destruct (detect_with_direction _ _ _ _) as [d [opp|]]; [|done]); eexists d, opp, _; split_and!; try exact E; done.
Qed.

Lemma process_ref_emission (p : Pipe) snapshot id input now p' so :
  process_ref p snapshot id input now = (p', Ok so) -> emission_sound p snapshot input now so.
Proof.
  intros E. apply process_ref_ok in E as (Ha & Hm & Hs & dir & d & opp & p1 & Hd & Ho & Hg & Hp & Hsc).
  apply detect_ok in Ho as (deadline & walk & Ho). simpl in Ho.
  destruct (update_and_get _ _ _ _) as [tracker secs] eqn:Eu. destruct Ho as (Hdl & Hw & Hc & Hsim & Hpr & -> & ->).
  apply gate_and_score_ok in Hg as (expected & prob & Eso & H1 & H2 & H3 & H4 & _). rewrite Hp in *. rewrite Hsc in *.
  split; try done; try (by rewrite Eso).
  - exists deadline. by rewrite Eso.
  - exists dir, walk. rewrite Eso, Eu. by split_and!.
  - intros Hwin. rewrite H4. by apply urgency_range.
Qed.

(** Every emitted opportunity passed every gate.  When a scan emits, no published anomaly blocks
    the market, its cooldown is over, its book is fresh enough, the deadline lies in the settlement
    window, the side bought converged at least as long as configured, the quantities are those of a
    simulated purchase whose price leaves the configured profit per share, and the expected profit,
    the depth used and the score meet their thresholds as recorded in the opportunity itself. *)
Theorem emitted_opportunity_sound (p : Pipe) snapshot id input now p' so :
  process_ref p snapshot id input now = (p', Ok so) -> emission_sound p snapshot input now so.
Proof. apply process_ref_emission. Qed.

(** The cost of an emitted opportunity is within the configured investment when the book is sane. *)
Lemma emission_within_investment (p : Pipe) snapshot input now so : emission_sound p snapshot input now so ->
  (forall dir, Forall (fun l => lv_price l <= MICRO_SCALE /\ lv_size l <= i64_max) (sv_levels (traded_side dir (pair_view (si_book input)))) /\
     sizes (eligible (dp_high_threshold (det_params (pl_detector p))) (sv_levels (traded_side dir (pair_view (si_book input))))) <= i64_max) ->
  0 <= dp_max_investment_usd (det_params (pl_detector p)) <= i64_max ->
  exists cost, total_cost (opportunity so) = to_decimal cost /\ 0 <= cost <= dp_max_investment_usd (det_params (pl_detector p)).
Proof.
  intros He Hb Hi. destruct (es_purchase _ _ _ _ _ He) as (dir & walk & _ & _ & _ & Hsim & _ & Hc & _).
  destruct (Hb dir) as [Hl Hz]. pose proof (walk_spends_budget_or_book _ _ _ (sv_total_depth_usd (traded_side dir (pair_view (si_book input)))) Hl Hi Hz) as Hw.
  unfold simulated in Hsim. rewrite Hsim in Hw. exists (wr_total_cost walk). split; [done|]. tauto.
Qed.

(** *** Leaving the zone *)

(** Leaving the high-price zone does not restart the convergence clock.  Scans that see no
    direction, however many and for however long, leave the tracker as it was, so a market that
    returns before its entry expired is credited with the time it spent outside the zone as well. *)
Theorem zone_exit_keeps_timer (p : Pipe) (scans : list (ControlFactorSnapshot * OpportunityId * MarketScanInput * Time)) m dir now :
  Forall (fun '(_, _, input, _) => detect_direction (pl_detector p) (pair_view (si_book input)) = None) scans ->
  let p' := foldl (fun p '(snapshot, id, input, t) => (process_ref p snapshot id input t).1) p scans in
  (update_and_get (det_convergence (pl_detector p')) m dir now).2 = (update_and_get (det_convergence (pl_detector p)) m dir now).2.
Proof.
  assert (forall q snapshot id input t, detect_direction (pl_detector q) (pair_view (si_book input)) = None ->
            pl_detector (process_ref q snapshot id input t).1 = pl_detector q) as Hone.
  { intros q snapshot id input t Hn. unfold process_ref. destruct (anomaly_blocks _ _); [done|]. destruct (may_emit _ _ _) as [cd may].
    destruct may; [|done]. simpl. destruct (is_tradeable _); [|done]. simpl. rewrite Hn. by destruct (should_reset_market_state _ _ _ _). }
  revert p. induction scans as [|[[[snapshot id] input] t] scans IH]; intros p Hf; [done|].
  apply Forall_cons in Hf as [Hx Hf]. simpl. specialize (Hone p snapshot id input t Hx).
  rewrite IH; rewrite Hone; done.
Qed.

(** *** Ranking *)

Definition ranks_above (x y : ScoredOpportunity) : Prop := so_score y <= so_score x.

Lemma insert_desc_perm x l : insert_desc x l ≡ₚ x :: l.
Proof. induction l as [|y l IH]; simpl; [done|]. case_match; [|done]. rewrite IH. apply Permutation_swap. Qed.

Lemma sort_desc_perm l : sort_desc l ≡ₚ l.
Proof. induction l as [|x l IH]; simpl; [done|]. by rewrite insert_desc_perm, IH. Qed.

Lemma insert_desc_sorted x l : StronglySorted ranks_above l -> StronglySorted ranks_above (insert_desc x l).
Proof.
  induction 1 as [|y l Hs IH Hy]; simpl; [by repeat constructor|].
  destruct (Z.ltb_spec (so_score x) (so_score y)) as [Hlt|Hge]; constructor; try done.
  - rewrite (insert_desc_perm x l). constructor; [unfold ranks_above; lia|done].
  - by constructor.
  - constructor; [done|]. eapply Forall_impl; [exact Hy|]. unfold ranks_above. simpl. lia.
Qed.

Lemma sort_desc_sorted l : StronglySorted ranks_above (sort_desc l).
Proof. induction l as [|x l IH]; simpl; [constructor|]. by apply insert_desc_sorted. Qed.

Lemma scan_inputs_emissions inputs snapshot now : forall p : Pipe,
  Forall (fun so => exists q id input p', (id, input) ∈ inputs /\ process_ref q snapshot id input now = (p', Ok so)) (scan_inputs p snapshot inputs now).2.
Proof.
  induction inputs as [|[id input] inputs IH]; intros p; simpl; [done|].
  destruct (process_ref p snapshot id input now) as [p1 r] eqn:E. specialize (IH p1). destruct (scan_inputs p1 snapshot inputs now) as [p2 found].
  simpl in *. assert (Forall (fun so => exists q id0 input0 p', (id0, input0) ∈ (id, input) :: inputs /\
      process_ref q snapshot id0 input0 now = (p', Ok so)) found) as Hf.
  { eapply Forall_impl; [exact IH|]. intros so (q & i & n & p' & Hin & Hp). exists q, i, n, p'. split; [by right|done]. }
  destruct r as [so|]; [|done]. constructor; [|done]. exists p, id, input, p1. split; [by left|done].
Qed.

(** A batch is ranked.  The result holds exactly the opportunities emitted by the scans of the
    batch, each as often as it was emitted, ordered by descending score. *)
Theorem scan_batch_ranks (p : Pipe) snapshot inputs now :
  let '(_, ranked) := scan_batch p snapshot inputs now in
  StronglySorted ranks_above ranked /\ ranked ≡ₚ (scan_inputs p snapshot inputs now).2 /\
  Forall (fun so => exists q id input p', (id, input) ∈ inputs /\ process_ref q snapshot id input now = (p', Ok so)) ranked.
Proof.
  unfold scan_batch. pose proof (scan_inputs_emissions inputs snapshot now p) as He.
  destruct (scan_inputs p snapshot inputs now) as [p' found]. simpl in *. split; [apply sort_desc_sorted|].
  split; [apply sort_desc_perm | by rewrite sort_desc_perm].
Qed.
End Emission.

(** ** A market near settlement *)

Module OpportunityDemo.
Abbreviation Pipe := (OpportunityPipeline (DO := ExactQ.exactQ) (CC := LivingMap CooldownEntry) (CE := LivingMap ConvergenceEntry)).

(** A bucket in which nearly every settlement was predicted correctly. *)
Definition entry : CalibrationEntry (DO := ExactQ.exactQ) := {|
  ce_bucket_key := {| bk_category := Sports; bk_price_zone := Z95; bk_duration_bucket := Short |};
  ce_total_count := 100000; ce_correct_count := 99900; ce_alpha_prior := 1%Q; ce_beta_prior := 1%Q; ce_fallback_tier := 0 |}.

Definition pipe : Pipe :=
  new_pipeline detection_config_default (from_entries [entry] calibration_config_default) (fun _ _ _ _ => 0%Q).

(** Asks of one token at one price. *)
Definition offer (price : MicroPrice) : BookSnapshot := new_book_snapshot [] [ {| lv_price := price; lv_size := 2000000000 |} ] 0 1.

Definition market (price : MicroPrice) : MarketScanInput := {|
  si_market_id := "m"; si_event_id := "e"; si_token_yes := "yes"; si_token_no := "no";
  si_book := {| bp_yes := offer price; bp_no := offer 40000 |}; si_category := Sports; si_staleness := Fresh;
  si_settlement_deadline := Some (10 * 3600 * nanos_per_sec) |}.

Definition neutral : ControlFactorSnapshot (DO := ExactQ.exactQ) := snapshot_neutral 0.

(** The market is seen in the zone, then outside it, then in it again. *)
Definition seen : Pipe := (process_ref pipe neutral 1 (market 955000) 0).1.
Definition outside : list (ControlFactorSnapshot (DO := ExactQ.exactQ) * OpportunityId * MarketScanInput * Time) :=
  [(neutral, 2, market 800000, 10 * nanos_per_sec); (neutral, 3, market 700000, 390 * nanos_per_sec)].
Definition returned : Pipe := foldl (fun p '(snapshot, id, input, t) => (process_ref p snapshot id input t).1) seen outside.
Definition back : Time := 400 * nanos_per_sec.

Lemma emitted_opportunity_sound_witness :
  match (process_ref returned neutral 4 (market 955000) back).2 with
  | Ok so => emission_sound returned neutral (market 955000) back so /\ so_score so = 46401800
  | Err _ => False
  end.
Proof.
  assert (match (process_ref returned neutral 4 (market 955000) back).2 with Ok so => so_score so = 46401800 | Err _ => False end) as Hs
    by (vm_compute; reflexivity).
  destruct (process_ref returned neutral 4 (market 955000) back) as [p' [so|r]] eqn:E; simpl in Hs |- *; [|exact Hs].
  split; [exact (emitted_opportunity_sound returned neutral 4 (market 955000) back p' so E) | exact Hs].
Defined.

(** Seen once in the zone, the market is credited with the four hundred seconds it spent outside. *)
Lemma zone_exit_keeps_timer_witness :
  (update_and_get (det_convergence (pl_detector returned)) "m" YesLikely back).2 = 400.
Proof.
  unfold returned. rewrite (zone_exit_keeps_timer seen outside "m" YesLikely back); [vm_compute; reflexivity|].
  repeat constructor; vm_compute; reflexivity.
Defined.
End OpportunityDemo.
