(* ===== verification/Text.v ===== *)
(** * Text

    The operations of [str] the configuration code uses, on the bytes of UTF-8 strings. *)

From Stdlib Require Import Ascii String.
From S2P Require Import Prelude.

(** The white space of [char::is_whitespace], encoded in UTF-8. *)
Definition white_space : list (list ascii) := map (fun n => [ascii_of_nat n]) [9; 10; 11; 12; 13; 32]%nat.
Definition wide_white_space : list (list ascii) :=
  map (map ascii_of_nat)
    ([[194; 133]; [194; 160]; [225; 154; 128]; [226; 128; 168]; [226; 128; 169]; [226; 128; 175]; [226; 129; 159]; [227; 128; 128]]
     ++ map (fun k => [226; 128; 128 + k]) (seq 0 11))%nat.

(** [strip_prefix] on bytes *)
Fixpoint strip_prefix (p s : list ascii) : option (list ascii) :=
  match p, s with
  | [], _ => Some s
  | c :: p, d :: s => if Ascii.eqb c d then strip_prefix p s else None
  | _ :: _, [] => None
  end.

(** What is left after one leading white space. *)
Fixpoint strip_any (ps : list (list ascii)) (s : list ascii) : option (list ascii) :=
  match ps with
  | [] => None
  | p :: rest => match strip_prefix p s with Some s' => Some s' | None => strip_any rest s end
  end.

Fixpoint strip_all (fuel : nat) (ps : list (list ascii)) (s : list ascii) : list ascii :=
  match fuel with
  | O => s
  | S n => match strip_any ps s with Some s' => strip_all n ps s' | None => s end
  end.

Definition spaces : list (list ascii) := white_space ++ wide_white_space.

(** [str::trim]: leading white space, then trailing white space on the reversed bytes. *)
Definition trim_bytes (s : list ascii) : list ascii :=
  let s := strip_all (length s) spaces s in
  rev (strip_all (length s) (map (@rev ascii) spaces) (rev s)).

Definition trim (s : string) : string := string_of_list_ascii (trim_bytes (list_ascii_of_string s)).

Definition str_is_empty (s : string) : bool := match s with EmptyString => true | _ => false end.

Definition between (lo hi : nat) (c : ascii) : bool := (lo <=? nat_of_ascii c)%nat && (nat_of_ascii c <=? hi)%nat.
(** [char::is_ascii_digit] and [char::is_ascii_hexdigit] *)
Definition is_ascii_digit (c : ascii) : bool := between 48 57 c.
Definition is_ascii_hexdigit (c : ascii) : bool := is_ascii_digit c || between 65 70 c || between 97 102 c.

(** [0x] followed by [n] hexadecimal digits. *)
Definition is_hex_of_length (n : nat) (s : string) : bool :=
  match strip_prefix ["0"%char; "x"%char] (list_ascii_of_string s) with
  | Some hex => (length hex =? n)%nat && forallb is_ascii_hexdigit hex
  | None => false
  end.

(** [str::to_ascii_lowercase] and [str::eq_ignore_ascii_case] *)
Definition lower (c : ascii) : ascii := if between 65 90 c then ascii_of_nat (nat_of_ascii c + 32) else c.
Definition to_ascii_lowercase (s : string) : string := string_of_list_ascii (map lower (list_ascii_of_string s)).
Definition eq_ignore_ascii_case (a b : string) : bool := String.eqb (to_ascii_lowercase a) (to_ascii_lowercase b).

(** [str::contains] *)
Fixpoint contains_bytes (p s : list ascii) : bool :=
  match strip_prefix p s with
  | Some _ => true
  | None => match s with [] => false | _ :: rest => contains_bytes p rest end
  end.
Definition str_contains (s p : string) : bool := contains_bytes (list_ascii_of_string p) (list_ascii_of_string s).

Lemma strip_prefix_shorter p s s' : strip_prefix p s = Some s' -> length s = (length p + length s')%nat.
Proof.
  revert s. induction p as [|c p IH]; intros [|d s]; simpl; intros E; simplify_eq; try done.
  destruct (Ascii.eqb c d); [|done]. apply IH in E. lia.
Qed.
