(* ===== verification/RuntimeConfig.v ===== *)
(** * Runtime configuration: [oxide-arb-models/src/runtime_config]

    The versioned document with its sections and defaults, the validators of
    [runtime_config/validation.rs] with the reports they fill, and what a document without errors
    satisfies.  Details that are formatted from values are kept as their parts. *)

From Stdlib Require Import Ascii String.
From S2P Require Import Prelude Text Decimal Micro Fees FactorModel Book Calibration Detector Domain Config.

(** ** Sections *)

(** [models/runtime_config/market_data.rs:18-42] `MarketDataRuntimeConfig` *)
Record MarketDataRuntimeConfig := {
  staleness_fresh_ms : Z;
  staleness_acceptable_ms : Z;
  staleness_stale_ms : Z;
  staleness_expired_ms : Z;
  enabled_categories : list MarketCategory
}.

(** [models/runtime_config/market_data.rs:44-67] `MarketDataRuntimeConfig::default` *)
Definition market_data_default : MarketDataRuntimeConfig := {|
  staleness_fresh_ms := 2000; staleness_acceptable_ms := 5000; staleness_stale_ms := 15000; staleness_expired_ms := 30000;
  enabled_categories := [] |}.

(** [core/pipeline/staleness_classifier.rs:22-31] `StalenessThresholds::from_config` *)
Definition staleness_thresholds (config : MarketDataRuntimeConfig) : StalenessThresholds := {|
  th_fresh := staleness_fresh_ms config; th_acceptable := staleness_acceptable_ms config;
  th_stale := staleness_stale_ms config; th_expired := staleness_expired_ms config |}.

(** [models/runtime_config/notification.rs:43-52] `TelegramConfig` *)
Record TelegramConfig := { tg_enabled : bool; bot_token : string; chat_id : string }.

(** [models/runtime_config/notification.rs:57-64] `WebhookConfig` *)
Record WebhookConfig := { wh_enabled : bool; wh_url : string }.

(** [models/runtime_config/notification.rs:15-24] `NotificationConfig` *)
Record NotificationConfig := { alert_cooldown_secs : Z; telegram : TelegramConfig; webhook : WebhookConfig }.

(** [models/runtime_config/notification.rs:26-38] `NotificationConfig::default` *)
Definition notification_default : NotificationConfig := {|
  alert_cooldown_secs := 60; telegram := {| tg_enabled := false; bot_token := ""; chat_id := "" |};
  webhook := {| wh_enabled := false; wh_url := "" |} |}.

(** [models/runtime_config/settlement.rs:208-214] `AllSourcesDownStrategy` *)
Inductive AllSourcesDownStrategy := ManualAck | ConservativeReject.

(** [models/runtime_config/settlement.rs:36-58] `SettlementOracleConfig` *)
Record SettlementOracleConfig := {
  oc_enabled : bool;
  voting_quorum : Z;
  cross_check_delay_secs : Z;
  all_sources_down_strategy : AllSourcesDownStrategy;
  uma_endpoint : string;
  uma_timeout_secs : Z
}.

(** [models/runtime_config/settlement.rs:60-71] `SettlementOracleConfig::default` *)
Definition oracle_default : SettlementOracleConfig := {|
  oc_enabled := true; voting_quorum := 2; cross_check_delay_secs := 120; all_sources_down_strategy := ConservativeReject;
  uma_endpoint := "https://api.uma.xyz"; uma_timeout_secs := 10 |}.

(** [models/runtime_config/settlement.rs:79-93] `SettlementLifecycleConfig` *)
Record SettlementLifecycleConfig := { retry_interval_secs : Z; max_redeem_attempts : Z; dedup_window_secs : Z }.

(** [models/runtime_config/settlement.rs:95-103] `SettlementLifecycleConfig::default` *)
Definition lifecycle_default : SettlementLifecycleConfig := {|
  retry_interval_secs := 60; max_redeem_attempts := 5; dedup_window_secs := 30 |}.

(** [models/runtime_config/execution.rs:137-146] `FunnelConfig` *)
Record FunnelConfig := { max_queue_size : Z; min_dispatch_interval_ms : Z }.
(** [models/runtime_config/execution.rs:148-162] `FunnelConfig::default` *)
Definition funnel_default : FunnelConfig := {| max_queue_size := 50; min_dispatch_interval_ms := 75 |}.

(** [models/runtime_config/execution.rs:169-174] `CoalescerConfig` *)
Record CoalescerConfig := { coalesce_window_ms : Z }.
(** [models/runtime_config/execution.rs:176-186] `CoalescerConfig::default` *)
Definition coalescer_default : CoalescerConfig := {| coalesce_window_ms := 40 |}.

Section Sections.
Context {DO : DecimalOps}.

(** [models/runtime_config/execution.rs:34-51] `TradeTimeoutConfig` *)
Record TradeTimeoutConfig := {
  max_validation_slippage_bps : D;
  dispatcher_timeout_ms : Z;
  trade_confirm_timeout_secs : Z;
  trade_confirm_poll_interval_secs : Z
}.
(** [models/runtime_config/execution.rs:53-75] `TradeTimeoutConfig::default` *)
Definition trade_timeout_default : TradeTimeoutConfig := {|
  max_validation_slippage_bps := dlit 50 0; dispatcher_timeout_ms := 30000; trade_confirm_timeout_secs := 60;
  trade_confirm_poll_interval_secs := 2 |}.

(** [models/runtime_config/execution.rs:82-98] `ReconciliationConfig` *)
Record ReconciliationConfig := {
  backoff_base_secs : Z;
  backoff_max_secs : Z;
  min_miss_age_secs : Z;
  min_fill_ratio : D;
  trade_lookback_secs : Z
}.
(** [models/runtime_config/execution.rs:100-130] `ReconciliationConfig::default` *)
Definition reconciliation_config_default : ReconciliationConfig := {|
  backoff_base_secs := 5; backoff_max_secs := 300; min_miss_age_secs := 120; min_fill_ratio := dlit 1 0; trade_lookback_secs := 5 |}.

(** [models/runtime_config/execution.rs:193-202] `EndgameLatencyConfig` *)
Record EndgameLatencyConfig := { dispatch_immediate_threshold : D; max_book_to_order_ms : Z }.
(** [models/runtime_config/execution.rs:204-218] `EndgameLatencyConfig::default` *)
Definition endgame_latency_default : EndgameLatencyConfig := {| dispatch_immediate_threshold := dlit 5 1; max_book_to_order_ms := 5 |}.

(** [models/runtime_config/execution.rs:16-27] `ExecutionRuntimeConfig` *)
Record ExecutionRuntimeConfig := {
  er_timeout : TradeTimeoutConfig;
  er_reconciliation : ReconciliationConfig;
  er_funnel : FunnelConfig;
  er_coalescer : CoalescerConfig;
  er_endgame_latency : EndgameLatencyConfig
}.

(** [models/runtime_config/settlement.rs:24-31] `SettlementRuntimeConfig` *)
Record SettlementRuntimeConfig := {
  sr_oracle : SettlementOracleConfig;
  sr_lifecycle : SettlementLifecycleConfig;
  sr_redeem : RedeemRoutingPolicy
}.

(** [models/runtime_config/settlement.rs:130-140] `RedeemRoutingPolicy::default` *)
Definition redeem_default : RedeemRoutingPolicy := {|
  rp_standard := Some {| sp_route := StandardCtf; sp_holder_address := None |};
  rp_neg_risk := Some {| np_route := NegRiskLegacyAdapter; np_holder_address := None |};
  rp_overrides := ∅; rp_gas_limit := 500000; rp_matic_usd_price := dlit 5 1 |}.

(** [models/runtime_config/mod.rs:67-83] `RuntimeConfig` *)
Record RuntimeConfig := {
  schema_version : Z;
  c_market_data : MarketDataRuntimeConfig;
  c_detection : DetectionConfig;
  c_execution : ExecutionRuntimeConfig;
  c_risk : RiskConfig;
  c_settlement : SettlementRuntimeConfig;
  c_notification : NotificationConfig
}.

(** [models/runtime_config/mod.rs:62-62] `RUNTIME_CONFIG_SCHEMA_VERSION` *)
Definition RUNTIME_CONFIG_SCHEMA_VERSION : Z := 2.

(** [models/runtime_config/mod.rs:85-97] `RuntimeConfig::default` *)
Definition runtime_config_default : RuntimeConfig := {|
  schema_version := RUNTIME_CONFIG_SCHEMA_VERSION;
  c_market_data := market_data_default;
  c_detection := detection_config_default;
  c_execution := {| er_timeout := trade_timeout_default; er_reconciliation := reconciliation_config_default; er_funnel := funnel_default;
                    er_coalescer := coalescer_default; er_endgame_latency := endgame_latency_default |};
  c_risk := RiskConfig_default;
  c_settlement := {| sr_oracle := oracle_default; sr_lifecycle := lifecycle_default; sr_redeem := redeem_default |};
  c_notification := notification_default |}.

(** ** Reports *)

(** A detail text, with the values it is formatted from. *)
Inductive Detail :=
| Says (text : string)
| DuplicateCategory (c : MarketCategory)
| WeightOutOfRange (w : D)
| NotAConditionId (s : string)
| NotATokenId (s : string)
| BelowReserved (candidate reserved : D)
| InvalidRedeemSnapshot (position market : string) (reason : string).

(** [error/config_validation.rs:36-53] `ConfigValidationError` *)
Inductive ConfigValidationError :=
| InfeasibleRange (field_low : string) (value_low : D) (field_high : string) (value_high : D)
| InvalidKellyFraction (k : D)
| MissingCredentials (mode : string) (missing : list string)
| InvalidValue (field : string) (detail : Detail).

(** [error/config_validation.rs:57-64] `ConfigWarning` *)
Inductive ConfigWarning := LargeKellyFraction (k : D) | NoCredentialsPaper | WeakJwtSecret.

(** [error/config_validation.rs:9-12] `ConfigValidationReport` *)
Record ConfigValidationReport := { rep_errors : list ConfigValidationError; rep_warnings : list ConfigWarning }.

Definition empty_report : ConfigValidationReport := {| rep_errors := []; rep_warnings := [] |}.

(** [error/config_validation.rs:16-18] `ConfigValidationReport::has_errors` *)
Definition has_errors (r : ConfigValidationReport) : bool := match rep_errors r with [] => false | _ => true end.

(** [error/config_validation.rs:21-23] `ConfigValidationReport::is_clean` *)
Definition is_clean (r : ConfigValidationReport) : bool :=
  match rep_errors r, rep_warnings r with [], [] => true | _, _ => false end.

(** [report.errors.push(..)] behind a condition, and over a list. *)
Definition error_if (b : bool) (e : ConfigValidationError) (r : ConfigValidationReport) : ConfigValidationReport :=
  if b then {| rep_errors := rep_errors r ++ [e]; rep_warnings := rep_warnings r |} else r.
Definition warn_if (b : bool) (w : ConfigWarning) (r : ConfigValidationReport) : ConfigValidationReport :=
  if b then {| rep_errors := rep_errors r; rep_warnings := rep_warnings r ++ [w] |} else r.
Definition each {A} (bad : A -> bool) (e : A -> ConfigValidationError) (l : list A) (r : ConfigValidationReport) : ConfigValidationReport :=
  foldl (fun r a => error_if (bad a) (e a) r) r l.
Definition seq_report (f g : ConfigValidationReport -> ConfigValidationReport) (r : ConfigValidationReport) : ConfigValidationReport := g (f r).
End Sections.

#[local] Infix ">>>" := seq_report (at level 60, right associativity).

(** A wrong value with a fixed text. *)
Abbreviation invalid field text := (InvalidValue field (Says text)).

Section Validation.
Context {DO : DecimalOps}.
Abbreviation Report := ConfigValidationReport.

(** Decimal comparisons as the code writes them. *)
Definition gtb (a b : D) : bool := dltb b a.
Definition geb (a b : D) : bool := dleb b a.
(** [value < 0 || value > 1], [value <= 0 || value > hi]. *)
Definition off_unit (v : D) : bool := dltb v d0 || gtb v d1.
Definition off_half_open (v hi : D) : bool := dleb v d0 || gtb v hi.

(** [models/runtime_config/validation.rs:936-940] `is_hex_address` *)
Definition is_hex_address (value : string) : bool := is_hex_of_length 40 value.

(** [models/runtime_config/validation.rs:943-947] `is_condition_id` *)
Definition is_condition_id (value : string) : bool := is_hex_of_length 64 value.

(** [models/runtime_config/validation.rs:949-956] `validate_address` *)
Definition validate_address (field : string) (value : string) : Report -> Report :=
  error_if (negb (is_hex_address (trim value))) (invalid field "must be a 20-byte hex address with 0x prefix").

(** The categories that were seen before in the list, in order. *)
Fixpoint duplicates (seen : list MarketCategory) (l : list MarketCategory) : list MarketCategory :=
  match l with
  | [] => []
  | c :: rest => if bool_decide (c ∈ seen) then c :: duplicates seen rest else duplicates (c :: seen) rest
  end.

(** Adjacent pairs, [slice::windows(2)]. *)
Fixpoint windows2 {A} (l : list A) : list (A * A) :=
  match l with a :: ((b :: _) as rest) => (a, b) :: windows2 rest | _ => [] end.

Definition staleness_ladder (md : MarketDataRuntimeConfig) : list (string * Z) :=
  [("market_data.staleness_fresh_ms"%string, staleness_fresh_ms md); ("market_data.staleness_acceptable_ms"%string, staleness_acceptable_ms md);
   ("market_data.staleness_stale_ms"%string, staleness_stale_ms md); ("market_data.staleness_expired_ms"%string, staleness_expired_ms md)].

(** [models/runtime_config/validation.rs:125-165] `validate_market_data` *)
Definition validate_market_data (md : MarketDataRuntimeConfig) : Report -> Report :=
  each (fun '(_, v) => v =? 0) (fun '(f, _) => invalid f "must be > 0") (staleness_ladder md) >>>
  each (fun '((_, low), (_, high)) => high <=? low)
    (fun '((f, _), _) => invalid f "staleness ladder must be strictly increasing (fresh < acceptable < stale < expired)")
    (windows2 (staleness_ladder md)) >>>
  each (fun _ => true) (fun c => InvalidValue "market_data.enabled_categories" (DuplicateCategory c)) (duplicates [] (enabled_categories md)).

(** [models/runtime_config/validation.rs:265-304] `validate_fill_probability` *)
Definition validate_fill_probability (fill : FillProbabilityConfig) : Report -> Report :=
  error_if (off_half_open (fp_base_fill_prob fill) d1) (invalid "detection.endgame.fill_probability.base_fill_prob" "must be in (0, 1]") >>>
  error_if (off_half_open (fp_depth_penalty_threshold_pct fill) (dlit 100 0))
    (invalid "detection.endgame.fill_probability.depth_penalty_threshold_pct" "must be in (0, 100]") >>>
  each (fun '(_, v) => off_unit v) (fun '(f, _) => invalid f "must be in [0, 1] (it adjusts a probability)")
    [("detection.endgame.fill_probability.depth_penalty_per_pct"%string, fp_depth_penalty_per_pct fill);
     ("detection.endgame.fill_probability.staleness_penalty_per_level"%string, fp_staleness_penalty_per_level fill);
     ("detection.endgame.fill_probability.resolution_proximity_bonus"%string, fp_resolution_proximity_bonus fill)].

(** [models/runtime_config/validation.rs:179-260] `validate_detection_endgame` *)
Definition validate_detection_endgame (e : EndgameDetectionConfig) : Report -> Report :=
  error_if (dleb (ed_high_threshold e) (dlit 5 1) || geb (ed_high_threshold e) d1)
    (invalid "detection.endgame.high_threshold" "must be in (0.5, 1)") >>>
  error_if (dleb (ed_min_profit_per_share e) d0 || geb (ed_min_profit_per_share e) d1)
    (invalid "detection.endgame.min_profit_per_share" "must be in (0, 1)") >>>
  error_if (dleb (ed_max_investment_usd e) d0) (invalid "detection.endgame.max_investment_usd" "must be > 0") >>>
  error_if (ed_settlement_window_hours e =? 0) (invalid "detection.endgame.settlement_window_hours" "must be > 0") >>>
  error_if (ed_min_convergence_duration_secs e =? 0)
    (invalid "detection.endgame.min_convergence_duration_secs" "must be > 0 (zero disables the transient-spike guard)") >>>
  error_if (off_unit (sc_min_score (ed_scorer e))) (invalid "detection.endgame.scorer.min_score" "must be in [0, 1]") >>>
  error_if (off_half_open (sc_max_depth_usage_pct (ed_scorer e)) (dlit 100 0))
    (invalid "detection.endgame.scorer.max_depth_usage_pct" "must be in (0, 100]") >>>
  each (fun w => dltb w d0 || gtb w (dlit 10 0)) (fun w => InvalidValue "detection.endgame.scorer.category_weights" (WeightOutOfRange w))
    (map_to_list (sc_category_weights (ed_scorer e))).*2 >>>
  validate_fill_probability (ed_fill_probability e) >>>
  error_if ((ec_base_cooldown_secs (ed_emission_cooldown e) =? 0) || (ec_max_capacity (ed_emission_cooldown e) =? 0))
    (invalid "detection.endgame.emission_cooldown" "base_cooldown_secs and max_capacity must be > 0") >>>
  error_if (dltb (ec_max_multiplier (ed_emission_cooldown e)) d1)
    (invalid "detection.endgame.emission_cooldown.max_multiplier" "must be >= 1") >>>
  error_if ((tc_max_idle_secs (ed_convergence_tracker e) =? 0) || (tc_max_capacity (ed_convergence_tracker e) =? 0))
    (invalid "detection.endgame.convergence_tracker" "max_idle_secs and max_capacity must be > 0").

(** [models/runtime_config/validation.rs:306-342] `validate_detection_calibration` *)
Definition validate_detection_calibration (c : CalibrationConfig) : Report -> Report :=
  error_if (geb (fused_p_floor c) (fused_p_ceiling c))
    (InfeasibleRange "detection.calibration.fused_p_floor" (fused_p_floor c) "detection.calibration.fused_p_ceiling" (fused_p_ceiling c)) >>>
  error_if (dltb (fused_p_floor c) d0 || gtb (fused_p_ceiling c) d1)
    (invalid "detection.calibration" "fused_p_floor/fused_p_ceiling must be within [0, 1]") >>>
  error_if (refresh_interval_secs c =? 0) (invalid "detection.calibration.refresh_interval_secs" "must be > 0") >>>
  error_if ((min_sample_size c =? 0) || (fusion_prior_strength c =? 0))
    (invalid "detection.calibration" "min_sample_size and fusion_prior_strength must be >= 1") >>>
  error_if (dleb (bootstrap_alpha c) d0 || dleb (bootstrap_beta c) d0)
    (invalid "detection.calibration" "bootstrap_alpha and bootstrap_beta must be > 0").

(** [models/runtime_config/validation.rs:167-177] `validate_detection` *)
Definition validate_detection (d : DetectionConfig) : Report -> Report :=
  error_if (dleb (dc_min_profit_threshold_usd d) d0) (invalid "detection.min_profit_threshold_usd" "must be > 0") >>>
  validate_detection_endgame (dc_endgame d) >>>
  validate_detection_calibration (dc_calibration d).

(** [models/runtime_config/validation.rs:344-436] `validate_execution` *)
Definition validate_execution (e : ExecutionRuntimeConfig) : Report -> Report :=
  let t := er_timeout e in
  let reconcile := er_reconciliation e in
  error_if (dltb (max_validation_slippage_bps t) d0 || gtb (max_validation_slippage_bps t) (dlit 10000 0))
    (invalid "execution.timeout.max_validation_slippage_bps" "must be in [0, 10000] basis points") >>>
  each (fun '(_, v) => v =? 0) (fun '(f, _) => invalid f "must be > 0")
    [("execution.timeout.dispatcher_timeout_ms"%string, dispatcher_timeout_ms t);
     ("execution.timeout.trade_confirm_timeout_secs"%string, trade_confirm_timeout_secs t);
     ("execution.timeout.trade_confirm_poll_interval_secs"%string, trade_confirm_poll_interval_secs t);
     ("execution.funnel.min_dispatch_interval_ms"%string, min_dispatch_interval_ms (er_funnel e));
     ("execution.coalescer.coalesce_window_ms"%string, coalesce_window_ms (er_coalescer e));
     ("execution.endgame_latency.max_book_to_order_ms"%string, max_book_to_order_ms (er_endgame_latency e))] >>>
  error_if (max_queue_size (er_funnel e) =? 0) (invalid "execution.funnel.max_queue_size" "must be > 0") >>>
  error_if (trade_confirm_timeout_secs t <? trade_confirm_poll_interval_secs t)
    (invalid "execution.timeout.trade_confirm_poll_interval_secs"
       "must be <= trade_confirm_timeout_secs (a poll slower than the confirm budget never observes it)") >>>
  error_if (off_unit (dispatch_immediate_threshold (er_endgame_latency e)))
    (invalid "execution.endgame_latency.dispatch_immediate_threshold" "must be in [0, 1]") >>>
  error_if ((backoff_base_secs reconcile =? 0) || (backoff_max_secs reconcile =? 0))
    (invalid "execution.reconciliation.backoff" "backoff_base_secs and backoff_max_secs must be > 0") >>>
  error_if (backoff_max_secs reconcile <? backoff_base_secs reconcile)
    (invalid "execution.reconciliation.backoff" "backoff_base_secs must be <= backoff_max_secs") >>>
  error_if (min_miss_age_secs reconcile =? 0) (invalid "execution.reconciliation.min_miss_age_secs" "must be > 0") >>>
  error_if (off_half_open (min_fill_ratio reconcile) d1) (invalid "execution.reconciliation.min_fill_ratio" "must be in (0, 1]").

(** [models/runtime_config/validation.rs:447-477] `validate_risk_money_caps` *)
Definition validate_risk_money_caps (r : RiskConfig) : Report -> Report :=
  each (fun '(_, v) => dleb v d0) (fun '(f, _) => invalid f "must be > 0")
    [("risk.min_depth_usd"%string, min_depth_usd r); ("risk.max_hourly_loss_usd"%string, max_hourly_loss_usd r);
     ("risk.max_daily_loss_usd"%string, max_daily_loss_usd r); ("risk.max_single_loss_usd"%string, max_single_loss_usd r);
     ("risk.max_weekly_loss_usd"%string, max_weekly_loss_usd r); ("risk.max_total_exposure_usd"%string, max_total_exposure_usd r);
     ("risk.max_single_market_exposure_usd"%string, max_single_market_exposure_usd r); ("risk.max_single_bet_usd"%string, max_single_bet_usd r);
     ("risk.min_trade_usd"%string, min_trade_usd r); ("risk.min_balance_usd"%string, min_balance_usd r); ("risk.bankroll_usd"%string, bankroll_usd r)] >>>
  error_if (dltb (reserve_balance_usd r) d0) (invalid "risk.reserve_balance_usd" "must be >= 0").

(** [models/runtime_config/validation.rs:479-572] `validate_risk_limits` *)
Definition validate_risk_limits (r : RiskConfig) : Report -> Report :=
  validate_risk_money_caps r >>>
  error_if (off_half_open (max_depth_usage_pct r) (dlit 100 0)) (invalid "risk.max_depth_usage_pct" "must be in (0, 100]") >>>
  error_if (off_half_open (max_total_exposure_pct r) (dlit 100 0)) (invalid "risk.max_total_exposure_pct" "must be in (0, 100]") >>>
  error_if (gtb (max_single_bet_usd r) d0 && gtb (min_trade_usd r) (max_single_bet_usd r))
    (InfeasibleRange "risk.min_trade_usd" (min_trade_usd r) "risk.max_single_bet_usd" (max_single_bet_usd r)) >>>
  error_if (gtb (max_hourly_loss_usd r) (max_daily_loss_usd r))
    (InfeasibleRange "risk.max_hourly_loss_usd" (max_hourly_loss_usd r) "risk.max_daily_loss_usd" (max_daily_loss_usd r)) >>>
  error_if (gtb (max_daily_loss_usd r) (max_weekly_loss_usd r))
    (InfeasibleRange "risk.max_daily_loss_usd" (max_daily_loss_usd r) "risk.max_weekly_loss_usd" (max_weekly_loss_usd r)) >>>
  each (fun '(_, v) => dleb v d0) (fun '(f, _) => invalid f "must be > 0")
    [("risk.max_hourly_fee_spend_usd"%string, max_hourly_fee_spend_usd r); ("risk.max_daily_fee_spend_usd"%string, max_daily_fee_spend_usd r)] >>>
  error_if (gtb (max_hourly_fee_spend_usd r) (max_daily_fee_spend_usd r))
    (InfeasibleRange "risk.max_hourly_fee_spend_usd" (max_hourly_fee_spend_usd r) "risk.max_daily_fee_spend_usd" (max_daily_fee_spend_usd r)) >>>
  error_if (gtb (max_single_bet_usd r) d0 && gtb (max_single_market_exposure_usd r) d0 && gtb (max_single_bet_usd r) (max_single_market_exposure_usd r))
    (InfeasibleRange "risk.max_single_bet_usd" (max_single_bet_usd r) "risk.max_single_market_exposure_usd" (max_single_market_exposure_usd r)) >>>
  error_if (gtb (max_single_market_exposure_usd r) d0 && gtb (max_total_exposure_usd r) d0
            && gtb (max_single_market_exposure_usd r) (max_total_exposure_usd r))
    (InfeasibleRange "risk.max_single_market_exposure_usd" (max_single_market_exposure_usd r) "risk.max_total_exposure_usd" (max_total_exposure_usd r)) >>>
  error_if (geb (reserve_balance_usd r) (bankroll_usd r) && gtb (bankroll_usd r) d0)
    (InfeasibleRange "risk.reserve_balance_usd" (reserve_balance_usd r) "risk.bankroll_usd" (bankroll_usd r)).

(** [models/runtime_config/validation.rs:575-615] `validate_risk_sizing` *)
Definition validate_risk_sizing (r : RiskConfig) : Report -> Report :=
  let k := kelly_fraction r in
  let guards := kelly r in
  error_if (off_half_open k d1) (InvalidKellyFraction k) >>>
  warn_if (negb (off_half_open k d1) && gtb k (dlit 5 1)) (LargeKellyFraction k) >>>
  error_if (off_half_open (max_kelly guards) d1) (invalid "risk.kelly.max_kelly" "must be in (0, 1]") >>>
  error_if (dltb (min_edge_bps guards) d0 || gtb (min_edge_bps guards) (dlit 10000 0))
    (invalid "risk.kelly.min_edge_bps" "must be in [0, 10000] basis points") >>>
  error_if (off_unit (min_probability_confidence guards)) (invalid "risk.kelly.min_probability_confidence" "must be in [0, 1]") >>>
  error_if ((min_calibration_samples guards =? 0) || (max_probability_staleness_secs guards =? 0))
    (invalid "risk.kelly" "min_calibration_samples and max_probability_staleness_secs must be >= 1").

(** [models/runtime_config/validation.rs:718-752] `validate_circuit_breaker` *)
Definition validate_circuit_breaker (cb : CircuitBreakerConfig) : Report -> Report :=
  each (fun '(_, v) => v =? 0) (fun '(f, _) => invalid f "must be > 0")
    [("risk.circuit_breaker.l1_cooldown_secs"%string, l1_cooldown_secs cb); ("risk.circuit_breaker.l2_cooldown_secs"%string, l2_cooldown_secs cb);
     ("risk.circuit_breaker.l3_cooldown_secs"%string, l3_cooldown_secs cb); ("risk.circuit_breaker.l4_cooldown_secs"%string, l4_cooldown_secs cb);
     ("risk.circuit_breaker.recovery_observation_secs"%string, recovery_observation_secs cb);
     ("risk.circuit_breaker.max_cooldown_secs"%string, cb_max_cooldown_secs cb)] >>>
  error_if (half_open_probes cb =? 0)
    (invalid "risk.circuit_breaker.half_open_probes" "must be >= 1 (the recovery FSM needs at least one probe)") >>>
  error_if (cb_max_cooldown_secs cb <? l2_cooldown_secs cb)
    (invalid "risk.circuit_breaker.max_cooldown_secs" "must be >= l2_cooldown_secs (it caps the L2 exponential back-off)").

(** [models/runtime_config/validation.rs:617-714] `validate_risk_operations` *)
Definition validate_risk_operations (r : RiskConfig) : Report -> Report :=
  error_if (dleb (daily_budget_usd r) d0) (invalid "risk.daily_budget_usd" "must be > 0") >>>
  error_if (metrics_refresh_interval_secs r =? 0) (invalid "risk.metrics_refresh_interval_secs" "must be > 0") >>>
  error_if (max_metrics_staleness_secs r <? metrics_refresh_interval_secs r)
    (invalid "risk.max_metrics_staleness_secs" "must be >= risk.metrics_refresh_interval_secs") >>>
  error_if ((reconciliation_interval_secs r =? 0) || (reservation_gc_interval_secs r =? 0))
    (invalid "risk" "reconciliation_interval_secs and reservation_gc_interval_secs must be > 0") >>>
  error_if (dltb (reconciliation_tolerance_usd r) d0) (invalid "risk.reconciliation_tolerance_usd" "must be >= 0") >>>
  (let zero := (base_cooldown_secs r =? 0) || (max_cooldown_secs r =? 0) in
   error_if zero (invalid "risk" "base_cooldown_secs and max_cooldown_secs must be > 0") >>>
   error_if (negb zero && (max_cooldown_secs r <? base_cooldown_secs r)) (invalid "risk.base_cooldown_secs" "must be <= risk.max_cooldown_secs")) >>>
  error_if (dltb (cfg_cooldown_multiplier r) d1) (invalid "risk.cooldown_multiplier" "must be >= 1") >>>
  error_if (off_unit (api_error_rate_threshold r)) (invalid "risk.api_error_rate_threshold" "must be in [0, 1]") >>>
  error_if ((cfg_max_open_positions r =? 0) || (max_concurrent_directional r =? 0) || (daily_directional_budget r =? 0)
            || (max_consecutive_misses r =? 0) || (heartbeat_max_failures r =? 0) || (reservation_ttl_secs r =? 0)
            || (ws_disconnect_threshold_secs r =? 0) || (potential_loss_escalation_secs r =? 0))
    (invalid "risk" "position/counter/threshold limits (max_open_positions, max_concurrent_directional, daily_directional_budget, max_consecutive_misses, heartbeat_max_failures, reservation_ttl_secs, ws_disconnect_threshold_secs, potential_loss_escalation_secs) must be >= 1") >>>
  validate_circuit_breaker (circuit_breaker r) >>>
  error_if (off_half_open (cfg_max_drawdown_pct (drawdown r)) (dlit 100 0)) (invalid "risk.drawdown.max_drawdown_pct" "must be in (0, 100]") >>>
  error_if (off_half_open (drawdown_reduction_factor (drawdown r)) d1)
    (invalid "risk.drawdown.drawdown_reduction_factor" "must be in (0, 1]").

(** [token.is_empty() || !token.chars().all(|c| c.is_ascii_digit())] *)
Definition not_a_token_id (token : string) : bool :=
  str_is_empty token || negb (forallb is_ascii_digit (list_ascii_of_string token)).

(** [models/runtime_config/validation.rs:756-786] `validate_risk_blacklist` *)
Definition validate_risk_blacklist (r : RiskConfig) : Report -> Report :=
  error_if (market_miss_blacklist_count r =? 0)
    (invalid "risk.market_miss_blacklist_count" "must be >= 1 (zero would auto-blacklist every market instantly)") >>>
  error_if (market_miss_blacklist_duration_secs r =? 0) (invalid "risk.market_miss_blacklist_duration_secs" "must be > 0") >>>
  each (fun m => negb (is_condition_id (trim m))) (fun m => InvalidValue "risk.permanent_blacklist_markets" (NotAConditionId m))
    (permanent_blacklist_markets r) >>>
  each (fun t => not_a_token_id (trim t)) (fun t => InvalidValue "risk.permanent_blacklist_tokens" (NotATokenId (trim t)))
    (permanent_blacklist_tokens r).

(** [models/runtime_config/validation.rs:438-443] `validate_risk` *)
Definition validate_risk (r : RiskConfig) : Report -> Report :=
  validate_risk_limits r >>> validate_risk_sizing r >>> validate_risk_operations r >>> validate_risk_blacklist r.

(** [models/runtime_config/validation.rs:788-795] `validate_notification` *)
Definition validate_notification (n : NotificationConfig) : Report -> Report :=
  error_if (alert_cooldown_secs n =? 0) (invalid "notification.alert_cooldown_secs" "must be > 0 (zero floods every channel)").

Definition validate_holder (field : string) (holder : option string) : Report -> Report :=
  match holder with Some h => validate_address field h | None => fun r => r end.

Definition validate_override (o : MarketId * RedeemClassPolicy) : Report -> Report :=
  error_if (negb (is_condition_id (trim o.1))) (InvalidValue "settlement.redeem.overrides" (NotAConditionId o.1)) >>>
  validate_holder "settlement.redeem.overrides" (policy_holder_address o.2).

(** [models/runtime_config/validation.rs:797-877] `validate_settlement` *)
Definition validate_settlement (s : SettlementRuntimeConfig) : Report -> Report :=
  let lifecycle := sr_lifecycle s in
  let redeem := sr_redeem s in
  let oracle := sr_oracle s in
  error_if (retry_interval_secs lifecycle <? 10) (invalid "settlement.lifecycle.retry_interval_secs" "must be >= 10") >>>
  error_if (max_redeem_attempts lifecycle =? 0) (invalid "settlement.lifecycle.max_redeem_attempts" "must be >= 1") >>>
  error_if (dedup_window_secs lifecycle =? 0) (invalid "settlement.lifecycle.dedup_window_secs" "must be > 0") >>>
  error_if (rp_gas_limit redeem =? 0) (invalid "settlement.redeem.gas_limit" "must be > 0") >>>
  error_if (dleb (rp_matic_usd_price redeem) d0) (invalid "settlement.redeem.matic_usd_price" "must be > 0") >>>
  validate_holder "settlement.redeem.standard.holder_address" (rp_standard redeem ≫= sp_holder_address) >>>
  validate_holder "settlement.redeem.neg_risk.holder_address" (rp_neg_risk redeem ≫= np_holder_address) >>>
  (fun r => foldl (fun r o => validate_override o r) r (map_to_list (rp_overrides redeem))) >>>
  error_if ((voting_quorum oracle =? 0) || (3 <? voting_quorum oracle))
    (invalid "settlement.oracle.voting_quorum" "must be in [1, 3] (Gamma / CTF / UMA)") >>>
  error_if (uma_timeout_secs oracle =? 0) (invalid "settlement.oracle.uma_timeout_secs" "must be > 0") >>>
  error_if (str_is_empty (trim (uma_endpoint oracle))) (invalid "settlement.oracle.uma_endpoint" "must be a non-empty URL").

(** [models/runtime_config/validation.rs:42-51] `validate_runtime_config` *)
Definition validate_runtime_config (c : RuntimeConfig) : Report :=
  (validate_market_data (c_market_data c) >>> validate_detection (c_detection c) >>> validate_execution (c_execution c) >>>
   validate_risk (c_risk c) >>> validate_settlement (c_settlement c) >>> validate_notification (c_notification c)) empty_report.

(** [models/runtime_config/validation.rs:879-900] `validate_settlement_mode` *)
Definition validate_settlement_mode (c : RuntimeConfig) (mode : ExecutionMode) : Report -> Report :=
  let redeem := sr_redeem (c_settlement c) in
  match mode with
  | Live =>
      error_if (negb (has_any_live_class redeem))
        (invalid "settlement.redeem" "Live mode requires at least one of standard or neg_risk class policy") >>>
      error_if (dleb (rp_matic_usd_price redeem) d0)
        (invalid "settlement.redeem.matic_usd_price" "Live mode requires a positive MATIC/USD price for gas accounting")
  | _ => fun r => r
  end.

Definition telegram_incomplete (n : NotificationConfig) : bool :=
  tg_enabled (telegram n) && (str_is_empty (trim (bot_token (telegram n))) || str_is_empty (trim (chat_id (telegram n)))).
Definition webhook_incomplete (n : NotificationConfig) : bool := wh_enabled (webhook n) && str_is_empty (trim (wh_url (webhook n))).

(** [models/runtime_config/validation.rs:902-934] `validate_notification_mode`, without the log line *)
Definition validate_notification_mode (c : RuntimeConfig) (mode : ExecutionMode) : Report -> Report :=
  match mode with
  | Live =>
      error_if (telegram_incomplete (c_notification c)) (invalid "notification.telegram" "enabled in Live but bot_token/chat_id is empty") >>>
      error_if (webhook_incomplete (c_notification c)) (invalid "notification.webhook.url" "enabled in Live but url is empty")
  | _ => fun r => r
  end.

(** [models/runtime_config/validation.rs:55-63] `validate_runtime_for_mode` *)
Definition validate_runtime_for_mode (c : RuntimeConfig) (mode : ExecutionMode) : Report :=
  (validate_settlement_mode c mode >>> validate_notification_mode c mode) empty_report.

(** [models/runtime_config/validation.rs:31-38] `RuntimePreflightContext` *)
Record RuntimePreflightContext := {
  pc_mode : ExecutionMode;
  reserved_total_usd : D;
  max_market_reserved_usd : D
}.

(** [models/runtime_config/validation.rs:95-121] `preflight_runtime_config` *)
Definition preflight_runtime_config (c : RuntimeConfig) (ctx : RuntimePreflightContext) : Report :=
  (error_if (dltb (max_total_exposure_usd (c_risk c)) (reserved_total_usd ctx))
     (InvalidValue "risk.max_total_exposure_usd" (BelowReserved (max_total_exposure_usd (c_risk c)) (reserved_total_usd ctx))) >>>
   error_if (dltb (max_single_market_exposure_usd (c_risk c)) (max_market_reserved_usd ctx))
     (InvalidValue "risk.max_single_market_exposure_usd"
        (BelowReserved (max_single_market_exposure_usd (c_risk c)) (max_market_reserved_usd ctx))))
  (validate_runtime_for_mode c (pc_mode ctx)).
End Validation.

(** ** What a document without errors satisfies *)

Section Valid.
Context {DO : DecimalOps}.

Definition positive (v : D) : Prop := (0 < dval v)%Q.
Definition in_unit (v : D) : Prop := (0 <= dval v <= 1)%Q.
Definition in_half_open (v : D) (hi : Q) : Prop := (0 < dval v <= hi)%Q.
Definition below (a b : D) : Prop := (dval a <= dval b)%Q.

Definition valid_market_data (md : MarketDataRuntimeConfig) : Prop :=
  Forall (fun v => v <> 0) [staleness_fresh_ms md; staleness_acceptable_ms md; staleness_stale_ms md; staleness_expired_ms md] /\
  staleness_fresh_ms md < staleness_acceptable_ms md < staleness_stale_ms md /\ staleness_stale_ms md < staleness_expired_ms md /\
  NoDup (enabled_categories md).

Definition valid_fill_probability (f : FillProbabilityConfig) : Prop :=
  in_half_open (fp_base_fill_prob f) 1 /\ in_half_open (fp_depth_penalty_threshold_pct f) 100 /\
  in_unit (fp_depth_penalty_per_pct f) /\ in_unit (fp_staleness_penalty_per_level f) /\ in_unit (fp_resolution_proximity_bonus f).

Definition valid_endgame (e : EndgameDetectionConfig) : Prop :=
  (1 # 2 < dval (ed_high_threshold e) < 1)%Q /\ (0 < dval (ed_min_profit_per_share e) < 1)%Q /\ positive (ed_max_investment_usd e) /\
  ed_settlement_window_hours e <> 0 /\ ed_min_convergence_duration_secs e <> 0 /\ in_unit (sc_min_score (ed_scorer e)) /\
  in_half_open (sc_max_depth_usage_pct (ed_scorer e)) 100 /\
  map_Forall (fun _ w => 0 <= dval w <= 10)%Q (sc_category_weights (ed_scorer e)) /\
  valid_fill_probability (ed_fill_probability e) /\
  ec_base_cooldown_secs (ed_emission_cooldown e) <> 0 /\ ec_max_capacity (ed_emission_cooldown e) <> 0 /\
  (1 <= dval (ec_max_multiplier (ed_emission_cooldown e)))%Q /\
  tc_max_idle_secs (ed_convergence_tracker e) <> 0 /\ tc_max_capacity (ed_convergence_tracker e) <> 0.

Definition valid_calibration (c : CalibrationConfig) : Prop :=
  (0 <= dval (fused_p_floor c))%Q /\ (dval (fused_p_floor c) < dval (fused_p_ceiling c))%Q /\ (dval (fused_p_ceiling c) <= 1)%Q /\
  refresh_interval_secs c <> 0 /\ min_sample_size c <> 0 /\ fusion_prior_strength c <> 0 /\
  positive (bootstrap_alpha c) /\ positive (bootstrap_beta c).

Definition valid_execution (e : ExecutionRuntimeConfig) : Prop :=
  (0 <= dval (max_validation_slippage_bps (er_timeout e)) <= 10000)%Q /\
  Forall (fun v => v <> 0) [dispatcher_timeout_ms (er_timeout e); trade_confirm_timeout_secs (er_timeout e);
    trade_confirm_poll_interval_secs (er_timeout e); min_dispatch_interval_ms (er_funnel e); coalesce_window_ms (er_coalescer e);
    max_book_to_order_ms (er_endgame_latency e); max_queue_size (er_funnel e);
    backoff_base_secs (er_reconciliation e); backoff_max_secs (er_reconciliation e); min_miss_age_secs (er_reconciliation e)] /\
  trade_confirm_poll_interval_secs (er_timeout e) <= trade_confirm_timeout_secs (er_timeout e) /\
  in_unit (dispatch_immediate_threshold (er_endgame_latency e)) /\
  backoff_base_secs (er_reconciliation e) <= backoff_max_secs (er_reconciliation e) /\
  in_half_open (min_fill_ratio (er_reconciliation e)) 1.

Definition valid_risk_limits (r : RiskConfig) : Prop :=
  Forall positive [min_depth_usd r; max_hourly_loss_usd r; max_daily_loss_usd r; max_single_loss_usd r; max_weekly_loss_usd r;
    max_total_exposure_usd r; max_single_market_exposure_usd r; max_single_bet_usd r; min_trade_usd r; min_balance_usd r; bankroll_usd r;
    max_hourly_fee_spend_usd r; max_daily_fee_spend_usd r] /\
  (0 <= dval (reserve_balance_usd r) < dval (bankroll_usd r))%Q /\
  in_half_open (max_depth_usage_pct r) 100 /\ in_half_open (max_total_exposure_pct r) 100 /\
  below (min_trade_usd r) (max_single_bet_usd r) /\ below (max_single_bet_usd r) (max_single_market_exposure_usd r) /\
  below (max_single_market_exposure_usd r) (max_total_exposure_usd r) /\
  below (max_hourly_loss_usd r) (max_daily_loss_usd r) /\ below (max_daily_loss_usd r) (max_weekly_loss_usd r) /\
  below (max_hourly_fee_spend_usd r) (max_daily_fee_spend_usd r).

Definition valid_risk_sizing (r : RiskConfig) : Prop :=
  in_half_open (kelly_fraction r) 1 /\ in_half_open (max_kelly (kelly r)) 1 /\ (0 <= dval (min_edge_bps (kelly r)) <= 10000)%Q /\
  in_unit (min_probability_confidence (kelly r)) /\ min_calibration_samples (kelly r) <> 0 /\ max_probability_staleness_secs (kelly r) <> 0.

Definition valid_breaker (cb : CircuitBreakerConfig) : Prop :=
  Forall (fun v => v <> 0) [l1_cooldown_secs cb; l2_cooldown_secs cb; l3_cooldown_secs cb; l4_cooldown_secs cb;
    recovery_observation_secs cb; cb_max_cooldown_secs cb; half_open_probes cb] /\ l2_cooldown_secs cb <= cb_max_cooldown_secs cb.

Definition valid_risk_operations (r : RiskConfig) : Prop :=
  positive (daily_budget_usd r) /\ (0 <= dval (reconciliation_tolerance_usd r))%Q /\ (1 <= dval (cfg_cooldown_multiplier r))%Q /\
  in_unit (api_error_rate_threshold r) /\
  Forall (fun v => v <> 0) [metrics_refresh_interval_secs r; reconciliation_interval_secs r; reservation_gc_interval_secs r;
    base_cooldown_secs r; max_cooldown_secs r; cfg_max_open_positions r; max_concurrent_directional r; daily_directional_budget r;
    max_consecutive_misses r; heartbeat_max_failures r; reservation_ttl_secs r; ws_disconnect_threshold_secs r; potential_loss_escalation_secs r] /\
  metrics_refresh_interval_secs r <= max_metrics_staleness_secs r /\ base_cooldown_secs r <= max_cooldown_secs r /\
  valid_breaker (circuit_breaker r) /\
  in_half_open (cfg_max_drawdown_pct (drawdown r)) 100 /\ in_half_open (drawdown_reduction_factor (drawdown r)) 1.

Definition valid_risk_blacklist (r : RiskConfig) : Prop :=
  market_miss_blacklist_count r <> 0 /\ market_miss_blacklist_duration_secs r <> 0 /\
  Forall (fun m => is_condition_id (trim m) = true) (permanent_blacklist_markets r) /\
  Forall (fun t => trim t <> ""%string /\ Forall (fun c => is_ascii_digit c = true) (list_ascii_of_string (trim t))) (permanent_blacklist_tokens r).

Definition valid_holder (h : option string) : Prop := forall a, h = Some a -> is_hex_address (trim a) = true.

Definition valid_settlement (s : SettlementRuntimeConfig) : Prop :=
  10 <= retry_interval_secs (sr_lifecycle s) /\ max_redeem_attempts (sr_lifecycle s) <> 0 /\ dedup_window_secs (sr_lifecycle s) <> 0 /\
  rp_gas_limit (sr_redeem s) <> 0 /\ positive (rp_matic_usd_price (sr_redeem s)) /\
  valid_holder (rp_standard (sr_redeem s) ≫= sp_holder_address) /\ valid_holder (rp_neg_risk (sr_redeem s) ≫= np_holder_address) /\
  map_Forall (fun m o => is_condition_id (trim m) = true /\ valid_holder (policy_holder_address o)) (rp_overrides (sr_redeem s)) /\
  voting_quorum (sr_oracle s) <> 0 /\ voting_quorum (sr_oracle s) <= 3 /\ uma_timeout_secs (sr_oracle s) <> 0 /\
  trim (uma_endpoint (sr_oracle s)) <> ""%string.

(** A valid document, section by section. *)
Record valid_config (c : RuntimeConfig) : Prop := {
  vc_market_data : valid_market_data (c_market_data c);
  vc_profit : positive (dc_min_profit_threshold_usd (c_detection c));
  vc_endgame : valid_endgame (dc_endgame (c_detection c));
  vc_calibration : valid_calibration (dc_calibration (c_detection c));
  vc_execution : valid_execution (c_execution c);
  vc_limits : valid_risk_limits (c_risk c);
  vc_sizing : valid_risk_sizing (c_risk c);
  vc_operations : valid_risk_operations (c_risk c);
  vc_blacklist : valid_risk_blacklist (c_risk c);
  vc_settlement : valid_settlement (c_settlement c);
  vc_notification : alert_cooldown_secs (c_notification c) <> 0
}.

Definition clean (r : ConfigValidationReport) : Prop := rep_errors r = [].

Lemma clean_has_errors r : has_errors r = false <-> clean r.
Proof. unfold has_errors, clean. by destruct (rep_errors r). Qed.

Lemma clean_error_if b e r : clean (error_if b e r) <-> clean r /\ b = false.
Proof.
  unfold error_if, clean. destruct b; simpl; [|naive_solver]. split; [intros [_ ?]%app_nil | intros [_ ?]]; done.
Qed.

Lemma clean_warn_if b w r : clean (warn_if b w r) <-> clean r.
Proof. by destruct b. Qed.

Lemma clean_each {A} (bad : A -> bool) e (l : list A) r : clean (each bad e l r) <-> clean r /\ Forall (fun a => bad a = false) l.
Proof.
  unfold each. revert r. induction l as [|a l IH]; intros r; simpl.
  { split; [by intros | by intros []]. }
  rewrite IH, clean_error_if, Forall_cons. tauto.
Qed.

Lemma clean_fold {A} (f : A -> ConfigValidationReport -> ConfigValidationReport) (good : A -> Prop) (l : list A) r :
  (forall a r, clean (f a r) <-> clean r /\ good a) -> clean (foldl (fun r a => f a r) r l) <-> clean r /\ Forall good l.
Proof.
  intros Hf. revert r. induction l as [|a l IH]; intros r; simpl.
  { split; [by intros | by intros []]. }
  rewrite IH, Hf, Forall_cons. tauto.
Qed.
End Valid.

Section ValidationExact.
Context {DO : DecimalOps} {DL : DecimalLaws DO}.

Lemma dval_int n : 0 <= n < 2 ^ 96 -> (dval (dlit n 0) == inject_Z n)%Q.
Proof. intros Hn. rewrite dlit_spec by lia. by unfold grid, Qeq. Qed.

Lemma off_unit_false v : off_unit v = false <-> in_unit v.
Proof. unfold off_unit, gtb, in_unit. rewrite orb_false_iff, !dltb_ge, dval_d0, dval_d1. done. Qed.

Lemma off_half_open_unit v : off_half_open v d1 = false <-> in_half_open v 1.
Proof. unfold off_half_open, gtb, in_half_open. rewrite orb_false_iff, dleb_gt, dltb_ge, dval_d0, dval_d1. done. Qed.

Lemma off_half_open_pct v : off_half_open v (dlit 100 0) = false <-> in_half_open v 100.
Proof. unfold off_half_open, gtb, in_half_open. rewrite orb_false_iff, dleb_gt, dltb_ge, dval_d0, dval_int by lia. done. Qed.

Lemma not_positive_false v : dleb v d0 = false <-> positive v.
Proof. unfold positive. by rewrite dleb_gt, dval_d0. Qed.

Lemma negative_false v : dltb v d0 = false <-> (0 <= dval v)%Q.
Proof. by rewrite dltb_ge, dval_d0. Qed.

Lemma above_false a b : gtb a b = false <-> below a b.
Proof. apply dltb_ge. Qed.

Lemma off_bps_false v : dltb v d0 || gtb v (dlit 10000 0) = false <-> (0 <= dval v <= 10000)%Q.
Proof. unfold gtb. rewrite orb_false_iff, !dltb_ge, dval_d0, dval_int by lia. done. Qed.

Lemma below_one_false v : dltb v d1 = false <-> (1 <= dval v)%Q.
Proof. by rewrite dltb_ge, dval_d1. Qed.

(** A report step is clean when its condition is off. *)
#[local] Ltac report :=
  unfold seq_report; repeat first [rewrite clean_each | rewrite clean_error_if | rewrite clean_warn_if];
  rewrite ?Forall_cons, ?Forall_nil, ?off_bps_false;
  rewrite ?orb_false_iff, ?Z.eqb_neq, ?Z.ltb_ge, ?Z.leb_gt, ?off_unit_false, ?off_half_open_unit, ?off_half_open_pct,
    ?not_positive_false, ?negative_false, ?above_false, ?below_one_false.

Lemma duplicates_nil l : forall seen, duplicates seen l = [] <-> NoDup l /\ Forall (fun c => c ∉ seen) l.
Proof.
  induction l as [|c l IH]; intros seen; simpl.
  { split; [|done]. intros _. split; constructor. }
  rewrite NoDup_cons, Forall_cons. case_bool_decide as Hc; [split; [done | tauto]|].
  rewrite IH. setoid_rewrite not_elem_of_cons. rewrite !Forall_forall. set_solver.
Qed.

Lemma each_always {A} e (l : list A) r : clean (each (fun _ => true) e l r) <-> clean r /\ l = [].
Proof.
  rewrite clean_each. split; intros [Hr Hl]; (split; [done|]); [|by subst]. destruct l; [done|]. by apply Forall_cons in Hl as [? _].
Qed.

Lemma clean_market_data md r : clean (validate_market_data md r) <-> clean r /\ valid_market_data md.
Proof.
  unfold validate_market_data, valid_market_data, staleness_ladder. simpl. unfold seq_report. rewrite each_always, duplicates_nil.
  report. assert (Forall (fun c : MarketCategory => c ∉ []) (enabled_categories md)) by (apply Forall_forall; set_solver). tauto.
Qed.

Lemma clean_fill f r : clean (validate_fill_probability f r) <-> clean r /\ valid_fill_probability f.
Proof. unfold validate_fill_probability, valid_fill_probability. report. tauto. Qed.

Lemma weights_false (m : gmap MarketCategory D) :
  Forall (fun w => dltb w d0 || gtb w (dlit 10 0) = false) (map_to_list m).*2 <-> map_Forall (fun _ w => 0 <= dval w <= 10)%Q m.
Proof.
  rewrite map_Forall_to_list, Forall_fmap, !Forall_forall.
  assert (forall w, dltb w d0 || gtb w (dlit 10 0) = false <-> (0 <= dval w <= 10)%Q) as Hw.
  { intros w. unfold gtb. rewrite orb_false_iff, !dltb_ge, dval_d0, dval_int by lia. done. }
  split; intros H [k w] Hin; apply Hw, (H (k, w) Hin).
Qed.

Lemma open_interval_false v lo hi : dleb v lo || geb v hi = false <-> (dval lo < dval v < dval hi)%Q.
Proof. unfold geb. by rewrite orb_false_iff, !dleb_gt. Qed.

Lemma clean_endgame e r : clean (validate_detection_endgame e r) <-> clean r /\ valid_endgame e.
Proof.
  unfold validate_detection_endgame, valid_endgame. unfold seq_report.
  rewrite !clean_error_if, clean_fill, clean_each, weights_false, !clean_error_if, !open_interval_false, dval_d0, dval_d1.
  assert (dval (dlit 5 1) == 1 # 2)%Q as -> by (rewrite dlit_spec by lia; done). report. tauto.
Qed.

Lemma clean_calibration c r : clean (validate_detection_calibration c r) <-> clean r /\ valid_calibration c.
Proof.
  unfold validate_detection_calibration, valid_calibration, geb. report. unfold below. rewrite dleb_gt, dval_d1. tauto.
Qed.

Lemma clean_execution e r : clean (validate_execution e r) <-> clean r /\ valid_execution e.
Proof. unfold validate_execution, valid_execution. cbv zeta. report. tauto. Qed.

Lemma clean_limits l r : clean (validate_risk_limits l r) <-> clean r /\ valid_risk_limits l.
Proof.
  unfold validate_risk_limits, validate_risk_money_caps, valid_risk_limits, geb. report.
  rewrite !andb_false_iff, !above_false, dleb_gt. unfold below, positive, in_half_open. rewrite !dval_d0.
  split; [|intros H; decompose [and] H; clear H; split_and!; try done; tauto].
  intros H. decompose [and] H. clear H.
  assert (forall a b : D, (0 < dval a)%Q -> ((dval a <= 0)%Q \/ (dval b <= dval a)%Q) -> (dval b <= dval a)%Q) as Hd by (intros; lra).
  split_and!; try done; lra.
Qed.

Lemma clean_sizing s r : clean (validate_risk_sizing s r) <-> clean r /\ valid_risk_sizing s.
Proof. unfold validate_risk_sizing, valid_risk_sizing. cbv zeta. report. tauto. Qed.

Lemma clean_breaker cb r : clean (validate_circuit_breaker cb r) <-> clean r /\ valid_breaker cb.
Proof. unfold validate_circuit_breaker, valid_breaker. report. tauto. Qed.

Lemma clean_operations o r : clean (validate_risk_operations o r) <-> clean r /\ valid_risk_operations o.
Proof.
  unfold validate_risk_operations, valid_risk_operations. unfold seq_report. cbv zeta. rewrite !clean_error_if, clean_breaker.
  report. rewrite andb_false_iff, negb_false_iff, orb_true_iff, !Z.eqb_eq, Z.ltb_ge. tauto.
Qed.

Lemma token_id_false t : not_a_token_id t = false <-> t <> ""%string /\ Forall (fun c => is_ascii_digit c = true) (list_ascii_of_string t).
Proof.
  unfold not_a_token_id. rewrite orb_false_iff, negb_false_iff, forallb_forall.
  assert (str_is_empty t = false <-> t <> ""%string) as -> by (destruct t; simpl; split; done || by intros []).
  by setoid_rewrite Forall_forall; setoid_rewrite list_elem_of_In.
Qed.

Lemma clean_blacklist b r : clean (validate_risk_blacklist b r) <-> clean r /\ valid_risk_blacklist b.
Proof.
  unfold validate_risk_blacklist, valid_risk_blacklist. report.
  rewrite (Forall_iff _ _ (fun m => is_condition_id (trim m) = true) (fun m => negb_false_iff (is_condition_id (trim m)))).
  rewrite (Forall_iff _ _ _ (fun t => token_id_false (trim t))). tauto.
Qed.

Lemma clean_holder f h r : clean (validate_holder f h r) <-> clean r /\ valid_holder h.
Proof.
  unfold validate_holder, valid_holder, validate_address. destruct h as [a|]; [|naive_solver].
  rewrite clean_error_if, negb_false_iff. naive_solver.
Qed.

Lemma clean_override o r : clean (validate_override o r) <->
  clean r /\ is_condition_id (trim o.1) = true /\ valid_holder (policy_holder_address o.2).
Proof. unfold validate_override, seq_report. rewrite clean_holder, clean_error_if, negb_false_iff. tauto. Qed.

Lemma clean_settlement s r : clean (validate_settlement s r) <-> clean r /\ valid_settlement s.
Proof.
  unfold validate_settlement, valid_settlement. cbv zeta. unfold seq_report.
  rewrite !clean_error_if. rewrite (clean_fold validate_override _ _ _ clean_override), !clean_holder. report.
  rewrite map_Forall_to_list.
  assert (forall t, str_is_empty t = false <-> t <> ""%string) as -> by (intros [|]; simpl; split; done).
  assert (forall l, Forall (fun a : MarketId * RedeemClassPolicy => is_condition_id (trim a.1) = true /\ valid_holder (policy_holder_address a.2)) l <->
    Forall (uncurry (fun m o => is_condition_id (trim m) = true /\ valid_holder (policy_holder_address o))) l) as Ho
    by (intros l; apply Forall_iff; by intros []).
  rewrite Ho. tauto.
Qed.

Lemma clean_config (c : RuntimeConfig) : clean (validate_runtime_config c) <-> valid_config c.
Proof.
  unfold validate_runtime_config, validate_detection, validate_risk, validate_notification, seq_report.
  rewrite clean_error_if, clean_settlement, clean_blacklist, clean_operations, clean_sizing, clean_limits, clean_execution,
    clean_calibration, clean_endgame, clean_error_if, clean_market_data, not_positive_false, Z.eqb_neq.
  split; [intros H; decompose [and] H; by split | by intros []].
Qed.

(** C20: Validation is exact.  A document passes without an error exactly when every section is
    valid: the staleness ladder increases strictly, every money cap is positive and the caps nest
    (trade within bet within market within total, hour within day within week), probabilities and
    percentages are in range, every counter and interval is set, and identifiers are well formed
    once surrounding white space is cut off. *)
Theorem validation_exact (c : RuntimeConfig) : has_errors (validate_runtime_config c) = false <-> valid_config c.
Proof. rewrite clean_has_errors. apply clean_config. Qed.
End ValidationExact.
