(* ===== verification/ConfigSafety.v ===== *)
(** * What validation gives the components

    A document that passes validation meets the conditions under which the components behave as
    intended, and what validation does not see: identifiers are compared with white space cut off
    when they are validated, and as they are when they are used. *)

From Stdlib Require Import Ascii String.
From S2P Require Import Prelude Text Decimal Micro Domain RiskTypes CircuitBreaker Blacklist Drawdown Sizing Fees FactorModel.
From S2P Require Import Book Calibration Detector RuntimeConfig Config.

Section Sane.
Context {DO : DecimalOps} {DL : DecimalLaws DO}.

(** ** Conversions keep the order *)

Lemma try_from_decimal_floor d v : try_from_decimal d = Ok v ->
  (0 <= dval (dmul d (dof_Z MICRO_SCALE)))%Q /\ v = Qround.Qfloor (dval (dmul d (dof_Z MICRO_SCALE))) /\ 0 <= v.
Proof.
  unfold try_from_decimal. set (s := dmul d (dof_Z MICRO_SCALE)). destruct (dsign_neg s) eqn:Es; [done|].
  destruct (Qlt_le_dec (dval s) 0) as [Hn|Hp]; [by rewrite dsign_neg_neg in Es|].
  rewrite (dto_Z_spec _ _ (dtrunc_spec s Hp)). unfold to_i64, checked. destruct (_ && _); [|done].
  destruct (Z.leb_spec 0 (Qround.Qfloor (dval s))); [|done]. by intros [= <-].
Qed.

Lemma scaled_mono a b : (dval a <= dval b)%Q -> (dval (dmul a (dof_Z MICRO_SCALE)) <= dval (dmul b (dof_Z MICRO_SCALE)))%Q.
Proof.
  intros H. rewrite !dmul_spec. apply rnd_mono. rewrite dof_Z_spec by (unfold MICRO_SCALE; lia).
  apply Qmult_le_compat_r; [done|]. unfold MICRO_SCALE, Qle. simpl. lia.
Qed.

Lemma scaled_one : (dval (dmul d1 (dof_Z MICRO_SCALE)) == inject_Z MICRO_SCALE)%Q.
Proof.
  rewrite dmul_spec, dval_d1, dof_Z_spec by (unfold MICRO_SCALE; lia). rewrite Qmult_1_l.
  apply rnd_repr. eapply repr_ext; [|apply (repr_val (dof_Z MICRO_SCALE))]. by rewrite dof_Z_spec by (unfold MICRO_SCALE; lia).
Qed.

(** The configured bounds of the fused probability become ordered micro-probabilities. *)
Lemma fusion_bounds (c : CalibrationConfig) : valid_calibration c ->
  0 <= cf_p_floor (new_fusion c) <= cf_p_ceiling (new_fusion c) /\ cf_p_ceiling (new_fusion c) <= MICRO_SCALE.
Proof.
  intros (Hf & Hfc & Hc & _). unfold new_fusion. simpl.
  assert (forall d v, (dval d <= 1)%Q -> try_from_decimal d = Ok v -> 0 <= v <= MICRO_SCALE) as Hle.
  { intros d v Hd (Hp & -> & Hv)%try_from_decimal_floor. split; [done|]. rewrite <- (Qround.Qfloor_Z MICRO_SCALE).
    apply Qround.Qfloor_resp_le.
    eapply Qle_trans; [apply (scaled_mono d d1); by rewrite dval_d1 | rewrite scaled_one; apply Qle_refl]. }
  destruct (try_from_decimal (fused_p_floor c)) as [f|] eqn:Ef, (try_from_decimal (fused_p_ceiling c)) as [k|] eqn:Ek; simpl.
  - pose proof (Hle _ _ Hc Ek). apply try_from_decimal_floor in Ef as (_ & -> & ?), Ek as (_ & -> & _).
    split; [split; [done|]|tauto]. apply Qround.Qfloor_resp_le, scaled_mono. lra.
  - assert (dval (fused_p_floor c) <= 1)%Q by lra. pose proof (Hle _ _ H Ef). lia.
  - pose proof (Hle _ _ Hc Ek). lia.
  - unfold MICRO_SCALE. lia.
Qed.

Lemma cents_mono a b : (0 <= dval a)%Q -> (dval a <= dval b)%Q -> usd_decimal_to_cents a <= usd_decimal_to_cents b.
Proof.
  intros Ha Hab. unfold usd_decimal_to_cents.
  assert (forall d, dto_Z (dceil (dmul d (dlit 100 0))) = Qround.Qceiling (dval (dmul d (dlit 100 0)))) as E
    by (intros; by apply dto_Z_spec, dceil_spec).
  rewrite !E. assert (dval (dmul a (dlit 100 0)) <= dval (dmul b (dlit 100 0)))%Q as Hm.
  { rewrite !dmul_spec. apply rnd_mono. rewrite dval_int by lia. apply Qmult_le_compat_r; [done|]. unfold Qle. simpl. lia. }
  apply Qround.Qceiling_resp_le in Hm.
  assert (0 <= Qround.Qceiling (dval (dmul a (dlit 100 0)))) as Hp.
  { change 0 with (Qround.Qceiling 0). apply Qround.Qceiling_resp_le. apply dmul_nonneg; [done|]. rewrite dval_int by lia. done. }
  unfold to_u64. revert Hm Hp. generalize (Qround.Qceiling (dval (dmul a (dlit 100 0)))) as x, (Qround.Qceiling (dval (dmul b (dlit 100 0)))) as y.
  intros x y Hm Hp.
  destruct (Z.le_gt_cases y u64_max).
  - rewrite !checked_in by lia. exact Hm.
  - rewrite (checked_out 0 u64_max y) by lia. simpl. unfold checked. destruct (_ && _) eqn:E1; simpl; zbool; lia.
Qed.

(** ** The components of a valid document *)

(** The integers of a document fit their types, and durations the clock. *)
Record machine_sized (c : RuntimeConfig) : Prop := {
  ms_unsigned : Forall (fun v => 0 <= v)
    [staleness_fresh_ms (c_market_data c); ed_settlement_window_hours (dc_endgame (c_detection c));
     ec_base_cooldown_secs (ed_emission_cooldown (dc_endgame (c_detection c))); min_sample_size (dc_calibration (c_detection c));
     l1_cooldown_secs (circuit_breaker (c_risk c)); l2_cooldown_secs (circuit_breaker (c_risk c));
     l3_cooldown_secs (circuit_breaker (c_risk c)); l4_cooldown_secs (circuit_breaker (c_risk c));
     half_open_probes (circuit_breaker (c_risk c)); recovery_observation_secs (circuit_breaker (c_risk c));
     cb_max_cooldown_secs (circuit_breaker (c_risk c))];
  ms_probes : half_open_probes (circuit_breaker (c_risk c)) <= u32_max;
  ms_durations : recovery_observation_secs (circuit_breaker (c_risk c)) <= i64_max / 1000
    /\ cb_max_cooldown_secs (circuit_breaker (c_risk c)) <= i64_max / 1000
}.

(** What the components need of their sections. *)
Record components_sane (c : RuntimeConfig) : Prop := {
  sane_ladder : let t := staleness_thresholds (c_market_data c) in
    classify_staleness t 0 = Fresh /\ classify_staleness t (th_acceptable t) = Acceptable /\ classify_staleness t (th_stale t) = Stale
    /\ classify_staleness t (th_expired t) = Expired;
  sane_calibration : config_ok (dc_calibration (c_detection c));
  sane_fusion : forall p_calibrator p_realtime n,
    0 <= fuse (new_fusion (dc_calibration (c_detection c))) p_calibrator p_realtime n <= MICRO_SCALE;
  sane_urgency : forall hours, 0 < ed_settlement_window_hours (dc_endgame (c_detection c)) /\
    urgency hours (ed_settlement_window_hours (dc_endgame (c_detection c))) <= 3 * MICRO_SCALE;
  sane_cooldown : forall hits, let p := cooldown_params (ed_emission_cooldown (dc_endgame (c_detection c))) in
    0 < cp_base_cooldown_secs p /\ (0 <= hits -> (1 <= effective_multiplier hits (cp_max_multiplier p))%Q);
  sane_breaker : config_wf (circuit_breaker (c_risk c)) /\ 1 <= half_open_probes (circuit_breaker (c_risk c));
  sane_kelly : kelly_wf (kelly_new (c_risk c));
  sane_drawdown : forall equity,
    guard_wf (guard_new equity (cfg_max_drawdown_pct (drawdown (c_risk c))) (drawdown_reduction_factor (drawdown (c_risk c))));
  sane_reservations : let r := exposure_reservation_config (c_risk c) in max_per_market_cents r <= max_total_exposure_cents r
}.

Lemma multiplier_at_least_one hits cap : (1 <= dval cap)%Q -> 0 <= hits -> (1 <= effective_multiplier hits cap)%Q.
Proof.
  intros Hc Hh. unfold effective_multiplier. case_match; [|done].
  assert (0 < 2 ^ Z.min hits 30) by (apply Z.pow_pos_nonneg; lia). unfold Qle, inject_Z. simpl. lia.
Qed.

Lemma ladder_reached t : 0 <= th_fresh t -> th_fresh t < th_acceptable t < th_stale t -> th_stale t < th_expired t ->
  classify_staleness t 0 = Fresh /\ classify_staleness t (th_acceptable t) = Acceptable /\ classify_staleness t (th_stale t) = Stale
  /\ classify_staleness t (th_expired t) = Expired.
Proof. intros. unfold classify_staleness. repeat split; repeat case_match; zbool; done || lia. Qed.

(** A validated document gives every component what it needs: each staleness level is reachable,
    calibration priors are proper, fused probabilities stay probabilities, the urgency window and
    the emission cooldown are positive and the cooldown never shrinks, the breaker can recover, the
    Kelly and drawdown parameters are well formed, and no market may reserve more than the total. *)
Theorem validated_components_sane (c : RuntimeConfig) :
  has_errors (validate_runtime_config c) = false -> machine_sized c -> components_sane c.
Proof.
  rewrite clean_has_errors, clean_config. intros [Hmd _ He Hc _ Hl Hs Ho _ _ _] [Hu Hp [Hd1 Hd2]].
  rewrite !Forall_cons in Hu. destruct Hmd as (_ & Hm1 & Hm2 & _). destruct Ho as (_ & _ & _ & _ & _ & _ & _ & (Hb & Hb2) & Hdd & Hdf).
  rewrite !Forall_cons in Hb. destruct He as (_ & _ & _ & Hwin & _ & _ & _ & _ & _ & Hbase & _ & Hmul & _).
  pose proof (fusion_bounds _ Hc) as [Hf1 Hf2]. destruct Hc as (_ & _ & _ & _ & Hms & _ & Hba & Hbb).
  destruct Hl as (Hpos & _ & _ & _ & _ & _ & Hmt & _). rewrite !Forall_cons in Hpos. unfold positive, in_half_open, below in *.
  decompose [and] Hu. decompose [and] Hb. split.
  - by apply ladder_reached.
  - split; [lia|]. split; [split; lra | by left].
  - intros. pose proof (fuse_range (new_fusion (dc_calibration (c_detection c))) p_calibrator p_realtime n Hf1 Hf2). lia.
  - intros hours. split; [lia|]. rewrite urgency_eq by lia.
    pose proof (progress_range hours (ed_settlement_window_hours (dc_endgame (c_detection c))) ltac:(lia)).
    destruct (smoothstep_mono (progress hours (ed_settlement_window_hours (dc_endgame (c_detection c))))
                (progress hours (ed_settlement_window_hours (dc_endgame (c_detection c))))); lia.
  - intros hits. simpl. split; [lia|]. by apply multiplier_at_least_one.
  - unfold config_wf. lia.
  - destruct Hs as ((Hk & _) & (Hm & _) & _). split; simpl; lra.
  - intros equity. split; simpl; [tauto | lra].
  - simpl. apply cents_mono; [|done]. decompose [and] Hpos. lra.
Qed.
End Sane.

(** ** Identifiers with white space around them *)

Module PaddedDemo.

Definition zeros : string := "0000000000000000000000000000000000000000000000000000000000000000".
Definition market : MarketId := ("0x" ++ zeros)%string.
Definition padded : string := (" 0x" ++ zeros)%string.

Definition with_blacklist (r : RiskConfig (DO := ExactQ.exactQ)) (markets : list string) : RiskConfig (DO := ExactQ.exactQ) :=
  Build_RiskConfig (min_depth_usd r) (max_depth_usage_pct r) (max_consecutive_misses r) (max_hourly_loss_usd r) (max_hourly_fee_spend_usd r)
    (base_cooldown_secs r) (cfg_cooldown_multiplier r) (max_cooldown_secs r) (max_daily_loss_usd r) (max_daily_fee_spend_usd r)
    (max_single_loss_usd r) (max_weekly_loss_usd r) (daily_budget_usd r) (ws_disconnect_threshold_secs r) (min_balance_usd r)
    (market_miss_blacklist_count r) (market_miss_blacklist_duration_secs r) markets (permanent_blacklist_tokens r)
    (max_total_exposure_usd r) (reserve_balance_usd r) (cfg_max_open_positions r) (max_single_market_exposure_usd r) (max_single_bet_usd r)
    (reservation_ttl_secs r) (reservation_gc_interval_secs r) (max_total_exposure_pct r) (metrics_refresh_interval_secs r)
    (max_metrics_staleness_secs r) (reconciliation_interval_secs r) (reconciliation_tolerance_usd r) (circuit_breaker r) (kelly_fraction r)
    (bankroll_usd r) (min_trade_usd r) (kelly r) (drawdown r) (api_error_rate_threshold r) (heartbeat_max_failures r)
    (potential_loss_escalation_secs r) (max_concurrent_directional r) (daily_directional_budget r).

Definition config (markets : list string) : RuntimeConfig (DO := ExactQ.exactQ) :=
  let c := runtime_config_default in {|
    schema_version := schema_version c; c_market_data := c_market_data c; c_detection := c_detection c; c_execution := c_execution c;
    c_risk := with_blacklist (c_risk c) markets; c_settlement := c_settlement c; c_notification := c_notification c |}.

(** A permanent blacklist entry with a space in front of it passes validation and blocks nothing:
    validation cuts the white space off, the blacklist does not.  Without the space the same entry
    blocks the market. *)
Theorem padded_blacklist_entry_is_inert :
  has_errors (validate_runtime_config (config [padded])) = false /\ trim padded = market /\
  (check (blacklist_new (c_risk (config [padded])) 0) 0 market Full).2 = Clear /\
  (check (blacklist_new (c_risk (config [market])) 0) 0 market Full).2 = Blocked Manual Full None.
Proof. repeat split; vm_compute; reflexivity. Qed.

Lemma validated_components_sane_witness : components_sane (config [market]).
Proof.
  apply (validated_components_sane (DL := ExactQ.exactQ_laws) (config [market])); [vm_compute; reflexivity|].
  split; [repeat constructor; vm_compute; discriminate | vm_compute; discriminate | split; vm_compute; discriminate].
Defined.
End PaddedDemo.
