(* ===== verification/Positions.v ===== *)
(** * Positions: [oxide-arb-models/src/domain/trading/position.rs] and its table

    The position row with its redeem snapshot, the patches the repository applies to it, and the
    queries and updates of [oxide-arb-repository/src/postgres/trading/position.rs] on a table of
    rows.  A query returns rows in an order of its own; a failing connection is a matter of the
    caller's interface. *)

From S2P Require Import Prelude Decimal Config Domain.

(** [models/types/ids.rs] `PositionId`, like the other identifiers generated by the program *)
Abbreviation PositionId := Z.

(** [models/enums/common.rs:611-615] `PositionStatus` *)
Inductive PositionStatus := PosOpen | PosClosed | PosSettled.

(** [models/enums/common.rs:620-625] `RedeemStatus` *)
Inductive RedeemStatus := RsNotRequired | RsPending | RsCompleted | RsFailed.

(** [models/enums/common.rs:775-780] `SettlementAccountingStatus` *)
Inductive SettlementAccountingStatus := AcPending | AcRedeemed | AcAccounted | AcFailed.

(** [models/enums/common.rs:785-789] `SettlementTrigger` *)
Inductive SettlementTrigger := TrWs | TrPeriodicRetry | TrManual.

#[global] Instance PositionStatus_eq_dec : EqDecision PositionStatus.
Proof. solve_decision. Defined.
#[global] Instance RedeemStatus_eq_dec : EqDecision RedeemStatus.
Proof. solve_decision. Defined.
#[global] Instance SettlementAccountingStatus_eq_dec : EqDecision SettlementAccountingStatus.
Proof. solve_decision. Defined.

(** [models/enums/common.rs:630-635] `RedeemStatus::initial_for_mode` *)
Definition initial_for_mode (mode : ExecutionMode) : RedeemStatus :=
  match mode with DryRun | Paper => RsNotRequired | Live => RsPending end.

(** [models/enums/common.rs:638-643] `RedeemStatus::settled_for_mode` *)
Definition settled_for_mode (mode : ExecutionMode) : RedeemStatus :=
  match mode with DryRun | Paper => RsNotRequired | Live => RsCompleted end.

Section Positions.
Context {DO : DecimalOps}.

(** [models/domain/trading/position.rs:30-70] `PositionInfo`; the oracle verdict is its text *)
Record PositionInfo := {
  pos_id : PositionId;
  pos_trade_id : TradeId;
  pos_market_id : MarketId;
  pos_token_id : TokenId;
  pos_side : Side;
  pos_execution_mode : ExecutionMode;
  pos_shares : D;
  pos_avg_entry_price : D;
  pos_total_cost_usd : D;
  pos_total_fees_usd : D;
  pos_unrealized_pnl : D;
  pos_realized_pnl : D;
  pos_status : PositionStatus;
  pos_opened_at : Time;
  pos_closed_at : option Time;
  pos_settled_at : option Time;
  pos_winning_token_id : option TokenId;
  pos_settlement_payout_usd : option D;
  pos_redeem_tx_hash : option string;
  pos_redeem_status : RedeemStatus;
  pos_redeem_attempts : Z;
  pos_oracle_verdict : option string;
  pos_settlement_trigger : option SettlementTrigger;
  pos_accounting_status : SettlementAccountingStatus;
  pos_accounting_error : option string;
  pos_accounted_at : option Time;
  pos_redeem_terminal_reason : option string;
  pos_redeem_neg_risk : bool;
  pos_redeem_route : string;
  pos_redeem_holder_address : option string;
  pos_redeem_resolution : RedeemResolutionSource;
  pos_redeem_gas_limit : Z;
  pos_redeem_gas_paid_usd : option D
}.

(** [error/redeem.rs:4-26] `RedeemError` *)
Inductive RedeemError :=
| ReInvalidAddress (value reason : string)
| ReInvalidConditionId (value reason : string)
| ReUnsupportedRoute (route reason : string)
| ReWrongHolder (holder signer : string)
| ReRpcTimeout (message : string)
| ReInsufficientGas (message : string)
| ReContractRevert (message : string)
| ReAlreadyRedeemed (message : string)
| ReTransactionFailed (tx_hash : option string) (reason : string).

(** [error/redeem.rs:59-61] `RedeemError::is_retryable` *)
Definition is_retryable (e : RedeemError) : bool :=
  match e with ReRpcTimeout _ | ReInsufficientGas _ => true | _ => false end.

(** [error/redeem.rs:64-69] `RedeemError::is_configuration_error` *)
Definition is_configuration_error (e : RedeemError) : bool :=
  match e with ReInvalidAddress _ _ | ReUnsupportedRoute _ _ | ReWrongHolder _ _ => true | _ => false end.

(** [error/redeem.rs:72-74] `RedeemError::is_terminal_success_equivalent` *)
Definition is_terminal_success_equivalent (e : RedeemError) : bool :=
  match e with ReAlreadyRedeemed _ => true | _ => false end.

(** [models/domain/trading/position.rs:86-106] `PositionInfo::redeem_plan`; the formatted number is left out *)
Definition redeem_plan (p : PositionInfo) : Result ResolvedRedeemPlan RedeemError :=
  match route_from_str (pos_redeem_route p) with
  | Err _ => Err (ReUnsupportedRoute (pos_redeem_route p) "unknown snapshotted redeem route")
  | Ok route =>
      match to_u64 (pos_redeem_gas_limit p) with
      | None => Err (ReUnsupportedRoute (pos_redeem_route p) "invalid snapshotted gas_limit")
      | Some gas_limit =>
          Ok {| plan_route := route; plan_holder_address := pos_redeem_holder_address p; plan_neg_risk := pos_redeem_neg_risk p;
                plan_gas_limit := gas_limit; plan_resolution := pos_redeem_resolution p |}
      end
  end.

(** [models/domain/trading/position.rs:111-119] `PositionInfo::redeem_snapshot_needs_backfill` *)
Definition redeem_snapshot_needs_backfill (p : PositionInfo) : bool :=
  match redeem_plan p with
  | Err _ => true
  | Ok plan => negb (Bool.eqb (plan_neg_risk plan) (pos_redeem_neg_risk p))
               || negb (Bool.eqb (route_expects_neg_risk (plan_route plan)) (pos_redeem_neg_risk p))
  end.

(** [models/domain/trading/position.rs:124-127] `PositionRedeemSnapshot` *)
Record PositionRedeemSnapshot := { rs_neg_risk : bool; rs_plan : ResolvedRedeemPlan }.

(** [models/domain/trading/position.rs:131-133] `PositionRedeemSnapshot::from_plan` *)
Definition snapshot_from_plan (neg_risk : bool) (plan : ResolvedRedeemPlan) : PositionRedeemSnapshot := {|
  rs_neg_risk := neg_risk; rs_plan := plan |}.

(** ** Patches *)

(** [models/domain/trading/position.rs:205-227] `PositionPatch`: the columns a patch sets; a nullable
    column is set to a value or cleared.  The redeem columns of a snapshot are set together. *)
Inductive PatchColumn :=
| SetStatus (s : PositionStatus)
| SetRealizedPnl (v : D)
| SetClosedAt (t : option Time)
| SetSettledAt (t : option Time)
| SetWinningToken (t : option TokenId)
| SetPayout (v : option D)
| SetTxHash (h : option string)
| SetRedeemStatus (s : RedeemStatus)
| SetAttempts (n : Z)
| SetVerdict (v : option string)
| SetTrigger (t : option SettlementTrigger)
| SetAccounting (s : SettlementAccountingStatus)
| SetAccountingError (e : option string)
| SetAccountedAt (t : option Time)
| SetTerminalReason (r : option string)
| SetGasPaid (v : option D)
| SetSnapshot (s : PositionRedeemSnapshot).

Fixpoint pick {A} (f : PatchColumn -> option A) (patch : list PatchColumn) (default : A) : A :=
  match patch with
  | [] => default
  | c :: rest => match f c with Some a => a | None => pick f rest default end
  end.

(** The row after an update. *)
Definition apply_patch (patch : list PatchColumn) (p : PositionInfo) : PositionInfo := {|
  pos_id := pos_id p; pos_trade_id := pos_trade_id p; pos_market_id := pos_market_id p; pos_token_id := pos_token_id p;
  pos_side := pos_side p; pos_execution_mode := pos_execution_mode p; pos_shares := pos_shares p;
  pos_avg_entry_price := pos_avg_entry_price p; pos_total_cost_usd := pos_total_cost_usd p;
  pos_total_fees_usd := pos_total_fees_usd p; pos_unrealized_pnl := pos_unrealized_pnl p;
  pos_realized_pnl := pick (fun c => match c with SetRealizedPnl v => Some v | _ => None end) patch (pos_realized_pnl p);
  pos_status := pick (fun c => match c with SetStatus v => Some v | _ => None end) patch (pos_status p);
  pos_opened_at := pos_opened_at p;
  pos_closed_at := pick (fun c => match c with SetClosedAt v => Some v | _ => None end) patch (pos_closed_at p);
  pos_settled_at := pick (fun c => match c with SetSettledAt v => Some v | _ => None end) patch (pos_settled_at p);
  pos_winning_token_id := pick (fun c => match c with SetWinningToken v => Some v | _ => None end) patch (pos_winning_token_id p);
  pos_settlement_payout_usd := pick (fun c => match c with SetPayout v => Some v | _ => None end) patch (pos_settlement_payout_usd p);
  pos_redeem_tx_hash := pick (fun c => match c with SetTxHash v => Some v | _ => None end) patch (pos_redeem_tx_hash p);
  pos_redeem_status := pick (fun c => match c with SetRedeemStatus v => Some v | _ => None end) patch (pos_redeem_status p);
  pos_redeem_attempts := pick (fun c => match c with SetAttempts v => Some v | _ => None end) patch (pos_redeem_attempts p);
  pos_oracle_verdict := pick (fun c => match c with SetVerdict v => Some v | _ => None end) patch (pos_oracle_verdict p);
  pos_settlement_trigger := pick (fun c => match c with SetTrigger v => Some v | _ => None end) patch (pos_settlement_trigger p);
  pos_accounting_status := pick (fun c => match c with SetAccounting v => Some v | _ => None end) patch (pos_accounting_status p);
  pos_accounting_error := pick (fun c => match c with SetAccountingError v => Some v | _ => None end) patch (pos_accounting_error p);
  pos_accounted_at := pick (fun c => match c with SetAccountedAt v => Some v | _ => None end) patch (pos_accounted_at p);
  pos_redeem_terminal_reason := pick (fun c => match c with SetTerminalReason v => Some v | _ => None end) patch (pos_redeem_terminal_reason p);
  pos_redeem_neg_risk := pick (fun c => match c with SetSnapshot s => Some (rs_neg_risk s) | _ => None end) patch (pos_redeem_neg_risk p);
  pos_redeem_route := pick (fun c => match c with SetSnapshot s => Some (route_as_str (plan_route (rs_plan s))) | _ => None end) patch (pos_redeem_route p);
  pos_redeem_holder_address := pick (fun c => match c with SetSnapshot s => Some (plan_holder_address (rs_plan s)) | _ => None end) patch (pos_redeem_holder_address p);
  pos_redeem_resolution := pick (fun c => match c with SetSnapshot s => Some (plan_resolution (rs_plan s)) | _ => None end) patch (pos_redeem_resolution p);
  pos_redeem_gas_limit :=
    pick (fun c => match c with SetSnapshot s => Some (unwrap_or (to_i64 (plan_gas_limit (rs_plan s))) i64_max) | _ => None end) patch (pos_redeem_gas_limit p);
  pos_redeem_gas_paid_usd := pick (fun c => match c with SetGasPaid v => Some v | _ => None end) patch (pos_redeem_gas_paid_usd p) |}.

(** ** The table *)

(** The rows by their key. *)
Abbreviation Table := (gmap PositionId PositionInfo).

Inductive StorageError := NotFound (entity : string) | QueryFailed (message : string).

Definition select (f : PositionInfo -> bool) (t : Table) : list PositionInfo := List.filter f (map_to_list t).*2.

Definition is_open (p : PositionInfo) : bool := bool_decide (pos_status p = PosOpen).

(** [repo/postgres/trading/position.rs:34-45] `find_open_q` *)
Definition find_open (t : Table) (mode : ExecutionMode) : list PositionInfo :=
  select (fun p => is_open p && bool_decide (pos_execution_mode p = mode)) t.

(** [repo/postgres/trading/position.rs:110-121] `find_open_by_market_q` *)
Definition find_open_by_market (t : Table) (m : MarketId) : list PositionInfo :=
  select (fun p => bool_decide (pos_market_id p = m) && is_open p) t.

(** [repo/postgres/trading/position.rs:135-148] `find_redeem_retry_candidates_q` *)
Definition find_redeem_retry_candidates (t : Table) (max_attempts : Z) : list PositionInfo :=
  let max_attempts := unwrap_or (to_i32 max_attempts) i32_max in
  select (fun p => is_open p && (match pos_redeem_status p with RsPending | RsFailed => true | _ => false end)
                   && (pos_redeem_attempts p <? max_attempts)) t.

(** [repo/postgres/trading/position.rs:150-160] `find_open_pending_redeem_q` *)
Definition find_open_pending_redeem (t : Table) : list PositionInfo :=
  select (fun p => is_open p && bool_decide (pos_redeem_status p = RsPending)) t.

(** [repo/postgres/trading/position.rs:189-203] `find_open_for_resolved_markets_q`, [resolved] the markets
    that are no longer active and have a resolution time *)
Definition find_open_for_resolved_markets (t : Table) (resolved : MarketId -> bool) (limit : nat) : list PositionInfo :=
  take limit (select (fun p => is_open p && resolved (pos_market_id p)) t).

(** [repo/postgres/trading/position.rs:205-218] `find_accounting_retry_candidates_q` *)
Definition find_accounting_retry_candidates (t : Table) (max_attempts : Z) : list PositionInfo :=
  let max_attempts := unwrap_or (to_i32 max_attempts) i32_max in
  select (fun p => is_open p && bool_decide (pos_accounting_status p = AcFailed) && (pos_redeem_attempts p <? max_attempts)) t.

(** [repo/postgres/trading/position.rs:232-253] `patch_position_q` *)
Definition patch_position (t : Table) (id : PositionId) (patch : list PatchColumn) (entity : string) : Table * Result PositionInfo StorageError :=
  match t !! id with
  | Some p => (<[id := apply_patch patch p]> t, Ok (apply_patch patch p))
  | None => (t, Err (NotFound entity))
  end.

(** [repo/postgres/trading/position.rs:162-187] `update_redeem_snapshot_q` *)
Definition update_redeem_snapshot (t : Table) (id : PositionId) (s : PositionRedeemSnapshot) : Table * Result PositionInfo StorageError :=
  patch_position t id [SetSnapshot s] "position".

(** [repo/postgres/trading/position.rs:263-276] `close_position_q` *)
Definition close_position (t : Table) (id : PositionId) (realized_pnl : D) (now : Time) : Table * Result PositionInfo StorageError :=
  patch_position t id [SetStatus PosClosed; SetRealizedPnl realized_pnl; SetClosedAt (Some now)] "open position".

(** [models/domain/trading/position.rs:242-251] `MarkRedeemedParams` *)
Record MarkRedeemedParams := {
  mr_winning_token_id : TokenId;
  mr_settlement_payout_usd : D;
  mr_realized_pnl : D;
  mr_redeem_tx_hash : option string;
  mr_redeem_status : RedeemStatus;
  mr_settlement_trigger : SettlementTrigger;
  mr_redeem_terminal_reason : option string;
  mr_redeem_gas_paid_usd : option D
}.

(** [repo/postgres/trading/position.rs:317-335] `mark_redeemed_q` *)
Definition mark_redeemed (t : Table) (id : PositionId) (m : MarkRedeemedParams) : Table * Result PositionInfo StorageError :=
  patch_position t id
    [SetWinningToken (Some (mr_winning_token_id m)); SetPayout (Some (mr_settlement_payout_usd m)); SetRealizedPnl (mr_realized_pnl m);
     SetTxHash (mr_redeem_tx_hash m); SetRedeemStatus (mr_redeem_status m); SetTrigger (Some (mr_settlement_trigger m));
     SetTerminalReason (mr_redeem_terminal_reason m); SetGasPaid (mr_redeem_gas_paid_usd m); SetAccounting AcRedeemed] "position".

(** [repo/postgres/trading/position.rs:337-351] `mark_accounted_q` *)
Definition mark_accounted (t : Table) (id : PositionId) (at_ : Time) : Table * Result PositionInfo StorageError :=
  patch_position t id [SetStatus PosSettled; SetAccounting AcAccounted; SetAccountingError None; SetAccountedAt (Some at_);
                       SetSettledAt (Some at_)] "position".

(** [repo/postgres/trading/position.rs:353-364] `mark_accounting_failed_q` *)
Definition mark_accounting_failed (t : Table) (id : PositionId) (error : string) : Table * Result PositionInfo StorageError :=
  patch_position t id [SetAccounting AcFailed; SetAccountingError (Some error)] "position".

(** [repo/postgres/trading/position.rs:366-381] `record_redeem_failure_q` *)
Definition record_redeem_failure (t : Table) (id : PositionId) (attempts : Z) (winning : TokenId) (trigger : SettlementTrigger)
    : Table * Result PositionInfo StorageError :=
  patch_position t id [SetRedeemStatus RsFailed; SetAttempts (unwrap_or (to_i32 attempts) i32_max); SetWinningToken (Some winning);
                       SetTrigger (Some trigger)] "position".

(** [repo/postgres/trading/position.rs:383-402] `mark_redeem_terminal_q` *)
Definition mark_redeem_terminal (t : Table) (id : PositionId) (attempts : Z) (winning : TokenId) (trigger : SettlementTrigger) (reason : string)
    : Table * Result PositionInfo StorageError :=
  patch_position t id [SetRedeemStatus RsFailed; SetAttempts (unwrap_or (to_i32 attempts) i32_max); SetWinningToken (Some winning);
                       SetTrigger (Some trigger); SetAccounting AcFailed; SetAccountingError (Some reason); SetTerminalReason (Some reason)] "position".

(** [models/domain/trading/position.rs:254-267] `SettledPositionStats` *)
Record SettledPositionStats := {
  st_realized_pnl : D; st_total_payout : D; st_total_cost : D; st_total_fees : D;
  st_settled : Z; st_winning : Z; st_losing : Z; st_unsettled : Z; st_failed_accounting : Z;
  st_largest_profit : D; st_largest_loss : D; st_total_gas : D
}.

(** [repo/postgres/trading/position.rs:475-500] `aggregate_settled_between_q`, one settled position *)
Definition add_settled (s : SettledPositionStats) (p : PositionInfo) : SettledPositionStats := {|
  st_realized_pnl := dadd (st_realized_pnl s) (pos_realized_pnl p);
  st_total_payout := match pos_settlement_payout_usd p with Some v => dadd (st_total_payout s) v | None => st_total_payout s end;
  st_total_cost := dadd (st_total_cost s) (pos_total_cost_usd p);
  st_total_fees := dadd (st_total_fees s) (pos_total_fees_usd p);
  st_settled := sat_u32 (st_settled s + 1);
  st_winning := match pos_settlement_payout_usd p with Some v => if dltb d0 v then sat_u32 (st_winning s + 1) else st_winning s | None => st_winning s end;
  st_losing := match pos_settlement_payout_usd p with Some v => if dltb d0 v then st_losing s else sat_u32 (st_losing s + 1) | None => st_losing s end;
  st_unsettled := st_unsettled s; st_failed_accounting := st_failed_accounting s;
  st_largest_profit := if dltb (st_largest_profit s) (pos_realized_pnl p) then pos_realized_pnl p else st_largest_profit s;
  st_largest_loss := if dltb (pos_realized_pnl p) (st_largest_loss s) then pos_realized_pnl p else st_largest_loss s;
  st_total_gas := match pos_redeem_gas_paid_usd p with Some g => dadd (st_total_gas s) g | None => st_total_gas s end |}.

(** [repo/postgres/trading/position.rs:436-503] `aggregate_settled_between_q` *)
Definition aggregate_settled_between (t : Table) (start finish : Time) : SettledPositionStats :=
  let settled := select (fun p => bool_decide (pos_status p = PosSettled) && bool_decide (pos_accounting_status p = AcAccounted)
    && match pos_settled_at p with Some at_ => (start <=? at_) && (at_ <? finish) | None => false end) t in
  let count f := unwrap_or (to_u32 (Z.of_nat (length (select f t)))) u32_max in
  foldl add_settled {|
    st_realized_pnl := d0; st_total_payout := d0; st_total_cost := d0; st_total_fees := d0; st_settled := 0; st_winning := 0; st_losing := 0;
    st_unsettled := count is_open; st_failed_accounting := count (fun p => bool_decide (pos_accounting_status p = AcFailed));
    st_largest_profit := d0; st_largest_loss := d0; st_total_gas := d0 |} settled.

(** ** Facts *)

Lemma select_in f t p : p ∈ select f t <-> f p = true /\ exists id, t !! id = Some p.
Proof.
  unfold select. rewrite list_elem_of_In, filter_In, <- list_elem_of_In, list_elem_of_fmap. split.
  - intros [([id q] & -> & Hin) Hf]. apply elem_of_map_to_list in Hin. eauto.
  - intros [Hf [id Hid]]. split; [|done]. exists (id, p). split; [done|]. by apply elem_of_map_to_list.
Qed.

(** A backfilled snapshot restores the plan it was taken from. *)
Lemma snapshot_roundtrip (policy : RedeemRoutingPolicy) m neg_risk plan p :
  resolve policy m neg_risk = Some plan -> 0 <= plan_gas_limit plan <= i64_max ->
  let p' := apply_patch [SetSnapshot (snapshot_from_plan neg_risk plan)] p in
  redeem_plan p' = Ok plan /\ redeem_snapshot_needs_backfill p' = false.
Proof.
  intros Hr Hg. destruct (resolve_matches_class _ _ _ _ Hr) as (Hn & Hx & _ & Hs). simpl.
  unfold redeem_snapshot_needs_backfill, redeem_plan. simpl. rewrite Hs. unfold to_i64. rewrite checked_in by (unfold_ints; lia).
  simpl. unfold to_u64. rewrite checked_in by (unfold_ints; lia). simpl. rewrite Hx.
  split; [destruct plan; simpl in *; by subst | by destruct neg_risk].
Qed.
End Positions.
