(* ===== verification/Settlement.v ===== *)
(** * Settlement: [oxide-arb-core/src/execution/settlement] and the voting oracle

    Requests to settle a market are deduplicated, every open position of the market is redeemed on
    chain or simulated, booked, and accounted for in the risk engine; a periodic sweep retries.
    The database connection, the chain client and the oracle sources are an interface whose calls
    may fail; the risk engine is the one of [Engine] with its own stores.  Metrics counters, log
    lines and the audit copy of a settlement are left out. *)

From Stdlib Require Import Ascii String.
From S2P Require Import Prelude Text Decimal Config Domain RiskTypes CircuitBreaker Interfaces Engine Fees FactorModel.
From S2P Require Import Factors Book Execution Calibration Detector RuntimeConfig Positions Context EngineSafety.

(** ** The voting oracle *)

Section Oracle.
Context {DO : DecimalOps}.

(** [api/oracle/types.rs:9-14] `SourceVote` *)
Record SourceVote := { vote_source_id : string; vote_actual_yes : bool; vote_confidence : D; vote_reported_at : Time }.

(** [api/oracle/types.rs:18-29] `ResolutionVerdict` *)
Inductive ResolutionVerdict :=
| Resolved (actual_yes : bool) (votes : list SourceVote)
| Disputed (votes : list SourceVote)
| Unresolved (reason : string).

Definition yes_votes (votes : list SourceVote) : Z := Z.of_nat (length (List.filter vote_actual_yes votes)).

(** [api/oracle/mod.rs:200-229] `VotingOracle::tally_votes`; the counts of the message are left out *)
Definition tally_votes (votes : list SourceVote) (quorum : Z) : ResolutionVerdict :=
  let yes := yes_votes votes in
  let no := Z.of_nat (length votes) - yes in
  if quorum <=? yes then Resolved true votes
  else if quorum <=? no then Resolved false votes
  else if quorum <=? Z.of_nat (length votes) then Disputed votes
  else Unresolved "Insufficient agreeing votes".

(** [api/oracle/mod.rs:231-241] `VotingOracle::verdict_all_sources_down` *)
Definition verdict_all_sources_down (strategy : AllSourcesDownStrategy) : ResolutionVerdict :=
  Unresolved (match strategy with
              | ConservativeReject => "conservative_reject: no oracle votes"
              | ManualAck => "manual_ack_required: no oracle votes"
              end).

(** [api/oracle/mod.rs:31-36] `OracleState` without the sources and the waiting time *)
Record OracleState := { os_quorum : Z; os_all_sources_down : AllSourcesDownStrategy }.

(** [api/oracle/mod.rs:91-112] `VotingOracle::stage_reload`, the policy *)
Definition oracle_state (config : SettlementOracleConfig) : OracleState := {|
  os_quorum := Z.max (voting_quorum config) 1; os_all_sources_down := all_sources_down_strategy config |}.

(** [api/oracle/mod.rs:119-175] `VotingOracle::resolve` on the answers of the sources *)
Definition oracle_resolve (s : OracleState) (answers : list (Result (option SourceVote) string)) : ResolutionVerdict :=
  let votes := omap (fun a => match a with Ok v => v | Err _ => None end) answers in
  match tally_votes votes (os_quorum s), votes with
  | Unresolved _, [] => verdict_all_sources_down (os_all_sources_down s)
  | verdict, _ => verdict
  end.
End Oracle.

(** ** Requests *)

(** [models/domain/trading/settlement.rs:13-19] `MarketSettlementRequest` *)
Record MarketSettlementRequest := {
  sq_market_id : MarketId;
  sq_winning_token_id : TokenId;
  sq_winning_outcome : string;
  sq_source : SettlementTrigger;
  sq_observed_at : Time
}.

(** [core/execution/settlement/dedup.rs:13-16] `SettlementDedup` *)
Record SettlementDedup := { sd_inner : gmap (MarketId * TokenId) Time; sd_window_secs : Z }.

(** [core/execution/settlement/dedup.rs:29-32] `SettlementDedup::reload` *)
Definition dedup_reload (d : SettlementDedup) (config : SettlementLifecycleConfig) : SettlementDedup := {|
  sd_inner := sd_inner d; sd_window_secs := dedup_window_secs config |}.

(** Seen within the window; [Instant] differences saturate at zero. *)
Definition seen_recently (d : SettlementDedup) (now seen_at : Time) : bool :=
  Z.max 0 (now - seen_at) <=? sd_window_secs d * nanos_per_sec.

(** [core/execution/settlement/dedup.rs:34-50] `SettlementDedup::should_process` *)
Definition should_process (d : SettlementDedup) (req : MarketSettlementRequest) (now : Time) : SettlementDedup * bool :=
  let key := (sq_market_id req, sq_winning_token_id req) in
  let kept := filter (fun kv => seen_recently d now kv.2 = true) (sd_inner d) in
  match kept !! key with
  | Some seen_at =>
      if seen_recently d now seen_at then ({| sd_inner := kept; sd_window_secs := sd_window_secs d |}, false)
      else ({| sd_inner := <[key := now]> kept; sd_window_secs := sd_window_secs d |}, true)
  | None => ({| sd_inner := <[key := now]> kept; sd_window_secs := sd_window_secs d |}, true)
  end.

(** ** Payout *)

Section Payout.
Context {DO : DecimalOps}.

(** [models/domain/trading/settlement.rs:23-27] `SettlementEconomics` *)
Record SettlementEconomics := { se_won : bool; se_payout_usd : D; se_realized_pnl_usd : D }.

(** [core/execution/settlement/payout.rs:7-24] `compute_settlement_economics` *)
Definition compute_settlement_economics (shares total_cost_usd total_fees_usd gas_paid_usd : D) (position_token winning_token : TokenId) : SettlementEconomics :=
  let won := bool_decide (position_token = winning_token) in
  let payout := if won then dmul shares d1 else d0 in
  {| se_won := won; se_payout_usd := payout;
     se_realized_pnl_usd := dsub (dsub (dsub payout total_cost_usd) total_fees_usd) gas_paid_usd |}.

(** [api/ctf/types.rs:8-16] `RedeemRequest` *)
Record RedeemRequest := {
  rr_condition_id : MarketId;
  rr_market_id : MarketId;
  rr_yes_token_id : TokenId;
  rr_no_token_id : TokenId;
  rr_execution_mode : ExecutionMode;
  rr_plan : ResolvedRedeemPlan
}.

(** [api/ctf/types.rs:19-24] `RedeemOutcome` *)
Record RedeemOutcome := { ro_redeem_tx_hash : option string; ro_simulated : bool; ro_gas_paid_usd : option D }.

(** [api/ctf/types.rs:28-34] `RedeemOutcome::dry_run` *)
Definition redeem_dry_run : RedeemOutcome := {| ro_redeem_tx_hash := None; ro_simulated := true; ro_gas_paid_usd := Some d0 |}.

(** [error/redeem.rs:43-54] `From<RedeemSendError> for RedeemError` *)
Definition redeem_error_of_send (message : string) : RedeemError :=
  let lower := to_ascii_lowercase message in
  if str_contains lower "already" then ReAlreadyRedeemed message
  else if str_contains lower "gas" then ReInsufficientGas message
  else if str_contains lower "revert" then ReContractRevert message
  else ReRpcTimeout message.
End Payout.

(** ** The service *)

(** A market of the registry, the fields settlement reads. *)
Record RegisteredMarket := { rm_token_yes : TokenId; rm_token_no : TokenId; rm_outcome : option string }.

(** What the service asks of the outside: whether the next statement of the connection fails, the
    chain client ([None] when it is not configured), the answers of the oracle sources, and the
    latest resolution event of a market. *)
Class SettlementWorld {DO : DecimalOps} (W : Type) := {
  connection : W -> W * option string;
  chain_redeem : W -> RedeemRequest -> W * option (Result RedeemOutcome RedeemError);
  oracle_answers : W -> MarketId -> W * list (Result (option SourceVote) string);
  latest_outcome : W -> MarketId -> W * option string;
  registry_market : W -> MarketId -> option RegisteredMarket;
  market_resolved : W -> MarketId -> bool
}.

Section Service.
Context {DO : DecimalOps} {CH : Chrono} {M P W : Type} {RM : RiskMetrics M} {RP : RiskPersistence P} {SW : SettlementWorld W}.
Abbreviation Table := (gmap PositionId PositionInfo).
(** The refresh of the metrics after a settlement, whose failure is only logged. *)
Variable refresh_metrics : M -> M.

Inductive SettleError := StoreError (e : StorageError) | EngineError (e : OxideError) | MaxAttempts.

(** What happened to a position, in order. *)
Inductive SettleEffect :=
| SxRedeem (id : PositionId) (result : Result RedeemOutcome RedeemError)
| SxBooked (id : PositionId) (payout pnl : D) (status : RedeemStatus)
| SxFailed (id : PositionId) (attempts : Z)
| SxTerminal (id : PositionId)
| SxAccounted (id : PositionId)
| SxConfigAlert (id : PositionId)
| SxMarketResolved (m : MarketId) (yes : bool)
| SxOracle (m : MarketId) (verdict : ResolutionVerdict).

(** [core/execution/settlement/service.rs:42-58] `MarketSettlementService`, what it can change *)
Record Settler := {
  sv_table : Table;
  sv_risk : Engine (W := P);
  sv_metrics : M;
  sv_fsm : ExecutionFSM;
  sv_world : W;
  sv_config : SettlementRuntimeConfig;
  sv_log : list SettleEffect
}.

Definition set_table (x : Settler) t : Settler := {| sv_table := t; sv_risk := sv_risk x; sv_metrics := sv_metrics x; sv_fsm := sv_fsm x; sv_world := sv_world x; sv_config := sv_config x; sv_log := sv_log x |}.
Definition set_sworld (x : Settler) w : Settler := {| sv_table := sv_table x; sv_risk := sv_risk x; sv_metrics := sv_metrics x; sv_fsm := sv_fsm x; sv_world := w; sv_config := sv_config x; sv_log := sv_log x |}.
Definition set_srisk (x : Settler) e m : Settler := {| sv_table := sv_table x; sv_risk := e; sv_metrics := m; sv_fsm := sv_fsm x; sv_world := sv_world x; sv_config := sv_config x; sv_log := sv_log x |}.
Definition set_sfsm (x : Settler) f : Settler := {| sv_table := sv_table x; sv_risk := sv_risk x; sv_metrics := sv_metrics x; sv_fsm := f; sv_world := sv_world x; sv_config := sv_config x; sv_log := sv_log x |}.
Definition note (x : Settler) fx : Settler := {| sv_table := sv_table x; sv_risk := sv_risk x; sv_metrics := sv_metrics x; sv_fsm := sv_fsm x; sv_world := sv_world x; sv_config := sv_config x; sv_log := sv_log x ++ [fx] |}.

(** [core/execution/settlement/service.rs:104-106] `MarketSettlementService::reload` *)
Definition settlement_reload (x : Settler) (config : SettlementRuntimeConfig) : Settler :=
  {| sv_table := sv_table x; sv_risk := sv_risk x; sv_metrics := sv_metrics x; sv_fsm := sv_fsm x; sv_world := sv_world x;
     sv_config := config; sv_log := sv_log x |}.

(** A repository call: it fails with the connection and leaves the table, or runs. *)
Definition db {A} (x : Settler) (f : Table -> Table * Result A StorageError) : Settler * Result A SettleError :=
  match connection (sv_world x) with
  | (w, Some message) => (set_sworld x w, Err (StoreError (QueryFailed message)))
  | (w, None) =>
      let '(t, r) := f (sv_table x) in
      (set_table (set_sworld x w) t, match r with Ok a => Ok a | Err e => Err (StoreError e) end)
  end.

(** A query that cannot fail by itself. *)
Definition query {A} (x : Settler) (f : Table -> A) : Settler * Result A SettleError := db x (fun t => (t, Ok (f t))).

(** The [?] operator. *)
Definition bind {A B} (r : Settler * Result A SettleError) (k : Settler -> A -> Settler * Result B SettleError) : Settler * Result B SettleError :=
  match r with (x, Ok a) => k x a | (x, Err e) => (x, Err e) end.

(** [core/execution/settlement/service.rs:116-121] `MarketSettlementService::position_redeem_mode` *)
Definition position_redeem_mode (pos : PositionInfo) : ExecutionMode :=
  match pos_redeem_status pos with RsPending => Live | _ => DryRun end.

(** [core/execution/settlement/service.rs:622-665] `MarketSettlementService::redeem_position` *)
Definition redeem_position (x : Settler) (req : MarketSettlementRequest) (pos : PositionInfo) : Settler * Result RedeemOutcome RedeemError :=
  let mode := position_redeem_mode pos in
  match redeem_plan pos with
  | Err e => (x, Err e)
  | Ok plan =>
      let market := registry_market (sv_world x) (sq_market_id req) in
      let yes := match market with Some m => rm_token_yes m | None => sq_winning_token_id req end in
      let no := match market with Some m => rm_token_no m | None => sq_winning_token_id req end in
      if match market with None => true | Some _ => false end && bool_decide (yes = no) && route_expects_neg_risk (plan_route plan)
      then (x, Err (ReUnsupportedRoute (route_as_str (plan_route plan)) "registry miss: cannot resolve YES/NO token ids for neg-risk redeem"))
      else
        let request := {| rr_condition_id := sq_market_id req; rr_market_id := sq_market_id req; rr_yes_token_id := yes; rr_no_token_id := no;
                          rr_execution_mode := mode; rr_plan := plan |} in
        match mode with
        | DryRun | Paper => (x, Ok redeem_dry_run)
        | Live =>
            match chain_redeem (sv_world x) request with
            | (w, None) => (set_sworld x w, Err (ReRpcTimeout "CTF redeem client unavailable in Live mode"))
            | (w, Some r) => (note (set_sworld x w) (SxRedeem (pos_id pos) r), r)
            end
        end
  end.

(** [core/execution/settlement/service.rs:259-297] `MarketSettlementService::record_redeem_attempt_failure` *)
Definition record_redeem_attempt_failure (x : Settler) (req : MarketSettlementRequest) (pos : PositionInfo) (error : RedeemError)
    : Settler * Result unit SettleError :=
  let attempts := unwrap_or (to_u32 (clampZ i32_min i32_max (pos_redeem_attempts pos + 1))) u32_max in
  bind (db x (fun t => record_redeem_failure t (pos_id pos) attempts (sq_winning_token_id req) (sq_source req))) (fun x _ =>
    let x := note x (SxFailed (pos_id pos) attempts) in
    (if is_configuration_error error then note x (SxConfigAlert (pos_id pos)) else x, Ok tt)).

(** [core/execution/settlement/service.rs:231-257] `MarketSettlementService::redeem_or_record_failure` *)
Definition redeem_or_record_failure (x : Settler) (req : MarketSettlementRequest) (pos : PositionInfo)
    : Settler * Result (option RedeemOutcome) SettleError :=
  match redeem_position x req pos with
  | (x, Ok outcome) => (x, Ok (Some outcome))
  | (x, Err error) =>
      if is_terminal_success_equivalent error then (x, Ok (Some redeem_dry_run))
      else bind (record_redeem_attempt_failure x req pos error) (fun x _ => (x, Ok None))
  end.

(** [core/execution/settlement/service.rs:299-322] `MarketSettlementService::persist_position_settlement` *)
Definition persist_position_settlement (x : Settler) (req : MarketSettlementRequest) (pos : PositionInfo) (economics : SettlementEconomics)
    (outcome : RedeemOutcome) : Settler * Result PositionInfo SettleError :=
  let status := settled_for_mode (position_redeem_mode pos) in
  bind (db x (fun t => mark_redeemed t (pos_id pos) {|
      mr_winning_token_id := sq_winning_token_id req; mr_settlement_payout_usd := se_payout_usd economics;
      mr_realized_pnl := se_realized_pnl_usd economics; mr_redeem_tx_hash := ro_redeem_tx_hash outcome; mr_redeem_status := status;
      mr_settlement_trigger := sq_source req; mr_redeem_terminal_reason := None; mr_redeem_gas_paid_usd := ro_gas_paid_usd outcome |}))
    (fun x settled => (note x (SxBooked (pos_id pos) (se_payout_usd economics) (se_realized_pnl_usd economics) status), Ok settled)).

(** The input the engine accounts for. *)
Definition settlement_input (settled : PositionInfo) (economics : SettlementEconomics) : MarketSettlementInput := {|
  set_trade_id := pos_trade_id settled; set_market_id := pos_market_id settled; set_token_id := pos_token_id settled; set_side := pos_side settled;
  set_shares := pos_shares settled; set_entry_price := pos_avg_entry_price settled; set_cost_usd := pos_total_cost_usd settled;
  set_fee_usd := pos_total_fees_usd settled; set_realized_pnl_usd := se_realized_pnl_usd economics |}.

(** [core/execution/settlement/service.rs:324-382] `MarketSettlementService::apply_risk_settlement` *)
Definition apply_risk_settlement (x : Settler) (now : Time) (req : MarketSettlementRequest) (settled : PositionInfo) (economics : SettlementEconomics)
    : Settler * Result unit SettleError :=
  let '((e, r), metrics) := on_market_settled (sv_risk x) now (settlement_input settled economics) (sv_metrics x) in
  let x := set_srisk x e metrics in
  match r with
  | Err error =>
      bind (db x (fun t => mark_accounting_failed t (pos_id settled) (err_str error))) (fun x _ => (x, Err (EngineError error)))
  | Ok report =>
      bind (db x (fun t => mark_accounted t (pos_id settled) now)) (fun x _ =>
        let x := note x (SxAccounted (pos_id settled)) in
        (match report with
         | Some rep => match breaker_tripped rep with
                       | Some _ => set_sfsm x (enter_emergency (sv_fsm x) VenueFault "circuit breaker tripped after market settlement")
                       | None => x
                       end
         | None => x
         end, Ok tt))
  end.

(** [core/execution/settlement/service.rs:163-229] `MarketSettlementService::settle_position` *)
Definition settle_position (x : Settler) (now : Time) (req : MarketSettlementRequest) (pos : PositionInfo) : Settler * Result unit SettleError :=
  let max_attempts := unwrap_or (to_i32 (max_redeem_attempts (sr_lifecycle (sv_config x)))) i32_max in
  if max_attempts <=? pos_redeem_attempts pos
  then bind (db x (fun t => mark_redeem_terminal t (pos_id pos) (unwrap_or (to_u32 (pos_redeem_attempts pos)) u32_max) (sq_winning_token_id req)
                              (sq_source req) "redeem max attempts reached")) (fun x _ => (note x (SxTerminal (pos_id pos)), Err MaxAttempts))
  else
    bind (redeem_or_record_failure x req pos) (fun x outcome =>
      match outcome with
      | None => (x, Ok tt)
      | Some outcome =>
          let economics := compute_settlement_economics (pos_shares pos) (pos_total_cost_usd pos) (pos_total_fees_usd pos)
                             (unwrap_or (ro_gas_paid_usd outcome) d0) (pos_token_id pos) (sq_winning_token_id req) in
          bind (persist_position_settlement x req pos economics outcome) (fun x settled => apply_risk_settlement x now req settled economics)
      end).

(** The positions one after the other, up to the first error. *)
Fixpoint settle_each (x : Settler) (now : Time) (req : MarketSettlementRequest) (positions : list PositionInfo) : Settler * Result unit SettleError :=
  match positions with
  | [] => (x, Ok tt)
  | pos :: rest => bind (settle_position x now req pos) (fun x _ => settle_each x now req rest)
  end.

(** [core/execution/settlement/service.rs:536-597] `MarketSettlementService::audit_oracle`; storing the event
    only logs when it fails *)
Definition audit_oracle (x : Settler) (req : MarketSettlementRequest) : Settler :=
  match registry_market (sv_world x) (sq_market_id req) with
  | None => x
  | Some _ =>
      let '(w, answers) := oracle_answers (sv_world x) (sq_market_id req) in
      note (set_sworld x w) (SxOracle (sq_market_id req) (oracle_resolve (oracle_state (sr_oracle (sv_config x))) answers))
  end.

(** [core/execution/settlement/service.rs:123-161] `MarketSettlementService::settle_market` *)
Definition settle_market (x : Settler) (now : Time) (req : MarketSettlementRequest) : Settler * Result unit SettleError :=
  bind (query x (fun t => find_open_by_market t (sq_market_id req))) (fun x positions =>
    match positions with
    | [] => (x, Ok tt)
    | _ =>
        bind (settle_each x now req positions) (fun x _ =>
          let x := match registry_market (sv_world x) (sq_market_id req) with
                   | Some m => note x (SxMarketResolved (sq_market_id req) (bool_decide (sq_winning_token_id req = rm_token_yes m)))
                   | None => x
                   end in
          let x := set_srisk x (sv_risk x) (refresh_metrics (sv_metrics x)) in
          (if oc_enabled (sr_oracle (sv_config x)) then audit_oracle x req else x, Ok tt))
    end).

(** [core/execution/settlement/service.rs:484-534] `MarketSettlementService::winning_token_for_retry` *)
Definition winning_token_for_retry (x : Settler) (position : PositionInfo) : Settler * option TokenId :=
  match pos_winning_token_id position with
  | Some token => (x, Some token)
  | None =>
      let '(w, latest) := latest_outcome (sv_world x) (pos_market_id position) in
      let x := set_sworld x w in
      match registry_market (sv_world x) (pos_market_id position) with
      | None => (x, None)
      | Some market =>
          let recorded := match latest with Some o => if str_is_empty (trim o) then None else Some (trim o) | None => None end in
          let outcome := match recorded with Some o => o | None => unwrap_or (rm_outcome market) "" end in
          if eq_ignore_ascii_case outcome "yes" then (x, Some (rm_token_yes market))
          else if eq_ignore_ascii_case outcome "no" then (x, Some (rm_token_no market))
          else
            let '(w, answers) := oracle_answers (sv_world x) (pos_market_id position) in
            let x := set_sworld x w in
            match oracle_resolve (oracle_state (sr_oracle (sv_config x))) answers with
            | Resolved actual_yes _ => (x, Some (if actual_yes then rm_token_yes market else rm_token_no market))
            | Disputed _ | Unresolved _ => (x, None)
            end
      end
  end.

Definition retry_request (position : PositionInfo) (winning : TokenId) (now : Time) : MarketSettlementRequest := {|
  sq_market_id := pos_market_id position; sq_winning_token_id := winning; sq_winning_outcome := ""; sq_source := TrPeriodicRetry;
  sq_observed_at := now |}.

(** [core/execution/settlement/service.rs:413-482] `MarketSettlementService::retry_pending`, its three loops *)
Fixpoint retry_resolved (x : Settler) (now : Time) (positions : list PositionInfo) : Settler * Result unit SettleError :=
  match positions with
  | [] => (x, Ok tt)
  | position :: rest =>
      match winning_token_for_retry x position with
      | (x, None) => retry_resolved x now rest
      | (x, Some winning) => bind (settle_market x now (retry_request position winning now)) (fun x _ => retry_resolved x now rest)
      end
  end.

Fixpoint retry_redeem (x : Settler) (now : Time) (positions : list PositionInfo) : Settler * Result unit SettleError :=
  match positions with
  | [] => (x, Ok tt)
  | position :: rest =>
      match pos_winning_token_id position with
      | None => retry_redeem x now rest
      | Some winning => bind (settle_market x now (retry_request position winning now)) (fun x _ => retry_redeem x now rest)
      end
  end.

Fixpoint retry_accounting (x : Settler) (now : Time) (positions : list PositionInfo) : Settler * Result unit SettleError :=
  match positions with
  | [] => (x, Ok tt)
  | position :: rest =>
      match pos_winning_token_id position with
      | None => retry_accounting x now rest
      | Some winning =>
          let economics := compute_settlement_economics (pos_shares position) (pos_total_cost_usd position) (pos_total_fees_usd position)
                             (unwrap_or (pos_redeem_gas_paid_usd position) d0) (pos_token_id position) winning in
          bind (apply_risk_settlement x now (retry_request position winning now) position economics) (fun x _ => retry_accounting x now rest)
      end
  end.

(** [core/execution/settlement/service.rs:413-482] `MarketSettlementService::retry_pending` *)
Definition retry_pending (x : Settler) (now : Time) : Settler * Result unit SettleError :=
  let max_attempts x := max_redeem_attempts (sr_lifecycle (sv_config x)) in
  bind (query x (fun t => find_open_for_resolved_markets t (market_resolved (sv_world x)) 1024)) (fun x resolved =>
  bind (retry_resolved x now resolved) (fun x _ =>
  bind (query x (fun t => find_redeem_retry_candidates t (max_attempts x))) (fun x redeem =>
  bind (retry_redeem x now redeem) (fun x _ =>
  bind (query x (fun t => find_accounting_retry_candidates t (max_attempts x))) (fun x accounting =>
  retry_accounting x now accounting))))).

(** [core/execution/settlement/task.rs:56-69] `MarketSettlementTask::process` *)
Definition process_request (x : Settler) (d : SettlementDedup) (now : Time) (req : MarketSettlementRequest) : Settler * SettlementDedup :=
  match should_process d req now with
  | (d, false) => (x, d)
  | (d, true) => ((settle_market x now req).1, d)
  end.
End Service.

(** ** What settling a position does *)

Section Facts.
Context {DO : DecimalOps} {CH : Chrono} {M P W : Type} {RM : RiskMetrics M} {RP : RiskPersistence P} {SW : SettlementWorld W}.
Abbreviation S := (Settler (M := M) (P := P) (W := W)).
Implicit Types x : S.

(** The client redeemed, or says that the position was redeemed before. *)
Definition redeemed (r : Result RedeemOutcome RedeemError) : bool :=
  match r with Ok _ => true | Err e => is_terminal_success_equivalent e end.

(** An update of one row either happens or leaves the table. *)
Lemma db_patch x id patch entity p x' r :
  sv_table x !! id = Some p -> db x (fun t => patch_position t id patch entity) = (x', r) ->
  sv_log x' = sv_log x /\ sv_config x' = sv_config x /\ sv_risk x' = sv_risk x /\ sv_metrics x' = sv_metrics x /\ sv_fsm x' = sv_fsm x /\
  match r with
  | Ok p' => p' = apply_patch patch p /\ sv_table x' = <[id := p']> (sv_table x)
  | Err _ => sv_table x' = sv_table x
  end.
Proof.
  intros Hp. unfold db, patch_position. destruct (connection (sv_world x)) as [w [message|]].
  - by intros [= <- <-].
  - rewrite Hp. by intros [= <- <-].
Qed.

(** Redeeming touches neither the table nor the books; a Live redeem is logged. *)
Lemma redeem_position_spec x req pos x' r : redeem_position x req pos = (x', r) ->
  sv_table x' = sv_table x /\ sv_risk x' = sv_risk x /\ sv_config x' = sv_config x /\
  (sv_log x' = sv_log x /\ (pos_redeem_status pos = RsPending -> redeemed r = false)
   \/ pos_redeem_status pos = RsPending /\ sv_log x' = sv_log x ++ [SxRedeem (pos_id pos) r]).
Proof.
  unfold redeem_position, position_redeem_mode. destruct (redeem_plan pos) as [plan|e] eqn:Ep.
  2: { intros [= <- <-]. split_and!; try done. left. split; [done|]. intros _.
       unfold redeem_plan in Ep. repeat case_match; simplify_eq; done. }
  destruct (_ && _); [intros [= <- <-]; split_and!; try done; by left|].
  destruct (pos_redeem_status pos) eqn:Es; try (intros [= <- <-]; split_and!; try done; by left).
  destruct (chain_redeem _ _) as [w [reply|]]; intros [= <- <-]; (split_and!; try done); [by right | by left].
Qed.

(** Another row is not touched. *)
Definition keeps_others (id : PositionId) x x' : Prop := forall id', id' <> id -> sv_table x' !! id' = sv_table x !! id'.

Lemma accounted_row x now req settled economics x' r :
  sv_table x !! pos_id settled = Some settled -> apply_risk_settlement x now req settled economics = (x', r) ->
  keeps_others (pos_id settled) x x' /\ (exists p, sv_table x' !! pos_id settled = Some p /\ pos_redeem_status p = pos_redeem_status settled
    /\ pos_settlement_payout_usd p = pos_settlement_payout_usd settled /\ pos_realized_pnl p = pos_realized_pnl settled /\
    match r with
    | Ok _ => pos_status p = PosSettled /\ pos_accounting_status p = AcAccounted
    | Err _ => pos_status p = pos_status settled
    end) /\ (exists new, sv_log x' = sv_log x ++ new).
Proof.
  intros Hp. unfold apply_risk_settlement. destruct (on_market_settled _ _ _ _) as [[e o] metrics].
  set (y := set_srisk x e metrics). assert (sv_table y !! pos_id settled = Some settled) as Hy by exact Hp.
  destruct o as [report|error]; unfold bind.
  - destruct (db y _) as [z rz] eqn:Ez. destruct (db_patch _ _ _ _ _ _ _ Hy Ez) as (Hl & _ & _ & _ & _ & Ht).
    destruct rz as [p'|]; intros [= <- <-].
    + destruct Ht as [-> Ht]. assert (forall q, sv_table (match report with Some rep => match breaker_tripped rep with Some _ =>
          set_sfsm (note z (SxAccounted (pos_id settled))) q | None => note z (SxAccounted (pos_id settled)) end
          | None => note z (SxAccounted (pos_id settled)) end) = sv_table z) as Htab by (intros q; by repeat case_match).
      split; [|split].
      * intros id' Hne. rewrite Htab, Ht. by rewrite lookup_insert_ne.
      * exists (apply_patch [SetStatus PosSettled; SetAccounting AcAccounted; SetAccountingError None; SetAccountedAt (Some now); SetSettledAt (Some now)] settled).
        rewrite Htab, Ht, lookup_insert_eq. by repeat split.
      * exists [SxAccounted (pos_id settled)]. by repeat case_match; simpl; rewrite Hl.
    + split; [|split].
      * intros id' _. by rewrite Ht.
      * exists settled. rewrite Ht. by repeat split.
      * exists []. by rewrite Hl, app_nil_r.
  - destruct (db y _) as [z rz] eqn:Ez. destruct (db_patch _ _ _ _ _ _ _ Hy Ez) as (Hl & _ & _ & _ & _ & Ht).
    destruct rz as [p'|]; intros [= <- <-]; (split; [|split; [|exists []; by rewrite Hl, app_nil_r]]).
    + destruct Ht as [-> Ht]. intros id' Hne. rewrite Ht. by rewrite lookup_insert_ne.
    + destruct Ht as [-> Ht]. eexists. rewrite Ht, lookup_insert_eq. by repeat split.
    + intros id' _. by rewrite Ht.
    + exists settled. rewrite Ht. by repeat split.
Qed.

(** The economics of settling [pos] with some gas cost. *)
Definition economics_of (pos : PositionInfo) (req : MarketSettlementRequest) (gas : D) : SettlementEconomics :=
  compute_settlement_economics (pos_shares pos) (pos_total_cost_usd pos) (pos_total_fees_usd pos) gas (pos_token_id pos) (sq_winning_token_id req).

(** Booking a redeemed position and accounting for it. *)
Lemma booked_row x now req pos outcome x' r :
  sv_table x !! pos_id pos = Some pos -> pos_status pos = PosOpen ->
  let economics := economics_of pos req (unwrap_or (ro_gas_paid_usd outcome) d0) in
  bind (persist_position_settlement x req pos economics outcome) (fun x settled => apply_risk_settlement x now req settled economics) = (x', r) ->
  keeps_others (pos_id pos) x x' /\ (exists new, sv_log x' = sv_log x ++ new) /\ exists p, sv_table x' !! pos_id pos = Some p /\
  match r with
  | Ok _ => pos_status p = PosSettled /\ pos_accounting_status p = AcAccounted /\
            pos_settlement_payout_usd p = Some (se_payout_usd economics) /\ pos_realized_pnl p = se_realized_pnl_usd economics
  | Err _ => pos_status p = PosOpen
  end.
Proof.
  intros Hp Ho economics. unfold persist_position_settlement, mark_redeemed. destruct (db x _) as [y ry] eqn:Ey.
  destruct (db_patch _ _ _ _ _ _ _ Hp Ey) as (Hl & _ & _ & _ & _ & Ht). destruct ry as [settled|e]; simpl.
  - destruct Ht as [-> Ht]. intros E. apply accounted_row in E as (Hk & (p & Hrow & _ & Hpay & Hpnl & Hr) & new & Hnew);
      [|simpl; rewrite Ht; by rewrite lookup_insert_eq].
    split; [|split].
    + intros id' Hne. rewrite (Hk id' Hne). simpl. rewrite Ht. by rewrite lookup_insert_ne.
    + exists (SxBooked (pos_id pos) (se_payout_usd economics) (se_realized_pnl_usd economics) (settled_for_mode (position_redeem_mode pos)) :: new).
      rewrite Hnew. simpl. by rewrite Hl, <- app_assoc.
    + exists p. split; [done|]. destruct r; [|by rewrite Hr]. by rewrite Hpay, Hpnl; destruct Hr.
  - intros [= <- <-]. split; [intros id' _; by rewrite Ht|]. split; [exists []; by rewrite Hl, app_nil_r|]. exists pos. by rewrite Ht.
Qed.

Lemma next_attempts a : 0 <= a < i32_max -> unwrap_or (to_i32 (unwrap_or (to_u32 (clampZ i32_min i32_max (a + 1))) u32_max)) i32_max = a + 1.
Proof.
  intros Ha. rewrite clampZ_id by (unfold_ints; lia). unfold to_u32. rewrite checked_in by (unfold_ints; lia). simpl.
  unfold to_i32. by rewrite checked_in by (unfold_ints; lia).
Qed.

(** The row [p] a settlement of [pos] leaves behind, by its result. *)
Definition settle_result x' (req : MarketSettlementRequest) (pos : PositionInfo) (r : Result unit SettleError) (p : PositionInfo) : Prop :=
  match r with
  | Err _ => pos_status p = PosOpen
  | Ok _ =>
      (pos_status p = PosSettled /\ pos_accounting_status p = AcAccounted /\
       (exists gas, pos_settlement_payout_usd p = Some (se_payout_usd (economics_of pos req gas)) /\
                    pos_realized_pnl p = se_realized_pnl_usd (economics_of pos req gas)) /\
       (pos_redeem_status pos = RsPending -> exists result, SxRedeem (pos_id pos) result ∈ sv_log x' /\ redeemed result = true))
      \/ (pos_status p = PosOpen /\ pos_redeem_status p = RsFailed /\ pos_redeem_attempts p = pos_redeem_attempts pos + 1)
  end.

(** Settling a position has three outcomes.  No other row is touched.  On success the position is
    settled and accounted with the payout of its winning shares and that payout less cost, fees
    and gas as its result -- and a position whose redeem was pending was redeemed on chain by the
    client -- or the redeem failed and the position stays open with one more attempt.  On an error
    it stays open. *)
Theorem settlement_outcomes x now req pos x' r :
  sv_table x !! pos_id pos = Some pos -> pos_status pos = PosOpen -> 0 <= pos_redeem_attempts pos ->
  settle_position x now req pos = (x', r) ->
  keeps_others (pos_id pos) x x' /\ exists p, sv_table x' !! pos_id pos = Some p /\
  settle_result x' req pos r p.
Proof.
  intros Hp Ho Ha. unfold settle_position. set (max := unwrap_or _ i32_max).
  assert (max <= i32_max) as Hmax by (unfold max, to_i32, checked; destruct (_ && _) eqn:E; simpl; [zbool; lia | lia]).
  destruct (Z.leb_spec max (pos_redeem_attempts pos)).
  { unfold mark_redeem_terminal. destruct (db x _) as [y ry] eqn:Ey. destruct (db_patch _ _ _ _ _ _ _ Hp Ey) as (_ & _ & _ & _ & _ & Ht).
    destruct ry as [p'|]; simpl; intros [= <- <-].
    - destruct Ht as [-> Ht]. split; [intros id' Hne; simpl; rewrite Ht; by rewrite lookup_insert_ne|].
      eexists. simpl. rewrite Ht, lookup_insert_eq. by split.
    - split; [intros id' _; by rewrite Ht|]. exists pos. by rewrite Ht. }
  unfold redeem_or_record_failure. destruct (redeem_position x req pos) as [y rd] eqn:Ey.
  pose proof Ey as Hspec. apply redeem_position_spec in Hspec as (Hty & _ & _ & Hlog). rewrite <- Hty in Hp.
  assert (forall o, redeemed rd = true -> bind (persist_position_settlement y req pos (economics_of pos req (unwrap_or (ro_gas_paid_usd o) d0)) o)
    (fun x settled => apply_risk_settlement x now req settled (economics_of pos req (unwrap_or (ro_gas_paid_usd o) d0))) = (x', r) ->
    keeps_others (pos_id pos) x x' /\ exists p, sv_table x' !! pos_id pos = Some p /\
    settle_result x' req pos r p) as Hbook.
  { intros o Hrd E. apply booked_row in E as (Hk & [new Hnew] & p & Hrow & Hr); [|done..].
    split; [intros id' Hne; by rewrite (Hk id' Hne), Hty|]. exists p. split; [done|]. destruct r; [|done]. left.
    destruct Hr as (H1 & H2 & H3 & H4). split_and!; try done; [by eexists|]. intros Hpend. exists rd. split; [|done].
    destruct Hlog as [[_ Hf]|[_ Hl]]; [by rewrite Hf in Hrd|]. rewrite Hnew, Hl. set_solver. }
  destruct rd as [o|error]; [simpl; by apply (Hbook o)|]. destruct (is_terminal_success_equivalent error) eqn:Et; [simpl; by apply (Hbook redeem_dry_run)|].
  unfold record_redeem_attempt_failure, record_redeem_failure. destruct (db y _) as [z rz] eqn:Ez.
  destruct (db_patch _ _ _ _ _ _ _ Hp Ez) as (_ & _ & _ & _ & _ & Ht).
  destruct rz as [p'|]; simpl; intros [= <- <-].
  - destruct Ht as [-> Ht].
    split; [intros id' Hne; case_match; simpl; rewrite Ht, Hty; by rewrite lookup_insert_ne|].
    eexists. split; [case_match; simpl; rewrite Ht, lookup_insert_eq; done|]. right. simpl. by rewrite next_attempts by lia.
  - split; [intros id' _; by rewrite Ht, Hty|]. exists pos. by rewrite Ht.
Qed.

(** *** A failed redeem *)

(** Statements do not fail. *)
Definition connected : Prop := forall w : W, (connection w).2 = None.

Lemma db_connected x id patch entity p : connected -> sv_table x !! id = Some p ->
  exists w, db x (fun t => patch_position t id patch entity)
    = (set_table (set_sworld x w) (<[id := apply_patch patch p]> (sv_table x)), Ok (apply_patch patch p)).
Proof.
  intros Hc Hp. unfold db, patch_position. pose proof (Hc (sv_world x)) as Hn. destruct (connection (sv_world x)) as [w o].
  simpl in Hn. subst o. rewrite Hp. by exists w.
Qed.

(** A failed redeem is never repeated.  The first failure stores the status [Failed], and a retry
    takes every status but [Pending] for a simulated position: the client is not asked again, and
    the position is booked with its full payout, marked as needing no redeem, and settled although
    nothing was redeemed on chain. *)
Theorem failed_redeem_is_booked_unredeemed x now req pos plan market :
  connected -> sv_table x !! pos_id pos = Some pos -> pos_redeem_status pos = RsFailed -> redeem_plan pos = Ok plan ->
  registry_market (sv_world x) (sq_market_id req) = Some market ->
  pos_redeem_attempts pos < unwrap_or (to_i32 (max_redeem_attempts (sr_lifecycle (sv_config x)))) i32_max ->
  is_ok (on_market_settled (sv_risk x) now (settlement_input pos (economics_of pos req d0)) (sv_metrics x)).1.2 = true ->
  let '(x', r) := settle_position x now req pos in
  let e := economics_of pos req d0 in
  r = Ok tt /\
  (exists p, sv_table x' !! pos_id pos = Some p /\ pos_status p = PosSettled /\ pos_redeem_status p = RsNotRequired /\
             pos_settlement_payout_usd p = Some (se_payout_usd e)) /\
  sv_log x' = sv_log x ++ [SxBooked (pos_id pos) (se_payout_usd e) (se_realized_pnl_usd e) RsNotRequired; SxAccounted (pos_id pos)].
Proof.
  intros Hc Hp Hs Hplan Hm Ha Hacc. unfold settle_position. rewrite (proj2 (Z.leb_gt _ _)) by done.
  unfold redeem_or_record_failure, redeem_position. rewrite Hplan, Hm. cbn [andb]. unfold position_redeem_mode. rewrite Hs. cbn [bind].
  cbn [ro_gas_paid_usd redeem_dry_run unwrap_or]. fold (economics_of pos req d0). set (e := economics_of pos req d0) in *.
  unfold persist_position_settlement, mark_redeemed, position_redeem_mode. rewrite Hs. cbn [settled_for_mode].
  match goal with |- context [patch_position _ _ ?q _] => destruct (db_connected x (pos_id pos) q "position" pos Hc Hp) as [w ->] end.
  cbn [bind]. unfold apply_risk_settlement. simpl sv_risk. simpl sv_metrics.
  match goal with |- context [settlement_input ?a e] => change (settlement_input a e) with (settlement_input pos e) end.
  destruct (on_market_settled _ _ _ _) as [[eng [report|err]] metrics]; [|done].
  unfold mark_accounted.
  match goal with |- context [db ?y (fun t => patch_position t ?i ?q _)] =>
    destruct (db_connected y i q "position" (apply_patch [SetWinningToken (Some (sq_winning_token_id req)); SetPayout (Some (se_payout_usd e));
      SetRealizedPnl (se_realized_pnl_usd e); SetTxHash None; SetRedeemStatus RsNotRequired; SetTrigger (Some (sq_source req)); SetTerminalReason None;
      SetGasPaid (Some d0); SetAccounting AcRedeemed] pos) Hc) as [w' ->] end; [simpl; by rewrite lookup_insert_eq|].
  cbn [bind]. split; [done|]. split.
  - eexists. split; [repeat case_match; simpl; by rewrite lookup_insert_eq|]. by repeat split.
  - by repeat case_match; simpl; rewrite <- app_assoc.
Qed.

(** *** The sweep *)

(** One position out of attempts stops the retry sweep.  When the first position the sweep looks
    at has used up its redeem attempts, the sweep returns the error: no other position is settled,
    redeemed or accounted for, and the position stays open, so the next sweep meets it again. *)
Theorem terminal_position_stops_sweep x now pos rest winning :
  connected -> pos_winning_token_id pos = Some winning -> sv_table x !! pos_id pos = Some pos -> pos_status pos = PosOpen ->
  find_open_by_market (sv_table x) (pos_market_id pos) = [pos] ->
  unwrap_or (to_i32 (max_redeem_attempts (sr_lifecycle (sv_config x)))) i32_max <= pos_redeem_attempts pos ->
  forall refresh, let '(x', r) := retry_resolved refresh x now (pos :: rest) in
  r = Err MaxAttempts /\ keeps_others (pos_id pos) x x' /\ sv_risk x' = sv_risk x /\
  exists p, sv_table x' !! pos_id pos = Some p /\ pos_status p = PosOpen.
Proof.
  intros Hc Hw Hp Ho Hfind Ha refresh. cbn [retry_resolved]. unfold winning_token_for_retry. rewrite Hw.
  unfold settle_market, query, db at 1. simpl sq_market_id. pose proof (Hc (sv_world x)) as Hn. destruct (connection (sv_world x)) as [w o].
  simpl in Hn. subst o. rewrite Hfind. cbn [bind settle_each]. set (y := set_table (set_sworld x w) (sv_table x)).
  assert (sv_table y !! pos_id pos = Some pos) as Hy by done.
  unfold settle_position. change (sv_config y) with (sv_config x). rewrite (proj2 (Z.leb_le _ _)) by done. unfold mark_redeem_terminal.
  match goal with |- context [db y (fun t => patch_position t ?i ?q _)] => destruct (db_connected y i q "position" pos Hc Hy) as [w' ->] end.
  cbn [bind]. split; [done|]. split; [|split; [done|]].
  - intros id' Hne. simpl. by rewrite lookup_insert_ne.
  - eexists. simpl. rewrite lookup_insert_eq. by split.
Qed.
End Facts.

(** ** Deduplication *)

Section Dedup.

(** Requests processed one after the other. *)
Definition dedup_run (d : SettlementDedup) (calls : list (MarketSettlementRequest * Time)) : SettlementDedup :=
  foldl (fun d '(req, now) => (should_process d req now).1) d calls.

Lemma should_process_window d req now : sd_window_secs (should_process d req now).1 = sd_window_secs d.
Proof. unfold should_process. repeat case_match; simplify_eq; done. Qed.

Lemma remembered_kept d req now key t : sd_inner d !! key = Some t -> seen_recently d now t = true ->
  sd_inner (should_process d req now).1 !! key = Some t.
Proof.
  intros Hk Hs. unfold should_process. set (kept := filter _ _).
  assert (kept !! key = Some t) as Hkept by (apply map_lookup_filter_Some; done).
  destruct (kept !! (sq_market_id req, sq_winning_token_id req)) as [t'|] eqn:E.
  - destruct (seen_recently d now t') eqn:Es; [done|]. simpl. destruct (decide (key = (sq_market_id req, sq_winning_token_id req))) as [->|].
    + rewrite Hkept in E. simplify_eq. congruence.
    + by rewrite lookup_insert_ne.
  - simpl. destruct (decide (key = (sq_market_id req, sq_winning_token_id req))) as [->|]; [congruence | by rewrite lookup_insert_ne].
Qed.

(** A settlement runs at most once in a window.  After a request for a market and winning token
    was admitted, every request for the same market and token within the window is refused,
    whatever other requests come in between. *)
Theorem dedup_once_per_window d req now calls req' now' :
  (should_process d req now).2 = true ->
  sq_market_id req' = sq_market_id req -> sq_winning_token_id req' = sq_winning_token_id req ->
  Forall (fun c => c.2 <= now + sd_window_secs d * nanos_per_sec) calls -> now' <= now + sd_window_secs d * nanos_per_sec ->
  0 <= sd_window_secs d ->
  (should_process (dedup_run (should_process d req now).1 calls) req' now').2 = false.
Proof.
  intros Hadm Hm Ht Hcalls Hnow Hw. set (key := (sq_market_id req, sq_winning_token_id req)).
  assert (sd_inner (should_process d req now).1 !! key = Some now) as Hin.
  { revert Hadm. unfold should_process. repeat case_match; simplify_eq; simpl; intros; try done; by rewrite lookup_insert_eq. }
  assert (sd_window_secs (should_process d req now).1 = sd_window_secs d) as Hwin by apply should_process_window.
  revert Hin Hwin. generalize (should_process d req now).1. clear Hadm. induction Hcalls as [|[q t] calls Hc Hcalls IH]; intros d' Hin Hwin.
  - simpl. unfold should_process. rewrite Hm, Ht. fold key.
    assert (seen_recently d' now' now = true) as Hs by (unfold seen_recently; rewrite Hwin; unfold nanos_per_sec in *; apply Z.leb_le; lia).
    set (kept := filter _ _). assert (kept !! key = Some now) as -> by (apply map_lookup_filter_Some; done). by rewrite Hs.
  - simpl. apply IH.
    + apply remembered_kept; [done|]. unfold seen_recently. rewrite Hwin. simpl in Hc. unfold nanos_per_sec in *. apply Z.leb_le. lia.
    + by rewrite should_process_window.
Qed.
End Dedup.

(** ** The oracle *)

Section OracleFacts.
Context {DO : DecimalOps}.

Definition answered (b : bool) (answers : list (Result (option SourceVote) string)) : Z :=
  Z.of_nat (length (List.filter (fun a => match a with Ok (Some v) => Bool.eqb (vote_actual_yes v) b | _ => false end) answers)).

Lemma votes_counted answers :
  let votes := omap (fun a : Result (option SourceVote) string => match a with Ok v => v | Err _ => None end) answers in
  yes_votes votes = answered true answers /\ Z.of_nat (length votes) - yes_votes votes = answered false answers.
Proof.
  unfold yes_votes, answered. induction answers as [|[[v|]|e] l IH]; simpl; try done. destruct IH as [IH1 IH2].
  unfold omap in IH1, IH2. destruct (vote_actual_yes v); simpl; lia.
Qed.

(** The oracle needs its quorum.  A verdict is given only when at least the quorum of sources
    answered that way; when the quorum is a majority of the sources, fewer than the quorum
    answered the other way; and sources that fail or do not know never count. *)
Theorem oracle_needs_quorum s answers b votes :
  oracle_resolve s answers = Resolved b votes ->
  os_quorum s <= answered b answers /\
  (Z.of_nat (length answers) < 2 * os_quorum s -> answered (negb b) answers < os_quorum s).
Proof.
  destruct (votes_counted answers) as [Hy Hn]. unfold oracle_resolve. set (vs := omap _ answers) in *.
  assert (answered true answers + answered false answers <= Z.of_nat (length answers)) as Hle.
  { unfold answered. clear. induction answers as [|[[v|]|e] l IH]; simpl; try lia. destruct (vote_actual_yes v); simpl; lia. }
  unfold tally_votes. cbv zeta. rewrite Hn, Hy.
  destruct (Z.leb_spec (os_quorum s) (answered true answers)).
  - intros E. assert (b = true) as -> by (repeat case_match; by simplify_eq). simpl. lia.
  - destruct (Z.leb_spec (os_quorum s) (answered false answers)).
    + intros E. assert (b = false) as -> by (repeat case_match; by simplify_eq). simpl. lia.
    + intros E. repeat case_match; simplify_eq.
Qed.

(** With a quorum of one, which validation admits, a disagreement is not disputed: YES wins. *)
Lemma quorum_one_prefers_yes strategy t :
  let vote b := Ok (Some {| vote_source_id := "s"; vote_actual_yes := b; vote_confidence := d1; vote_reported_at := t |}) in
  match oracle_resolve {| os_quorum := 1; os_all_sources_down := strategy |} [vote false; vote false; vote true] with
  | Resolved b _ => b = true
  | _ => False
  end.
Proof. done. Qed.
End OracleFacts.

(** ** A world for the examples

    Statements never fail, the chain client answers from a list and every market is known. *)
Module SettlementDemo.
#[local] Existing Instance ExactQ.exactQ.
#[local] Existing Instance utc_chrono.
#[local] Existing Instance Frozen.metrics.

Definition Replies := list (Result RedeemOutcome RedeemError).

#[local] Instance world : SettlementWorld Replies := {|
  connection := fun w => (w, None);
  chain_redeem := fun w _ => match w with r :: rest => (rest, Some r) | [] => ([], None) end;
  oracle_answers := fun w _ => (w, []);
  latest_outcome := fun w _ => (w, None);
  registry_market := fun _ _ => Some {| rm_token_yes := "y"; rm_token_no := "n"; rm_outcome := Some "yes" |};
  market_resolved := fun _ _ => true
|}.

(** Ten shares bought at one half, in Live mode. *)
Definition position (status : RedeemStatus) (attempts : Z) : PositionInfo := {|
  pos_id := 1; pos_trade_id := 7; pos_market_id := "m"; pos_token_id := "y"; pos_side := Buy; pos_execution_mode := Live;
  pos_shares := (10 # 1)%Q; pos_avg_entry_price := (1 # 2)%Q; pos_total_cost_usd := (5 # 1)%Q; pos_total_fees_usd := d0; pos_unrealized_pnl := d0;
  pos_realized_pnl := d0; pos_status := PosOpen; pos_opened_at := 0; pos_closed_at := None; pos_settled_at := None;
  pos_winning_token_id := Some "y"; pos_settlement_payout_usd := None; pos_redeem_tx_hash := None; pos_redeem_status := status;
  pos_redeem_attempts := attempts; pos_oracle_verdict := None; pos_settlement_trigger := None; pos_accounting_status := AcPending;
  pos_accounting_error := None; pos_accounted_at := None; pos_redeem_terminal_reason := None; pos_redeem_neg_risk := false;
  pos_redeem_route := "standard_ctf"; pos_redeem_holder_address := None; pos_redeem_resolution := ClassStandard;
  pos_redeem_gas_limit := 500000; pos_redeem_gas_paid_usd := None |}.

Definition settler (p : PositionInfo) (replies : Replies) (script : list nat) : Settler (M := RiskMetricsSnapshot) (P := Scripted.Store) (W := Replies) := {|
  sv_table := {[1 := p]}; sv_risk := EngineDemo.engine script; sv_metrics := Demo.metrics; sv_fsm := new_fsm; sv_world := replies;
  sv_config := {| sr_oracle := oracle_default; sr_lifecycle := lifecycle_default; sr_redeem := redeem_default |}; sv_log := [] |}.

Definition request : MarketSettlementRequest := {|
  sq_market_id := "m"; sq_winning_token_id := "y"; sq_winning_outcome := "yes"; sq_source := TrWs; sq_observed_at := 0 |}.

Lemma settlement_outcomes_witness :
  exists p, sv_table (settle_position (settler (position RsPending 0) [Err (ReRpcTimeout "timeout")] []) 1 request (position RsPending 0)).1 !! 1 = Some p
    /\ pos_redeem_status p = RsFailed /\ pos_redeem_attempts p = 1.
Proof.
  set (x := settler _ _ _). destruct (settlement_outcomes x 1 request (position RsPending 0) (settle_position x 1 request (position RsPending 0)).1
    (settle_position x 1 request (position RsPending 0)).2) as (_ & p & Hp & H); [done | done | done | apply surjective_pairing|].
  exists p. split; [exact Hp|]. assert (pos_redeem_status p = RsFailed) as Hf.
  { assert (pos_redeem_status <$> sv_table (settle_position x 1 request (position RsPending 0)).1 !! 1 = Some RsFailed) as Hs by (vm_compute; reflexivity).
    change (pos_id (position RsPending 0)) with 1 in Hp. rewrite Hp in Hs. by injection Hs. }
  split; [done|]. assert (pos_redeem_attempts <$> sv_table (settle_position x 1 request (position RsPending 0)).1 !! 1 = Some 1) as Hs by (vm_compute; reflexivity).
  change (pos_id (position RsPending 0)) with 1 in Hp. rewrite Hp in Hs. by injection Hs.
Defined.

Lemma failed_redeem_is_booked_unredeemed_witness :
  let '(x', r) := settle_position (settler (position RsFailed 1) [] []) 1 request (position RsFailed 1) in
  r = Ok tt /\ exists p, sv_table x' !! 1 = Some p /\ pos_status p = PosSettled /\ pos_redeem_status p = RsNotRequired.
Proof.
  set (x := settler _ _ _). epose proof (failed_redeem_is_booked_unredeemed x 1 request (position RsFailed 1) _ _) as H.
  destruct (settle_position x 1 request (position RsFailed 1)) as [x' r].
  destruct H as (Hr & (p & H1 & H2 & H3 & _) & _); [by intros w | reflexivity | reflexivity | reflexivity | reflexivity | reflexivity | vm_compute; reflexivity|].
  split; [done|]. by exists p.
Defined.

Lemma terminal_position_stops_sweep_witness :
  (retry_resolved (fun m => m) (settler (position RsFailed 5) [] []) 1 [position RsFailed 5]).2 = Err MaxAttempts.
Proof.
  pose proof (terminal_position_stops_sweep (settler (position RsFailed 5) [] []) 1 (position RsFailed 5) [] "y") as H.
  destruct (retry_resolved (fun m => m) (settler (position RsFailed 5) [] []) 1 [position RsFailed 5]) as [x' r] eqn:E.
  specialize (H ltac:(by intros w) eq_refl eq_refl eq_refl ltac:(vm_compute; reflexivity) ltac:(by vm_compute) (fun m => m)).
  rewrite E in H. by destruct H.
Defined.

(** A settlement whose accounting fails to be stored is counted twice.  The engine adds the result
    to its realised total before it stores its state and does not take it back when that fails;
    the position is marked for a retry, and the retry adds the result again. *)
Theorem failed_accounting_counts_twice :
  let x := settler (position RsNotRequired 0) [] [1%nat] in
  let x1 := (settle_position x 1 request (position RsNotRequired 0)).1 in
  let x2 := (retry_accounting x1 2 (find_accounting_retry_candidates (sv_table x1) 5)).1 in
  (e_lifetime_realized (sv_risk x) == 0)%Q /\
  (pos_status <$> sv_table x2 !! 1) = Some PosSettled /\
  (e_lifetime_realized (sv_risk x2) == 10)%Q /\
  (match sv_table x2 !! 1%Z with Some p => pos_realized_pnl p | None => 0 end == 5)%Q.
Proof. vm_compute. done. Qed.

Lemma dedup_once_per_window_witness :
  let d := (should_process {| sd_inner := ∅; sd_window_secs := 30 |} request 0).1 in
  (should_process d request 30000000000).2 = false.
Proof.
  apply (dedup_once_per_window {| sd_inner := ∅; sd_window_secs := 30 |} request 0 [] request 30000000000);
    [vm_compute; reflexivity | done | done | constructor | by vm_compute | by vm_compute].
Defined.

Definition vote (b : bool) : Result (option SourceVote) string :=
  Ok (Some {| vote_source_id := "s"; vote_actual_yes := b; vote_confidence := d1; vote_reported_at := 0 |}).

Lemma oracle_needs_quorum_witness :
  2 <= answered true [vote true; vote false; vote true] /\ answered false [vote true; vote false; vote true] < 2.
Proof.
  destruct (oracle_needs_quorum {| os_quorum := 2; os_all_sources_down := ManualAck |} [vote true; vote false; vote true] true
    (omap (fun a : Result (option SourceVote) string => match a with Ok v => v | Err _ => None end) [vote true; vote false; vote true]))
    as [H1 H2]; [reflexivity|].
  split; [exact H1 | apply H2; by vm_compute].
Defined.
End SettlementDemo.
