(* ===== verification/ScoredSnapshot.v ===== *)
(** * Frozen scoring evidence: [oxide-arb-models/src/domain/trading/scored_snapshot.rs]

    The snapshot that is stored with a trade and read back after the fill, with the builders the
    execution pipeline applies to it.  The floating-point copies of the decimals and the effects as
    JSON are left out. *)

From S2P Require Import Prelude Decimal Config Domain.

(** [models/enums/evidence.rs:7-22] `MissingEvidenceField` *)
Inductive MissingEvidenceField :=
| MfTokenYes | MfTokenNo | MfFillProbability | MfScore | MfBookContext | MfAppliedFactors | MfScoredSnapshot | MfResolutionProb
| MfConfidence | MfPriceZone | MfDurationBucket | MfDepthUsedPct | MfStaleness | MfCategory.

#[global] Instance MissingEvidenceField_eq_dec : EqDecision MissingEvidenceField.
Proof. solve_decision. Defined.

Section Snapshot.
Context {DO : DecimalOps}.

(** [models/domain/trading/scored_snapshot.rs:226-233] `CalibrationEvidenceSnapshot` *)
Record CalibrationEvidenceSnapshot := {
  ce_sample_size : Z; ce_alpha : D; ce_beta : D; ce_mean : D; ce_tier : Z; ce_snapshot_hash : option string }.

(** [models/domain/trading/scored_snapshot.rs:235-246] `From<&CalibrationSnapshot>` *)
Definition calibration_evidence (c : CalibrationSnapshot) : CalibrationEvidenceSnapshot := {|
  ce_sample_size := cal_sample_size c; ce_alpha := cal_alpha_prior c; ce_beta := cal_beta_prior c; ce_mean := cal_posterior_mean c;
  ce_tier := cal_fallback_tier c; ce_snapshot_hash := None |}.

(** [models/domain/trading/scored_snapshot.rs:249-254] `BookEvidenceSnapshot` *)
Record BookEvidenceSnapshot := {
  be_yes_book_version : option Z; be_no_book_version : option Z; be_book_age_ms : option Z; be_context_id : option string }.

(** [models/domain/trading/scored_snapshot.rs:257-261] `AppliedFactorTrace` *)
Record AppliedFactorTrace := { ft_publication_id : option Z; ft_factor_ids : list Z }.

(** [models/domain/trading/scored_snapshot.rs:263-272] `AppliedFactorTrace::known_empty` *)
Definition known_empty : AppliedFactorTrace := {| ft_publication_id := None; ft_factor_ids := [] |}.

(** [models/domain/trading/scored_snapshot.rs:30-68] `ScoredOpportunitySnapshot` *)
Record ScoredOpportunitySnapshot := {
  ss_opportunity_id : OpportunityId;
  ss_market_id : MarketId;
  ss_event_id : EventId;
  ss_token_id : TokenId;
  ss_token_yes : option TokenId;
  ss_token_no : option TokenId;
  ss_side : Side;
  ss_category : MarketCategory;
  ss_entry_price : D;
  ss_edge_bps : D;
  ss_expected_net_profit : D;
  ss_net_profit_if_correct : D;
  ss_shares : D;
  ss_total_cost : D;
  ss_total_fees : D;
  ss_resolution_prob : D;
  ss_confidence : D;
  ss_fill_probability : option Z;
  ss_score : option Z;
  ss_urgency_factor : option Z;
  ss_category_weight : option Z;
  ss_staleness_discount : option Z;
  ss_convergence_secs : Z;
  ss_price_zone : PriceZone;
  ss_duration_bucket : DurationBucket;
  ss_depth_used_pct : D;
  ss_staleness : StalenessLevel;
  ss_calibration : CalibrationEvidenceSnapshot;
  ss_book : option BookEvidenceSnapshot;
  ss_factors : option AppliedFactorTrace;
  ss_missing_fields : list MissingEvidenceField;
  ss_detected_at : Time;
  ss_schema_version : Z
}.

(** [models/domain/trading/scored_snapshot.rs:74-122] `ScoredOpportunitySnapshot::from_opportunity` *)
Definition from_opportunity (opp : Opportunity) : ScoredOpportunitySnapshot := {|
  ss_opportunity_id := opportunity_id opp; ss_market_id := opp_market_id opp; ss_event_id := opp_event_id opp; ss_token_id := opp_token_id opp;
  ss_token_yes := None; ss_token_no := None; ss_side := opp_side opp; ss_category := opp_category opp; ss_entry_price := opp_entry_price opp;
  ss_edge_bps := opp_edge_bps opp; ss_expected_net_profit := expected_net_profit opp; ss_net_profit_if_correct := net_profit opp;
  ss_shares := opp_shares opp; ss_total_cost := total_cost opp; ss_total_fees := total_fees opp; ss_resolution_prob := resolution_adjust opp;
  ss_confidence := meta_confidence (meta opp); ss_fill_probability := None; ss_score := None; ss_urgency_factor := None;
  ss_category_weight := None; ss_staleness_discount := None;
  ss_convergence_secs := unwrap_or (to_u32 (Z.min (convergence_duration_secs (meta opp)) u32_max)) u32_max;
  ss_price_zone := meta_price_zone (meta opp); ss_duration_bucket := meta_duration_bucket (meta opp); ss_depth_used_pct := depth_used_pct opp;
  ss_staleness := staleness opp; ss_calibration := calibration_evidence (calibration opp); ss_book := None; ss_factors := None;
  ss_missing_fields := [MfTokenYes; MfTokenNo; MfFillProbability; MfScore; MfBookContext; MfAppliedFactors];
  ss_detected_at := detected_at opp; ss_schema_version := 2 |}.

(** [models/domain/trading/scored_snapshot.rs:220-222] `ScoredOpportunitySnapshot::remove_missing` *)
Definition remove_missing (l : list MissingEvidenceField) (f : MissingEvidenceField) : list MissingEvidenceField :=
  filter (fun g => g <> f) l.

Definition update_snapshot (s : ScoredOpportunitySnapshot) yes no fill score urgency weight discount book factors missing : ScoredOpportunitySnapshot := {|
  ss_opportunity_id := ss_opportunity_id s; ss_market_id := ss_market_id s; ss_event_id := ss_event_id s; ss_token_id := ss_token_id s;
  ss_token_yes := yes; ss_token_no := no; ss_side := ss_side s; ss_category := ss_category s; ss_entry_price := ss_entry_price s;
  ss_edge_bps := ss_edge_bps s; ss_expected_net_profit := ss_expected_net_profit s; ss_net_profit_if_correct := ss_net_profit_if_correct s;
  ss_shares := ss_shares s; ss_total_cost := ss_total_cost s; ss_total_fees := ss_total_fees s; ss_resolution_prob := ss_resolution_prob s;
  ss_confidence := ss_confidence s; ss_fill_probability := fill; ss_score := score; ss_urgency_factor := urgency;
  ss_category_weight := weight; ss_staleness_discount := discount; ss_convergence_secs := ss_convergence_secs s;
  ss_price_zone := ss_price_zone s; ss_duration_bucket := ss_duration_bucket s; ss_depth_used_pct := ss_depth_used_pct s;
  ss_staleness := ss_staleness s; ss_calibration := ss_calibration s; ss_book := book; ss_factors := factors;
  ss_missing_fields := missing; ss_detected_at := ss_detected_at s; ss_schema_version := ss_schema_version s |}.

(** [models/domain/trading/scored_snapshot.rs:125-142] `ScoredOpportunitySnapshot::with_score_components` *)
Definition with_score_components (s : ScoredOpportunitySnapshot) (fill score urgency weight discount : Z) : ScoredOpportunitySnapshot :=
  update_snapshot s (ss_token_yes s) (ss_token_no s) (Some fill) (Some score) (Some urgency) (Some weight) (Some discount) (ss_book s)
    (ss_factors s) (remove_missing (remove_missing (ss_missing_fields s) MfFillProbability) MfScore).

(** [models/domain/trading/scored_snapshot.rs:145-166] `ScoredOpportunitySnapshot::with_book_context` *)
Definition with_book_context (s : ScoredOpportunitySnapshot) (yes no : TokenId) (yes_version no_version : Z) (age : option Z) (context : option string)
    : ScoredOpportunitySnapshot :=
  update_snapshot s (Some yes) (Some no) (ss_fill_probability s) (ss_score s) (ss_urgency_factor s) (ss_category_weight s)
    (ss_staleness_discount s)
    (Some {| be_yes_book_version := Some yes_version; be_no_book_version := Some no_version; be_book_age_ms := age; be_context_id := context |})
    (ss_factors s) (remove_missing (remove_missing (remove_missing (ss_missing_fields s) MfTokenYes) MfTokenNo) MfBookContext).

Definition set_factors (s : ScoredOpportunitySnapshot) (f : AppliedFactorTrace) (missing : list MissingEvidenceField) : ScoredOpportunitySnapshot :=
  update_snapshot s (ss_token_yes s) (ss_token_no s) (ss_fill_probability s) (ss_score s) (ss_urgency_factor s) (ss_category_weight s)
    (ss_staleness_discount s) (ss_book s) (Some f) missing.

(** [models/domain/trading/scored_snapshot.rs:169-175] `ScoredOpportunitySnapshot::with_publication` *)
Definition with_publication (s : ScoredOpportunitySnapshot) (publication : Z) : ScoredOpportunitySnapshot :=
  set_factors s {| ft_publication_id := Some publication; ft_factor_ids := ft_factor_ids (unwrap_or (ss_factors s) known_empty) |}
    (remove_missing (ss_missing_fields s) MfAppliedFactors).

(** [models/domain/trading/scored_snapshot.rs:178-181] `ScoredOpportunitySnapshot::with_known_empty_factor_trace` *)
Definition with_known_empty_factor_trace (s : ScoredOpportunitySnapshot) : ScoredOpportunitySnapshot :=
  set_factors s known_empty (ss_missing_fields s).

(** [models/domain/trading/scored_snapshot.rs:189-209] `ScoredOpportunitySnapshot::with_applied_control_factors` *)
Definition with_applied_control_factors (s : ScoredOpportunitySnapshot) (publication : option Z) (applied : list AppliedControlFactor)
    : ScoredOpportunitySnapshot :=
  set_factors s {| ft_publication_id := publication; ft_factor_ids := af_factor_id <$> applied |}
    (remove_missing (ss_missing_fields s) MfAppliedFactors).

(** [models/domain/trading/scored_snapshot.rs:212-218] `ScoredOpportunitySnapshot::calibration_bucket_key` *)
Definition calibration_bucket_key (s : ScoredOpportunitySnapshot) : BucketKey := {|
  bk_category := ss_category s; bk_price_zone := ss_price_zone s; bk_duration_bucket := ss_duration_bucket s |}.

(** ** What a snapshot says is missing is missing *)

Definition absent {A} (o : option A) : Prop := o = None.

(** The listed fields are those without a value. *)
Record missing_honest (s : ScoredOpportunitySnapshot) : Prop := {
  honest_yes : MfTokenYes ∈ ss_missing_fields s <-> absent (ss_token_yes s);
  honest_no : MfTokenNo ∈ ss_missing_fields s <-> absent (ss_token_no s);
  honest_fill : MfFillProbability ∈ ss_missing_fields s <-> absent (ss_fill_probability s);
  honest_score : MfScore ∈ ss_missing_fields s <-> absent (ss_score s);
  honest_book : MfBookContext ∈ ss_missing_fields s <-> absent (ss_book s);
  honest_factors : MfAppliedFactors ∈ ss_missing_fields s <-> absent (ss_factors s)
}.

Lemma elem_of_remove l f g : g ∈ remove_missing l f <-> g <> f /\ g ∈ l.
Proof. unfold remove_missing. rewrite list_elem_of_filter. tauto. Qed.

Ltac honest H := destruct H; split; simpl; unfold absent in *; rewrite ?elem_of_remove; intuition (done || congruence).

Lemma from_opportunity_honest opp : missing_honest (from_opportunity opp).
Proof. split; simpl; split; try done; intros _; set_solver. Qed.

Lemma with_score_honest s a b c d e : missing_honest s -> missing_honest (with_score_components s a b c d e).
Proof. intros H. honest H. Qed.

Lemma with_book_honest s a b c d e f : missing_honest s -> missing_honest (with_book_context s a b c d e f).
Proof. intros H. honest H. Qed.

Lemma with_applied_honest s p l : missing_honest s -> missing_honest (with_applied_control_factors s p l).
Proof. intros H. honest H. Qed.

(** The snapshot the pipeline stores names nothing as missing. *)
Lemma pipeline_snapshot_complete opp fill score urgency weight discount yes no yv nv p l age ctx :
  ss_missing_fields (with_book_context (with_applied_control_factors (with_book_context
    (with_score_components (from_opportunity opp) fill score urgency weight discount) yes no yv nv None None) p l) yes no yv nv age ctx) = [].
Proof. done. Qed.

(** A trace that is known to be empty stays listed as missing. *)
Lemma known_empty_still_missing s : MfAppliedFactors ∈ ss_missing_fields s ->
  ~ missing_honest (with_known_empty_factor_trace s).
Proof. intros Hin [_ _ _ _ _ [H _]]. by specialize (H Hin). Qed.
End Snapshot.
