(* ===== verification/TradeStore.v ===== *)
(** * The trade table: [oxide-arb-repository/src/postgres/trading/trade.rs]

    The row of a trade, the conditional updates the repository issues on it and the queries of the
    execution pipeline, the relay and the reconciliation worker.  An update names the columns it
    sets, as the code does.  Rows of equal creation time come in some order; a failing connection is
    a matter of the caller's interface; the [updated_at] column, set by the database, is left out. *)

From stdpp Require Import sorting.
From S2P Require Import Prelude Decimal Config Domain RiskTypes ScoredSnapshot Execution ExecutionPipeline.

#[global] Instance TradeState_eq_dec : EqDecision TradeState.
Proof. solve_decision. Defined.

(** ** States *)

(** [models/enums/common.rs:186-191] `TradeState::is_unprocessed` *)
Definition is_unprocessed (s : TradeState) : bool :=
  match s with TsFillObserved | TsMissObserved | TsFailObserved => true | _ => false end.

(** [models/enums/common.rs:195-200] `TradeState::is_processing` *)
Definition is_processing (s : TradeState) : bool :=
  match s with TsFillProcessing | TsMissProcessing | TsFailProcessing => true | _ => false end.

(** [models/enums/common.rs:204-211] `TradeState::processed_terminal` *)
Definition processed_terminal (s : TradeState) : option TradeState :=
  match s with
  | TsFillObserved | TsFillProcessing => Some TsSettled
  | TsMissObserved | TsMissProcessing => Some TsMissed
  | TsFailObserved | TsFailProcessing => Some TsFailed
  | _ => None
  end.

(** [models/enums/common.rs:215-228] `TradeState::business_outcome` *)
Definition business_outcome (s : TradeState) : option TradeBusinessOutcome :=
  match s with
  | TsFillObserved | TsFillProcessing | TsSettled => Some Success
  | TsMissObserved | TsMissProcessing | TsMissed => Some Miss
  | TsFailObserved | TsFailProcessing | TsFailed => Some Failed
  | TsIntent | TsSubmitted | TsOrphaned => None
  end.

(** [models/enums/common.rs:232-237] `TradeState::is_success` *)
Definition state_is_success (s : TradeState) : bool :=
  match s with TsFillObserved | TsFillProcessing | TsSettled => true | _ => false end.

(** [models/enums/common.rs:106-114] `TradeReconcileResolution` *)
Inductive TradeReconcileResolution := TrFilled | TrMiss | TrUnresolvable.

(** ** Rows *)

Section Rows.
Context {DO : DecimalOps}.

(** [models/domain/trading/trade.rs:30-72] `TradeInfo`; the stored snapshot is what it decodes to *)
Record TradeInfo := {
  ti_trade_id : TradeId;
  ti_execution_id : ExecutionId;
  ti_reservation_id : ReservationId;
  ti_opportunity_id : OpportunityId;
  ti_market_id : MarketId;
  ti_event_id : EventId;
  ti_token_id : TokenId;
  ti_side : Side;
  ti_shares : D;
  ti_price : D;
  ti_cost_usd : D;
  ti_fee_usd : D;
  ti_detected_edge_bps : option D;
  ti_detected_profit_usd : option D;
  ti_net_profit_usd : option D;
  ti_order_id : option OrderId;
  ti_tx_hash : option string;
  ti_state : TradeState;
  ti_business_outcome : option TradeBusinessOutcome;
  ti_scored_snapshot : Result ScoredOpportunitySnapshot string;
  ti_category : MarketCategory;
  ti_needs_reconcile : bool;
  ti_reconcile_resolution : option TradeReconcileResolution;
  ti_reconciled_at : option Time;
  ti_reconcile_note : option string;
  ti_pre_submit_ctf_balance : option D;
  ti_reconcile_attempts : Z;
  ti_reconcile_defer_until : option Time;
  ti_post_trade_claim_owner : option string;
  ti_post_trade_claimed_at : option Time;
  ti_post_trade_attempts : Z;
  ti_execution_mode : ExecutionMode;
  ti_latency_ms : option Z;
  ti_error_message : option string;
  ti_submitted_at : option Time;
  ti_confirmed_at : option Time;
  ti_created_at : Time
}.

(** [models/domain/trading/trade.rs:128-141] `PostTradeInput::from_trade_info` *)
Definition from_trade_info (t : TradeInfo) : option PostTradeInput :=
  match ti_business_outcome t with
  | None => None
  | Some outcome => Some {|
      pt_trade_id := ti_trade_id t; pt_market_id := ti_market_id t; pt_token_id := ti_token_id t; pt_side := ti_side t; pt_outcome := outcome;
      pt_cost_usd := ti_cost_usd t; pt_fee_usd := ti_fee_usd t; pt_net_profit_usd := ti_net_profit_usd t; pt_shares := ti_shares t;
      pt_entry_price := ti_price t |}
  end.

(** The columns an update sets. *)
Inductive TradeColumn :=
| CState (s : TradeState)
| COutcome (o : option TradeBusinessOutcome)
| CEconomics (shares price cost fee : D)
| CVenue (order : option OrderId) (tx : option string) (net : option D) (latency : option Z) (error : option string) (confirmed : option Time)
| CNeedsReconcile (b : bool)
| CResolution (r : TradeReconcileResolution) (at_ : Time) (note : string)
| CDeferUntil (t : option Time)
| CDeferNote (note : string)
| CBumpReconcile
| CClaim (owner : option string) (at_ : option Time)
| CBumpClaims
| CSubmittedAt (t : Time)
| CBalance (b : D).

Fixpoint col {A} (f : TradeColumn -> option A) (cols : list TradeColumn) (default : A) : A :=
  match cols with
  | [] => default
  | c :: rest => match f c with Some a => a | None => col f rest default end
  end.

(** The row after an update of the columns. *)
Definition set_columns (cols : list TradeColumn) (t : TradeInfo) : TradeInfo := {|
  ti_trade_id := ti_trade_id t; ti_execution_id := ti_execution_id t; ti_reservation_id := ti_reservation_id t;
  ti_opportunity_id := ti_opportunity_id t; ti_market_id := ti_market_id t; ti_event_id := ti_event_id t; ti_token_id := ti_token_id t;
  ti_side := ti_side t;
  ti_shares := col (fun c => match c with CEconomics a _ _ _ => Some a | _ => None end) cols (ti_shares t);
  ti_price := col (fun c => match c with CEconomics _ a _ _ => Some a | _ => None end) cols (ti_price t);
  ti_cost_usd := col (fun c => match c with CEconomics _ _ a _ => Some a | _ => None end) cols (ti_cost_usd t);
  ti_fee_usd := col (fun c => match c with CEconomics _ _ _ a => Some a | _ => None end) cols (ti_fee_usd t);
  ti_detected_edge_bps := ti_detected_edge_bps t; ti_detected_profit_usd := ti_detected_profit_usd t;
  ti_net_profit_usd := col (fun c => match c with CVenue _ _ a _ _ _ => Some a | _ => None end) cols (ti_net_profit_usd t);
  ti_order_id := col (fun c => match c with CVenue a _ _ _ _ _ => Some a | _ => None end) cols (ti_order_id t);
  ti_tx_hash := col (fun c => match c with CVenue _ a _ _ _ _ => Some a | _ => None end) cols (ti_tx_hash t);
  ti_state := col (fun c => match c with CState a => Some a | _ => None end) cols (ti_state t);
  ti_business_outcome := col (fun c => match c with COutcome a => Some a | _ => None end) cols (ti_business_outcome t);
  ti_scored_snapshot := ti_scored_snapshot t; ti_category := ti_category t;
  ti_needs_reconcile := col (fun c => match c with CNeedsReconcile a => Some a | _ => None end) cols (ti_needs_reconcile t);
  ti_reconcile_resolution := col (fun c => match c with CResolution a _ _ => Some (Some a) | _ => None end) cols (ti_reconcile_resolution t);
  ti_reconciled_at := col (fun c => match c with CResolution _ a _ => Some (Some a) | _ => None end) cols (ti_reconciled_at t);
  ti_reconcile_note :=
    col (fun c => match c with CResolution _ _ a => Some (Some a) | CDeferNote a => Some (Some a) | _ => None end) cols (ti_reconcile_note t);
  ti_pre_submit_ctf_balance := col (fun c => match c with CBalance a => Some (Some a) | _ => None end) cols (ti_pre_submit_ctf_balance t);
  ti_reconcile_attempts := col (fun c => match c with CBumpReconcile => Some (ti_reconcile_attempts t + 1) | _ => None end) cols (ti_reconcile_attempts t);
  ti_reconcile_defer_until := col (fun c => match c with CDeferUntil a => Some a | _ => None end) cols (ti_reconcile_defer_until t);
  ti_post_trade_claim_owner := col (fun c => match c with CClaim a _ => Some a | _ => None end) cols (ti_post_trade_claim_owner t);
  ti_post_trade_claimed_at := col (fun c => match c with CClaim _ a => Some a | _ => None end) cols (ti_post_trade_claimed_at t);
  ti_post_trade_attempts := col (fun c => match c with CBumpClaims => Some (ti_post_trade_attempts t + 1) | _ => None end) cols (ti_post_trade_attempts t);
  ti_execution_mode := ti_execution_mode t;
  ti_latency_ms := col (fun c => match c with CVenue _ _ _ a _ _ => Some a | _ => None end) cols (ti_latency_ms t);
  ti_error_message := col (fun c => match c with CVenue _ _ _ _ a _ => Some a | _ => None end) cols (ti_error_message t);
  ti_submitted_at := col (fun c => match c with CSubmittedAt a => Some (Some a) | _ => None end) cols (ti_submitted_at t);
  ti_confirmed_at := col (fun c => match c with CVenue _ _ _ _ _ a => Some a | _ => None end) cols (ti_confirmed_at t);
  ti_created_at := ti_created_at t |}.
End Rows.

(** ** Updates *)

Section Store.
Context {DO : DecimalOps}.
Abbreviation Table := (gmap TradeId TradeInfo).

Inductive TradeError := Duplicate | StaleData (message : string).

(** [update_many().filter(trade_id).filter(..)]: the rows affected are none or one. *)
Definition update_where (t : Table) (id : TradeId) (cond : TradeInfo -> bool) (cols : list TradeColumn) : Table * bool :=
  match t !! id with
  | Some row => if cond row then (<[id := set_columns cols row]> t, true) else (t, false)
  | None => (t, false)
  end.

Definition in_state (s : TradeState) (row : TradeInfo) : bool := bool_decide (ti_state row = s).

(** [repo/postgres/trading/trade.rs:77-84] `do_create`; the columns that are not given have their defaults *)
Definition do_create (t : Table) (new : NewTrade) (snapshot : Result ScoredOpportunitySnapshot string) (now : Time) : Table * Result TradeInfo TradeError :=
  match t !! nt_trade_id new with
  | Some _ => (t, Err Duplicate)
  | None =>
      let row := {|
        ti_trade_id := nt_trade_id new; ti_execution_id := nt_execution_id new; ti_reservation_id := nt_reservation_id new;
        ti_opportunity_id := nt_opportunity_id new; ti_market_id := nt_market_id new; ti_event_id := nt_event_id new;
        ti_token_id := nt_token_id new; ti_side := nt_side new; ti_shares := nt_shares new; ti_price := nt_price new;
        ti_cost_usd := nt_cost_usd new; ti_fee_usd := nt_fee_usd new; ti_detected_edge_bps := nt_detected_edge_bps new;
        ti_detected_profit_usd := nt_detected_profit_usd new; ti_net_profit_usd := None; ti_order_id := None; ti_tx_hash := None;
        ti_state := TsIntent; ti_business_outcome := None; ti_scored_snapshot := snapshot; ti_category := nt_category new;
        ti_needs_reconcile := false; ti_reconcile_resolution := None; ti_reconciled_at := None; ti_reconcile_note := None;
        ti_pre_submit_ctf_balance := None; ti_reconcile_attempts := 0; ti_reconcile_defer_until := None; ti_post_trade_claim_owner := None;
        ti_post_trade_claimed_at := None; ti_post_trade_attempts := 0; ti_execution_mode := nt_execution_mode new; ti_latency_ms := None;
        ti_error_message := None; ti_submitted_at := None; ti_confirmed_at := None; ti_created_at := now |} in
      (<[nt_trade_id new := row]> t, Ok row)
  end.

(** [repo/postgres/trading/trade.rs:129-143] `do_mark_submitted` *)
Definition do_mark_submitted (t : Table) (id : TradeId) (at_ : Time) : Table * bool :=
  update_where t id (in_state TsIntent) [CState TsSubmitted; CSubmittedAt at_].

(** The columns of an observation. *)
Definition observation_columns (obs : TradeObservation) (confirmed_at : Time) : list TradeColumn :=
  [CState (ob_state obs); COutcome (business_outcome (ob_state obs)); CEconomics (ob_shares obs) (ob_price obs) (ob_cost_usd obs) (ob_fee_usd obs);
   CVenue (ob_order_id obs) (ob_tx_hash obs) (ob_net_profit_usd obs) (ob_latency_ms obs) (ob_error_message obs) (Some confirmed_at)].

(** [repo/postgres/trading/trade.rs:145-184] `do_mark_observed` *)
Definition do_mark_observed (t : Table) (id : TradeId) (obs : TradeObservation) (confirmed_at : Time) : Table * Result unit TradeError :=
  if is_unprocessed (ob_state obs) then
    match update_where t id (in_state TsSubmitted) (observation_columns obs confirmed_at) with
    | (t, true) => (t, Ok tt)
    | (t, false) => (t, Err (StaleData "trade was not in submitted state"))
    end
  else (t, Err (StaleData "trade observation state is not claimable")).

(** An orphan whose reconciliation is not decided. *)
Definition unresolved (row : TradeInfo) : bool :=
  ti_needs_reconcile row && match ti_reconcile_resolution row with None => true | Some _ => false end.

(** [repo/postgres/trading/trade.rs:186-229] `do_mark_reconciled_observed` *)
Definition do_mark_reconciled_observed (t : Table) (id : TradeId) (obs : TradeObservation) (confirmed_at : Time) (resolution : TradeReconcileResolution)
    (note : string) (now : Time) : Table * Result bool TradeError :=
  if is_unprocessed (ob_state obs) then
    let '(t, applied) := update_where t id (fun row => in_state TsOrphaned row && unresolved row)
      (observation_columns obs confirmed_at ++ [CNeedsReconcile false; CResolution resolution now note]) in
    (t, Ok applied)
  else (t, Err (StaleData "reconciled observation state is not claimable")).

(** [repo/postgres/trading/trade.rs:300-316] `claimable_condition` *)
Definition claimable (lease_expired_before : Time) (row : TradeInfo) : bool :=
  is_unprocessed (ti_state row)
  || (is_processing (ti_state row) && match ti_post_trade_claimed_at row with Some at_ => at_ <? lease_expired_before | None => false end).

(** [order_by_asc(key)] *)
Definition by_key (key : TradeInfo -> Z) (a b : TradeInfo) : Prop := key a <= key b.

#[local] Instance by_key_dec key a b : Decision (by_key key a b).
Proof. apply Z_le_dec. Defined.

Definition order_by (key : TradeInfo -> Z) (l : list TradeInfo) : list TradeInfo := merge_sort (by_key key) l.

Definition rows (t : Table) (f : TradeInfo -> bool) : list TradeInfo := List.filter f (map_to_list t).*2.

Definition oldest_first (l : list TradeInfo) : list TradeInfo := order_by ti_created_at l.

(** The state a row is claimed into. *)
Definition claimed_state (s : TradeState) : option TradeState :=
  match s with
  | TsFillObserved | TsFillProcessing => Some TsFillProcessing
  | TsMissObserved | TsMissProcessing => Some TsMissProcessing
  | TsFailObserved | TsFailProcessing => Some TsFailProcessing
  | _ => None
  end.

(** [repo/postgres/trading/trade.rs:318-350] `update_claimed_group`, one row of its group *)
Definition claim_row (owner : string) (at_ : Time) (row : TradeInfo) : TradeInfo :=
  match claimed_state (ti_state row) with
  | Some s => set_columns [CState s; CClaim (Some owner) (Some at_); CBumpClaims] row
  | None => row
  end.

(** [repo/postgres/trading/trade.rs:231-298] `do_claim_unprocessed`, when no other transaction holds a row *)
Definition do_claim_unprocessed (t : Table) (limit : nat) (owner : string) (claimed_at lease_expired_before : Time) : Table * list TradeInfo :=
  let picked := take limit (oldest_first (rows t (claimable lease_expired_before))) in
  let claimed := claim_row owner claimed_at <$> picked in
  (foldl (fun t row => <[ti_trade_id row := row]> t) t claimed, claimed).

(** [repo/postgres/trading/trade.rs:352-375] `do_advance_state` *)
Definition do_advance_state (t : Table) (id : TradeId) (from to : TradeState) : Table * bool :=
  update_where t id (in_state from) [CState to; COutcome (business_outcome to); CClaim None None].

(** [repo/postgres/trading/trade.rs:377-394] `do_mark_orphaned` *)
Definition do_mark_orphaned (t : Table) (id : TradeId) : Table * bool :=
  update_where t id (in_state TsSubmitted) [CState TsOrphaned; COutcome None; CNeedsReconcile true].

(** [repo/postgres/trading/trade.rs:533-553] `do_record_reconcile_defer` *)
Definition do_record_reconcile_defer (t : Table) (id : TradeId) (until : Time) (note : string) : Table * bool :=
  update_where t id unresolved [CBumpReconcile; CDeferUntil (Some until); CDeferNote note].

(** [repo/postgres/trading/trade.rs:555-568] `do_set_pre_submit_ctf_balance` *)
Definition do_set_pre_submit_ctf_balance (t : Table) (id : TradeId) (balance : D) : Table * bool :=
  update_where t id (in_state TsSubmitted) [CBalance balance].

(** [repo/postgres/trading/trade.rs:570-603] `do_close_unresolvable_terminal` *)
Definition do_close_unresolvable_terminal (t : Table) (id : TradeId) (note operator : string) (now : Time) : Table * bool :=
  update_where t id (fun row => in_state TsOrphaned row && unresolved row)
    [CState TsFailed; COutcome (business_outcome TsFailed); CNeedsReconcile false; CResolution TrUnresolvable now (operator +:+ ": " +:+ note);
     CDeferUntil None].

(** [repo/postgres/trading/trade.rs:605-623] `do_mark_reconciled` *)
Definition do_mark_reconciled (t : Table) (id : TradeId) (resolution : TradeReconcileResolution) (note : string) (now : Time) : Table * bool :=
  update_where t id unresolved [CResolution resolution now note].

(** ** Queries *)

(** [repo/postgres/trading/trade.rs:396-410] `do_find_stale_submitted`, rows of equal time in some order *)
Definition do_find_stale_submitted (t : Table) (older_than : Time) (limit : nat) : list TradeInfo :=
  take limit (order_by (fun row => unwrap_or (ti_submitted_at row) 0)
    (rows t (fun row => in_state TsSubmitted row && match ti_submitted_at row with Some at_ => at_ <? older_than | None => false end))).

(** [repo/postgres/trading/trade.rs:412-434] `do_find_needs_reconcile` *)
Definition do_find_needs_reconcile (t : Table) (limit offset : nat) (now : Time) : list TradeInfo :=
  take limit (drop offset (oldest_first (rows t (fun row => unresolved row
    && match ti_reconcile_defer_until row with Some at_ => at_ <=? now | None => true end)))).

(** [repo/postgres/trading/trade.rs:437-443] `blocking_admission_filter` *)
Definition blocking_admission (row : TradeInfo) : bool :=
  in_state TsIntent row || in_state TsSubmitted row || in_state TsOrphaned row || ti_needs_reconcile row.

(** [repo/postgres/trading/trade.rs:446-454] `reservation_obligation_filter` *)
Definition reservation_obligation (row : TradeInfo) : bool :=
  in_state TsIntent row || in_state TsSubmitted row || in_state TsOrphaned row || in_state TsFillObserved row || in_state TsFillProcessing row
  || ti_needs_reconcile row.

Definition count (t : Table) (f : TradeInfo -> bool) : Z := Z.of_nat (length (rows t f)).

(** [repo/postgres/trading/trade.rs:456-462] `do_count_blocking_trades` *)
Definition do_count_blocking_trades (t : Table) : Z := count t blocking_admission.

(** [repo/postgres/trading/trade.rs:464-477] `do_find_reservation_obligations` *)
Definition do_find_reservation_obligations (t : Table) (limit : nat) : list TradeInfo :=
  take limit (oldest_first (rows t reservation_obligation)).

(** [repo/postgres/trading/trade.rs:479-486] `do_count_needs_reconcile` *)
Definition do_count_needs_reconcile (t : Table) : Z := count t unresolved.

(** [repo/postgres/trading/trade.rs:488-494] `do_count_intent_orphans` *)
Definition do_count_intent_orphans (t : Table) : Z := count t (in_state TsIntent).

(** [repo/postgres/trading/trade.rs:496-516] `do_oldest_blocking_age_secs` *)
Definition do_oldest_blocking_age_secs (t : Table) (now : Time) : Z :=
  match oldest_first (rows t blocking_admission) with
  | [] => 0
  | row :: _ => unwrap_or (to_u64 (Z.max (Z.quot (now - ti_created_at row) nanos_per_sec) 0)) u64_max
  end.

(** [repo/postgres/trading/trade.rs:518-531] `do_count_competing_pending_reconcile` *)
Definition do_count_competing_pending_reconcile (t : Table) (market : MarketId) (submitted_at : option Time) : Z :=
  count t (fun row => bool_decide (ti_market_id row = market) && unresolved row
    && match submitted_at with Some _ => bool_decide (ti_submitted_at row = submitted_at) | None => true end).

(** ** Facts *)

Lemma elem_of_rows t f row : row ∈ rows t f <-> f row = true /\ exists id, t !! id = Some row.
Proof.
  unfold rows. rewrite list_elem_of_In, filter_In, <- list_elem_of_In, list_elem_of_fmap. split.
  - intros [([id q] & -> & Hin) Hf]. apply elem_of_map_to_list in Hin. eauto.
  - intros [Hf [id Hid]]. split; [|done]. exists (id, row). split; [done|]. by apply elem_of_map_to_list.
Qed.

Lemma elem_of_order_by key l row : row ∈ order_by key l <-> row ∈ l.
Proof. unfold order_by. by rewrite (merge_sort_Permutation (by_key key) l). Qed.

Lemma update_where_lookup t id cond cols id' :
  (update_where t id cond cols).1 !! id' = t !! id' \/
  (id' = id /\ exists row, t !! id = Some row /\ cond row = true /\ (update_where t id cond cols).1 !! id' = Some (set_columns cols row)).
Proof.
  unfold update_where. destruct (t !! id) as [row|] eqn:E; [|by left]. destruct (cond row) eqn:Ec; [|by left]. simpl.
  destruct (decide (id' = id)) as [->|Hne]; [|left; by rewrite lookup_insert_ne].
  right. split; [done|]. exists row. by rewrite lookup_insert_eq.
Qed.

(** Rows are stored under their identifier. *)
Definition keyed (t : Table) : Prop := forall id row, t !! id = Some row -> ti_trade_id row = id.

Lemma rows_nodup t f : keyed t -> NoDup (ti_trade_id <$> rows t f).
Proof.
  intros Hk. assert (NoDup (ti_trade_id <$> (map_to_list t).*2)) as Hnd.
  { rewrite <- list_fmap_compose. erewrite list_fmap_ext; [apply NoDup_fst_map_to_list|].
    intros i [id row] Hi. simpl. apply Hk. apply elem_of_map_to_list. by apply list_elem_of_lookup_2 in Hi. }
  unfold rows. induction (map_to_list t).*2 as [|row l IH]; [constructor|]. simpl in *. apply NoDup_cons in Hnd as [Hn Hnd].
  destruct (f row); [|auto]. simpl. apply NoDup_cons. split; [|auto]. intros Hin. apply Hn.
  apply list_elem_of_fmap in Hin as (r & -> & Hr). apply list_elem_of_fmap. exists r. split; [done|].
  apply list_elem_of_In, filter_In in Hr as [Hr _]. by apply list_elem_of_In.
Qed.

Definition put (t : Table) (l : list TradeInfo) : Table := foldl (fun t row => <[ti_trade_id row := row]> t) t l.

Lemma put_out t l id : id ∉ ti_trade_id <$> l -> put t l !! id = t !! id.
Proof.
  revert t. induction l as [|row l IH]; intros t Hn; [done|]. simpl in *. apply not_elem_of_cons in Hn as [Hne Hn].
  unfold put in *. simpl. rewrite IH by done. by rewrite lookup_insert_ne.
Qed.

Lemma put_in t l row : NoDup (ti_trade_id <$> l) -> row ∈ l -> put t l !! ti_trade_id row = Some row.
Proof.
  revert t. induction l as [|r l IH]; intros t Hnd Hin; [by apply not_elem_of_nil in Hin|]. simpl in Hnd. apply NoDup_cons in Hnd as [Hn Hnd].
  unfold put in *. simpl. apply elem_of_cons in Hin as [->|Hin]; [|by apply IH].
  fold (put (<[ti_trade_id r := r]> t) l). rewrite put_out by done. by rewrite lookup_insert_eq.
Qed.

Lemma claim_row_id owner at_ row : ti_trade_id (claim_row owner at_ row) = ti_trade_id row.
Proof. unfold claim_row. by case_match. Qed.

(** The rows a claim picks. *)
Definition picked (t : Table) (limit : nat) (lease : Time) : list TradeInfo := take limit (oldest_first (rows t (claimable lease))).

Lemma elem_of_picked t limit lease r : keyed t -> r ∈ picked t limit lease -> claimable lease r = true /\ t !! ti_trade_id r = Some r.
Proof.
  intros Hk Hr. assert (r ∈ rows t (claimable lease)) as [Hc [i Hi]]%elem_of_rows.
  { apply (elem_of_order_by ti_created_at). fold (oldest_first (rows t (claimable lease))).
    rewrite <- (take_drop limit (oldest_first _)). apply elem_of_app. by left. }
  split; [done|]. by rewrite (Hk _ _ Hi).
Qed.

Lemma claimed_nodup t limit owner at_ lease : keyed t -> NoDup (ti_trade_id <$> (claim_row owner at_ <$> picked t limit lease)).
Proof.
  intros Hk. rewrite <- list_fmap_compose. erewrite list_fmap_ext; [|intros i r _; apply claim_row_id].
  assert (NoDup (ti_trade_id <$> oldest_first (rows t (claimable lease)))) as Hn.
  { unfold oldest_first, order_by. rewrite (merge_sort_Permutation (by_key ti_created_at)). by apply rows_nodup. }
  unfold picked. rewrite <- (take_drop limit (oldest_first _)), fmap_app in Hn. by apply NoDup_app in Hn as [Hn _].
Qed.

(** A claimed row is its copy in the table; every other row stays. *)
Lemma claim_lookup t limit owner at_ lease id : keyed t ->
  let t' := (do_claim_unprocessed t limit owner at_ lease).1 in
  t' !! id = t !! id \/ exists row, t !! id = Some row /\ claimable lease row = true /\ t' !! id = Some (claim_row owner at_ row).
Proof.
  intros Hk. change ((do_claim_unprocessed t limit owner at_ lease).1) with (put t (claim_row owner at_ <$> picked t limit lease)). cbv zeta.
  destruct (decide (id ∈ ti_trade_id <$> (claim_row owner at_ <$> picked t limit lease))) as [Hin|Hout]; [right|left; by apply put_out].
  apply list_elem_of_fmap in Hin as (r' & -> & Hr'). rewrite put_in by (done || by apply claimed_nodup).
  apply list_elem_of_fmap in Hr' as (r & -> & Hr). destruct (elem_of_picked _ _ _ _ Hk Hr) as [Hc Hl]. exists r. by rewrite claim_row_id.
Qed.
End Store.

(** ** The lifecycle of a row *)

Section Lifecycle.
Context {DO : DecimalOps}.
Abbreviation Table := (gmap TradeId TradeInfo).

(** The updates the program issues: the pipeline, the relay, the reconciliation worker and the
    operator.  The relay finishes a row only into the terminal state of its own state. *)
Inductive StoreOp :=
| OpCreate (new : NewTrade) (snapshot : Result ScoredOpportunitySnapshot string) (now : Time)
| OpSubmit (id : TradeId) (at_ : Time)
| OpBalance (id : TradeId) (balance : D)
| OpObserve (id : TradeId) (obs : TradeObservation) (at_ : Time)
| OpOrphan (id : TradeId)
| OpClaim (limit : nat) (owner : string) (at_ lease : Time)
| OpFinish (id : TradeId) (from : TradeState)
| OpReconcile (id : TradeId) (obs : TradeObservation) (at_ : Time) (resolution : TradeReconcileResolution) (note : string) (now : Time)
| OpDefer (id : TradeId) (until : Time) (note : string)
| OpClose (id : TradeId) (note operator : string) (now : Time).

Definition store_step (t : Table) (op : StoreOp) : Table :=
  match op with
  | OpCreate new snapshot now => (do_create t new snapshot now).1
  | OpSubmit id at_ => (do_mark_submitted t id at_).1
  | OpBalance id b => (do_set_pre_submit_ctf_balance t id b).1
  | OpObserve id obs at_ => (do_mark_observed t id obs at_).1
  | OpOrphan id => (do_mark_orphaned t id).1
  | OpClaim limit owner at_ lease => (do_claim_unprocessed t limit owner at_ lease).1
  | OpFinish id from => match processed_terminal from with Some to => (do_advance_state t id from to).1 | None => t end
  | OpReconcile id obs at_ resolution note now => (do_mark_reconciled_observed t id obs at_ resolution note now).1
  | OpDefer id until note => (do_record_reconcile_defer t id until note).1
  | OpClose id note operator now => (do_close_unresolvable_terminal t id note operator now).1
  end.

Definition store_run (t : Table) (ops : list StoreOp) : Table := foldl store_step t ops.

(** What one update does to one row. *)
Inductive row_step (row : TradeInfo) : TradeInfo -> Prop :=
| rs_submit at_ : ti_state row = TsIntent -> row_step row (set_columns [CState TsSubmitted; CSubmittedAt at_] row)
| rs_balance b : ti_state row = TsSubmitted -> row_step row (set_columns [CBalance b] row)
| rs_observe obs at_ : ti_state row = TsSubmitted -> is_unprocessed (ob_state obs) = true -> row_step row (set_columns (observation_columns obs at_) row)
| rs_orphan : ti_state row = TsSubmitted -> row_step row (set_columns [CState TsOrphaned; COutcome None; CNeedsReconcile true] row)
| rs_claim owner at_ s : claimed_state (ti_state row) = Some s ->
    row_step row (set_columns [CState s; CClaim (Some owner) (Some at_); CBumpClaims] row)
| rs_finish to : processed_terminal (ti_state row) = Some to ->
    row_step row (set_columns [CState to; COutcome (business_outcome to); CClaim None None] row)
| rs_reconcile obs at_ resolution note now : ti_state row = TsOrphaned -> is_unprocessed (ob_state obs) = true ->
    row_step row (set_columns (observation_columns obs at_ ++ [CNeedsReconcile false; CResolution resolution now note]) row)
| rs_defer until note : unresolved row = true -> row_step row (set_columns [CBumpReconcile; CDeferUntil (Some until); CDeferNote note] row)
| rs_close now note : ti_state row = TsOrphaned ->
    row_step row (set_columns [CState TsFailed; COutcome (business_outcome TsFailed); CNeedsReconcile false; CResolution TrUnresolvable now note;
                               CDeferUntil None] row).

(** A row that was just created. *)
Definition fresh (row : TradeInfo) : Prop :=
  ti_state row = TsIntent /\ ti_business_outcome row = None /\ ti_needs_reconcile row = false /\ ti_reconcile_resolution row = None /\
  ti_post_trade_claimed_at row = None /\ ti_pre_submit_ctf_balance row = None.

(** The rows before and after an update. *)
Definition row_rel (id : TradeId) (before after : option TradeInfo) : Prop :=
  match before, after with
  | Some row, Some row' => row' = row \/ row_step row row'
  | None, Some row' => fresh row' /\ ti_trade_id row' = id
  | None, None => True
  | Some _, None => False
  end.

Lemma row_rel_refl id o : row_rel id o o.
Proof. destruct o; simpl; auto. Qed.

Lemma update_rel t id cond cols id' :
  (forall row, t !! id = Some row -> cond row = true -> row_step row (set_columns cols row)) ->
  row_rel id' (t !! id') ((update_where t id cond cols).1 !! id').
Proof.
  intros H. destruct (update_where_lookup t id cond cols id') as [->|(-> & row & Hr & Hc & ->)]; [apply row_rel_refl|].
  rewrite Hr. simpl. right. auto.
Qed.

Lemma in_state_spec s row : in_state s row = true <-> ti_state row = s.
Proof. apply bool_decide_eq_true. Qed.

(** Each update of the table is an update of its rows. *)
Lemma store_step_rows t op id : keyed t -> row_rel id (t !! id) (store_step t op !! id).
Proof.
  intros Hk. destruct op; cbn [store_step].
  - unfold do_create. destruct (t !! nt_trade_id new) eqn:E; [apply row_rel_refl|]. simpl.
    destruct (decide (id = nt_trade_id new)) as [->|]; [|by rewrite lookup_insert_ne by done; apply row_rel_refl].
    rewrite E, lookup_insert_eq. by repeat split.
  - apply update_rel. intros row _ H%in_state_spec. by constructor.
  - apply update_rel. intros row _ H%in_state_spec. by constructor.
  - unfold do_mark_observed. destruct (is_unprocessed _) eqn:Eu; [|apply row_rel_refl].
    destruct (update_where _ _ _ _) as [t' []] eqn:E; replace t' with (update_where t id0 (in_state TsSubmitted) (observation_columns obs at_)).1 by (by rewrite E);
      (apply update_rel; intros row _ H%in_state_spec; by constructor).
  - apply update_rel. intros row _ H%in_state_spec. by constructor.
  - destruct (claim_lookup t limit owner at_ lease id Hk) as [->|(row & Hr & Hc & ->)]; [apply row_rel_refl|].
    rewrite Hr. simpl. unfold claim_row. destruct (claimed_state _) eqn:E; [right; by constructor | by left].
  - destruct (processed_terminal from) as [to|] eqn:E; [|apply row_rel_refl]. apply update_rel. intros row _ <-%in_state_spec. by constructor.
  - unfold do_mark_reconciled_observed. destruct (is_unprocessed _) eqn:Eu; [|apply row_rel_refl].
    destruct (update_where _ _ _ _) as [t' applied] eqn:E. simpl. match type of E with ?u = _ => replace t' with u.1 by (by rewrite E) end.
    apply update_rel. intros row _ [H%in_state_spec _]%andb_prop. by constructor.
  - apply update_rel. intros row _ H. by constructor.
  - apply update_rel. intros row _ [H%in_state_spec _]%andb_prop. by constructor.
Qed.

(** The transitions of the documented lifecycle. *)
Inductive trade_edge : TradeState -> TradeState -> Prop :=
| edge_submit : trade_edge TsIntent TsSubmitted
| edge_observe s : is_unprocessed s = true -> trade_edge TsSubmitted s
| edge_orphan : trade_edge TsSubmitted TsOrphaned
| edge_reconcile s : is_unprocessed s = true -> trade_edge TsOrphaned s
| edge_close : trade_edge TsOrphaned TsFailed
| edge_claim s s' : claimed_state s = Some s' -> trade_edge s s'
| edge_finish s s' : processed_terminal s = Some s' -> trade_edge s s'.

Definition is_terminal (s : TradeState) : bool := match s with TsSettled | TsMissed | TsFailed => true | _ => false end.

(** What holds of every stored row. *)
Record row_ok (row : TradeInfo) : Prop := {
  ok_outcome : ti_business_outcome row = business_outcome (ti_state row);
  ok_reconcile : ti_needs_reconcile row = bool_decide (ti_state row = TsOrphaned);
  ok_unresolved : ti_state row = TsOrphaned \/ ti_state row = TsSubmitted \/ ti_state row = TsIntent -> ti_reconcile_resolution row = None;
  ok_claim : is_Some (ti_post_trade_claimed_at row) <-> is_processing (ti_state row) = true
}.

Lemma fresh_ok row : fresh row -> row_ok row.
Proof. intros (H1 & H2 & H3 & H4 & H5 & _). split; rewrite ?H1, ?H2, ?H3, ?H4, ?H5; try done. Qed.

Ltac row_cases := repeat match goal with
  | H : is_unprocessed ?s = true |- _ => destruct s eqn:?; try discriminate H; clear H
  | H : claimed_state ?s = Some _ |- _ => destruct s eqn:?; try discriminate H; injection H as <-
  | H : processed_terminal ?s = Some _ |- _ => destruct s eqn:?; try discriminate H; injection H as <-
  end.

Lemma row_step_ok row row' : row_ok row -> row_step row row' -> row_ok row'.
Proof.
  intros [Ho Hn Hr Hc] Hst. destruct Hst; row_cases; split; simpl; rewrite ?H, ?Heqt in *; simpl in *; try done; try tauto; try (split; done);
    try (by intros [?|[?|?]]); try (by apply Hr; auto).
Qed.

Lemma row_step_edge row row' : row_ok row -> row_step row row' -> rtc trade_edge (ti_state row) (ti_state row').
Proof.
  intros _ [at_ H|b H|obs at_ H Hu|H|owner at_ s H|to H|obs at_ res note now H Hu|until note H|now note H]; simpl; rewrite ?H;
    try done; apply rtc_once; by constructor.
Qed.

Lemma row_step_live row row' : row_ok row -> row_step row row' -> is_terminal (ti_state row) = false.
Proof.
  intros [Ho Hn Hr Hc] Hst. destruct Hst; rewrite ?H; try done; try (row_cases; by rewrite ?Heqt).
  unfold unresolved in H. apply andb_prop in H as [H _]. rewrite Hn in H. apply bool_decide_eq_true in H. by rewrite H.
Qed.

(** The table invariant. *)
Definition table_ok (t : Table) : Prop := forall id row, t !! id = Some row -> ti_trade_id row = id /\ row_ok row.

Lemma row_step_id row row' : row_step row row' -> ti_trade_id row' = ti_trade_id row.
Proof. by destruct 1. Qed.

Lemma store_step_ok t op : table_ok t -> table_ok (store_step t op).
Proof.
  intros Ht id row' Hr. assert (keyed t) as Hk by (intros i r Hi; by apply Ht). pose proof (store_step_rows t op id Hk) as H. rewrite Hr in H.
  destruct (t !! id) as [row|] eqn:E; simpl in H.
  - destruct (Ht _ _ E) as [Hid Hok]. destruct H as [->|H]; [done|]. by rewrite (row_step_id _ _ H); eauto using row_step_ok.
  - destruct H. split; [done | by apply fresh_ok].
Qed.

Lemma store_run_ok t ops : table_ok t -> table_ok (store_run t ops).
Proof. unfold store_run. revert t. induction ops as [|op ops IH]; intros t Ht; [done|]. by apply IH, store_step_ok. Qed.

Lemma empty_table_ok : table_ok ∅.
Proof. intros id row H. by rewrite lookup_empty in H. Qed.

(** C26: The rows of the trade table follow the documented lifecycle.  Whatever updates the pipeline,
    the relay, the reconciliation worker and the operator issue, in any order: the business outcome
    of a row is that of its state, exactly the orphans ask for reconciliation and none of them is
    resolved, exactly the rows being processed hold a lease; every row that existed moved along the
    edges of the lifecycle; and a row in a terminal state was not changed in any column. *)
Theorem trades_follow_lifecycle t ops : table_ok t ->
  table_ok (store_run t ops) /\
  forall id row, t !! id = Some row -> exists row', store_run t ops !! id = Some row' /\
    rtc trade_edge (ti_state row) (ti_state row') /\ (is_terminal (ti_state row) = true -> row' = row).
Proof.
  unfold store_run. revert t. induction ops as [|op ops IH]; intros t Ht; [split; [done | intros id row H; by exists row]|]. simpl.
  destruct (IH (store_step t op) (store_step_ok t op Ht)) as [Hok Hrun]. split; [done|]. intros id row Hr.
  assert (keyed t) as Hk by (intros i r Hi; by apply Ht). pose proof (store_step_rows t op id Hk) as H. rewrite Hr in H.
  destruct (store_step t op !! id) as [mid|] eqn:E; [|done]. destruct (Hrun _ _ E) as (row' & Hr' & Hedge & Hterm).
  exists row'. split; [done|]. destruct H as [->|H]; [done|]. destruct (Ht _ _ Hr) as [_ Hrow]. split.
  - etrans; [by apply (row_step_edge row mid) | done].
  - intros Hx. by rewrite (row_step_live row mid Hrow H) in Hx.
Qed.

(** Two versions of a row with the same identity and the same economics. *)
Record same_fill (a b : TradeInfo) : Prop := {
  sf_id : ti_trade_id a = ti_trade_id b;
  sf_market : ti_market_id a = ti_market_id b;
  sf_token : ti_token_id a = ti_token_id b;
  sf_side : ti_side a = ti_side b;
  sf_shares : ti_shares a = ti_shares b;
  sf_price : ti_price a = ti_price b;
  sf_cost : ti_cost_usd a = ti_cost_usd b;
  sf_fee : ti_fee_usd a = ti_fee_usd b;
  sf_outcome : business_outcome (ti_state a) = business_outcome (ti_state b)
}.

Lemma same_fill_refl a : same_fill a a.
Proof. by split. Qed.

Lemma same_fill_trans a b c : same_fill a b -> same_fill b c -> same_fill a c.
Proof. intros [] []. split; congruence. Qed.

(** From its observation on, what was filled does not change. *)
Lemma observed_frozen row row' : row_ok row -> row_step row row' -> business_outcome (ti_state row) <> None -> same_fill row row'.
Proof.
  intros [Ho Hn Hr Hc] Hst Hb. destruct Hst; try (rewrite H in Hb; done).
  - row_cases; split; simpl; by rewrite ?Heqt.
  - row_cases; split; simpl; by rewrite ?Heqt.
  - unfold unresolved in H. apply andb_prop in H as [H _]. rewrite Hn in H. apply bool_decide_eq_true in H. by rewrite H in Hb.
Qed.

(** Only a finished row is settled. *)
Lemma settled_by_finish row row' : row_step row row' -> ti_state row' = TsSettled -> ti_state row <> TsSettled ->
  processed_terminal (ti_state row) = Some TsSettled.
Proof. intros Hst Hs Hn. destruct Hst; simpl in Hs; try done; try (by rewrite Hs in *); row_cases; try done; by destruct (ti_state row). Qed.

Definition is_finish (op : StoreOp) : bool := match op with OpFinish _ _ => true | _ => false end.

Lemma update_not_settled t id cond cols id' row' : table_ok t ->
  (forall row, row_ok row -> cond row = true -> ti_state (set_columns cols row) <> TsSettled) ->
  (update_where t id cond cols).1 !! id' = Some row' -> ti_state row' = TsSettled -> t !! id' = Some row'.
Proof.
  intros Ht Hc Hr Hs. destruct (update_where_lookup t id cond cols id') as [Hx|(-> & row & Hx & Hcond & Hy)]; [by rewrite <- Hx|].
  rewrite Hy in Hr. injection Hr as <-. exfalso. by apply (Hc row); [apply (Ht _ _ Hx)|..].
Qed.

(** Nothing but finishing a row settles it. *)
Lemma settled_before t op id row' : table_ok t -> is_finish op = false -> store_step t op !! id = Some row' -> ti_state row' = TsSettled ->
  t !! id = Some row'.
Proof.
  intros Ht Hf Hr Hs. assert (keyed t) as Hk by (intros i r Hi; by apply Ht). destruct op; cbn [store_step] in Hr; try done.
  - unfold do_create in Hr. destruct (t !! nt_trade_id new) eqn:E; [done|]. simpl in Hr.
    destruct (decide (id = nt_trade_id new)) as [->|]; [rewrite lookup_insert_eq in Hr; by injection Hr as <- | by rewrite lookup_insert_ne in Hr].
  - eapply update_not_settled; [done| |exact Hr|done]. by intros row _ _.
  - eapply update_not_settled; [done| |done|done]. intros row _ H%in_state_spec. simpl. by rewrite H.
  - unfold do_mark_observed in Hr. destruct (is_unprocessed _) eqn:Eu; [|done].
    destruct (update_where _ _ _ _) as [t' applied] eqn:E. assert (t' !! id = Some row') as Hr' by (by destruct applied).
    replace t' with (update_where t id0 (in_state TsSubmitted) (observation_columns obs at_)).1 in Hr' by (by rewrite E).
    eapply update_not_settled; [done| |exact Hr'|done]. intros row _ _. simpl. by destruct (ob_state obs).
  - eapply update_not_settled; [done| |exact Hr|done]. by intros row _ _.
  - destruct (claim_lookup t limit owner at_ lease id Hk) as [Hx|(row & Hx & Hc & Hy)]; [by rewrite <- Hx|].
    rewrite Hy in Hr. injection Hr as <-. unfold claim_row in Hs |- *. by destruct (ti_state row); simpl in Hs.
  - unfold do_mark_reconciled_observed in Hr. destruct (is_unprocessed _) eqn:Eu; [|done].
    destruct (update_where _ _ _ _) as [t' applied] eqn:E. simpl in Hr. match type of E with ?u = _ => replace t' with u.1 in Hr by (by rewrite E) end.
    eapply update_not_settled; [done| |exact Hr|done]. intros row _ _. simpl. by destruct (ob_state obs).
  - eapply update_not_settled; [done| |exact Hr|done]. intros row [_ Hn _ _] Hu. simpl. unfold unresolved in Hu. rewrite Hn in Hu.
    apply andb_prop in Hu as [Hu _]. apply bool_decide_eq_true in Hu. by rewrite Hu.
  - eapply update_not_settled; [done| |exact Hr|done]. by intros row _ _.
Qed.

(** The rows that block admission are exactly those in flight. *)
Lemma blocking_is_in_flight row : row_ok row -> blocking_admission row = true <-> business_outcome (ti_state row) = None.
Proof.
  intros [_ Hn _ _]. unfold blocking_admission, in_state. rewrite Hn.
  destruct (ti_state row); simpl; repeat case_bool_decide; simpl; done.
Qed.
End Lifecycle.
