(* ===== verification/PostTrade.v ===== *)
(** * Post-trade processing: [oxide-arb-core/src/post_trade/{consumer,relay}.rs]

    Observed trades are claimed from the trade table and worked off: the fill is accounted for in
    the risk engine, its position and its calibration outcome are stored, the row is finished and
    the reservation released.  The three tables are here; every statement may fail with the
    connection, and the risk engine has its own failing store.  Audit rows, events, metrics counters
    and log lines are left out, except that [pc_log] records what was finished and released. *)

From stdpp Require Import sorting.
From S2P Require Import Prelude Decimal Config Domain RiskTypes Interfaces Engine EngineSafety Exposure ScoredSnapshot.
From S2P Require Import Execution ExecutionPipeline TradeStore Positions RuntimeConfig Context.
From S2P Require Import Config.

(** ** Rows written after a fill *)

Section Rows.
Context {DO : DecimalOps}.

(** [models/domain/trading/position.rs:182-200] `NewPosition` *)
Record NewPosition := {
  np_position_id : PositionId;
  np_trade_id : TradeId;
  np_market_id : MarketId;
  np_token_id : TokenId;
  np_side : Side;
  np_execution_mode : ExecutionMode;
  np_shares : D;
  np_avg_entry_price : D;
  np_total_cost_usd : D;
  np_total_fees_usd : D;
  np_redeem_status : RedeemStatus;
  np_snapshot : PositionRedeemSnapshot
}.

(** [models/idens/position.rs:57-153] `table`: the stored row, with the defaults of its columns *)
Definition position_row (new : NewPosition) (now : Time) : PositionInfo :=
  let plan := rs_plan (np_snapshot new) in {|
  pos_id := np_position_id new; pos_trade_id := np_trade_id new; pos_market_id := np_market_id new; pos_token_id := np_token_id new;
  pos_side := np_side new; pos_execution_mode := np_execution_mode new; pos_shares := np_shares new; pos_avg_entry_price := np_avg_entry_price new;
  pos_total_cost_usd := np_total_cost_usd new; pos_total_fees_usd := np_total_fees_usd new; pos_unrealized_pnl := d0; pos_realized_pnl := d0;
  pos_status := PosOpen; pos_opened_at := now; pos_closed_at := None; pos_settled_at := None; pos_winning_token_id := None;
  pos_settlement_payout_usd := None; pos_redeem_tx_hash := None; pos_redeem_status := np_redeem_status new; pos_redeem_attempts := 0;
  pos_oracle_verdict := None; pos_settlement_trigger := None; pos_accounting_status := AcPending; pos_accounting_error := None;
  pos_accounted_at := None; pos_redeem_terminal_reason := None; pos_redeem_neg_risk := rs_neg_risk (np_snapshot new);
  pos_redeem_route := route_as_str (plan_route plan); pos_redeem_holder_address := plan_holder_address plan;
  pos_redeem_resolution := plan_resolution plan; pos_redeem_gas_limit := unwrap_or (to_i64 (plan_gas_limit plan)) i64_max;
  pos_redeem_gas_paid_usd := None |}.

(** [repo/postgres/trading/position.rs:123-133] `find_by_trade_id_q` *)
Definition find_by_trade_id (t : gmap PositionId PositionInfo) (id : TradeId) : option PositionInfo :=
  head (select (fun p => bool_decide (pos_trade_id p = id)) t).

(** [models/idens/position.rs:155-206] `indexes`, the three keys that a new row must not repeat: its
    identifier, its trade, and among the open positions its market, token and side *)
Definition position_conflict (new : NewPosition) (p : PositionInfo) : bool :=
  bool_decide (pos_id p = np_position_id new) || bool_decide (pos_trade_id p = np_trade_id new)
  || (is_open p && bool_decide (pos_market_id p = np_market_id new) && bool_decide (pos_token_id p = np_token_id new)
      && bool_decide (pos_side p = np_side new)).

(** [repo/postgres/trading/position.rs:220-230] `create_q` *)
Definition create_position (t : gmap PositionId PositionInfo) (new : NewPosition) (now : Time) : gmap PositionId PositionInfo * Result PositionInfo StorageError :=
  match select (position_conflict new) t with
  | [] => (<[np_position_id new := position_row new now]> t, Ok (position_row new now))
  | _ => (t, Err (QueryFailed "duplicate key value violates unique constraint"))
  end.

(** [models/domain/governance/calibration.rs:127-140] `NewCalibrationOutcome` *)
Record NewCalibrationOutcome := {
  co_trade_id : TradeId;
  co_opportunity_id : OpportunityId;
  co_market_id : MarketId;
  co_bucket : BucketKey;
  co_predicted_yes : bool;
  co_actual_yes : option bool;
  co_entry_price : D;
  co_confidence_at_entry : D;
  co_convergence_secs : Z;
  co_resolved_at : option Time
}.

(** [repo/postgres/evidence/calibration.rs:92-117] `create_outcome_q`: an insert that does nothing when the
    trade has a row; [reports_conflict] is whether the database library reports an insert that
    stored nothing as an error *)
Definition create_outcome (reports_conflict : bool) (t : gmap TradeId NewCalibrationOutcome) (new : NewCalibrationOutcome)
    : gmap TradeId NewCalibrationOutcome * Result NewCalibrationOutcome StorageError :=
  match t !! co_trade_id new with
  | Some row => (t, if reports_conflict then Err (QueryFailed "None of the records are inserted") else Ok row)
  | None => (<[co_trade_id new := new]> t, Ok new)
  end.

(** [core/post_trade/consumer.rs:337-354] `simulated_redeem_plan` *)
Definition simulated_redeem_plan (neg_risk : bool) (gas_limit : Z) : ResolvedRedeemPlan :=
  if neg_risk then {| plan_route := RNegRiskLegacyAdapter; plan_holder_address := None; plan_neg_risk := neg_risk; plan_gas_limit := gas_limit;
                      plan_resolution := ClassNegRisk |}
  else {| plan_route := RStandardCtf; plan_holder_address := None; plan_neg_risk := neg_risk; plan_gas_limit := gas_limit;
          plan_resolution := ClassStandard |}.

(** [core/post_trade/consumer.rs:310-335] `resolve_position_redeem_snapshot` *)
Definition resolve_position_redeem_snapshot (mode : ExecutionMode) (m : MarketId) (registry_neg_risk : option bool) (policy : RedeemRoutingPolicy)
    : Result PositionRedeemSnapshot string :=
  let with_class neg_risk :=
    match resolve policy m neg_risk with
    | Some plan => Ok (snapshot_from_plan neg_risk plan)
    | None => match mode with
              | Live => Err "settlement.redeem: no route for market"
              | _ => Ok (snapshot_from_plan neg_risk (simulated_redeem_plan neg_risk (rp_gas_limit policy)))
              end
    end in
  match mode, registry_neg_risk with
  | Live, None => Err "market missing from registry; cannot snapshot redeem plan for Live position"
  | _, Some value => with_class value
  | _, None => with_class false
  end.
End Rows.

(** ** The consumer *)

(** What post-trade processing asks of the outside: whether the next statement fails, fresh
    position identifiers, the market registry, and how the database library reports an insert
    that stored nothing. *)
Class PostTradeWorld (W : Type) := {
  pw_connection : W -> W * option string;
  pw_position_id : W -> W * PositionId;
  pw_neg_risk : W -> MarketId -> option bool;
  pw_reports_conflict : bool
}.

Section Consumer.
Context {DO : DecimalOps} {CH : Chrono} {M P W : Type} {RM : RiskMetrics M} {RP : RiskPersistence P} {PW : PostTradeWorld W}.
(** The refresh of the metrics, whose failure is only logged. *)
Variable refresh_metrics : M -> M.

Inductive PostEffect := PxFinished (id : TradeId) (to : TradeState) | PxReleased (id : ReservationId) | PxPinned (id : ReservationId).

(** [core/post_trade/consumer.rs:41-58] `PostTradeConsumer`, what it can change *)
Record Consumer := {
  pc_trades : gmap TradeId TradeInfo;
  pc_positions : gmap PositionId PositionInfo;
  pc_outcomes : gmap TradeId NewCalibrationOutcome;
  pc_risk : Engine (W := P);
  pc_metrics : M;
  pc_fsm : ExecutionFSM;
  pc_capital : CapitalManager;
  pc_world : W;
  pc_redeem : RedeemRoutingPolicy;
  pc_log : list PostEffect
}.

Definition with_trades (x : Consumer) a : Consumer := {| pc_trades := a; pc_positions := pc_positions x; pc_outcomes := pc_outcomes x; pc_risk := pc_risk x; pc_metrics := pc_metrics x; pc_fsm := pc_fsm x; pc_capital := pc_capital x; pc_world := pc_world x; pc_redeem := pc_redeem x; pc_log := pc_log x |}.
Definition with_positions (x : Consumer) a : Consumer := {| pc_trades := pc_trades x; pc_positions := a; pc_outcomes := pc_outcomes x; pc_risk := pc_risk x; pc_metrics := pc_metrics x; pc_fsm := pc_fsm x; pc_capital := pc_capital x; pc_world := pc_world x; pc_redeem := pc_redeem x; pc_log := pc_log x |}.
Definition with_outcomes (x : Consumer) a : Consumer := {| pc_trades := pc_trades x; pc_positions := pc_positions x; pc_outcomes := a; pc_risk := pc_risk x; pc_metrics := pc_metrics x; pc_fsm := pc_fsm x; pc_capital := pc_capital x; pc_world := pc_world x; pc_redeem := pc_redeem x; pc_log := pc_log x |}.
Definition with_risk (x : Consumer) e m : Consumer := {| pc_trades := pc_trades x; pc_positions := pc_positions x; pc_outcomes := pc_outcomes x; pc_risk := e; pc_metrics := m; pc_fsm := pc_fsm x; pc_capital := pc_capital x; pc_world := pc_world x; pc_redeem := pc_redeem x; pc_log := pc_log x |}.
Definition with_fsm (x : Consumer) a : Consumer := {| pc_trades := pc_trades x; pc_positions := pc_positions x; pc_outcomes := pc_outcomes x; pc_risk := pc_risk x; pc_metrics := pc_metrics x; pc_fsm := a; pc_capital := pc_capital x; pc_world := pc_world x; pc_redeem := pc_redeem x; pc_log := pc_log x |}.
Definition with_capital (x : Consumer) a : Consumer := {| pc_trades := pc_trades x; pc_positions := pc_positions x; pc_outcomes := pc_outcomes x; pc_risk := pc_risk x; pc_metrics := pc_metrics x; pc_fsm := pc_fsm x; pc_capital := a; pc_world := pc_world x; pc_redeem := pc_redeem x; pc_log := pc_log x |}.
Definition with_world (x : Consumer) a : Consumer := {| pc_trades := pc_trades x; pc_positions := pc_positions x; pc_outcomes := pc_outcomes x; pc_risk := pc_risk x; pc_metrics := pc_metrics x; pc_fsm := pc_fsm x; pc_capital := pc_capital x; pc_world := a; pc_redeem := pc_redeem x; pc_log := pc_log x |}.
Definition post_log (x : Consumer) fx : Consumer := {| pc_trades := pc_trades x; pc_positions := pc_positions x; pc_outcomes := pc_outcomes x; pc_risk := pc_risk x; pc_metrics := pc_metrics x; pc_fsm := pc_fsm x; pc_capital := pc_capital x; pc_world := pc_world x; pc_redeem := pc_redeem x; pc_log := pc_log x ++ [fx] |}.

Definition halt_execution (x : Consumer) (reason : string) : Consumer := with_fsm x (enter_emergency (pc_fsm x) PersistenceFault reason).

(** A statement: it fails with the connection, or runs. *)
Definition statement {A} (x : Consumer) (run : Consumer -> Consumer * Result A StorageError) : Consumer * Result A StorageError :=
  match pw_connection (pc_world x) with
  | (w, Some message) => (with_world x w, Err (QueryFailed message))
  | (w, None) => run (with_world x w)
  end.

(** [core/post_trade/consumer.rs:223-266] `PostTradeConsumer::ensure_position`: [Some] position when this call
    created it *)
Definition ensure_position (x : Consumer) (now : Time) (trade : TradeInfo) : Consumer * Result (option PositionInfo) StorageError :=
  match statement x (fun x => (x, Ok (find_by_trade_id (pc_positions x) (ti_trade_id trade)))) with
  | (x, Err e) => (x, Err e)
  | (x, Ok (Some _)) => (x, Ok None)
  | (x, Ok None) =>
      match resolve_position_redeem_snapshot (ti_execution_mode trade) (ti_market_id trade) (pw_neg_risk (pc_world x) (ti_market_id trade)) (pc_redeem x) with
      | Err message => (x, Err (QueryFailed message))
      | Ok snapshot =>
          let '(w, id) := pw_position_id (pc_world x) in
          let new := {| np_position_id := id; np_trade_id := ti_trade_id trade; np_market_id := ti_market_id trade; np_token_id := ti_token_id trade;
                        np_side := ti_side trade; np_execution_mode := ti_execution_mode trade; np_shares := ti_shares trade;
                        np_avg_entry_price := ti_price trade; np_total_cost_usd := ti_cost_usd trade; np_total_fees_usd := ti_fee_usd trade;
                        np_redeem_status := initial_for_mode (ti_execution_mode trade); np_snapshot := snapshot |} in
          match statement (with_world x w) (fun x => let '(t, r) := create_position (pc_positions x) new now in (with_positions x t, r)) with
          | (x, Ok p) => (x, Ok (Some p))
          | (x, Err e) => (x, Err e)
          end
      end
  end.

(** [core/post_trade/consumer.rs:268-296] `PostTradeConsumer::ensure_calibration_outcome` *)
Definition ensure_calibration_outcome (x : Consumer) (trade : TradeInfo) (snapshot : ScoredOpportunitySnapshot) : Consumer * Result NewCalibrationOutcome StorageError :=
  statement x (fun x =>
    let '(t, r) := create_outcome pw_reports_conflict (pc_outcomes x) {|
      co_trade_id := ti_trade_id trade; co_opportunity_id := ti_opportunity_id trade; co_market_id := ti_market_id trade;
      co_bucket := calibration_bucket_key snapshot;
      co_predicted_yes := match ss_token_yes snapshot with Some yes => bool_decide (yes = ti_token_id trade) | None => bool_decide (ss_side snapshot = Buy) end;
      co_actual_yes := None; co_entry_price := ss_entry_price snapshot; co_confidence_at_entry := ss_confidence snapshot;
      co_convergence_secs := unwrap_or (to_i32 (ss_convergence_secs snapshot)) i32_max; co_resolved_at := None |} in
    (with_outcomes x t, r)).

(** [core/post_trade/consumer.rs:125-161] `PostTradeConsumer::apply_success_side_effects` *)
Definition apply_success_side_effects (x : Consumer) (now : Time) (trade : TradeInfo) : Consumer * Result (option PositionInfo) unit :=
  if state_is_success (ti_state trade) then
    match ensure_position x now trade with
    | (x, Err _) => (halt_execution x "position create failed", Err tt)
    | (x, Ok opened) =>
        match ti_scored_snapshot trade with
        | Err _ => (halt_execution x "calibration outcome create failed", Err tt)
        | Ok snapshot =>
            match ensure_calibration_outcome x trade snapshot with
            | (x, Err _) => (halt_execution x "calibration outcome create failed", Err tt)
            | (x, Ok _) => (x, Ok opened)
            end
        end
    end
  else (x, Ok None).

(** [core/post_trade/consumer.rs:204-218] `PostTradeConsumer::release_fill_reservation` *)
Definition release_fill_reservation (x : Consumer) (trade : TradeInfo) : Consumer :=
  let h := {| rh_id := ti_reservation_id trade; rh_amount := ti_cost_usd trade; rh_market_id := ti_market_id trade |} in
  post_log (with_capital x (capital_release_sync (pc_capital x) h).1) (PxReleased (ti_reservation_id trade)).

(** [core/post_trade/consumer.rs:163-202] `PostTradeConsumer::advance_trade_and_publish` *)
Definition advance_trade (x : Consumer) (trade : TradeInfo) (terminal : TradeState) : Consumer * bool :=
  match statement x (fun x => let '(t, applied) := do_advance_state (pc_trades x) (ti_trade_id trade) (ti_state trade) terminal in (with_trades x t, Ok applied)) with
  | (x, Ok true) =>
      let x := post_log x (PxFinished (ti_trade_id trade) terminal) in
      (if state_is_success (ti_state trade) then release_fill_reservation x trade else x, true)
  | (x, Ok false) => (x, true)
  | (x, Err _) => (halt_execution x "trade state advance failed", false)
  end.

(** [core/post_trade/consumer.rs:67-123] `PostTradeConsumer::process` *)
Definition process (x : Consumer) (now : Time) (trade : TradeInfo) : Consumer :=
  match processed_terminal (ti_state trade), from_trade_info trade with
  | Some terminal, Some risk_input =>
      match on_trade_result (pc_risk x) now Fill risk_input (pc_metrics x) with
      | ((e, Err _), m) => halt_execution (with_risk x e m) "post-trade fill accounting failed"
      | ((e, Ok _), m) =>
          match apply_success_side_effects (with_risk x e m) now trade with
          | (x, Err _) => x
          | (x, Ok _) =>
              match advance_trade x trade terminal with
              | (x, true) => with_risk x (pc_risk x) (refresh_metrics (pc_metrics x))
              | (x, false) => x
              end
          end
      end
  | _, _ => x
  end.

(** ** The relay *)

(** [core/post_trade/relay.rs:34-39] `ConfirmTiming`, in nanoseconds *)
Record ConfirmTiming := { ct_poll_interval : Z; ct_stale_submitted_after : Z }.

(** [core/post_trade/relay.rs:44-48] `ConfirmTiming::claim_lease` *)
Definition claim_lease (timing : ConfirmTiming) : Z := Z.max (ct_poll_interval timing * 3) (5 * nanos_per_sec).

(** [core/post_trade/relay.rs:80-88] `PostTradeRelay::confirm_timing` *)
Definition confirm_timing (config : TradeTimeoutConfig) : ConfirmTiming := {|
  ct_poll_interval := Z.max (trade_confirm_poll_interval_secs config) 1 * nanos_per_sec;
  ct_stale_submitted_after := trade_confirm_timeout_secs config * nanos_per_sec |}.

(** [core/post_trade/relay.rs:109-149] `PostTradeRelay::drain`, [clock i] the time of round [i]; [None] when
    the rounds are not enough *)
Fixpoint drain (fuel : nat) (x : Consumer) (timing : ConfirmTiming) (batch_size : nat) (owner : string) (clock : nat -> Time) (i : nat) : option Consumer :=
  match fuel with
  | O => None
  | S fuel =>
      let now := clock i in
      match statement x (fun x => let '(t, batch) := do_claim_unprocessed (pc_trades x) batch_size owner now (now - claim_lease timing) in
                                  (with_trades x t, Ok batch)) with
      | (x, Err _) => Some x
      | (x, Ok []) => Some x
      | (x, Ok batch) =>
          let x := foldl (fun x trade => process x now trade) x batch in
          if (length batch <? batch_size)%nat then Some x else drain fuel x timing batch_size owner clock (S i)
      end
  end.

(** [core/post_trade/relay.rs:174-206] `PostTradeRelay::mark_orphaned` *)
Definition relay_mark_orphaned (x : Consumer) (trade : TradeInfo) : Consumer :=
  match statement x (fun x => let '(t, applied) := do_mark_orphaned (pc_trades x) (ti_trade_id trade) in (with_trades x t, Ok applied)) with
  | (x, Ok true) =>
      let h := {| rh_id := ti_reservation_id trade; rh_amount := ti_cost_usd trade; rh_market_id := ti_market_id trade |} in
      post_log (with_capital x (capital_pin_sync (pc_capital x) h).1) (PxPinned (ti_reservation_id trade))
  | (x, Ok false) => x
  | (x, Err _) => x
  end.

(** [core/post_trade/relay.rs:151-172] `PostTradeRelay::scan_stale_submitted` *)
Definition scan_stale_submitted (x : Consumer) (timing : ConfirmTiming) (batch_size : nat) (now : Time) : Consumer :=
  match statement x (fun x => (x, Ok (do_find_stale_submitted (pc_trades x) (now - ct_stale_submitted_after timing) batch_size))) with
  | (x, Err _) => x
  | (x, Ok stale) => foldl relay_mark_orphaned x stale
  end.

(** [core/post_trade/relay.rs:90-106] `PostTradeRelay::run`, one round of its loop *)
Definition relay_round (fuel : nat) (x : Consumer) (config : TradeTimeoutConfig) (batch_size : nat) (owner : string) (clock : nat -> Time) (now : Time)
    : option Consumer :=
  let timing := confirm_timing config in
  match drain fuel x timing batch_size owner clock 0 with
  | Some x => Some (scan_stale_submitted x timing batch_size now)
  | None => None
  end.
End Consumer.

(** ** Settled trades are booked *)

(** An already claimed fill was marked: the marker row is what the claim collides with. *)
Class FillMarkersExact {DO : DecimalOps} (P : Type) {RP : RiskPersistence P} (FM : FillMarkers P RP) :=
  already_marked : forall w t now w', begin_fill w t now = (w', Ok AlreadyApplied) -> marked w' t.

Section Booked.
Context {DO : DecimalOps} {CH : Chrono} {M P W : Type} {RM : RiskMetrics M} {RP : RiskPersistence P} {FM : FillMarkers P RP}.
Context {FX : FillMarkersExact P FM} {PW : PostTradeWorld W}.
Variable refresh_metrics : M -> M.
Abbreviation C := (Consumer (M := M) (P := P) (W := W)).
Implicit Types x : C.

Lemma statement_spec {A} x (run : C -> C * Result A StorageError) x' r : statement x run = (x', r) ->
  exists w, (x' = with_world x w /\ is_ok r = false) \/ run (with_world x w) = (x', r).
Proof. unfold statement. destruct (pw_connection _) as [w [message|]]; intros H; exists w; [left | by right]. by injection H as <- <-. Qed.

(** An accounted fill is marked. *)
Lemma accounted_is_marked (e : Engine (W := P)) now trade metrics e' r m' :
  on_trade_result e now Fill trade metrics = ((e', Ok r), m') -> filled (pt_trade_id trade) e'.
Proof.
  intros H. destruct (begin_fill (e_persistence e) (pt_trade_id trade) now) as [w1 [[]|err]] eqn:Hb.
  - destruct (fill_claimed e now trade metrics w1 Hb) as (e3 & rep & bl & commit & _ & Pc & E). rewrite E in H.
    destruct (commit_fill w1 commit) as [w2 [[]|err]] eqn:Hc; [|done].
    apply (f_equal (fun q => q.1.1)) in H. rewrite !fst_pair in H. rewrite <- H.
    apply filled_and_then; [|done]. apply filled_followups. unfold filled. rewrite <- Pc. exact (commit_marks _ _ _ Hc).
  - rewrite (fill_replayed _ _ _ _ _ Hb) in H. injection H as <- _ _. unfold filled. simpl. by apply already_marked in Hb.
  - unfold on_trade_result, call at 1 in H. rewrite Hb in H. done.
Qed.

(** A position holds what a trade filled. *)
Record position_of (p : PositionInfo) (row : TradeInfo) : Prop := {
  po_trade : pos_trade_id p = ti_trade_id row;
  po_market : pos_market_id p = ti_market_id row;
  po_token : pos_token_id p = ti_token_id row;
  po_side : pos_side p = ti_side row;
  po_shares : pos_shares p = ti_shares row;
  po_price : pos_avg_entry_price p = ti_price row;
  po_cost : pos_total_cost_usd p = ti_cost_usd row;
  po_fee : pos_total_fees_usd p = ti_fee_usd row
}.

Lemma position_of_same p a b : position_of p a -> same_fill a b -> position_of p b.
Proof. intros [] []. split; congruence. Qed.

Definition has_position (t : gmap PositionId PositionInfo) (id : TradeId) : Prop := exists pid p, t !! pid = Some p /\ pos_trade_id p = id.

Lemma find_by_trade_id_spec t id : match find_by_trade_id t id with Some _ => has_position t id | None => ~ has_position t id end.
Proof.
  unfold find_by_trade_id. destruct (select _ t) as [|p l] eqn:E; simpl.
  - intros (pid & p & Hp & Hid). assert (p ∈ select (fun p => bool_decide (pos_trade_id p = id)) t) as Hin.
    { apply select_in. split; [by apply bool_decide_eq_true | by exists pid]. }
    rewrite E in Hin. by apply not_elem_of_nil in Hin.
  - assert (p ∈ select (fun p => bool_decide (pos_trade_id p = id)) t) as (Hid & pid & Hp)%select_in by (rewrite E; left).
    apply bool_decide_eq_true in Hid. by exists pid, p.
Qed.

Definition keyed_positions (t : gmap PositionId PositionInfo) : Prop := forall pid p, t !! pid = Some p -> pos_id p = pid.

(** What creating a position may do to the table. *)
Inductive positions_grow (c : TradeInfo) (t : gmap PositionId PositionInfo) : gmap PositionId PositionInfo -> Prop :=
| pg_same : positions_grow c t t
| pg_new p : t !! pos_id p = None -> ~ has_position t (pos_trade_id p) -> position_of p c -> positions_grow c t (<[pos_id p := p]> t).

Lemma create_position_grow t new now t' r c :
  create_position t new now = (t', r) -> position_of (position_row new now) c -> keyed_positions t ->
  positions_grow c t t' /\ (is_ok r = true -> has_position t' (np_trade_id new)).
Proof.
  intros H Hc Hk. unfold create_position in H. destruct (select (position_conflict new) t) as [|q l] eqn:E; injection H as <- <-; [|split; [constructor | done]].
  assert (forall pid p, t !! pid = Some p -> position_conflict new p = false) as Hno.
  { intros pid p Hp. apply not_true_iff_false. intros Hx. assert (p ∈ select (position_conflict new) t) as Hin by (apply select_in; split; [done | by exists pid]).
    rewrite E in Hin. by apply not_elem_of_nil in Hin. }
  split.
  - apply (pg_new c t (position_row new now)); [| |done].
    + simpl. apply eq_None_not_Some. intros [p Hp]. pose proof (Hno _ _ Hp) as Hx. unfold position_conflict in Hx. rewrite (Hk _ _ Hp) in Hx.
      by rewrite (bool_decide_eq_true_2 (np_position_id new = np_position_id new)) in Hx.
    + intros (pid & p & Hp & Hid). pose proof (Hno _ _ Hp) as Hx. unfold position_conflict in Hx. simpl in Hid. rewrite Hid in Hx.
      rewrite (bool_decide_eq_true_2 (np_trade_id new = np_trade_id new)) in Hx by done. by rewrite orb_true_r in Hx.
  - intros _. exists (np_position_id new), (position_row new now). by rewrite lookup_insert_eq.
Qed.

(** What the side effects of a fill leave alone. *)
Definition untouched x x' : Prop := pc_trades x' = pc_trades x /\ pc_risk x' = pc_risk x.

Lemma ensure_position_spec x now c x' r : ensure_position x now c = (x', r) -> keyed_positions (pc_positions x) ->
  untouched x x' /\ pc_outcomes x' = pc_outcomes x /\ positions_grow c (pc_positions x) (pc_positions x') /\
  (is_ok r = true -> has_position (pc_positions x') (ti_trade_id c)).
Proof.
  unfold ensure_position. intros H Hk.
  destruct (statement x _) as [y ry] eqn:Ey. apply statement_spec in Ey as [w [[-> Hf]|Ey]].
  - destruct ry; [done|]. injection H as <- <-. split_and!; try done. constructor.
  - injection Ey as <- <-. simpl in H. pose proof (find_by_trade_id_spec (pc_positions x) (ti_trade_id c)) as Hfind.
    destruct (find_by_trade_id _ _) as [q|]; [injection H as <- <-; split_and!; try done; constructor|].
    destruct (resolve_position_redeem_snapshot _ _ _ _) as [snapshot|]; [|injection H as <- <-; split_and!; try done; constructor].
    destruct (pw_position_id w) as [w' id].
    destruct (statement _ _) as [z rz] eqn:Ez. apply statement_spec in Ez as [w2 [[-> Hf]|Ez]].
    + destruct rz; [done|]. injection H as <- <-. split_and!; try done. constructor.
    + destruct (create_position _ _ _) as [t rp] eqn:Ec. simpl in Ez. injection Ez as <- <-. simpl in Ec.
      eapply (create_position_grow _ _ _ _ _ c) in Ec as [Hg Ho]; [|by split | done].
      destruct rp as [p|]; injection H as <- <-; (split_and!; try done); intros _; by apply Ho.
Qed.

Lemma ensure_outcome_spec x c s x' r : ensure_calibration_outcome x c s = (x', r) ->
  untouched x x' /\ pc_positions x' = pc_positions x /\ (forall id, is_Some (pc_outcomes x !! id) -> is_Some (pc_outcomes x' !! id)) /\
  (is_ok r = true -> is_Some (pc_outcomes x' !! ti_trade_id c)).
Proof.
  intros H. unfold ensure_calibration_outcome in H. apply statement_spec in H as [w [[-> Hf]|H]].
  - split_and!; try done. by destruct r.
  - unfold create_outcome in H. simpl in H. destruct (pc_outcomes x !! ti_trade_id c) as [row|] eqn:E.
    + injection H as <- <-. split_and!; try done.
    + injection H as <- <-. split_and!; try done; simpl.
      * intros id Hid. destruct (decide (id = ti_trade_id c)) as [->|]; [by rewrite lookup_insert_eq | by rewrite lookup_insert_ne].
      * intros _. by rewrite lookup_insert_eq.
Qed.

(** The side effects of a processed fill. *)
Lemma side_effects_spec x now c x' r : apply_success_side_effects x now c = (x', r) -> keyed_positions (pc_positions x) ->
  untouched x x' /\ positions_grow c (pc_positions x) (pc_positions x') /\
  (forall id, is_Some (pc_outcomes x !! id) -> is_Some (pc_outcomes x' !! id)) /\
  (pc_positions x' = pc_positions x \/ state_is_success (ti_state c) = true) /\
  (is_ok r = true -> state_is_success (ti_state c) = true ->
   has_position (pc_positions x') (ti_trade_id c) /\ is_Some (pc_outcomes x' !! ti_trade_id c)).
Proof.
  unfold apply_success_side_effects. intros H Hk. destruct (state_is_success _) eqn:Es; [|injection H as <- <-; split_and!; try done; [constructor | by left]].
  destruct (ensure_position x now c) as [y ry] eqn:Ey. apply ensure_position_spec in Ey as ([Ht Hr] & Ho & Hg & Hp); [|done].
  destruct ry as [opened|]; [|injection H as <- <-; split_and!; simpl; try done; [by rewrite Ho | by right]].
  destruct (ti_scored_snapshot c) as [snapshot|]; [|injection H as <- <-; split_and!; simpl; try done; [by rewrite Ho | by right]].
  destruct (ensure_calibration_outcome y c snapshot) as [z rz] eqn:Ez. apply ensure_outcome_spec in Ez as ([Ht2 Hr2] & Hp2 & Ho2 & Hq).
  destruct rz as [row|]; injection H as <- <-; simpl; unfold untouched; simpl; rewrite ?Hp2, ?Ht2, ?Hr2.
  - split_and!; try done; [intros id; rewrite <- Ho; apply Ho2 | by right | intros _ _; split; [by apply Hp | by apply Hq]].
  - split_and!; try done; [intros id; rewrite <- Ho; apply Ho2 | by right].
Qed.

(** Finishing a row. *)
Lemma advance_spec x c terminal x' b : advance_trade x c terminal = (x', b) ->
  pc_risk x' = pc_risk x /\ pc_positions x' = pc_positions x /\ pc_outcomes x' = pc_outcomes x /\
  (pc_trades x' = pc_trades x \/ pc_trades x' = (do_advance_state (pc_trades x) (ti_trade_id c) (ti_state c) terminal).1).
Proof.
  unfold advance_trade. intros H. destruct (statement x _) as [y ry] eqn:Ey. apply statement_spec in Ey as [w [[-> Hf]|Ey]].
  - destruct ry; [done|]. injection H as <- <-. by split_and!; auto.
  - simpl in Ey. destruct (do_advance_state _ _ _ _) as [t applied] eqn:Ed. injection Ey as <- <-.
    destruct applied; injection H as <- <-; [|by split_and!; auto].
    destruct (state_is_success _); simpl; by split_and!; auto.
Qed.

(** Processing a claimed copy: it may store a position, and a row it finishes as settled is booked. *)
Lemma process_spec x now c : keyed_positions (pc_positions x) ->
  let x' := process refresh_metrics x now c in
  (forall id, filled id (pc_risk x) -> filled id (pc_risk x')) /\
  positions_grow c (pc_positions x) (pc_positions x') /\
  (forall id, is_Some (pc_outcomes x !! id) -> is_Some (pc_outcomes x' !! id)) /\
  (pc_positions x' = pc_positions x \/ state_is_success (ti_state c) = true) /\
  (pc_trades x' = pc_trades x \/
   exists terminal, processed_terminal (ti_state c) = Some terminal /\ pc_trades x' = (do_advance_state (pc_trades x) (ti_trade_id c) (ti_state c) terminal).1 /\
     (terminal = TsSettled -> filled (ti_trade_id c) (pc_risk x') /\ has_position (pc_positions x') (ti_trade_id c) /\
                              is_Some (pc_outcomes x' !! ti_trade_id c))).
Proof.
  intros Hk. unfold process. destruct (processed_terminal _) as [terminal|] eqn:Et; [|split_and!; try done; auto; constructor].
  destruct (from_trade_info c) as [input|] eqn:Ei; [|split_and!; try done; auto; constructor].
  assert (pt_trade_id input = ti_trade_id c) as Hid by (unfold from_trade_info in Ei; case_match; [by injection Ei as <- | done]).
  destruct (on_trade_result (pc_risk x) now Fill input (pc_metrics x)) as [[e r] m] eqn:Eo.
  assert (forall id, filled id (pc_risk x) -> filled id e) as Hmono.
  { intros id Hf. pose proof (filled_on_trade_result id (pc_risk x) now Fill input (pc_metrics x) Hf) as Hx. by rewrite Eo in Hx. }
  destruct r as [report|err]; [|split_and!; try done; auto; constructor].
  destruct (apply_success_side_effects _ now c) as [y ry] eqn:Ey. apply side_effects_spec in Ey as ([Ht Hr] & Hg & Ho & Hsucc & Hb); [|done].
  simpl in Ht, Hr, Hg, Ho, Hsucc, Hb.
  destruct ry as [opened|]; [|rewrite Hr; split_and!; auto].
  destruct (advance_trade y c terminal) as [z b] eqn:Ez. apply advance_spec in Ez as (Hr2 & Hp2 & Ho2 & Ht2).
  assert ((forall id, filled id (pc_risk x) -> filled id (pc_risk z)) /\
    positions_grow c (pc_positions x) (pc_positions z) /\ (forall id, is_Some (pc_outcomes x !! id) -> is_Some (pc_outcomes z !! id)) /\
    (pc_positions z = pc_positions x \/ state_is_success (ti_state c) = true) /\
    (pc_trades z = pc_trades x \/ exists terminal, processed_terminal (ti_state c) = Some terminal /\
      pc_trades z = (do_advance_state (pc_trades x) (ti_trade_id c) (ti_state c) terminal).1 /\
      (terminal = TsSettled -> filled (ti_trade_id c) (pc_risk z) /\ has_position (pc_positions z) (ti_trade_id c) /\ is_Some (pc_outcomes z !! ti_trade_id c)))) as Hall.
  { rewrite Hr2, Hr, Hp2, Ho2. split_and!; auto. rewrite Ht in Ht2. destruct Ht2 as [->| ->]; [by left|]. right. exists terminal. split_and!; try done.
    intros ->. split; [rewrite <- Hid; by apply (accounted_is_marked _ _ _ _ _ _ _ Eo)|]. apply Hb; [done|]. by destruct (ti_state c). }
  rewrite Et in Hall. destruct b; exact Hall.
Qed.
(** *** Everything that runs beside the relay *)

(** One step of the system: an update of the trade table by the pipeline, the reconciliation worker
    or the operator; the relay claiming rows, working off one of its copies, or losing them in a
    crash; any operation of the risk engine; an update of a position by settlement. *)
Inductive PostStep :=
| PsStore (op : StoreOp)
| PsClaim (limit : nat) (owner : string) (at_ lease : Time)
| PsProcess (now : Time) (n : nat)
| PsCrash
| PsEngine (now : Time) (op : engine_op (M := M))
| PsPatch (id : PositionId) (patch : list PatchColumn).

(** The copies the relay holds in memory are beside the state. *)
Definition post_step (s : C * list TradeInfo) (step : PostStep) : C * list TradeInfo :=
  let '(x, claimed) := s in
  match step with
  | PsStore op => if is_finish op then s else (with_trades x (store_step (pc_trades x) op), claimed)
  | PsClaim limit owner at_ lease =>
      let '(t, batch) := do_claim_unprocessed (pc_trades x) limit owner at_ lease in (with_trades x t, claimed ++ batch)
  | PsProcess now n => match claimed !! n with Some c => (process refresh_metrics x now c, claimed) | None => s end
  | PsCrash => (x, [])
  | PsEngine now op => (with_risk x (engine_step (pc_risk x) now op).1 (pc_metrics x), claimed)
  | PsPatch id patch => (with_positions x (patch_position (pc_positions x) id patch "position").1, claimed)
  end.

Definition booked x (id : TradeId) : Prop :=
  filled id (pc_risk x) /\ has_position (pc_positions x) id /\ is_Some (pc_outcomes x !! id).

(** A copy the relay holds is of a row that was observed the same way. *)
Definition copy_of (t : gmap TradeId TradeInfo) (c : TradeInfo) : Prop :=
  business_outcome (ti_state c) <> None /\ exists row, t !! ti_trade_id c = Some row /\ same_fill c row.

Record post_inv (s : C * list TradeInfo) : Prop := {
  pi_table : table_ok (pc_trades s.1);
  pi_copies : Forall (copy_of (pc_trades s.1)) s.2;
  pi_keys : keyed_positions (pc_positions s.1);
  pi_positions : forall pid p, pc_positions s.1 !! pid = Some p ->
    exists row, pc_trades s.1 !! pos_trade_id p = Some row /\ business_outcome (ti_state row) = Some Success /\ position_of p row;
  pi_unique : forall pid pid' p p', pc_positions s.1 !! pid = Some p -> pc_positions s.1 !! pid' = Some p' -> pos_trade_id p = pos_trade_id p' -> pid = pid';
  pi_settled : forall id row, pc_trades s.1 !! id = Some row -> ti_state row = TsSettled -> booked s.1 id
}.

(** A row keeps what it filled across an update of the table. *)
Lemma observed_kept t op id row : table_ok t -> t !! id = Some row -> business_outcome (ti_state row) <> None ->
  exists row', store_step t op !! id = Some row' /\ same_fill row row'.
Proof.
  intros Ht Hr Hb. assert (keyed t) as Hk by (intros i r Hi; by apply Ht). pose proof (store_step_rows t op id Hk) as H. rewrite Hr in H.
  destruct (store_step t op !! id) as [row'|]; [|done]. exists row'. split; [done|].
  destruct H as [->|H]; [apply same_fill_refl | by apply observed_frozen; [apply (Ht _ _ Hr)|..]].
Qed.

(** Updates of the trade table that settle nothing keep the invariant. *)
Lemma trades_step_inv x claimed op : post_inv (x, claimed) ->
  (forall id row, store_step (pc_trades x) op !! id = Some row -> ti_state row = TsSettled -> booked x id) ->
  post_inv (with_trades x (store_step (pc_trades x) op), claimed).
Proof.
  intros [Ht Hc Hk Hp Hu Hs] Hnew. simpl in *. split; simpl; try done.
  - by apply store_step_ok.
  - eapply Forall_impl; [exact Hc|]. intros c [Hb (row & Hr & Hf)]. split; [done|].
    assert (business_outcome (ti_state row) <> None) as Hb' by (rewrite <- (sf_outcome _ _ Hf); done).
    destruct (observed_kept _ op _ _ Ht Hr Hb') as (row' & Hr' & Hf'). exists row'. split; [done|]. by eapply same_fill_trans.
  - intros pid p Hpid. destruct (Hp _ _ Hpid) as (row & Hr & Hb & Hpo).
    assert (business_outcome (ti_state row) <> None) as Hb' by (by rewrite Hb).
    destruct (observed_kept _ op _ _ Ht Hr Hb') as (row' & Hr' & Hf'). exists row'. split_and!; [done| |by eapply position_of_same].
    by rewrite <- (sf_outcome _ _ Hf').
Qed.

Lemma claim_copies t limit owner at_ lease : keyed t ->
  Forall (copy_of (do_claim_unprocessed t limit owner at_ lease).1) (do_claim_unprocessed t limit owner at_ lease).2.
Proof.
  intros Hk. change ((do_claim_unprocessed t limit owner at_ lease).1) with (put t (claim_row owner at_ <$> picked t limit lease)).
  change ((do_claim_unprocessed t limit owner at_ lease).2) with (claim_row owner at_ <$> picked t limit lease).
  apply Forall_forall. intros c Hc. split.
  - apply list_elem_of_fmap in Hc as (r & -> & Hr). destruct (elem_of_picked _ _ _ _ Hk Hr) as [Hcl _].
    unfold claimable in Hcl. unfold claim_row. by destruct (ti_state r).
  - exists c. split; [|apply same_fill_refl]. apply put_in; [by apply claimed_nodup | done].
Qed.

Lemma booked_grow x x' id : booked x id -> (filled id (pc_risk x) -> filled id (pc_risk x')) ->
  (has_position (pc_positions x) id -> has_position (pc_positions x') id) -> (is_Some (pc_outcomes x !! id) -> is_Some (pc_outcomes x' !! id)) -> booked x' id.
Proof. intros (H1 & H2 & H3) F G H. split; [auto|]. split; auto. Qed.

Lemma positions_grow_has c t t' id : positions_grow c t t' -> has_position t id -> has_position t' id.
Proof.
  intros [|p Hn Hh Hp] (pid & q & Hq & Hid); [by exists pid, q|]. exists pid, q. split; [|done].
  rewrite lookup_insert_ne; [done|]. intros <-. congruence.
Qed.

(** The positions after a copy was processed are those of filled rows. *)
Lemma positions_grow_inv c t t' row : positions_grow c t t' -> keyed_positions t ->
  (t' = t \/ business_outcome (ti_state row) = Some Success /\ same_fill c row) ->
  keyed_positions t' /\
  ((forall pid pid' p p', t !! pid = Some p -> t !! pid' = Some p' -> pos_trade_id p = pos_trade_id p' -> pid = pid') ->
   forall pid pid' p p', t' !! pid = Some p -> t' !! pid' = Some p' -> pos_trade_id p = pos_trade_id p' -> pid = pid') /\
  forall pid p, t' !! pid = Some p -> t !! pid = Some p \/ (business_outcome (ti_state row) = Some Success /\ position_of p row).
Proof.
  intros Hg Hk Hs. destruct Hg as [|q Hn Hh Hq]; [split; [done|]; split; [done | by left]|]. split_and!.
  - intros pid p. destruct (decide (pid = pos_id q)) as [->|]; [rewrite lookup_insert_eq; by intros [= <-] | rewrite lookup_insert_ne by done; apply Hk].
  - intros Hu pid pid' p p' H1 H2 Hid.
    destruct (decide (pid = pos_id q)) as [->|N1], (decide (pid' = pos_id q)) as [->|N2]; [done|..].
    + rewrite lookup_insert_eq in H1. rewrite lookup_insert_ne in H2 by done. injection H1 as ->. exfalso. apply Hh. by exists pid', p'.
    + rewrite lookup_insert_eq in H2. rewrite lookup_insert_ne in H1 by done. injection H2 as ->. exfalso. apply Hh. by exists pid, p.
    + rewrite lookup_insert_ne in H1, H2 by done. by eapply Hu.
  - intros pid p. destruct (decide (pid = pos_id q)) as [->|]; [|rewrite lookup_insert_ne by done; by left].
    rewrite lookup_insert_eq. intros [= <-]. right. destruct Hs as [Hs|[Hb Hf]].
    + exfalso. rewrite <- Hs in Hn at 1. by rewrite lookup_insert_eq in Hn.
    + split; [done|]. by eapply position_of_same.
Qed.

Lemma process_inv x claimed now c : post_inv (x, claimed) -> c ∈ claimed -> post_inv (process refresh_metrics x now c, claimed).
Proof.
  intros Hinv Hin. pose proof Hinv as [Ht Hc Hk Hp Hu Hs]. simpl in *. rewrite Forall_forall in Hc. destruct (Hc _ Hin) as (Hb & row & Hr & Hf).
  destruct (process_spec x now c Hk) as (Hm & Hg & Ho & Hsame & Htr). set (x' := process refresh_metrics x now c) in *.
  destruct (positions_grow_inv c _ _ row Hg Hk) as (Hk' & Hu' & Hp').
  { destruct Hsame as [Hx|Hx]; [by left|right]. split; [|done]. rewrite <- (sf_outcome _ _ Hf). by destruct (ti_state c). }
  assert (forall id, booked x id -> booked x' id) as Hbk.
  { intros id Hbid. apply (booked_grow x); auto. by apply (positions_grow_has c). }
  assert (post_inv (with_trades x' (pc_trades x), claimed)) as Hmid.
  { split; simpl; try done.
    - by apply Forall_forall.
    - intros pid p Hpid. destruct (Hp' _ _ Hpid) as [Hold|[Hsu Hpo]]; [by apply Hp in Hold|]. exists row. by rewrite (po_trade _ _ Hpo), <- (sf_id _ _ Hf).
    - by apply Hu'.
    - intros id r Hid Hset. destruct (Hbk id (Hs id r Hid Hset)) as (B1 & B2 & B3). by split_and!. }
  destruct Htr as [Hsame_t|(terminal & Hterm & Hadv & Hfin)].
  - destruct Hmid as [M1 M2 M3 M4 M5 M6]. simpl in *. rewrite <- Hsame_t in *. by split.
  - pose proof (trades_step_inv _ _ (OpFinish (ti_trade_id c) (ti_state c)) Hmid) as Hstep. simpl in Hstep. rewrite Hterm in Hstep.
    assert (post_inv (with_trades (with_trades x' (pc_trades x)) (pc_trades x'), claimed)) as [M1 M2 M3 M4 M5 M6].
    { rewrite Hadv. apply Hstep. intros id r Hid Hset.
      destruct (update_where_lookup (pc_trades x) (ti_trade_id c) (in_state (ti_state c)) [CState terminal; COutcome (business_outcome terminal); CClaim None None] id)
        as [Hx|(-> & r0 & Hx & Hcond & Hy)].
      - unfold do_advance_state in Hid. rewrite Hx in Hid. destruct (Hbk id (Hs id r Hid Hset)) as (B1 & B2 & B3). by split_and!.
      - unfold do_advance_state in Hid. rewrite Hy in Hid. injection Hid as <-. by apply Hfin. }
    by split.
Qed.

Lemma post_step_inv s step : post_inv s -> post_inv (post_step s step).
Proof.
  destruct s as [x claimed]. intros Hinv. pose proof Hinv as [Ht Hc Hk Hp Hu Hs]. simpl in Ht, Hc, Hk, Hp, Hu, Hs. destruct step; cbn [post_step].
  - destruct (is_finish op) eqn:Ef; [done|]. apply trades_step_inv; [done|]. intros id row Hr Hset. simpl in *. by apply (Hs id row); [apply (settled_before _ _ _ _ Ht) in Hr|].
  - destruct (do_claim_unprocessed _ _ _ _ _) as [t batch] eqn:E. assert (keyed (pc_trades x)) as Hkt by (intros i r Hi; by apply Ht).
    assert (post_inv (with_trades x (store_step (pc_trades x) (OpClaim limit owner at_ lease)), claimed)) as [M1 M2 M3 M4 M5 M6].
    { apply trades_step_inv; [done|]. intros id row Hr Hset. by apply (Hs id row); [apply (settled_before _ _ _ _ Ht) in Hr|]. }
    cbn [store_step] in *. rewrite E in *. split; try done. simpl. apply Forall_app. split; [done|].
    pose proof (claim_copies (pc_trades x) limit owner at_ lease Hkt) as Hcc. by rewrite E in Hcc.
  - destruct (claimed !! n) as [c|] eqn:En; [|done]. apply process_inv; [done|]. by eapply list_elem_of_lookup_2.
  - by split.
  - split; simpl; try done. intros id row Hr Hset. destruct (Hs _ _ Hr Hset) as (B1 & B2 & B3). split_and!; try done. simpl. by apply filled_step.
  - unfold patch_position. destruct (pc_positions x !! id) as [q|] eqn:Eq; [|by destruct x].
    assert (forall pid p, <[id := apply_patch patch q]> (pc_positions x) !! pid = Some p -> exists p0, pc_positions x !! pid = Some p0 /\
      pos_id p = pos_id p0 /\ pos_trade_id p = pos_trade_id p0 /\ (forall row, position_of p0 row -> position_of p row)) as Hback.
    { intros pid p. destruct (decide (pid = id)) as [->|]; [rewrite lookup_insert_eq; intros [= <-] | rewrite lookup_insert_ne by done; intros Hpid; by exists p].
      exists q. split_and!; try done. intros row []. by split. }
    split; simpl; try done.
    + intros pid p Hpid. destruct (Hback _ _ Hpid) as (p0 & H0 & -> & _). by apply Hk.
    + intros pid p Hpid. destruct (Hback _ _ Hpid) as (p0 & H0 & _ & -> & Hpo). destruct (Hp _ _ H0) as (row & Hr & Hb & Hx). exists row. by auto.
    + intros pid pid' p p' H1 H2 Hid. destruct (Hback _ _ H1) as (p0 & H0 & _ & E0 & _), (Hback _ _ H2) as (p1 & H3 & _ & E1 & _).
      apply (Hu _ _ _ _ H0 H3). congruence.
    + intros i row Hr Hset. destruct (Hs _ _ Hr Hset) as (B1 & (pid & p & Hpid & Hid) & B3). split_and!; try done. simpl.
      destruct (decide (pid = id)) as [->|].
      * exists id, (apply_patch patch q). rewrite lookup_insert_eq. rewrite Eq in Hpid. injection Hpid as ->. by split.
      * exists pid, p. by rewrite lookup_insert_ne.
Qed.

(** C27: Settled trades are booked, once.  However the pipeline, the reconciliation worker, the operator,
    settlement, the risk engine and the relay interleave, whatever statements fail, whenever the relay
    crashes, and however often it works off stale copies of the same trade: when a trade is settled,
    its fill is marked in the risk store, one position holds exactly what it filled and its calibration
    outcome is stored; and there never is a second position of a trade, nor one without a fill. *)
Theorem settled_trades_are_booked x steps :
  pc_trades x = ∅ -> pc_positions x = ∅ ->
  let y := (foldl post_step (x, []) steps).1 in
  (forall id row, pc_trades y !! id = Some row -> ti_state row = TsSettled ->
     filled id (pc_risk y) /\ is_Some (pc_outcomes y !! id) /\ exists pid p, pc_positions y !! pid = Some p /\ position_of p row) /\
  (forall pid p, pc_positions y !! pid = Some p -> exists row, pc_trades y !! pos_trade_id p = Some row /\
     business_outcome (ti_state row) = Some Success /\ position_of p row) /\
  (forall pid pid' p p', pc_positions y !! pid = Some p -> pc_positions y !! pid' = Some p' -> pos_trade_id p = pos_trade_id p' -> pid = pid').
Proof.
  intros H1 H2. assert (post_inv (x, [])) as Hinit.
  { split; simpl; rewrite ?H1, ?H2; try done; by intros. }
  assert (post_inv (foldl post_step (x, []) steps)) as [Ht _ _ Hp Hu Hs].
  { revert Hinit. generalize (x, [] : list TradeInfo). induction steps as [|st steps IH]; intros s Hi; [done|]. by apply IH, post_step_inv. }
  cbv zeta. split_and!; [|done|done]. intros id row Hr Hset. destruct (Hs _ _ Hr Hset) as (B1 & (pid & p & Hpid & Hid) & B3). split_and!; try done.
  exists pid, p. split; [done|]. destruct (Hp _ _ Hpid) as (row' & Hr' & _ & Hpo). rewrite Hid in Hr'. rewrite Hr in Hr'. by injection Hr' as <-.
Qed.
End Booked.

(** ** Draining terminates *)

Section Drain.
Context {DO : DecimalOps} {CH : Chrono} {M P W : Type} {RM : RiskMetrics M} {RP : RiskPersistence P} {PW : PostTradeWorld W}.
Variable refresh_metrics : M -> M.
Abbreviation C := (Consumer (M := M) (P := P) (W := W)).
Implicit Types x : C.

Lemma statement_trades {A} x (run : C -> C * Result A StorageError) : (forall y, pc_trades (run y).1 = pc_trades y) -> pc_trades (statement x run).1 = pc_trades x.
Proof. intros H. unfold statement. destruct (pw_connection _) as [w [message|]]; [done|]. by rewrite H. Qed.

Lemma side_effects_trades x now c : pc_trades (apply_success_side_effects x now c).1 = pc_trades x.
Proof.
  assert (forall y : C, pc_trades (ensure_position y now c).1 = pc_trades y) as Hp.
  { intros y. unfold ensure_position. pose proof (statement_trades y (fun x => (x, Ok (find_by_trade_id (pc_positions x) (ti_trade_id c)))) (fun _ => eq_refl)) as H1.
    destruct (statement y _) as [z [[q|]|e]]; simpl in *; try done. destruct (resolve_position_redeem_snapshot _ _ _ _); [|done].
    destruct (pw_position_id _) as [w id]. match goal with |- context [statement ?a ?f] => pose proof (statement_trades a f) as H2 end.
    destruct (statement _ _) as [v [p|e]]; simpl in *; (rewrite H2; [done|]); intros u; by destruct (create_position _ _ _). }
  unfold apply_success_side_effects. destruct (state_is_success _); [|done]. specialize (Hp x). destruct (ensure_position x now c) as [y [o|e]]; simpl in *; [|done].
  destruct (ti_scored_snapshot c) as [snapshot|]; [|done]. unfold ensure_calibration_outcome.
  match goal with |- context [statement ?a ?f] => pose proof (statement_trades a f) as H2 end.
  destruct (statement y _) as [z [r|e]]; simpl in *; rewrite H2; try done; intros v; by destruct (create_outcome _ _ _).
Qed.

Lemma process_trades x now c : let x' := process refresh_metrics x now c in
  pc_trades x' = pc_trades x \/ exists terminal, processed_terminal (ti_state c) = Some terminal /\
    pc_trades x' = (do_advance_state (pc_trades x) (ti_trade_id c) (ti_state c) terminal).1.
Proof.
  unfold process. destruct (processed_terminal _) as [terminal|] eqn:Et; [|by left]. destruct (from_trade_info c) as [input|]; [|by left].
  destruct (on_trade_result _ _ _ _ _) as [[e [r|err]] m]; [|by left].
  pose proof (side_effects_trades (with_risk x e m) now c) as Hs. destruct (apply_success_side_effects _ now c) as [y [o|]]; simpl in Hs; [|by left].
  destruct (advance_trade y c terminal) as [z b] eqn:Ez. apply advance_spec in Ez as (_ & _ & _ & Ht). rewrite Hs in Ht.
  assert (pc_trades (if b then with_risk z (pc_risk z) (refresh_metrics (pc_metrics z)) else z) = pc_trades z) as -> by (by destruct b).
  destruct Ht as [->| ->]; [by left|right]. by exists terminal.
Qed.

(** What a drain that started at [since] may still claim. *)
Definition backlog (since : Time) (t : gmap TradeId TradeInfo) : gmap TradeId TradeInfo := filter (fun kv => claimable since kv.2 = true) t.

Lemma backlog_subseteq since t t' : (forall id row, t' !! id = Some row -> claimable since row = true -> t !! id = Some row) -> backlog since t' ⊆ backlog since t.
Proof. intros H. apply map_subseteq_spec. intros id row [Hr Hc]%map_lookup_filter_Some. apply map_lookup_filter_Some. split; [by apply H | done]. Qed.

Lemma process_backlog since x now c : backlog since (pc_trades (process refresh_metrics x now c)) ⊆ backlog since (pc_trades x).
Proof.
  destruct (process_trades x now c) as [->|(terminal & Ht & ->)]; [done|]. apply backlog_subseteq. intros id row Hr Hc.
  unfold do_advance_state in Hr. match type of Hr with (update_where ?t ?i ?cond ?cols).1 !! _ = _ =>
    destruct (update_where_lookup t i cond cols id) as [Hx|(-> & r0 & Hx & _ & Hy)] end; [by rewrite <- Hx|].
  rewrite Hy in Hr. injection Hr as <-. unfold claimable in Hc. simpl in Hc. destruct (ti_state c); simpl in Ht; try done; by injection Ht as <-.
Qed.

Lemma process_keyed x now c : keyed (pc_trades x) -> keyed (pc_trades (process refresh_metrics x now c)).
Proof.
  intros Hk id row. destruct (process_trades x now c) as [->|(terminal & Ht & ->)]; [apply Hk|]. unfold do_advance_state.
  match goal with |- (update_where ?t ?i ?cond ?cols).1 !! _ = _ -> _ => destruct (update_where_lookup t i cond cols id) as [Hx|(-> & r0 & Hx & _ & Hy)] end.
  - rewrite Hx. apply Hk.
  - rewrite Hy. intros [= <-]. by apply Hk in Hx.
Qed.

Lemma batch_backlog since x now batch : keyed (pc_trades x) ->
  let y := foldl (fun x trade => process refresh_metrics x now trade) x batch in backlog since (pc_trades y) ⊆ backlog since (pc_trades x) /\ keyed (pc_trades y).
Proof.
  revert x. induction batch as [|c batch IH]; intros x Hk; simpl; [done|].
  destruct (IH (process refresh_metrics x now c) (process_keyed x now c Hk)) as [H1 H2]. split; [|done]. etrans; [exact H1 | apply process_backlog].
Qed.

(** Claiming something makes the backlog smaller. *)
Lemma claim_backlog since t limit owner now lease : keyed t -> since <= now -> now - lease <= since ->
  (do_claim_unprocessed t limit owner now (now - lease)).2 <> [] ->
  backlog since (do_claim_unprocessed t limit owner now (now - lease)).1 ⊂ backlog since t.
Proof.
  intros Hk H1 H2 Hne. set (t' := (do_claim_unprocessed t limit owner now (now - lease)).1).
  assert (forall row, claimable (now - lease) row = true -> claimable since row = true /\ claimable since (claim_row owner now row) = false) as Hcl.
  { intros row Hc. unfold claimable in *. unfold claim_row. apply orb_true_iff in Hc as [Hc|[Hp Ha]%andb_prop].
    - rewrite Hc. split; [done|]. destruct (ti_state row); simpl in *; try done; apply Z.ltb_ge; lia.
    - destruct (ti_post_trade_claimed_at row) as [at_|]; [|done]. apply Z.ltb_lt in Ha.
      split; [|destruct (ti_state row); simpl in *; try done; apply Z.ltb_ge; lia].
      rewrite Hp. simpl. apply orb_true_iff. right. apply Z.ltb_lt. lia. }
  split.
  - apply backlog_subseteq. intros id row Hr Hc. destruct (claim_lookup t limit owner now (now - lease) id Hk) as [Hx|(r0 & Hx & Hc0 & Hy)].
    + by rewrite <- Hx.
    + exfalso. fold t' in Hy. rewrite Hy in Hr. injection Hr as <-. destruct (Hcl _ Hc0) as [_ Hf]. congruence.
  - intros Hsub. change ((do_claim_unprocessed t limit owner now (now - lease)).2) with (claim_row owner now <$> picked t limit (now - lease)) in Hne.
    destruct (picked t limit (now - lease)) as [|r l] eqn:E; [done|].
    assert (r ∈ picked t limit (now - lease)) as Hin by (rewrite E; left). destruct (elem_of_picked _ _ _ _ Hk Hin) as [Hc Hr].
    assert (backlog since t !! ti_trade_id r = Some r) as Hb by (apply map_lookup_filter_Some; split; [done | by apply Hcl]).
    eapply lookup_weaken in Hb; [|exact Hsub]. apply map_lookup_filter_Some in Hb as [Hb _].
    assert (t' !! ti_trade_id r = Some (claim_row owner now r)) as Hput.
    { unfold t'. change ((do_claim_unprocessed t limit owner now (now - lease)).1) with (put t (claim_row owner now <$> picked t limit (now - lease))).
      rewrite <- (claim_row_id owner now r). apply put_in; [by apply claimed_nodup|]. apply list_elem_of_fmap. by exists r. }
    rewrite Hput in Hb. injection Hb as Hb. destruct (Hcl _ Hc) as [Hc1 Hc2]. rewrite Hb in Hc2. congruence.
Qed.

(** Draining terminates.  As long as its rounds fall within one lease, the drain ends after at most
    one round more than there were rows to claim, whatever fails and however the batches come out:
    a row it claimed is not claimed again, also when processing it failed. *)
Theorem drain_terminates x timing batch_size owner clock :
  keyed (pc_trades x) -> (forall i, clock 0%nat <= clock i <= clock 0%nat + claim_lease timing) ->
  is_Some (drain refresh_metrics (S (size (backlog (clock 0%nat) (pc_trades x)))) x timing batch_size owner clock 0).
Proof.
  intros Hk Hclock. assert (forall n fuel y i, (size (backlog (clock 0%nat) (pc_trades y)) < fuel)%nat -> (fuel <= n)%nat -> keyed (pc_trades y) ->
    is_Some (drain refresh_metrics fuel y timing batch_size owner clock i)) as H; [|apply (H (S (size (backlog (clock 0%nat) (pc_trades x))))); [lia | lia | done]].
  induction n as [|n IH]; intros fuel y i Hsize Hn Hky; [lia|]. destruct fuel as [|fuel]; [lia|]. cbn [drain].
  unfold statement. destruct (pw_connection _) as [w [message|]]; [by eexists|]. change (pc_trades (with_world y w)) with (pc_trades y).
  pose proof (claim_backlog (clock 0%nat) (pc_trades y) batch_size owner (clock i) (claim_lease timing) Hky) as Hc.
  assert (keyed (do_claim_unprocessed (pc_trades y) batch_size owner (clock i) (clock i - claim_lease timing)).1) as Hkc.
  { intros id row Hr. destruct (claim_lookup (pc_trades y) batch_size owner (clock i) (clock i - claim_lease timing) id Hky) as [Hx|(r & Hx & _ & Hy)].
    - rewrite Hx in Hr. by apply Hky.
    - rewrite Hy in Hr. injection Hr as <-. rewrite claim_row_id. by apply Hky. }
  destruct (do_claim_unprocessed _ _ _ _ _) as [t batch]. simpl in Hc, Hkc. destruct batch as [|c batch]; [by eexists|].
  destruct (_ <? _)%nat; [by eexists|]. set (z := foldl _ _ (c :: batch)).
  destruct (batch_backlog (clock 0%nat) (with_trades (with_world y w) t) (clock i) (c :: batch) Hkc) as [Hsub Hkz]. fold z in Hsub, Hkz.
  assert (size (backlog (clock 0%nat) t) < size (backlog (clock 0%nat) (pc_trades y)))%nat as Hlt.
  { apply map_subset_size, Hc; [apply Hclock | pose proof (Hclock i); lia | done]. }
  apply IH; [|lia|done]. apply map_subseteq_size in Hsub. simpl in Hsub. lia.
Qed.
End Drain.

(** ** Fills that collide *)

Section Collisions.
Context {DO : DecimalOps} {CH : Chrono} {M P W : Type} {RM : RiskMetrics M} {RP : RiskPersistence P} {PW : PostTradeWorld W}.
Variable refresh_metrics : M -> M.
Abbreviation C := (Consumer (M := M) (P := P) (W := W)).
Implicit Types x : C.

(** The row of [c] cannot be stored: another open position holds its market, token and side, or its
    calibration outcome is stored already and the library reports that as an error. *)
Definition collides x (c : TradeInfo) : Prop :=
  (find_by_trade_id (pc_positions x) (ti_trade_id c) = None /\
   exists pid q, pc_positions x !! pid = Some q /\ is_open q = true /\ pos_market_id q = ti_market_id c /\ pos_token_id q = ti_token_id c /\ pos_side q = ti_side c)
  \/ (pw_reports_conflict = true /\ is_Some (pc_outcomes x !! ti_trade_id c)).

Lemma open_market_conflict t new now pid q : t !! pid = Some q -> is_open q = true -> pos_market_id q = np_market_id new ->
  pos_token_id q = np_token_id new -> pos_side q = np_side new -> is_ok (create_position t new now).2 = false.
Proof.
  intros Hq Ho H1 H2 H3. unfold create_position. assert (q ∈ select (position_conflict new) t) as Hin.
  { apply select_in. split; [|by exists pid]. unfold position_conflict. rewrite Ho, H1, H2, H3. apply orb_true_iff. right.
    by rewrite (bool_decide_eq_true_2 (np_market_id new = _)), (bool_decide_eq_true_2 (np_token_id new = _)), (bool_decide_eq_true_2 (np_side new = _)) by done. }
  destruct (select _ t); [by apply not_elem_of_nil in Hin | done].
Qed.

(** A fill that collides is never finished.  While another open position holds the same market,
    token and side -- or, when the database library reports an insert that stored nothing as an
    error, as soon as the calibration outcome of the trade was stored by an attempt that did not
    get to finish the row -- processing the fill leaves the trade table as it is and halts
    execution, whatever else happens, so that every later attempt does the same. *)
Theorem colliding_fill_never_finishes x now c :
  ti_state c = TsFillProcessing -> ti_business_outcome c = Some Success -> collides x c ->
  let x' := process refresh_metrics x now c in
  pc_trades x' = pc_trades x /\ fsm_emergency (pc_fsm x') = true /\ fsm_class (pc_fsm x') = PersistenceFault.
Proof.
  intros Hs Hb Hcol. unfold process, from_trade_info. rewrite Hs, Hb. simpl processed_terminal. cbv iota beta.
  destruct (on_trade_result _ _ _ _ _) as [[e [r|err]] m]; [|done].
  pose proof (side_effects_trades (with_risk x e m) now c) as Ht. unfold apply_success_side_effects in *. rewrite Hs in *. simpl state_is_success in *. cbv iota in *.
  destruct (ensure_position (with_risk x e m) now c) as [y ry] eqn:Ey. destruct ry as [opened|]; [|done].
  destruct (ti_scored_snapshot c) as [snapshot|]; [|done].
  destruct Hcol as [(Hnone & pid & q & Hq & Hopen & H1 & H2 & H3)|(Hrep & row & Hrow)].
  - exfalso. unfold ensure_position, statement in Ey. simpl pc_world in Ey. destruct (pw_connection (pc_world x)) as [w [message|]]; [done|]. simpl in Ey.
    rewrite Hnone in Ey. destruct (resolve_position_redeem_snapshot _ _ _ _); [|done]. destruct (pw_position_id w) as [w' id].
    simpl in Ey. destruct (pw_connection w') as [w2 [message|]]; [done|]. simpl in Ey.
    match type of Ey with context [create_position ?t ?n ?a] => pose proof (open_market_conflict t n a pid q Hq Hopen H1 H2 H3) as Hf end.
    by destruct (create_position _ _ _) as [t [p|e']].
  - assert (pc_outcomes y !! ti_trade_id c = Some row) as Hy.
    { assert (pc_outcomes y = pc_outcomes x) as ->; [|done]. unfold ensure_position, statement in Ey. simpl pc_world in Ey.
      destruct (pw_connection (pc_world x)) as [w [message|]]; [by injection Ey as <- |]. simpl in Ey.
      destruct (find_by_trade_id _ _); [by injection Ey as <- |]. destruct (resolve_position_redeem_snapshot _ _ _ _); [|done].
      destruct (pw_position_id w) as [w' id]. simpl in Ey. destruct (pw_connection w') as [w2 [message|]]; [done|]. simpl in Ey.
      destruct (create_position _ _ _) as [t [p|e']]; by injection Ey as <-. }
    destruct (ensure_calibration_outcome y c snapshot) as [z rz] eqn:Ez. assert (is_ok rz = false) as Hf.
    { unfold ensure_calibration_outcome, statement in Ez. destruct (pw_connection (pc_world y)) as [w [message|]]; [by injection Ez as _ <-|].
      unfold create_outcome in Ez. simpl in Ez. rewrite Hy, Hrep in Ez. by injection Ez as _ <-. }
    by destruct rz.
Qed.
End Collisions.

(** ** A run

    A trade is stored, submitted, filled, claimed and worked off, against a database that never fails. *)
Module PostTradeDemo.
#[local] Existing Instance ExactQ.exactQ.
#[local] Existing Instance utc_chrono.
#[local] Existing Instance Frozen.metrics.

#[global] Instance scripted_exact : FillMarkersExact (DO := ExactQ.exactQ) Scripted.Store Scripted.fill_markers.
Proof.
  intros w t now w'. simpl. destruct (bool_decide (t ∈ Scripted.markers w)) eqn:E; [|unfold Scripted.quiet, Scripted.call; by repeat case_match].
  intros [= <-]. by apply bool_decide_eq_true in E.
Qed.

#[local] Instance world : PostTradeWorld Z := {|
  pw_connection := fun w => (w, None); pw_position_id := fun w => (w + 1, w); pw_neg_risk := fun _ _ => Some false; pw_reports_conflict := true |}.

Definition consumer : Consumer (M := RiskMetricsSnapshot) (P := Scripted.Store) (W := Z) := {|
  pc_trades := ∅; pc_positions := ∅; pc_outcomes := ∅; pc_risk := EngineDemo.engine []; pc_metrics := Demo.metrics; pc_fsm := new_fsm;
  pc_capital := new_capital_manager (new_exposure ExposureDemo.demo_limits) ExposureDemo.demo_limits; pc_world := 1; pc_redeem := redeem_default; pc_log := [] |}.

Definition new_trade : NewTrade := {|
  nt_trade_id := 7; nt_execution_id := 1; nt_reservation_id := 2; nt_opportunity_id := 3; nt_market_id := "m"; nt_event_id := "e"; nt_token_id := "t";
  nt_side := Buy; nt_shares := 20%Q; nt_price := (1 # 2)%Q; nt_cost_usd := 10%Q; nt_fee_usd := (1 # 10)%Q; nt_detected_edge_bps := None;
  nt_detected_profit_usd := None; nt_category := opp_category Demo.opportunity; nt_execution_mode := Live |}.

Definition fill : TradeObservation := {|
  ob_state := TsFillObserved; ob_shares := 20%Q; ob_price := (1 # 2)%Q; ob_cost_usd := 10%Q; ob_fee_usd := (1 # 10)%Q; ob_order_id := Some "o";
  ob_tx_hash := None; ob_net_profit_usd := Some 1%Q; ob_latency_ms := None; ob_error_message := None |}.

Definition snapshot : Result ScoredOpportunitySnapshot string := Ok (from_opportunity Demo.opportunity).

Definition steps : list (PostStep (M := RiskMetricsSnapshot)) :=
  [PsStore (OpCreate new_trade snapshot 1); PsStore (OpSubmit 7 2); PsStore (OpObserve 7 fill 3); PsClaim 10 "relay" 4 0; PsProcess 5 0].

Definition filled_world := (foldl (post_step (fun m => m)) (consumer, []) steps).1.

Lemma settled_trades_are_booked_witness :
  exists pid p, pc_positions filled_world !! pid = Some p /\ pos_trade_id p = 7.
Proof.
  destruct (settled_trades_are_booked (FX := scripted_exact) (fun m => m) consumer steps) as (H & _); [reflexivity | reflexivity|].
  fold filled_world in H.
  assert (ti_state <$> pc_trades filled_world !! 7 = Some TsSettled) as Hs by (vm_compute; reflexivity).
  destruct (pc_trades filled_world !! 7) as [row|] eqn:E; [|done]. injection Hs as Hs.
  assert (ti_trade_id <$> pc_trades filled_world !! 7 = Some 7) as Hid by (vm_compute; reflexivity). rewrite E in Hid. injection Hid as Hid.
  destruct (H 7 row E Hs) as (_ & _ & pid & p & Hp & Hpo). exists pid, p. split; [done|]. rewrite <- Hid. apply Hpo.
Defined.

Definition stored : gmap TradeId TradeInfo := store_run ∅ [OpCreate new_trade snapshot 1; OpSubmit 7 2; OpObserve 7 fill 3].

Lemma trades_follow_lifecycle_witness : table_ok (store_run stored [OpClaim 10 "relay" 4 0; OpFinish 7 TsFillProcessing]).
Proof.
  apply trades_follow_lifecycle. apply store_run_ok, empty_table_ok.
Defined.

Lemma drain_terminates_witness :
  is_Some (drain (fun m => m) 2 (with_trades consumer stored) {| ct_poll_interval := 2; ct_stale_submitted_after := 60 |} 10 "relay" (fun _ => 4) 0).
Proof.
  assert (size (backlog 4 stored) = 1)%nat as Hs by (vm_compute; reflexivity). rewrite <- (f_equal S Hs).
  apply (drain_terminates (fun m => m) (with_trades consumer stored) {| ct_poll_interval := 2; ct_stale_submitted_after := 60 |} 10 "relay" (fun _ => 4)).
  - intros id row H. by apply (store_run_ok ∅ [OpCreate new_trade snapshot 1; OpSubmit 7 2; OpObserve 7 fill 3] empty_table_ok).
  - intros i. vm_compute. done.
Defined.

(** A copy whose outcome an earlier attempt stored. *)
Lemma colliding_fill_never_finishes_witness :
  match (do_claim_unprocessed stored 10 "relay" 4 0).2 with
  | c :: _ => fsm_emergency (pc_fsm (process (fun m => m) (with_outcomes (with_trades consumer stored) (pc_outcomes filled_world)) 5 c)) = true
  | [] => False
  end.
Proof.
  assert ((fun c => (ti_trade_id c, ti_state c, ti_business_outcome c)) <$> (do_claim_unprocessed stored 10 "relay" 4 0).2 = [(7, TsFillProcessing, Some Success)])
    as Hc by (vm_compute; reflexivity).
  destruct (do_claim_unprocessed stored 10 "relay" 4 0).2 as [|c l]; [done|]. injection Hc as H1 H2 H3 _.
  destruct (colliding_fill_never_finishes (fun m => m) (with_outcomes (with_trades consumer stored) (pc_outcomes filled_world)) 5 c H2 H3) as (_ & H & _); [|exact H].
  right. split; [done|]. simpl. rewrite H1.
  assert (match pc_outcomes filled_world !! 7 with Some _ => true | None => false end = true) as Ho by (vm_compute; reflexivity).
  destruct (pc_outcomes filled_world !! 7); [by eexists | done].
Defined.
End PostTradeDemo.
