(* ===== verification/Orphans.v ===== *)
(** * Orphaned trades: [oxide-arb-core/src/post_trade/reconciliation] and [trade_integrity]

    A trade whose venue outcome is unknown is decided later from evidence: the venue's trade
    history and the token balance.  Here are the evidence ladder, the back-off, the worker with the
    capital it frees or keeps, the operator's closure of a trade that cannot be decided, and the
    restoration of reservations at boot.  The venue, the chain client and the connection are an
    interface that may fail; alerts, metrics counters and log lines are left out. *)

From stdpp Require Import sorting.
From S2P Require Import Prelude Decimal Config Domain RiskTypes Fees Exposure ScoredSnapshot Execution ExecutionPipeline TradeStore RuntimeConfig.

(** ** Evidence *)

Section Evidence.
Context {DO : DecimalOps}.

(** [api/clob/orders.rs:39-49] `ClobTrade` *)
Record ClobTrade := {
  clob_trade_id : string;
  clob_order_id : OrderId;
  clob_market_id : MarketId;
  clob_token_id : TokenId;
  clob_side : Side;
  clob_size : D;
  clob_price : D;
  clob_tx_hash : string;
  clob_matched_at : Time
}.

(** [core/post_trade/reconciliation/evidence.rs:14-28] `EvidenceVerdict` *)
Inductive EvidenceVerdict :=
| VFilled (shares price : D) (order_id : option OrderId) (tx_hash : option string) (clob_trade : option ClobTrade) (note : string)
| VMiss (note : string)
| VDefer (note : string).

(** [core/post_trade/reconciliation/evidence.rs:132-134] `shares_equal_lot` *)
Definition shares_equal_lot (a b : D) : bool := deqb a b.

(** [core/post_trade/reconciliation/evidence.rs:124-130] `order_matches_trade` *)
Definition order_matches_trade (c : ClobTrade) (t : TradeInfo) : bool :=
  match ti_order_id t with Some id => bool_decide (clob_order_id c = id) | None => false end
  || (bool_decide (clob_side c = ti_side t) && shares_equal_lot (clob_size c) (ti_shares t)).

Definition filled_by (c : ClobTrade) (note : string) : EvidenceVerdict :=
  VFilled (clob_size c) (clob_price c) (Some (clob_order_id c)) (Some (clob_tx_hash c)) (Some c) note.

(** The first three rungs, each with the verdict it gives. *)
Definition order_evidence (t : TradeInfo) (clob : list ClobTrade) : option EvidenceVerdict :=
  match ti_order_id t with
  | Some id => match List.find (fun c => bool_decide (clob_order_id c = id) && dltb d0 (clob_size c)) clob with
               | Some c => Some (filled_by c "L1: order_id exact match in CLOB trades")
               | None => None
               end
  | None => None
  end.

Definition in_window (config : ReconciliationConfig) (submitted_at now : Time) (t : TradeInfo) (c : ClobTrade) : bool :=
  bool_decide (clob_side c = ti_side t) && (submitted_at - trade_lookback_secs config * nanos_per_sec <=? clob_matched_at c)
  && (clob_matched_at c <=? now) && shares_equal_lot (clob_size c) (ti_shares t).

Definition window_evidence (t : TradeInfo) (clob : list ClobTrade) (competing : bool) (config : ReconciliationConfig) (now : Time) : option EvidenceVerdict :=
  match ti_submitted_at t with
  | Some submitted_at =>
      if competing then None
      else match List.find (in_window config submitted_at now t) clob with
           | Some c => Some (filled_by c "L2: CLOB trade window match with exact plan shares")
           | None => None
           end
  | None => None
  end.

Definition balance_evidence (t : TradeInfo) (balance : D) (config : ReconciliationConfig) : option EvidenceVerdict :=
  match ti_pre_submit_ctf_balance t with
  | Some pre =>
      let delta := dsub balance pre in
      if dleb (dmul (ti_shares t) (min_fill_ratio config)) delta && dltb d0 delta
      then Some (VFilled delta (ti_price t) (ti_order_id t) (ti_tx_hash t) None "L3: CTF delta >= min fill")
      else None
  | None => None
  end.

(** [core/post_trade/reconciliation/evidence.rs:32-122] `evaluate_evidence_ladder`, the numbers of a note left out *)
Definition evaluate_evidence_ladder (t : TradeInfo) (clob : list ClobTrade) (balance : D) (competing : bool) (config : ReconciliationConfig)
    (now : Time) : EvidenceVerdict :=
  match order_evidence t clob with
  | Some v => v
  | None =>
  match window_evidence t clob competing config now with
  | Some v => v
  | None =>
  match balance_evidence t balance config with
  | Some v => v
  | None =>
      let missed :=
        match ti_submitted_at t with
        | Some submitted_at =>
            (submitted_at + unwrap_or (to_i64 (min_miss_age_secs config)) i64_max * nanos_per_sec <=? now)
            && deqb (match ti_pre_submit_ctf_balance t with Some pre => dsub balance pre | None => d0 end) d0
            && negb (existsb (fun c => bool_decide (clob_side c = ti_side t) && dltb d0 (clob_size c) && order_matches_trade c t) clob)
        | None => false
        end in
      if missed then VMiss "L4: no CLOB match, zero CTF delta, min miss age elapsed"
      else VDefer "L5: insufficient evidence: defer with backoff"
  end
  end
  end.

(** [core/post_trade/reconciliation/defer.rs:9-21] `next_defer_until` *)
Definition next_defer_until (config : ReconciliationConfig) (attempts : Z) (now : Time) : Time :=
  let attempt := unwrap_or (to_u32 (Z.max attempts 1)) 1 in
  let base := Z.max (backoff_base_secs config) 1 in
  let max := Z.max (backoff_max_secs config) base in
  let exponent := Z.min (Z.max (attempt - 1) 0) 16 in
  let delay := Z.min (sat_u64 (base * Z.shiftl 1 exponent)) max in
  now + unwrap_or (to_i64 delay) i64_max * nanos_per_sec.

(** [core/post_trade/reconciliation/economics.rs:71-76] `resolution_prob_from_trade` *)
Definition resolution_prob_from_trade (t : TradeInfo) : Result D string :=
  match ti_scored_snapshot t with Ok s => Ok (ss_resolution_prob s) | Err e => Err e end.

(** [core/post_trade/reconciliation/economics.rs:79-81] `reservation_amount_after_fill` *)
Definition reservation_amount_after_fill (cost fee : D) : D := dadd cost fee.

(** [core/post_trade/reconciliation/economics.rs:21-68] `reconciled_fill_economics` *)
Definition reconciled_fill_economics {DP : DecimalPow} (t : TradeInfo) (clob : option ClobTrade) (shares price : D) (fees : FeeSnapshot) (prob : D)
    (mode : ExecutionMode) : Result TradeObservation FeeQuoteError :=
  let shares := match clob with Some c => clob_size c | None => shares end in
  let price := match clob with Some c => clob_price c | None => price end in
  let cost := dmul shares price in
  match quote_for_mode fees mode {| fq_market_id := ti_market_id t; fq_token_id := ti_token_id t; fq_category := ti_category t; fq_side := ti_side t;
                                    fq_liquidity_role := Taker; fq_shares := shares; fq_price := price; fq_allow_category_fallback := not_live mode |} with
  | Err e => Err e
  | Ok quote =>
      Ok {| ob_state := TsFillObserved; ob_shares := shares; ob_price := price; ob_cost_usd := cost; ob_fee_usd := fee_usd quote;
            ob_order_id := match clob with Some c => Some (clob_order_id c) | None => ti_order_id t end;
            ob_tx_hash := match clob with Some c => Some (clob_tx_hash c) | None => ti_tx_hash t end;
            ob_net_profit_usd := Some (fill_expected_net_profit prob shares cost (fee_usd quote)); ob_latency_ms := None;
            ob_error_message := Some "reconciled fill with recomputed fee/EV" |}
  end.
End Evidence.

(** ** The worker *)

(** What reconciliation asks of the outside: whether the next statement fails, the venue's trade
    history, the balance of a token, and the fee schedules. *)
Class OrphanWorld {DO : DecimalOps} (W : Type) := {
  ow_connection : W -> W * option string;
  ow_clob_trades : W -> MarketId -> TokenId -> option Z -> W * Result (list ClobTrade) string;
  ow_balance : W -> TokenId -> W * Result D string;
  ow_fees : W -> FeeSnapshot
}.

Section Worker.
Context {DO : DecimalOps} {DP : DecimalPow} {W : Type} {OW : OrphanWorld W}.
Abbreviation Table := (gmap TradeId TradeInfo).

(** [core/post_trade/reconciliation/mod.rs:61-74] `ReconciliationWorker`, what it can change *)
Record Worker := { rw_trades : Table; rw_capital : CapitalManager; rw_fsm : ExecutionFSM; rw_world : W; rw_config : ReconciliationConfig }.

Definition set_rw_trades (x : Worker) t : Worker := {| rw_trades := t; rw_capital := rw_capital x; rw_fsm := rw_fsm x; rw_world := rw_world x; rw_config := rw_config x |}.
Definition set_rw_capital (x : Worker) c : Worker := {| rw_trades := rw_trades x; rw_capital := c; rw_fsm := rw_fsm x; rw_world := rw_world x; rw_config := rw_config x |}.
Definition set_rw_fsm (x : Worker) f : Worker := {| rw_trades := rw_trades x; rw_capital := rw_capital x; rw_fsm := f; rw_world := rw_world x; rw_config := rw_config x |}.
Definition set_rw_world (x : Worker) w : Worker := {| rw_trades := rw_trades x; rw_capital := rw_capital x; rw_fsm := rw_fsm x; rw_world := w; rw_config := rw_config x |}.

Definition worker_halt (x : Worker) (class : EmergencyClass) (reason : string) : Worker := set_rw_fsm x (enter_emergency (rw_fsm x) class reason).

Definition run_statement {A} (x : Worker) (f : Table -> Table * Result A string) : Worker * Result A string :=
  match ow_connection (rw_world x) with
  | (w, Some message) => (set_rw_world x w, Err message)
  | (w, None) => let '(t, r) := f (rw_trades x) in (set_rw_trades (set_rw_world x w) t, r)
  end.

(** The reservation of a trade. *)
Definition trade_reservation (t : TradeInfo) : ReservationHandle := {|
  rh_id := ti_reservation_id t; rh_amount := dadd (ti_cost_usd t) (ti_fee_usd t); rh_market_id := ti_market_id t |}.

(** [record_reconcile_defer] after the next back-off. *)
Definition defer (x : Worker) (t : TradeInfo) (note : string) (now : Time) : Worker * Result bool string :=
  run_statement x (fun tbl => let '(tbl, b) := do_record_reconcile_defer tbl (ti_trade_id t)
    (next_defer_until (rw_config x) (ti_reconcile_attempts t + 1) now) note in (tbl, Ok b)).

(** The venue's trades ordered by time. *)
Definition matched_before (a b : ClobTrade) : Prop := clob_matched_at a <= clob_matched_at b.
#[local] Instance matched_before_dec a b : Decision (matched_before a b).
Proof. apply Z_le_dec. Defined.

(** [core/post_trade/reconciliation/mod.rs:325-340] `ReconciliationWorker::fetch_clob_trades` *)
Definition fetch_clob_trades (x : Worker) (t : TradeInfo) : Worker * Result (list ClobTrade) string :=
  let after := match ti_submitted_at t with Some ts => Some (sat_i64 (ts / nanos_per_sec - trade_lookback_secs (rw_config x))) | None => None end in
  match ow_clob_trades (rw_world x) (ti_market_id t) (ti_token_id t) after with
  | (w, Ok l) => (set_rw_world x w, Ok (merge_sort matched_before l))
  | (w, Err e) => (set_rw_world x w, Err e)
  end.

(** [core/post_trade/reconciliation/mod.rs:46-50] `ReconcileEvidenceInputs` *)
Record ReconcileEvidenceInputs := { ei_clob_trades : list ClobTrade; ei_ctf_balance : D; ei_competing : bool }.

(** [core/post_trade/reconciliation/mod.rs:184-235] `ReconciliationWorker::load_evidence_inputs` *)
Definition load_evidence_inputs (x : Worker) (t : TradeInfo) (now : Time) : Worker * option ReconcileEvidenceInputs :=
  match fetch_clob_trades x t with
  | (x, Err e) => ((defer x t e now).1, None)
  | (x, Ok clob) =>
      match ow_balance (rw_world x) (ti_token_id t) with
      | (w, Err e) => ((defer (set_rw_world x w) t e now).1, None)
      | (w, Ok balance) =>
          let '(x, n) := run_statement (set_rw_world x w) (fun tbl => (tbl, Ok (do_count_competing_pending_reconcile tbl (ti_market_id t) (ti_submitted_at t)))) in
          (x, Some {| ei_clob_trades := clob; ei_ctf_balance := balance; ei_competing := 1 <? match n with Ok n => n | Err _ => 0 end |})
      end
  end.

(** [core/post_trade/reconciliation/mod.rs:342-388] `ReconciliationWorker::apply_filled` *)
Definition apply_filled (x : Worker) (t : TradeInfo) (obs : TradeObservation) (note : string) (now : Time) : Worker :=
  let reservation := trade_reservation t in
  let actual := reservation_amount_after_fill (ob_cost_usd obs) (ob_fee_usd obs) in
  let resized :=
    if dltb actual (rh_amount reservation)
    then match capital_resize_sync (rw_capital x) reservation actual with
         | (cm, Ok _) => Some (set_rw_capital x cm)
         | (cm, Err _) => None
         end
    else Some x in
  match resized with
  | None => worker_halt x ReservationFault "reconciled fill reservation resize failed"
  | Some x =>
      match run_statement x (fun tbl => match do_mark_reconciled_observed tbl (ti_trade_id t) obs now TrFilled note now with
                                        | (tbl, Ok b) => (tbl, Ok b)
                                        | (tbl, Err _) => (tbl, Err "stale data")
                                        end) with
      | (x, Ok _) => x
      | (x, Err _) => worker_halt x PersistenceFault "reconciled fill persist failed"
      end
  end.

(** [core/post_trade/reconciliation/mod.rs:390-428] `ReconciliationWorker::apply_miss` *)
Definition apply_miss (x : Worker) (t : TradeInfo) (obs : TradeObservation) (note : string) (now : Time) : Worker :=
  match run_statement x (fun tbl => match do_mark_reconciled_observed tbl (ti_trade_id t) obs now TrMiss note now with
                                    | (tbl, Ok b) => (tbl, Ok b)
                                    | (tbl, Err _) => (tbl, Err "stale data")
                                    end) with
  | (x, Ok true) =>
      match capital_release_sync (rw_capital x) (trade_reservation t) with
      | (cm, Ok _) => set_rw_capital x cm
      | (cm, Err _) => worker_halt (set_rw_capital x cm) ReservationFault "reconciled miss reservation release failed"
      end
  | (x, Ok false) => x
  | (x, Err _) => worker_halt x PersistenceFault "reconciled miss persist failed"
  end.

(** [core/post_trade/reconciliation/mod.rs:287-302] `ReconciliationWorker::apply_miss_verdict` *)
Definition miss_observation (t : TradeInfo) (note : string) : TradeObservation := {|
  ob_state := TsMissObserved; ob_shares := d0; ob_price := ti_price t; ob_cost_usd := d0; ob_fee_usd := d0; ob_order_id := None; ob_tx_hash := None;
  ob_net_profit_usd := None; ob_latency_ms := None; ob_error_message := Some note |}.

(** [core/post_trade/reconciliation/mod.rs:237-285] `ReconciliationWorker::apply_filled_verdict` *)
Definition apply_filled_verdict (x : Worker) (t : TradeInfo) (shares price : D) (clob : option ClobTrade) (note : string) (now : Time) : Worker :=
  match resolution_prob_from_trade t with
  | Err e => (defer x t e now).1
  | Ok prob =>
      match reconciled_fill_economics t clob shares price (ow_fees (rw_world x)) prob (ti_execution_mode t) with
      | Err e => (defer x t (fee_quote_error_str e) now).1
      | Ok obs => apply_filled x t obs note now
      end
  end.

(** [core/post_trade/reconciliation/mod.rs:304-323] `ReconciliationWorker::record_defer_verdict` *)
Definition record_defer_verdict (x : Worker) (t : TradeInfo) (note : string) (now : Time) : Worker :=
  match defer x t note now with
  | (x, Ok _) => x
  | (x, Err _) => worker_halt x PersistenceFault "reconcile defer persist failed"
  end.

(** [core/post_trade/reconciliation/mod.rs:140-182] `ReconciliationWorker::process_trade` *)
Definition process_trade (x : Worker) (now : Time) (t : TradeInfo) : Worker :=
  match load_evidence_inputs x t now with
  | (x, None) => x
  | (x, Some inputs) =>
      match evaluate_evidence_ladder t (ei_clob_trades inputs) (ei_ctf_balance inputs) (ei_competing inputs) (rw_config x) now with
      | VFilled shares price _ _ clob note => apply_filled_verdict x t shares price clob note now
      | VMiss note => apply_miss x t (miss_observation t note) note now
      | VDefer note => record_defer_verdict x t note now
      end
  end.

(** [core/post_trade/reconciliation/mod.rs:123-138] `ReconciliationWorker::drain_once` *)
Definition drain_once (x : Worker) (now : Time) : Worker :=
  match run_statement x (fun tbl => (tbl, Ok (do_find_needs_reconcile tbl 128 0 now))) with
  | (x, Ok trades) => foldl (fun x t => process_trade x now t) x trades
  | (x, Err _) => x
  end.

(** [core/post_trade/reconciliation/close.rs:51-101] `CloseUnresolvableService::close` *)
Definition close (x : Worker) (id : TradeId) (note operator : string) (now : Time) : Worker * Result bool string :=
  match run_statement x (fun tbl => (tbl, Ok (tbl !! id))) with
  | (x, Err e) => (x, Err e)
  | (x, Ok None) => (x, Err "trade not found")
  | (x, Ok (Some t)) =>
      if negb (in_state TsOrphaned t) || negb (ti_needs_reconcile t) then (x, Ok false)
      else
        match capital_release_sync (rw_capital x) (trade_reservation t) with
        | (cm, Err e) => (worker_halt (set_rw_capital x cm) ReservationFault "unresolvable close reservation release failed", Err (reservation_error_str e))
        | (cm, Ok _) =>
            run_statement (set_rw_capital x cm) (fun tbl => let '(tbl, applied) := do_close_unresolvable_terminal tbl id note operator now in (tbl, Ok applied))
        end
  end.
End Worker.

(** ** Verdicts and their evidence *)

Section Verdicts.
Context {DO : DecimalOps}.

(** What stands behind a verdict. *)
Definition backed (t : TradeInfo) (clob : list ClobTrade) (balance : D) (competing : bool) (config : ReconciliationConfig) (now : Time) (v : EvidenceVerdict) : Prop :=
  match v with
  | VFilled shares price _ _ (Some c) _ =>
      c ∈ clob /\ shares = clob_size c /\ price = clob_price c /\
      ((ti_order_id t = Some (clob_order_id c) /\ dltb d0 (clob_size c) = true)
       \/ (competing = false /\ exists submitted_at, ti_submitted_at t = Some submitted_at /\ in_window config submitted_at now t c = true))
  | VFilled shares price _ _ None _ =>
      price = ti_price t /\ exists pre, ti_pre_submit_ctf_balance t = Some pre /\ shares = dsub balance pre /\ dltb d0 shares = true /\
      dleb (dmul (ti_shares t) (min_fill_ratio config)) shares = true
  | VMiss _ =>
      (exists submitted_at, ti_submitted_at t = Some submitted_at /\
         submitted_at + unwrap_or (to_i64 (min_miss_age_secs config)) i64_max * nanos_per_sec <= now) /\
      (forall c, c ∈ clob -> clob_side c = ti_side t -> dltb d0 (clob_size c) = true ->
         ti_order_id t <> Some (clob_order_id c) /\ deqb (clob_size c) (ti_shares t) = false) /\
      (forall pre, ti_pre_submit_ctf_balance t = Some pre -> (dval (dsub balance pre) == dval d0)%Q)
  | VDefer _ => True
  end.

Lemma find_spec {A} (f : A -> bool) l a : List.find f l = Some a -> a ∈ l /\ f a = true.
Proof. intros H. split; [apply list_elem_of_In; by apply (find_some f l) | by apply (find_some f l)]. Qed.

Lemma order_evidence_backed t clob balance competing config now v :
  order_evidence t clob = Some v -> backed t clob balance competing config now v.
Proof.
  unfold order_evidence. destruct (ti_order_id t) as [id|] eqn:Eid; [|done]. destruct (List.find _ clob) as [c|] eqn:Ef; [|done]. intros [= <-].
  apply find_spec in Ef as [Hin [Hid%bool_decide_eq_true Hpos]%andb_prop]. simpl. split_and!; try done. left. by rewrite Eid, Hid.
Qed.

Lemma window_evidence_backed t clob balance competing config now v :
  window_evidence t clob competing config now = Some v -> backed t clob balance competing config now v.
Proof.
  unfold window_evidence. destruct (ti_submitted_at t) as [at_|] eqn:Es; [|done]. destruct competing; [done|].
  destruct (List.find _ clob) as [c|] eqn:Ef; [|done]. intros [= <-]. apply find_spec in Ef as [Hin Hw]. simpl. split_and!; try done.
  right. split; [done|]. by exists at_.
Qed.

Lemma balance_evidence_backed t clob balance competing config now v :
  balance_evidence t balance config = Some v -> backed t clob balance competing config now v.
Proof.
  unfold balance_evidence. destruct (ti_pre_submit_ctf_balance t) as [pre|] eqn:Ep; [|done].
  destruct (_ && _) eqn:E; [|done]. apply andb_prop in E as [H1 H2]. intros [= <-]. simpl. split; [done|]. by exists pre.
Qed.

Lemma ladder_backed t clob balance competing config now :
  backed t clob balance competing config now (evaluate_evidence_ladder t clob balance competing config now).
Proof.
  unfold evaluate_evidence_ladder. destruct (order_evidence t clob) as [v|] eqn:E1; [by apply order_evidence_backed|].
  destruct (window_evidence t clob competing config now) as [v|] eqn:E2; [by apply window_evidence_backed|].
  destruct (balance_evidence t balance config) as [v|] eqn:E3; [by eapply balance_evidence_backed|].
  destruct (ti_submitted_at t) as [at_|] eqn:Es; [|done]. cbv zeta. destruct (_ && _) eqn:E; [|done].
  apply andb_prop in E as [[Hage%Z.leb_le Hzero]%andb_prop Hno%negb_true_iff]. simpl. rewrite Es. split_and!.
  - by exists at_.
  - intros c Hin Hside Hpos. destruct (decide (order_matches_trade c t = true)) as [Hm|Hm].
    + exfalso. apply not_true_iff_false in Hno. apply Hno, existsb_exists. exists c. split; [by apply list_elem_of_In|].
      by rewrite Hpos, Hm, bool_decide_eq_true_2.
    + apply not_true_iff_false, orb_false_iff in Hm as [Hm1 Hm2]. rewrite Hside, bool_decide_eq_true_2 in Hm2 by done. split; [|done].
      intros Hid. rewrite Hid in Hm1. by apply bool_decide_eq_false in Hm1.
  - intros pre Hpre. rewrite Hpre in Hzero. by apply Qeq_bool_iff.
Qed.

(** Every verdict has its evidence.  A trade is declared filled only from a trade of the venue
    with its order number or, without competition, with its side and exact size in the window after
    submission, or from a balance that grew by the required share; and declared missed only when it
    is old enough, no trade of the venue carries its order number or its side and size, and the
    balance, where it was recorded before submission, did not change. *)
Theorem verdicts_are_backed t clob balance competing config now :
  backed t clob balance competing config now (evaluate_evidence_ladder t clob balance competing config now).
Proof. apply ladder_backed. Qed.

(** Without a recorded balance, a fill the venue's history does not show with the planned size is
    declared a miss.  Once the trade is old enough, the verdict is a miss whatever the balance of
    the token is now: a missing record of the balance before submission counts as no change. *)
Theorem unmatched_fill_is_declared_missed t clob competing config now submitted_at :
  ti_pre_submit_ctf_balance t = None -> ti_submitted_at t = Some submitted_at ->
  submitted_at + unwrap_or (to_i64 (min_miss_age_secs config)) i64_max * nanos_per_sec <= now ->
  Forall (fun c => ti_order_id t <> Some (clob_order_id c) /\ deqb (clob_size c) (ti_shares t) = false) clob ->
  forall balance, evaluate_evidence_ladder t clob balance competing config now = VMiss "L4: no CLOB match, zero CTF delta, min miss age elapsed".
Proof.
  intros Hpre Hsub Hage Hno balance. rewrite Forall_forall in Hno. unfold evaluate_evidence_ladder.
  assert (order_evidence t clob = None) as ->.
  { unfold order_evidence. destruct (ti_order_id t) as [id|]; [|done]. destruct (List.find _ clob) as [c|] eqn:Ef; [|done].
    apply find_spec in Ef as [Hin [Hid%bool_decide_eq_true _]%andb_prop]. destruct (Hno c Hin) as [Hx _]. by rewrite Hid in Hx. }
  assert (window_evidence t clob competing config now = None) as ->.
  { unfold window_evidence. rewrite Hsub. destruct competing; [done|]. destruct (List.find _ clob) as [c|] eqn:Ef; [|done].
    apply find_spec in Ef as [Hin [_ Hs]%andb_prop]. destruct (Hno c Hin) as [_ Hx]. unfold shares_equal_lot in Hs. congruence. }
  unfold balance_evidence. rewrite Hpre, Hsub. cbv zeta. rewrite (proj2 (Z.leb_le _ _)) by done.
  assert (existsb (fun c => bool_decide (clob_side c = ti_side t) && dltb d0 (clob_size c) && order_matches_trade c t) clob = false) as ->.
  { apply not_true_iff_false. rewrite existsb_exists. intros (c & Hin%list_elem_of_In & [_ Hm]%andb_prop). destruct (Hno c Hin) as [H1 H2].
    unfold order_matches_trade in Hm. apply orb_prop in Hm as [Hm|[_ Hm]%andb_prop]; [|unfold shares_equal_lot in Hm; congruence].
    destruct (ti_order_id t); [|done]. apply bool_decide_eq_true in Hm. by rewrite Hm in H1. }
  unfold deqb. by rewrite (proj2 (Qeq_bool_iff _ _)) by reflexivity.
Qed.
End Verdicts.

(** ** Deferring *)

Section Backoff.
Context {DO : DecimalOps}.

(** The delay in seconds after an attempt. *)
Definition backoff_delay (config : ReconciliationConfig) (attempts : Z) : Z :=
  let base := Z.max (backoff_base_secs config) 1 in
  Z.min (base * 2 ^ Z.min (Z.max attempts 1 - 1) 16) (Z.max (backoff_max_secs config) base).

(** The back-off doubles with every attempt up to the configured maximum. *)
Lemma next_defer_formula config attempts now :
  0 <= backoff_base_secs config <= u32_max -> 0 <= backoff_max_secs config <= i64_max -> attempts <= i32_max ->
  next_defer_until config attempts now = now + backoff_delay config attempts * nanos_per_sec.
Proof.
  intros Hb Hm Ha. unfold next_defer_until, backoff_delay. unfold to_u32. rewrite checked_in by (unfold_ints; lia). cbn [unwrap_or].
  rewrite (Z.max_l (Z.max attempts 1 - 1) 0) by lia. set (e := Z.min (Z.max attempts 1 - 1) 16). assert (0 <= e <= 16) as He by lia.
  rewrite Z.shiftl_mul_pow2 by lia. rewrite Z.mul_1_l. assert (1 <= 2 ^ e <= 2 ^ 16) as Hp by (split; [apply Z.pow_le_mono_r with (b := 0); lia | apply Z.pow_le_mono_r; lia]).
  assert (1 <= Z.max (backoff_base_secs config) 1 * 2 ^ e <= u64_max) as Hbe by (unfold_ints; change (2 ^ 16) with 65536 in Hp; nia).
  unfold sat_u64. rewrite clampZ_id by lia. unfold to_i64. rewrite checked_in by (unfold_ints; lia). done.
Qed.

Lemma backoff_delay_mono config a b : 0 <= backoff_base_secs config -> a <= b -> 1 <= backoff_delay config a <= backoff_delay config b.
Proof.
  intros Hb Hab. unfold backoff_delay. set (base := Z.max _ 1). assert (1 <= base) as H1 by lia.
  set (e := Z.min (Z.max a 1 - 1) 16). set (f := Z.min (Z.max b 1 - 1) 16). assert (0 <= e <= f) as He by lia.
  assert (1 <= 2 ^ e <= 2 ^ f) as Hp by (split; [apply Z.pow_le_mono_r with (b := 0); lia | apply Z.pow_le_mono_r; lia]). nia.
Qed.
End Backoff.

(** ** Capital of orphans *)

Section Capital.
Context {DO : DecimalOps} {DP : DecimalPow} {W : Type} {OW : OrphanWorld W}.
Implicit Types x : Worker (W := W).

Definition reserved x (id : ReservationId) : option ReservationEntry := reservations (cm_backend (rw_capital x)) !! id.

Lemma run_statement_spec {A} x (f : gmap TradeId TradeInfo -> gmap TradeId TradeInfo * Result A string) x' r : run_statement x f = (x', r) ->
  rw_capital x' = rw_capital x /\ rw_fsm x' = rw_fsm x /\ rw_config x' = rw_config x /\
  ((rw_trades x' = rw_trades x /\ is_ok r = false) \/ (rw_trades x', r) = f (rw_trades x)).
Proof.
  unfold run_statement. destruct (ow_connection (rw_world x)) as [w [message|]]; [intros [= <- <-]; split_and!; try done; by left|].
  destruct (f (rw_trades x)) as [t q]. intros [= <- <-]. split_and!; try done. by right.
Qed.

Lemma defer_capital x t note now : rw_capital (defer x t note now).1 = rw_capital x.
Proof. unfold defer. destruct (run_statement x _) as [y r] eqn:E. apply run_statement_spec in E as (H & _). exact H. Qed.

Lemma inputs_capital x t now y o : load_evidence_inputs x t now = (y, o) -> rw_capital y = rw_capital x.
Proof.
  unfold load_evidence_inputs, fetch_clob_trades. destruct (ow_clob_trades _ _ _ _) as [w [l|e]].
  - simpl. destruct (ow_balance w (ti_token_id t)) as [w' [b|e]].
    + destruct (run_statement _ _) as [z n] eqn:E. intros [= <- _]. by apply run_statement_spec in E as (-> & _).
    + intros [= <- _]. by rewrite defer_capital.
  - intros [= <- _]. by rewrite defer_capital.
Qed.

Lemma sub_market_entries s m c : reservations (sub_market s m c) = reservations s.
Proof. unfold sub_market. by case_match. Qed.

(** What resizing and releasing do to the entries. *)
Lemma resize_reserved cm h amount cm' : capital_resize_sync cm h amount = (cm', Ok tt) ->
  forall id, match reservations (cm_backend cm) !! id with
             | Some e => exists e', reservations (cm_backend cm') !! id = Some e' /\ re_amount_cents e' <= re_amount_cents e
             | None => reservations (cm_backend cm') !! id = None
             end.
Proof.
  unfold capital_resize_sync, resize_sync. destruct (usd_to_cents amount) as [n|e]; [|done]. unfold shrink_entry.
  destruct (reservations (cm_backend cm) !! rh_id h) as [e|] eqn:E; [|done].
  destruct (Z.eqb_spec n (re_amount_cents e)); [intros [= <-] id; destruct (_ !! id) eqn:Ei; [eexists; split; [reflexivity | lia] | done]|].
  destruct (Z.ltb_spec (re_amount_cents e) n); [done|]. intros [= <-] id. simpl. rewrite sub_market_entries. simpl.
  destruct (decide (id = rh_id h)) as [->|Hne].
  - rewrite E, lookup_insert_eq. eexists. split; [reflexivity|]. simpl. lia.
  - rewrite lookup_insert_ne by done. destruct (reservations _ !! id) eqn:Ei; [eexists; split; [reflexivity | lia] | done].
Qed.

Lemma release_reserved cm h : forall id, id <> rh_id h ->
  reservations (cm_backend (capital_release_sync cm h).1) !! id = reservations (cm_backend cm) !! id.
Proof.
  intros id Hne. unfold capital_release_sync, release_sync, remove_reservation_entry. destruct (reservations (cm_backend cm) !! rh_id h) eqn:E; [|done].
  simpl. rewrite sub_market_entries. simpl. by rewrite lookup_delete_ne.
Qed.

(** C28: Only a miss frees the capital of an orphan.  Whatever the venue, the chain and the store answer,
    working on an orphaned trade leaves every reservation in place, at its amount or less, except
    that of the trade itself after its row was stored as missed; in particular a trade that stays
    undecided, or is found to be filled, keeps its reservation. *)
Theorem orphan_keeps_reservation x now t id e :
  reserved x id = Some e ->
  (exists e', reserved (process_trade x now t) id = Some e' /\ re_amount_cents e' <= re_amount_cents e) \/
  (id = ti_reservation_id t /\ exists row, rw_trades (process_trade x now t) !! ti_trade_id t = Some row /\ ti_state row = TsMissObserved).
Proof.
  intros Hr. unfold process_trade. destruct (load_evidence_inputs x t now) as [y [inputs|]] eqn:Ey; apply inputs_capital in Ey.
  2: { left. exists e. unfold reserved in *. rewrite Ey. by split. }
  assert (reserved y id = Some e) as Hy by (unfold reserved in *; by rewrite Ey). clear Ey Hr.
  assert (forall note, reserved (defer y t note now).1 id = Some e) as Hdefer by (intros note; unfold reserved in *; by rewrite defer_capital).
  destruct (evaluate_evidence_ladder _ _ _ _ _ _) as [shares price oid tx clob note|note|note].
  - left. unfold apply_filled_verdict. destruct (resolution_prob_from_trade t) as [prob|]; [|exists e; by split].
    destruct (reconciled_fill_economics _ _ _ _ _ _ _) as [obs|]; [|exists e; by split]. unfold apply_filled.
    assert (forall z, (exists e', reserved z id = Some e' /\ re_amount_cents e' <= re_amount_cents e) ->
      exists e', reserved (match run_statement z (fun tbl => match do_mark_reconciled_observed tbl (ti_trade_id t) obs now TrFilled note now with
        | (tbl, Ok b) => (tbl, Ok b) | (tbl, Err _) => (tbl, Err "stale data") end) with
        | (x, Ok _) => x | (x, Err _) => worker_halt x PersistenceFault "reconciled fill persist failed" end) id = Some e' /\ re_amount_cents e' <= re_amount_cents e) as Hmark.
    { intros z (e' & He & Hle). exists e'. destruct (run_statement z _) as [v r] eqn:E. apply run_statement_spec in E as (Hc & _).
      unfold reserved in *. destruct r; simpl; by rewrite Hc. }
    destruct (dltb _ _); [|apply Hmark; exists e; by split].
    destruct (capital_resize_sync _ _ _) as [cm [[]|err]] eqn:E; [|exists e; by split].
    apply Hmark. pose proof (resize_reserved _ _ _ _ E id) as H. unfold reserved in *. by rewrite Hy in H.
  - unfold apply_miss. destruct (run_statement y _) as [z r] eqn:E. apply run_statement_spec in E as (Hc & _ & _ & Ht).
    assert (reserved z id = Some e) as Hz by (unfold reserved in *; by rewrite Hc). destruct r as [[]|]; [|left; exists e; by split..].
    destruct (decide (id = ti_reservation_id t)) as [->|Hne].
    + right. split; [done|]. destruct Ht as [[_ Hf]|Ht]; [done|]. unfold do_mark_reconciled_observed in Ht. simpl in Ht.
      destruct (update_where (rw_trades y) _ _ _) as [tbl applied] eqn:Eu. injection Ht as Htr Hap. subst applied.
      unfold update_where in Eu. destruct (rw_trades y !! ti_trade_id t) as [row|]; [|done].
      destruct (in_state TsOrphaned row && unresolved row); [|done]. injection Eu as <-.
      destruct (capital_release_sync _ _) as [cm [u|err]]; simpl; rewrite Htr, lookup_insert_eq; eexists; by split.
    + left. exists e. split; [|done]. pose proof (release_reserved (rw_capital z) (trade_reservation t) id Hne) as Hrel.
      unfold reserved in *. destruct (capital_release_sync _ _) as [cm [u|err]]; simpl in *; by rewrite Hrel.
  - left. exists e. split; [|done]. unfold record_defer_verdict. specialize (Hdefer note). by destruct (defer y t note now) as [z [b|]].
Qed.

(** A fill that came cheaper than planned can stay an orphan.  The reservation holds the planned
    cost without the fee, but the worker takes it to hold cost and fee: when a fill costs, with its
    fee, less than planned with its fee and still more than the planned cost, the worker asks to
    enlarge the reservation, is refused, halts execution and leaves the row an orphan, at every
    attempt. *)
Theorem cheaper_fill_stays_orphaned x t obs note now e cents :
  reserved x (ti_reservation_id t) = Some e ->
  dltb (dadd (ob_cost_usd obs) (ob_fee_usd obs)) (dadd (ti_cost_usd t) (ti_fee_usd t)) = true ->
  usd_to_cents (dadd (ob_cost_usd obs) (ob_fee_usd obs)) = Ok cents -> re_amount_cents e < cents ->
  apply_filled x t obs note now = worker_halt x ReservationFault "reconciled fill reservation resize failed".
Proof.
  intros Hr Hlt Hc Hn. unfold apply_filled. cbn [rh_amount trade_reservation]. unfold reservation_amount_after_fill. rewrite Hlt.
  unfold capital_resize_sync, resize_sync. rewrite Hc. unfold shrink_entry. cbn [rh_id trade_reservation]. unfold reserved in Hr. rewrite Hr.
  rewrite (proj2 (Z.eqb_neq _ _)) by lia. by rewrite (proj2 (Z.ltb_lt _ _)) by lia.
Qed.

(** *** Closing by the operator *)

Lemma released_is_gone cm h : reservations (cm_backend (capital_release_sync cm h).1) !! rh_id h = None.
Proof.
  unfold capital_release_sync, release_sync, remove_reservation_entry. destruct (reservations (cm_backend cm) !! rh_id h) eqn:E; [|done].
  simpl. rewrite sub_market_entries. simpl. by rewrite lookup_delete_eq.
Qed.

(** Without its reservation a trade cannot be closed. *)
Lemma close_needs_reservation x id note operator now t :
  rw_trades x !! id = Some t -> reserved x (ti_reservation_id t) = None ->
  let '(x', r) := close x id note operator now in rw_trades x' = rw_trades x /\ r <> Ok true /\ reserved x' (ti_reservation_id t) = None.
Proof.
  intros Ht Hr. unfold close. destruct (run_statement x _) as [y [o|e]] eqn:E; apply run_statement_spec in E as (Hc & _ & _ & [[Htr Hf]|Hq]); try done.
  - injection Hq as Htr ->. rewrite Ht. assert (reserved y (ti_reservation_id t) = None) as Hy by (unfold reserved in *; by rewrite Hc).
    destruct (_ || _); [done|]. unfold capital_release_sync, release_sync, remove_reservation_entry. cbn [rh_id trade_reservation].
    unfold reserved in Hy. rewrite Hy. simpl. by rewrite Htr.
  - unfold reserved in *. by rewrite Hc, Htr.
Qed.

(** A closure that fails to be stored cannot be repeated.  Closing releases the reservation before it
    stores the closure; when the store fails then, the row is still an orphan, execution is not
    halted, its capital is free -- and every later closure is refused, because the reservation it
    wants to release is gone. *)
Theorem failed_close_cannot_be_repeated x id note operator now t e w1 w2 message :
  rw_trades x !! id = Some t -> ti_state t = TsOrphaned -> ti_needs_reconcile t = true -> reserved x (ti_reservation_id t) = Some e ->
  ow_connection (rw_world x) = (w1, None) -> ow_connection w1 = (w2, Some message) ->
  let x1 := (close x id note operator now).1 in
  (close x id note operator now).2 = Err message /\ rw_trades x1 = rw_trades x /\ rw_fsm x1 = rw_fsm x /\ reserved x1 (ti_reservation_id t) = None /\
  forall note' operator' now', let '(x2, r) := close x1 id note' operator' now' in rw_trades x2 = rw_trades x /\ r <> Ok true.
Proof.
  intros Ht Hs Hn Hr H1 H2. assert (close x id note operator now =
    (set_rw_world (set_rw_capital (set_rw_trades (set_rw_world x w1) (rw_trades x)) (capital_release_sync (rw_capital x) (trade_reservation t)).1) w2, Err message)) as E.
  { unfold close, run_statement at 1. rewrite H1, Ht. unfold in_state. rewrite Hs, Hn. simpl.
    unfold capital_release_sync, release_sync, remove_reservation_entry. cbn [rh_id trade_reservation]. unfold reserved in Hr. rewrite Hr. simpl.
    unfold run_statement. simpl. by rewrite H2. }
  rewrite E. simpl fst. simpl snd. set (x1 := set_rw_world _ w2). assert (reserved x1 (ti_reservation_id t) = None) as Hgone by apply released_is_gone.
  split_and!; try done. intros note' operator' now'. pose proof (close_needs_reservation x1 id note' operator' now' t Ht Hgone) as H.
  destruct (close x1 id note' operator' now') as [x2 r]. by destruct H as (H & H' & _).
Qed.
End Capital.

(** ** Concrete runs *)

Module OrphansDemo.
#[local] Existing Instance ExactQ.exactQ.
#[local] Instance demo_pow : DecimalPow := fun x _ => x.

(** A venue without a matching trade, and a connection whose statements fail as scripted. *)
Definition other_trade : ClobTrade := {|
  clob_trade_id := "c"; clob_order_id := "other"; clob_market_id := "m"; clob_token_id := "t"; clob_side := Buy; clob_size := 19%Q; clob_price := (1 # 2)%Q;
  clob_tx_hash := "0x"; clob_matched_at := 3 |}.

#[local] Instance scripted : OrphanWorld (list (option string)) := {|
  ow_connection := fun w => match w with [] => ([], None) | o :: w => (w, o) end;
  ow_clob_trades := fun w _ _ _ => (w, Ok [other_trade]);
  ow_balance := fun w _ => (w, Ok 19%Q);
  ow_fees := fun _ => {| market_schedules := ∅; category_defaults := ∅; fs_updated_at := 0 |} |}.

Definition new_trade : NewTrade := {|
  nt_trade_id := 7; nt_execution_id := 1; nt_reservation_id := 2; nt_opportunity_id := 3; nt_market_id := "m"; nt_event_id := "e"; nt_token_id := "t";
  nt_side := Buy; nt_shares := 20%Q; nt_price := (1 # 2)%Q; nt_cost_usd := 10%Q; nt_fee_usd := (1 # 10)%Q; nt_detected_edge_bps := None;
  nt_detected_profit_usd := None; nt_category := Other; nt_execution_mode := Live |}.

Definition stored : gmap TradeId TradeInfo := store_run ∅ [OpCreate new_trade (Err "no snapshot") 1; OpSubmit 7 2; OpOrphan 7].

Definition capital : CapitalManager :=
  (capital_reserve_sync (new_capital_manager (new_exposure ExposureDemo.demo_limits) ExposureDemo.demo_limits) 2 0 "m" 10%Q).1.

Definition worker (script : list (option string)) : Worker (W := list (option string)) := {|
  rw_trades := stored; rw_capital := capital; rw_fsm := new_fsm; rw_world := script; rw_config := reconciliation_config_default |}.

Definition of_orphan (P : TradeInfo -> Prop) : Prop := match stored !! 7 with Some t => P t | None => False end.

(** What the stored orphan holds. *)
Lemma orphan_fields : of_orphan (fun t =>
  ti_trade_id t = 7 /\ ti_reservation_id t = 2 /\ ti_state t = TsOrphaned /\ ti_needs_reconcile t = true /\ ti_pre_submit_ctf_balance t = None /\
  ti_submitted_at t = Some 2 /\ ti_order_id t = None /\ ti_shares t = 20%Q /\ ti_cost_usd t = 10%Q /\ ti_fee_usd t = (1 # 10)%Q).
Proof. vm_compute. by split_and!. Qed.

Definition held : ReservationEntry := {| re_market_id := "m"; re_amount_cents := 1000; re_expires_at := 60; re_reconcile_pinned := false |}.

Lemma worker_reserved script : reserved (worker script) 2 = Some held.
Proof. vm_compute. reflexivity. Qed.

(** The venue filled nineteen of twenty shares and the balance grew by nineteen. *)
Lemma unmatched_fill_is_declared_missed_witness : of_orphan (fun t =>
  evaluate_evidence_ladder t [other_trade] 19%Q false reconciliation_config_default (300 * nanos_per_sec) =
  VMiss "L4: no CLOB match, zero CTF delta, min miss age elapsed").
Proof.
  pose proof orphan_fields as H. unfold of_orphan in *. destruct (stored !! 7) as [t|]; [|done]. destruct H as (_ & _ & _ & _ & Hb & Hs & Ho & Hsh & _).
  apply (unmatched_fill_is_declared_missed t [other_trade] false reconciliation_config_default (300 * nanos_per_sec) 2 Hb Hs).
  - vm_compute. discriminate.
  - apply Forall_cons_2; [|done]. rewrite Ho, Hsh. by split.
Defined.

(** The worker frees the capital of that trade. *)
Lemma orphan_keeps_reservation_witness : of_orphan (fun t =>
  (exists e', reserved (process_trade (worker []) (300 * nanos_per_sec) t) 2 = Some e' /\ re_amount_cents e' <= 1000) \/
  (2 = ti_reservation_id t /\
   exists row, rw_trades (process_trade (worker []) (300 * nanos_per_sec) t) !! ti_trade_id t = Some row /\ ti_state row = TsMissObserved)).
Proof.
  pose proof orphan_fields as H. unfold of_orphan in *. destruct (stored !! 7) as [t|]; [|done].
  exact (orphan_keeps_reservation (worker []) (300 * nanos_per_sec) t 2 held (worker_reserved [])).
Defined.

(** Planned for ten dollars and a fee of ten cents, filled for ten dollars and five cents. *)
Definition cheaper : TradeObservation := {|
  ob_state := TsFillObserved; ob_shares := 20%Q; ob_price := (1 # 2)%Q; ob_cost_usd := 10%Q; ob_fee_usd := (5 # 100)%Q; ob_order_id := Some "o";
  ob_tx_hash := None; ob_net_profit_usd := Some 1%Q; ob_latency_ms := None; ob_error_message := None |}.

Lemma cheaper_fill_stays_orphaned_witness : of_orphan (fun t =>
  apply_filled (worker []) t cheaper "n" 9 = worker_halt (worker []) ReservationFault "reconciled fill reservation resize failed").
Proof.
  pose proof orphan_fields as H. unfold of_orphan in *. destruct (stored !! 7) as [t|]; [|done]. destruct H as (_ & Hid & _ & _ & _ & _ & _ & _ & Hc & Hf).
  apply (cheaper_fill_stays_orphaned (worker []) t cheaper "n" 9 held 1005).
  - rewrite Hid. apply worker_reserved.
  - rewrite Hc, Hf. reflexivity.
  - reflexivity.
  - reflexivity.
Defined.

Lemma failed_close_cannot_be_repeated_witness : of_orphan (fun t =>
  (close (worker [None; Some "connection lost"]) 7 "n" "op" 9).2 = Err "connection lost").
Proof.
  pose proof orphan_fields as H. unfold of_orphan in *. destruct (stored !! 7) as [t|] eqn:E; [|done]. destruct H as (_ & Hid & Hs & Hn & _).
  apply (failed_close_cannot_be_repeated (worker [None; Some "connection lost"]) 7 "n" "op" 9 t held [Some "connection lost"] [] "connection lost"); try done.
  rewrite Hid. apply worker_reserved.
Defined.
End OrphansDemo.
