(* ===== verification/TradeFlow.v ===== *)
(** * The pipeline on its store: [oxide-arb-core/src/{trade_integrity,bridge/trading_gate,execution}]

    The execution pipeline run against the trade table instead of an abstract store, the integrity
    snapshot with the restoration of reservations at boot, and the operations that set and clear the
    kill switch: heartbeat, operator resume, operator acknowledgement and the emergency halt.  The
    connection, the chain client and the venue are an interface that may fail at any call; alerts,
    counters and log lines are left out. *)

From stdpp Require Import sorting.
From S2P Require Import Prelude Decimal Micro Config Domain RiskTypes CircuitBreaker Interfaces Engine EngineSafety.
From S2P Require Import Exposure Fees Book Execution ExecutionPipeline ScoredSnapshot TradeStore RuntimeConfig Orphans.

(** What the pipeline asks of the outside besides the table: whether the next statement fails, the
    clock, the decoded snapshot of a new trade, the balance of a token, the venue and the books. *)
Class Outside {DO : DecimalOps} (W : Type) := {
  out_connection : W -> W * option string;
  out_now : W -> Time;
  out_snapshot : W -> NewTrade -> Result ScoredOpportunitySnapshot string;
  out_balance : W -> TokenId -> W * option (Result D string);
  out_place_order : W -> OrderRequest -> W * option VenueReply;
  out_book : W -> TokenId -> option BookSnapshot
}.

(** ** The pipeline on the table *)

Section Stored.
Context {DO : DecimalOps} {W : Type} {OU : Outside W}.
Abbreviation Table := (gmap TradeId TradeInfo).
Abbreviation Stored := (Table * W)%type.

Definition statement {A} (s : Stored) (f : Table -> Table * Result A string) : Stored * Result A string :=
  match out_connection s.2 with
  | (w, Some message) => ((s.1, w), Err message)
  | (w, None) => let '(t, r) := f s.1 in ((t, w), r)
  end.

Definition trade_error_str (e : TradeError) : string := match e with Duplicate => "duplicate" | StaleData message => message end.

Definition stringly {A B} (g : A -> B) (r : Result A TradeError) : Result B string :=
  match r with Ok a => Ok (g a) | Err e => Err (trade_error_str e) end.

Definition all_ok (f : Table -> Table * bool) (t : Table) : Table * Result bool string := let '(t, b) := f t in (t, Ok b).

(** The four counting queries of a refresh. *)
Definition refresh_queries (s : Stored) : Stored * Result (Z * Z * Z * Z) string :=
  let '(s, a) := statement s (fun t => (t, Ok (do_count_blocking_trades t))) in
  match a with Err e => (s, Err e) | Ok a =>
  let '(s, b) := statement s (fun t => (t, Ok (do_count_needs_reconcile t))) in
  match b with Err e => (s, Err e) | Ok b =>
  let '(s, c) := statement s (fun t => (t, Ok (do_count_intent_orphans t))) in
  match c with Err e => (s, Err e) | Ok c =>
  let '(s, d) := statement s (fun t => (t, Ok (do_oldest_blocking_age_secs t (out_now s.2)))) in
  match d with Err e => (s, Err e) | Ok d => (s, Ok (a, b, c, d)) end end end end.

(** The repository calls of the pipeline, as statements on the table. *)
#[export] Instance stored_world : ExecutionWorld Stored := {|
  create_trade := fun s new => statement s (fun t => let '(t, r) := do_create t new (out_snapshot s.2 new) (out_now s.2) in (t, stringly (fun _ => tt) r));
  position_balance := fun s token => let '(w, r) := out_balance s.2 token in ((s.1, w), r);
  set_pre_submit_ctf_balance := fun s id b => statement s (all_ok (fun t => do_set_pre_submit_ctf_balance t id b));
  mark_submitted := fun s id at_ => statement s (all_ok (fun t => do_mark_submitted t id at_));
  mark_orphaned := fun s id => statement s (all_ok (fun t => do_mark_orphaned t id));
  mark_observed := fun s id obs => statement s (fun t => let '(t, r) := do_mark_observed t id obs (out_now s.2) in (t, stringly (fun u => u) r));
  refresh_integrity := fun s => let '(s, r) := refresh_queries s in (s, match r with Ok _ => Ok tt | Err e => Err e end);
  place_order := fun s order => let '(w, r) := out_place_order s.2 order in ((s.1, w), r);
  load_book := fun s token => out_book s.2 token |}.

Lemma statement_table {A} s (f : Table -> Table * Result A string) s' r : statement s f = (s', r) ->
  (s'.1 = s.1 /\ is_ok r = false) \/ (s'.1, r) = f s.1.
Proof.
  unfold statement. destruct (out_connection s.2) as [w [m|]]; [intros [= <- <-]; by left|].
  destruct (f s.1) as [t q]. intros [= <- <-]. by right.
Qed.

Lemma read_table {A} s (g : Table -> A) s' r : statement s (fun t => (t, Ok (g t))) = (s', r) ->
  s'.1 = s.1 /\ forall a, r = Ok a -> a = g s.1.
Proof.
  intros H. apply statement_table in H as [[H Hr]|H]; [split; [done|]; intros a ->; done|].
  injection H as H1 H2. split; [done|]. intros a Ha. congruence.
Qed.

Lemma refresh_queries_table s : (refresh_queries s).1.1 = s.1.
Proof.
  unfold refresh_queries.
  destruct (statement s _) as [s1 [a|e]] eqn:H1; apply read_table in H1 as [H1 _]; [|done].
  destruct (statement s1 _) as [s2 [b|e]] eqn:H2; apply read_table in H2 as [H2 _]; [|simpl; congruence].
  destruct (statement s2 _) as [s3 [c|e]] eqn:H3; apply read_table in H3 as [H3 _]; [|simpl; congruence].
  destruct (statement s3 _) as [s4 [d|e]] eqn:H4; apply read_table in H4 as [H4 _]; simpl; congruence.
Qed.
End Stored.

(** ** The balance before submission *)

Section Balance.
Context {DO : DecimalOps} {DP : DecimalPow} {CH : Chrono} {M P W : Type}.
Context {RM : RiskMetrics M} {RP : RiskPersistence P} {OU : Outside W}.
Abbreviation Table := (gmap TradeId TradeInfo).
Implicit Types (x : Exec (P := P) (W := Table * W)) (rq : Request (M := M)) (p : PreparedDispatch).

(** No row knows the balance before its submission. *)
Definition no_balance (t : Table) : Prop := forall id row, t !! id = Some row -> ti_pre_submit_ctf_balance row = None.

Definition sets_balance (c : TradeColumn) : bool := match c with CBalance _ => true | _ => false end.

Lemma columns_keep_balance cols row : existsb sets_balance cols = false ->
  ti_pre_submit_ctf_balance (set_columns cols row) = ti_pre_submit_ctf_balance row.
Proof.
  intros H. simpl. induction cols as [|c cols IH]; [done|]. simpl in H. apply orb_false_iff in H as [Hc H].
  destruct c; try done; by apply IH.
Qed.

Lemma update_no_balance t id cond cols : no_balance t -> existsb sets_balance cols = false -> no_balance (update_where t id cond cols).1.
Proof.
  intros Ht Hc id' row'. destruct (update_where_lookup t id cond cols id') as [->|(-> & row & Hx & _ & ->)]; [by apply Ht|].
  intros [= <-]. rewrite columns_keep_balance by done. by apply (Ht id).
Qed.

Definition is_balance (op : StoreOp) : bool := match op with OpBalance _ _ => true | _ => false end.

(** No update but the one of the balance sets it. *)
Lemma store_step_no_balance t op : keyed t -> no_balance t -> is_balance op = false -> no_balance (store_step t op).
Proof.
  intros Hk Ht Ho. destruct op; cbn [store_step]; try done; try (by apply update_no_balance).
  - unfold do_create. destruct (t !! nt_trade_id new) eqn:E; [done|]. simpl. intros id row. destruct (decide (id = nt_trade_id new)) as [->|Hne].
    + rewrite lookup_insert_eq. by intros [= <-].
    + rewrite lookup_insert_ne by done. apply Ht.
  - unfold do_mark_observed. destruct (is_unprocessed _); [|done].
    pose proof (update_no_balance t id (in_state TsSubmitted) (observation_columns obs at_) Ht eq_refl) as H.
    by destruct (update_where _ _ _ _) as [t' []].
  - intros id row'. destruct (claim_lookup t limit owner at_ lease id Hk) as [->|(row & Hx & _ & ->)]; [apply Ht|].
    intros [= <-]. unfold claim_row. destruct (claimed_state _); [|by apply (Ht id)]. rewrite columns_keep_balance by done. by apply (Ht id).
  - destruct (processed_terminal from); [|done]. by apply update_no_balance.
  - unfold do_mark_reconciled_observed. destruct (is_unprocessed _); [|done].
    match goal with |- context [update_where ?a ?b ?c ?d] => pose proof (update_no_balance a b c d Ht eq_refl) as H; by destruct (update_where a b c d) end.
Qed.

(** The table invariant of a run. *)
Definition unbalanced (t : Table) : Prop := table_ok t /\ no_balance t.

Lemma unbalanced_step t op : unbalanced t -> is_balance op = false -> unbalanced (store_step t op).
Proof.
  intros [Hok Hn] Ho. split; [by apply store_step_ok|]. apply store_step_no_balance; [|done..]. intros id row H. by apply Hok.
Qed.

Definition table_of x : Table := (ex_world x).1.

(** A statement that is an update of the table, or fails. *)
Lemma statement_unbalanced {A} (s : Table * W) op (f : Table -> Table * Result A string) s' r :
  unbalanced s.1 -> is_balance op = false -> (forall t, (f t).1 = store_step t op) -> statement s f = (s', r) -> unbalanced s'.1.
Proof.
  intros Hu Ho Hf H. apply statement_table in H as [[-> _]|H]; [done|]. pose proof (Hf s.1) as E. rewrite <- H in E. simpl in E. rewrite E. by apply unbalanced_step.
Qed.

Lemma create_unbalanced (s : Table * W) new s' r : unbalanced s.1 -> create_trade s new = (s', r) ->
  unbalanced s'.1 /\ (is_ok r = true -> exists row, s'.1 !! nt_trade_id new = Some row /\ ti_state row = TsIntent).
Proof.
  intros Hu H. split.
  - eapply (statement_unbalanced _ (OpCreate new (out_snapshot s.2 new) (out_now s.2))); [done | done | | exact H].
    intros t. simpl. by destruct (do_create t new _ _).
  - intros Hr. apply statement_table in H as [[_ Hf]|H]; [congruence|]. unfold do_create in H. destruct (s.1 !! nt_trade_id new) eqn:E; simpl in H.
    + injection H as _ ->. done.
    + injection H as -> _. rewrite lookup_insert_eq. eexists. by split.
Qed.

Lemma persist_unbalanced x rq size x' r : unbalanced (table_of x) -> persist_dispatch_plan x rq size = (x', r) ->
  unbalanced (table_of x') /\ forall p, r = Ok p -> exists row, table_of x' !! pd_trade_id p = Some row /\ ti_state row = TsIntent.
Proof.
  intros Hu. unfold persist_dispatch_plan. destruct (capital_reserve_sync _ _ _ _ _) as [cm [h|e]]; [|intros [= <- <-]; by split].
  destruct (build_plan rq size h) as [plan|e]; [|intros [= <- <-]; by split].
  destruct (rq_snapshot_json rq) as [u|e]; [|intros [= <- <-]; by split].
  destruct (create_trade _ _) as [w [u'|e]] eqn:E; apply create_unbalanced in E as [H1 H2]; try done; intros [= <- <-]; split; try done.
  intros p [= <-]. by apply H2.
Qed.

(** The balance is stored before the row is submitted: the update finds no row. *)
Lemma balance_misses (s : Table * W) id row b s' r : s.1 !! id = Some row -> ti_state row = TsIntent ->
  set_pre_submit_ctf_balance s id b = (s', r) -> s'.1 = s.1.
Proof.
  intros Hr Hs H. apply statement_table in H as [[H _]|H]; [done|]. unfold all_ok, do_set_pre_submit_ctf_balance, update_where in H.
  rewrite Hr in H. unfold in_state in H. rewrite Hs in H. simpl in H. by injection H.
Qed.

Lemma mark_submitted_unbalanced x p now x' r : unbalanced (table_of x) -> mark_submitted_or_abort x p now = (x', r) -> unbalanced (table_of x').
Proof.
  intros Hu. unfold mark_submitted_or_abort. destruct (mark_submitted _ _ _) as [w q] eqn:E.
  eapply (statement_unbalanced _ (OpSubmit (pd_trade_id p) now)) in E; [|done|done|by intros t; unfold all_ok; simpl; destruct (do_mark_submitted _ _ _)].
  destruct q as [[]|e]; by intros [= <- _].
Qed.

Lemma pre_submit_unbalanced x rq p x' r row : unbalanced (table_of x) -> table_of x !! pd_trade_id p = Some row -> ti_state row = TsIntent ->
  persist_pre_submit_state x rq p = (x', r) -> unbalanced (table_of x').
Proof.
  intros Hu Hr Hs. unfold persist_pre_submit_state. destruct (rq_mode rq); [by apply mark_submitted_unbalanced.. |].
  unfold capture_pre_submit_ctf_balance. destruct (position_balance (ex_world x) _) as [w o] eqn:Ew.
  assert (w.1 = table_of x) as Hw by (simpl in Ew; destruct (out_balance _ _); by injection Ew as <- _).
  destruct o as [[b|e]|]; [|intros [= <- _]; unfold table_of; simpl; by rewrite Hw | apply mark_submitted_unbalanced; unfold table_of; simpl; by rewrite Hw].
  destruct (set_pre_submit_ctf_balance w _ b) as [w' q] eqn:Eb. rewrite <- Hw in Hr. pose proof (balance_misses _ _ _ _ _ _ Hr Hs Eb) as Hb.
  assert (unbalanced w'.1) as Hu' by (by rewrite Hb, Hw).
  destruct q as [u|e]; [by apply mark_submitted_unbalanced | by intros [= <- _]].
Qed.

Lemma submit_table x rq p x' o : submit x rq p = (x', o) -> table_of x' = table_of x.
Proof.
  unfold submit. destruct (rq_mode rq); [by intros [= <- _].. |]. simpl. destruct (out_place_order _ _) as [w reply]. by intros [= <- _].
Qed.

Lemma settle_table x o h : table_of (settle_reservation x o h) = table_of x.
Proof. unfold settle_reservation. destruct o; try done; by destruct (capital_release_sync _ _) as [cm [u|e]]. Qed.

Lemma refresh_unbalanced (s : Table * W) : unbalanced s.1 -> unbalanced (refresh_integrity s).1.1.
Proof. intros H. simpl. pose proof (refresh_queries_table s) as E. destruct (refresh_queries s) as [s' r]. simpl in *. by rewrite E. Qed.

Lemma observe_unbalanced x rq p o : unbalanced (table_of x) -> unbalanced (table_of (observe_outcome x rq p o)).
Proof.
  intros Hu. unfold observe_outcome. destruct (try_resolve _ _ _) as [res|].
  - destruct (mark_observed _ _ _) as [w [u|e]] eqn:E;
      (eapply (statement_unbalanced _ (OpObserve (pd_trade_id p) (to_observation res) (out_now (ex_world x).2))) in E;
       [|done|done|intros t; simpl; by destruct (do_mark_observed _ _ _ _)]); [by apply refresh_unbalanced | done].
  - destruct (mark_orphaned _ _) as [w [b|e]] eqn:E;
      (eapply (statement_unbalanced _ (OpOrphan (pd_trade_id p))) in E; [|done|done|intros t; unfold all_ok; simpl; by destruct (do_mark_orphaned _ _)]); [|done].
    destruct b; [|done]. destruct (capital_pin_sync _ _) as [cm [u|e]]; [by apply refresh_unbalanced | done].
Qed.

Lemma execute_unbalanced x rq : unbalanced (table_of x) -> unbalanced (table_of (execute x rq).1).
Proof.
  intros Hu. unfold execute. destruct (_ || _); [done|]. destruct (try_acquire _ _) as [active|]; [|done].
  set (y := set_inflight x active). assert (unbalanced (table_of y)) as Hy by done. clearbody y. unfold execute_guarded, prepare_dispatch.
  destruct (validate_and_size y rq) as [z [size|[st re]]] eqn:E; apply validate_and_size_frame in E as (q & ->); [|done].
  destruct (capture_required_context _ _) as [u|[st re]]; [|done].
  destruct (persist_dispatch_plan _ _ _) as [x1 [p|[st re]]] eqn:E1; apply persist_unbalanced in E1 as [H1 Hp]; try done.
  destruct (Hp p eq_refl) as (row & Hr & Hs).
  destruct (persist_pre_submit_state _ _ _) as [x2 [u'|[st re]]] eqn:E2; apply (pre_submit_unbalanced _ _ _ _ _ _ H1 Hr Hs) in E2; [|done].
  destruct (submit x2 rq p) as [x3 o] eqn:E3. apply submit_table in E3. apply observe_unbalanced. by rewrite settle_table, E3.
Qed.

(** What reaches the trade table while the system runs: executions, the operations of the risk
    engine, and the updates of the relay, the reconciliation worker and the operator. *)
Inductive flow_op :=
| FlowExec (o : exec_op (M := M))
| FlowStore (op : StoreOp).

Definition flow_step x (o : flow_op) : Exec (P := P) (W := Table * W) :=
  match o with
  | FlowExec o => exec_step x o
  | FlowStore op => set_world x (store_step (ex_world x).1 op, (ex_world x).2)
  end.

Definition from_the_others (o : flow_op) : bool := match o with FlowExec _ => true | FlowStore op => negb (is_balance op) end.

Lemma flow_unbalanced x ops : forallb from_the_others ops = true -> unbalanced (table_of x) -> unbalanced (table_of (foldl flow_step x ops)).
Proof.
  revert x. induction ops as [|o ops IH]; intros x Ho Hu; [done|]. simpl in Ho. apply andb_prop in Ho as [Ho Hops]. apply IH; [done|].
  destruct o as [[rq|now o]|op]; [by apply execute_unbalanced | done |]. apply unbalanced_step; [done|]. by apply negb_true_iff.
Qed.

(** The rung of the evidence ladder that compares balances is dead.  The pipeline reads the balance
    of the token before it submits an order and asks the store to keep it, but the row is then still
    an intent and the update looks for submitted rows; the refusal is ignored.  However executions,
    engine operations and the updates of the other services interleave, starting from a table without
    balances no row ever has one, so no verdict is ever based on the balance -- not even when the
    venue's history is empty and the tokens have arrived. *)
Theorem balance_rung_is_dead x ops :
  forallb from_the_others ops = true -> unbalanced (table_of x) ->
  forall id row clob balance competing config now shares price oid tx note,
  table_of (foldl flow_step x ops) !! id = Some row ->
  evaluate_evidence_ladder row clob balance competing config now <> VFilled shares price oid tx None note.
Proof.
  intros Ho Hu id row clob balance competing config now shares price oid tx note Hr E.
  destruct (flow_unbalanced x ops Ho Hu) as [_ Hn]. specialize (Hn _ _ Hr).
  pose proof (ladder_backed row clob balance competing config now) as H. rewrite E in H. simpl in H. destruct H as (_ & pre & Hp & _). congruence.
Qed.
End Balance.

(** ** Trade integrity and the kill switch *)

Section Integrity.
Context {DO : DecimalOps} {CH : Chrono} {M P W : Type}.
Context {RM : RiskMetrics M} {RP : RiskPersistence P} {OU : Outside W}.
Abbreviation Table := (gmap TradeId TradeInfo).

(** [core/trade_integrity/service.rs:25-32] `TradeIntegrityStore`, what it can change, with the
    capital manager and the risk engine it is used with *)
Record System := {
  sy_store : Table * W;
  sy_capital : CapitalManager;
  sy_fsm : ExecutionFSM;
  sy_risk : Engine (W := P);
  sy_integrity : TradeIntegritySnapshot
}.

Definition set_sy_store (y : System) s : System := {| sy_store := s; sy_capital := sy_capital y; sy_fsm := sy_fsm y; sy_risk := sy_risk y; sy_integrity := sy_integrity y |}.
Definition set_sy_capital (y : System) c : System := {| sy_store := sy_store y; sy_capital := c; sy_fsm := sy_fsm y; sy_risk := sy_risk y; sy_integrity := sy_integrity y |}.
Definition set_sy_fsm (y : System) f : System := {| sy_store := sy_store y; sy_capital := sy_capital y; sy_fsm := f; sy_risk := sy_risk y; sy_integrity := sy_integrity y |}.
Definition set_sy_risk (y : System) e : System := {| sy_store := sy_store y; sy_capital := sy_capital y; sy_fsm := sy_fsm y; sy_risk := e; sy_integrity := sy_integrity y |}.

(** [core/trade_integrity/store.rs:23-25] `TradeIntegrityStoreHandle::publish` *)
Definition publish_integrity (y : System) i : System := {| sy_store := sy_store y; sy_capital := sy_capital y; sy_fsm := sy_fsm y; sy_risk := sy_risk y; sy_integrity := i |}.

(** [core/trade_integrity/service.rs:62-80] `TradeIntegrityStore::refresh_async` *)
Definition refresh_async (y : System) : System * Result unit string :=
  match refresh_queries (sy_store y) with
  | (s, Err e) => (set_sy_store y s, Err e)
  | (s, Ok (blocking, needs, intents, age)) =>
      (publish_integrity (set_sy_store y s) {|
         blocking_count := unwrap_or (to_u32 blocking) u32_max; needs_reconcile_count := unwrap_or (to_u32 needs) u32_max;
         intent_orphan_count := unwrap_or (to_u32 intents) u32_max; oldest_blocking_age_secs := age;
         ti_active_reservation_count := unwrap_or (to_u32 (active_count_sync (cm_backend (sy_capital y)))) u32_max;
         ti_reserved_usd := total_reserved_usd_sync (cm_backend (sy_capital y)); ti_checked_at := out_now s.2 |}, Ok tt)
  end.

(** [core/trade_integrity/service.rs:126-139] `reservation_lifecycle`; [instant] is the monotonic clock in seconds *)
Definition reservation_lifecycle (t : TradeInfo) (ttl_secs instant : Z) : bool * Z :=
  match ti_state t with
  | TsSubmitted => (false, instant + ttl_secs)
  | TsIntent => (true, instant + 86400 * 365)
  | TsFillObserved | TsFillProcessing => (false, instant + sat_u64 (ttl_secs * 24))
  | _ => (true, instant + sat_u64 (ttl_secs * 24))
  end.

(** [core/trade_integrity/service.rs:110-124] `rehydrate_trade_reservation` *)
Definition rehydrate_trade_reservation (cm : CapitalManager) (t : TradeInfo) (ttl_secs instant : Z) : CapitalManager * Result unit ReservationError :=
  let '(pinned, expires_at) := reservation_lifecycle t ttl_secs instant in
  capital_restore_sync cm {| rh_id := ti_reservation_id t; rh_amount := ti_cost_usd t; rh_market_id := ti_market_id t |} pinned expires_at.

(** The loop over the obligations, up to the first that cannot be restored. *)
Fixpoint rehydrate_all (cm : CapitalManager) (l : list TradeInfo) (ttl_secs instant : Z) : CapitalManager * Result unit ReservationError :=
  match l with
  | [] => (cm, Ok tt)
  | t :: rest =>
      match rehydrate_trade_reservation cm t ttl_secs instant with
      | (cm, Ok _) => rehydrate_all cm rest ttl_secs instant
      | (cm, Err e) => (cm, Err e)
      end
  end.

(** [core/trade_integrity/service.rs:83-107] `TradeIntegrityStore::boot_rehydrate` *)
Definition boot_rehydrate (y : System) (ttl_secs instant : Z) : System * Result unit string :=
  match statement (sy_store y) (fun t => (t, Ok (do_find_reservation_obligations t 10000%nat))) with
  | (s, Err e) => (set_sy_store y s, Err e)
  | (s, Ok obligations) =>
      let '(cm, r) := rehydrate_all (sy_capital y) obligations ttl_secs instant in
      let y := set_sy_capital (set_sy_store y s) cm in
      match r with
      | Err e => (y, Err (reservation_error_str e))
      | Ok _ =>
          match refresh_async y with
          | (y, Err e) => (y, Err e)
          | (y, Ok _) =>
              (if 0 <? blocking_count (sy_integrity y)
               then set_sy_fsm y (enter_planned_halt (sy_fsm y) "durable trades unresolved at boot — reconcile queue must drain before trading")
               else y, Ok tt)
          end
      end
  end.

(** [core/bridge/trading_gate.rs:6-24] `resume_trading` *)
Definition resume_trading (y : System) (now : Time) : System * Result unit string :=
  match engine_acknowledge_and_resume (sy_risk y) now with
  | (e, Err err) => (set_sy_risk y e, Err (err_str err))
  | (e, Ok _) =>
      match refresh_async (set_sy_risk y e) with
      | (y, Err err) => (y, Err err)
      | (y, Ok _) =>
          if 0 <? blocking_count (sy_integrity y) then (y, Err "blocking trades unresolved")
          else (if engine_allows_trading (sy_risk y) && allows_auto_recover (fsm_class (sy_fsm y))
                then set_sy_fsm y (clear_emergency (sy_fsm y)) else y, Ok tt)
      end
  end.

(** [core/execution/fsm.rs:219-247] `ExecutionFSM::ack_operator_emergency`, with its refresh *)
Definition ack_emergency (y : System) : System * Result EmergencyClass EmergencyAckError :=
  if negb (fsm_emergency (sy_fsm y)) then (y, Err NotInEmergency)
  else if allows_auto_recover (fsm_class (sy_fsm y)) then (y, Err AutoRecoverable)
  else
    let '(y, r) := refresh_async y in
    let refreshed := match r with Ok _ => Ok (blocking_count (sy_integrity y)) | Err e => Err e end in
    let '(f, r) := ack_operator_emergency (sy_fsm y) refreshed (engine_allows_trading (sy_risk y)) in
    (set_sy_fsm y f, r).

(** [core/execution/heartbeat.rs:62-111] `HeartbeatTask::run`, one tick in Live mode; [probe] tells whether the venue answered *)
Definition heartbeat_tick (y : System) (now : Time) (probe : bool) : System :=
  let y := (refresh_async y).1 in
  if probe then
    let y := set_sy_risk y (on_execution_event (sy_risk y) now EvHeartbeatSuccess) in
    set_sy_fsm y (try_auto_recover (sy_fsm y) (blocking_count (sy_integrity y)) (engine_allows_trading (sy_risk y))).1
  else
    let y := set_sy_risk y (on_execution_event (sy_risk y) now EvHeartbeatFailure) in
    if negb (engine_allows_trading (sy_risk y)) && negb (fsm_emergency (sy_fsm y))
    then set_sy_fsm y (enter_emergency (sy_fsm y) VenueFault "risk circuit breaker blocking trades")
    else y.

(** [core/execution/venue_guard.rs:9-29] `halt_trading_and_cancel_open_orders`: the system, and whether the venue is asked to cancel *)
Definition halt_trading_and_cancel_open_orders (y : System) (mode : ExecutionMode) (clob : bool) (now : Time) (reason : string) (class : EmergencyClass) :
    System * bool :=
  let y := set_sy_risk y (engine_halt (sy_risk y) now reason) in
  (set_sy_fsm y (enter_emergency (sy_fsm y) class reason), negb (not_live mode) && clob).

(** *** Facts *)

Lemma enter_market_entries (s : InMemoryExposureReservation) a s' r : enter_market s a = (s', r) -> reservations s' = reservations s.
Proof. unfold enter_market. repeat case_match; by intros [= <- _]. Qed.

Lemma admit_entries (s : InMemoryExposureReservation) a now s' : admit_alone s a now = (s', None) ->
  reservations s' = <[ad_id a := entry_of a now]> (reservations s).
Proof.
  unfold admit_alone. destruct (check_total _ _) as [n|e]; [|done]. destruct (enter_market _ a) as [s1 [e|]] eqn:E; [done|].
  intros [= <-]. apply enter_market_entries in E. simpl. by rewrite E.
Qed.

(** The entry restored for a trade. *)
Definition restored_as (t : TradeInfo) (ttl_secs instant : Z) (e : ReservationEntry) : Prop :=
  re_market_id e = ti_market_id t /\ usd_to_cents (ti_cost_usd t) = Ok (re_amount_cents e) /\
  (re_reconcile_pinned e, re_expires_at e) = reservation_lifecycle t ttl_secs instant.

Definition entries (cm : CapitalManager) : gmap ReservationId ReservationEntry := reservations (cm_backend cm).

Lemma rehydrate_entry cm t ttl instant cm' : rehydrate_trade_reservation cm t ttl instant = (cm', Ok tt) ->
  entries cm' = entries cm /\ is_Some (entries cm !! ti_reservation_id t) \/
  entries cm !! ti_reservation_id t = None /\ exists e, entries cm' = <[ti_reservation_id t := e]> (entries cm) /\ restored_as t ttl instant e.
Proof.
  unfold rehydrate_trade_reservation, capital_restore_sync, restore_sync, restored_as. destruct (reservation_lifecycle t ttl instant) as [pinned expires]. simpl.
  unfold entries. destruct (reservations (cm_backend cm) !! ti_reservation_id t) as [e|] eqn:E; [intros [= <-]; left; eauto|].
  destruct (usd_to_cents (ti_cost_usd t)) as [cents|e]; [|done]. destruct (admit_alone _ _ _) as [s [e|]] eqn:Ea; [done|].
  intros [= <-]. apply admit_entries in Ea. right. split; [done|]. by eexists.
Qed.

(** After the loop every obligation has an entry, and every entry is an old one or that of an obligation. *)
Lemma rehydrate_all_entries cm l ttl instant cm' : rehydrate_all cm l ttl instant = (cm', Ok tt) ->
  (forall t, t ∈ l -> is_Some (entries cm' !! ti_reservation_id t)) /\
  (forall id e, entries cm' !! id = Some e -> entries cm !! id = Some e \/ exists t, t ∈ l /\ ti_reservation_id t = id /\ restored_as t ttl instant e) /\
  entries cm ⊆ entries cm'.
Proof.
  revert cm. induction l as [|t l IH]; intros cm; simpl; [intros [= <-]; split_and!; [set_solver | by left | done]|].
  destruct (rehydrate_trade_reservation cm t ttl instant) as [cm1 [[]|e]] eqn:E; [|done]. intros H. destruct (IH _ H) as (H1 & H2 & H3).
  apply rehydrate_entry in E as [[E Hs]|(Hn & e & E & Hr)].
  - rewrite E in *. split_and!; [|intros id e Hid; destruct (H2 _ _ Hid) as [?|(q & ? & ?)]; [by left | right; exists q; set_solver]|done].
    intros q [->|Hq]%elem_of_cons; [|by apply H1]. destruct Hs as [e Hs]. exists e. by eapply lookup_weaken.
  - assert (entries cm ⊆ entries cm1) as Hsub by (rewrite E; by apply insert_subseteq). split_and!; [| |by etrans].
    + intros q [->|Hq]%elem_of_cons; [|by apply H1]. exists e. eapply lookup_weaken; [|exact H3]. by rewrite E, lookup_insert_eq.
    + intros id e' Hid. destruct (H2 _ _ Hid) as [Hx|(q & ? & ?)]; [|right; exists q; set_solver]. rewrite E in Hx.
      destruct (decide (id = ti_reservation_id t)) as [->|Hne]; [|rewrite lookup_insert_ne in Hx by done; by left].
      rewrite lookup_insert_eq in Hx. injection Hx as ->. right. exists t. set_solver.
Qed.

Lemma count_pos (t : Table) f id row : t !! id = Some row -> f row = true -> 0 < count t f.
Proof.
  intros Ht Hf. assert (row ∈ rows t f) as Hin by (apply elem_of_rows; eauto). unfold count. destruct (rows t f); [set_solver | simpl; lia].
Qed.

Lemma clamp_pos n : 0 < n -> 0 < unwrap_or (to_u32 n) u32_max.
Proof.
  intros Hn. unfold to_u32, checked. case_match; simpl; [done | unfold_ints; lia].
Qed.

(** A refresh that succeeds publishes the rows that block. *)
Lemma refresh_spec y y' r : refresh_async y = (y', r) ->
  (sy_store y').1 = (sy_store y).1 /\ sy_fsm y' = sy_fsm y /\ sy_risk y' = sy_risk y /\ sy_capital y' = sy_capital y /\
  (r = Ok tt -> blocking_count (sy_integrity y') = unwrap_or (to_u32 (do_count_blocking_trades (sy_store y).1)) u32_max).
Proof.
  unfold refresh_async. destruct (refresh_queries (sy_store y)) as [s q] eqn:E. pose proof (refresh_queries_table (sy_store y)) as Ht. rewrite E in Ht. simpl in Ht.
  destruct q as [[[[a b] c] d]|e]; intros [= <- <-]; split_and!; try done. intros _. simpl. f_equal. f_equal.
  unfold refresh_queries in E. destruct (statement (sy_store y) _) as [s1 [a'|e]] eqn:H1; [|done]. apply read_table in H1 as [_ H1].
  rewrite (H1 a' eq_refl) in E. do 3 (destruct (statement _ _) as [? [?|?]]; [|done]). congruence.
Qed.

(** When a refresh shows nothing blocking, no row of the table blocks. *)
Lemma refreshed_clear y y' id row : refresh_async y = (y', Ok tt) -> blocking_count (sy_integrity y') <= 0 ->
  (sy_store y').1 !! id = Some row -> blocking_admission row = false.
Proof.
  intros H Hb Hr. apply refresh_spec in H as (Ht & _ & _ & _ & H). rewrite Ht in Hr. apply not_true_iff_false. intros Hx.
  pose proof (clamp_pos _ (count_pos _ _ _ _ Hr Hx)) as Hp. specialize (H eq_refl). unfold do_count_blocking_trades in H. lia.
Qed.

Lemma elem_of_take_all {A} n (l : list A) a : (length l <= n)%nat -> a ∈ take n l <-> a ∈ l.
Proof. intros H. by rewrite take_ge. Qed.

Lemma obligations_of (t : Table) n row id : (length (rows t reservation_obligation) <= n)%nat -> t !! id = Some row -> reservation_obligation row = true ->
  row ∈ do_find_reservation_obligations t n.
Proof.
  intros Hn Ht Ho. unfold do_find_reservation_obligations. rewrite elem_of_take_all.
  - apply elem_of_order_by, elem_of_rows. eauto.
  - unfold oldest_first, order_by. by rewrite (merge_sort_Permutation (by_key ti_created_at)).
Qed.

Lemma elem_of_obligations (t : Table) n row : row ∈ do_find_reservation_obligations t n -> reservation_obligation row = true /\ exists id, t !! id = Some row.
Proof.
  intros H. apply elem_of_rows. apply (elem_of_order_by ti_created_at). unfold do_find_reservation_obligations, oldest_first in H.
  rewrite <- (take_drop n (order_by _ _)). apply elem_of_app. by left.
Qed.


(** The operations on the kill switch. *)
Inductive switch_op :=
| SoResume (now : Time)
| SoAck
| SoHeartbeat (now : Time) (probe : bool)
| SoHalt (mode : ExecutionMode) (clob : bool) (now : Time) (reason : string) (class : EmergencyClass)
| SoBoot (ttl_secs instant : Z).

Definition switch_step (y : System) (o : switch_op) : System :=
  match o with
  | SoResume now => (resume_trading y now).1
  | SoAck => (ack_emergency y).1
  | SoHeartbeat now probe => heartbeat_tick y now probe
  | SoHalt mode clob now reason class => (halt_trading_and_cancel_open_orders y mode clob now reason class).1
  | SoBoot ttl_secs instant => (boot_rehydrate y ttl_secs instant).1
  end.

(** What must hold for the kill switch to be cleared by an operation. *)
Definition may_clear (y : System) (o : switch_op) (y' : System) : Prop :=
  blocking_count (sy_integrity y') <= 0 /\ engine_allows_trading (sy_risk y') = true /\
  match o with
  | SoResume _ => fsm_class (sy_fsm y) = VenueFault /\ forall id row, (sy_store y').1 !! id = Some row -> blocking_admission row = false
  | SoAck => fsm_class (sy_fsm y) <> VenueFault /\ forall id row, (sy_store y').1 !! id = Some row -> blocking_admission row = false
  | SoHeartbeat _ probe => fsm_class (sy_fsm y) = VenueFault /\ probe = true
  | SoHalt _ _ _ _ _ | SoBoot _ _ => False
  end.

Lemma resume_clears y now : fsm_emergency (sy_fsm y) = true -> fsm_emergency (sy_fsm (resume_trading y now).1) = false ->
  may_clear y (SoResume now) (resume_trading y now).1.
Proof.
  intros He. unfold resume_trading. destruct (engine_acknowledge_and_resume _ _) as [e [u|err]]; [|simpl; congruence].
  destruct (refresh_async _) as [z r] eqn:Ez. pose proof (refresh_spec _ _ _ Ez) as (_ & Hf & _ & _ & _). simpl in Hf.
  destruct r as [[]|err]; [|simpl; congruence]. pose proof (fun id row => refreshed_clear _ z id row Ez) as Hclear.
  destruct (Z.ltb_spec 0 (blocking_count (sy_integrity z))); [simpl; congruence|].
  destruct (engine_allows_trading (sy_risk z)) eqn:Ea; [|simpl; congruence]. destruct (fsm_class (sy_fsm z)) eqn:Ec; simpl; try congruence.
  intros _. unfold may_clear. simpl. rewrite <- Hf. by split_and!; eauto.
Qed.

Lemma ack_clears y : fsm_emergency (sy_fsm y) = true -> fsm_emergency (sy_fsm (ack_emergency y).1) = false -> may_clear y SoAck (ack_emergency y).1.
Proof.
  intros He. unfold ack_emergency. rewrite He. simpl. destruct (allows_auto_recover (fsm_class (sy_fsm y))) eqn:Ea; [simpl; congruence|].
  destruct (refresh_async y) as [z r] eqn:Ez. pose proof (refresh_spec _ _ _ Ez) as (_ & Hf & _ & _ & _). unfold ack_operator_emergency. rewrite Hf, He, Ea. simpl.
  destruct r as [[]|err]; [|simpl; congruence]. pose proof (fun id row => refreshed_clear _ z id row Ez) as Hclear.
  destruct (Z.ltb_spec 0 (blocking_count (sy_integrity z))); [simpl; congruence|].
  destruct (engine_allows_trading (sy_risk z)) eqn:Et; [|simpl; congruence]. intros _. unfold may_clear. simpl. split_and!; try done; [|eauto].
  by destruct (fsm_class (sy_fsm y)).
Qed.

Lemma heartbeat_clears y now probe : fsm_emergency (sy_fsm y) = true -> fsm_emergency (sy_fsm (heartbeat_tick y now probe)) = false ->
  may_clear y (SoHeartbeat now probe) (heartbeat_tick y now probe).
Proof.
  intros He. unfold heartbeat_tick. destruct (refresh_async y) as [z r] eqn:Ez. apply refresh_spec in Ez as (_ & Hf & _).
  rewrite fst_pair. destruct probe.
  - set (e := on_execution_event _ _ _). unfold try_auto_recover. cbn [sy_fsm set_sy_risk set_sy_fsm sy_risk sy_integrity]. rewrite Hf, He. cbn [negb].
    destruct (allows_auto_recover _) eqn:Ea; [|simpl; congruence].
    destruct (Z.ltb_spec 0 (blocking_count (sy_integrity z))); [simpl; congruence|].
    destruct (engine_allows_trading e) eqn:Et; [|simpl; congruence]. intros _. unfold may_clear. cbn [sy_fsm set_sy_risk set_sy_fsm sy_risk sy_integrity].
    split_and!; try done. by destruct (fsm_class (sy_fsm y)).
  - set (e := on_execution_event _ _ _). cbn [sy_fsm set_sy_risk set_sy_fsm sy_risk]. rewrite Hf, He. rewrite andb_false_r. cbn [sy_fsm set_sy_risk]. congruence.
Qed.

Lemma boot_keeps_halt y ttl_secs instant : fsm_emergency (sy_fsm y) = true -> fsm_emergency (sy_fsm (boot_rehydrate y ttl_secs instant).1) = true.
Proof.
  intros He. unfold boot_rehydrate. destruct (statement _ _) as [s [l|e]]; [|done]. destruct (rehydrate_all _ _ _ _) as [cm [[]|e]]; [|done].
  destruct (refresh_async _) as [z r] eqn:Ez. apply refresh_spec in Ez as (_ & Hf & _). simpl in Hf. destruct r; [|simpl; congruence].
  destruct (0 <? _); simpl; [done | congruence].
Qed.

(** C30: The kill switch is cleared only under guard.  Whatever of these operations runs, when execution
    was halted and is not any more, the risk engine allows trading and the published snapshot shows
    no trade in flight; an operator's resume clears venue faults only and an acknowledgement the
    other faults only, and both have just checked that no row of the table blocks; the heartbeat
    clears venue faults only, when the venue answered; halting and booting never clear it. *)
Theorem kill_switch_clears_guarded y o :
  fsm_emergency (sy_fsm y) = true -> fsm_emergency (sy_fsm (switch_step y o)) = false -> may_clear y o (switch_step y o).
Proof.
  intros He. destruct o as [now| |now probe|mode clob now reason class|ttl instant]; cbn [switch_step].
  - by apply resume_clears.
  - by apply ack_clears.
  - by apply heartbeat_clears.
  - done.
  - by rewrite boot_keeps_halt.
Qed.

(** A heartbeat trusts an old snapshot.  When the refresh fails, the heartbeat goes on with the
    snapshot published before: it clears a venue halt although the table holds a trade in flight. *)
Theorem stale_snapshot_clears_halt y now w message :
  fsm_emergency (sy_fsm y) = true -> fsm_class (sy_fsm y) = VenueFault -> blocking_count (sy_integrity y) = 0 ->
  engine_allows_trading (sy_risk y) = true -> out_connection (sy_store y).2 = (w, Some message) ->
  fsm_emergency (sy_fsm (heartbeat_tick y now true)) = false /\ (sy_store (heartbeat_tick y now true)).1 = (sy_store y).1.
Proof.
  intros He Hc Hb Ha Hw. unfold heartbeat_tick, refresh_async, refresh_queries, statement. rewrite Hw. rewrite fst_pair.
  cbn [sy_fsm set_sy_risk set_sy_fsm set_sy_store sy_risk sy_integrity sy_store]. unfold try_auto_recover. rewrite He, Hc, Hb.
  change (engine_allows_trading (on_execution_event (sy_risk y) now EvHeartbeatSuccess)) with (engine_allows_trading (sy_risk y)). rewrite Ha. by split.
Qed.
End Integrity.

(** ** Concrete runs *)

Module TradeFlowDemo.
#[local] Existing Instance ExactQ.exactQ.
#[local] Existing Instance utc_chrono.
#[local] Instance demo_pow : DecimalPow := fun x _ => x.

(** A connection whose statements fail as scripted, and a venue that times out. *)
#[local] Instance outside : Outside (list (option string)) := {|
  out_connection := fun w => match w with [] => ([], None) | o :: w => (w, o) end;
  out_now := fun _ => 1200; out_snapshot := fun _ _ => Err "no snapshot"; out_balance := fun w _ => (w, Some (Ok 0%Q));
  out_place_order := fun w _ => (w, Some (TimedOut 500)); out_book := fun _ _ => Some ExecutionDemo.demo_snapshot |}.

Definition exec0 : Exec (P := Scripted.Store) (W := gmap TradeId TradeInfo * list (option string)) := {|
  ex_world := (∅, []); ex_risk := EngineDemo.engine []; ex_fsm := new_fsm;
  ex_capital := new_capital_manager (new_exposure ExposureDemo.demo_limits) ExposureDemo.demo_limits;
  ex_inflight := ∅; ex_metrics_stale := false; ex_relay_rings := 0; ex_reconcile_rings := 0; ex_log := [] |}.

Definition run1 : Exec := foldl flow_step exec0 [FlowExec (Execute ExecutionDemo.demo_request)].

(** The order of the sample request becomes an orphan without a balance. *)
Lemma balance_rung_is_dead_witness :
  match table_of run1 !! 13 with
  | Some row => ti_state row = TsOrphaned /\
      evaluate_evidence_ladder row [] 20%Q false reconciliation_config_default 1300 <> VFilled 20%Q (ti_price row) None None None "L3: CTF delta >= min fill"
  | None => False
  end.
Proof.
  assert (ti_state <$> table_of run1 !! 13 = Some TsOrphaned) as Hs by (vm_compute; reflexivity).
  pose proof (balance_rung_is_dead exec0 [FlowExec (Execute ExecutionDemo.demo_request)] eq_refl) as H. fold run1 in H.
  destruct (table_of run1 !! 13) as [row|] eqn:E; [|discriminate Hs]. split; [exact (f_equal (default TsIntent) Hs)|].
  eapply H; [split; [apply empty_table_ok|]; intros id q Hq; change ((∅ : gmap TradeId TradeInfo) !! id = Some q) in Hq; by rewrite lookup_empty in Hq | exact E].
Defined.

Definition new_trade : NewTrade := {|
  nt_trade_id := 7; nt_execution_id := 1; nt_reservation_id := 2; nt_opportunity_id := 3; nt_market_id := "m"; nt_event_id := "e"; nt_token_id := "t";
  nt_side := Buy; nt_shares := 20%Q; nt_price := (1 # 2)%Q; nt_cost_usd := 10%Q; nt_fee_usd := (1 # 10)%Q; nt_detected_edge_bps := None;
  nt_detected_profit_usd := None; nt_category := Other; nt_execution_mode := Live |}.

Definition submitted : gmap TradeId TradeInfo := store_run ∅ [OpCreate new_trade (Err "no snapshot") 1; OpSubmit 7 2].

Definition system (t : gmap TradeId TradeInfo) (script : list (option string)) (f : ExecutionFSM) : System (P := Scripted.Store) (W := list (option string)) := {|
  sy_store := (t, script); sy_capital := new_capital_manager (new_exposure ExposureDemo.demo_limits) ExposureDemo.demo_limits;
  sy_fsm := f; sy_risk := EngineDemo.engine []; sy_integrity := integrity_zero 0 |}.

Lemma submitted_only id row : submitted !! id = Some row -> id = 7.
Proof.
  intros H. assert (size submitted = 1%nat) as Hs by (vm_compute; reflexivity). assert (is_Some (submitted !! 7)) as [q Hq] by (vm_compute; eauto).
  destruct (decide (id = 7)) as [->|Hne]; [done|]. exfalso. assert (size (delete 7 submitted) = 0%nat) as Hd by (rewrite map_size_delete, Hq; lia).
  apply map_size_empty_inv in Hd. apply (f_equal (.!! id)) in Hd. rewrite lookup_delete_ne, H, lookup_empty in Hd by done. done.
Qed.


Definition halted : ExecutionFSM := enter_planned_halt new_fsm "planned".

(** Without a trade in flight the operator's resume clears a planned halt. *)
Lemma kill_switch_clears_guarded_witness :
  let y := system ∅ [] halted in may_clear y (SoResume 9) (switch_step y (SoResume 9)).
Proof.
  apply (kill_switch_clears_guarded (system ∅ [] halted) (SoResume 9)); [reflexivity | vm_compute; reflexivity].
Defined.

Lemma stale_snapshot_clears_halt_witness :
  fsm_emergency (sy_fsm (heartbeat_tick (system submitted [Some "connection lost"] halted) 9 true)) = false.
Proof.
  by apply (stale_snapshot_clears_halt (system submitted [Some "connection lost"] halted) 9 [] "connection lost").
Defined.
End TradeFlowDemo.
