(* ===== verification/Markets.v ===== *)
(** * Markets: [oxide-arb-models/src/domain/market/registry.rs], [oxide-arb-core/src/pipeline]

    Category sets, market rows with their conversions between the database and the registry, the
    in-memory registry of markets and tokens, the universe filter and the scan cache.  The
    concurrent maps are finite maps; the order in which one is iterated is that of [map_to_list]. *)

From S2P Require Import Prelude Decimal Config Domain Fees Text.

(** ** Enumerations *)

(** [models/enums/market.rs:5-12] `MarketStatus` *)
Inductive MarketStatus := MsDiscovered | MsActive | MsFiltered | MsPaused | MsSettled | MsDelisted.
(** [models/enums/market.rs:21-30] `EventStatus` *)
Inductive EventStatus := EvActive | EvClosed | EvArchived | EvUnknown.
(** [models/enums/common.rs:561-566] `TickSize` *)
Inductive TickSize := Tenth | Hundredth | Thousandth | TenThousandth.

#[global] Instance MarketStatus_eq_dec : EqDecision MarketStatus.
Proof. solve_decision. Defined.
#[global] Instance EventStatus_eq_dec : EqDecision EventStatus.
Proof. solve_decision. Defined.
#[global] Instance TickSize_eq_dec : EqDecision TickSize.
Proof. solve_decision. Defined.

(** [models/enums/common.rs:574-585] `TickSize::as_decimal` *)
Definition tick_decimal {DO : DecimalOps} (t : TickSize) : D :=
  match t with Tenth => dlit 1 1 | Hundredth => dlit 1 2 | Thousandth => dlit 1 3 | TenThousandth => dlit 1 4 end.

(** [models/enums/common.rs:587-599] `TickSize::from_str` *)
Definition tick_from_str (s : string) : Result TickSize string :=
  let s := trim s in
  if bool_decide (s = "0.1") then Ok Tenth
  else if bool_decide (s = "0.01") then Ok Hundredth
  else if bool_decide (s = "0.001") then Ok Thousandth
  else if bool_decide (s = "0.0001") then Ok TenThousandth
  else Err s.

(** [models/enums/common.rs:601-607] `TickSize::try_from` *)
Definition tick_from_decimal {DO : DecimalOps} (d : D) : Result TickSize string := tick_from_str (dshow (dnormalize d)).

(** ** Category sets *)

(** [models/enums/common.rs:376-390] `MarketCategory::from_gamma_tag_slug` *)
Definition from_gamma_tag_slug (slug : string) : option MarketCategory :=
  let s := to_ascii_lowercase (trim slug) in
  if bool_decide (s ∈ ["politics"; "elections"]) then Some Politics
  else if bool_decide (s ∈ ["geopolitics"; "world"]) then Some Geopolitics
  else if bool_decide (s = "crypto") then Some Crypto
  else if bool_decide (s = "sports") then Some Sports
  else if bool_decide (s ∈ ["tech"; "technology"; "ai"]) then Some Tech
  else if bool_decide (s ∈ ["culture"; "pop-culture"]) then Some Culture
  else if bool_decide (s ∈ ["weather"; "climate"]) then Some Weather
  else if bool_decide (s ∈ ["economy"; "economics"]) then Some Economics
  else if bool_decide (s = "finance") then Some Finance
  else None.

(** [models/enums/common.rs:399-414] `MarketCategory::fee_rank` *)
Definition fee_rank (c : MarketCategory) : Z :=
  match c with
  | Crypto => 9 | Economics => 8 | Culture => 7 | Weather => 6 | Politics => 5
  | Finance => 4 | Tech => 3 | Sports => 2 | Geopolitics => 1 | Other => 0
  end.

(** [models/enums/common.rs:427] `CategorySet`: the bits of a [u16] *)
Definition CategorySet : Type := Z.

(** [1 << category.table_index()]. *)
Definition category_bit (c : MarketCategory) : Z := Z.shiftl 1 (Z.of_nat (table_index c)).

(** [models/enums/common.rs:444-448] `CategorySet::insert` *)
Definition cat_insert (s : CategorySet) (c : MarketCategory) : CategorySet := Z.lor s (category_bit c).

(** [models/enums/common.rs:450-455] `CategorySet::contains` *)
Definition cat_contains (s : CategorySet) (c : MarketCategory) : bool := negb (Z.land s (category_bit c) =? 0).

(** [models/enums/common.rs:457-462] `CategorySet::intersects` *)
Definition cat_intersects (s t : CategorySet) : bool := negb (Z.land s t =? 0).

(** [models/enums/common.rs:464-469] `CategorySet::is_empty` *)
Definition cat_is_empty (s : CategorySet) : bool := s =? 0.

(** [models/enums/common.rs:434-442] `CategorySet::from_slugs` *)
Definition from_slugs (slugs : list string) : CategorySet :=
  foldl (fun s slug => match from_gamma_tag_slug slug with Some c => cat_insert s c | None => s end) 0 slugs.

(** [models/enums/common.rs:511-519] `CategorySet::from_iter` *)
Definition cat_from_list (l : list MarketCategory) : CategorySet := foldl cat_insert 0 l.

(** [models/enums/common.rs:471-476] `CategorySet::iter` *)
Definition cat_iter (s : CategorySet) : list MarketCategory := List.filter (cat_contains s) all_categories.

(** [Iterator::max_by_key]: the last of the greatest. *)
Definition max_by_key {A} (key : A -> Z) (l : list A) : option A :=
  foldl (fun best a => match best with Some b => if key b <=? key a then Some a else Some b | None => Some a end) None l.

(** [models/enums/common.rs:483-488] `CategorySet::fee_category` *)
Definition fee_category (s : CategorySet) : MarketCategory := unwrap_or (max_by_key fee_rank (cat_iter s)) Other.

(** ** Rows *)

Section Markets.
Context {DO : DecimalOps} {CH : Chrono}.

(** [models/domain/market/registry.rs:209-213] `TokenInfo` *)
Record TokenInfo := { tk_token_id : TokenId; tk_outcome : string; tk_neg_risk : bool }.

(** [error/market.rs:7-22] `MarketError` *)
Inductive MarketError := InvalidTokenPair (market_id : MarketId) | NotBinaryMarket (market_id : MarketId) (token_count : nat) | EmptyCatalog.

(** [models/domain/market/registry.rs:246-258] `resolve_binary_pair_exact` *)
Definition resolve_binary_pair_exact (a b : TokenInfo) : TokenId * TokenId :=
  let labelled word := List.find (fun t => eq_ignore_ascii_case (tk_outcome t) word) [a; b] in
  match labelled "yes", labelled "no" with
  | Some yes, Some no => (tk_token_id yes, tk_token_id no)
  | _, _ => (tk_token_id a, tk_token_id b)
  end.

(** [models/domain/market/registry.rs:230-241] `resolve_binary_pair` *)
Definition resolve_binary_pair (market_id : MarketId) (tokens : list TokenInfo) : Result (TokenId * TokenId) MarketError :=
  match tokens with
  | [a; b] => Ok (resolve_binary_pair_exact a b)
  | _ => Err (NotBinaryMarket market_id (length tokens))
  end.

(** [models/domain/market/registry.rs:265-292] `MarketRegistryInfo` *)
Record MarketRegistryInfo := {
  mk_market_id : MarketId;
  mk_event_id : EventId;
  mk_token_yes : TokenId;
  mk_token_no : TokenId;
  mk_question : string;
  mk_slug : string;
  mk_categories : CategorySet;
  mk_status : MarketStatus;
  mk_outcome : option string;
  mk_neg_risk : bool;
  mk_tick_size : TickSize;
  mk_tokens : list TokenInfo;
  mk_best_bid : option D;
  mk_best_ask : option D;
  mk_depth_usd : option D;
  mk_min_order_size : D;
  mk_volume_24h : D;
  mk_fee_schedule : option MarketFeeSchedule;
  mk_end_date : option Time;
  mk_resolved_at : option Time;
  mk_created_at : Time;
  mk_updated_at : Time
}.

Definition set_pair (m : MarketRegistryInfo) (p : TokenId * TokenId) : MarketRegistryInfo := {|
  mk_market_id := mk_market_id m; mk_event_id := mk_event_id m; mk_token_yes := p.1; mk_token_no := p.2;
  mk_question := mk_question m; mk_slug := mk_slug m; mk_categories := mk_categories m; mk_status := mk_status m;
  mk_outcome := mk_outcome m; mk_neg_risk := mk_neg_risk m; mk_tick_size := mk_tick_size m; mk_tokens := mk_tokens m;
  mk_best_bid := mk_best_bid m; mk_best_ask := mk_best_ask m; mk_depth_usd := mk_depth_usd m;
  mk_min_order_size := mk_min_order_size m; mk_volume_24h := mk_volume_24h m; mk_fee_schedule := mk_fee_schedule m;
  mk_end_date := mk_end_date m; mk_resolved_at := mk_resolved_at m; mk_created_at := mk_created_at m; mk_updated_at := mk_updated_at m |}.

Definition set_status (m : MarketRegistryInfo) (s : MarketStatus) : MarketRegistryInfo := {|
  mk_market_id := mk_market_id m; mk_event_id := mk_event_id m; mk_token_yes := mk_token_yes m; mk_token_no := mk_token_no m;
  mk_question := mk_question m; mk_slug := mk_slug m; mk_categories := mk_categories m; mk_status := s;
  mk_outcome := mk_outcome m; mk_neg_risk := mk_neg_risk m; mk_tick_size := mk_tick_size m; mk_tokens := mk_tokens m;
  mk_best_bid := mk_best_bid m; mk_best_ask := mk_best_ask m; mk_depth_usd := mk_depth_usd m;
  mk_min_order_size := mk_min_order_size m; mk_volume_24h := mk_volume_24h m; mk_fee_schedule := mk_fee_schedule m;
  mk_end_date := mk_end_date m; mk_resolved_at := mk_resolved_at m; mk_created_at := mk_created_at m; mk_updated_at := mk_updated_at m |}.

(** [models/domain/market/registry.rs:295-302] `MarketRegistryInfo::resolve_token_pair` *)
Definition resolve_token_pair (m : MarketRegistryInfo) : Result MarketRegistryInfo MarketError :=
  match resolve_binary_pair (mk_market_id m) (mk_tokens m) with Ok p => Ok (set_pair m p) | Err e => Err e end.

(** [models/domain/market/registry.rs:26-52] `MarketInfo` *)
Record MarketInfo := {
  mi_market_id : MarketId;
  mi_event_id : EventId;
  mi_question : string;
  mi_slug : string;
  mi_categories : list MarketCategory;
  mi_status : MarketStatus;
  mi_outcome : option string;
  mi_yes_token_id : TokenId;
  mi_no_token_id : TokenId;
  mi_tick_size : TickSize;
  mi_neg_risk : bool;
  mi_end_date : option Time;
  mi_resolved_at : option Time;
  mi_fees_enabled : bool;
  mi_fee_rate : option D;
  mi_fee_exponent : option D;
  mi_fee_taker_only : option bool;
  mi_fee_rebate_rate : option D;
  mi_fee_source : option string;
  mi_fee_observed_at : option Time;
  mi_created_at : Time;
  mi_updated_at : Time
}.

(** [models/domain/market/registry.rs:320-341] `UpsertMarket` *)
Record UpsertMarket := {
  um_market_id : MarketId;
  um_event_id : EventId;
  um_question : string;
  um_slug : string;
  um_categories : CategorySet;
  um_status : MarketStatus;
  um_outcome : option string;
  um_yes_token_id : TokenId;
  um_no_token_id : TokenId;
  um_tick_size : TickSize;
  um_neg_risk : bool;
  um_end_date : option Time;
  um_resolved_at : option Time;
  um_fees_enabled : bool;
  um_fee_rate : option D;
  um_fee_exponent : option D;
  um_fee_taker_only : option bool;
  um_fee_rebate_rate : option D;
  um_fee_source : option string;
  um_fee_observed_at : option Time
}.

(** [models/enums/fee.rs:13-22] `FeeSource::as_str` *)
Definition fee_source_str (s : FeeSource) : string :=
  match s with ClobMarketInfo => "clob_market_info" | GammaFeeSchedule => "gamma_fee_schedule" | CategoryDefault => "category_default" end.

(** [models/domain/market/registry.rs:343-386] `UpsertMarket::try_from` *)
Definition upsert_of_registry (m : MarketRegistryInfo) : Result UpsertMarket MarketError :=
  match resolve_binary_pair (mk_market_id m) (mk_tokens m) with
  | Err e => Err e
  | Ok (yes, no) => Ok {|
      um_market_id := mk_market_id m; um_event_id := mk_event_id m; um_question := mk_question m; um_slug := mk_slug m;
      um_categories := mk_categories m; um_status := mk_status m; um_outcome := mk_outcome m; um_yes_token_id := yes;
      um_no_token_id := no; um_tick_size := mk_tick_size m; um_neg_risk := mk_neg_risk m; um_end_date := mk_end_date m;
      um_resolved_at := mk_resolved_at m;
      um_fees_enabled := match mk_fee_schedule m with None => true | Some s => fees_enabled s end;
      um_fee_rate := fs_fee_rate <$> mk_fee_schedule m; um_fee_exponent := fs_exponent <$> mk_fee_schedule m;
      um_fee_taker_only := taker_only <$> mk_fee_schedule m; um_fee_rebate_rate := mk_fee_schedule m ≫= rebate_rate;
      um_fee_source := (fun s => fee_source_str (fs_source s)) <$> mk_fee_schedule m;
      um_fee_observed_at := fs_observed_at <$> mk_fee_schedule m |}
  end.

(** [models/domain/market/registry.rs:54-59] `MarketInfo`, the row an upsert leaves; the database sets
    the two time stamps, and the categories are stored as [CategorySet::iter] lists them *)
Definition row_of_upsert (u : UpsertMarket) (created updated : Time) : MarketInfo := {|
  mi_market_id := um_market_id u; mi_event_id := um_event_id u; mi_question := um_question u; mi_slug := um_slug u;
  mi_categories := cat_iter (um_categories u); mi_status := um_status u; mi_outcome := um_outcome u;
  mi_yes_token_id := um_yes_token_id u; mi_no_token_id := um_no_token_id u; mi_tick_size := um_tick_size u;
  mi_neg_risk := um_neg_risk u; mi_end_date := um_end_date u; mi_resolved_at := um_resolved_at u;
  mi_fees_enabled := um_fees_enabled u; mi_fee_rate := um_fee_rate u; mi_fee_exponent := um_fee_exponent u;
  mi_fee_taker_only := um_fee_taker_only u; mi_fee_rebate_rate := um_fee_rebate_rate u; mi_fee_source := um_fee_source u;
  mi_fee_observed_at := um_fee_observed_at u; mi_created_at := created; mi_updated_at := updated |}.

(** [models/domain/market/registry.rs:152-205] `MarketRegistryInfo::from` *)
Definition registry_of_row (i : MarketInfo) : MarketRegistryInfo := {|
  mk_market_id := mi_market_id i; mk_event_id := mi_event_id i; mk_token_yes := mi_yes_token_id i; mk_token_no := mi_no_token_id i;
  mk_question := mi_question i; mk_slug := mi_slug i; mk_categories := cat_from_list (mi_categories i);
  mk_status := mi_status i; mk_outcome := mi_outcome i; mk_neg_risk := mi_neg_risk i; mk_tick_size := mi_tick_size i;
  mk_tokens := [ {| tk_token_id := mi_yes_token_id i; tk_outcome := "Yes"; tk_neg_risk := mi_neg_risk i |};
                 {| tk_token_id := mi_no_token_id i; tk_outcome := "No"; tk_neg_risk := mi_neg_risk i |} ];
  mk_best_bid := None; mk_best_ask := None; mk_depth_usd := None; mk_min_order_size := d0; mk_volume_24h := d0;
  mk_fee_schedule := match mi_fee_rate i, mi_fee_exponent i with
    | Some fee_rate, Some exponent => Some {|
        fs_market_id := mi_market_id i; fees_enabled := mi_fees_enabled i; fs_fee_rate := fee_rate; fs_exponent := exponent;
        taker_only := unwrap_or (mi_fee_taker_only i) true; rebate_rate := mi_fee_rebate_rate i; fs_source := GammaFeeSchedule;
        fs_observed_at := unwrap_or (mi_fee_observed_at i) (mi_updated_at i) |}
    | _, _ => None
    end;
  mk_end_date := mi_end_date i; mk_resolved_at := mi_resolved_at i; mk_created_at := mi_created_at i; mk_updated_at := mi_updated_at i |}.

(** [models/domain/market/registry.rs:388-394] `collect_fee_data` *)
Definition collect_fee_data (entries : list MarketRegistryInfo) : list MarketFeeSchedule := omap mk_fee_schedule entries.

(** [models/domain/market/registry.rs:431-444] `EventRegistryInfo` *)
Record EventRegistryInfo := {
  er_event_id : EventId;
  er_title : string;
  er_slug : string;
  er_market_ids : list MarketId;
  er_categories : CategorySet;
  er_tags : list string;
  er_neg_risk : bool;
  er_created_at : Time;
  er_updated_at : Time
}.

(** ** The registry *)

(** [core/pipeline/market_registry.rs:14-19] `MarketRegistry` *)
Record MarketRegistry := {
  rg_markets : gmap MarketId MarketRegistryInfo;
  rg_token_to_market : gmap TokenId MarketId;
  rg_events : gmap EventId EventRegistryInfo;
  rg_active : list MarketId
}.

(** [core/pipeline/market_registry.rs:22-29] `MarketRegistry::new` *)
Definition new_registry : MarketRegistry := {| rg_markets := ∅; rg_token_to_market := ∅; rg_events := ∅; rg_active := [] |}.

(** [core/pipeline/market_registry.rs:31-33] `MarketRegistry::store_active_ids` *)
Definition store_active_ids (r : MarketRegistry) (ids : list MarketId) : MarketRegistry := {|
  rg_markets := rg_markets r; rg_token_to_market := rg_token_to_market r; rg_events := rg_events r; rg_active := ids |}.

Definition push_id (ids : list MarketId) (id : MarketId) : list MarketId := if bool_decide (id ∈ ids) then ids else ids ++ [id].

Definition drop_id (ids : list MarketId) (id : MarketId) : list MarketId := List.filter (fun i => negb (bool_decide (i = id))) ids.

(** [core/pipeline/market_registry.rs:35-44] `MarketRegistry::push_active` *)
Definition push_active (r : MarketRegistry) (id : MarketId) : MarketRegistry := store_active_ids r (push_id (rg_active r) id).

(** [core/pipeline/market_registry.rs:46-59] `MarketRegistry::remove_active` *)
Definition remove_active (r : MarketRegistry) (id : MarketId) : MarketRegistry :=
  if bool_decide (id ∈ rg_active r) then store_active_ids r (drop_id (rg_active r) id) else r.

(** The two inserts both registrations make: the tokens, then the market. *)
Definition insert_market (r : MarketRegistry) (entry : MarketRegistryInfo) : MarketRegistry := {|
  rg_markets := <[mk_market_id entry := entry]> (rg_markets r);
  rg_token_to_market := foldl (fun t td => <[tk_token_id td := mk_market_id entry]> t) (rg_token_to_market r) (mk_tokens entry);
  rg_events := rg_events r; rg_active := rg_active r |}.

Definition is_active (m : MarketRegistryInfo) : bool := bool_decide (mk_status m = MsActive).

(** [core/pipeline/market_registry.rs:61-80] `MarketRegistry::register_market` *)
Definition register_market (r : MarketRegistry) (entry : MarketRegistryInfo) : MarketRegistry :=
  match resolve_token_pair entry with
  | Err _ => r
  | Ok entry =>
      let r := insert_market r entry in
      if is_active entry then push_active r (mk_market_id entry) else remove_active r (mk_market_id entry)
  end.

(** One entry of a batch: the map at once, the active list on the side. *)
Definition batch_step (acc : MarketRegistry * list MarketId) (entry : MarketRegistryInfo) : MarketRegistry * list MarketId :=
  match resolve_token_pair entry with
  | Err _ => acc
  | Ok entry =>
      let id := mk_market_id entry in
      (insert_market acc.1 entry, if is_active entry then push_id acc.2 id else drop_id acc.2 id)
  end.

(** [core/pipeline/market_registry.rs:83-114] `MarketRegistry::register_markets` *)
Definition register_markets (r : MarketRegistry) (entries : list MarketRegistryInfo) : MarketRegistry :=
  match entries with
  | [] => r
  | _ => let '(r, active) := foldl batch_step (r, rg_active r) entries in store_active_ids r active
  end.

(** [core/pipeline/market_registry.rs:151-154] `MarketRegistry::register_event` *)
Definition register_event (r : MarketRegistry) (e : EventRegistryInfo) : MarketRegistry := {|
  rg_markets := rg_markets r; rg_token_to_market := rg_token_to_market r; rg_events := <[er_event_id e := e]> (rg_events r);
  rg_active := rg_active r |}.

(** [core/pipeline/market_registry.rs:116-121] `MarketRegistry::register_events` *)
Definition register_events (r : MarketRegistry) (es : list EventRegistryInfo) : MarketRegistry := foldl register_event r es.

(** [core/pipeline/market_registry.rs:163-166] `MarketRegistry::get_market` *)
Definition get_market (r : MarketRegistry) (id : MarketId) : option MarketRegistryInfo := rg_markets r !! id.

(** [core/pipeline/market_registry.rs:126-149] `MarketRegistry::deactivate_stale` *)
Definition deactivate_stale (r : MarketRegistry) (seen : gset MarketId) : MarketRegistry * list MarketRegistryInfo :=
  let stale := List.filter (fun id => negb (bool_decide (id ∈ seen))) (rg_active r) in
  match stale with
  | [] => (r, [])
  | _ =>
      let deactivated := omap (fun id => (fun m => set_status m MsPaused) <$> get_market r id) stale in
      (register_markets r deactivated, deactivated)
  end.

(** [core/pipeline/market_registry.rs:156-161] `MarketRegistry::market_for_token` *)
Definition market_for_token (r : MarketRegistry) (t : TokenId) : option MarketId := rg_token_to_market r !! t.

(** [core/pipeline/market_registry.rs:168-171] `MarketRegistry::neg_risk` *)
Definition registry_neg_risk (r : MarketRegistry) (id : MarketId) : option bool := mk_neg_risk <$> rg_markets r !! id.

(** [core/pipeline/market_registry.rs:173-180] `MarketRegistry::token_pair` *)
Definition token_pair (r : MarketRegistry) (id : MarketId) : option (TokenId * TokenId) :=
  (fun m => (mk_token_yes m, mk_token_no m)) <$> rg_markets r !! id.

(** [core/pipeline/market_registry.rs:214-223] `MarketRegistry::refresh_active` *)
Definition refresh_active (r : MarketRegistry) : MarketRegistry :=
  store_active_ids r (List.filter (fun kv => is_active kv.2) (map_to_list (rg_markets r))).*1.

(** [core/pipeline/market_registry.rs:225-228] `MarketRegistry::market_count` *)
Definition market_count (r : MarketRegistry) : Z := Z.of_nat (size (rg_markets r)).

(** ** The universe filter and the scan cache *)

(** [core/pipeline/universe_filter.rs:17-26] `MarketUniverseFilter::new` *)
Definition universe_filter (enabled : list MarketCategory) : CategorySet := cat_from_list enabled.

(** [core/pipeline/universe_filter.rs:35-40] `MarketUniverseFilter::is_enabled` *)
Definition universe_enabled (enabled : CategorySet) (categories : CategorySet) : bool :=
  cat_is_empty enabled || cat_intersects enabled categories.

(** [core/pipeline/market_cache.rs:15-28] `CachedMarketScanEntry` *)
Record CachedMarketScanEntry := {
  ce_market_id : MarketId;
  ce_event_id : EventId;
  ce_token_yes : TokenId;
  ce_token_no : TokenId;
  ce_categories : CategorySet;
  ce_fee_category : MarketCategory;
  ce_tick_size : TickSize;
  ce_neg_risk : bool;
  ce_settlement_deadline : option Time
}.

(** [core/pipeline/market_cache.rs:75-85] `MarketCache::rebuild`, the entry of a market *)
Definition scan_entry (m : MarketRegistryInfo) : CachedMarketScanEntry := {|
  ce_market_id := mk_market_id m; ce_event_id := mk_event_id m; ce_token_yes := mk_token_yes m; ce_token_no := mk_token_no m;
  ce_categories := mk_categories m; ce_fee_category := fee_category (mk_categories m); ce_tick_size := mk_tick_size m;
  ce_neg_risk := mk_neg_risk m; ce_settlement_deadline := mk_end_date m |}.

(** [core/pipeline/market_cache.rs:35-40] `MarketCache`, what a rebuild replaces *)
Record MarketScanCache := {
  sc_entries : list CachedMarketScanEntry;
  sc_index : gmap MarketId CachedMarketScanEntry
}.

(** [core/pipeline/market_cache.rs:61-76] `MarketCache::rebuild`, which markets it admits *)
Definition admit_market (r : MarketRegistry) (universe : CategorySet) (now : Time) (id : MarketId) : option CachedMarketScanEntry :=
  match get_market r id with
  | None => None
  | Some m =>
      if negb (universe_enabled universe (mk_categories m)) then None
      else match mk_end_date m with
           | None => None
           | Some deadline => if deadline <=? now then None else Some (scan_entry m)
           end
  end.

(** [core/pipeline/market_cache.rs:54-92] `MarketCache::rebuild` *)
Definition rebuild_cache (r : MarketRegistry) (universe : CategorySet) (now : Time) : MarketScanCache :=
  let entries := omap (admit_market r universe now) (rg_active r) in {|
    sc_entries := entries;
    sc_index := foldl (fun ix e => <[ce_market_id e := e]> ix) ∅ entries |}.

(** [core/pipeline/market_cache.rs:99-102] `MarketCache::get` *)
Definition cache_get (c : MarketScanCache) (id : MarketId) : option CachedMarketScanEntry := sc_index c !! id.

(** ** Category sets: facts *)

Lemma cat_contains_bit s c : cat_contains s c = Z.testbit s (Z.of_nat (table_index c)).
Proof.
  unfold cat_contains, category_bit. set (n := Z.of_nat (table_index c)). assert (0 <= n) as Hn by lia.
  destruct (Z.testbit s n) eqn:E.
  - apply negb_true_iff, Z.eqb_neq. intros H. assert (Z.testbit (Z.land s (Z.shiftl 1 n)) n = false) as H0 by (rewrite H; apply Z.bits_0).
    rewrite Z.land_spec, E, Z.shiftl_spec in H0 by lia. by rewrite Z.sub_diag in H0.
  - apply negb_false_iff, Z.eqb_eq, Z.bits_inj_0. intros k. rewrite Z.land_spec.
    destruct (decide (k = n)) as [->|Hk]; [by rewrite E|]. destruct (Z.testbit s k); [|done]. simpl.
    destruct (Z.lt_ge_cases k 0); [by apply Z.testbit_neg_r|]. rewrite Z.shiftl_spec by lia.
    destruct (Z.lt_ge_cases (k - n) 0); [by apply Z.testbit_neg_r|]. apply Z.bits_above_log2; simpl; lia.
Qed.

Lemma cat_contains_insert s c c' : cat_contains (cat_insert s c) c' = bool_decide (c' = c) || cat_contains s c'.
Proof.
  rewrite !cat_contains_bit. unfold cat_insert. rewrite Z.lor_spec, orb_comm. f_equal.
  unfold category_bit. rewrite Z.shiftl_spec by lia. by destruct c, c'.
Qed.

Lemma cat_contains_list l c : cat_contains (cat_from_list l) c = bool_decide (c ∈ l).
Proof.
  unfold cat_from_list. assert (forall s, cat_contains (foldl cat_insert s l) c = bool_decide (c ∈ l) || cat_contains s c) as H.
  { induction l as [|x l IH]; intros s; simpl; [done|]. rewrite IH, cat_contains_insert, orb_assoc. f_equal.
    apply eq_iff_eq_true. rewrite orb_true_iff, !bool_decide_eq_true, elem_of_cons. tauto. }
  rewrite H. unfold cat_contains. rewrite Z.land_0_l. simpl. by rewrite orb_false_r.
Qed.

Lemma elem_of_cat_iter s c : c ∈ cat_iter s <-> cat_contains s c = true.
Proof.
  unfold cat_iter. rewrite list_elem_of_In, filter_In, <- list_elem_of_In.
  split; [tauto|]. intros. split; [|done]. unfold all_categories. destruct c; set_solver.
Qed.

(** A set of the ten categories. *)
Definition cat_ok (s : CategorySet) : Prop := 0 <= s < 1024.

Lemma cat_insert_ok s c : cat_ok s -> cat_ok (cat_insert s c).
Proof.
  unfold cat_ok, cat_insert. intros Hs.
  assert (0 <= category_bit c < 1024) as Hc by (by destruct c).
  assert (0 <= Z.lor s (category_bit c)) by (apply Z.lor_nonneg; lia). split; [done|].
  apply Z.lt_le_trans with (2 ^ 10); [|done]. destruct (decide (Z.lor s (category_bit c) = 0)) as [->|]; [done|].
  apply Z.log2_lt_pow2; [lia|]. rewrite Z.log2_lor by lia. apply Z.max_lub_lt.
  - destruct (decide (s = 0)) as [->|]; [done|]. apply Z.log2_lt_pow2; simpl; lia.
  - destruct (decide (category_bit c = 0)) as [->|]; [done|]. apply Z.log2_lt_pow2; simpl; lia.
Qed.

Lemma cat_list_ok l : cat_ok (cat_from_list l).
Proof.
  unfold cat_from_list. assert (forall s, cat_ok s -> cat_ok (foldl cat_insert s l)) as H; [|by apply H].
  induction l as [|c l IH]; intros s Hs; [done|]. by apply IH, cat_insert_ok.
Qed.

Lemma from_slugs_ok slugs : cat_ok (from_slugs slugs).
Proof.
  unfold from_slugs. assert (forall s, cat_ok s -> cat_ok (foldl (fun s slug => match from_gamma_tag_slug slug with Some c => cat_insert s c | None => s end) s slugs)) as H; [|by apply H].
  induction slugs as [|w l IH]; intros s Hs; [done|]. simpl. apply IH. destruct (from_gamma_tag_slug w); [by apply cat_insert_ok | done].
Qed.

(** The list a set is stored as gives the set back. *)
Lemma cat_roundtrip s : cat_ok s -> cat_from_list (cat_iter s) = s.
Proof.
  intros [H0 H1].
  assert (forallb (fun n => cat_from_list (cat_iter (Z.of_nat n)) =? Z.of_nat n) (seq 0 (Z.to_nat 1024)) = true) as H by (vm_compute; reflexivity).
  rewrite forallb_forall in H. specialize (H (Z.to_nat s)). rewrite Z2Nat.id in H by lia. apply Z.eqb_eq, H, in_seq. lia.
Qed.

Lemma max_by_key_spec {A} (key : A -> Z) l : match max_by_key key l with
  | Some a => a ∈ l /\ forall b, b ∈ l -> key b <= key a
  | None => l = [] end.
Proof.
  unfold max_by_key.
  assert (forall best, match foldl (fun best a => match best with Some b => if key b <=? key a then Some a else Some b | None => Some a end) best l with
    | Some a => (a ∈ l \/ best = Some a) /\ (forall b, b ∈ l -> key b <= key a) /\ (forall b, best = Some b -> key b <= key a)
    | None => l = [] /\ best = None end) as H.
  { induction l as [|x l IH]; intros best; simpl.
    - destruct best; [|done]. split; [by right|]. split; [by intros b ?%elem_of_nil|]. intros b [= ->]. lia.
    - match goal with |- context [foldl _ ?b l] => specialize (IH b) end. destruct (foldl _ _ l) as [a|]; [|by destruct IH as [_ H]; destruct best as [b|]; [destruct (key b <=? key x)|]].
      destruct IH as (Hin & Hl & Hb). split; [|split].
      + destruct Hin as [|E]; [left; by right|]. destruct best as [b|]; [|left; apply elem_of_cons; left; congruence].
        destruct (key b <=? key x); [left; apply elem_of_cons; left; congruence | by right].
      + intros b [->|Hb']%elem_of_cons; [|by apply Hl]. destruct best as [c|]; [|by apply Hb]. destruct (Z.leb_spec (key c) (key x)); [by apply Hb|].
        specialize (Hb c eq_refl). lia.
      + intros b ->. destruct (Z.leb_spec (key b) (key x)); [specialize (Hb x eq_refl); lia | by apply Hb]. }
  specialize (H None). destruct (foldl _ None l); [|tauto]. split; [|tauto]. destruct H as [[|] _]; done.
Qed.

Lemma fee_category_member s : cat_is_empty s = false -> cat_ok s -> cat_contains s (fee_category s) = true.
Proof.
  intros He Hs. unfold fee_category. pose proof (max_by_key_spec fee_rank (cat_iter s)) as H.
  destruct (max_by_key fee_rank (cat_iter s)); [destruct H as [H _]; by apply elem_of_cat_iter|].
  apply cat_roundtrip in Hs. rewrite H in Hs. rewrite <- Hs in He. done.
Qed.

Lemma slug_never_other slug : from_gamma_tag_slug slug <> Some Other.
Proof. unfold from_gamma_tag_slug. by repeat case_bool_decide. Qed.

Lemma from_slugs_no_other slugs : cat_contains (from_slugs slugs) Other = false.
Proof.
  unfold from_slugs. assert (forall s, cat_contains s Other = false -> cat_contains (foldl (fun s slug => match from_gamma_tag_slug slug with Some c => cat_insert s c | None => s end) s slugs) Other = false) as H; [|by apply H].
  induction slugs as [|w l IH]; intros s Hs; [done|]. simpl. apply IH. destruct (from_gamma_tag_slug w) as [c|] eqn:E; [|done].
  rewrite cat_contains_insert, Hs, orb_false_r. apply bool_decide_eq_false. intros <-. by apply slug_never_other in E.
Qed.
(** The default rate of a category. *)
Definition default_rate (c : MarketCategory) : D := rate_for fees_config_default c.

Lemma default_rate_lit c : default_rate c = dlit (match c with
  | Geopolitics => 0 | Sports => 3 | Crypto => 72 | Finance | Politics | Tech => 4 | _ => 5 end) (match c with Geopolitics => 0 | Crypto => 3 | _ => 2 end).
Proof. by destruct c. Qed.

(** When an event maps to several categories, the one that is kept for the fee estimate has the
    highest documented rate among them: fees are overestimated, never underestimated. *)
Theorem fee_category_conservative {DL : DecimalLaws DO} slugs c :
  cat_contains (from_slugs slugs) c = true -> (dval (default_rate c) <= dval (default_rate (fee_category (from_slugs slugs))))%Q.
Proof.
  intros Hc. pose proof (from_slugs_no_other slugs) as Ho. pose proof (from_slugs_ok slugs) as Hs.
  assert (cat_is_empty (from_slugs slugs) = false) as He.
  { unfold cat_is_empty. apply Z.eqb_neq. intros E. rewrite E in Hc. by destruct c. }
  pose proof (fee_category_member _ He Hs) as Hm.
  assert (fee_rank c <= fee_rank (fee_category (from_slugs slugs))) as Hr.
  { unfold fee_category. pose proof (max_by_key_spec fee_rank (cat_iter (from_slugs slugs))) as H.
    apply elem_of_cat_iter in Hc. destruct (max_by_key fee_rank _); [by apply H | rewrite H in Hc; by apply elem_of_nil in Hc]. }
  set (f := fee_category (from_slugs slugs)) in *. assert (c <> Other /\ f <> Other) as [Hco Hfo] by (split; intros ->; congruence).
  rewrite !default_rate_lit, !dval_lit by (destruct c, f; lia).
  destruct c; try done; destruct f; try done; try (simpl in Hr; lia); vm_compute; discriminate.
Qed.

(** ** The database and the registry *)

Definition with_source (src : FeeSource) (s : MarketFeeSchedule) : MarketFeeSchedule := {|
  fs_market_id := fs_market_id s; fees_enabled := fees_enabled s; fs_fee_rate := fs_fee_rate s; fs_exponent := fs_exponent s;
  taker_only := taker_only s; rebate_rate := rebate_rate s; fs_source := src; fs_observed_at := fs_observed_at s |}.

(** What a market read back from the database looks like: the quotes and the order minimum are not
    stored, the outcome labels become Yes and No, and every schedule counts as Gamma's. *)
Definition stored_view (m : MarketRegistryInfo) (created updated : Time) : MarketRegistryInfo := {|
  mk_market_id := mk_market_id m; mk_event_id := mk_event_id m; mk_token_yes := mk_token_yes m; mk_token_no := mk_token_no m;
  mk_question := mk_question m; mk_slug := mk_slug m; mk_categories := mk_categories m; mk_status := mk_status m;
  mk_outcome := mk_outcome m; mk_neg_risk := mk_neg_risk m; mk_tick_size := mk_tick_size m;
  mk_tokens := [ {| tk_token_id := mk_token_yes m; tk_outcome := "Yes"; tk_neg_risk := mk_neg_risk m |};
                 {| tk_token_id := mk_token_no m; tk_outcome := "No"; tk_neg_risk := mk_neg_risk m |} ];
  mk_best_bid := None; mk_best_ask := None; mk_depth_usd := None; mk_min_order_size := d0; mk_volume_24h := d0;
  mk_fee_schedule := with_source GammaFeeSchedule <$> mk_fee_schedule m;
  mk_end_date := mk_end_date m; mk_resolved_at := mk_resolved_at m; mk_created_at := created; mk_updated_at := updated |}.

(** The labels a stored market gets resolve to the same pair again. *)
Lemma stored_pair m created updated : resolve_token_pair (stored_view m created updated) = Ok (stored_view m created updated).
Proof. reflexivity. Qed.

(** A market that is written to the database and read back is the market again, but for what the
    table does not keep, and it resolves to the same pair of tokens. *)
Theorem market_row_roundtrip m created updated :
  cat_ok (mk_categories m) -> resolve_token_pair m = Ok m -> (forall s, mk_fee_schedule m = Some s -> fs_market_id s = mk_market_id m) ->
  exists u, upsert_of_registry m = Ok u /\
    registry_of_row (row_of_upsert u created updated) = stored_view m created updated /\
    resolve_token_pair (registry_of_row (row_of_upsert u created updated)) = Ok (stored_view m created updated).
Proof.
  intros Hc Hp Hf. unfold resolve_token_pair in Hp. unfold upsert_of_registry.
  destruct (resolve_binary_pair (mk_market_id m) (mk_tokens m)) as [[yes no]|e] eqn:E; [|done]. injection Hp as Hp.
  eexists. split; [done|]. assert (yes = mk_token_yes m /\ no = mk_token_no m) as [-> ->] by (rewrite <- Hp; done).
  match goal with |- ?a = ?b /\ _ => assert (a = b) as ->; [|by split; [|apply stored_pair]] end.
  unfold registry_of_row, stored_view, row_of_upsert. simpl. f_equal; [by apply cat_roundtrip|].
  destruct (mk_fee_schedule m) as [s|]; [|done]. simpl. specialize (Hf s eq_refl). unfold with_source. by rewrite <- Hf.
Qed.

(** ** The registry *)

Inductive registry_op :=
| RgRegister (m : MarketRegistryInfo)
| RgBatch (ms : list MarketRegistryInfo)
| RgEvents (es : list EventRegistryInfo)
| RgStale (seen : gset MarketId)
| RgRefresh.

Definition registry_step (r : MarketRegistry) (o : registry_op) : MarketRegistry :=
  match o with
  | RgRegister m => register_market r m
  | RgBatch ms => register_markets r ms
  | RgEvents es => register_events r es
  | RgStale seen => (deactivate_stale r seen).1
  | RgRefresh => refresh_active r
  end.

Lemma drop_id_absent ids id : id ∉ ids -> drop_id ids id = ids.
Proof.
  induction ids as [|i ids IH]; [done|]. intros [Hne Hn]%not_elem_of_cons. simpl. rewrite bool_decide_false by done. simpl. by rewrite IH.
Qed.

Lemma elem_of_drop_id ids id i : i ∈ drop_id ids id <-> i ∈ ids /\ i <> id.
Proof.
  unfold drop_id. rewrite list_elem_of_In, filter_In, <- list_elem_of_In. rewrite negb_true_iff, bool_decide_eq_false. done.
Qed.

Lemma elem_of_push_id ids id i : i ∈ push_id ids id <-> i ∈ ids \/ i = id.
Proof. unfold push_id. case_bool_decide; set_solver. Qed.

Lemma push_id_nodup ids id : NoDup ids -> NoDup (push_id ids id).
Proof. unfold push_id. case_bool_decide; [done|]. intros. apply NoDup_app. split_and!; [done| |apply NoDup_singleton]. set_solver. Qed.

Lemma drop_id_nodup ids id : NoDup ids -> NoDup (drop_id ids id).
Proof. unfold drop_id. rewrite !NoDup_ListNoDup. apply List.NoDup_filter. Qed.

(** One registration, in the form both the single and the batch call have it. *)
Lemma register_market_step r m : register_market r m = let '(r', ids) := batch_step (r, rg_active r) m in store_active_ids r' ids.
Proof.
  unfold register_market, batch_step. destruct (resolve_token_pair m) as [m'|e]; [|by destruct r]. simpl.
  destruct (is_active m'); [done|]. unfold remove_active. simpl. case_bool_decide as H; [done|]. rewrite drop_id_absent by done. done.
Qed.

Lemma batch_store r ids ids' m : batch_step (store_active_ids r ids', ids) m = let '(r', ids'') := batch_step (r, ids) m in (store_active_ids r' ids', ids'').
Proof. unfold batch_step. by destruct (resolve_token_pair m). Qed.

Lemma batch_fold ms : forall r ids, (let '(r', ids') := foldl batch_step (r, ids) ms in store_active_ids r' ids') = foldl register_market (store_active_ids r ids) ms.
Proof.
  induction ms as [|m ms IH]; intros r ids; [done|]. cbn [foldl]. rewrite register_market_step.
  change (rg_active (store_active_ids r ids)) with ids. rewrite batch_store. destruct (batch_step (r, ids) m) as [r' ids']. rewrite IH. done.
Qed.

(** A batch registers its markets one after the other. *)
Lemma register_markets_fold r ms : register_markets r ms = foldl register_market r ms.
Proof.
  destruct ms as [|m ms]; [done|]. unfold register_markets. rewrite batch_fold. by destruct r.
Qed.

(** The registry is consistent: the active list has each active market once, every market is
    stored under its own id with the pair of its two tokens, and the token index points at
    registered markets and knows every token of a registered market. *)
Record registry_ok (r : MarketRegistry) : Prop := {
  ro_nodup : NoDup (rg_active r);
  ro_active : forall id, id ∈ rg_active r <-> exists m, rg_markets r !! id = Some m /\ mk_status m = MsActive;
  ro_keyed : forall id m, rg_markets r !! id = Some m -> mk_market_id m = id /\ resolve_token_pair m = Ok m;
  ro_index : forall t id, rg_token_to_market r !! t = Some id -> is_Some (rg_markets r !! id);
  ro_tokens : forall id m t, rg_markets r !! id = Some m -> t ∈ mk_tokens m -> is_Some (rg_token_to_market r !! tk_token_id t)
}.

Lemma resolve_idempotent m m' : resolve_token_pair m = Ok m' -> resolve_token_pair m' = Ok m' /\ mk_market_id m' = mk_market_id m /\ mk_status m' = mk_status m.
Proof.
  unfold resolve_token_pair. destruct (resolve_binary_pair (mk_market_id m) (mk_tokens m)) as [p|e] eqn:E; [|done].
  intros [= <-]. simpl. by rewrite E.
Qed.

Lemma index_lookup (l : list TokenInfo) (id : MarketId) : forall (t : gmap TokenId MarketId) k,
  foldl (fun t td => <[tk_token_id td := id]> t) t l !! k = if bool_decide (k ∈ tk_token_id <$> l) then Some id else t !! k.
Proof.
  induction l as [|x l IH]; intros t k; [done|]. cbn [foldl]. rewrite IH, fmap_cons.
  destruct (decide (k = tk_token_id x)) as [->|Hne].
  - rewrite lookup_insert_eq. rewrite (bool_decide_true (_ ∈ _ :: _)) by set_solver. by case_bool_decide.
  - rewrite lookup_insert_ne by done. do 2 case_bool_decide; try done; set_solver.
Qed.

Lemma register_market_ok r m : registry_ok r -> registry_ok (register_market r m).
Proof.
  intros [Hn Ha Hk Hi Ht]. rewrite register_market_step. unfold batch_step.
  destruct (resolve_token_pair m) as [m'|e] eqn:E; [|by destruct r]. apply resolve_idempotent in E as (E & _ & _).
  set (id := mk_market_id m'). unfold store_active_ids, insert_market. cbn -[drop_id push_id]. fold id. split; cbn -[drop_id push_id].
  - destruct (is_active m'); [by apply push_id_nodup | by apply drop_id_nodup].
  - intros i. destruct (decide (i = id)) as [->|Hne].
    + rewrite lookup_insert_eq. unfold is_active. case_bool_decide as Hs.
      * rewrite elem_of_push_id. split; [intros _; by exists m' | by right].
      * rewrite elem_of_drop_id. split; [tauto|]. by intros (? & [= <-] & ?).
    + rewrite lookup_insert_ne by done. rewrite <- Ha. destruct (is_active m'); [rewrite elem_of_push_id | rewrite elem_of_drop_id]; tauto.
  - intros i x. destruct (decide (i = id)) as [->|Hne]; [rewrite lookup_insert_eq; by intros [= <-] | rewrite lookup_insert_ne by done; apply Hk].
  - intros t i. rewrite index_lookup. case_bool_decide.
    + intros [= <-]. rewrite lookup_insert_eq. by eexists.
    + intros Hx. destruct (decide (i = id)) as [->|Hne]; [rewrite lookup_insert_eq; by eexists | rewrite lookup_insert_ne by done; by eapply Hi].
  - intros i x t. rewrite index_lookup. case_bool_decide as Hin; [by eexists|].
    destruct (decide (i = id)) as [->|Hne].
    + rewrite lookup_insert_eq. intros [= <-] Hx. destruct Hin. apply list_elem_of_fmap. by eexists.
    + rewrite lookup_insert_ne by done. apply Ht.
Qed.

Lemma register_markets_ok r ms : registry_ok r -> registry_ok (register_markets r ms).
Proof. rewrite register_markets_fold. revert r. induction ms as [|m ms IH]; intros r Hr; [done|]. apply IH. by apply register_market_ok. Qed.

Lemma rescan_active r id : registry_ok r -> id ∈ rg_active (refresh_active r) <-> id ∈ rg_active r.
Proof.
  intros Hr. rewrite (ro_active _ Hr). unfold refresh_active. simpl. rewrite list_elem_of_fmap. split.
  - intros ([i m] & -> & H). rewrite list_elem_of_In, filter_In, <- list_elem_of_In, elem_of_map_to_list in H. destruct H as [H Hs].
    exists m. split; [done|]. unfold is_active in Hs. by apply bool_decide_eq_true in Hs.
  - intros (m & H & Hs). exists (id, m). split; [done|]. rewrite list_elem_of_In, filter_In, <- list_elem_of_In, elem_of_map_to_list.
    split; [done|]. unfold is_active. simpl. by apply bool_decide_eq_true.
Qed.

Lemma rescan_nodup r : NoDup (rg_active (refresh_active r)).
Proof.
  unfold refresh_active. simpl. pose proof (NoDup_fst_map_to_list (rg_markets r)) as H. induction (map_to_list (rg_markets r)) as [|[i m] l IH]; [done|].
  simpl in *. apply NoDup_cons in H as [Hi H]. destruct (is_active m); simpl; [|by apply IH]. apply NoDup_cons. split; [|by apply IH].
  intros Hin. apply Hi. apply list_elem_of_fmap in Hin as ([j x] & Hj & Hin). apply list_elem_of_fmap. exists (j, x). split; [done|].
  rewrite list_elem_of_In, filter_In, <- list_elem_of_In in Hin. tauto.
Qed.

Lemma events_frame es : forall r, rg_markets (register_events r es) = rg_markets r /\
  rg_token_to_market (register_events r es) = rg_token_to_market r /\ rg_active (register_events r es) = rg_active r.
Proof. unfold register_events. induction es as [|e es IH]; intros r; [done|]. cbn [foldl]. destruct (IH (register_event r e)) as (-> & -> & ->). done. Qed.

Lemma registry_step_ok r o : registry_ok r -> registry_ok (registry_step r o).
Proof.
  intros Hr. destruct o as [m|ms|es|seen|]; simpl; [by apply register_market_ok | by apply register_markets_ok | | |].
  - destruct (events_frame es r) as (E1 & E2 & E3). destruct Hr as [Hn Ha Hk Hi Ht].
    split; [by rewrite E3 | by rewrite E1, E3 | by rewrite E1 | by rewrite E1, E2 | by rewrite E1, E2].
  - unfold deactivate_stale. destruct (List.filter _ _); [done|]. by apply register_markets_ok.
  - pose proof (rescan_nodup r) as Hd. pose proof (fun id => rescan_active r id Hr) as Hs. destruct Hr as [Hn Ha Hk Hi Ht].
    split; [done | | done..]. intros id. rewrite Hs. apply Ha.
Qed.

Lemma registry_reachable ops : registry_ok (foldl registry_step new_registry ops).
Proof.
  assert (forall r, registry_ok r -> registry_ok (foldl registry_step r ops)) as H.
  { induction ops as [|o ops IH]; intros r Hr; [done|]. apply IH. by apply registry_step_ok. }
  apply H. split; simpl; [constructor | | by intros ??|by intros ??|by intros ???].
  intros id. split; [by intros ?%elem_of_nil | by intros (? & ? & ?)].
Qed.


(** ** Stale markets *)

Definition paused (m : MarketRegistryInfo) : MarketRegistryInfo := set_status m MsPaused.

Lemma resolve_paused m : resolve_token_pair m = Ok m -> resolve_token_pair (paused m) = Ok (paused m).
Proof. unfold resolve_token_pair. simpl. destruct (resolve_binary_pair _ _) as [p|e]; [|done]. intros [= E]. rewrite <- E at 2. done. Qed.

Lemma register_paused ms : forall r, (forall m, m ∈ ms -> resolve_token_pair m = Ok m /\ mk_status m = MsPaused) ->
  let r' := foldl register_market r ms in
  rg_active r' = List.filter (fun i => negb (bool_decide (i ∈ mk_market_id <$> ms))) (rg_active r) /\
  (forall id, id ∉ mk_market_id <$> ms -> rg_markets r' !! id = rg_markets r !! id) /\
  (forall id, id ∈ mk_market_id <$> ms -> exists m, m ∈ ms /\ mk_market_id m = id /\ rg_markets r' !! id = Some m).
Proof.
  induction ms as [|m ms IH]; intros r Hms; simpl.
  - split_and!; [|done|by intros ? ?%elem_of_nil]. rewrite List.forallb_filter_id; [done|]. by apply forallb_forall.
  - destruct (Hms m) as [Hm Hs]; [left|]. destruct (IH (register_market r m)) as (H1 & H2 & H3); [intros x Hx; apply Hms; by right|].
    rewrite register_market_step in *. unfold batch_step in *. rewrite Hm in *. unfold is_active in *. rewrite Hs in *. simpl in *.
    split_and!.
    + rewrite H1. clear. unfold drop_id. induction (rg_active r) as [|i l IHl]; [done|]. simpl. destruct (decide (i = mk_market_id m)) as [->|Hne].
      * rewrite (bool_decide_true (mk_market_id m = _)) by done. rewrite (bool_decide_true (_ ∈ _ :: _)) by left. exact IHl.
      * rewrite (bool_decide_false (i = _)) by done. simpl. rewrite IHl.
        destruct (decide (i ∈ mk_market_id <$> ms)).
        -- rewrite (bool_decide_true (i ∈ mk_market_id <$> ms)) by done. by rewrite bool_decide_true by (by right).
        -- rewrite (bool_decide_false (i ∈ mk_market_id <$> ms)) by done. rewrite bool_decide_false; [done|]. by intros [|]%elem_of_cons.
    + intros id Hid. rewrite H2 by set_solver. rewrite lookup_insert_ne by set_solver. done.
    + intros id Hid. destruct (decide (id ∈ mk_market_id <$> ms)) as [Hin|Hin].
      * destruct (H3 id Hin) as (x & Hx & ? & ?). exists x. split_and!; [by right | done | done].
      * apply elem_of_cons in Hid as [->|]; [|done]. exists m. split_and!; [left | done |]. rewrite H2 by done. by rewrite lookup_insert_eq.
Qed.
Lemma filter_app_split {A} (f : A -> bool) (l : list A) x : x ∈ List.filter f l <-> x ∈ l /\ f x = true.
Proof. by rewrite list_elem_of_In, filter_In, <- list_elem_of_In. Qed.

Lemma omap_all_ids (f : MarketId -> option MarketRegistryInfo) (ids : list MarketId) :
  (forall id, id ∈ ids -> exists m, f id = Some m /\ mk_market_id m = id) -> mk_market_id <$> omap f ids = ids.
Proof.
  induction ids as [|id ids IH]; intros H; [done|]. destruct (H id) as (m & Hf & Hm); [left|]. simpl. rewrite Hf. simpl. f_equal; [done|].
  apply IH. intros i Hi. apply H. by right.
Qed.

Lemma deactivated r seen : registry_ok r ->
  let '(r', out) := deactivate_stale r seen in
  rg_active r' = List.filter (fun id => bool_decide (id ∈ seen)) (rg_active r) /\
  mk_market_id <$> out = List.filter (fun id => negb (bool_decide (id ∈ seen))) (rg_active r) /\
  out = omap (fun id => paused <$> get_market r id) (List.filter (fun id => negb (bool_decide (id ∈ seen))) (rg_active r)) /\
  (forall id, get_market r' id = (fun m => if is_active m && negb (bool_decide (id ∈ seen)) then paused m else m) <$> get_market r id).
Proof.
  intros Hr. unfold deactivate_stale.
  set (stale := List.filter (fun id => negb (bool_decide (id ∈ seen))) (rg_active r)).
  assert (forall id m, get_market r id = Some m -> is_active m && negb (bool_decide (id ∈ seen)) = bool_decide (id ∈ stale)) as Hmem.
  { intros id m Hm. apply eq_iff_eq_true. rewrite andb_true_iff, bool_decide_eq_true. unfold stale. rewrite filter_app_split, (ro_active _ Hr).
    unfold is_active. rewrite bool_decide_eq_true. unfold get_market in Hm. rewrite Hm. naive_solver. }
  set (f := fun id => (fun m => set_status m MsPaused) <$> get_market r id).
  assert (forall id, id ∈ stale -> exists m, f id = Some m /\ mk_market_id m = id) as Hf.
  { intros id Hid. apply filter_app_split in Hid as [Hid _]. apply (ro_active _ Hr) in Hid as (m & Hm & _).
    exists (paused m). split; [unfold f, get_market; by rewrite Hm|]. by apply (ro_keyed _ Hr) in Hm as [Hm _]. }
  pose proof (omap_all_ids f stale Hf) as Hids.
  pose proof (register_paused (omap f stale) r) as Hp. cbv zeta in Hp. rewrite Hids in Hp.
  assert ((match stale with [] => (r, []) | _ :: _ => (register_markets r (omap f stale), omap f stale) end)
           = (foldl register_market r (omap f stale), omap f stale)) as -> by (rewrite register_markets_fold; by destruct stale). destruct Hp as (H1 & H2 & H3).
  { intros m Hm. apply list_elem_of_omap in Hm as (id & Hid & Hm). unfold f, get_market in Hm. apply fmap_Some in Hm as (x & Hx & ->).
    split; [|done]. apply resolve_paused. by apply (ro_keyed _ Hr) in Hx as [_ Hx]. }
  split_and!; [| done | done |].
  - rewrite H1. clear -stale. unfold stale. apply List.filter_ext_in. intros i Hi%list_elem_of_In. rewrite <- (negb_involutive (bool_decide (i ∈ seen))). f_equal.
    apply eq_iff_eq_true. rewrite bool_decide_eq_true, filter_app_split. tauto.
  - intros id. destruct (decide (id ∈ stale)) as [Hid|Hid].
    + destruct (H3 id Hid) as (m & Hm & <- & Hl). unfold get_market. rewrite Hl.
      apply list_elem_of_omap in Hm as (i & Hi & Hm). destruct (Hf i Hi) as (m' & Hm' & Hi'). assert (m' = m) as -> by congruence. subst i.
      unfold f in Hm. apply fmap_Some in Hm as (x & Hx & Hxm). pose proof (Hmem _ _ Hx) as Hb. unfold get_market in Hx. rewrite Hx. simpl.
      rewrite Hb, bool_decide_true by done. by rewrite Hxm.
    + unfold get_market. rewrite H2 by done. destruct (rg_markets r !! id) as [m|] eqn:E; [|done]. simpl.
      rewrite (Hmem id m E), bool_decide_false by done. done.
Qed.

(** A full sync pauses exactly the active markets it has not seen: the active list loses them and
    keeps its order, they are returned in that order, and every other market stays as it is. *)
Theorem deactivate_stale_exact ops seen :
  let r := foldl registry_step new_registry ops in
  let '(r', out) := deactivate_stale r seen in
  rg_active r' = List.filter (fun id => bool_decide (id ∈ seen)) (rg_active r) /\
  mk_market_id <$> out = List.filter (fun id => negb (bool_decide (id ∈ seen))) (rg_active r) /\
  (forall id, get_market r' id = (fun m => if is_active m && negb (bool_decide (id ∈ seen)) then paused m else m) <$> get_market r id).
Proof.
  intros r. pose proof (deactivated r seen (registry_reachable ops)) as H. destruct (deactivate_stale r seen) as [r' out]. tauto.
Qed.

(** ** The scan cache *)

Lemma admit_spec r universe now id e : admit_market r universe now id = Some e <->
  exists m deadline, get_market r id = Some m /\ universe_enabled universe (mk_categories m) = true /\
    mk_end_date m = Some deadline /\ now < deadline /\ e = scan_entry m.
Proof.
  unfold admit_market. destruct (get_market r id) as [m|]; [|by split; [|intros (? & ? & ? & _)]].
  destruct (universe_enabled universe (mk_categories m)) eqn:Hu; simpl; [|by split; [|intros (? & ? & [= <-] & ? & _); congruence]].
  destruct (mk_end_date m) as [d|] eqn:Hd; [|by split; [|intros (? & ? & [= <-] & _ & ? & _); congruence]]. destruct (Z.leb_spec d now); split; try done.
  - intros (x & d' & [= <-] & _ & Hd' & ? & _). rewrite Hd in Hd'. injection Hd' as <-. lia.
  - intros [= <-]. by exists m, d.
  - intros (x & d' & [= <-] & _ & _ & _ & ->). done.
Qed.

Lemma index_of_entries l (ix : gmap MarketId CachedMarketScanEntry) id : NoDup (ce_market_id <$> l) ->
  foldl (fun ix e => <[ce_market_id e := e]> ix) ix l !! id = match List.find (fun e => bool_decide (ce_market_id e = id)) l with Some e => Some e | None => ix !! id end.
Proof.
  revert ix. induction l as [|e l IH]; intros ix Hd; [done|]. rewrite fmap_cons in Hd. apply NoDup_cons in Hd as [Hn Hd]. cbn [foldl List.find]. rewrite IH by done.
  case_bool_decide as He.
  - subst id. destruct (List.find _ l) as [x|] eqn:E; [|by rewrite lookup_insert_eq]. exfalso. apply Hn.
    apply List.find_some in E as [Hx Hb]. apply bool_decide_eq_true in Hb. rewrite <- Hb. apply list_elem_of_fmap. exists x. split; [done|]. by apply list_elem_of_In.
  - destruct (List.find _ l); [done|]. by rewrite lookup_insert_ne.
Qed.

(** The scan cache holds exactly the markets that are active, in the universe and end in the
    future, once each, and its index agrees with its list. *)
Theorem cache_exact ops universe now id e :
  let r := foldl registry_step new_registry ops in
  let c := rebuild_cache r universe now in
  NoDup (ce_market_id <$> sc_entries c) /\
  (cache_get c id = Some e <-> e ∈ sc_entries c /\ ce_market_id e = id) /\
  (e ∈ sc_entries c <-> exists m deadline, get_market r (ce_market_id e) = Some m /\ mk_status m = MsActive /\
     universe_enabled universe (mk_categories m) = true /\ mk_end_date m = Some deadline /\ now < deadline /\ e = scan_entry m).
Proof.
  intros r. pose proof (registry_reachable ops) as Hr. fold r in Hr. clearbody r. intros c.
  assert (forall i x, admit_market r universe now i = Some x -> ce_market_id x = i) as Hkey.
  { intros i x (m & d & Hm & _ & _ & _ & ->)%admit_spec. unfold get_market in Hm. by apply (ro_keyed _ Hr) in Hm as [Hm _]. }
  assert (NoDup (ce_market_id <$> sc_entries c)) as Hd.
  { unfold c. cbn. pose proof (ro_nodup _ Hr) as Hn. induction (rg_active r) as [|i l IH]; [constructor|]. apply NoDup_cons in Hn as [Hi Hn].
    simpl. destruct (admit_market r universe now i) as [x|] eqn:E; [|by apply IH]. rewrite fmap_cons. apply NoDup_cons. split; [|by apply IH].
    apply Hkey in E. rewrite E. intros Hin. apply Hi. apply list_elem_of_fmap in Hin as (y & -> & Hy). apply list_elem_of_omap in Hy as (j & Hj & Hy).
    by rewrite (Hkey _ _ Hy). }
  split_and!; [done | |].
  - unfold cache_get, c. cbn. rewrite index_of_entries by exact Hd. rewrite lookup_empty. fold (sc_entries c).
    change (omap (admit_market r universe now) (rg_active r)) with (sc_entries c). split.
    + destruct (List.find _ _) as [x|] eqn:E; [|done]. intros [= <-]. apply List.find_some in E as [Hx Hb]. split; [by apply list_elem_of_In | by apply bool_decide_eq_true in Hb].
    + intros [Hin He]. destruct (List.find _ _) as [x|] eqn:E.
      * apply List.find_some in E as [Hx Hb]. apply bool_decide_eq_true in Hb. f_equal. apply list_elem_of_In in Hx.
        apply list_elem_of_lookup in Hin as [a Ha], Hx as [b Hb']. assert (a = b) as ->; [|congruence].
        eapply NoDup_lookup; [exact Hd | rewrite list_lookup_fmap, Ha; done | rewrite list_lookup_fmap, Hb'; simpl; congruence].
      * apply list_elem_of_In in Hin. eapply List.find_none in E; [|exact Hin]. simpl in E. by apply bool_decide_eq_false in E.
  - unfold c. cbn. rewrite list_elem_of_omap. split.
    + intros (i & Hi & E). pose proof (Hkey _ _ E) as Hk. apply admit_spec in E as (m & d & Hm & Hu & He & Hd' & ->). apply (ro_active _ Hr) in Hi as (m' & Hm' & Hs).
      exists m, d. assert (m' = m) as -> by (unfold get_market in Hm; congruence). rewrite Hk. done.
    + intros (m & d & Hm & Hs & Hu & He & Hd' & ->). exists (ce_market_id (scan_entry m)). split; [apply (ro_active _ Hr); by exists m|].
      apply admit_spec. by exists m, d.
Qed.
End Markets.
