(* ===== verification/Catalog.v ===== *)
(** * The market catalog: [oxide-arb-api/src/gamma], [oxide-arb-core/src/service]

    Normalisation of the venue's catalog, the synchronisation service that keeps registry, scan
    cache, fee schedules, market table and websocket subscriptions up to date, and the selection of
    the subscribed tokens.  HTTP, JSON decoding, number and time parsing are an interface; metrics,
    log lines, the token intern pool and the history of market rows are left out. *)

From Stdlib Require Import Ascii String.
From stdpp Require Import sorting.
From S2P Require Import Prelude Decimal Config Domain Fees Positions Text Markets.

(** ** Wire format *)

Section Wire.
Context {DO : DecimalOps}.

(** [api/gamma/wire.rs:60-67] `GammaEndDate` *)
Record GammaEndDate := { ge_timestamp : option string; ge_date_only : option string }.

(** [api/gamma/wire.rs:94-102] `WireTag` *)
Record WireTag := { wt_label : option string; wt_slug : option string }.

(** [api/gamma/wire.rs:204-216] `WireFeeSchedule` *)
Record WireFeeSchedule := {
  wf_exponent : option D;
  wf_rate : option D;
  wf_taker_only : option bool;
  wf_rebate_rate : option D
}.

(** [api/gamma/wire.rs:104-127] `WireEvent`; a market that is fetched alone carries its events *)
Inductive WireEvent := mk_wire_event {
  we_id : string;
  we_title : option string;
  we_slug : option string;
  we_end_date : GammaEndDate;
  we_neg_risk : option bool;
  we_closed : option bool;
  we_active : option bool;
  we_tags : option (list WireTag);
  we_markets : option (list WireMarket);
  we_created_at : option string;
  we_updated_at : option string
}
with WireMarket := mk_wire_market {
  wm_condition_id : string;
  wm_question : string;
  wm_slug : option string;
  wm_clob_token_ids : list string;
  wm_outcomes : list string;
  wm_neg_risk : option bool;
  wm_active : option bool;
  wm_closed : option bool;
  wm_outcome_prices : list string;
  wm_uma_resolution_status : option string;
  wm_closed_time : option string;
  wm_end_date : GammaEndDate;
  wm_fees_enabled : option bool;
  wm_fee_schedule : option WireFeeSchedule;
  wm_order_min_size : option D;
  wm_order_price_min_tick_size : option D;
  wm_events : option (list WireEvent);
  wm_created_at : option string;
  wm_updated_at : option string
}.

(** [api/gamma/wire.rs:86-92] `KeysetEventsPage` *)
Record KeysetEventsPage := { kp_events : list WireEvent; kp_next_cursor : option string }.

(** [error/api.rs:7-43] `ApiError` *)
Inductive ApiError :=
| ApiHttp (method url : string) (status : Z) (body : string) (retryable : bool)
| ApiRateLimited (retry_after_ms : Z) (bucket : string)
| ApiGamma (endpoint : string) (status : Z) (body : string)
| ApiClob (endpoint code message : string) (retryable : bool)
| ApiDeserialize (context detail : string)
| ApiTimeout (operation : string) (elapsed_ms : Z)
| ApiSdk (message : string).

(** The parsers of third-party types the code calls: [Decimal::from_str], RFC 3339 and the
    Postgres-style format of [closedTime]. *)
Class GammaText := {
  parse_decimal : string -> option D;
  parse_rfc3339 : string -> option Time;
  parse_pg_time : string -> option Time
}.
End Wire.

(** ** Normalisation *)

Section Normalise.
Context {DO : DecimalOps} {CH : Chrono} {GT : GammaText}.

(** [api/gamma/wire.rs:78-84] `parse_gamma_timestamp` *)
Definition parse_wire_timestamp (raw : string) : option Time :=
  let trimmed := trim raw in if str_is_empty trimmed then None else parse_rfc3339 trimmed.

(** [api/gamma/wire.rs:69-76] `GammaEndDate::parse` *)
Definition end_date_parse (d : GammaEndDate) : option Time :=
  match (match ge_timestamp d with Some t => Some t | None => ge_date_only d end) with
  | Some raw => parse_wire_timestamp raw
  | None => None
  end.

(** [api/gamma/wire.rs:135-147] `WireEvent::tag_slugs` *)
Definition tag_slugs (e : WireEvent) : list string :=
  List.filter (fun s => negb (str_is_empty s)) (trim <$> omap wt_slug (unwrap_or (we_tags e) [])).

(** [api/gamma/catalog.rs:283-290] `parse_gamma_timestamp` *)
Definition parse_gamma_timestamp (raw : option string) : option Time :=
  match trim <$> raw with
  | None => None
  | Some trimmed =>
      if str_is_empty trimmed then None
      else match parse_rfc3339 trimmed with Some t => Some t | None => parse_pg_time trimmed end
  end.

(** [api/gamma/catalog.rs:14-18] `CatalogToken` *)
Record CatalogToken := { ct_token_id : string; ct_outcome : string }.

(** [api/gamma/catalog.rs:21-27] `CatalogSettlement` *)
Record CatalogSettlement := { cs_winning_token_id : string; cs_winning_outcome : string }.

(** [api/gamma/catalog.rs:34-55] `CatalogMarket` *)
Record CatalogMarket := {
  cm_condition_id : string;
  cm_question : string;
  cm_slug : option string;
  cm_token_0 : CatalogToken;
  cm_token_1 : CatalogToken;
  cm_status : MarketStatus;
  cm_neg_risk : bool;
  cm_settlement : option CatalogSettlement;
  cm_resolved_at : option Time;
  cm_end_date : option Time;
  cm_fees_enabled : bool;
  cm_fee_schedule : option WireFeeSchedule;
  cm_min_order_size : D;
  cm_tick_size : TickSize;
  cm_created_at : option Time;
  cm_updated_at : option Time
}.

(** [api/gamma/catalog.rs:88-96] `CatalogMarketReject` *)
Inductive CatalogMarketReject := EmptyConditionId | MissingClobTokenIds | NotBinary (token_count : nat).

(** [api/gamma/catalog.rs:80-85] `RejectedMarket` *)
Record RejectedMarket := { rj_condition_id : string; rj_reject : CatalogMarketReject }.

(** [api/gamma/catalog.rs:58-77] `CatalogEvent`, without the raw payload kept for audit *)
Record CatalogEvent := {
  cv_id : string;
  cv_title : string;
  cv_slug : string;
  cv_status : EventStatus;
  cv_tags : list string;
  cv_categories : CategorySet;
  cv_neg_risk : bool;
  cv_end_date : option Time;
  cv_markets : list CatalogMarket;
  cv_rejected : list RejectedMarket;
  cv_created_at : option Time;
  cv_updated_at : option Time
}.

(** [api/gamma/catalog.rs:257-266] `zip_tokens` *)
Definition zip_tokens (yes_id no_id : string) (outcomes : list string) : CatalogToken * CatalogToken :=
  let leg (i : nat) token fallback := {| ct_token_id := token; ct_outcome := unwrap_or (outcomes !! i) fallback |} in
  (leg 0%nat yes_id "Yes", leg 1%nat no_id "No").

(** [api/gamma/catalog.rs:268-276] `market_status_from_wire` *)
Definition market_status_from_wire (closed active : bool) : MarketStatus :=
  if closed then MsSettled else if active then MsActive else MsPaused.

(** The price of a leg is exactly one. *)
Definition is_winning_price (raw : string) : bool :=
  match parse_decimal (trim raw) with Some price => deqb price d1 | None => false end.

(** [api/gamma/catalog.rs:225-255] `derive_settlement` *)
Definition derive_settlement (w : WireMarket) (tokens : CatalogToken * CatalogToken) : option CatalogSettlement :=
  if negb (unwrap_or (wm_closed w) false) then None
  else
    let uma_resolved := match wm_uma_resolution_status w with Some s => eq_ignore_ascii_case (trim s) "resolved" | None => false end in
    if negb uma_resolved then None
    else
      match wm_outcome_prices w with
      | [p0; p1] =>
          let settled (t : CatalogToken) := Some {| cs_winning_token_id := ct_token_id t; cs_winning_outcome := ct_outcome t |} in
          match is_winning_price p0, is_winning_price p1 with
          | true, false => settled tokens.1
          | false, true => settled tokens.2
          | _, _ => None
          end
      | _ => None
      end.

(** [api/gamma/catalog.rs:166-216] `CatalogMarket::try_from` *)
Definition catalog_market (w : WireMarket) : Result CatalogMarket CatalogMarketReject :=
  if str_is_empty (trim (wm_condition_id w)) then Err EmptyConditionId
  else match wm_clob_token_ids w with
  | [] => Err MissingClobTokenIds
  | [yes_id; no_id] =>
      let tokens := zip_tokens yes_id no_id (wm_outcomes w) in
      let tick_size := match wm_order_price_min_tick_size w with
        | Some d => match tick_from_decimal d with Ok t => t | Err _ => Hundredth end
        | None => Hundredth end in
      let closed := unwrap_or (wm_closed w) false in
      let status := market_status_from_wire closed (unwrap_or (wm_active w) true) in
      Ok {| cm_condition_id := wm_condition_id w; cm_question := wm_question w; cm_slug := wm_slug w;
            cm_token_0 := tokens.1; cm_token_1 := tokens.2; cm_status := status; cm_neg_risk := unwrap_or (wm_neg_risk w) false;
            cm_settlement := derive_settlement w tokens;
            cm_resolved_at := if bool_decide (status = MsSettled) then parse_gamma_timestamp (wm_closed_time w) else None;
            cm_end_date := end_date_parse (wm_end_date w); cm_fees_enabled := unwrap_or (wm_fees_enabled w) true;
            cm_fee_schedule := wm_fee_schedule w; cm_min_order_size := unwrap_or (wm_order_min_size w) d1;
            cm_tick_size := tick_size; cm_created_at := parse_gamma_timestamp (wm_created_at w);
            cm_updated_at := parse_gamma_timestamp (wm_updated_at w) |}
  | ids => Err (NotBinary (length ids))
  end.

(** The markets of an event that survive, and those that do not, in order. *)
Definition sort_out (markets : list WireMarket) : list CatalogMarket * list RejectedMarket :=
  foldl (fun acc w => match catalog_market w with
                      | Ok row => (acc.1 ++ [row], acc.2)
                      | Err reject => (acc.1, acc.2 ++ [{| rj_condition_id := wm_condition_id w; rj_reject := reject |}])
                      end) ([], []) markets.

(** [api/gamma/catalog.rs:110-164] `CatalogEvent::from` *)
Definition catalog_event (w : WireEvent) : CatalogEvent :=
  let tags := tag_slugs w in
  let sorted := sort_out (unwrap_or (we_markets w) []) in {|
    cv_id := we_id w; cv_title := unwrap_or (we_title w) ""; cv_slug := unwrap_or (we_slug w) "";
    cv_status := if unwrap_or (we_closed w) false then EvClosed else EvActive;
    cv_tags := tags; cv_categories := from_slugs tags; cv_neg_risk := unwrap_or (we_neg_risk w) false;
    cv_end_date := end_date_parse (we_end_date w); cv_markets := sorted.1; cv_rejected := sorted.2;
    cv_created_at := parse_gamma_timestamp (we_created_at w); cv_updated_at := parse_gamma_timestamp (we_updated_at w) |}.

(** [api/gamma/mapper.rs:204-220] `CatalogMarket::fee_schedule_with_observed_at`; [now] is read when
    no observation time is given *)
Definition fee_schedule_with_observed_at (m : CatalogMarket) (observed_at : option Time) (now : Time) : option MarketFeeSchedule :=
  match cm_fee_schedule m with
  | None => None
  | Some fee =>
      match wf_rate fee, wf_exponent fee with
      | Some rate, Some exponent => Some {|
          fs_market_id := cm_condition_id m; fees_enabled := cm_fees_enabled m; fs_fee_rate := rate; fs_exponent := exponent;
          taker_only := unwrap_or (wf_taker_only fee) true; rebate_rate := wf_rebate_rate fee; fs_source := GammaFeeSchedule;
          fs_observed_at := unwrap_or observed_at now |}
      | _, _ => None
      end
  end.

(** [api/gamma/mapper.rs:223-230] `token_infos` *)
Definition token_infos (m : CatalogMarket) : TokenInfo * TokenInfo :=
  let leg (t : CatalogToken) := {| tk_token_id := ct_token_id t; tk_outcome := ct_outcome t; tk_neg_risk := cm_neg_risk m |} in
  (leg (cm_token_0 m), leg (cm_token_1 m)).

(** [api/gamma/mapper.rs:118-193] `CatalogMarket::into_upsert_and_registry` *)
Definition into_upsert_and_registry (m : CatalogMarket) (event_id : EventId) (categories : CategorySet) (now : Time)
    : UpsertMarket * MarketRegistryInfo :=
  let '(a, b) := token_infos m in
  let '(yes, no) := resolve_binary_pair_exact a b in
  let status := cm_status m in
  let created := unwrap_or (cm_created_at m) now in
  let updated := unwrap_or (cm_updated_at m) now in
  let fee_schedule := fee_schedule_with_observed_at m (Some updated) now in
  let outcome := cs_winning_outcome <$> cm_settlement m in
  let resolved_at := if bool_decide (status = MsSettled) then Some (unwrap_or (cm_resolved_at m) updated) else None in
  ({| um_market_id := cm_condition_id m; um_event_id := event_id; um_question := cm_question m; um_slug := unwrap_or (cm_slug m) "";
      um_categories := categories; um_status := status; um_outcome := outcome; um_yes_token_id := yes; um_no_token_id := no;
      um_tick_size := cm_tick_size m; um_neg_risk := cm_neg_risk m; um_end_date := cm_end_date m; um_resolved_at := resolved_at;
      um_fees_enabled := match fee_schedule with None => true | Some s => fees_enabled s end;
      um_fee_rate := fs_fee_rate <$> fee_schedule; um_fee_exponent := fs_exponent <$> fee_schedule;
      um_fee_taker_only := taker_only <$> fee_schedule; um_fee_rebate_rate := fee_schedule ≫= rebate_rate;
      um_fee_source := (fun s => fee_source_str (fs_source s)) <$> fee_schedule; um_fee_observed_at := fs_observed_at <$> fee_schedule |},
   {| mk_market_id := cm_condition_id m; mk_event_id := event_id; mk_token_yes := yes; mk_token_no := no;
      mk_question := cm_question m; mk_slug := unwrap_or (cm_slug m) ""; mk_categories := categories; mk_status := status;
      mk_outcome := outcome; mk_neg_risk := cm_neg_risk m; mk_tick_size := cm_tick_size m; mk_tokens := [a; b];
      mk_best_bid := None; mk_best_ask := None; mk_depth_usd := None; mk_min_order_size := cm_min_order_size m; mk_volume_24h := d0;
      mk_fee_schedule := fee_schedule; mk_end_date := cm_end_date m; mk_resolved_at := resolved_at; mk_created_at := created;
      mk_updated_at := updated |}).

(** [api/gamma/mapper.rs:195-202] `CatalogMarket::into_registry_info` *)
Definition into_registry_info (m : CatalogMarket) (event_id : EventId) (categories : CategorySet) (now : Time) : MarketRegistryInfo :=
  (into_upsert_and_registry m event_id categories now).2.

(** [api/gamma/mapper.rs:77-95] `CatalogEvent::to_registry_info` *)
Definition event_registry_info (e : CatalogEvent) (now : Time) : EventRegistryInfo := {|
  er_event_id := cv_id e; er_title := cv_title e; er_slug := cv_slug e; er_market_ids := cm_condition_id <$> cv_markets e;
  er_categories := cv_categories e; er_tags := cv_tags e; er_neg_risk := cv_neg_risk e;
  er_created_at := unwrap_or (cv_created_at e) now; er_updated_at := unwrap_or (cv_updated_at e) now |}.

(** [models/domain/market/registry.rs:454-464] `UpsertEvent`, without the raw payload *)
Record UpsertEvent := {
  ue_event_id : EventId;
  ue_title : string;
  ue_slug : string;
  ue_status : EventStatus;
  ue_tags : list string;
  ue_neg_risk : bool;
  ue_end_date : option Time
}.

(** [api/gamma/mapper.rs:97-109] `CatalogEvent::to_upsert_event` *)
Definition event_upsert (e : CatalogEvent) : UpsertEvent := {|
  ue_event_id := cv_id e; ue_title := cv_title e; ue_slug := cv_slug e; ue_status := cv_status e; ue_tags := cv_tags e;
  ue_neg_risk := cv_neg_risk e; ue_end_date := cv_end_date e |}.

(** [api/gamma/mapper.rs:23-31] `GammaCatalogBatch` *)
Record GammaCatalogBatch := {
  gb_events : list UpsertEvent;
  gb_markets : list UpsertMarket;
  gb_registry_events : list EventRegistryInfo;
  gb_registry_markets : list MarketRegistryInfo;
  gb_fee_data : list MarketFeeSchedule;
  gb_rejected : list RejectedMarket
}.

(** [api/gamma/mapper.rs:33-75] `GammaCatalogBatch::from` *)
Definition catalog_batch (events : list CatalogEvent) (now : Time) : GammaCatalogBatch :=
  let rows := events ≫= (fun e => (fun m => into_upsert_and_registry m (cv_id e) (cv_categories e) now) <$> cv_markets e) in {|
    gb_events := event_upsert <$> events; gb_markets := rows.*1;
    gb_registry_events := (fun e => event_registry_info e now) <$> events; gb_registry_markets := rows.*2;
    gb_fee_data := events ≫= (fun e => omap (fun m => fee_schedule_with_observed_at m (cm_updated_at m) now) (cv_markets e));
    gb_rejected := events ≫= cv_rejected |}.

(** ** Normalisation: facts *)

(** The venue's catalog settles a market only when it is closed, its resolution is final, and
    exactly one of its two prices is one; the winner is the token with that price. *)
Theorem settlement_exact w tokens s : derive_settlement w tokens = Some s <->
  wm_closed w = Some true /\
  (exists u, wm_uma_resolution_status w = Some u /\ eq_ignore_ascii_case (trim u) "resolved" = true) /\
  exists p0 p1 winner, wm_outcome_prices w = [p0; p1] /\
    s = {| cs_winning_token_id := ct_token_id winner; cs_winning_outcome := ct_outcome winner |} /\
    ((is_winning_price p0 = true /\ is_winning_price p1 = false /\ winner = tokens.1) \/
     (is_winning_price p0 = false /\ is_winning_price p1 = true /\ winner = tokens.2)).
Proof.
  unfold derive_settlement. split.
  - destruct (wm_closed w) as [[]|]; [|done..]. simpl. destruct (wm_uma_resolution_status w) as [u|]; [|done].
    destruct (eq_ignore_ascii_case (trim u) "resolved") eqn:Hu; [|done]. simpl.
    destruct (wm_outcome_prices w) as [|p0 [|p1 [|]]]; try done.
    destruct (is_winning_price p0) eqn:H0, (is_winning_price p1) eqn:H1; try done; intros [= <-];
      (split; [done|]; split; [by exists u|]; exists p0, p1); [exists tokens.1 | exists tokens.2]; split_and!; auto.
  - intros (-> & (u & -> & Hu) & p0 & p1 & winner & -> & -> & [(H0 & H1 & ->)|(H0 & H1 & ->)]); cbn; by rewrite Hu, H0, H1.
Qed.

(** The rows a market is stored as and registered as agree: the registry row converts to the
    stored one, and resolves to the pair both carry. *)
Lemma rows_agree m event_id categories now :
  let '(u, r) := into_upsert_and_registry m event_id categories now in
  upsert_of_registry r = Ok u /\ resolve_token_pair r = Ok r /\ um_market_id u = mk_market_id r /\
  (forall s, mk_fee_schedule r = Some s -> fs_market_id s = mk_market_id r).
Proof.
  unfold into_upsert_and_registry. destruct (token_infos m) as [a b]. destruct (resolve_binary_pair_exact a b) as [yes no] eqn:E.
  cbn. unfold upsert_of_registry, resolve_token_pair, resolve_binary_pair. cbn -[resolve_binary_pair_exact]. rewrite E.
  split_and!; try done. intros s. unfold fee_schedule_with_observed_at. destruct (cm_fee_schedule m) as [f|]; [|done].
  destruct (wf_rate f), (wf_exponent f); try done. by intros [= <-].
Qed.

Lemma yes_is_not_no s : eq_ignore_ascii_case s "yes" && eq_ignore_ascii_case s "no" = false.
Proof.
  unfold eq_ignore_ascii_case. destruct (String.eqb_spec (to_ascii_lowercase s) (to_ascii_lowercase "yes")) as [->|]; [done|]. done.
Qed.

(** The pair of a market is made of its two tokens, in one order or the other. *)
Lemma pair_members a b yes no : resolve_binary_pair_exact a b = (yes, no) ->
  (yes = tk_token_id a /\ no = tk_token_id b) \/ (yes = tk_token_id b /\ no = tk_token_id a).
Proof.
  unfold resolve_binary_pair_exact. cbn [List.find]. pose proof (yes_is_not_no (tk_outcome a)) as Na. pose proof (yes_is_not_no (tk_outcome b)) as Nb.
  destruct (eq_ignore_ascii_case (tk_outcome a) "yes"), (eq_ignore_ascii_case (tk_outcome b) "yes"), (eq_ignore_ascii_case (tk_outcome a) "no"),
    (eq_ignore_ascii_case (tk_outcome b) "no"); try done; intros [= <- <-]; auto.
Qed.

(** A market the venue settles is settled on one of the two tokens it is registered with. *)
Theorem settled_token_is_registered w m s event_id categories now :
  catalog_market w = Ok m -> cm_settlement m = Some s ->
  let r := into_registry_info m event_id categories now in
  mk_status r = MsSettled /\ is_Some (mk_resolved_at r) /\ mk_outcome r = Some (cs_winning_outcome s) /\
  (cs_winning_token_id s = mk_token_yes r \/ cs_winning_token_id s = mk_token_no r).
Proof.
  intros Hm Hs. assert (cm_status m = MsSettled /\ (cs_winning_token_id s = ct_token_id (cm_token_0 m) \/ cs_winning_token_id s = ct_token_id (cm_token_1 m))) as [Hst Hw].
  { unfold catalog_market in Hm. destruct (str_is_empty _); [done|]. destruct (wm_clob_token_ids w) as [|a [|b [|]]]; try done.
    injection Hm as <-. cbn [cm_settlement] in Hs. apply settlement_exact in Hs as (Hc & _ & p0 & p1 & winner & _ & -> & Hw).
    cbn [cm_status cm_token_0 cm_token_1]. rewrite Hc. split; [done|]. destruct Hw as [(_ & _ & ->)|(_ & _ & ->)]; auto. }
  unfold into_registry_info, into_upsert_and_registry, token_infos.
  match goal with |- context [resolve_binary_pair_exact ?x ?y] => destruct (resolve_binary_pair_exact x y) as [yes no] eqn:E end.
  apply pair_members in E. cbn [tk_token_id] in E. cbn [snd mk_status mk_resolved_at mk_outcome mk_token_yes mk_token_no]. rewrite Hs, Hst.
  split_and!; [done | by eexists | done |]. naive_solver congruence.
Qed.

(** [api/gamma/resolution.rs:15-26] `GammaResolution` *)
Record GammaResolution := {
  gr_resolved : bool;
  gr_winning_token_id : option TokenId;
  gr_winning_outcome : option string;
  gr_resolved_at : option Time
}.
End Normalise.

(** ** Lifecycle and hot set *)

Section Hotset.
Context {DO : DecimalOps} {CH : Chrono}.

(** [core/service/catalog_lifecycle.rs:37-51] `apply_past_deadline_lifecycle` *)
Definition apply_past_deadline_lifecycle (m : MarketRegistryInfo) (now : Time) : MarketRegistryInfo * bool :=
  if negb (is_active m) then (m, false)
  else match mk_end_date m with
       | None => (m, false)
       | Some end_date => if now <? end_date then (m, false) else (set_status m MsPaused, true)
       end.

Definition upsert_status (u : UpsertMarket) (s : MarketStatus) : UpsertMarket := {|
  um_market_id := um_market_id u; um_event_id := um_event_id u; um_question := um_question u; um_slug := um_slug u;
  um_categories := um_categories u; um_status := s; um_outcome := um_outcome u; um_yes_token_id := um_yes_token_id u;
  um_no_token_id := um_no_token_id u; um_tick_size := um_tick_size u; um_neg_risk := um_neg_risk u; um_end_date := um_end_date u;
  um_resolved_at := um_resolved_at u; um_fees_enabled := um_fees_enabled u; um_fee_rate := um_fee_rate u;
  um_fee_exponent := um_fee_exponent u; um_fee_taker_only := um_fee_taker_only u; um_fee_rebate_rate := um_fee_rebate_rate u;
  um_fee_source := um_fee_source u; um_fee_observed_at := um_fee_observed_at u |}.

(** [core/service/catalog_lifecycle.rs:54-80] `apply_past_deadline_to_sync_batch` *)
Definition apply_past_deadline_to_sync_batch (markets : list MarketRegistryInfo) (upserts : list UpsertMarket) (now : Time)
    : list MarketRegistryInfo * list UpsertMarket * Z :=
  let out := (fun m => apply_past_deadline_lifecycle m now) <$> markets in
  let paused := Z.of_nat (length (List.filter snd out)) in
  if paused =? 0 then (out.*1, upserts, 0)
  else
    let status_by_id := foldl (fun ix m => <[mk_market_id m := mk_status m]> ix) (∅ : gmap MarketId MarketStatus) out.*1 in
    (out.*1, (fun u => match status_by_id !! um_market_id u with Some s => upsert_status u s | None => u end) <$> upserts, paused).

(** [core/service/ws_subscription.rs:25-30] `HotsetCandidateKind` *)
Inductive HotsetCandidateKind := PastDeadline | FutureDetect | FuturePrewarm | NoEndDate.

(** [core/service/ws_subscription.rs:45-53] `HotsetSelectionStats` *)
Record HotsetSelectionStats := {
  candidates_past_deadline : Z;
  candidates_future_detect : Z;
  candidates_future_prewarm : Z;
  candidates_no_end_date : Z;
  selected_future_detect : Z;
  selected_future_prewarm : Z;
  selected_tokens : Z
}.

Definition no_stats : HotsetSelectionStats := {|
  candidates_past_deadline := 0; candidates_future_detect := 0; candidates_future_prewarm := 0; candidates_no_end_date := 0;
  selected_future_detect := 0; selected_future_prewarm := 0; selected_tokens := 0 |}.

(** [core/service/ws_subscription.rs:56-63] `HotsetSelectionStats::record_candidate` *)
Definition record_candidate (s : HotsetSelectionStats) (k : HotsetCandidateKind) : HotsetSelectionStats :=
  let up b n := if b : bool then n + 1 else n in {|
  candidates_past_deadline := up (match k with PastDeadline => true | _ => false end) (candidates_past_deadline s);
  candidates_future_detect := up (match k with FutureDetect => true | _ => false end) (candidates_future_detect s);
  candidates_future_prewarm := up (match k with FuturePrewarm => true | _ => false end) (candidates_future_prewarm s);
  candidates_no_end_date := up (match k with NoEndDate => true | _ => false end) (candidates_no_end_date s);
  selected_future_detect := selected_future_detect s; selected_future_prewarm := selected_future_prewarm s;
  selected_tokens := selected_tokens s |}.

(** [core/service/ws_subscription.rs:65-72] `HotsetSelectionStats::record_selected` *)
Definition record_selected (s : HotsetSelectionStats) (k : HotsetCandidateKind) (token_pairs : Z) : HotsetSelectionStats := {|
  candidates_past_deadline := candidates_past_deadline s; candidates_future_detect := candidates_future_detect s;
  candidates_future_prewarm := candidates_future_prewarm s; candidates_no_end_date := candidates_no_end_date s;
  selected_future_detect := match k with FutureDetect => selected_future_detect s + token_pairs | _ => selected_future_detect s end;
  selected_future_prewarm := match k with FuturePrewarm => selected_future_prewarm s + token_pairs | _ => selected_future_prewarm s end;
  selected_tokens := selected_tokens s + sat_u64 (token_pairs * 2) |}.

(** [core/service/ws_subscription.rs:142-147] `MarketDataSubscriptionPolicy` *)
Record MarketDataSubscriptionPolicy := { max_subscription_tokens : nat; endgame_window_hours : Z }.

(** [core/service/ws_subscription.rs:154-157] `Candidate` *)
Record Candidate := { cd_market : MarketRegistryInfo; cd_rank_ms : Z }.

(** [now + Duration::hours(h)] with [h] clamped to an [i64]. *)
Definition hours_from (now : Time) (hours : Z) : Time := time_add now (duration_seconds (unwrap_or (to_i64 hours) i64_max * 3600)).

(** [core/service/ws_subscription.rs:292-321] `MarketDataSubscriptionPolicy::partition_candidates`, one market *)
Definition classify_candidate (m : MarketRegistryInfo) (universe : CategorySet) (now prewarm_cutoff detect_cutoff : Time) : option (HotsetCandidateKind * Candidate) :=
  let candidate rank := {| cd_market := m; cd_rank_ms := rank |} in
  if negb (is_active m) || negb (universe_enabled universe (mk_categories m)) then None
  else match mk_end_date m with
  | None => Some (NoEndDate, candidate 0)
  | Some end_date =>
      if end_date <=? now then Some (PastDeadline, candidate 0)
      else if prewarm_cutoff <? end_date then None
      else
        let rank_ms := (end_date - now) ÷ 1000000 in
        if end_date <=? detect_cutoff then Some (FutureDetect, candidate rank_ms) else Some (FuturePrewarm, candidate rank_ms)
  end.

(** [core/service/ws_subscription.rs:277-324] `MarketDataSubscriptionPolicy::partition_candidates` *)
Definition partition_candidates (p : MarketDataSubscriptionPolicy) (r : MarketRegistry) (universe : CategorySet) (now : Time) (detection_window_hours : Z)
    : list Candidate * list Candidate * HotsetSelectionStats :=
  let prewarm_cutoff := hours_from now (endgame_window_hours p) in
  let detect_cutoff := hours_from now detection_window_hours in
  let found := omap (fun id => match get_market r id with Some m => classify_candidate m universe now prewarm_cutoff detect_cutoff | None => None end) (rg_active r) in
  (omap (fun kc => match kc.1 with FutureDetect => Some kc.2 | _ => None end) found,
   omap (fun kc => match kc.1 with FuturePrewarm => Some kc.2 | _ => None end) found,
   foldl (fun s kc => record_candidate s kc.1) no_stats found).

Definition string_le (a b : string) : Prop := (a ≤ b)%string.
#[export] Instance string_le_dec a b : Decision (string_le a b).
Proof. unfold string_le. apply _. Defined.

(** The order of the candidates: rank, then market id. *)
Definition candidate_le (a b : Candidate) : Prop :=
  cd_rank_ms a < cd_rank_ms b \/ (cd_rank_ms a = cd_rank_ms b /\ string_le (mk_market_id (cd_market a)) (mk_market_id (cd_market b))).
#[export] Instance candidate_le_dec a b : Decision (candidate_le a b).
Proof. unfold candidate_le. apply _. Defined.

(** The loop of [append_tier], up to the first candidate that does not fit. *)
Fixpoint take_tier (tokens : list TokenId) (candidates : list Candidate) (token_budget : nat) (kind : HotsetCandidateKind) (stats : HotsetSelectionStats)
    : list TokenId * HotsetSelectionStats :=
  match candidates with
  | [] => (tokens, stats)
  | c :: rest =>
      if (token_budget <? length tokens + 2)%nat then (tokens, stats)
      else take_tier (tokens ++ [mk_token_yes (cd_market c); mk_token_no (cd_market c)]) rest token_budget kind (record_selected stats kind 1)
  end.

(** [core/service/ws_subscription.rs:248-275] `MarketDataSubscriptionPolicy::append_tier` *)
Definition append_tier (tokens : list TokenId) (candidates : list Candidate) (token_budget : nat) (kind : HotsetCandidateKind) (stats : HotsetSelectionStats)
    : list TokenId * HotsetSelectionStats :=
  if (token_budget =? 0)%nat then (tokens, stats) else take_tier tokens (merge_sort candidate_le candidates) token_budget kind stats.

(** [dedup_by]: drops an element equal to the one kept before it. *)
Fixpoint dedup (l : list TokenId) : list TokenId :=
  match l with
  | a :: (b :: _) as rest => if bool_decide (a = b) then dedup rest else a :: dedup rest
  | _ => l
  end.

(** [core/service/ws_subscription.rs:211-246] `MarketDataSubscriptionPolicy::select_tokens_with_stats` *)
Definition select_tokens_with_stats (p : MarketDataSubscriptionPolicy) (r : MarketRegistry) (universe : CategorySet) (now : Time) (detection_window_hours : Z)
    : list TokenId * HotsetSelectionStats :=
  let '(tier1, tier2, stats) := partition_candidates p r universe now detection_window_hours in
  let tier1_budget := (max_subscription_tokens p * 80 / 100)%nat in
  let '(tokens, stats) := append_tier [] tier1 tier1_budget FutureDetect stats in
  let remaining := (max_subscription_tokens p - length tokens)%nat in
  let '(tokens, stats) := append_tier tokens tier2 remaining FuturePrewarm stats in
  (dedup (merge_sort string_le tokens), stats).

(** ** The hot set: facts *)

Definition pair_tokens (cs : list Candidate) : list TokenId := cs ≫= (fun c => [mk_token_yes (cd_market c); mk_token_no (cd_market c)]).

Lemma pair_tokens_length cs : length (pair_tokens cs) = (2 * length cs)%nat.
Proof. induction cs as [|c cs IH]; [done|]. change (length (pair_tokens (c :: cs))) with (S (S (length (pair_tokens cs)))). rewrite IH. simpl. lia. Qed.

(** The loop takes a prefix that fits, and stops only where the next pair would not. *)
Lemma take_tier_spec k budget cs : forall tokens st, exists n,
  (take_tier tokens cs budget k st).1 = tokens ++ pair_tokens (take n cs) /\ (n <= length cs)%nat /\
  (length (tokens ++ pair_tokens (take n cs)) <= Nat.max (length tokens) budget)%nat /\
  ((n < length cs)%nat -> (budget < length (tokens ++ pair_tokens (take n cs)) + 2)%nat) /\
  ((0 < n)%nat -> (length (tokens ++ pair_tokens (take n cs)) <= budget)%nat).
Proof.
  induction cs as [|c cs IH]; intros tokens st; simpl.
  - exists 0%nat. rewrite app_nil_r. split_and!; [done | lia | lia | lia | lia].
  - destruct (Nat.ltb_spec budget (length tokens + 2)).
    + exists 0%nat. simpl. rewrite app_nil_r. split_and!; [done | lia | lia | lia | lia].
    + destruct (IH (tokens ++ [mk_token_yes (cd_market c); mk_token_no (cd_market c)]) (record_selected st k 1)) as (n & H1 & H2 & H3 & H4 & H5).
      exists (S n). change (pair_tokens (take (S n) (c :: cs))) with ([mk_token_yes (cd_market c); mk_token_no (cd_market c)] ++ pair_tokens (take n cs)).
      rewrite app_assoc. set (step := tokens ++ [mk_token_yes (cd_market c); mk_token_no (cd_market c)]) in *.
      assert (length step = length tokens + 2)%nat as Hl by (unfold step; by rewrite length_app).
      split_and!; [done | lia | lia | intros; apply H4; lia |]. intros _. destruct n; [|apply H5; lia]. simpl. rewrite app_nil_r. lia.
Qed.

#[export] Instance string_le_trans : Transitive string_le.
Proof. unfold string_le. intros a b c. apply transitivity. Qed.
#[export] Instance string_le_total : Total string_le.
Proof. unfold string_le. intros a b. apply (total (≤)%string). Qed.
#[export] Instance candidate_le_trans : Transitive candidate_le.
Proof.
  intros a b c [H|[H H']] [G|[G G']]; unfold candidate_le; [left; lia | left; lia | left; lia |]. right. split; [lia|]. by etransitivity.
Qed.
#[export] Instance candidate_le_total : Total candidate_le.
Proof.
  intros a b. unfold candidate_le. destruct (Z.lt_trichotomy (cd_rank_ms a) (cd_rank_ms b)) as [H|[H|H]]; [left; by left | | right; by left].
  destruct (total string_le (mk_market_id (cd_market a)) (mk_market_id (cd_market b))); [left | right]; by right.
Qed.

Lemma string_le_antisym a b : string_le a b -> string_le b a -> a = b.
Proof. unfold string_le. apply (anti_symm (≤)%string). Qed.

Lemma elem_of_dedup l x : x ∈ dedup l <-> x ∈ l.
Proof.
  induction l as [|a l IH]; [done|]. destruct l as [|b l]; [done|]. cbn [dedup]. case_bool_decide as E.
  - subst. rewrite IH. set_solver.
  - rewrite !elem_of_cons, IH, elem_of_cons. done.
Qed.

Lemma dedup_length l : (length (dedup l) <= length l)%nat.
Proof. induction l as [|a l IH]; [done|]. destruct l as [|b l]; [done|]. cbn [dedup]. case_bool_decide; simpl in *; lia. Qed.

(** Sorted without duplicates. *)
Lemma dedup_sorted l : StronglySorted string_le l -> StronglySorted (fun a b => string_le a b /\ a <> b) (dedup l).
Proof.
  induction l as [|a l IH]; intros Hs; [constructor|]. apply StronglySorted_cons in Hs as [Ha Hs]. specialize (IH Hs).
  destruct l as [|b l]; [repeat constructor|]. cbn [dedup]. case_bool_decide as E; [done|].
  apply StronglySorted_cons. split; [|done]. apply Forall_forall. intros x Hx. rewrite Forall_forall in Ha.
  assert (x ∈ b :: l) as Hx' by (by apply elem_of_dedup). split; [by apply Ha|]. intros ->.
  apply StronglySorted_cons in Hs as [Hb _]. rewrite Forall_forall in Hb. apply elem_of_cons in Hx' as [|Hx']; [done|].
  apply E. apply string_le_antisym; [apply Ha; left | by apply Hb].
Qed.

Lemma append_tier_spec tokens cs budget k st : exists n,
  (append_tier tokens cs budget k st).1 = tokens ++ pair_tokens (take n (merge_sort candidate_le cs)) /\
  (length (append_tier tokens cs budget k st).1 <= Nat.max (length tokens) budget)%nat /\
  ((n < length cs)%nat -> (budget < length (append_tier tokens cs budget k st).1 + 2)%nat) /\
  ((0 < n)%nat -> (length (append_tier tokens cs budget k st).1 <= budget)%nat).
Proof.
  unfold append_tier. destruct (Nat.eqb_spec budget 0) as [->|Hb].
  - exists 0%nat. simpl. rewrite app_nil_r. split_and!; [done | lia | lia | lia].
  - destruct (take_tier_spec k budget (merge_sort candidate_le cs) tokens st) as (n & H1 & H2 & H3 & H4 & H5). exists n. rewrite H1.
    assert (length (merge_sort candidate_le cs) = length cs) as <- by (apply Permutation_length, merge_sort_Permutation). done.
Qed.

Lemma candidate_sound p r universe now window :
  let '(tier1, tier2, _) := partition_candidates p r universe now window in
  forall c, c ∈ tier1 \/ c ∈ tier2 -> exists id e, get_market r id = Some (cd_market c) /\ is_active (cd_market c) = true /\
    universe_enabled universe (mk_categories (cd_market c)) = true /\ mk_end_date (cd_market c) = Some e /\
    now < e <= hours_from now (endgame_window_hours p) /\ (c ∈ tier1 -> e <= hours_from now window) /\ cd_rank_ms c = (e - now) ÷ 1000000.
Proof.
  unfold partition_candidates. set (found := omap _ (rg_active r)).
  assert (forall k c, (k, c) ∈ found -> k = FutureDetect \/ k = FuturePrewarm -> exists id e, get_market r id = Some (cd_market c) /\ is_active (cd_market c) = true /\
    universe_enabled universe (mk_categories (cd_market c)) = true /\ mk_end_date (cd_market c) = Some e /\
    now < e <= hours_from now (endgame_window_hours p) /\ (k = FutureDetect <-> e <= hours_from now window) /\ cd_rank_ms c = (e - now) ÷ 1000000) as H.
  { intros k c Hin Hk. apply list_elem_of_omap in Hin as (id & _ & Hc). destruct (get_market r id) as [m|] eqn:Hm; [|done]. unfold classify_candidate in Hc.
    destruct (is_active m) eqn:Ha; [|done]. destruct (universe_enabled universe (mk_categories m)) eqn:Hu; [|done]. simpl in Hc.
    destruct (mk_end_date m) as [e|] eqn:He; [|injection Hc as <- _; by destruct Hk].
    destruct (Z.leb_spec e now); [injection Hc as <- _; by destruct Hk|]. destruct (Z.ltb_spec (hours_from now (endgame_window_hours p)) e); [done|].
    destruct (Z.leb_spec e (hours_from now window)); injection Hc as <- <-; exists id, e; cbn; split_and!; try done; try lia; split; try done; lia. }
  assert (forall k0 : HotsetCandidateKind, forall c, c ∈ omap (fun kc => match k0, kc.1 with FutureDetect, FutureDetect => Some kc.2 | FuturePrewarm, FuturePrewarm => Some kc.2 | _, _ => None end) found ->
     (k0, c) ∈ found) as Hom.
  { intros k0 c ((k & c') & Hin & E)%list_elem_of_omap. destruct k0, k; cbn in E; try discriminate E; by injection E as <-. }
  intros c Hc. assert (c ∈ omap (fun kc => match kc.1 with FutureDetect => Some kc.2 | _ => None end) found -> (FutureDetect, c) ∈ found) as H1 by apply (Hom FutureDetect).
  assert (c ∈ omap (fun kc => match kc.1 with FuturePrewarm => Some kc.2 | _ => None end) found -> (FuturePrewarm, c) ∈ found) as H2 by apply (Hom FuturePrewarm).
  destruct Hc as [Hc|Hc].
  - destruct (H _ _ (H1 Hc)) as (id & e & ? & ? & ? & ? & ? & Hd & ?); [by left|]. exists id, e. split_and!; try done; [lia..|]. intros _. by apply Hd.
  - destruct (H _ _ (H2 Hc)) as (id & e & ? & ? & ? & ? & ? & Hd & ?); [by right|]. exists id, e. split_and!; try done; [lia..|]. intros Hc1.
    destruct (H _ _ (H1 Hc1)) as (? & e' & _ & _ & _ & He' & _ & Hd' & _); [by left|]. assert (e' = e) as -> by congruence. by apply Hd'.
Qed.

(** The tokens of the websocket baseline never exceed the budget, are sorted without duplicates,
    and belong to active markets of the universe that end within the subscription window.  The
    markets in the detection window are taken nearest deadline first, up to four fifths of the
    budget; of the markets beyond it at most as many are taken as leave every market of the first
    tier counted twice. *)
Theorem hotset_sound p r universe now window :
  let tokens := (select_tokens_with_stats p r universe now window).1 in
  let '(tier1, tier2, _) := partition_candidates p r universe now window in
  (length tokens <= max_subscription_tokens p)%nat /\
  StronglySorted (fun a b => string_le a b /\ a <> b) tokens /\
  exists chosen1 chosen2,
    (forall t, t ∈ tokens <-> t ∈ pair_tokens (chosen1 ++ chosen2)) /\
    (forall c, c ∈ chosen1 ++ chosen2 -> exists id e, get_market r id = Some (cd_market c) /\ is_active (cd_market c) = true /\
       universe_enabled universe (mk_categories (cd_market c)) = true /\ mk_end_date (cd_market c) = Some e /\
       now < e <= hours_from now (endgame_window_hours p)) /\
    (exists rest1, chosen1 ++ rest1 ≡ₚ tier1 /\ (forall c c', c ∈ chosen1 -> c' ∈ rest1 -> candidate_le c c') /\
       (rest1 <> [] -> (max_subscription_tokens p * 80 / 100 < 2 * length chosen1 + 2)%nat)) /\
    (exists rest2, chosen2 ++ rest2 ≡ₚ tier2 /\ (forall c c', c ∈ chosen2 -> c' ∈ rest2 -> candidate_le c c')) /\
    (chosen2 <> [] -> (2 * (2 * length chosen1) + 2 * length chosen2 <= max_subscription_tokens p)%nat).
Proof.
  pose proof (candidate_sound p r universe now window) as Hsound. unfold select_tokens_with_stats.
  destruct (partition_candidates p r universe now window) as [[tier1 tier2] stats].
  set (B := max_subscription_tokens p). set (b1 := (B * 80 / 100)%nat).
  assert (b1 <= B)%nat as Hb1 by (unfold b1; apply Nat.Div0.div_le_upper_bound; lia).
  destruct (append_tier_spec [] tier1 b1 FutureDetect stats) as (n1 & E1 & L1 & F1 & _).
  destruct (append_tier [] tier1 b1 FutureDetect stats) as [tokens1 stats1]. cbn [fst app length] in *.
  destruct (append_tier_spec tokens1 tier2 (B - length tokens1) FuturePrewarm stats1) as (n2 & E2 & L2 & F2 & G2).
  destruct (append_tier tokens1 tier2 (B - length tokens1) FuturePrewarm stats1) as [tokens2 stats2]. cbn [fst] in *.
  set (s1 := merge_sort candidate_le tier1) in *. set (s2 := merge_sort candidate_le tier2) in *.
  assert (s1 ≡ₚ tier1) as P1 by apply merge_sort_Permutation. assert (s2 ≡ₚ tier2) as P2 by apply merge_sort_Permutation.
  assert (merge_sort string_le tokens2 ≡ₚ tokens2) as Pt by apply merge_sort_Permutation.
  assert (length tokens1 <= b1)%nat as L1' by lia.
  split_and!.
  - etransitivity; [apply dedup_length|]. rewrite (Permutation_length Pt). lia.
  - apply dedup_sorted. apply (StronglySorted_merge_sort string_le).
  - assert (forall (s : list Candidate) n, StronglySorted candidate_le s -> forall c c', c ∈ take n s -> c' ∈ drop n s -> candidate_le c c') as Hord.
    { intros s n Hs c c' Hc Hc'. rewrite <- (take_drop n s) in Hs. apply StronglySorted_app in Hs as (Hs & _ & _). by apply Hs. }
    exists (take n1 s1), (take n2 s2). split_and!.
    + intros t. rewrite elem_of_dedup, Pt, E2, E1. unfold pair_tokens. by rewrite bind_app.
    + intros c Hc. destruct (Hsound c) as (id & e & H); [|exists id, e; tauto].
      apply elem_of_app in Hc as [Hc|Hc]; apply elem_of_take in Hc as (i & Hc & _); apply list_elem_of_lookup_2 in Hc; [left; by rewrite <- P1 | right; by rewrite <- P2].
    + exists (drop n1 s1). rewrite take_drop. split_and!; [done | apply Hord, (StronglySorted_merge_sort candidate_le) |].
      intros Hr. assert (n1 < length tier1)%nat as Hn by (rewrite <- (Permutation_length P1); destruct (Nat.lt_ge_cases n1 (length s1)); [done|]; by rewrite drop_ge in Hr).
      specialize (F1 Hn). rewrite E1, pair_tokens_length in F1. done.
    + exists (drop n2 s2). rewrite take_drop. split; [done|]. apply Hord, (StronglySorted_merge_sort candidate_le).
    + intros Hc. assert (0 < n2)%nat as Hn by (destruct n2; [done | lia]). specialize (G2 Hn).
      rewrite E2, length_app, E1, !pair_tokens_length in G2. unfold B in *. lia.
Qed.
End Hotset.

(** ** The synchronisation service *)

Section Service.
Context {DO : DecimalOps} {CH : Chrono} {GT : GammaText}.

(** The outside of the service: the venue's catalog, each call with its retries, the clock, and the
    two repositories; a database call tells whether it failed. *)
Class GammaWorld (W : Type) := {
  gw_now : W -> Time;
  gw_keyset_page : W -> option string -> W * Result KeysetEventsPage ApiError;
  gw_updated_since : W -> Time -> W * Result (list WireEvent) ApiError;
  gw_market_by_condition : W -> string -> W * Result (option WireMarket) ApiError;
  gw_completion : W -> list MarketId -> list MarketId;
  gw_persist_events : W -> list UpsertEvent -> W;
  gw_db_fails : W -> list UpsertMarket -> W * bool
}.

Context {W : Type} {GW : GammaWorld W}.

(** [api/gamma/sync.rs:111-131] `full_sync_raw`; [None] when the pages do not end within the fuel *)
Fixpoint full_sync_raw (fuel : nat) (w : W) (after_cursor : option string) (catalog : list CatalogEvent)
    : option (W * Result (list CatalogEvent) ApiError) :=
  match fuel with
  | O => None
  | S fuel =>
      match gw_keyset_page w after_cursor with
      | (w, Err e) => Some (w, Err e)
      | (w, Ok page) =>
          let catalog := catalog ++ (catalog_event <$> kp_events page) in
          match kp_next_cursor page with
          | None => Some (w, Ok catalog)
          | Some cursor => match kp_events page with [] => Some (w, Ok catalog) | _ => full_sync_raw fuel w (Some cursor) catalog end
          end
      end
  end.

(** [api/gamma/mod.rs:71-74] `GammaClient::full_sync_with_fees` *)
Definition full_sync_with_fees (fuel : nat) (w : W) : option (W * Result GammaCatalogBatch ApiError) :=
  match full_sync_raw fuel w None [] with
  | None => None
  | Some (w, Err e) => Some (w, Err e)
  | Some (w, Ok catalog) => Some (w, Ok (catalog_batch catalog (gw_now w)))
  end.

(** [api/gamma/mod.rs:77-83] `GammaClient::incremental_sync_with_fees` *)
Definition incremental_sync_with_fees (w : W) (since : Time) : W * Result GammaCatalogBatch ApiError :=
  match gw_updated_since w since with
  | (w, Err e) => (w, Err e)
  | (w, Ok events) => (w, Ok (catalog_batch (catalog_event <$> events) (gw_now w)))
  end.

(** [api/gamma/mod.rs:127-156] `GammaClient::get_market` *)
Definition get_gamma_market (w : W) (condition_id : MarketId) : W * Result MarketRegistryInfo ApiError :=
  match gw_market_by_condition w condition_id with
  | (w, Err e) => (w, Err e)
  | (w, Ok None) => (w, Err (ApiGamma ("/markets?condition_ids=" +:+ condition_id) 404 "no market for condition_id"))
  | (w, Ok (Some wire)) =>
      match head (unwrap_or (wm_events wire) []) with
      | None => (w, Err (ApiDeserialize ("gamma get_market(" +:+ condition_id +:+ ")") "market payload has no parent event"))
      | Some parent =>
          match catalog_market wire with
          | Err _ => (w, Err (ApiDeserialize ("gamma get_market(" +:+ condition_id +:+ ")") "rejected"))
          | Ok catalog => (w, Ok (into_registry_info catalog (we_id parent) (from_slugs (tag_slugs parent)) (gw_now w)))
          end
      end
  end.

(** [api/gamma/mod.rs:163-191] `GammaClient::get_resolution_status` *)
Definition get_resolution_status (w : W) (condition_id : MarketId) : W * Result (option GammaResolution) ApiError :=
  match gw_market_by_condition w condition_id with
  | (w, Err e) => (w, Err e)
  | (w, Ok None) => (w, Ok None)
  | (w, Ok (Some wire)) =>
      match catalog_market wire with
      | Err _ => (w, Err (ApiDeserialize ("gamma resolution(" +:+ condition_id +:+ ")") "rejected"))
      | Ok catalog =>
          if negb (bool_decide (cm_status catalog = MsSettled)) then (w, Ok None)
          else (w, Ok (Some {| gr_resolved := true; gr_winning_token_id := cs_winning_token_id <$> cm_settlement catalog;
                               gr_winning_outcome := cs_winning_outcome <$> cm_settlement catalog; gr_resolved_at := cm_resolved_at catalog |}))
      end
  end.

(** One market after the other, in the order in which the requests complete. *)
Fixpoint fetch_each (w : W) (ids : list MarketId) : W * list (Result MarketRegistryInfo ApiError) :=
  match ids with
  | [] => (w, [])
  | id :: rest => let '(w, r) := get_gamma_market w id in let '(w, rs) := fetch_each w rest in (w, r :: rs)
  end.

(** [api/gamma/mod.rs:86-101] `GammaClient::fetch_markets_bounded` *)
Definition fetch_markets_bounded (w : W) (ids : list MarketId) : W * list (Result MarketRegistryInfo ApiError) :=
  fetch_each w (gw_completion w ids).

(** [core/service/gamma.rs:56-70] `GammaService`, with the market table, the token baseline of the
    websocket manager and the part of the configuration a sync reads *)
Record GammaService := {
  gs_world : W;
  gs_registry : MarketRegistry;
  gs_cache : MarketScanCache;
  gs_universe : CategorySet;
  gs_fees : FeeSnapshot;
  gs_rows : gmap MarketId MarketInfo;
  gs_detection_window_hours : Z;
  gs_ws : option (MarketDataSubscriptionPolicy * list TokenId);
  gs_full_sync_interval_secs : Z;
  gs_last_sync_at : option Time
}.

Definition set_gs_world (s : GammaService) w : GammaService := {|
  gs_world := w; gs_registry := gs_registry s; gs_cache := gs_cache s; gs_universe := gs_universe s; gs_fees := gs_fees s;
  gs_rows := gs_rows s; gs_detection_window_hours := gs_detection_window_hours s; gs_ws := gs_ws s;
  gs_full_sync_interval_secs := gs_full_sync_interval_secs s; gs_last_sync_at := gs_last_sync_at s |}.
Definition set_gs_registry (s : GammaService) r : GammaService := {|
  gs_world := gs_world s; gs_registry := r; gs_cache := gs_cache s; gs_universe := gs_universe s; gs_fees := gs_fees s;
  gs_rows := gs_rows s; gs_detection_window_hours := gs_detection_window_hours s; gs_ws := gs_ws s;
  gs_full_sync_interval_secs := gs_full_sync_interval_secs s; gs_last_sync_at := gs_last_sync_at s |}.
Definition set_gs_fees (s : GammaService) f : GammaService := {|
  gs_world := gs_world s; gs_registry := gs_registry s; gs_cache := gs_cache s; gs_universe := gs_universe s; gs_fees := f;
  gs_rows := gs_rows s; gs_detection_window_hours := gs_detection_window_hours s; gs_ws := gs_ws s;
  gs_full_sync_interval_secs := gs_full_sync_interval_secs s; gs_last_sync_at := gs_last_sync_at s |}.
Definition set_gs_rows (s : GammaService) rows : GammaService := {|
  gs_world := gs_world s; gs_registry := gs_registry s; gs_cache := gs_cache s; gs_universe := gs_universe s; gs_fees := gs_fees s;
  gs_rows := rows; gs_detection_window_hours := gs_detection_window_hours s; gs_ws := gs_ws s;
  gs_full_sync_interval_secs := gs_full_sync_interval_secs s; gs_last_sync_at := gs_last_sync_at s |}.
Definition set_gs_views (s : GammaService) cache ws : GammaService := {|
  gs_world := gs_world s; gs_registry := gs_registry s; gs_cache := cache; gs_universe := gs_universe s; gs_fees := gs_fees s;
  gs_rows := gs_rows s; gs_detection_window_hours := gs_detection_window_hours s; gs_ws := ws;
  gs_full_sync_interval_secs := gs_full_sync_interval_secs s; gs_last_sync_at := gs_last_sync_at s |}.
Definition set_gs_last (s : GammaService) t : GammaService := {|
  gs_world := gs_world s; gs_registry := gs_registry s; gs_cache := gs_cache s; gs_universe := gs_universe s; gs_fees := gs_fees s;
  gs_rows := gs_rows s; gs_detection_window_hours := gs_detection_window_hours s; gs_ws := gs_ws s;
  gs_full_sync_interval_secs := gs_full_sync_interval_secs s; gs_last_sync_at := t |}.

(** [repo/postgres/bind_limit.rs:29-33] `max_rows_per_insert` for the 22 columns of a market *)
Definition market_rows_per_insert : nat := 2978.

(** [repo/postgres/market.rs:143-168] `market_upsert_on_conflict`, the row it leaves *)
Definition upsert_row (rows : gmap MarketId MarketInfo) (now : Time) (u : UpsertMarket) : gmap MarketId MarketInfo :=
  let created := match rows !! um_market_id u with Some old => mi_created_at old | None => now end in
  <[um_market_id u := row_of_upsert u created now]> rows.

(** The statements of a batch: a statement that names a row twice is refused by the database. *)
Fixpoint upsert_chunks (fuel : nat) (rows : gmap MarketId MarketInfo) (now : Time) (dtos : list UpsertMarket) : option (gmap MarketId MarketInfo) :=
  match fuel, dtos with
  | _, [] => Some rows
  | O, _ => None
  | S fuel, _ =>
      let chunk := take market_rows_per_insert dtos in
      if bool_decide (NoDup (um_market_id <$> chunk))
      then upsert_chunks fuel (foldl (fun rows u => upsert_row rows now u) rows chunk) now (drop market_rows_per_insert dtos)
      else None
  end.

(** [repo/postgres/market.rs:185-216] `do_upsert_batch`, in one transaction, without the history rows *)
Definition upsert_batch (rows : gmap MarketId MarketInfo) (now : Time) (dtos : list UpsertMarket) (fails : bool) : gmap MarketId MarketInfo :=
  if fails then rows
  else match upsert_chunks (length dtos) rows now dtos with Some rows => rows | None => rows end.

(** [core/service/gamma.rs:327-335] `GammaService::persist_markets` *)
Definition persist_markets (s : GammaService) (markets : list UpsertMarket) : GammaService :=
  match markets with
  | [] => s
  | _ =>
      let '(w, fails) := gw_db_fails (gs_world s) markets in
      set_gs_rows (set_gs_world s w) (upsert_batch (gs_rows s) (gw_now w) markets fails)
  end.

(** [core/service/gamma.rs:337-345] `GammaService::persist_events` *)
Definition persist_events (s : GammaService) (events : list UpsertEvent) : GammaService :=
  match events with [] => s | _ => set_gs_world s (gw_persist_events (gs_world s) events) end.

(** [core/service/gamma.rs:364-379] `convert_registry_to_upsert` *)
Definition convert_registry_to_upsert (markets : list MarketRegistryInfo) : list UpsertMarket :=
  omap (fun m => match upsert_of_registry m with Ok u => Some u | Err _ => None end) markets.

(** [core/service/gamma.rs:381-396] `collect_missing_market_ids` *)
Definition collect_missing_market_ids (events : list EventRegistryInfo) (embedded : gset MarketId) : list MarketId :=
  dedup (merge_sort string_le (List.filter (fun id => negb (bool_decide (id ∈ embedded))) (events ≫= er_market_ids))).

(** [core/service/gamma.rs:296-325] `GammaService::sync_ws_subscriptions`, with the rebuilt scan cache of its callers *)
Definition refresh_views (s : GammaService) : GammaService :=
  let now := gw_now (gs_world s) in
  set_gs_views s (rebuild_cache (gs_registry s) (gs_universe s) now)
    ((fun pt => (pt.1, (select_tokens_with_stats pt.1 (gs_registry s) (gs_universe s) now (gs_detection_window_hours s)).1)) <$> gs_ws s).

Inductive SyncError := SyncApi (e : ApiError) | SyncMarket (e : MarketError).

(** [core/service/gamma.rs:123-193] `GammaService::full_sync` *)
Definition full_sync (fuel : nat) (s : GammaService) : option (GammaService * Result unit SyncError) :=
  match full_sync_with_fees fuel (gs_world s) with
  | None => None
  | Some (w, Err e) => Some (set_gs_world s w, Err (SyncApi e))
  | Some (w, Ok batch) =>
      let s := set_gs_world s w in
      match gb_registry_markets batch with
      | [] => Some (s, Err (SyncMarket EmptyCatalog))
      | _ =>
          let seen : gset MarketId := list_to_set (mk_market_id <$> gb_registry_markets batch) in
          let '(markets, upserts, _) := apply_past_deadline_to_sync_batch (gb_registry_markets batch) (gb_markets batch) (gw_now w) in
          let registry := register_markets (register_events (gs_registry s) (gb_registry_events batch)) markets in
          let s := set_gs_fees s (ingest_market_fee_schedules (gs_fees s) (gb_fee_data batch) (gw_now w)) in
          let '(registry, deactivated) := deactivate_stale registry seen in
          let s := set_gs_registry s registry in
          let s := persist_events s (gb_events batch) in
          let s := persist_markets s (upserts ++ convert_registry_to_upsert deactivated) in
          Some (refresh_views s, Ok tt)
      end
  end.

(** [core/service/gamma.rs:195-283] `GammaService::incremental_sync` *)
Definition incremental_sync (s : GammaService) (since : Time) : GammaService * Result unit SyncError :=
  match incremental_sync_with_fees (gs_world s) since with
  | (w, Err e) => (set_gs_world s w, Err (SyncApi e))
  | (w, Ok batch) =>
      let s := set_gs_world s w in
      match gb_registry_events batch with
      | [] => (s, Ok tt)
      | _ =>
          let s := set_gs_registry s (register_events (gs_registry s) (gb_registry_events batch)) in
          let missing := collect_missing_market_ids (gb_registry_events batch) (list_to_set (mk_market_id <$> gb_registry_markets batch)) in
          let '(s, extra) := match missing with
            | [] => (s, [])
            | _ => let '(w, fetched) := fetch_markets_bounded (gs_world s) missing in
                   (set_gs_world s w, omap (fun r => match r with Ok m => Some m | Err _ => None end) (take (length missing) fetched))
            end in
          let fee_data := gb_fee_data batch ++ collect_fee_data extra in
          match gb_registry_markets batch ++ extra with
          | [] => (s, Ok tt)
          | all =>
              let now := gw_now (gs_world s) in
              let '(markets, upserts, _) := apply_past_deadline_to_sync_batch all (gb_markets batch ++ convert_registry_to_upsert extra) now in
              let s := set_gs_registry s (register_markets (gs_registry s) markets) in
              let s := set_gs_fees s (ingest_market_fee_schedules (gs_fees s) fee_data now) in
              let s := persist_events s (gb_events batch) in
              let s := persist_markets s upserts in
              (refresh_views s, Ok tt)
          end
      end
  end.

(** [core/service/gamma.rs:107-110] `GammaService::sync_inner`, the choice *)
Definition needs_full (s : GammaService) : bool :=
  match gs_last_sync_at s with
  | None => true
  | Some t => unwrap_or (to_i64 (gs_full_sync_interval_secs s)) i64_max <? (gw_now (gs_world s) - t) ÷ nanos_per_sec
  end.

(** [core/service/gamma.rs:104-121] `GammaService::sync_inner` *)
Definition sync_inner (fuel : nat) (s : GammaService) : option (GammaService * Result unit SyncError) :=
  let finish (s : GammaService) := (set_gs_last s (Some (gw_now (gs_world s))), Ok tt) in
  if needs_full s then
    match full_sync fuel s with
    | Some (s, Ok _) => Some (finish s)
    | other => other
    end
  else
    match gs_last_sync_at s with
    | Some since => match incremental_sync s since with
                    | (s, Ok _) => Some (finish s)
                    | (s, Err e) => Some (s, Err e)
                    end
    | None => Some (finish s)
    end.
(** ** What a full sync leaves alone *)

Definition unresolved (s : GammaService) (id : MarketId) : Prop :=
  registry_ok (gs_registry s) /\ (forall m, get_market (gs_registry s) id = Some m -> mk_resolved_at m = None) /\
  (forall row, gs_rows s !! id = Some row -> mi_resolved_at row = None).

(** The markets the retry query counts as resolved. *)
Definition resolved_market (s : GammaService) (id : MarketId) : bool :=
  match gs_rows s !! id with
  | Some row => negb (bool_decide (mi_status row = MsActive)) && bool_decide (is_Some (mi_resolved_at row))
  | None => false
  end.

Section Closed.
Variable id : MarketId.
(** The catalog lists open events only, so a market whose event is closed is on no page. *)
Hypothesis not_listed : forall w c w' page, gw_keyset_page w c = (w', Ok page) ->
  forall e wm, e ∈ kp_events page -> wm ∈ unwrap_or (we_markets e) [] -> wm_condition_id wm <> id.

Lemma sorted_out l : forall acc m, m ∈ (foldl (fun acc w => match catalog_market w with
    | Ok row => (acc.1 ++ [row], acc.2)
    | Err reject => (acc.1, acc.2 ++ [{| rj_condition_id := wm_condition_id w; rj_reject := reject |}])
    end) acc l).1 -> m ∈ acc.1 \/ exists w, w ∈ l /\ catalog_market w = Ok m.
Proof.
  induction l as [|w l IH]; intros acc m H; [by left|]. cbn [foldl] in H. apply IH in H as [H|(x & Hx & E)].
  - destruct (catalog_market w) as [row|] eqn:E; [|by left]. cbn in H. apply elem_of_app in H as [H|H%list_elem_of_singleton]; [by left|].
    subst. right. exists w. split; [left | done].
  - right. exists x. split; [by right | done].
Qed.

Lemma catalog_market_id w m : catalog_market w = Ok m -> cm_condition_id m = wm_condition_id w.
Proof.
  unfold catalog_market. destruct (str_is_empty _); [done|]. destruct (wm_clob_token_ids w) as [|a [|b [|]]]; try done. by intros [= <-].
Qed.

Lemma raw_not_listed fuel : forall w c catalog w' out, full_sync_raw fuel w c catalog = Some (w', Ok out) ->
  (forall e m, e ∈ catalog -> m ∈ cv_markets e -> cm_condition_id m <> id) ->
  forall e m, e ∈ out -> m ∈ cv_markets e -> cm_condition_id m <> id.
Proof.
  induction fuel as [|fuel IH]; intros w c catalog w' out; [done|]. cbn [full_sync_raw].
  destruct (gw_keyset_page w c) as [w1 [page|e]] eqn:E; [|done]. intros H Hc.
  assert (forall e m, e ∈ catalog ++ (catalog_event <$> kp_events page) -> m ∈ cv_markets e -> cm_condition_id m <> id) as Hc'.
  { intros ev m [Hin|Hin]%elem_of_app Hm; [by eapply Hc|]. apply list_elem_of_fmap in Hin as (we & -> & Hwe).
    cbn in Hm. unfold sort_out in Hm. apply sorted_out in Hm as [Hm|(x & Hx & Hm)]; [by apply elem_of_nil in Hm|].
    rewrite (catalog_market_id _ _ Hm). by eapply not_listed. }
  destruct (kp_next_cursor page); [|by injection H as <- <-]. destruct (kp_events page); [by injection H as <- <- | by eapply IH].
Qed.

Lemma batch_not_listed catalog now : (forall e m, e ∈ catalog -> m ∈ cv_markets e -> cm_condition_id m <> id) ->
  (forall m, m ∈ gb_registry_markets (catalog_batch catalog now) -> mk_market_id m <> id) /\
  (forall u, u ∈ gb_markets (catalog_batch catalog now) -> um_market_id u <> id).
Proof.
  intros Hc.
  assert (forall ur, ur ∈ (catalog ≫= (fun e => (fun m => into_upsert_and_registry m (cv_id e) (cv_categories e) now) <$> cv_markets e)) ->
    um_market_id ur.1 <> id /\ mk_market_id ur.2 <> id) as H.
  { intros ur (e & Hur & He)%list_elem_of_bind. apply list_elem_of_fmap in Hur as (m & -> & Hm). specialize (Hc e m He Hm).
    unfold into_upsert_and_registry. destruct (token_infos m) as [a b]. by destruct (resolve_binary_pair_exact a b) as [yes no]. }
  split; [intros m Hm | intros u Hu]; cbn in *; [apply list_elem_of_fmap in Hm as (ur & -> & Hm) | apply list_elem_of_fmap in Hu as (ur & -> & Hm)]; by apply H in Hm as [? ?].
Qed.

Lemma lifecycle_ids ms us now :
  let out := apply_past_deadline_to_sync_batch ms us now in
  mk_market_id <$> out.1.1 = mk_market_id <$> ms /\ um_market_id <$> out.1.2 = um_market_id <$> us.
Proof.
  assert (mk_market_id <$> ((fun m => apply_past_deadline_lifecycle m now) <$> ms).*1 = mk_market_id <$> ms) as H.
  { rewrite <- !list_fmap_compose. apply list_fmap_ext. intros i m _. unfold compose, apply_past_deadline_lifecycle.
    destruct (negb (is_active m)); [done|]. destruct (mk_end_date m); [|done]. by destruct (now <? z). }
  unfold apply_past_deadline_to_sync_batch. destruct (_ =? 0); cbn; (split; [exact H|]); [done|].
  rewrite <- list_fmap_compose. apply list_fmap_ext. intros i u _. unfold compose. by destruct (_ !! _).
Qed.

Lemma register_other ms : forall r, (forall m, m ∈ ms -> mk_market_id m <> id) -> get_market (register_markets r ms) id = get_market r id.
Proof.
  intros r. rewrite register_markets_fold. revert r. induction ms as [|m ms IH]; intros r H; [done|]. cbn [foldl]. rewrite IH by (intros x Hx; apply H; by right).
  rewrite register_market_step. unfold batch_step. destruct (resolve_token_pair m) as [m'|] eqn:E; [|by destruct r].
  apply resolve_idempotent in E as (_ & E & _). unfold get_market. cbn. apply lookup_insert_ne. rewrite E. apply H. left.
Qed.

Lemma rows_unresolved fuel now us : forall rows rows', upsert_chunks fuel rows now us = Some rows' ->
  (forall u, u ∈ us -> um_market_id u = id -> um_resolved_at u = None) -> (forall row, rows !! id = Some row -> mi_resolved_at row = None) ->
  forall row, rows' !! id = Some row -> mi_resolved_at row = None.
Proof.
  revert us. induction fuel as [|fuel IH]; intros us rows rows' H Hu Hr; [by destruct us; [injection H as <-|]|].
  destruct us as [|u us]; [by injection H as <-|]. set (l := u :: us) in *. cbn [upsert_chunks] in H. unfold l in H at 1.
  destruct (bool_decide _); [|done]. apply (IH _ _ _ H).
  - intros x Hx. apply Hu. rewrite <- (take_drop market_rows_per_insert l). apply elem_of_app. by right.
  - assert (forall x, x ∈ take market_rows_per_insert l -> um_market_id x = id -> um_resolved_at x = None) as Ht.
    { intros x Hx. apply Hu. rewrite <- (take_drop market_rows_per_insert l). apply elem_of_app. by left. }
    clear H Hu IH. generalize dependent rows. induction (take market_rows_per_insert l) as [|x k IHk]; intros rows Hr row; [apply Hr|].
    cbn [foldl]. apply IHk; [intros y Hy; apply Ht; by right|]. intros row' Hrow'. unfold upsert_row in Hrow'.
    destruct (decide (um_market_id x = id)) as [E|E].
    + rewrite E, lookup_insert_eq in Hrow'. injection Hrow' as <-. cbn. apply Ht; [left | done].
    + rewrite lookup_insert_ne in Hrow' by done. by apply Hr.
Qed.

Lemma persist_unresolved s us : (forall u, u ∈ us -> um_market_id u = id -> um_resolved_at u = None) ->
  unresolved s id -> unresolved (persist_markets s us) id.
Proof.
  intros Hu (Hk & Hm & Hr). unfold persist_markets. destruct us as [|u us]; [done|]. destruct (gw_db_fails _ _) as [w fails].
  split_and!; [done | done |]. cbn [gs_rows set_gs_rows]. unfold upsert_batch. destruct fails; [done|].
  destruct (upsert_chunks _ _ _ _) as [rows'|] eqn:E; [|done]. exact (rows_unresolved _ _ _ _ _ E Hu Hr).
Qed.

Lemma full_sync_unresolved fuel s s' r : full_sync fuel s = Some (s', r) -> unresolved s id -> unresolved s' id.
Proof.
  unfold full_sync, full_sync_with_fees. destruct (full_sync_raw fuel (gs_world s) None []) as [[w [catalog|e]]|] eqn:E; [| by intros [= <- _] | done].
  set (batch := catalog_batch catalog (gw_now w)).
  assert ((forall m, m ∈ gb_registry_markets batch -> mk_market_id m <> id) /\ (forall u, u ∈ gb_markets batch -> um_market_id u <> id)) as [Hb1 Hb2].
  { apply batch_not_listed. eapply raw_not_listed; [exact E|]. by intros ? ? ?%elem_of_nil. }
  destruct (gb_registry_markets batch) as [|m0 ms0] eqn:Eb; [by intros [= <- _]|]. rewrite <- Eb in *. clear Eb m0 ms0.
  pose proof (lifecycle_ids (gb_registry_markets batch) (gb_markets batch) (gw_now w)) as [Hi1 Hi2].
  destruct (apply_past_deadline_to_sync_batch _ _ _) as [[markets upserts] n]. cbn [fst snd] in Hi1, Hi2.
  set (reg := register_markets (register_events (gs_registry (set_gs_world s w)) (gb_registry_events batch)) markets).
  intros H (Hk & Hm & Hr).
  assert (registry_ok reg) as Hreg.
  { apply register_markets_ok. apply (registry_step_ok _ (RgEvents (gb_registry_events batch))). exact Hk. }
  assert (get_market reg id = get_market (gs_registry s) id) as Hget.
  { unfold reg. rewrite register_other.
    - unfold get_market. by rewrite (proj1 (events_frame _ _)).
    - intros m Hin E2. assert (id ∈ mk_market_id <$> markets) as Hx by (rewrite <- E2; apply list_elem_of_fmap; by exists m).
      rewrite Hi1 in Hx. apply list_elem_of_fmap in Hx as (m' & E3 & Hx). by apply (Hb1 m'). }
  pose proof (deactivated reg (list_to_set (mk_market_id <$> gb_registry_markets batch)) Hreg) as Hd.
  destruct (deactivate_stale reg _) as [reg' out] eqn:Ed. destruct Hd as (_ & Hids & Hout & Hd).
  injection H as <- _.
  assert (registry_ok reg') as Hreg'.
  { match type of Ed with deactivate_stale _ ?seen = _ => pose proof (registry_step_ok reg (RgStale seen) Hreg : registry_ok (deactivate_stale reg seen).1) as Ho end.
    by rewrite Ed in Ho. }
  match goal with |- unresolved (refresh_views (persist_markets ?x ?us)) id => assert (unresolved (persist_markets x us) id) as Hp; [|exact Hp] end.
  apply persist_unresolved.
  - intros u [Hu|Hu]%elem_of_app Eu.
    + exfalso. assert (id ∈ um_market_id <$> upserts) as Hx by (rewrite <- Eu; apply list_elem_of_fmap; by exists u).
      rewrite Hi2 in Hx. apply list_elem_of_fmap in Hx as (u' & E3 & Hx). by apply (Hb2 u').
    + unfold convert_registry_to_upsert in Hu. apply list_elem_of_omap in Hu as (m & Hin & Hu).
      destruct (upsert_of_registry m) as [u'|] eqn:Eu'; [|done]. injection Hu as ->. unfold upsert_of_registry in Eu'.
      destruct (resolve_binary_pair _ _) as [[yes no]|]; [|done]. injection Eu' as <-. cbn in Eu |- *.
      rewrite Hout in Hin. apply list_elem_of_omap in Hin as (i & _ & Hin). apply fmap_Some in Hin as (x & Hx & ->).
      cbn in Eu |- *. pose proof (ro_keyed _ Hreg _ _ Hx) as [Hkx _]. rewrite Hkx in Eu. subst i. apply Hm. by rewrite <- Hget.
  - assert (forall es x, unresolved x id -> unresolved (persist_events x es) id) as He.
    { intros es x Hx. unfold persist_events. by destruct es. }
    apply He. split_and!; [done | | done]. cbn [gs_registry set_gs_registry]. intros m Hg. rewrite Hd, Hget in Hg.
    apply fmap_Some in Hg as (x & Hx & ->). apply Hm in Hx. by destruct (_ && _).
Qed.

(** A schedule of syncs: the time that passes before each. *)
Fixpoint sync_run (fuel : nat) (delays : list (W -> W)) (s : GammaService) : option GammaService :=
  match delays with
  | [] => Some s
  | d :: rest => match sync_inner fuel (set_gs_world s (d (gs_world s))) with
                 | Some (s, _) => sync_run fuel rest s
                 | None => None
                 end
  end.

Hypothesis clock_mono : forall w c, gw_now w <= gw_now (gw_keyset_page w c).1.

Lemma raw_clock fuel : forall w c catalog w' r, full_sync_raw fuel w c catalog = Some (w', r) -> gw_now w <= gw_now w'.
Proof.
  induction fuel as [|fuel IH]; intros w c catalog w' r; [done|]. cbn [full_sync_raw]. pose proof (clock_mono w c) as Hc.
  destruct (gw_keyset_page w c) as [w1 [page|e]]; [|by intros [= <- _]]. cbn [fst] in Hc.
  destruct (kp_next_cursor page); [|by intros [= <- _]]. destruct (kp_events page); [by intros [= <- _]|]. intros H%IH. lia.
Qed.

Lemma full_sync_failed_frame fuel s s' e : full_sync fuel s = Some (s', Err e) ->
  gs_last_sync_at s' = gs_last_sync_at s /\ gs_full_sync_interval_secs s' = gs_full_sync_interval_secs s /\ gw_now (gs_world s) <= gw_now (gs_world s').
Proof.
  unfold full_sync, full_sync_with_fees. destruct (full_sync_raw fuel (gs_world s) None []) as [[w [catalog|x]]|] eqn:E; [| |done]; apply raw_clock in E.
  - destruct (gb_registry_markets _); [by intros [= <- _]|]. destruct (apply_past_deadline_to_sync_batch _ _ _) as [[? ?] ?]. destruct (deactivate_stale _ _). done.
  - by intros [= <- _].
Qed.

Lemma full_sync_interval fuel s s' r : full_sync fuel s = Some (s', r) -> gs_full_sync_interval_secs s' = gs_full_sync_interval_secs s.
Proof.
  destruct r as [u|e]; [|by intros (_ & ? & _)%full_sync_failed_frame].
  unfold full_sync, full_sync_with_fees. destruct (full_sync_raw fuel (gs_world s) None []) as [[w [catalog|x]]|]; [|done|done].
  destruct (gb_registry_markets _); [done|]. destruct (apply_past_deadline_to_sync_batch _ _ _) as [[ms ups] n]. destruct (deactivate_stale _ _) as [reg out].
  assert (forall x es us, gs_full_sync_interval_secs (persist_markets (persist_events x es) us) = gs_full_sync_interval_secs x) as Hp.
  { intros x es us. unfold persist_markets, persist_events. destruct us, es; try done; by destruct (gw_db_fails _ _). }
  intros [= <- _]. unfold refresh_views. cbn [gs_full_sync_interval_secs set_gs_views]. by rewrite Hp.
Qed.

(** The safety net for resolved markets has a hole.  The schedule spaces the syncs by more than
    the interval, so each is a full one; the catalog's pages list open events only; so a market
    whose event closes is only ever paused, its row never gets a resolution time, and however many
    syncs run the query for positions in resolved markets never selects a position in it. *)
Theorem closed_market_never_retried fuel delays s s' positions limit :
  0 <= gs_full_sync_interval_secs s <= i64_max ->
  (forall d, d ∈ delays -> forall w, gw_now w + (gs_full_sync_interval_secs s + 1) * nanos_per_sec <= gw_now (d w)) ->
  (forall t, gs_last_sync_at s = Some t -> t <= gw_now (gs_world s)) ->
  unresolved s id -> sync_run fuel delays s = Some s' ->
  resolved_market s' id = false /\
  forall p, p ∈ find_open_for_resolved_markets positions (resolved_market s') limit -> pos_market_id p <> id.
Proof.
  intros Hi Hd Hl Hu Hrun.
  assert (unresolved s' id) as (_ & _ & Hr).
  { revert s Hi Hd Hl Hu Hrun. induction delays as [|d delays IH]; intros s Hi Hd Hl Hu Hrun; [by injection Hrun as <-|].
    cbn [sync_run] in Hrun. set (y := set_gs_world s (d (gs_world s))) in *.
    assert (gw_now (gs_world s) + (gs_full_sync_interval_secs s + 1) * nanos_per_sec <= gw_now (gs_world y)) as Hy by (apply Hd; left).
    assert (needs_full y = true) as Hn.
    { unfold needs_full. cbn [gs_last_sync_at y set_gs_world gs_full_sync_interval_secs]. destruct (gs_last_sync_at s) as [t|]; [|done]. specialize (Hl t eq_refl).
      rewrite to_i64_in by (unfold_ints; lia). cbn [unwrap_or]. apply Z.ltb_lt. apply Z.lt_le_trans with (gs_full_sync_interval_secs s + 1); [lia|].
      apply Z.quot_le_lower_bound; unfold nanos_per_sec in *; lia. }
    unfold sync_inner in Hrun. rewrite Hn in Hrun. destruct (full_sync fuel y) as [[x [u|e]]|] eqn:E; [| |done].
    - pose proof (full_sync_unresolved _ _ _ _ E Hu) as Hx. pose proof (full_sync_interval _ _ _ _ E) as Hix.
      apply IH in Hrun; [done | | | |]; cbn [gs_full_sync_interval_secs set_gs_last gs_last_sync_at gs_world] in *.
      + by rewrite Hix.
      + intros d' Hd'. rewrite Hix. apply Hd. by right.
      + intros t [= <-]. lia.
      + exact Hx.
    - pose proof (full_sync_unresolved _ _ _ _ E Hu) as Hx. pose proof (full_sync_failed_frame _ _ _ _ E) as (Hlx & Hix & Hcx).
      apply IH in Hrun; [done | | | |].
      + by rewrite Hix.
      + intros d' Hd'. rewrite Hix. apply Hd. by right.
      + intros t Ht. rewrite Hlx in Ht. specialize (Hl t Ht). unfold nanos_per_sec in *. lia.
      + exact Hx. }
  assert (resolved_market s' id = false) as Hf.
  { unfold resolved_market. destruct (gs_rows s' !! id) as [row|] eqn:E; [|done]. rewrite (Hr _ eq_refl). apply andb_false_r. }
  split; [done|]. intros p Hp Ep. unfold find_open_for_resolved_markets, select in Hp. apply elem_of_take in Hp as (i & Hp & _).
  apply list_elem_of_lookup_2 in Hp. rewrite list_elem_of_In, filter_In in Hp. destruct Hp as [_ Hp]. rewrite Ep, Hf, andb_false_r in Hp. done.
Qed.
End Closed.
End Service.

(** ** Instances *)

Module CatalogDemo.
#[local] Existing Instance ExactQ.exactQ.

Definition hour : Z := 3600 * nanos_per_sec.

Definition token (id outcome : string) : TokenInfo := {| tk_token_id := id; tk_outcome := outcome; tk_neg_risk := false |}.

Definition market (id : string) (status : MarketStatus) (end_date : option Time) : MarketRegistryInfo := {|
  mk_market_id := id; mk_event_id := "e0"; mk_token_yes := id +:+ "-yes"; mk_token_no := id +:+ "-no"; mk_question := "?"; mk_slug := "s";
  mk_categories := cat_from_list [Politics]; mk_status := status; mk_outcome := None; mk_neg_risk := false; mk_tick_size := Hundredth;
  mk_tokens := [token (id +:+ "-yes") "Yes"; token (id +:+ "-no") "No"]; mk_best_bid := None; mk_best_ask := None; mk_depth_usd := None;
  mk_min_order_size := dof_Z 5; mk_volume_24h := d0;
  mk_fee_schedule := Some {| fs_market_id := id; fees_enabled := true; fs_fee_rate := dlit 4 2; fs_exponent := d1; taker_only := true;
                             rebate_rate := None; fs_source := ClobMarketInfo; fs_observed_at := 7 |};
  mk_end_date := end_date; mk_resolved_at := None; mk_created_at := 1; mk_updated_at := 2 |}.

Lemma market_row_roundtrip_witness :
  exists u, upsert_of_registry (market "m0" MsActive None) = Ok u /\
    registry_of_row (row_of_upsert u 10 20) = stored_view (market "m0" MsActive None) 10 20 /\
    resolve_token_pair (registry_of_row (row_of_upsert u 10 20)) = Ok (stored_view (market "m0" MsActive None) 10 20).
Proof.
  apply market_row_roundtrip; [apply cat_list_ok | reflexivity |]. intros s [= <-]. reflexivity.
Defined.

(** Three markets end within the detection window of a day, four more within the subscription
    window: six of the ten tokens are used, although two of the later markets would fit. *)
Definition crowded : MarketRegistry := register_markets new_registry
  [market "a" MsActive (Some (1 * hour)); market "b" MsActive (Some (2 * hour)); market "c" MsActive (Some (3 * hour));
   market "d" MsActive (Some (48 * hour)); market "e" MsActive (Some (49 * hour)); market "f" MsActive (Some (50 * hour))].

Lemma prewarm_tier_starved :
  let '(tokens, stats) := select_tokens_with_stats {| max_subscription_tokens := 10; endgame_window_hours := 72 |} crowded 0 0 24 in
  length tokens = 6%nat /\ candidates_future_prewarm stats = 3 /\ selected_future_prewarm stats = 0.
Proof. vm_compute. split_and!; reflexivity. Qed.

(** A catalog whose pages list another event; the world is the clock. *)
#[local] Instance no_text : GammaText := {| parse_decimal := fun _ => None; parse_rfc3339 := fun _ => None; parse_pg_time := fun _ => None |}.

Definition no_end : GammaEndDate := {| ge_timestamp := None; ge_date_only := None |}.

Definition open_market : WireMarket := mk_wire_market "m1" "?" None ["m1-yes"; "m1-no"] ["Yes"; "No"] None None None [] None None no_end None None None None None None None.

Definition open_event : WireEvent := mk_wire_event "e1" None None no_end None None None None (Some [open_market]) None None.

#[local] Instance clock_world : GammaWorld Z := {|
  gw_now := fun w => w;
  gw_keyset_page := fun w _ => (w, Ok {| kp_events := [open_event]; kp_next_cursor := None |});
  gw_updated_since := fun w _ => (w, Ok []);
  gw_market_by_condition := fun w _ => (w, Ok None);
  gw_completion := fun _ ids => ids;
  gw_persist_events := fun w _ => w;
  gw_db_fails := fun w _ => (w, false) |}.

Definition service : GammaService (W := Z) :=
  let registry := foldl registry_step new_registry [RgRegister (market "m0" MsActive None)] in {|
  gs_world := 0; gs_registry := registry; gs_cache := rebuild_cache registry 0 0; gs_universe := 0;
  gs_fees := {| market_schedules := ∅; category_defaults := ∅; fs_updated_at := 0 |};
  gs_rows := match upsert_of_registry (market "m0" MsActive None) with Ok u => upsert_row ∅ 0 u | Err _ => ∅ end;
  gs_detection_window_hours := 24; gs_ws := None; gs_full_sync_interval_secs := 300; gs_last_sync_at := Some 0 |}.

Definition later (w : Z) : Z := w + 330 * nanos_per_sec.

Lemma service_unresolved : unresolved service "m0".
Proof.
  split; [apply registry_reachable|]. split.
  - intros m. assert (get_market (gs_registry service) "m0" = Some (market "m0" MsActive None)) as -> by (vm_compute; reflexivity). intros [= <-]. reflexivity.
  - intros row. assert (mi_resolved_at <$> gs_rows service !! "m0" = Some None) as H by (vm_compute; reflexivity).
    intros E. rewrite E in H. cbn in H. by injection H.
Qed.

Lemma other_pages (w : Z) c w' page : gw_keyset_page w c = (w', Ok page) ->
  forall e wm, e ∈ kp_events page -> wm ∈ unwrap_or (we_markets e) [] -> wm_condition_id wm <> "m0".
Proof. intros [= <- <-] e wm He Hwm. apply list_elem_of_singleton in He. subst e. apply list_elem_of_singleton in Hwm. subst wm. discriminate. Qed.

Lemma pages_take_time (w : Z) c : gw_now w <= gw_now (gw_keyset_page w c).1.
Proof. apply Z.le_refl. Qed.

Lemma service_interval : gs_full_sync_interval_secs service = 300.
Proof. reflexivity. Qed.

Lemma spaced d : d ∈ [later; later] -> forall w, gw_now w + (gs_full_sync_interval_secs service + 1) * nanos_per_sec <= gw_now (d w).
Proof.
  rewrite service_interval. intros Hd w.
  assert (d = later) as -> by (repeat (apply elem_of_cons in Hd as [->|Hd]; [done|]); by apply elem_of_nil in Hd).
  unfold later. cbn. unfold nanos_per_sec. lia.
Qed.

Lemma started t : gs_last_sync_at service = Some t -> t <= gw_now (gs_world service).
Proof. assert (gs_last_sync_at service = Some 0) as -> by reflexivity. intros [= <-]. apply Z.le_refl. Qed.

(** After two syncs the market is paused and still has no resolution time. *)
Lemma closed_market_never_retried_witness :
  exists s', sync_run 1 [later; later] service = Some s' /\ resolved_market s' "m0" = false /\
    (mi_status <$> gs_rows s' !! "m0") = Some MsPaused.
Proof.
  assert ((s ← sync_run 1 [later; later] service; mi_status <$> gs_rows s !! "m0") = Some MsPaused) as H by (vm_compute; reflexivity).
  revert H. destruct (sync_run 1 [later; later] service) as [s'|] eqn:E; [|discriminate].
  intros H. exists s'. split; [reflexivity|]. split; [|exact H].
  assert (0 <= gs_full_sync_interval_secs service <= i64_max) as Hi by (rewrite service_interval; unfold i64_max; lia).
  exact (proj1 (closed_market_never_retried "m0" other_pages pages_take_time 1 [later; later] service s' ∅ 0 Hi spaced started service_unresolved E)).
Defined.
End CatalogDemo.
