(* ===== verification/MarketFeed.v ===== *)
(** * The market-data feed: [oxide-arb-api/src/ws]

    Subscriptions of the engine and the web console, their union on sharded connections, the
    health and freshness boards, the shard actors, and the normalisation of the venue's messages
    into pipeline events.  The messages of the client library are given by the fields the code
    reads; latency traces, log lines and hooks that count are left out.  An [Instant] is a [Time]
    in nanoseconds. *)

From stdpp Require Import sorting.
From S2P Require Import Prelude Decimal Micro Config Domain Book OrderBook Markets.

(** ** Subscriptions *)

(** [api/ws/mod.rs:47-53] `SubscriptionSource` *)
Inductive SubscriptionSource := SrcEngine | SrcWeb.

(** [api/ws/mod.rs:61-65] `SubscriptionState` *)
Record SubscriptionState := { ss_engine : gset TokenId; ss_web : gset TokenId }.

(** [api/ws/mod.rs:69-77] `SubscriptionState::split` *)
Definition sub_split (st : SubscriptionState) (source : SubscriptionSource) : gset TokenId * gset TokenId :=
  match source with SrcEngine => (ss_engine st, ss_web st) | SrcWeb => (ss_web st, ss_engine st) end.
Definition set_source (st : SubscriptionState) (source : SubscriptionSource) (target : gset TokenId) : SubscriptionState :=
  match source with
  | SrcEngine => {| ss_engine := target; ss_web := ss_web st |}
  | SrcWeb => {| ss_engine := ss_engine st; ss_web := target |}
  end.

(** [api/ws/mod.rs:84-89] `SubscriptionState::add`, one token *)
Definition add_one (other : gset TokenId) (x : gset TokenId * list TokenId) (token : TokenId) : gset TokenId * list TokenId :=
  let '(target, newly) := x in
  let in_union := bool_decide (token ∈ target) || bool_decide (token ∈ other) in
  ({[token]} ∪ target, if negb (bool_decide (token ∈ target)) && negb in_union then newly ++ [token] else newly).

(** [api/ws/mod.rs:81-91] `SubscriptionState::add` *)
Definition sub_add (st : SubscriptionState) (source : SubscriptionSource) (tokens : list TokenId) : SubscriptionState * list TokenId :=
  let '(target, other) := sub_split st source in
  let '(target, newly) := foldl (add_one other) (target, []) tokens in
  (set_source st source target, newly).

(** [api/ws/mod.rs:99-103] `SubscriptionState::remove`, one token *)
Definition remove_one (other : gset TokenId) (x : gset TokenId * list TokenId) (token : TokenId) : gset TokenId * list TokenId :=
  let '(target, gone) := x in
  (target ∖ {[token]}, if bool_decide (token ∈ target) && negb (bool_decide (token ∈ other)) then gone ++ [token] else gone).

(** [api/ws/mod.rs:96-105] `SubscriptionState::remove` *)
Definition sub_remove (st : SubscriptionState) (source : SubscriptionSource) (tokens : list TokenId) : SubscriptionState * list TokenId :=
  let '(target, other) := sub_split st source in
  let '(target, gone) := foldl (remove_one other) (target, []) tokens in
  (set_source st source target, gone).

(** [api/ws/mod.rs:109-127] `SubscriptionState::sync`; the order of a hash set is that of [elements] *)
Definition sub_sync (st : SubscriptionState) (source : SubscriptionSource) (desired : gset TokenId) : SubscriptionState * list TokenId * list TokenId :=
  let '(target, other) := sub_split st source in
  let to_subscribe := List.filter (fun t => negb (bool_decide (t ∈ target)) && negb (bool_decide (t ∈ other))) (elements desired) in
  let to_unsubscribe := List.filter (fun t => negb (bool_decide (t ∈ desired)) && negb (bool_decide (t ∈ other))) (elements target) in
  (set_source st source desired, to_subscribe, to_unsubscribe).

(** [api/ws/mod.rs:129-131] `SubscriptionState::active_tokens` *)
Definition active_tokens (st : SubscriptionState) : gset TokenId := ss_engine st ∪ ss_web st.

(** ** Boards *)

(** [api/ws/health.rs:28-32] `ShardSlot` *)
Record HealthSlot := { hs_connected : bool; hs_since : Time }.

(** [api/ws/health.rs:41-50] `ShardHealthBoard::register` *)
Definition health_register (slots : list HealthSlot) (shard_id : nat) (now : Time) : list HealthSlot :=
  slots ++ replicate (S shard_id - length slots) {| hs_connected := false; hs_since := now |}.

(** [api/ws/health.rs:53-63] `ShardHealthBoard::set_connected` *)
Definition health_set_connected (slots : list HealthSlot) (shard_id : nat) (connected : bool) (now : Time) : list HealthSlot :=
  alter (fun slot => if Bool.eqb (hs_connected slot) connected then slot else {| hs_connected := connected; hs_since := now |}) shard_id slots.

(** [api/ws/health.rs:116-125] `ShardHealthSummary` *)
Record ShardHealthSummary := {
  hm_total : Z;
  hm_disconnected : Z;
  hm_oldest_disconnected_secs : option Z;
  hm_connected_ratio_bps : Z
}.

(** [api/ws/health.rs:143-150] `connected_ratio_bps`; [usize] has 64 bits *)
Definition connected_ratio_bps (total disconnected : Z) : Z :=
  if total =? 0 then 10000
  else unwrap_or (to_u32 (sat_u64 (sat_u64 (total - disconnected) * 10000) / total)) u32_max.

(** [Instant::elapsed], which never goes backwards. *)
Definition elapsed (since now : Time) : Z := Z.max 0 (now - since).
Definition elapsed_secs (since now : Time) : Z := elapsed since now / nanos_per_sec.
Definition elapsed_millis (since now : Time) : Z := elapsed since now / 1000000.

(** [api/ws/health.rs:67-83] `ShardHealthBoard::summary` *)
Definition health_summary (slots : list HealthSlot) (now : Time) : ShardHealthSummary :=
  let down := List.filter (fun slot => negb (hs_connected slot)) slots in
  let disconnected := Z.of_nat (length down) in
  let oldest := foldl (fun acc slot =>
    let secs := elapsed_secs (hs_since slot) now in
    Some (match acc with None => secs | Some oldest => Z.max oldest secs end)) None down in
  {| hm_total := Z.of_nat (length slots); hm_disconnected := disconnected; hm_oldest_disconnected_secs := oldest;
     hm_connected_ratio_bps := connected_ratio_bps (Z.of_nat (length slots)) disconnected |}.

(** [api/ws/health.rs:94-101] `TokenFreshnessBoard::mark_token` *)
Definition mark_token (board : gmap TokenId Time) (token : TokenId) (at_ : Time) : gmap TokenId Time := <[token := at_]> board.

(** [api/ws/health.rs:98-104] `TokenFreshnessBoard::token_age_ms` *)
Definition token_age_ms (board : gmap TokenId Time) (token : TokenId) (now : Time) : option Z :=
  at_ ← board !! token; to_u64 (elapsed_millis at_ now).

(** [api/ws/health.rs:107-111] `TokenFreshnessBoard::prune_tokens` *)
Definition prune_tokens (board : gmap TokenId Time) (active : gset TokenId) : gmap TokenId Time :=
  filter (fun kv => kv.1 ∈ active) board.

(** ** Pipeline events *)

(** [models/enums/pipeline.rs:7-11] `ShardConnectionStatus` *)
Inductive ShardConnectionStatus := ShConnected | ShDisconnected | ShReconnecting (attempt : Z).

Section Events.
Context {DO : DecimalOps}.

(** [models/domain/governance/pipeline.rs:35-39] `PriceLevelDelta` *)
Record PriceLevelDelta := { pd_price : D; pd_size : D; pd_side : Side }.

(** [models/domain/governance/pipeline.rs:63-69] `BookSnapshotCmd`, its sides as lists *)
Record BookSnapshotCmd := { bc_asset_id : TokenId; bc_bids : list BookLevel; bc_asks : list BookLevel; bc_timestamp_ms : Z }.

(** [models/domain/governance/pipeline.rs:73-78] `PriceDeltaCmd` *)
Record PriceDeltaCmd := { dc_asset_id : TokenId; dc_changes : list PriceLevelDelta; dc_timestamp_ms : Z }.

(** [models/domain/governance/pipeline.rs:82-116] `PipelineEvent` *)
Inductive PipelineEvent :=
| EvBookSnapshot (cmd : BookSnapshotCmd)
| EvPriceDelta (cmd : PriceDeltaCmd)
| EvBestBidAsk (asset_id : TokenId) (best_bid best_ask : D) (timestamp_ms : Z)
| EvTickSizeChange (asset_id : TokenId) (old_tick new_tick : TickSize)
| EvLastTradePrice (asset_id : TokenId) (price : D) (timestamp_ms : Z)
| EvMarketResolved (market_id : MarketId) (winning_token_id : TokenId) (winning_outcome : string) (asset_ids : list TokenId) (timestamp_ms : Z)
| EvShardStatus (shard_id : nat) (status : ShardConnectionStatus).

(** [models/domain/governance/pipeline.rs:122-130] `PipelineEvent::is_book_coalescable`, also `is_market_data_event` *)
Definition is_book_coalescable (e : PipelineEvent) : bool :=
  match e with EvBookSnapshot _ | EvPriceDelta _ => true | _ => false end.

(** [models/domain/governance/pipeline.rs:134-143] `PipelineEvent::asset_id` *)
Definition event_asset_id (e : PipelineEvent) : option TokenId :=
  match e with
  | EvBookSnapshot cmd => Some (bc_asset_id cmd)
  | EvPriceDelta cmd => Some (dc_asset_id cmd)
  | EvBestBidAsk id _ _ _ | EvTickSizeChange id _ _ | EvLastTradePrice id _ _ => Some id
  | EvMarketResolved _ _ _ _ _ | EvShardStatus _ _ => None
  end.

(** The messages of the client library, by the fields that are read. *)
Inductive SdkSide := SdkBuy | SdkSell | SdkUnknown.
Record PriceChangeEntry := { pe_asset_id : Z; pe_price : D; pe_size : option D; pe_side : SdkSide }.
Inductive WsMessage :=
| WsBook (asset_id timestamp : Z) (bids asks : list (D * D))
| WsPriceChange (timestamp : Z) (price_changes : list PriceChangeEntry)
| WsBestBidAsk (asset_id : Z) (best_bid best_ask : D) (timestamp : Z)
| WsTickSizeChange (asset_id : Z) (old_tick_size new_tick_size : D)
| WsLastTradePrice (asset_id : Z) (price : D) (timestamp : Z)
| WsMarketResolved (market winning_asset_id : Z) (winning_outcome : string) (asset_ids : list Z) (timestamp : Z)
| WsOther.

(** Decimal text of a 256-bit number, its parser, and the hexadecimal text of a condition id. *)
Class Uint256 := {
  u256_to_string : Z -> string;
  u256_from_str : string -> option Z;
  b256_hex : Z -> string
}.
Context {U : Uint256}.

(** [api/ws/token_intern.rs:29-36] `TokenInternPool::intern_u256`: the pool is a cache of this function *)
Definition intern_u256 (asset_id : Z) : TokenId := u256_to_string asset_id.

(** [api/clob/convert.rs:31-41] `ClobSide::try_from` *)
Definition side_try_from (side : SdkSide) : Result Side unit :=
  match side with SdkBuy => Ok Buy | SdkSell => Ok Sell | SdkUnknown => Err tt end.

(** ** Normalisation *)

Definition timestamp_ms (timestamp : Z) : Z := unwrap_or (to_u64 (Z.max timestamp 0)) 0.

(** [api/ws/normalize.rs:53-69] `push_level` *)
Definition push_level (levels : list BookLevel) (price size : D) : list BookLevel :=
  match level_from_decimal price size with
  | Ok level => if is_positive (lv_size level) then levels ++ [level] else levels
  | Err _ => levels
  end.

(** [api/ws/normalize.rs:71-106] `book_update_to_event` *)
Definition book_update_to_event (asset_id timestamp : Z) (bids asks : list (D * D)) : PipelineEvent :=
  EvBookSnapshot {|
    bc_asset_id := intern_u256 asset_id;
    bc_bids := sort_levels true (foldl (fun levels l => push_level levels l.1 l.2) [] bids);
    bc_asks := sort_levels false (foldl (fun levels l => push_level levels l.1 l.2) [] asks);
    bc_timestamp_ms := timestamp_ms timestamp |}.

(** [api/ws/normalize.rs:120-150] `price_change_events`, one entry *)
Definition group_change (grouped : gmap TokenId (list PriceLevelDelta)) (entry : PriceChangeEntry) : gmap TokenId (list PriceLevelDelta) :=
  let asset_id := intern_u256 (pe_asset_id entry) in
  match side_try_from (pe_side entry) with
  | Err _ => grouped
  | Ok book_side =>
      match level_from_decimal (pe_price entry) (unwrap_or (pe_size entry) d0) with
      | Ok level =>
          if is_positive (lv_size level)
          then <[asset_id := unwrap_or (grouped !! asset_id) [] ++
                  [ {| pd_price := price_decimal level; pd_size := size_decimal level; pd_side := book_side |} ] ]> grouped
          else grouped
      | Err _ => grouped
      end
  end.

(** [api/ws/normalize.rs:108-164] `price_change_events`; the drain order of the map is that of [map_to_list] *)
Definition price_change_events (timestamp : Z) (price_changes : list PriceChangeEntry) : list PipelineEvent :=
  (fun '(asset_id, changes) => EvPriceDelta {| dc_asset_id := asset_id; dc_changes := changes; dc_timestamp_ms := timestamp_ms timestamp |})
    <$> map_to_list (foldl group_change ∅ price_changes).

(** [api/ws/normalize.rs:166-175] `best_bid_ask_event` *)
Definition best_bid_ask_event (asset_id : Z) (best_bid best_ask : D) (timestamp : Z) : PipelineEvent :=
  EvBestBidAsk (intern_u256 asset_id) best_bid best_ask (timestamp_ms timestamp).

(** [api/ws/normalize.rs:177-184] `tick_size_event` *)
Definition tick_size_event (asset_id : Z) (old_tick_size new_tick_size : D) : PipelineEvent :=
  let tick d := match tick_from_decimal d with Ok t => t | Err _ => Hundredth end in
  EvTickSizeChange (intern_u256 asset_id) (tick old_tick_size) (tick new_tick_size).

(** [api/ws/normalize.rs:186-194] `last_trade_event` *)
Definition last_trade_event (asset_id : Z) (price : D) (timestamp : Z) : PipelineEvent :=
  EvLastTradePrice (intern_u256 asset_id) price (timestamp_ms timestamp).

(** [api/ws/normalize.rs:196-212] `market_resolved_event` *)
Definition market_resolved_event (market winning_asset_id : Z) (winning_outcome : string) (asset_ids : list Z) (timestamp : Z) : PipelineEvent :=
  EvMarketResolved (b256_hex market) (intern_u256 winning_asset_id) winning_outcome (intern_u256 <$> asset_ids) (timestamp_ms timestamp).

(** [api/ws/normalize.rs:32-46] `normalize_ws_message` *)
Definition normalize_ws_message (msg : WsMessage) : list PipelineEvent :=
  match msg with
  | WsBook id ts bids asks => [book_update_to_event id ts bids asks]
  | WsPriceChange ts changes => price_change_events ts changes
  | WsBestBidAsk id bid ask ts => [best_bid_ask_event id bid ask ts]
  | WsTickSizeChange id old new => [tick_size_event id old new]
  | WsLastTradePrice id price ts => [last_trade_event id price ts]
  | WsMarketResolved market winner outcome ids ts => [market_resolved_event market winner outcome ids ts]
  | WsOther => []
  end.

(** ** Shards and the manager *)

(** [api/ws/router.rs:19-22] `ShardSlot`; the watch channel holds a set and counts its updates *)
Record ShardSlot := { sh_assigned : gset TokenId; sh_published : gset TokenId; sh_version : Z }.

(** [api/ws/router.rs:27-37] `RouterLedger`, with the capacity of `ShardRouter` *)
Record ShardRouter := { rt_max_per_shard : nat; rt_assignments : gmap TokenId nat; rt_shards : list ShardSlot }.

(** What a shard actor is doing: about to look at its tokens, parked without tokens, connecting
    with a token set, streaming it, waiting before the next attempt, or finished. *)
Inductive ActorPhase :=
| AtTop
| Parked
| Connecting (tokens : gset TokenId)
| Streaming (tokens : gset TokenId)
| BackingOff
| Stopped.

(** [api/ws/shard.rs:87-91] `WsShard` with its reconnect counter and the update it has seen *)
Record WsShard := { ws_phase : ActorPhase; ws_seen : Z; ws_retries : Z }.

(** [api/ws/mod.rs:143-151] `ClobWsManager`, with the actors it spawned *)
Record ClobWsManager := {
  wm_router : ShardRouter;
  wm_subscriptions : SubscriptionState;
  wm_health : list HealthSlot;
  wm_actors : list WsShard;
  wm_token_freshness : gmap TokenId Time;
  wm_last_message_at : option Time;
  wm_output : list PipelineEvent;
  wm_output_capacity : nat
}.

Definition set_router (m : ClobWsManager) router health actors : ClobWsManager := {|
  wm_router := router; wm_subscriptions := wm_subscriptions m; wm_health := health; wm_actors := actors;
  wm_token_freshness := wm_token_freshness m; wm_last_message_at := wm_last_message_at m; wm_output := wm_output m; wm_output_capacity := wm_output_capacity m |}.
Definition set_subscriptions (m : ClobWsManager) subs : ClobWsManager := {|
  wm_router := wm_router m; wm_subscriptions := subs; wm_health := wm_health m; wm_actors := wm_actors m;
  wm_token_freshness := wm_token_freshness m; wm_last_message_at := wm_last_message_at m; wm_output := wm_output m; wm_output_capacity := wm_output_capacity m |}.
Definition set_feed (m : ClobWsManager) freshness last output : ClobWsManager := {|
  wm_router := wm_router m; wm_subscriptions := wm_subscriptions m; wm_health := wm_health m; wm_actors := wm_actors m;
  wm_token_freshness := freshness; wm_last_message_at := last; wm_output := output; wm_output_capacity := wm_output_capacity m |}.

(** [api/ws/mod.rs:156-212] `ClobWsManager::new` *)
Definition new_ws_manager (max_subscriptions_per_connection : nat) : ClobWsManager := {|
  wm_router := {| rt_max_per_shard := Nat.max max_subscriptions_per_connection 1; rt_assignments := ∅; rt_shards := [] |};
  wm_subscriptions := {| ss_engine := ∅; ss_web := ∅ |}; wm_health := []; wm_actors := []; wm_token_freshness := ∅;
  wm_last_message_at := None; wm_output := []; wm_output_capacity := 8192 |}.

(** [position(|slot| slot.assigned.len() < max)] *)
Fixpoint first_spare (max : nat) (i : nat) (shards : list ShardSlot) : option nat :=
  match shards with
  | [] => None
  | slot :: rest => if (size (sh_assigned slot) <? max)%nat then Some i else first_spare max (S i) rest
  end.

(** [api/ws/router.rs:105-116] `ShardRouter::spawn_shard` *)
Definition spawn_shard (m : ClobWsManager) (now : Time) : ClobWsManager * nat :=
  let r := wm_router m in
  let shard_id := length (rt_shards r) in
  (set_router m
     {| rt_max_per_shard := rt_max_per_shard r; rt_assignments := rt_assignments r;
        rt_shards := rt_shards r ++ [ {| sh_assigned := ∅; sh_published := ∅; sh_version := 0 |} ] |}
     (health_register (wm_health m) shard_id now)
     (wm_actors m ++ [ {| ws_phase := AtTop; ws_seen := 0; ws_retries := 0 |} ]), shard_id).

(** [api/ws/router.rs:93-102] `ShardRouter::pick_shard` *)
Definition pick_shard (m : ClobWsManager) (now : Time) : ClobWsManager * nat :=
  match first_spare (rt_max_per_shard (wm_router m)) 0 (rt_shards (wm_router m)) with
  | Some shard_id => (m, shard_id)
  | None => spawn_shard m now
  end.

Definition update_router (m : ClobWsManager) (assignments : gmap TokenId nat) (shards : list ShardSlot) : ClobWsManager :=
  set_router m {| rt_max_per_shard := rt_max_per_shard (wm_router m); rt_assignments := assignments; rt_shards := shards |} (wm_health m) (wm_actors m).

Definition set_assigned (slot : ShardSlot) (tokens : gset TokenId) : ShardSlot := {|
  sh_assigned := tokens; sh_published := sh_published slot; sh_version := sh_version slot |}.

(** [api/ws/router.rs:130-135] `publish` *)
Definition publish (m : ClobWsManager) (dirty : gset nat) : ClobWsManager :=
  update_router m (rt_assignments (wm_router m))
    (imap (fun i slot => if bool_decide (i ∈ dirty)
                         then {| sh_assigned := sh_assigned slot; sh_published := sh_assigned slot; sh_version := sh_version slot + 1 |} else slot)
          (rt_shards (wm_router m))).

(** [api/ws/router.rs:54-62] `ShardRouter::assign_tokens`, one token *)
Definition assign_token (now : Time) (x : ClobWsManager * gset nat) (token : TokenId) : ClobWsManager * gset nat :=
  let '(m, dirty) := x in
  if bool_decide (is_Some (rt_assignments (wm_router m) !! token)) then (m, dirty)
  else
    let '(m, shard_id) := pick_shard m now in
    (update_router m (<[token := shard_id]> (rt_assignments (wm_router m)))
       (alter (fun slot => set_assigned slot ({[token]} ∪ sh_assigned slot)) shard_id (rt_shards (wm_router m))), {[shard_id]} ∪ dirty).

(** [api/ws/router.rs:50-66] `ShardRouter::assign_tokens` *)
Definition assign_tokens (m : ClobWsManager) (now : Time) (tokens : list TokenId) : ClobWsManager :=
  let '(m, dirty) := foldl (assign_token now) (m, ∅) tokens in publish m dirty.

(** [api/ws/router.rs:73-81] `ShardRouter::remove_tokens`, one token *)
Definition remove_token (x : ClobWsManager * gset nat) (token : TokenId) : ClobWsManager * gset nat :=
  let '(m, dirty) := x in
  match rt_assignments (wm_router m) !! token with
  | None => (m, dirty)
  | Some shard_id =>
      let assignments := delete token (rt_assignments (wm_router m)) in
      match rt_shards (wm_router m) !! shard_id with
      | None => (update_router m assignments (rt_shards (wm_router m)), dirty)
      | Some slot =>
          (update_router m assignments (<[shard_id := set_assigned slot (sh_assigned slot ∖ {[token]})]> (rt_shards (wm_router m))), {[shard_id]} ∪ dirty)
      end
  end.

(** [api/ws/router.rs:69-85] `ShardRouter::remove_tokens` *)
Definition remove_tokens (m : ClobWsManager) (tokens : list TokenId) : ClobWsManager :=
  let '(m, dirty) := foldl remove_token (m, ∅) tokens in publish m dirty.

Definition prune (m : ClobWsManager) (active : gset TokenId) : ClobWsManager :=
  set_feed m (prune_tokens (wm_token_freshness m) active) (wm_last_message_at m) (wm_output m).

(** *** Calls of the manager

    A call changes the subscriptions under their lock, and then updates the transport under the
    router's lock: two atomic steps.  The second one is an [Update]. *)
Record Update := { ud_assign : list TokenId; ud_remove : list TokenId; ud_active : gset TokenId }.

Inductive Call :=
| Subscribe (source : SubscriptionSource) (tokens : list TokenId)
| Unsubscribe (source : SubscriptionSource) (tokens : list TokenId)
| SyncTokens (source : SubscriptionSource) (tokens : list TokenId).

(** [api/ws/mod.rs:219-259] `ClobWsManager::subscribe_tokens`, `unsubscribe_tokens` and `sync_tokens`, up to the release of the subscriptions' lock *)
Definition call_begin (m : ClobWsManager) (c : Call) : ClobWsManager * Update :=
  match c with
  | Subscribe source tokens =>
      let '(subs, newly) := sub_add (wm_subscriptions m) source tokens in
      (set_subscriptions m subs, {| ud_assign := newly; ud_remove := []; ud_active := active_tokens subs |})
  | Unsubscribe source tokens =>
      let '(subs, gone) := sub_remove (wm_subscriptions m) source tokens in
      (set_subscriptions m subs, {| ud_assign := []; ud_remove := gone; ud_active := active_tokens subs |})
  | SyncTokens source tokens =>
      let '(subs, to_subscribe, to_unsubscribe) := sub_sync (wm_subscriptions m) source (list_to_set tokens) in
      (set_subscriptions m subs, {| ud_assign := to_subscribe; ud_remove := to_unsubscribe; ud_active := active_tokens subs |})
  end.

(** [api/ws/mod.rs:219-259] `ClobWsManager::subscribe_tokens`, `unsubscribe_tokens` and `sync_tokens`, the update of the transport *)
Definition call_finish (m : ClobWsManager) (now : Time) (u : Update) : ClobWsManager :=
  let m := match ud_assign u with [] => m | tokens => assign_tokens m now tokens end in
  match ud_remove u with [] => m | tokens => prune (remove_tokens m tokens) (ud_active u) end.

(** A call that nothing interrupts. *)
Definition call (m : ClobWsManager) (now : Time) (c : Call) : ClobWsManager :=
  let '(m, u) := call_begin m c in call_finish m now u.

(** [api/ws/mod.rs:263-266] `ClobWsManager::source_subscription_count` *)
Definition source_subscription_count (m : ClobWsManager) (source : SubscriptionSource) : nat := size (sub_split (wm_subscriptions m) source).1.

(** [api/ws/mod.rs:272-279] `ClobWsManager::subscribed_tokens` *)
Definition subscribed_tokens (m : ClobWsManager) (tokens : list TokenId) : gset TokenId :=
  list_to_set (List.filter (fun t => bool_decide (t ∈ ss_engine (wm_subscriptions m)) || bool_decide (t ∈ ss_web (wm_subscriptions m))) tokens).

(** [api/ws/mod.rs:293-295] `ClobWsManager::shard_health` *)
Definition shard_health (m : ClobWsManager) (now : Time) : ShardHealthSummary := health_summary (wm_health m) now.

(** [api/ws/mod.rs:303-307] `ClobWsManager::last_message_age_ms` *)
Definition last_message_age_ms (m : ClobWsManager) (now : Time) : option Z :=
  at_ ← wm_last_message_at m; to_u64 (elapsed_millis at_ now).

(** [api/ws/mod.rs:311-313] `ClobWsManager::token_message_age_ms` *)
Definition token_message_age_ms (m : ClobWsManager) (token : TokenId) (now : Time) : option Z := token_age_ms (wm_token_freshness m) token now.

(** ** Shard actors *)

(** [flume::Sender::try_send] on the output channel. *)
Definition try_send (m : ClobWsManager) (e : PipelineEvent) : ClobWsManager :=
  if (length (wm_output m) <? wm_output_capacity m)%nat
  then set_feed m (wm_token_freshness m) (wm_last_message_at m) (wm_output m ++ [e]) else m.

(** [api/ws/shard.rs:403-407] `emit_status` *)
Definition emit_status (m : ClobWsManager) (i : nat) (status : ShardConnectionStatus) : ClobWsManager := try_send m (EvShardStatus i status).

(** [api/ws/shard.rs:391-401] `mark_event_tokens` *)
Definition mark_event_tokens (board : gmap TokenId Time) (e : PipelineEvent) (at_ : Time) : gmap TokenId Time :=
  match event_asset_id e with
  | Some token => mark_token board token at_
  | None => match e with EvMarketResolved _ _ _ ids _ => foldl (fun b t => mark_token b t at_) board ids | _ => board end
  end.

(** [api/ws/shard.rs:371-389] `dispatch_events` *)
Definition dispatch_events (m : ClobWsManager) (events : list PipelineEvent) (received_at : Time) : ClobWsManager :=
  let m := match events with [] => m | _ => set_feed m (wm_token_freshness m) (Some received_at) (wm_output m) end in
  foldl (fun m e => try_send (set_feed m (mark_event_tokens (wm_token_freshness m) e received_at) (wm_last_message_at m) (wm_output m)) e) m events.

Definition set_actor (m : ClobWsManager) (i : nat) (a : WsShard) : ClobWsManager :=
  set_router m (wm_router m) (wm_health m) (<[i := a]> (wm_actors m)).
Definition set_connected (m : ClobWsManager) (i : nat) (connected : bool) (now : Time) : ClobWsManager :=
  set_router m (wm_router m) (health_set_connected (wm_health m) i connected now) (wm_actors m).

(** [api/ws/shard.rs:75-84] `StreamEnd`; a failure carries the delay the back-off library answers, if any *)
Inductive StreamEnd := SeShutdown | SeResubscribe | SeFailed (delay : option Z) | SeRouterDropped.

(** [api/ws/shard.rs:151-184] `WsShard::run_loop`, after a session *)
Definition end_session (m : ClobWsManager) (i : nat) (a : WsShard) (e : StreamEnd) (now : Time) : ClobWsManager :=
  let m := emit_status (set_connected m i false now) i ShDisconnected in
  set_actor m i (match e with
    | SeShutdown | SeRouterDropped => {| ws_phase := Stopped; ws_seen := ws_seen a; ws_retries := ws_retries a |}
    | SeResubscribe => {| ws_phase := AtTop; ws_seen := ws_seen a; ws_retries := 0 |}
    | SeFailed None => {| ws_phase := Stopped; ws_seen := ws_seen a; ws_retries := ws_retries a |}
    | SeFailed (Some _) => {| ws_phase := BackingOff; ws_seen := ws_seen a; ws_retries := sat_u32 (ws_retries a + 1) |}
    end).

(** What can happen to an actor: it looks at its tokens; the subscription succeeds or fails; a
    stream yields a message, an error or its end; the tokens changed and settled; the back-off is
    over; the process shuts down. *)
Inductive ActorEvent :=
| AeTurn
| AeSubscribed
| AeSubscribeFailed (delay : option Z)
| AeMessage (msg : WsMessage)
| AeStreamError
| AeStreamClosed (delay : option Z)
| AeTokensChanged
| AeBackoffElapsed
| AeShutdown.

(** [api/ws/shard.rs:124-151] `WsShard::run_loop`, the top of the loop *)
Definition actor_turn (m : ClobWsManager) (i : nat) (a : WsShard) (slot : ShardSlot) : ClobWsManager :=
  if bool_decide (sh_published slot = ∅) then set_actor m i {| ws_phase := Parked; ws_seen := sh_version slot; ws_retries := ws_retries a |}
  else set_actor (emit_status m i (ShReconnecting (ws_retries a))) i
         {| ws_phase := Connecting (sh_published slot); ws_seen := sh_version slot; ws_retries := ws_retries a |}.

(** [api/ws/shard.rs:224-274] `connect_and_stream`, up to the first message *)
Definition actor_subscribed (m : ClobWsManager) (i : nat) (a : WsShard) (tokens : gset TokenId) (now : Time) : option ClobWsManager :=
  match omap u256_from_str (elements tokens) with
  | [] => None
  | _ => Some (emit_status (set_connected (set_actor m i {| ws_phase := Streaming tokens; ws_seen := ws_seen a; ws_retries := 0 |}) i true now) i ShConnected)
  end.

(** [api/ws/shard.rs:293-301] `connect_and_stream`, a settled change of the token set *)
Definition actor_tokens_changed (m : ClobWsManager) (i : nat) (a : WsShard) (slot : ShardSlot) (tokens : gset TokenId) (now : Time) : ClobWsManager :=
  let a := {| ws_phase := ws_phase a; ws_seen := sh_version slot; ws_retries := ws_retries a |} in
  if bool_decide (sh_published slot = tokens) then set_actor m i a else end_session m i a SeResubscribe now.

(** [api/ws/shard.rs:107-188] `WsShard::run_loop` as a transition: [None] when the event cannot happen *)
Definition actor_step (m : ClobWsManager) (i : nat) (e : ActorEvent) (now : Time) : option ClobWsManager :=
  a ← wm_actors m !! i; slot ← rt_shards (wm_router m) !! i;
  let changed := bool_decide (ws_seen a <> sh_version slot) in
  let goto p := Some (set_actor m i {| ws_phase := p; ws_seen := sh_version slot; ws_retries := ws_retries a |}) in
  match ws_phase a, e with
  | Stopped, _ => None
  | AtTop, AeTurn => Some (actor_turn m i a slot)
  | Parked, AeTokensChanged => if changed then goto AtTop else None
  | BackingOff, AeTokensChanged => if changed then goto AtTop else None
  | BackingOff, AeBackoffElapsed => Some (set_actor m i {| ws_phase := AtTop; ws_seen := ws_seen a; ws_retries := ws_retries a |})
  | Connecting tokens, AeSubscribed => actor_subscribed m i a tokens now
  | Connecting _, AeSubscribeFailed delay => Some (end_session m i a (SeFailed delay) now)
  | Streaming _, AeMessage msg => Some (dispatch_events m (normalize_ws_message msg) now)
  | Streaming _, AeStreamError => Some m
  | Streaming _, AeStreamClosed delay => Some (end_session m i a (SeFailed delay) now)
  | Streaming tokens, AeTokensChanged => if changed then Some (actor_tokens_changed m i a slot tokens now) else None
  | (Connecting _ | Streaming _), AeShutdown => Some (end_session m i a SeShutdown now)
  | _, AeShutdown => goto Stopped
  | _, _ => None
  end.
End Events.

(** ** The transport serves the union *)

Section Subs.
Implicit Types (st : SubscriptionState).

Lemma add_fold other tokens : forall target newly,
  let '(target', newly') := foldl (add_one other) (target, newly) tokens in
  target' = list_to_set tokens ∪ target /\ (forall t, t ∈ newly' <-> t ∈ newly \/ (t ∈ tokens /\ t ∉ target /\ t ∉ other)).
Proof.
  induction tokens as [|x tokens IH]; intros target newly; cbn [foldl].
  - split; [set_solver|]. intros t. rewrite elem_of_nil. tauto.
  - cbn [add_one]. match goal with |- context [foldl _ (?T, ?N) _] => specialize (IH T N) end.
    destruct (foldl _ _ tokens) as [target' newly']. destruct IH as [-> IH]. split; [set_solver|]. intros t. rewrite IH. clear IH.
    rewrite elem_of_cons, elem_of_union, elem_of_singleton.
    destruct (bool_decide_reflect (x ∈ target)), (bool_decide_reflect (x ∈ other)); simpl; rewrite ?elem_of_app, ?list_elem_of_singleton;
      destruct (decide (t = x)) as [->|]; tauto.
Qed.

Lemma sub_add_spec st source tokens :
  let '(st', newly) := sub_add st source tokens in
  (sub_split st' source).1 = list_to_set tokens ∪ (sub_split st source).1 /\ (sub_split st' source).2 = (sub_split st source).2 /\
  active_tokens st' = list_to_set tokens ∪ active_tokens st /\ (forall t, t ∈ newly <-> t ∈ tokens /\ t ∉ active_tokens st).
Proof.
  unfold sub_add. destruct (sub_split st source) as [target other] eqn:E.
  pose proof (add_fold other tokens target []) as H. destruct (foldl _ _ tokens) as [target' newly]. destruct H as [-> H].
  destruct source; injection E as <- <-; cbn; (split_and!; [done | done | unfold active_tokens; cbn; set_solver |]);
    intros t; rewrite H; unfold active_tokens; set_solver.
Qed.

Lemma remove_fold other tokens : forall target gone,
  let '(target', gone') := foldl (remove_one other) (target, gone) tokens in
  target' = target ∖ list_to_set tokens /\ (forall t, t ∈ gone' <-> t ∈ gone \/ (t ∈ tokens /\ t ∈ target /\ t ∉ other)).
Proof.
  induction tokens as [|x tokens IH]; intros target gone; cbn [foldl].
  - split; [set_solver|]. intros t. rewrite elem_of_nil. tauto.
  - cbn [remove_one]. match goal with |- context [foldl _ (?T, ?N) _] => specialize (IH T N) end.
    destruct (foldl _ _ tokens) as [target' gone']. destruct IH as [-> IH]. split; [set_solver|]. intros t. rewrite IH. clear IH.
    rewrite elem_of_cons, elem_of_difference, elem_of_singleton.
    destruct (bool_decide_reflect (x ∈ target)), (bool_decide_reflect (x ∈ other)); simpl; rewrite ?elem_of_app, ?list_elem_of_singleton;
      destruct (decide (t = x)) as [->|]; tauto.
Qed.

Lemma sub_remove_spec st source tokens :
  let '(st', gone) := sub_remove st source tokens in
  (sub_split st' source).1 = (sub_split st source).1 ∖ list_to_set tokens /\ (sub_split st' source).2 = (sub_split st source).2 /\
  (forall t, t ∈ gone <-> t ∈ active_tokens st /\ t ∉ active_tokens st') /\ active_tokens st' ⊆ active_tokens st.
Proof.
  unfold sub_remove. destruct (sub_split st source) as [target other] eqn:E.
  pose proof (remove_fold other tokens target []) as H. destruct (foldl _ _ tokens) as [target' gone]. destruct H as [-> H].
  destruct source; injection E as <- <-; cbn; (split_and!; [done | done | | unfold active_tokens; cbn; set_solver]);
    intros t; rewrite H; unfold active_tokens; cbn; destruct (decide (t ∈ tokens)); set_solver.
Qed.

Lemma sub_sync_spec st source desired :
  let '(st', to_subscribe, to_unsubscribe) := sub_sync st source desired in
  (sub_split st' source).1 = desired /\ (sub_split st' source).2 = (sub_split st source).2 /\
  (forall t, t ∈ to_subscribe <-> t ∈ active_tokens st' /\ t ∉ active_tokens st) /\
  (forall t, t ∈ to_unsubscribe <-> t ∈ active_tokens st /\ t ∉ active_tokens st').
Proof.
  unfold sub_sync. destruct (sub_split st source) as [target other] eqn:E.
  destruct source; injection E as <- <-; cbn; (split_and!; [done | done | |]); intros t;
    rewrite list_elem_of_In, filter_In, <- list_elem_of_In, andb_true_iff, !negb_true_iff, !bool_decide_eq_false, elem_of_elements;
    unfold active_tokens; cbn; set_solver.
Qed.
End Subs.

Section Transport.
Context {DO : DecimalOps} {U : Uint256}.
Abbreviation Manager := (@ClobWsManager DO).
Implicit Types (m : Manager).
(** The configured capacity of a shard. *)
Context (cap : nat).

(** The assignments and the shards' sets say the same, no shard is overfull, shards that are not
    [dirty] have published their set, and every shard has a health slot and an actor. *)
Record ledger_ok (m : Manager) (dirty : gset nat) : Prop := {
  lk_to : forall t i, rt_assignments (wm_router m) !! t = Some i -> exists slot, rt_shards (wm_router m) !! i = Some slot /\ t ∈ sh_assigned slot;
  lk_from : forall t i slot, rt_shards (wm_router m) !! i = Some slot -> t ∈ sh_assigned slot -> rt_assignments (wm_router m) !! t = Some i;
  lk_size : forall i slot, rt_shards (wm_router m) !! i = Some slot -> (size (sh_assigned slot) <= rt_max_per_shard (wm_router m))%nat;
  lk_max : rt_max_per_shard (wm_router m) = Nat.max cap 1;
  lk_published : forall i slot, rt_shards (wm_router m) !! i = Some slot -> i ∉ dirty -> sh_published slot = sh_assigned slot;
  lk_lengths : length (wm_health m) = length (rt_shards (wm_router m)) /\ length (wm_actors m) = length (rt_shards (wm_router m))
}.

Lemma first_spare_spec max shards : forall i, match first_spare max i shards with
  | Some j => exists k slot, j = (i + k)%nat /\ shards !! k = Some slot /\ (size (sh_assigned slot) < max)%nat
  | None => Forall (fun slot => (max <= size (sh_assigned slot))%nat) shards
  end.
Proof.
  induction shards as [|slot shards IH]; intros i; cbn [first_spare]; [constructor|].
  destruct (Nat.ltb_spec (size (sh_assigned slot)) max).
  - exists 0%nat, slot. split; [lia|]. done.
  - specialize (IH (S i)). destruct (first_spare max (S i) shards).
    + destruct IH as (k & s & -> & Hk & Hs). exists (S k), s. split; [lia|]. done.
    + by constructor.
Qed.

(** The shard that is picked exists and has room. *)
Lemma pick_shard_ok m dirty now : ledger_ok m dirty ->
  let '(m', i) := pick_shard m now in
  ledger_ok m' dirty /\ rt_assignments (wm_router m') = rt_assignments (wm_router m) /\ wm_subscriptions m' = wm_subscriptions m /\
  exists slot, rt_shards (wm_router m') !! i = Some slot /\ (size (sh_assigned slot) < rt_max_per_shard (wm_router m'))%nat.
Proof.
  intros H. unfold pick_shard. pose proof (first_spare_spec (rt_max_per_shard (wm_router m)) (rt_shards (wm_router m)) 0) as Hs.
  destruct (first_spare _ _ _) as [i|].
  - destruct Hs as (k & slot & -> & Hk & Hs). by split_and!; [..|exists slot].
  - destruct H as [H1 H2 H3 H4 H5 [H6 H7]]. split_and!; [|done|done|].
    + split; cbn; try done.
      * intros t i Ht. destruct (H1 t i Ht) as (slot & Hi & Hin). exists slot. split; [|done]. by apply lookup_app_l_Some.
      * intros t i slot [Hi|[_ Hi]]%lookup_app_Some Hin; [by eapply H2|]. apply list_lookup_singleton_Some in Hi as [_ <-]. cbn in Hin. by apply elem_of_empty in Hin.
      * intros i slot [Hi|[_ Hi]]%lookup_app_Some; [by eapply H3|]. apply list_lookup_singleton_Some in Hi as [_ <-]. cbn. rewrite size_empty. lia.
      * intros i slot [Hi|[_ Hi]]%lookup_app_Some Hd; [by eapply H5|]. by apply list_lookup_singleton_Some in Hi as [_ <-].
      * rewrite !length_app. unfold health_register. rewrite length_app, length_replicate. cbn. split; lia.
    + exists {| sh_assigned := ∅; sh_published := ∅; sh_version := 0 |}. cbn. rewrite lookup_app_r, Nat.sub_diag by lia. split; [done|]. rewrite size_empty. lia.
Qed.

Lemma assign_token_ok now m dirty token : ledger_ok m dirty ->
  let '(m', dirty') := assign_token now (m, dirty) token in
  ledger_ok m' dirty' /\ dom (rt_assignments (wm_router m')) = {[token]} ∪ dom (rt_assignments (wm_router m)) /\ wm_subscriptions m' = wm_subscriptions m.
Proof.
  intros H. unfold assign_token. case_bool_decide as Ha.
  { split_and!; [done | | done]. apply elem_of_dom in Ha. set_solver. }
  pose proof (pick_shard_ok m dirty now H) as Hp. destruct (pick_shard m now) as [m1 i]. destruct Hp as (Hk & He & Hsub & slot & Hi & Hroom).
  assert (rt_assignments (wm_router m1) !! token = None) as Hn by (rewrite He; by apply eq_None_not_Some).
  assert (token ∉ sh_assigned slot) as Hni by (intros Hin; by rewrite (lk_from _ _ Hk _ _ _ Hi Hin) in Hn).
  destruct Hk as [H1 H2 H3 H4 H5 [H6 H7]]. split_and!; [|cbn; by rewrite dom_insert_L, He | exact Hsub].
  split; cbn; try done.
  - intros t j [[<- <-]|[Hne Ht]]%lookup_insert_Some.
    + eexists. rewrite list_lookup_alter_eq, Hi. split; [done|]. cbn. set_solver.
    + destruct (H1 t j Ht) as (s & Hj & Hin). destruct (decide (j = i)) as [->|].
      * eexists. rewrite list_lookup_alter_eq, Hi. simplify_eq. split; [done|]. cbn. set_solver.
      * exists s. by rewrite list_lookup_alter_ne.
  - intros t j s Hj Hin. destruct (decide (j = i)) as [->|].
    + rewrite list_lookup_alter_eq, Hi in Hj. injection Hj as <-. cbn in Hin. destruct (decide (t = token)) as [->|]; [by rewrite lookup_insert_eq|].
      rewrite lookup_insert_ne by done. apply (H2 _ _ _ Hi). set_solver.
    + rewrite list_lookup_alter_ne in Hj by done. rewrite lookup_insert_ne; [by eapply H2|]. intros <-. by rewrite (H2 _ _ _ Hj Hin) in Hn.
  - intros j s Hj. destruct (decide (j = i)) as [->|].
    + rewrite list_lookup_alter_eq, Hi in Hj. injection Hj as <-. cbn. rewrite size_union, size_singleton by set_solver. lia.
    + rewrite list_lookup_alter_ne in Hj by done. by eapply H3.
  - intros j s Hj Hd. rewrite list_lookup_alter_ne in Hj by set_solver. eapply H5; [done|set_solver].
  - by rewrite length_alter.
Qed.

Lemma remove_token_ok m dirty token : ledger_ok m dirty ->
  let '(m', dirty') := remove_token (m, dirty) token in
  ledger_ok m' dirty' /\ dom (rt_assignments (wm_router m')) = dom (rt_assignments (wm_router m)) ∖ {[token]} /\ wm_subscriptions m' = wm_subscriptions m.
Proof.
  intros H. unfold remove_token. destruct (rt_assignments (wm_router m) !! token) as [i|] eqn:Ha.
  2: { split_and!; [done | | done]. apply not_elem_of_dom in Ha. set_solver. }
  destruct (lk_to _ _ H _ _ Ha) as (slot & Hi & Hin0). rewrite Hi. destruct H as [H1 H2 H3 H4 H5 [H6 H7]].
  split_and!; [|cbn; by rewrite dom_delete_L | done]. split; cbn; try done.
  - intros t j [Hne Ht]%lookup_delete_Some. destruct (H1 t j Ht) as (s & Hj & Hin). destruct (decide (j = i)) as [->|].
    + eexists. rewrite list_lookup_insert_eq by (by eapply lookup_lt_Some). simplify_eq. split; [done|]. cbn. set_solver.
    + exists s. by rewrite list_lookup_insert_ne.
  - intros t j s Hj Hin. apply list_lookup_insert_Some in Hj as [(<- & <- & _)|[Hne Hj]].
    + cbn in Hin. rewrite lookup_delete_ne by set_solver. apply (H2 _ _ _ Hi). set_solver.
    + rewrite lookup_delete_ne; [by eapply H2|]. intros <-. rewrite (H2 _ _ _ Hj Hin) in Ha. by injection Ha.
  - intros j s Hj. apply list_lookup_insert_Some in Hj as [(<- & <- & _)|[Hne Hj]]; [|by eapply H3].
    cbn. specialize (H3 _ _ Hi). assert (size (sh_assigned slot ∖ {[token]}) <= size (sh_assigned slot))%nat by (apply subseteq_size; set_solver). lia.
  - intros j s Hj Hd. rewrite list_lookup_insert_ne in Hj by set_solver. eapply H5; [done|set_solver].
  - by rewrite length_insert.
Qed.

Lemma publish_ok m dirty : ledger_ok m dirty ->
  ledger_ok (publish m dirty) ∅ /\ rt_assignments (wm_router (publish m dirty)) = rt_assignments (wm_router m) /\ wm_subscriptions (publish m dirty) = wm_subscriptions m.
Proof.
  intros [H1 H2 H3 H4 H5 [H6 H7]]. split_and!; [|done|done].
  assert (forall i slot', rt_shards (wm_router (publish m dirty)) !! i = Some slot' -> exists slot, rt_shards (wm_router m) !! i = Some slot /\
    sh_assigned slot' = sh_assigned slot /\ sh_published slot' = sh_assigned slot) as Hback.
  { intros i slot' Hi. cbn in Hi. rewrite list_lookup_imap in Hi. apply fmap_Some in Hi as (slot & Hi & ->). exists slot. split; [done|].
    case_bool_decide; [done|]. by rewrite (H5 i slot Hi). }
  split; try done.
  - intros t i Ht. destruct (H1 t i Ht) as (slot & Hi & Hin). cbn. rewrite list_lookup_imap, Hi. eexists. split; [done|]. by case_bool_decide.
  - intros t i slot' (slot & Hi & Ha & _)%Hback Hin. rewrite Ha in Hin. by eapply H2.
  - intros i slot' (slot & Hi & Ha & _)%Hback. rewrite Ha. by eapply H3.
  - intros i slot' (slot & Hi & Ha & Hp)%Hback _. congruence.
  - cbn. by rewrite length_imap.
Qed.

Lemma assign_tokens_ok m now tokens : ledger_ok m ∅ ->
  ledger_ok (assign_tokens m now tokens) ∅ /\ dom (rt_assignments (wm_router (assign_tokens m now tokens))) = list_to_set tokens ∪ dom (rt_assignments (wm_router m)) /\
  wm_subscriptions (assign_tokens m now tokens) = wm_subscriptions m.
Proof.
  intros H. unfold assign_tokens.
  assert (forall l m dirty, ledger_ok m dirty -> let '(m', dirty') := foldl (assign_token now) (m, dirty) l in
    ledger_ok m' dirty' /\ dom (rt_assignments (wm_router m')) = list_to_set l ∪ dom (rt_assignments (wm_router m)) /\ wm_subscriptions m' = wm_subscriptions m) as Hf.
  { clear. induction l as [|t l IH]; intros m dirty H; cbn [foldl]; [split_and!; [done | set_solver | done]|].
    pose proof (assign_token_ok now m dirty t H) as Ht. destruct (assign_token now (m, dirty) t) as [m1 d1]. destruct Ht as (Hk & Hd & Hs).
    specialize (IH m1 d1 Hk). destruct (foldl _ (m1, d1) l) as [m2 d2]. destruct IH as (Hk2 & Hd2 & Hs2). split_and!; [done | set_solver | congruence]. }
  specialize (Hf tokens m ∅ H). destruct (foldl _ _ tokens) as [m' d']. destruct Hf as (Hk & Hd & Hs).
  apply publish_ok in Hk as (Hk & He & Hs'). rewrite He, Hs'. by split_and!.
Qed.

Lemma remove_tokens_ok m tokens : ledger_ok m ∅ ->
  ledger_ok (remove_tokens m tokens) ∅ /\ dom (rt_assignments (wm_router (remove_tokens m tokens))) = dom (rt_assignments (wm_router m)) ∖ list_to_set tokens /\
  wm_subscriptions (remove_tokens m tokens) = wm_subscriptions m.
Proof.
  intros H. unfold remove_tokens.
  assert (forall l m dirty, ledger_ok m dirty -> let '(m', dirty') := foldl remove_token (m, dirty) l in
    ledger_ok m' dirty' /\ dom (rt_assignments (wm_router m')) = dom (rt_assignments (wm_router m)) ∖ list_to_set l /\ wm_subscriptions m' = wm_subscriptions m) as Hf.
  { clear. induction l as [|t l IH]; intros m dirty H; cbn [foldl]; [split_and!; [done | set_solver | done]|].
    pose proof (remove_token_ok m dirty t H) as Ht. destruct (remove_token (m, dirty) t) as [m1 d1]. destruct Ht as (Hk & Hd & Hs).
    specialize (IH m1 d1 Hk). destruct (foldl _ (m1, d1) l) as [m2 d2]. destruct IH as (Hk2 & Hd2 & Hs2). split_and!; [done | set_solver | congruence]. }
  specialize (Hf tokens m ∅ H). destruct (foldl _ _ tokens) as [m' d']. destruct Hf as (Hk & Hd & Hs).
  apply publish_ok in Hk as (Hk & He & Hs'). rewrite He, Hs'. by split_and!.
Qed.

(** *** Runs of the feed *)

(** A call of the manager, an event of an actor (ignored where it cannot happen), or a receipt of
    the oldest event by the pipeline. *)
Inductive FeedEvent := FeCall (c : Call) | FeActor (i : nat) (e : ActorEvent) | FeReceive.

Definition feed_step (m : Manager) (x : Time * FeedEvent) : Manager :=
  match x.2 with
  | FeCall c => call m x.1 c
  | FeActor i e => unwrap_or (actor_step m i e x.1) m
  | FeReceive => set_feed m (wm_token_freshness m) (wm_last_message_at m) (drop 1 (wm_output m))
  end.

(** What only the manager's calls change. *)
Definition same_routes (m m' : Manager) : Prop :=
  wm_router m' = wm_router m /\ wm_subscriptions m' = wm_subscriptions m /\
  length (wm_health m') = length (wm_health m) /\ length (wm_actors m') = length (wm_actors m).

Lemma same_routes_trans m1 m2 m3 : same_routes m1 m2 -> same_routes m2 m3 -> same_routes m1 m3.
Proof. unfold same_routes. intuition congruence. Qed.

Lemma try_send_frame m e : same_routes m (try_send m e) /\ wm_health (try_send m e) = wm_health m /\ wm_actors (try_send m e) = wm_actors m.
Proof. unfold try_send. by destruct (_ <? _)%nat. Qed.

Lemma dispatch_frame m events t : same_routes m (dispatch_events m events t) /\
  wm_health (dispatch_events m events t) = wm_health m /\ wm_actors (dispatch_events m events t) = wm_actors m.
Proof.
  unfold dispatch_events.
  assert (forall l x, same_routes m x /\ wm_health x = wm_health m /\ wm_actors x = wm_actors m ->
    let y := foldl (fun m e => try_send (set_feed m (mark_event_tokens (wm_token_freshness m) e t) (wm_last_message_at m) (wm_output m)) e) x l in
    same_routes m y /\ wm_health y = wm_health m /\ wm_actors y = wm_actors m) as H.
  { induction l as [|e l IH]; intros x Hx; [done|]. cbn [foldl]. apply IH.
    match goal with |- context [try_send ?z e] => destruct (try_send_frame z e) as (H1 & H2 & H3) end. rewrite H2, H3.
    destruct Hx as (Hx1 & Hx2 & Hx3). split_and!; [|done|done]. eapply same_routes_trans; [|exact H1]. done. }
  apply H. by destruct events.
Qed.

Lemma length_set_connected slots i b now : length (health_set_connected slots i b now) = length slots.
Proof. apply length_alter. Qed.
#[local] Arguments health_set_connected : simpl never.

Lemma end_session_frame m i a e now : same_routes m (end_session m i a e now).
Proof.
  unfold end_session, emit_status. match goal with |- context [try_send ?z ?e] => destruct (try_send_frame z e) as (H1 & H2 & H3) end.
  destruct H1 as (H1 & H4 & H5 & H6). unfold same_routes. cbn in *. by rewrite H1, H4, H5, length_insert, H6, length_set_connected.
Qed.

Lemma set_actor_frame m i a : same_routes m (set_actor m i a).
Proof. unfold same_routes. cbn. by rewrite length_insert. Qed.

Lemma actor_frame m i e now m' : actor_step m i e now = Some m' -> same_routes m m'.
Proof.
  unfold actor_step. destruct (wm_actors m !! i) as [a|]; [|done]. destruct (rt_shards (wm_router m) !! i) as [slot|]; [|done].
  cbn [mbind option_bind]. intros H.
  destruct (ws_phase a), e; try done;
    repeat case_bool_decide; try done; try (injection H as <-); try done;
    try (by apply set_actor_frame); try (by apply end_session_frame); try (by apply dispatch_frame).
  - unfold actor_turn. case_bool_decide; [apply set_actor_frame|]. eapply same_routes_trans; [apply (try_send_frame m)|apply set_actor_frame].
  - unfold actor_subscribed in H. destruct (omap _ _); [done|]. injection H as <-.
    eapply same_routes_trans; [|apply try_send_frame]. unfold same_routes. cbn. by rewrite length_insert, length_set_connected.
  - unfold actor_tokens_changed. case_bool_decide; [apply set_actor_frame | apply end_session_frame].
Qed.

(** The transport's tokens are the union of the sources' sets. *)
Definition feed_ok (m : Manager) : Prop :=
  ledger_ok m ∅ /\ dom (rt_assignments (wm_router m)) = active_tokens (wm_subscriptions m).

Lemma ledger_ext m m' dirty : same_routes m m' -> ledger_ok m dirty -> ledger_ok m' dirty.
Proof. intros (Hr & _ & Hh & Ha) [H1 H2 H3 H4 H5 H6]. split; rewrite ?Hr, ?Hh, ?Ha; done. Qed.

Lemma call_ok m now c : feed_ok m -> feed_ok (call m now c).
Proof.
  intros [Hk Hd]. unfold call.
  assert (exists u m1, call_begin m c = (m1, u) /\ same_routes (set_subscriptions m (wm_subscriptions m1)) m1 /\
    (forall t, t ∈ active_tokens (wm_subscriptions m1) <-> (t ∈ active_tokens (wm_subscriptions m) \/ t ∈ ud_assign u) /\ t ∉ ud_remove u)) as (u & m1 & -> & Hm & Hu).
  { destruct c as [source tokens|source tokens|source tokens]; cbn [call_begin].
    - pose proof (sub_add_spec (wm_subscriptions m) source tokens) as H. destruct (sub_add _ _ _) as [subs newly]. destruct H as (_ & _ & Ha & Hn).
      eexists _, _. split; [reflexivity|]. split; [done|]. cbn. intros t. rewrite Hn, Ha, elem_of_union, elem_of_list_to_set, elem_of_nil.
      destruct (decide (t ∈ active_tokens (wm_subscriptions m))); tauto.
    - pose proof (sub_remove_spec (wm_subscriptions m) source tokens) as H. destruct (sub_remove _ _ _) as [subs gone]. destruct H as (_ & _ & Hg & Hs).
      eexists _, _. split; [reflexivity|]. split; [done|]. cbn. intros t. rewrite Hg, elem_of_nil. specialize (Hs t).
      destruct (decide (t ∈ active_tokens subs)); tauto.
    - pose proof (sub_sync_spec (wm_subscriptions m) source (list_to_set tokens)) as H. destruct (sub_sync _ _ _) as [[subs to_sub] to_unsub]. destruct H as (_ & _ & Ha & Hr).
      eexists _, _. split; [reflexivity|]. split; [done|]. cbn. intros t. rewrite Ha, Hr.
      destruct (decide (t ∈ active_tokens subs)), (decide (t ∈ active_tokens (wm_subscriptions m))); tauto. }
  destruct Hm as (Hr & _ & Hh & Ha). cbn in Hr, Hh, Ha.
  assert (ledger_ok m1 ∅) as Hk1. { destruct Hk as [H1 H2 H3 H4 H5 H6]. split; rewrite ?Hr, ?Hh, ?Ha; done. }
  assert (dom (rt_assignments (wm_router m1)) = active_tokens (wm_subscriptions m)) as Hd1 by (by rewrite Hr).
  unfold call_finish.
  set (m2 := match ud_assign u with [] => m1 | tokens => assign_tokens m1 now tokens end).
  assert (ledger_ok m2 ∅ /\ dom (rt_assignments (wm_router m2)) = list_to_set (ud_assign u) ∪ active_tokens (wm_subscriptions m) /\ wm_subscriptions m2 = wm_subscriptions m1) as (Hk2 & Hd2 & Hs2).
  { unfold m2. destruct (ud_assign u) as [|t l]; [split_and!; [done | rewrite Hd1; set_solver | done]|]. rewrite <- Hd1. by apply assign_tokens_ok. }
  destruct (ud_remove u) as [|t l] eqn:Er.
  - split; [done|]. rewrite Hd2, Hs2. apply set_eq. intros t. rewrite elem_of_union, elem_of_list_to_set, Hu, elem_of_nil. tauto.
  - destruct (remove_tokens_ok m2 (t :: l) Hk2) as (Hk3 & Hd3 & Hs3). split; [by eapply ledger_ext; [|exact Hk3]|].
    cbn [prune set_feed wm_router wm_subscriptions]. rewrite Hd3, Hd2, Hs3, Hs2. apply set_eq. intros x.
    rewrite elem_of_difference, elem_of_union, !elem_of_list_to_set, Hu. tauto.
Qed.

Lemma feed_step_ok m x : feed_ok m -> feed_ok (feed_step m x).
Proof.
  intros H. destruct x as [now [c|i e|]]; unfold feed_step; cbn [fst snd].
  - by apply call_ok.
  - destruct (actor_step m i e now) as [m'|] eqn:E; [|done]. cbn [unwrap_or]. apply actor_frame in E. destruct H as [Hk Hd].
    split; [by eapply ledger_ext|]. destruct E as (Hr & Hs & _). by rewrite Hr, Hs.
  - destruct H as [Hk Hd]. split; [by eapply ledger_ext; [|exact Hk]|done].
Qed.

Lemma new_manager_ok : feed_ok (new_ws_manager cap).
Proof.
  split; [split; cbn; try done|].
  - cbn. unfold active_tokens. cbn. by rewrite dom_empty_L, union_empty_l_L.
Qed.

Lemma feed_run_ok steps : feed_ok (foldl feed_step (new_ws_manager cap) steps).
Proof.
  assert (forall m, feed_ok m -> feed_ok (foldl feed_step m steps)) as H; [|apply H, new_manager_ok].
  induction steps as [|x steps IH]; intros m Hm; [done|]. apply IH. by apply feed_step_ok.
Qed.

(** C23: When the calls of the engine and of the web console do not overlap, the transport follows them:
    whatever the actors do in between, the tokens published to the shards are exactly those that
    the engine or the console holds, each on one shard, and no shard has more than its share. *)
Theorem transport_serves_union steps :
  let m := foldl feed_step (new_ws_manager cap) steps in
  let shards := rt_shards (wm_router m) in
  (forall t, t ∈ ss_engine (wm_subscriptions m) \/ t ∈ ss_web (wm_subscriptions m) <-> exists i slot, shards !! i = Some slot /\ t ∈ sh_published slot) /\
  (forall t i j slot slot', shards !! i = Some slot -> shards !! j = Some slot' -> t ∈ sh_published slot -> t ∈ sh_published slot' -> i = j) /\
  (forall i slot, shards !! i = Some slot -> (size (sh_published slot) <= Nat.max cap 1)%nat).
Proof.
  intros m shards. destruct (feed_run_ok steps) as [[H1 H2 H3 H4 H5 _] Hd]. fold m in H1, H2, H3, H4, H5, Hd. fold shards in H1, H2, H3, H5.
  assert (forall i slot, shards !! i = Some slot -> sh_published slot = sh_assigned slot) as Hp by (intros i slot Hi; by apply (H5 i slot)).
  split_and!.
  - intros t. rewrite <- elem_of_union. change (ss_engine _ ∪ ss_web _) with (active_tokens (wm_subscriptions m)). rewrite <- Hd, elem_of_dom. split.
    + intros [i Hi]. destruct (H1 t i Hi) as (slot & Hs & Hin). exists i, slot. by rewrite (Hp _ _ Hs).
    + intros (i & slot & Hs & Hin). rewrite (Hp _ _ Hs) in Hin. eexists. by eapply H2.
  - intros t i j slot slot' Hi Hj Ht Ht'. rewrite (Hp _ _ Hi) in Ht. rewrite (Hp _ _ Hj) in Ht'.
    pose proof (H2 _ _ _ Hi Ht) as E. rewrite (H2 _ _ _ Hj Ht') in E. by injection E.
  - intros i slot Hi. rewrite (Hp _ _ Hi), <- H4. by eapply H3.
Qed.

(** *** The health board *)

(** The board shows a shard as connected exactly while its actor streams, and what an actor that has
    seen the last update does fits its tokens: parked without any, else working for them. *)
Definition actor_ok (a : WsShard) (hs : HealthSlot) (slot : ShardSlot) : Prop :=
  (hs_connected hs = true <-> exists T, ws_phase a = Streaming T) /\
  ws_seen a <= sh_version slot /\
  (ws_seen a = sh_version slot -> forall T, ws_phase a = Streaming T \/ ws_phase a = Connecting T -> T = sh_published slot) /\
  (forall T, ws_phase a = Streaming T \/ ws_phase a = Connecting T -> T <> ∅).

Definition board_ok (m : Manager) : Prop := forall i a hs slot,
  wm_actors m !! i = Some a -> wm_health m !! i = Some hs -> rt_shards (wm_router m) !! i = Some slot -> actor_ok a hs slot.

(** A step of one actor that leaves the shards alone. *)
Lemma board_actor m m' i a' b now :
  board_ok m -> wm_router m' = wm_router m -> wm_actors m' = <[i := a']> (wm_actors m) ->
  wm_health m' = health_set_connected (wm_health m) i b now \/ (wm_health m' = wm_health m /\ forall hs, wm_health m !! i = Some hs -> hs_connected hs = b) ->
  (forall hs slot, rt_shards (wm_router m) !! i = Some slot -> hs_connected hs = b -> actor_ok a' hs slot) -> board_ok m'.
Proof.
  intros H Er Ea Eh Hok j a hs slot. rewrite Er, Ea. intros Hj Hh Hs. apply list_lookup_insert_Some in Hj as [(<- & <- & _)|[Hne Hj]].
  - apply Hok; [done|]. destruct Eh as [Eh|[Eh Hb]]; rewrite Eh in Hh; [|by apply Hb]. unfold health_set_connected in Hh. rewrite list_lookup_alter_eq in Hh.
    apply fmap_Some in Hh as (h & Hh & ->). destruct (Bool.eqb (hs_connected h) b) eqn:E; [by apply eqb_prop in E | done].
  - destruct Eh as [Eh|[Eh Hb]]; rewrite Eh in Hh; [|by eapply H]. unfold health_set_connected in Hh. rewrite list_lookup_alter_ne in Hh by done. by eapply H.
Qed.

Lemma idle_ok hs slot p seen r : hs_connected hs = false -> (forall T, p <> Streaming T /\ p <> Connecting T) -> seen <= sh_version slot ->
  actor_ok {| ws_phase := p; ws_seen := seen; ws_retries := r |} hs slot.
Proof.
  intros Hh Hp Hs. split_and!; cbn; [|done|..].
  - rewrite Hh. split; [done|]. intros [T HT]. by destruct (Hp T).
  - intros _ T [HT|HT]; by destruct (Hp T).
  - intros T [HT|HT]; by destruct (Hp T).
Qed.

Lemma end_session_board m i a e now : board_ok m -> (forall slot, rt_shards (wm_router m) !! i = Some slot -> ws_seen a <= sh_version slot) -> board_ok (end_session m i a e now).
Proof.
  intros H Hs. unfold end_session, emit_status. destruct (try_send_frame (set_connected m i false now) (EvShardStatus i ShDisconnected)) as ((Hr & _) & Hh & Ha).
  eapply (board_actor m _ i _ false now H); [exact Hr | cbn; by rewrite Ha | left; cbn; by rewrite Hh|].
  intros hs slot Hslot Hf. specialize (Hs _ Hslot). destruct e as [| |[d|]|]; by apply idle_ok.
Qed.

Lemma board_step m i e now m' : ledger_ok m ∅ -> board_ok m -> actor_step m i e now = Some m' -> board_ok m'.
Proof.
  intros [_ _ _ _ _ [Hl _]] H. unfold actor_step. destruct (wm_actors m !! i) as [a|] eqn:Ea; [|done]. destruct (rt_shards (wm_router m) !! i) as [slot|] eqn:Es; [|done].
  cbn [mbind option_bind]. intros E.
  destruct (wm_health m !! i) as [hs|] eqn:Eh; [|apply lookup_ge_None in Eh; apply lookup_lt_Some in Es; lia].
  pose proof (H i a hs slot Ea Eh Es) as (Hc & Hseen & Hcur & Hne).
  assert ((forall T, ws_phase a <> Streaming T) -> hs_connected hs = false) as Hoff.
  { intros Hp. destruct (hs_connected hs); [|done]. destruct (proj1 Hc eq_refl) as [T HT]. by apply Hp in HT. }
  assert (forall p seen r, (forall T, p <> Streaming T /\ p <> Connecting T) -> seen <= sh_version slot -> (forall T, ws_phase a <> Streaming T) ->
    board_ok (set_actor m i {| ws_phase := p; ws_seen := seen; ws_retries := r |})) as Hgo.
  { intros p seen r Hp Hle Hn. eapply (board_actor m _ i _ false now H); [done | done | right; split; [done|] |].
    - intros hs' Hh'. simplify_eq. by apply Hoff.
    - intros hs' slot' Hs' Hf. simplify_eq. by apply idle_ok. }
  assert (forall d, board_ok (end_session m i a d now)) as Hend by (intros d; apply end_session_board; [done|]; intros s Hs; by simplify_eq).
  destruct (ws_phase a) as [| |T|T| |] eqn:Ep, e; try done; repeat case_bool_decide; try done; try (injection E as <-);
    try (by apply Hend); try done; try (by apply Hgo).
  - unfold actor_turn. case_bool_decide as Hemp; [by apply Hgo|].
    destruct (try_send_frame m (EvShardStatus i (ShReconnecting (ws_retries a)))) as ((Hr & _) & Hh & Ha).
    eapply (board_actor m _ i _ false now H); [exact Hr | cbn; unfold emit_status; by rewrite Ha | right; split; [exact Hh|] |].
    + intros hs' Hh'. simplify_eq. by apply Hoff.
    + intros hs' slot' Hs' Hf. simplify_eq. split_and!; cbn; [|lia|..].
      * rewrite Hf. split; [done|]. by intros [T HT].
      * intros _ T [HT|HT]; [done|]. by injection HT.
      * intros T [HT|HT]; [done|]. by injection HT as <-.
  - unfold actor_subscribed in E. destruct (omap _ _); [done|]. injection E as <-.
    match goal with |- context [emit_status ?z i ?s] => destruct (try_send_frame z (EvShardStatus i s)) as ((Hr & _) & Hh & Ha) end.
    eapply (board_actor m _ i _ true now H); [exact Hr | exact Ha | left; exact Hh|].
    intros hs' slot' Hs' Hf. simplify_eq. split_and!; cbn; [|done|..].
    + rewrite Hf. split; [by eexists | done].
    + intros Hv T' [HT|HT]; [|done]. injection HT as <-. apply Hcur; [done | by right].
    + intros T' [HT|HT]; [|done]. injection HT as <-. apply Hne. by right.
  - destruct (dispatch_frame m (normalize_ws_message msg) now) as ((Hr & _) & Hh & Ha). intros j b h s. rewrite Hr, Hh, Ha. apply H.
  - unfold actor_tokens_changed. case_bool_decide as Heq.
    + eapply (board_actor m _ i _ true now H); [done | done | right; split; [done|] |].
      * intros hs' Hh'. simplify_eq. apply Hc. by eexists.
      * intros hs' slot' Hs' Hf. simplify_eq. rewrite Ep. split_and!; cbn; [|lia|..].
        -- rewrite Hf. split; [by eexists | done].
        -- intros _ T' [HT|HT]; [|done]. by injection HT.
        -- intros T' [HT|HT]; [|done]. injection HT as <-. apply Hne. by left.
    + apply end_session_board; [done|]. intros s Hs. simplify_eq. cbn. lia.
Qed.

(** *** Calls and the board *)

(** Shards that keep their tokens published, or publish others under a new version. *)
Lemma board_shards m m' : board_ok m -> wm_actors m' = wm_actors m -> wm_health m' = wm_health m ->
  (forall i slot', rt_shards (wm_router m') !! i = Some slot' -> exists slot, rt_shards (wm_router m) !! i = Some slot /\
    (sh_version slot < sh_version slot' \/ (sh_version slot' = sh_version slot /\ sh_published slot' = sh_published slot))) -> board_ok m'.
Proof.
  intros H Ea Eh Hs i a hs slot'. rewrite Ea, Eh. intros Ha Hh Hslot'. destruct (Hs i slot' Hslot') as (slot & Hslot & Hv).
  destruct (H i a hs slot Ha Hh Hslot) as (H1 & H2 & H3 & H4). destruct Hv as [Hv|[Hv Hp]]; split_and!; try done; try lia.
  rewrite Hv, Hp. exact H3.
Qed.

Lemma assign_token_board now m dirty token : ledger_ok m dirty -> board_ok m -> board_ok (assign_token now (m, dirty) token).1.
Proof.
  intros [_ _ _ _ _ [H6 H7]] H. unfold assign_token. case_bool_decide; [done|].
  assert (board_ok (pick_shard m now).1) as Hp.
  { unfold pick_shard. destruct (first_spare _ _ _); [done|]. intros j a hs slot. cbn. unfold health_register.
    rewrite (lookup_app _ _ j). rewrite H7. intros Ha Hh Hs.
    apply lookup_app_Some in Hs as [Hs|[Hge Hs]].
    - pose proof (lookup_lt_Some _ _ _ Hs) as Hlt. rewrite lookup_app_l in Hh by lia. destruct (wm_actors m !! j) as [a0|] eqn:E0; [|apply lookup_ge_None in E0; lia].
      injection Ha as <-. by eapply H.
    - destruct (wm_actors m !! j) as [a0|] eqn:E0; [apply lookup_lt_Some in E0; lia|]. apply list_lookup_singleton_Some in Hs as [Hj <-].
      assert (j = length (rt_shards (wm_router m))) as -> by lia. rewrite Nat.sub_diag in Ha. injection Ha as <-.
      rewrite lookup_app_r in Hh by lia. rewrite H6, Nat.sub_diag in Hh. apply lookup_replicate in Hh as [-> _]. by apply idle_ok. }
  destruct (pick_shard m now) as [m1 i]. cbn [fst] in *. apply (board_shards m1); [done..|].
  intros j slot' Hj. cbn in Hj. destruct (decide (j = i)) as [->|].
  - rewrite list_lookup_alter_eq in Hj. apply fmap_Some in Hj as (slot & Hj & ->). exists slot. split; [done|]. by right.
  - rewrite list_lookup_alter_ne in Hj by done. exists slot'. split; [done|]. by right.
Qed.

Lemma remove_token_board m dirty token : board_ok m -> board_ok (remove_token (m, dirty) token).1.
Proof.
  intros H. unfold remove_token. destruct (rt_assignments (wm_router m) !! token) as [i|]; [|done]. destruct (rt_shards (wm_router m) !! i) as [slot|] eqn:Ei; [|done].
  apply (board_shards m); [done..|]. intros j slot' Hj. cbn in Hj. apply list_lookup_insert_Some in Hj as [(<- & <- & _)|[_ Hj]].
  - exists slot. split; [done|]. by right.
  - exists slot'. split; [done|]. by right.
Qed.

Lemma publish_board m dirty : board_ok m -> board_ok (publish m dirty).
Proof.
  intros H. apply (board_shards m); [done..|]. intros i slot' Hi. cbn in Hi. rewrite list_lookup_imap in Hi. apply fmap_Some in Hi as (slot & Hi & ->).
  exists slot. split; [done|]. case_bool_decide; [left; cbn; lia | by right].
Qed.

Lemma call_board m now c : feed_ok m -> board_ok m -> board_ok (call m now c).
Proof.
  intros [Hk _] H. unfold call.
  assert (board_ok (call_begin m c).1 /\ ledger_ok (call_begin m c).1 ∅) as [H1 Hk1].
  { destruct c; cbn [call_begin]; [destruct (sub_add _ _ _) | destruct (sub_remove _ _ _) | destruct (sub_sync _ _ _) as [[? ?] ?]]; (split; [exact H|]);
      destruct Hk as [K1 K2 K3 K4 K5 K6]; by split. }
  destruct (call_begin m c) as [m1 u]. cbn [fst] in *. unfold call_finish. clear H Hk m c.
  assert (board_ok (match ud_assign u with [] => m1 | tokens => assign_tokens m1 now tokens end)) as H2.
  { destruct (ud_assign u) as [|t l]; [done|]. generalize (t :: l). intros tokens. unfold assign_tokens. generalize (∅ : gset nat) Hk1. intros dirty Hk. clear Hk1.
    revert m1 dirty H1 Hk. induction tokens as [|x tokens IH]; intros m1 dirty H1 Hk; cbn [foldl]; [by apply publish_board|].
    pose proof (assign_token_board now m1 dirty x Hk H1) as Hb. pose proof (assign_token_ok now m1 dirty x Hk) as Ha.
    destruct (assign_token now (m1, dirty) x) as [m2 d2]. destruct Ha as (Ha & _). by apply IH. }
  revert H2. generalize (match ud_assign u with [] => m1 | tokens => assign_tokens m1 now tokens end). clear m1 H1 Hk1. intros m H.
  destruct (ud_remove u) as [|t l]; [done|]. apply (board_shards (remove_tokens m (t :: l))); [|done|done|].
  - unfold remove_tokens. generalize (t :: l) (∅ : gset nat). intros tokens. revert m H. induction tokens as [|x tokens IH]; intros m H dirty; cbn [foldl]; [by apply publish_board|].
    pose proof (remove_token_board m dirty x H) as Hb. destruct (remove_token (m, dirty) x) as [m2 d2]. by apply IH.
  - intros i slot Hi. exists slot. split; [done|]. by right.
Qed.

Lemma board_run_ok steps : board_ok (foldl feed_step (new_ws_manager cap) steps).
Proof.
  assert (forall m, feed_ok m -> board_ok m -> board_ok (foldl feed_step m steps)) as H.
  { induction steps as [|x steps IH]; intros m Hf Hm; [done|]. cbn [foldl]. apply IH; [by apply feed_step_ok|].
    destruct x as [now [c|i e|]]; unfold feed_step; cbn [fst snd]; [by apply call_board | | done].
    destruct (actor_step m i e now) as [m'|] eqn:E; [|done]. eapply board_step; [apply Hf | exact Hm | exact E]. }
  apply H; [apply new_manager_ok|]. intros i a hs slot Ha. by destruct i.
Qed.

Lemma summary_disconnected slots now i hs : slots !! i = Some hs -> hs_connected hs = false -> 0 < hm_disconnected (health_summary slots now).
Proof.
  intros Hi Hc. cbn. apply list_elem_of_lookup_2 in Hi. assert (hs ∈ List.filter (fun slot => negb (hs_connected slot)) slots) as Hin.
  { rewrite list_elem_of_In, filter_In, <- list_elem_of_In. by rewrite Hc. }
  destruct (List.filter _ slots) as [|x l]; [by apply elem_of_nil in Hin|]. cbn. lia.
Qed.

(** A shard whose tokens were all taken away, and whose actor has noticed, counts as disconnected
    for as long as it has none. *)
Lemma empty_shard_disconnected steps now i a slot :
  let m := foldl feed_step (new_ws_manager cap) steps in
  rt_shards (wm_router m) !! i = Some slot -> wm_actors m !! i = Some a -> sh_published slot = ∅ -> ws_seen a = sh_version slot ->
  0 < hm_total (shard_health m now) /\ 0 < hm_disconnected (shard_health m now).
Proof.
  intros m Hs Ha He Hv. destruct (feed_run_ok steps) as [[_ _ _ _ _ [Hl _]] _]. fold m in Hl.
  destruct (wm_health m !! i) as [hs|] eqn:Hh; [|apply lookup_ge_None in Hh; apply lookup_lt_Some in Hs; lia].
  destruct (board_run_ok steps i a hs slot Ha Hh Hs) as (Hc & _ & Hcur & Hne). split.
  - cbn. apply lookup_lt_Some in Hh. lia.
  - eapply summary_disconnected; [exact Hh|]. destruct (hs_connected hs) eqn:E; [|done]. destruct (proj1 Hc eq_refl) as [T HT].
    exfalso. apply (Hne T); [by left|]. rewrite (Hcur Hv T); [done | by left].
Qed.

(** *** Overlapping calls *)

(** Calls whose two steps interleave; the second component holds the updates still to be made. *)
Inductive overlap_step : Manager * list Update -> Manager * list Update -> Prop :=
| OverlapBegin m us c m' u : call_begin m c = (m', u) -> overlap_step (m, us) (m', us ++ [u])
| OverlapFinish m us1 u us2 now : overlap_step (m, us1 ++ u :: us2) (call_finish m now u, us1 ++ us2).

Lemma overlap_begin m us c : overlap_step (m, us) ((call_begin m c).1, us ++ [(call_begin m c).2]).
Proof. apply (OverlapBegin _ _ c). by destruct (call_begin m c). Qed.

(** ** Normalised changes *)

(** The change stores a positive size. *)
Definition stores_a_size (c : PriceLevelDelta) : Prop :=
  exists level, pd_price c = price_decimal level /\ pd_size c = size_decimal level /\ 0 < lv_size level <= i64_max.

Lemma group_change_positive grouped entry :
  (forall id l, grouped !! id = Some l -> Forall stores_a_size l) ->
  forall id l, group_change grouped entry !! id = Some l -> Forall stores_a_size l.
Proof.
  intros H id l. unfold group_change. destruct (side_try_from _) as [side|]; [|by apply H]. destruct (level_from_decimal _ _) as [level|] eqn:El; [|by apply H].
  unfold is_positive. destruct (Z.ltb_spec 0 (lv_size level)) as [Hp|]; [|by apply H].
  intros [[<- <-]|[_ Hl]]%lookup_insert_Some; [|by eapply H]. apply Forall_app. split.
  - destruct (grouped !! _) as [l|] eqn:E; [by eapply H | constructor].
  - constructor; [|constructor]. exists level. split_and!; [done..|]. unfold level_from_decimal in El. destruct (_ || _); [done|].
    destruct (try_from_decimal (pe_price entry)); [|done]. destruct (try_from_decimal (unwrap_or _ _)) as [s|] eqn:Es; [|done]. injection El as <-.
    cbn in *. unfold try_from_decimal in Es. destruct (dsign_neg _); [done|]. destruct (to_i64 _) as [v|] eqn:Ev; [|done]. destruct (0 <=? v); [|done]. injection Es as <-.
    apply checked_Some in Ev as [-> Hz]. lia.
Qed.

(** No change that reaches the pipeline removes a price, whatever the venue announced. *)
Lemma price_changes_positive timestamp price_changes cmd :
  EvPriceDelta cmd ∈ price_change_events timestamp price_changes -> Forall stores_a_size (dc_changes cmd).
Proof.
  unfold price_change_events. intros ([id l] & [= ->] & Hin)%list_elem_of_fmap. apply elem_of_map_to_list in Hin. cbn. revert Hin.
  assert (forall g, (forall id l, g !! id = Some l -> Forall stores_a_size l) -> forall id l, foldl group_change g price_changes !! id = Some l -> Forall stores_a_size l) as H.
  { induction price_changes as [|e es IH]; intros g Hg; [done|]. cbn [foldl]. apply IH. intros i l'. by apply group_change_positive. }
  intros Hl. eapply H; [|exact Hl]. intros i l'. by rewrite lookup_empty.
Qed.

(** Changes that store sizes keep every price of both sides. *)
Lemma stores_keep_prices {DL : DecimalLaws DO} ob (changes : list PriceLevelDelta) ts : book_ok ob -> Forall stores_a_size changes ->
  let ob' := apply_delta_cow ob ((fun c => (pd_side c, pd_price c, pd_size c)) <$> changes) ts in
  book_ok ob' /\ (forall p, is_Some (side_map (ob_bids ob) !! p) -> is_Some (side_map (ob_bids ob') !! p)) /\
  (forall p, is_Some (side_map (ob_asks ob) !! p) -> is_Some (side_map (ob_asks ob') !! p)).
Proof.
  intros Hok Hc ob'. split; [by apply delta_keeps_book_ok|]. unfold ob', apply_delta_cow.
  assert (let '(b, a) := split_changes ob ((fun c => (pd_side c, pd_price c, pd_size c)) <$> changes) in
    Forall (fun l => 0 < lv_size l) b /\ Forall (fun l => 0 < lv_size l) a) as Hp.
  { induction Hc as [|c changes (level & Hpr & Hsz & Hs) _ IH]; [done|]. cbn [fmap list_fmap split_changes].
    destruct (split_changes _ _) as [b a]. rewrite Hpr, Hsz. destruct (level_from_decimal _ _) as [l|] eqn:E; [|done].
    assert (0 < lv_size l) as Hl.
    { unfold level_from_decimal in E. destruct (_ || _); [done|]. destruct (try_from_decimal _); [|done].
      unfold size_decimal in E. rewrite micro_decimal_roundtrip in E by done. injection E as <-. cbn. lia. }
    destruct (route ob _ _ l), IH as [IH1 IH2]; split; by try constructor. }
  destruct (split_changes _ _) as [b a]. destruct Hp as [Hb Ha], Hok as [Ok1 Ok2]. cbn [ob_bids ob_asks].
  assert (forall (m : gmap MicroPrice MicroShares) (l : list BookLevel), Forall (fun l => 0 < lv_size l) l -> forall p, is_Some (m !! p) -> is_Some (foldl map_delta m l !! p)) as Hgrow.
  { clear. intros m l Hl. revert m. induction Hl as [|x l Hx _ IH]; intros m p Hp; [done|]. cbn [foldl]. apply IH. unfold map_delta, is_positive.
    apply Z.ltb_lt in Hx. rewrite Hx. destruct (decide (lv_price x = p)) as [->|]; [by rewrite lookup_insert_eq | by rewrite lookup_insert_ne]. }
  rewrite (proj2 (apply_side_deltas_spec true b _ Ok1)), (proj2 (apply_side_deltas_spec false a _ Ok2)). split; by apply Hgrow.
Qed.
End Transport.

(** ** A feed in use *)

Module FeedDemo.
#[local] Existing Instance ExactQ.exactQ.
#[local] Instance texts : Uint256 := {| u256_to_string := fun z => pretty z; u256_from_str := fun _ => Some 0; b256_hex := fun z => pretty z |}.

(** The console's removal and the engine's subscription overlap: the engine holds the token, no
    shard has it, and asking again changes nothing. *)
Lemma overlap_loses_engine_token :
  exists m : ClobWsManager, rtc overlap_step (new_ws_manager 2, []) (m, []) /\ ss_engine (wm_subscriptions m) = {["t"]} /\
    Forall (fun slot => sh_published slot = ∅) (rt_shards (wm_router m)) /\
    Forall (fun slot => sh_published slot = ∅) (rt_shards (wm_router (call m 0 (SyncTokens SrcEngine ["t"])))).
Proof.
  set (m1 := call (new_ws_manager 2) 0 (Subscribe SrcWeb ["t"])).
  set (b2 := call_begin m1 (Unsubscribe SrcWeb ["t"])). set (b3 := call_begin b2.1 (Subscribe SrcEngine ["t"])).
  set (m4 := call_finish b3.1 0 b3.2). set (m5 := call_finish m4 0 b2.2).
  exists m5. split; [|split_and!; [vm_compute; reflexivity | | ]; apply (bool_decide_unpack _); vm_compute; reflexivity].
  set (b1 := call_begin (new_ws_manager 2) (Subscribe SrcWeb ["t"])).
  apply (rtc_l _ _ (b1.1, [b1.2])); [apply (overlap_begin _ [])|].
  apply (rtc_l _ _ (m1, [])); [apply (OverlapFinish b1.1 [] b1.2 [] 0)|].
  apply (rtc_l _ _ (b2.1, [b2.2])); [apply (overlap_begin m1 [])|].
  apply (rtc_l _ _ (b3.1, [b2.2; b3.2])); [apply (overlap_begin b2.1 [b2.2])|].
  apply (rtc_l _ _ (m4, [b2.2])); [apply (OverlapFinish b3.1 [b2.2] b3.2 [] 0)|].
  apply (rtc_l _ _ (m5, [])); [apply (OverlapFinish m4 [] b2.2 [] 0) | reflexivity].
Qed.
End FeedDemo.
