(* ===== verification/Ingestion.v ===== *)
(** * Ingestion of market data: [oxide-arb-core/src/pipeline], [oxide-arb-core/src/detection]

    The book store, the sharded pipeline that applies the feed's events to it with its
    backpressure, the coalescer that turns token updates into market scans, and the bounded
    priority queue in front of execution.  A [DashMap] is a finite map, a bounded channel a list
    with a capacity; metrics, log lines, latency traces and the writers of facts are left out.  The
    hash that places a token on a worker is a parameter. *)

From S2P Require Import Prelude Decimal Micro Config Domain Book OrderBook Execution Positions Markets MarketFeed Settlement.

(** ** The book store *)

Section Store.
Context {DO : DecimalOps}.

(** [core/pipeline/book_store.rs:28-32] `TokenBookState` *)
Record TokenBookState := { tb_live : OrderBook; tb_published : BookSnapshot; tb_version : Z }.

(** The books that a `BookStore` of core/pipeline/book_store.rs holds, by their token. *)
Abbreviation BookStore := (gmap TokenId TokenBookState).

(** [core/pipeline/book_store.rs:55-80] `BookStore::get_or_create_state`: the state of an unknown token *)
Definition new_state (token : TokenId) : TokenBookState := {|
  tb_live := new_order_book token; tb_published := new_book_snapshot [] [] 0 0; tb_version := 0 |}.
Definition get_or_create_state (store : BookStore) (token : TokenId) : TokenBookState := unwrap_or (store !! token) (new_state token).

(** [core/pipeline/book_store.rs:82-86] `BookStore::bump_and_publish` *)
Definition bump_and_publish (state : TokenBookState) (book : OrderBook) : TokenBookState :=
  let version := wrap_u64 (tb_version state + 1) in
  {| tb_live := book; tb_published := publish_cow book version; tb_version := version |}.

(** [core/pipeline/book_store.rs:105-109] `BookStore::load` *)
Definition load (store : BookStore) (token : TokenId) : option BookSnapshot := tb_published <$> store !! token.

(** [core/pipeline/book_store.rs:113-117] `BookStore::book_version` *)
Definition book_version (store : BookStore) (token : TokenId) : Z := match store !! token with Some s => tb_version s | None => 0 end.

(** [core/pipeline/book_store.rs:119-140] `BookStore::apply_snapshot` *)
Definition store_apply_snapshot (store : BookStore) (token : TokenId) (bids asks : list BookLevel) (timestamp_ms : Z) : BookStore :=
  let state := get_or_create_state store token in
  <[token := bump_and_publish state (apply_snapshot_validated (tb_live state) bids asks timestamp_ms)]> store.

(** [core/pipeline/book_store.rs:142-163] `BookStore::apply_delta` *)
Definition store_apply_delta (store : BookStore) (token : TokenId) (changes : list (Side * D * D)) (timestamp_ms : Z) : BookStore :=
  let state := get_or_create_state store token in
  <[token := bump_and_publish state (apply_delta_cow (tb_live state) changes timestamp_ms)]> store.

(** [core/pipeline/book_store.rs:172-175] `BookStore::remove` *)
Definition store_remove (store : BookStore) (token : TokenId) : BookStore := delete token store.

(** [core/pipeline/book_store.rs:177-179] `BookStore::token_count` *)
Definition token_count (store : BookStore) : nat := size store.

(** [core/pipeline/book_store.rs:181-186] `BookStore::published_snapshots` *)
Definition published_snapshots (store : BookStore) : list (TokenId * BookSnapshot) := prod_map id tb_published <$> map_to_list store.

(** [core/pipeline/book_store.rs:190-194] `BookStore::load_pair`, also `DualBookAssembler::assemble` *)
Definition load_pair (store : BookStore) (token_yes token_no : TokenId) : option EndgameBookPair :=
  yes ← load store token_yes; no ← load store token_no; Some {| bp_yes := yes; bp_no := no |}.

(** [core/pipeline/book_store.rs:198-218] `BookStore::top_of_book_tokens` *)
Definition top_of_book_tokens (store : BookStore) (token_yes token_no : TokenId) (now_ms : Z) : option TopOfBook :=
  top_of_book (load store token_yes) (load store token_no) now_ms.

(** [core/pipeline/book_store.rs:221-229] `BookStore::top_of_book` *)
Definition store_top_of_book (store : BookStore) (registry : MarketRegistry) (market_id : MarketId) (now_ms : Z) : option TopOfBook :=
  '(token_yes, token_no) ← token_pair registry market_id; top_of_book_tokens store token_yes token_no now_ms.

(** ** The pipeline *)

(** [core/observability/backpressure.rs:21-28] `BackpressureAction` *)
Inductive BackpressureAction := BpCoalesced | BpDeduped | BpDropped.

(** [core/observability/backpressure.rs:15-15] `COALESCER_DEDUP_WINDOW` *)
Definition coalescer_dedup_window : Z := 500000.

(** Where the hash of a token id puts it. *)
Class Sharding := { hash_one : string -> Z }.
Context {SH : Sharding}.

(** [core/infra/sharding.rs:13-17] `shard_index` *)
Definition shard_index (id : string) (shard_count : nat) : nat :=
  let shards := Nat.max shard_count 1 in Z.to_nat (hash_one id mod Z.of_nat shards).

(** One worker: its channel and the events coalesced while the channel was full. *)
Record BookShard := { bh_queue : list PipelineEvent; bh_coalesce : gmap TokenId PipelineEvent }.

(** [core/pipeline/data_pipeline.rs:63-78] `DataPipeline`, with the channels it feeds and the policy of observability/backpressure.rs *)
Record DataPipeline := {
  dp_books : BookStore;
  dp_registry : MarketRegistry;
  dp_shards : list BookShard;
  dp_capacity : nat;
  dp_coalescer_tx : list TokenId;
  dp_coalescer_capacity : nat;
  dp_coalescer_dedup : gmap TokenId Time;
  dp_settlement_tx : list MarketSettlementRequest;
  dp_settlement_capacity : nat;
  dp_market_data_nudged : bool
}.

Definition set_books (p : DataPipeline) books : DataPipeline := {|
  dp_books := books; dp_registry := dp_registry p; dp_shards := dp_shards p; dp_capacity := dp_capacity p; dp_coalescer_tx := dp_coalescer_tx p;
  dp_coalescer_capacity := dp_coalescer_capacity p; dp_coalescer_dedup := dp_coalescer_dedup p; dp_settlement_tx := dp_settlement_tx p;
  dp_settlement_capacity := dp_settlement_capacity p; dp_market_data_nudged := dp_market_data_nudged p |}.
Definition set_shards (p : DataPipeline) shards nudged : DataPipeline := {|
  dp_books := dp_books p; dp_registry := dp_registry p; dp_shards := shards; dp_capacity := dp_capacity p; dp_coalescer_tx := dp_coalescer_tx p;
  dp_coalescer_capacity := dp_coalescer_capacity p; dp_coalescer_dedup := dp_coalescer_dedup p; dp_settlement_tx := dp_settlement_tx p;
  dp_settlement_capacity := dp_settlement_capacity p; dp_market_data_nudged := nudged |}.
Definition set_outputs (p : DataPipeline) tx dedup settlement : DataPipeline := {|
  dp_books := dp_books p; dp_registry := dp_registry p; dp_shards := dp_shards p; dp_capacity := dp_capacity p; dp_coalescer_tx := tx;
  dp_coalescer_capacity := dp_coalescer_capacity p; dp_coalescer_dedup := dedup; dp_settlement_tx := settlement;
  dp_settlement_capacity := dp_settlement_capacity p; dp_market_data_nudged := dp_market_data_nudged p |}.

(** [core/pipeline/data_pipeline.rs:82-99] `DataPipeline::new`, with the channels that `run` creates *)
Definition new_data_pipeline (registry : MarketRegistry) (shard_count capacity coalescer_capacity settlement_capacity : nat) : DataPipeline := {|
  dp_books := ∅; dp_registry := registry; dp_shards := replicate (Nat.max shard_count 1) {| bh_queue := []; bh_coalesce := ∅ |};
  dp_capacity := capacity; dp_coalescer_tx := []; dp_coalescer_capacity := coalescer_capacity; dp_coalescer_dedup := ∅;
  dp_settlement_tx := []; dp_settlement_capacity := settlement_capacity; dp_market_data_nudged := false |}.

(** [core/observability/backpressure.rs:58-73] `BackpressurePolicy::on_book_channel_full` *)
Definition on_book_channel_full (shard : BookShard) (e : PipelineEvent) : BookShard * BackpressureAction :=
  match event_asset_id e with
  | None => (shard, BpDropped)
  | Some token =>
      if is_book_coalescable e then ({| bh_queue := bh_queue shard; bh_coalesce := <[token := e]> (bh_coalesce shard) |}, BpCoalesced)
      else (shard, BpDropped)
  end.

(** [core/pipeline/data_pipeline.rs:133-145] `DataPipeline::run`, one event; true when the status is nudged *)
Definition receive (p : DataPipeline) (e : PipelineEvent) : DataPipeline * bool :=
  let nudge := is_book_coalescable e && negb (dp_market_data_nudged p) in
  let index := match event_asset_id e with Some token => shard_index token (length (dp_shards p)) | None => 0%nat end in
  let deliver shard := if (length (bh_queue shard) <? dp_capacity p)%nat
                       then {| bh_queue := bh_queue shard ++ [e]; bh_coalesce := bh_coalesce shard |}
                       else (on_book_channel_full shard e).1 in
  (set_shards p (alter deliver index (dp_shards p)) (dp_market_data_nudged p || is_book_coalescable e), nudge).

(** [core/observability/backpressure.rs:95-105] `BackpressurePolicy::on_coalescer_channel_full` *)
Definition on_coalescer_channel_full (dedup : gmap TokenId Time) (token : TokenId) (now : Time) : BackpressureAction :=
  match dedup !! token with
  | Some last => if elapsed last now <? coalescer_dedup_window then BpDeduped else BpDropped
  | None => BpDropped
  end.

(** [core/pipeline/data_pipeline.rs:344-350] `BookApplyWorker::notify_coalescer`, with `on_coalescer_notify_success` *)
Definition notify_coalescer (p : DataPipeline) (token : TokenId) (now : Time) : DataPipeline :=
  if (length (dp_coalescer_tx p) <? dp_coalescer_capacity p)%nat
  then set_outputs p (dp_coalescer_tx p ++ [token]) (<[token := now]> (dp_coalescer_dedup p)) (dp_settlement_tx p)
  else p.

(** [core/pipeline/data_pipeline.rs:297-313] `BookApplyWorker::handle_book_snapshot` *)
Definition handle_book_snapshot (p : DataPipeline) (cmd : BookSnapshotCmd) (now : Time) : DataPipeline :=
  notify_coalescer (set_books p (store_apply_snapshot (dp_books p) (bc_asset_id cmd) (bc_bids cmd) (bc_asks cmd) (bc_timestamp_ms cmd))) (bc_asset_id cmd) now.

(** [core/pipeline/data_pipeline.rs:315-342] `BookApplyWorker::handle_price_delta` *)
Definition handle_price_delta (p : DataPipeline) (cmd : PriceDeltaCmd) (now : Time) : DataPipeline :=
  let changes := (fun d => (pd_side d, pd_price d, pd_size d)) <$> dc_changes cmd in
  notify_coalescer (set_books p (store_apply_delta (dp_books p) (dc_asset_id cmd) changes (dc_timestamp_ms cmd))) (dc_asset_id cmd) now.

(** [core/pipeline/data_pipeline.rs:184-295] `BookApplyWorker::handle_event` *)
Definition handle_event (p : DataPipeline) (e : PipelineEvent) (now : Time) : DataPipeline :=
  match e with
  | EvBookSnapshot cmd => handle_book_snapshot p cmd now
  | EvPriceDelta cmd => handle_price_delta p cmd now
  | EvMarketResolved market_id winning_token_id winning_outcome _ _ =>
      let request := {| sq_market_id := market_id; sq_winning_token_id := winning_token_id; sq_winning_outcome := winning_outcome;
                        sq_source := TrWs; sq_observed_at := now |} in
      if (length (dp_settlement_tx p) <? dp_settlement_capacity p)%nat
      then set_outputs p (dp_coalescer_tx p) (dp_coalescer_dedup p) (dp_settlement_tx p ++ [request]) else p
  | EvTickSizeChange _ _ _ | EvShardStatus _ _ | EvBestBidAsk _ _ _ _ | EvLastTradePrice _ _ _ => p
  end.

Definition shard_set_queue (p : DataPipeline) (i : nat) (queue : list PipelineEvent) (coalesce : gmap TokenId PipelineEvent) : DataPipeline :=
  set_shards p (<[i := {| bh_queue := queue; bh_coalesce := coalesce |}]> (dp_shards p)) (dp_market_data_nudged p).

(** [core/pipeline/data_pipeline.rs:175-181] `BookApplyWorker::run`, one turn, with `drain_book_coalesce`: the
    events coalesced so far follow the event that was taken from the channel *)
Definition worker_turn (p : DataPipeline) (i : nat) (now : Time) : DataPipeline :=
  match dp_shards p !! i with
  | Some {| bh_queue := e :: queue; bh_coalesce := coalesce |} =>
      let p := shard_set_queue p i queue ∅ in
      foldl (fun p e => handle_event p e now) (handle_event p e now) (map_to_list coalesce).*2
  | _ => p
  end.
End Store.

(** ** Books follow the feed *)

Section Follow.
Context {DO : DecimalOps} {SH : Sharding}.

(** One event applied to the book of one token. *)
Definition apply_book (token : TokenId) (s : option TokenBookState) (e : PipelineEvent) : option TokenBookState :=
  let state := unwrap_or s (new_state token) in
  match e with
  | EvBookSnapshot cmd =>
      if decide (bc_asset_id cmd = token)
      then Some (bump_and_publish state (apply_snapshot_validated (tb_live state) (bc_bids cmd) (bc_asks cmd) (bc_timestamp_ms cmd))) else s
  | EvPriceDelta cmd =>
      if decide (dc_asset_id cmd = token)
      then Some (bump_and_publish state (apply_delta_cow (tb_live state) ((fun d => (pd_side d, pd_price d, pd_size d)) <$> dc_changes cmd) (dc_timestamp_ms cmd))) else s
  | _ => s
  end.

(** The book events of a token. *)
Definition about (token : TokenId) (e : PipelineEvent) : bool := is_book_coalescable e && bool_decide (event_asset_id e = Some token).

Inductive PipeStep := PsReceive (e : PipelineEvent) | PsTurn (i : nat) | PsCoalescerTakes | PsSettlerTakes | PsRegistry (r : MarketRegistry).

Definition pipe_step (p : DataPipeline) (x : Time * PipeStep) : DataPipeline :=
  match x.2 with
  | PsReceive e => (receive p e).1
  | PsTurn i => worker_turn p i x.1
  | PsCoalescerTakes => set_outputs p (drop 1 (dp_coalescer_tx p)) (dp_coalescer_dedup p) (dp_settlement_tx p)
  | PsSettlerTakes => set_outputs p (dp_coalescer_tx p) (dp_coalescer_dedup p) (drop 1 (dp_settlement_tx p))
  | PsRegistry r => {| dp_books := dp_books p; dp_registry := r; dp_shards := dp_shards p; dp_capacity := dp_capacity p; dp_coalescer_tx := dp_coalescer_tx p;
      dp_coalescer_capacity := dp_coalescer_capacity p; dp_coalescer_dedup := dp_coalescer_dedup p; dp_settlement_tx := dp_settlement_tx p;
      dp_settlement_capacity := dp_settlement_capacity p; dp_market_data_nudged := dp_market_data_nudged p |}
  end.

(** Every event that is received finds room in the channel of its worker. *)
Fixpoint uncongested (p : DataPipeline) (steps : list (Time * PipeStep)) : Prop :=
  match steps with
  | [] => True
  | x :: rest =>
      match x.2 with
      | PsReceive e => Forall (fun shard => (length (bh_queue shard) < dp_capacity p)%nat) (dp_shards p)
      | _ => True
      end /\ uncongested (pipe_step p x) rest
  end.

Definition received (steps : list (Time * PipeStep)) : list PipelineEvent :=
  omap (fun x => match x.2 with PsReceive e => Some e | _ => None end) steps.

Implicit Types (p : DataPipeline).

Lemma notify_frame p token now : dp_books (notify_coalescer p token now) = dp_books p /\ dp_shards (notify_coalescer p token now) = dp_shards p.
Proof. unfold notify_coalescer. by destruct (_ <? _)%nat. Qed.

Lemma handle_shards p e now : dp_shards (handle_event p e now) = dp_shards p.
Proof.
  destruct e; try done; cbn [handle_event].
  - unfold handle_book_snapshot. by rewrite (proj2 (notify_frame _ _ _)).
  - unfold handle_price_delta. by rewrite (proj2 (notify_frame _ _ _)).
  - by destruct (length (dp_settlement_tx p) <? dp_settlement_capacity p)%nat.
Qed.

Lemma handle_books p e now token : dp_books (handle_event p e now) !! token = apply_book token (dp_books p !! token) e.
Proof.
  destruct e as [cmd|cmd| | | | |]; try done; cbn [handle_event apply_book].
  - unfold handle_book_snapshot. rewrite (proj1 (notify_frame _ _ _)). cbn. unfold store_apply_snapshot, get_or_create_state.
    destruct (decide _) as [<-|Hn]; [by rewrite lookup_insert_eq | by rewrite lookup_insert_ne].
  - unfold handle_price_delta. rewrite (proj1 (notify_frame _ _ _)). cbn. unfold store_apply_delta, get_or_create_state.
    destruct (decide _) as [<-|Hn]; [by rewrite lookup_insert_eq | by rewrite lookup_insert_ne].
  - by destruct (length (dp_settlement_tx p) <? dp_settlement_capacity p)%nat.
Qed.

Lemma apply_other token s e : about token e = false -> apply_book token s e = s.
Proof.
  unfold about. destruct e as [cmd|cmd| | | | |]; try done; cbn; intros H; apply bool_decide_eq_false in H; rewrite decide_False; congruence.
Qed.

(** The worker an event goes to. *)
Definition home (n : nat) (e : PipelineEvent) : nat := match event_asset_id e with Some token => shard_index token n | None => 0%nat end.

Lemma about_home n token e : about token e = true -> home n e = shard_index token n.
Proof. unfold about, home. rewrite andb_true_iff, bool_decide_eq_true. by intros [_ ->]. Qed.

Lemma shard_index_lt id n : (0 < n)%nat -> (shard_index id n < n)%nat.
Proof. intros H. unfold shard_index. pose proof (Z.mod_pos_bound (hash_one id) (Z.of_nat (Nat.max n 1)) ltac:(lia)). lia. Qed.

(** What was received for a token is what was applied to its book, followed by what waits in the
    channel of its worker. *)
Record follows p (events : list PipelineEvent) : Prop := {
  fo_shards : (0 < length (dp_shards p))%nat;
  fo_home : forall i shard, dp_shards p !! i = Some shard -> bh_coalesce shard = ∅ /\ Forall (fun e => home (length (dp_shards p)) e = i) (bh_queue shard);
  fo_books : forall token shard, dp_shards p !! shard_index token (length (dp_shards p)) = Some shard ->
    exists applied, applied ++ List.filter (about token) (bh_queue shard) = List.filter (about token) events /\ dp_books p !! token = foldl (apply_book token) None applied
}.

Lemma receive_follows p e events : Forall (fun shard => (length (bh_queue shard) < dp_capacity p)%nat) (dp_shards p) ->
  follows p events -> follows (receive p e).1 (events ++ [e]).
Proof.
  intros Hroom [H1 H2 H3]. unfold receive. cbn [fst set_shards dp_shards dp_books]. fold (home (length (dp_shards p)) e).
  set (deliver := fun shard : BookShard => _). set (h := home (length (dp_shards p)) e).
  assert (h < length (dp_shards p))%nat as Hh by (unfold h, home; destruct (event_asset_id e); [by apply shard_index_lt | done]).
  assert (forall i shard, alter deliver h (dp_shards p) !! i = Some shard -> exists old, dp_shards p !! i = Some old /\ bh_coalesce shard = bh_coalesce old /\
    bh_queue shard = bh_queue old ++ (if decide (i = h) then [e] else [])) as Hal.
  { intros i shard. destruct (decide (i = h)) as [->|Hne].
    - rewrite list_lookup_alter_eq. intros (old & Ho & ->)%fmap_Some. exists old. split; [done|]. rewrite Forall_forall in Hroom.
      specialize (Hroom old (list_elem_of_lookup_2 _ _ _ Ho)). apply Nat.ltb_lt in Hroom. unfold deliver. rewrite Hroom. done.
    - rewrite list_lookup_alter_ne by done. intros Ho. exists shard. by rewrite app_nil_r. }
  split; cbn [set_shards dp_shards dp_books]; rewrite ?length_alter; [done|..].
  - intros i shard (old & Ho & -> & ->)%Hal. destruct (H2 _ _ Ho) as [Hc Hq]. split; [done|]. apply Forall_app. split; [done|].
    destruct (decide (i = h)); [by constructor | constructor].
  - intros token shard (old & Ho & _ & ->)%Hal. destruct (H3 _ _ Ho) as (applied & Ha & Hb). exists applied. split; [|done].
    rewrite !List.filter_app, app_assoc, Ha. f_equal. cbn [List.filter]. destruct (about token e) eqn:Et.
    + pose proof (about_home (length (dp_shards p)) _ _ Et) as Eh. rewrite decide_True by done. cbn [List.filter]. by rewrite Et.
    + destruct (decide _); cbn [List.filter]; by rewrite ?Et.
Qed.

Lemma turn_follows p i now events : follows p events -> follows (worker_turn p i now) events.
Proof.
  intros Hf. pose proof Hf as [H1 H2 H3]. unfold worker_turn. destruct (dp_shards p !! i) as [[[|e queue] coalesce]|] eqn:Ei; [done| |done].
  destruct (H2 _ _ Ei) as [Hc Hq]. cbn in Hc, Hq. subst coalesce. rewrite map_to_list_empty. cbn [fmap list_fmap foldl].
  apply Forall_cons in Hq as [He Hq].
  split; rewrite ?handle_shards; cbn [shard_set_queue set_shards dp_shards dp_books]; rewrite ?length_insert; [done|..].
  - intros j shard [(<- & <- & _)|[_ Hj]]%list_lookup_insert_Some; [done | by apply H2].
  - intros token shard Hs. rewrite handle_books. cbn [shard_set_queue set_shards dp_books].
    apply list_lookup_insert_Some in Hs as [(Hi & <- & _)|[Hne Hs]].
    + rewrite Hi in Ei. destruct (H3 _ _ Ei) as (applied & Ha & Hb). cbn [bh_queue List.filter] in Ha |- *. destruct (about token e) eqn:Et.
      * exists (applied ++ [e]). rewrite <- app_assoc. split; [done|]. by rewrite foldl_app, Hb.
      * exists applied. split; [done|]. by rewrite apply_other.
    + destruct (H3 _ _ Hs) as (applied & Ha & Hb). exists applied. split; [done|]. rewrite apply_other; [done|].
      destruct (about token e) eqn:Et; [|done]. by rewrite (about_home _ _ _ Et) in He.
Qed.

End Follow.

(** ** Announced removals *)

Section Removals.
Context {DO : DecimalOps} {DL : DecimalLaws DO} {SH : Sharding} {U : Uint256}.

(** A message of the venue, normalised and applied. *)
Definition ingest (token : TokenId) (s : option TokenBookState) (msg : WsMessage) : option TokenBookState :=
  foldl (apply_book token) s (normalize_ws_message msg).

(** The published book is the live one and well-formed. *)
Definition state_ok (s : TokenBookState) : Prop := book_ok (tb_live s) /\ tb_published s = publish_cow (tb_live s) (tb_version s).

Definition keeps_prices (s s' : TokenBookState) : Prop :=
  (forall p, p ∈ lv_price <$> bs_bids (tb_published s) -> p ∈ lv_price <$> bs_bids (tb_published s')) /\
  (forall p, p ∈ lv_price <$> bs_asks (tb_published s) -> p ∈ lv_price <$> bs_asks (tb_published s')).

Lemma price_in_map levels p : p ∈ lv_price <$> levels <-> is_Some (side_map levels !! p).
Proof.
  induction levels as [|l levels IH]; [split; [by intros ?%elem_of_nil | by intros [? ?]]|]. rewrite fmap_cons, elem_of_cons, side_map_cons, IH.
  destruct (decide (lv_price l = p)) as [->|Hn]; [rewrite lookup_insert_eq | rewrite lookup_insert_ne by done]; split; eauto; naive_solver.
Qed.

Lemma apply_keeps_prices token s e : (forall cmd, e = EvPriceDelta cmd -> Forall stores_a_size (dc_changes cmd)) ->
  (forall cmd, e = EvBookSnapshot cmd -> bc_asset_id cmd <> token) -> state_ok s ->
  exists s', apply_book token (Some s) e = Some s' /\ state_ok s' /\ keeps_prices s s'.
Proof.
  intros He Hs [Hok Hpub]. assert (keeps_prices s s) as Hrefl by done.
  destruct e as [cmd|cmd| | | | |]; cbn [apply_book]; try (by exists s).
  - rewrite decide_False by (by apply Hs). by exists s.
  - destruct (decide _); [|by exists s]. eexists. split; [reflexivity|]. cbn [unwrap_or].
    destruct (stores_keep_prices (tb_live s) (dc_changes cmd) (dc_timestamp_ms cmd) Hok (He _ eq_refl)) as (Hok' & Hb & Ha).
    split; [by split|]. unfold keeps_prices. rewrite Hpub. cbn. split; intros p; rewrite !price_in_map; [apply Hb | apply Ha].
Qed.

Lemma ingest_keeps_prices token s msg : (forall id ts bids asks, msg = WsBook id ts bids asks -> u256_to_string id <> token) -> state_ok s ->
  exists s', ingest token (Some s) msg = Some s' /\ state_ok s' /\ keeps_prices s s'.
Proof.
  intros Hm Hok. unfold ingest.
  assert (forall e, e ∈ normalize_ws_message msg -> (forall cmd, e = EvPriceDelta cmd -> Forall stores_a_size (dc_changes cmd)) /\
    (forall cmd, e = EvBookSnapshot cmd -> bc_asset_id cmd <> token)) as He.
  { intros e Hin. split; intros cmd ->; destruct msg; cbn [normalize_ws_message] in Hin;
      try (apply list_elem_of_singleton in Hin; discriminate Hin); try (by apply elem_of_nil in Hin).
    - by eapply price_changes_positive.
    - apply list_elem_of_singleton in Hin. injection Hin as ->. cbn. by eapply Hm.
    - unfold price_change_events in Hin. apply list_elem_of_fmap in Hin as ([? ?] & ? & _). done. }
  revert He Hok. generalize (normalize_ws_message msg). intros l. revert s. induction l as [|e l IH]; intros s He Hok; [by exists s|].
  destruct (He e ltac:(left)) as [H1 H2]. destruct (apply_keeps_prices token s e H1 H2 Hok) as (s1 & E1 & Hok1 & [Kb1 Ka1]).
  destruct (IH s1) as (s2 & E2 & Hok2 & [Kb2 Ka2]); [intros x Hx; apply He; by right | done|].
  exists s2. cbn [foldl]. rewrite E1. split_and!; [done..|]. split; eauto.
Qed.

(** Between two snapshots of a book no price ever leaves it: whatever sizes the venue announces,
    zero included, a price that is offered or bid stays in the published book until the next
    snapshot replaces it. *)
Theorem announced_removals_ignored token s msgs :
  state_ok s -> (forall id ts bids asks, WsBook id ts bids asks ∈ msgs -> u256_to_string id <> token) ->
  exists s', foldl (ingest token) (Some s) msgs = Some s' /\ keeps_prices s s'.
Proof.
  intros Hok Hm. cut (exists s', foldl (ingest token) (Some s) msgs = Some s' /\ state_ok s' /\ keeps_prices s s'); [naive_solver|].
  revert s Hok Hm. induction msgs as [|msg msgs IH]; intros s Hok Hm; [by exists s|].
  destruct (ingest_keeps_prices token s msg) as (s1 & E1 & Hok1 & [Kb1 Ka1]); [intros id ts b a ->; eapply Hm; left | done|].
  destruct (IH s1 Hok1) as (s2 & E2 & Hok2 & [Kb2 Ka2]); [intros id ts b a Hin; eapply Hm; by right|].
  exists s2. cbn [foldl]. rewrite E1. split_and!; [done..|]. split; eauto.
Qed.
End Removals.

(** ** The coalescer *)

(** [core/detection/coalescer.rs:22-26] `PendingMarket` *)
Record PendingMarket := { pm_first_seen : Time; pm_yes_updated : bool; pm_no_updated : bool }.

(** [core/detection/coalescer.rs:33-40] `Coalescer` *)
Record Coalescer := {
  cl_pending : gmap MarketId PendingMarket;
  cl_window_ms : Z;
  cl_tx : list MarketId;
  cl_capacity : nat
}.

Section Coalesce.
Context {DO : DecimalOps}.

(** [core/detection/coalescer.rs:43-60] `Coalescer::new` *)
Definition new_coalescer (coalesce_window_ms : Z) (capacity : nat) : Coalescer := {|
  cl_pending := ∅; cl_window_ms := unwrap_or (to_u64 coalesce_window_ms) u64_max; cl_tx := []; cl_capacity := capacity |}.

(** [core/detection/coalescer.rs:64-67] `Coalescer::reload` *)
Definition coalescer_reload (c : Coalescer) (coalesce_window_ms : Z) : Coalescer := {|
  cl_pending := cl_pending c; cl_window_ms := coalesce_window_ms; cl_tx := cl_tx c; cl_capacity := cl_capacity c |}.

Definition set_pending (c : Coalescer) (pending : gmap MarketId PendingMarket) : Coalescer := {|
  cl_pending := pending; cl_window_ms := cl_window_ms c; cl_tx := cl_tx c; cl_capacity := cl_capacity c |}.

(** [core/detection/coalescer.rs:160-166] `Coalescer::emit_market`: a trigger that finds the channel full is dropped *)
Definition emit_market (c : Coalescer) (market_id : MarketId) : Coalescer :=
  if (length (cl_tx c) <? cl_capacity c)%nat
  then {| cl_pending := cl_pending c; cl_window_ms := cl_window_ms c; cl_tx := cl_tx c ++ [market_id]; cl_capacity := cl_capacity c |} else c.

(** [core/detection/coalescer.rs:71-103] `Coalescer::notify_token_update`; also the markets it emits *)
Definition notify_token_update (c : Coalescer) (registry : MarketRegistry) (token_id : TokenId) (now : Time) : Coalescer * list MarketId :=
  match market_for_token registry token_id with
  | None => (c, [])
  | Some market_id =>
      match token_pair registry market_id with
      | None => (c, [])
      | Some (yes, no) =>
          let entry := unwrap_or (cl_pending c !! market_id) {| pm_first_seen := now; pm_yes_updated := false; pm_no_updated := false |} in
          let entry := {| pm_first_seen := pm_first_seen entry; pm_yes_updated := pm_yes_updated entry || bool_decide (token_id = yes);
                          pm_no_updated := pm_no_updated entry || bool_decide (token_id = no) |} in
          if pm_yes_updated entry && pm_no_updated entry
          then (emit_market (set_pending c (delete market_id (cl_pending c))) market_id, [market_id])
          else (set_pending c (<[market_id := entry]> (cl_pending c)), [])
      end
  end.

(** [core/detection/coalescer.rs:141-158] `Coalescer::flush_expired`; also the markets it emits *)
Definition flush_expired (c : Coalescer) (now : Time) : Coalescer * list MarketId :=
  let window := cl_window_ms c * 1000000 in
  let expired (kv : MarketId * PendingMarket) : Prop := window <= elapsed (pm_first_seen kv.2) now in
  let ready := (map_to_list (filter expired (cl_pending c))).*1 in
  (foldl emit_market (set_pending c (filter (fun kv => ~ expired kv) (cl_pending c))) ready, ready).

(** What happens to a coalescer. *)
Inductive CoalescerOp :=
| CoNotify (registry : MarketRegistry) (token_id : TokenId)
| CoFlush
| CoReload (coalesce_window_ms : Z)
| CoScannerTakes.

Definition coalescer_step (c : Coalescer) (now : Time) (o : CoalescerOp) : Coalescer * list MarketId :=
  match o with
  | CoNotify registry token => notify_token_update c registry token now
  | CoFlush => flush_expired c now
  | CoReload ms => (coalescer_reload c ms, [])
  | CoScannerTakes => ({| cl_pending := cl_pending c; cl_window_ms := cl_window_ms c; cl_tx := drop 1 (cl_tx c); cl_capacity := cl_capacity c |}, [])
  end.

(** The markets emitted by a run. *)
Fixpoint coalescer_run (c : Coalescer) (ops : list (Time * CoalescerOp)) : Coalescer * list MarketId :=
  match ops with
  | [] => (c, [])
  | (now, o) :: rest =>
      let '(c, out) := coalescer_step c now o in
      let '(c, out') := coalescer_run c rest in (c, out ++ out')
  end.

Lemma emit_one c i : cl_pending (emit_market c i) = cl_pending c /\ cl_window_ms (emit_market c i) = cl_window_ms c.
Proof. unfold emit_market. by destruct (length (cl_tx c) <? cl_capacity c)%nat. Qed.

Lemma emit_pending ids : forall c, cl_pending (foldl emit_market c ids) = cl_pending c /\ cl_window_ms (foldl emit_market c ids) = cl_window_ms c.
Proof.
  induction ids as [|i ids IH]; intros c; [done|]. cbn [foldl]. destruct (IH (emit_market c i)) as [-> ->]. apply emit_one.
Qed.

(** Pending since no later than [t]. *)
Definition waiting (c : Coalescer) (m : MarketId) (t : Time) : Prop := exists e, cl_pending c !! m = Some e /\ pm_first_seen e <= t.

Lemma step_waiting c now o m t : waiting c m t -> let '(c', out) := coalescer_step c now o in waiting c' m t \/ m ∈ out.
Proof.
  intros (e & He & Ht). destruct o as [registry token| |ms|]; cbn [coalescer_step].
  - unfold notify_token_update. destruct (market_for_token registry token) as [id|]; [|left; by exists e]. destruct (token_pair registry id) as [[yes no]|]; [|left; by exists e].
    cbn [pm_yes_updated pm_no_updated]. destruct (decide (id = m)) as [->|Hn].
    + destruct (_ && _); [right; by left|]. left. eexists. cbn. rewrite lookup_insert_eq. split; [done|]. cbn. by rewrite He.
    + destruct (_ && _); left; exists e; rewrite ?(proj1 (emit_one _ _)); cbn; [by rewrite lookup_delete_ne | by rewrite lookup_insert_ne].
  - unfold flush_expired. destruct (decide (cl_window_ms c * 1000000 <= elapsed (pm_first_seen e) now)) as [Hw|Hw].
    + right. apply list_elem_of_fmap. exists (m, e). split; [done|]. apply elem_of_map_to_list, map_lookup_filter_Some. done.
    + left. exists e. rewrite (proj1 (emit_pending _ _)). cbn. split; [|done]. by apply map_lookup_filter_Some.
  - left. by exists e.
  - left. by exists e.
Qed.

Lemma run_waiting ops : forall c m t, waiting c m t -> let '(c', out) := coalescer_run c ops in waiting c' m t \/ m ∈ out.
Proof.
  induction ops as [|[now o] ops IH]; intros c m t H; [by left|]. cbn [coalescer_run]. pose proof (step_waiting c now o m t H) as Hs.
  destruct (coalescer_step c now o) as [c1 out1]. destruct Hs as [Hw|Hin].
  - specialize (IH c1 m t Hw). destruct (coalescer_run c1 ops) as [c2 out2]. destruct IH as [?|?]; [by left | right; apply elem_of_app; by right].
  - destruct (coalescer_run c1 ops) as [c2 out2]. right. apply elem_of_app. by left.
Qed.

(** Entries never wait longer than since the last reading of the clock. *)
Lemma run_past ops : forall c t, (forall m e, cl_pending c !! m = Some e -> pm_first_seen e <= t) -> Forall (fun x => x.1 <= t) ops ->
  forall m e, cl_pending (coalescer_run c ops).1 !! m = Some e -> pm_first_seen e <= t.
Proof.
  induction ops as [|[now o] ops IH]; intros c t Hc Ho; [done|]. apply Forall_cons in Ho as [Hnow Ho]. cbn [coalescer_run].
  assert (forall m e, cl_pending (coalescer_step c now o).1 !! m = Some e -> pm_first_seen e <= t) as Hs.
  { destruct o as [registry token| |ms|]; cbn [coalescer_step]; try done.
    - unfold notify_token_update. destruct (market_for_token registry token) as [id|]; [|done]. destruct (token_pair registry id) as [[yes no]|]; [|done].
      cbn [pm_yes_updated pm_no_updated]. destruct (_ && _); cbn [fst].
      + intros m e. rewrite (proj1 (emit_one _ _)). cbn. intros [_ H]%lookup_delete_Some. by eapply Hc.
      + intros m e. cbn. intros [[_ <-]|[_ H]]%lookup_insert_Some; [|by eapply Hc]. cbn. destruct (cl_pending c !! id) eqn:E; [by eapply Hc | done].
    - unfold flush_expired. cbn [fst]. intros m e. rewrite (proj1 (emit_pending _ _)). cbn. intros [H _]%map_lookup_filter_Some. by eapply Hc. }
  destruct (coalescer_step c now o) as [c1 out1]. specialize (IH c1 t Hs Ho). by destruct (coalescer_run c1 ops).
Qed.

(** No update is forgotten: once a token of a registered market is updated, the market is emitted, at
    the latest by the first flush after the window in force has passed, whatever other updates,
    flushes and reloads happen in between. *)
Theorem update_is_emitted ms capacity before t registry token m yes no between t' :
  Forall (fun x => x.1 <= t) before -> market_for_token registry token = Some m -> token_pair registry m = Some (yes, no) ->
  let c1 := (coalescer_run (new_coalescer ms capacity) before).1 in
  let c2 := (coalescer_run c1 ((t, CoNotify registry token) :: between)).1 in
  cl_window_ms c2 * 1000000 <= t' - t ->
  m ∈ (coalescer_run c1 ((t, CoNotify registry token) :: between ++ [(t', CoFlush)])).2.
Proof.
  intros Hb Hm Hp c1 c2 Hw.
  assert (forall id e, cl_pending c1 !! id = Some e -> pm_first_seen e <= t) as Hc1 by (apply run_past; [intros ? ?; cbn; by rewrite lookup_empty | done]).
  assert (forall ops1 ops2 c, coalescer_run c (ops1 ++ ops2) =
    ((coalescer_run (coalescer_run c ops1).1 ops2).1, (coalescer_run c ops1).2 ++ (coalescer_run (coalescer_run c ops1).1 ops2).2)) as Happ.
  { clear. induction ops1 as [|[now o] ops1 IH]; intros ops2 c; [cbn; by destruct (coalescer_run c ops2)|]. cbn [app coalescer_run].
    destruct (coalescer_step c now o) as [c1 out1]. rewrite IH. destruct (coalescer_run c1 ops1) as [c2 out2]. cbn. by rewrite app_assoc. }
  rewrite app_comm_cons, Happ. cbn [snd]. apply elem_of_app. fold c2. revert c2 Hw. cbn [coalescer_run coalescer_step].
  assert (let '(c', out) := notify_token_update c1 registry token t in waiting c' m t \/ m ∈ out) as Hn.
  { unfold notify_token_update. rewrite Hm, Hp. cbn [pm_yes_updated pm_no_updated]. destruct (_ && _); [right; by left|]. left. eexists. cbn.
    rewrite lookup_insert_eq. split; [done|]. cbn. destruct (cl_pending c1 !! m) eqn:E; [by eapply Hc1 | cbn; lia]. }
  destruct (notify_token_update c1 registry token t) as [c' out]. pose proof (run_waiting between c' m t) as Hr.
  destruct (coalescer_run c' between) as [c3 out3]. cbn [fst snd]. intros Hw. destruct Hn as [Hn|Hn]; [|left; apply elem_of_app; by left].
  destruct (Hr Hn) as [(e & He & Ht)|Hin]; [|left; apply elem_of_app; by right].
  right. unfold flush_expired. rewrite app_nil_r. apply list_elem_of_fmap. exists (m, e). split; [done|].
  apply elem_of_map_to_list, map_lookup_filter_Some. split; [done|]. cbn. unfold elapsed. lia.
Qed.
End Coalesce.

(** ** The funnel's queue *)

Section Queue.
Context {A : Type} (score_of : A -> Z).

(** [core/detection/funnel.rs:25-28] `ScoredEntry` *)
Record ScoredEntry := { se_received_at : Time; se_scored : A }.

(** [core/detection/funnel.rs:31-35] `HeapKey` *)
Record HeapKey := { hk_score : Z; hk_received_at : Time; hk_id : Z }.

(** [core/detection/funnel.rs:43-50] `HeapKey::cmp`, as [a <= b]: by score, the older one above on a tie *)
Definition key_leb (a b : HeapKey) : bool :=
  match hk_score a ?= hk_score b with
  | Lt => true
  | Gt => false
  | Eq => hk_received_at b <=? hk_received_at a
  end.

(** A binary heap pops a greatest key; which one of several equal keys is not specified, here the
    one pushed first. *)
Fixpoint heap_pop (le : HeapKey -> HeapKey -> bool) (heap : list HeapKey) : option (HeapKey * list HeapKey) :=
  match heap with
  | [] => None
  | x :: rest =>
      match heap_pop le rest with
      | None => Some (x, [])
      | Some (y, others) => if le y x then Some (x, rest) else Some (y, x :: others)
      end
  end.
Definition key_geb (a b : HeapKey) : bool := key_leb b a.

(** [core/detection/funnel.rs:52-56] `SubmitOutcome` *)
Inductive SubmitOutcome := Enqueued | EnqueuedEvicted | SubmitDropped.

(** [core/detection/funnel.rs:59-65] `FunnelQueue`; identifiers stay below [2^64] *)
Record FunnelQueue := {
  fq_entries : gmap Z ScoredEntry;
  fq_max_heap : list HeapKey;
  fq_min_heap : list HeapKey;
  fq_next_id : Z;
  fq_max_size : nat
}.

(** [core/detection/funnel.rs:68-76] `FunnelQueue::new` *)
Definition new_funnel_queue (max_size : nat) : FunnelQueue := {|
  fq_entries := ∅; fq_max_heap := []; fq_min_heap := []; fq_next_id := 0; fq_max_size := max_size |}.

(** [core/detection/funnel.rs:78-80] `FunnelQueue::len` *)
Definition queue_len (q : FunnelQueue) : nat := size (fq_entries q).

(** Pop keys until one names an entry; what is left of the heap, and the key. *)
Fixpoint pop_live (le : HeapKey -> HeapKey -> bool) (entries : gmap Z ScoredEntry) (fuel : nat) (heap : list HeapKey) : list HeapKey * option (HeapKey * ScoredEntry) :=
  match fuel with
  | O => (heap, None)
  | S fuel =>
      match heap_pop le heap with
      | None => (heap, None)
      | Some (key, rest) =>
          match entries !! hk_id key with
          | Some entry => (rest, Some (key, entry))
          | None => pop_live le entries fuel rest
          end
      end
  end.

(** [core/detection/funnel.rs:87-95] `FunnelQueue::peek_min_score`: the key found stays in the heap *)
Definition peek_min_score (q : FunnelQueue) : FunnelQueue * option Z :=
  let '(rest, found) := pop_live key_geb (fq_entries q) (length (fq_min_heap q)) (fq_min_heap q) in
  let heap := match found with Some (key, _) => key :: rest | None => rest end in
  ({| fq_entries := fq_entries q; fq_max_heap := fq_max_heap q; fq_min_heap := heap; fq_next_id := fq_next_id q; fq_max_size := fq_max_size q |},
   hk_score ∘ fst <$> found).

(** [core/detection/funnel.rs:97-104] `FunnelQueue::evict_min`, also `evict_lowest` *)
Definition evict_min (q : FunnelQueue) : FunnelQueue * bool :=
  let '(rest, found) := pop_live key_geb (fq_entries q) (length (fq_min_heap q)) (fq_min_heap q) in
  ({| fq_entries := match found with Some (key, _) => delete (hk_id key) (fq_entries q) | None => fq_entries q end;
      fq_max_heap := fq_max_heap q; fq_min_heap := rest; fq_next_id := fq_next_id q; fq_max_size := fq_max_size q |},
   bool_decide (is_Some found)).

(** [core/detection/funnel.rs:120-134] `FunnelQueue::submit`, the insertion, with `push_heaps` *)
Definition queue_insert (q : FunnelQueue) (scored : A) (score : Z) (now : Time) : FunnelQueue :=
  let key := {| hk_score := score; hk_received_at := now; hk_id := fq_next_id q |} in {|
  fq_entries := <[fq_next_id q := {| se_received_at := now; se_scored := scored |}]> (fq_entries q);
  fq_max_heap := fq_max_heap q ++ [key]; fq_min_heap := fq_min_heap q ++ [key]; fq_next_id := fq_next_id q + 1; fq_max_size := fq_max_size q |}.

(** [core/detection/funnel.rs:106-141] `FunnelQueue::submit` *)
Definition queue_submit (q : FunnelQueue) (scored : A) (score : Z) (now : Time) : FunnelQueue * SubmitOutcome :=
  if (fq_max_size q <=? queue_len q)%nat
  then
    let '(q, min_score) := peek_min_score q in
    match min_score with
    | None => (q, SubmitDropped)
    | Some min_score =>
        if score <=? min_score then (q, SubmitDropped)
        else (queue_insert (evict_min q).1 scored score now, EnqueuedEvicted)
    end
  else (queue_insert q scored score now, Enqueued).

(** [core/detection/funnel.rs:143-150] `FunnelQueue::pop_best` *)
Definition pop_best (q : FunnelQueue) : FunnelQueue * option ScoredEntry :=
  let '(rest, found) := pop_live key_leb (fq_entries q) (length (fq_max_heap q)) (fq_max_heap q) in
  ({| fq_entries := match found with Some (key, _) => delete (hk_id key) (fq_entries q) | None => fq_entries q end;
      fq_max_heap := rest; fq_min_heap := fq_min_heap q; fq_next_id := fq_next_id q; fq_max_size := fq_max_size q |}, snd <$> found).

(** [core/detection/funnel.rs:157-162] `FunnelQueue::set_max_size`, the loop *)
Fixpoint evict_down (fuel : nat) (q : FunnelQueue) (evicted : Z) : FunnelQueue * Z :=
  match fuel with
  | O => (q, evicted)
  | S fuel =>
      if (fq_max_size q <? queue_len q)%nat
      then match evict_min q with (q, true) => evict_down fuel q (evicted + 1) | (q, false) => (q, evicted) end
      else (q, evicted)
  end.

(** [core/detection/funnel.rs:154-164] `FunnelQueue::set_max_size` *)
Definition set_max_size (q : FunnelQueue) (max_size : nat) : FunnelQueue * Z :=
  evict_down (queue_len q)
    {| fq_entries := fq_entries q; fq_max_heap := fq_max_heap q; fq_min_heap := fq_min_heap q; fq_next_id := fq_next_id q; fq_max_size := max_size |} 0.

Inductive QueueOp := QoSubmit (scored : A) | QoPop | QoResize (max_size : nat) | QoEvict.

Definition queue_step (q : FunnelQueue) (x : Time * QueueOp) : FunnelQueue :=
  match x.2 with
  | QoSubmit scored => (queue_submit q scored (score_of scored) x.1).1
  | QoPop => (pop_best q).1
  | QoResize n => (set_max_size q n).1
  | QoEvict => (evict_min q).1
  end.

(** *** The heaps find the extreme entries *)

Definition key_of (id : Z) (e : ScoredEntry) : HeapKey := {| hk_score := score_of (se_scored e); hk_received_at := se_received_at e; hk_id := id |}.

(** A heap knows every entry under its key, and no other key for an entry. *)
Definition heap_ok (entries : gmap Z ScoredEntry) (next : Z) (heap : list HeapKey) : Prop :=
  (forall id e, entries !! id = Some e -> key_of id e ∈ heap) /\
  (forall k e, k ∈ heap -> entries !! hk_id k = Some e -> k = key_of (hk_id k) e) /\
  (forall k, k ∈ heap -> hk_id k < next).

Record queue_ok (q : FunnelQueue) : Prop := {
  qk_max : heap_ok (fq_entries q) (fq_next_id q) (fq_max_heap q);
  qk_min : heap_ok (fq_entries q) (fq_next_id q) (fq_min_heap q);
  qk_next : forall id e, fq_entries q !! id = Some e -> id < fq_next_id q;
  qk_size : (queue_len q <= fq_max_size q)%nat
}.

Section Extreme.
Context (le : HeapKey -> HeapKey -> bool).
Context (le_total : forall a b, le a b = true \/ le b a = true).
Context (le_trans : forall a b c, le a b = true -> le b c = true -> le a c = true).

Lemma heap_pop_spec heap : match heap_pop le heap with
  | None => heap = []
  | Some (x, rest) => heap ≡ₚ x :: rest /\ forall y, y ∈ rest -> le y x = true
  end.
Proof.
  induction heap as [|x heap IH]; [done|]. cbn [heap_pop]. destruct (heap_pop le heap) as [[y others]|].
  - destruct IH as [Hp Hy]. destruct (le y x) eqn:E.
    + split; [done|]. intros z. rewrite Hp, elem_of_cons. intros [->|Hz]; [done|]. eapply le_trans; [by apply Hy | done].
    + split; [rewrite Hp; constructor|]. intros z [->|Hz]%elem_of_cons; [by destruct (le_total x y); [|congruence] | by apply Hy].
  - subst heap. split; [done|]. by intros ? ?%elem_of_nil.
Qed.

(** The key found is that of an extreme entry; what is left of the heap still serves the others. *)
Lemma pop_live_spec entries next fuel : forall heap, (length heap <= fuel)%nat -> heap_ok entries next heap ->
  let '(rest, found) := pop_live le entries fuel heap in
  match found with
  | None => entries = ∅ /\ heap_ok entries next rest
  | Some (key, entry) => entries !! hk_id key = Some entry /\ key = key_of (hk_id key) entry /\
      (forall id e, entries !! id = Some e -> id = hk_id key \/ le (key_of id e) key = true) /\
      heap_ok entries next (key :: rest) /\ heap_ok (delete (hk_id key) entries) next rest
  end.
Proof.
  induction fuel as [|fuel IH]; intros heap Hl Hok.
  { assert (heap = []) as -> by (by destruct heap; cbn in Hl; [|lia]). cbn. split; [|done]. apply map_eq. intros id. rewrite lookup_empty.
    destruct (entries !! id) as [e|] eqn:E; [|done]. apply (proj1 Hok) in E. by apply elem_of_nil in E. }
  cbn [pop_live]. pose proof (heap_pop_spec heap) as Hp. destruct (heap_pop le heap) as [[key rest]|].
  - destruct Hp as [Hp Hle], Hok as (H1 & H2 & H3). assert (key ∈ heap) as Hin by (rewrite Hp; left).
    assert (forall k, k ∈ rest -> k ∈ heap) as Hsub by (intros k Hk; rewrite Hp; by right).
    destruct (entries !! hk_id key) as [entry|] eqn:E.
    + split_and!; [done | by apply H2 | | |].
      * intros id e He. apply H1 in He. rewrite Hp in He. apply elem_of_cons in He as [<-|He]; [by left | right; by apply Hle].
      * split_and!; intros; [rewrite <- Hp; by apply H1 | apply H2; [rewrite Hp|]; done | apply H3; by rewrite Hp].
      * split_and!.
        -- intros id e [Hne He]%lookup_delete_Some. pose proof (H1 _ _ He) as Hk. rewrite Hp in Hk. apply elem_of_cons in Hk as [<-|Hk]; [done|done].
        -- intros k e Hk [_ He]%lookup_delete_Some. by apply H2; [apply Hsub|].
        -- intros k Hk. by apply H3, Hsub.
    + apply IH; [apply Permutation_length in Hp; cbn in Hp; lia|]. split_and!.
      * intros id e He. pose proof (H1 _ _ He) as Hk. rewrite Hp in Hk. apply elem_of_cons in Hk as [Hk|Hk]; [|done]. rewrite <- Hk in E. cbn in E. congruence.
      * intros k e Hk. by apply H2, Hsub.
      * intros k Hk. by apply H3, Hsub.
  - subst heap. split; [|done]. apply map_eq. intros id. rewrite lookup_empty.
    destruct (entries !! id) as [e|] eqn:E; [|done]. apply (proj1 Hok) in E. by apply elem_of_nil in E.
Qed.
End Extreme.

Lemma key_leb_spec a b : key_leb a b = true <-> hk_score a < hk_score b \/ (hk_score a = hk_score b /\ hk_received_at b <= hk_received_at a).
Proof. unfold key_leb. destruct (Z.compare_spec (hk_score a) (hk_score b)); [rewrite Z.leb_le | |]; split; try lia; try done. Qed.

Lemma key_leb_total a b : key_leb a b = true \/ key_leb b a = true.
Proof. rewrite !key_leb_spec. lia. Qed.
Lemma key_leb_trans a b c : key_leb a b = true -> key_leb b c = true -> key_leb a c = true.
Proof. rewrite !key_leb_spec. lia. Qed.

(** An entry with the least key, and the queue without it. *)
Definition least (q : FunnelQueue) (id : Z) (e : ScoredEntry) : Prop :=
  fq_entries q !! id = Some e /\ forall id' e', fq_entries q !! id' = Some e' -> key_leb (key_of id e) (key_of id' e') = true.
Definition greatest (q : FunnelQueue) (id : Z) (e : ScoredEntry) : Prop :=
  fq_entries q !! id = Some e /\ forall id' e', fq_entries q !! id' = Some e' -> key_leb (key_of id' e') (key_of id e) = true.

Lemma key_leb_refl a : key_leb a a = true.
Proof. rewrite key_leb_spec. lia. Qed.

Lemma heap_ok_delete entries next heap id : heap_ok entries next heap -> heap_ok (delete id entries) next heap.
Proof.
  intros (H1 & H2 & H3). split_and!; [|intros k e Hk [_ He]%lookup_delete_Some; by apply H2 | done].
  intros i e [_ He]%lookup_delete_Some. by apply H1.
Qed.

Lemma evict_min_spec q : heap_ok (fq_entries q) (fq_next_id q) (fq_max_heap q) -> heap_ok (fq_entries q) (fq_next_id q) (fq_min_heap q) ->
  let '(q', b) := evict_min q in
  fq_next_id q' = fq_next_id q /\ fq_max_size q' = fq_max_size q /\
  heap_ok (fq_entries q') (fq_next_id q') (fq_max_heap q') /\ heap_ok (fq_entries q') (fq_next_id q') (fq_min_heap q') /\
  ((b = false /\ fq_entries q = ∅ /\ fq_entries q' = ∅) \/ (b = true /\ exists id e, least q id e /\ fq_entries q' = delete id (fq_entries q))).
Proof.
  intros Hmax Hmin. unfold evict_min.
  pose proof (pop_live_spec key_geb (fun a b => key_leb_total b a) (fun a b c H1 H2 => key_leb_trans c b a H2 H1) _ _ _ _ (Nat.le_refl _) Hmin) as Hp.
  destruct (pop_live _ _ _ _) as [rest [[key entry]|]]; cbn [fq_entries fq_max_heap fq_min_heap fq_next_id fq_max_size].
  - destruct Hp as (He & Hk & Hle & _ & Hrest). split_and!; [done..|by apply heap_ok_delete | done|]. right. split; [done|]. exists (hk_id key), entry. split; [|done].
    split; [done|]. intros id' e' He'. rewrite <- Hk. destruct (Hle _ _ He') as [->|H]; [|done].
    assert (e' = entry) as -> by congruence. rewrite <- Hk. apply key_leb_refl.
  - destruct Hp as [He Hrest]. split_and!; [done..|]. by left.
Qed.

Lemma queue_insert_ok q scored now : queue_ok q -> (queue_len q < fq_max_size q)%nat -> queue_ok (queue_insert q scored (score_of scored) now).
Proof.
  intros [H1 H2 H3 H4] Hs.
  assert (fq_entries q !! fq_next_id q = None) as Hn by (destruct (fq_entries q !! fq_next_id q) eqn:E; [apply H3 in E; lia | done]).
  assert (forall heap, heap_ok (fq_entries q) (fq_next_id q) heap ->
    heap_ok (<[fq_next_id q := {| se_received_at := now; se_scored := scored |}]> (fq_entries q)) (fq_next_id q + 1)
      (heap ++ [{| hk_score := score_of scored; hk_received_at := now; hk_id := fq_next_id q |}])) as Hh.
  { intros heap (K1 & K2 & K3). split_and!.
    - intros id e [[<- <-]|[_ He]]%lookup_insert_Some; apply elem_of_app; [right; by left | left; by apply K1].
    - intros k e [Hk|Hk%list_elem_of_singleton]%elem_of_app.
      + rewrite lookup_insert_ne by (specialize (K3 _ Hk); lia). by apply K2.
      + subst k. cbn. rewrite lookup_insert_eq. by intros [= <-].
    - intros k [Hk|Hk%list_elem_of_singleton]%elem_of_app; [specialize (K3 _ Hk); lia | subst; cbn; lia]. }
  split; cbn; [by apply Hh | by apply Hh | |].
  - intros id e [[<- _]|[_ He]]%lookup_insert_Some; [lia | specialize (H3 _ _ He); lia].
  - unfold queue_len in *. cbn. rewrite map_size_insert_None by done. lia.
Qed.

Lemma evict_min_ok q : queue_ok q -> queue_ok (evict_min q).1.
Proof.
  intros [H1 H2 H3 H4]. pose proof (evict_min_spec q H1 H2) as H. destruct (evict_min q) as [q' b]. destruct H as (Hn & Hm & K1 & K2 & Hcase). cbn.
  assert (fq_entries q' ⊆ fq_entries q) as Hsub.
  { destruct Hcase as [(_ & E & E')|(_ & id & e & _ & E')]; rewrite E'; [apply map_empty_subseteq | apply delete_subseteq]. }
  split; [done..| |].
  - intros id e He. rewrite Hn. eapply H3. by eapply lookup_weaken.
  - unfold queue_len in *. rewrite Hm. pose proof (map_subseteq_size _ _ Hsub). lia.
Qed.

(** A look at the least entry changes no entry, and tells its score. *)
Lemma peek_min_spec q : queue_ok q -> let '(q', m) := peek_min_score q in
  queue_ok q' /\ fq_entries q' = fq_entries q /\ fq_max_size q' = fq_max_size q /\ fq_next_id q' = fq_next_id q /\
  match m with None => fq_entries q = ∅ | Some s => exists id e, least q id e /\ s = score_of (se_scored e) end.
Proof.
  intros [H1 H2 H3 H4]. unfold peek_min_score.
  pose proof (pop_live_spec key_geb (fun a b => key_leb_total b a) (fun a b c K1 K2 => key_leb_trans c b a K2 K1) _ _ _ _ (Nat.le_refl _) H2) as Hp.
  destruct (pop_live _ _ _ _) as [rest [[key entry]|]]; cbn.
  - destruct Hp as (He & Hk & Hle & Hkeep & _). split_and!; [by split | done..|]. exists (hk_id key), entry. split; [|by rewrite Hk]. split; [done|].
    intros id' e' He'. rewrite <- Hk. destruct (Hle _ _ He') as [->|H]; [|done]. assert (e' = entry) as -> by congruence. rewrite <- Hk. apply key_leb_refl.
  - destruct Hp as [He Hrest]. split_and!; [by split | done..].
Qed.

Lemma size_delete_least q id e : least q id e -> size (delete id (fq_entries q)) = Nat.pred (queue_len q).
Proof. intros [H _]. by rewrite map_size_delete, H. Qed.

Lemma queue_submit_ok q scored now : queue_ok q -> queue_ok (queue_submit q scored (score_of scored) now).1.
Proof.
  intros Hq. unfold queue_submit. destruct (Nat.leb_spec (fq_max_size q) (queue_len q)) as [Hfull|Hroom]; [|by apply queue_insert_ok].
  pose proof (peek_min_spec q Hq) as Hp. destruct (peek_min_score q) as [q1 m]. destruct Hp as (Hq1 & He & Hm & Hn & Hs). destruct m as [s|]; [|done].
  destruct (_ <=? s); [done|]. cbn [fst]. apply queue_insert_ok; [by apply evict_min_ok|].
  destruct Hs as (id & e & [Hl _] & _). pose proof (evict_min_spec q1 (qk_max _ Hq1) (qk_min _ Hq1)) as Hev.
  destruct (evict_min q1) as [q2 b]. destruct Hev as (_ & Hm2 & _ & _ & [(_ & E & _)|(_ & id2 & e2 & Hl2 & E)]); cbn [fst].
  - rewrite He in E. by rewrite E in Hl.
  - unfold queue_len in *. rewrite E, (size_delete_least q1 id2 e2 Hl2), Hm2, Hm. unfold queue_len. rewrite He.
    assert (size (fq_entries q) <> 0)%nat by (intros Z%map_size_empty_inv; by rewrite Z in Hl). pose proof (qk_size _ Hq). unfold queue_len in *. lia.
Qed.

Lemma pop_best_spec q : queue_ok q -> let '(q', r) := pop_best q in
  queue_ok q' /\ match r with
  | None => fq_entries q = ∅
  | Some e => exists id, greatest q id e /\ fq_entries q' = delete id (fq_entries q)
  end.
Proof.
  intros [H1 H2 H3 H4]. unfold pop_best. pose proof (pop_live_spec key_leb key_leb_total key_leb_trans _ _ _ _ (Nat.le_refl _) H1) as Hp.
  destruct (pop_live _ _ _ _) as [rest [[key entry]|]]; cbn.
  - destruct Hp as (He & Hk & Hle & _ & Hrest). split.
    + split; cbn; [done | by apply heap_ok_delete | intros id e [_ H]%lookup_delete_Some; by eapply H3 |].
      unfold queue_len in *. cbn. pose proof (map_subseteq_size _ _ (delete_subseteq (fq_entries q) (hk_id key))). lia.
    + exists (hk_id key). split; [|done]. split; [done|]. intros id' e' He'. rewrite <- Hk. destruct (Hle _ _ He') as [->|H]; [|done].
      assert (e' = entry) as -> by congruence. rewrite <- Hk. apply key_leb_refl.
  - destruct Hp as [He Hrest]. split; [by split | done].
Qed.

Lemma evict_down_ok fuel : forall q k, (queue_len q <= fuel)%nat -> heap_ok (fq_entries q) (fq_next_id q) (fq_max_heap q) ->
  heap_ok (fq_entries q) (fq_next_id q) (fq_min_heap q) -> (forall id e, fq_entries q !! id = Some e -> id < fq_next_id q) -> queue_ok (evict_down fuel q k).1.
Proof.
  induction fuel as [|fuel IH]; intros q k Hl H1 H2 H3; cbn [evict_down]; [by split; [..|cbn; lia]|].
  destruct (Nat.ltb_spec (fq_max_size q) (queue_len q)) as [Hlt|]; [|by split].
  pose proof (evict_min_spec q H1 H2) as Hev. destruct (evict_min q) as [q' b]. destruct Hev as (Hn & Hm & K1 & K2 & [(-> & E & E')|(-> & id & e & Hle & E)]).
  - unfold queue_len in Hlt. rewrite E, map_size_empty in Hlt. lia.
  - apply IH; [|done..|].
    + pose proof (size_delete_least q id e Hle) as Hsz. unfold queue_len in *. rewrite E, Hsz. lia.
    + intros i x. rewrite E, Hn. intros [_ Hx]%lookup_delete_Some. by eapply H3.
Qed.

Lemma queue_run_ok max ops : queue_ok (foldl queue_step (new_funnel_queue max) ops).
Proof.
  assert (forall q, queue_ok q -> queue_ok (foldl queue_step q ops)) as H.
  { induction ops as [|[now o] ops IH]; intros q Hq; [done|]. cbn [foldl]. apply IH. destruct o as [scored| |n|]; unfold queue_step; cbn [fst snd].
    - by apply queue_submit_ok.
    - pose proof (pop_best_spec q Hq) as Hp. destruct (pop_best q). apply Hp.
    - unfold set_max_size. destruct Hq as [H1 H2 H3 H4]. by apply evict_down_ok.
    - by apply evict_min_ok. }
  apply H. split; cbn; [| |by intros id e|unfold queue_len; cbn; rewrite map_size_empty; lia]; split_and!; try (intros ? ?; by rewrite ?lookup_empty); by intros ? ?%elem_of_nil.
Qed.

(** The two lazily cleaned heaps implement a bounded priority queue.  After any submissions, pops,
    evictions and resizes the queue holds at most its capacity; popping returns an entry with the
    highest score, the oldest one on a tie, and removes that entry alone; a submission enters while
    there is room, otherwise it either scores above the least entry, which it replaces, or scores
    no more than any entry and is dropped. *)
Theorem funnel_is_priority_queue max ops scored now :
  let q := foldl queue_step (new_funnel_queue max) ops in
  let entry := {| se_received_at := now; se_scored := scored |} in
  (queue_len q <= fq_max_size q)%nat /\
  match pop_best q with
  | (_, None) => fq_entries q = ∅
  | (q', Some e) => exists id, greatest q id e /\ fq_entries q' = delete id (fq_entries q)
  end /\
  match queue_submit q scored (score_of scored) now with
  | (q', Enqueued) => (queue_len q < fq_max_size q)%nat /\ exists id, fq_entries q !! id = None /\ fq_entries q' = <[id := entry]> (fq_entries q)
  | (q', EnqueuedEvicted) => queue_len q = fq_max_size q /\ exists id least_id e, fq_entries q !! id = None /\ least q least_id e /\
      score_of (se_scored e) < score_of scored /\ fq_entries q' = <[id := entry]> (delete least_id (fq_entries q))
  | (q', SubmitDropped) => queue_len q = fq_max_size q /\ fq_entries q' = fq_entries q /\
      forall id e, fq_entries q !! id = Some e -> score_of scored <= score_of (se_scored e)
  end.
Proof.
  intros q entry. pose proof (queue_run_ok max ops) as Hq. fold q in Hq. split; [by apply qk_size|]. split.
  { pose proof (pop_best_spec q Hq) as Hp. destruct (pop_best q) as [q' [e|]]; apply Hp. }
  assert (fq_entries q !! fq_next_id q = None) as Hn by (destruct (fq_entries q !! fq_next_id q) eqn:E; [apply (qk_next _ Hq) in E; lia | done]).
  unfold queue_submit. destruct (Nat.leb_spec (fq_max_size q) (queue_len q)) as [Hfull|Hroom]; [|split; [done|]; by exists (fq_next_id q)].
  pose proof (qk_size _ Hq) as Hs. pose proof (peek_min_spec q Hq) as Hp. destruct (peek_min_score q) as [q1 [s|]]; destruct Hp as (Hq1 & He & Hm & Hn1 & Hmin).
  2: { split_and!; [lia | done|]. intros id e Hx. by rewrite Hmin in Hx. }
  destruct Hmin as (id & e & Hle & ->). destruct (Z.leb_spec (score_of scored) (score_of (se_scored e))) as [Hsc|Hsc].
  - split_and!; [lia | done|]. intros id' e' Hx. destruct Hle as [_ Hle]. specialize (Hle _ _ Hx). apply key_leb_spec in Hle. cbn in Hle. lia.
  - split; [lia|]. pose proof (evict_min_spec q1 (qk_max _ Hq1) (qk_min _ Hq1)) as Hev. destruct (evict_min q1) as [q2 b].
    destruct Hev as (Hn2 & _ & _ & _ & [(_ & E & _)|(_ & id2 & e2 & Hle2 & E)]).
    + rewrite He in E. destruct Hle as [Hx _]. by rewrite E in Hx.
    + exists (fq_next_id q), id2, e2. unfold least in Hle2 |- *. rewrite He in *. split_and!; [done | apply Hle2 | apply Hle2 | |].
      * destruct Hle as [Hx _], Hle2 as [_ Hle2]. specialize (Hle2 _ _ Hx). apply key_leb_spec in Hle2. cbn in Hle2. lia.
      * cbn. by rewrite E, Hn2, Hn1.
Qed.
End Queue.
Arguments queue_step {A} score_of q x.
Arguments new_funnel_queue {A} max_size.

(** ** Instances *)

Module IngestionDemo.
#[local] Existing Instance ExactQ.exactQ.
#[local] Existing Instance ExactQ.exactQ_laws.
#[local] Instance one_worker : Sharding := {| hash_one := fun _ => 0 |}.
#[local] Instance texts : Uint256 := {| u256_to_string := fun z => pretty z; u256_from_str := fun _ => Some 0; b256_hex := fun z => pretty z |}.

(** A queue of one entry that always sees better offers keeps a key for every one of them. *)
Lemma heap_outgrows_queue :
  let q := foldl (queue_step (fun s : Z => s)) (new_funnel_queue 1) ((fun n => (0, QoSubmit (Z.of_nat n))) <$> seq 0 100) in
  queue_len q = 1%nat /\ length (fq_max_heap q) = 100%nat.
Proof. vm_compute. split; reflexivity. Qed.

Definition level (price size : Z) : BookLevel := {| lv_price := price; lv_size := size |}.
Definition snapshot (ask : Z) (ts : Z) : PipelineEvent :=
  EvBookSnapshot {| bc_asset_id := "7"; bc_bids := []; bc_asks := [level ask 1000000]; bc_timestamp_ms := ts |}.
Definition pipe (capacity : nat) : DataPipeline := new_data_pipeline new_registry 1 capacity 8 8.

Definition asks_of (p : DataPipeline) : option (list MicroPrice) := (fun s => lv_price <$> bs_asks s) <$> load (dp_books p) "7".

Definition two_snapshots : list (Time * PipeStep) :=
  [(0, PsReceive (snapshot 900000 1)); (1, PsReceive (snapshot 950000 2)); (2, PsTurn 0)].


(** When the channel is full the newest event of a token waits aside and is applied with the next
    turn, ahead of older events still in the channel: the book ends on a snapshot that is not the
    last one received. *)
Lemma coalesced_event_overtakes :
  asks_of (foldl pipe_step (pipe 2) [(0, PsReceive (snapshot 900000 1)); (1, PsReceive (snapshot 910000 2)); (2, PsReceive (snapshot 950000 3));
    (3, PsTurn 0); (4, PsTurn 0)]) = Some [910000].
Proof. vm_compute. reflexivity. Qed.

(** Two changes of different prices that find the channel full: the first one is lost. *)
Definition change (price : Z) : PipelineEvent :=
  EvPriceDelta {| dc_asset_id := "7"; dc_changes := [ {| pd_price := to_decimal price; pd_size := dof_Z 1; pd_side := Sell |} ]; dc_timestamp_ms := 4 |}.
Lemma coalesced_change_is_lost :
  asks_of (foldl pipe_step (pipe 1) [(0, PsReceive (snapshot 900000 1)); (1, PsReceive (change 910000)); (2, PsReceive (change 920000)); (3, PsTurn 0)])
    = Some [900000; 920000].
Proof. vm_compute. reflexivity. Qed.

(** The venue withdraws the only offer; the published book keeps it. *)
Definition offered : TokenBookState := bump_and_publish (new_state "7") (apply_snapshot_validated (new_order_book "7") [] [level 950000 1000000] 1).
Definition withdrawn : WsMessage := WsPriceChange 2 [ {| pe_asset_id := 7; pe_price := dlit 95 2; pe_size := Some d0; pe_side := SdkSell |} ].

Lemma announced_removals_ignored_witness :
  exists s', foldl (ingest "7") (Some offered) [withdrawn] = Some s' /\ keeps_prices offered s'.
Proof.
  apply (announced_removals_ignored "7" offered [withdrawn]).
  - split; [|reflexivity]. split; (split; [by repeat constructor|]); cbn; [constructor | by repeat constructor].
  - intros id ts bids asks Hin. apply list_elem_of_singleton in Hin. discriminate Hin.
Defined.

Definition m0 : MarketRegistryInfo := {|
  mk_market_id := "m0"; mk_event_id := "e0"; mk_token_yes := "y"; mk_token_no := "n"; mk_question := "?"; mk_slug := "s";
  mk_categories := 0; mk_status := MsActive; mk_outcome := None; mk_neg_risk := false; mk_tick_size := Hundredth;
  mk_tokens := [ {| tk_token_id := "y"; tk_outcome := "Yes"; tk_neg_risk := false |}; {| tk_token_id := "n"; tk_outcome := "No"; tk_neg_risk := false |} ];
  mk_best_bid := None; mk_best_ask := None; mk_depth_usd := None; mk_min_order_size := dof_Z 5; mk_volume_24h := d0;
  mk_fee_schedule := None; mk_end_date := None; mk_resolved_at := None; mk_created_at := 1; mk_updated_at := 2 |}.
Definition registry : MarketRegistry := register_markets new_registry [m0].

Lemma update_is_emitted_witness :
  "m0" ∈ (coalescer_run (new_coalescer 50 8) [(0, CoNotify registry "y"); (60000000, CoFlush)]).2.
Proof.
  apply (update_is_emitted 50 8 [] 0 registry "y" "m0" "y" "n" [] 60000000); [constructor | vm_compute; reflexivity | vm_compute; reflexivity |].
  vm_compute. discriminate.
Defined.
End IngestionDemo.
