(* ===== verification/Lifecycle.v ===== *)
(** * Operational lifecycle and health: [oxide-arb-core/src/service], [oxide-arb-core/src/infra]

    The phase the operator sees, evaluated from catalog, feed, breaker, control factors and health
    probes ([runtime_lifecycle.rs], [control/status.rs], domain/governance/lifecycle.rs), the two
    readiness flags the scanner reads, and the health checker with its edge-triggered alerts.  The
    probes of the databases and of the venue are inputs; watch channels, metrics and the other
    fields of the status broadcast are left out. *)

From S2P Require Import Prelude Decimal Config Domain RiskTypes CircuitBreaker FactorModel Factors MarketFeed.

(** ** Phases *)

(** [models/domain/governance/lifecycle.rs:6-7] `WS_MARKET_DATA_STALE_THRESHOLD_MS` *)
Definition ws_market_data_stale_threshold_ms : Z := 30000.

(** [models/domain/governance/lifecycle.rs:33-41] `OperationalDegradeReason` *)
Inductive OperationalDegradeReason :=
| BreakerOpen | BreakerHalfOpen | MarketDataStale | MarketDataCoverageDegraded | SubsystemUnhealthy (name : string)
| ControlFactorLiveWarn | ControlFactorSnapshotExpired.

(** [models/domain/governance/lifecycle.rs:15-29] `OperationalPhase` *)
Inductive OperationalPhase :=
| PhCatalogWarming | PhMarketDataConnecting | PhOperational | PhDegraded (reasons : list OperationalDegradeReason) | PhHalted.

(** [models/domain/governance/lifecycle.rs:54-60] `WsShardConnectivity` *)
Record WsShardConnectivity := {
  wc_total : Z; wc_disconnected : Z; wc_oldest_disconnected_secs : option Z; wc_connected_ratio_bps : Z
}.

(** [models/domain/governance/lifecycle.rs:45-50] `MarketDataConnectivity` *)
Record MarketDataConnectivity := { md_ready : bool; md_last_message_age_ms : option Z; md_ws_shards : WsShardConnectivity }.

(** [models/domain/governance/lifecycle.rs:65-67] `OperationalPhase::allows_live_trading` *)
Definition allows_live_trading (p : OperationalPhase) : bool := match p with PhOperational => true | _ => false end.

(** [models/domain/governance/lifecycle.rs:71-73] `OperationalPhase::allows_detection` *)
Definition allows_detection (p : OperationalPhase) : bool := match p with PhOperational => true | _ => false end.

(** [models/domain/governance/lifecycle.rs:79-90] `MarketDataConnectivity::from_parts` *)
Definition from_parts (last_message_age_ms : option Z) (ws_shards : WsShardConnectivity) : MarketDataConnectivity :=
  let traffic_fresh := match last_message_age_ms with Some age => age <? ws_market_data_stale_threshold_ms | None => false end in
  let coverage_ready := (wc_total ws_shards =? 0) || (wc_disconnected ws_shards =? 0) in
  {| md_ready := traffic_fresh && coverage_ready; md_last_message_age_ms := last_message_age_ms; md_ws_shards := ws_shards |}.

(** [models/domain/control_ports.rs:304-314] `CatalogState` *)
Inductive CatalogState := CtWarming | CtReady (markets : Z) (synced_at : Time).

(** [models/domain/control_ports.rs:319-321] `CatalogState::is_ready` *)
Definition catalog_state_ready (s : CatalogState) : bool := match s with CtReady _ _ => true | CtWarming => false end.

(** [core/service/catalog_readiness.rs:19-23] `CatalogReadiness` *)
Record CatalogReadiness := { cr_ready : bool; cr_state : CatalogState }.

(** [core/service/catalog_readiness.rs:34-40] `CatalogReadiness::new` *)
Definition new_catalog_readiness : CatalogReadiness := {| cr_ready := false; cr_state := CtWarming |}.

(** [core/service/catalog_readiness.rs:43-47] `CatalogReadiness::mark_ready` *)
Definition mark_ready (c : CatalogReadiness) (markets : Z) (synced_at : Time) : CatalogReadiness := {| cr_ready := true; cr_state := CtReady markets synced_at |}.

(** [core/service/runtime_lifecycle.rs:41-46] `LifecycleSnapshot` *)
Record LifecycleSnapshot := {
  ls_unhealthy : list string;
  ls_breaker_state : BreakerStateName;
  ls_control_factor_snapshot_expired : bool;
  ls_control_factor_live_warn : bool
}.

Section Evaluate.
Context {DO : DecimalOps}.

(** [core/service/runtime_lifecycle.rs:53-61] `evaluate_lifecycle`, the connectivity of the feed *)
Definition market_data_of (ws : ClobWsManager) (now : Time) : MarketDataConnectivity :=
  let summary := shard_health ws now in
  from_parts (last_message_age_ms ws now)
    {| wc_total := unwrap_or (to_u32 (hm_total summary)) u32_max; wc_disconnected := unwrap_or (to_u32 (hm_disconnected summary)) u32_max;
       wc_oldest_disconnected_secs := hm_oldest_disconnected_secs summary; wc_connected_ratio_bps := hm_connected_ratio_bps summary |}.

(** [core/service/runtime_lifecycle.rs:85-101] `evaluate_lifecycle`, the reasons of a degradation *)
Definition degrade_reasons (snap : LifecycleSnapshot) : list OperationalDegradeReason :=
  match ls_breaker_state snap with NOpen => [BreakerOpen] | NHalfOpen => [BreakerHalfOpen] | NClosed | NRecovered | NHalted => [] end ++
  (if ls_control_factor_snapshot_expired snap then [ControlFactorSnapshotExpired] else []) ++
  (if ls_control_factor_live_warn snap then [ControlFactorLiveWarn] else []) ++
  (SubsystemUnhealthy <$> ls_unhealthy snap).

(** [core/service/runtime_lifecycle.rs:50-110] `evaluate_lifecycle`, with `lifecycle_inputs` *)
Definition evaluate_lifecycle (catalog : CatalogReadiness) (ws : ClobWsManager) (snap : LifecycleSnapshot) (now : Time)
    : OperationalPhase * MarketDataConnectivity :=
  let market_data := market_data_of ws now in
  if decide (ls_breaker_state snap = NHalted) then (PhHalted, market_data)
  else if negb (cr_ready catalog) then (PhCatalogWarming, market_data)
  else if negb (md_ready market_data) then
    match md_last_message_age_ms market_data with
    | Some _ => (PhDegraded [if 0 <? wc_disconnected (md_ws_shards market_data) then MarketDataCoverageDegraded else MarketDataStale], market_data)
    | None => (PhMarketDataConnecting, market_data)
    end
  else match degrade_reasons snap with
       | [] => (PhOperational, market_data)
       | reasons => (PhDegraded reasons, market_data)
       end.

(** [core/control/status.rs:40-58] `lifecycle_snapshot_from_parts` *)
Definition lifecycle_snapshot_from_parts (breaker : CircuitBreaker) (mode : ExecutionMode) (published : ControlFactorSnapshot) (unhealthy : list string) (now : Time)
    : LifecycleSnapshot := {|
  ls_unhealthy := unhealthy;
  ls_breaker_state := to_name (cb_state breaker);
  ls_control_factor_snapshot_expired := match sn_publication_id published with Some _ => is_expired_at published now | None => false end;
  ls_control_factor_live_warn := bool_decide (mode = Live) && negb (bool_decide (is_Some (sn_publication_id published))) |}.

(** What the status of the system is evaluated from, and the flag it feeds. *)
Record SystemView := {
  sv_catalog : CatalogReadiness;
  sv_ws : ClobWsManager;
  sv_breaker : CircuitBreaker;
  sv_mode : ExecutionMode;
  sv_published : ControlFactorSnapshot;
  sv_unhealthy : list string;
  sv_allows_detection : bool
}.

Definition phase_of (v : SystemView) (now : Time) : OperationalPhase :=
  (evaluate_lifecycle (sv_catalog v) (sv_ws v) (lifecycle_snapshot_from_parts (sv_breaker v) (sv_mode v) (sv_published v) (sv_unhealthy v) now) now).1.

(** [core/service/detection_readiness.rs:14-17] `DetectionReadiness::update_from_phase` *)
Definition update_from_phase (v : SystemView) (p : OperationalPhase) : SystemView := {|
  sv_catalog := sv_catalog v; sv_ws := sv_ws v; sv_breaker := sv_breaker v; sv_mode := sv_mode v; sv_published := sv_published v;
  sv_unhealthy := sv_unhealthy v; sv_allows_detection := allows_detection p |}.

(** [core/service/system_status_publisher.rs:33-40] `SystemStatusPublisher::publish_now`, the readiness it stores *)
Definition publish_now (v : SystemView) (now : Time) : SystemView := update_from_phase v (phase_of v now).

(** The phase is operational exactly when nothing is wrong. *)
Lemma operational_iff catalog ws snap now :
  allows_detection (evaluate_lifecycle catalog ws snap now).1 = true <->
  cr_ready catalog = true /\ md_ready (market_data_of ws now) = true /\ (ls_breaker_state snap = NClosed \/ ls_breaker_state snap = NRecovered) /\
  ls_control_factor_snapshot_expired snap = false /\ ls_control_factor_live_warn snap = false /\ ls_unhealthy snap = [].
Proof.
  unfold evaluate_lifecycle, degrade_reasons. destruct snap as [unhealthy b expired warn]. cbn [ls_breaker_state ls_control_factor_snapshot_expired ls_control_factor_live_warn ls_unhealthy].
  destruct (decide (b = NHalted)) as [->|Hb]; [split; [done|]; intros (_ & _ & [?|?] & _); done|].
  destruct (cr_ready catalog); [|by split; [|intros (? & _)]]. destruct (md_ready (market_data_of ws now)); cbn [negb].
  - destruct b; try done; destruct expired, warn, unhealthy; cbn; split; try done; try (by intros (_ & _ & [?|?] & _)); try (by intros (_ & _ & _ & ? & _));
      try (by intros (_ & _ & _ & _ & ? & _)); try (by intros (_ & _ & _ & _ & _ & ?)); intros _; split_and!; auto.
  - destruct (md_last_message_age_ms _); (split; [done|]); by intros (_ & ? & _).
Qed.

Lemma coverage_needed ws now : md_ready (market_data_of ws now) = true -> hm_total (shard_health ws now) = 0 \/ hm_disconnected (shard_health ws now) = 0.
Proof.
  unfold market_data_of, from_parts. cbn [md_ready wc_total wc_disconnected]. intros [_ H]%andb_true_iff. apply orb_true_iff in H.
  assert (forall z, 0 <= z -> unwrap_or (to_u32 z) u32_max = 0 -> z = 0) as Hz.
  { intros z Hz. unfold to_u32, checked. destruct (_ && _); [done|]. by unfold_ints. }
  destruct H as [H|H]; apply Z.eqb_eq in H; apply Hz in H; auto; cbn; lia.
Qed.

(** Detection is allowed by a published status only when the market data is fresh on every shard ever
    spawned: when the last token of a shard is taken away, and its actor has noticed, the shard counts as
    disconnected, so every later status forbids detection for as long as the shard has no token,
    whatever the state of the other shards and of the rest of the system. *)
Theorem idle_shard_stops_detection {U : Uint256} cap steps i slot a v now :
  sv_ws v = foldl feed_step (new_ws_manager cap) steps ->
  rt_shards (wm_router (sv_ws v)) !! i = Some slot -> wm_actors (sv_ws v) !! i = Some a ->
  sh_published slot = ∅ -> ws_seen a = sh_version slot ->
  sv_allows_detection (publish_now v now) = false.
Proof.
  intros Hw Hs Ha He Hv. unfold publish_now, phase_of. cbn [update_from_phase sv_allows_detection].
  destruct (allows_detection _) eqn:E; [|done]. apply operational_iff in E as (_ & Hr & _). apply coverage_needed in Hr.
  rewrite Hw in *. pose proof (empty_shard_disconnected cap steps now i a slot Hs Ha He Hv) as [H1 H2]. destruct Hr; lia.
Qed.

End Evaluate.

(** ** Health *)

(** [models/domain/governance/system.rs:94-98] `SubsystemCheckStatus` *)
Inductive SubsystemCheckStatus := ScHealthy | ScUnhealthy | ScSkipped (reason : string).

(** [models/domain/governance/system.rs:102-107] `SubsystemHealth`, without its latency *)
Record SubsystemHealth := { sb_name : string; sb_status : SubsystemCheckStatus; sb_detail : option string }.

(** [models/domain/governance/system.rs:112-114] `SubsystemHealth::counts_toward_overall` *)
Definition counts_toward_overall (h : SubsystemHealth) : bool := match sb_status h with ScSkipped _ => false | _ => true end.

(** [models/domain/governance/system.rs:118-120] `SubsystemHealth::is_healthy` *)
Definition sub_is_healthy (h : SubsystemHealth) : bool := match sb_status h with ScHealthy => true | _ => false end.

(** [models/domain/governance/system.rs:123-130] `SubsystemHealth::healthy` *)
Definition sub_healthy (name : string) : SubsystemHealth := {| sb_name := name; sb_status := ScHealthy; sb_detail := None |}.
(** [models/domain/governance/system.rs:133-144] `SubsystemHealth::unhealthy` *)
Definition sub_unhealthy (name detail : string) : SubsystemHealth := {| sb_name := name; sb_status := ScUnhealthy; sb_detail := Some detail |}.
(** [models/domain/governance/system.rs:147-156] `SubsystemHealth::skipped` *)
Definition sub_skipped (name reason : string) : SubsystemHealth := {| sb_name := name; sb_status := ScSkipped reason; sb_detail := None |}.

(** [models/domain/governance/system.rs:162-172] `HealthReport::from_checks` *)
Definition overall_healthy (checks : list SubsystemHealth) : bool := forallb sub_is_healthy (List.filter counts_toward_overall checks).

(** [core/infra/health_alert_state.rs:142-148] `ws_probe_skipped` *)
Definition ws_probe_skipped (p : OperationalPhase) : option string :=
  match p with PhCatalogWarming => Some "catalog_warming" | PhMarketDataConnecting => Some "market_data_connecting" | _ => None end.

Definition show_Z (z : Z) : string := pretty z.

(** [api/ws/health.rs:134-140] `ShardHealthSummary::fmt` *)
Definition show_summary (s : ShardHealthSummary) : string :=
  if hm_total s =? 0 then "no WS shards spawned"
  else match hm_oldest_disconnected_secs s with
       | Some oldest =>
           if 0 <? hm_disconnected s
           then show_Z (hm_disconnected s) +:+ "/" +:+ show_Z (hm_total s) +:+ " WS shards disconnected (oldest " +:+ show_Z oldest +:+ "s)"
           else "all " +:+ show_Z (hm_total s) +:+ " WS shards connected"
       | None => "all " +:+ show_Z (hm_total s) +:+ " WS shards connected"
       end.

(** [core/infra/health_alert_state.rs:152-167] `evaluate_ws_probe` *)
Definition evaluate_ws_probe (last_message_age_ms : option Z) (shards : string) : SubsystemHealth :=
  match last_message_age_ms with
  | Some age_ms =>
      if age_ms <? ws_market_data_stale_threshold_ms then sub_healthy "websocket"
      else sub_unhealthy "websocket" ("no message for " +:+ show_Z age_ms +:+ "ms; " +:+ shards)
  | None => sub_unhealthy "websocket" ("never connected; " +:+ shards)
  end.

Section Health.
Context {DO : DecimalOps}.

(** [core/infra/health_checker.rs:154-163] `HealthChecker::check_ws` *)
Definition check_ws (ws : ClobWsManager) (p : OperationalPhase) (now : Time) : SubsystemHealth :=
  match ws_probe_skipped p with
  | Some reason => sub_skipped "websocket" reason
  | None =>
      let shards := shard_health ws now in
      if 0 <? hm_disconnected shards then sub_unhealthy "websocket" (show_summary shards)
      else evaluate_ws_probe (last_message_age_ms ws now) (show_summary shards)
  end.

(** What the probes answer: the two databases, and the number of open orders at the venue if there is a client. *)
Record Probes := { pr_postgres : Result unit string; pr_clickhouse : Result unit string; pr_open_orders : option (Result Z string) }.

(** [core/infra/health_checker.rs:124-137] `HealthChecker::check_postgres`, also `check_clickhouse` *)
Definition check_database (name : string) (r : Result unit string) : SubsystemHealth :=
  match r with Ok _ => sub_healthy name | Err e => sub_unhealthy name e end.

(** [core/infra/health_checker.rs:165-189] `HealthChecker::check_open_orders_invariant` *)
Definition check_open_orders_invariant (mode : ExecutionMode) (orders : option (Result Z string)) : SubsystemHealth :=
  if negb (bool_decide (mode = Live)) then sub_skipped "clob_open_orders" "skipped_outside_live_mode"
  else match orders with
       | None => sub_skipped "clob_open_orders" "skipped_without_clob_client"
       | Some (Ok n) =>
           if n =? 0 then sub_healthy "clob_open_orders"
           else sub_unhealthy "clob_open_orders" ("FOK-only invariant violated: " +:+ show_Z n +:+ " open orders")
       | Some (Err e) => sub_unhealthy "clob_open_orders" e
       end.

(** [core/infra/health_checker.rs:88-108] `HealthChecker::check_all`: the checks, and the view with the names of the unhealthy subsystems *)
Definition check_all (v : SystemView) (probes : Probes) (now : Time) : SystemView * list SubsystemHealth :=
  let p := phase_of v now in
  let checks := [check_database "postgres" (pr_postgres probes); check_database "clickhouse" (pr_clickhouse probes);
                 check_ws (sv_ws v) p now; check_open_orders_invariant (sv_mode v) (pr_open_orders probes)] in
  let unhealthy := sb_name <$> List.filter (fun c => counts_toward_overall c && negb (sub_is_healthy c)) checks in
  ({| sv_catalog := sv_catalog v; sv_ws := sv_ws v; sv_breaker := sv_breaker v; sv_mode := sv_mode v; sv_published := sv_published v;
      sv_unhealthy := unhealthy; sv_allows_detection := sv_allows_detection v |}, checks).
End Health.

(** [core/infra/health_alert_state.rs:21-25] `ProbeOutcome` *)
Inductive ProbeOutcome := PoHealthy | PoUnhealthy | PoSkipped.

(** [core/infra/health_alert_state.rs:27-35] `ProbeOutcome::from` *)
Definition probe_outcome (s : SubsystemCheckStatus) : ProbeOutcome :=
  match s with ScHealthy => PoHealthy | ScUnhealthy => PoUnhealthy | ScSkipped _ => PoSkipped end.

(** The last outcome of each subsystem, what a `HealthAlertState` of core/infra/health_alert_state.rs holds. *)
Abbreviation HealthAlertState := (gmap string ProbeOutcome).

(** An alert about a subsystem: it is unhealthy, with its effect on trading, or it recovered. *)
Inductive HealthAlert := HaUnhealthy (name detail : string) (affects_trading : bool) | HaRecovered (name : string).

(** [core/infra/health_alert_state.rs:92-120] `dispatch_unhealthy_alert` *)
Definition unhealthy_alert (check : SubsystemHealth) (p : OperationalPhase) (mode : ExecutionMode) : HealthAlert :=
  let affects := bool_decide (sb_name check = "websocket") && bool_decide (mode = Live) &&
                 match p with PhOperational | PhDegraded _ => true | _ => false end in
  HaUnhealthy (sb_name check) (unwrap_or (sb_detail check) "subsystem unhealthy") affects.

(** [core/infra/health_alert_state.rs:73-83] `HealthAlertState::on_report`, one transition *)
Definition transition_alert (p : OperationalPhase) (mode : ExecutionMode) (x : option ProbeOutcome * ProbeOutcome * SubsystemHealth) : option HealthAlert :=
  match x with
  | ((Some PoHealthy | None), PoUnhealthy, check) => Some (unhealthy_alert check p mode)
  | (Some PoUnhealthy, PoHealthy, check) => Some (HaRecovered (sb_name check))
  | _ => None
  end.

(** [core/infra/health_alert_state.rs:60-70] `HealthAlertState::on_report`, the transitions *)
Definition collect_transitions (last : HealthAlertState) (checks : list SubsystemHealth)
    : HealthAlertState * list (option ProbeOutcome * ProbeOutcome * SubsystemHealth) :=
  foldl (fun '(last, collected) check =>
    let current := probe_outcome (sb_status check) in
    (<[sb_name check := current]> last, collected ++ [(last !! sb_name check, current, check)])) (last, []) checks.

(** [core/infra/health_alert_state.rs:45-89] `HealthAlertState::on_report`: the alerts, and whether the status is nudged *)
Definition on_report (last : HealthAlertState) (checks : list SubsystemHealth) (p : OperationalPhase) (mode : ExecutionMode)
    : HealthAlertState * list HealthAlert * bool :=
  match p with
  | PhCatalogWarming | PhMarketDataConnecting => (last, [], false)
  | _ =>
      let '(last, transitions) := collect_transitions last checks in
      let alerts := omap (transition_alert p mode) transitions in
      (last, alerts, existsb (fun a => match a with HaRecovered _ => true | _ => false end) alerts)
  end.

(** A subsystem raises an alert when it becomes unhealthy from healthy or on its first probe, and
    never otherwise: one whose last probe was skipped becomes unhealthy without any alert, then and at every
    later unhealthy probe, such as open orders found after a switch to live trading. *)
Theorem alert_exact last check p mode :
  p <> PhCatalogWarming -> p <> PhMarketDataConnecting ->
  let '(last', alerts, nudge) := on_report last [check] p mode in
  last' !! sb_name check = Some (probe_outcome (sb_status check)) /\
  ((exists detail affects, HaUnhealthy (sb_name check) detail affects ∈ alerts) <->
     sb_status check = ScUnhealthy /\ (last !! sb_name check = None \/ last !! sb_name check = Some PoHealthy)) /\
  (HaRecovered (sb_name check) ∈ alerts <-> sb_status check = ScHealthy /\ last !! sb_name check = Some PoUnhealthy) /\
  (nudge = true <-> HaRecovered (sb_name check) ∈ alerts).
Proof.
  intros H1 H2. unfold on_report.
  assert (forall A (a b : A), match p with PhCatalogWarming | PhMarketDataConnecting => a | _ => b end = b) as -> by (by destruct p).
  unfold collect_transitions. cbn [foldl app].
  destruct check as [name status detail]. cbn [sb_name sb_status]. rewrite lookup_insert_eq. split; [done|].
  destruct (last !! name) as [[]|], status; cbn [probe_outcome omap list_omap transition_alert unhealthy_alert existsb sb_name orb];
    rewrite ?list_elem_of_singleton; split_and!; split; intros H;
    solve [ done | by apply elem_of_nil in H | by destruct H as (? & ? & ?%elem_of_nil) | by destruct H as (? & ? & ?%list_elem_of_singleton)
          | by destruct H as [? [?|?]] | by destruct H | by auto | eexists _, _; apply list_elem_of_singleton; reflexivity ].
Qed.

(** A violation found after a switch to live trading, when the probe was skipped before. *)
Lemma skipped_then_unhealthy_is_silent :
  let '(last, _, _) := on_report ∅ [check_open_orders_invariant DryRun (Some (Ok 3))] PhOperational DryRun in
  (on_report last [check_open_orders_invariant Live (Some (Ok 3))] PhOperational Live).1.2 = [].
Proof. vm_compute. reflexivity. Qed.

(** ** Examples *)
Module LifecycleDemo.
#[local] Existing Instance ExactQ.exactQ.
#[local] Instance texts : Uint256 := {| u256_to_string := fun z => pretty z; u256_from_str := fun _ => Some 0; b256_hex := fun z => pretty z |}.

(** Two shards are connected and stream; then the only token of the second is taken away. *)
Definition start : list (Time * FeedEvent) := [
  (0, FeCall (SyncTokens SrcEngine ["a"; "b"; "c"])); (0, FeActor 0 AeTurn); (0, FeActor 1 AeTurn); (0, FeActor 0 AeSubscribed);
  (0, FeActor 1 AeSubscribed); (0, FeActor 0 (AeMessage (WsBestBidAsk 1 (4#10)%Q (6#10)%Q 0)))].
Definition resolved : list (Time * FeedEvent) := [
  (1, FeCall (SyncTokens SrcEngine ["a"; "c"])); (1, FeActor 1 AeTokensChanged); (1, FeActor 1 AeTurn); (1, FeActor 0 (AeMessage (WsBestBidAsk 1 (4#10)%Q (6#10)%Q 0)))].

Definition view_of (steps : list (Time * FeedEvent)) : SystemView := {|
  sv_catalog := mark_ready new_catalog_readiness 3 0; sv_ws := foldl feed_step (new_ws_manager 2) steps; sv_breaker := cb_new CircuitBreakerConfig_default 0;
  sv_mode := DryRun; sv_published := snapshot_neutral 0; sv_unhealthy := []; sv_allows_detection := true |}.

Definition parked : WsShard := {| ws_phase := Parked; ws_seen := 2; ws_retries := 0 |}.
Definition emptied : ShardSlot := {| sh_assigned := ∅; sh_published := ∅; sh_version := 2 |}.

Lemma parked_state : rt_shards (wm_router (sv_ws (view_of (start ++ resolved)))) !! 1%nat = Some emptied /\
  wm_actors (sv_ws (view_of (start ++ resolved))) !! 1%nat = Some parked.
Proof. vm_compute. split; reflexivity. Qed.

Lemma view_ws steps : sv_ws (view_of steps) = foldl feed_step (new_ws_manager 2) steps.
Proof. reflexivity. Qed.

Lemma start_allows : sv_allows_detection (publish_now (view_of start) 1) = true.
Proof. vm_compute. reflexivity. Qed.

Lemma idle_shard_stops_detection_witness :
  sv_allows_detection (publish_now (view_of start) 1) = true /\ sv_allows_detection (publish_now (view_of (start ++ resolved)) 1) = false.
Proof.
  split; [exact start_allows|].
  exact (idle_shard_stops_detection 2 (start ++ resolved) 1%nat emptied parked (view_of (start ++ resolved)) 1 (view_ws _)
           (proj1 parked_state) (proj2 parked_state) eq_refl eq_refl).
Defined.

Lemma alert_exact_witness :
  let '(last', alerts, nudge) := on_report ∅ [sub_unhealthy "websocket" "silent"] PhOperational Live in
  last' !! "websocket" = Some PoUnhealthy /\ (HaRecovered "websocket" ∈ alerts <-> False).
Proof.
  pose proof (alert_exact ∅ (sub_unhealthy "websocket" "silent") PhOperational Live ltac:(discriminate) ltac:(discriminate)) as H.
  destruct (on_report _ _ _ _) as [[l a] n]. destruct H as (H & _ & H2 & _). split; [exact H|].
  rewrite H2. split; [intros [? _]; discriminate | intros []].
Defined.
End LifecycleDemo.
