(* ===== verification/MetricsRefresh.v ===== *)
(** * Live risk metrics: [oxide-arb-core/src/service/{risk_metrics,equity_valuator}.rs] and [bridge/risk_metrics.rs]

    The counters of the venue's errors, the snapshot of cash and positions with the refreshes that replace it, the
    marks of open positions, and the adapter through which the risk engine reads them.  A refresh waits for the venue or the
    store between its reads, so it is a task with several steps; what else changes the state happens in between.  Log lines
    and counters of failures are left out. *)

From S2P Require Import Prelude Decimal Micro Config Domain RiskTypes Context Checks Pipeline Interfaces Exposure Book OrderBook Calibration Positions TradeStore Markets MarketFeed Ingestion.

(** ** The window of the venue's errors *)

(** [core/service/risk_metrics.rs:92-99] `ApiHealthTracker` *)
Record ApiHealthTracker := {
  at_current_requests : Z; at_current_errors : Z; at_previous_requests : Z; at_previous_errors : Z; at_window_start_ms : Z; at_window_ms : Z
}.

(** [core/service/risk_metrics.rs:102-111] `ApiHealthTracker::new` *)
Definition new_tracker (window_ms now_ms : Z) : ApiHealthTracker := {|
  at_current_requests := 0; at_current_errors := 0; at_previous_requests := 0; at_previous_errors := 0; at_window_start_ms := now_ms; at_window_ms := window_ms |}.

(** [core/service/risk_metrics.rs:134-157] `ApiHealthTracker::maybe_rotate` *)
Definition maybe_rotate (a : ApiHealthTracker) (now_ms : Z) : ApiHealthTracker :=
  if Z.max 0 (now_ms - at_window_start_ms a) <? at_window_ms a then a
  else {| at_current_requests := 0; at_current_errors := 0; at_previous_requests := at_current_requests a; at_previous_errors := at_current_errors a;
          at_window_start_ms := now_ms; at_window_ms := at_window_ms a |}.

(** [core/service/risk_metrics.rs:113-119] `ApiHealthTracker::record_request` *)
Definition record_request (a : ApiHealthTracker) (now_ms : Z) (success : bool) : ApiHealthTracker :=
  let a := maybe_rotate a now_ms in {|
  at_current_requests := wrap_u64 (at_current_requests a + 1); at_current_errors := if success then at_current_errors a else wrap_u64 (at_current_errors a + 1);
  at_previous_requests := at_previous_requests a; at_previous_errors := at_previous_errors a; at_window_start_ms := at_window_start_ms a; at_window_ms := at_window_ms a |}.

(** [core/service/risk_metrics.rs:122-126] `ApiHealthTracker::requests_in_window` *)
Definition requests_in_window (a : ApiHealthTracker) (now_ms : Z) : ApiHealthTracker * Z :=
  let a := maybe_rotate a now_ms in (a, wrap_u64 (at_previous_requests a + at_current_requests a)).
(** [core/service/risk_metrics.rs:129-132] `ApiHealthTracker::errors_in_window` *)
Definition errors_in_window (a : ApiHealthTracker) (now_ms : Z) : ApiHealthTracker * Z :=
  let a := maybe_rotate a now_ms in (a, wrap_u64 (at_previous_errors a + at_current_errors a)).

(** What happens to a tracker, with its times: a request that is recorded, or a count that is read. *)
Inductive TrackerEvent := TrackRequest (now_ms : Z) (success : bool) | TrackRead (now_ms : Z).
Definition event_time (e : TrackerEvent) : Z := match e with TrackRequest t _ | TrackRead t => t end.
Definition track (a : ApiHealthTracker) (e : TrackerEvent) : ApiHealthTracker :=
  match e with TrackRequest t ok => record_request a t ok | TrackRead t => maybe_rotate a t end.

(** The recorded requests that satisfy a test of their time and outcome. *)
Definition recorded (f : Z -> bool -> bool) (h : list TrackerEvent) : Z :=
  Z.of_nat (length (List.filter (fun e => match e with TrackRequest t ok => f t ok | TrackRead _ => false end) h)).

(** Events in the order of their times. *)
Fixpoint in_order (from : Z) (h : list TrackerEvent) : Prop :=
  match h with [] => True | e :: h => from <= event_time e /\ in_order (event_time e) h end.

Lemma recorded_app f h h' : recorded f (h ++ h') = recorded f h + recorded f h'.
Proof. unfold recorded. rewrite List.filter_app, length_app. lia. Qed.

Lemma recorded_le f g h : (forall t ok, f t ok = true -> g t ok = true) -> recorded f h <= recorded g h.
Proof.
  intros H. unfold recorded. induction h as [|[t ok|t] h IH]; cbn; [lia| |done]. specialize (H t ok). destruct (f t ok), (g t ok); cbn [length]; lia.
Qed.

Lemma recorded_request f t ok : recorded f [TrackRequest t ok] = if f t ok then 1 else 0.
Proof. unfold recorded. cbn. by destruct (f t ok). Qed.

Lemma recorded_read f t : recorded f [TrackRead t] = 0.
Proof. done. Qed.

Lemma recorded_bounds f h : 0 <= recorded f h <= Z.of_nat (length h).
Proof. unfold recorded. pose proof (List.filter_length_le (fun e => match e with TrackRequest t ok => f t ok | TrackRead _ => false end) h). lia. Qed.

Lemma in_order_app t h h' : in_order t (h ++ h') -> in_order t h /\ in_order (default t (event_time <$> last h)) h'.
Proof.
  revert t. induction h as [|e h IH]; intros t; cbn; [done|]. intros [H1 H2]. apply IH in H2 as [H2 H3]. split; [done|].
  destruct h as [|e' h]; [done|]. rewrite last_cons_cons. by destruct (last (e' :: h)) eqn:E; [|apply last_None in E].
Qed.

Definition any (_ : Z) (_ : bool) : bool := true.
Definition failed_request (_ : Z) (ok : bool) : bool := negb ok.

(** The events that a tracker has forgotten, those of its previous window and those of its current one. *)
Record tracked (t0 : Z) (a : ApiHealthTracker) (h : list TrackerEvent) (old prev cur : list TrackerEvent) : Prop := {
  tr_split : h = old ++ prev ++ cur;
  tr_current : at_current_requests a = recorded any cur /\ at_current_errors a = recorded failed_request cur;
  tr_previous : at_previous_requests a = recorded any prev /\ at_previous_errors a = recorded failed_request prev;
  tr_start : t0 <= at_window_start_ms a;
  tr_old : Forall (fun e => event_time e < at_window_start_ms a - at_window_ms a) old;
  tr_last : Forall (fun e => event_time e < at_window_start_ms a + at_window_ms a) cur /\ Forall (fun e => event_time e < at_window_start_ms a) prev
}.

Lemma rotate_tracked t0 a h old prev cur now : 0 < at_window_ms a -> at_window_start_ms a <= now -> tracked t0 a h old prev cur ->
  exists old prev cur, tracked t0 (maybe_rotate a now) h old prev cur /\ at_window_start_ms (maybe_rotate a now) <= now /\
    now < at_window_start_ms (maybe_rotate a now) + at_window_ms a /\ at_window_ms (maybe_rotate a now) = at_window_ms a.
Proof.
  intros Hw Hn []. unfold maybe_rotate. destruct (Z.ltb_spec (Z.max 0 (now - at_window_start_ms a)) (at_window_ms a)).
  - exists old, prev, cur. split_and!; [by constructor | done | lia | done].
  - exists (old ++ prev), cur, []. cbn. split_and!; [|lia..]. constructor; cbn; try done.
    + by rewrite app_nil_r, <- app_assoc.
    + lia.
    + apply Forall_app. destruct tr_last0 as [_ Hp]. split; (eapply Forall_impl; [done|]); cbn; intros; lia.
    + split; [constructor|]. destruct tr_last0 as [Hc _]. eapply Forall_impl; [done|]. cbn. intros. lia.
Qed.

Lemma wrap_u64_small n : 0 <= n <= u64_max -> wrap_u64 n = n.
Proof. apply wrap_u64_id. Qed.

Lemma track_tracked t0 a h old prev cur e : 0 < at_window_ms a -> at_window_start_ms a <= event_time e -> Z.of_nat (length h) < u64_max -> tracked t0 a h old prev cur ->
  exists old prev cur, tracked t0 (track a e) (h ++ [e]) old prev cur /\ at_window_start_ms (track a e) <= event_time e /\ at_window_ms (track a e) = at_window_ms a.
Proof.
  intros Hw Hs Hl Ht. destruct (rotate_tracked t0 a h old prev cur (event_time e) Hw Hs Ht) as (old' & prev' & cur' & [] & H1 & H2 & H3).
  exists old', prev', (cur' ++ [e]). assert (length cur' <= length h)%nat as Hlc by (rewrite tr_split0, !length_app; lia).
  pose proof (recorded_bounds any cur'). pose proof (recorded_bounds failed_request cur'). destruct tr_current0 as [C1 C2].
  split; [|destruct e; cbn [track event_time record_request at_window_start_ms at_window_ms] in *; by split].
  destruct e as [t ok|t]; cbn [track event_time] in *; unfold record_request; constructor;
    cbn [at_current_requests at_current_errors at_previous_requests at_previous_errors at_window_start_ms at_window_ms]; try done; try (by rewrite tr_split0, !app_assoc).
  - rewrite C1, C2, !recorded_app. rewrite !recorded_request, wrap_u64_small by lia. split; [done|]. destruct ok; cbn; [lia|]. rewrite wrap_u64_small; lia.
  - destruct tr_last0 as [L1 L2]. split; [|done]. apply Forall_app. split; [by rewrite H3 in *|]. repeat constructor. cbn. lia.
  - rewrite C1, C2, !recorded_app, !recorded_read. split; lia.
  - destruct tr_last0 as [L1 L2]. split; [|done]. apply Forall_app. split; [by rewrite H3 in *|]. repeat constructor. cbn. lia.
Qed.

Lemma track_run t0 h : forall a h0 old prev cur, 0 < at_window_ms a -> in_order (at_window_start_ms a) h -> Z.of_nat (length (h0 ++ h)) <= u64_max -> tracked t0 a h0 old prev cur ->
  exists old prev cur, tracked t0 (foldl track a h) (h0 ++ h) old prev cur /\ at_window_start_ms (foldl track a h) <= default (at_window_start_ms a) (event_time <$> last h) /\
    at_window_ms (foldl track a h) = at_window_ms a.
Proof.
  induction h as [|e h IH]; intros a h0 old prev cur Hw Ho Hl Ht; cbn.
  { rewrite app_nil_r. exists old, prev, cur. by split_and!. }
  destruct Ho as [Ho1 Ho2]. rewrite length_app in Hl. cbn in Hl. destruct (track_tracked t0 a h0 old prev cur e Hw Ho1 ltac:(lia) Ht) as (o1 & p1 & c1 & H1 & H2 & H3).
  assert (in_order (at_window_start_ms (track a e)) h) as Ho3 by (destruct h as [|e' h]; cbn in *; [done|]; destruct Ho2; split; [lia | done]).
  assert (Z.of_nat (length ((h0 ++ [e]) ++ h)) <= u64_max) as Hl' by (rewrite <- app_assoc, length_app; cbn; lia).
  destruct (IH (track a e) (h0 ++ [e]) o1 p1 c1 ltac:(lia) Ho3 Hl' H1) as (o2 & p2 & c2 & H4 & H5 & H6).
  exists o2, p2, c2. rewrite <- app_assoc in H4. cbn [app] in H4. split_and!; [done| |lia]. destruct h as [|e' h]; [by cbn in *|]. rewrite last_cons_cons. cbn [fmap] in H5.
  destruct (last (e' :: h)) eqn:El; [done|]. by apply last_None in El.
Qed.

(** The window never counts too few: a request of the last window is always among those counted, and nothing is counted twice.
    Times do not run backwards and fewer than [2^64] events happen. *)
Theorem window_never_undercounts (window_ms t0 now : Z) (h : list TrackerEvent) :
  0 < window_ms -> in_order t0 h -> default t0 (event_time <$> last h) <= now -> Z.of_nat (length h) <= u64_max ->
  let a := foldl track (new_tracker window_ms t0) h in
  recorded (fun t _ => now - window_ms <=? t) h <= (requests_in_window a now).2 <= recorded any h /\
  recorded (fun t ok => (now - window_ms <=? t) && negb ok) h <= (errors_in_window a now).2 <= recorded failed_request h.
Proof.
  intros Hw Ho Hn Hl. cbv zeta. assert (tracked t0 (new_tracker window_ms t0) [] [] [] []) as Ht by (constructor; cbn; repeat constructor; lia).
  destruct (track_run t0 h (new_tracker window_ms t0) [] [] [] [] Hw Ho Hl Ht) as (o & p & c & H1 & H2 & H3). cbn [app] in H1. set (a := foldl _ _ h) in *. cbn [new_tracker at_window_start_ms at_window_ms] in *.
  destruct (rotate_tracked t0 a h o p c now ltac:(lia) ltac:(lia) H1) as (o' & p' & c' & [] & R1 & R2 & R3). unfold requests_in_window, errors_in_window. cbn [snd].
  destruct tr_current0 as [-> ->], tr_previous0 as [-> ->].
  assert (forall f g, (forall t ok, f t ok = true -> g t ok = true) -> (forall t ok, f t ok = true -> now - window_ms <= t) ->
    recorded f h <= wrap_u64 (recorded g p' + recorded g c') <= recorded g h) as Hall.
  { intros f g Hfg Hft. rewrite tr_split0, !recorded_app. pose proof (recorded_le f g p' Hfg). pose proof (recorded_le f g c' Hfg).
    pose proof (recorded_bounds g p'). pose proof (recorded_bounds g c'). pose proof (recorded_bounds g o').
    assert (length p' + length c' <= length h)%nat by (rewrite tr_split0, !length_app; lia). rewrite wrap_u64_small by lia.
    assert (recorded f o' = 0) as ->; [|lia]. unfold recorded. clear -tr_old0 R1 R2 R3 H3 Hft. induction tr_old0 as [|e l He _ IH]; [done|]. destruct e as [t ok|t]; cbn in *; [|done].
    destruct (f t ok) eqn:Ef; [|done]. apply Hft in Ef. lia. }
  split; apply Hall; unfold any, failed_request; intros t ok Ht'; try done; try lia. by apply andb_true_iff in Ht' as [_ ?].
Qed.

(** ** Marks of open positions *)

(** [core/service/equity_valuator.rs:15-19] `MarkSource` *)
Inductive MarkSource := Calibrated | BookBid | CostBasis.

Section Marks.
Context {DO : DecimalOps}.

(** [core/service/equity_valuator.rs:12-12] `MAX_MARK_BOOK_STALENESS_MS` *)
Definition MAX_MARK_BOOK_STALENESS_MS : Z := 30000.

(** [core/service/equity_valuator.rs:22-28] `PerPositionMark` *)
Record PerPositionMark := { mk_position : PositionInfo; mk_mark : D; mk_value : D; mk_stale : bool; mk_source : MarkSource }.

(** [core/service/equity_valuator.rs:30-34] `EquityValuator` *)
Record EquityValuator := { ev_registry : MarketRegistry; ev_book_store : gmap TokenId TokenBookState; ev_calibrator : ResolutionCalibrator }.

(** [u64::try_from(now.timestamp_millis().max(0)).unwrap_or(0)] *)
Definition now_millis (now : Time) : Z := unwrap_or (to_u64 (Z.max 0 (now / 1000000))) 0.

(** [core/service/equity_valuator.rs:106-113] `EquityValuator::fresh_best_bid` *)
Definition fresh_best_bid (v : EquityValuator) (p : PositionInfo) (now_ms : Z) : option D :=
  match load (ev_book_store v) (pos_token_id p) with
  | None => None
  | Some snapshot =>
      if (bs_timestamp_ms snapshot =? 0) || (MAX_MARK_BOOK_STALENESS_MS <? Z.max 0 (now_ms - bs_timestamp_ms snapshot)) then None
      else price_decimal <$> head (bs_bids snapshot)
  end.

(** The probability that the calibrator has for a bid, [secs] seconds before the end of the market. *)
Definition calibrated_mark (v : EquityValuator) (category : MarketCategory) (bid : D) (secs : Z) : D :=
  let key := {| bk_category := category; bk_price_zone := price_zone_from_price bid; bk_duration_bucket := duration_bucket_from_secs secs |} in
  dclamp (posterior_mean (calibrator_lookup (ev_calibrator v) key)) d0 d1.

(** [core/service/equity_valuator.rs:75-104] `EquityValuator::mark_position` *)
Definition mark_position (v : EquityValuator) (p : PositionInfo) (now : Time) (now_ms : Z) : D * bool * MarkSource :=
  match fresh_best_bid v p now_ms with
  | None => (pos_avg_entry_price p, true, CostBasis)
  | Some bid =>
      match get_market (ev_registry v) (pos_market_id p) with
      | None => (bid, false, BookBid)
      | Some market =>
          match mk_end_date market with
          | None => (bid, false, BookBid)
          | Some end_date => (calibrated_mark v (fee_category (mk_categories market)) bid (Z.max 0 ((end_date - now) ÷ 1000000000)), false, Calibrated)
          end
      end
  end.

Definition position_mark (v : EquityValuator) (now : Time) (p : PositionInfo) : PerPositionMark :=
  let '(mark, stale, source) := mark_position v p now (now_millis now) in
  {| mk_position := p; mk_mark := mark; mk_value := dmul (pos_shares p) mark; mk_stale := stale; mk_source := source |}.

(** [core/service/equity_valuator.rs:50-73] `EquityValuator::value` *)
Definition value (v : EquityValuator) (positions : list PositionInfo) (now : Time) : D * list PerPositionMark :=
  let marks := position_mark v now <$> positions in (foldl (fun total m => dadd total (mk_value m)) d0 marks, marks).
End Marks.

(** ** The snapshot and its refresh *)

Section Metrics.
Context {DO : DecimalOps} {CH : Chrono}.

(** [core/service/risk_metrics.rs:50-55] `RiskMetricsSource` *)
Inductive RiskMetricsSource := NeverRefreshed | AuthoritativeClob | SimulatedPaper | SimulatedDryRun.

(** [core/service/risk_metrics.rs:36-47] `MetricsSnapshot` *)
Record MetricsSnapshot := {
  mx_cash_balance : D; mx_positions : list PositionInfo; mx_total_position_exposure : D; mx_position_mark_value : D; mx_equity : D;
  mx_market_position_exposures : gmap MarketId D; mx_open_position_count : Z; mx_open_buy_count : Z; mx_open_sell_count : Z; mx_refresh_sequence : Z
}.

(** [core/service/risk_metrics.rs:75-88] `MetricsSnapshot::initial` *)
Definition initial_snapshot : MetricsSnapshot := {|
  mx_cash_balance := d0; mx_positions := []; mx_total_position_exposure := d0; mx_position_mark_value := d0; mx_equity := d0; mx_market_position_exposures := ∅;
  mx_open_position_count := 0; mx_open_buy_count := 0; mx_open_sell_count := 0; mx_refresh_sequence := 0 |}.

(** [core/service/risk_metrics.rs:169-179] `RiskMetricsState` *)
Record RiskMetricsState := {
  rx_snapshot : MetricsSnapshot; rx_api_tracker : ApiHealthTracker; rx_market_misses : gmap MarketId Z; rx_daily_buy_trades : Z; rx_daily_sell_trades : Z;
  rx_daily_rollover_date : Date; rx_stale : bool; rx_last_successful_refresh : Z; rx_source : RiskMetricsSource
}.

Definition set_rx_snapshot (s : RiskMetricsState) (x : MetricsSnapshot) : RiskMetricsState := {|
  rx_snapshot := x; rx_api_tracker := rx_api_tracker s; rx_market_misses := rx_market_misses s; rx_daily_buy_trades := rx_daily_buy_trades s;
  rx_daily_sell_trades := rx_daily_sell_trades s; rx_daily_rollover_date := rx_daily_rollover_date s; rx_stale := rx_stale s;
  rx_last_successful_refresh := rx_last_successful_refresh s; rx_source := rx_source s |}.
Definition set_rx_tracker (s : RiskMetricsState) (a : ApiHealthTracker) : RiskMetricsState := {|
  rx_snapshot := rx_snapshot s; rx_api_tracker := a; rx_market_misses := rx_market_misses s; rx_daily_buy_trades := rx_daily_buy_trades s;
  rx_daily_sell_trades := rx_daily_sell_trades s; rx_daily_rollover_date := rx_daily_rollover_date s; rx_stale := rx_stale s;
  rx_last_successful_refresh := rx_last_successful_refresh s; rx_source := rx_source s |}.
Definition set_rx_daily (s : RiskMetricsState) (misses : gmap MarketId Z) (buys sells : Z) (date : Date) : RiskMetricsState := {|
  rx_snapshot := rx_snapshot s; rx_api_tracker := rx_api_tracker s; rx_market_misses := misses; rx_daily_buy_trades := buys;
  rx_daily_sell_trades := sells; rx_daily_rollover_date := date; rx_stale := rx_stale s;
  rx_last_successful_refresh := rx_last_successful_refresh s; rx_source := rx_source s |}.

(** [core/service/risk_metrics.rs:182-196] `RiskMetricsState::new` *)
Definition new_metrics_state (tracker : ApiHealthTracker) (now : Time) : RiskMetricsState := {|
  rx_snapshot := initial_snapshot; rx_api_tracker := tracker; rx_market_misses := ∅; rx_daily_buy_trades := 0; rx_daily_sell_trades := 0;
  rx_daily_rollover_date := date_naive now; rx_stale := true; rx_last_successful_refresh := now_millis now; rx_source := NeverRefreshed |}.

(** [core/service/risk_metrics.rs:198-200] `RiskMetricsState::mark_stale` *)
Definition mark_stale (s : RiskMetricsState) : RiskMetricsState := {|
  rx_snapshot := rx_snapshot s; rx_api_tracker := rx_api_tracker s; rx_market_misses := rx_market_misses s; rx_daily_buy_trades := rx_daily_buy_trades s;
  rx_daily_sell_trades := rx_daily_sell_trades s; rx_daily_rollover_date := rx_daily_rollover_date s; rx_stale := true;
  rx_last_successful_refresh := rx_last_successful_refresh s; rx_source := rx_source s |}.

(** [core/service/risk_metrics.rs:325-334] `RiskMetricsState::check_daily_rollover` *)
Definition check_daily_rollover (s : RiskMetricsState) (now : Time) : RiskMetricsState :=
  if rx_daily_rollover_date s =? date_naive now then s else set_rx_daily s (rx_market_misses s) 0 0 (date_naive now).

(** [core/service/risk_metrics.rs:298-302] `RiskMetricsState::consecutive_market_misses` *)
Definition market_misses_of (s : RiskMetricsState) (id : MarketId) : Z := default 0 (rx_market_misses s !! id).

(** [core/service/risk_metrics.rs:305-323] `RiskMetricsState::record_trade_outcome` *)
Definition record_outcome (s : RiskMetricsState) (now : Time) (side : Side) (id : MarketId) (was_miss : bool) : RiskMetricsState :=
  let s := check_daily_rollover s now in
  let buys := match side with Buy => wrap_u32 (rx_daily_buy_trades s + 1) | Sell => rx_daily_buy_trades s end in
  let sells := match side with Buy => rx_daily_sell_trades s | Sell => wrap_u32 (rx_daily_sell_trades s + 1) end in
  let misses := if was_miss then <[id := wrap_u32 (market_misses_of s id + 1)]> (rx_market_misses s)
                else match rx_market_misses s !! id with Some _ => <[id := 0]> (rx_market_misses s) | None => rx_market_misses s end in
  set_rx_daily s misses buys sells (rx_daily_rollover_date s).

(** [core/service/risk_metrics.rs:336-344] `RiskMetricsState::store_snapshot` *)
Definition store_snapshot (s : RiskMetricsState) (x : MetricsSnapshot) (source : RiskMetricsSource) (now : Time) : RiskMetricsState := {|
  rx_snapshot := x; rx_api_tracker := rx_api_tracker s; rx_market_misses := rx_market_misses s; rx_daily_buy_trades := rx_daily_buy_trades s;
  rx_daily_sell_trades := rx_daily_sell_trades s; rx_daily_rollover_date := rx_daily_rollover_date s; rx_stale := false;
  rx_last_successful_refresh := now_millis now; rx_source := source |}.

Definition is_simulated (s : RiskMetricsSource) : bool := match s with SimulatedDryRun | SimulatedPaper => true | NeverRefreshed | AuthoritativeClob => false end.

(** [core/service/risk_metrics.rs:373-406] `RiskMetricsState::reload`, the two bankrolls *)
Definition reload_bankroll (s : RiskMetricsState) (previous next : D) : RiskMetricsState :=
  if deqb previous next then s
  else if negb (is_simulated (rx_source s)) then s
  else let x := rx_snapshot s in
       let cash := dadd (mx_cash_balance x) (dsub next previous) in
       set_rx_snapshot s {|
         mx_cash_balance := cash; mx_positions := mx_positions x; mx_total_position_exposure := mx_total_position_exposure x;
         mx_position_mark_value := mx_position_mark_value x; mx_equity := dadd cash (mx_position_mark_value x);
         mx_market_position_exposures := mx_market_position_exposures x; mx_open_position_count := mx_open_position_count x;
         mx_open_buy_count := mx_open_buy_count x; mx_open_sell_count := mx_open_sell_count x; mx_refresh_sequence := wrap_u64 (mx_refresh_sequence x + 1) |}.

(** The sums over the positions of a refresh. *)
Definition total_cost (positions : list PositionInfo) : D := foldl (fun acc p => dadd acc (pos_total_cost_usd p)) d0 positions.
Definition market_costs (positions : list PositionInfo) : gmap MarketId D :=
  foldl (fun m p => <[pos_market_id p := dadd (default d0 (m !! pos_market_id p)) (pos_total_cost_usd p)]> m) ∅ positions.
Definition side_count (side : Side) (positions : list PositionInfo) : Z := Z.of_nat (length (List.filter (fun p => bool_decide (pos_side p = side)) positions)).

(** [core/service/risk_metrics.rs:557-602] `RiskMetricsRefreshService::store_position_snapshot`, after its query *)
Definition position_snapshot (s : RiskMetricsState) (v : EquityValuator) (cash : D) (positions : list PositionInfo) (now : Time) : MetricsSnapshot :=
  let mark := (value v positions now).1 in {|
  mx_cash_balance := cash; mx_positions := positions; mx_total_position_exposure := total_cost positions; mx_position_mark_value := mark;
  mx_equity := dadd cash mark; mx_market_position_exposures := market_costs positions; mx_open_position_count := Z.of_nat (length positions);
  mx_open_buy_count := side_count Buy positions; mx_open_sell_count := side_count Sell positions;
  mx_refresh_sequence := wrap_u64 (mx_refresh_sequence (rx_snapshot s) + 1) |}.
End Metrics.

#[export] Instance RiskMetricsSource_eq_dec : EqDecision RiskMetricsSource.
Proof. solve_decision. Defined.

(** ** Refresh tasks *)

Section Refresh.
Context {DO : DecimalOps} {CH : Chrono}.

(** [core/service/risk_metrics.rs:495-508] `RiskMetricsRefreshService::refresh`, the source of a mode *)
Definition source_of (mode : ExecutionMode) : RiskMetricsSource :=
  match mode with Live => AuthoritativeClob | DryRun => SimulatedDryRun | Paper => SimulatedPaper end.

(** What a refresh waits for: the venue's balance, the spend and the payouts of the ledger, or the open positions; with what it has read
    before.  The mode and the bankroll are read once. *)
Inductive Refresh :=
| AwaitBalance
| AwaitSpend (mode : ExecutionMode) (bankroll : D)
| AwaitPayout (mode : ExecutionMode) (bankroll spend : D)
| AwaitPositions (mode : ExecutionMode) (cash : D).

(** What the venue or the store answers. *)
Inductive Answer := AnAmount (r : Result D string) | AnPositions (r : Result (list PositionInfo) string).

(** [core/service/risk_metrics.rs:493-511] `RiskMetricsRefreshService::refresh`, up to its first read *)
Definition refresh_begin (mode : ExecutionMode) (bankroll : D) (has_clob : bool) : Result Refresh string :=
  match mode with
  | Live => if has_clob then Ok AwaitBalance else Err "Live risk metrics refresh requires a ClobClient"
  | DryRun | Paper => Ok (AwaitSpend mode bankroll)
  end.

(** [core/service/risk_metrics.rs:514-554] `fetch_live_cash`, with `derive_simulated_cash` and the end of `store_position_snapshot`: an answer takes a refresh to
    its next read, or ends it *)
Definition refresh_answer (s : RiskMetricsState) (v : EquityValuator) (r : Refresh) (a : Answer) (now : Time) : RiskMetricsState * option (Refresh + Result unit string) :=
  match r, a with
  | AwaitBalance, AnAmount (Ok balance) =>
      (set_rx_tracker s (record_request (rx_api_tracker s) (now_millis now) true), Some (inl (AwaitPositions Live balance)))
  | AwaitBalance, AnAmount (Err e) => (set_rx_tracker s (record_request (rx_api_tracker s) (now_millis now) false), Some (inr (Err e)))
  | AwaitSpend mode bankroll, AnAmount (Ok spend) => (s, Some (inl (AwaitPayout mode bankroll spend)))
  | AwaitPayout mode bankroll spend, AnAmount (Ok payout) => (s, Some (inl (AwaitPositions mode (dadd (dsub bankroll spend) payout))))
  | AwaitPositions mode cash, AnPositions (Ok positions) => (store_snapshot s (position_snapshot s v cash positions now) (source_of mode) now, Some (inr (Ok tt)))
  | AwaitSpend _ _, AnAmount (Err e) | AwaitPayout _ _ _, AnAmount (Err e) | AwaitPositions _ _, AnPositions (Err e) => (s, Some (inr (Err e)))
  | _, _ => (s, None)
  end.

(** [repo/postgres/trading/trade.rs:44-58] `successful_spend_total` *)
Definition successful_spend_total (t : gmap TradeId TradeInfo) (mode : ExecutionMode) : D :=
  foldl (fun acc r => dadd acc (dadd (ti_cost_usd r) (ti_fee_usd r))) d0
    (List.filter (fun r => bool_decide (ti_business_outcome r = Some Success) && bool_decide (ti_execution_mode r = mode)) (map_to_list t).*2).

(** [repo/postgres/trading/position.rs:525-537] `settlement_payout_total` *)
Definition settlement_payout_total (t : gmap PositionId PositionInfo) (mode : ExecutionMode) : D :=
  foldl (fun acc p => dadd acc (default d0 (pos_settlement_payout_usd p))) d0
    (List.filter (fun p => bool_decide (pos_status p = PosSettled) && bool_decide (pos_accounting_status p = AcAccounted) && bool_decide (pos_execution_mode p = mode))
       (map_to_list t).*2).

(** ** The adapter *)

(** [core/bridge/risk_metrics.rs:21-27] `CoreRiskMetrics`, with the clock of its reads *)
Record CoreRiskMetrics := {
  lm_state : RiskMetricsState; lm_exposure : InMemoryExposureReservation; lm_market_registry : MarketRegistry; lm_ws_manager : ClobWsManager; lm_mode : ExecutionMode;
  lm_now : Time
}.

(** [core/bridge/risk_metrics.rs:103-108] `missing_market_data_age` *)
Definition missing_market_data_age (mode : ExecutionMode) : Z := match mode with Live => u64_max | DryRun | Paper => 0 end.

(** [core/bridge/risk_metrics.rs:81-89] `ws_disconnect_secs_for_mode` *)
Definition ws_disconnect_secs_for_mode (c : CoreRiskMetrics) : Z :=
  match last_message_age_ms (lm_ws_manager c) (lm_now c) with None => missing_market_data_age (lm_mode c) | Some ms => ms / 1000 end.

(** [core/bridge/risk_metrics.rs:91-101] `market_ws_disconnect_secs_for_mode` *)
Definition market_ws_disconnect_secs_for_mode (c : CoreRiskMetrics) (id : MarketId) : Z :=
  match token_pair (lm_market_registry c) id with
  | None => missing_market_data_age (lm_mode c)
  | Some (yes, no) =>
      match token_message_age_ms (lm_ws_manager c) yes (lm_now c), token_message_age_ms (lm_ws_manager c) no (lm_now c) with
      | Some yes_ms, Some no_ms => Z.max yes_ms no_ms / 1000
      | _, _ => missing_market_data_age (lm_mode c)
      end
  end.

(** [core/bridge/risk_metrics.rs:110-117] `metrics_age_secs_for_mode` *)
Definition metrics_age_secs_for_mode (c : CoreRiskMetrics) : Z :=
  match lm_mode c with DryRun | Paper => 0 | Live => Z.max 0 (now_millis (lm_now c) - rx_last_successful_refresh (lm_state c)) / 1000 end.
(** [core/bridge/risk_metrics.rs:119-124] `is_authoritative_for_mode` *)
Definition is_authoritative_for_mode (c : CoreRiskMetrics) : bool :=
  match lm_mode c with DryRun | Paper => true | Live => match rx_source (lm_state c) with AuthoritativeClob => true | _ => false end end.
(** [core/bridge/risk_metrics.rs:126-131] `is_stale_for_mode` *)
Definition is_stale_for_mode (c : CoreRiskMetrics) : bool := match lm_mode c with DryRun | Paper => false | Live => rx_stale (lm_state c) end.

Definition with_state (c : CoreRiskMetrics) (s : RiskMetricsState) : CoreRiskMetrics := {|
  lm_state := s; lm_exposure := lm_exposure c; lm_market_registry := lm_market_registry c; lm_ws_manager := lm_ws_manager c; lm_mode := lm_mode c; lm_now := lm_now c |}.

(** [core/bridge/risk_metrics.rs:50-79] `build_snapshot`, with `load_metrics_snapshot`: the snapshot is loaded in the state [a], the rest is read in [b] *)
Definition build_snapshot (a b : CoreRiskMetrics) (id : MarketId) : RiskMetricsSnapshot :=
  let daily := check_daily_rollover (lm_state a) (lm_now a) in
  let x := rx_snapshot (lm_state a) in
  let '(reserved, market_reserved, active) := reservation_snapshot_sync (lm_exposure b) id in {|
  ms_version := mx_refresh_sequence (rx_snapshot (lm_state b)); cash_balance := mx_cash_balance x; position_mark_value := mx_position_mark_value x; equity := mx_equity x;
  ms_total_exposure := dadd (mx_total_position_exposure x) reserved; market_exposure := dadd (default d0 (mx_market_position_exposures x !! id)) market_reserved;
  open_position_count := mx_open_position_count x; active_reservation_count := active; reserved_usd := reserved; open_directional_count_buy := mx_open_buy_count x;
  open_directional_count_sell := mx_open_sell_count x; daily_directional_trades_buy := rx_daily_buy_trades daily; daily_directional_trades_sell := rx_daily_sell_trades daily;
  consecutive_market_misses := market_misses_of (lm_state a) id; market_ws_disconnect_secs := market_ws_disconnect_secs_for_mode b id;
  ms_ws_disconnect_secs := ws_disconnect_secs_for_mode b; api_error_count := (errors_in_window (rx_api_tracker (lm_state b)) (now_millis (lm_now b))).2;
  api_request_count := (requests_in_window (rx_api_tracker (lm_state b)) (now_millis (lm_now b))).2; is_stale := is_stale_for_mode b;
  metrics_age_secs := metrics_age_secs_for_mode b; is_authoritative := is_authoritative_for_mode b |}.

Definition metrics_version (c : CoreRiskMetrics) : Z := mx_refresh_sequence (rx_snapshot (lm_state c)).

(** [core/bridge/risk_metrics.rs:230-240] `snapshot_for`: the states of its successive reads *)
Definition snapshot_for (read : nat -> CoreRiskMetrics) (id : MarketId) : RiskMetricsSnapshot :=
  let attempt i := build_snapshot (read (i + 1)%nat) (read (i + 2)%nat) id in
  if metrics_version (read 0%nat) =? metrics_version (read 3%nat) then attempt 0%nat
  else if metrics_version (read 4%nat) =? metrics_version (read 7%nat) then attempt 4%nat
  else attempt 8%nat.

(** [core/bridge/risk_metrics.rs:134-241] `CoreRiskMetrics` as the metrics of the risk engine, with nothing in between its reads.  Reading
    the trades of the day or the errors also rotates them: what that leaves is [MoRead] of [MetricsWorld]. *)
Definition core_metrics : RiskMetrics CoreRiskMetrics := {|
  mt_total_exposure := fun c => dadd (mx_total_position_exposure (rx_snapshot (lm_state c))) (total_reserved_usd_sync (lm_exposure c));
  mt_market_exposure := fun c id => dadd (default d0 (mx_market_position_exposures (rx_snapshot (lm_state c)) !! id)) (per_market_reserved_sync (lm_exposure c) id);
  mt_open_position_count := fun c => mx_open_position_count (rx_snapshot (lm_state c));
  mt_open_positions := fun c => pos_market_id <$> mx_positions (rx_snapshot (lm_state c));
  mt_cash_balance := fun c => mx_cash_balance (rx_snapshot (lm_state c));
  mt_position_mark_value := fun c => mx_position_mark_value (rx_snapshot (lm_state c));
  mt_equity := fun c => mx_equity (rx_snapshot (lm_state c));
  mt_active_reservation_count := fun c => active_count_sync (lm_exposure c);
  mt_reserved_usd := fun c => total_reserved_usd_sync (lm_exposure c);
  mt_open_directional_count := fun c side => match side with Buy => mx_open_buy_count (rx_snapshot (lm_state c)) | Sell => mx_open_sell_count (rx_snapshot (lm_state c)) end;
  mt_daily_directional_trades := fun c side =>
    let s := check_daily_rollover (lm_state c) (lm_now c) in match side with Buy => rx_daily_buy_trades s | Sell => rx_daily_sell_trades s end;
  mt_consecutive_market_misses := fun c id => market_misses_of (lm_state c) id;
  mt_record_trade_outcome := fun c side id was_miss => with_state c (record_outcome (lm_state c) (lm_now c) side id was_miss);
  mt_ws_disconnect_secs := ws_disconnect_secs_for_mode;
  mt_api_error_count := fun c => (errors_in_window (rx_api_tracker (lm_state c)) (now_millis (lm_now c))).2;
  mt_api_request_count := fun c => (requests_in_window (rx_api_tracker (lm_state c)) (now_millis (lm_now c))).2;
  mt_metrics_age_secs := metrics_age_secs_for_mode;
  mt_is_stale := is_stale_for_mode;
  mt_is_authoritative := is_authoritative_for_mode;
  mt_snapshot_for := fun c id => snapshot_for (fun _ => c) id |}.
#[export] Existing Instance core_metrics.
End Refresh.

(** ** What the state goes through *)

Section World.
Context {DO : DecimalOps} {CH : Chrono}.

(** What the venue and the store answered, and when the metrics were marked stale; oldest first. *)
Inductive MetricsEvent := EvBalance (balance : D) | EvPositions (mode : ExecutionMode) (positions : list PositionInfo) | EvMarked.

(** The state with the refreshes under way: the periodic one, and one of each change of mode. *)
Record MetricsWorld := { mw_state : RiskMetricsState; mw_mode : ExecutionMode; mw_refreshes : list Refresh; mw_log : list MetricsEvent }.

Inductive metrics_op :=
| MoMode (mode : ExecutionMode)
| MoBegin (bankroll : D) (has_clob : bool)
| MoAnswer (i : nat) (v : EquityValuator) (a : Answer) (now : Time)
| MoMarkStale
| MoOutcome (now : Time) (side : Side) (id : MarketId) (was_miss : bool)
| MoReload (previous next : D)
| MoRead (now : Time).

Definition answer_event (r : Refresh) (a : Answer) : list MetricsEvent :=
  match r, a with
  | AwaitBalance, AnAmount (Ok balance) => [EvBalance balance]
  | AwaitPositions mode _, AnPositions (Ok positions) => [EvPositions mode positions]
  | _, _ => []
  end.

Definition with_metrics_state (w : MetricsWorld) (s : RiskMetricsState) : MetricsWorld := {| mw_state := s; mw_mode := mw_mode w; mw_refreshes := mw_refreshes w; mw_log := mw_log w |}.

Definition metrics_step (w : MetricsWorld) (o : metrics_op) : MetricsWorld :=
  match o with
  | MoMode mode => {| mw_state := mw_state w; mw_mode := mode; mw_refreshes := mw_refreshes w; mw_log := mw_log w |}
  | MoBegin bankroll has_clob =>
      match refresh_begin (mw_mode w) bankroll has_clob with
      | Ok r => {| mw_state := mw_state w; mw_mode := mw_mode w; mw_refreshes := mw_refreshes w ++ [r]; mw_log := mw_log w |}
      | Err _ => w
      end
  | MoAnswer i v a now =>
      match mw_refreshes w !! i with
      | None => w
      | Some r =>
          match refresh_answer (mw_state w) v r a now with
          | (_, None) => w
          | (s, Some next) => {|
              mw_state := s; mw_mode := mw_mode w;
              mw_refreshes := match next with inl r' => <[i := r']> (mw_refreshes w) | inr _ => delete i (mw_refreshes w) end;
              mw_log := mw_log w ++ answer_event r a |}
          end
      end
  | MoMarkStale => {| mw_state := mark_stale (mw_state w); mw_mode := mw_mode w; mw_refreshes := mw_refreshes w; mw_log := mw_log w ++ [EvMarked] |}
  | MoOutcome now side id was_miss => with_metrics_state w (record_outcome (mw_state w) now side id was_miss)
  | MoReload previous next => with_metrics_state w (reload_bankroll (mw_state w) previous next)
  | MoRead now => with_metrics_state w (set_rx_tracker (check_daily_rollover (mw_state w) now) (maybe_rotate (rx_api_tracker (mw_state w)) (now_millis now)))
  end.

Definition boot_metrics (window_ms : Z) (mode : ExecutionMode) (now : Time) : MetricsWorld := {|
  mw_state := new_metrics_state (new_tracker window_ms (now_millis now)) now; mw_mode := mode; mw_refreshes := []; mw_log := [] |}.

(** *** The sums of a snapshot are those of its positions *)

Definition in_market (id : MarketId) (positions : list PositionInfo) : list PositionInfo := List.filter (fun p => bool_decide (pos_market_id p = id)) positions.

Record snapshot_ok (x : MetricsSnapshot) : Prop := {
  so_total : mx_total_position_exposure x = total_cost (mx_positions x);
  so_market : forall id, default d0 (mx_market_position_exposures x !! id) = total_cost (in_market id (mx_positions x));
  so_open : mx_open_position_count x = Z.of_nat (length (mx_positions x));
  so_sides : mx_open_buy_count x + mx_open_sell_count x = mx_open_position_count x;
  so_equity : mx_equity x = dadd (mx_cash_balance x) (mx_position_mark_value x) \/ x = initial_snapshot
}.

Lemma market_costs_from positions : forall (m : gmap MarketId D) id,
  default d0 (foldl (fun m p => <[pos_market_id p := dadd (default d0 (m !! pos_market_id p)) (pos_total_cost_usd p)]> m) m positions !! id) =
  foldl (fun acc p => dadd acc (pos_total_cost_usd p)) (default d0 (m !! id)) (in_market id positions).
Proof.
  induction positions as [|p ps IH]; intros m id; [done|]. cbn [foldl in_market List.filter]. rewrite IH. case_bool_decide as Hp.
  - subst id. by rewrite lookup_insert_eq.
  - by rewrite lookup_insert_ne.
Qed.

Lemma sides_all positions : side_count Buy positions + side_count Sell positions = Z.of_nat (length positions).
Proof.
  unfold side_count. induction positions as [|p ps IH]; [done|]. cbn [List.filter length]. repeat case_bool_decide; cbn [length]; destruct (pos_side p); try done; lia.
Qed.

Lemma position_snapshot_ok s v cash positions now : snapshot_ok (position_snapshot s v cash positions now).
Proof.
  constructor; cbn; try done; [|apply sides_all|by left]. intros id. unfold market_costs. rewrite market_costs_from. by rewrite lookup_empty.
Qed.

Lemma outcome_snapshot s now side id miss : rx_snapshot (record_outcome s now side id miss) = rx_snapshot s /\ rx_source (record_outcome s now side id miss) = rx_source s /\
  rx_stale (record_outcome s now side id miss) = rx_stale s.
Proof. unfold record_outcome, check_daily_rollover. by destruct (_ =? _). Qed.

Lemma rollover_snapshot s now : rx_snapshot (check_daily_rollover s now) = rx_snapshot s /\ rx_source (check_daily_rollover s now) = rx_source s /\
  rx_stale (check_daily_rollover s now) = rx_stale s.
Proof. unfold check_daily_rollover. by destruct (_ =? _). Qed.

(** A refresh of the live mode carries a balance that the venue answered. *)
Definition refresh_ok (log : list MetricsEvent) (r : Refresh) : Prop :=
  match r with
  | AwaitBalance => True
  | AwaitSpend mode _ | AwaitPayout mode _ _ => mode <> Live
  | AwaitPositions mode cash => mode = Live -> EvBalance cash ∈ log
  end.

(** Where the cash and the positions of a snapshot come from: the venue answered the cash before the store answered the live
    positions, no later answer was stored, and unless the state is stale nothing was marked since. *)
Definition from_venue (s : RiskMetricsState) (log : list MetricsEvent) : Prop :=
  exists before after, log = before ++ EvPositions Live (mx_positions (rx_snapshot s)) :: after /\ EvBalance (mx_cash_balance (rx_snapshot s)) ∈ before /\
    (forall mode positions, EvPositions mode positions ∉ after) /\ (rx_stale s = false -> EvMarked ∉ after).

Record world_ok (w : MetricsWorld) : Prop := {
  wo_snapshot : snapshot_ok (rx_snapshot (mw_state w));
  wo_refreshes : Forall (refresh_ok (mw_log w)) (mw_refreshes w);
  wo_source : rx_source (mw_state w) = AuthoritativeClob -> from_venue (mw_state w) (mw_log w)
}.

Lemma refresh_ok_app log log' r : refresh_ok log r -> refresh_ok (log ++ log') r.
Proof. destruct r; cbn; try done. intros H Hm. apply elem_of_app. left. by apply H. Qed.

Lemma source_live mode : source_of mode = AuthoritativeClob -> mode = Live.
Proof. by destruct mode. Qed.

Lemma from_venue_same s s' log : rx_snapshot s' = rx_snapshot s -> (rx_stale s' = false -> rx_stale s = false) -> from_venue s log -> from_venue s' log.
Proof. intros H1 H2 (b & a & -> & Hb & Ha & Hm). exists b, a. rewrite H1. split_and!; try done. intros Hs. auto. Qed.

Lemma from_venue_marked s log : from_venue s log -> from_venue (mark_stale s) (log ++ [EvMarked]).
Proof.
  intros (b & a & -> & Hb & Ha & Hm). exists b, (a ++ [EvMarked]). cbn. rewrite <- app_assoc. split_and!; try done.
  intros mode l Hin. apply elem_of_app in Hin as [Hin|Hin]; [by eapply Ha|]. apply list_elem_of_singleton in Hin. done.
Qed.

Lemma from_venue_balance s log balance : from_venue s log -> from_venue s (log ++ [EvBalance balance]).
Proof.
  intros (b & a & -> & Hb & Ha & Hm). exists b, (a ++ [EvBalance balance]). rewrite <- app_assoc. split_and!; try done.
  - intros mode l Hin. apply elem_of_app in Hin as [Hin|Hin]; [by eapply Ha|]. apply list_elem_of_singleton in Hin. done.
  - intros Hs Hin. apply elem_of_app in Hin as [Hin|Hin]; [by apply Hm|]. apply list_elem_of_singleton in Hin. done.
Qed.

Lemma reload_cases s previous next : reload_bankroll s previous next = s \/
  is_simulated (rx_source s) = true /\ rx_source (reload_bankroll s previous next) = rx_source s /\ (snapshot_ok (rx_snapshot s) -> snapshot_ok (rx_snapshot (reload_bankroll s previous next))).
Proof.
  unfold reload_bankroll. destruct (deqb previous next); [by left|]. destruct (is_simulated (rx_source s)) eqn:E; [right; cbn [negb] | by left].
  split_and!; [done..|]. intros []. constructor; try done. by left.
Qed.

(** An answer takes a refresh further, ends it, or stores its snapshot. *)
Lemma answer_cases s v r a now s' n : refresh_answer s v r a now = (s', Some n) ->
  rx_snapshot s' = rx_snapshot s /\ rx_source s' = rx_source s /\ rx_stale s' = rx_stale s /\ (answer_event r a = [] \/ exists b, answer_event r a = [EvBalance b]) /\
    (forall r' log, n = inl r' -> refresh_ok log r -> refresh_ok (log ++ answer_event r a) r') \/
  exists mode cash positions, r = AwaitPositions mode cash /\ answer_event r a = [EvPositions mode positions] /\ n = inr (Ok tt) /\
    s' = store_snapshot s (position_snapshot s v cash positions now) (source_of mode) now.
Proof.
  destruct r, a as [[x|e]|[x|e]]; cbn; intros [= <- <-]; first [right; by eauto 10 | left; split_and!; [done | done | done | by eauto|]];
    intros r' log Hn; try discriminate Hn; injection Hn as <-; cbn; try done.
  intros _ _. apply elem_of_app. right. by left.
Qed.

Lemma metrics_step_ok w o : world_ok w -> world_ok (metrics_step w o).
Proof.
  intros []. destruct o as [mode|bankroll has_clob|i v a now| |now side id miss|previous next|now]; cbn [metrics_step].
  - by constructor.
  - destruct (refresh_begin (mw_mode w) bankroll has_clob) as [r|e] eqn:E; [|by constructor]. constructor; try done. cbn. apply Forall_app. split; [done|]. constructor; [|done].
    unfold refresh_begin in E. destruct (mw_mode w), has_clob; by simplify_eq.
  - destruct (mw_refreshes w !! i) as [r|] eqn:Er; [|by constructor]. destruct (refresh_answer (mw_state w) v r a now) as [s' [n|]] eqn:E; [|by constructor].
    pose proof (Forall_lookup_1 _ _ _ _ wo_refreshes0 Er) as Hr.
    assert (Forall (refresh_ok (mw_log w ++ answer_event r a)) (mw_refreshes w)) as Hall by (eapply Forall_impl; [done|]; intros; by apply refresh_ok_app).
    apply answer_cases in E as [(E1 & E2 & E3 & E4 & E5)|(mode & cash & positions & -> & E1 & -> & ->)].
    + constructor; cbn.
      * by rewrite E1.
      * destruct n as [r'|]; [apply Forall_insert; [done | by apply E5] | by apply Forall_delete].
      * rewrite E2. intros Hs. apply wo_source0 in Hs. apply (from_venue_same (mw_state w)); [done | by rewrite E3|].
        destruct E4 as [->|[b ->]]; [by rewrite app_nil_r | by apply from_venue_balance].
    + constructor; cbn; [apply position_snapshot_ok | by apply Forall_delete|]. intros Hs. apply source_live in Hs as ->. cbn in E1 |- *. rewrite E1.
      exists (mw_log w), []. split_and!; [done | by apply Hr | by intros ? ? ?%not_elem_of_nil | by intros _ ?%not_elem_of_nil].
  - constructor; cbn; [done | | intros; by apply from_venue_marked, wo_source0]. eapply Forall_impl; [done|]. intros. by apply refresh_ok_app.
  - destruct (outcome_snapshot (mw_state w) now side id miss) as (H1 & H2 & H3). constructor; cbn [with_metrics_state mw_state mw_log mw_refreshes]; [by rewrite H1 | done|]. rewrite H2.
    intros Hs. apply wo_source0 in Hs. eapply from_venue_same; [exact H1 | by rewrite H3 | done].
  - destruct (reload_cases (mw_state w) previous next) as [E|(E1 & E2 & E3)]; constructor; cbn [with_metrics_state mw_state mw_log mw_refreshes]; rewrite ?E; try done; [by apply E3|].
    rewrite E2. intros Hs. by rewrite Hs in E1.
  - destruct (rollover_snapshot (mw_state w) now) as (H1 & H2 & H3).
    constructor; cbn [with_metrics_state mw_state mw_log mw_refreshes set_rx_tracker rx_snapshot rx_source]; [by rewrite H1 | done|]. rewrite H2. intros Hs. apply wo_source0 in Hs.
    eapply from_venue_same; [exact H1 | cbn [set_rx_tracker rx_stale]; by rewrite H3 | done].
Qed.

Lemma boot_ok window_ms mode now : world_ok (boot_metrics window_ms mode now).
Proof. constructor; cbn; [|done|done]. constructor; cbn; try done. by right. Qed.

Lemma metrics_run_ok ops : forall w, world_ok w -> world_ok (foldl metrics_step w ops).
Proof. induction ops as [|o ops IH]; intros w Hw; [done|]. apply IH. by apply metrics_step_ok. Qed.

End World.

(** ** What the marks ignore *)

Section MarkFacts.
Context `{DL : DecimalLaws}.

Lemma low_zone b : (dval b < 96 # 100)%Q -> price_zone_from_price b = Z95.
Proof.
  intros H. assert (forall m, 96 <= m <= 99 -> dleb (dlit m 2) b = false) as Hf.
  { intros m Hm. apply dleb_gt. rewrite dval_lit by lia. eapply Qlt_le_trans; [exact H|]. unfold grid, Qle. cbn. lia. }
  unfold price_zone_from_price. by rewrite !Hf by lia.
Qed.

(** The equity does not see a price fall below 96 cents.  A position in a market with an end date is marked with the
    probability of the bid's bucket, and every bid below 96 cents is in the last one: whatever its best bid falls to, its mark and its value stay the same, as
    long as there is a fresh bid at all; and when the last bid is gone the position is valued at what it cost. *)
Theorem marks_ignore_low_bids (v v' : EquityValuator) (p : PositionInfo) (now end_date : Time) (market : MarketRegistryInfo) (b b' : D) :
  ev_registry v' = ev_registry v -> ev_calibrator v' = ev_calibrator v -> get_market (ev_registry v) (pos_market_id p) = Some market -> mk_end_date market = Some end_date ->
  fresh_best_bid v p (now_millis now) = Some b -> (dval b < 96 # 100)%Q ->
  (fresh_best_bid v' p (now_millis now) = Some b' -> (dval b' < 96 # 100)%Q -> position_mark v' now p = position_mark v now p) /\
  (fresh_best_bid v' p (now_millis now) = None -> mk_value (position_mark v' now p) = dmul (pos_shares p) (pos_avg_entry_price p)).
Proof.
  intros Hr Hc Hm He Hb Hlow. unfold position_mark, mark_position. rewrite Hr, Hb, Hm, He. split.
  - intros -> Hlow'. unfold calibrated_mark. by rewrite Hc, !low_zone.
  - by intros ->.
Qed.

(** A mark is a probability when the price paid is one and the bids of the books are. *)
Lemma mark_unit (v : EquityValuator) (p : PositionInfo) (now : Time) : (0 <= dval (pos_avg_entry_price p) <= 1)%Q ->
  (forall b, fresh_best_bid v p (now_millis now) = Some b -> (0 <= dval b <= 1)%Q) -> (0 <= dval (mk_mark (position_mark v now p)) <= 1)%Q.
Proof.
  intros Hp Hb. unfold position_mark, mark_position. destruct (fresh_best_bid v p (now_millis now)) as [b|]; [|done]. specialize (Hb b eq_refl).
  destruct (get_market _ _) as [market|]; [|done]. destruct (mk_end_date market) as [end_date|]; [|done]. cbn. unfold calibrated_mark, dclamp.
  set (x := posterior_mean _). destruct (dltb x d0) eqn:E1; [rewrite dval_d0; lra|]. destruct (dltb d1 x) eqn:E2; [rewrite dval_d1; lra|].
  apply dltb_ge in E1, E2. rewrite dval_d0 in E1. rewrite dval_d1 in E2. done.
Qed.
End MarkFacts.

(** ** Instances *)

Module MetricsDemo.
#[local] Existing Instance ExactQ.exactQ.
#[local] Existing Instance ExactQ.exactQ_laws.

Definition minute : Z := 60000.

(** A minute with an error and a success, and a read. *)
Definition history : list TrackerEvent := [TrackRequest 0 true; TrackRequest 59000 false; TrackRequest 61000 true; TrackRequest 119000 false; TrackRead 120000].

Lemma window_never_undercounts_witness :
  (errors_in_window (foldl track (new_tracker minute 0) history) 120000).2 = 2 /\
  recorded (fun t ok => (60000 <=? t) && negb ok) history <= (errors_in_window (foldl track (new_tracker minute 0) history) 120000).2 <= recorded failed_request history.
Proof.
  split; [vm_compute; reflexivity|]. apply (window_never_undercounts minute 0 120000 history); vm_compute; try discriminate; [reflexivity|].
  repeat split; discriminate.
Defined.

(** Twenty errors, and then ten hours in which nothing is recorded: the window of a minute still counts them all. *)
Lemma idle_errors_are_counted :
  let a := foldl track (new_tracker minute 0) (repeat (TrackRequest 0 false) 20) in
  (requests_in_window a 36000000).2 = 20 /\ (errors_in_window a 36000000).2 = 20.
Proof. vm_compute. split; reflexivity. Qed.

Definition position : PositionInfo := {|
  pos_id := 1; pos_trade_id := 7; pos_market_id := "m0"; pos_token_id := "y"; pos_side := Buy; pos_execution_mode := Live;
  pos_shares := (100 # 1)%Q; pos_avg_entry_price := (97 # 100)%Q; pos_total_cost_usd := (97 # 1)%Q; pos_total_fees_usd := d0; pos_unrealized_pnl := d0;
  pos_realized_pnl := d0; pos_status := PosOpen; pos_opened_at := 0; pos_closed_at := None; pos_settled_at := None;
  pos_winning_token_id := None; pos_settlement_payout_usd := None; pos_redeem_tx_hash := None; pos_redeem_status := RsPending;
  pos_redeem_attempts := 0; pos_oracle_verdict := None; pos_settlement_trigger := None; pos_accounting_status := AcPending;
  pos_accounting_error := None; pos_accounted_at := None; pos_redeem_terminal_reason := None; pos_redeem_neg_risk := false;
  pos_redeem_route := "standard_ctf"; pos_redeem_holder_address := None; pos_redeem_resolution := ClassStandard;
  pos_redeem_gas_limit := 500000; pos_redeem_gas_paid_usd := None |}.

Definition market : MarketRegistryInfo := {|
  mk_market_id := "m0"; mk_event_id := "e0"; mk_token_yes := "y"; mk_token_no := "n"; mk_question := "?"; mk_slug := "s";
  mk_categories := 0; mk_status := MsActive; mk_outcome := None; mk_neg_risk := false; mk_tick_size := Hundredth;
  mk_tokens := [ {| tk_token_id := "y"; tk_outcome := "Yes"; tk_neg_risk := false |}; {| tk_token_id := "n"; tk_outcome := "No"; tk_neg_risk := false |} ];
  mk_best_bid := None; mk_best_ask := None; mk_depth_usd := None; mk_min_order_size := dof_Z 5; mk_volume_24h := d0;
  mk_fee_schedule := None; mk_end_date := Some (7200 * nanos_per_sec); mk_resolved_at := None; mk_created_at := 1; mk_updated_at := 2 |}.

(** A valuator with one market, whose book has the bids of a list at the first second. *)
Definition valuator (bids : list MicroPrice) : EquityValuator := {|
  ev_registry := register_markets new_registry [market];
  ev_book_store := store_apply_snapshot ∅ "y" ((fun p => {| lv_price := p; lv_size := 1000000 |}) <$> bids) [] 1000;
  ev_calibrator := calibrator_empty calibration_config_default |}.
Definition cent : EquityValuator := valuator [10000].
Definition two_seconds : Time := 2 * nanos_per_sec.

(** The bid falls from 95 cents to one cent: the position keeps its value. *)
Lemma marks_ignore_low_bids_witness :
  mk_source (position_mark cent two_seconds position) = Calibrated /\
  (9 # 10 < dval (mk_mark (position_mark cent two_seconds position)))%Q /\
  position_mark cent two_seconds position = position_mark (valuator [950000]) two_seconds position /\
  mk_value (position_mark (valuator []) two_seconds position) = dmul (pos_shares position) (pos_avg_entry_price position).
Proof.
  split; [vm_compute; reflexivity|]. split; [vm_compute; reflexivity|].
  pose proof (fun v' => marks_ignore_low_bids (valuator [950000]) v' position two_seconds (7200 * nanos_per_sec) market (price_decimal {| lv_price := 950000; lv_size := 1000000 |}) (price_decimal {| lv_price := 10000; lv_size := 1000000 |})) as H.
  split; [apply (H cent) | apply (H (valuator []))]; try reflexivity; vm_compute; reflexivity.
Defined.

(** A refresh in Live mode: the venue's balance and no open position. *)
Definition refreshed : list metrics_op :=
  [MoBegin d0 true; MoAnswer 0 (valuator []) (AnAmount (Ok (1000 # 1)%Q)) 0; MoAnswer 0 (valuator []) (AnPositions (Ok [])) 0].
Definition world : MetricsWorld := foldl metrics_step (boot_metrics minute Live 0) refreshed.
Definition live_metrics (s : RiskMetricsState) : CoreRiskMetrics := {|
  lm_state := s; lm_exposure := new_exposure ExposureDemo.demo_limits; lm_market_registry := register_markets new_registry [market];
  lm_ws_manager := set_feed (new_ws_manager 2) {["y" := 0; "n" := 0]} (Some 0) []; lm_mode := Live; lm_now := two_seconds |}.
Definition live_ctx : PreTradeContext := Pipeline.with_metrics (mt_snapshot_for (live_metrics (mw_state world)) "m0") (Demo.ctx None).


(** A trade between the two reads of a refresh: the metrics are marked stale, and the refresh takes the mark away with the balance
    that the venue had before the trade. *)
Lemma refresh_clears_later_mark :
  let w := foldl metrics_step (boot_metrics minute Live 0)
    [MoBegin d0 true; MoAnswer 0 (valuator []) (AnAmount (Ok (1000 # 1)%Q)) 0; MoMarkStale; MoAnswer 0 (valuator []) (AnPositions (Ok [position])) 0] in
  rx_stale (mw_state w) = false /\ mx_cash_balance (rx_snapshot (mw_state w)) = (1000 # 1)%Q /\ mx_total_position_exposure (rx_snapshot (mw_state w)) = (97 # 1)%Q /\
  mt_is_stale (live_metrics (mw_state w)) = false.
Proof. vm_compute. repeat split; reflexivity. Qed.

(** A bankroll that is activated while a refresh reads the ledger: the refresh stores the cash of the bankroll before. *)
Lemma refresh_undoes_bankroll :
  let start := foldl metrics_step (boot_metrics minute Paper 0)
    [MoBegin (1000 # 1)%Q false; MoAnswer 0 (valuator []) (AnAmount (Ok d0)) 0; MoAnswer 0 (valuator []) (AnAmount (Ok d0)) 0; MoAnswer 0 (valuator []) (AnPositions (Ok [])) 0;
     MoBegin (1000 # 1)%Q false; MoReload (1000 # 1)%Q (500 # 1)%Q] in
  let w := foldl metrics_step start
    [MoAnswer 0 (valuator []) (AnAmount (Ok d0)) 0; MoAnswer 0 (valuator []) (AnAmount (Ok d0)) 0; MoAnswer 0 (valuator []) (AnPositions (Ok [])) 0] in
  (dval (mx_cash_balance (rx_snapshot (mw_state start))) == 500)%Q /\ (dval (mx_cash_balance (rx_snapshot (mw_state w))) == 1000)%Q.
Proof. vm_compute. split; reflexivity. Qed.
End MetricsDemo.
