(* ===== verification/ModeTransition.v ===== *)
(** * Switching the execution mode: [oxide-arb-core/src/control/mode_transition.rs]

    The protocol that moves a running system between dry runs, paper trading and live trading: its preflight, the halt, the wait
    for the reservations to drain, the commit, the activation of the metrics and the resume, as steps of a task that other tasks run
    between: executions with their successive reads of the mode, the heartbeat, other halts, refreshes of the metrics.  The status that is
    published after a switch, and log lines, are left out; of a refused precondition only the fixed part of its text is kept. *)

From S2P Require Import Prelude Decimal Micro Config Domain RiskTypes CircuitBreaker Interfaces Engine EngineSafety Exposure FactorModel Factors.
From S2P Require Import Fees Book Execution ExecutionPipeline Text RuntimeConfig Positions ScoredSnapshot TradeStore Orphans TradeFlow Markets MarketFeed Lifecycle MetricsRefresh.

(** ** What a mode requires of the deployment *)

(** What the validation of a deployment reads: its private key, empty keys being none, and its secret of the web tokens. *)
Record DeployConfig := { dp_private_key : option string; dp_jwt_secret : string }.

(** [models/config/web.rs:12-12] `JWT_SECRET_PLACEHOLDER` *)
Definition JWT_SECRET_PLACEHOLDER : string := "change-me-in-production".

(** [models/config/keys.rs:72-74] `KeysConfig::private_key_present` *)
Definition private_key_present (d : DeployConfig) : bool := bool_decide (is_Some (dp_private_key d)).

(** [models/config/web.rs:49-52] `WebConfig::jwt_secret_is_weak` *)
Definition jwt_secret_is_weak (d : DeployConfig) : bool := str_is_empty (trim (dp_jwt_secret d)) || bool_decide (trim (dp_jwt_secret d) = JWT_SECRET_PLACEHOLDER).

Section Transition.
Context {DO : DecimalOps} {CH : Chrono} {M P W : Type}.
Context {RM : RiskMetrics M} {RP : RiskPersistence P} {OU : Outside W}.

(** [models/config/validation.rs:174-198] `validate_credentials_mode` *)
Definition validate_credentials_mode (d : DeployConfig) (mode : ExecutionMode) (r : ConfigValidationReport) : ConfigValidationReport :=
  if private_key_present d then r
  else match mode with
       | DryRun => r
       | Paper => warn_if true NoCredentialsPaper r
       | Live => error_if true (MissingCredentials "live" ["private_key"]) r
       end.

(** [models/config/validation.rs:204-223] `validate_web_mode` *)
Definition validate_web_mode (d : DeployConfig) (mode : ExecutionMode) (r : ConfigValidationReport) : ConfigValidationReport :=
  if negb (jwt_secret_is_weak d) then r
  else match mode with
       | Live => error_if true (InvalidValue "web.jwt.secret" (Says "Live mode requires a strong, non-placeholder JWT secret (set OXIDE_ARB__WEB__JWT__SECRET)")) r
       | DryRun | Paper => warn_if true WeakJwtSecret r
       end.

(** [models/config/validation.rs:164-172] `validate_deploy_for_mode` *)
Definition validate_deploy_for_mode (d : DeployConfig) (mode : ExecutionMode) : ConfigValidationReport := validate_web_mode d mode (validate_credentials_mode d mode empty_report).

(** ** The state, and the preflight *)

(** [models/domain/control_ports.rs:38-56] `RuntimeControlError`, its errors of a switch; [RcResume] is an error of the engine or of
    blocking trades, of the final resume *)
Inductive RuntimeControlError := RcPrecondition (detail : string) | RcQuiesceTimeout (waited_secs : Z) | RcActivation (detail : string) | RcResume (detail : string).

(** [models/domain/control_ports.rs:31-34] `ModeTransitionReport` *)
Record ModeTransitionReport := { mtr_from : ExecutionMode; mtr_to : ExecutionMode }.

(** What a preflight reads of the services. *)
Record ControlConfig := {
  kc_deploy : DeployConfig; kc_runtime : RuntimeConfig; kc_clob_client : bool; kc_ctf_redeem : bool; kc_holder_address : string; kc_registry : MarketRegistry;
  kc_catalog : CatalogReadiness; kc_ws_manager : ClobWsManager; kc_factors : ControlFactorSnapshot; kc_unhealthy : list string; kc_now : Time
}.

(** [core/control/mode_transition.rs:128-157] `CoreRuntimeControl`, what a switch changes: the mode in force and its durable row, the system, the
    positions and the metrics with the refreshes under way *)
Record RuntimeControl := {
  kr_mode : ExecutionMode; kr_durable : ExecutionMode; kr_system : System (P := P) (W := W); kr_positions : gmap PositionId PositionInfo; kr_metrics : MetricsWorld
}.

Definition set_kr_system (k : RuntimeControl) y : RuntimeControl := {|
  kr_mode := kr_mode k; kr_durable := kr_durable k; kr_system := y; kr_positions := kr_positions k; kr_metrics := kr_metrics k |}.
Definition set_kr_metrics (k : RuntimeControl) w : RuntimeControl := {|
  kr_mode := kr_mode k; kr_durable := kr_durable k; kr_system := kr_system k; kr_positions := kr_positions k; kr_metrics := w |}.
Definition set_kr_positions (k : RuntimeControl) t w : RuntimeControl := {|
  kr_mode := kr_mode k; kr_durable := kr_durable k; kr_system := set_sy_store (kr_system k) ((sy_store (kr_system k)).1, w); kr_positions := t; kr_metrics := kr_metrics k |}.
Definition set_kr_durable (k : RuntimeControl) mode w : RuntimeControl := {|
  kr_mode := kr_mode k; kr_durable := mode; kr_system := set_sy_store (kr_system k) ((sy_store (kr_system k)).1, w); kr_positions := kr_positions k; kr_metrics := kr_metrics k |}.

(** [core/bridge/execution_mode.rs:40-42] `ExecutionModeHandle::store` *)
Definition store_mode (k : RuntimeControl) (mode : ExecutionMode) : RuntimeControl := {|
  kr_mode := mode; kr_durable := kr_durable k; kr_system := kr_system k; kr_positions := kr_positions k;
  kr_metrics := metrics_step (kr_metrics k) (MoMode mode) |}.

(** [core/control/status.rs:77-105] `build_system_status`, its operational phase *)
Definition status_phase (c : ControlConfig) (k : RuntimeControl) : OperationalPhase :=
  (evaluate_lifecycle (kc_catalog c) (kc_ws_manager c)
     (lifecycle_snapshot_from_parts (e_circuit_breaker (sy_risk (kr_system k))) (kr_mode k) (kc_factors c) (kc_unhealthy c) (kc_now c)) (kc_now c)).1.

(** [core/control/mode_transition.rs:245-281] `CoreRuntimeControl::preflight` *)
Definition preflight (c : ControlConfig) (k : RuntimeControl) (target : ExecutionMode) : Result unit RuntimeControlError :=
  if has_errors (validate_deploy_for_mode (kc_deploy c) target) then Err (RcPrecondition "deploy config")
  else if has_errors (validate_runtime_for_mode (kc_runtime c) target) then Err (RcPrecondition "runtime config")
  else match target with
       | DryRun | Paper => Ok tt
       | Live =>
           if negb (kc_clob_client c) then Err (RcPrecondition "entering Live requires a CLOB client, but none was loaded at boot")
           else if negb (kc_ctf_redeem c) then Err (RcPrecondition "entering Live requires a CTF redeem client, but none was loaded at boot")
           else if bool_decide (kc_holder_address c = "unavailable"%string) then Err (RcPrecondition "entering Live requires a configured holder address")
           else if negb (allows_live_trading (status_phase c k)) then Err (RcPrecondition "cannot enter Live")
           else Ok tt
       end.

(** *** Positions that wait for their redemption *)

Abbreviation Positions := (gmap PositionId PositionInfo).

Definition position_statement {A} (s : Positions * W) (f : Positions -> Positions * Result A StorageError) : (Positions * W) * Result A StorageError :=
  match out_connection s.2 with
  | (w, Some message) => ((s.1, w), Err (QueryFailed message))
  | (w, None) => let '(t, r) := f s.1 in ((t, w), r)
  end.

(** The loop over the pending positions, up to the first that cannot be given a plan. *)
Fixpoint backfill (registry : MarketRegistry) (policy : RedeemRoutingPolicy) (s : Positions * W) (pending : list PositionInfo) : (Positions * W) * Result unit RuntimeControlError :=
  match pending with
  | [] => (s, Ok tt)
  | p :: rest =>
      if negb (redeem_snapshot_needs_backfill p) then backfill registry policy s rest
      else match registry_neg_risk registry (pos_market_id p) with
           | None => (s, Err (RcPrecondition "market not in registry for pending redeem position"))
           | Some neg_risk =>
               match resolve policy (pos_market_id p) neg_risk with
               | None => (s, Err (RcPrecondition "settlement.redeem: cannot resolve route for pending position"))
               | Some plan =>
                   match position_statement s (fun t => update_redeem_snapshot t (pos_id p) (snapshot_from_plan neg_risk plan)) with
                   | (s, Err _) => (s, Err (RcPrecondition "failed to backfill redeem snapshot for position"))
                   | (s, Ok _) => backfill registry policy s rest
                   end
               end
           end
  end.

(** [models/runtime_config/validation.rs:68-85] `validate_pending_redeem_snapshots`, whether it reports an error *)
Definition pending_redeem_errors (positions : list PositionInfo) : bool :=
  existsb (fun p => bool_decide (pos_redeem_status p = RsPending) && negb (is_ok (redeem_plan p))) positions.

(** [core/execution/settlement/redeem_preflight.rs:18-81] `ensure_live_pending_redeem_portfolio` *)
Definition ensure_live_pending_redeem_portfolio (registry : MarketRegistry) (policy : RedeemRoutingPolicy) (mode : ExecutionMode) (s : Positions * W) :
    (Positions * W) * Result unit RuntimeControlError :=
  match mode with
  | DryRun | Paper => (s, Ok tt)
  | Live =>
      match position_statement s (fun t => (t, Ok (find_open_pending_redeem t))) with
      | (s, Err _) => (s, Err (RcPrecondition "failed to load pending redeem positions"))
      | (s, Ok pending) =>
          match backfill registry policy s pending with
          | (s, Err e) => (s, Err e)
          | (s, Ok _) =>
              match position_statement s (fun t => (t, Ok (find_open_pending_redeem t))) with
              | (s, Err _) => (s, Err (RcPrecondition "failed to reload pending redeem positions"))
              | (s, Ok pending) => if pending_redeem_errors pending then (s, Err (RcPrecondition "settlement.redeem")) else (s, Ok tt)
              end
          end
      end
  end.

(** ** The switch *)

(** [core/control/mode_transition.rs:83-83] `QUIESCE_TIMEOUT`, in seconds *)
Definition QUIESCE_TIMEOUT : Z := 30.

(** Where a switch is, between two of its awaits. *)
Inductive SwitchPhase :=
| SpIdle
| SpDraining (from target : ExecutionMode)
| SpQuiesced (from target : ExecutionMode)
| SpCommitted (from target : ExecutionMode)
| SpPersisted (from target : ExecutionMode)
| SpRefreshing (from target : ExecutionMode) (r : Refresh)
| SpActivated (from target : ExecutionMode)
| SpDone (result : Result ModeTransitionReport RuntimeControlError).

(** What a step of the switch is given: the configuration and the services, whether its time is over, and the answers of venue and store. *)
Inductive SwitchInput :=
| SiStart (c : ControlConfig) (target : ExecutionMode)
| SiPoll (expired : bool)
| SiCommit
| SiPersist
| SiRefresh (bankroll : D) (has_clob : bool)
| SiAnswer (v : EquityValuator) (a : Answer) (now : Time)
| SiResume (now : Time).

Definition active_reservations (k : RuntimeControl) : Z := active_count_sync (cm_backend (sy_capital (kr_system k))).
Definition trading_allowed (k : RuntimeControl) : bool := engine_allows_trading (sy_risk (kr_system k)).

(** [core/control/mode_transition.rs:337-371] `CoreRuntimeControl::switch_execution_mode`, to the end of its halt *)
Definition switch_begin (c : ControlConfig) (k : RuntimeControl) (target : ExecutionMode) : RuntimeControl * SwitchPhase :=
  let from := kr_mode k in
  if decide (from = target) then (k, SpDone (Ok {| mtr_from := from; mtr_to := target |}))
  else match preflight c k target with
       | Err e => (k, SpDone (Err e))
       | Ok _ =>
           let '((t, w), r) := ensure_live_pending_redeem_portfolio (kc_registry c) (sr_redeem (c_settlement (kc_runtime c))) target (kr_positions k, (sy_store (kr_system k)).2) in
           let k := set_kr_positions k t w in
           match r with
           | Err e => (k, SpDone (Err e))
           | Ok _ =>
               (set_kr_system k (halt_trading_and_cancel_open_orders (kr_system k) (kr_mode k) (kc_clob_client c) (kc_now c) "execution mode transition" VenueFault).1,
                SpDraining from target)
           end
       end.

(** [core/control/mode_transition.rs:288-303] `CoreRuntimeControl::quiesce`, a turn of its loop *)
Definition quiesce_poll (k : RuntimeControl) (expired : bool) : option (Result unit RuntimeControlError) :=
  if negb (trading_allowed k) && (active_reservations k =? 0) then Some (Ok tt)
  else if expired then Some (Err (RcQuiesceTimeout QUIESCE_TIMEOUT)) else None.

(** [core/control/mode_transition.rs:312-328] `CoreRuntimeControl::activate`, an answer to its refresh *)
Definition activate_answer (k : RuntimeControl) (target : ExecutionMode) (r : Refresh) (v : EquityValuator) (a : Answer) (now : Time) :
    RuntimeControl * option (Refresh + Result unit RuntimeControlError) :=
  let w := kr_metrics k in
  match refresh_answer (mw_state w) v r a now with
  | (_, None) => (k, None)
  | (s, Some next) =>
      let k := set_kr_metrics k {| mw_state := s; mw_mode := mw_mode w; mw_refreshes := mw_refreshes w; mw_log := mw_log w ++ answer_event r a |} in
      (k, Some match next with
               | inl r => inl r
               | inr (Err e) => inr (Err (RcActivation e))
               | inr (Ok _) => inr (if decide (rx_source s = source_of target) then Ok tt else Err (RcActivation "metrics source mismatch after refresh"))
               end)
  end.

(** [core/control/mode_transition.rs:337-397] `CoreRuntimeControl::switch_execution_mode`, a step *)
Definition switch_advance (k : RuntimeControl) (p : SwitchPhase) (i : SwitchInput) : RuntimeControl * SwitchPhase :=
  match p, i with
  | SpIdle, SiStart c target | SpDone _, SiStart c target => switch_begin c k target
  | SpDraining from target, SiPoll expired =>
      match quiesce_poll k expired with
      | None => (k, p)
      | Some (Err e) => (k, SpDone (Err e))
      | Some (Ok _) => (k, SpQuiesced from target)
      end
  | SpQuiesced from target, SiCommit => (store_mode k target, SpCommitted from target)
  | SpCommitted from target, SiPersist =>
      match out_connection (sy_store (kr_system k)).2 with
      | (w, Some message) => (set_kr_durable k (kr_durable k) w, SpDone (Err (RcActivation message)))
      | (w, None) => (set_kr_durable k target w, SpPersisted from target)
      end
  | SpPersisted from target, SiRefresh bankroll has_clob =>
      match refresh_begin (kr_mode k) bankroll has_clob with
      | Err e => (k, SpDone (Err (RcActivation e)))
      | Ok r => (k, SpRefreshing from target r)
      end
  | SpRefreshing from target r, SiAnswer v a now =>
      match activate_answer k target r v a now with
      | (k, None) => (k, p)
      | (k, Some (inl r)) => (k, SpRefreshing from target r)
      | (k, Some (inr (Err e))) => (k, SpDone (Err e))
      | (k, Some (inr (Ok _))) => (k, SpActivated from target)
      end
  | SpActivated from target, SiResume now =>
      match resume_trading (kr_system k) now with
      | (y, Err e) => (set_kr_system k y, SpDone (Err (RcResume e)))
      | (y, Ok _) => (set_kr_system k y, SpDone (Ok {| mtr_from := from; mtr_to := target |}))
      end
  | _, _ => (k, p)
  end.

(** ** Executions *)

(** Where an execution is: past its first look at the kill switch, decided by the risk engine, sized, with its context captured,
    with its capital reserved, with its plan, with its row, marked as submitted, at the venue or at the simulation, with its outcome, done. *)
Inductive TaskPhase := TpAdmitted | TpDecided | TpSized | TpCaptured | TpReserved | TpPlanned | TpRecorded | TpSubmitted | TpRouted | TpPlaced | TpDone.

#[export] Instance TaskPhase_eq_dec : EqDecision TaskPhase.
Proof using Type. solve_decision. Defined.

(** An execution, with the modes that it has read, the latest first; its reservation has its number. *)
Record Task := { tk_phase : TaskPhase; tk_modes : list ExecutionMode }.

(** The reservation of a task. *)
Definition task_handle (i : nat) : ReservationHandle := {| rh_id := Z.of_nat i; rh_amount := d0; rh_market_id := "" |}.

(** [core/execution/execution_pipeline.rs:170-223] `execute`: its next step, that can go on or not; with [market] and [amount] of its reservation *)
Definition task_advance (y : System (P := P) (W := W)) (mode : ExecutionMode) (i : nat) (t : Task) (ok : bool) (instant : Z) (market : MarketId) (amount : D) : System * Task :=
  let reads p := {| tk_phase := p; tk_modes := mode :: tk_modes t |} in
  let done := {| tk_phase := TpDone; tk_modes := tk_modes t |} in
  let released := set_sy_capital y (capital_release_sync (sy_capital y) (task_handle i)).1 in
  match tk_phase t with
  | TpAdmitted => (y, if ok && engine_allows_trading (sy_risk y) then reads TpDecided else done)
  | TpDecided => (y, if ok then reads TpSized else done)
  | TpSized => (y, if ok then reads TpCaptured else done)
  | TpCaptured =>
      match capital_reserve_sync (sy_capital y) (Z.of_nat i) instant market amount with
      | (cm, Err _) => (set_sy_capital y cm, done)
      | (cm, Ok _) => (set_sy_capital y cm, {| tk_phase := TpReserved; tk_modes := tk_modes t |})
      end
  | TpReserved => if ok then (y, reads TpPlanned) else (released, done)
  | TpPlanned => if ok then (y, reads TpRecorded) else (released, done)
  | TpRecorded => if ok then (y, reads TpSubmitted) else (set_sy_fsm released (enter_emergency (sy_fsm y) PersistenceFault "mark submitted failed"), done)
  | TpSubmitted => (y, reads TpRouted)
  | TpRouted => (y, match tk_modes t with Live :: _ => {| tk_phase := TpPlaced; tk_modes := tk_modes t |} | _ => reads TpPlaced end)
  | TpPlaced => if ok then (y, done) else (released, done)
  | TpDone => (y, t)
  end.

(** ** What happens around a switch *)

Record ControlWorld := { kw_control : RuntimeControl; kw_switch : SwitchPhase; kw_tasks : list Task }.

Inductive control_op :=
| KoSwitch (i : SwitchInput)
| KoExecute
| KoTask (i : nat) (ok : bool) (instant : Z) (market : MarketId) (amount : D)
| KoRelay (i : nat)
| KoCollect (id : ReservationId)
| KoHeartbeat (now : Time) (probe : bool)
| KoHalt (now : Time) (reason : string) (class : EmergencyClass)
| KoEngine (f : Engine (W := P) -> Engine (W := P))
| KoMetrics (o : metrics_op).

(** The relay releases what a finished execution reserved; a collection takes a reservation that has expired. *)
Definition control_step (w : ControlWorld) (o : control_op) : ControlWorld :=
  let k := kw_control w in
  let y := kr_system k in
  let with_system y := {| kw_control := set_kr_system k y; kw_switch := kw_switch w; kw_tasks := kw_tasks w |} in
  match o with
  | KoSwitch i => let '(k, p) := switch_advance k (kw_switch w) i in {| kw_control := k; kw_switch := p; kw_tasks := kw_tasks w |}
  | KoExecute =>
      if fsm_emergency (sy_fsm y) || negb (engine_allows_trading (sy_risk y)) then w
      else {| kw_control := k; kw_switch := kw_switch w; kw_tasks := kw_tasks w ++ [ {| tk_phase := TpAdmitted; tk_modes := [] |} ] |}
  | KoTask i ok instant market amount =>
      match kw_tasks w !! i with
      | None => w
      | Some t =>
          let '(y, t) := task_advance y (kr_mode k) i t ok instant market amount in
          {| kw_control := set_kr_system k y; kw_switch := kw_switch w; kw_tasks := <[i := t]> (kw_tasks w) |}
      end
  | KoRelay i =>
      match kw_tasks w !! i with
      | Some t => if decide (tk_phase t = TpDone) then with_system (set_sy_capital y (capital_release_sync (sy_capital y) (task_handle i)).1) else w
      | None => w
      end
  | KoCollect id => with_system (set_sy_capital y (set_backend (sy_capital y) (remove_reservation_entry (cm_backend (sy_capital y)) id).1))
  | KoHeartbeat now probe => with_system (heartbeat_tick y now probe)
  | KoHalt now reason class => with_system (halt_trading_and_cancel_open_orders y (kr_mode k) true now reason class).1
  | KoEngine f => with_system (set_sy_risk y (f (sy_risk y)))
  | KoMetrics o => match o with MoMode _ => w | _ => {| kw_control := set_kr_metrics k (metrics_step (kr_metrics k) o); kw_switch := kw_switch w; kw_tasks := kw_tasks w |} end
  end.

(** ** Facts *)

(** *** What the switch and its surroundings keep *)

(** A switch that has halted trading and has not ended. *)
Definition under_way (p : SwitchPhase) : Prop := match p with SpIdle | SpDone _ => False | _ => True end.

Lemma engine_halt_blocked (e : Engine (W := P)) now reason : blocked (engine_halt e now reason).
Proof.
  unfold engine_halt. destruct (call__later (halt_internal e now reason) (fun w => create_audit w (new_audit (AvEngineHalted reason)))) as [_ [E|[E _]]]; [|done].
  eapply blocked_core; [exact E|]. apply halt_internal_later.
Qed.

Lemma heartbeat_blocked (e : Engine (W := P)) now (success : bool) :
  blocked e -> blocked (on_execution_event e now (if success then EvHeartbeatSuccess else EvHeartbeatFailure)).
Proof.
  intros [H1 H2]. destruct success; cbn [on_execution_event]; [by split|]. unfold on_heartbeat_failure. destruct (_ <=? _).
  - apply blocked_after. unfold is_halted. cbn. apply halt_is_halted.
  - by split.
Qed.

Definition reserved_ids (y : System (P := P) (W := W)) : gmap ReservationId ReservationEntry := entries (sy_capital y).

(** A heartbeat keeps a blocked engine, its emergency and the reservations. *)
Lemma heartbeat_keeps y now probe : blocked (sy_risk y) ->
  blocked (sy_risk (heartbeat_tick y now probe)) /\ reserved_ids (heartbeat_tick y now probe) = reserved_ids y /\
  (fsm_emergency (sy_fsm y) = true -> fsm_emergency (sy_fsm (heartbeat_tick y now probe)) = true).
Proof.
  intros Hb. unfold heartbeat_tick. destruct (refresh_async y) as [z r] eqn:Ez. apply refresh_spec in Ez as (_ & Hf & Hr & Hc & _). rewrite fst_pair.
  rewrite <- Hr in Hb. unfold reserved_ids. destruct probe.
  - pose proof (heartbeat_blocked _ now true Hb) as He. set (e := on_execution_event _ _ _) in *. cbn [sy_fsm set_sy_risk set_sy_fsm sy_risk sy_integrity sy_capital].
    rewrite Hc. split_and!; [done..|]. rewrite Hf. unfold try_auto_recover. intros Hx. rewrite Hx. cbn [negb]. destruct He as [_ ->].
    repeat case_match; cbn [fst]; congruence.
  - pose proof (heartbeat_blocked _ now false Hb) as He. set (e := on_execution_event _ _ _) in *. cbn [sy_fsm set_sy_risk set_sy_fsm sy_risk sy_integrity sy_capital].
    destruct (_ && _); cbn [sy_fsm set_sy_risk set_sy_fsm sy_risk sy_integrity sy_capital]; rewrite Hc; split_and!; try done. by rewrite Hf.
Qed.

(** What an operator's resume leaves. *)
Lemma resume_spec y now y' r : resume_trading y now = (y', r) ->
  reserved_ids y' = reserved_ids y /\
  match r with
  | Err _ => sy_fsm y' = sy_fsm y
  | Ok _ => (forall id row, (sy_store y').1 !! id = Some row -> blocking_admission row = false) /\
      (sy_fsm y' = sy_fsm y \/ fsm_class (sy_fsm y) = VenueFault /\ engine_allows_trading (sy_risk y') = true)
  end.
Proof.
  unfold resume_trading, reserved_ids. destruct (engine_acknowledge_and_resume _ _) as [e [u|err]]; [|by intros [= <- <-]].
  destruct (refresh_async _) as [z q] eqn:Ez. pose proof (refreshed_clear (set_sy_risk y e) z) as Hclear. pose proof (refresh_spec _ _ _ Ez) as (_ & Hf & Hr & Hc & _). cbn in Hf, Hr, Hc.
  destruct q as [[]|err]; [|intros [= <- <-]; by rewrite Hc, Hf].
  destruct (Z.ltb_spec 0 (blocking_count (sy_integrity z))) as [Hb|Hb]; [intros [= <- <-]; by rewrite Hc, Hf|].
  destruct (engine_allows_trading (sy_risk z)) eqn:Ea; cbn [andb]; [destruct (allows_auto_recover (fsm_class (sy_fsm z))) eqn:Ec|]; intros [= <- <-]; cbn [sy_store sy_capital sy_fsm sy_risk set_sy_fsm];
    rewrite Hc; split_and!; try done; try (by eauto); [right | by left..]. rewrite Hf in Ec. split; [by destruct (fsm_class (sy_fsm y)) | done].
Qed.

(** *** Reservations *)

Lemma admit_refused (s : InMemoryExposureReservation) a now s' e : admit_alone s a now = (s', Some e) -> reservations s' = reservations s.
Proof.
  unfold admit_alone. destruct (check_total _ _) as [n|x]; [|by intros [= <- _]]. destruct (enter_market _ a) as [s1 [x|]] eqn:E; [|done].
  intros [= <- _]. apply enter_market_entries in E. cbn. done.
Qed.

Lemma reserve_ids (cm : CapitalManager) id now m amount cm' r : capital_reserve_sync cm id now m amount = (cm', r) ->
  match r with Err _ => entries cm' = entries cm | Ok _ => exists e, entries cm' = <[id := e]> (entries cm) end.
Proof.
  unfold capital_reserve_sync, try_reserve_sync, entries. destruct (usd_to_cents amount) as [cents|x]; [|by intros [= <- <-]].
  destruct (admit_alone _ _ _) as [s [x|]] eqn:E; intros [= <- <-]; [by apply admit_refused in E|]. apply admit_entries in E. eexists. exact E.
Qed.

Lemma release_other (cm : CapitalManager) h id : id <> rh_id h -> entries (capital_release_sync cm h).1 !! id = entries cm !! id.
Proof. apply release_reserved. Qed.

Lemma collect_other (cm : CapitalManager) id id' : id' <> id -> reservations (remove_reservation_entry (cm_backend cm) id).1 !! id' = entries cm !! id'.
Proof.
  intros Hne. unfold remove_reservation_entry, entries. destruct (reservations (cm_backend cm) !! id) eqn:E; [|done]. cbn [fst]. rewrite sub_market_entries. cbn.
  by rewrite lookup_delete_ne.
Qed.

Lemma drained_empty k : active_reservations k = 0 -> reserved_ids (kr_system k) = ∅.
Proof. unfold active_reservations, active_count_sync, reserved_ids, entries. intros H. apply map_size_empty_inv. lia. Qed.

(** *** The switch *)

(** What the configuration and the table of the positions do to the system at the beginning of a switch. *)
Lemma begin_spec c k target k' p : switch_begin c k target = (k', p) ->
  kr_mode k' = kr_mode k /\ kr_durable k' = kr_durable k /\ reserved_ids (kr_system k') = reserved_ids (kr_system k) /\
  ((exists r, p = SpDone r) /\ sy_fsm (kr_system k') = sy_fsm (kr_system k) /\ sy_risk (kr_system k') = sy_risk (kr_system k) \/
   p = SpDraining (kr_mode k) target /\ blocked (sy_risk (kr_system k')) /\ fsm_emergency (sy_fsm (kr_system k')) = true).
Proof.
  unfold switch_begin. destruct (decide _); [intros [= <- <-]; split_and!; [done..|]; left; split_and!; [by eexists | done | done]|].
  destruct (preflight c k target) as [[]|e]; [|intros [= <- <-]; split_and!; [done..|]; left; split_and!; [by eexists | done | done]].
  destruct (ensure_live_pending_redeem_portfolio _ _ _ _) as [[t w] [[]|e]]; intros [= <- <-]; (split_and!; [done..|]).
  - right. split_and!; [done| |done]. apply engine_halt_blocked.
  - left. split_and!; [by eexists | done | done].
Qed.

(** The kill switch is set and the engine blocked while a switch is under way, and the modes are as far as the switch is. *)
Definition halted_switch (w : ControlWorld) : Prop :=
  let k := kw_control w in
  under_way (kw_switch w) -> fsm_emergency (sy_fsm (kr_system k)) = true /\ blocked (sy_risk (kr_system k)) /\
  match kw_switch w with
  | SpDraining from _ | SpQuiesced from _ => kr_mode k = from
  | SpCommitted _ target => kr_mode k = target
  | SpPersisted _ target | SpRefreshing _ target _ | SpActivated _ target => kr_mode k = target /\ kr_durable k = target
  | SpIdle | SpDone _ => True
  end.

(** What the theorems ask of the surroundings: an operation on the risk engine that is not an operator's keeps it blocked. *)
Definition engine_steady (o : control_op) : Prop := match o with KoEngine f => forall e, blocked e -> blocked (f e) | _ => True end.

(** What a step of an execution does to the system. *)
Lemma task_spec y mode i t ok instant market amount y' t' : task_advance y mode i t ok instant market amount = (y', t') ->
  sy_risk y' = sy_risk y /\ (fsm_emergency (sy_fsm y) = true -> fsm_emergency (sy_fsm y') = true) /\
  (forall id, id <> Z.of_nat i -> reserved_ids y' !! id = reserved_ids y !! id).
Proof.
  unfold task_advance, reserved_ids. destruct (tk_phase t); try (destruct ok); intros H; try (injection H as <- <-); try done;
    try (split_and!; [done | done | intros id Hid; by apply release_other]);
    (destruct (capital_reserve_sync _ _ _ _ _) as [cm [h|e]] eqn:E; apply reserve_ids in E; injection H as <- <-; (split; [done|]); (split; [done|]); intros id Hid;
      change (entries cm !! id = entries (sy_capital y) !! id);
      first [by rewrite E | destruct E as [x ->]; by rewrite lookup_insert_ne]).
Qed.


(** A step of the switch: where it goes, and what it does to the system. *)
Lemma advance_keeps w i : halted_switch w -> halted_switch (control_step w (KoSwitch i)).
Proof.
  intros Hw. cbn [control_step]. destruct (switch_advance (kw_control w) (kw_switch w) i) as [k' p'] eqn:E. unfold halted_switch in *. cbn [kw_control kw_switch].
  intros Hu. unfold switch_advance in E.
  destruct (kw_switch w) as [|from target|from target|from target|from target|from target r|from target|res] eqn:Es, i as [c tg|expired| | |bankroll clob|v a now|now];
    try (injection E as <- <-; by apply Hw); try (specialize (Hw I); destruct Hw as (Hf & Hb & Hm)).
  - apply begin_spec in E as (H1 & _ & _ & [([r ->] & _)|(-> & H4 & H5)]); [done|]. by split_and!.
  - destruct (quiesce_poll _ _) as [[[]|e]|]; injection E as <- <-; [by split_and! | done | by split_and!].
  - injection E as <- <-. by split_and!.
  - destruct (out_connection _) as [v [m|]]; injection E as <- <-; [done|]. by split_and!.
  - destruct Hm, (refresh_begin _ _ _) as [r|e]; injection E as <- <-; [by split_and! | done].
  - destruct Hm. unfold activate_answer in E. destruct (refresh_answer _ _ _ _ _) as [s [[r'|[[]|e]]|]]; cbv zeta in E; try destruct (decide _); injection E as <- <-;
      first [by split_and! | done].
  - destruct (resume_trading _ _) as [y [[]|e]]; injection E as <- <-; done.
  - apply begin_spec in E as (H1 & _ & _ & [([r ->] & _)|(-> & H4 & H5)]); [done|]. by split_and!.
Qed.

Lemma control_step_halted w o : engine_steady o -> halted_switch w -> halted_switch (control_step w o).
Proof.
  intros Ho Hw. destruct o as [i| |i ok instant market amount|i|id|now probe|now reason class|f|o]; [by apply advance_keeps|..]; cbn [control_step].
  - by destruct (_ || _).
  - destruct (kw_tasks w !! i) as [t|]; [|done]. destruct (task_advance _ _ _ _ _ _ _ _) as [y t'] eqn:E. apply task_spec in E as (H1 & H2 & _).
    intros Hu. specialize (Hw Hu) as (Hf & Hb & Hm). cbn. rewrite H1. split_and!; [by apply H2 | done | done].
  - destruct (kw_tasks w !! i) as [t|]; [|done]. by destruct (decide _).
  - done.
  - intros Hu. specialize (Hw Hu) as (Hf & Hb & Hm). destruct (heartbeat_keeps (kr_system (kw_control w)) now probe Hb) as (H1 & _ & H3). split_and!; [by apply H3 | done | done].
  - intros Hu. specialize (Hw Hu) as (Hf & Hb & Hm). split_and!; [done | | done]. apply engine_halt_blocked.
  - intros Hu. specialize (Hw Hu) as (Hf & Hb & Hm). split_and!; [done | by apply Ho | done].
  - by destruct o.
Qed.

Lemma control_run_halted ops : forall w, Forall engine_steady ops -> halted_switch w -> halted_switch (foldl control_step w ops).
Proof. induction ops as [|o ops IH]; intros w Ho Hw; [done|]. apply Forall_cons in Ho as [Ho Hs]. apply IH; [done|]. by apply control_step_halted. Qed.


(** *** One mode for every execution *)

(** An execution that has not ended, one that holds a reservation, and one between its first look at the kill switch and its reservation. *)
Definition running (t : Task) : Prop := tk_phase t <> TpDone.
Definition in_window (t : Task) : Prop := match tk_phase t with TpAdmitted | TpDecided | TpSized | TpCaptured => True | _ => False end.
Definition holding (t : Task) : Prop := running t /\ ~ in_window t.

(** What the theorem asks of a run: the wait never ends while an execution has passed its first look at the kill switch and not yet reserved, and
    no collection takes the reservation of an execution that runs. *)
Definition undisturbed (w : ControlWorld) (o : control_op) : Prop :=
  engine_steady o /\
  match o with
  | KoSwitch (SiPoll expired) => match kw_switch w, quiesce_poll (kw_control w) expired with
                                 | SpDraining _ _, Some (Ok _) => Forall (fun t => ~ in_window t) (kw_tasks w)
                                 | _, _ => True
                                 end
  | KoCollect id => forall i t, kw_tasks w !! i = Some t -> holding t -> id <> Z.of_nat i
  | _ => True
  end.

Fixpoint undisturbed_run (w : ControlWorld) (ops : list control_op) : Prop :=
  match ops with [] => True | o :: ops => undisturbed w o /\ undisturbed_run (control_step w o) ops end.

(** The modes of a task are one, that in force while it runs; a running task that has reserved has its reservation. *)
Definition task_ok (k : RuntimeControl) (i : nat) (t : Task) : Prop :=
  (exists mode, Forall (eq mode) (tk_modes t) /\ (running t -> mode = kr_mode k)) /\
  (holding t -> is_Some (reserved_ids (kr_system k) !! Z.of_nat i)).

Record tasks_ok (w : ControlWorld) : Prop := {
  ko_halted : halted_switch w;
  ko_tasks : forall i t, kw_tasks w !! i = Some t -> task_ok (kw_control w) i t;
  ko_quiesced : match kw_switch w with SpQuiesced _ _ => Forall (fun t => ~ running t) (kw_tasks w) | _ => True end
}.

Lemma task_ok_keeps k k' i t : kr_mode k' = kr_mode k -> (is_Some (reserved_ids (kr_system k) !! Z.of_nat i) -> is_Some (reserved_ids (kr_system k') !! Z.of_nat i)) ->
  task_ok k i t -> task_ok k' i t.
Proof. intros Hm Hr [(m & H1 & H2) H3]. split; [exists m; rewrite Hm; by split | auto]. Qed.

(** A step of the tasks' surroundings that keeps the mode, and the reservations of those that run. *)
Lemma tasks_ok_keeps w w' : tasks_ok w -> halted_switch w' -> kw_tasks w' = kw_tasks w -> kr_mode (kw_control w') = kr_mode (kw_control w) ->
  (forall i t, kw_tasks w !! i = Some t -> holding t -> reserved_ids (kr_system (kw_control w')) !! Z.of_nat i = reserved_ids (kr_system (kw_control w)) !! Z.of_nat i) ->
  (forall from target, kw_switch w' = SpQuiesced from target -> kw_switch w = SpQuiesced from target) -> tasks_ok w'.
Proof.
  intros [Hh Ht Hq] Hh' Hts Hm Hr Hs. constructor; [done | |].
  - rewrite Hts. intros i t Hi. destruct (Ht i t Hi) as [(m & H1 & H2) H3]. split; [exists m; rewrite Hm; by split|]. intros Hx. rewrite (Hr i t Hi Hx). by apply H3.
  - destruct (kw_switch w') eqn:E; try done. rewrite Hts. by rewrite (Hs _ _ eq_refl) in Hq.
Qed.

(** A reading of the mode in force. *)
Lemma reads_ok k i t p : p <> TpDone -> task_ok k i t -> running t ->
  (match p with TpAdmitted | TpDecided | TpSized | TpCaptured => True | _ => holding t end) -> task_ok k i {| tk_phase := p; tk_modes := kr_mode k :: tk_modes t |}.
Proof.
  intros Hp [(m & H1 & H2) H3] Hr Hh. specialize (H2 Hr). subst m. split.
  - exists (kr_mode k). split; [by constructor | done].
  - intros [_ Hx]. apply H3. by destruct p.
Qed.

Lemma ended_ok k i t : task_ok k i t -> task_ok k i {| tk_phase := TpDone; tk_modes := tk_modes t |}.
Proof. intros [(m & H1 & H2) _]. split; [exists m; split; [done|]; by intros [] | by intros [[] _]]. Qed.

Lemma task_advance_ok k i t ok instant market amount y' t' : task_advance (kr_system k) (kr_mode k) i t ok instant market amount = (y', t') ->
  task_ok k i t -> task_ok (set_kr_system k y') i t'.
Proof.
  intros H Ht. assert (forall p, tk_phase t = p -> p <> TpDone -> running t) as Hrun by (unfold running; intros p ->; done).
  assert (forall y, task_ok (set_kr_system k y) i {| tk_phase := TpDone; tk_modes := tk_modes t |}) as Hdone.
  { intros y. destruct Ht as [(m & H1 & H2) _]. split; [exists m; split; [done|]; by intros [] | by intros [[] _]]. }
  assert (forall p, running t -> p <> TpDone -> (match p with TpAdmitted | TpDecided | TpSized | TpCaptured => True | _ => holding t end) ->
    task_ok (set_kr_system k (kr_system k)) i {| tk_phase := p; tk_modes := kr_mode k :: tk_modes t |}) as Hreads.
  { intros p Hr Hp Hx. eapply (task_ok_keeps k); [done | done |]. by apply reads_ok. }
  unfold task_advance in H. destruct (tk_phase t) eqn:Ep; try (specialize (Hrun _ eq_refl ltac:(done)));
    try (assert (holding t) as Hh by (split; [done|]; unfold in_window; rewrite Ep; tauto)).
  - destruct (ok && _); injection H as <- <-; first [by apply Hreads | by apply Hdone].
  - destruct ok; injection H as <- <-; first [by apply Hreads | by apply Hdone].
  - destruct ok; injection H as <- <-; first [by apply Hreads | by apply Hdone].
  - destruct (capital_reserve_sync _ _ _ _ _) as [cm [h|e]] eqn:E; injection H as <- <-; [|by apply Hdone]. apply reserve_ids in E as [e E]. destruct Ht as [(m & H1 & H2) H3].
    split; [exists m; split; [done|]; intros _; by apply H2|]. intros _. exists e. change (entries cm !! Z.of_nat i = Some e). by rewrite E, lookup_insert_eq.
  - destruct ok; injection H as <- <-; first [by apply Hreads | by apply Hdone].
  - destruct ok; injection H as <- <-; first [by apply Hreads | by apply Hdone].
  - destruct ok; injection H as <- <-; first [by apply Hreads | by apply Hdone].
  - injection H as <- <-. by apply Hreads.
  - injection H as <- <-. destruct (tk_modes t) as [|m l] eqn:Em; [by apply Hreads|].
    destruct m; try (by apply Hreads). destruct Ht as [(m & H1 & H2) H3]. rewrite Em in H1. split; [exists m; split; [done|]; intros _; by apply H2 | intros _; by apply H3].
  - destruct ok; injection H as <- <-; by apply Hdone.
  - injection H as <- <-. done.
Qed.

Lemma heartbeat_ids y now probe : reserved_ids (heartbeat_tick y now probe) = reserved_ids y.
Proof.
  unfold heartbeat_tick, reserved_ids. destruct (refresh_async y) as [z r] eqn:Ez. apply refresh_spec in Ez as (_ & _ & _ & Hc & _). rewrite fst_pair.
  destruct probe; [|destruct (_ && _)]; cbn [sy_capital set_sy_fsm set_sy_risk]; by rewrite Hc.
Qed.

(** The reservations are drained: no execution runs. *)
Lemma drained_none w : tasks_ok w -> active_reservations (kw_control w) = 0 -> Forall (fun t => ~ in_window t) (kw_tasks w) -> Forall (fun t => ~ running t) (kw_tasks w).
Proof.
  intros [_ Ht _] Hd Hn. apply Forall_lookup. intros i t Hi Hr. rewrite Forall_lookup in Hn. specialize (Hn i t Hi). destruct (Ht i t Hi) as [_ H].
  specialize (H (conj Hr Hn)). rewrite (drained_empty _ Hd), lookup_empty in H. by destruct H.
Qed.

(** A step of the switch other than its commit keeps the mode. *)
Lemma advance_frame k p i k' p' : switch_advance k p i = (k', p') -> (forall from target, p <> SpQuiesced from target) ->
  kr_mode k' = kr_mode k /\ reserved_ids (kr_system k') = reserved_ids (kr_system k) /\
  (forall from target, p' = SpQuiesced from target -> exists expired, i = SiPoll expired /\ p = SpDraining from target /\ quiesce_poll k expired = Some (Ok tt)).
Proof.
  intros E Hp. unfold switch_advance in E.
  destruct p as [|from target|from target|from target|from target|from target r|from target|res], i as [c tg|expired| | |bankroll clob|v a now|now];
    try (injection E as <- <-; by split_and!); try (exfalso; by eapply Hp).
  - apply begin_spec in E as (H1 & _ & H2 & [([r ->] & _)|(-> & _)]); by split_and!.
  - destruct (quiesce_poll _ _) as [[[]|e]|] eqn:Eq; injection E as <- <-; split_and!; try done. intros f t [= <- <-]. by exists expired.
  - destruct (out_connection _) as [v [m|]]; injection E as <- <-; by split_and!.
  - destruct (refresh_begin _ _ _) as [r|e]; injection E as <- <-; by split_and!.
  - unfold activate_answer in E. destruct (refresh_answer _ _ _ _ _) as [s [[r'|[[]|e]]|]]; cbv zeta in E; try destruct (decide _); injection E as <- <-; by split_and!.
  - destruct (resume_trading _ _) as [y [[]|e]] eqn:Er; injection E as <- <-; apply resume_spec in Er as [Hr _]; by split_and!.
  - apply begin_spec in E as (H1 & _ & H2 & [([r ->] & _)|(-> & _)]); by split_and!.
Qed.

Lemma switch_step_ok w i : undisturbed w (KoSwitch i) -> tasks_ok w -> tasks_ok (control_step w (KoSwitch i)).
Proof.
  intros [Hs Ho] Hw. pose proof (advance_keeps w i (ko_halted _ Hw)) as Hh. cbn [control_step] in *.
  destruct (switch_advance (kw_control w) (kw_switch w) i) as [k' p'] eqn:E. pose proof Hw as [Hh0 Ht Hq].
  assert ((exists from target, kw_switch w = SpQuiesced from target) \/ forall from target, kw_switch w <> SpQuiesced from target) as [(from & target & Es)|Hp]
    by (destruct (kw_switch w); eauto; right; done).
  - rewrite Es in *. destruct i; injection E as <- <-; try (constructor; [done | exact Ht | exact Hq]). constructor; [done | | done].
    intros j t Hj. rewrite Forall_lookup in Hq. specialize (Hq j t Hj). destruct (Ht j t Hj) as [(m & H1 & H2) H3]. split; [exists m; by split | by intros [H _]].
  - apply advance_frame in E as (H1 & H2 & H3); [|done]. constructor; cbn [kw_control kw_switch kw_tasks]; [done| |].
    + intros j t Hj. eapply task_ok_keeps; [done | by rewrite H2 | by apply Ht].
    + destruct p' as [|f t|f t|f t|f t|f t r|f t|res]; try done. destruct (H3 f t eq_refl) as (expired & -> & Es & Eq). rewrite Es, Eq in Ho. apply drained_none; [done| |done].
      unfold quiesce_poll in Eq. destruct (negb _); cbn [andb] in Eq; [destruct (Z.eqb_spec (active_reservations (kw_control w)) 0); [done|]|]; by destruct expired.
Qed.

Lemma execution_step_ok w i ok instant market amount : tasks_ok w -> tasks_ok (control_step w (KoTask i ok instant market amount)).
Proof.
  intros Hw. pose proof (control_step_halted w (KoTask i ok instant market amount) I (ko_halted _ Hw)) as Hh. cbn [control_step] in *. destruct Hw as [Hh0 Ht Hq].
  destruct (kw_tasks w !! i) as [t|] eqn:Ei; [|by constructor]. destruct (task_advance _ _ _ _ _ _ _ _) as [y t'] eqn:E.
  pose proof (task_advance_ok _ _ _ _ _ _ _ _ _ E (Ht i t Ei)) as Hi. constructor; cbn [kw_control kw_switch kw_tasks]; [done| |].
  - intros j u Hj. destruct (decide (i = j)) as [->|Hne].
    + rewrite list_lookup_insert_eq in Hj by (by eapply lookup_lt_Some). by injection Hj as <-.
    + rewrite list_lookup_insert_ne in Hj by done. eapply task_ok_keeps; [| |by apply (Ht j)]; [done|]. apply task_spec in E as (_ & _ & Hr).
      cbn. by rewrite (Hr (Z.of_nat j)) by lia.
  - destruct (kw_switch w); try done. apply Forall_insert; [done|]. rewrite Forall_lookup in Hq. specialize (Hq i t Ei). unfold running in *.
    unfold task_advance in E. destruct (tk_phase t) eqn:Ep; try (exfalso; apply Hq; congruence). injection E as <- <-. by intros [].
Qed.

Lemma tasks_step_ok w o : undisturbed w o -> tasks_ok w -> tasks_ok (control_step w o).
Proof.
  intros Hu Hw. pose proof Hu as [Hs Ho]. pose proof (control_step_halted w o Hs (ko_halted _ Hw)) as Hh. pose proof Hw as [Hh0 Ht Hq].
  destruct o as [i| |i ok instant market amount|i|id|now probe|now reason class|f|o]; [by apply switch_step_ok | | by apply execution_step_ok|..]; cbn [control_step] in *.
  - destruct (_ || _) eqn:Ex; [done|]. constructor; cbn [kw_control kw_switch kw_tasks]; [done| |].
    + intros i t [Hi|[_ Hi]]%lookup_app_Some; [by apply Ht|]. apply list_lookup_singleton_Some in Hi as [_ <-].
      split; [exists (kr_mode (kw_control w)); split; [by constructor | done] | intros [_ []]; done].
    + destruct (kw_switch w) eqn:Es; try done. exfalso. unfold halted_switch in Hh0. rewrite Es in Hh0. destruct (Hh0 I) as (_ & [_ Hb] & _). rewrite Hb in Ex. by destruct (fsm_emergency _).
  - destruct (kw_tasks w !! i) as [t|] eqn:Ei; [|done]. destruct (decide _) as [Hd|]; [|done]. apply (tasks_ok_keeps w); try done.
    intros j t' Hj [Hr _]. apply release_other. cbn. intros Hij. assert (i = j) as -> by lia. rewrite Ei in Hj. injection Hj as <-. by apply Hr.
  - apply (tasks_ok_keeps w); try done. intros j t' Hj Hr. apply collect_other. specialize (Ho j t' Hj Hr). congruence.
  - apply (tasks_ok_keeps w); try done. intros j t' Hj Hr. cbn [kw_control kr_system set_kr_system]. by rewrite heartbeat_ids.
  - apply (tasks_ok_keeps w); done.
  - apply (tasks_ok_keeps w); done.
  - destruct o; try done; by apply (tasks_ok_keeps w).
Qed.

Lemma tasks_run_ok ops : forall w, undisturbed_run w ops -> tasks_ok w -> tasks_ok (foldl control_step w ops).
Proof. induction ops as [|o ops IH]; intros w Hu Hw; [done|]. destruct Hu as [Hu Hr]. apply IH; [done|]. by apply tasks_step_ok. Qed.

(** C32: Every execution has one mode.  However executions, switches, heartbeats, halts and refreshes interleave, all the modes that an execution reads - for
    its gates, its size, its plan, its row, its submission, its order - are the same, and while it runs it is the mode in force: provided that the wait of
    a switch never ends while an execution has passed its look at the kill switch without having reserved, and that no collection takes the reservation of
    a running execution. *)
Theorem executions_keep_their_mode (w0 : ControlWorld) (ops : list control_op) :
  kw_tasks w0 = [] -> ~ under_way (kw_switch w0) -> undisturbed_run w0 ops ->
  let w := foldl control_step w0 ops in
  forall i t, kw_tasks w !! i = Some t -> exists mode, Forall (eq mode) (tk_modes t) /\ (tk_phase t <> TpDone -> mode = kr_mode (kw_control w)).
Proof.
  intros Ht Hu Hr w i t Hi. assert (tasks_ok w0) as H0 by (constructor; [by intros ? | by rewrite Ht | rewrite Ht; by destruct (kw_switch w0)]).
  exact (proj1 (ko_tasks _ (tasks_run_ok ops w0 Hr H0) i t Hi)).
Qed.

(** *** Positions that wait for their redemption *)

(** A position with a plan that fits its market. *)
Definition redeemable_position (p : PositionInfo) : Prop := (exists plan, redeem_plan p = Ok plan) /\ redeem_snapshot_needs_backfill p = false.

Definition same_standing (p p' : PositionInfo) : Prop := is_open p' = is_open p /\ pos_redeem_status p' = pos_redeem_status p.

Lemma position_statement_spec {A} s (f : Positions -> Positions * Result A StorageError) s' a : position_statement s f = (s', Ok a) -> f s.1 = (s'.1, Ok a).
Proof. unfold position_statement. destruct (out_connection s.2) as [w [m|]]; [done|]. destruct (f s.1) as [t r]. by intros [= <- ->]. Qed.

Lemma no_backfill p : redeem_snapshot_needs_backfill p = false -> redeemable_position p.
Proof. intros H. split; [|done]. unfold redeem_snapshot_needs_backfill in H. destruct (redeem_plan p) as [plan|e]; [by exists plan | done]. Qed.

(** What the loop has done for every position of the table. *)
Definition backfilled (t t' : Positions) (pending : list PositionInfo) : Prop :=
  forall id p', t' !! id = Some p' -> exists p, t !! id = Some p /\ same_standing p p' /\ (p' = p \/ redeemable_position p') /\
    ((exists q, q ∈ pending /\ pos_id q = id /\ redeem_snapshot_needs_backfill q = true) -> redeemable_position p').

Lemma backfill_spec registry policy pending : 0 <= rp_gas_limit policy <= i64_max -> forall s s',
  backfill registry policy s pending = (s', Ok tt) -> backfilled s.1 s'.1 pending.
Proof.
  intros Hg. induction pending as [|q pending IH]; intros s s' H; cbn [backfill] in H.
  { injection H as <-. intros id p Hp. exists p. split_and!; [done | done | by left|]. intros (q & Hq & _). by apply not_elem_of_nil in Hq. }
  destruct (redeem_snapshot_needs_backfill q) eqn:En; cbn [negb] in H.
  - destruct (registry_neg_risk registry (pos_market_id q)) as [neg_risk|]; [|done]. destruct (resolve policy (pos_market_id q) neg_risk) as [plan|] eqn:Er; [|done].
    destruct (position_statement s _) as [s1 [u|e]] eqn:Es; [|done]. apply position_statement_spec in Es. unfold update_redeem_snapshot, patch_position in Es.
    destruct (s.1 !! pos_id q) as [q0|] eqn:Eq; [|done]. injection Es as E1 _. specialize (IH _ _ H).
    assert (redeemable_position (apply_patch [SetSnapshot (snapshot_from_plan neg_risk plan)] q0)) as Hgood.
    { destruct (resolve_matches_class _ _ _ _ Er) as (_ & _ & Hl & _). rewrite <- Hl in Hg. destruct (snapshot_roundtrip policy _ neg_risk plan q0 Er Hg) as [H1 H2]. by split; [exists plan|]. }
    intros id p' Hp. destruct (IH id p' Hp) as (p1 & Hp1 & [Hs1 Hs2] & Hor & Hq). rewrite <- E1 in Hp1. destruct (decide (pos_id q = id)) as [<-|Hne].
    + rewrite lookup_insert_eq in Hp1. injection Hp1 as <-. assert (redeemable_position p') as Hx by (destruct Hor as [->|?]; done). exists q0. split_and!; [done | | by right | done].
      by split; [rewrite Hs1 | rewrite Hs2].
    + rewrite lookup_insert_ne in Hp1 by done. exists p1. split_and!; [done | by split | done|]. intros (q' & [->|Hin]%elem_of_cons & Hid & Hn); [done|]. apply Hq. by exists q'.
  - specialize (IH _ _ H). intros id p' Hp. destruct (IH id p' Hp) as (p & Hp1 & Hs & Hor & Hq). exists p. split_and!; [done..|].
    intros (q' & [->|Hin]%elem_of_cons & Hid & Hn); [congruence|]. apply Hq. by exists q'.
Qed.

(** Live trading begins with positions that can be redeemed.  When the check of the open positions that wait for their redemption passes, every one of
    them - the old ones included, that were stored without a plan - has a plan whose route is that of its market's class. *)
Theorem live_entry_can_redeem (registry : MarketRegistry) (policy : RedeemRoutingPolicy) (s s' : Positions * W) (id : PositionId) (p : PositionInfo) :
  ensure_live_pending_redeem_portfolio registry policy Live s = (s', Ok tt) -> 0 <= rp_gas_limit policy <= i64_max ->
  (forall id q, s.1 !! id = Some q -> pos_id q = id) -> s'.1 !! id = Some p -> is_open p = true -> pos_redeem_status p = RsPending ->
  exists plan, redeem_plan p = Ok plan /\ Config.plan_neg_risk plan = pos_redeem_neg_risk p /\ route_expects_neg_risk (plan_route plan) = pos_redeem_neg_risk p.
Proof.
  unfold ensure_live_pending_redeem_portfolio. intros H Hg Hk Hp Ho Hr. destruct (position_statement s _) as [s1 [pending|e]] eqn:E1; [|done].
  destruct (backfill registry policy s1 pending) as [s2 [[]|e]] eqn:E2; [|done]. destruct (position_statement s2 _) as [s3 [again|e]] eqn:E3; [|done].
  apply position_statement_spec in E1, E3. injection E1 as E1 <-. injection E3 as E3 _. apply (backfill_spec _ _ _ Hg) in E2.
  assert (s3.1 = s'.1) as E4 by (destruct (pending_redeem_errors _); by injection H as <-). rewrite <- E4, <- E3 in Hp.
  destruct (E2 id p Hp) as (q & Hq & [Hs1 Hs2] & Hor & Hx). rewrite <- E1 in Hq. assert (redeemable_position p) as [[plan Hplan] Hn].
  { destruct (redeem_snapshot_needs_backfill q) eqn:En; [|destruct Hor as [->|?]; [by apply no_backfill | done]]. apply Hx. exists q. split_and!; [|by apply Hk | done].
    unfold find_open_pending_redeem. apply select_in. split; [|by exists id]. rewrite <- Hs1, <- Hs2, Ho. cbn. by apply bool_decide_eq_true. }
  exists plan. unfold redeem_snapshot_needs_backfill in Hn. rewrite Hplan in Hn. apply orb_false_iff in Hn as [H1 H2]. apply negb_false_iff, eqb_prop in H1, H2. by split_and!.
Qed.
End Transition.

(** ** Instances *)

Module ModeDemo.
#[local] Existing Instance ExactQ.exactQ.
#[local] Existing Instance ExactQ.exactQ_laws.
#[local] Existing Instance utc_chrono.
#[local] Existing Instance TradeFlowDemo.outside.
Abbreviation World := (ControlWorld (P := Scripted.Store) (W := list (option string))).

Definition services : ControlConfig := {|
  kc_deploy := {| dp_private_key := Some "key"; dp_jwt_secret := "a strong secret" |}; kc_runtime := runtime_config_default; kc_clob_client := true; kc_ctf_redeem := true;
  kc_holder_address := "0x1"; kc_registry := register_markets new_registry [MetricsDemo.market]; kc_catalog := mark_ready new_catalog_readiness 1 0;
  kc_ws_manager := set_feed (new_ws_manager 2) {["y" := 0; "n" := 0]} (Some 0) []; kc_factors := snapshot_neutral 0; kc_unhealthy := []; kc_now := 0 |}.

Definition no_books : EquityValuator := MetricsDemo.valuator [].

(** A system in a mode, with the trades of a table and a scripted connection. *)
Definition start (mode : ExecutionMode) (trades : gmap TradeId TradeInfo) (script : list (option string)) (f : ExecutionFSM) : World := {|
  kw_control := {| kr_mode := mode; kr_durable := mode; kr_system := TradeFlowDemo.system trades script f; kr_positions := ∅; kr_metrics := boot_metrics 60000 mode 0 |};
  kw_switch := SpIdle; kw_tasks := [] |}.

(** The steps of a switch, to its wait, to its commit, and to its end. *)
Definition switch_to_wait (target : ExecutionMode) : list (control_op (P := Scripted.Store)) := [KoSwitch (SiStart services target)].
Definition switch_to_commit : list (control_op (P := Scripted.Store)) := [KoSwitch (SiPoll false); KoSwitch SiCommit].
Definition activation (target : ExecutionMode) : list (control_op (P := Scripted.Store)) :=
  KoSwitch SiPersist :: KoSwitch (SiRefresh 1000%Q true) :: KoSwitch (SiAnswer no_books (AnAmount (Ok 1000%Q)) 0) ::
  (match target with Live => [] | _ => [KoSwitch (SiAnswer no_books (AnAmount (Ok 0%Q)) 0)] end) ++ [KoSwitch (SiAnswer no_books (AnPositions (Ok [])) 0)].
Definition resume : control_op (P := Scripted.Store) := KoSwitch (SiResume 9).

(** The next [n] steps of the first execution. *)
Definition steps (n : nat) : list (control_op (P := Scripted.Store)) := repeat (KoTask 0 true 0 "m0" 10%Q) n.

Definition ended (w : World) : option (Result ModeTransitionReport RuntimeControlError) := match kw_switch w with SpDone r => Some r | _ => None end.
Definition modes_of (w : World) : list (list ExecutionMode) := tk_modes <$> kw_tasks w.
Definition to_activation (target : ExecutionMode) : list (control_op (P := Scripted.Store)) := switch_to_wait target ++ switch_to_commit ++ activation target.


(** An execution that has ended before the wait does. *)
Definition quiet_run : list (control_op (P := Scripted.Store)) := KoExecute :: steps 5 ++ switch_to_wait Live ++ steps 5 ++ [KoRelay 0] ++ switch_to_commit ++ [KoExecute].

Lemma executions_keep_their_mode_witness :
  modes_of (foldl control_step (start Paper ∅ [] new_fsm) quiet_run) = [[Paper; Paper; Paper; Paper; Paper; Paper; Paper; Paper]] /\
  kr_mode (kw_control (foldl control_step (start Paper ∅ [] new_fsm) quiet_run)) = Live /\
  exists mode, Forall (eq mode) [Paper; Paper; Paper; Paper; Paper; Paper; Paper; Paper].
Proof.
  assert (undisturbed_run (start Paper ∅ [] new_fsm) quiet_run) as Hq.
  { vm_compute. repeat match goal with |- _ /\ _ => split | |- True => exact I end. repeat constructor. intros H. exact H. }
  assert (modes_of (foldl control_step (start Paper ∅ [] new_fsm) quiet_run) = [[Paper; Paper; Paper; Paper; Paper; Paper; Paper; Paper]]) as Hm by (vm_compute; reflexivity).
  split; [exact Hm|]. split; [vm_compute; reflexivity|]. revert Hm.
  generalize (executions_keep_their_mode (start Paper ∅ [] new_fsm) quiet_run eq_refl (fun H => H) Hq). cbv zeta.
  generalize (foldl control_step (start Paper ∅ [] new_fsm) quiet_run). intros w H Hm. unfold modes_of in Hm. destruct (kw_tasks w) as [|t l]; [discriminate Hm|].
  destruct (H 0%nat t eq_refl) as (mode & Hf & _). exists mode. injection Hm as Ht _. rewrite Ht in Hf. exact Hf.
Defined.

(** The wait ends between the gates of an execution and its reservation: decided for paper trading, it is placed at the venue. *)
Lemma switch_overtakes_execution :
  modes_of (foldl control_step (start Paper ∅ [] new_fsm) (KoExecute :: steps 3 ++ switch_to_wait Live ++ switch_to_commit ++ steps 6)) = [[Live; Live; Live; Live; Paper; Paper; Paper]].
Proof. vm_compute. reflexivity. Qed.

(** The reservation of an execution expires and is collected while its row is written: the wait ends, and an order recorded as a paper trade is placed at
    the venue. *)
Lemma collected_reservation_ends_wait :
  modes_of (foldl control_step (start Paper ∅ [] new_fsm) (KoExecute :: steps 6 ++ switch_to_wait Live ++ [KoCollect 0] ++ switch_to_commit ++ steps 3)) =
    [[Live; Live; Paper; Paper; Paper; Paper; Paper]].
Proof. vm_compute. reflexivity. Qed.

(** The new mode is stored before it is made durable: when that fails the switch ends with an error in the new mode, and repeating it reports success at
    once. *)
Lemma failed_persist_changes_mode :
  let w := foldl control_step (start DryRun ∅ [None; None; Some "connection lost"] new_fsm) (switch_to_wait Live ++ switch_to_commit ++ [KoSwitch SiPersist]) in
  ended w = Some (Err (RcActivation "connection lost")) /\ kr_mode (kw_control w) = Live /\ kr_durable (kw_control w) = DryRun /\
  ended (control_step w (KoSwitch (SiStart services Live))) = Some (Ok {| mtr_from := Live; mtr_to := Live |}) /\
  kr_durable (kw_control (control_step w (KoSwitch (SiStart services Live)))) = DryRun.
Proof. vm_compute. repeat split; reflexivity. Qed.

(** A switch takes away a halt that only an operator's acknowledgement is meant to clear. *)
Lemma switch_clears_persistence_fault :
  let w0 := start DryRun ∅ [] (enter_emergency new_fsm PersistenceFault "mark submitted failed") in
  let w := foldl control_step w0 (to_activation Paper ++ [resume]) in
  fsm_emergency (sy_fsm (resume_trading (kr_system (kw_control w0)) 9).1) = true /\
  ended w = Some (Ok {| mtr_from := DryRun; mtr_to := Paper |}) /\ fsm_emergency (sy_fsm (kr_system (kw_control w))) = false.
Proof. vm_compute. repeat split; reflexivity. Qed.

(** The final resume finds a trade in flight: the switch ends with an error, and the risk engine lets trades through. *)
Lemma failed_resume_leaves_engine_running :
  let w := foldl control_step (start DryRun TradeFlowDemo.submitted [] new_fsm) (to_activation Paper ++ [resume]) in
  ended w = Some (Err (RcResume "blocking trades unresolved")) /\ trading_allowed (kw_control w) = true /\ fsm_emergency (sy_fsm (kr_system (kw_control w))) = true.
Proof. vm_compute. repeat split; reflexivity. Qed.

(** A refresh that has begun in live trading ends after the switch to paper trading: the paper mode trades on the cash of the venue. *)
Lemma old_refresh_overwrites_activation :
  let w := foldl control_step (start Live ∅ [] new_fsm) (KoMetrics (MoBegin 1000%Q true) :: to_activation Paper ++ [resume;
    KoMetrics (MoAnswer 0 no_books (AnAmount (Ok 77%Q)) 0); KoMetrics (MoAnswer 0 no_books (AnPositions (Ok [])) 0)]) in
  ended w = Some (Ok {| mtr_from := Live; mtr_to := Paper |}) /\ rx_source (mw_state (kr_metrics (kw_control w))) = AuthoritativeClob /\
  mx_cash_balance (rx_snapshot (mw_state (kr_metrics (kw_control w)))) = 77%Q.
Proof. vm_compute. repeat split; reflexivity. Qed.

(** An old position without a usable route, of a market with a standard route. *)
Definition legacy : PositionInfo := {|
  pos_id := 1; pos_trade_id := 7; pos_market_id := "m0"; pos_token_id := "y"; pos_side := Buy; pos_execution_mode := Live;
  pos_shares := 10%Q; pos_avg_entry_price := 1%Q; pos_total_cost_usd := 5%Q; pos_total_fees_usd := d0; pos_unrealized_pnl := d0;
  pos_realized_pnl := d0; pos_status := PosOpen; pos_opened_at := 0; pos_closed_at := None; pos_settled_at := None;
  pos_winning_token_id := None; pos_settlement_payout_usd := None; pos_redeem_tx_hash := None; pos_redeem_status := RsPending;
  pos_redeem_attempts := 0; pos_oracle_verdict := None; pos_settlement_trigger := None; pos_accounting_status := AcPending;
  pos_accounting_error := None; pos_accounted_at := None; pos_redeem_terminal_reason := None; pos_redeem_neg_risk := true;
  pos_redeem_route := "standard_ctf"; pos_redeem_holder_address := None; pos_redeem_resolution := ClassStandard;
  pos_redeem_gas_limit := 500000; pos_redeem_gas_paid_usd := None |}.
Definition routes : RedeemRoutingPolicy := {|
  rp_standard := Some {| sp_route := StandardCtf; sp_holder_address := None |}; rp_neg_risk := None; rp_overrides := ∅; rp_gas_limit := 500000; rp_matic_usd_price := 1%Q |}.
Definition checked : (gmap PositionId PositionInfo * list (option string)) * Result unit RuntimeControlError :=
  ensure_live_pending_redeem_portfolio (kc_registry services) routes Live ({[1 := legacy]}, []).

Lemma live_entry_can_redeem_witness :
  redeem_snapshot_needs_backfill legacy = true /\ match checked.1.1 !! 1 with Some p => exists plan, redeem_plan p = Ok plan | None => False end.
Proof.
  split; [vm_compute; reflexivity|]. assert (checked.2 = Ok tt) as Hr by (vm_compute; reflexivity).
  assert ((fun p => (is_open p, pos_redeem_status p)) <$> checked.1.1 !! 1 = Some (true, RsPending)) as Hs by (vm_compute; reflexivity).
  destruct (checked.1.1 !! 1) as [p|] eqn:Ep; [|discriminate Hs]. injection Hs as Ho Hp.
  destruct (live_entry_can_redeem (kc_registry services) routes ({[1 := legacy]}, []) checked.1 1 p) as (plan & H & _).
  - unfold checked in *. destruct (ensure_live_pending_redeem_portfolio _ _ _ _) as [x r]. cbn in Hr. by rewrite Hr.
  - vm_compute. split; discriminate.
  - intros id q. cbn [fst]. rewrite lookup_singleton_Some. by intros [<- <-].
  - done.
  - done.
  - done.
  - by exists plan.
Defined.
End ModeDemo.
