(* ===== verification/Scanner.v ===== *)
(** * From the feed to the execution shards: [oxide-arb-core/src/detection]

    The scanner ([scanner.rs], [scanner_task.rs]), the funnel with its shard channels ([funnel.rs])
    and the detection side of the process: feed, book workers, coalescer, scanner task, sweep and
    status publisher as the steps of one system.  The theorems say what an opportunity that reaches
    an execution shard went through, and that a half-open breaker receives none.  Metrics, latency
    traces and the detection writer are left out; the hash of the shards, identifiers and clock
    readings are arguments. *)

From S2P Require Import Prelude Decimal Micro Config Domain Book Calibration RiskTypes CircuitBreaker FactorModel Factors Detector OpportunityPipeline OrderBook Execution Positions Markets MarketFeed Ingestion Lifecycle.

(** ** The funnel and its channels *)

Section Funnel.
Context {DO : DecimalOps} {SH : Sharding}.

(** The channel of one execution shard: what waits in it, and whether its runner still receives. *)
Record ShardChannel := { hc_items : list ScoredOpportunity; hc_open : bool }.

(** [core/detection/funnel.rs:176-182] `Funnel`, with its channels and the opportunity [run] is sending *)
Record Funnel := {
  fn_queue : FunnelQueue (A := ScoredOpportunity);
  fn_shards : list ShardChannel;
  fn_capacity : nat;
  fn_sending : option ScoredOpportunity
}.

Definition set_queue (f : Funnel) queue : Funnel := {|
  fn_queue := queue; fn_shards := fn_shards f; fn_capacity := fn_capacity f; fn_sending := fn_sending f |}.
Definition set_channels (f : Funnel) shards : Funnel := {|
  fn_queue := fn_queue f; fn_shards := shards; fn_capacity := fn_capacity f; fn_sending := fn_sending f |}.
Definition set_sending (f : Funnel) sending : Funnel := {|
  fn_queue := fn_queue f; fn_shards := fn_shards f; fn_capacity := fn_capacity f; fn_sending := sending |}.

(** [core/detection/funnel.rs:201-217] `Funnel::with_backpressure`, also `Funnel::new`, with the channels *)
Definition new_funnel (shard_count max_queue_size capacity : nat) : Funnel := {|
  fn_queue := new_funnel_queue max_queue_size; fn_shards := replicate shard_count {| hc_items := []; hc_open := true |};
  fn_capacity := capacity; fn_sending := None |}.

(** [core/detection/funnel.rs:224-239] `Funnel::reload`, the capacity of the queue *)
Definition funnel_reload (f : Funnel) (max_queue_size : nat) : Funnel := set_queue f (set_max_size (fn_queue f) max_queue_size).1.

(** [core/detection/funnel.rs:242-261] `Funnel::submit` *)
Definition funnel_submit (f : Funnel) (scored : ScoredOpportunity) (now : Time) : Funnel :=
  set_queue f (queue_submit (fn_queue f) scored (so_score scored) now).1.

(** The shard of an opportunity's market. *)
Definition shard_of (f : Funnel) (scored : ScoredOpportunity) : nat := shard_index (opp_market_id (opportunity scored)) (length (fn_shards f)).

(** [self.shard_txs[idx].try_send(scored)]: [None] when the channel is full or nobody receives *)
Definition try_send (f : Funnel) (scored : ScoredOpportunity) : option Funnel :=
  channel ← fn_shards f !! shard_of f scored;
  if hc_open channel && (length (hc_items channel) <? fn_capacity f)%nat
  then Some (set_channels f (<[shard_of f scored := {| hc_items := hc_items channel ++ [scored]; hc_open := true |}]> (fn_shards f)))
  else None.

(** [core/detection/funnel.rs:266-278] `Funnel::try_dispatch_immediate`; false under backpressure *)
Definition try_dispatch_immediate (f : Funnel) (scored : ScoredOpportunity) : Funnel * bool :=
  match try_send f scored with Some f => (f, true) | None => (f, false) end.

(** [core/detection/funnel.rs:291-314] `Funnel::run`, a tick of the sweep: the best entry is taken to be sent *)
Definition sweep_tick (f : Funnel) : Funnel :=
  match fn_sending f with
  | Some _ => f
  | None => let '(queue, entry) := pop_best (fn_queue f) in set_sending (set_queue f queue) (se_scored <$> entry)
  end.

(** [core/detection/funnel.rs:343-351] `Funnel::evict_lowest_from_queue` *)
Definition evict_lowest_from_queue (f : Funnel) : Funnel := set_queue f (evict_min (fn_queue f)).1.

(** [core/detection/funnel.rs:315-335] `Funnel::run`, the send: it waits for room, and fails when nobody receives *)
Definition sweep_send (f : Funnel) (now : Time) : Funnel :=
  match fn_sending f with
  | None => f
  | Some scored =>
      match fn_shards f !! shard_of f scored with
      | None => f
      | Some channel =>
          if hc_open channel
          then match try_send f scored with Some f => set_sending f None | None => f end
          else
            let f := evict_lowest_from_queue (set_sending f None) in
            match try_send f scored with Some f => f | None => funnel_submit f scored now end
      end
  end.

(** A runner takes the oldest opportunity of its shard; a runner stops. *)
Definition shard_take (f : Funnel) (i : nat) : Funnel * option ScoredOpportunity :=
  match fn_shards f !! i with
  | Some {| hc_items := scored :: rest; hc_open := true |} => (set_channels f (<[i := {| hc_items := rest; hc_open := true |}]> (fn_shards f)), Some scored)
  | _ => (f, None)
  end.
Definition shard_close (f : Funnel) (i : nat) : Funnel :=
  set_channels f (alter (fun channel => {| hc_items := hc_items channel; hc_open := false |}) i (fn_shards f)).

(** What the funnel holds, in the queue, in the channels and in the sender's hand. *)
Definition queued (q : FunnelQueue (A := ScoredOpportunity)) : list ScoredOpportunity := se_scored <$> (map_to_list (fq_entries q)).*2.
Definition held (f : Funnel) : list ScoredOpportunity := concat (hc_items <$> fn_shards f) ++ option_list (fn_sending f) ++ queued (fn_queue f).
End Funnel.

(** ** The scanner *)

Section Scan.
Context {DO : DecimalOps} {CC CE : Type} {MC : MarketCache CC CooldownEntry} {ME : MarketCache CE ConvergenceEntry}.
Abbreviation Pipe := (OpportunityPipeline (CC := CC) (CE := CE)).
Abbreviation BookStore := (gmap TokenId TokenBookState).

(** [ToPrimitive::to_u64(&now.timestamp_millis().max(0)).unwrap_or(0)] *)
Definition clock_ms (now : Time) : Z := unwrap_or (to_u64 (Z.max (now / 1000000) 0)) 0.

(** [core/detection/scanner.rs:131-141] `Scanner::scan_market`, the input of the scan *)
Definition scan_input (entry : CachedMarketScanEntry) (pair : EndgameBookPair) (staleness : StalenessLevel) : MarketScanInput := {|
  si_market_id := ce_market_id entry; si_event_id := ce_event_id entry; si_token_yes := ce_token_yes entry; si_token_no := ce_token_no entry;
  si_book := pair; si_category := ce_fee_category entry; si_staleness := staleness; si_settlement_deadline := ce_settlement_deadline entry |}.

(** [core/detection/scanner.rs:77-171] `Scanner::scan_market` *)
Definition scan_market (view : SystemView) (books : BookStore) (t : StalenessThresholds) (p : Pipe) (id : OpportunityId) (entry : CachedMarketScanEntry) (now : Time)
    : Pipe * Result ScoredOpportunity DetectionRejectReason :=
  if negb (cr_ready (sv_catalog view)) then (p, Err RjCatalogNotReady)
  else if negb (sv_allows_detection view) then (p, Err RjLifecycleGated)
  else match load_pair books (ce_token_yes entry) (ce_token_no entry) with
       | None => (p, Err RjMissingBookPair)
       | Some legs =>
           let now_ms := clock_ms now in
           if negb (gate_pass legs now_ms (th_acceptable t)) then (p, Err RjBookGate)
           else process_ref p (sv_published view) id (scan_input entry legs (classify_staleness t (max_staleness_ms (pair_view legs) now_ms))) now
       end.

(** [core/detection/scanner.rs:173-185] `Scanner::scan_all` *)
Fixpoint scan_entries (view : SystemView) (books : BookStore) (t : StalenessThresholds) (p : Pipe) (entries : list (OpportunityId * CachedMarketScanEntry)) (now : Time)
    : Pipe * list ScoredOpportunity :=
  match entries with
  | [] => (p, [])
  | (id, entry) :: rest =>
      let '(p, r) := scan_market view books t p id entry now in
      let '(p, found) := scan_entries view books t p rest now in
      (p, match r with Ok so => so :: found | Err _ => found end)
  end.
Definition scan_all (view : SystemView) (books : BookStore) (t : StalenessThresholds) (p : Pipe) (entries : list (OpportunityId * CachedMarketScanEntry)) (now : Time)
    : Pipe * list ScoredOpportunity :=
  let '(p, found) := scan_entries view books t p entries now in (p, sort_desc found).

(** What an emitted opportunity went through. *)
Definition vetted (view : SystemView) (books : BookStore) (t : StalenessThresholds) (p : Pipe) (entry : CachedMarketScanEntry) (now : Time) (so : ScoredOpportunity) : Prop :=
  cr_ready (sv_catalog view) = true /\ sv_allows_detection view = true /\ opp_market_id (opportunity so) = ce_market_id entry /\
  exists legs, load_pair books (ce_token_yes entry) (ce_token_no entry) = Some legs /\ gate_pass legs (clock_ms now) (th_acceptable t) = true /\
    emission_sound p (sv_published view) (scan_input entry legs (classify_staleness t (max_staleness_ms (pair_view legs) (clock_ms now)))) now so.

Lemma process_ref_market (p : Pipe) snapshot id input now p' so : process_ref p snapshot id input now = (p', Ok so) ->
  opp_market_id (opportunity so) = si_market_id input.
Proof.
  intros E. apply process_ref_ok in E as (_ & _ & _ & dir & d & opp & p1 & _ & Ho & Hg & _).
  apply detect_ok in Ho as (deadline & walk & Ho). simpl in Ho. destruct (update_and_get _ _ _ _). destruct Ho as (_ & _ & _ & _ & _ & _ & ->).
  apply gate_and_score_ok in Hg as (expected & prob & -> & _). done.
Qed.

Lemma scan_market_vetted view books t (p : Pipe) id entry now p' so :
  scan_market view books t p id entry now = (p', Ok so) -> vetted view books t p entry now so.
Proof.
  unfold scan_market, vetted. destruct (cr_ready _); [|done]. destruct (sv_allows_detection view); [|done]. cbn [negb].
  destruct (load_pair _ _ _) as [legs|]; [|done]. destruct (gate_pass _ _ _) eqn:Eg; [|done]. cbn [negb]. intros E.
  split_and!; [done | done | by apply process_ref_market in E|]. exists legs. split_and!; [done | done|]. by eapply process_ref_emission.
Qed.
End Scan.

(** ** The detection side of the process *)

Section System.
Context {DO : DecimalOps} {U : Uint256} {SH : Sharding} {CC CE : Type} {MC : MarketCache CC CooldownEntry} {ME : MarketCache CE ConvergenceEntry}.
Abbreviation Pipe := (OpportunityPipeline (CC := CC) (CE := CE)).

Record DetectionSystem := {
  dt_view : SystemView;
  dt_data : DataPipeline;
  dt_coalescer : Coalescer;
  dt_cache : MarketScanCache;
  dt_thresholds : StalenessThresholds;
  dt_pipeline : Pipe;
  dt_funnel : Funnel;
  dt_immediate : D
}.

Definition with_view s view : DetectionSystem := {| dt_view := view; dt_data := dt_data s; dt_coalescer := dt_coalescer s; dt_cache := dt_cache s;
  dt_thresholds := dt_thresholds s; dt_pipeline := dt_pipeline s; dt_funnel := dt_funnel s; dt_immediate := dt_immediate s |}.
Definition with_data s data coalescer : DetectionSystem := {| dt_view := dt_view s; dt_data := data; dt_coalescer := coalescer; dt_cache := dt_cache s;
  dt_thresholds := dt_thresholds s; dt_pipeline := dt_pipeline s; dt_funnel := dt_funnel s; dt_immediate := dt_immediate s |}.
Definition with_config s cache thresholds immediate : DetectionSystem := {| dt_view := dt_view s; dt_data := dt_data s; dt_coalescer := dt_coalescer s; dt_cache := cache;
  dt_thresholds := thresholds; dt_pipeline := dt_pipeline s; dt_funnel := dt_funnel s; dt_immediate := immediate |}.
Definition with_scan s pipeline funnel : DetectionSystem := {| dt_view := dt_view s; dt_data := dt_data s; dt_coalescer := dt_coalescer s; dt_cache := dt_cache s;
  dt_thresholds := dt_thresholds s; dt_pipeline := pipeline; dt_funnel := funnel; dt_immediate := dt_immediate s |}.

Definition view_ws_breaker (v : SystemView) ws breaker : SystemView := {|
  sv_catalog := sv_catalog v; sv_ws := ws; sv_breaker := breaker; sv_mode := sv_mode v; sv_published := sv_published v;
  sv_unhealthy := sv_unhealthy v; sv_allows_detection := sv_allows_detection v |}.
Definition view_inputs (v : SystemView) catalog mode published : SystemView := {|
  sv_catalog := catalog; sv_ws := sv_ws v; sv_breaker := sv_breaker v; sv_mode := mode; sv_published := published;
  sv_unhealthy := sv_unhealthy v; sv_allows_detection := sv_allows_detection v |}.

(** An opportunity emitted by a scan, with what the scan read. *)
Record Emission := { em_system : DetectionSystem; em_entry : CachedMarketScanEntry; em_now : Time; em_scored : ScoredOpportunity }.

(** [core/detection/scanner_task.rs:77-88] `ScannerTask::scan_market`, where an opportunity goes *)
Definition dispatch_scored (f : Funnel) (immediate : D) (scored : ScoredOpportunity) (now : Time) : Funnel :=
  let threshold := ok_or (try_from_decimal immediate) 0 in
  if threshold <=? so_score scored
  then match try_dispatch_immediate f scored with (f, true) => f | (f, false) => funnel_submit f scored now end
  else funnel_submit f scored now.

(** [core/detection/scanner_task.rs:70-89] `ScannerTask::scan_market` *)
Definition task_scan (s : DetectionSystem) (market_id : MarketId) (id : OpportunityId) (now : Time) : DetectionSystem * option Emission :=
  match cache_get (dt_cache s) market_id with
  | None => (s, None)
  | Some entry =>
      let '(pipeline, r) := scan_market (dt_view s) (dp_books (dt_data s)) (dt_thresholds s) (dt_pipeline s) id entry now in
      match r with
      | Err _ => (with_scan s pipeline (dt_funnel s), None)
      | Ok scored => (with_scan s pipeline (dispatch_scored (dt_funnel s) (dt_immediate s) scored now),
                      Some {| em_system := s; em_entry := entry; em_now := now; em_scored := scored |})
      end
  end.

(** What happens around detection: the feed, the workers, the coalescer and the scanner take
    their next item; the sweep ticks and sends; a runner takes or stops; the status is published, the breaker ticks,
    health is checked; the catalog, the factors, the mode, the cache and the configuration change. *)
Inductive DetStep :=
| DsFeed (e : FeedEvent)
| DsReceive
| DsApply (worker : nat)
| DsNotify
| DsFlush
| DsScan (id : OpportunityId)
| DsSweep | DsSend | DsTake (shard : nat) | DsClose (shard : nat)
| DsPublish | DsBreakerTick | DsCheck (probes : Probes)
| DsInputs (catalog : CatalogReadiness) (mode : ExecutionMode) (published : ControlFactorSnapshot)
| DsRegistry (registry : MarketRegistry) (universe : CategorySet)
| DsReload (config : DetectionConfig) (thresholds : StalenessThresholds) (immediate : D) (coalesce_window_ms : Z) (max_queue_size : nat).

Definition only (s : DetectionSystem) : DetectionSystem * option Emission * option (nat * ScoredOpportunity) := (s, None, None).
Definition set_funnel s funnel : DetectionSystem := with_scan s (dt_pipeline s) funnel.

(** One step; also what a scan emitted and what a runner took. *)
Definition det_step (s : DetectionSystem) (now : Time) (x : DetStep) : DetectionSystem * option Emission * option (nat * ScoredOpportunity) :=
  let v := dt_view s in
  match x with
  | DsFeed e => only (with_view s (view_ws_breaker v (feed_step (sv_ws v) (now, e)) (sv_breaker v)))
  | DsReceive =>
      match wm_output (sv_ws v) with
      | [] => only s
      | e :: _ => only (with_view (with_data s (receive (dt_data s) e).1 (dt_coalescer s)) (view_ws_breaker v (feed_step (sv_ws v) (now, FeReceive)) (sv_breaker v)))
      end
  | DsApply i => only (with_data s (worker_turn (dt_data s) i now) (dt_coalescer s))
  | DsNotify =>
      let d := dt_data s in
      match dp_coalescer_tx d with
      | [] => only s
      | token :: rest => only (with_data s (set_outputs d rest (dp_coalescer_dedup d) (dp_settlement_tx d)) (notify_token_update (dt_coalescer s) (dp_registry d) token now).1)
      end
  | DsFlush => only (with_data s (dt_data s) (flush_expired (dt_coalescer s) now).1)
  | DsScan id =>
      match cl_tx (dt_coalescer s) with
      | [] => only s
      | market :: _ =>
          let '(s, e) := task_scan (with_data s (dt_data s) (coalescer_step (dt_coalescer s) now CoScannerTakes).1) market id now in (s, e, None)
      end
  | DsSweep => only (set_funnel s (sweep_tick (dt_funnel s)))
  | DsSend => only (set_funnel s (sweep_send (dt_funnel s) now))
  | DsTake i => let '(f, taken) := shard_take (dt_funnel s) i in (set_funnel s f, None, pair i <$> taken)
  | DsClose i => only (set_funnel s (shard_close (dt_funnel s) i))
  | DsPublish => only (with_view s (publish_now v now))
  | DsBreakerTick => only (with_view s (view_ws_breaker v (sv_ws v) (tick (sv_breaker v) now).1))
  | DsCheck probes => only (with_view s (check_all v probes now).1)
  | DsInputs catalog mode published => only (with_view s (view_inputs v catalog mode published))
  | DsRegistry registry universe =>
      let d := dt_data s in
      let d := {| dp_books := dp_books d; dp_registry := registry; dp_shards := dp_shards d; dp_capacity := dp_capacity d; dp_coalescer_tx := dp_coalescer_tx d;
                  dp_coalescer_capacity := dp_coalescer_capacity d; dp_coalescer_dedup := dp_coalescer_dedup d; dp_settlement_tx := dp_settlement_tx d;
                  dp_settlement_capacity := dp_settlement_capacity d; dp_market_data_nudged := dp_market_data_nudged d |} in
      only (with_config (with_data s d (dt_coalescer s)) (rebuild_cache registry universe now) (dt_thresholds s) (dt_immediate s))
  | DsReload config thresholds immediate window max =>
      only (with_scan (with_config (with_data s (dt_data s) (coalescer_reload (dt_coalescer s) window)) (dt_cache s) thresholds immediate)
              (pipeline_reload (dt_pipeline s) config) (funnel_reload (dt_funnel s) max))
  end.

(** A run: the emissions and the opportunities taken by the runners, in order. *)
Fixpoint det_run (s : DetectionSystem) (steps : list (Time * DetStep)) : DetectionSystem * list Emission * list (nat * ScoredOpportunity) :=
  match steps with
  | [] => (s, [], [])
  | (now, x) :: steps =>
      let '(s1, e, t) := det_step s now x in
      let '(s2, es, ts) := det_run s1 steps in (s2, option_list e ++ es, option_list t ++ ts)
  end.
End System.

(** ** Opportunities on their way *)

Section Flow.
Context {DO : DecimalOps} {SH : Sharding}.
Abbreviation Queue := (FunnelQueue (A := ScoredOpportunity)).

Lemma queued_of_sub (q q' : Queue) : fq_entries q' ⊆ fq_entries q -> queued q' ⊆+ queued q.
Proof. intros H. unfold queued. apply fmap_submseteq, fmap_submseteq. by apply map_to_list_submseteq. Qed.

Lemma queued_insert (q q' : Queue) id e : fq_entries q !! id = None -> fq_entries q' = <[id := e]> (fq_entries q) -> queued q' ≡ₚ se_scored e :: queued q.
Proof. intros H E. unfold queued. by rewrite E, map_to_list_insert. Qed.

Lemma queued_delete (q q' : Queue) id e : fq_entries q !! id = Some e -> fq_entries q' = delete id (fq_entries q) -> queued q ≡ₚ se_scored e :: queued q'.
Proof. intros H E. unfold queued. by rewrite E, <- (map_to_list_delete (fq_entries q) id e H). Qed.

Lemma evict_min_sub (q : Queue) : fq_entries (evict_min q).1 ⊆ fq_entries q.
Proof. unfold evict_min. destruct (pop_live _ _ _ _) as [rest [[key e]|]]; cbn; [apply delete_subseteq | done]. Qed.

Lemma evict_down_sub fuel : forall (q : Queue) k, fq_entries (evict_down fuel q k).1 ⊆ fq_entries q.
Proof.
  induction fuel as [|fuel IH]; intros q k; cbn [evict_down]; [done|]. destruct (_ <? _)%nat; [|done].
  pose proof (evict_min_sub q) as H. destruct (evict_min q) as [q' []]; [|done]. etrans; [apply IH | exact H].
Qed.

Lemma queue_submit_queued (q : Queue) so now : queue_ok so_score q -> queued (queue_submit q so (so_score so) now).1 ⊆+ so :: queued q.
Proof.
  intros Hq. assert (forall q1 : Queue, queue_ok so_score q1 -> queued (queue_insert q1 so (so_score so) now) ⊆+ so :: queued q1) as Hins.
  { intros q1 H1. rewrite (queued_insert q1 (queue_insert q1 so (so_score so) now) (fq_next_id q1) {| se_received_at := now; se_scored := so |}); [done | |done].
    destruct (fq_entries q1 !! fq_next_id q1) eqn:E; [|done]. apply (qk_next _ _ H1) in E. lia. }
  unfold queue_submit. destruct (_ <=? _)%nat; [|by apply Hins].
  pose proof (peek_min_spec so_score q Hq) as Hp. destruct (peek_min_score q) as [q1 m]. destruct Hp as (Hq1 & He & _).
  assert (queued q1 ⊆+ queued q) as Hsub by (apply queued_of_sub; by rewrite He).
  destruct m as [m|]; [destruct (_ <=? m)|]; cbn [fst]; try (by apply submseteq_cons).
  etrans; [apply Hins, evict_min_ok, Hq1|]. apply submseteq_skip. etrans; [apply queued_of_sub, evict_min_sub | done].
Qed.

Record funnel_ok (n : nat) (f : Funnel) : Prop := {
  fk_queue : queue_ok so_score (fn_queue f);
  fk_shards : length (fn_shards f) = n;
  fk_routes : forall i channel so, fn_shards f !! i = Some channel -> so ∈ hc_items channel -> shard_index (opp_market_id (opportunity so)) n = i
}.

Lemma new_funnel_ok n max cap : funnel_ok n (new_funnel n max cap).
Proof.
  split; cbn; [exact (queue_run_ok so_score max []) | apply length_replicate|].
  intros i channel so [-> _]%lookup_replicate H. by apply elem_of_nil in H.
Qed.

Lemma new_funnel_held n max cap : held (new_funnel n max cap) = [].
Proof.
  unfold held, queued. cbn. rewrite map_to_list_empty, app_nil_r. cbn. induction n as [|k IH]; [done | exact IH].
Qed.

Lemma queue_frame n f q : funnel_ok n f -> queue_ok so_score q -> funnel_ok n (set_queue f q).
Proof. intros [H1 H2 H3] Hq. by split. Qed.

Lemma submit_ok n f so now : funnel_ok n f -> funnel_ok n (funnel_submit f so now).
Proof. intros H. apply queue_frame; [done|]. apply queue_submit_ok, H. Qed.

Lemma try_send_ok n f so f' : funnel_ok n f -> try_send f so = Some f' -> funnel_ok n f'.
Proof.
  intros [H1 H2 H3] E. unfold try_send in E. destruct (fn_shards f !! shard_of f so) as [ch|] eqn:Ec; [|done]. cbn in E.
  destruct (hc_open ch && _); [|done]. injection E as <-. split; cbn; [done | by rewrite length_insert|].
  intros i channel x Hi Hx. apply list_lookup_insert_Some in Hi as [(<- & <- & _)|[_ Hi]]; [|by eapply H3].
  cbn in Hx. apply elem_of_app in Hx as [Hx|Hx%list_elem_of_singleton]; [by eapply H3|]. subst x. unfold shard_of. by rewrite H2.
Qed.

(** Sending moves the opportunity into a channel. *)
Lemma concat_insert {A} (l : list (list A)) i x y : l !! i = Some x -> concat (<[i := x ++ y]> l) ≡ₚ y ++ concat l.
Proof.
  revert i. induction l as [|z l IH]; intros [|i] H; cbn in *; [done..| |].
  - injection H as ->. rewrite <- app_assoc, (Permutation_app_comm x), <- !app_assoc. apply Permutation_app_head, Permutation_app_comm.
  - rewrite (IH _ H). rewrite !app_assoc. apply Permutation_app_tail, Permutation_app_comm.
Qed.

Lemma try_send_held f so f' : try_send f so = Some f' -> held f' ≡ₚ so :: held f.
Proof.
  intros E. unfold try_send in E. destruct (fn_shards f !! shard_of f so) as [ch|] eqn:Ec; [|done]. cbn in E.
  destruct (hc_open ch && _); [|done]. injection E as <-. unfold held. cbn. rewrite list_fmap_insert. cbn.
  rewrite (concat_insert _ _ (hc_items ch) [so]); [done|]. by rewrite list_lookup_fmap, Ec.
Qed.

Lemma submit_held n f so now : funnel_ok n f -> held (funnel_submit f so now) ⊆+ so :: held f.
Proof.
  intros H. unfold held, funnel_submit. cbn. rewrite !app_assoc. etrans; [apply submseteq_app; [done | apply queue_submit_queued, H]|].
  by rewrite <- Permutation_middle.
Qed.

Lemma dispatch_ok n f immediate so now : funnel_ok n f ->
  funnel_ok n (dispatch_scored f immediate so now) /\ held (dispatch_scored f immediate so now) ⊆+ so :: held f.
Proof.
  intros H. unfold dispatch_scored, try_dispatch_immediate. destruct (_ <=? _); [|split; [by apply submit_ok | by eapply submit_held]].
  destruct (try_send f so) as [f'|] eqn:E; [|split; [by apply submit_ok | by eapply submit_held]].
  split; [by eapply try_send_ok | by rewrite (try_send_held _ _ _ E)].
Qed.

Lemma sweep_tick_ok n f : funnel_ok n f -> funnel_ok n (sweep_tick f) /\ held (sweep_tick f) ≡ₚ held f.
Proof.
  intros [H1 H2 H3]. unfold sweep_tick. destruct (fn_sending f) eqn:Es; [done|].
  pose proof (pop_best_spec so_score _ H1) as Hp. destruct (pop_best (fn_queue f)) as [q [e|]] eqn:Eq; destruct Hp as [Hq Hp].
  - split; [by split|]. destruct Hp as (id & [He _] & Hd). unfold held. cbn. rewrite Es. cbn. by rewrite (queued_delete _ q id e He Hd).
  - split; [by split|]. unfold held. cbn. rewrite Es. cbn. apply Permutation_app_head.
    unfold pop_best in Eq. destruct (pop_live _ _ _ _) as [rest [[key e]|]]; [done|]. by injection Eq as <-.
Qed.

Lemma set_sending_held f x : held (set_sending f x) ≡ₚ option_list x ++ concat (hc_items <$> fn_shards f) ++ queued (fn_queue f).
Proof. unfold held. cbn. rewrite !app_assoc. apply Permutation_app_tail, Permutation_app_comm. Qed.

Lemma sweep_send_ok n f now : funnel_ok n f -> funnel_ok n (sweep_send f now) /\ held (sweep_send f now) ⊆+ held f.
Proof.
  intros H. unfold sweep_send. destruct (fn_sending f) as [so|] eqn:Es; [|done].
  assert (held f ≡ₚ so :: concat (hc_items <$> fn_shards f) ++ queued (fn_queue f)) as Hh
    by (unfold held; rewrite Es; cbn; by rewrite Permutation_middle).
  destruct (fn_shards f !! shard_of f so) as [ch|]; [|done]. destruct (hc_open ch).
  - destruct (try_send f so) as [f'|] eqn:E; [|done]. pose proof (try_send_ok _ _ _ _ H E) as H'. pose proof E as E'.
    unfold try_send in E. destruct (fn_shards f !! shard_of f so) as [c|] eqn:Ec; [|done]. cbn in E. destruct (hc_open c && _); [|done]. injection E as <-.
    split; [destruct H' as [K1 K2 K3]; by split|]. rewrite set_sending_held, Hh. cbn. rewrite list_fmap_insert. cbn.
    rewrite (concat_insert _ _ (hc_items c) [so]); [done|]. by rewrite list_lookup_fmap, Ec.
  - set (f1 := evict_lowest_from_queue (set_sending f None)).
    assert (funnel_ok n f1) as H1 by (apply queue_frame; [destruct H; by split | apply evict_min_ok, H]).
    assert (so :: held f1 ⊆+ held f) as Hs.
    { rewrite Hh. apply submseteq_skip. unfold held, f1, evict_lowest_from_queue. cbn. apply submseteq_app; [done|]. apply queued_of_sub, evict_min_sub. }
    destruct (try_send f1 so) as [f2|] eqn:E.
    + split; [by eapply try_send_ok | by rewrite (try_send_held _ _ _ E)].
    + split; [by apply submit_ok|]. etrans; [by eapply submit_held | done].
Qed.

Lemma shard_take_ok n f i : funnel_ok n f -> let '(f', taken) := shard_take f i in
  funnel_ok n f' /\ held f ≡ₚ option_list taken ++ held f' /\ Forall (fun so => shard_index (opp_market_id (opportunity so)) n = i) (option_list taken).
Proof.
  intros [H1 H2 H3]. unfold shard_take. destruct (fn_shards f !! i) as [[[|so rest] []]|] eqn:E; try done.
  split_and!; [|unfold held; cbn; rewrite list_fmap_insert; cbn|].
  - split; cbn; [done | by rewrite length_insert|]. intros j ch x Hj Hx. apply list_lookup_insert_Some in Hj as [(<- & <- & _)|[_ Hj]]; [|by eapply H3].
    eapply H3; [exact E|]. by right.
  - rewrite app_comm_cons. apply Permutation_app_tail.
    pose proof (concat_insert (<[i := rest]> (hc_items <$> fn_shards f)) i rest [so]) as Hc. rewrite list_insert_insert_eq in Hc.
    rewrite <- Hc by (apply list_lookup_insert_eq; rewrite length_fmap; by eapply lookup_lt_Some).
    clear Hc H1 H2 H3. revert i E. induction (fn_shards f) as [|c l IH]; intros [|i] E; cbn in *; [done..| |].
    + injection E as ->. cbn. rewrite <- Permutation_cons_append. done.
    + apply Permutation_app_head, IH, E.
  - constructor; [|constructor]. eapply H3; [exact E | left].
Qed.

Lemma shard_close_ok n f i : funnel_ok n f -> funnel_ok n (shard_close f i) /\ held (shard_close f i) = held f.
Proof.
  intros [H1 H2 H3]. split.
  - split; cbn; [done | by rewrite length_alter|]. intros j ch x Hj Hx. destruct (decide (i = j)) as [<-|Hne].
    + rewrite list_lookup_alter_eq in Hj. destruct (fn_shards f !! i) as [c|] eqn:E; [|done]. injection Hj as <-. by eapply H3.
    + rewrite list_lookup_alter_ne in Hj by done. by eapply H3.
  - unfold held, shard_close. cbn. f_equal. clear H1 H2 H3. f_equal. revert i. induction (fn_shards f) as [|c l IH]; intros [|i]; cbn; [done..|]. by rewrite IH.
Qed.

Lemma reload_ok n f max : funnel_ok n f -> funnel_ok n (funnel_reload f max) /\ held (funnel_reload f max) ⊆+ held f.
Proof.
  intros [H1 H2 H3]. split.
  - apply queue_frame; [by split|]. destruct H1. unfold set_max_size. by apply evict_down_ok.
  - unfold held, funnel_reload. cbn. apply submseteq_app; [done|]. apply submseteq_app; [done|]. apply queued_of_sub. apply (evict_down_sub _ {| fq_entries := _ |}).
Qed.
End Flow.

Section Runs.
Context {DO : DecimalOps} {U : Uint256} {SH : Sharding} {CC CE : Type} {MC : MarketCache CC CooldownEntry} {ME : MarketCache CE ConvergenceEntry}.
Abbreviation System := (DetectionSystem (CC := CC) (CE := CE)).

Definition emission_vetted (e : Emission (CC := CC) (CE := CE)) : Prop :=
  let s := em_system e in
  vetted (dt_view s) (dp_books (dt_data s)) (dt_thresholds s) (dt_pipeline s) (em_entry e) (em_now e) (em_scored e).
Definition routed (n : nat) (x : nat * ScoredOpportunity) : Prop := shard_index (opp_market_id (opportunity x.2)) n = x.1.

Lemma task_scan_ok n (s : System) market id now : funnel_ok n (dt_funnel s) ->
  let '(s', e) := task_scan s market id now in
  funnel_ok n (dt_funnel s') /\ held (dt_funnel s') ⊆+ (em_scored <$> option_list e) ++ held (dt_funnel s) /\ Forall emission_vetted (option_list e).
Proof.
  intros H. unfold task_scan. destruct (cache_get _ _) as [entry|]; [|by split_and!].
  destruct (scan_market _ _ _ _ _ _ _) as [p [so|]] eqn:E; [|by split_and!].
  destruct (dispatch_ok n (dt_funnel s) (dt_immediate s) so now H) as [H1 H2]. split_and!; [done | done|].
  constructor; [|constructor]. by eapply scan_market_vetted.
Qed.

Lemma det_step_ok n (s : System) now x : funnel_ok n (dt_funnel s) ->
  let '(s', e, t) := det_step s now x in
  funnel_ok n (dt_funnel s') /\ (option_list t).*2 ++ held (dt_funnel s') ⊆+ (em_scored <$> option_list e) ++ held (dt_funnel s) /\
  Forall (routed n) (option_list t) /\ Forall emission_vetted (option_list e).
Proof.
  intros H. destruct x; cbn [det_step only]; try (by split_and!).
  - destruct (wm_output _); by split_and!.
  - destruct (dp_coalescer_tx _); by split_and!.
  - destruct (cl_tx _) as [|market rest]; [by split_and!|].
    set (s1 := with_data s _ _). pose proof (task_scan_ok n s1 market id now H) as Ht. destruct (task_scan s1 market id now) as [s2 e]. destruct Ht as (H1 & H2 & H3).
    split_and!; [done | exact H2 | constructor | done].
  - destruct (sweep_tick_ok n _ H) as [H1 H2]. split_and!; [done | cbn -[held]; by rewrite H2 | constructor | constructor].
  - destruct (sweep_send_ok n _ now H) as [H1 H2]. split_and!; [done | exact H2 | constructor | constructor].
  - pose proof (shard_take_ok n _ shard H) as Ht. destruct (shard_take _ _) as [f [so|]]; destruct Ht as (H1 & H2 & H3); cbn in *.
    + apply Forall_cons in H3 as [H3 _]. split_and!; [done | by rewrite H2 | by repeat constructor | constructor].
    + split_and!; [done | by rewrite H2 | constructor | constructor].
  - destruct (shard_close_ok n _ shard H) as [H1 H2]. split_and!; [done | cbn -[held]; by rewrite H2 | constructor | constructor].
  - destruct (reload_ok n _ max_queue_size H) as [H1 H2]. split_and!; [done | exact H2 | constructor | constructor].
Qed.

Lemma det_run_ok n steps : forall s : System, funnel_ok n (dt_funnel s) ->
  let '(s', es, ts) := det_run s steps in
  funnel_ok n (dt_funnel s') /\ ts.*2 ++ held (dt_funnel s') ⊆+ (em_scored <$> es) ++ held (dt_funnel s) /\ Forall (routed n) ts /\ Forall emission_vetted es.
Proof.
  induction steps as [|[now x] steps IH]; intros s H; cbn [det_run]; [by split_and!|].
  pose proof (det_step_ok n s now x H) as Hs. destruct (det_step s now x) as [[s1 e] t]. destruct Hs as (H1 & H2 & H3 & H4).
  specialize (IH s1 H1). destruct (det_run s1 steps) as [[s2 es] ts]. destruct IH as (K1 & K2 & K3 & K4).
  split_and!; [done | | by apply Forall_app | by apply Forall_app].
  rewrite !fmap_app, <- !app_assoc. etrans; [apply submseteq_app; [reflexivity | exact K2]|].
  rewrite (Permutation_app_swap_app (option_list t).*2), (Permutation_app_swap_app (em_scored <$> option_list e)). by apply submseteq_app.
Qed.


(** *** A half-open breaker waits for probes that never come *)

Definition half_open (v : SystemView) (b : BreakerState) : Prop := cb_state (sv_breaker v) = b /\ to_name b = NHalfOpen /\ sv_allows_detection v = false.

Lemma publish_half_open v b now : half_open v b -> half_open (publish_now v now) b.
Proof.
  intros (H1 & H2 & H3). split_and!; [done..|]. unfold publish_now, phase_of. cbn [update_from_phase sv_allows_detection].
  destruct (allows_detection _) eqn:E; [|done]. apply operational_iff in E as (_ & _ & [E|E] & _); cbn in E; congruence.
Qed.

Lemma scan_half_open view books t (p : OpportunityPipeline (CC := CC) (CE := CE)) id entry now b : half_open view b ->
  exists reason, scan_market view books t p id entry now = (p, Err reason).
Proof. intros (_ & _ & H). unfold scan_market. rewrite H. destruct (negb (cr_ready _)); by eexists. Qed.

Lemma step_half_open (s : System) b now x : half_open (dt_view s) b -> let '(s', e, _) := det_step s now x in half_open (dt_view s') b /\ e = None.
Proof.
  intros H. destruct x; cbn [det_step only]; try done.
  - by destruct (wm_output _).
  - by destruct (dp_coalescer_tx _).
  - destruct (cl_tx _) as [|market rest]; [done|]. unfold task_scan. cbn [dt_cache with_data]. destruct (cache_get _ _) as [entry|]; [|done].
    pose proof (scan_half_open (dt_view s) (dp_books (dt_data s)) (dt_thresholds s) (dt_pipeline s) id entry now b H) as [r E].
    cbn [dt_view dt_data dt_thresholds dt_pipeline with_data]. by rewrite E.
  - by destruct (shard_take _ _).
  - split; [|done]. by apply publish_half_open.
  - split; [|done]. destruct H as (H1 & H2 & H3). split_and!; [|done|done]. cbn. unfold tick. rewrite H1. by destruct b.
Qed.

Lemma run_half_open steps : forall (s : System) b, half_open (dt_view s) b -> let '(s', es, _) := det_run s steps in half_open (dt_view s') b /\ es = [].
Proof.
  induction steps as [|[now x] steps IH]; intros s b H; cbn [det_run]; [done|].
  pose proof (step_half_open s b now x H) as Hs. destruct (det_step s now x) as [[s1 e] t]. destruct Hs as [H1 ->].
  specialize (IH s1 b H1). by destruct (det_run s1 steps) as [[s2 es] ts].
Qed.

(** C22: The breaker leaves the half-open state on the result of a probe trade, and detection is
    allowed only while the published phase is operational, which a half-open breaker prevents.  So
    once the breaker is half-open, the status was published and the funnel is empty, no probe
    ever comes: as long as no operator, failure or trade still in flight intervenes, no opportunity is emitted, no runner
    receives one, and the breaker stays as it is, whatever the feed, the catalog, the configuration,
    the timers and the health checks do. *)
Theorem half_open_starves (s : System) n max capacity before after b :
  let start := (det_run (set_funnel s (new_funnel n max capacity)) before).1.1 in
  half_open (dt_view start) b -> held (dt_funnel start) = [] ->
  let '(s', emitted, received) := det_run start after in
  emitted = [] /\ received = [] /\ cb_state (sv_breaker (dt_view s')) = b /\ sv_allows_detection (dt_view s') = false.
Proof.
  intros start Hb He. pose proof (det_run_ok n before (set_funnel s (new_funnel n max capacity)) (new_funnel_ok n max capacity)) as Hok.
  assert (funnel_ok n (dt_funnel start)) as Hf by (unfold start; destruct (det_run _ before) as [[? ?] ?]; apply Hok).
  pose proof (run_half_open after start b Hb) as H. pose proof (det_run_ok n after start Hf) as Hr.
  destruct (det_run start after) as [[s' es] ts]. destruct H as [(H1 & _ & H3) ->], Hr as (_ & Hr & _).
  rewrite He in Hr. cbn in Hr. apply submseteq_nil_r in Hr. apply app_eq_nil in Hr as [Hr _]. split_and!; [done | by destruct ts | done | done].
Qed.
End Runs.

(** ** Examples *)
Module ScannerDemo.
#[local] Existing Instance ExactQ.exactQ.
#[local] Instance texts : Uint256 := {| u256_to_string := fun z => pretty z; u256_from_str := fun _ => Some 0; b256_hex := fun z => pretty z |}.
#[local] Instance sharding : Sharding := {| hash_one := fun id => Z.of_nat (String.length id) |}.
Abbreviation System := (DetectionSystem (DO := ExactQ.exactQ) (CC := LivingMap CooldownEntry) (CE := LivingMap ConvergenceEntry)).

Definition now : Time := OpportunityDemo.back.
Definition book (token : TokenId) (bid ask : MicroPrice) : TokenBookState := {|
  tb_live := new_order_book token; tb_version := 1;
  tb_published := new_book_snapshot [ {| lv_price := bid; lv_size := 2000000000 |} ] [ {| lv_price := ask; lv_size := 2000000000 |} ] 400000 1 |}.

Definition entry : CachedMarketScanEntry := {|
  ce_market_id := "m"; ce_event_id := "e"; ce_token_yes := "yes"; ce_token_no := "no"; ce_categories := cat_from_list [Sports]; ce_fee_category := Sports;
  ce_tick_size := Hundredth; ce_neg_risk := false; ce_settlement_deadline := Some (10 * 3600 * nanos_per_sec) |}.

Definition view (breaker : CircuitBreaker) (allows : bool) : SystemView := {|
  sv_catalog := mark_ready new_catalog_readiness 1 0; sv_ws := new_ws_manager 2; sv_breaker := breaker; sv_mode := DryRun;
  sv_published := snapshot_neutral 0; sv_unhealthy := []; sv_allows_detection := allows |}.

(** One market in the books and the cache, with a trigger waiting. *)
Definition system (breaker : CircuitBreaker) (allows : bool) : System := {|
  dt_view := view breaker allows;
  dt_data := set_books (new_data_pipeline new_registry 1 8 8 8) (<["yes" := book "yes" 950000 955000]> (<["no" := book "no" 35000 40000]> ∅));
  dt_coalescer := emit_market (emit_market (new_coalescer 10 8) "m") "m";
  dt_cache := {| sc_entries := [entry]; sc_index := {["m" := entry]} |};
  dt_thresholds := {| th_fresh := 100; th_acceptable := 1000; th_stale := 5000; th_expired := 10000 |};
  dt_pipeline := OpportunityDemo.returned;
  dt_funnel := new_funnel 0 0 0;
  dt_immediate := (1#2)%Q |}.

(** A scan emits; the opportunity goes to the shard of its market, and its runner receives it. *)
Lemma an_opportunity_is_received :
  let '(_, emitted, received) := det_run (set_funnel (system (cb_new CircuitBreakerConfig_default 0) true) (new_funnel 3 8 8)) [(now, DsScan 7); (now, DsTake 1)] in
  (fun x => (x.1, opportunity_id (opportunity x.2))) <$> received = [(1%nat, 7)] /\ length emitted = 1%nat.
Proof. vm_compute. split; reflexivity. Qed.

(** The cooldown of a tripped breaker is over; the next tick makes it half-open and the status says so. *)
Definition tripped : CircuitBreaker := set_state (cb_new CircuitBreakerConfig_default 0) (Open Trade "loss" 0 nanos_per_sec) 0.
Definition before : list (Time * DetStep) := [(now, DsBreakerTick); (now, DsPublish)].
Definition start : System := (det_run (set_funnel (system tripped false) (new_funnel 3 8 8)) before).1.1.

Lemma start_half_open : half_open (dt_view start) (HalfOpen Trade now 0 (half_open_probes CircuitBreakerConfig_default)).
Proof. split_and!; vm_compute; reflexivity. Qed.
Lemma start_holds_nothing : held (dt_funnel start) = [].
Proof. vm_compute. reflexivity. Qed.

Lemma half_open_starves_witness :
  let '(_, emitted, received) := det_run start [(now, DsScan 7); (now, DsTake 1); (now + nanos_per_sec, DsPublish)] in emitted = [] /\ received = [].
Proof.
  pose proof (half_open_starves (system tripped false) 3 8 8 before [(now, DsScan 7); (now, DsTake 1); (now + nanos_per_sec, DsPublish)]
    (HalfOpen Trade now 0 (half_open_probes CircuitBreakerConfig_default)) start_half_open start_holds_nothing) as H.
  fold start in H. destruct (det_run start _) as [[s' es] ts]. destruct H as (H1 & H2 & _). exact (conj H1 H2).
Defined.
End ScannerDemo.
