(* ===== verification/BookReplay.v ===== *)
(** * Replay of order books for evidence: [oxide-arb-control/src/evidence/book.rs]

    The books of a materialization window are rebuilt from the last snapshot before it and the
    recorded changes inside it; evidence stages then ask for the book of a market at a decision
    time.  Also the gate that turns coverage and metrics into the status of an evidence stage
    ([evidence/gate.rs], [evidence/engine.rs]).  Rows come from the time-series store; the JSON of a
    snapshot's levels and the calendar's range are decoded by libraries and are parameters. *)

From stdpp Require Import sorting.
From S2P Require Import Prelude Decimal Micro Config Domain Book OrderBook.

(** ** Sorting by a key *)

Section SortBy.
Context {A : Type} (leb : A -> A -> bool).

(** [sort_by]: stable, so insertion sort gives the same list. *)
Fixpoint insert_by (x : A) (l : list A) : list A :=
  match l with
  | [] => [x]
  | y :: ys => if leb x y then x :: l else y :: insert_by x ys
  end.
Definition sort_by (l : list A) : list A := foldr insert_by [] l.

Lemma insert_by_perm x l : insert_by x l ≡ₚ x :: l.
Proof. induction l as [|y l IH]; [done|]. cbn. destruct (leb x y); [done|]. rewrite IH. constructor. Qed.

Lemma sort_by_perm l : sort_by l ≡ₚ l.
Proof. induction l as [|x l IH]; [done|]. cbn. by rewrite insert_by_perm, IH. Qed.

Context (leb_total : forall x y, leb x y = true \/ leb y x = true).
Context (leb_trans : forall x y z, leb x y = true -> leb y z = true -> leb x z = true).

Lemma insert_by_sorted x l : StronglySorted (fun a b => leb a b = true) l -> StronglySorted (fun a b => leb a b = true) (insert_by x l).
Proof.
  induction l as [|y l IH]; intros H; cbn; [repeat constructor|]. apply StronglySorted_inv in H as [Hs Hy]. destruct (leb x y) eqn:E.
  - constructor; [by constructor|]. constructor; [done|]. eapply Forall_impl; [exact Hy|]. intros z. by apply leb_trans.
  - constructor; [by apply IH|]. rewrite insert_by_perm. constructor; [|done]. destruct (leb_total x y); congruence.
Qed.

Lemma sort_by_sorted l : StronglySorted (fun a b => leb a b = true) (sort_by l).
Proof. induction l as [|x l IH]; [constructor|]. by apply insert_by_sorted. Qed.
End SortBy.

(** ** Stages *)

(** [models/enums/control_factor.rs:256-267] `MaterializationStageName` *)
Inductive MaterializationStageName :=
| ResolveInputs | BookReconstruction | DetectorEvidence | ExecutionEvidence | PortfolioRiskEvidence
| SettlementReconciliationEvidence | TrainingExampleBuild | FactorBuild | QualityGateEvaluation | DraftWrite.

(** [models/enums/control_factor.rs:242-251] `EvidenceStageStatus` *)
Inductive EvidenceStageStatus :=
| EsPending | EsRunning | EsCompleted | EsCompletedWithWarnings | EsSkippedNotRequired | EsInsufficientCoverage
| EsProductionIneligible | EsFailed.

(** [models/enums/control_factor.rs:232-237] `MaterializationOutputPolicy` *)
Inductive MaterializationOutputPolicy := EmitDraftCandidates | EmitDraftOnly | OutReportOnly | NoFactorOutput.

#[global] Instance stage_name_eq_dec : EqDecision MaterializationStageName.
Proof. solve_decision. Defined.
#[global] Instance stage_status_eq_dec : EqDecision EvidenceStageStatus.
Proof. solve_decision. Defined.
#[global] Instance output_policy_eq_dec : EqDecision MaterializationOutputPolicy.
Proof. solve_decision. Defined.

(** [models/domain/evidence/metric.rs:5-8] `EvidenceMetric` *)
Inductive EvidenceMetric (T : Type) := MtAvailable (value : T) | MtUnavailable (code reason : string).
Arguments MtAvailable {T} value.
Arguments MtUnavailable {T} code reason.

(** [models/domain/evidence/metric.rs:12-14] `EvidenceMetric::is_available` *)
Definition is_available {T} (m : EvidenceMetric T) : bool := match m with MtAvailable _ => true | MtUnavailable _ _ => false end.
Definition metric_value {T} (m : EvidenceMetric T) : option T := match m with MtAvailable v => Some v | MtUnavailable _ _ => None end.

(** [control/evidence/engine.rs:577-579] `metric_missing` *)
Definition metric_missing {T} (m : EvidenceMetric T) : Z := if is_available m then 0 else 1.

Section Stages.
Context {DO : DecimalOps}.

(** [models/domain/control_factor/materialization.rs:490-496] `StageCoverageReport` *)
Record StageCoverageReport := {
  sg_expected_rows : Z; sg_observed_rows : Z; sg_missing_rows : Z; sg_coverage_ratio : D; sg_insufficient_reasons : list string
}.

(** [models/domain/control_factor/materialization.rs:500-508] `StageCoverageReport::complete` *)
Definition coverage_complete (observed_rows : Z) : StageCoverageReport := {|
  sg_expected_rows := observed_rows; sg_observed_rows := observed_rows; sg_missing_rows := 0; sg_coverage_ratio := d1; sg_insufficient_reasons := [] |}.

(** [models/domain/control_factor/materialization.rs:511-513] `StageCoverageReport::is_sufficient` *)
Definition stage_is_sufficient (c : StageCoverageReport) : bool :=
  (sg_missing_rows c =? 0) && match sg_insufficient_reasons c with [] => true | _ => false end.

(** [control/evidence/engine.rs:581-602] `coverage` *)
Definition coverage (expected observed : Z) (insufficient_reasons : list string) : StageCoverageReport := {|
  sg_expected_rows := expected; sg_observed_rows := observed; sg_missing_rows := sat_u64 (expected - observed);
  sg_coverage_ratio := if expected =? 0 then d1 else ddiv (dof_Z observed) (dof_Z expected);
  sg_insufficient_reasons := insufficient_reasons |}.

(** [control/evidence/gate.rs:7-13] `EvidenceStageGate` *)
Record EvidenceStageGate := {
  sg_output_policy : MaterializationOutputPolicy;
  sg_coverage : StageCoverageReport;
  sg_blocking_issue_count : Z;
  sg_warning_count : Z;
  sg_required_metric_missing_count : Z
}.

(** [control/evidence/gate.rs:17-35] `EvidenceStageGate::decide` *)
Definition decide_stage (g : EvidenceStageGate) : EvidenceStageStatus :=
  if negb (stage_is_sufficient (sg_coverage g)) then EsInsufficientCoverage
  else if (0 <? sg_blocking_issue_count g) || (0 <? sg_required_metric_missing_count g) then EsProductionIneligible
  else if (0 <? sg_warning_count g) || bool_decide (sg_output_policy g = OutReportOnly) || bool_decide (sg_output_policy g = NoFactorOutput)
  then EsCompletedWithWarnings else EsCompleted.
End Stages.

(** [control/evidence/book.rs:695-706] `percentile`, also that of evidence/stats.rs and evidence/settlement.rs *)
Definition percentile_u64 (values : list Z) (pct : nat) : option Z :=
  sort_by Z.leb values !! ((length values - 1) * pct / 100)%nat.

(** ** Rows and books *)

(** [models/enums/clickhouse.rs:43-51] `ChBookEventType` *)
Inductive ChBookEventType := ChSnapshot | ChDelta | ChBbo | ChTickSizeChange | ChLastTrade | ChMarketResolved | ChShardStatus.
#[global] Instance book_event_eq_dec : EqDecision ChBookEventType.
Proof. solve_decision. Defined.

(** What the JSON library and the calendar answer: the pairs of a level list, a decimal, and
    whether a count of milliseconds is a date. *)
Class Decoding {DO : DecimalOps} := {
  json_pairs : string -> option (list (string * string));
  decimal_from_str : string -> option D;
  in_calendar : Z -> bool
}.

Section Books.
Context {DO : DecimalOps} {DEC : Decoding}.

(** [models/clickhouse/book_snapshot.rs:11-32] `BookSnapshotRow`, what the replay reads *)
Record BookSnapshotRow := {
  sr_token_id : TokenId; sr_bids_json : string; sr_asks_json : string; sr_book_version : Z;
  sr_event_time : Z; sr_ingestion_time : Z; sr_sequence : Z
}.

(** [models/clickhouse/book_l2_replay.rs:11-28] `BookL2ReplayRow`, what the replay reads; prices and sizes are the decimals of their columns *)
Record BookL2ReplayRow := {
  l2_token_id : TokenId; l2_event_type : ChBookEventType; l2_bid_prices : list D; l2_bid_sizes : list D; l2_ask_prices : list D; l2_ask_sizes : list D;
  l2_book_version : Z; l2_is_full_snapshot : bool; l2_event_time : Z; l2_ingestion_time : Z; l2_sequence : Z
}.

(** [control/evidence/book.rs:77-88] `ReconstructedTokenBook` *)
Record ReconstructedTokenBook := {
  tb_token_id : TokenId;
  tb_bids : list BookLevel;
  tb_asks : list BookLevel;
  tb_event_time : Time;
  tb_book_version : Z;
  tb_source_event_count : Z;
  tb_invalid_level_count : Z;
  tb_crossed : bool;
  tb_max_gap_ms : Z;
  tb_stale_interval_ms : Z
}.

Definition with_levels b bids asks : ReconstructedTokenBook := {|
  tb_token_id := tb_token_id b; tb_bids := bids; tb_asks := asks; tb_event_time := tb_event_time b; tb_book_version := tb_book_version b;
  tb_source_event_count := tb_source_event_count b; tb_invalid_level_count := tb_invalid_level_count b; tb_crossed := tb_crossed b;
  tb_max_gap_ms := tb_max_gap_ms b; tb_stale_interval_ms := tb_stale_interval_ms b |}.
Definition with_event b event_time version max_gap invalid : ReconstructedTokenBook := {|
  tb_token_id := tb_token_id b; tb_bids := tb_bids b; tb_asks := tb_asks b; tb_event_time := event_time; tb_book_version := version;
  tb_source_event_count := sat_u64 (tb_source_event_count b + 1); tb_invalid_level_count := invalid; tb_crossed := tb_crossed b;
  tb_max_gap_ms := max_gap; tb_stale_interval_ms := tb_stale_interval_ms b |}.
Definition with_verdict b crossed stale_interval : ReconstructedTokenBook := {|
  tb_token_id := tb_token_id b; tb_bids := tb_bids b; tb_asks := tb_asks b; tb_event_time := tb_event_time b; tb_book_version := tb_book_version b;
  tb_source_event_count := tb_source_event_count b; tb_invalid_level_count := tb_invalid_level_count b; tb_crossed := crossed;
  tb_max_gap_ms := tb_max_gap_ms b; tb_stale_interval_ms := stale_interval |}.

(** [Utc.timestamp_millis_opt(ms).single()] *)
Definition timestamp_millis_opt (ms : Z) : option Time := if in_calendar ms then Some (ms * 1000000) else None.
(** [u64::try_from(a.signed_duration_since(b).num_milliseconds().max(0)).unwrap_or(u64::MAX)] *)
Definition age_ms (a b : Time) : Z := Z.max 0 (Z.quot (a - b) 1000000).

(** [control/evidence/book.rs:512-533] `parse_json_levels`, one pair *)
Definition parse_level (x : Result (list BookLevel * Z) string) (pair : string * string) : Result (list BookLevel * Z) string :=
  match x with
  | Err e => Err e
  | Ok (levels, invalid) =>
      match decimal_from_str pair.1, decimal_from_str pair.2 with
      | None, _ => Err "invalid decimal price"
      | _, None => Err "invalid decimal size"
      | Some price, Some size =>
          if dleb price d0 || dltb d1 price || dleb size d0 then Ok (levels, sat_u64 (invalid + 1))
          else match level_from_decimal price size with
               | Ok level => Ok (levels ++ [level], invalid)
               | Err _ => Ok (levels, sat_u64 (invalid + 1))
               end
      end
  end.

(** [control/evidence/book.rs:512-533] `parse_json_levels` *)
Definition parse_json_levels (raw : string) : Result (list BookLevel * Z) string :=
  match json_pairs raw with None => Err "invalid level json" | Some pairs => foldl parse_level (Ok ([], 0)) pairs end.

(** [control/evidence/book.rs:536-540] `ColumnLevels`, with the changes of `LevelChange` as pairs *)
Record ColumnLevels := { cl_levels : list BookLevel; cl_changes : list (D * D); cl_invalid_level_count : Z }.

(** [control/evidence/book.rs:553-574] `levels_from_columns`, one level *)
Definition column_level (zero_deletes : bool) (x : ColumnLevels) (l : D * D) : ColumnLevels :=
  let '(price, size) := l in
  let rejected := {| cl_levels := cl_levels x; cl_changes := cl_changes x; cl_invalid_level_count := sat_u64 (cl_invalid_level_count x + 1) |} in
  if dleb price d0 || dltb d1 price then rejected
  else if dltb size d0 || (negb zero_deletes && dleb size d0) then rejected
  else
    let changes := cl_changes x ++ [(price, size)] in
    if dltb d0 size
    then match level_from_decimal price size with
         | Ok level => {| cl_levels := cl_levels x ++ [level]; cl_changes := changes; cl_invalid_level_count := cl_invalid_level_count x |}
         | Err _ => {| cl_levels := cl_levels x; cl_changes := changes; cl_invalid_level_count := sat_u64 (cl_invalid_level_count x + 1) |}
         end
    else {| cl_levels := cl_levels x; cl_changes := changes; cl_invalid_level_count := cl_invalid_level_count x |}.

(** [control/evidence/book.rs:548-580] `levels_from_columns` *)
Definition levels_from_columns (prices sizes : list D) (zero_deletes : bool) : ColumnLevels :=
  foldl (column_level zero_deletes)
    {| cl_levels := []; cl_changes := []; cl_invalid_level_count := Z.abs (Z.of_nat (length prices) - Z.of_nat (length sizes)) |} (zip prices sizes).

(** [control/evidence/book.rs:583-591] `apply_level_changes`, one change *)
Definition apply_level_change (levels : list BookLevel) (change : D * D) : list BookLevel :=
  let levels := List.filter (fun level => negb (deqb (price_decimal level) change.1)) levels in
  if dltb d0 change.2
  then match level_from_decimal change.1 change.2 with Ok level => levels ++ [level] | Err _ => levels end
  else levels.

(** [control/evidence/book.rs:582-597] `apply_level_changes`, with the two sorts *)
Definition apply_level_changes (levels : list BookLevel) (changes : list (D * D)) (bid_side : bool) : list BookLevel :=
  sort_levels bid_side (foldl apply_level_change levels changes).

(** [control/evidence/book.rs:445-469] `token_book_from_snapshot` *)
Definition token_book_from_snapshot (row : BookSnapshotRow) : Result ReconstructedTokenBook string :=
  match parse_json_levels (sr_bids_json row), parse_json_levels (sr_asks_json row) with
  | Err e, _ | Ok _, Err e => Err e
  | Ok (bids, invalid_bids), Ok (asks, invalid_asks) =>
      match timestamp_millis_opt (sr_event_time row) with
      | None => Err "invalid snapshot timestamp millis"
      | Some event_time => Ok {|
          tb_token_id := sr_token_id row; tb_bids := sort_levels true bids; tb_asks := sort_levels false asks; tb_event_time := event_time;
          tb_book_version := sr_book_version row; tb_source_event_count := 1; tb_invalid_level_count := sat_u64 (invalid_bids + invalid_asks);
          tb_crossed := false; tb_max_gap_ms := 0; tb_stale_interval_ms := 0 |}
      end
  end.

(** [control/evidence/book.rs:471-510] `apply_l2_event` *)
Definition apply_l2_event (book : ReconstructedTokenBook) (row : BookL2ReplayRow) : Result ReconstructedTokenBook string :=
  match timestamp_millis_opt (l2_event_time row) with
  | None => Err "invalid L2 event timestamp millis"
  | Some event_time =>
      let max_gap := Z.max (tb_max_gap_ms book) (age_ms event_time (tb_event_time book)) in
      let full_replacement := l2_is_full_snapshot row || bool_decide (l2_event_type row = ChSnapshot) in
      let bids := levels_from_columns (l2_bid_prices row) (l2_bid_sizes row) (negb full_replacement) in
      let asks := levels_from_columns (l2_ask_prices row) (l2_ask_sizes row) (negb full_replacement) in
      let invalid := sat_u64 (sat_u64 (tb_invalid_level_count book + cl_invalid_level_count bids) + cl_invalid_level_count asks) in
      let book :=
        if full_replacement then with_levels book (sort_levels true (cl_levels bids)) (sort_levels false (cl_levels asks))
        else if bool_decide (l2_event_type row = ChDelta)
        then with_levels book (apply_level_changes (tb_bids book) (cl_changes bids) true) (apply_level_changes (tb_asks book) (cl_changes asks) false)
        else book in
      Ok (with_event book event_time (l2_book_version row) max_gap invalid)
  end.

(** [control/evidence/book.rs:626-631] `is_crossed` *)
Definition tb_is_crossed (book : ReconstructedTokenBook) : bool :=
  match tb_bids book, tb_asks book with
  | bid :: _, ask :: _ => dleb (price_decimal ask) (price_decimal bid)
  | _, _ => false
  end.

(** ** Reconstruction *)

(** [models/domain/control_factor/materialization.rs:628-637] `MarketReplayContext`, what the replay reads *)
Record MarketReplayContext := { mc_market_id : MarketId; mc_yes_token_id : TokenId; mc_no_token_id : TokenId; mc_settlement_deadline : option Time }.

(** [control/evidence/book.rs:224-231] `BookReconstructionInput`, without its fingerprints; the contexts and the end of the window of its report *)
Record BookReconstructionInput := {
  bi_contexts : list MarketReplayContext;
  bi_window_to : Time;
  bi_snapshots : list BookSnapshotRow;
  bi_l2_events : list BookL2ReplayRow;
  bi_max_replay_gap_ms : Z;
  bi_stale_book_after_ms : Z
}.

(** [control/evidence/book.rs:49-54] `BookEvidenceTier` *)
Inductive BookEvidenceTier := ExactReplay | DecisionContext | AggregateOnly | TierInsufficient.

(** [control/evidence/book.rs:67-74] `MarketBookReconstruction` *)
Record MarketBookReconstruction := {
  mb_market_id : MarketId; mb_yes_token_id : TokenId; mb_no_token_id : TokenId; mb_settlement_deadline : option Time;
  mb_yes_book : option ReconstructedTokenBook; mb_no_book : option ReconstructedTokenBook
}.

(** [control/evidence/book.rs:290-302] `ReconstructionState` *)
Record ReconstructionState := {
  rs_books_by_token : gmap TokenId ReconstructedTokenBook;
  rs_timelines_by_token : gmap TokenId (list ReconstructedTokenBook);
  rs_book_ages : list Z;
  rs_l2_event_count : Z;
  rs_snapshot_bootstrap_count : Z;
  rs_gap_count : Z;
  rs_max_gap_ms : Z;
  rs_crossed_book_count : Z;
  rs_invalid_level_count : Z;
  rs_stale_interval_ms : Z;
  rs_insufficient_reasons : list string
}.

Definition empty_reconstruction : ReconstructionState := {|
  rs_books_by_token := ∅; rs_timelines_by_token := ∅; rs_book_ages := []; rs_l2_event_count := 0; rs_snapshot_bootstrap_count := 0;
  rs_gap_count := 0; rs_max_gap_ms := 0; rs_crossed_book_count := 0; rs_invalid_level_count := 0; rs_stale_interval_ms := 0; rs_insufficient_reasons := [] |}.

(** [control/evidence/book.rs:30-45] `BookReconstructionReport`, without its fingerprints *)
Record BookReconstructionReport := {
  br_evidence_tier : BookEvidenceTier;
  br_token_count_expected : Z;
  br_token_count_reconstructed : Z;
  br_l2_event_count : Z;
  br_snapshot_bootstrap_count : Z;
  br_gap_count : Z;
  br_max_gap_ms : Z;
  br_median_book_age_ms : Z;
  br_p95_book_age_ms : Z;
  br_crossed_book_count : Z;
  br_invalid_level_count : Z;
  br_stale_interval_ms : Z;
  br_insufficient_reasons : list string
}.

(** [control/evidence/book.rs:58-63] `BookReconstructionReport::production_eligible` *)
Definition production_eligible (r : BookReconstructionReport) : bool :=
  match br_evidence_tier r with ExactReplay | DecisionContext => true | _ => false end && match br_insufficient_reasons r with [] => true | _ => false end.

(** [control/evidence/engine.rs:538-544] `status_from_book_report` *)
Definition status_from_book_report (r : BookReconstructionReport) : EvidenceStageStatus :=
  if production_eligible r then EsCompleted else EsInsufficientCoverage.

(** [control/evidence/book.rs:21-27] `BookReconstructionArtifact`, without its source bundle and decision views *)
Record BookReconstructionArtifact := {
  ba_report : BookReconstructionReport;
  ba_market_books : list MarketBookReconstruction;
  ba_token_timelines : list (TokenId * list ReconstructedTokenBook)
}.

(** [String]'s order, that of its bytes. *)
Definition token_leb (a b : TokenId) : bool := String.leb a b.

(** Equal neighbours are kept once: [Vec::dedup]. *)
Fixpoint dedup_tokens (l : list TokenId) : list TokenId :=
  match l with
  | x :: (y :: _) as rest => if bool_decide (x = y) then dedup_tokens rest else x :: dedup_tokens rest
  | _ => l
  end.

(** [control/evidence/book.rs:234-243] `expected_tokens` *)
Definition expected_tokens (contexts : list MarketReplayContext) : list TokenId :=
  dedup_tokens (sort_by token_leb (contexts ≫= fun c => [mc_yes_token_id c; mc_no_token_id c])).

(** The newest row first. *)
Definition newer (a b : BookSnapshotRow) : bool :=
  match sr_event_time b ?= sr_event_time a with
  | Lt => true | Gt => false
  | Eq => match sr_ingestion_time b ?= sr_ingestion_time a with Lt => true | Gt => false | Eq => sr_sequence b <=? sr_sequence a end
  end.

(** [control/evidence/book.rs:412-427] `latest_snapshots_by_token`, the row it keeps for a token *)
Definition latest_snapshot (rows : list BookSnapshotRow) (token : TokenId) : option BookSnapshotRow :=
  head (sort_by newer (List.filter (fun r => bool_decide (sr_token_id r = token)) rows)).

Definition earlier (a b : BookL2ReplayRow) : bool :=
  match l2_event_time a ?= l2_event_time b with
  | Lt => true | Gt => false
  | Eq => match l2_ingestion_time a ?= l2_ingestion_time b with Lt => true | Gt => false | Eq => l2_sequence a <=? l2_sequence b end
  end.

(** [control/evidence/book.rs:429-443] `l2_events_by_token`, the rows of a token *)
Definition l2_events (rows : list BookL2ReplayRow) (token : TokenId) : list BookL2ReplayRow :=
  sort_by earlier (List.filter (fun r => bool_decide (l2_token_id r = token)) rows).

(** [control/evidence/book.rs:352-374] `reconstruct_token`, the loop: the book, its timeline, the gaps counted and the largest of them *)
Fixpoint replay_events (max_gap : Z) (book : ReconstructedTokenBook) (timeline : list ReconstructedTokenBook) (gaps largest : Z) (events : list BookL2ReplayRow)
    : Result (ReconstructedTokenBook * list ReconstructedTokenBook * Z * Z) string :=
  match events with
  | [] => Ok (book, timeline, gaps, largest)
  | event :: rest =>
      match timestamp_millis_opt (l2_event_time event) with
      | None => Err "invalid L2 event timestamp millis"
      | Some event_time =>
          let gap_ms := age_ms event_time (tb_event_time book) in
          let '(gaps, largest) := if max_gap <? gap_ms then (sat_u64 (gaps + 1), Z.max largest gap_ms) else (gaps, largest) in
          match apply_l2_event book event with
          | Err e => Err e
          | Ok book => replay_events max_gap book (timeline ++ [book]) gaps largest rest
          end
      end
  end.

(** [control/evidence/book.rs:335-345] `reconstruct_token`, a token without a snapshot *)
Definition count_events (st : ReconstructionState) (n : Z) (bootstrap : Z) (reason : list string) : ReconstructionState := {|
  rs_books_by_token := rs_books_by_token st; rs_timelines_by_token := rs_timelines_by_token st; rs_book_ages := rs_book_ages st;
  rs_l2_event_count := sat_u64 (rs_l2_event_count st + n); rs_snapshot_bootstrap_count := sat_u64 (rs_snapshot_bootstrap_count st + bootstrap);
  rs_gap_count := rs_gap_count st; rs_max_gap_ms := rs_max_gap_ms st; rs_crossed_book_count := rs_crossed_book_count st;
  rs_invalid_level_count := rs_invalid_level_count st; rs_stale_interval_ms := rs_stale_interval_ms st;
  rs_insufficient_reasons := rs_insufficient_reasons st ++ reason |}.

(** [control/evidence/book.rs:375-410] `reconstruct_token`, after the loop *)
Definition finish_token (input : BookReconstructionInput) (st : ReconstructionState) (token : TokenId)
    (x : ReconstructedTokenBook * list ReconstructedTokenBook * Z * Z) : ReconstructionState :=
  let '(book, timeline, gaps, largest) := x in
  let age := age_ms (bi_window_to input) (tb_event_time book) in
  let stale := if bi_stale_book_after_ms input <? age then sat_u64 (age - bi_stale_book_after_ms input) else tb_stale_interval_ms book in
  let crossed := tb_is_crossed book in
  let book := with_verdict book crossed stale in {|
    rs_books_by_token := if crossed then rs_books_by_token st else <[token := book]> (rs_books_by_token st);
    rs_timelines_by_token := if crossed then rs_timelines_by_token st else <[token := timeline]> (rs_timelines_by_token st);
    rs_book_ages := rs_book_ages st ++ [age];
    rs_l2_event_count := rs_l2_event_count st; rs_snapshot_bootstrap_count := rs_snapshot_bootstrap_count st;
    rs_gap_count := gaps; rs_max_gap_ms := Z.max largest (tb_max_gap_ms book);
    rs_crossed_book_count := if crossed then sat_u64 (rs_crossed_book_count st + 1) else rs_crossed_book_count st;
    rs_invalid_level_count := sat_u64 (rs_invalid_level_count st + tb_invalid_level_count book);
    rs_stale_interval_ms := if bi_stale_book_after_ms input <? age then sat_u64 (rs_stale_interval_ms st + stale) else rs_stale_interval_ms st;
    rs_insufficient_reasons := rs_insufficient_reasons st ++ if crossed then ["crossed book for token " +:+ token] else [] |}.

(** [control/evidence/book.rs:329-410] `reconstruct_token` *)
Definition reconstruct_token (input : BookReconstructionInput) (st : ReconstructionState) (token : TokenId) : Result ReconstructionState string :=
  let events := l2_events (bi_l2_events input) token in
  let n := Z.of_nat (length events) in
  match latest_snapshot (bi_snapshots input) token with
  | None => Ok (count_events st n 0 ["missing bootstrap snapshot for token " +:+ token])
  | Some snapshot =>
      let st := count_events st n 1 [] in
      match token_book_from_snapshot snapshot with
      | Err e => Err e
      | Ok book =>
          match replay_events (bi_max_replay_gap_ms input) book [book] (rs_gap_count st) (rs_max_gap_ms st) events with
          | Err e => Err e
          | Ok x => Ok (finish_token input st token x)
          end
      end
  end.

(** [control/evidence/book.rs:304-327] `reconstruct_tokens` *)
Definition reconstruct_tokens (input : BookReconstructionInput) (tokens : list TokenId) : Result ReconstructionState string :=
  let r := foldl (fun st token => match st with Err e => Err e | Ok st => reconstruct_token input st token end) (Ok empty_reconstruction) tokens in
  match r with
  | Err e => Err e
  | Ok st => if 0 <? rs_gap_count st
             then Ok (count_events st 0 0 ["max L2 gap " +:+ pretty (rs_max_gap_ms st) +:+ "ms exceeds configured " +:+ pretty (bi_max_replay_gap_ms input) +:+ "ms"])
             else Ok st
  end.

(** [control/evidence/book.rs:681-693] `market_book` *)
Definition market_book (books : gmap TokenId ReconstructedTokenBook) (c : MarketReplayContext) : MarketBookReconstruction := {|
  mb_market_id := mc_market_id c; mb_yes_token_id := mc_yes_token_id c; mb_no_token_id := mc_no_token_id c;
  mb_settlement_deadline := mc_settlement_deadline c; mb_yes_book := books !! mc_yes_token_id c; mb_no_book := books !! mc_no_token_id c |}.

(** [control/evidence/book.rs:245-287] `reconstruct` *)
Definition reconstruct (input : BookReconstructionInput) : Result BookReconstructionArtifact string :=
  let tokens := expected_tokens (bi_contexts input) in
  match reconstruct_tokens input tokens with
  | Err e => Err e
  | Ok st => Ok {|
      ba_report := {|
        br_evidence_tier := match rs_insufficient_reasons st with [] => ExactReplay | _ => TierInsufficient end;
        br_token_count_expected := Z.of_nat (length tokens); br_token_count_reconstructed := Z.of_nat (size (rs_books_by_token st));
        br_l2_event_count := rs_l2_event_count st; br_snapshot_bootstrap_count := rs_snapshot_bootstrap_count st; br_gap_count := rs_gap_count st;
        br_max_gap_ms := rs_max_gap_ms st; br_median_book_age_ms := unwrap_or (percentile_u64 (rs_book_ages st) 50) 0;
        br_p95_book_age_ms := unwrap_or (percentile_u64 (rs_book_ages st) 95) 0; br_crossed_book_count := rs_crossed_book_count st;
        br_invalid_level_count := rs_invalid_level_count st; br_stale_interval_ms := rs_stale_interval_ms st;
        br_insufficient_reasons := rs_insufficient_reasons st |};
      ba_market_books := market_book (rs_books_by_token st) <$> bi_contexts input;
      ba_token_timelines := sort_by (fun a b => token_leb a.1 b.1) (map_to_list (rs_timelines_by_token st)) |}
  end.

(** ** Books at a decision *)

(** [control/evidence/book.rs:161-174] `BookReconstructionArtifact::token_book_at` *)
Definition token_book_at (a : BookReconstructionArtifact) (token : TokenId) (decision_time : Time) : option ReconstructedTokenBook :=
  match List.find (fun x => bool_decide (x.1 = token)) (ba_token_timelines a) with
  | None => None
  | Some timeline => List.find (fun book => tb_event_time book <=? decision_time) (reverse timeline.2)
  end.

(** [control/evidence/book.rs:132-139] `DecisionTokenBookView` *)
Record DecisionTokenBookView := {
  dv_book : ReconstructedTokenBook; dv_book_age_ms : Z; dv_max_gap_ms : Z; dv_stale : bool; dv_crossed : bool; dv_invalid_level_count : Z
}.

(** [control/evidence/book.rs:120-129] `DecisionBookView`, without its purpose and fingerprints *)
Record DecisionBookView := {
  dw_market_id : MarketId; dw_decision_time : Time; dw_yes_book : option DecisionTokenBookView; dw_no_book : option DecisionTokenBookView;
  dw_production_eligible : bool; dw_insufficient_reasons : list string
}.

(** [control/evidence/book.rs:633-653] `token_view` *)
Definition token_view (decision_time : Time) (stale_book_after_ms : Z) (book : ReconstructedTokenBook) : DecisionTokenBookView :=
  let age := age_ms decision_time (tb_event_time book) in {|
    dv_book := book; dv_book_age_ms := age; dv_max_gap_ms := tb_max_gap_ms book; dv_stale := stale_book_after_ms <? age;
    dv_crossed := tb_crossed book; dv_invalid_level_count := tb_invalid_level_count book |}.

(** [control/evidence/book.rs:655-679] `record_decision_view_reason` *)
Definition decision_view_reason (leg : string) (view : option DecisionTokenBookView) : list string :=
  match view with
  | None => [leg +:+ " decision book is missing"]
  | Some v =>
      (if dv_stale v then [leg +:+ " decision book is stale: age=" +:+ pretty (dv_book_age_ms v) +:+ "ms"] else []) ++
      (if dv_crossed v then [leg +:+ " decision book is crossed"] else []) ++
      (if 0 <? dv_invalid_level_count v then [leg +:+ " decision book has " +:+ pretty (dv_invalid_level_count v) +:+ " invalid levels"] else [])
  end.

(** [control/evidence/book.rs:188-220] `BookReconstructionArtifact::decision_view` *)
Definition decision_view (a : BookReconstructionArtifact) (market_id : MarketId) (decision_time : Time) (stale_book_after_ms : Z) : DecisionBookView :=
  let market := List.find (fun m => bool_decide (mb_market_id m = market_id)) (ba_market_books a) in
  let view token := token_view decision_time stale_book_after_ms <$> token_book_at a token decision_time in
  let yes := m ← market; view (mb_yes_token_id m) in
  let no := m ← market; view (mb_no_token_id m) in
  let reasons := decision_view_reason "yes" yes ++ decision_view_reason "no" no in {|
    dw_market_id := market_id; dw_decision_time := decision_time; dw_yes_book := yes; dw_no_book := no;
    dw_production_eligible := match reasons with [] => true | _ => false end; dw_insufficient_reasons := reasons |}.
End Books.

(** ** The replay of a timeline *)

Section Timelines.
Context {DO : DecimalOps} {DEC : Decoding}.

(** The events applied in order, and the books after each of them. *)
Fixpoint replay_to (book : ReconstructedTokenBook) (events : list BookL2ReplayRow) : Result ReconstructedTokenBook string :=
  match events with
  | [] => Ok book
  | e :: rest => match apply_l2_event book e with Ok book => replay_to book rest | Err x => Err x end
  end.
Fixpoint states (book : ReconstructedTokenBook) (events : list BookL2ReplayRow) : Result (list ReconstructedTokenBook) string :=
  match events with
  | [] => Ok []
  | e :: rest =>
      match apply_l2_event book e with
      | Ok book => match states book rest with Ok l => Ok (book :: l) | Err x => Err x end
      | Err x => Err x
      end
  end.

Lemma replay_events_states max_gap events : forall book timeline gaps largest book' timeline' gaps' largest',
  replay_events max_gap book timeline gaps largest events = Ok (book', timeline', gaps', largest') ->
  exists l, states book events = Ok l /\ timeline' = timeline ++ l.
Proof.
  induction events as [|e events IH]; intros book timeline gaps largest book' timeline' gaps' largest' H; cbn in *.
  - injection H as <- <- <- <-. exists []. by rewrite app_nil_r.
  - destruct (timestamp_millis_opt _); [|done]. destruct (if max_gap <? _ then _ else _) as [g1 l1].
    destruct (apply_l2_event book e) as [b1|]; [|done]. apply IH in H as (l & -> & ->). exists (b1 :: l). by rewrite <- app_assoc.
Qed.

Lemma apply_l2_time book e book' : apply_l2_event book e = Ok book' ->
  tb_event_time book' = l2_event_time e * 1000000 /\ tb_crossed book' = tb_crossed book.
Proof.
  unfold apply_l2_event, timestamp_millis_opt. destruct (in_calendar _); [|done]. intros [= <-]. cbn.
  destruct (l2_is_full_snapshot e || _); [done|]. by destruct (bool_decide _).
Qed.

Lemma states_uncrossed events : forall book l, tb_crossed book = false -> states book events = Ok l -> Forall (fun b => tb_crossed b = false) l.
Proof.
  induction events as [|e events IH]; intros book l Hb H; cbn in H; [by injection H as <-|].
  destruct (apply_l2_event book e) as [b1|] eqn:E; [|done]. destruct (states b1 events) as [l'|] eqn:E'; [|done]. injection H as <-.
  apply apply_l2_time in E as [_ E]. rewrite Hb in E. constructor; [done | by eapply IH].
Qed.

Lemma find_first_app {A} (f : A -> bool) l1 l2 : List.find f (l1 ++ l2) = match List.find f l1 with Some x => Some x | None => List.find f l2 end.
Proof. induction l1 as [|x l1 IH]; [done|]. cbn. by destruct (f x). Qed.

Definition until (t : Time) (events : list BookL2ReplayRow) : list BookL2ReplayRow := List.filter (fun e => l2_event_time e * 1000000 <=? t) events.

Lemma until_late t events : Forall (fun e => t < l2_event_time e * 1000000) events -> until t events = [].
Proof. induction 1 as [|e events He _ IH]; [done|]. cbn. destruct (Z.leb_spec (l2_event_time e * 1000000) t); [lia | done]. Qed.

(** The last book of a timeline at or before [t]. *)
Lemma timeline_find t events : forall book l, states book events = Ok l ->
  StronglySorted Z.le (tb_event_time book :: ((fun e => l2_event_time e * 1000000) <$> events)) ->
  exists b, replay_to book (until t events) = Ok b /\
    List.find (fun b => tb_event_time b <=? t) (reverse (book :: l)) = if tb_event_time book <=? t then Some b else None.
Proof.
  induction events as [|e events IH]; intros book l H Hs; cbn [states] in H.
  - injection H as <-. exists book. split; [done|]. cbn. by destruct (_ <=? t).
  - destruct (apply_l2_event book e) as [b1|] eqn:E; [|done]. destruct (states b1 events) as [l'|] eqn:E'; [|done]. injection H as <-.
    pose proof (proj1 (apply_l2_time _ _ _ E)) as Ht. cbn in Hs. apply StronglySorted_inv in Hs as [Hs Hb].
    apply Forall_cons in Hb as [Hb _]. rewrite <- Ht in Hs, Hb. destruct (IH b1 l' E' Hs) as (b & Hr & Hf).
    rewrite reverse_cons, find_first_app, Hf. cbn [List.find]. destruct (Z.leb_spec (tb_event_time b1) t) as [Hle|Hgt].
    + exists b. split; [|destruct (Z.leb_spec (tb_event_time book) t); [done | lia]].
      unfold until. cbn [List.filter]. rewrite <- Ht, (proj2 (Z.leb_le _ _) Hle). cbn. by rewrite E.
    + apply StronglySorted_inv in Hs as [_ Hs]. exists book. rewrite until_late; [split; [done|]; by destruct (_ <=? t)|].
      constructor; [lia|]. rewrite Forall_fmap in Hs. eapply Forall_impl; [exact Hs|]. cbn. lia.
Qed.

(** What a run keeps for a token: the snapshot and every book after it. *)
Definition replayed (input : BookReconstructionInput) (token : TokenId) (timeline : list ReconstructedTokenBook) : Prop :=
  exists row book l, latest_snapshot (bi_snapshots input) token = Some row /\ token_book_from_snapshot row = Ok book /\
    states book (l2_events (bi_l2_events input) token) = Ok l /\ timeline = book :: l.

Lemma reconstruct_token_replayed input st token st' : reconstruct_token input st token = Ok st' ->
  (forall tok tl, rs_timelines_by_token st !! tok = Some tl -> replayed input tok tl) ->
  forall tok tl, rs_timelines_by_token st' !! tok = Some tl -> replayed input tok tl.
Proof.
  unfold reconstruct_token. intros H Hst. destruct (latest_snapshot _ _) as [row|] eqn:El; [|injection H as <-; exact Hst].
  destruct (token_book_from_snapshot row) as [book|] eqn:Eb; [|done]. destruct (replay_events _ _ _ _ _ _) as [[[[b tl0] g] lg]|] eqn:Er; [|done].
  injection H as <-. apply replay_events_states in Er as (l & El' & ->). intros tok tl. cbn. destruct (tb_is_crossed b); [apply Hst|].
  intros [[<- <-]|[_ H]]%lookup_insert_Some; [|by apply Hst]. by exists row, book, l.
Qed.

Lemma reconstruct_timelines input a : reconstruct input = Ok a -> forall token tl, (token, tl) ∈ ba_token_timelines a -> replayed input token tl.
Proof.
  unfold reconstruct, reconstruct_tokens. intros H.
  assert (forall tokens r, (forall st, r = Ok st -> forall tok tl, rs_timelines_by_token st !! tok = Some tl -> replayed input tok tl) ->
    forall st, foldl (fun st token => match st with Err e => Err e | Ok st => reconstruct_token input st token end) r tokens = Ok st ->
    forall tok tl, rs_timelines_by_token st !! tok = Some tl -> replayed input tok tl) as Hfold.
  { induction tokens as [|token tokens IH]; intros r Hr st E; cbn in E; [by apply Hr|]. refine (IH _ _ st E). intros st1 E1.
    destruct r as [st0|]; [|done]. eapply reconstruct_token_replayed; [exact E1 | by apply Hr]. }
  destruct (foldl _ _ _) as [st|] eqn:E; [|done]. pose proof (Hfold _ (Ok empty_reconstruction) ltac:(by intros ? [= <-]) _ E) as Hst.
  intros token tl Hin. apply Hst. destruct (0 <? rs_gap_count st); injection H as <-; cbn in Hin; rewrite sort_by_perm in Hin; by apply elem_of_map_to_list in Hin.
Qed.

Lemma token_book_from_snapshot_uncrossed row book : token_book_from_snapshot row = Ok book -> tb_crossed book = false.
Proof.
  unfold token_book_from_snapshot. destruct (parse_json_levels _) as [[? ?]|]; [|done]. destruct (parse_json_levels _) as [[? ?]|]; [|done].
  destruct (timestamp_millis_opt _); [|done]. by intros [= <-].
Qed.

Lemma earlier_total x y : earlier x y = true \/ earlier y x = true.
Proof.
  unfold earlier. rewrite (Z.compare_antisym (l2_event_time x)), (Z.compare_antisym (l2_ingestion_time x)).
  destruct (l2_event_time x ?= l2_event_time y); [|by auto..]. destruct (l2_ingestion_time x ?= l2_ingestion_time y); cbn; [|by auto..]. rewrite !Z.leb_le. lia.
Qed.

Lemma earlier_spec x y : earlier x y = true <->
  l2_event_time x < l2_event_time y \/ (l2_event_time x = l2_event_time y /\
    (l2_ingestion_time x < l2_ingestion_time y \/ (l2_ingestion_time x = l2_ingestion_time y /\ l2_sequence x <= l2_sequence y))).
Proof.
  unfold earlier. destruct (Z.compare_spec (l2_event_time x) (l2_event_time y)); [|split; [auto|done]|split; [done|lia]].
  destruct (Z.compare_spec (l2_ingestion_time x) (l2_ingestion_time y)); [rewrite Z.leb_le; lia|split; [auto|done]|split; [done|lia]].
Qed.

Lemma l2_events_sorted rows token : StronglySorted Z.le ((fun e => l2_event_time e * 1000000) <$> l2_events rows token).
Proof.
  unfold l2_events. pose proof (sort_by_sorted earlier earlier_total) as H.
  assert (forall x y z, earlier x y = true -> earlier y z = true -> earlier x z = true) as Htr by (intros x y z; rewrite !earlier_spec; lia).
  specialize (H Htr (List.filter (fun r => bool_decide (l2_token_id r = token)) rows)).
  induction H as [|x l Hs IH Hx]; cbn; [constructor|]. constructor; [done|]. apply Forall_fmap. eapply Forall_impl; [exact Hx|].
  cbn. intros y Hy%earlier_spec. lia.
Qed.


(** A book that is crossed at a decision is never reported as crossed: only the last book of the
    window is examined, and no view is refused for a crossed book. *)
Theorem decision_books_never_crossed input a market t stale v :
  reconstruct input = Ok a ->
  let view := decision_view a market t stale in
  dw_yes_book view = Some v \/ dw_no_book view = Some v -> dv_crossed v = false.
Proof.
  intros H view Hv.
  assert (forall token v, token_view t stale <$> token_book_at a token t = Some v -> dv_crossed v = false) as Htok.
  { intros token w Hw. unfold token_book_at in Hw. destruct (List.find _ (ba_token_timelines a)) as [[tok tl]|] eqn:Ef; [|done].
    apply List.find_some in Ef as [Hin _]. apply list_elem_of_In in Hin.
    destruct (reconstruct_timelines _ _ H _ _ Hin) as (row & book & l & _ & Hbook & Hl & ->). cbn [snd] in Hw.
    destruct (List.find _ (reverse (book :: l))) as [b|] eqn:Eb; [|done]. injection Hw as <-. cbn. apply List.find_some in Eb as [Hb _].
    apply list_elem_of_In, elem_of_reverse, elem_of_cons in Hb as [->|Hb]; [by eapply token_book_from_snapshot_uncrossed|].
    pose proof (states_uncrossed _ _ _ (token_book_from_snapshot_uncrossed _ _ Hbook) Hl) as Hall.
    exact (proj1 (Forall_forall _ _) Hall b Hb). }
  unfold view, decision_view in Hv. cbn [dw_yes_book dw_no_book] in Hv.
  destruct (List.find _ (ba_market_books a)) as [m|]; [|by destruct Hv]. destruct Hv as [Hv|Hv]; by eapply Htok.
Qed.
End Timelines.

(** ** The replay and the live book *)

Section LiveBook.
Context `{DL : DecimalLaws}.

Definition on_grid (l : BookLevel) : Prop := 0 < lv_price l <= MICRO_SCALE /\ 0 <= lv_size l <= i64_max.

(** The decimals a recorded level holds. *)
Definition recorded (l : BookLevel) : D * D := (price_decimal l, size_decimal l).

Definition replay_side (levels : list BookLevel) : Prop :=
  NoDup (lv_price <$> levels) /\ Forall (fun l => on_grid l /\ 0 < lv_size l) levels.

Lemma on_grid_i64 l : on_grid l -> in_i64 (lv_price l) /\ in_i64 (lv_size l).
Proof. unfold on_grid, MICRO_SCALE. unfold_ints. lia. Qed.

Lemma same_price a b : on_grid a -> on_grid b -> deqb (price_decimal a) (price_decimal b) = (lv_price a =? lv_price b).
Proof.
  intros Ha%on_grid_i64 Hb%on_grid_i64. apply eq_true_iff_eq. unfold deqb, price_decimal. rewrite Qeq_bool_iff, Z.eqb_eq.
  rewrite !to_decimal_val by tauto. unfold grid, Qeq. cbn. lia.
Qed.

Lemma recorded_size l : on_grid l -> dltb d0 (size_decimal l) = (0 <? lv_size l).
Proof.
  intros Hl%on_grid_i64. apply eq_true_iff_eq. rewrite dltb_lt, Z.ltb_lt. unfold size_decimal. rewrite to_decimal_val by tauto.
  rewrite dval_d0. unfold grid, Qlt. cbn. lia.
Qed.

Lemma recorded_level l : on_grid l -> 0 < lv_size l -> level_from_decimal (price_decimal l) (size_decimal l) = Ok l.
Proof.
  intros Hl Hs. pose proof (on_grid_i64 l Hl) as [Hp Hz]. destruct Hl as [Hp1 Hz1]. unfold level_from_decimal.
  assert (dval (price_decimal l) == grid (lv_price l) 6)%Q as Ep by by apply to_decimal_val.
  assert (dval (size_decimal l) == grid (lv_size l) 6)%Q as Es by by apply to_decimal_val.
  replace (dleb (price_decimal l) d0) with false; [replace (dltb d1 (price_decimal l)) with false|]; cbn [orb].
  - rewrite (try_from_decimal_grid _ _ Ep) by (unfold MICRO_SCALE in Hp1; unfold_ints; lia). cbn.
    rewrite (try_from_decimal_grid _ _ Es) by (unfold_ints; lia). by destruct l.
  - symmetry. apply dltb_ge. rewrite Ep, dval_d1. unfold MICRO_SCALE in *. unfold grid, Qle. cbn. lia.
  - symmetry. apply dleb_gt. rewrite Ep, dval_d0. unfold grid, Qlt. cbn. lia.
Qed.

Lemma side_map_delete levels p :
  side_map (List.filter (fun l => negb (lv_price l =? p)) levels) = delete p (side_map levels).
Proof.
  induction levels as [|l levels IH]; [symmetry; apply delete_empty|]. cbn [List.filter]. rewrite side_map_cons.
  destruct (Z.eqb_spec (lv_price l) p) as [<-|Hne]; cbn [negb].
  - by rewrite delete_insert_eq.
  - by rewrite side_map_cons, IH, delete_insert_ne.
Qed.

Lemma apply_level_change_spec levels l : replay_side levels -> on_grid l ->
  replay_side (apply_level_change levels (recorded l)) /\
  side_map (apply_level_change levels (recorded l)) = map_delta (side_map levels) l.
Proof.
  intros [Hn Hf] Hl. unfold apply_level_change, recorded. cbn [fst snd].
  assert (List.filter (fun x => negb (deqb (price_decimal x) (price_decimal l))) levels =
          List.filter (fun x => negb (lv_price x =? lv_price l)) levels) as ->.
  { clear Hn. induction Hf as [|x levels [Hx _] _ IH]; [done|]. cbn. by rewrite same_price, IH. }
  set (rest := List.filter _ levels).
  assert (replay_side rest) as [Hn' Hf'].
  { unfold rest. clear -Hn Hf. induction levels as [|x levels IH]; [done|]. apply NoDup_cons in Hn as [Hx Hn]. apply Forall_cons in Hf as [Hg Hf].
    destruct (IH Hn Hf) as [H1 H2]. cbn. destruct (negb _); [|done]. split; [|by constructor]. cbn. constructor; [|done].
    contradict Hx. apply list_elem_of_fmap in Hx as (y & -> & Hy). apply list_elem_of_In, filter_In in Hy as [Hy _]. apply list_elem_of_fmap_2. by apply list_elem_of_In. }
  assert (Forall (fun x => lv_price x <> lv_price l) rest) as Hne.
  { apply Forall_forall. intros x Hx%list_elem_of_In. apply filter_In in Hx as [_ Hx]. by destruct (Z.eqb_spec (lv_price x) (lv_price l)). }
  assert (side_map rest = delete (lv_price l) (side_map levels)) as Em by apply side_map_delete.
  unfold map_delta, is_positive. rewrite recorded_size by done. destruct (Z.ltb_spec 0 (lv_size l)) as [Hp|Hp]; [|done].
  rewrite recorded_level by done. split; [split|].
  - rewrite fmap_app. apply NoDup_app. split_and!; [done| |by apply NoDup_singleton].
    intros p Hin ->%list_elem_of_singleton. apply list_elem_of_fmap in Hin as (x & E & Hx). by eapply Forall_forall in Hne; [apply Hne|].
  - by apply Forall_app_2, Forall_singleton.
  - rewrite side_map_middle by by apply side_map_None. change (side_map []) with (∅ : gmap MicroPrice MicroShares).
    by rewrite (right_id_L ∅ (∪)), Em, insert_delete_eq.
Qed.

Lemma apply_level_changes_map changes : forall levels, replay_side levels -> Forall on_grid changes ->
  replay_side (foldl apply_level_change levels (recorded <$> changes)) /\
  side_map (foldl apply_level_change levels (recorded <$> changes)) = foldl map_delta (side_map levels) changes.
Proof.
  induction changes as [|l changes IH]; intros levels Hs Hc; [done|]. apply Forall_cons in Hc as [Hl Hc]. cbn.
  destruct (apply_level_change_spec levels l Hs Hl) as [Hs' <-]. by apply IH.
Qed.

(** The ordered sides are determined by their maps. *)
Lemma side_ok_unique descending l1 l2 : side_ok descending l1 -> side_ok descending l2 -> side_map l1 = side_map l2 -> l1 = l2.
Proof.
  assert (forall l, side_ok descending l -> map_to_list (side_map l) ≡ₚ (fun x => (lv_price x, lv_size x)) <$> l) as Hperm.
  { intros l [Hs _]. apply map_to_list_to_map. rewrite <- list_fmap_compose. induction Hs as [|x l Hs IH Hx]; cbn; [constructor|]. constructor; [|done].
    intros (y & E & Hy)%list_elem_of_fmap. eapply Forall_forall in Hx; [|exact Hy]. unfold lkey in Hx. cbn in E. rewrite E in Hx. lia. }
  assert (forall l : list BookLevel, l = ((fun p => {| lv_price := p.1; lv_size := p.2 |}) <$> ((fun x => (lv_price x, lv_size x)) <$> l) : list BookLevel)) as Heta.
  { intros l. induction l as [|[] l IH]; cbn; [done | by f_equal]. }
  intros H1 H2 E. eapply StronglySorted_unique_strong; [|exact (proj1 H1)|exact (proj1 H2)|].
  - cbn. lia.
  - rewrite (Heta l1), (Heta l2), <- (Hperm _ H1), <- (Hperm _ H2). by rewrite E.
Qed.

End LiveBook.

(** ** A run *)

Module BookReplayDemo.
#[local] Existing Instance ExactQ.exactQ.

#[local] Instance decoding : Decoding := {|
  json_pairs s := Some (if bool_decide (s = "bids") then [("0.40", "10")] else [("0.60", "5")]);
  decimal_from_str s := if bool_decide (s = "0.40") then Some (dlit 40 2) else if bool_decide (s = "0.60") then Some (dlit 60 2)
                        else if bool_decide (s = "10") then Some (dlit 10 0) else if bool_decide (s = "5") then Some (dlit 5 0) else None;
  in_calendar _ := true |}.

Definition snapshot token : BookSnapshotRow := {|
  sr_token_id := token; sr_bids_json := "bids"; sr_asks_json := "asks"; sr_book_version := 1; sr_event_time := 1000; sr_ingestion_time := 1001; sr_sequence := 1 |}.

(** A bid above the ask, for one second. *)
Definition bid_change token (size time : Z) : BookL2ReplayRow := {|
  l2_token_id := token; l2_event_type := ChDelta; l2_bid_prices := [dlit 65 2]; l2_bid_sizes := [dof_Z size]; l2_ask_prices := []; l2_ask_sizes := [];
  l2_book_version := 2; l2_is_full_snapshot := false; l2_event_time := time; l2_ingestion_time := time + 1; l2_sequence := time |}.

Definition input : BookReconstructionInput := {|
  bi_contexts := [{| mc_market_id := "m"; mc_yes_token_id := "yes"; mc_no_token_id := "no"; mc_settlement_deadline := None |}];
  bi_window_to := 4000000000; bi_snapshots := [snapshot "yes"; snapshot "no"];
  bi_l2_events := [bid_change "yes" 0 3000; bid_change "yes" 10 2000]; bi_max_replay_gap_ms := 60000; bi_stale_book_after_ms := 60000 |}.

Definition none_artifact : BookReconstructionArtifact := {|
  ba_report := {| br_evidence_tier := TierInsufficient; br_token_count_expected := 0; br_token_count_reconstructed := 0; br_l2_event_count := 0;
                  br_snapshot_bootstrap_count := 0; br_gap_count := 0; br_max_gap_ms := 0; br_median_book_age_ms := 0; br_p95_book_age_ms := 0;
                  br_crossed_book_count := 0; br_invalid_level_count := 0; br_stale_interval_ms := 0; br_insufficient_reasons := [] |};
  ba_market_books := []; ba_token_timelines := [] |}.
Definition artifact : BookReconstructionArtifact := match reconstruct input with Ok a => a | Err _ => none_artifact end.

Lemma reconstructed : reconstruct input = Ok artifact.
Proof.
  assert (is_ok (reconstruct input) = true) as H by (vm_compute; reflexivity). unfold artifact. by destruct (reconstruct input).
Qed.

Definition yes_view : option DecisionTokenBookView := dw_yes_book (decision_view artifact "m" 2500000000 60000).

(** At 2.5 s the book is crossed, the view says it is not, and the decision is eligible for production. *)
Example crossed_book_is_eligible :
  (tb_is_crossed ∘ dv_book) <$> yes_view = Some true /\ dv_crossed <$> yes_view = Some false /\
  dw_production_eligible (decision_view artifact "m" 2500000000 60000) = true /\ production_eligible (ba_report artifact) = true.
Proof. vm_compute. auto. Qed.

Lemma view_some : is_Some yes_view.
Proof. apply not_eq_None_Some. vm_compute. discriminate. Qed.

Lemma decision_books_never_crossed_witness : exists v, yes_view = Some v /\ dv_crossed v = false.
Proof.
  destruct view_some as [v Hv]. exists v. split; [exact Hv|].
  exact (decision_books_never_crossed input artifact "m" 2500000000 60000 v reconstructed (or_introl Hv)).
Defined.

Definition yes_timeline : list ReconstructedTokenBook := default [] (snd <$> List.find (fun x => bool_decide (x.1 = "yes")) (ba_token_timelines artifact)).

Lemma yes_timeline_in : ("yes", yes_timeline) ∈ ba_token_timelines artifact.
Proof.
  unfold yes_timeline. destruct (List.find _ (ba_token_timelines artifact)) as [[tok tl]|] eqn:E.
  - apply List.find_some in E as [Hin E]. apply bool_decide_eq_true in E. cbn in *. subst. by apply list_elem_of_In.
  - exfalso. revert E. vm_compute. discriminate.
Qed.

Lemma start_some : exists book, token_book_from_snapshot (snapshot "yes") = Ok book /\ tb_event_time book = 1000000000.
Proof. eexists. split; [vm_compute; reflexivity | reflexivity]. Qed.

Lemma changes_are_later book : tb_event_time book = 1000000000 ->
  Forall (fun e => tb_event_time book <= l2_event_time e * 1000000) (l2_events (bi_l2_events input) "yes").
Proof.
  intros ->. assert (l2_events (bi_l2_events input) "yes" = [bid_change "yes" 10 2000; bid_change "yes" 0 3000]) as -> by (vm_compute; reflexivity).
  repeat constructor; cbn; lia.
Qed.

Lemma latest_is_snapshot : latest_snapshot (bi_snapshots input) "yes" = Some (snapshot "yes").
Proof. vm_compute. reflexivity. Qed.


Definition resting : list BookLevel := [{| lv_price := 400000; lv_size := 10000000 |}].
Definition changed : list BookLevel := [{| lv_price := 450000; lv_size := 1000000 |}; {| lv_price := 400000; lv_size := 0 |}].

Lemma on_grid_demo : side_ok true resting /\ Forall on_grid resting /\ Forall on_grid changed.
Proof. unfold side_ok, on_grid, MICRO_SCALE. split_and!; repeat constructor; cbn; unfold_ints; lia. Qed.

End BookReplayDemo.
