(* ===== verification/ExecutionEvidence.v ===== *)
(** * Execution evidence: [oxide-arb-control/src/evidence/replay.rs], [execution.rs], [stats.rs] and [metric_gate.rs]

    For every opportunity with a terminal audit row the order is replayed fill-or-kill on the book
    that was rebuilt for its time, later by the latency buckets, and with worsened prices.  The
    outcomes are compared with what the live system did.  Rows come from the time-series store; the
    calendar is the parameter of [BookReplay]. *)

From stdpp Require Import sorting.
From S2P Require Import Prelude Decimal Micro Config Domain Book OrderBook BookReplay.

(** ** Audit rows *)

(** [models/enums/clickhouse.rs:261-271] `ChOpportunityAuditStage` *)
Inductive ChOpportunityAuditStage :=
| StDetected | StValidationRejected | StRiskRejected | StSizingRejected | StFilled | StMissed | StFailed | StSettled | StFactorValidationRejected.
(** [models/enums/clickhouse.rs:409-415] `ChAuditOutcome` *)
Inductive ChAuditOutcome := OcRejected | OcSettled | OcSuccess | OcMiss | OcFailed.
(** [models/enums/clickhouse.rs:307-310] `ChSettlementOutcome` *)
Inductive ChSettlementOutcome := Won | Lost.
(** [models/enums/clickhouse.rs:360-365] `ChSettlementAccountingStatus` *)
Inductive ChSettlementAccountingStatus := CaPending | CaRedeemed | CaAccounted | CaFailed.

#[global] Instance audit_stage_eq_dec : EqDecision ChOpportunityAuditStage.
Proof. solve_decision. Defined.
#[global] Instance audit_outcome_eq_dec : EqDecision ChAuditOutcome.
Proof. solve_decision. Defined.

Section Rows.
Context {DO : DecimalOps}.

(** [models/clickhouse/opportunity_audit.rs:36-86] `OpportunityAuditRow`, what the evidence stages read; of the JSON columns only whether they are there *)
Record OpportunityAuditRow := {
  au_opportunity_id : OpportunityId;
  au_trade_id : option TradeId;
  au_market_id : MarketId;
  au_token_id : TokenId;
  au_side : Side;
  au_entry_price : option D;
  au_fill_price : option D;
  au_requested_shares : option D;
  au_total_cost_usd : option D;
  au_stage : ChOpportunityAuditStage;
  au_stage_order : Z;
  au_stage_at : Z;
  au_payout_usd : option D;
  au_realized_pnl_usd : option D;
  au_settlement_status : option ChSettlementOutcome;
  au_winning_token_id : option TokenId;
  au_accounting_status : option ChSettlementAccountingStatus;
  au_outcome : option ChAuditOutcome;
  au_rejection_reason : option string;
  au_has_scored_snapshot : bool;
  au_has_missing_fields : bool;
  au_detected_at : Z;
  au_ingestion_time : Z;
  au_sequence : Z
}.

(** [models/domain/control_factor/materialization.rs:208-215] `SimulationConfig`, what the execution stage reads, with the shifts of `LatencyBucketSpec` in milliseconds *)
Record SimulationConfig := { sc_latency_shifts_ms : list Z; sc_adverse_selection_bps : list Z }.

(** ** Fill-or-kill on a recorded book *)

(** [control/evidence/replay.rs:9-14] `FokReplayRequest` *)
Record FokReplayRequest := { rq_side : Side; rq_limit_price : D; rq_buy_budget : option D; rq_sell_shares : option D }.

(** [control/evidence/replay.rs:17-24] `FokReplayResult` *)
Record FokReplayResult := {
  fr_strict_fill : bool; fr_vwap : D; fr_filled_shares : D; fr_notional : D; fr_unfilled_amount : D; fr_depth_consumed_pct_bps : Z
}.

(** [control/evidence/replay.rs:168-174] `decimal_bps`, also that of execution.rs:435-441 *)
Definition decimal_bps (numerator denominator : D) : Z :=
  if dleb denominator d0 then 0
  else unwrap_or (to_u64 (dto_Z (dround_dp 0 (dmul (ddiv numerator denominator) (dof_Z 10000))))) u64_max.

(** [control/evidence/replay.rs:146-155] `notional_up_to` *)
Definition notional_up_to (levels : list BookLevel) (limit_price : D) : D :=
  foldl (fun acc level => if dleb (price_decimal level) limit_price then dadd acc (dmul (price_decimal level) (size_decimal level)) else acc) d0 levels.

(** [control/evidence/replay.rs:157-166] `share_depth_down_to` *)
Definition share_depth_down_to (levels : list BookLevel) (limit_price : D) : D :=
  foldl (fun acc level => if dleb limit_price (price_decimal level) then dadd acc (size_decimal level) else acc) d0 levels.

(** [control/evidence/replay.rs:124-144] `build_result` *)
Definition build_result (strict_fill : bool) (filled_shares notional unfilled_amount consumed_depth total_depth : D) : option FokReplayResult :=
  if dleb filled_shares d0 then None
  else Some {|
    fr_strict_fill := strict_fill; fr_vwap := ddiv notional filled_shares; fr_filled_shares := filled_shares; fr_notional := notional;
    fr_unfilled_amount := unfilled_amount; fr_depth_consumed_pct_bps := decimal_bps (dmin consumed_depth total_depth) total_depth |}.

(** [control/evidence/replay.rs:47-56] `replay_buy`, the loop: what remains of the budget, the shares and their cost *)
Fixpoint buy_loop (limit_price : D) (asks : list BookLevel) (remaining filled_shares notional : D) : D * D * D :=
  match asks with
  | [] => (remaining, filled_shares, notional)
  | level :: rest =>
      let price := price_decimal level in
      if dltb limit_price price || dleb remaining d0 then (remaining, filled_shares, notional)
      else
        let used_notional := dmin remaining (dmul price (size_decimal level)) in
        buy_loop limit_price rest (dsub remaining used_notional) (dadd filled_shares (ddiv used_notional price)) (dadd notional used_notional)
  end.

(** [control/evidence/replay.rs:35-66] `replay_buy` *)
Definition replay_buy (asks : list BookLevel) (limit_price budget_usd : D) : option FokReplayResult :=
  let total_depth := notional_up_to asks limit_price in
  if dleb total_depth d0 then None
  else
    let '(remaining, filled_shares, notional) := buy_loop limit_price asks budget_usd d0 d0 in
    build_result (dleb remaining d0) filled_shares notional (dmax remaining d0) notional total_depth.

(** [control/evidence/replay.rs:81-89] `replay_sell`, the loop: the shares that remain, the shares sold and what they bring *)
Fixpoint sell_loop (limit_price : D) (bids : list BookLevel) (remaining filled_shares notional : D) : D * D * D :=
  match bids with
  | [] => (remaining, filled_shares, notional)
  | level :: rest =>
      let price := price_decimal level in
      if dltb price limit_price || dleb remaining d0 then (remaining, filled_shares, notional)
      else
        let used_shares := dmin remaining (size_decimal level) in
        sell_loop limit_price rest (dsub remaining used_shares) (dadd filled_shares used_shares) (dadd notional (dmul used_shares price))
  end.

(** [control/evidence/replay.rs:69-99] `replay_sell` *)
Definition replay_sell (bids : list BookLevel) (limit_price requested_shares : D) : option FokReplayResult :=
  let total_depth := share_depth_down_to bids limit_price in
  if dleb total_depth d0 then None
  else
    let '(remaining, filled_shares, notional) := sell_loop limit_price bids requested_shares d0 d0 in
    build_result (dleb remaining d0) filled_shares notional (dmax remaining d0) filled_shares total_depth.

(** [control/evidence/replay.rs:27-32] `replay_fok` *)
Definition replay_fok (levels : list BookLevel) (request : FokReplayRequest) : option FokReplayResult :=
  match rq_side request with
  | Buy => budget ← rq_buy_budget request; replay_buy levels (rq_limit_price request) budget
  | Sell => shares ← rq_sell_shares request; replay_sell levels (rq_limit_price request) shares
  end.

(** [control/evidence/replay.rs:102-122] `stress_levels` *)
Definition stress_levels (levels : list BookLevel) (side : Side) (adverse_selection_bps : Z) : list BookLevel :=
  let factor := ddiv (dof_Z adverse_selection_bps) (dof_Z 10000) in
  omap (M := list) (fun level =>
          let price := price_decimal level in
          let stressed_price := match side with Buy => dmul price (dadd d1 factor) | Sell => dmul price (dsub d1 factor) end in
          match level_from_decimal (dmin (dmax stressed_price d0) d1) (size_decimal level) with Ok level => Some level | Err _ => None end) levels.
End Rows.

(** ** The stage *)

Section Stage.
Context {DO : DecimalOps} {DEC : Decoding}.

(** [control/evidence/book.rs:113-117] `DecisionBookViewPurpose` *)
Inductive DecisionBookViewPurpose := Detection | TerminalExecution | ExitSimulation.
#[local] Instance purpose_eq_dec : EqDecision DecisionBookViewPurpose.
Proof. solve_decision. Defined.

(** An artifact with its decision views. *)
Record BookWithViews := { bv_artifact : BookReconstructionArtifact; bv_decision_views : list (DecisionBookViewPurpose * DecisionBookView) }.

(** [control/evidence/book.rs:176-185] `BookReconstructionArtifact::materialize_decision_views` *)
Definition materialize_decision_views (book : BookReconstructionArtifact) (requests : list (MarketId * Time * DecisionBookViewPurpose)) (stale_book_after_ms : Z)
    : BookWithViews := {|
  bv_artifact := book;
  bv_decision_views := (fun '(market, time, purpose) => (purpose, decision_view book market time stale_book_after_ms)) <$> requests |}.

(** [control/evidence/execution.rs:53-59] `ExecutionReplayExample` *)
Record ExecutionReplayExample := {
  ex_opportunity_id : OpportunityId; ex_market_id : MarketId; ex_simulated_strict_fok_fill : bool; ex_live_filled : bool; ex_missing_attribution : bool
}.

(** [control/evidence/execution.rs:79-91] `ExecutionSummary` *)
Record ExecutionSummary := {
  es_examples : list ExecutionReplayExample;
  es_true_fill_count : Z;
  es_true_miss_count : Z;
  es_false_fill_count : Z;
  es_false_miss_count : Z;
  es_missing_attribution_count : Z;
  es_simulated_vwap_bps : list Z;
  es_realized_slippage_bps : list Z;
  es_depth_consumed_pct_bps : list Z;
  es_latency_shifted_misses : Z;
  es_adverse_selection_loss_bps : list Z
}.

(** [control/evidence/execution.rs:233-240] `ExecutionReplaySample` *)
Record ExecutionReplaySample := {
  sm_strict_fok_fill : bool; sm_simulated_vwap : D; sm_realized_slippage_bps : option Z; sm_depth_consumed_pct_bps : Z;
  sm_latency_shifted_fill : bool; sm_adverse_selection_loss_bps : Z
}.

(** [control/evidence/execution.rs:276-291] `replay_request` *)
Definition replay_request (audit : OpportunityAuditRow) (limit_price : D) : option FokReplayRequest :=
  match au_side audit with
  | Buy => budget ← au_total_cost_usd audit;
      Some {| rq_side := Buy; rq_limit_price := limit_price; rq_buy_budget := Some budget; rq_sell_shares := None |}
  | Sell => shares ← au_requested_shares audit;
      Some {| rq_side := Sell; rq_limit_price := limit_price; rq_buy_budget := None; rq_sell_shares := Some shares |}
  end.

(** [control/evidence/execution.rs:293-303] `terminal_decision_view_for` *)
Definition terminal_decision_view_for (book : BookWithViews) (audit : OpportunityAuditRow) (decision_time : Time) : option DecisionBookView :=
  snd <$> List.find (fun v => bool_decide (dw_market_id v.2 = au_market_id audit) && (dw_decision_time v.2 =? decision_time)
                              && bool_decide (v.1 = TerminalExecution)) (bv_decision_views book).

Definition holds_token (view : option DecisionTokenBookView) (token : TokenId) : bool :=
  match view with Some v => bool_decide (tb_token_id (dv_book v) = token) | None => false end.

(** [control/evidence/execution.rs:305-324] `token_book_for_audit` *)
Definition token_book_for_audit (view : DecisionBookView) (audit : OpportunityAuditRow) : option DecisionTokenBookView :=
  if holds_token (dw_yes_book view) (au_token_id audit) then dw_yes_book view
  else if holds_token (dw_no_book view) (au_token_id audit) then dw_no_book view else None.

(** [control/evidence/execution.rs:326-331] `levels_for_side` *)
Definition levels_for_side (book : ReconstructedTokenBook) (side : Side) : list BookLevel :=
  match side with Buy => tb_asks book | Sell => tb_bids book end.

(** [control/evidence/execution.rs:333-362] `latency_shifted_fill` *)
Definition latency_shifted_fill (book : BookWithViews) (audit : OpportunityAuditRow) (request : FokReplayRequest) (config : SimulationConfig) : bool :=
  match sc_latency_shifts_ms config with
  | [] => false
  | shifts => forallb (fun shift_ms =>
      match timestamp_millis_opt (sat_i64 (au_stage_at audit + unwrap_or (to_i64 shift_ms) i64_max)) with
      | None => false
      | Some shifted_time =>
          match token_book_at (bv_artifact book) (au_token_id audit) shifted_time with
          | None => false
          | Some token_book =>
              match replay_fok (levels_for_side token_book (au_side audit)) request with Some r => fr_strict_fill r | None => false end
          end
      end) shifts
  end.

(** [control/evidence/execution.rs:364-384] `adverse_selection_loss_bps` *)
Definition adverse_selection_loss_bps (levels : list BookLevel) (request : FokReplayRequest) (replay : FokReplayResult) (config : SimulationConfig) : Z :=
  foldl Z.max 0
    (omap (M := list) (fun stress_bps =>
             stressed ← replay_fok (stress_levels levels (rq_side request) stress_bps) request;
             let loss := match rq_side request with Buy => dsub (fr_vwap stressed) (fr_vwap replay) | Sell => dsub (fr_vwap replay) (fr_vwap stressed) end in
             Some (decimal_bps (dmax loss d0) (fr_vwap replay))) (sc_adverse_selection_bps config)).

(** [control/evidence/execution.rs:242-274] `replay_execution_sample` *)
Definition replay_execution_sample (book : BookWithViews) (audit : OpportunityAuditRow) (config : SimulationConfig) : option ExecutionReplaySample :=
  limit_price ← au_entry_price audit;
  decision_time ← timestamp_millis_opt (au_stage_at audit);
  view ← terminal_decision_view_for book audit decision_time;
  if negb (dw_production_eligible view) then None
  else
    token_book ← token_book_for_audit view audit;
    request ← replay_request audit limit_price;
    let levels := levels_for_side (dv_book token_book) (au_side audit) in
    replay ← replay_fok levels request;
    Some {|
      sm_strict_fok_fill := fr_strict_fill replay; sm_simulated_vwap := fr_vwap replay;
      sm_realized_slippage_bps := (fun fill_price => decimal_bps (dabs (dsub fill_price (fr_vwap replay))) (fr_vwap replay)) <$> au_fill_price audit;
      sm_depth_consumed_pct_bps := fr_depth_consumed_pct_bps replay;
      sm_latency_shifted_fill := latency_shifted_fill book audit request config;
      sm_adverse_selection_loss_bps := adverse_selection_loss_bps levels request replay config |}.

(** [control/evidence/execution.rs:98-138] `summarize_execution`, one audit row *)
Definition summarize_row (book : BookWithViews) (config : SimulationConfig) (s : ExecutionSummary) (audit : OpportunityAuditRow) : ExecutionSummary :=
  let live_filled := bool_decide (au_outcome audit = Some OcSuccess) in
  let missing_attribution := negb (au_has_scored_snapshot audit) || au_has_missing_fields audit in
  let replay := replay_execution_sample book audit config in
  let simulated := match replay with Some sample => sm_strict_fok_fill sample | None => false end in
  let push {A} (l : list A) (f : ExecutionReplaySample -> option A) := l ++ option_list (replay ≫= f) in {|
    es_examples := es_examples s ++ [{| ex_opportunity_id := au_opportunity_id audit; ex_market_id := au_market_id audit;
                                        ex_simulated_strict_fok_fill := simulated; ex_live_filled := live_filled; ex_missing_attribution := missing_attribution |}];
    es_true_fill_count := if simulated && live_filled then sat_u64 (es_true_fill_count s + 1) else es_true_fill_count s;
    es_true_miss_count := if negb simulated && negb live_filled then sat_u64 (es_true_miss_count s + 1) else es_true_miss_count s;
    es_false_fill_count := if simulated && negb live_filled then sat_u64 (es_false_fill_count s + 1) else es_false_fill_count s;
    es_false_miss_count := if negb simulated && live_filled then sat_u64 (es_false_miss_count s + 1) else es_false_miss_count s;
    es_missing_attribution_count := if missing_attribution then sat_u64 (es_missing_attribution_count s + 1) else es_missing_attribution_count s;
    es_simulated_vwap_bps := push (es_simulated_vwap_bps s) (fun x => Some (decimal_bps (sm_simulated_vwap x) d1));
    es_realized_slippage_bps := push (es_realized_slippage_bps s) sm_realized_slippage_bps;
    es_depth_consumed_pct_bps := push (es_depth_consumed_pct_bps s) (fun x => Some (sm_depth_consumed_pct_bps x));
    es_latency_shifted_misses := match replay with
                                 | Some x => if sm_latency_shifted_fill x then es_latency_shifted_misses s else sat_u64 (es_latency_shifted_misses s + 1)
                                 | None => es_latency_shifted_misses s
                                 end;
    es_adverse_selection_loss_bps := push (es_adverse_selection_loss_bps s) (fun x => Some (sm_adverse_selection_loss_bps x)) |}.

Definition empty_summary : ExecutionSummary := {|
  es_examples := []; es_true_fill_count := 0; es_true_miss_count := 0; es_false_fill_count := 0; es_false_miss_count := 0; es_missing_attribution_count := 0;
  es_simulated_vwap_bps := []; es_realized_slippage_bps := []; es_depth_consumed_pct_bps := []; es_latency_shifted_misses := 0; es_adverse_selection_loss_bps := [] |}.

(** [control/evidence/execution.rs:93-141] `summarize_execution` *)
Definition summarize_execution (book : BookWithViews) (terminal : list OpportunityAuditRow) (config : SimulationConfig) : ExecutionSummary :=
  foldl (summarize_row book config) empty_summary terminal.

(** [control/evidence/execution.rs:32-50] `ExecutionEvidenceReport`, without its fingerprints *)
Record ExecutionEvidenceReport := {
  xr_strict_fok_fill_rate_bps : Z;
  xr_live_fill_rate_bps : Z;
  xr_true_fill_count : Z;
  xr_true_miss_count : Z;
  xr_false_fill_count : Z;
  xr_false_miss_count : Z;
  xr_simulated_vwap_p50_bps : EvidenceMetric Z;
  xr_simulated_vwap_p95_bps : EvidenceMetric Z;
  xr_realized_slippage_p50_bps : EvidenceMetric Z;
  xr_realized_slippage_p95_bps : EvidenceMetric Z;
  xr_depth_consumed_pct_p50_bps : EvidenceMetric Z;
  xr_depth_consumed_pct_p95_bps : EvidenceMetric Z;
  xr_latency_shifted_miss_rate_bps : EvidenceMetric Z;
  xr_adverse_selection_loss_p95_bps : EvidenceMetric Z;
  xr_missing_attribution_count : Z
}.

(** [control/evidence/execution.rs:421-429] `percentile_metric` *)
Definition percentile_metric (values : list Z) (pct : nat) (code reason : string) : EvidenceMetric Z :=
  match percentile_u64 values pct with Some v => MtAvailable v | None => MtUnavailable code reason end.

(** [saturating_mul(10_000).checked_div(total).unwrap_or(0)] *)
Definition rate_bps (count total : Z) : Z := if total =? 0 then 0 else sat_u64 (count * 10000) ÷ total.

(** [control/evidence/execution.rs:143-230] `build_report`; the correlation of book ages with fills, never available, is left out *)
Definition build_execution_report (s : ExecutionSummary) : ExecutionEvidenceReport :=
  let total := Z.of_nat (length (es_examples s)) in
  let vwap pct := percentile_metric (es_simulated_vwap_bps s) pct "execution.vwap_model_missing" "VWAP distribution requires depth-weighted replay samples" in
  let slippage pct := percentile_metric (es_realized_slippage_bps s) pct "execution.slippage_labels_missing"
                        "realized slippage requires comparable terminal fill attribution" in
  let depth pct := percentile_metric (es_depth_consumed_pct_bps s) pct "execution.depth_distribution_missing"
                     "depth consumption distribution requires depth-weighted replay samples" in {|
    xr_strict_fok_fill_rate_bps := rate_bps (sat_u64 (es_true_fill_count s + es_false_fill_count s)) total;
    xr_live_fill_rate_bps := rate_bps (sat_u64 (es_true_fill_count s + es_false_miss_count s)) total;
    xr_true_fill_count := es_true_fill_count s; xr_true_miss_count := es_true_miss_count s;
    xr_false_fill_count := es_false_fill_count s; xr_false_miss_count := es_false_miss_count s;
    xr_simulated_vwap_p50_bps := vwap 50%nat; xr_simulated_vwap_p95_bps := vwap 95%nat;
    xr_realized_slippage_p50_bps := slippage 50%nat; xr_realized_slippage_p95_bps := slippage 95%nat;
    xr_depth_consumed_pct_p50_bps := depth 50%nat; xr_depth_consumed_pct_p95_bps := depth 95%nat;
    xr_latency_shifted_miss_rate_bps :=
      if total =? 0 then MtUnavailable "execution.latency_trace_missing" "latency-shifted FOK requires matched replay samples"
      else MtAvailable (rate_bps (es_latency_shifted_misses s) total);
    xr_adverse_selection_loss_p95_bps := percentile_metric (es_adverse_selection_loss_bps s) 95 "execution.stress_model_missing"
                                           "adverse-selection stress requires matched replay samples";
    xr_missing_attribution_count := es_missing_attribution_count s |}.

(** [control/evidence/metric_gate.rs:17-33] `execution_production_required_missing_count` *)
Definition execution_production_required_missing_count (r : ExecutionEvidenceReport) : Z :=
  metric_missing (xr_simulated_vwap_p50_bps r) + metric_missing (xr_simulated_vwap_p95_bps r) + metric_missing (xr_realized_slippage_p50_bps r)
  + metric_missing (xr_realized_slippage_p95_bps r) + metric_missing (xr_depth_consumed_pct_p50_bps r) + metric_missing (xr_depth_consumed_pct_p95_bps r)
  + metric_missing (xr_latency_shifted_miss_rate_bps r) + metric_missing (xr_adverse_selection_loss_p95_bps r).

(** ** One row per opportunity *)

Definition is_terminal (row : OpportunityAuditRow) : bool := match au_stage row with StFilled | StMissed | StFailed => true | _ => false end.

(** The columns in the order they are compared. *)
Definition terminal_key (r : OpportunityAuditRow) : list Z :=
  [au_opportunity_id r; - au_stage_order r; - au_stage_at r; - au_ingestion_time r; - au_sequence r].

(** [cmp(..).then(cmp(..))]. *)
Fixpoint lex_leb (a b : list Z) : bool :=
  match a, b with
  | x :: a, y :: b => match x ?= y with Lt => true | Gt => false | Eq => lex_leb a b end
  | [], _ => true
  | _, [] => false
  end.

Definition terminal_leb (a b : OpportunityAuditRow) : bool := lex_leb (terminal_key a) (terminal_key b).

(** [Vec::dedup_by]: an element that matches the last one kept is dropped. *)
Fixpoint dedup_after (last : OpportunityId) (rows : list OpportunityAuditRow) : list OpportunityAuditRow :=
  match rows with
  | [] => []
  | r :: rest => if au_opportunity_id r =? last then dedup_after last rest else r :: dedup_after (au_opportunity_id r) rest
  end.
Definition dedup_rows (rows : list OpportunityAuditRow) : list OpportunityAuditRow :=
  match rows with [] => [] | r :: rest => r :: dedup_after (au_opportunity_id r) rest end.

(** [control/evidence/execution.rs:386-419] `terminal_audits` *)
Definition terminal_audits (audits : list OpportunityAuditRow) : list OpportunityAuditRow :=
  dedup_rows (sort_by terminal_leb (List.filter is_terminal audits)).

(** [control/evidence/execution.rs:25-29] `ExecutionEvidenceArtifact` *)
Record ExecutionEvidenceArtifact := { xa_report : ExecutionEvidenceReport; xa_examples : list ExecutionReplayExample; xa_audits : list OpportunityAuditRow }.

(** [control/evidence/execution.rs:62-76] `build` *)
Definition build_execution (book : BookWithViews) (audits : list OpportunityAuditRow) (config : SimulationConfig) : ExecutionEvidenceArtifact :=
  let terminal := terminal_audits audits in
  let summary := summarize_execution book terminal config in
  {| xa_report := build_execution_report summary; xa_examples := es_examples summary; xa_audits := terminal |}.

(** [control/evidence/engine.rs:203-286] `EvidenceStageEngine::execution_evidence`, on the rows the store answered: the status and the artifact *)
Definition execution_evidence (output_policy : MaterializationOutputPolicy) (stale_book_after_ms : Z) (config : SimulationConfig)
    (book : BookReconstructionArtifact) (audits : list OpportunityAuditRow) : EvidenceStageStatus * ExecutionEvidenceArtifact :=
  let requests := omap (M := list) (fun row => (fun time => (au_market_id row, time, TerminalExecution)) <$> timestamp_millis_opt (au_stage_at row)) audits in
  let artifact := build_execution (materialize_decision_views book requests stale_book_after_ms) audits config in
  let status := decide_stage {|
    sg_output_policy := output_policy; sg_coverage := coverage_complete (Z.of_nat (length (xa_examples artifact))); sg_blocking_issue_count := 0;
    sg_warning_count := if 0 <? xr_missing_attribution_count (xa_report artifact) then 1 else 0;
    sg_required_metric_missing_count := execution_production_required_missing_count (xa_report artifact) |} in
  (status, artifact).
End Stage.

(** ** The replay of a buy *)

Section Replay.
Context `{DL : DecimalLaws}.

(** The money asked at or below the limit, in [10^-12] dollars: a price and a size are both counted in millionths. *)
Fixpoint ask_depth (limit : MicroPrice) (asks : list BookLevel) : Z :=
  match asks with
  | [] => 0
  | l :: rest => (if lv_price l <=? limit then lv_price l * lv_size l else 0) + ask_depth limit rest
  end.

Definition pico (x : D) (m : Z) : Prop := (dval x == grid m 12)%Q.

Lemma pico_add x y a b : pico x a -> pico y b -> Z.abs (a + b) < 2 ^ 96 -> pico (dadd x y) (a + b).
Proof.
  unfold pico. intros Hx Hy Hb. rewrite dadd_spec, Hx, Hy. assert (grid a 12 + grid b 12 == grid (a + b) 12)%Q as -> by (unfold grid, Qeq, Qplus; cbn; lia).
  apply rnd_repr, repr_grid; lia.
Qed.

Lemma pico_sub x y a b : pico x a -> pico y b -> Z.abs (a - b) < 2 ^ 96 -> pico (dsub x y) (a - b).
Proof.
  unfold pico. intros Hx Hy Hb. rewrite dsub_spec, Hx, Hy. assert (grid a 12 - grid b 12 == grid (a - b) 12)%Q as -> by (unfold grid, Qeq, Qminus, Qplus, Qopp; cbn; lia).
  apply rnd_repr, repr_grid; lia.
Qed.

Lemma pico_le x y a b : pico x a -> pico y b -> dleb x y = (a <=? b).
Proof.
  unfold pico. intros Hx Hy. apply eq_true_iff_eq. rewrite dleb_le, Z.leb_le, Hx, Hy. unfold grid, Qle. cbn. lia.
Qed.

Lemma pico_min x y a b : pico x a -> pico y b -> pico (dmin x y) (Z.min a b).
Proof.
  intros Hx Hy. unfold dmin, dltb. rewrite (pico_le x y a b Hx Hy). destruct (Z.leb_spec a b); cbn; [by rewrite Z.min_l by lia | by rewrite Z.min_r by lia].
Qed.

Lemma pico_max0 x a : pico x a -> pico (dmax x d0) (Z.max a 0).
Proof.
  assert (pico d0 0) as H0 by (unfold pico; rewrite dval_d0; unfold grid, Qeq; cbn; lia). intros Hx. unfold dmax, dltb. rewrite (pico_le d0 x 0 a H0 Hx).
  destruct (Z.leb_spec 0 a); cbn; [by rewrite Z.max_l by lia | by rewrite Z.max_r by lia].
Qed.

Lemma pico_0 : pico d0 0.
Proof. unfold pico. rewrite dval_d0. unfold grid, Qeq. cbn. lia. Qed.

Lemma level_value l : on_grid l -> pico (dmul (price_decimal l) (size_decimal l)) (lv_price l * lv_size l).
Proof.
  intros Hl. pose proof (on_grid_i64 l Hl) as [Hp Hs]. unfold pico, price_decimal, size_decimal. rewrite dmul_spec, !to_decimal_val by done.
  assert (grid (lv_price l) 6 * grid (lv_size l) 6 == grid (lv_price l * lv_size l) 12)%Q as -> by (unfold grid, Qeq, Qmult; cbn; lia).
  apply rnd_repr, repr_grid; [|lia]. unfold on_grid, MICRO_SCALE in Hl. unfold_ints. nia.
Qed.

Lemma within_limit l limit limit_price : on_grid l -> (dval limit_price == grid limit 6)%Q ->
  dleb (price_decimal l) limit_price = (lv_price l <=? limit).
Proof.
  intros Hl%on_grid_i64 Hlim. apply eq_true_iff_eq. unfold price_decimal. rewrite dleb_le, Z.leb_le, Hlim, to_decimal_val by tauto. unfold grid, Qle. cbn. lia.
Qed.

Lemma ask_depth_nonneg limit asks : Forall on_grid asks -> 0 <= ask_depth limit asks.
Proof. induction 1 as [|l asks Hl _ IH]; cbn; [lia|]. unfold on_grid in Hl. destruct (_ <=? _); nia. Qed.

Lemma notional_up_to_depth limit limit_price asks : (dval limit_price == grid limit 6)%Q -> Forall on_grid asks -> ask_depth limit asks < 2 ^ 96 ->
  pico (notional_up_to asks limit_price) (ask_depth limit asks).
Proof.
  intros Hlim Hg. unfold notional_up_to. enough (forall acc a, pico acc a -> 0 <= a -> a + ask_depth limit asks < 2 ^ 96 ->
    pico (foldl (fun acc level => if dleb (price_decimal level) limit_price then dadd acc (dmul (price_decimal level) (size_decimal level)) else acc) acc asks)
         (a + ask_depth limit asks)) as H.
  { intros Hb. apply (H d0 0); [apply pico_0 | lia | lia]. }
  induction Hg as [|l asks Hl Hg IH]; intros acc a Ha Ha0 Hb; cbn in *; [by rewrite Z.add_0_r|].
  pose proof (ask_depth_nonneg limit asks Hg). rewrite (within_limit l limit) by done. destruct (lv_price l <=? limit); [|by apply IH].
  rewrite Z.add_assoc in *. assert (0 <= lv_price l * lv_size l) by (unfold on_grid in Hl; nia). apply IH; [|lia|done].
  apply pico_add; [done | by apply level_value | lia].
Qed.

(** Above the limit there is nothing to buy: the asks are in ascending order. *)
Lemma ask_depth_above limit l asks : side_ok false (l :: asks) -> limit < lv_price l -> ask_depth limit (l :: asks) = 0.
Proof.
  intros [Hs _] Hl. apply StronglySorted_inv in Hs as [_ Hs]. cbn. destruct (Z.leb_spec (lv_price l) limit); [lia|]. cbn.
  induction Hs as [|x asks Hx _ IH]; cbn; [done|]. unfold lkey, key in Hx. destruct (Z.leb_spec (lv_price x) limit); [lia | done].
Qed.

Lemma side_ok_tail descending l levels : side_ok descending (l :: levels) -> side_ok descending levels.
Proof. intros [Hs Hf]. apply StronglySorted_inv in Hs as [Hs _]. by apply Forall_cons in Hf as [_ Hf]. Qed.

Lemma buy_loop_money limit limit_price asks : (dval limit_price == grid limit 6)%Q -> Forall on_grid asks -> side_ok false asks ->
  forall remaining filled notional r n, pico remaining r -> pico notional n -> 0 <= r -> 0 <= n -> n + r < 2 ^ 96 ->
  let '(remaining', _, notional') := buy_loop limit_price asks remaining filled notional in
  pico remaining' (r - Z.min r (ask_depth limit asks)) /\ pico notional' (n + Z.min r (ask_depth limit asks)).
Proof.
  intros Hlim Hg. induction Hg as [|l asks Hl Hg IH]; intros Hok remaining filled notional r n Hr Hn Hr0 Hn0 Hb; cbn [buy_loop].
  { cbn. rewrite Z.min_r, Z.sub_0_r, Z.add_0_r by lia. done. }
  unfold dltb. rewrite (within_limit l limit), (pico_le _ _ _ _ Hr pico_0) by done. destruct (Z.leb_spec (lv_price l) limit) as [Hle|Hgt]; cbn [negb orb].
  2:{ rewrite ask_depth_above by done. rewrite Z.min_r, Z.sub_0_r, Z.add_0_r by lia. done. }
  destruct (Z.leb_spec r 0) as [H0|H0].
  - assert (r = 0) as -> by lia. rewrite Z.min_l by by apply ask_depth_nonneg, Forall_cons. rewrite Z.sub_0_r, Z.add_0_r. done.
  - pose proof (level_value l Hl) as Hv. pose proof (pico_min _ _ _ _ Hr Hv) as Hu. set (used := Z.min r (lv_price l * lv_size l)) in *.
    assert (0 <= lv_price l * lv_size l) by (unfold on_grid in Hl; nia). pose proof (ask_depth_nonneg limit asks Hg).
    pose proof (IH (side_ok_tail _ _ _ Hok) (dsub remaining (dmin remaining (dmul (price_decimal l) (size_decimal l))))
      (dadd filled (ddiv (dmin remaining (dmul (price_decimal l) (size_decimal l))) (price_decimal l)))
      (dadd notional (dmin remaining (dmul (price_decimal l) (size_decimal l)))) (r - used) (n + used)) as IH'.
    destruct (buy_loop _ _ _ _ _) as [[rem' fil'] not']. cbn. rewrite (proj2 (Z.leb_le _ _) Hle).
    replace (r - Z.min r (lv_price l * lv_size l + ask_depth limit asks)) with (r - used - Z.min (r - used) (ask_depth limit asks)) by (unfold used; lia).
    replace (n + Z.min r (lv_price l * lv_size l + ask_depth limit asks)) with (n + used + Z.min (r - used) (ask_depth limit asks)) by (unfold used; lia).
    apply IH'; [apply pico_sub; [done|done|lia] | apply pico_add; [done|done|lia] | lia..].
Qed.

Lemma price_positive l : on_grid l -> (0 < dval (price_decimal l))%Q /\ (dval (price_decimal l) <= 1)%Q.
Proof.
  intros Hl. pose proof (on_grid_i64 l Hl) as [Hp _]. unfold price_decimal. rewrite !to_decimal_val by done.
  unfold on_grid, MICRO_SCALE in Hl. unfold grid, Qlt, Qle. cbn. lia.
Qed.

Lemma buy_loop_filled limit_price asks : Forall on_grid asks -> forall remaining filled notional, (0 <= dval filled)%Q ->
  (dval filled <= dval (buy_loop limit_price asks remaining filled notional).1.2)%Q.
Proof.
  induction 1 as [|l asks Hl _ IH]; intros remaining filled notional Hf; cbn; [apply Qle_refl|].
  destruct (dltb limit_price _ || dleb remaining d0) eqn:E; [apply Qle_refl|]. apply orb_false_iff in E as [_ Er]. dbool. rewrite dval_d0 in Er.
  assert (dval filled <= dval (dadd filled (ddiv (dmin remaining (dmul (price_decimal l) (size_decimal l))) (price_decimal l))))%Q as Hstep.
  { assert (0 <= dval (dmin remaining (dmul (price_decimal l) (size_decimal l))))%Q as Hu.
    { destruct (dmin_cases remaining (dmul (price_decimal l) (size_decimal l))) as [[-> ?]|[-> ?]]; [lra|].
      pose proof (level_value l Hl) as Hv. unfold pico in Hv. rewrite Hv.
      unfold on_grid in Hl. unfold grid, Qle. cbn. nia. }
    pose proof (price_positive l Hl) as [Hp _]. by apply dadd_ge_l, ddiv_nonneg. }
  eapply Qle_trans; [exact Hstep|]. apply IH. lra.
Qed.

(** Replaying a buy is exact: with money asked at or below the limit it spends the smaller of the
    budget and that money, fills strictly exactly when the book has the whole budget, and reports the rest as unfilled. *)
Theorem replay_buy_exact (asks : list BookLevel) (limit : MicroPrice) (limit_price budget : D) (b : Z) :
  side_ok false asks -> Forall on_grid asks -> (dval limit_price == grid limit 6)%Q -> pico budget b ->
  0 < b < 2 ^ 96 -> 0 < ask_depth limit asks < 2 ^ 96 ->
  exists r, replay_buy asks limit_price budget = Some r /\
    fr_strict_fill r = (b <=? ask_depth limit asks) /\
    pico (fr_notional r) (Z.min b (ask_depth limit asks)) /\
    pico (fr_unfilled_amount r) (b - Z.min b (ask_depth limit asks)).
Proof.
  intros Hok Hg Hlim Hb Hb0 Hd. unfold replay_buy. rewrite (pico_le _ _ _ _ (notional_up_to_depth limit _ asks Hlim Hg ltac:(lia)) pico_0).
  rewrite (proj2 (Z.leb_gt _ _)) by lia. pose proof (buy_loop_money limit _ asks Hlim Hg Hok budget d0 d0 b 0 Hb pico_0 ltac:(lia) ltac:(lia) ltac:(lia)) as Hm.
  assert (0 < dval (buy_loop limit_price asks budget d0 d0).1.2)%Q as Hf.
  { destruct Hg as [|l asks Hl Hg]; [cbn in Hd; lia|]. cbn. unfold dltb. rewrite (within_limit l limit), (pico_le _ _ _ _ Hb pico_0) by done.
    destruct (Z.leb_spec (lv_price l) limit) as [Hle|Hgt]; [|rewrite ask_depth_above in Hd by done; lia]. cbn [negb orb].
    rewrite (proj2 (Z.leb_gt _ _)) by lia. pose proof (pico_min _ _ _ _ Hb (level_value l Hl)) as Hu. pose proof (price_positive l Hl) as [Hp Hp1].
    assert (0 < lv_size l) by (destruct Hok as [_ Hok]; by apply Forall_cons in Hok as [? _]).
    assert (1 <= Z.min b (lv_price l * lv_size l)) by (unfold on_grid in Hl; nia).
    assert (grid 1 12 <= dval (ddiv (dmin budget (dmul (price_decimal l) (size_decimal l))) (price_decimal l)))%Q as Hq.
    { rewrite ddiv_spec by lra. rewrite <- (rnd_repr (grid 1 12)) by (apply repr_grid; lia). apply rnd_mono. apply Qle_shift_div_l; [done|].
      unfold pico in Hu. rewrite Hu. apply (Qle_trans _ (grid 1 12 * 1)); [apply Qmult_le_l; [done | exact Hp1]|]. unfold grid, Qle, Qmult. cbn. lia. }
    assert (grid 1 12 <= dval (dadd d0 (ddiv (dmin budget (dmul (price_decimal l) (size_decimal l))) (price_decimal l))))%Q as Hq'.
    { rewrite dadd_spec, dval_d0. rewrite <- (rnd_repr (grid 1 12)) by (apply repr_grid; lia). apply rnd_mono. lra. }
    eapply Qlt_le_trans; [|apply buy_loop_filled; [done|]]; [eapply Qlt_le_trans; [|exact Hq']; done|]. eapply Qle_trans; [|exact Hq']. done. }
  destruct (buy_loop limit_price asks budget d0 d0) as [[remaining filled] notional]. destruct Hm as [Hr Hn]. cbn in Hf.
  unfold build_result. replace (dleb filled d0) with false by (symmetry; apply dleb_gt; by rewrite dval_d0). eexists. split; [done|]. cbn.
  rewrite (pico_le _ _ _ _ Hr pico_0). split_and!; [|exact Hn|].
  - apply eq_true_iff_eq. rewrite !Z.leb_le. lia.
  - replace (b - Z.min b (ask_depth limit asks)) with (Z.max (b - Z.min b (ask_depth limit asks)) 0) by lia. by apply pico_max0.
Qed.
End Replay.

(** ** One outcome per opportunity *)

Section Outcomes.
Context {DO : DecimalOps}.

Lemma lex_total a : forall b, length a = length b -> lex_leb a b = true \/ lex_leb b a = true.
Proof.
  induction a as [|x a IH]; intros [|y b] H; try done; [by left|]. cbn. rewrite (Z.compare_antisym x y).
  destruct (x ?= y); cbn; auto.
Qed.

Lemma lex_trans a : forall b c, lex_leb a b = true -> lex_leb b c = true -> lex_leb a c = true.
Proof.
  induction a as [|x a IH]; intros [|y b] [|z c] H1 H2; try done. cbn in *.
  destruct (Z.compare_spec x y), (Z.compare_spec y z), (Z.compare_spec x z); subst; try done; try lia. by eapply IH.
Qed.

Lemma terminal_total (x y : OpportunityAuditRow) : terminal_leb x y = true \/ terminal_leb y x = true.
Proof. by apply lex_total. Qed.

Lemma terminal_trans (x y z : OpportunityAuditRow) : terminal_leb x y = true -> terminal_leb y z = true -> terminal_leb x z = true.
Proof. apply lex_trans. Qed.

Lemma terminal_opportunity (x y : OpportunityAuditRow) : terminal_leb x y = true -> au_opportunity_id x <= au_opportunity_id y.
Proof. unfold terminal_leb. cbn. destruct (Z.compare_spec (au_opportunity_id x) (au_opportunity_id y)); [lia|lia|done]. Qed.

Definition sorted_rows (rows : list OpportunityAuditRow) : Prop := StronglySorted (fun a b => terminal_leb a b = true) rows.

(** What is kept after a row of [last]: each opportunity once, its first row, and none of [last]. *)
Lemma dedup_after_spec rows : forall last, sorted_rows rows -> Forall (fun r => last <= au_opportunity_id r) rows ->
  NoDup (au_opportunity_id <$> dedup_after last rows) /\
  Forall (fun r => last < au_opportunity_id r) (dedup_after last rows) /\
  (forall r, r ∈ dedup_after last rows -> r ∈ rows /\ forall r', r' ∈ rows -> au_opportunity_id r' = au_opportunity_id r -> terminal_leb r r' = true) /\
  (forall r, r ∈ rows -> au_opportunity_id r = last \/ exists k, k ∈ dedup_after last rows /\ au_opportunity_id k = au_opportunity_id r).
Proof.
  induction rows as [|r rows IH]; intros last Hs Hl; cbn [dedup_after].
  { split_and!; [constructor | constructor | intros ? []%not_elem_of_nil | intros ? []%not_elem_of_nil]. }
  apply StronglySorted_inv in Hs as [Hs Hr]. apply Forall_cons in Hl as [Hl0 Hl]. destruct (Z.eqb_spec (au_opportunity_id r) last) as [E|E].
  - destruct (IH last Hs Hl) as (H1 & H2 & H3 & H4). split_and!; [done|done| |].
    + intros k Hk. destruct (H3 k Hk) as [Hin Hmin]. split; [by right|]. intros r' [->|Hr']%elem_of_cons Er; [|by apply Hmin].
      rewrite Forall_forall in H2. specialize (H2 k Hk). lia.
    + intros k [->|Hk]%elem_of_cons; [by left | by apply H4].
  - assert (Forall (fun x => au_opportunity_id r <= au_opportunity_id x) rows) as Hge.
    { eapply Forall_impl; [exact Hr|]. intros x. apply terminal_opportunity. }
    destruct (IH (au_opportunity_id r) Hs Hge) as (H1 & H2 & H3 & H4). split_and!.
    + cbn. constructor; [|done]. intros (k & Ek & Hk)%list_elem_of_fmap. rewrite Forall_forall in H2. specialize (H2 k Hk). lia.
    + constructor; [lia|]. eapply Forall_impl; [exact H2|]. cbn. lia.
    + intros k [->|Hk]%elem_of_cons.
      * split; [by left|]. intros r' [->|Hr']%elem_of_cons _; [|by rewrite Forall_forall in Hr; apply Hr].
        destruct (terminal_total r r); done.
      * destruct (H3 k Hk) as [Hin Hmin]. split; [by right|]. intros r' [->|Hr']%elem_of_cons Er; [|by apply Hmin].
        rewrite Forall_forall in H2. specialize (H2 k Hk). lia.
    + intros k [->|Hk]%elem_of_cons; right; [exists r; split; [by left | done]|].
      destruct (H4 k Hk) as [Ek|(k' & Hk' & Ek)]; [exists r; split; [by left | done] | exists k'; split; [by right | done]].
Qed.

Lemma dedup_rows_spec rows : sorted_rows rows ->
  NoDup (au_opportunity_id <$> dedup_rows rows) /\
  (forall r, r ∈ dedup_rows rows -> r ∈ rows /\ forall r', r' ∈ rows -> au_opportunity_id r' = au_opportunity_id r -> terminal_leb r r' = true) /\
  (forall r, r ∈ rows -> exists k, k ∈ dedup_rows rows /\ au_opportunity_id k = au_opportunity_id r).
Proof.
  destruct rows as [|r rows]; intros Hs; [split_and!; [constructor | intros ? []%not_elem_of_nil | intros ? []%not_elem_of_nil]|].
  pose proof (dedup_after_spec (r :: rows) (au_opportunity_id r - 1) Hs) as H. cbn [dedup_after] in H.
  destruct (Z.eqb_spec (au_opportunity_id r) (au_opportunity_id r - 1)); [lia|]. destruct H as (H1 & H2 & H3 & H4).
  { apply StronglySorted_inv in Hs as [_ Hr]. constructor; [lia|]. eapply Forall_impl; [exact Hr|]. intros x Hx%terminal_opportunity. lia. }
  split_and!; [done | done|]. intros k Hk. destruct (H4 k Hk) as [E|?]; [|done].
  apply elem_of_cons in Hk as [->|Hk]; [lia|]. apply StronglySorted_inv in Hs as [_ Hr]. rewrite Forall_forall in Hr.
  specialize (Hr k Hk). apply terminal_opportunity in Hr. lia.
Qed.

(** Every opportunity that reached a terminal stage is counted once, by its most terminal and newest row, whatever rows the
    store repeats. *)
Theorem terminal_audits_latest (audits : list OpportunityAuditRow) :
  NoDup (au_opportunity_id <$> terminal_audits audits) /\
  (forall r, r ∈ terminal_audits audits ->
     r ∈ audits /\ is_terminal r = true /\
     forall r', r' ∈ audits -> is_terminal r' = true -> au_opportunity_id r' = au_opportunity_id r -> terminal_leb r r' = true) /\
  (forall r, r ∈ audits -> is_terminal r = true -> exists k, k ∈ terminal_audits audits /\ au_opportunity_id k = au_opportunity_id r).
Proof.
  unfold terminal_audits. set (rows := List.filter is_terminal audits).
  assert (forall r, r ∈ sort_by terminal_leb rows <-> r ∈ audits /\ is_terminal r = true) as Hin.
  { intros r. rewrite sort_by_perm. unfold rows. rewrite !list_elem_of_In. apply filter_In. }
  destruct (dedup_rows_spec (sort_by terminal_leb rows)) as (H1 & H2 & H3); [apply sort_by_sorted; [apply terminal_total | apply terminal_trans]|].
  split_and!; [done| |].
  - intros r Hr. destruct (H2 r Hr) as [Hr' Hmin]. apply Hin in Hr' as [? ?]. split_and!; [done|done|]. intros r' Hr' Ht. apply Hmin. by apply Hin.
  - intros r Hr Ht. apply H3. by apply Hin.
Qed.

Context {DEC : Decoding}.

(** The four outcomes and the replays of a summary. *)
Record summary_ok (s : ExecutionSummary) : Prop := {
  so_outcomes : es_true_fill_count s + es_true_miss_count s + es_false_fill_count s + es_false_miss_count s = Z.of_nat (length (es_examples s));
  so_counts : 0 <= es_true_fill_count s /\ 0 <= es_true_miss_count s /\ 0 <= es_false_fill_count s /\ 0 <= es_false_miss_count s;
  so_misses : 0 <= es_latency_shifted_misses s <= Z.of_nat (length (es_simulated_vwap_bps s));
  so_replayed : (length (es_simulated_vwap_bps s) <= length (es_examples s))%nat
}.

Lemma sat_succ z : 0 <= z < u64_max -> sat_u64 (z + 1) = z + 1.
Proof. unfold_ints. lia. Qed.

Lemma summarize_row_ok book config s audit : summary_ok s -> Z.of_nat (length (es_examples s)) < u64_max ->
  summary_ok (summarize_row book config s audit) /\ length (es_examples (summarize_row book config s audit)) = S (length (es_examples s)).
Proof.
  intros [H1 H2 H3 H4] Hlen. split; [|cbn; rewrite length_app; cbn; lia]. set (sim := match replay_execution_sample book audit config with Some x => sm_strict_fok_fill x | None => false end).
  assert (length (es_examples (summarize_row book config s audit)) = S (length (es_examples s))) as El by (cbn; rewrite length_app; cbn; lia).
  constructor; rewrite ?El; cbn; fold sim.
  - destruct sim, (bool_decide (au_outcome audit = Some OcSuccess)); cbn; rewrite ?sat_succ by lia; lia.
  - destruct sim, (bool_decide (au_outcome audit = Some OcSuccess)); cbn; rewrite ?sat_succ by lia; lia.
  - rewrite length_app. destruct (replay_execution_sample book audit config) as [x|]; cbn; [|lia]. destruct (sm_latency_shifted_fill x); [lia|]. rewrite sat_succ; lia.
  - rewrite length_app. destruct (replay_execution_sample book audit config) as [x|]; cbn; lia.
Qed.

Lemma summarize_ok book config rows : forall s, summary_ok s -> Z.of_nat (length (es_examples s) + length rows) <= u64_max ->
  summary_ok (foldl (summarize_row book config) s rows) /\
  length (es_examples (foldl (summarize_row book config) s rows)) = (length (es_examples s) + length rows)%nat.
Proof.
  induction rows as [|r rows IH]; intros s Hs Hlen; cbn [foldl length] in *; [split; [done | lia]|].
  destruct (summarize_row_ok book config s r Hs) as [Hs' El]; [lia|]. destruct (IH _ Hs') as [? ?]; [lia|]. split; [done | lia].
Qed.

Lemma empty_summary_ok : summary_ok empty_summary.
Proof. constructor; cbn; lia. Qed.

(** Every opportunity with a terminal row falls in exactly one of the four outcomes: the counts of the report add up to the
    opportunities examined. *)
Theorem execution_outcomes_partition (book : BookWithViews) (audits : list OpportunityAuditRow) (config : SimulationConfig) :
  Z.of_nat (length (terminal_audits audits)) <= u64_max ->
  let r := xa_report (build_execution book audits config) in
  xr_true_fill_count r + xr_true_miss_count r + xr_false_fill_count r + xr_false_miss_count r = Z.of_nat (length (terminal_audits audits)) /\
  length (xa_examples (build_execution book audits config)) = length (terminal_audits audits).
Proof.
  intros Hlen. destruct (summarize_ok book config (terminal_audits audits) empty_summary empty_summary_ok) as [Hok El]; [done|].
  cbn. change (es_examples (foldl _ _ _)) with (es_examples (summarize_execution book (terminal_audits audits) config)).
  unfold summarize_execution in *. destruct Hok as [H1 _ _ _]. cbn in El. split; lia.
Qed.

(** The rate of orders lost to latency counts as a fill every opportunity whose book could not be replayed: it is at most the share of the
    replayed ones, and reads zero when none was replayed. *)
Theorem latency_miss_rate_capped (book : BookWithViews) (audits : list OpportunityAuditRow) (config : SimulationConfig) :
  let rows := terminal_audits audits in
  let replayed := Z.of_nat (length (es_simulated_vwap_bps (summarize_execution book rows config))) in
  0 < Z.of_nat (length rows) <= u64_max -> replayed * 10000 <= u64_max ->
  exists rate, xr_latency_shifted_miss_rate_bps (xa_report (build_execution book audits config)) = MtAvailable rate /\
    0 <= rate /\ rate * Z.of_nat (length rows) <= replayed * 10000.
Proof.
  intros rows replayed Hlen Hrep. destruct (summarize_ok book config rows empty_summary empty_summary_ok) as [[_ _ Hm _] El]; [cbn; lia|].
  cbn in El. change (foldl _ _ _) with (summarize_execution book rows config) in Hm, El. fold replayed in Hm.
  unfold build_execution, build_execution_report. cbn -[summarize_execution terminal_audits]. fold rows. rewrite El.
  rewrite (proj2 (Z.eqb_neq _ _)) by lia. eexists. split; [done|]. unfold rate_bps. rewrite (proj2 (Z.eqb_neq _ _)) by lia.
  assert (sat_u64 (es_latency_shifted_misses (summarize_execution book rows config) * 10000) =
          es_latency_shifted_misses (summarize_execution book rows config) * 10000) as -> by (unfold_ints; lia).
  set (m := es_latency_shifted_misses _) in *. rewrite Z.quot_div_nonneg by lia. split; [apply Z.div_pos; lia|].
  pose proof (Z.mul_div_le (m * 10000) (Z.of_nat (length rows)) ltac:(lia)). lia.
Qed.
End Outcomes.

(** ** A run *)

Module ExecutionDemo.
#[local] Existing Instance ExactQ.exactQ.
#[local] Existing Instance BookReplayDemo.decoding.

Definition asks : list BookLevel := [{| lv_price := 600000; lv_size := 5000000 |}; {| lv_price := 650000; lv_size := 5000000 |}].

Lemma asks_ok : side_ok false asks /\ Forall on_grid asks.
Proof. unfold side_ok, on_grid, MICRO_SCALE. split; [split|]; repeat constructor; cbn; unfold_ints; lia. Qed.

Lemma money : (dval (dlit 7 1) == grid 700000 6)%Q /\ pico (dof_Z 4) 4000000000000.
Proof. split; vm_compute; reflexivity. Qed.

Lemma replay_buy_exact_witness : exists r, replay_buy asks (dlit 7 1) (dof_Z 4) = Some r /\ fr_strict_fill r = true.
Proof.
  destruct (replay_buy_exact asks 700000 (dlit 7 1) (dof_Z 4) 4000000000000 (proj1 asks_ok) (proj2 asks_ok) (proj1 money) (proj2 money)) as (r & H1 & H2 & _);
    [lia | cbn; lia|]. exists r. split; [exact H1|]. rewrite H2. reflexivity.
Defined.

(** One order that was filled, for 1.20 dollars at a limit of 0.60; the other's price was not recorded. *)
Definition audit (id stage_at : Z) (entry : option Q) : OpportunityAuditRow := {|
  au_opportunity_id := id; au_trade_id := Some id; au_market_id := "m"; au_token_id := "yes"; au_side := Buy; au_entry_price := entry;
  au_fill_price := entry; au_requested_shares := None; au_total_cost_usd := Some (12 # 10)%Q; au_stage := StFilled; au_stage_order := 5; au_stage_at := stage_at;
  au_payout_usd := None; au_realized_pnl_usd := None; au_settlement_status := None; au_winning_token_id := None; au_accounting_status := None;
  au_outcome := Some OcSuccess; au_rejection_reason := None; au_has_scored_snapshot := true; au_has_missing_fields := false;
  au_detected_at := 1500; au_ingestion_time := stage_at; au_sequence := 0 |}.
Definition audits : list OpportunityAuditRow := [audit 2 2200 None; audit 1 2500 (Some (6 # 10)%Q); audit 1 2400 (Some (6 # 10)%Q)].

Definition views : BookWithViews := materialize_decision_views BookReplayDemo.artifact [("m", 2500000000, TerminalExecution)] 60000.

(** No latency bucket is configured, so every replayed order is lost to latency. *)
Definition config : SimulationConfig := {| sc_latency_shifts_ms := []; sc_adverse_selection_bps := [50] |}.

(** Every order that could be replayed is lost; the report says half are. *)
Example unreplayed_orders_count_as_fills :
  length (terminal_audits audits) = 2%nat /\
  es_latency_shifted_misses (summarize_execution views (terminal_audits audits) config) = 1 /\
  length (es_simulated_vwap_bps (summarize_execution views (terminal_audits audits) config)) = 1%nat /\
  xr_latency_shifted_miss_rate_bps (xa_report (build_execution views audits config)) = MtAvailable 5000.
Proof. vm_compute. auto. Qed.

Lemma two_rows : Z.of_nat (length (terminal_audits audits)) = 2.
Proof. vm_compute. reflexivity. Qed.

Lemma few_rows : Z.of_nat (length (terminal_audits audits)) <= u64_max.
Proof. rewrite two_rows. unfold u64_max. lia. Qed.

Lemma some_rows : 0 < Z.of_nat (length (terminal_audits audits)) <= u64_max.
Proof. rewrite two_rows. unfold u64_max. lia. Qed.

Lemma few_replays : Z.of_nat (length (es_simulated_vwap_bps (summarize_execution views (terminal_audits audits) config))) * 10000 <= u64_max.
Proof. vm_compute. discriminate. Qed.

Lemma execution_outcomes_partition_witness : length (xa_examples (build_execution views audits config)) = length (terminal_audits audits).
Proof. exact (proj2 (execution_outcomes_partition views audits config few_rows)). Defined.

Lemma latency_miss_rate_capped_witness : exists rate,
  xr_latency_shifted_miss_rate_bps (xa_report (build_execution views audits config)) = MtAvailable rate /\ 0 <= rate.
Proof.
  destruct (latency_miss_rate_capped views audits config some_rows few_replays) as (rate & H1 & H2 & _). exists rate. split; [exact H1 | exact H2].
Defined.
End ExecutionDemo.
