(* ===== verification/EvidenceStages.v ===== *)
(** * Settlement, portfolio, detector and training evidence: [oxide-arb-control/src/evidence/]

    [settlement.rs], [portfolio.rs] and [training.rs] whole, the report of [detector.rs] on given
    detections, and the stages of [engine.rs] that turn them into a status.  Artifact hashes and the text of
    identifiers are parameters; a serialised decimal is its [Display]. *)

From stdpp Require Import sorting.
From S2P Require Import Prelude Decimal Micro Config Domain Book OrderBook Positions FactorModel BookReplay ExecutionEvidence.

(** ** Sources *)

(** The text of an identifier, which its library writes. *)
Class IdText := { id_text : Z -> string }.

Section Sources.
Context {DO : DecimalOps}.

(** [models/domain/control_factor/materialization.rs:640-652] `EvidenceSourceBundle`, what the stages read: trades with their
    opportunity and time, ledger entries with their largest loss, audit events with their binding constraint, settled
    markets, and reports with the time of their check *)
Record EvidenceSourceBundle := {
  eb_trades : list (TradeId * OpportunityId * Time);
  eb_positions : list PositionInfo;
  eb_potential_loss_baseline : list (Z * D * Time);
  eb_potential_loss_changes : list (Z * D * Time);
  eb_risk_audit_events : list (Z * RiskAuditEventType * option string * Time);
  eb_balance_snapshot : option (D * D);
  eb_settlement_truth : list MarketId;
  eb_reconciliation_reports : list (ReconciliationStatus * Time)
}.

(** ** Settlement *)

(** [control/evidence/settlement.rs:44-48] `MissingSettlementJoin`, without its reason *)
Record MissingSettlementJoin := { mj_opportunity_id : OpportunityId; mj_field : string }.

(** [control/evidence/settlement.rs:154-165] `SettlementAccumulator` *)
Record SettlementAccumulator := {
  sa_missing_joins : list MissingSettlementJoin;
  sa_won_count : Z;
  sa_lost_count : Z;
  sa_redeem_pending_count : Z;
  sa_redeem_failed_count : Z;
  sa_payout_sum : D;
  sa_realized_pnl_sum : D;
  sa_settlement_delays : list Z;
  sa_payout_complete : bool;
  sa_realized_pnl_complete : bool
}.

(** [control/evidence/settlement.rs:167-182] `SettlementAccumulator::default` *)
Definition empty_accumulator : SettlementAccumulator := {|
  sa_missing_joins := []; sa_won_count := 0; sa_lost_count := 0; sa_redeem_pending_count := 0; sa_redeem_failed_count := 0; sa_payout_sum := d0;
  sa_realized_pnl_sum := d0; sa_settlement_delays := []; sa_payout_complete := true; sa_realized_pnl_complete := true |}.

(** Joins that a row lacks. *)
Definition missing_if (row : OpportunityAuditRow) (missing : bool) (field : string) : list MissingSettlementJoin :=
  if missing then [{| mj_opportunity_id := au_opportunity_id row; mj_field := field |}] else [].
Definition absent {A} (o : option A) : bool := match o with Some _ => false | None => true end.

(** [control/evidence/settlement.rs:194-216] `record_required_joins` *)
Definition required_joins (row : OpportunityAuditRow) : list MissingSettlementJoin :=
  missing_if row (absent (au_trade_id row)) "trade_id" ++ missing_if row (absent (au_winning_token_id row)) "winning_token_id"
  ++ missing_if row (negb (au_has_scored_snapshot row)) "scored_snapshot_json".

(** [control/evidence/settlement.rs:185-286] `observe`: the joins it misses, in the order of its steps *)
Definition observed_joins (row : OpportunityAuditRow) : list MissingSettlementJoin :=
  required_joins row ++ missing_if row (absent (au_settlement_status row)) "settlement_status" ++ missing_if row (absent (au_payout_usd row)) "payout_usd"
  ++ missing_if row (absent (au_realized_pnl_usd row)) "realized_pnl_usd" ++ missing_if row (au_stage_at row <? au_detected_at row) "settlement_delay"
  ++ missing_if row (absent (au_accounting_status row)) "accounting_status".

(** [control/evidence/settlement.rs:185-286] `observe` with `record_outcome`, `record_payout`, `record_realized_pnl`, `record_delay` and `record_accounting` *)
Definition observe (acc : SettlementAccumulator) (row : OpportunityAuditRow) : SettlementAccumulator := {|
  sa_missing_joins := sa_missing_joins acc ++ observed_joins row;
  sa_won_count := match au_settlement_status row with Some Won => sat_u64 (sa_won_count acc + 1) | _ => sa_won_count acc end;
  sa_lost_count := match au_settlement_status row with Some Lost => sat_u64 (sa_lost_count acc + 1) | _ => sa_lost_count acc end;
  sa_redeem_pending_count := match au_accounting_status row with Some CaPending => sat_u64 (sa_redeem_pending_count acc + 1) | _ => sa_redeem_pending_count acc end;
  sa_redeem_failed_count := match au_accounting_status row with Some CaFailed => sat_u64 (sa_redeem_failed_count acc + 1) | _ => sa_redeem_failed_count acc end;
  sa_payout_sum := match au_payout_usd row with Some v => dadd (sa_payout_sum acc) v | None => sa_payout_sum acc end;
  sa_realized_pnl_sum := match au_realized_pnl_usd row with Some v => dadd (sa_realized_pnl_sum acc) v | None => sa_realized_pnl_sum acc end;
  sa_settlement_delays := if au_detected_at row <=? au_stage_at row
                          then sa_settlement_delays acc ++ [unwrap_or (to_u64 (au_stage_at row - au_detected_at row)) u64_max] else sa_settlement_delays acc;
  sa_payout_complete := sa_payout_complete acc && negb (absent (au_payout_usd row));
  sa_realized_pnl_complete := sa_realized_pnl_complete acc && negb (absent (au_realized_pnl_usd row)) |}.

(** [control/evidence/settlement.rs:288-345] `record_pg_joins`: the joins it misses *)
Definition pg_joins (row : OpportunityAuditRow) (bundle : EvidenceSourceBundle) : list MissingSettlementJoin :=
  match au_trade_id row with
  | None => []
  | Some trade_id =>
      match List.find (fun p => pos_trade_id p =? trade_id) (eb_positions bundle) with
      | Some p =>
          missing_if row (absent (pos_winning_token_id p)) "position.winning_token_id"
          ++ missing_if row (bool_decide (pos_redeem_status p = RsPending)) "position.redeem_status"
          ++ missing_if row (negb (match pos_accounting_status p with AcRedeemed | AcAccounted => true | _ => false end)) "position.accounting_status"
      | None => missing_if row true "position_id"
      end
  end
  ++ missing_if row (absent (eb_balance_snapshot bundle)) "balance_snapshot"
  ++ missing_if row (negb (existsb (fun m => bool_decide (m = au_market_id row)) (eb_settlement_truth bundle))) "settlement_truth".

Definition add_joins (acc : SettlementAccumulator) (joins : list MissingSettlementJoin) : SettlementAccumulator := {|
  sa_missing_joins := sa_missing_joins acc ++ joins; sa_won_count := sa_won_count acc; sa_lost_count := sa_lost_count acc;
  sa_redeem_pending_count := sa_redeem_pending_count acc; sa_redeem_failed_count := sa_redeem_failed_count acc; sa_payout_sum := sa_payout_sum acc;
  sa_realized_pnl_sum := sa_realized_pnl_sum acc; sa_settlement_delays := sa_settlement_delays acc; sa_payout_complete := sa_payout_complete acc;
  sa_realized_pnl_complete := sa_realized_pnl_complete acc |}.

(** [control/evidence/settlement.rs:26-41] `SettlementReconciliationEvidenceReport`, without its fingerprints *)
Record SettlementReport := {
  sr_settled_trade_count : Z;
  sr_unsettled_trade_count : EvidenceMetric Z;
  sr_won_count : Z;
  sr_lost_count : Z;
  sr_payout_usd_sum : EvidenceMetric string;
  sr_realized_pnl_usd_sum : EvidenceMetric string;
  sr_settlement_delay_p50_ms : EvidenceMetric Z;
  sr_settlement_delay_p95_ms : EvidenceMetric Z;
  sr_redeem_pending_count : Z;
  sr_redeem_failed_count : Z;
  sr_cash_drift_usd : EvidenceMetric string;
  sr_critical_drift_count : EvidenceMetric Z;
  sr_metrics_stale_secs : EvidenceMetric Z
}.

(** [control/evidence/settlement.rs:18-23] `SettlementReconciliationEvidenceArtifact`; the settled opportunities with their time *)
Record SettlementArtifact := {
  st_report : SettlementReport;
  st_missing_joins : list MissingSettlementJoin;
  st_settled_opportunity_ids : list OpportunityId;
  st_settled_opportunities : list (OpportunityId * Time)
}.

(** [control/evidence/settlement.rs:348-364] `complete_decimal_metric` *)
Definition complete_decimal_metric (complete : bool) (value : D) (code reason : string) : EvidenceMetric string :=
  if complete then MtAvailable (dshow value) else MtUnavailable code reason.

(** [control/evidence/settlement.rs:366-381] `percentile_metric` *)
Definition delay_metric (values : list Z) (pct : nat) : EvidenceMetric Z :=
  percentile_metric values pct "settlement.delay_unavailable" "no valid settlement delays were available".

Definition is_settled (row : OpportunityAuditRow) : bool := match au_stage row with StSettled => true | _ => false end.

Definition settle_row (bundle : EvidenceSourceBundle) (acc : SettlementAccumulator) (row : OpportunityAuditRow) : SettlementAccumulator :=
  add_joins (observe acc row) (pg_joins row bundle).

Context {DEC : Decoding}.

(** [control/evidence/settlement.rs:57-151] `build` *)
Definition build_settlement (audits : list OpportunityAuditRow) (bundle : EvidenceSourceBundle) (as_of : Time) : SettlementArtifact :=
  let rows := List.filter is_settled audits in
  let acc := foldl (settle_row bundle) empty_accumulator rows in {|
    st_report := {|
      sr_settled_trade_count := Z.of_nat (length rows);
      sr_unsettled_trade_count := MtAvailable (sat_u64 (Z.of_nat (length (eb_trades bundle)) - Z.of_nat (length rows)));
      sr_won_count := sa_won_count acc; sr_lost_count := sa_lost_count acc;
      sr_payout_usd_sum := complete_decimal_metric (sa_payout_complete acc) (sa_payout_sum acc) "settlement.payout_missing"
                             "one or more settlement rows are missing payout_usd";
      sr_realized_pnl_usd_sum := complete_decimal_metric (sa_realized_pnl_complete acc) (sa_realized_pnl_sum acc) "settlement.realized_pnl_missing"
                                   "one or more settlement rows are missing realized_pnl_usd";
      sr_settlement_delay_p50_ms := delay_metric (sa_settlement_delays acc) 50; sr_settlement_delay_p95_ms := delay_metric (sa_settlement_delays acc) 95;
      sr_redeem_pending_count := sa_redeem_pending_count acc; sr_redeem_failed_count := sa_redeem_failed_count acc;
      sr_cash_drift_usd := match eb_balance_snapshot bundle with
                           | None => MtUnavailable "reconciliation.cash_drift_source_missing" "cash drift requires balance snapshot inputs"
                           | Some (drift_usd, _) => MtAvailable (dshow drift_usd)
                           end;
      sr_critical_drift_count := MtAvailable (Z.of_nat (length (List.filter (fun r => bool_decide (r.1 = RCritical)) (eb_reconciliation_reports bundle))));
      sr_metrics_stale_secs := match last (eb_reconciliation_reports bundle) with
                               | None => MtUnavailable "reconciliation.metrics_freshness_source_missing" "metrics freshness requires reconciliation status inputs"
                               | Some (_, checked_at) => MtAvailable (Z.max 0 ((as_of - checked_at) ÷ 1000000000))
                               end |};
    st_missing_joins := sa_missing_joins acc;
    st_settled_opportunity_ids := au_opportunity_id <$> rows;
    st_settled_opportunities := omap (M := list) (fun row => (fun at_ => (au_opportunity_id row, at_)) <$> timestamp_millis_opt (au_stage_at row)) rows |}.

(** [control/evidence/engine.rs:558-573] `settlement_missing_metric_count` *)
Definition settlement_missing_metric_count (r : SettlementReport) : Z :=
  metric_missing (sr_unsettled_trade_count r) + metric_missing (sr_payout_usd_sum r) + metric_missing (sr_realized_pnl_usd_sum r)
  + metric_missing (sr_settlement_delay_p50_ms r) + metric_missing (sr_settlement_delay_p95_ms r) + metric_missing (sr_cash_drift_usd r)
  + metric_missing (sr_critical_drift_count r) + metric_missing (sr_metrics_stale_secs r).

(** [control/evidence/engine.rs:362-431] `EvidenceEngine::settlement_evidence`: the status and the artifact *)
Definition settlement_evidence (output_policy : MaterializationOutputPolicy) (audits : list OpportunityAuditRow) (bundle : EvidenceSourceBundle) (window_to : Time)
    : EvidenceStageStatus * SettlementArtifact :=
  let artifact := build_settlement audits bundle window_to in
  let missing := Z.of_nat (length (st_missing_joins artifact)) in
  let n := Z.of_nat (length audits) in
  let status := decide_stage {|
    sg_output_policy := output_policy;
    sg_coverage := coverage n (sat_u64 (n - missing)) ((fun m => "missing " +:+ mj_field m +:+ " for " +:+ pretty (mj_opportunity_id m)) <$> st_missing_joins artifact);
    sg_blocking_issue_count := missing; sg_warning_count := missing;
    sg_required_metric_missing_count := settlement_missing_metric_count (st_report artifact) |} in
  (status, artifact).
End Sources.

(** ** Portfolio *)

Section Portfolio.
Context {DO : DecimalOps} {IT : IdText}.

(** [control/evidence/portfolio.rs:53-60] `PortfolioSequenceEventType` *)
Inductive PortfolioSequenceEventType :=
| PsAudit (stage : ChOpportunityAuditStage) | PsRiskAudit (event_type : RiskAuditEventType) | PsTrade | PsPosition | PsPotentialLossBaseline | PsPotentialLossChange.

(** [control/evidence/portfolio.rs:41-49] `PortfolioSequenceEvent`, without the identifiers it only records *)
Record PortfolioSequenceEvent := {
  pe_event_time_ms : Z; pe_source_priority : Z; pe_persisted_id : string; pe_event_type : PortfolioSequenceEventType; pe_binding_constraint : option string
}.

(** [control/evidence/portfolio.rs:351-363] `audit_source_priority` *)
Definition audit_source_priority (stage : ChOpportunityAuditStage) : Z :=
  match stage with
  | StDetected => 10 | StValidationRejected => 20 | StFactorValidationRejected => 25 | StRiskRejected => 30 | StSizingRejected => 40
  | StFilled | StMissed | StFailed => 70 | StSettled => 100
  end.

(** [DateTime::timestamp_millis]. *)
Definition timestamp_millis (t : Time) : Z := t / 1000000.

Definition sequence_leb (a b : PortfolioSequenceEvent) : bool :=
  match pe_event_time_ms a ?= pe_event_time_ms b with
  | Lt => true | Gt => false
  | Eq => match pe_source_priority a ?= pe_source_priority b with
          | Lt => true | Gt => false
          | Eq => String.leb (pe_persisted_id a) (pe_persisted_id b)
          end
  end.

(** [control/evidence/portfolio.rs:260-349] `portfolio_sequence_events` *)
Definition portfolio_sequence_events (audits : list OpportunityAuditRow) (bundle : EvidenceSourceBundle) : list PortfolioSequenceEvent :=
  let event time priority id kind binding := {|
    pe_event_time_ms := time; pe_source_priority := priority; pe_persisted_id := id; pe_event_type := kind; pe_binding_constraint := binding |} in
  sort_by sequence_leb (
    ((fun row => event (au_stage_at row) (audit_source_priority (au_stage row))
                   (id_text (au_opportunity_id row) +:+ ":" +:+ pretty (au_stage_order row) +:+ ":" +:+ pretty (au_sequence row))
                   (PsAudit (au_stage row)) (au_rejection_reason row)) <$> audits)
    ++ ((fun '(id, _, at_) => event (timestamp_millis at_) 70 (id_text id) PsTrade None) <$> eb_trades bundle)
    ++ ((fun p => event (timestamp_millis (pos_opened_at p)) 80 (id_text (pos_id p)) PsPosition None) <$> eb_positions bundle)
    ++ ((fun '(id, kind, binding, at_) => event (timestamp_millis at_) 35 (id_text id) (PsRiskAudit kind) binding) <$> eb_risk_audit_events bundle)
    ++ ((fun '(id, _, at_) => event (timestamp_millis at_) 90 (id_text id) PsPotentialLossBaseline None) <$> eb_potential_loss_baseline bundle)
    ++ ((fun '(id, _, at_) => event (timestamp_millis at_) 91 (id_text id) PsPotentialLossChange None) <$> eb_potential_loss_changes bundle)).

(** [control/evidence/portfolio.rs:25-38] `PortfolioRiskEvidenceReport`, without its fingerprints *)
Record PortfolioReport := {
  pr_peak_reserved_usd : EvidenceMetric string;
  pr_peak_potential_loss_usd : EvidenceMetric string;
  pr_peak_total_exposure_usd : EvidenceMetric string;
  pr_peak_open_positions : EvidenceMetric Z;
  pr_max_drawdown_pct_bps : EvidenceMetric Z;
  pr_loss_streak_max : EvidenceMetric Z;
  pr_risk_denial_count : Z;
  pr_sizing_denial_count : Z;
  pr_settlement_backlog_max : EvidenceMetric Z;
  pr_stale_metrics_window_ms : EvidenceMetric Z;
  pr_insufficient_reasons : list string
}.

(** [control/evidence/portfolio.rs:17-22] `PortfolioRiskEvidenceArtifact`, without the hash of its sequence *)
Record PortfolioArtifact := { pa_report : PortfolioReport; pa_sequence_complete : bool; pa_sequence_events : list PortfolioSequenceEvent }.

(** [control/evidence/portfolio.rs:90-116] `portfolio_denial_counts` *)
Definition portfolio_denial_counts (audits : list OpportunityAuditRow) (bundle : EvidenceSourceBundle) : Z * Z :=
  (Z.of_nat (length (List.filter (fun r => bool_decide (au_stage r = StRiskRejected)) audits)
             + length (List.filter (fun e => match e.1.1.2 with TradeDenied => true | _ => false end) (eb_risk_audit_events bundle))),
   Z.of_nat (length (List.filter (fun r => bool_decide (au_stage r = StSizingRejected)) audits))).

(** [control/evidence/portfolio.rs:118-124] `portfolio_total_exposure` *)
Definition portfolio_total_exposure (bundle : EvidenceSourceBundle) : D :=
  foldl (fun acc p => dadd acc (dadd (pos_total_cost_usd p) (pos_total_fees_usd p))) d0 (eb_positions bundle).

(** [control/evidence/portfolio.rs:126-133] `portfolio_peak_potential_loss` *)
Definition portfolio_peak_potential_loss (bundle : EvidenceSourceBundle) : D :=
  foldl (fun acc e => dadd acc e.1.2) d0 (eb_potential_loss_baseline bundle ++ eb_potential_loss_changes bundle).

Definition empty {A} (l : list A) : bool := match l with [] => true | _ => false end.

(** [control/evidence/portfolio.rs:139-144] `portfolio_sequence_metadata`: sizing rejections carry their binding constraint *)
Definition binding_constraints_complete (events : list PortfolioSequenceEvent) : bool :=
  forallb (fun e => match pe_event_type e with PsAudit StSizingRejected => negb (absent (pe_binding_constraint e)) | _ => true end) events.

(** [control/evidence/portfolio.rs:145-151] `portfolio_sequence_metadata`, when the sequence is complete *)
Definition sequence_is_complete (events : list PortfolioSequenceEvent) (bundle : EvidenceSourceBundle) : bool :=
  negb (empty events) && negb (empty (eb_trades bundle)) && negb (empty (eb_positions bundle)) && negb (empty (eb_risk_audit_events bundle))
  && negb (empty (eb_potential_loss_baseline bundle)) && negb (absent (eb_balance_snapshot bundle)) && binding_constraints_complete events.

(** [control/evidence/portfolio.rs:228-258] `insufficient_reasons` *)
Definition portfolio_insufficient_reasons (sequence_complete binding_complete : bool) (bundle : EvidenceSourceBundle) : list string :=
  let reason (b : bool) what := if b then ["risk.sequence_incomplete: " +:+ what] else [] in
  if sequence_complete then []
  else reason (empty (eb_trades bundle)) "PG trades are missing" ++ reason (empty (eb_positions bundle)) "PG positions are missing"
       ++ reason (empty (eb_risk_audit_events bundle)) "risk audit events are missing"
       ++ reason (empty (eb_potential_loss_baseline bundle)) "potential-loss baseline is missing"
       ++ reason (absent (eb_balance_snapshot bundle)) "balance snapshot is missing"
       ++ reason (negb binding_complete) "sizing decisions require binding constraints".

(** [control/evidence/portfolio.rs:167-226] `portfolio_risk_report` *)
Definition portfolio_risk_report (bundle : EvidenceSourceBundle) (risk_denials sizing_denials : Z) (peak_potential_loss total_exposure : D)
    (reasons : list string) : PortfolioReport := {|
  pr_peak_reserved_usd := match eb_balance_snapshot bundle with
                          | None => MtUnavailable "risk.balance_snapshot_missing" "peak reserved capital requires PIT balance snapshots"
                          | Some (_, reserved) => MtAvailable (dshow reserved)
                          end;
  pr_peak_potential_loss_usd :=
    if empty (eb_potential_loss_baseline bundle) && empty (eb_potential_loss_changes bundle)
    then MtUnavailable "risk.potential_loss_timeline_missing" "peak potential loss requires historical potential-loss ledger events"
    else MtAvailable (dshow peak_potential_loss);
  pr_peak_total_exposure_usd := MtAvailable (dshow total_exposure);
  pr_peak_open_positions := MtAvailable (Z.of_nat (length (eb_positions bundle)));
  pr_max_drawdown_pct_bps := MtUnavailable "risk.equity_timeline_missing" "drawdown requires historical equity snapshots";
  pr_loss_streak_max := MtUnavailable "risk.settlement_sequence_missing" "loss streak requires complete settlement outcome sequence";
  pr_risk_denial_count := risk_denials; pr_sizing_denial_count := sizing_denials;
  pr_settlement_backlog_max := MtUnavailable "settlement.backlog_timeline_missing" "settlement backlog requires persisted settlement lifecycle events";
  pr_stale_metrics_window_ms := MtUnavailable "risk.metrics_freshness_timeline_missing" "stale metrics window requires historical risk metric snapshots";
  pr_insufficient_reasons := reasons |}.

(** [control/evidence/portfolio.rs:63-88] `build` *)
Definition build_portfolio (audits : list OpportunityAuditRow) (bundle : EvidenceSourceBundle) : PortfolioArtifact :=
  let events := portfolio_sequence_events audits bundle in
  let '(risk_denials, sizing_denials) := portfolio_denial_counts audits bundle in
  let complete := sequence_is_complete events bundle in
  {| pa_report := portfolio_risk_report bundle risk_denials sizing_denials (portfolio_peak_potential_loss bundle) (portfolio_total_exposure bundle)
                    (portfolio_insufficient_reasons complete (binding_constraints_complete events) bundle);
     pa_sequence_complete := complete; pa_sequence_events := events |}.

(** [control/evidence/metric_gate.rs:39-50] `portfolio_production_required_missing_count` *)
Definition portfolio_production_required_missing_count (r : PortfolioReport) : Z :=
  metric_missing (pr_peak_reserved_usd r) + metric_missing (pr_peak_potential_loss_usd r) + metric_missing (pr_peak_total_exposure_usd r)
  + metric_missing (pr_peak_open_positions r).

(** [control/evidence/engine.rs:312-360] `EvidenceEngine::portfolio_evidence`: the status and the artifact *)
Definition portfolio_evidence (output_policy : MaterializationOutputPolicy) (audits : list OpportunityAuditRow) (bundle : EvidenceSourceBundle)
    : EvidenceStageStatus * PortfolioArtifact :=
  let artifact := build_portfolio audits bundle in
  let status := decide_stage {|
    sg_output_policy := output_policy;
    sg_coverage := if pa_sequence_complete artifact then coverage_complete (Z.of_nat (length audits))
                   else coverage 1 0 (pr_insufficient_reasons (pa_report artifact));
    sg_blocking_issue_count := if pa_sequence_complete artifact then 0 else 1; sg_warning_count := 0;
    sg_required_metric_missing_count := portfolio_production_required_missing_count (pa_report artifact) |} in
  (status, artifact).
End Portfolio.

(** ** Detections *)

Section Detections.
Context {DO : DecimalOps}.

(** [control/evidence/detector.rs:76-86] `DetectorDetectionRef`, with its `DetectorReplayRef` and `DetectorMismatchRef` and without the hash of its snapshot *)
Record DetectorDetectionRef := {
  dd_opportunity_id : OpportunityId;
  dd_market_id : MarketId;
  dd_detected_at : Time;
  dd_bucket : BucketKey;
  dd_has_reconstructed_book : bool;
  dd_materialized_detected : bool;
  dd_bucket_mismatch : bool;
  dd_calibration_mismatch : bool;
  dd_score_delta : option Z;
  dd_score : option Z
}.

(** [control/evidence/detector.rs:40-52] `DetectorEvidenceReport`, without its fingerprints *)
Record DetectorReport := {
  dr_live_detection_count : Z;
  dr_reconstructed_book_context_count : Z;
  dr_materialized_detection_count : EvidenceMetric Z;
  dr_matched_opportunity_count : EvidenceMetric Z;
  dr_missed_live_signal_count : EvidenceMetric Z;
  dr_extra_materialized_signal_count : EvidenceMetric Z;
  dr_score_delta_p50 : EvidenceMetric Z;
  dr_score_delta_p95 : EvidenceMetric Z;
  dr_bucket_mismatch_count : EvidenceMetric Z;
  dr_calibration_snapshot_mismatch_count : EvidenceMetric Z
}.

(** [control/evidence/detector.rs:54-66] `replay_complete` *)
Definition replay_complete (r : DetectorReport) : bool :=
  is_available (dr_materialized_detection_count r) && is_available (dr_matched_opportunity_count r) && is_available (dr_missed_live_signal_count r)
  && is_available (dr_extra_materialized_signal_count r) && is_available (dr_score_delta_p50 r) && is_available (dr_score_delta_p95 r)
  && is_available (dr_bucket_mismatch_count r) && is_available (dr_calibration_snapshot_mismatch_count r).

(** [control/evidence/detector.rs:34-37] `DetectorEvidenceArtifact` *)
Record DetectorArtifact := { da_report : DetectorReport; da_detections : list DetectorDetectionRef }.

(** [control/evidence/detector.rs:254-263] `replay_metric` *)
Definition replay_metric {T} (available : bool) (value : T) (code reason : string) : EvidenceMetric T :=
  if available then MtAvailable value else MtUnavailable code reason.

(** [control/evidence/detector.rs:388-395] `detector_replay_inputs_complete`: a configuration that parses, calibration snapshots, and a deadline for every market *)
Definition detector_replay_inputs_complete (config_parses : bool) (calibration_snapshots : nat) (market_books : list MarketBookReconstruction) : bool :=
  config_parses && (0 <? calibration_snapshots)%nat && forallb (fun m => negb (absent (mb_settlement_deadline m))) market_books.

(** [control/evidence/detector.rs:153-252] `build_report` *)
Definition build_detector_report (inputs_complete : bool) (refs : list DetectorDetectionRef) : DetectorReport :=
  let live := Z.of_nat (length refs) in
  let count f := Z.of_nat (length (List.filter f refs)) in
  let matched := count (fun d => dd_materialized_detected d && negb (absent (dd_score_delta d)) && negb (dd_bucket_mismatch d) && negb (dd_calibration_mismatch d)) in
  let deltas := omap (M := list) dd_score_delta refs in
  let metric (value : Z) code reason := replay_metric inputs_complete value code reason in {|
    dr_live_detection_count := live;
    dr_reconstructed_book_context_count := count dd_has_reconstructed_book;
    dr_materialized_detection_count := metric (count dd_materialized_detected) "detector.materialized_outputs_missing"
      "manifest-pinned detector replay requires runtime config and calibration snapshots";
    dr_matched_opportunity_count := metric matched "detector.matching_missing" "matched opportunity count requires complete replay inputs";
    dr_missed_live_signal_count := metric (sat_u64 (live - matched)) "detector.matching_missing" "missed live signal count requires complete replay inputs";
    dr_extra_materialized_signal_count := metric 0 "detector.matching_missing" "extra materialized signal count requires complete replay inputs";
    dr_score_delta_p50 := metric (unwrap_or (percentile_u64 deltas 50) 0) "detector.replay_delta_missing" "score delta requires complete replay inputs";
    dr_score_delta_p95 := metric (unwrap_or (percentile_u64 deltas 95) 0) "detector.replay_delta_missing" "score delta requires complete replay inputs";
    dr_bucket_mismatch_count := metric (count dd_bucket_mismatch) "detector.bucket_replay_missing" "bucket mismatch requires complete replay inputs";
    dr_calibration_snapshot_mismatch_count := metric (count dd_calibration_mismatch) "detector.calibration_replay_missing"
      "calibration mismatch requires complete replay inputs" |}.

(** [control/evidence/engine.rs:543-556] `detector_missing_metric_count` *)
Definition detector_missing_metric_count (r : DetectorReport) : Z :=
  metric_missing (dr_materialized_detection_count r) + metric_missing (dr_matched_opportunity_count r) + metric_missing (dr_missed_live_signal_count r)
  + metric_missing (dr_extra_materialized_signal_count r) + metric_missing (dr_score_delta_p50 r) + metric_missing (dr_score_delta_p95 r)
  + metric_missing (dr_bucket_mismatch_count r) + metric_missing (dr_calibration_snapshot_mismatch_count r).

(** [control/evidence/engine.rs:162-178] `EvidenceEngine::detector_evidence`, the status *)
Definition detector_status (output_policy : MaterializationOutputPolicy) (r : DetectorReport) : EvidenceStageStatus :=
  decide_stage {|
    sg_output_policy := output_policy;
    sg_coverage := if replay_complete r then coverage_complete (dr_live_detection_count r)
                   else coverage (dr_live_detection_count r) 0 ["detector replay metrics are unavailable"];
    sg_blocking_issue_count := 0; sg_warning_count := 0; sg_required_metric_missing_count := detector_missing_metric_count r |}.
End Detections.

(** ** Training examples *)

Section Training.
Context {DO : DecimalOps}.

(** [models/domain/evidence/training.rs:49-55] `FactorFeatureValue`, those that are built *)
Inductive FactorFeatureValue := FvBool (b : bool) | FvI64 (z : Z).

(** A source reference: its domain and the fingerprint of its query. *)
Definition EvidenceSourceRef : Type := string * string.

(** [models/domain/evidence/training.rs:39-45] `FactorFeature` *)
Record FactorFeature := {
  ft_name : string; ft_value : FactorFeatureValue; ft_source_ref : EvidenceSourceRef; ft_observed_at : Time; ft_point_in_time_visible : bool
}.
(** [models/domain/evidence/training.rs:58-62] `FactorLabelRef` *)
Record FactorLabelRef := { lb_name : string; lb_source_ref : EvidenceSourceRef; lb_available_at : Time }.

(** [models/domain/evidence/training.rs:65-75] `FactorTrainingExample`; the schema versions are constants *)
Record FactorTrainingExample := {
  te_opportunity_id : OpportunityId;
  te_market_id : MarketId;
  te_factor_type : ControlFactorType;
  te_entity_key : FactorDimensions;
  te_event_time : Time;
  te_features : list FactorFeature;
  te_label : option (list FactorLabelRef);
  te_outcome_available_at : option Time;
  te_query_refs : list EvidenceSourceRef;
  te_artifact_refs : list (MaterializationStageName * string)
}.

(** [control/evidence/training.rs:40-49] `TrainingExampleReport` *)
Record TrainingReport := {
  tr_dataset_hash : string; tr_feature_schema_hash : string; tr_label_schema_hash : string;
  tr_entity_count : Z; tr_example_count : Z; tr_label_count : Z; tr_factor_types : list ControlFactorType; tr_query_fingerprints : list string
}.
(** [control/evidence/training.rs:34-37] `TrainingExampleArtifact` *)
Record TrainingArtifact := { ta_report : TrainingReport; ta_examples : list FactorTrainingExample }.

(** [control/evidence/training.rs:181-234] `entity_key` *)
Definition entity_key (factor_type : ControlFactorType) (d : DetectorDetectionRef) : FactorDimensions :=
  let category := bk_category (dd_bucket d) in
  match factor_type with
  | BucketRisk => DimBucketRisk {|
      bd_category := category; bd_price_zone := bk_price_zone (dd_bucket d); bd_duration_bucket := bk_duration_bucket (dd_bucket d);
      hours_to_settlement_bucket := Some UnderOneHour; bd_neg_risk := None; fee_profile := None |}
  | ExecutionQuality => DimExecutionQuality {|
      ed_category := category; ed_price_zone := bk_price_zone (dd_bucket d); ed_spread_bucket := SpTight; ed_depth_bucket := DpDeep;
      ed_book_age_bucket := BaFresh; ed_latency_bucket := LatUnknown; ed_staleness_level := Fresh |}
  | PortfolioRisk => DimPortfolioRisk {|
      pd_regime := RgNormal; pd_category := Some category; open_position_bucket := CbOne; potential_loss_bucket := UeLow; drawdown_bucket := DdNone;
      settlement_backlog_bucket := CbZero |}
  | ReconciliationHealth => DimReconciliationHealth {|
      account_scope := AsGlobal; asset_scope := MarketAsset (dd_market_id d); drift_severity := SevWarning; metrics_freshness_bucket := MfFresh;
      redeem_status_bucket := NotRedeemable |}
  | MarketAnomaly => DimMarketAnomaly {|
      md_market_id := Some (dd_market_id d); md_event_id := None; md_category := Some category; anomaly_type := AbnormalBook; md_severity := SevWarning |}
  end.

(** [control/evidence/training.rs:236-265] `source_refs` *)
Definition source_refs (detector_fps execution_fps settlement_fps : list string) : list EvidenceSourceRef :=
  (pair "detector" <$> detector_fps) ++ (pair "execution" <$> execution_fps) ++ (pair "settlement" <$> settlement_fps).

(** [control/evidence/training.rs:328-337] `required_source_ref` *)
Definition required_source_ref (refs : list EvidenceSourceRef) (domain : string) : Result EvidenceSourceRef string :=
  match List.find (fun r => bool_decide (r.1 = domain)) refs with Some r => Ok r | None => Err "evidence.source_ref_missing" end.

(** [control/evidence/training.rs:282-326] `feature_refs` *)
Definition feature_refs (d : DetectorDetectionRef) (execution : list ExecutionReplayExample) (refs : list EvidenceSourceRef) : Result (list FactorFeature) string :=
  let? market_context := required_source_ref refs "detector" in
  let? execution_ref := required_source_ref refs "execution" in
  let fill := match List.find (fun e => ex_opportunity_id e =? dd_opportunity_id d) execution with Some e => ex_simulated_strict_fok_fill e | None => false end in
  let feature name value source := {| ft_name := name; ft_value := value; ft_source_ref := source; ft_observed_at := dd_detected_at d; ft_point_in_time_visible := true |} in
  Ok [feature "detector.materialized_detected" (FvBool (dd_materialized_detected d)) market_context;
      feature "detector.score" (FvI64 (unwrap_or (dd_score d) 0)) execution_ref;
      feature "execution.strict_fok_fill" (FvBool fill) execution_ref].

(** [control/evidence/training.rs:62-83] `build`, the label of a detection *)
Definition settlement_label (settlement : SettlementArtifact) (refs : list EvidenceSourceRef) (d : DetectorDetectionRef) : Result (option (list FactorLabelRef)) string :=
  match List.find (fun s => s.1 =? dd_opportunity_id d) (st_settled_opportunities settlement) with
  | Some settled =>
      if forallb (fun m => negb (mj_opportunity_id m =? dd_opportunity_id d)) (st_missing_joins settlement)
      then let? source := required_source_ref refs "settlement" in
           Ok (Some [{| lb_name := "settlement_outcome"; lb_source_ref := source; lb_available_at := settled.2 |}])
      else Ok None
  | None => Ok None
  end.

(** [control/evidence/training.rs:60-106] `build`, one example *)
Definition training_example (settlement : SettlementArtifact) (execution : list ExecutionReplayExample) (refs : list EvidenceSourceRef)
    (artifact_refs : list (MaterializationStageName * string)) (d : DetectorDetectionRef) (factor_type : ControlFactorType) : Result FactorTrainingExample string :=
  let? label := settlement_label settlement refs d in
  let? features := feature_refs d execution refs in
  Ok {| te_opportunity_id := dd_opportunity_id d; te_market_id := dd_market_id d; te_factor_type := factor_type; te_entity_key := entity_key factor_type d;
        te_event_time := dd_detected_at d; te_features := features; te_label := label;
        te_outcome_available_at := match label with
                                   | Some (l :: ls) => Some (foldl (fun t x => Z.max t (lb_available_at x)) (lb_available_at l) ls)
                                   | _ => None
                                   end;
        te_query_refs := refs; te_artifact_refs := artifact_refs |}.

(** Loops that stop at the first error. *)
Fixpoint collect {A B} (f : A -> Result B string) (l : list A) : Result (list B) string :=
  match l with
  | [] => Ok []
  | x :: l => let? y := f x in let? ys := collect f l in Ok (y :: ys)
  end.

(** [control/evidence/training.rs:154-168] `feature_schema_names` *)
Definition feature_schema_names (examples : list FactorTrainingExample) : list string :=
  dedup_tokens (sort_by String.leb (examples ≫= fun e => ft_name <$> te_features e)).

(** [control/evidence/training.rs:170-179] `label_schema_names` *)
Definition label_schema_names (examples : list FactorTrainingExample) : list string :=
  dedup_tokens (sort_by String.leb (examples ≫= fun e => lb_name <$> default [] (te_label e))).

(** [control/evidence/training.rs:51-131] `build`; the references of the artifacts, the hashes of examples and of names are the hasher's *)
Definition build_training (hash_examples : list FactorTrainingExample -> Result string string) (hash_names : list string -> Result string string)
    (artifact_refs : Result (list (MaterializationStageName * string)) string) (detector_fps execution_fps settlement_fps : list string)
    (requested : list ControlFactorType) (detections : list DetectorDetectionRef) (execution : list ExecutionReplayExample) (settlement : SettlementArtifact)
    : Result TrainingArtifact string :=
  let refs := source_refs detector_fps execution_fps settlement_fps in
  let? arts := artifact_refs in
  let? examples := collect (fun '(d, t) => training_example settlement execution refs arts d t) (detections ≫= fun d => pair d <$> requested) in
  let? dataset := hash_examples examples in
  let? features := hash_names (feature_schema_names examples) in
  let? labels := hash_names (label_schema_names examples) in
  Ok {| ta_report := {|
          tr_dataset_hash := dataset; tr_feature_schema_hash := features; tr_label_schema_hash := labels; tr_entity_count := Z.of_nat (length detections);
          tr_example_count := Z.of_nat (length examples);
          tr_label_count := Z.of_nat (length (List.filter (fun e => negb (absent (te_label e))) examples));
          tr_factor_types := requested; tr_query_fingerprints := snd <$> refs |};
        ta_examples := examples |}.

(** [control/evidence/engine.rs:575-578] `training_missing_metric_count` *)
Definition training_missing_metric_count (r : TrainingReport) : Z :=
  (if (0 <? tr_example_count r) && (tr_label_count r =? 0) then 1 else 0) + (if empty (tr_query_fingerprints r) then 1 else 0).

(** [control/evidence/engine.rs:450-458] `EvidenceEngine::training_examples`, the status *)
Definition training_status (output_policy : MaterializationOutputPolicy) (r : TrainingReport) : EvidenceStageStatus :=
  decide_stage {|
    sg_output_policy := output_policy; sg_coverage := coverage_complete (tr_example_count r); sg_blocking_issue_count := 0; sg_warning_count := 0;
    sg_required_metric_missing_count := training_missing_metric_count r |}.
End Training.

(** ** Properties *)

Section StageFacts.
Context {DO : DecimalOps} {DEC : Decoding}.

Definition stage_passes (s : EvidenceStageStatus) : bool := match s with EsCompleted | EsCompletedWithWarnings => true | _ => false end.

Lemma decide_stage_passes g : stage_passes (decide_stage g) = true <->
  stage_is_sufficient (sg_coverage g) = true /\ sg_blocking_issue_count g <= 0 /\ sg_required_metric_missing_count g <= 0.
Proof.
  unfold decide_stage. destruct (stage_is_sufficient _); cbn; [|naive_solver].
  destruct (Z.ltb_spec 0 (sg_blocking_issue_count g)), (Z.ltb_spec 0 (sg_required_metric_missing_count g)); cbn; try (split; [done | lia]).
  destruct (_ || _ || _); cbn; split; [done | done | done | done].
Qed.

Definition row_joins (bundle : EvidenceSourceBundle) (row : OpportunityAuditRow) : list MissingSettlementJoin := observed_joins row ++ pg_joins row bundle.

Lemma settle_rows_joins bundle rows : forall acc,
  sa_missing_joins (foldl (settle_row bundle) acc rows) = sa_missing_joins acc ++ (rows ≫= row_joins bundle).
Proof.
  induction rows as [|r rows IH]; intros acc; cbn; [by rewrite app_nil_r|]. rewrite IH. cbn. unfold row_joins. by rewrite <- !app_assoc.
Qed.

Lemma missing_if_nil row b f : missing_if row b f = [] <-> b = false.
Proof. destruct b; cbn; split; done. Qed.

Lemma joins_nil bundle rows : rows ≫= row_joins bundle = [] <-> Forall (fun r => row_joins bundle r = []) rows.
Proof.
  induction rows as [|r rows IH]; [by split|]. rewrite Forall_cons, <- IH. change ((r :: rows) ≫= row_joins bundle) with (row_joins bundle r ++ (rows ≫= row_joins bundle)).
  by rewrite app_nil.
Qed.

(** What a row without missing joins does to the sums that the metrics need. *)
Lemma settle_rows_complete bundle rows : forall acc, Forall (fun r => row_joins bundle r = []) rows ->
  let acc' := foldl (settle_row bundle) acc rows in
  sa_payout_complete acc' = sa_payout_complete acc /\ sa_realized_pnl_complete acc' = sa_realized_pnl_complete acc /\
  length (sa_settlement_delays acc') = (length (sa_settlement_delays acc) + length rows)%nat.
Proof.
  induction rows as [|r rows IH]; intros acc H; cbn; [split_and!; [done|done|lia]|]. apply Forall_cons in H as [Hr H].
  destruct (IH (settle_row bundle acc r) H) as (-> & -> & ->). unfold row_joins, observed_joins in Hr. rewrite !app_nil, !missing_if_nil in Hr.
  destruct Hr as ((_ & _ & Hp & Hl & Hd & _) & _). unfold settle_row, observe, add_joins. cbn. rewrite Hp, Hl. cbn. rewrite !andb_true_r.
  apply Z.ltb_ge in Hd. rewrite (proj2 (Z.leb_le _ _) Hd), length_app. cbn. split_and!; [done|done|lia].
Qed.

Lemma sort_by_length {A} (leb : A -> A -> bool) l : length (sort_by leb l) = length l.
Proof. apply Permutation_length, sort_by_perm. Qed.

Lemma percentile_available values pct : (pct <= 100)%nat -> is_Some (percentile_u64 values pct) <-> values <> [].
Proof.
  intros Hp. unfold percentile_u64. rewrite lookup_lt_is_Some, sort_by_length. destruct values as [|v values]; cbn [length]; [cbn; split; [lia | done]|].
  split; [done|]. intros _. assert ((S (length values) - 1) * pct / 100 <= length values)%nat; [|lia].
  replace (S (length values) - 1)%nat with (length values) by lia. apply Nat.Div0.div_le_upper_bound. nia.
Qed.

Lemma delay_missing values pct : (pct <= 100)%nat -> metric_missing (delay_metric values pct) = match values with [] => 1 | _ => 0 end.
Proof.
  intros Hp. pose proof (percentile_available values pct Hp) as H. unfold delay_metric, percentile_metric, metric_missing.
  destruct values as [|v values].
  - destruct (percentile_u64 [] pct); [|done]. by destruct (proj1 H ltac:(eauto)).
  - by destruct (proj2 H ltac:(done)) as [x ->].
Qed.

Lemma metric_missing_nonneg {T} (m : EvidenceMetric T) : 0 <= metric_missing m.
Proof. unfold metric_missing. destruct (is_available m); lia. Qed.

(** The settlement stage passes exactly when something settled in the window, every settled row joins its trade, position, market
    truth and amounts, and the balance and a reconciliation report are there. *)
Theorem settlement_stage_passes_iff output_policy (audits : list OpportunityAuditRow) (bundle : EvidenceSourceBundle) (window_to : Time) :
  Z.of_nat (length audits) <= u64_max ->
  stage_passes (settlement_evidence output_policy audits bundle window_to).1 = true <->
  (exists r, r ∈ audits /\ is_settled r = true) /\
  (forall r, r ∈ audits -> is_settled r = true -> row_joins bundle r = []) /\
  eb_balance_snapshot bundle <> None /\ eb_reconciliation_reports bundle <> [].
Proof.
  intros Hlen. unfold settlement_evidence. cbn [fst]. rewrite decide_stage_passes. cbn [sg_coverage sg_blocking_issue_count sg_required_metric_missing_count].
  set (rows := List.filter is_settled audits). set (acc := foldl (settle_row bundle) empty_accumulator rows).
  change (st_missing_joins (build_settlement audits bundle window_to)) with (sa_missing_joins acc).
  assert (sa_missing_joins acc = rows ≫= row_joins bundle) as Ej by apply settle_rows_joins.
  assert (forall r, r ∈ rows <-> r ∈ audits /\ is_settled r = true) as Hin by (intros r; unfold rows; rewrite !list_elem_of_In; apply filter_In).
  assert ((forall r, r ∈ audits -> is_settled r = true -> row_joins bundle r = []) <-> sa_missing_joins acc = []) as ->.
  { rewrite Ej, joins_nil, Forall_forall. setoid_rewrite Hin. naive_solver. }
  assert ((exists r, r ∈ audits /\ is_settled r = true) <-> rows <> []) as ->.
  { setoid_rewrite <- Hin. destruct rows as [|r rows']; [|split; [done|]; intros _; exists r; by left]. split; [intros (r & []%not_elem_of_nil) | done]. }
  destruct (decide (sa_missing_joins acc = [])) as [E|E].
  2:{ split; [|naive_solver]. intros (_ & Hb & _). destruct (sa_missing_joins acc); [done|]. cbn in Hb. lia. }
  rewrite E. pose proof E as Hj. rewrite Ej, joins_nil in Hj. destruct (settle_rows_complete bundle rows empty_accumulator Hj) as (Hp & Hr & Hd).
  fold acc in Hp, Hr, Hd. cbn in Hp, Hr, Hd.
  assert (stage_is_sufficient (coverage (Z.of_nat (length audits)) (sat_u64 (Z.of_nat (length audits) - Z.of_nat (length (@nil MissingSettlementJoin)))) 
            ((fun m => "missing " +:+ mj_field m +:+ " for " +:+ pretty (mj_opportunity_id m)) <$> [])) = true) as ->.
  { unfold stage_is_sufficient, coverage. cbn. rewrite andb_true_r. apply Z.eqb_eq. unfold_ints. lia. }
  unfold settlement_missing_metric_count. cbn -[metric_missing delay_metric]. fold rows acc. rewrite Hp, Hr, !delay_missing by lia. cbn [complete_decimal_metric].
  assert (sa_settlement_delays acc = [] <-> rows = []) as Hnil.
  { destruct (sa_settlement_delays acc), rows; cbn in Hd; try lia; split; done. }
  assert (last (eb_reconciliation_reports bundle) = None <-> eb_reconciliation_reports bundle = []) as Hl by apply last_None.
  destruct (sa_settlement_delays acc) as [|d ds]; destruct (eb_balance_snapshot bundle) as [[? ?]|]; destruct (last (eb_reconciliation_reports bundle)) as [[? ?]|];
    cbn; naive_solver lia.
Qed.

(** *** Training examples *)

Lemma collect_ok {A B} (f : A -> Result B string) l ys : collect f l = Ok ys -> Forall2 (fun x y => f x = Ok y) l ys.
Proof.
  revert ys. induction l as [|x l IH]; intros ys H; cbn in H; [by injection H as <-|].
  destruct (f x) eqn:E; [|done]. cbn in H. destruct (collect f l) eqn:E'; [|done]. injection H as <-. constructor; [done | by apply IH].
Qed.

Definition example_ok (detections : list DetectorDetectionRef) (requested : list ControlFactorType) (settlement : SettlementArtifact) (e : FactorTrainingExample) : Prop :=
  te_factor_type e ∈ requested /\ dim_factor_type (te_entity_key e) = Some (te_factor_type e) /\
  (exists d, d ∈ detections /\ te_opportunity_id e = dd_opportunity_id d /\ te_market_id e = dd_market_id d /\
     Forall (fun f => ft_observed_at f = dd_detected_at d /\ ft_point_in_time_visible f = true) (te_features e)) /\
  (forall ls, te_label e = Some ls ->
     exists t, (te_opportunity_id e, t) ∈ st_settled_opportunities settlement /\ te_outcome_available_at e = Some t /\ (lb_available_at <$> ls) = [t] /\
       forall m, m ∈ st_missing_joins settlement -> mj_opportunity_id m <> te_opportunity_id e).

Lemma training_example_ok detections requested settlement execution refs arts d t e :
  training_example settlement execution refs arts d t = Ok e -> d ∈ detections -> t ∈ requested -> example_ok detections requested settlement e.
Proof.
  unfold training_example. intros H Hd Ht. destruct (settlement_label settlement refs d) as [label|] eqn:El; [|done]. cbn in H.
  destruct (feature_refs d execution refs) as [features|] eqn:Ef; [|done]. injection H as <-. unfold example_ok. cbn. split_and!; [done | by destruct t| |].
  - exists d. split_and!; [done..|]. unfold feature_refs in Ef. destruct (required_source_ref refs "detector"); [|done]. cbn in Ef.
    destruct (required_source_ref refs "execution"); [|done]. injection Ef as <-. by repeat constructor.
  - intros ls ->. unfold settlement_label in El. destruct (List.find _ (st_settled_opportunities settlement)) as [[o s]|] eqn:Es; [|done].
    apply List.find_some in Es as [Hin Eo]. apply Z.eqb_eq in Eo. cbn in Eo. subst o.
    destruct (forallb _ (st_missing_joins settlement)) eqn:Em; [|done]. destruct (required_source_ref refs "settlement"); [|done]. injection El as <-.
    exists s. split_and!; [by apply list_elem_of_In | done | done|]. intros m Hm E. rewrite forallb_forall in Em.
    apply list_elem_of_In, Em in Hm. by rewrite E, Z.eqb_refl in Hm.
Qed.

(** The training set has one example for every detection and requested family, keyed by that family's dimensions; its features were visible
    at the detection, and it is labelled only by a settlement that joins completely, at the time it became known. *)
Theorem training_examples_sound hash_examples hash_names arts dfps xfps sfps requested detections execution settlement a :
  build_training hash_examples hash_names arts dfps xfps sfps requested detections execution settlement = Ok a ->
  length (ta_examples a) = (length detections * length requested)%nat /\
  Forall (example_ok detections requested settlement) (ta_examples a).
Proof.
  unfold build_training. intros H. destruct arts as [arts|]; [|done]. cbn in H. destruct (collect _ _) as [examples|] eqn:Ec; [|done]. cbn in H.
  destruct (hash_examples examples); [|done]. cbn in H. destruct (hash_names (feature_schema_names examples)); [|done]. cbn in H.
  destruct (hash_names (label_schema_names examples)); [|done]. injection H as <-. cbn. apply collect_ok in Ec. split.
  - apply Forall2_length in Ec. rewrite <- Ec. clear. induction detections as [|d ds IH]; [done|]. rewrite bind_cons, length_app, length_fmap, IH. cbn. lia.
  - apply Forall_forall. intros e He. apply list_elem_of_lookup in He as [i He]. destruct (Forall2_lookup_r _ _ _ _ _ Ec He) as ([d t] & Hdt & E).
    apply list_elem_of_lookup_2 in Hdt. apply list_elem_of_bind in Hdt as (d' & Hdt & Hd). apply list_elem_of_fmap in Hdt as (t' & [= -> ->] & Ht).
    by eapply training_example_ok.
Qed.
End StageFacts.
