(* ===== verification/FactorBuild.v ===== *)
(** * Building control factors: [oxide-arb-control/src/factor/] and [gates/mod.rs]

    The builders turn the evidence of a run into factor values, drafts or report-only, and the quality gates
    decide which drafts become candidates.  The values and their payloads are those of
    [FactorModel]; the policy and its thresholds are here.  Identifiers and the readings of the clock are
    drawn from a supply, one for each value in the order of its making. *)

From stdpp Require Import sorting.
From S2P Require Import Prelude Decimal Micro Config Domain Book OrderBook Positions FactorModel BookReplay ExecutionEvidence EvidenceStages.

(** ** Policy *)

(** [models/enums/control_factor.rs:38-50] `QualityGateName` *)
Inductive QualityGateName :=
| QgPointInTime | QgUpstreamStage | QgCoverage | QgSample | QgLeakage | QgStability | QgTailRisk | QgConservative | QgTtl | QgOwner | QgRollback.
#[global] Instance gate_name_eq_dec : EqDecision QualityGateName.
Proof. solve_decision. Defined.

(** [models/domain/control_factor/materialization.rs:381-388] `QualityGateDefaults`, what the gates read *)
Record QualityGateDefaults := { qd_max_single_market_share_bps : Z; qd_max_single_event_share_bps : Z; qd_max_tail_drawdown_pct_bps : Z }.

(** [models/domain/control_factor/materialization.rs:391-398] `FactorGateThresholds`, what the builders and the gates read *)
Record FactorGateThresholds := { th_min_opportunities : Z; th_min_markets : Z; th_min_settlements : Z; th_default_ttl_secs : Z }.

(** [models/domain/control_factor/materialization.rs:262-271] `QualityGatePolicy` *)
Record QualityGatePolicy := {
  qp_defaults : QualityGateDefaults;
  qp_bucket_risk : FactorGateThresholds;
  qp_execution_quality : FactorGateThresholds;
  qp_portfolio_risk : FactorGateThresholds;
  qp_reconciliation_health : FactorGateThresholds;
  qp_market_anomaly : FactorGateThresholds;
  qp_enabled_gates : list QualityGateName
}.

(** [models/domain/control_factor/materialization.rs:301-309] `QualityGatePolicy::thresholds_for` *)
Definition thresholds_for (p : QualityGatePolicy) (t : ControlFactorType) : FactorGateThresholds :=
  match t with
  | BucketRisk => qp_bucket_risk p | ExecutionQuality => qp_execution_quality p | PortfolioRisk => qp_portfolio_risk p
  | ReconciliationHealth => qp_reconciliation_health p | MarketAnomaly => qp_market_anomaly p
  end.

(** [models/domain/control_factor/materialization.rs:312-378] `QualityGatePolicy::default` *)
Definition default_policy : QualityGatePolicy :=
  let th o m s ttl := {| th_min_opportunities := o; th_min_markets := m; th_min_settlements := s; th_default_ttl_secs := ttl |} in {|
  qp_defaults := {| qd_max_single_market_share_bps := 5000; qd_max_single_event_share_bps := 5000; qd_max_tail_drawdown_pct_bps := 3000 |};
  qp_bucket_risk := th 100 20 50 (14 * 24 * 60 * 60); qp_execution_quality := th 200 20 0 (3 * 24 * 60 * 60);
  qp_portfolio_risk := th 100 10 30 (7 * 24 * 60 * 60); qp_reconciliation_health := th 0 0 0 (2 * 60 * 60); qp_market_anomaly := th 0 1 0 (6 * 60 * 60);
  qp_enabled_gates := [QgPointInTime; QgUpstreamStage; QgCoverage; QgSample; QgLeakage; QgStability; QgTailRisk; QgConservative; QgTtl; QgOwner] |}.

(** [models/domain/control_factor/materialization.rs:276-298] `QualityGatePolicy::smoke_acceptance` *)
Definition smoke_acceptance : QualityGatePolicy :=
  let p := default_policy in
  let th t := {| th_min_opportunities := 1; th_min_markets := 1; th_min_settlements := 0; th_default_ttl_secs := th_default_ttl_secs t |} in {|
  qp_defaults := {| qd_max_single_market_share_bps := 10000; qd_max_single_event_share_bps := 10000;
                    qd_max_tail_drawdown_pct_bps := qd_max_tail_drawdown_pct_bps (qp_defaults p) |};
  qp_bucket_risk := th (qp_bucket_risk p); qp_execution_quality := th (qp_execution_quality p); qp_portfolio_risk := th (qp_portfolio_risk p);
  qp_reconciliation_health := th (qp_reconciliation_health p); qp_market_anomaly := th (qp_market_anomaly p);
  qp_enabled_gates := List.filter (fun g => negb (bool_decide (g = QgLeakage) || bool_decide (g = QgTailRisk))) (qp_enabled_gates p) |}.

(** [models/domain/control_factor/materialization.rs:193-204] `RuntimeConfigRef` *)
Inductive RuntimeConfigRef := RcActiveAt (at_ : Time) | RcVersion (version_id : Z) (config_hash : string) | RcHash (config_hash : string).

(** [models/domain/control_factor/materialization.rs:430-448] `MaterializationRunManifest`, what the builders read *)
Record FactorManifest := {
  fm_requested_factor_types : list ControlFactorType;
  fm_quality_gate_policy : QualityGatePolicy;
  fm_window_from : Time;
  fm_window_to : Time;
  fm_runtime_config_ref : RuntimeConfigRef;
  fm_code_git_sha : string;
  fm_created_by : string
}.

Section Build.
Context {DO : DecimalOps} {DEC : Decoding}.

(** ** Statistics *)

(** [control/factor/stats.rs:6-10] `RatioEstimate` *)
Record RatioEstimate := { re_lower : D; re_point : D; re_upper : D }.

(** [models/domain/control_factor/evidence.rs:82-87] `ConfidenceInterval` *)
Record ConfidenceInterval := { ci_lower : D; ci_point_estimate : D; ci_upper : D; ci_confidence_level : D }.

(** [control/factor/stats.rs:12-22] `RatioEstimate::to_confidence_interval` *)
Definition to_confidence_interval (e : RatioEstimate) : ConfidenceInterval := {|
  ci_lower := re_lower e; ci_point_estimate := re_point e; ci_upper := re_upper e; ci_confidence_level := dlit 95 2 |}.

(** [control/factor/stats.rs:26-33] `unestimated_confidence_interval` *)
Definition unestimated_confidence_interval : ConfidenceInterval := {|
  ci_lower := d0; ci_point_estimate := d1; ci_upper := d1; ci_confidence_level := dlit 95 2 |}.

(** [error/control.rs:117-122] `StatsError` *)
Inductive StatsError := ZeroDenominator | EmptySample.

(** [control/factor/stats.rs:46-48] `clamp_unit` *)
Definition clamp_unit (value : D) : D := dclamp value d0 d1.

(** [control/factor/stats.rs:35-40] `conservative_ratio` *)
Definition conservative_ratio (numerator denominator : D) : Result D StatsError :=
  if dleb denominator d0 then Err ZeroDenominator else Ok (clamp_unit (ddiv numerator denominator)).

(** [control/factor/stats.rs:42-44] `conservative_addon` *)
Definition conservative_addon (observed baseline : D) : D := dmax (dsub observed baseline) d0.

(** [control/factor/stats.rs:50-61] `percentile` *)
Definition percentile (values : list D) (percentile_bps : Z) : Result D StatsError :=
  match values with
  | [] => Err EmptySample
  | v :: _ =>
      let max_index := (Z.of_nat (length values) - 1)%Z in
      let rank := (max_index * percentile_bps + 9999) / 10000 in
      let index := Z.min (unwrap_or (to_u64 rank) max_index) max_index in
      Ok (default v (sort_by dleb values !! Z.to_nat index))
  end.

(** [control/factor/stats.rs:63-84] `observed_rate_lower_bound` *)
Definition observed_rate_lower_bound (successes samples : Z) : Result RatioEstimate StatsError :=
  if samples =? 0 then Err EmptySample
  else
    let point := ddiv (dof_Z successes) (dof_Z samples) in
    let uncertainty := if 400 <=? samples then dlit 500 4 else if 100 <=? samples then dlit 1000 4 else if 25 <=? samples then dlit 2000 4 else dlit 4000 4 in
    Ok {| re_lower := clamp_unit (dsub point uncertainty); re_point := clamp_unit point; re_upper := clamp_unit (dadd point uncertainty) |}.

(** [control/factor/stats.rs:86-92] `dominance_bps` *)
Definition dominance_bps (largest_group_count total_count : Z) : Result Z StatsError :=
  if total_count =? 0 then Err EmptySample
  else Ok (unwrap_or (to_u32 (sat_u64 (largest_group_count * 10000) ÷ total_count)) u32_max).

(** [control/factor/stats.rs:94-96] `parent_bucket_required` *)
Definition parent_bucket_required (child_samples min_samples : Z) : bool := child_samples <? min_samples.

(** ** Buckets *)

(** [control/factor/bucket.rs:11-15] `BucketBuildGroup` *)
Record BucketBuildGroup := { bg_dimensions : BucketRiskDimensions; bg_sample_count : Z; bg_parent_shrunk : bool }.

(** [control/factor/bucket.rs:72-81] `shrink_bucket_dimensions` *)
Definition shrink_bucket_dimensions (d : BucketRiskDimensions) : BucketRiskDimensions := coarse (bd_category d) (bd_price_zone d) (bd_duration_bucket d).

(** [control/factor/bucket.rs:21-39] `bucket_build_groups`: a count for each bucket, in the order of their first examples *)
Fixpoint count_bucket (counts : list (BucketRiskDimensions * Z)) (d : BucketRiskDimensions) : list (BucketRiskDimensions * Z) :=
  match counts with
  | [] => [(d, 1)]
  | (b, n) :: rest => if bool_decide (b = d) then (b, n + 1) :: rest else (b, n) :: count_bucket rest d
  end.

(** [control/factor/bucket.rs:41-57] `bucket_build_groups`: small buckets merge into their parent *)
Fixpoint merge_bucket (merged : list (BucketRiskDimensions * Z * bool)) (target : BucketRiskDimensions) (count : Z) (shrunk : bool) : list (BucketRiskDimensions * Z * bool) :=
  match merged with
  | [] => [(target, count, shrunk)]
  | (b, n, was) :: rest => if bool_decide (b = target) then (b, n + count, was || shrunk) :: rest else (b, n, was) :: merge_bucket rest target count shrunk
  end.

(** The order of the declaration. *)
Definition category_rank (c : MarketCategory) : Z :=
  match c with
  | Geopolitics => 0 | Sports => 1 | Politics => 2 | Finance => 3 | Tech => 4 | Culture => 5 | Weather => 6 | Economics => 7 | Crypto => 8 | Other => 9
  end.

Definition bucket_examples (examples : list FactorTrainingExample) : list BucketRiskDimensions :=
  omap (M := list) (fun e => match te_entity_key e with DimBucketRisk d => if bool_decide (te_factor_type e = BucketRisk) then Some d else None | _ => None end) examples.

(** [control/factor/bucket.rs:17-69] `bucket_build_groups` *)
Definition bucket_build_groups (examples : list FactorTrainingExample) (min_samples : Z) : list BucketBuildGroup :=
  let raw_counts := foldl count_bucket [] (bucket_examples examples) in
  let merged := foldl (fun merged '(d, count) =>
      let shrunk := parent_bucket_required count min_samples in
      merge_bucket merged (if shrunk then shrink_bucket_dimensions d else d) count shrunk) [] raw_counts in
  sort_by (fun a b => category_rank (bd_category (bg_dimensions a)) <=? category_rank (bd_category (bg_dimensions b)))
    ((fun '(d, n, shrunk) => {| bg_dimensions := d; bg_sample_count := n; bg_parent_shrunk := shrunk |}) <$> merged).

(** ** Builders *)

(** [models/domain/control_factor/evidence.rs:91-96] `TailRiskEvidence` *)
Record TailRiskEvidence := { tk_p95_loss : D; tk_p99_loss : D; tk_max_loss : D; tk_expected_shortfall : D }.

(** A factor value with the parts of its evidence that nothing else of the model reads. *)
Record BuiltFactor := { bf_value : ControlFactorValue; bf_confidence : ConfidenceInterval; bf_tail_risk : TailRiskEvidence; bf_warnings : list string }.

(** A report of a stage, its identifier first. *)
Definition StageReportBody : Type := Z * MaterializationStageName * EvidenceStageStatus.

(** [control/factor/mod.rs:40-48] `FactorBuildContext`; of the execution evidence the builders read the fills *)
Record FactorBuildContext := {
  fc_manifest : FactorManifest;
  fc_pit_manifest : PointInTimeInputManifest;
  fc_stage_reports : list StageReportBody;
  fc_training : TrainingArtifact;
  fc_true_fill_count : Z;
  fc_portfolio : PortfolioArtifact;
  fc_settlement : SettlementReport
}.

(** [control/factor/mod.rs:366-375] `examples_for` *)
Definition examples_for (training : TrainingArtifact) (t : ControlFactorType) : list FactorTrainingExample :=
  List.filter (fun e => bool_decide (te_factor_type e = t)) (ta_examples training).

(** [control/factor/mod.rs:377-379] `first_dimensions`, with the default of its callers *)
Definition first_dimensions (examples : list FactorTrainingExample) : FactorDimensions :=
  match examples with e :: _ => te_entity_key e | [] => DimUnspecified end.

(** [control/factor/mod.rs:510-517] `config_hash` *)
Definition config_hash (m : FactorManifest) : string :=
  match fm_runtime_config_ref m with RcVersion _ h | RcHash h => h | RcActiveAt _ => "active_at" end.

(** [control/factor/mod.rs:519-524] `portfolio_metric_usd` *)
Definition portfolio_metric_usd (m : EvidenceMetric string) : D :=
  match m with MtAvailable v => default d0 (decimal_from_str v) | MtUnavailable _ _ => d0 end.

(** [control/factor/mod.rs:492-508] `tail_risk_from_portfolio` *)
Definition tail_risk_from_portfolio (p : PortfolioReport) : TailRiskEvidence :=
  let drawdown := dof_Z (default 0 (metric_value (pr_max_drawdown_pct_bps p))) in
  let peak_loss := portfolio_metric_usd (pr_peak_potential_loss_usd p) in
  {| tk_p95_loss := dmax drawdown peak_loss; tk_p99_loss := dadd drawdown (ddiv peak_loss (dof_Z 2)); tk_max_loss := dmax drawdown peak_loss;
     tk_expected_shortfall := drawdown |}.

(** [control/factor/mod.rs:433-490] `factor_evidence`, what [FactorEvidence] keeps *)
Definition factor_evidence (c : FactorBuildContext) (t : ControlFactorType) : FactorEvidence :=
  let examples := examples_for (fc_training c) t in
  let report := ta_report (fc_training c) in
  let count := unwrap_or (to_u32 (Z.of_nat (length examples))) u32_max in {|
    fe_stage_report_ids := (fun r => r.1.1) <$> fc_stage_reports c;
    fe_window_from := fm_window_from (fc_manifest c); fe_window_to := fm_window_to (fc_manifest c);
    fe_market_count := unwrap_or (to_u32 (Z.of_nat (size (list_to_set (te_market_id <$> examples) : gset string)))) u32_max;
    fe_event_count := unwrap_or (to_u32 (tr_entity_count report)) u32_max;
    fe_opportunity_count := count;
    fe_settlement_count := unwrap_or (to_u32 (sr_settled_trade_count (fc_settlement c))) u32_max;
    fe_sample_count := count;
    fe_data_coverage := {| expected_rows := tr_example_count report; observed_rows := tr_example_count report; missing_rows := 0; coverage_ratio := d1;
                           insufficient_reasons := [] |};
    fe_point_in_time_inputs := fc_pit_manifest c; fe_baseline_config_hash := config_hash (fc_manifest c); fe_code_git_sha := fm_code_git_sha (fc_manifest c);
    fe_dataset_hash := tr_dataset_hash report; fe_feature_schema_hash := tr_feature_schema_hash report; fe_label_schema_hash := tr_label_schema_hash report;
    fe_query_fingerprint := match tr_query_fingerprints report with f :: _ => f | [] => "none" end |}.

(** [control/factor/mod.rs:103-106] `BuilderOutput`: a factor value, still without identifier and times, that is a draft or not *)
Record BuilderOutput := {
  bo_draft : bool; bo_factor_type : ControlFactorType; bo_dimensions : FactorDimensions; bo_payload : FactorPayload; bo_confidence : ConfidenceInterval;
  bo_warnings : list string
}.

(** [control/factor/mod.rs:406-431] `factor_value`, with the identifier and the two readings of the clock *)
Definition factor_value (c : FactorBuildContext) (o : BuilderOutput) (stamp : Z * Time * Time) : BuiltFactor :=
  let '(id, generated_at, now) := stamp in
  let ttl := unwrap_or (to_i64 (th_default_ttl_secs (thresholds_for (fm_quality_gate_policy (fc_manifest c)) (bo_factor_type o)))) i64_max in {|
    bf_value := {|
      cf_factor_id := id; cf_factor_type := bo_factor_type o; cf_dimensions := bo_dimensions o; cf_payload := bo_payload o;
      cf_evidence := factor_evidence c (bo_factor_type o); cf_status := if bo_draft o then FDraft else FReportOnly; cf_generated_at := generated_at;
      cf_expires_at := now + ttl * 1000000000; cf_owner := fm_created_by (fc_manifest c); cf_schema_version := 1 |};
    bf_confidence := bo_confidence o; bf_tail_risk := tail_risk_from_portfolio (pa_report (fc_portfolio c)); bf_warnings := bo_warnings o |}.

(** [control/factor/mod.rs:397-404] `neutral_bucket_payload` *)
Definition neutral_bucket_payload : FactorPayload :=
  PayBucketRisk {| resolution_haircut_factor := d1; bp_size_multiplier := d1; min_edge_bps_addon := d0; block_new_entries := false |}.

(** [control/factor/mod.rs:142-195] `build_bucket_group` *)
Definition build_bucket_group (c : FactorBuildContext) (group : BucketBuildGroup) : BuilderOutput :=
  let estimate := observed_rate_lower_bound (sr_won_count (fc_settlement c)) (bg_sample_count group) in
  let sufficient := negb (parent_bucket_required (bg_sample_count group) (th_min_opportunities (thresholds_for (fm_quality_gate_policy (fc_manifest c)) BucketRisk))) in {|
    bo_draft := is_ok estimate && sufficient; bo_factor_type := BucketRisk; bo_dimensions := DimBucketRisk (bg_dimensions group);
    bo_payload := match estimate with
                  | Ok e => PayBucketRisk {| resolution_haircut_factor := re_lower e; bp_size_multiplier := re_lower e; min_edge_bps_addon := d0;
                                             block_new_entries := deqb (re_lower e) d0 |}
                  | Err _ => neutral_bucket_payload
                  end;
    bo_confidence := match estimate with Ok e => to_confidence_interval e | Err _ => unestimated_confidence_interval end;
    bo_warnings := if bg_parent_shrunk group then ["bucket.parent_shrink"] else [] |}.

(** [control/factor/mod.rs:119-139] `BucketRiskBuilder::build` *)
Definition build_bucket_risk (c : FactorBuildContext) : list BuilderOutput :=
  match bucket_build_groups (ta_examples (fc_training c)) (th_min_opportunities (thresholds_for (fm_quality_gate_policy (fc_manifest c)) BucketRisk)) with
  | [] => [{| bo_draft := false; bo_factor_type := BucketRisk; bo_dimensions := DimUnspecified; bo_payload := neutral_bucket_payload;
              bo_confidence := unestimated_confidence_interval; bo_warnings := [] |}]
  | groups => build_bucket_group c <$> groups
  end.

(** [control/factor/mod.rs:202-252] `ExecutionQualityBuilder::build` *)
Definition build_execution_quality (c : FactorBuildContext) : list BuilderOutput :=
  let samples := examples_for (fc_training c) ExecutionQuality in
  let n := Z.of_nat (length samples) in
  let fill_multiplier := conservative_ratio (dof_Z (fc_true_fill_count c)) (dof_Z n) in
  [{| bo_draft := is_ok fill_multiplier; bo_factor_type := ExecutionQuality; bo_dimensions := first_dimensions samples;
      bo_payload := PayExecutionQuality match fill_multiplier with
                    | Ok m => {| fill_probability_multiplier := m; max_depth_usage_pct := Some (dlit 9 1); slippage_bps_addon := d0; min_liquidity_score := None |}
                    | Err _ => {| fill_probability_multiplier := d1; max_depth_usage_pct := None; slippage_bps_addon := d0; min_liquidity_score := None |}
                    end;
      bo_confidence := match observed_rate_lower_bound (fc_true_fill_count c) n with Ok e => to_confidence_interval e | Err _ => unestimated_confidence_interval end;
      bo_warnings := [] |}].

(** [control/factor/mod.rs:381-395] `portfolio_confidence_interval` *)
Definition portfolio_confidence_interval (p : PortfolioReport) : ConfidenceInterval :=
  match pr_max_drawdown_pct_bps p with
  | MtUnavailable _ _ => unestimated_confidence_interval
  | MtAvailable bps => {| ci_lower := d0; ci_point_estimate := dsub d1 (ddiv (dof_Z bps) (dof_Z 10000)); ci_upper := d1; ci_confidence_level := dlit 95 2 |}
  end.

(** [control/factor/mod.rs:260-298] `PortfolioRiskBuilder::build` *)
Definition build_portfolio_risk (c : FactorBuildContext) : list BuilderOutput :=
  let report := pa_report (fc_portfolio c) in
  let ready := pa_sequence_complete (fc_portfolio c) && is_available (pr_max_drawdown_pct_bps report) && is_available (pr_settlement_backlog_max report) in
  [{| bo_draft := ready; bo_factor_type := PortfolioRisk; bo_dimensions := first_dimensions (examples_for (fc_training c) PortfolioRisk);
      bo_payload := PayPortfolioRisk {| pp_global_size_multiplier := if ready then dlit 9 1 else d1; pp_category_size_multiplier := None;
                                        pp_daily_budget_multiplier := d1; pp_max_open_positions := None; pp_kelly_fraction_multiplier := d1 |};
      bo_confidence := portfolio_confidence_interval report; bo_warnings := [] |}].

(** [control/factor/mod.rs:306-337] `ReconciliationHealthBuilder::build` *)
Definition build_reconciliation_health (c : FactorBuildContext) : list BuilderOutput :=
  let critical := match metric_value (sr_critical_drift_count (fc_settlement c)) with Some n => 0 <? n | None => false end in
  [{| bo_draft := true; bo_factor_type := ReconciliationHealth; bo_dimensions := first_dimensions (examples_for (fc_training c) ReconciliationHealth);
      bo_payload := PayReconciliationHealth {| trading_health := if critical then ThHalted else Healthy; rp_size_multiplier := if critical then d0 else d1;
                                               rp_require_manual_ack := critical; rp_force_maintenance_mode := critical;
                                               fail_closed_after_secs := if critical then Some 3600 else None |};
      bo_confidence := unestimated_confidence_interval; bo_warnings := [] |}].

(** [control/factor/mod.rs:345-363] `MarketAnomalyBuilder::build` *)
Definition build_market_anomaly (c : FactorBuildContext) : list BuilderOutput :=
  [{| bo_draft := false; bo_factor_type := MarketAnomaly; bo_dimensions := first_dimensions (examples_for (fc_training c) MarketAnomaly);
      bo_payload := PayMarketAnomaly {| mp_severity := SevWarning; mp_block_market := false; mp_block_event := false; mp_category_cooldown_secs := None;
                                        mp_reason_code := "market_anomaly.report_only_no_incident"; mp_manual_ack_required := false |};
      bo_confidence := unestimated_confidence_interval; bo_warnings := [] |}].

(** [control/factor/mod.rs:54-66] `FactorBuilderRegistry::default` *)
Definition builders : list (ControlFactorType * (FactorBuildContext -> list BuilderOutput)) :=
  [(BucketRisk, build_bucket_risk); (ExecutionQuality, build_execution_quality); (PortfolioRisk, build_portfolio_risk);
   (ReconciliationHealth, build_reconciliation_health); (MarketAnomaly, build_market_anomaly)].

(** [control/factor/mod.rs:69-90] `FactorBuilderRegistry::build`: the outputs of the requested builders *)
Definition builder_outputs (c : FactorBuildContext) : list BuilderOutput :=
  builders ≫= fun '(t, build) => if bool_decide (t ∈ fm_requested_factor_types (fc_manifest c)) then build c else [].

(** [models/domain/control_factor/materialization.rs:401-407] `FactorBuildArtifact`, without its run and its warnings *)
Record FactorBuildArtifact := { fa_built_factors : list BuiltFactor; fa_report_only_factors : list BuiltFactor; fa_rejected_factors : list BuiltFactor }.

(** [control/factor/mod.rs:69-95] `FactorBuilderRegistry::build` *)
Definition build_factors (c : FactorBuildContext) (stamps : nat -> Z * Time * Time) : FactorBuildArtifact :=
  let made := imap (fun i o => (bo_draft o, factor_value c o (stamps i))) (builder_outputs c) in {|
    fa_built_factors := snd <$> List.filter fst made;
    fa_report_only_factors := snd <$> List.filter (fun x => negb x.1) made;
    fa_rejected_factors := [] |}.

(** ** Quality gates *)

(** [control/gates/mod.rs:29-37] `QualityGateContext` *)
Record QualityGateContext := {
  gc_policy : QualityGatePolicy;
  gc_output_policy : MaterializationOutputPolicy;
  gc_stage_reports : list StageReportBody;
  gc_pit_manifest : PointInTimeInputManifest;
  gc_training : TrainingArtifact;
  gc_detector : DetectorArtifact;
  gc_portfolio : PortfolioArtifact
}.

(** [models/domain/control_factor/evidence.rs:106-116] `QualityGateDecision`, with the outcome as whether the gate passed; a failed gate always blocks *)
Record QualityGateDecision := { qg_factor_id : option Z; qg_factor_type : ControlFactorType; qg_gate_name : QualityGateName; qg_passed : bool; qg_code : string }.

(** [models/domain/control_factor/evidence.rs:155-157] `QualityGateDecision::is_blocking_failure` *)
Definition is_blocking_failure (d : QualityGateDecision) : bool := negb (qg_passed d).

(** [control/gates/mod.rs:262-264] `gate_enabled` *)
Definition gate_enabled (p : QualityGatePolicy) (g : QualityGateName) : bool := bool_decide (g ∈ qp_enabled_gates p).

(** [control/gates/mod.rs:281-286] `upstream_stage_passes` *)
Definition upstream_stage_passes (s : EvidenceStageStatus) : bool := match s with EsCompleted | EsCompletedWithWarnings => true | _ => false end.

(** [control/gates/mod.rs:288-329] `required_upstream_stages` *)
Definition required_upstream_stages (t : ControlFactorType) : list MaterializationStageName :=
  match t with
  | BucketRisk => [ResolveInputs; BookReconstruction; DetectorEvidence; ExecutionEvidence; SettlementReconciliationEvidence; TrainingExampleBuild]
  | ExecutionQuality => [ResolveInputs; BookReconstruction; DetectorEvidence; ExecutionEvidence; TrainingExampleBuild]
  | PortfolioRisk => [ResolveInputs; BookReconstruction; DetectorEvidence; ExecutionEvidence; PortfolioRiskEvidence; TrainingExampleBuild]
  | ReconciliationHealth => [ResolveInputs; SettlementReconciliationEvidence; TrainingExampleBuild]
  | MarketAnomaly => [ResolveInputs; DetectorEvidence; TrainingExampleBuild]
  end.

(** [control/gates/mod.rs:266-279] `upstream_evidence_ready` *)
Definition upstream_evidence_ready (c : QualityGateContext) (t : ControlFactorType) : bool :=
  forallb (fun name => match List.find (fun r => bool_decide (r.1.2 = name)) (gc_stage_reports c) with
                       | Some r => upstream_stage_passes r.2 | None => false end) (required_upstream_stages t).

Definition positive_metric (m : EvidenceMetric Z) : bool := match metric_value m with Some n => 0 <? n | None => false end.

(** [control/gates/mod.rs:331-355] `leakage_checks_pass` *)
Definition leakage_checks_pass (c : QualityGateContext) (f : ControlFactorValue) : bool :=
  if negb (is_production_eligible (gc_pit_manifest c)) then false
  else if positive_metric (dr_calibration_snapshot_mismatch_count (da_report (gc_detector c))) || positive_metric (dr_bucket_mismatch_count (da_report (gc_detector c)))
  then false
  else forallb (fun e => match List.find (fun d => dd_opportunity_id d =? te_opportunity_id e) (da_detections (gc_detector c)) with
                         | Some d => negb (dd_bucket_mismatch d) && negb (dd_calibration_mismatch d) | None => true end)
         (examples_for (gc_training c) (cf_factor_type f)).

(** [control/gates/mod.rs:362-367] `market_stability_ok`: the examples of each market *)
Definition market_counts (examples : list FactorTrainingExample) : gmap MarketId Z :=
  foldl (fun m e => <[te_market_id e := default 0 (m !! te_market_id e) + 1]> m) ∅ examples.

(** [control/gates/mod.rs:357-376] `market_stability_ok` *)
Definition market_stability_ok (c : QualityGateContext) (f : ControlFactorValue) : bool :=
  let examples := examples_for (gc_training c) (cf_factor_type f) in
  match examples with
  | [] => false
  | _ =>
      let counts := market_counts examples in
      if (size counts <=? 1)%nat then true
      else match dominance_bps (foldr Z.max 0 (map_to_list counts).*2) (Z.of_nat (length examples)) with
           | Ok bps => bps <=? qd_max_single_market_share_bps (qp_defaults (gc_policy c))
           | Err _ => false
           end
  end.

(** [control/gates/mod.rs:378-387] `tail_risk_within_policy` *)
Definition tail_risk_within_policy (c : QualityGateContext) (f : ControlFactorValue) : bool :=
  match metric_value (pr_max_drawdown_pct_bps (pa_report (gc_portfolio c))) with
  | None => negb (bool_decide (cf_factor_type f = PortfolioRisk))
  | Some bps => bps <=? qd_max_tail_drawdown_pct_bps (qp_defaults (gc_policy c))
  end.

(** [control/gates/mod.rs:131-198] `evaluate_evidence_gates`: each gate with what it asks and the code of its failure *)
Definition evidence_gates (c : QualityGateContext) (f : ControlFactorValue) : list (QualityGateName * bool * string) :=
  let th := thresholds_for (gc_policy c) (cf_factor_type f) in
  let e := cf_evidence f in
  [(QgPointInTime, is_production_eligible (gc_pit_manifest c) && is_production_eligible (fe_point_in_time_inputs e), "gate.pit_ineligible");
   (QgUpstreamStage, upstream_evidence_ready c (cf_factor_type f), "gate.upstream_stage_blocked");
   (QgCoverage, coverage_is_sufficient (fe_data_coverage e), "gate.coverage_insufficient");
   (QgSample, (th_min_opportunities th <=? fe_opportunity_count e) && (th_min_markets th <=? fe_market_count e) && (th_min_settlements th <=? fe_settlement_count e),
    "gate.sample_insufficient");
   (QgLeakage, leakage_checks_pass c f, "gate.leakage_detected")].

(** [control/gates/mod.rs:200-260] `evaluate_risk_gates` *)
Definition risk_gates (c : QualityGateContext) (now : Time) (f : ControlFactorValue) : list (QualityGateName * bool * string) :=
  [(QgStability, market_stability_ok c f, "gate.stability_dominance"); (QgTailRisk, tail_risk_within_policy c f, "gate.tail_risk_exceeded");
   (QgConservative, is_ok (validate_safety (cf_payload f)), "gate.not_conservative");
   (QgTtl, (cf_generated_at f <? cf_expires_at f) && (now <? cf_expires_at f), "gate.ttl_invalid");
   (QgOwner, negb (blank (cf_owner f)), "gate.owner_missing")].

(** [control/gates/mod.rs:121-129] `evaluate_factor`, with `push_bool_decision` *)
Definition evaluate_factor (c : QualityGateContext) (now : Time) (f : ControlFactorValue) : list QualityGateDecision :=
  (fun '(g, passed, code) => {| qg_factor_id := if passed : bool then Some (cf_factor_id f) else None; qg_factor_type := cf_factor_type f; qg_gate_name := g;
                                qg_passed := passed; qg_code := if passed : bool then "gate.passed" else code |})
  <$> List.filter (fun x => gate_enabled (gc_policy c) x.1.1) (evidence_gates c f ++ risk_gates c now f).

(** [control/gates/mod.rs:67-80] `QualityGateEvaluator::evaluate`, the status of a factor *)
Definition gated_status (output_policy : MaterializationOutputPolicy) (status : FactorStatus) (blocked : bool) : FactorStatus :=
  match output_policy, status, blocked with
  | _, FRejected, _ => FRejected
  | EmitDraftCandidates, FDraft, false => FCandidate
  | EmitDraftCandidates, FDraft, true => FRejected
  | EmitDraftOnly, FDraft, _ => FDraft
  | _, FReportOnly, _ => FReportOnly
  | _, status, _ => status
  end.

Definition with_status (f : BuiltFactor) (s : FactorStatus) : BuiltFactor :=
  let v := bf_value f in {|
    bf_value := {| cf_factor_id := cf_factor_id v; cf_factor_type := cf_factor_type v; cf_dimensions := cf_dimensions v; cf_payload := cf_payload v;
                   cf_evidence := cf_evidence v; cf_status := s; cf_generated_at := cf_generated_at v; cf_expires_at := cf_expires_at v; cf_owner := cf_owner v;
                   cf_schema_version := cf_schema_version v |};
    bf_confidence := bf_confidence f; bf_tail_risk := bf_tail_risk f; bf_warnings := bf_warnings f |}.

(** [control/gates/mod.rs:61-86] `QualityGateEvaluator::evaluate`, one factor *)
Definition gate_factor (c : QualityGateContext) (now : Time) (f : BuiltFactor) : BuiltFactor * list QualityGateDecision :=
  let decisions := evaluate_factor c now (bf_value f) in
  (with_status f (gated_status (gc_output_policy c) (cf_status (bf_value f)) (existsb is_blocking_failure decisions)),
   (fun d => {| qg_factor_id := Some (cf_factor_id (bf_value f)); qg_factor_type := qg_factor_type d; qg_gate_name := qg_gate_name d; qg_passed := qg_passed d;
                qg_code := qg_code d |}) <$> decisions).

(** [models/domain/control_factor/evidence.rs:161-167] `QualityGateEvaluationReport`, with the factors of `QualityGateEvaluationArtifact` *)
Record QualityGateEvaluation := {
  qe_evaluated_factor_count : Z; qe_passed_factor_count : Z; qe_rejected_factor_count : Z; qe_report_only_factor_count : Z;
  qe_decisions : list QualityGateDecision; qe_factors : list BuiltFactor
}.

(** [control/gates/mod.rs:41-118] `QualityGateEvaluator::evaluate`; the clock is read for each factor *)
Definition evaluate_gates (c : QualityGateContext) (clock : nat -> Time) (build : FactorBuildArtifact) : QualityGateEvaluation :=
  let gated := imap (fun i f => gate_factor c (clock i) f) (fa_built_factors build ++ fa_report_only_factors build ++ fa_rejected_factors build) in
  let factors := fst <$> gated in
  let count f := Z.of_nat (length (List.filter (fun x => f (cf_status (bf_value x))) factors)) in {|
    qe_evaluated_factor_count := Z.of_nat (length factors);
    qe_passed_factor_count := count (fun s => match s with FCandidate | FDraft => true | _ => false end);
    qe_rejected_factor_count := count (fun s => match s with FRejected => true | _ => false end);
    qe_report_only_factor_count := count (fun s => match s with FReportOnly => true | _ => false end);
    qe_decisions := gated ≫= snd; qe_factors := factors |}.
End Build.

(** ** What is built *)

Section BuildFacts.
Context `{DL : DecimalLaws} {DEC : Decoding}.

Lemma d0_unit : unit_range d0.
Proof. unfold unit_range. split; dbool; rewrite ?dval_d0, ?dval_d1; lra. Qed.

Lemma d1_unit : unit_range d1.
Proof. unfold unit_range. split; dbool; rewrite ?dval_d0, ?dval_d1; lra. Qed.

Lemma nine_tenths_unit : unit_range (dlit 9 1).
Proof. unfold unit_range. split; dbool; rewrite ?dval_d0, ?dval_d1, dlit_spec by lia; unfold grid, Qle; cbn; lia. Qed.

Lemma clamp_unit_range x : unit_range (clamp_unit x).
Proof.
  unfold clamp_unit, dclamp. destruct (dltb x d0) eqn:E; [apply d0_unit|]. destruct (dltb d1 x) eqn:E'; [apply d1_unit|].
  unfold unit_range. unfold dltb in E, E'. by apply negb_false_iff in E, E'.
Qed.

Lemma clamp_unit_mono x y : (dval x <= dval y)%Q -> (dval (clamp_unit x) <= dval (clamp_unit y))%Q.
Proof.
  intros H. unfold clamp_unit, dclamp. pose proof dval_d0. pose proof dval_d1.
  destruct (dltb x d0) eqn:E1, (dltb y d0) eqn:E2; destruct (dltb d1 x) eqn:E3, (dltb d1 y) eqn:E4; dbool; lra.
Qed.

(** The bounds of an estimated rate are rates, in order, whatever was counted. *)
Lemma observed_rate_bounds successes samples e : observed_rate_lower_bound successes samples = Ok e ->
  unit_range (re_lower e) /\ unit_range (re_point e) /\ unit_range (re_upper e) /\
  dleb (re_lower e) (re_point e) = true /\ dleb (re_point e) (re_upper e) = true.
Proof.
  unfold observed_rate_lower_bound. destruct (samples =? 0); [done|]. set (u := if 400 <=? samples then _ else _). intros [= <-]. cbn.
  split_and!; try apply clamp_unit_range; apply dleb_le, clamp_unit_mono.
  - apply dsub_le_l. unfold u. repeat destruct (_ <=? _); rewrite dlit_spec by lia; unfold grid, Qle; cbn; lia.
  - apply dadd_ge_l. unfold u. repeat destruct (_ <=? _); rewrite dlit_spec by lia; unfold grid, Qle; cbn; lia.
Qed.

Definition examples_typed (examples : list FactorTrainingExample) : Prop :=
  Forall (fun e => dim_factor_type (te_entity_key e) = Some (te_factor_type e)) examples.

Lemma first_dimensions_agree training t : examples_typed (ta_examples training) -> dims_agree (first_dimensions (examples_for training t)) t = true.
Proof.
  intros H. unfold first_dimensions. destruct (examples_for training t) as [|e rest] eqn:E; [done|].
  assert (e ∈ examples_for training t) as He by (rewrite E; by left). unfold examples_for in He. apply list_elem_of_In, filter_In in He as [He Ht].
  apply bool_decide_eq_true in Ht. apply list_elem_of_In in He. eapply Forall_forall in H; [|exact He]. unfold dims_agree. rewrite H. by apply bool_decide_eq_true.
Qed.

Definition output_ok (o : BuilderOutput) : Prop :=
  conservative (bo_payload o) /\ pay_factor_type (bo_payload o) = bo_factor_type o /\ dims_agree (bo_dimensions o) (bo_factor_type o) = true.

Lemma neutral_bucket_ok : conservative neutral_bucket_payload.
Proof. cbn. split_and!; try apply d1_unit. apply d0_unit. Qed.

Lemma bucket_risk_ok c : Forall output_ok (build_bucket_risk c).
Proof.
  unfold build_bucket_risk. destruct (bucket_build_groups _ _) as [|g groups] eqn:E.
  - apply Forall_singleton. split; [apply neutral_bucket_ok | done].
  - apply Forall_fmap, Forall_forall. intros x _. unfold build_bucket_group, output_ok. cbn.
    destruct (observed_rate_lower_bound _ _) as [e|] eqn:Ee; [|split; [apply neutral_bucket_ok | done]].
    destruct (observed_rate_bounds _ _ _ Ee) as (Hl & _). split; [|done]. cbn. split_and!; try apply Hl. apply d0_unit.
Qed.

Lemma execution_quality_ok c : examples_typed (ta_examples (fc_training c)) -> Forall output_ok (build_execution_quality c).
Proof.
  intros Ht. apply Forall_singleton. split; [|split; [done | by apply first_dimensions_agree]]. cbn. unfold conservative_ratio.
  destruct (dleb _ d0); cbn; split_and!; first [done | apply d1_unit | apply clamp_unit_range | apply nine_tenths_unit | apply d0_unit].
Qed.

Lemma portfolio_risk_ok c : examples_typed (ta_examples (fc_training c)) -> Forall output_ok (build_portfolio_risk c).
Proof.
  intros Ht. apply Forall_singleton. split; [|split; [done | by apply first_dimensions_agree]]. cbn.
  destruct (_ && _ && _); split_and!; first [done | apply d1_unit | apply nine_tenths_unit].
Qed.

Lemma reconciliation_health_ok c : examples_typed (ta_examples (fc_training c)) -> Forall output_ok (build_reconciliation_health c).
Proof.
  intros Ht. apply Forall_singleton. split; [|split; [done | by apply first_dimensions_agree]]. cbn.
  destruct (match metric_value _ with Some _ => _ | None => _ end); first [apply d0_unit | apply d1_unit].
Qed.

Lemma market_anomaly_ok c : examples_typed (ta_examples (fc_training c)) -> Forall output_ok (build_market_anomaly c).
Proof. intros Ht. apply Forall_singleton. split; [vm_compute; reflexivity|]. split; [done | by apply first_dimensions_agree]. Qed.

Lemma builder_outputs_ok c o : examples_typed (ta_examples (fc_training c)) -> o ∈ builder_outputs c -> output_ok o.
Proof.
  intros Ht Ho. unfold builder_outputs in Ho. apply list_elem_of_bind in Ho as ([t build] & Ho & Hb).
  destruct (bool_decide _); [|by apply not_elem_of_nil in Ho]. revert o Ho. apply Forall_forall.
  repeat (apply elem_of_cons in Hb as [[= -> ->]|Hb];
    [first [apply bucket_risk_ok | by apply execution_quality_ok | by apply portfolio_risk_ok | by apply reconciliation_health_ok | by apply market_anomaly_ok]|]).
  by apply not_elem_of_nil in Hb.
Qed.

(** The clock of the stamps runs forward, and every family has a time to live. *)
Definition stamps_ok (stamps : nat -> Z * Time * Time) : Prop := forall i, (stamps i).1.2 <= (stamps i).2.
Definition ttl_ok (p : QualityGatePolicy) : Prop := forall t, 0 < th_default_ttl_secs (thresholds_for p t) <= i64_max.

(** A value that came out of a builder, as a draft or not. *)
Definition made_by (c : FactorBuildContext) (stamps : nat -> Z * Time * Time) (draft : bool) (f : BuiltFactor) : Prop :=
  exists o i, o ∈ builder_outputs c /\ bo_draft o = draft /\ f = factor_value c o (stamps i).

Lemma built_by c stamps f : f ∈ fa_built_factors (build_factors c stamps) -> made_by c stamps true f.
Proof.
  unfold build_factors. cbn. intros (x & -> & Hx)%list_elem_of_fmap. apply list_elem_of_In, filter_In in Hx as [Hx Hd]. apply list_elem_of_In in Hx.
  apply elem_of_lookup_imap in Hx as (i & o & -> & Ho). apply list_elem_of_lookup_2 in Ho. cbn in Hd. by exists o, i.
Qed.

Lemma report_only_by c stamps f : f ∈ fa_report_only_factors (build_factors c stamps) -> made_by c stamps false f.
Proof.
  unfold build_factors. cbn. intros (x & -> & Hx)%list_elem_of_fmap. apply list_elem_of_In, filter_In in Hx as [Hx Hd]. apply list_elem_of_In in Hx.
  apply elem_of_lookup_imap in Hx as (i & o & -> & Ho). apply list_elem_of_lookup_2 in Ho. apply negb_true_iff in Hd. cbn in Hd. by exists o, i.
Qed.

Lemma made_shape c stamps draft f : made_by c stamps draft f ->
  cf_status (bf_value f) = (if draft then FDraft else FReportOnly) /\ cf_evidence (bf_value f) = factor_evidence c (cf_factor_type (bf_value f)) /\
  (examples_typed (ta_examples (fc_training c)) ->
     validate_safety (cf_payload (bf_value f)) = Ok tt /\ pay_factor_type (cf_payload (bf_value f)) = cf_factor_type (bf_value f) /\
     dims_agree (cf_dimensions (bf_value f)) (cf_factor_type (bf_value f)) = true) /\
  (stamps_ok stamps -> ttl_ok (fm_quality_gate_policy (fc_manifest c)) -> cf_generated_at (bf_value f) < cf_expires_at (bf_value f)).
Proof.
  intros (o & i & Ho & <- & ->). unfold factor_value. destruct (stamps i) as [[id g] now] eqn:E. cbn. split_and!; [done | done| |].
  - intros Ht. destruct (builder_outputs_ok c o Ht Ho) as (H1 & H2 & H3). by rewrite validate_safety_iff.
  - intros Hs Httl. specialize (Hs i). specialize (Httl (bo_factor_type o)). rewrite E in Hs. cbn in Hs. rewrite to_i64_in by (unfold_ints; lia). cbn. lia.
Qed.

(** The validation of a value whose target status is its own. *)
Lemma validate_output v : is_materialization_output (cf_status v) = true -> pay_factor_type (cf_payload v) = cf_factor_type v ->
  dims_agree (cf_dimensions v) (cf_factor_type v) = true -> cf_generated_at v < cf_expires_at v -> validate_safety (cf_payload v) = Ok tt ->
  (cf_status v = FCandidate -> is_sufficient_for_candidate (cf_evidence v) = true) -> validate_as_materialization_output v = Ok tt.
Proof.
  intros H1 H2 H3 H4 H5 H6. unfold validate_as_materialization_output, validate_for_transition. rewrite H1. cbn [negb].
  unfold assert_transition, can_transition. rewrite bool_decide_true by done. cbn [orb and_then].
  assert (assert_not_report_only_promotion (cf_status v) (cf_status v) = Ok tt) as -> by (by destruct (cf_status v)). cbn [and_then].
  rewrite H2, bool_decide_true by done. cbn [negb]. rewrite H3. cbn [negb]. rewrite (proj2 (Z.leb_gt _ _)) by lia. rewrite H5.
  destruct (cf_status v); try done. cbn. by rewrite H6.
Qed.

(** Everything the builders make passes the registry's validation: conservative payload, one family throughout, an expiry after the
    making; drafts are drafts and the others are report-only. *)
Theorem built_factors_registrable (c : FactorBuildContext) (stamps : nat -> Z * Time * Time) (f : BuiltFactor) :
  examples_typed (ta_examples (fc_training c)) -> stamps_ok stamps -> ttl_ok (fm_quality_gate_policy (fc_manifest c)) ->
  f ∈ fa_built_factors (build_factors c stamps) ++ fa_report_only_factors (build_factors c stamps) ->
  validate_as_materialization_output (bf_value f) = Ok tt /\ conservative (cf_payload (bf_value f)) /\
  (cf_status (bf_value f) = FDraft <-> f ∈ fa_built_factors (build_factors c stamps)).
Proof.
  intros Ht Hs Httl Hf. assert (exists draft, made_by c stamps draft f /\ (f ∈ fa_built_factors (build_factors c stamps) -> draft = true) /\
    (draft = true -> f ∈ fa_built_factors (build_factors c stamps))) as (draft & Hm & Hd & Hd').
  { apply elem_of_app in Hf as [Hf|Hf]; [exists true; by auto using built_by|]. exists false. split; [by apply report_only_by|]. split; [|done].
    intros Hb. apply built_by in Hb. apply made_shape in Hb as [Hb _]. apply report_only_by, made_shape in Hf as [Hf _]. congruence. }
  destruct (made_shape _ _ _ _ Hm) as (H1 & H2 & H3 & H4). destruct (H3 Ht) as (H5 & H6 & H7). split_and!.
  - apply validate_output; rewrite ?H1; try done; [by destruct draft | by apply H4 | by destruct draft].
  - by apply validate_safety_iff.
  - rewrite H1. destruct draft; naive_solver.
Qed.
End BuildFacts.

(** ** What the gates decide *)

Section GateFacts.
Context `{DL : DecimalLaws} {DEC : Decoding}.

Definition gates_pass (c : QualityGateContext) (now : Time) (f : ControlFactorValue) : Prop :=
  forall g b code, (g, b, code) ∈ evidence_gates c f ++ risk_gates c now f -> gate_enabled (gc_policy c) g = true -> b = true.

Lemma blocking_iff c now f : existsb is_blocking_failure (evaluate_factor c now f) = false <-> gates_pass c now f.
Proof.
  rewrite <- not_true_iff_false, existsb_exists. unfold gates_pass, evaluate_factor. split.
  - intros H g b code Hin Hen. destruct b; [done|]. exfalso. apply H. eexists. split; [|]; [apply list_elem_of_In, list_elem_of_fmap; exists (g, false, code); split; [reflexivity|];
      apply list_elem_of_In, filter_In; split; [by apply list_elem_of_In | done] | done].
  - intros H (d & Hd & Hb). apply list_elem_of_In, list_elem_of_fmap in Hd as ([[g b] code] & -> & Hin). apply list_elem_of_In, filter_In in Hin as [Hin Hen].
    apply list_elem_of_In in Hin. rewrite (H g b code Hin Hen) in Hb. done.
Qed.

Lemma gated_candidate p s b : gated_status p s b = FCandidate <-> (p = EmitDraftCandidates /\ s = FDraft /\ b = false) \/ s = FCandidate.
Proof. destruct p, s, b; cbn; naive_solver. Qed.

(** A draft becomes a candidate exactly when the run may emit candidates and every enabled gate passes; with a failed gate it is rejected, a
    report-only value stays one, and the other policies emit no candidate. *)
Theorem gate_decides_status (c : QualityGateContext) (now : Time) (f : BuiltFactor) :
  let s := cf_status (bf_value (gate_factor c now f).1) in
  (cf_status (bf_value f) = FDraft ->
     (s = FCandidate <-> gc_output_policy c = EmitDraftCandidates /\ gates_pass c now (bf_value f)) /\
     (s = FRejected <-> gc_output_policy c = EmitDraftCandidates /\ ~ gates_pass c now (bf_value f)) /\
     (gc_output_policy c <> EmitDraftCandidates -> s = FDraft)) /\
  (cf_status (bf_value f) = FReportOnly -> s = FReportOnly).
Proof.
  cbn. rewrite <- blocking_iff. split; intros ->; destruct (gc_output_policy c), (existsb is_blocking_failure _); cbn; naive_solver.
Qed.

Lemma gates_of_value c now f : exists b, (QgCoverage, coverage_is_sufficient (fe_data_coverage (cf_evidence f)), "gate.coverage_insufficient") ∈ evidence_gates c f ++ risk_gates c now f /\
  (QgPointInTime, is_production_eligible (gc_pit_manifest c) && is_production_eligible (fe_point_in_time_inputs (cf_evidence f)), "gate.pit_ineligible") ∈ evidence_gates c f ++ risk_gates c now f /\
  (QgUpstreamStage, upstream_evidence_ready c (cf_factor_type f), "gate.upstream_stage_blocked") ∈ evidence_gates c f ++ risk_gates c now f /\
  b = market_stability_ok c f /\ (QgStability, b, "gate.stability_dominance") ∈ evidence_gates c f ++ risk_gates c now f.
Proof. eexists. split_and!; try reflexivity; unfold evidence_gates, risk_gates; cbn; rewrite !elem_of_cons; tauto. Qed.

(** What the manifest and the hasher give a run that emits candidates. *)
Definition run_documented (c : FactorBuildContext) : Prop :=
  fm_window_from (fc_manifest c) < fm_window_to (fc_manifest c) /\ fc_stage_reports c <> [] /\ config_hash (fc_manifest c) <> EmptyString /\
  fm_code_git_sha (fc_manifest c) <> EmptyString /\ tr_dataset_hash (ta_report (fc_training c)) <> EmptyString /\ tr_feature_schema_hash (ta_report (fc_training c)) <> EmptyString /\
  tr_label_schema_hash (ta_report (fc_training c)) <> EmptyString /\ Forall (fun f => f <> EmptyString) (tr_query_fingerprints (ta_report (fc_training c))).

Lemma nonempty_ne s : s <> EmptyString -> nonempty s = true.
Proof. by destruct s. Qed.

Lemma stability_samples c v : market_stability_ok c v = true -> examples_for (gc_training c) (cf_factor_type v) <> [].
Proof. unfold market_stability_ok. by destruct (examples_for _ _). Qed.

Lemma sample_count_positive {A} (l : list A) : l <> [] -> 0 < unwrap_or (to_u32 (Z.of_nat (length l))) u32_max.
Proof. destruct l as [|a l]; [done|]. intros _. unfold to_u32, checked. destruct (_ && _); cbn; [lia|]. unfold u32_max. lia. Qed.

(** Every factor that leaves the gates satisfies what the registry asks of its status; a candidate has governed evidence and a sample of its
    family. *)
Lemma gated_factors_accepted (b : FactorBuildContext) (stamps : nat -> Z * Time * Time) (c : QualityGateContext) (clock : nat -> Time) (f : BuiltFactor) :
  examples_typed (ta_examples (fc_training b)) -> stamps_ok stamps -> ttl_ok (fm_quality_gate_policy (fc_manifest b)) -> run_documented b ->
  gc_training c = fc_training b ->
  gate_enabled (gc_policy c) QgPointInTime = true -> gate_enabled (gc_policy c) QgCoverage = true -> gate_enabled (gc_policy c) QgStability = true ->
  f ∈ qe_factors (evaluate_gates c clock (build_factors b stamps)) -> validate_as_materialization_output (bf_value f) = Ok tt.
Proof.
  intros Ht Hs Httl (Hw & Hsr & Hcfg & Hsha & Hds & Hfs & Hls & Hfp) Htr Hpit Hcov Hst Hf.
  unfold evaluate_gates in Hf. cbn [qe_factors] in Hf. apply list_elem_of_fmap in Hf as (x & -> & Hx). apply elem_of_lookup_imap in Hx as (i & g & -> & Hg).
  apply list_elem_of_lookup_2 in Hg. rewrite app_nil_r in Hg.
  assert (exists d, made_by b stamps d g) as [d Hm] by (apply elem_of_app in Hg as [?|?]; [exists true; by apply built_by | exists false; by apply report_only_by]).
  destruct (made_shape _ _ _ _ Hm) as (H1 & H2 & H3 & H4). destruct (H3 Ht) as (H5 & H6 & H7).
  apply validate_output; cbn; try done; [|by apply H4|].
  { rewrite H1. by destruct d, (gc_output_policy c), (existsb is_blocking_failure _). }
  intros Hc. apply gated_candidate in Hc as [(Hp & Hd & Hb)|Hd]; [|destruct d; congruence]. pose proof Hb as Hpass. apply blocking_iff in Hpass.
  destruct (gates_of_value c (clock i) (bf_value g)) as (st & G1 & G2 & _ & -> & G3).
  pose proof (Hpass _ _ _ G1 Hcov) as C1. pose proof (Hpass _ _ _ G2 Hpit) as C2. pose proof (Hpass _ _ _ G3 Hst) as C3. clear G1 G2 G3.
  rename C1 into G1, C2 into G2, C3 into G3. apply andb_true_iff in G2 as [_ G2]. apply stability_samples in G3. rewrite Htr in G3.
  rewrite H2 in G1, G2 |- *. unfold is_sufficient_for_candidate. unfold is_production_eligible in G2. apply andb_true_iff in G2 as [G2 _].
  cbn -[coverage_is_sufficient] in *. rewrite G1, G2.
  rewrite !nonempty_ne by done. rewrite (proj2 (Z.ltb_lt _ _) Hw), (proj2 (Z.ltb_lt _ _) (sample_count_positive _ G3)).
  assert (nonempty (match tr_query_fingerprints (ta_report (fc_training b)) with f :: _ => f | [] => "none" end) = true) as ->.
  { destruct Hfp as [|p ps Hp' _]; [done | by apply nonempty_ne]. }
  destruct (fc_stage_reports b); [done|]. reflexivity.
Qed.

(** *** Halts *)

Lemma no_settlement_no_pass output_policy (audits : list OpportunityAuditRow) bundle window_to :
  (forall r, r ∈ audits -> is_settled r = false) -> stage_passes (settlement_evidence output_policy audits bundle window_to).1 = false.
Proof.
  intros H. apply not_true_iff_false. unfold settlement_evidence. cbn [fst]. rewrite decide_stage_passes. intros (_ & _ & Hm).
  cbn [sg_required_metric_missing_count] in Hm. unfold settlement_missing_metric_count in Hm. cbn -[metric_missing delay_metric] in Hm.
  assert (List.filter is_settled audits = []) as E.
  { clear Hm. induction audits as [|r audits IH]; [done|]. cbn. rewrite (H r) by (by left). apply IH. intros r' Hr'. apply H. by right. }
  rewrite E in Hm. cbn -[metric_missing] in Hm. repeat match type of Hm with context [metric_missing ?m] =>
    lazymatch goal with _ : 0 <= metric_missing m |- _ => fail | _ => pose proof (metric_missing_nonneg m) end end.
  unfold metric_missing at 4 in Hm. cbn -[metric_missing] in Hm. lia.
Qed.

Lemma passes_eq s : upstream_stage_passes s = stage_passes s.
Proof. done. Qed.

(** A critical drift in the reports of a window in which nothing settled never becomes a candidate halt: the factor that would halt
    trading is rejected with the settlement stage, which has no delays to report. *)
Theorem halt_needs_a_settlement (c : QualityGateContext) (now : Time) (f : BuiltFactor) (id : Z) (audits : list OpportunityAuditRow) (bundle : EvidenceSourceBundle) (window_to : Time) :
  List.find (fun r => bool_decide (r.1.2 = SettlementReconciliationEvidence)) (gc_stage_reports c)
    = Some (id, SettlementReconciliationEvidence, (settlement_evidence (gc_output_policy c) audits bundle window_to).1) ->
  (forall r, r ∈ audits -> is_settled r = false) ->
  gate_enabled (gc_policy c) QgUpstreamStage = true -> gc_output_policy c = EmitDraftCandidates ->
  cf_factor_type (bf_value f) = ReconciliationHealth -> cf_status (bf_value f) = FDraft ->
  cf_status (bf_value (gate_factor c now f).1) = FRejected.
Proof.
  intros Hfind Hnone Hen Hp Ht Hd. cbn. rewrite Hp, Hd. destruct (existsb is_blocking_failure _) eqn:E; [done|]. exfalso.
  apply blocking_iff in E. destruct (gates_of_value c now (bf_value f)) as (b & _ & _ & G & _). pose proof (E _ _ _ G Hen) as C1. clear G. rename C1 into G.
  unfold upstream_evidence_ready in G. rewrite Ht in G. cbn [required_upstream_stages forallb] in G. rewrite Hfind in G.
  cbn [snd] in G. rewrite passes_eq, (no_settlement_no_pass _ _ _ _ Hnone) in G. destruct (match List.find _ _ with Some _ => _ | None => _ end); done.
Qed.

(** *** Buckets and the portfolio *)

(** A bucket's estimate reads only the wins of the whole run and the number of its detections, so two buckets of one size get the same
    bounds whichever of them won. *)
Lemma bucket_estimate_ignores_outcomes (c : FactorBuildContext) (g g' : BucketBuildGroup) : bg_sample_count g = bg_sample_count g' ->
  bo_payload (build_bucket_group c g) = bo_payload (build_bucket_group c g').
Proof. intros E. unfold build_bucket_group. cbn. by rewrite E. Qed.

(** The evidence never carries a drawdown, so the portfolio factor is never more than a report. *)
Lemma portfolio_never_drafted `{IT : IdText} (c : FactorBuildContext) audits bundle : fc_portfolio c = build_portfolio audits bundle ->
  Forall (fun o => bo_draft o = false) (build_portfolio_risk c).
Proof.
  intros E. apply Forall_singleton. unfold build_portfolio_risk. cbn. rewrite E. unfold build_portfolio. destruct (portfolio_denial_counts _ _). cbn.
  by rewrite !andb_false_r.
Qed.
End GateFacts.

(** ** A run *)

Module FactorDemo.
#[local] Existing Instance ExactQ.exactQ.
#[local] Existing Instance BookReplayDemo.decoding.
#[local] Instance ids : IdText := {| id_text := pretty |}.

Definition detection (id : Z) : DetectorDetectionRef := {|
  dd_opportunity_id := id; dd_market_id := "m"; dd_detected_at := 1500000000; dd_bucket := {| bk_category := Politics; bk_price_zone := Z97; bk_duration_bucket := Short |};
  dd_has_reconstructed_book := true; dd_materialized_detected := true; dd_bucket_mismatch := false; dd_calibration_mismatch := false;
  dd_score_delta := Some 0; dd_score := Some 1 |}.

(** Reports of a critical drift; nothing has settled. *)
Definition bundle : EvidenceSourceBundle := {|
  eb_trades := [(1, 1, 0)]; eb_positions := []; eb_potential_loss_baseline := []; eb_potential_loss_changes := []; eb_risk_audit_events := [];
  eb_balance_snapshot := Some (0%Q, 0%Q); eb_settlement_truth := []; eb_reconciliation_reports := [(RCritical, 0)] |}.
Definition funnel : list OpportunityAuditRow := [ExecutionDemo.audit 1 2500 (Some (6 # 10)%Q)].
Definition settlement : SettlementArtifact := build_settlement funnel bundle 4000000000.

Definition families : list ControlFactorType := [BucketRisk; ExecutionQuality; PortfolioRisk; ReconciliationHealth; MarketAnomaly].
Definition training : Result TrainingArtifact string :=
  build_training (fun _ => Ok "ds") (fun _ => Ok "names") (Ok []) ["d"] ["x"] ["s"] families [detection 1] [] settlement.
Definition no_training : TrainingArtifact := {|
  ta_report := {| tr_dataset_hash := EmptyString; tr_feature_schema_hash := EmptyString; tr_label_schema_hash := EmptyString; tr_entity_count := 0; tr_example_count := 0; tr_label_count := 0;
                  tr_factor_types := []; tr_query_fingerprints := [] |}; ta_examples := [] |}.
Definition examples : TrainingArtifact := match training with Ok a => a | Err _ => no_training end.

Lemma trained : training = Ok examples.
Proof. assert (is_ok training = true) as H by (vm_compute; reflexivity). unfold examples. by destruct training. Qed.

Lemma training_examples_sound_witness : length (ta_examples examples) = 5%nat /\ Forall (example_ok [detection 1] families settlement) (ta_examples examples).
Proof.
  destruct (training_examples_sound (fun _ => Ok "ds") (fun _ => Ok "names") (Ok []) ["d"] ["x"] ["s"] families [detection 1] [] settlement examples trained) as [H1 H2].
  split; [exact H1 | exact H2].
Defined.

Lemma short_funnel : Z.of_nat (length funnel) <= u64_max.
Proof. vm_compute. discriminate. Qed.

Lemma settlement_stage_passes_iff_witness :
  stage_passes (settlement_evidence EmitDraftCandidates funnel bundle 4000000000).1 = true <->
  (exists r, r ∈ funnel /\ is_settled r = true) /\ (forall r, r ∈ funnel -> is_settled r = true -> row_joins bundle r = []) /\
  eb_balance_snapshot bundle <> None /\ eb_reconciliation_reports bundle <> [].
Proof. exact (settlement_stage_passes_iff EmitDraftCandidates funnel bundle 4000000000 short_funnel). Defined.

Definition manifest (policy : QualityGatePolicy) : FactorManifest := {|
  fm_requested_factor_types := [ReconciliationHealth]; fm_quality_gate_policy := policy; fm_window_from := 0; fm_window_to := 4000000000;
  fm_runtime_config_ref := RcHash "cfg"; fm_code_git_sha := "sha"; fm_created_by := "scheduler" |}.
Definition pit : PointInTimeInputManifest := {| FactorModel.production_eligible := true; fatal_errors := []; manifest_hash := "pit" |}.

(** The stages of a run, the settlement stage with the given status. *)
Definition stages (status : EvidenceStageStatus) : list StageReportBody :=
  [(1, ResolveInputs, EsCompleted); (2, SettlementReconciliationEvidence, status); (3, TrainingExampleBuild, EsCompleted)].

Definition context (status : EvidenceStageStatus) : FactorBuildContext := {|
  fc_manifest := manifest smoke_acceptance; fc_pit_manifest := pit; fc_stage_reports := stages status; fc_training := examples; fc_true_fill_count := 1;
  fc_portfolio := build_portfolio funnel bundle; fc_settlement := st_report settlement |}.
Definition gates (status : EvidenceStageStatus) : QualityGateContext := {|
  gc_policy := smoke_acceptance; gc_output_policy := EmitDraftCandidates; gc_stage_reports := stages status; gc_pit_manifest := pit; gc_training := examples;
  gc_detector := {| da_report := build_detector_report true [detection 1]; da_detections := [detection 1] |}; gc_portfolio := build_portfolio funnel bundle |}.
Definition stamps (i : nat) : Z * Time * Time := (Z.of_nat i, 100, 100).

Lemma typed : examples_typed (ta_examples examples).
Proof. unfold examples_typed. vm_compute. repeat constructor. Qed.

Lemma stamped : stamps_ok stamps.
Proof. unfold stamps_ok, stamps. cbn. lia. Qed.

Lemma lives : ttl_ok smoke_acceptance.
Proof. intros []; cbn; unfold i64_max; lia. Qed.

Definition halt (status : EvidenceStageStatus) : option BuiltFactor := head (fa_built_factors (build_factors (context status) stamps)).

(** The factor is the one that halts trading. *)
Example halt_is_built : (fun f => cf_payload (bf_value f)) <$> halt EsProductionIneligible =
  Some (PayReconciliationHealth {| trading_health := ThHalted; rp_size_multiplier := d0; rp_require_manual_ack := true; rp_force_maintenance_mode := true;
                                   fail_closed_after_secs := Some 3600 |}).
Proof. vm_compute. reflexivity. Qed.

Lemma halt_built status : exists f, halt status = Some f /\ cf_factor_type (bf_value f) = ReconciliationHealth /\ cf_status (bf_value f) = FDraft.
Proof.
  assert ((fun f => (cf_factor_type (bf_value f), cf_status (bf_value f))) <$> halt status = Some (ReconciliationHealth, FDraft)) as H
    by (destruct status; vm_compute; reflexivity).
  destruct (halt status) as [f|]; [|discriminate]. exists f. cbn in H. injection H. auto.
Qed.

Lemma halt_in status f : halt status = Some f -> f ∈ fa_built_factors (build_factors (context status) stamps) ++ fa_report_only_factors (build_factors (context status) stamps).
Proof. unfold halt. destruct (fa_built_factors _); [done|]. intros [= ->]. by left. Qed.

Lemma built_factors_registrable_witness : exists f, halt EsCompleted = Some f /\ validate_as_materialization_output (bf_value f) = Ok tt.
Proof.
  destruct (halt_built EsCompleted) as (f & Hf & _). exists f. split; [exact Hf|].
  exact (proj1 (built_factors_registrable (context EsCompleted) stamps f typed stamped lives (halt_in EsCompleted f Hf))).
Defined.

Lemma ineligible : (settlement_evidence EmitDraftCandidates funnel bundle 4000000000).1 = EsProductionIneligible.
Proof. vm_compute. reflexivity. Qed.

Lemma settlement_report : List.find (fun r => bool_decide (r.1.2 = SettlementReconciliationEvidence)) (gc_stage_reports (gates EsProductionIneligible))
  = Some (2, SettlementReconciliationEvidence, (settlement_evidence (gc_output_policy (gates EsProductionIneligible)) funnel bundle 4000000000).1).
Proof. change (gc_output_policy _) with EmitDraftCandidates. rewrite ineligible. reflexivity. Qed.

Lemma nothing_settled r : r ∈ funnel -> is_settled r = false.
Proof. by intros ->%list_elem_of_singleton. Qed.

Lemma halt_needs_a_settlement_witness : exists f, halt EsProductionIneligible = Some f /\
  cf_status (bf_value (gate_factor (gates EsProductionIneligible) 200 f).1) = FRejected.
Proof.
  destruct (halt_built EsProductionIneligible) as (f & Hf & Ht & Hd). exists f. split; [exact Hf|].
  exact (halt_needs_a_settlement (gates EsProductionIneligible) 200 f 2 funnel bundle 4000000000 settlement_report nothing_settled eq_refl eq_refl Ht Hd).
Defined.

(** With the settlement stage passed, the same factor is a candidate. *)
Lemma one_candidate : exists f, f ∈ qe_factors (evaluate_gates (gates EsCompleted) (fun _ => 200) (build_factors (context EsCompleted) stamps)) /\
  cf_status (bf_value f) = FCandidate.
Proof.
  assert ((fun f => cf_status (bf_value f)) <$> qe_factors (evaluate_gates (gates EsCompleted) (fun _ => 200) (build_factors (context EsCompleted) stamps)) = [FCandidate]) as H
    by (vm_compute; reflexivity).
  destruct (qe_factors _) as [|f [|]]; [discriminate| |discriminate]. exists f. split; [by left | by injection H].
Qed.

Lemma documented : run_documented (context EsCompleted).
Proof. unfold run_documented. vm_compute. repeat split; try discriminate. repeat constructor; discriminate. Qed.

(** Two buckets of a hundred detections, all of the run's wins in the first: both keep nine tenths of their size. *)
Example losing_bucket_keeps_its_size :
  (fun e => re_lower e) <$> match observed_rate_lower_bound 100 100 with Ok e => Some e | Err _ => None end = Some (9 # 10)%Q.
Proof. vm_compute. reflexivity. Qed.
End FactorDemo.
