(* ===== verification/PointInTime.v ===== *)
(** * Point-in-time inputs: [oxide-arb-control/src/materialization/pit.rs]

    The resolver asks the repositories for the rows a run may see, those known at the end of its window, and says what is
    missing.  The queries are those of [oxide-arb-repository/src/postgres/] on tables of rows.
    Fingerprints, hashes and texts are left out; a repository may not be configured, and any query may fail. *)

From stdpp Require Import sorting.
From S2P Require Import Prelude Decimal Micro Config Domain Book OrderBook Positions FactorModel AuditChain BookReplay ExecutionEvidence EvidenceStages FactorBuild.

(** [error/control.rs:190-205] `MaterializationError`; a persistence error is one of the codec here *)
Inductive MaterializationError := MeStable (code : string) | MeStorage (e : StorageError) | MeCodec (message : string) | MeCanonicalDigest (message : string).

(** [error/control.rs:217-222] `MaterializationError::code` *)
Definition error_code (e : MaterializationError) : option string := match e with MeStable code => Some code | _ => None end.

(** [error/control.rs:227-230] `MaterializationError::failure_code` *)
Definition error_failure_code (e : MaterializationError) : string := default "run.storage_or_codec_error" (error_code e).

(** [models/domain/control_factor/materialization.rs:139-151] `RequiredInputDomain` *)
Inductive RequiredInputDomain :=
| DoMarketMetadata | DoTokenMapping | DoFeeSchedule | DoRuntimeConfig | DoCalibrationSnapshots | DoTrades | DoPositions | DoRiskState
| DoBalanceSnapshot | DoSettlementTruth | DoReconciliationStatus.
#[global] Instance input_domain_eq_dec : EqDecision RequiredInputDomain.
Proof. solve_decision. Defined.

(** [models/enums/control_factor.rs:277-297] `MaterializationErrorCode` *)
Inductive MaterializationErrorCode :=
| InputMarketMappingMissing | InputPitConfigMissing | InputCalibrationSnapshotMissing | InputFeeScheduleMissing | InputBalanceSnapshotMissing
| InputSettlementTruthMissing | InputReconciliationStatusMissing | InputCurrentStateFallbackForbidden | ChCoverageL2Insufficient | ChBookSnapshotGap
| AuditSettlementAttributionMissing | RiskSequenceIncomplete | GateSampleInsufficient | GateNotConservative | RunDedupeConflict | RunInvalidTransition
| RunCancelled | PublicationLockConflict | SnapshotSchemaMismatch.

(** [models/enums/control_factor.rs:301-324] `MaterializationErrorCode::as_str` *)
Definition code_name (c : MaterializationErrorCode) : string :=
  match c with
  | InputMarketMappingMissing => "input.market_mapping_missing" | InputPitConfigMissing => "input.pit_config_missing"
  | InputCalibrationSnapshotMissing => "input.calibration_snapshot_missing" | InputFeeScheduleMissing => "input.fee_schedule_missing"
  | InputBalanceSnapshotMissing => "input.balance_snapshot_missing" | InputSettlementTruthMissing => "input.settlement_truth_missing"
  | InputReconciliationStatusMissing => "input.reconciliation_status_missing" | InputCurrentStateFallbackForbidden => "input.current_state_fallback_forbidden"
  | ChCoverageL2Insufficient => "ch.coverage_l2_insufficient" | ChBookSnapshotGap => "ch.book_snapshot_gap"
  | AuditSettlementAttributionMissing => "audit.settlement_attribution_missing" | RiskSequenceIncomplete => "risk.sequence_incomplete"
  | GateSampleInsufficient => "gate.sample_insufficient" | GateNotConservative => "gate.not_conservative" | RunDedupeConflict => "run.dedupe_conflict"
  | RunInvalidTransition => "run.invalid_transition" | RunCancelled => "run.cancelled" | PublicationLockConflict => "publication.lock_conflict"
  | SnapshotSchemaMismatch => "snapshot.schema_mismatch"
  end.

(** [models/enums/control_factor.rs:338-352] `is_fatal_for_production` *)
Definition is_fatal_for_production (c : MaterializationErrorCode) : bool :=
  match c with
  | InputMarketMappingMissing | InputPitConfigMissing | InputCalibrationSnapshotMissing | InputFeeScheduleMissing | InputBalanceSnapshotMissing
  | InputSettlementTruthMissing | InputReconciliationStatusMissing | InputCurrentStateFallbackForbidden | RunInvalidTransition | SnapshotSchemaMismatch => true
  | _ => false
  end.

(** [models/domain/control_factor/materialization.rs:155-160] `DataRequirements`, with whether there is a coverage ratio *)
Record DataRequirements := {
  dr_required_inputs : list RequiredInputDomain; dr_production_required_inputs : list RequiredInputDomain; dr_has_min_l2_coverage : bool; dr_require_settlement_truth : bool
}.

(** [models/domain/control_factor/materialization.rs:164-166] `DataRequirements::requires` *)
Definition requires (r : DataRequirements) (d : RequiredInputDomain) : bool := bool_decide (d ∈ dr_required_inputs r) || bool_decide (d ∈ dr_production_required_inputs r).
(** [models/domain/control_factor/materialization.rs:169-171] `DataRequirements::production_requires` *)
Definition production_requires (r : DataRequirements) (d : RequiredInputDomain) : bool := bool_decide (d ∈ dr_production_required_inputs r).
(** [models/domain/control_factor/materialization.rs:174-176] `DataRequirements::requires_settlement_truth` *)
Definition requires_settlement_truth (r : DataRequirements) : bool := dr_require_settlement_truth r || requires r DoSettlementTruth.

(** [models/domain/control_factor/materialization.rs:430-448] `MaterializationRunManifest`, what the resolver reads *)
Record InputManifest := {
  im_window_from : Time;
  im_window_to : Time;
  im_market_ids : list MarketId;
  im_event_ids : list string;
  im_replay_account_scope : option string;
  im_data_requirements : DataRequirements;
  im_runtime_config_ref : RuntimeConfigRef
}.

(** ** Tables *)

(** [models/domain/market/registry.rs:77-91] `MarketPitSnapshotInfo`, what a context takes of it *)
Record MarketPitSnapshot := { ms_market_id : MarketId; ms_yes_token_id : TokenId; ms_no_token_id : TokenId; ms_end_date : option Time; ms_observed_at : Time }.
(** [models/domain/market/registry.rs:28-52] `MarketInfo`, what the resolver reads *)
Record CurrentMarket := {
  cm_market_id : MarketId; cm_yes_token_id : TokenId; cm_no_token_id : TokenId; cm_end_date : option Time; cm_updated_at : Time; cm_fee_observed_at : option Time
}.

Section Resolver.
Context {DO : DecimalOps}.

(** A table of each repository; the rows with the times their queries read.  A name in [pt_unconfigured] has no repository, one in
    [pt_failing] fails. *)
Record PitTables := {
  pt_config_activations : list (Time * Z);
  pt_config_versions : list (Z * string);
  pt_calibration_snapshots : list (Time * Z);
  pt_market_snapshots : list MarketPitSnapshot;
  pt_markets : list CurrentMarket;
  pt_events : list string;
  pt_balances : list (string * Time * (D * D));
  pt_trades : list (TradeId * OpportunityId * Time);
  pt_positions : list PositionInfo;
  pt_ledger : list (Z * D * Time * option Time);
  pt_risk_audit : list (Z * RiskAuditEventType * option string * Time);
  pt_reconciliation : list (ReconciliationStatus * Time);
  pt_resolutions : list (MarketId * Time);
  pt_unconfigured : list string;
  pt_failing : list (string * StorageError)
}.

(** Rows in the order of a time and an identifier. *)
Definition by_time_id {A} (key : A -> Time * Z) (a b : A) : bool := ((key a).1 <? (key b).1) || (((key a).1 =? (key b).1) && ((key a).2 <=? (key b).2)).

(** [FIND .. ORDER BY time DESC], the first row. *)
Definition latest_by {A} (time : A -> Time) (rows : list A) : option A := head (sort_by (fun a b => time b <=? time a) rows).

(** [repo/postgres/market.rs:248-273] `do_latest_pit_snapshots_before`, the sorted identifiers of its caller *)
Definition latest_pit_snapshots_before (t : PitTables) (ids : list MarketId) (as_of : Time) : list MarketPitSnapshot :=
  omap (M := list) (fun id => latest_by ms_observed_at (List.filter (fun s => bool_decide (ms_market_id s = id) && (ms_observed_at s <=? as_of)) (pt_market_snapshots t)))
    (dedup_tokens (sort_by String.leb ids)).

(** [repo/postgres/market.rs:81-96] `do_find_by_ids` *)
Definition find_markets_by_ids (t : PitTables) (ids : list MarketId) : list CurrentMarket := List.filter (fun m => bool_decide (cm_market_id m ∈ ids)) (pt_markets t).

(** [repo/postgres/governance/runtime_config.rs:295-309] `do_load_active_at` *)
Definition load_active_at (t : PitTables) (at_ : Time) : option (Z * string) :=
  match latest_by fst (List.filter (fun a => a.1 <=? at_) (pt_config_activations t)) with
  | Some a => List.find (fun v => v.1 =? a.2) (pt_config_versions t)
  | None => None
  end.

(** [repo/postgres/trading/position.rs:47-64] `open_as_of_q` *)
Definition open_as_of (t : PitTables) (at_ : Time) : list PositionInfo :=
  sort_by (by_time_id (fun p => (pos_opened_at p, pos_id p)))
    (List.filter (fun p => (pos_opened_at p <=? at_) && match pos_closed_at p with None => true | Some c => at_ <? c end) (pt_positions t)).

(** [repo/postgres/trading/trade.rs:732-746] `do_find_between` *)
Definition trades_between (t : PitTables) (from to : Time) : list (TradeId * OpportunityId * Time) :=
  sort_by (by_time_id (fun x => (x.2, x.1.1))) (List.filter (fun x => (from <=? x.2) && (x.2 <? to)) (pt_trades t)).

(** [repo/postgres/accounting/potential_loss.rs:63-76] `do_find_active_as_of` *)
Definition ledger_active_as_of (t : PitTables) (at_ : Time) : list (Z * D * Time) :=
  fst <$> sort_by (by_time_id (fun e => (e.1.2, e.1.1.1)))
    (List.filter (fun e => (e.1.2 <=? at_) && match e.2 with None => true | Some r => at_ <? r end) (pt_ledger t)).

(** [repo/postgres/accounting/potential_loss.rs:78-96] `do_find_changed_between` *)
Definition ledger_changed_between (t : PitTables) (from to : Time) : list (Z * D * Time) :=
  let within x := (from <=? x) && (x <? to) in
  fst <$> sort_by (by_time_id (fun e => (e.1.2, e.1.1.1))) (List.filter (fun e => within e.1.2 || match e.2 with None => false | Some r => within r end) (pt_ledger t)).

(** [repo/postgres/risk/risk_audit.rs:35-49] `do_find_between` *)
Definition risk_audit_between (t : PitTables) (from to : Time) : list (Z * RiskAuditEventType * option string * Time) :=
  sort_by (by_time_id (fun e => (e.2, e.1.1.1))) (List.filter (fun e => (from <=? e.2) && (e.2 <? to)) (pt_risk_audit t)).

(** [repo/postgres/accounting/reconciliation.rs:45-58] `find_between` *)
Definition reconciliation_between (t : PitTables) (from to : Time) : list (ReconciliationStatus * Time) :=
  sort_by (fun a b => a.2 <=? b.2) (List.filter (fun r => (from <=? r.2) && (r.2 <? to)) (pt_reconciliation t)).

(** [repo/postgres/evidence/fact_data.rs:52-65] `latest_balance_before` *)
Definition latest_balance_before (t : PitTables) (holder : string) (before : Time) : option (string * Time * (D * D)) :=
  latest_by (fun b => b.1.2) (List.filter (fun b => bool_decide (b.1.1 = holder) && (b.1.2 <=? before)) (pt_balances t)).

(** [repo/traits/governance/resolution_event.rs:52-81] `settlement_truth_before_evidence`, with `latest_before_q`: one query for each market that it is given *)
Definition settlement_truth_before (t : PitTables) (market_ids : list MarketId) (before : Time) : list (MarketId * Time) :=
  omap (M := list) (fun id => latest_by snd (List.filter (fun r => bool_decide (r.1 = id) && (r.2 <=? before)) (pt_resolutions t)))
    (dedup_tokens (sort_by String.leb market_ids)).

(** [repo/clickhouse/timeseries.rs:723-752] `calibration_snapshots`: milliseconds, the first included and the last not *)
Definition calibration_snapshots (t : PitTables) (from to : Time) : list (Time * Z) :=
  sort_by (by_time_id (fun x => x)) (List.filter (fun s => (timestamp_millis from * 1000000 <=? s.1) && (s.1 <? timestamp_millis to * 1000000)) (pt_calibration_snapshots t)).

(** ** Resolution *)

(** [models/domain/control_factor/materialization.rs:574-587] `PointInTimeInputSource`; a recorded source is always resolved *)
Record PointInTimeInputSource := { is_domain : RequiredInputDomain; is_source_table : string; is_row_count : Z; is_production_required : bool }.

(** [models/domain/control_factor/materialization.rs:591-596] `MissingPointInTimeInput` *)
Record MissingPointInTimeInput := { mi_domain : RequiredInputDomain; mi_code : MaterializationErrorCode; mi_production_required : bool }.

(** [control/materialization/pit.rs:719-728] `ResolutionState`; the configuration and the calibration snapshots of its bundle apart *)
Record ResolutionState := {
  rn_inputs : list PointInTimeInputSource;
  rn_missing_inputs : list MissingPointInTimeInput;
  rn_fatal_errors : list MaterializationErrorCode;
  rn_warnings : list string;
  rn_market_contexts : list MarketReplayContext;
  rn_sources : EvidenceSourceBundle;
  rn_runtime_config : option (Z * string);
  rn_calibration_snapshots : list (Time * Z)
}.

(** [models/domain/control_factor/materialization.rs:656-670] `EvidenceSourceBundle::empty` *)
Definition empty_sources : EvidenceSourceBundle := {|
  eb_trades := []; eb_positions := []; eb_potential_loss_baseline := []; eb_potential_loss_changes := []; eb_risk_audit_events := []; eb_balance_snapshot := None;
  eb_settlement_truth := []; eb_reconciliation_reports := [] |}.

(** [control/materialization/pit.rs:731-742] `ResolutionState::new` *)
Definition new_state : ResolutionState := {|
  rn_inputs := []; rn_missing_inputs := []; rn_fatal_errors := []; rn_warnings := []; rn_market_contexts := []; rn_sources := empty_sources; rn_runtime_config := None;
  rn_calibration_snapshots := [] |}.

(** [control/materialization/pit.rs:777-803] `ResolutionState::source_with_fingerprint` *)
Definition source (m : InputManifest) (d : RequiredInputDomain) (table : string) (row_count : Z) (st : ResolutionState) : ResolutionState := {|
  rn_inputs := rn_inputs st ++ [{| is_domain := d; is_source_table := table; is_row_count := row_count; is_production_required := production_requires (im_data_requirements m) d |}];
  rn_missing_inputs := rn_missing_inputs st; rn_fatal_errors := rn_fatal_errors st; rn_warnings := rn_warnings st; rn_market_contexts := rn_market_contexts st;
  rn_sources := rn_sources st; rn_runtime_config := rn_runtime_config st; rn_calibration_snapshots := rn_calibration_snapshots st |}.

(** [control/materialization/pit.rs:805-821] `ResolutionState::missing` *)
Definition missing (m : InputManifest) (d : RequiredInputDomain) (code : MaterializationErrorCode) (st : ResolutionState) : ResolutionState :=
  let production_required := production_requires (im_data_requirements m) d in {|
  rn_inputs := rn_inputs st; rn_missing_inputs := rn_missing_inputs st ++ [{| mi_domain := d; mi_code := code; mi_production_required := production_required |}];
  rn_fatal_errors := rn_fatal_errors st ++ (if production_required || is_fatal_for_production code then [code] else []); rn_warnings := rn_warnings st;
  rn_market_contexts := rn_market_contexts st; rn_sources := rn_sources st; rn_runtime_config := rn_runtime_config st; rn_calibration_snapshots := rn_calibration_snapshots st |}.

Definition warn (code : string) (st : ResolutionState) : ResolutionState := {|
  rn_inputs := rn_inputs st; rn_missing_inputs := rn_missing_inputs st; rn_fatal_errors := rn_fatal_errors st; rn_warnings := rn_warnings st ++ [code];
  rn_market_contexts := rn_market_contexts st; rn_sources := rn_sources st; rn_runtime_config := rn_runtime_config st; rn_calibration_snapshots := rn_calibration_snapshots st |}.
Definition set_sources (f : EvidenceSourceBundle -> EvidenceSourceBundle) (st : ResolutionState) : ResolutionState := {|
  rn_inputs := rn_inputs st; rn_missing_inputs := rn_missing_inputs st; rn_fatal_errors := rn_fatal_errors st; rn_warnings := rn_warnings st;
  rn_market_contexts := rn_market_contexts st; rn_sources := f (rn_sources st); rn_runtime_config := rn_runtime_config st; rn_calibration_snapshots := rn_calibration_snapshots st |}.
Definition add_contexts (contexts : list MarketReplayContext) (st : ResolutionState) : ResolutionState := {|
  rn_inputs := rn_inputs st; rn_missing_inputs := rn_missing_inputs st; rn_fatal_errors := rn_fatal_errors st; rn_warnings := rn_warnings st;
  rn_market_contexts := rn_market_contexts st ++ contexts; rn_sources := rn_sources st; rn_runtime_config := rn_runtime_config st;
  rn_calibration_snapshots := rn_calibration_snapshots st |}.
Definition set_config (c : option (Z * string)) (st : ResolutionState) : ResolutionState := {|
  rn_inputs := rn_inputs st; rn_missing_inputs := rn_missing_inputs st; rn_fatal_errors := rn_fatal_errors st; rn_warnings := rn_warnings st;
  rn_market_contexts := rn_market_contexts st; rn_sources := rn_sources st; rn_runtime_config := c; rn_calibration_snapshots := rn_calibration_snapshots st |}.
Definition set_calibration (l : list (Time * Z)) (st : ResolutionState) : ResolutionState := {|
  rn_inputs := rn_inputs st; rn_missing_inputs := rn_missing_inputs st; rn_fatal_errors := rn_fatal_errors st; rn_warnings := rn_warnings st;
  rn_market_contexts := rn_market_contexts st; rn_sources := rn_sources st; rn_runtime_config := rn_runtime_config st; rn_calibration_snapshots := l |}.

Definition count_rows {A} (l : list A) : Z := Z.of_nat (length l).

(** A query of a repository, which may not be there. *)
Definition configured (t : PitTables) (name : string) : bool := negb (bool_decide (name ∈ pt_unconfigured t)).
Definition ask {A} (t : PitTables) (name : string) (rows : A) : Result A MaterializationError :=
  match List.find (fun f => bool_decide (f.1 = name)) (pt_failing t) with Some f => Err (MeStorage f.2) | None => Ok rows end.

(** [control/materialization/pit.rs:92-133] `resolve_runtime_config` *)
Definition resolve_runtime_config (t : PitTables) (m : InputManifest) (st : ResolutionState) : Result ResolutionState MaterializationError :=
  if negb (configured t "runtime_config") then Ok (missing m DoRuntimeConfig InputPitConfigMissing st)
  else let? version := ask t "runtime_config" (match im_runtime_config_ref m with
                                               | RcActiveAt at_ => load_active_at t at_
                                               | RcVersion id _ => List.find (fun v => v.1 =? id) (pt_config_versions t)
                                               | RcHash hash => List.find (fun v => bool_decide (v.2 = hash)) (pt_config_versions t)
                                               end) in
       Ok (match version with
           | Some v => set_config (Some v) (source m DoRuntimeConfig "runtime_config_version" 1 st)
           | None => missing m DoRuntimeConfig InputPitConfigMissing st
           end).

(** [control/materialization/pit.rs:640-670] `record_current_market_staleness` *)
Definition record_current_market_staleness (m : InputManifest) (current : CurrentMarket) (st : ResolutionState) : ResolutionState :=
  if im_window_to m <? cm_updated_at current then missing m DoTokenMapping InputMarketMappingMissing st
  else if requires (im_data_requirements m) DoFeeSchedule && match cm_fee_observed_at current with Some at_ => im_window_to m <? at_ | None => false end
       then missing m DoFeeSchedule InputFeeScheduleMissing st else st.

(** [control/materialization/pit.rs:618-638] `record_missing_market_snapshots` *)
Definition record_missing_market_snapshots (m : InputManifest) (snapshots : list MarketPitSnapshot) (current : list CurrentMarket) (st : ResolutionState) : ResolutionState :=
  foldl (fun st id =>
    if bool_decide (id ∈ ms_market_id <$> snapshots) then st
    else match List.find (fun c => bool_decide (cm_market_id c = id)) (reverse current) with
         | None => missing m DoTokenMapping InputMarketMappingMissing st
         | Some c => record_current_market_staleness m c st
         end) st (im_market_ids m).

(** [control/materialization/pit.rs:672-683] `usable_current_market_rows` *)
Definition usable_current_market_rows (m : InputManifest) (snapshots : list MarketPitSnapshot) (current : list CurrentMarket) : list CurrentMarket :=
  List.filter (fun c => negb (bool_decide (cm_market_id c ∈ ms_market_id <$> snapshots)) && (cm_updated_at c <=? im_window_to m)) current.

(** [control/materialization/pit.rs:685-700] `market_context_from_snapshot`, what the replay reads *)
Definition market_context_from_snapshot (s : MarketPitSnapshot) : MarketReplayContext := {|
  mc_market_id := ms_market_id s; mc_yes_token_id := ms_yes_token_id s; mc_no_token_id := ms_no_token_id s; mc_settlement_deadline := ms_end_date s |}.
(** [control/materialization/pit.rs:702-717] `market_context_from_current`, what the replay reads *)
Definition market_context_from_current (c : CurrentMarket) : MarketReplayContext := {|
  mc_market_id := cm_market_id c; mc_yes_token_id := cm_yes_token_id c; mc_no_token_id := cm_no_token_id c; mc_settlement_deadline := cm_end_date c |}.

(** [control/materialization/pit.rs:135-223] `resolve_markets` *)
Definition resolve_markets (t : PitTables) (m : InputManifest) (st : ResolutionState) : Result ResolutionState MaterializationError :=
  if negb (configured t "markets")
  then Ok (if requires (im_data_requirements m) DoTokenMapping then missing m DoTokenMapping InputMarketMappingMissing st else st)
  else if empty (im_market_ids m) then Ok (source m DoMarketMetadata "market" 0 st)
  else
    let? snapshots := ask t "market_pit_snapshots" (latest_pit_snapshots_before t (im_market_ids m) (im_window_to m)) in
    let missing_ids := List.filter (fun id => negb (bool_decide (id ∈ ms_market_id <$> snapshots))) (im_market_ids m) in
    let? current := if empty missing_ids then Ok None else let? rows := ask t "markets" (find_markets_by_ids t missing_ids) in Ok (Some rows) in
    let rows := default [] current in
    let st := record_missing_market_snapshots m snapshots rows st in
    let usable := usable_current_market_rows m snapshots rows in
    let st := source m DoTokenMapping "market_pit_snapshot" (count_rows snapshots + count_rows usable) st in
    let st := match current with Some rows => source m DoTokenMapping "market" (count_rows rows) st | None => st end in
    Ok (add_contexts ((market_context_from_snapshot <$> snapshots) ++ (market_context_from_current <$> usable)) st).

(** [control/materialization/pit.rs:225-245] `resolve_events` *)
Definition resolve_events (t : PitTables) (m : InputManifest) (st : ResolutionState) : Result ResolutionState MaterializationError :=
  if negb (configured t "events") || empty (im_event_ids m) then Ok st
  else let? rows := ask t "events" (List.filter (fun e => bool_decide (e ∈ im_event_ids m)) (pt_events t)) in
       Ok (source m DoMarketMetadata "event" (count_rows rows) st).

(** [control/materialization/pit.rs:752-756] `has_resolved_source` *)
Definition has_resolved_source (st : ResolutionState) (d : RequiredInputDomain) : bool := existsb (fun i => bool_decide (is_domain i = d)) (rn_inputs st).

(** [control/materialization/pit.rs:247-269] `resolve_fee_schedule` *)
Definition resolve_fee_schedule (m : InputManifest) (st : ResolutionState) : ResolutionState :=
  if negb (requires (im_data_requirements m) DoFeeSchedule) then st
  else if negb (has_resolved_source st DoRuntimeConfig) then missing m DoFeeSchedule InputFeeScheduleMissing st
  else source m DoFeeSchedule "runtime_config_fee_source" 1 st.

(** [control/materialization/pit.rs:279-316] `resolve_calibration` *)
Definition resolve_calibration (t : PitTables) (m : InputManifest) (st : ResolutionState) : Result ResolutionState MaterializationError :=
  if negb (requires (im_data_requirements m) DoCalibrationSnapshots) then Ok st
  else if negb (configured t "timeseries") then Ok (missing m DoCalibrationSnapshots InputCalibrationSnapshotMissing st)
  else let? rows := ask t "calibration_snapshots" (calibration_snapshots t (im_window_from m) (im_window_to m)) in
       Ok (match rows with
           | [] => missing m DoCalibrationSnapshots InputCalibrationSnapshotMissing st
           | _ => set_calibration rows (source m DoCalibrationSnapshots "calibration_snapshots" (count_rows rows) st)
           end).

(** [control/materialization/pit.rs:342-356] `resolve_l2_coverage_requirement` *)
Definition resolve_l2_coverage_requirement (m : InputManifest) (st : ResolutionState) : ResolutionState :=
  if dr_has_min_l2_coverage (im_data_requirements m) then warn (code_name ChCoverageL2Insufficient) st else st.

(** [control/materialization/pit.rs:318-340] `resolve_trades`: always asked *)
Definition resolve_trades (t : PitTables) (m : InputManifest) (st : ResolutionState) : Result ResolutionState MaterializationError :=
  if negb (configured t "trades") then Ok st
  else let? rows := ask t "trades" (trades_between t (im_window_from m) (im_window_to m)) in
       Ok (source m DoTrades "trade" (count_rows rows) (set_sources (fun b => {|
             eb_trades := rows; eb_positions := eb_positions b; eb_potential_loss_baseline := eb_potential_loss_baseline b;
             eb_potential_loss_changes := eb_potential_loss_changes b; eb_risk_audit_events := eb_risk_audit_events b; eb_balance_snapshot := eb_balance_snapshot b;
             eb_settlement_truth := eb_settlement_truth b; eb_reconciliation_reports := eb_reconciliation_reports b |}) st)).

(** [control/materialization/pit.rs:358-381] `resolve_positions` *)
Definition resolve_positions (t : PitTables) (m : InputManifest) (st : ResolutionState) : Result ResolutionState MaterializationError :=
  if negb (requires (im_data_requirements m) DoPositions) || negb (configured t "positions") then Ok st
  else let? rows := ask t "positions" (open_as_of t (im_window_to m)) in
       Ok (source m DoPositions "position" (count_rows rows) (set_sources (fun b => {|
             eb_trades := eb_trades b; eb_positions := rows; eb_potential_loss_baseline := eb_potential_loss_baseline b;
             eb_potential_loss_changes := eb_potential_loss_changes b; eb_risk_audit_events := eb_risk_audit_events b; eb_balance_snapshot := eb_balance_snapshot b;
             eb_settlement_truth := eb_settlement_truth b; eb_reconciliation_reports := eb_reconciliation_reports b |}) st)).

(** [control/materialization/pit.rs:383-431] `resolve_potential_loss` *)
Definition resolve_potential_loss (t : PitTables) (m : InputManifest) (st : ResolutionState) : Result ResolutionState MaterializationError :=
  if negb (requires (im_data_requirements m) DoRiskState) then Ok st
  else if negb (configured t "potential_loss")
  then Ok (if production_requires (im_data_requirements m) DoRiskState then missing m DoRiskState RiskSequenceIncomplete st else st)
  else let? baseline := ask t "potential_loss_baseline" (ledger_active_as_of t (im_window_from m)) in
       let? changes := ask t "potential_loss_changes" (ledger_changed_between t (im_window_from m) (im_window_to m)) in
       Ok (set_sources (fun b => {|
             eb_trades := eb_trades b; eb_positions := eb_positions b; eb_potential_loss_baseline := baseline; eb_potential_loss_changes := changes;
             eb_risk_audit_events := eb_risk_audit_events b; eb_balance_snapshot := eb_balance_snapshot b;
             eb_settlement_truth := eb_settlement_truth b; eb_reconciliation_reports := eb_reconciliation_reports b |})
           (source m DoRiskState "potential_loss_ledger" (count_rows changes) (source m DoRiskState "potential_loss_ledger" (count_rows baseline + count_rows changes) st))).

(** [control/materialization/pit.rs:433-465] `resolve_risk_audit` *)
Definition resolve_risk_audit (t : PitTables) (m : InputManifest) (st : ResolutionState) : Result ResolutionState MaterializationError :=
  if negb (requires (im_data_requirements m) DoRiskState) then Ok st
  else if negb (configured t "risk_audit")
  then Ok (if production_requires (im_data_requirements m) DoRiskState then missing m DoRiskState RiskSequenceIncomplete st else st)
  else let? rows := ask t "risk_audit" (risk_audit_between t (im_window_from m) (im_window_to m)) in
       Ok (source m DoRiskState "risk_audit_event" (count_rows rows) (set_sources (fun b => {|
             eb_trades := eb_trades b; eb_positions := eb_positions b; eb_potential_loss_baseline := eb_potential_loss_baseline b;
             eb_potential_loss_changes := eb_potential_loss_changes b; eb_risk_audit_events := rows; eb_balance_snapshot := eb_balance_snapshot b;
             eb_settlement_truth := eb_settlement_truth b; eb_reconciliation_reports := eb_reconciliation_reports b |}) st)).

(** [control/materialization/pit.rs:467-497] `resolve_reconciliation` *)
Definition resolve_reconciliation (t : PitTables) (m : InputManifest) (st : ResolutionState) : Result ResolutionState MaterializationError :=
  if negb (requires (im_data_requirements m) DoReconciliationStatus) then Ok st
  else if negb (configured t "reconciliation") then Ok (missing m DoReconciliationStatus InputReconciliationStatusMissing st)
  else let? rows := ask t "reconciliation" (reconciliation_between t (im_window_from m) (im_window_to m)) in
       Ok (source m DoReconciliationStatus "reconciliation_report" (count_rows rows) (set_sources (fun b => {|
             eb_trades := eb_trades b; eb_positions := eb_positions b; eb_potential_loss_baseline := eb_potential_loss_baseline b;
             eb_potential_loss_changes := eb_potential_loss_changes b; eb_risk_audit_events := eb_risk_audit_events b; eb_balance_snapshot := eb_balance_snapshot b;
             eb_settlement_truth := eb_settlement_truth b; eb_reconciliation_reports := rows |}) st)).

(** [control/materialization/pit.rs:499-538] `resolve_settlement_truth` *)
Definition resolve_settlement_truth (t : PitTables) (m : InputManifest) (st : ResolutionState) : Result ResolutionState MaterializationError :=
  if negb (requires_settlement_truth (im_data_requirements m)) then Ok st
  else if negb (configured t "resolution_events") then Ok (missing m DoSettlementTruth InputSettlementTruthMissing st)
  else let? rows := ask t "resolution_events" (settlement_truth_before t (im_market_ids m) (im_window_to m)) in
       Ok (match rows with
           | [] => missing m DoSettlementTruth InputSettlementTruthMissing st
           | _ => set_sources (fun b => {|
                    eb_trades := eb_trades b; eb_positions := eb_positions b; eb_potential_loss_baseline := eb_potential_loss_baseline b;
                    eb_potential_loss_changes := eb_potential_loss_changes b; eb_risk_audit_events := eb_risk_audit_events b; eb_balance_snapshot := eb_balance_snapshot b;
                    eb_settlement_truth := fst <$> rows; eb_reconciliation_reports := eb_reconciliation_reports b |})
                  (source m DoSettlementTruth "resolution_event" (count_rows rows) st)
           end).

(** [control/materialization/pit.rs:540-596] `resolve_balance_domains`, with `missing_balance_scope` *)
Definition resolve_balance_domains (t : PitTables) (m : InputManifest) (st : ResolutionState) : Result ResolutionState MaterializationError :=
  if negb (requires (im_data_requirements m) DoBalanceSnapshot) then Ok st
  else match im_replay_account_scope m with
       | None => Ok (missing m DoBalanceSnapshot InputBalanceSnapshotMissing (warn "input.balance_account_scope_absent" st))
       | Some holder =>
           if negb (configured t "balances") then Ok (missing m DoBalanceSnapshot InputBalanceSnapshotMissing st)
           else let? snapshot := ask t "balances" (latest_balance_before t holder (im_window_to m)) in
                Ok (match snapshot with
                    | Some s => set_sources (fun b => {|
                                  eb_trades := eb_trades b; eb_positions := eb_positions b; eb_potential_loss_baseline := eb_potential_loss_baseline b;
                                  eb_potential_loss_changes := eb_potential_loss_changes b; eb_risk_audit_events := eb_risk_audit_events b;
                                  eb_balance_snapshot := Some s.2; eb_settlement_truth := eb_settlement_truth b;
                                  eb_reconciliation_reports := eb_reconciliation_reports b |}) (source m DoBalanceSnapshot "balance_snapshot" 1 st)
                    | None => missing m DoBalanceSnapshot InputBalanceSnapshotMissing st
                    end)
       end.

(** [control/materialization/pit.rs:598-615] `resolve_risk_state`: its table is of the current state only *)
Definition resolve_risk_state (m : InputManifest) (st : ResolutionState) : ResolutionState :=
  if requires (im_data_requirements m) DoRiskState
  then if production_requires (im_data_requirements m) DoRiskState then missing m DoRiskState InputCurrentStateFallbackForbidden st
       else warn "input.risk_state_pit_source_missing" st
  else st.

(** [models/domain/control_factor/materialization.rs:618-624] `InputResolutionReport`, with the parts of its bundle that are kept apart *)
Record InputResolution := {
  ir_manifest : PointInTimeInputManifest;
  ir_warns : bool;
  ir_contexts : list MarketReplayContext;
  ir_sources : EvidenceSourceBundle;
  ir_runtime_config : option (Z * string);
  ir_calibration_snapshots : list (Time * Z)
}.

(** [control/materialization/pit.rs:59-73] `PointInTimeResolver::resolve`, the domains in their order *)
Definition resolve_state (t : PitTables) (m : InputManifest) : Result ResolutionState MaterializationError :=
  let? st := resolve_runtime_config t m new_state in
  let? st := resolve_markets t m st in
  let? st := resolve_events t m st in
  let st := resolve_fee_schedule m st in
  let? st := resolve_calibration t m st in
  let st := resolve_l2_coverage_requirement m st in
  let? st := resolve_trades t m st in
  let? st := resolve_positions t m st in
  let? st := resolve_potential_loss t m st in
  let? st := resolve_risk_audit t m st in
  let? st := resolve_reconciliation t m st in
  let? st := resolve_settlement_truth t m st in
  let? st := resolve_balance_domains t m st in
  Ok (resolve_risk_state m st).

(** [control/materialization/pit.rs:55-90] `PointInTimeResolver::resolve`; the hash of the manifest is the hasher's *)
Definition resolve (hash : ResolutionState -> Result string string) (t : PitTables) (m : InputManifest) : Result InputResolution MaterializationError :=
  let? st := resolve_state t m in
  match hash st with
  | Err e => Err (MeCanonicalDigest e)
  | Ok h => Ok {|
      ir_manifest := {| FactorModel.production_eligible := empty (rn_fatal_errors st); fatal_errors := code_name <$> rn_fatal_errors st; manifest_hash := h |};
      ir_warns := negb (empty (rn_warnings st)); ir_contexts := rn_market_contexts st; ir_sources := rn_sources st; ir_runtime_config := rn_runtime_config st;
      ir_calibration_snapshots := rn_calibration_snapshots st |}
  end.
End Resolver.

(** ** What the resolver sees *)

Section ResolverFacts.
Context {DO : DecimalOps}.
Implicit Types (t : PitTables) (m : InputManifest) (st : ResolutionState).

Lemma latest_by_in {A} (time : A -> Time) (rows : list A) x : latest_by time rows = Some x -> x ∈ rows.
Proof.
  unfold latest_by. intros H. apply head_Some_elem_of in H. by rewrite sort_by_perm in H.
Qed.

Lemma filter_in {A} (f : A -> bool) l x : x ∈ List.filter f l -> x ∈ l /\ f x = true.
Proof. rewrite !list_elem_of_In. apply filter_In. Qed.

(** A context of a market, from rows that were there at the end of the window. *)
Definition context_of_past t m (c : MarketReplayContext) : Prop :=
  (exists s, s ∈ pt_market_snapshots t /\ ms_observed_at s <= im_window_to m /\ c = market_context_from_snapshot s) \/
  (exists r, r ∈ pt_markets t /\ cm_updated_at r <= im_window_to m /\ c = market_context_from_current r).

(** Rows that were written before the end of the window. *)
Record sources_of_past t m (b : EvidenceSourceBundle) : Prop := {
  sp_trades : Forall (fun x => x ∈ pt_trades t /\ im_window_from m <= x.2 < im_window_to m) (eb_trades b);
  sp_positions : Forall (fun p => p ∈ pt_positions t /\ pos_opened_at p <= im_window_to m /\ match pos_closed_at p with Some c => im_window_to m < c | None => True end) (eb_positions b);
  sp_baseline : Forall (fun x => x.2 <= im_window_from m /\ exists r, (x, r) ∈ pt_ledger t) (eb_potential_loss_baseline b);
  sp_changes : Forall (fun x => exists r, (x, r) ∈ pt_ledger t /\ (im_window_from m <= x.2 < im_window_to m \/ exists at_, r = Some at_ /\ im_window_from m <= at_ < im_window_to m))
                 (eb_potential_loss_changes b);
  sp_audit : Forall (fun x => x ∈ pt_risk_audit t /\ im_window_from m <= x.2 < im_window_to m) (eb_risk_audit_events b);
  sp_balance : forall x, eb_balance_snapshot b = Some x -> exists holder at_, im_replay_account_scope m = Some holder /\ (holder, at_, x) ∈ pt_balances t /\ at_ <= im_window_to m;
  sp_truth : Forall (fun id => id ∈ im_market_ids m /\ exists at_, (id, at_) ∈ pt_resolutions t /\ at_ <= im_window_to m) (eb_settlement_truth b);
  sp_reports : Forall (fun x => x ∈ pt_reconciliation t /\ im_window_from m <= x.2 < im_window_to m) (eb_reconciliation_reports b)
}.

Definition sees_past t m st : Prop :=
  Forall (context_of_past t m) (rn_market_contexts st) /\ sources_of_past t m (rn_sources st) /\
  Forall (fun x => x ∈ pt_calibration_snapshots t /\ x.1 < im_window_to m) (rn_calibration_snapshots st).

Lemma Forall_sorted_filter {A} leb (f : A -> bool) (P : A -> Prop) l : (forall x, x ∈ l -> f x = true -> P x) -> Forall P (sort_by leb (List.filter f l)).
Proof. intros H. rewrite sort_by_perm. apply Forall_forall. intros x [Hx Hf]%filter_in. by apply H. Qed.

Lemma ask_ok {A} t name (rows x : A) : ask t name rows = Ok x -> x = rows.
Proof. unfold ask. by destruct (List.find _ _); intros [= <-]. Qed.

Lemma sees_past_new t m : sees_past t m new_state.
Proof. unfold sees_past. cbn. split_and!; [done| |done]. by constructor. Qed.

(** Takes a step of the resolver apart. *)
Ltac step :=
  repeat match goal with
  | |- (match ?x with Ok _ => _ | Err _ => _ end = Ok _) -> _ => let E := fresh "E" in destruct x eqn:E; [apply ask_ok in E; subst|discriminate]; cbn beta iota zeta
  | |- ((if ?c then _ else _) = Ok _) -> _ => destruct c eqn:?
  | |- (Ok _ = Ok _) -> _ => intros [= <-]
  | |- (Err _ = Ok _) -> _ => discriminate
  end.

Lemma config_past t m st st' : resolve_runtime_config t m st = Ok st' -> sees_past t m st -> sees_past t m st'.
Proof. unfold resolve_runtime_config. step; intros H; [exact H|]. by destruct (match im_runtime_config_ref m with RcActiveAt _ => _ | _ => _ end). Qed.

Lemma missing_snapshots_past t m snapshots current st : sees_past t m st -> sees_past t m (record_missing_market_snapshots m snapshots current st).
Proof.
  unfold record_missing_market_snapshots. generalize (im_market_ids m). intros ids. revert st. induction ids as [|id ids IH]; intros st H; [exact H|]. cbn [foldl]. apply IH.
  case_bool_decide; [exact H|]. destruct (List.find _ _) as [c|]; [|exact H]. unfold record_current_market_staleness. destruct (_ <? _); [exact H|]. by destruct (_ && _).
Qed.

Lemma snapshots_past t m : Forall (fun s => s ∈ pt_market_snapshots t /\ ms_observed_at s <= im_window_to m) (latest_pit_snapshots_before t (im_market_ids m) (im_window_to m)).
Proof.
  apply Forall_forall. intros s Hs. unfold latest_pit_snapshots_before in Hs. apply list_elem_of_omap in Hs as (id & _ & Hs). apply latest_by_in, filter_in in Hs as [Hin Hf].
  apply andb_true_iff in Hf as [_ Hf]. split; [done | lia].
Qed.

Lemma usable_past t m snapshots rows : Forall (fun r => r ∈ pt_markets t) rows ->
  Forall (fun r => r ∈ pt_markets t /\ cm_updated_at r <= im_window_to m) (usable_current_market_rows m snapshots rows).
Proof.
  intros H. apply Forall_forall. intros r [Hr Hf]%filter_in. rewrite Forall_forall in H. apply andb_true_iff in Hf as [_ Hf]. split; [by apply H | lia].
Qed.

Lemma add_contexts_past t m snapshots usable st : sees_past t m st ->
  Forall (fun s => s ∈ pt_market_snapshots t /\ ms_observed_at s <= im_window_to m) snapshots -> Forall (fun r => r ∈ pt_markets t /\ cm_updated_at r <= im_window_to m) usable ->
  sees_past t m (add_contexts ((market_context_from_snapshot <$> snapshots) ++ (market_context_from_current <$> usable)) st).
Proof.
  intros (H1 & H2 & H3) Hs Hu. split; [|by split]. cbn. apply Forall_app. split; [done|]. apply Forall_app. split; apply Forall_fmap.
  - eapply Forall_impl; [exact Hs|]. intros s [? ?]. left. by exists s.
  - eapply Forall_impl; [exact Hu|]. intros r [? ?]. right. by exists r.
Qed.

Lemma markets_past t m st st' : resolve_markets t m st = Ok st' -> sees_past t m st -> sees_past t m st'.
Proof.
  unfold resolve_markets. destruct (negb _); [intros [= <-] H; by destruct (requires _ _)|]. destruct (empty (im_market_ids m)); [intros [= <-] H; exact H|].
  destruct (ask t "market_pit_snapshots" _) as [snapshots|] eqn:Es; [apply ask_ok in Es; subst | discriminate]. cbn beta iota zeta.
  set (ids := List.filter _ (im_market_ids m)). destruct (empty ids).
  - intros [= <-] H. apply (add_contexts_past t m _ []); [by apply missing_snapshots_past | apply snapshots_past | done].
  - destruct (ask t "markets" _) as [rows|] eqn:E; [apply ask_ok in E; subst | discriminate]. cbn beta iota zeta. intros [= <-] H.
    apply add_contexts_past; [by apply missing_snapshots_past | apply snapshots_past |]. apply usable_past. apply Forall_forall. by intros r [Hr _]%filter_in.
Qed.

Lemma events_past t m st st' : resolve_events t m st = Ok st' -> sees_past t m st -> sees_past t m st'.
Proof. unfold resolve_events. step; intros H; exact H. Qed.

Lemma calibration_past t m st st' : resolve_calibration t m st = Ok st' -> sees_past t m st -> sees_past t m st'.
Proof.
  unfold resolve_calibration. destruct (negb _); [intros [= <-] H; exact H|]. destruct (negb _); [intros [= <-] H; exact H|].
  destruct (ask _ _ _) as [rows|] eqn:E; [apply ask_ok in E | discriminate]. cbn beta iota. intros [= <-] (H1 & H2 & H3).
  destruct rows as [|r rows]; [by split|]. split; [done|]. split; [done|]. cbn [set_calibration source rn_calibration_snapshots]. rewrite E. unfold calibration_snapshots.
  apply Forall_sorted_filter. intros x Hx [_ Hl]%andb_true_iff. split; [done|]. apply Z.ltb_lt in Hl. unfold timestamp_millis in Hl. pose proof (Z.mul_div_le (im_window_to m) 1000000). lia.
Qed.

(** The steps that fill a part of the sources. *)
Lemma trades_past t m st st' : resolve_trades t m st = Ok st' -> sees_past t m st -> sees_past t m st'.
Proof.
  unfold resolve_trades. step; intros (H1 & [] & H3); split_and!; try done. constructor; try done. cbn. apply Forall_sorted_filter. intros x Hx Hf. split; [done | lia].
Qed.

Lemma positions_past t m st st' : resolve_positions t m st = Ok st' -> sees_past t m st -> sees_past t m st'.
Proof.
  unfold resolve_positions. step; intros (H1 & [] & H3); split_and!; try done. constructor; try done. cbn. apply Forall_sorted_filter. intros p Hp [Ho Hc]%andb_true_iff.
  split; [done|]. split; [lia|]. destruct (pos_closed_at p); [lia | done].
Qed.

Lemma potential_loss_past t m st st' : resolve_potential_loss t m st = Ok st' -> sees_past t m st -> sees_past t m st'.
Proof.
  unfold resolve_potential_loss. destruct (negb _); [intros [= <-] H; exact H|]. destruct (negb _); [intros [= <-] H; by destruct (production_requires _ _)|].
  step. intros (H1 & [] & H3). split_and!; [done| |done]. constructor; try done; cbn.
  - unfold ledger_active_as_of. apply Forall_fmap, Forall_sorted_filter. intros [x r] Hx Hf. cbn in *. split; [lia | by exists r].
  - unfold ledger_changed_between. apply Forall_fmap, Forall_sorted_filter. intros [x r] Hx Hf. cbn in *. exists r. split; [done|].
    apply orb_true_iff in Hf as [Hf|Hf]; [left; lia|]. right. destruct r as [r|]; [|done]. exists r. split; [done | lia].
Qed.

Lemma risk_audit_past t m st st' : resolve_risk_audit t m st = Ok st' -> sees_past t m st -> sees_past t m st'.
Proof.
  unfold resolve_risk_audit. destruct (negb _); [intros [= <-] H; exact H|]. destruct (negb _); [intros [= <-] H; by destruct (production_requires _ _)|].
  step. intros (H1 & [] & H3). split_and!; [done| |done]. constructor; try done. cbn. apply Forall_sorted_filter. intros x Hx Hf. split; [done | lia].
Qed.

Lemma reconciliation_past t m st st' : resolve_reconciliation t m st = Ok st' -> sees_past t m st -> sees_past t m st'.
Proof.
  unfold resolve_reconciliation. step; try (intros H; exact H). intros (H1 & [] & H3). split_and!; [done| |done]. constructor; try done. cbn.
  apply Forall_sorted_filter. intros x Hx Hf. split; [done | lia].
Qed.

Lemma dedup_tokens_in x l : x ∈ dedup_tokens l -> x ∈ l.
Proof.
  induction l as [|a l IH]; [done|]. cbn. destruct l as [|b l]; [done|]. case_bool_decide as Hab; [intros Hx; right; by apply IH|]. rewrite !(elem_of_cons _ x a). naive_solver.
Qed.

Lemma truth_rows t ids before x : x ∈ settlement_truth_before t ids before -> x.1 ∈ ids /\ x ∈ pt_resolutions t /\ x.2 <= before.
Proof.
  unfold settlement_truth_before. intros (id & Hid & Hx)%list_elem_of_omap. apply latest_by_in, filter_in in Hx as [Hin [Hm Hl]%andb_true_iff].
  apply bool_decide_eq_true in Hm. split; [|split; [done | lia]]. rewrite Hm. apply dedup_tokens_in in Hid. by rewrite sort_by_perm in Hid.
Qed.

Lemma truth_past t m st st' : resolve_settlement_truth t m st = Ok st' -> sees_past t m st -> sees_past t m st'.
Proof.
  unfold resolve_settlement_truth. destruct (negb _); [intros [= <-] H; exact H|]. destruct (negb _); [intros [= <-] H; exact H|].
  destruct (ask _ _ _) as [rows|] eqn:E; [apply ask_ok in E | discriminate]. cbn beta iota. intros [= <-] (H1 & H2 & H3). assert (Forall (fun x => x ∈ settlement_truth_before t (im_market_ids m) (im_window_to m)) rows) as Hr
    by (rewrite E; by apply Forall_forall). clear E. destruct rows as [|r rows]; [by split|]. destruct H2. split_and!; [done| |done]. constructor; try done. cbn [set_sources rn_sources eb_settlement_truth].
  apply Forall_fmap. eapply Forall_impl; [exact Hr|]. intros x Hx. apply truth_rows in Hx as (Hi & Hx & Hl). cbn. split; [done|]. exists x.2. by destruct x.
Qed.

Lemma balance_past t m st st' : resolve_balance_domains t m st = Ok st' -> sees_past t m st -> sees_past t m st'.
Proof.
  unfold resolve_balance_domains. destruct (negb _); [intros [= <-] H; exact H|]. destruct (im_replay_account_scope m) as [holder|] eqn:Eh; [|intros [= <-] H; exact H].
  destruct (negb _); [intros [= <-] H; exact H|]. destruct (ask _ _ _) as [x|] eqn:E; [apply ask_ok in E | discriminate]. cbn beta iota. intros [= <-] (H1 & H2 & H3).
  destruct x as [[[h at_] x]|]; [|by split]. destruct H2. split_and!; [done| |done]. constructor; try done. cbn. intros y [= <-]. symmetry in E. apply latest_by_in, filter_in in E as [Hin Hf].
  apply andb_true_iff in Hf as [Hh Hl]. apply bool_decide_eq_true in Hh. cbn in Hh, Hl. subst h. exists holder, at_. split; [done|]. split; [done | lia].
Qed.

Lemma resolve_state_past t m st : resolve_state t m = Ok st -> sees_past t m st.
Proof.
  unfold resolve_state. intros H.
  repeat match type of H with (match ?x with Ok _ => _ | Err _ => _ end) = Ok _ => let E := fresh "E" in destruct x eqn:E; cbn beta iota zeta in H; [|discriminate H] end.
  injection H as <-. pose proof (sees_past_new t m) as P.
  apply config_past in E; [|exact P]. apply markets_past in E0; [|exact E]. apply events_past in E1; [|exact E0].
  apply calibration_past in E2; [|unfold resolve_fee_schedule; destruct (negb _); [exact E1|]; destruct (negb _); exact E1].
  apply trades_past in E3; [|unfold resolve_l2_coverage_requirement; destruct (dr_has_min_l2_coverage _); exact E2].
  apply positions_past in E4; [|exact E3]. apply potential_loss_past in E5; [|exact E4]. apply risk_audit_past in E6; [|exact E5].
  apply reconciliation_past in E7; [|exact E6]. apply truth_past in E8; [|exact E7]. apply balance_past in E9; [|exact E8].
  unfold resolve_risk_state. destruct (requires _ _); [|exact E9]. destruct (production_requires _ _); exact E9.
Qed.


(** ** When the inputs are eligible *)

Definition clean st : Prop := rn_fatal_errors st = [].

Definition config_found t m : Prop :=
  match im_runtime_config_ref m with
  | RcActiveAt at_ => load_active_at t at_
  | RcVersion id _ => List.find (fun v => v.1 =? id) (pt_config_versions t)
  | RcHash hash => List.find (fun v => bool_decide (v.2 = hash)) (pt_config_versions t)
  end <> None.

(** A market that can be mapped: a snapshot of the time, or a current row that has not been written since. *)
Definition market_known t m (id : MarketId) : Prop :=
  (exists s, s ∈ pt_market_snapshots t /\ ms_market_id s = id /\ ms_observed_at s <= im_window_to m) \/
  (exists c, c ∈ pt_markets t /\ cm_market_id c = id /\ cm_updated_at c <= im_window_to m /\
     (requires (im_data_requirements m) DoFeeSchedule = true -> forall at_, cm_fee_observed_at c = Some at_ -> at_ <= im_window_to m)).

Lemma missing_not_clean m d code st : is_fatal_for_production code = true -> ~ clean (missing m d code st).
Proof. unfold clean, missing. cbn. intros ->. rewrite orb_true_r. intros [_ ?]%app_nil. done. Qed.

Lemma configured_all t name : pt_unconfigured t = [] -> configured t name = true.
Proof. unfold configured. intros ->. rewrite bool_decide_eq_false_2; [done|]. apply not_elem_of_nil. Qed.

Definition has_config st : Prop := has_resolved_source st DoRuntimeConfig = true.
Lemma has_config_source m d table n st : has_config st -> has_config (source m d table n st).
Proof. unfold has_config, has_resolved_source. cbn. rewrite existsb_app. by intros ->. Qed.

Lemma config_clean t m st st' : pt_unconfigured t = [] -> resolve_runtime_config t m st = Ok st' -> (clean st' <-> clean st /\ config_found t m) /\ (clean st' -> has_config st').
Proof.
  intros Hu. unfold resolve_runtime_config, config_found. rewrite configured_all by done. cbn [negb].
  destruct (ask _ _ _) as [v|] eqn:E; [apply ask_ok in E | discriminate]. cbn beta iota. rewrite <- E. intros [= <-]. destruct v as [v|].
  - split; [split; [by intros H|by intros [H _]]|]. intros _. unfold has_config, has_resolved_source. cbn. rewrite existsb_app. cbn. by rewrite orb_true_r.
  - assert (~ clean (missing m DoRuntimeConfig InputPitConfigMissing st)) by (by apply missing_not_clean). naive_solver.
Qed.

Lemma latest_by_none {A} (time : A -> Time) (rows : list A) : latest_by time rows = None <-> rows = [].
Proof.
  unfold latest_by. rewrite head_None. split; [|by intros ->]. intros H. pose proof (sort_by_perm (fun a b => time b <=? time a) rows) as Hp. rewrite H in Hp. by apply Permutation_nil in Hp.
Qed.

Lemma dedup_tokens_keeps x l : x ∈ l -> x ∈ dedup_tokens l.
Proof.
  induction l as [|a l IH]; [done|]. cbn. destruct l as [|b l]; [done|]. intros [->|Hx]%elem_of_cons.
  - case_bool_decide as Hab; [|by left]. apply IH. rewrite Hab. by left.
  - case_bool_decide; [by apply IH|]. right. by apply IH.
Qed.

Lemma snapshot_found t m id : id ∈ im_market_ids m ->
  (id ∈ ms_market_id <$> latest_pit_snapshots_before t (im_market_ids m) (im_window_to m) <->
   exists s, s ∈ pt_market_snapshots t /\ ms_market_id s = id /\ ms_observed_at s <= im_window_to m).
Proof.
  intros Hid. unfold latest_pit_snapshots_before. rewrite list_elem_of_fmap. split.
  - intros (s & -> & Hs). apply list_elem_of_omap in Hs as (id' & _ & Hs). apply latest_by_in, filter_in in Hs as [Hin [Hm Hl]%andb_true_iff]. exists s. split_and!; [done | done | lia].
  - intros (s & Hs & Hm & Hl). set (rows := List.filter (fun s => bool_decide (ms_market_id s = id) && (ms_observed_at s <=? im_window_to m)) (pt_market_snapshots t)).
    destruct (latest_by ms_observed_at rows) as [x|] eqn:E.
    + exists x. split; [|apply list_elem_of_omap; exists id; split; [apply dedup_tokens_keeps; by rewrite sort_by_perm | exact E]].
      apply latest_by_in, filter_in in E as [_ [Hx _]%andb_true_iff]. by apply bool_decide_eq_true in Hx.
    + apply latest_by_none in E. assert (s ∈ rows) as Hr; [|rewrite E in Hr; by apply not_elem_of_nil in Hr].
      unfold rows. rewrite list_elem_of_In, filter_In, <- list_elem_of_In. split; [done|]. rewrite bool_decide_eq_true_2 by done. cbn. lia.
Qed.

Definition row_known m (c : CurrentMarket) : Prop :=
  cm_updated_at c <= im_window_to m /\ (requires (im_data_requirements m) DoFeeSchedule = true -> forall at_, cm_fee_observed_at c = Some at_ -> at_ <= im_window_to m).

Lemma staleness_clean m c st : clean (record_current_market_staleness m c st) <-> clean st /\ row_known m c.
Proof.
  unfold record_current_market_staleness, row_known. destruct (Z.ltb_spec (im_window_to m) (cm_updated_at c)) as [Hl|Hl].
  - assert (~ clean (missing m DoTokenMapping InputMarketMappingMissing st)) by (by apply missing_not_clean). split; [done|]. intros (_ & ? & _). lia.
  - assert (~ clean (missing m DoFeeSchedule InputFeeScheduleMissing st)) as Hn by (by apply missing_not_clean).
    destruct (requires _ _); cbn [andb]; [|naive_solver]. destruct (cm_fee_observed_at c) as [at_|]; [|naive_solver]. destruct (Z.ltb_spec (im_window_to m) at_).
    + split; [intros Hc; by destruct Hn|]. intros (_ & _ & Hfee). specialize (Hfee eq_refl at_ eq_refl). lia.
    + split; [|by intros [? _]]. intros Hc. split; [done|]. split; [lia|]. by intros _ a [= <-].
Qed.

Lemma find_reverse_in {A} (f : A -> bool) l c : List.find f (reverse l) = Some c -> c ∈ l /\ f c = true.
Proof. intros H. apply find_some in H as [H Hf]. split; [|done]. by rewrite <- list_elem_of_In, elem_of_reverse in H. Qed.

(** The rows that a missing snapshot falls back on. *)
Lemma missing_snapshots_clean m snapshots current st : NoDup (cm_market_id <$> current) ->
  clean (record_missing_market_snapshots m snapshots current st) <->
  clean st /\ Forall (fun id => id ∈ ms_market_id <$> snapshots \/ exists c, c ∈ current /\ cm_market_id c = id /\ row_known m c) (im_market_ids m).
Proof.
  intros Hn. unfold record_missing_market_snapshots. generalize (im_market_ids m). intros ids. revert st. induction ids as [|id ids IH]; intros st; cbn [foldl].
  { split; [by intros H|by intros [H _]]. }
  rewrite IH, Forall_cons. case_bool_decide as Hin; [naive_solver|]. destruct (List.find _ _) as [c|] eqn:Ef.
  - apply find_reverse_in in Ef as [Hc Hid]. apply bool_decide_eq_true in Hid. rewrite staleness_clean. split; [intros [[? ?] ?]; split; [done|]; split; [right; by exists c | done]|].
    intros (? & [?|(c' & Hc' & Hid' & Hk)] & ?); [done|]. split; [|done]. split; [done|]. assert (c = c') as ->; [|done].
    apply list_elem_of_lookup in Hc as [i Hi], Hc' as [j Hj]. assert (i = j) as ->; [|congruence].
    eapply (NoDup_lookup (cm_market_id <$> current)); [done| |]; rewrite list_lookup_fmap; [by rewrite Hi | rewrite Hj; cbn; congruence].
  - assert (~ clean (missing m DoTokenMapping InputMarketMappingMissing st)) as Hm by (by apply missing_not_clean).
    split; [intros [? _]; done|]. intros (_ & [?|(c & Hc & Hid & _)] & _); [done|]. exfalso. apply elem_of_reverse in Hc.
    pose proof (find_none _ _ Ef c (proj1 (list_elem_of_In _ _) Hc)) as Hf. cbn beta in Hf. by rewrite bool_decide_eq_true_2 in Hf.
Qed.

Lemma clean_frame m contexts d table n st : clean (add_contexts contexts st) = clean st /\ clean (source m d table n st) = clean st.
Proof. done. Qed.

Lemma markets_clean t m st st' : pt_unconfigured t = [] -> NoDup (cm_market_id <$> pt_markets t) -> resolve_markets t m st = Ok st' ->
  (clean st' <-> clean st /\ Forall (market_known t m) (im_market_ids m)) /\ (has_config st -> has_config st').
Proof.
  intros Hu Hn. unfold resolve_markets. rewrite configured_all by done. cbn [negb]. destruct (empty (im_market_ids m)) eqn:Ee.
  { intros [= <-]. destruct (im_market_ids m); [|done]. split; [|apply has_config_source]. split; [intros H; by split | by intros [H _]]. }
  destruct (ask t "market_pit_snapshots" _) as [snapshots|] eqn:Es; [apply ask_ok in Es; subst | discriminate]. cbn beta iota zeta.
  set (snapshots := latest_pit_snapshots_before t (im_market_ids m) (im_window_to m)). set (ids := List.filter _ (im_market_ids m)).
  assert (forall rows, (forall c, c ∈ rows <-> c ∈ pt_markets t /\ cm_market_id c ∈ ids) -> NoDup (cm_market_id <$> rows) ->
    (clean (record_missing_market_snapshots m snapshots rows st) <-> clean st /\ Forall (market_known t m) (im_market_ids m)) /\
    (has_config st -> has_config (record_missing_market_snapshots m snapshots rows st))) as Hrows.
  { intros rows Hr Hnd. rewrite missing_snapshots_clean by done. split.
    - assert (forall id, id ∈ im_market_ids m -> (id ∈ ms_market_id <$> snapshots \/ (exists c, c ∈ rows /\ cm_market_id c = id /\ row_known m c)) <-> market_known t m id) as Heq.
      { intros id Hid. unfold market_known. rewrite <- snapshot_found by done. fold snapshots. destruct (decide (id ∈ ms_market_id <$> snapshots)) as [Hs|Hs]; [tauto|].
        split; (intros [?|(c & Hc)]; [done|]; right; exists c).
        - destruct Hc as (Hc & Hi & Hk). apply Hr in Hc as [Hc _]. by destruct Hk.
        - destruct Hc as (Hc & Hi & Hk). split; [|done]. apply Hr. split; [done|]. rewrite Hi. unfold ids. rewrite list_elem_of_In, filter_In, <- list_elem_of_In.
          split; [done|]. by rewrite bool_decide_eq_false_2. }
      rewrite !Forall_forall. split; (intros [? H]; split; [done|]; intros id Hid; apply Heq; auto).
    - clear. unfold record_missing_market_snapshots. generalize (im_market_ids m). intros ids. revert st. induction ids as [|id ids IH]; intros st H; [exact H|]. cbn [foldl]. apply IH.
      case_bool_decide; [exact H|]. destruct (List.find _ _) as [c|]; [|exact H]. unfold record_current_market_staleness. destruct (_ <? _); [exact H|]. by destruct (_ && _). }
  destruct (empty ids) eqn:Ei.
  - intros [= <-]. assert (ids = []) as Hnil by (by destruct ids). destruct (Hrows []) as [H1 H2]; [|constructor|].
    { intros c. rewrite Hnil. split; [by intros ?%not_elem_of_nil | by intros [_ ?%not_elem_of_nil]]. }
    split; [exact H1|]. intros H. exact (has_config_source m DoTokenMapping _ _ _ (H2 H)).
  - destruct (ask t "markets" _) as [rows|] eqn:E; [apply ask_ok in E; subst | discriminate]. cbn beta iota zeta. intros [= <-].
    destruct (Hrows (find_markets_by_ids t ids)) as [H1 H2].
    { intros c. unfold find_markets_by_ids. rewrite list_elem_of_In, filter_In, <- list_elem_of_In, bool_decide_eq_true. done. }
    { unfold find_markets_by_ids. clear -Hn. induction (pt_markets t) as [|c l IH]; cbn; [done|]. cbn in Hn. apply NoDup_cons in Hn as [Hn1 Hn2]. destruct (bool_decide _); [|by apply IH].
      cbn. apply NoDup_cons. split; [|by apply IH]. intros (x & Ex & Hx)%list_elem_of_fmap. apply filter_in in Hx as [Hx _]. apply Hn1. rewrite Ex. by apply list_elem_of_fmap_2. }
    split; [exact H1|]. intros H. exact (has_config_source m DoTokenMapping _ _ _ (has_config_source m DoTokenMapping _ _ _ (H2 H))).
Qed.

(** A step that leaves the errors and the recorded configuration as they are, but for what it requires. *)
Definition step_ok (st st' : ResolutionState) (P : Prop) : Prop := (clean st' <-> clean st /\ P) /\ (has_config st -> has_config st').

Lemma step_ok_same st st' : rn_fatal_errors st' = rn_fatal_errors st -> (has_config st -> has_config st') -> step_ok st st' True.
Proof. unfold step_ok, clean. intros -> H. tauto. Qed.

Lemma step_ok_missing m d code st (P : Prop) : is_fatal_for_production code = true -> ~ P -> step_ok st (missing m d code st) P.
Proof. intros H HP. pose proof (missing_not_clean m d code st H). unfold step_ok. split; [tauto|]. by intros Hc. Qed.

Lemma step_ok_iff st st' (P Q : Prop) : (P <-> Q) -> step_ok st st' P -> step_ok st st' Q.
Proof. unfold step_ok. tauto. Qed.

(** The steps that ask a repository, keep its rows and record their source. *)
Lemma source_ok m d table n st st' : rn_fatal_errors st' = rn_fatal_errors st -> rn_inputs st' = rn_inputs st -> step_ok st (source m d table n st') True.
Proof. intros H1 H2. apply step_ok_same; [exact H1|]. intros H. apply has_config_source. unfold has_config, has_resolved_source in *. by rewrite H2. Qed.

Lemma count_ok {A} t name (rows : A) (st : ResolutionState) (f : A -> ResolutionState) st' :
  (forall x, step_ok st (f x) True) -> (let? x := ask t name rows in Ok (f x)) = Ok st' -> step_ok st st' True.
Proof. intros H. destruct (ask _ _ _) as [x|]; [|done]. intros [= <-]. apply H. Qed.

Lemma events_ok t m st st' : resolve_events t m st = Ok st' -> step_ok st st' True.
Proof. unfold resolve_events. destruct (_ || _); [intros [= <-]; by apply step_ok_same|]. apply count_ok. intros x. by apply source_ok. Qed.

Lemma trades_ok t m st st' : resolve_trades t m st = Ok st' -> step_ok st st' True.
Proof. unfold resolve_trades. destruct (negb _); [intros [= <-]; by apply step_ok_same|]. apply count_ok. intros x. by apply source_ok. Qed.

Lemma positions_ok t m st st' : resolve_positions t m st = Ok st' -> step_ok st st' True.
Proof. unfold resolve_positions. destruct (_ || _); [intros [= <-]; by apply step_ok_same|]. apply count_ok. intros x. by apply source_ok. Qed.

Lemma risk_audit_ok t m st st' : pt_unconfigured t = [] -> resolve_risk_audit t m st = Ok st' -> step_ok st st' True.
Proof.
  intros Hu. unfold resolve_risk_audit. rewrite configured_all by done. cbn [negb]. destruct (negb _); [intros [= <-]; by apply step_ok_same|]. apply count_ok. intros x. by apply source_ok.
Qed.

Lemma reconciliation_ok t m st st' : pt_unconfigured t = [] -> resolve_reconciliation t m st = Ok st' -> step_ok st st' True.
Proof.
  intros Hu. unfold resolve_reconciliation. rewrite configured_all by done. cbn [negb]. destruct (negb _); [intros [= <-]; by apply step_ok_same|]. apply count_ok. intros x. by apply source_ok.
Qed.

Lemma potential_loss_ok t m st st' : pt_unconfigured t = [] -> resolve_potential_loss t m st = Ok st' -> step_ok st st' True.
Proof.
  intros Hu. unfold resolve_potential_loss. rewrite configured_all by done. cbn [negb]. destruct (negb _); [intros [= <-]; by apply step_ok_same|].
  destruct (ask t "potential_loss_baseline" _) as [b|]; [|done]. destruct (ask t "potential_loss_changes" _) as [c|]; [|done]. cbn beta iota. intros [= <-].
  apply step_ok_same; [done|]. intros H. exact (has_config_source m _ _ _ _ (has_config_source m DoRiskState "potential_loss_ledger" (count_rows b + count_rows c) _ H)).
Qed.

Lemma fee_ok m st : (clean st -> has_config st) -> clean (resolve_fee_schedule m st) <-> clean st.
Proof.
  intros H. unfold resolve_fee_schedule. destruct (negb _); [done|]. destruct (has_resolved_source st DoRuntimeConfig) eqn:E; cbn [negb]; [done|].
  pose proof (missing_not_clean m DoFeeSchedule InputFeeScheduleMissing st eq_refl). unfold has_config in H. rewrite E in H. naive_solver.
Qed.

Lemma sorted_filter_nonempty {A} leb (f : A -> bool) l : sort_by leb (List.filter f l) <> [] <-> exists x, x ∈ l /\ f x = true.
Proof.
  split.
  - intros H. destruct (sort_by leb (List.filter f l)) as [|x xs] eqn:E; [done|]. assert (x ∈ sort_by leb (List.filter f l)) as Hx by (rewrite E; by left).
    rewrite sort_by_perm in Hx. exists x. by apply filter_in.
  - intros (x & Hx & Hf) E. assert (x ∈ sort_by leb (List.filter f l)) as Hin; [|rewrite E in Hin; by apply not_elem_of_nil in Hin].
    rewrite sort_by_perm, list_elem_of_In, filter_In, <- list_elem_of_In. done.
Qed.

Lemma latest_by_some {A} (time : A -> Time) (f : A -> bool) l : latest_by time (List.filter f l) <> None <-> exists x, x ∈ l /\ f x = true.
Proof. unfold latest_by. rewrite head_None. apply sorted_filter_nonempty. Qed.

Definition calibration_found t m : Prop :=
  exists s, s ∈ pt_calibration_snapshots t /\ timestamp_millis (im_window_from m) * 1000000 <= s.1 < timestamp_millis (im_window_to m) * 1000000.
Definition truth_found t m : Prop := exists id at_, id ∈ im_market_ids m /\ (id, at_) ∈ pt_resolutions t /\ at_ <= im_window_to m.
Definition balance_found t m : Prop := exists holder at_ x, im_replay_account_scope m = Some holder /\ (holder, at_, x) ∈ pt_balances t /\ at_ <= im_window_to m.

Lemma calibration_clean t m st st' : pt_unconfigured t = [] -> resolve_calibration t m st = Ok st' ->
  step_ok st st' (requires (im_data_requirements m) DoCalibrationSnapshots = true -> calibration_found t m).
Proof.
  intros Hu. unfold resolve_calibration. rewrite configured_all by done. cbn [negb]. destruct (requires _ _) eqn:Er; cbn [negb]; [|intros [= <-]; by eapply step_ok_iff; [|by apply step_ok_same]].
  assert (calibration_snapshots t (im_window_from m) (im_window_to m) <> [] <-> calibration_found t m) as Hc.
  { unfold calibration_snapshots. rewrite sorted_filter_nonempty. unfold calibration_found. split; intros (s & Hs & Hf); exists s; (split; [done|]); lia. }
  destruct (ask _ _ _) as [rows|] eqn:E; [apply ask_ok in E | discriminate]. cbn beta iota. rewrite <- E in Hc. intros [= <-]. destruct rows as [|r rows].
  - apply step_ok_missing; [done|]. intros Hx. apply Hc in Hx; [by apply Hx | done].
  - eapply step_ok_iff; [|by apply source_ok]. split; [|done]. intros _ _. by apply Hc.
Qed.

Lemma truth_clean t m st st' : pt_unconfigured t = [] -> resolve_settlement_truth t m st = Ok st' ->
  step_ok st st' (requires_settlement_truth (im_data_requirements m) = true -> truth_found t m).
Proof.
  intros Hu. unfold resolve_settlement_truth. rewrite configured_all by done. cbn [negb].
  destruct (requires_settlement_truth _) eqn:Er; cbn [negb]; [|intros [= <-]; by eapply step_ok_iff; [|by apply step_ok_same]].
  assert (settlement_truth_before t (im_market_ids m) (im_window_to m) <> [] <-> truth_found t m) as Hc.
  { split.
    - intros H. destruct (settlement_truth_before t (im_market_ids m) (im_window_to m)) as [|x l] eqn:E; [done|].
      assert (x ∈ settlement_truth_before t (im_market_ids m) (im_window_to m)) as Hx by (rewrite E; by left). apply truth_rows in Hx as (H1 & H2 & H3). exists x.1, x.2. by destruct x.
    - intros (id & at_ & Hid & Hr & Hl) E.
      destruct (latest_by snd (List.filter (fun r => bool_decide (r.1 = id) && (r.2 <=? im_window_to m)) (pt_resolutions t))) as [y|] eqn:Ey.
      + assert (y ∈ settlement_truth_before t (im_market_ids m) (im_window_to m)) as Hy; [|rewrite E in Hy; by apply not_elem_of_nil in Hy].
        unfold settlement_truth_before. apply list_elem_of_omap. exists id. split; [apply dedup_tokens_keeps; by rewrite sort_by_perm | exact Ey].
      + revert Ey. apply latest_by_some. exists (id, at_). split; [done|]. cbn. rewrite bool_decide_eq_true_2 by done. cbn. lia. }
  destruct (ask _ _ _) as [rows|] eqn:E; [apply ask_ok in E | discriminate]. cbn beta iota. rewrite <- E in Hc. intros [= <-]. destruct rows as [|r rows].
  - apply step_ok_missing; [done|]. intros Hx. apply Hc in Hx; [by apply Hx | done].
  - eapply step_ok_iff; [|by apply source_ok]. split; [|done]. intros _ _. by apply Hc.
Qed.

Lemma balance_clean t m st st' : pt_unconfigured t = [] -> resolve_balance_domains t m st = Ok st' ->
  step_ok st st' (requires (im_data_requirements m) DoBalanceSnapshot = true -> balance_found t m).
Proof.
  intros Hu. unfold resolve_balance_domains. rewrite configured_all by done. cbn [negb]. destruct (requires _ _) eqn:Er; cbn [negb]; [|intros [= <-]; by eapply step_ok_iff; [|by apply step_ok_same]].
  unfold balance_found. destruct (im_replay_account_scope m) as [holder|].
  - assert (latest_balance_before t holder (im_window_to m) <> None <-> exists at_ x, (holder, at_, x) ∈ pt_balances t /\ at_ <= im_window_to m) as Hc.
    { unfold latest_balance_before. rewrite latest_by_some. split.
      - intros ([[h at_] x] & Hx & [Hh Hl]%andb_true_iff). apply bool_decide_eq_true in Hh. cbn in Hh, Hl. subst h. exists at_, x. split; [done | lia].
      - intros (at_ & x & Hx & Hl). exists (holder, at_, x). split; [done|]. cbn. rewrite bool_decide_eq_true_2 by done. cbn. lia. }
    destruct (ask _ _ _) as [s|] eqn:E; [apply ask_ok in E | discriminate]. cbn beta iota. rewrite <- E in Hc. intros [= <-]. destruct s as [s|].
    + eapply step_ok_iff; [|by apply source_ok]. split; [|done]. intros _ _. destruct Hc as [Hc _]. destruct Hc as (at_ & x & Hx); [done|]. by exists holder, at_, x.
    + apply step_ok_missing; [done|]. intros Hx. destruct (Hx eq_refl) as (h & at_ & x & [= <-] & Hin). apply Hc; [by eauto | done].
  - intros [= <-]. pose proof (missing_not_clean m DoBalanceSnapshot InputBalanceSnapshotMissing (warn "input.balance_account_scope_absent" st) eq_refl). split; [|done].
    split; [done|]. intros [_ Hx]. by destruct (Hx eq_refl) as (? & ? & ? & ? & _).
Qed.

Lemma risk_state_clean m st : clean (resolve_risk_state m st) <-> clean st /\ production_requires (im_data_requirements m) DoRiskState = false.
Proof.
  unfold resolve_risk_state, requires, production_requires.
  pose proof (missing_not_clean m DoRiskState InputCurrentStateFallbackForbidden st eq_refl).
  destruct (bool_decide (DoRiskState ∈ dr_production_required_inputs _)); rewrite ?orb_true_r, ?orb_false_r; [naive_solver|]. destruct (bool_decide _); split; [by intros H0|by intros []|by intros H0|by intros []].
Qed.

(** What a run needs to be eligible. *)
Definition inputs_found t m : Prop :=
  config_found t m /\ Forall (market_known t m) (im_market_ids m) /\
  (requires (im_data_requirements m) DoCalibrationSnapshots = true -> calibration_found t m) /\
  (requires_settlement_truth (im_data_requirements m) = true -> truth_found t m) /\
  (requires (im_data_requirements m) DoBalanceSnapshot = true -> balance_found t m) /\
  production_requires (im_data_requirements m) DoRiskState = false.

Lemma resolve_state_clean t m st : pt_unconfigured t = [] -> NoDup (cm_market_id <$> pt_markets t) -> resolve_state t m = Ok st -> (clean st <-> inputs_found t m).
Proof.
  intros Hu Hn. unfold resolve_state. intros H.
  repeat match type of H with (match ?x with Ok _ => _ | Err _ => _ end) = Ok _ => let E := fresh "E" in destruct x eqn:E; cbn beta iota zeta in H; [|discriminate H] end.
  injection H as <-. apply config_clean in E as [E Hc]; [|done]. apply markets_clean in E0 as [E0 Hc0]; [|done..]. apply events_ok in E1 as [E1 Hc1].
  apply calibration_clean in E2 as [E2 _]; [|done]. apply trades_ok in E3 as [E3 _]. apply positions_ok in E4 as [E4 _]. apply potential_loss_ok in E5 as [E5 _]; [|done].
  apply risk_audit_ok in E6 as [E6 _]; [|done]. apply reconciliation_ok in E7 as [E7 _]; [|done]. apply truth_clean in E8 as [E8 _]; [|done]. apply balance_clean in E9 as [E9 _]; [|done].
  rewrite risk_state_clean, E9, E8, E7, E6, E5, E4, E3. assert (forall st, clean (resolve_l2_coverage_requirement m st) <-> clean st) as Hl2
    by (intros st'; unfold resolve_l2_coverage_requirement; by destruct (dr_has_min_l2_coverage _)).
  rewrite Hl2, E2, fee_ok, E1, E0, E by tauto. unfold inputs_found. assert (clean new_state) by done. tauto.
Qed.


(** A position whose settlement is accounted for has no closing time, so it is still among the open ones at any later time. *)
Lemma settled_position_stays_open (positions positions' : gmap PositionId PositionInfo) (id : PositionId) (p p' : PositionInfo) (accounted_at : Time) t at_ :
  positions !! id = Some p -> pos_closed_at p = None -> pos_opened_at p <= at_ -> mark_accounted positions id accounted_at = (positions', Ok p') ->
  pt_positions t = (map_to_list positions').*2 -> pos_status p' = PosSettled /\ p' ∈ open_as_of t at_.
Proof.
  intros Hp Hc Ho. unfold mark_accounted, patch_position. rewrite Hp. intros [= <- <-] Ht. split; [done|]. unfold open_as_of. rewrite sort_by_perm, Ht, list_elem_of_In, filter_In, <- list_elem_of_In.
  split; [|cbn; rewrite Hc; lia]. apply list_elem_of_fmap. eexists (id, _). split; [reflexivity|]. apply elem_of_map_to_list, lookup_insert_eq.
Qed.
End ResolverFacts.

(** ** A run that is eligible, and one that is not *)

Module PointInTimeDemo.
#[local] Existing Instance ExactQ.exactQ.

Definition second : Z := 1000000000.

(** Two markets: one with a snapshot after the window and one before it, the other with its current row only; two balances of an account, the later one after the window. *)
Definition tables : PitTables := {|
  pt_config_activations := [(0, 1); (500 * second, 2)];
  pt_config_versions := [(1, "one"); (2, "two")];
  pt_calibration_snapshots := [(150 * second, 7); (250 * second, 8)];
  pt_market_snapshots := [{| ms_market_id := "m"; ms_yes_token_id := "y2"; ms_no_token_id := "n"; ms_end_date := None; ms_observed_at := 300 * second |};
                          {| ms_market_id := "m"; ms_yes_token_id := "y"; ms_no_token_id := "n"; ms_end_date := None; ms_observed_at := 50 * second |}];
  pt_markets := [{| cm_market_id := "m"; cm_yes_token_id := "y2"; cm_no_token_id := "n"; cm_end_date := None; cm_updated_at := 300 * second; cm_fee_observed_at := None |};
                 {| cm_market_id := "k"; cm_yes_token_id := "a"; cm_no_token_id := "b"; cm_end_date := None; cm_updated_at := 10 * second; cm_fee_observed_at := None |}];
  pt_events := ["e"];
  pt_balances := [("0xa", 120 * second, (d1, d0)); ("0xa", 260 * second, (d0, d0))];
  pt_trades := [(1, 11, 150 * second); (2, 12, 210 * second)];
  pt_positions := []; pt_ledger := []; pt_risk_audit := []; pt_reconciliation := [];
  pt_resolutions := [("m", 190 * second); ("m", 210 * second)];
  pt_unconfigured := []; pt_failing := [] |}.

Definition manifest (market_ids : list MarketId) (scope : option string) : InputManifest := {|
  im_window_from := 100 * second; im_window_to := 200 * second; im_market_ids := market_ids; im_event_ids := ["e"]; im_replay_account_scope := scope;
  im_data_requirements := {|
    dr_required_inputs := []; dr_production_required_inputs := [DoRuntimeConfig; DoTokenMapping; DoFeeSchedule; DoCalibrationSnapshots; DoTrades; DoSettlementTruth; DoBalanceSnapshot];
    dr_has_min_l2_coverage := false; dr_require_settlement_truth := true |};
  im_runtime_config_ref := RcActiveAt (200 * second) |}.

Definition resolved (m : InputManifest) : option InputResolution := match resolve (fun _ => Ok "h") tables m with Ok r => Some r | Err _ => None end.

Lemma resolved_ok m r : resolved m = Some r -> resolve (fun _ => Ok "h") tables m = Ok r.
Proof. unfold resolved. destruct (resolve _ _ _); [by intros [= ->] | done]. Qed.

Lemma unique : NoDup (cm_market_id <$> pt_markets tables).
Proof. apply (bool_decide_unpack _). vm_compute. exact I. Qed.

Lemma seen : exists r, resolve (fun _ => Ok "h") tables (manifest ["m"; "k"] (Some "0xa")) = Ok r /\ is_production_eligible (ir_manifest r) = true /\
  (mc_yes_token_id <$> ir_contexts r) = ["y"; "a"] /\ length (eb_trades (ir_sources r)) = 1%nat /\ ir_calibration_snapshots r = [(150 * second, 7)] /\
  ir_runtime_config r = Some (1, "one").
Proof.
  assert (match resolved (manifest ["m"; "k"] (Some "0xa")) with
          | Some r => Some (is_production_eligible (ir_manifest r), mc_yes_token_id <$> ir_contexts r, length (eb_trades (ir_sources r)), ir_calibration_snapshots r, ir_runtime_config r)
          | None => None end = Some (true, ["y"; "a"], 1%nat, [(150 * second, 7)], Some (1, "one"))) as H by (vm_compute; reflexivity).
  destruct (resolved _) as [r|] eqn:E; [|done]. apply resolved_ok in E. exists r. split; [exact E|]. by injection H as -> -> -> -> ->.
Qed.


End PointInTimeDemo.
