(* ===== verification/Materialization.v ===== *)
(** * Materialization runs: [oxide-arb-control/src/materialization/] and [scheduler/], and their table

    A run goes from a queued row of [control_factor_materialization_run] to a report: the queries of
    [oxide-arb-repository/src/postgres/control_factor.rs], the manifest of [manifest.rs], the scheduler that enqueues,
    the replay endpoint of [oxide-arb-core/src/control/replay.rs], and the runner of [runner.rs] over the
    stages of [BookReplay], [ExecutionEvidence], [EvidenceStages] and [FactorBuild].  A query runs as separate statements, so
    each of its reads and its update is given the table that it finds. *)

From stdpp Require Import sorting.
From S2P Require Import Prelude Decimal Micro Config Domain Book OrderBook Positions FactorModel BookReplay ExecutionEvidence EvidenceStages FactorBuild PointInTime.

(** ** Rows *)

(** [models/enums/control_factor.rs:197-205] `MaterializationRunStatus` *)
Inductive MaterializationRunStatus := MrQueued | MrRunning | MrCompleted | MrCompletedWithRejectedFactors | MrReportOnly | MrFailed | MrCancelled.
#[global] Instance run_status_eq_dec : EqDecision MaterializationRunStatus.
Proof. solve_decision. Defined.

(** [models/domain/control_factor/persistence.rs:526-555] `ControlFactorMaterializationRunInfo`, what the queries, the scheduler and the runner read; of the
    manifest whether it decodes *)
Record MaterializationRun := {
  mr_id : Z;
  mr_dedupe_key : option string;
  mr_trigger_ref : option string;
  mr_status : MaterializationRunStatus;
  mr_window_from : Time;
  mr_window_to : Time;
  mr_manifest_decodes : bool;
  mr_started_at : option Time;
  mr_finished_at : option Time;
  mr_failure_code : option string;
  mr_created_at : Time
}.

Definition RunTable : Type := list MaterializationRun.

Definition set_run (r : MaterializationRun) (status : MaterializationRunStatus) (started finished : option Time) (failure : option string) : MaterializationRun := {|
  mr_id := mr_id r; mr_dedupe_key := mr_dedupe_key r; mr_trigger_ref := mr_trigger_ref r; mr_status := status; mr_window_from := mr_window_from r;
  mr_window_to := mr_window_to r; mr_manifest_decodes := mr_manifest_decodes r; mr_started_at := started; mr_finished_at := finished; mr_failure_code := failure;
  mr_created_at := mr_created_at r |}.

(** [repo/postgres/control_factor.rs:963-968] `is_active_run_status`, also `is_active` of scheduler/mod.rs *)
Definition is_active (s : MaterializationRunStatus) : bool := match s with MrQueued | MrRunning => true | _ => false end.
(** [repo/postgres/control_factor.rs:970-979] `is_terminal_run_status` *)
Definition is_terminal_run (s : MaterializationRunStatus) : bool :=
  match s with MrCompleted | MrCompletedWithRejectedFactors | MrReportOnly | MrFailed | MrCancelled => true | MrQueued | MrRunning => false end.

(** ** Queries *)

(** [repo/postgres/control_factor.rs:79-88] `load_materialization_run_q` *)
Definition load_run (t : RunTable) (id : Z) : option MaterializationRun := List.find (fun r => mr_id r =? id) t.

(** [UPDATE .. WHERE id = .. AND status = ..]. *)
Definition update_run_where (t : RunTable) (id : Z) (expected : MaterializationRunStatus) (f : MaterializationRun -> MaterializationRun) : RunTable :=
  (fun r => if (mr_id r =? id) && bool_decide (mr_status r = expected) then f r else r) <$> t.

(** [models/domain/control_factor/persistence.rs:753-757] `AcquireMaterializationRunOutcome` *)
Inductive AcquireOutcome := Acquired (r : MaterializationRun) | AcNotQueued (r : MaterializationRun) | AcNotFound.
(** [models/domain/control_factor/persistence.rs:769-775] `RunTransitionOutcome` *)
Inductive RunTransitionOutcome := Transitioned (r : MaterializationRun) | InvalidTransition (current : MaterializationRunStatus) | TrNotFound.
(** [models/domain/control_factor/persistence.rs:778-782] `CancelMaterializationRunOutcome` *)
Inductive CancelOutcome := CnCancelled (r : MaterializationRun) | AlreadyTerminal (r : MaterializationRun) | CnNotFound.

(** The update that starts a run. *)
Definition start_update (t : RunTable) (id : Z) (started_at : Time) : RunTable :=
  update_run_where t id MrQueued (fun r => set_run r MrRunning (Some started_at) (mr_finished_at r) (mr_failure_code r)).

(** [repo/postgres/control_factor.rs:214-244] `try_acquire_materialization_run_q`: the first read on [t1], the update on [t2], the second read on [t3] *)
Definition try_acquire_q (t1 t2 t3 : RunTable) (id : Z) (started_at : Time) : AcquireOutcome * RunTable :=
  match load_run t1 id with
  | None => (AcNotFound, t2)
  | Some existing =>
      if negb (bool_decide (mr_status existing = MrQueued)) then (AcNotQueued existing, t2)
      else (match load_run t3 id with
            | None => AcNotFound
            | Some updated => if bool_decide (mr_status updated = MrRunning) then Acquired updated else AcNotQueued updated
            end, start_update t2 id started_at)
  end.

(** With no other transaction in between. *)
Definition try_acquire (t : RunTable) (id : Z) (started_at : Time) : AcquireOutcome * RunTable := try_acquire_q t t (start_update t id started_at) id started_at.

(** [models/domain/control_factor/persistence.rs:760-766] `MaterializationRunStatusPatch`, without the report *)
Record RunPatch := { rp_finished_at : option Time; rp_failure_code : option string }.

Definition or_else {A} (o d : option A) : option A := match o with Some _ => o | None => d end.

Definition transition_update (t : RunTable) (id : Z) (expected target : MaterializationRunStatus) (p : RunPatch) : RunTable :=
  update_run_where t id expected (fun r => set_run r target (mr_started_at r) (or_else (rp_finished_at p) (mr_finished_at r)) (or_else (rp_failure_code p) (mr_failure_code r))).

(** [repo/postgres/control_factor.rs:246-291] `transition_materialization_run_q` *)
Definition transition_q (t1 t2 t3 : RunTable) (id : Z) (expected target : MaterializationRunStatus) (p : RunPatch) : Result (RunTransitionOutcome * RunTable) string :=
  if bool_decide (target = MrFailed) && match rp_failure_code p with None => true | Some _ => false end
  then Err "failed materialization transition requires failure_code"
  else match load_run t1 id with
       | None => Ok (TrNotFound, t2)
       | Some existing =>
           if negb (bool_decide (mr_status existing = expected)) then Ok (InvalidTransition (mr_status existing), t2)
           else Ok (match load_run t3 id with None => TrNotFound | Some updated => Transitioned updated end, transition_update t2 id expected target p)
       end.
Definition transition (t : RunTable) (id : Z) (expected target : MaterializationRunStatus) (p : RunPatch) : Result (RunTransitionOutcome * RunTable) string :=
  transition_q t t (transition_update t id expected target p) id expected target p.

Definition retry_update (t : RunTable) (id : Z) (expected : MaterializationRunStatus) : RunTable :=
  update_run_where t id expected (fun r => set_run r MrQueued None None None).

(** [repo/postgres/control_factor.rs:293-335] `retry_materialization_run_q` *)
Definition retry_q (t1 t2 t3 : RunTable) (id : Z) : RunTransitionOutcome * RunTable :=
  match load_run t1 id with
  | None => (TrNotFound, t2)
  | Some existing =>
      match mr_status existing with
      | MrFailed | MrCancelled => (match load_run t3 id with None => TrNotFound | Some updated => Transitioned updated end, retry_update t2 id (mr_status existing))
      | s => (InvalidTransition s, t2)
      end
  end.
Definition retry (t : RunTable) (id : Z) : RunTransitionOutcome * RunTable :=
  retry_q t t (match load_run t id with Some r => retry_update t id (mr_status r) | None => t end) id.

Definition cancel_patch (cancelled_at : Time) : RunPatch := {| rp_finished_at := Some cancelled_at; rp_failure_code := Some "run.cancelled" |}.

(** [repo/postgres/control_factor.rs:337-376] `cancel_materialization_run_q`: its read on [t0], the transition on [t1], [t2] and [t3], its last read on [t4] *)
Definition cancel_q (t0 t1 t2 t3 t4 : RunTable) (id : Z) (cancelled_at : Time) : Result (CancelOutcome * RunTable) string :=
  match load_run t0 id with
  | None => Ok (CnNotFound, t2)
  | Some existing =>
      if is_terminal_run (mr_status existing) then Ok (AlreadyTerminal existing, t2)
      else match transition_q t1 t2 t3 id (mr_status existing) MrCancelled (cancel_patch cancelled_at) with
           | Err e => Err e
           | Ok (Transitioned r, t) => Ok (CnCancelled r, t)
           | Ok (InvalidTransition _, t) => Ok (match load_run t4 id with None => CnNotFound | Some r => AlreadyTerminal r end, t)
           | Ok (TrNotFound, t) => Ok (CnNotFound, t)
           end
  end.
Definition cancel_run_q (t : RunTable) (id : Z) (cancelled_at : Time) : Result (CancelOutcome * RunTable) string :=
  cancel_q t t t (match load_run t id with Some r => transition_update t id (mr_status r) MrCancelled (cancel_patch cancelled_at) | None => t end) t id cancelled_at.

(** [models/domain/control_factor/persistence.rs:746-750] `EnqueueMaterializationRunOutcome` *)
Inductive EnqueueOutcome := EnCreated (r : MaterializationRun) | DuplicateActive (r : MaterializationRun) | DuplicateCompleted (r : MaterializationRun).

Definition same_key (key : string) (r : MaterializationRun) : bool := bool_decide (mr_dedupe_key r = Some key).

(** [models/idens/control_factor_materialization_run.rs:221-228] `indexes`, the unique index on the keys that are there *)
Definition insert_run (t : RunTable) (r : MaterializationRun) : Result RunTable string :=
  if existsb (fun r' => mr_id r' =? mr_id r) t || match mr_dedupe_key r with Some key => existsb (same_key key) t | None => false end
  then Err "unique violation" else Ok (t ++ [r]).

Definition without_key (r : MaterializationRun) : MaterializationRun := {|
  mr_id := mr_id r; mr_dedupe_key := None; mr_trigger_ref := mr_trigger_ref r; mr_status := mr_status r; mr_window_from := mr_window_from r;
  mr_window_to := mr_window_to r; mr_manifest_decodes := mr_manifest_decodes r; mr_started_at := mr_started_at r; mr_finished_at := mr_finished_at r;
  mr_failure_code := mr_failure_code r; mr_created_at := mr_created_at r |}.

(** [repo/postgres/control_factor.rs:102-134] `enqueue_materialization_run_q`, with `find_materialization_run_by_dedupe_key_q`; the read on [t1] and the insert on [t2] *)
Definition enqueue_q (t1 t2 : RunTable) (run : MaterializationRun) (force_new_run : bool) (reason : option string) : Result (EnqueueOutcome * RunTable) string :=
  if force_new_run && blank (default EmptyString reason) then Err "force_new_run materialization enqueue requires a non-empty reason"
  else
    let insert := let run := if force_new_run then without_key run else run in let? t := insert_run t2 run in Ok (EnCreated run, t) in
    match mr_dedupe_key run with
    | Some key =>
        if force_new_run then insert
        else match List.find (same_key key) t1 with
             | Some existing => Ok (if is_active (mr_status existing) then DuplicateActive existing else DuplicateCompleted existing, t2)
             | None => insert
             end
    | None => insert
    end.

(** [repo/postgres/control_factor.rs:136-151] `latest_run_for_schedule_q`; no statuses are all of them *)
Definition latest_run_for_schedule (t : RunTable) (schedule_id : string) (statuses : list MaterializationRunStatus) : option MaterializationRun :=
  head (sort_by (fun a b => mr_created_at b <=? mr_created_at a)
    (List.filter (fun r => bool_decide (mr_trigger_ref r = Some schedule_id) && (match statuses with [] => true | _ => bool_decide (mr_status r ∈ statuses) end)) t)).

(** [repo/postgres/control_factor.rs:153-167] `list_queued_materialization_runs_q` *)
Definition list_queued_runs (t : RunTable) (limit : nat) : list Z :=
  take limit (mr_id <$> sort_by (fun a b => mr_created_at a <=? mr_created_at b) (List.filter (fun r => bool_decide (mr_status r = MrQueued)) t)).

(** ** Manifests *)

(** [control/materialization/manifest.rs:119-135] `ManifestBuilder::window`; the interval and the delay in nanoseconds and seconds *)
Definition manifest_window (trigger_time interval source_delay_secs : Z) : Result (Time * Time) string :=
  if interval <=? 0 then Err "materialization interval must be positive"
  else match to_i64 source_delay_secs with
       | None => Err "out of range integral type conversion attempted"
       | Some delay => let to := trigger_time - delay * 1000000000 in Ok (to - interval, to)
       end.

(** What a sealed manifest gives its row: the hasher answers the key unless a new run is forced. *)
Definition sealed_run (dedupe : Time * Time -> option string) (force_new_run : bool) (id : Z) (trigger_ref : string) (window : Time * Time) (created_at : Time) : MaterializationRun := {|
  mr_id := id; mr_dedupe_key := if force_new_run then None else dedupe window; mr_trigger_ref := Some trigger_ref; mr_status := MrQueued;
  mr_window_from := window.1; mr_window_to := window.2; mr_manifest_decodes := true; mr_started_at := None; mr_finished_at := None; mr_failure_code := None;
  mr_created_at := created_at |}.

(** [control/materialization/manifest.rs:80-117] `ManifestBuilder::build`, with `NewControlFactorMaterializationRun::try_from`: the row it becomes *)
Definition build_manifest (dedupe : Time * Time -> option string) (force_new_run : bool) (id : Z) (trigger_ref : string) (trigger_time interval source_delay_secs created_at : Z)
    : Result MaterializationRun string :=
  let? window := manifest_window trigger_time interval source_delay_secs in
  if negb (window.1 <? window.2) then Err "materialization window must have from < to"
  else match dedupe window with
       | None => if force_new_run then Ok (sealed_run dedupe true id trigger_ref window created_at) else Err "dedupe hash"
       | Some _ => Ok (sealed_run dedupe force_new_run id trigger_ref window created_at)
       end.

(** [core/control/replay.rs:75-140] `CoreReplay::enqueue`: the row answered and whether it is new *)
Definition replay_enqueue (dedupe : Time * Time -> option string) (t : RunTable) (id : Z) (request_id : string) (from to : Time) (force_new_run : bool) (created_at : Time)
    : Result (MaterializationRun * bool * RunTable) string :=
  let interval := to - from in
  if interval <=? 0 then Err "replay window must have from < to"
  else
    let? run := build_manifest dedupe force_new_run id request_id to interval 0 created_at in
    let? out := enqueue_q t t run force_new_run None in
    match out with
    | (EnCreated r, t) => Ok (r, true, t)
    | (DuplicateActive r, t) | (DuplicateCompleted r, t) => Ok (r, false, t)
    end.

(** ** The scheduler *)

(** [control/scheduler/policy.rs:76-80] `ScheduleInactiveReason` *)
Inductive ScheduleInactiveReason := UnsupportedExecutionMode | LiveOnlyEvidence | EvidenceWarmup.

(** [control/scheduler/policy.rs:30-58] `ScheduledMaterialization`, what a tick and the resolver read, with its `ScheduleActivation` as the reason of an
    inactive task *)
Record ScheduledMaterialization := {
  tk_schedule_id : string; tk_cadence : Z; tk_source_delay_secs : Z; tk_factor_types : list ControlFactorType; tk_market_ids : list MarketId; tk_event_ids : list string;
  tk_data_requirements : DataRequirements; tk_replay_account_scope : option string; tk_inactive : option ScheduleInactiveReason
}.

(** [control/scheduler/policy.rs:204-214] `live_only_activation` *)
Definition live_only_activation (mode : ExecutionMode) (reason : ScheduleInactiveReason) : option ScheduleInactiveReason :=
  match mode with Live => None | DryRun | Paper => Some reason end.

Definition hours (n : Z) : Z := n * 3600 * 1000000000.

(** [control/scheduler/policy.rs:216-223] `data_requirements` *)
Definition data_requirements (required : list RequiredInputDomain) : DataRequirements := {|
  dr_required_inputs := required; dr_production_required_inputs := required; dr_has_min_l2_coverage := false; dr_require_settlement_truth := false |}.
(** [control/scheduler/policy.rs:225-230] `settlement_data_requirements` *)
Definition settlement_data_requirements (required : list RequiredInputDomain) : DataRequirements := {|
  dr_required_inputs := required; dr_production_required_inputs := required; dr_has_min_l2_coverage := false; dr_require_settlement_truth := true |}.

(** [control/scheduler/policy.rs:109-201] `SchedulePolicy::for_mode`, its tasks; their market filter is the empty default *)
Definition schedule_for_mode (mode : ExecutionMode) : list ScheduledMaterialization :=
  let task id cadence types requirements inactive := {|
    tk_schedule_id := id; tk_cadence := cadence; tk_source_delay_secs := 900; tk_factor_types := types; tk_market_ids := []; tk_event_ids := [];
    tk_data_requirements := requirements; tk_replay_account_scope := None; tk_inactive := inactive |} in
  [task "execution-quality-hourly" (hours 1) [ExecutionQuality] (data_requirements [DoRuntimeConfig; DoTrades; DoCalibrationSnapshots]) None;
   task "reconciliation-health-hourly" (hours 1) [ReconciliationHealth] (data_requirements [DoRuntimeConfig; DoReconciliationStatus; DoBalanceSnapshot])
     (live_only_activation mode LiveOnlyEvidence);
   task "bucket-risk-daily" (hours 24) [BucketRisk] (settlement_data_requirements [DoRuntimeConfig; DoTrades; DoPositions; DoSettlementTruth]) None;
   task "portfolio-risk-daily" (hours 24) [PortfolioRisk] (settlement_data_requirements [DoRuntimeConfig; DoPositions; DoRiskState; DoSettlementTruth])
     (live_only_activation mode EvidenceWarmup)].

(** [control/scheduler/mod.rs:243-271] `seal_manifest`, what the resolver reads of it, with the window of the row *)
Definition scheduled_inputs (task : ScheduledMaterialization) (config : RuntimeConfigRef) (window : Time * Time) : InputManifest := {|
  im_window_from := window.1; im_window_to := window.2; im_market_ids := tk_market_ids task; im_event_ids := tk_event_ids task;
  im_replay_account_scope := tk_replay_account_scope task; im_data_requirements := tk_data_requirements task; im_runtime_config_ref := config |}.

(** [core/control/replay.rs:55-70] `CoreReplay::data_requirements` *)
Definition replay_requirements : DataRequirements :=
  data_requirements [DoTokenMapping; DoRuntimeConfig; DoCalibrationSnapshots; DoFeeSchedule; DoTrades; DoPositions].

(** [core/control/replay.rs:86-111] `CoreReplay::enqueue`, the manifest that the resolver reads; the configuration is the one active at the end of the window *)
Definition replay_inputs (market_ids : list MarketId) (event_ids : list string) (account_scope : option string) (from to : Time) : InputManifest := {|
  im_window_from := from; im_window_to := to; im_market_ids := market_ids; im_event_ids := event_ids; im_replay_account_scope := account_scope;
  im_data_requirements := replay_requirements; im_runtime_config_ref := RcActiveAt to |}.

(** [control/scheduler/policy.rs:246-248] `is_due` *)
Definition is_due (now : Time) (last_run_at : option Time) (cadence : Z) : bool := match last_run_at with None => true | Some last => cadence <=? now - last end.

(** [control/scheduler/policy.rs:256-266] `staleness`, whether there is any *)
Definition is_stale (now : Time) (last_success_at : option Time) (cadence : Z) : bool :=
  match last_success_at with None => true | Some last => cadence * 2 <? now - last end.

(** [control/scheduler/policy.rs:271-273] `is_overdue` *)
Definition is_overdue (now last_run_at : Time) (cadence : Z) : bool := cadence * 2 <? now - last_run_at.

(** [control/scheduler/policy.rs:277-279] `staleness_threshold_secs` *)
Definition staleness_threshold_secs (cadence : Z) : Z := unwrap_or (to_u64 ((cadence * 2) ÷ 1000000000)) 0.

(** [control/scheduler/mod.rs:51-73] `ScheduleOutcome` *)
Inductive ScheduleOutcome :=
| SoEnqueued (schedule_id : string) (run_id : Z) | SoDuplicateActive (schedule_id : string) (run_id : Z) | SoNotDue (schedule_id : string)
| SoInactive (schedule_id : string) (reason : ScheduleInactiveReason) | SoBuildFailed (schedule_id : string).

(** [control/scheduler/mod.rs:80-92] `ScheduleAlert` *)
Inductive ScheduleAlert := Overdue (schedule_id : string) (last_run_at : Time) | StaleSchedule (schedule_id : string) (last_success_at : option Time) (threshold_secs : Z).

(** [control/scheduler/mod.rs:43-47] `SUCCESS_STATUSES` *)
Definition SUCCESS_STATUSES : list MaterializationRunStatus := [MrCompleted; MrCompletedWithRejectedFactors; MrReportOnly].

(** [control/scheduler/mod.rs:271-301] `collect_alerts` *)
Definition collect_alerts (t : RunTable) (task : ScheduledMaterialization) (now : Time) (last_run_at : option Time) : list ScheduleAlert :=
  let last_success_at := (fun r => unwrap_or (mr_finished_at r) (mr_created_at r)) <$> latest_run_for_schedule t (tk_schedule_id task) SUCCESS_STATUSES in
  match last_run_at with
  | None => []
  | Some last =>
      (if is_stale now last_success_at (tk_cadence task)
       then [StaleSchedule (tk_schedule_id task) last_success_at (staleness_threshold_secs (tk_cadence task))] else [])
      ++ (if is_overdue now last (tk_cadence task) then [Overdue (tk_schedule_id task) last] else [])
  end.

(** [control/scheduler/mod.rs:192-241] `enqueue_due`, with `seal_manifest` *)
Definition enqueue_due (dedupe : string -> Time * Time -> option string) (t : RunTable) (task : ScheduledMaterialization) (id : Z) (now created_at : Time)
    : Result (ScheduleOutcome * RunTable) string :=
  let schedule := tk_schedule_id task in
  match build_manifest (dedupe schedule) false id schedule now (tk_cadence task) (tk_source_delay_secs task) created_at with
  | Err _ => Ok (SoBuildFailed schedule, t)
  | Ok run =>
      let? out := enqueue_q t t run false None in
      match out with
      | (EnCreated r, t) => Ok (SoEnqueued schedule (mr_id r), t)
      | (DuplicateActive r, t) => Ok (SoDuplicateActive schedule (mr_id r), t)
      | (DuplicateCompleted _, t) => Ok (SoNotDue schedule, t)
      end
  end.

(** [control/scheduler/mod.rs:150-190] `tick`, one task, with the identifier and the creation time of a new row *)
Definition tick_task (dedupe : string -> Time * Time -> option string) (t : RunTable) (task : ScheduledMaterialization) (id : Z) (now created_at : Time)
    : Result (ScheduleOutcome * list ScheduleAlert * RunTable) string :=
  let schedule := tk_schedule_id task in
  match tk_inactive task with
  | Some reason => Ok (SoInactive schedule reason, [], t)
  | None =>
      let latest := latest_run_for_schedule t schedule [] in
      let last_run_at := mr_created_at <$> latest in
      let? out :=
        match latest with
        | Some r => if is_active (mr_status r) then Ok (SoDuplicateActive schedule (mr_id r), t)
                    else if is_due now last_run_at (tk_cadence task) then enqueue_due dedupe t task id now created_at else Ok (SoNotDue schedule, t)
        | None => if is_due now last_run_at (tk_cadence task) then enqueue_due dedupe t task id now created_at else Ok (SoNotDue schedule, t)
        end in
      Ok (out.1, collect_alerts out.2 task now last_run_at, out.2)
  end.

(** [control/scheduler/mod.rs:150-190] `MaterializationScheduler::tick` *)
Fixpoint tick (dedupe : string -> Time * Time -> option string) (t : RunTable) (tasks : list ScheduledMaterialization) (ids : nat -> Z) (now created_at : Time)
    : Result (list ScheduleOutcome * list ScheduleAlert * RunTable) string :=
  match tasks with
  | [] => Ok ([], [], t)
  | task :: rest =>
      let? one := tick_task dedupe t task (ids 0%nat) now created_at in
      let? more := tick dedupe one.2 rest (fun n => ids (S n)) now created_at in
      Ok (one.1.1 :: more.1.1, one.1.2 ++ more.1.2, more.2)
  end.

(** ** Facts of the queries *)

(** What a query never changes of a row. *)
Definition same_run (r r' : MaterializationRun) : Prop :=
  mr_id r' = mr_id r /\ mr_dedupe_key r' = mr_dedupe_key r /\ mr_trigger_ref r' = mr_trigger_ref r /\ mr_window_from r' = mr_window_from r /\
  mr_window_to r' = mr_window_to r /\ mr_manifest_decodes r' = mr_manifest_decodes r /\ mr_created_at r' = mr_created_at r.

(** The edges of a run's life. *)
Inductive run_edge : MaterializationRunStatus -> MaterializationRunStatus -> Prop :=
| edge_start : run_edge MrQueued MrRunning
| edge_complete s : s ∈ SUCCESS_STATUSES -> run_edge MrRunning s
| edge_fail : run_edge MrRunning MrFailed
| edge_cancel s : is_active s = true -> run_edge s MrCancelled
| edge_retry_failed : run_edge MrFailed MrQueued
| edge_retry_cancelled : run_edge MrCancelled MrQueued.

(** What a status says of the other columns. *)
Definition row_ok (r : MaterializationRun) : Prop :=
  match mr_status r with
  | MrQueued => mr_started_at r = None /\ mr_finished_at r = None /\ mr_failure_code r = None
  | MrRunning => is_Some (mr_started_at r) /\ mr_finished_at r = None /\ mr_failure_code r = None
  | MrCompleted | MrCompletedWithRejectedFactors | MrReportOnly => is_Some (mr_started_at r) /\ is_Some (mr_finished_at r) /\ mr_failure_code r = None
  | MrFailed => is_Some (mr_started_at r) /\ is_Some (mr_finished_at r) /\ is_Some (mr_failure_code r)
  | MrCancelled => is_Some (mr_finished_at r) /\ mr_failure_code r = Some "run.cancelled"
  end.

Record table_ok (t : RunTable) : Prop := {
  to_rows : Forall row_ok t;
  to_ids : NoDup (mr_id <$> t);
  to_keys : forall i j r r' key, t !! i = Some r -> t !! j = Some r' -> mr_dedupe_key r = Some key -> mr_dedupe_key r' = Some key -> i = j
}.

(** A row that a manifest becomes. *)
Definition new_run (r : MaterializationRun) : Prop := mr_status r = MrQueued /\ mr_started_at r = None /\ mr_finished_at r = None /\ mr_failure_code r = None.

(** What [complete_run] and [fail_run] write. *)
Definition runner_patch (target : MaterializationRunStatus) (p : RunPatch) : Prop :=
  is_Some (rp_finished_at p) /\ ((target ∈ SUCCESS_STATUSES /\ rp_failure_code p = None) \/ (target = MrFailed /\ is_Some (rp_failure_code p))).

(** One update, by a query whose reads may have found any other table. *)
Inductive run_step (t : RunTable) : RunTable -> Prop :=
| step_enqueue t1 run force reason o t' : new_run run -> enqueue_q t1 t run force reason = Ok (o, t') -> run_step t t'
| step_acquire t1 t3 id started_at : run_step t (try_acquire_q t1 t t3 id started_at).2
| step_finish t1 t3 id target p o t' : runner_patch target p -> transition_q t1 t t3 id MrRunning target p = Ok (o, t') -> run_step t t'
| step_cancel t0 t1 t3 t4 id cancelled_at o t' : cancel_q t0 t1 t t3 t4 id cancelled_at = Ok (o, t') -> run_step t t'
| step_retry t1 t3 id : run_step t (retry_q t1 t t3 id).2.

(** The updates themselves. *)
Inductive run_update (t : RunTable) : RunTable -> Prop :=
| up_none : run_update t t
| up_insert r t' : new_run r -> insert_run t r = Ok t' -> run_update t t'
| up_row id expected target started finished failure :
    run_edge expected target ->
    (forall r, mr_status r = expected -> row_ok r -> row_ok (set_run r target (started r) (finished r) (failure r))) ->
    run_update t (update_run_where t id expected (fun r => set_run r target (started r) (finished r) (failure r))).

Lemma transition_updates t1 t2 t3 id expected target p o t' : transition_q t1 t2 t3 id expected target p = Ok (o, t') ->
  t' = t2 \/ t' = transition_update t2 id expected target p.
Proof.
  unfold transition_q. destruct (bool_decide _ && _); [done|]. destruct (load_run t1 id) as [r|]; [|intros [= <- <-]; by left].
  destruct (negb _); intros [= <- <-]; [by left | by right].
Qed.

Lemma active_or_terminal s : is_terminal_run s = false -> is_active s = true.
Proof. by destruct s. Qed.

Lemma transition_up t id expected target p : run_edge expected target ->
  (forall r, mr_status r = expected -> row_ok r -> row_ok (set_run r target (mr_started_at r) (or_else (rp_finished_at p) (mr_finished_at r)) (or_else (rp_failure_code p) (mr_failure_code r)))) ->
  run_update t (transition_update t id expected target p).
Proof. intros He Hr. unfold transition_update. by apply (up_row t id expected target mr_started_at (fun r => or_else _ _) (fun r => or_else _ _)). Qed.

Lemma cancel_updates t0 t1 t2 t3 t4 id at_ o t' : cancel_q t0 t1 t2 t3 t4 id at_ = Ok (o, t') -> run_update t2 t'.
Proof.
  unfold cancel_q. destruct (load_run t0 id) as [r|]; [|intros [= <- <-]; constructor]. destruct (is_terminal_run (mr_status r)) eqn:E; [intros [= <- <-]; constructor|].
  destruct (transition_q _ _ _ _ _ _ _) as [[x t]|e] eqn:T; [|done]. intros H. assert (t = t') as -> by (destruct x; congruence).
  apply transition_updates in T as [->| ->]; [constructor|]. apply transition_up; [constructor; by apply active_or_terminal|].
  intros r' _ _. done.
Qed.

Lemma step_update t t' : run_step t t' -> run_update t t'.
Proof.
  intros [t1 run force reason o t'' Hn H | t1 t3 id at_ | t1 t3 id target p o t'' [Hf Hp] H | t0 t1 t3 t4 id at_ o t'' H | t1 t3 id].
  - unfold enqueue_q in H. destruct (force && _); [done|]. cbv zeta in H.
    assert (forall x, (let? t := insert_run t (if force then without_key run else run) in Ok (EnCreated (if force then without_key run else run), t)) = Ok x ->
      run_update t x.2) as Hi.
    { intros x. destruct (insert_run _ _) as [t2|] eqn:E; [|done]. intros [= <-]. eapply up_insert; [|exact E]. by destruct force. }
    destruct (mr_dedupe_key run), force; try (by apply (Hi _ H)). destruct (List.find _ _); [|by apply (Hi _ H)]. injection H as _ <-. constructor.
  - unfold try_acquire_q. destruct (load_run t1 id) as [r|]; [|constructor]. destruct (negb _); [constructor|]. cbn [snd]. unfold start_update.
    apply (up_row t id MrQueued MrRunning (fun _ => Some at_) mr_finished_at mr_failure_code); [constructor|].
    intros r' Hs. unfold row_ok. rewrite Hs. cbn. by intros (_ & -> & ->).
  - apply transition_updates in H as [->| ->]; [constructor|]. apply transition_up; [destruct Hp as [[? _]|[-> _]]; by constructor|].
    intros r Hs Hr. unfold row_ok in Hr. rewrite Hs in Hr. destruct Hr as (H1 & H2 & H3). destruct Hf as [x Hx]. rewrite H2, H3, Hx. unfold row_ok. cbn.
    destruct Hp as [[Ht Hc]|[-> [c Hc]]]; rewrite Hc; cbn; [|by eauto]. unfold SUCCESS_STATUSES in Ht. rewrite !elem_of_cons in Ht.
    destruct Ht as [->|[->|[->|Ht]]]; [by eauto..|]. by apply not_elem_of_nil in Ht.
  - by eapply cancel_updates.
  - unfold retry_q. destruct (load_run t1 id) as [r|]; [|constructor]. unfold retry_update.
    destruct (mr_status r); cbn [snd]; try apply up_none; apply (up_row t id _ MrQueued (fun _ => None) (fun _ => None) (fun _ => None)); try constructor; done.
Qed.

(** *** The invariant *)

Lemma update_run_where_lookup t id expected f i : update_run_where t id expected f !! i = (fun r => if (mr_id r =? id) && bool_decide (mr_status r = expected) then f r else r) <$> t !! i.
Proof. apply list_lookup_fmap. Qed.

Lemma load_run_in t id r : load_run t id = Some r -> r ∈ t /\ mr_id r = id.
Proof. intros H. apply find_some in H as [? E]. rewrite list_elem_of_In. split; [done | lia]. Qed.

Lemma insert_run_ok t r t' : insert_run t r = Ok t' ->
  t' = t ++ [r] /\ (forall r', r' ∈ t -> mr_id r' <> mr_id r) /\ (forall key r', mr_dedupe_key r = Some key -> r' ∈ t -> mr_dedupe_key r' <> Some key).
Proof.
  unfold insert_run. destruct (_ || _) eqn:E; [done|]. intros [= <-]. apply orb_false_iff in E as [E1 E2]. split; [done|]. split.
  - intros r' Hin Heq. assert (existsb (fun r' => mr_id r' =? mr_id r) t = true); [|congruence]. apply existsb_exists. exists r'. by rewrite <- list_elem_of_In, Z.eqb_eq.
  - intros key r' Hk Hin Heq. rewrite Hk in E2. assert (existsb (same_key key) t = true); [|congruence]. apply existsb_exists. exists r'. rewrite <- list_elem_of_In.
    split; [done|]. by apply bool_decide_eq_true.
Qed.

Lemma set_run_same r s a b c : same_run r (set_run r s a b c).
Proof. done. Qed.
Lemma same_run_refl r : same_run r r.
Proof. done. Qed.

(** Every row stays, as the same run, where it was or along an edge. *)
Lemma update_rows t t' i r : run_update t t' -> t !! i = Some r ->
  exists r', t' !! i = Some r' /\ same_run r r' /\ (r' = r \/ run_edge (mr_status r) (mr_status r')).
Proof.
  intros [|x t'' Hn H|id expected target st fi fa He _] Hi.
  - exists r. by auto using same_run_refl.
  - apply insert_run_ok in H as [-> _]. exists r. split; [by apply lookup_app_l_Some|]. by auto using same_run_refl.
  - rewrite update_run_where_lookup, Hi. cbn. eexists. split; [done|]. destruct (_ && _) eqn:E; [|by auto using same_run_refl].
    apply andb_true_iff in E as [_ E]. apply bool_decide_eq_true in E. split; [apply set_run_same|]. right. cbn. congruence.
Qed.

Lemma update_ok t t' : run_update t t' -> table_ok t -> table_ok t'.
Proof.
  intros [|x t'' (Hq & Hs & Hf & Hc) H|id expected target st fi fa _ Hr] [H1 H2 H3]; [done|..].
  - apply insert_run_ok in H as (-> & Hid & Hkey). constructor.
    + apply Forall_app. split; [done|]. constructor; [|done]. unfold row_ok. by rewrite Hq.
    + rewrite fmap_app. apply NoDup_app. split; [done|]. split; [|apply NoDup_singleton]. intros y (r & -> & Hin)%list_elem_of_fmap.
      cbn. rewrite list_elem_of_singleton. by apply Hid.
    + assert (forall i r key, (t ++ [x]) !! i = Some r -> mr_dedupe_key r = Some key -> (t !! i = Some r) \/ (i = length t /\ mr_dedupe_key x = Some key)) as Hc'.
      { intros i r key Hi Hk. apply lookup_app_Some in Hi as [?|[Hl Hi]]; [by left|]. apply list_lookup_singleton_Some in Hi as [Hi <-]. right. split; [lia | done]. }
      intros i j r r' key Hi Hj Hk Hk'. apply (Hc' i r key) in Hi as [Hi|[-> Hx]]; [..|done]; apply (Hc' j r' key) in Hj as [Hj|[-> Hx']]; try done.
      * by eapply H3.
      * destruct (Hkey key r); [done | by eapply list_elem_of_lookup_2 | done].
      * destruct (Hkey key r'); [done | by eapply list_elem_of_lookup_2 | done].
  - constructor.
    + apply Forall_fmap. eapply Forall_impl; [exact H1|]. intros r Hrow. cbn. destruct (_ && _) eqn:E; [|done].
      apply andb_true_iff in E as [_ E]. apply bool_decide_eq_true in E. by apply Hr.
    + assert (mr_id <$> update_run_where t id expected (fun r => set_run r target (st r) (fi r) (fa r)) = mr_id <$> t) as ->; [|done].
      unfold update_run_where. rewrite <- list_fmap_compose. apply list_fmap_ext. intros i r _. cbn. by destruct (_ && _).
    + intros i j r r' key Hi Hj Hk Hk'. rewrite update_run_where_lookup in Hi, Hj.
      apply fmap_Some in Hi as (a & Hi & ->). apply fmap_Some in Hj as (b & Hj & ->). apply (H3 i j a b key); [done..| |].
      * by destruct (_ && _) in Hk.
      * by destruct (_ && _) in Hk'.
Qed.

Lemma empty_ok : table_ok [].
Proof. constructor; [done | constructor|]. by intros i j r r' key. Qed.

(** C35: However the enqueueing, acquiring, finishing, cancelling and retrying of runs interleave, each reading
    tables that are already out of date when it updates: every row's columns agree with its status, identifiers and keys are unique,
    and a step keeps every row, as the same run, where it is or moves it along an edge of its life. *)
Theorem runs_follow_lifecycle (t t' : RunTable) : rtc run_step [] t -> run_step t t' ->
  table_ok t' /\
  forall i r, t !! i = Some r -> exists r', t' !! i = Some r' /\ same_run r r' /\ (r' = r \/ run_edge (mr_status r) (mr_status r')).
Proof.
  intros Hr Hs. apply step_update in Hs. split; [|intros i r; by apply update_rows]. apply (update_ok t); [done|]. clear Hs.
  cut (forall u, rtc run_step u t -> table_ok u -> table_ok t); [intros H; by eapply H, empty_ok|]. intros u Hu. clear Hr. induction Hu as [u|u v w Huv _ IH]; [done|].
  intros Hok. apply IH. by apply (update_ok u); [apply step_update|].
Qed.

(** *** Starting a run *)

Lemma update_run_where_load t id expected f : (forall r, mr_id (f r) = mr_id r) ->
  load_run (update_run_where t id expected f) id = (fun r => if bool_decide (mr_status r = expected) then f r else r) <$> load_run t id.
Proof.
  intros Hf. unfold load_run, update_run_where. induction t as [|r t IH]; [done|]. cbn. destruct (mr_id r =? id) eqn:E; cbn.
  - destruct (bool_decide _); rewrite ?Hf, E; done.
  - rewrite E. apply IH.
Qed.

(** With nothing in between, a queued run is acquired, as running since then, and once acquired nobody
    acquires it again. *)
Theorem acquired_once (t t' : RunTable) (id : Z) (at_ : Time) (r : MaterializationRun) :
  try_acquire t id at_ = (Acquired r, t') ->
  (exists q, load_run t id = Some q /\ mr_status q = MrQueued /\ r = set_run q MrRunning (Some at_) (mr_finished_at q) (mr_failure_code q)) /\
  load_run t' id = Some r /\ forall at2, try_acquire t' id at2 = (AcNotQueued r, t').
Proof.
  unfold try_acquire, try_acquire_q. destruct (load_run t id) as [q|] eqn:E; [|done]. case_bool_decide as Hq; cbn [negb]; [|by intros [=]].
  unfold start_update. rewrite update_run_where_load, E by done. cbn [fmap option_fmap option_map]. rewrite (bool_decide_eq_true_2 (mr_status q = MrQueued)) by done.
  intros [= <- <-]. split; [by eauto|]. rewrite update_run_where_load, E by done. cbn [fmap option_fmap option_map].
  rewrite (bool_decide_eq_true_2 (mr_status q = MrQueued)) by done. split; [done|]. by intros at2.
Qed.

(** *** Replays *)

(** A replay that asks for a new run is refused, whatever it asks: the enqueue query wants a reason and is
    given none. *)
Theorem forced_replay_always_fails dedupe (t : RunTable) (id : Z) (request_id : string) (from to created_at : Time) :
  is_ok (replay_enqueue dedupe t id request_id from to true created_at) = false.
Proof.
  unfold replay_enqueue. destruct (_ <=? 0); [done|]. by destruct (build_manifest _ _ _ _ _ _ _ _).
Qed.

Lemma find_same_key_app t r key : mr_dedupe_key r = Some key -> List.find (same_key key) t = None -> List.find (same_key key) (t ++ [r]) = Some r.
Proof.
  intros Hk. induction t as [|a t IH]; cbn.
  - unfold same_key. by rewrite bool_decide_eq_true_2.
  - destruct (same_key key a); [done | apply IH].
Qed.

(** A replay that was answered is answered the same run when it is asked again, with nothing inserted. *)
Theorem replay_is_idempotent dedupe (t t' : RunTable) (id id' : Z) (request_id : string) (from to created_at created_at' : Time) (r : MaterializationRun) (created : bool) :
  replay_enqueue dedupe t id request_id from to false created_at = Ok (r, created, t') ->
  replay_enqueue dedupe t' id' request_id from to false created_at' = Ok (r, false, t').
Proof.
  unfold replay_enqueue. destruct (to - from <=? 0); [done|]. unfold build_manifest. destruct (manifest_window _ _ _) as [w|]; [|done]. cbn beta iota.
  destruct (negb _); [done|]. destruct (dedupe w) as [key|] eqn:Ek; [|done]. cbn beta iota. unfold enqueue_q, sealed_run. cbn [andb mr_dedupe_key]. rewrite Ek.
  destruct (List.find (same_key key) t) as [e|] eqn:Ef.
  - destruct (is_active (mr_status e)) eqn:Ea; cbn beta iota; intros [= <- <- <-]; rewrite Ef, Ea; done.
  - destruct (insert_run _ _) as [u|] eqn:Ei; [|done]. cbn beta iota. intros [= <- <- <-]. apply insert_run_ok in Ei as [-> _].
    rewrite (find_same_key_app _ _ key) by done. done.
Qed.

(** *** Schedules *)

Definition schedule_rows (schedule_id : string) (t : RunTable) : list MaterializationRun := List.filter (fun r => bool_decide (mr_trigger_ref r = Some schedule_id)) t.

(** The windows of a schedule's runs, in the order they were inserted, with the time of the insertion. *)
Definition windows (schedule_id : string) (t : RunTable) : list (Time * Time * Time) :=
  (fun r => (mr_window_from r, mr_window_to r, mr_created_at r)) <$> schedule_rows schedule_id t.

Definition newest_first (a b : MaterializationRun) : bool := mr_created_at b <=? mr_created_at a.

Lemma latest_spec t s : match latest_run_for_schedule t s [] with
  | Some l => l ∈ schedule_rows s t /\ forall r, r ∈ schedule_rows s t -> mr_created_at r <= mr_created_at l
  | None => schedule_rows s t = [] end.
Proof.
  unfold latest_run_for_schedule. assert (List.filter (fun r => bool_decide (mr_trigger_ref r = Some s) && true) t = schedule_rows s t) as ->.
  { apply filter_ext. intros r. apply andb_true_r. }
  assert (StronglySorted (fun a b => newest_first a b = true) (sort_by newest_first (schedule_rows s t))) as Hs.
  { apply sort_by_sorted; unfold newest_first; lia. }
  pose proof (sort_by_perm newest_first (schedule_rows s t)) as Hp. fold newest_first. destruct (sort_by newest_first (schedule_rows s t)) as [|l rest]; cbn.
  - by apply Permutation_nil in Hp.
  - apply StronglySorted_inv in Hs as [_ Hs]. rewrite Forall_forall in Hs. split; [rewrite <- Hp; constructor|]. intros r Hr. rewrite <- Hp in Hr.
    apply elem_of_cons in Hr as [->|Hr]; [lia|]. apply Hs in Hr. unfold newest_first in Hr. lia.
Qed.

Lemma build_manifest_ok dedupe force id ref now interval delay created r : build_manifest dedupe force id ref now interval delay created = Ok r ->
  0 < interval /\ mr_id r = id /\ mr_trigger_ref r = Some ref /\ mr_window_to r = now - delay * 1000000000 /\ mr_window_from r = mr_window_to r - interval /\
  mr_created_at r = created /\ new_run r.
Proof.
  unfold build_manifest, manifest_window. destruct (interval <=? 0) eqn:E; [done|]. unfold to_i64, checked. destruct (_ && _); [|done].
  cbn beta iota. destruct (negb _); [done|]. destruct (dedupe _) as [key|], force; try done; intros [= <-]; cbn; split_and!; try done; lia.
Qed.

(** A tick of the schedule inserts a run when the schedule is active, it has no run that is active, and a cadence has gone by since the
    last one. *)
Lemma tick_task_changes dedupe t task id now created o alerts t' : tick_task dedupe t task id now created = Ok (o, alerts, t') ->
  t' = t \/ exists r, t' = t ++ [r] /\ 0 < tk_cadence task /\ mr_trigger_ref r = Some (tk_schedule_id task) /\ mr_window_to r = now - tk_source_delay_secs task * 1000000000 /\
    mr_window_from r = mr_window_to r - tk_cadence task /\ mr_created_at r = created /\
    forall r', r' ∈ schedule_rows (tk_schedule_id task) t -> mr_created_at r' <= now - tk_cadence task.
Proof.
  unfold tick_task. destruct (tk_inactive task); [intros [= <- <- <-]; by left|]. cbv zeta. pose proof (latest_spec t (tk_schedule_id task)) as Hl.
  set (enq := enqueue_due dedupe t task id now created).
  assert (forall x, enq = Ok x -> x.2 = t \/ exists r, x.2 = t ++ [r] /\ 0 < tk_cadence task /\ mr_trigger_ref r = Some (tk_schedule_id task) /\
    mr_window_to r = now - tk_source_delay_secs task * 1000000000 /\ mr_window_from r = mr_window_to r - tk_cadence task /\ mr_created_at r = created) as He.
  { intros x. subst enq. unfold enqueue_due. destruct (build_manifest _ _ _ _ _ _ _ _) as [r|] eqn:Eb; [|intros [= <-]; by left].
    apply build_manifest_ok in Eb as (H1 & H2 & H3 & H4 & H5 & H6 & _). unfold enqueue_q. cbn [andb].
    assert (forall y, (let? t := insert_run t r in Ok (EnCreated r, t)) = Ok y -> y.2 = t ++ [r] /\ y.1 = EnCreated r) as Hi.
    { intros y. destruct (insert_run t r) as [u|] eqn:Ei; [|done]. apply insert_run_ok in Ei as [-> _]. by intros [= <-]. }
    destruct (mr_dedupe_key r); [destruct (List.find _ _) as [e|]|];
      [destruct (is_active _); intros [= <-]; by left|destruct (insert_run t r) as [u|]; [|done]..]; specialize (Hi _ eq_refl) as [Hu _]; cbn in Hu; subst u;
      intros [= <-]; right; exists r; by split_and!. }
  clearbody enq. assert (is_due now None (tk_cadence task) = true) as Hn by done.
  destruct (latest_run_for_schedule t (tk_schedule_id task) []) as [l|]; cbn [fmap option_fmap option_map].
  - destruct Hl as [_ Hl]. destruct (is_active _); [intros [= <- <- <-]; by left|]. destruct (is_due now (Some (mr_created_at l)) (tk_cadence task)) eqn:Ed; [|intros [= <- <- <-]; by left].
    destruct enq as [x|]; [|done]. intros [= <- <- <-]. destruct (He _ eq_refl) as [->|(r & -> & H)]; [by left|]. right. exists r. split; [done|].
    destruct H as (? & ? & ? & ? & ?). split_and!; try done. intros r' Hr. apply Hl in Hr. unfold is_due in Ed. lia.
  - rewrite Hn. destruct enq as [x|]; [|done]. intros [= <- <- <-]. destruct (He _ eq_refl) as [->|(r & -> & H)]; [by left|]. right. exists r. split; [done|].
    destruct H as (? & ? & ? & ? & ?). split_and!; try done. rewrite Hl. intros r' Hr. by apply not_elem_of_nil in Hr.
Qed.

(** A schedule's table, from the empty one, by its ticks, whose runs are written after the trigger, and by anything that leaves its windows. *)
Inductive schedule_history (dedupe : string -> Time * Time -> option string) (task : ScheduledMaterialization) : RunTable -> Prop :=
| sh_empty : schedule_history dedupe task []
| sh_other t t' : schedule_history dedupe task t -> windows (tk_schedule_id task) t' = windows (tk_schedule_id task) t -> schedule_history dedupe task t'
| sh_tick t id now created o alerts t' : schedule_history dedupe task t -> now <= created -> tick_task dedupe t task id now created = Ok (o, alerts, t') ->
    schedule_history dedupe task t'.

Definition windows_ok (task : ScheduledMaterialization) (ws : list (Time * Time * Time)) : Prop :=
  (forall f w c, (f, w, c) ∈ ws -> f = w - tk_cadence task /\ 0 < tk_cadence task /\ w + tk_source_delay_secs task * 1000000000 <= c) /\
  (forall i j x y, (i < j)%nat -> ws !! i = Some x -> ws !! j = Some y -> x.1.2 <= y.1.1).

Lemma history_windows dedupe task t : schedule_history dedupe task t -> windows_ok task (windows (tk_schedule_id task) t).
Proof.
  induction 1 as [|t t' _ IH E|t id now created o alerts t' _ [IH1 IH2] Hle H].
  - split; [intros f w c Hin; by apply not_elem_of_nil in Hin | done].
  - by rewrite E.
  - apply tick_task_changes in H as [->|(r & -> & Hc & Hr & Hw & Hf & Ha & Hl)]; [done|].
    assert (windows (tk_schedule_id task) (t ++ [r]) = windows (tk_schedule_id task) t ++ [(mr_window_from r, mr_window_to r, mr_created_at r)]) as ->.
    { unfold windows, schedule_rows. rewrite List.filter_app, fmap_app. cbn. by rewrite bool_decide_eq_true_2. }
    split.
    + intros f w c [Hin|Hin]%elem_of_app; [by apply IH1|]. apply list_elem_of_singleton in Hin as [= -> -> ->]. lia.
    + intros i j x y Hij Hx Hy. apply lookup_app_Some in Hy as [Hy|[Hlen Hy]].
      * apply lookup_app_Some in Hx as [Hx|[Hlen _]]; [by eapply IH2|]. apply lookup_lt_Some in Hy. lia.
      * apply list_lookup_singleton_Some in Hy as [Hy <-]. apply lookup_app_Some in Hx as [Hx|[? Hx]]; [|apply list_lookup_singleton_Some in Hx as [? _]; lia].
        apply list_elem_of_lookup_2 in Hx. destruct x as [[f w] c]. destruct (IH1 _ _ _ Hx) as (_ & _ & Hd). unfold windows in Hx.
        apply list_elem_of_fmap in Hx as (q & [= -> -> ->] & Hq). apply Hl in Hq. cbn. lia.
Qed.

(** The runs of a schedule never read the same evidence twice: their windows, a cadence long, do not
    overlap, whatever happens to the runs in between. *)
Theorem scheduled_windows_disjoint dedupe (task : ScheduledMaterialization) (t : RunTable) (i j : nat) (x y : MaterializationRun) :
  schedule_history dedupe task t -> (i < j)%nat ->
  schedule_rows (tk_schedule_id task) t !! i = Some x -> schedule_rows (tk_schedule_id task) t !! j = Some y ->
  mr_window_from x < mr_window_to x /\ mr_window_to x <= mr_window_from y /\ mr_window_from y < mr_window_to y.
Proof.
  intros H Hij Hx Hy. apply history_windows in H as [H1 H2]. unfold windows in *.
  assert (forall k z, schedule_rows (tk_schedule_id task) t !! k = Some z ->
    ((fun r => (mr_window_from r, mr_window_to r, mr_created_at r)) <$> schedule_rows (tk_schedule_id task) t) !! k = Some (mr_window_from z, mr_window_to z, mr_created_at z)) as Hk.
  { intros k z Hz. by rewrite list_lookup_fmap, Hz. }
  apply Hk in Hx, Hy. pose proof (H2 _ _ _ _ Hij Hx Hy) as H. cbn in H. apply list_elem_of_lookup_2 in Hx, Hy. apply H1 in Hx, Hy. lia.
Qed.

(** A run that stays queued or running blocks its schedule: each tick finds it, leaves the table as it is, and
    after two cadences can only say that the schedule is overdue. *)
Theorem stuck_run_blocks_schedule dedupe (t : RunTable) (task : ScheduledMaterialization) (r : MaterializationRun) (id : Z) (now created_at : Time) :
  tk_inactive task = None -> latest_run_for_schedule t (tk_schedule_id task) [] = Some r -> is_active (mr_status r) = true ->
  exists alerts, tick_task dedupe t task id now created_at = Ok (SoDuplicateActive (tk_schedule_id task) (mr_id r), alerts, t) /\
    (tk_cadence task * 2 < now - mr_created_at r -> Overdue (tk_schedule_id task) (mr_created_at r) ∈ alerts).
Proof.
  intros Hi Hl Ha. unfold tick_task. rewrite Hi, Hl, Ha. cbn [fmap option_fmap option_map]. eexists. split; [done|]. intros Hlate. unfold collect_alerts. cbn beta iota zeta.
  unfold is_overdue. replace (tk_cadence task * 2 <? now - mr_created_at r) with true by lia. apply elem_of_app. right. constructor.
Qed.

Lemma insert_run_fresh t r : mr_id r ∉ mr_id <$> t -> (forall key, mr_dedupe_key r = Some key -> List.find (same_key key) t = None) -> insert_run t r = Ok (t ++ [r]).
Proof.
  intros Hid Hkey. unfold insert_run. assert (existsb (fun r' => mr_id r' =? mr_id r) t = false) as ->.
  { apply not_true_iff_false. rewrite existsb_exists. intros (x & Hx & E). apply Hid, list_elem_of_fmap. exists x. rewrite list_elem_of_In. split; [lia | done]. }
  destruct (mr_dedupe_key r) as [key|] eqn:Ek; [|done]. assert (existsb (same_key key) t = false) as ->; [|done].
  apply not_true_iff_false. rewrite existsb_exists. intros (x & Hx & E). specialize (Hkey _ eq_refl). by rewrite (find_none _ _ Hkey x Hx) in E.
Qed.

Lemma queued_listed t r limit : r ∈ t -> mr_status r = MrQueued -> (length t <= limit)%nat -> mr_id r ∈ list_queued_runs t limit.
Proof.
  intros Hr Hq Hl. unfold list_queued_runs. rewrite take_ge.
  - apply list_elem_of_fmap. exists r. split; [done|]. rewrite sort_by_perm. rewrite list_elem_of_In, filter_In, <- list_elem_of_In. split; [done|]. by apply bool_decide_eq_true.
  - rewrite length_fmap. unfold sort_by. etransitivity; [|exact Hl]. etransitivity; [|apply (List.filter_length_le (fun r => bool_decide (mr_status r = MrQueued)))].
    apply Nat.eq_le_incl. apply Permutation_length, sort_by_perm.
Qed.

(** An active schedule whose last run, if any, has ended and was created a cadence ago enqueues a run for the
    last cadence of evidence, and the worker's query lists it. *)
Theorem due_schedule_enqueues dedupe (t : RunTable) (task : ScheduledMaterialization) (id : Z) (now created_at : Time) (key : string) (limit : nat) :
  let to := now - tk_source_delay_secs task * 1000000000 in
  tk_inactive task = None -> 0 < tk_cadence task -> in_i64 (tk_source_delay_secs task) ->
  (forall r, latest_run_for_schedule t (tk_schedule_id task) [] = Some r -> is_active (mr_status r) = false /\ tk_cadence task <= now - mr_created_at r) ->
  dedupe (tk_schedule_id task) (to - tk_cadence task, to) = Some key -> List.find (same_key key) t = None -> id ∉ mr_id <$> t -> (length t < limit)%nat ->
  exists r alerts, tick_task dedupe t task id now created_at = Ok (SoEnqueued (tk_schedule_id task) id, alerts, t ++ [r]) /\
    mr_id r = id /\ mr_window_from r = to - tk_cadence task /\ mr_window_to r = to /\ new_run r /\ id ∈ list_queued_runs (t ++ [r]) limit.
Proof.
  cbv zeta. set (to := now - _). intros Hi Hc Hd Hl Hk Hf Hid Hlim.
  set (r := sealed_run (dedupe (tk_schedule_id task)) false id (tk_schedule_id task) (to - tk_cadence task, to) created_at).
  assert (enqueue_due dedupe t task id now created_at = Ok (SoEnqueued (tk_schedule_id task) id, t ++ [r])) as He.
  { unfold enqueue_due, build_manifest, manifest_window. replace (tk_cadence task <=? 0) with false by lia. rewrite to_i64_in by done. cbn beta iota. fold to.
    replace (negb _) with false by (cbn; lia). rewrite Hk. fold r. unfold enqueue_q. cbn [andb r sealed_run mr_dedupe_key]. rewrite Hk, Hf.
    rewrite insert_run_fresh; [done|done|]. intros key'. cbn. rewrite Hk. by intros [= <-]. }
  assert (id ∈ list_queued_runs (t ++ [r]) limit).
  { apply (queued_listed _ r); [set_solver|done|]. rewrite length_app. cbn. lia. }
  exists r. unfold tick_task. rewrite Hi. destruct (latest_run_for_schedule t (tk_schedule_id task) []) as [l|]; cbn [fmap option_fmap option_map].
  - destruct (Hl l eq_refl) as [-> Hdue]. unfold is_due. replace (tk_cadence task <=? now - mr_created_at l) with true by lia. rewrite He. by eexists.
  - cbn [is_due]. rewrite He. by eexists.
Qed.

(** ** A table of runs *)

Module MaterializationDemo.
Definition dedupe (schedule_id : string) (w : Time * Time) : option string := Some (schedule_id +:+ ":" +:+ pretty w.1).
Definition second : Z := 1000000000.
Definition hourly : ScheduledMaterialization := {|
  tk_schedule_id := "execution-quality-hourly"; tk_cadence := hours 1; tk_source_delay_secs := 900; tk_factor_types := [ExecutionQuality]; tk_market_ids := []; tk_event_ids := [];
  tk_data_requirements := data_requirements [DoRuntimeConfig; DoTrades; DoCalibrationSnapshots]; tk_replay_account_scope := None; tk_inactive := None |}.

Example hourly_is_scheduled : hourly ∈ schedule_for_mode Paper.
Proof. constructor. Qed.

(** A tick at ten o'clock, written two milliseconds later. *)
Definition ten : Time := hours 10.
Definition table_of (x : Result (ScheduleOutcome * list ScheduleAlert * RunTable) string) : RunTable := match x with Ok y => y.2 | Err _ => [] end.
Definition one : RunTable := table_of (tick_task dedupe [] hourly 1 ten (ten + 2000000)).
Definition run1 : MaterializationRun := sealed_run (dedupe "execution-quality-hourly") false 1 "execution-quality-hourly" (ten - 900 * second - hours 1, ten - 900 * second) (ten + 2000000).

Lemma one_run : one = [run1].
Proof. vm_compute. reflexivity. Qed.

Definition started : RunTable := start_update one 1 (ten + second).
Definition patch : RunPatch := {| rp_finished_at := Some (ten + 60 * second); rp_failure_code := None |}.
Definition done1 : RunTable := transition_update started 1 MrRunning MrCompleted patch.

Lemma enqueued : run_step [] one.
Proof. apply (step_enqueue [] [] run1 false None (EnCreated run1)); [split_and!; reflexivity | vm_compute; reflexivity]. Qed.

Lemma acquired : run_step one started.
Proof. apply (step_acquire one one one 1 (ten + second)). Qed.

Lemma finished : run_step started done1.
Proof.
  eapply (step_finish started started started 1 MrCompleted patch); [|vm_compute; reflexivity]. split; [by eexists|]. left. split; [|reflexivity]. repeat constructor.
Qed.

Lemma runs_follow_lifecycle_witness : rtc run_step [] started /\ run_step started done1 /\ table_ok done1 /\
  exists r', done1 !! 0%nat = Some r' /\ mr_status r' = MrCompleted.
Proof.
  assert (rtc run_step [] started) as H by (eapply rtc_l; [apply enqueued|]; eapply rtc_l; [apply acquired|]; apply rtc_refl). split; [exact H|]. split; [apply finished|].
  destruct (runs_follow_lifecycle started done1 H finished) as [H1 _]. split; [exact H1|]. eexists. split; vm_compute; reflexivity.
Defined.

(** Two workers that read the run as queued both acquire it: the second's update finds no queued row, and its
    last read finds the run that the first one started. *)
Example both_acquire :
  let after1 := start_update one 1 (ten + second) in
  let after2 := start_update after1 1 (ten + 2 * second) in
  exists r, try_acquire_q one one after1 1 (ten + second) = (Acquired r, after1) /\ try_acquire_q one after1 after2 1 (ten + 2 * second) = (Acquired r, after2) /\ after2 = after1.
Proof. eexists. split_and!; vm_compute; reflexivity. Qed.

(** A transition that updates no row says that it did: the run had been cancelled in between. *)
Example transition_reports_the_other :
  let cancelled := transition_update started 1 MrRunning MrCancelled (cancel_patch (ten + 30 * second)) in
  exists r, transition_q started cancelled cancelled 1 MrRunning MrCompleted patch = Ok (Transitioned r, cancelled) /\ mr_status r = MrCancelled.
Proof. eexists. split; vm_compute; reflexivity. Qed.

Lemma acquired_once_witness : exists r, try_acquire one 1 (ten + second) = (Acquired r, started) /\ load_run started 1 = Some r /\
  try_acquire started 1 (ten + 2 * second) = (AcNotQueued r, started).
Proof.
  assert (exists r, try_acquire one 1 (ten + second) = (Acquired r, started)) as [r H] by (eexists; vm_compute; reflexivity). exists r. split; [exact H|].
  destruct (acquired_once one started 1 (ten + second) r H) as (_ & H1 & H2). split; [exact H1 | apply H2].
Defined.

Lemma replay_is_idempotent_witness : exists r t, replay_enqueue (dedupe "replay") one 2 "req-1" (hours 3) (hours 4) false ten = Ok (r, true, t) /\ length t = 2%nat /\
  replay_enqueue (dedupe "replay") t 3 "req-1" (hours 3) (hours 4) false (ten + second) = Ok (r, false, t).
Proof.
  assert (exists r t, replay_enqueue (dedupe "replay") one 2 "req-1" (hours 3) (hours 4) false ten = Ok (r, true, t) /\ length t = 2%nat) as (r & t & H & Hl)
    by (do 2 eexists; split; vm_compute; reflexivity).
  exists r, t. split; [exact H|]. split; [exact Hl|].
  exact (replay_is_idempotent (dedupe "replay") one t 2 3 "req-1" (hours 3) (hours 4) ten (ten + second) r true H).
Defined.

(** The next tick is thirty seconds late: thirty seconds of evidence are in no window. *)
Definition late : Time := ten + hours 1 + 30 * second.
Definition two : RunTable := table_of (tick_task dedupe done1 hourly 2 late (late + 2000000)).

Example late_tick_leaves_gap : (fun r => (mr_window_from r, mr_window_to r)) <$> two =
  [(ten - hours 1 - 900 * second, ten - 900 * second); (ten + 30 * second - 900 * second, ten + hours 1 + 30 * second - 900 * second)].
Proof. vm_compute. reflexivity. Qed.

Lemma two_history : schedule_history dedupe hourly two.
Proof.
  assert (schedule_history dedupe hourly one) as H1.
  { eapply (sh_tick dedupe hourly [] 1 ten (ten + 2000000)); [constructor | vm_compute; discriminate | vm_compute; reflexivity]. }
  assert (schedule_history dedupe hourly done1) as H2 by (eapply sh_other; [exact H1 | vm_compute; reflexivity]).
  eapply (sh_tick dedupe hourly done1 2 late (late + 2000000)); [exact H2 | vm_compute; discriminate | vm_compute; reflexivity].
Qed.

Lemma scheduled_windows_disjoint_witness : exists x y, schedule_rows "execution-quality-hourly" two !! 0%nat = Some x /\
  schedule_rows "execution-quality-hourly" two !! 1%nat = Some y /\ mr_window_to x <= mr_window_from y.
Proof.
  assert (exists x y, schedule_rows (tk_schedule_id hourly) two !! 0%nat = Some x /\ schedule_rows (tk_schedule_id hourly) two !! 1%nat = Some y) as (x & y & Hx & Hy)
    by (do 2 eexists; split; vm_compute; reflexivity).
  exists x, y. split; [exact Hx|]. split; [exact Hy|].
  pose proof (scheduled_windows_disjoint dedupe hourly two 0 1 x y two_history (Nat.lt_0_1) Hx Hy) as (_ & H & _). exact H.
Defined.

(** A run whose worker went away, a day later. *)
Lemma stuck_run_blocks_schedule_witness : exists r alerts, latest_run_for_schedule started (tk_schedule_id hourly) [] = Some r /\ mr_status r = MrRunning /\
  tick_task dedupe started hourly 2 (ten + hours 24) (ten + hours 24) = Ok (SoDuplicateActive (tk_schedule_id hourly) (mr_id r), alerts, started) /\
  Overdue (tk_schedule_id hourly) (mr_created_at r) ∈ alerts.
Proof.
  assert (exists r, latest_run_for_schedule started (tk_schedule_id hourly) [] = Some r /\ mr_status r = MrRunning /\ mr_created_at r = ten + 2000000) as (r & H & Hs & Hc)
    by (eexists; split_and!; vm_compute; reflexivity).
  destruct (stuck_run_blocks_schedule dedupe started hourly r 2 (ten + hours 24) (ten + hours 24) eq_refl H) as (alerts & Ht & Ho); [by rewrite Hs|].
  exists r, alerts. split; [exact H|]. split; [exact Hs|]. split; [exact Ht|]. apply Ho. rewrite Hc. vm_compute. reflexivity.
Defined.

Lemma due_schedule_enqueues_witness : exists r alerts, tick_task dedupe done1 hourly 2 late (late + 2000000) = Ok (SoEnqueued "execution-quality-hourly" 2, alerts, done1 ++ [r]) /\
  2 ∈ list_queued_runs (done1 ++ [r]) 10.
Proof.
  destruct (due_schedule_enqueues dedupe done1 hourly 2 late (late + 2000000) ("execution-quality-hourly:" +:+ pretty (ten + 30 * second - 900 * second)) 10) as (r & alerts & H & _ & _ & _ & _ & Hl);
    [reflexivity | vm_compute; reflexivity | split; vm_compute; discriminate | | vm_compute; reflexivity | vm_compute; reflexivity | | vm_compute; lia | by exists r, alerts].
  - intros r Hr. assert (latest_run_for_schedule done1 (tk_schedule_id hourly) [] = Some (List.hd run1 done1)) as E by (vm_compute; reflexivity).
    rewrite E in Hr. injection Hr as <-. split; vm_compute; [reflexivity | discriminate].
  - assert (mr_id <$> done1 = [1]) as -> by (vm_compute; reflexivity). intros H%list_elem_of_singleton. discriminate.
Defined.
End MaterializationDemo.
