(* ===== verification/MaterializationRunner.v ===== *)
(** * The runner: [oxide-arb-control/src/materialization/runner.rs]

    A queued run is acquired, executes the graph of its stages, writes the factors that the gates leave, and ends.
    The stages are those of [BookReplay], [ExecutionEvidence], [EvidenceStages] and [FactorBuild]; what the resolver, the time-series store and the
    detector answer, whether a report can be stored, and when the run is cancelled are given.  Reports
    are only kept in the run's own report.  Nothing else updates the row while the run executes. *)

From stdpp Require Import sorting.
From S2P Require Import Prelude Decimal Micro Config Domain Book OrderBook Positions FactorModel AuditChain Registry Governance BookReplay ExecutionEvidence EvidenceStages FactorBuild PointInTime Materialization.

(** [models/enums/control_factor.rs:210-216] `MaterializationRunKind` *)
Inductive MaterializationRunKind := RkScheduled | RkBackfill | RkIncident | RkConfigComparison | RkForensicReport.

(** [models/domain/control_factor/materialization.rs:430-448] `MaterializationRunManifest`, what the runner reads besides what the builders do *)
Record RunManifest := {
  rm_run_id : Z;
  rm_run_kind : MaterializationRunKind;
  rm_factors : FactorManifest;
  rm_output_policy : MaterializationOutputPolicy;
  rm_simulation_config : SimulationConfig;
  rm_max_replay_gap_ms : Z;
  rm_stale_book_after_ms : Z
}.

(** [models/domain/control_factor/materialization.rs:452-458] `production_output_allowed` *)
Definition production_output_allowed (m : RunManifest) : bool :=
  match rm_output_policy m with EmitDraftCandidates | EmitDraftOnly => true | OutReportOnly | NoFactorOutput => false end
  && match rm_run_kind m with RkForensicReport => false | _ => true end.

Section Runner.
Context {DO : DecimalOps} {DEC : Decoding} {IT : IdText} {ED : EventDigest} {TC : TimestampColumn} {FD : FactorDigest}.

(** The answers of a run's services, its clocks and identifiers. *)
Record RunServices := {
  rs_resolve : Result InputResolution MaterializationError;
  rs_book_rows : Result (list BookSnapshotRow * list BookL2ReplayRow) MaterializationError;
  rs_detect : BookReconstructionArtifact -> Result DetectorArtifact MaterializationError;
  rs_terminal_audits : list OpportunityId -> Result (list OpportunityAuditRow) MaterializationError;
  rs_audit_funnel : Result (list OpportunityAuditRow) MaterializationError;
  rs_fingerprints : list string * list string * list string;
  rs_hash_examples : list FactorTrainingExample -> Result string string;
  rs_hash_names : list string -> Result string string;
  rs_artifact_refs : Result (list (MaterializationStageName * string)) string;
  rs_persist : MaterializationStageName -> option StorageError;
  rs_cancelled : nat -> bool;
  rs_report_id : MaterializationStageName -> Z;
  rs_factor_stamps : nat -> Z * Time * Time;
  rs_gate_clock : nat -> Time;
  rs_audit_stamps : nat -> Z * Time
}.

(** [control/materialization/runner.rs:611-615] `MaterializationRunReport`; of the metrics of the gates the number of rejected factors *)
Record RunReport := { rr_manifest : PointInTimeInputManifest; rr_stage_reports : list StageReportBody; rr_gate_rejected : option Z }.

(** ** The graph of the stages *)

(** [control/materialization/runner.rs:643-655] `cancel_if_requested` *)
Definition cancel_if_requested (s : RunServices) (checkpoint : nat) : Result unit MaterializationError :=
  if rs_cancelled s checkpoint then Err (MeStable "run.cancelled") else Ok tt.

(** [control/materialization/runner.rs:385-391] `persist_stage_report`, with the report *)
Definition persist_stage_report (s : RunServices) (name : MaterializationStageName) (status : EvidenceStageStatus) : Result StageReportBody MaterializationError :=
  match rs_persist s name with Some e => Err (MeStorage e) | None => Ok (rs_report_id s name, name, status) end.

(** [control/materialization/runner.rs:304-383] `resolve_inputs_stage`; a report that cannot be stored hides the resolver's error *)
Definition resolve_inputs_stage (s : RunServices) : Result (InputResolution * StageReportBody) MaterializationError :=
  match rs_resolve s with
  | Ok report =>
      let status := if is_production_eligible (ir_manifest report) then (if ir_warns report then EsCompletedWithWarnings else EsCompleted) else EsProductionIneligible in
      let? body := persist_stage_report s ResolveInputs status in Ok (report, body)
  | Err e => let? _ := persist_stage_report s ResolveInputs EsFailed in Err e
  end.

(** [control/materialization/runner.rs:617-621] `DecisionEvidenceArtifacts` *)
Record DecisionEvidenceArtifacts := { de_book : BookReconstructionArtifact; de_detector : DetectorArtifact; de_execution : ExecutionEvidenceArtifact; de_reports : list StageReportBody }.

Definition codec {A} (r : Result A string) : Result A MaterializationError := match r with Ok x => Ok x | Err e => Err (MeCodec e) end.

(** [control/materialization/runner.rs:393-447] `execute_decision_evidence_stages` *)
Definition execute_decision_evidence_stages (s : RunServices) (m : RunManifest) (input : InputResolution) : Result DecisionEvidenceArtifacts MaterializationError :=
  let? rows := rs_book_rows s in
  let? book := codec (reconstruct {| bi_contexts := ir_contexts input; bi_window_to := fm_window_to (rm_factors m); bi_snapshots := rows.1; bi_l2_events := rows.2;
                                     bi_max_replay_gap_ms := rm_max_replay_gap_ms m; bi_stale_book_after_ms := rm_stale_book_after_ms m |}) in
  let? r1 := persist_stage_report s BookReconstruction (status_from_book_report (ba_report book)) in
  let? _ := cancel_if_requested s 1 in
  let? detector := rs_detect s book in
  let? r2 := persist_stage_report s DetectorEvidence (detector_status (rm_output_policy m) (da_report detector)) in
  let? _ := cancel_if_requested s 2 in
  let? audits := rs_terminal_audits s (dd_opportunity_id <$> da_detections detector) in
  let execution := execution_evidence (rm_output_policy m) (rm_stale_book_after_ms m) (rm_simulation_config m) book audits in
  let? r3 := persist_stage_report s ExecutionEvidence execution.1 in
  let? _ := cancel_if_requested s 3 in
  Ok {| de_book := book; de_detector := detector; de_execution := execution.2; de_reports := [r1; r2; r3] |}.

(** The artifacts that the factor stages read. *)
Record EvidenceArtifacts := {
  ea_input : InputResolution; ea_detector : DetectorArtifact; ea_execution : ExecutionEvidenceArtifact; ea_portfolio : PortfolioArtifact;
  ea_settlement : SettlementArtifact; ea_training : TrainingArtifact; ea_reports : list StageReportBody
}.

(** [control/materialization/runner.rs:169-236] `execute_stage_graph`, its evidence stages *)
Definition execute_evidence_stages (s : RunServices) (m : RunManifest) : Result EvidenceArtifacts MaterializationError :=
  let? resolved := resolve_inputs_stage s in
  let? _ := cancel_if_requested s 0 in
  let? decision := execute_decision_evidence_stages s m resolved.1 in
  let? funnel := rs_audit_funnel s in
  let sources := ir_sources resolved.1 in
  let portfolio := portfolio_evidence (rm_output_policy m) funnel sources in
  let? r4 := persist_stage_report s PortfolioRiskEvidence portfolio.1 in
  let? _ := cancel_if_requested s 4 in
  let settlement := settlement_evidence (rm_output_policy m) funnel sources (fm_window_to (rm_factors m)) in
  let? r5 := persist_stage_report s SettlementReconciliationEvidence settlement.1 in
  let? _ := cancel_if_requested s 5 in
  let fps := rs_fingerprints s in
  let? training := codec (build_training (rs_hash_examples s) (rs_hash_names s) (rs_artifact_refs s) fps.1.1 fps.1.2 fps.2 (fm_requested_factor_types (rm_factors m))
                            (da_detections (de_detector decision)) (xa_examples (de_execution decision)) settlement.2) in
  let? r6 := persist_stage_report s TrainingExampleBuild (training_status (rm_output_policy m) (ta_report training)) in
  Ok {| ea_input := resolved.1; ea_detector := de_detector decision; ea_execution := de_execution decision; ea_portfolio := portfolio.2; ea_settlement := settlement.2;
        ea_training := training; ea_reports := resolved.2 :: de_reports decision ++ [r4; r5; r6] |}.

(** ** Factors *)

(** [models/enums/control_factor.rs:8-14] `ControlFactorType`, its names *)
Definition factor_type_name (t : ControlFactorType) : string :=
  match t with
  | BucketRisk => "bucket_risk" | ExecutionQuality => "execution_quality" | PortfolioRisk => "portfolio_risk"
  | ReconciliationHealth => "reconciliation_health" | MarketAnomaly => "market_anomaly"
  end.

(** [control/materialization/runner.rs:530-545] `write_gate_factors`, the audit event of a factor *)
Definition factor_created_event (m : RunManifest) (f : ControlFactorValue) : NewAuditEvent := {|
  na_event_type := AeFactorCreated; na_actor := fm_created_by (rm_factors m); na_actor_role := "operator"; na_resource_type := RtFactor;
  na_resource_id := id_text (cf_factor_id f); na_request_id := id_text (rm_run_id m); na_reason := "materialization draft write"; na_before_hash := None;
  na_after_hash := None;
  na_diff := JObj [("run_id", JStr (id_text (rm_run_id m))); ("status", JStr (status_name (cf_status f))); ("factor_type", JStr (factor_type_name (cf_factor_type f)))] |}.

(** [control/materialization/runner.rs:523-549] `write_gate_factors`, one factor *)
Definition write_factor (m : RunManifest) (r : Registry) (f : ControlFactorValue) (stamp : Z * Time) : Result Registry MaterializationError :=
  match validate_as_materialization_output f with
  | Err _ => Err (MeCodec "invalid materialization output")
  | Ok _ => match from_typed (rm_run_id m) f None with
            | Err e => Err (MeCanonicalDigest e)
            | Ok row => match create_factor r row stamp.1 (factor_created_event m f) stamp.2 with Err e => Err (MeStorage e) | Ok x => Ok x.1 end
            end
  end.

(** [control/materialization/runner.rs:516-552] `write_gate_factors`: factors before one that is refused stay *)
Fixpoint write_gate_factors (m : RunManifest) (r : Registry) (stamps : nat -> Z * Time) (written : Z) (factors : list BuiltFactor) : Registry * Result Z MaterializationError :=
  match factors with
  | [] => (r, Ok written)
  | f :: fs => match write_factor m r (bf_value f) (stamps 0%nat) with
               | Err e => (r, Err e)
               | Ok r => write_gate_factors m r (fun n => stamps (S n)) (sat_u64 (written + 1)) fs
               end
  end.

Definition factor_context (m : RunManifest) (a : EvidenceArtifacts) : FactorBuildContext := {|
  fc_manifest := rm_factors m; fc_pit_manifest := ir_manifest (ea_input a); fc_stage_reports := ea_reports a; fc_training := ea_training a;
  fc_true_fill_count := xr_true_fill_count (xa_report (ea_execution a)); fc_portfolio := ea_portfolio a; fc_settlement := st_report (ea_settlement a) |}.
Definition gate_context (m : RunManifest) (a : EvidenceArtifacts) (reports : list StageReportBody) : QualityGateContext := {|
  gc_policy := fm_quality_gate_policy (rm_factors m); gc_output_policy := rm_output_policy m; gc_stage_reports := reports; gc_pit_manifest := ir_manifest (ea_input a);
  gc_training := ea_training a; gc_detector := ea_detector a; gc_portfolio := ea_portfolio a |}.

(** [control/materialization/runner.rs:455-492] `execute_factor_stages`, up to the gates' report *)
Definition evaluate_run_factors (s : RunServices) (m : RunManifest) (a : EvidenceArtifacts) : Result (list StageReportBody * QualityGateEvaluation) MaterializationError :=
  let build := build_factors (factor_context m a) (rs_factor_stamps s) in
  let? r7 := persist_stage_report s BookReplay.FactorBuild EsCompleted in
  let gates := evaluate_gates (gate_context m a (ea_reports a ++ [r7])) (rs_gate_clock s) build in
  let? r8 := persist_stage_report s BookReplay.QualityGateEvaluation (if existsb is_blocking_failure (qe_decisions gates) then EsCompletedWithWarnings else EsCompleted) in
  Ok (ea_reports a ++ [r7; r8], gates).

(** [control/materialization/runner.rs:449-514] `execute_factor_stages` *)
Definition execute_factor_stages (s : RunServices) (m : RunManifest) (r : Registry) (a : EvidenceArtifacts) : Registry * Result RunReport MaterializationError :=
  match evaluate_run_factors s m a with
  | Err e => (r, Err e)
  | Ok (reports, gates) =>
      match write_gate_factors m r (rs_audit_stamps s) 0 (qe_factors gates) with
      | (r, Err e) => (r, Err e)
      | (r, Ok _) => (r, let? r9 := persist_stage_report s DraftWrite EsCompleted in
                         Ok {| rr_manifest := ir_manifest (ea_input a); rr_stage_reports := reports ++ [r9]; rr_gate_rejected := Some (qe_rejected_factor_count gates) |})
      end
  end.

(** [control/materialization/runner.rs:169-261] `execute_stage_graph` *)
Definition execute_stage_graph (s : RunServices) (m : RunManifest) (r : Registry) : Registry * Result RunReport MaterializationError :=
  match execute_evidence_stages s m with
  | Err e => (r, Err e)
  | Ok a => if production_output_allowed m then execute_factor_stages s m r a
            else (r, Ok {| rr_manifest := ir_manifest (ea_input a); rr_stage_reports := ea_reports a; rr_gate_rejected := None |})
  end.

(** ** The end of a run *)

(** [control/materialization/runner.rs:740-769] `factor_requires_stage` *)
Definition factor_requires_stage (t : ControlFactorType) (name : MaterializationStageName) : bool :=
  match name with
  | ResolveInputs | BookReconstruction | TrainingExampleBuild => true
  | DetectorEvidence => match t with BucketRisk | ExecutionQuality | MarketAnomaly => true | _ => false end
  | ExecutionEvidence => match t with BucketRisk | ExecutionQuality => true | _ => false end
  | PortfolioRiskEvidence => match t with PortfolioRisk => true | _ => false end
  | SettlementReconciliationEvidence => match t with BucketRisk | ReconciliationHealth => true | _ => false end
  | BookReplay.FactorBuild | BookReplay.QualityGateEvaluation | DraftWrite => false
  end.

(** [control/materialization/runner.rs:727-738] `stage_required_for_requested` *)
Definition stage_required_for_requested (m : RunManifest) (name : MaterializationStageName) : bool :=
  match fm_requested_factor_types (rm_factors m) with [] => true | types => existsb (fun t => factor_requires_stage t name) types end.

(** [control/materialization/runner.rs:716-725] `gate_rejected_factor_count` *)
Definition gate_rejected_factor_count (report : RunReport) : Z := default 0 (rr_gate_rejected report).

Definition stage_failed (st : StageReportBody) : bool := match st.2 with EsFailed => true | _ => false end.
Definition not_for_production (m : RunManifest) (st : StageReportBody) : bool :=
  stage_required_for_requested m st.1.2 && match st.2 with EsInsufficientCoverage | EsProductionIneligible => true | _ => false end.

(** [control/materialization/runner.rs:682-714] `terminal_status`; of the manifest only its verdict, not its errors *)
Definition terminal_status (m : RunManifest) (report : RunReport) : MaterializationRunStatus :=
  if existsb stage_failed (rr_stage_reports report) then MrFailed
  else if match rm_output_policy m with OutReportOnly | NoFactorOutput => true | _ => false end || negb (production_output_allowed m)
          || negb (FactorModel.production_eligible (rr_manifest report)) || existsb (not_for_production m) (rr_stage_reports report)
       then MrReportOnly
       else if 0 <? gate_rejected_factor_count report then MrCompletedWithRejectedFactors else MrCompleted.

(** [control/materialization/runner.rs:57-63] `RunExecutionOutcome`, those of an execution *)
Inductive RunExecutionOutcome := RoCompleted (s : MaterializationRunStatus) | RoNotQueued | RoNotFound | RoCancelled.

(** What an execution changes. *)
Record ControlTables := { ct_runs : RunTable; ct_registry : Registry }.

(** [control/materialization/runner.rs:263-302] `complete_run` *)
Definition complete_run (t : RunTable) (id : Z) (m : RunManifest) (report : RunReport) (now : Time) : RunTable * Result RunExecutionOutcome MaterializationError :=
  let target := terminal_status m report in
  match transition t id MrRunning target {| rp_finished_at := Some now; rp_failure_code := None |} with
  | Err e => (t, Err (MeStorage (SeCodec e)))
  | Ok (Transitioned _, t) => (t, Ok (RoCompleted target))
  | Ok (InvalidTransition _, t) => (t, Ok RoNotQueued)
  | Ok (TrNotFound, t) => (t, Ok RoNotFound)
  end.

(** [control/materialization/runner.rs:554-574] `cancel_run` *)
Definition cancel_run (t : RunTable) (id : Z) (now : Time) : RunTable * Result RunExecutionOutcome MaterializationError :=
  match cancel_run_q t id now with
  | Err e => (t, Err (MeStorage (SeCodec e)))
  | Ok (CnCancelled _, t) => (t, Ok RoCancelled)
  | Ok (AlreadyTerminal r, t) => (t, Ok (RoCompleted (mr_status r)))
  | Ok (CnNotFound, t) => (t, Ok RoNotFound)
  end.

(** [control/materialization/runner.rs:576-609] `fail_run` *)
Definition fail_run (t : RunTable) (id : Z) (error : MaterializationError) (now : Time) : RunTable * Result RunExecutionOutcome MaterializationError :=
  match transition t id MrRunning MrFailed {| rp_finished_at := Some now; rp_failure_code := Some (error_failure_code error) |} with
  | Err e => (t, Err (MeStorage (SeCodec e)))
  | Ok (Transitioned _, t) => (t, Err error)
  | Ok (InvalidTransition _, t) => (t, Ok RoNotQueued)
  | Ok (TrNotFound, t) => (t, Ok RoNotFound)
  end.

(** The token at the two reads of the runner itself. *)
Record RunToken := { rt_before_acquire : bool; rt_before_resolve : bool }.

(** [control/materialization/runner.rs:137-157] `execute_acquired_run`; the manifest, if it decodes *)
Definition execute_acquired_run (s : RunServices) (token : RunToken) (w : ControlTables) (manifest : option RunManifest) (id : Z) (now : Time)
    : ControlTables * Result RunExecutionOutcome MaterializationError :=
  let runs r x := ({| ct_runs := x.1; ct_registry := r |}, x.2) : ControlTables * Result RunExecutionOutcome MaterializationError in
  match manifest with
  | None => (w, Err (MeCodec "invalid manifest"))
  | Some m =>
      if rt_before_resolve token then runs (ct_registry w) (cancel_run (ct_runs w) id now)
      else match execute_stage_graph s m (ct_registry w) with
           | (r, Ok report) => runs r (complete_run (ct_runs w) id m report now)
           | (r, Err e) => runs r (if bool_decide (error_code e = Some "run.cancelled") then cancel_run (ct_runs w) id now else fail_run (ct_runs w) id e now)
           end
  end.

(** [control/materialization/runner.rs:91-113] `execute_run`; the manifest of a row decodes to the one of its identifier *)
Definition execute_run (s : RunServices) (token : RunToken) (manifests : Z -> RunManifest) (w : ControlTables) (id : Z) (started now : Time)
    : ControlTables * Result RunExecutionOutcome MaterializationError :=
  if rt_before_acquire token then
    let x := cancel_run (ct_runs w) id now in ({| ct_runs := x.1; ct_registry := ct_registry w |}, x.2)
  else match try_acquire (ct_runs w) id started with
       | (Acquired r, t) => execute_acquired_run s token {| ct_runs := t; ct_registry := ct_registry w |} (if mr_manifest_decodes r then Some (manifests id) else None) id now
       | (AcNotQueued _, t) => ({| ct_runs := t; ct_registry := ct_registry w |}, Ok RoNotQueued)
       | (AcNotFound, t) => ({| ct_runs := t; ct_registry := ct_registry w |}, Ok RoNotFound)
       end.

(** [control/materialization/runner.rs:115-135] `retry_and_execute` *)
Definition retry_and_execute (s : RunServices) (token : RunToken) (manifests : Z -> RunManifest) (w : ControlTables) (id : Z) (started now : Time)
    : ControlTables * Result RunExecutionOutcome MaterializationError :=
  match retry (ct_runs w) id with
  | (Transitioned _, t) => execute_run s token manifests {| ct_runs := t; ct_registry := ct_registry w |} id started now
  | (InvalidTransition _, t) => ({| ct_runs := t; ct_registry := ct_registry w |}, Ok RoNotQueued)
  | (TrNotFound, t) => ({| ct_runs := t; ct_registry := ct_registry w |}, Ok RoNotFound)
  end.

(** [core/app/web_services.rs:455-478] the worker's turn: the queued runs, oldest first, until shutdown; errors are only logged *)
Fixpoint run_queued (s : nat -> RunServices) (token : nat -> RunToken) (manifests : Z -> RunManifest) (w : ControlTables) (ids : list Z) (clock : nat -> Time * Time) : ControlTables :=
  match ids with
  | [] => w
  | id :: ids =>
      if rt_before_acquire (token 0%nat) then w
      else run_queued (fun n => s (S n)) (fun n => token (S n)) manifests (execute_run (s 0%nat) (token 0%nat) manifests w id (clock 0%nat).1 (clock 0%nat).2).1 ids (fun n => clock (S n))
  end.
Definition worker_tick (s : nat -> RunServices) (token : nat -> RunToken) (manifests : Z -> RunManifest) (w : ControlTables) (limit : nat) (clock : nat -> Time * Time) : ControlTables :=
  run_queued s token manifests w (list_queued_runs (ct_runs w) limit) clock.
End Runner.

(** ** What a run leaves *)

(** Takes a chain of calls apart. *)
Ltac chain H :=
  match type of H with
  | match ?x with Ok _ => _ | Err _ => Err _ end = Ok _ => let E := fresh "E" in destruct x eqn:E; cbn beta iota zeta in H; [|discriminate H]; chain H
  | _ => idtac
  end.

Section RunFacts.
Context {DO : DecimalOps} {DEC : Decoding} {IT : IdText} {ED : EventDigest} {TC : TimestampColumn} {FD : FactorDigest}.

(** The row of a written factor. *)
Definition written_row (m : RunManifest) (f : ControlFactorValue) (row : FactorRow) : Prop :=
  fr_run_id row = rm_run_id m /\ cf_factor_id (fr_value row) = cf_factor_id f /\ cf_factor_type (fr_value row) = cf_factor_type f /\
  cf_dimensions (fr_value row) = cf_dimensions f /\ cf_payload (fr_value row) = cf_payload f /\ cf_evidence (fr_value row) = cf_evidence f /\ cf_status (fr_value row) = cf_status f /\
  dimensions_digest (cf_dimensions f) = Ok (fr_dimensions_hash row) /\ payload_digest (cf_payload f) = Ok (fr_payload_hash row).

(** The event of its creation. *)
Definition creation_logged (m : RunManifest) (f : ControlFactorValue) (log : list AuditEventInfo) : Prop :=
  exists e, e ∈ log /\ ae_request_id e = id_text (rm_run_id m) /\ ae_event_type e = AeFactorCreated /\ ae_resource_id e = id_text (cf_factor_id f).

(** A registry that holds all that another did, with its publications. *)
Definition registry_grows (r r' : Registry) : Prop :=
  rg_factors r ⊆ rg_factors r' /\ rg_publications r' = rg_publications r /\ rg_members r' = rg_members r /\ rg_audit r ⊆ rg_audit r'.

Lemma registry_grows_refl r : registry_grows r r.
Proof. done. Qed.
Lemma registry_grows_trans r1 r2 r3 : registry_grows r1 r2 -> registry_grows r2 r3 -> registry_grows r1 r3.
Proof. intros (F & P & M & A) (F' & P' & M' & A'). repeat split; [by etrans | congruence | congruence | set_solver]. Qed.

Lemma append_grows db event_id event now db' row : append_audit_event_chained_q db event_id event now = Ok (db', row) -> db ⊆ db'.
Proof. intros H. apply append_cases in H as [[-> _]|[-> _]]; set_solver. Qed.

Lemma write_factor_ok m r f stamp r' : write_factor m r f stamp = Ok r' ->
  validate_as_materialization_output f = Ok tt /\ registry_grows r r' /\
  (exists row, rg_factors r' !! cf_factor_id f = Some row /\ written_row m f row) /\ creation_logged m f (rg_audit r').
Proof.
  unfold write_factor. destruct (validate_as_materialization_output f) as [[]|]; [|done]. unfold from_typed.
  destruct (dimensions_digest (cf_dimensions f)) as [dims|] eqn:Ed; [|done]. destruct (payload_digest (cf_payload f)) as [pay|] eqn:Ep; [|done]. cbn beta iota.
  set (row := {| fr_value := _ |}). destruct (create_factor r row stamp.1 (factor_created_event m f) stamp.2) as [x|] eqn:E; [|done]. intros [= <-].
  unfold create_factor in E. destruct (insert_factor_q r row) as [[r1 row1]|] eqn:E0; [|done]. cbn [bind_ok fst snd] in E.
  destruct (append_event r1 _ _ _) as [[r2 ev]|] eqn:E1; [|done]. cbn [bind_ok fst snd] in E. injection E as <-. cbn [fst].
  apply append_event_ok in E1 as [Ha ->]. unfold insert_factor_q in E0. destruct (rg_factors r !! cf_factor_id (fr_value row)) eqn:Ei; [done|].
  destruct (existsb _ _); [done|]. injection E0 as <- <-. cbn [rg_audit with_factors rg_factors rg_publications rg_members with_audit] in *.
  split; [done|]. split; [|split].
  - repeat split; cbn; [|by eapply append_grows]. by apply insert_subseteq.
  - eexists. split; [apply lookup_insert_eq|]. unfold written_row. by cbn.
  - apply append_logged in Ha as (H1 & H2 & H3 & H4). exists ev. by cbn.
Qed.

Lemma write_gate_factors_ok m fs : forall r stamps n r' k, write_gate_factors m r stamps n fs = (r', Ok k) ->
  registry_grows r r' /\ Forall (fun f => (exists row, rg_factors r' !! cf_factor_id (bf_value f) = Some row /\ written_row m (bf_value f) row) /\
                                           creation_logged m (bf_value f) (rg_audit r')) fs.
Proof.
  induction fs as [|f fs IH]; intros r stamps n r' k; cbn; [intros [= <- _]; by split|].
  destruct (write_factor m r (bf_value f) (stamps 0%nat)) as [r1|] eqn:E; [|done]. intros H. apply IH in H as [Hg Hf].
  apply write_factor_ok in E as (_ & Hg1 & (row & Hr & Hw) & e & He & Hl). split; [by eapply registry_grows_trans|]. constructor; [|done].
  destruct Hg as (F & _ & _ & A). split; [exists row; split; [by eapply lookup_weaken | done]|]. exists e. split; [by apply A | done].
Qed.

Lemma write_gate_factors_grows m fs : forall r stamps n, registry_grows r (write_gate_factors m r stamps n fs).1.
Proof.
  induction fs as [|f fs IH]; intros r stamps n; cbn; [done|]. destruct (write_factor _ _ _ _) as [r1|] eqn:E; [|done].
  apply write_factor_ok in E as (_ & Hg & _). by eapply registry_grows_trans.
Qed.

(** The rows that a write adds have the statuses of the factors. *)
Lemma write_factor_row m r f stamp r' id row : write_factor m r f stamp = Ok r' -> rg_factors r' !! id = Some row -> rg_factors r !! id = Some row \/ cf_status (fr_value row) = cf_status f.
Proof.
  unfold write_factor. destruct (validate_as_materialization_output f) as [[]|]; [|done]. unfold from_typed.
  destruct (dimensions_digest (cf_dimensions f)) as [dims|]; [|done]. destruct (payload_digest (cf_payload f)) as [pay|]; [|done]. cbn beta iota.
  set (row0 := {| fr_value := _ |}). destruct (create_factor r row0 stamp.1 (factor_created_event m f) stamp.2) as [x|] eqn:E; [|done]. intros [= <-].
  unfold create_factor in E. destruct (insert_factor_q r row0) as [[r1 row1]|] eqn:E0; [|done]. cbn [bind_ok fst snd] in E.
  destruct (append_event r1 _ _ _) as [[r2 ev]|] eqn:E1; [|done]. cbn [bind_ok fst snd] in E. injection E as <-. cbn [fst].
  apply append_event_ok in E1 as [_ ->]. unfold insert_factor_q in E0. destruct (rg_factors r !! cf_factor_id (fr_value row0)); [done|].
  destruct (existsb _ _); [done|]. injection E0 as <- <-. cbn [rg_factors with_factors with_audit]. rewrite lookup_insert_Some. intros [[_ <-]|[_ H]]; [by right | by left].
Qed.

Lemma write_gate_factors_status m fs (P : FactorStatus -> Prop) : Forall (fun f => P (cf_status (bf_value f))) fs ->
  forall r stamps n r' x id row, write_gate_factors m r stamps n fs = (r', x) -> rg_factors r' !! id = Some row -> rg_factors r !! id = Some row \/ P (cf_status (fr_value row)).
Proof.
  induction 1 as [|f fs Hf _ IH]; intros r stamps n r' x id row; cbn; [intros [= <- _]; by left|].
  destruct (write_factor m r (bf_value f) (stamps 0%nat)) as [r1|] eqn:E; [|intros [= <- _]; by left]. intros H Hrow.
  destruct (IH _ _ _ _ _ _ _ H Hrow) as [H1|H1]; [|by right]. destruct (write_factor_row _ _ _ _ _ _ _ E H1) as [H2|H2]; [by left | right; by rewrite H2].
Qed.

(** A run whose graph ends has stored every factor that its gates left, with the status they gave it and an
    event of the audit log, and nothing that was there before is changed. *)
Theorem graph_stores_gated_factors (s : RunServices) (m : RunManifest) (r r' : Registry) (report : RunReport) :
  production_output_allowed m = true -> execute_stage_graph s m r = (r', Ok report) ->
  registry_grows r r' /\
  exists a reports gates, execute_evidence_stages s m = Ok a /\ evaluate_run_factors s m a = Ok (reports, gates) /\
    rr_gate_rejected report = Some (qe_rejected_factor_count gates) /\
    Forall (fun f => (exists row, rg_factors r' !! cf_factor_id (bf_value f) = Some row /\ written_row m (bf_value f) row) /\
                     creation_logged m (bf_value f) (rg_audit r')) (qe_factors gates).
Proof.
  intros Hp. unfold execute_stage_graph. destruct (execute_evidence_stages s m) as [a|] eqn:Ea; [|done]. rewrite Hp. unfold execute_factor_stages.
  destruct (evaluate_run_factors s m a) as [[reports gates]|] eqn:Ev; [|done]. destruct (write_gate_factors _ _ _ _ _) as [r1 [k|e]] eqn:Ew; [|done].
  destruct (persist_stage_report _ _ _) as [b|]; [|done]. intros [= <- <-]. apply write_gate_factors_ok in Ew as [Hg Hf]. split; [done|].
  exists a, reports, gates. by split_and!.
Qed.

(** *** The status of a run *)

Lemma persist_ok s name status b : persist_stage_report s name status = Ok b -> b = (rs_report_id s name, name, status).
Proof. unfold persist_stage_report. by destruct (rs_persist s name); intros [= <-]. Qed.

(** What a stage that ran ends with. *)
Definition stage_ended (st : EvidenceStageStatus) : bool :=
  match st with EsCompleted | EsCompletedWithWarnings | EsInsufficientCoverage | EsProductionIneligible => true | _ => false end.

Lemma decide_ended g : stage_ended (decide_stage g) = true.
Proof. unfold decide_stage. by destruct (negb _); [|destruct (_ || _); [|destruct (_ || _)]]. Qed.
Lemma book_ended r : stage_ended (status_from_book_report r) = true.
Proof. unfold status_from_book_report. by destruct (production_eligible r). Qed.
Lemma detector_ended p r : stage_ended (detector_status p r) = true.
Proof. apply decide_ended. Qed.
Lemma execution_ended p n c b l : stage_ended (execution_evidence p n c b l).1 = true.
Proof. apply decide_ended. Qed.
Lemma portfolio_ended p l b : stage_ended (portfolio_evidence p l b).1 = true.
Proof. apply decide_ended. Qed.
Lemma settlement_ended p l b w : stage_ended (settlement_evidence p l b w).1 = true.
Proof. apply decide_ended. Qed.
Lemma training_ended p r : stage_ended (training_status p r) = true.
Proof. apply decide_ended. Qed.

(** The reports of the evidence stages, in their order. *)
Lemma evidence_reports s m a : execute_evidence_stages s m = Ok a ->
  exists s0 s1 s2 s3 s4 s5 s6, ea_reports a = (fun x => (rs_report_id s x.1, x.1, x.2)) <$> [(ResolveInputs, s0); (BookReconstruction, s1); (DetectorEvidence, s2);
    (ExecutionEvidence, s3); (PortfolioRiskEvidence, s4); (SettlementReconciliationEvidence, s5); (TrainingExampleBuild, s6)] /\
    Forall (fun x => stage_ended x = true) [s0; s1; s2; s3; s4; s5; s6] /\
    (s0 = EsCompleted \/ s0 = EsCompletedWithWarnings <-> is_production_eligible (ir_manifest (ea_input a)) = true).
Proof.
  unfold execute_evidence_stages. intros H. chain H. injection H as <-. destruct a0 as [input b0]. cbn [fst snd ea_reports ea_input] in *.
  unfold resolve_inputs_stage in E. destruct (rs_resolve s) as [report|]; [|by destruct (persist_stage_report s ResolveInputs EsFailed)]. chain E. injection E as <- <-.
  unfold execute_decision_evidence_stages in E1. chain E1. injection E1 as <-. cbn [de_reports] in *.
  repeat match goal with H : persist_stage_report _ _ _ = Ok _ |- _ => apply persist_ok in H; subst end.
  do 7 eexists. split; [reflexivity|]. split.
  - rewrite !Forall_cons. split_and!; [|by apply book_ended|apply detector_ended|apply execution_ended|apply portfolio_ended|
      apply settlement_ended|apply training_ended|done]. by destruct (is_production_eligible (ir_manifest report)), (ir_warns report).
  - destruct (is_production_eligible (ir_manifest report)), (ir_warns report); naive_solver.
Qed.

(** The reports of a graph that ends: those of the evidence stages, and those of the factor stages when the manifest asks for factors. *)
Lemma graph_reports s m r r' report : execute_stage_graph s m r = (r', Ok report) ->
  exists evidence factors, rr_stage_reports report = evidence ++ factors /\ Forall (fun st => stage_ended st.2 = true) (evidence ++ factors) /\
    (exists st, st ∈ evidence /\ st.1.2 = ResolveInputs /\ (upstream_stage_passes st.2 = true <-> is_production_eligible (rr_manifest report) = true)) /\
    Forall (fun st => upstream_stage_passes st.2 = true) factors.
Proof.
  unfold execute_stage_graph. destruct (execute_evidence_stages s m) as [a|] eqn:Ea; [|done]. apply evidence_reports in Ea as (s0 & s1 & s2 & s3 & s4 & s5 & s6 & Er & Hs & H0).
  assert (Forall (fun st => stage_ended st.2 = true) (ea_reports a)) as Hend.
  { rewrite Er, Forall_fmap. rewrite !Forall_cons in Hs. rewrite !Forall_cons. split_and!; try apply Forall_nil_2; cbn; by apply Hs. }
  assert (exists st, st ∈ ea_reports a /\ st.1.2 = ResolveInputs /\ (upstream_stage_passes st.2 = true <-> is_production_eligible (ir_manifest (ea_input a)) = true)) as Hres.
  { rewrite Er. eexists. split; [constructor|]. split; [done|]. cbn [snd]. rewrite <- H0. by destruct s0; cbn; naive_solver. }
  destruct (production_output_allowed m).
  - unfold execute_factor_stages. destruct (evaluate_run_factors s m a) as [[reports gates]|] eqn:Ev; [|done].
    destruct (write_gate_factors _ _ _ _ _) as [r1 [k|e]]; [|done]. destruct (persist_stage_report s DraftWrite EsCompleted) as [b|] eqn:Eb; [|done].
    intros [= <- <-]. apply persist_ok in Eb as ->. unfold evaluate_run_factors in Ev. chain Ev. injection Ev as <- <-. apply persist_ok in E, E0. subst.
    eexists (ea_reports a), _. cbn [rr_stage_reports rr_manifest]. rewrite <- app_assoc. cbn [app]. split; [reflexivity|].
    split_and!; [apply Forall_app; split; [done|] | done |]; rewrite !Forall_cons; cbn [snd]; by destruct (existsb _ _).
  - intros [= <- <-]. exists (ea_reports a), []. rewrite app_nil_r. by split_and!.
Qed.

Lemma existsb_false {A} (f : A -> bool) l : existsb f l = false <-> Forall (fun x => f x = false) l.
Proof. induction l as [|x l IH]; cbn; [by split|]. rewrite orb_false_iff, IH, Forall_cons. done. Qed.

Lemma ended_not_failed reports : Forall (fun st : StageReportBody => stage_ended st.2 = true) reports -> existsb stage_failed reports = false.
Proof. intros H. apply existsb_false. eapply Forall_impl; [exact H|]. intros [[id name] st]. unfold stage_failed. cbn. by destruct st. Qed.

Lemma ended_passes m (st : StageReportBody) : stage_ended st.2 = true -> not_for_production m st = false <-> (stage_required_for_requested m st.1.2 = true -> upstream_stage_passes st.2 = true).
Proof. destruct st as [[id name] st]. unfold not_for_production. cbn. destruct (stage_required_for_requested m name), st; cbn; naive_solver. Qed.

Lemma resolve_required m : stage_required_for_requested m ResolveInputs = true.
Proof. unfold stage_required_for_requested. by destruct (fm_requested_factor_types _). Qed.

(** A run whose graph ends is never failed.  It is completed exactly when its manifest allows factors to be put
    out, its inputs are eligible for production and every stage that one of the requested factors requires has passed; it is completed with rejected factors when the gates
    rejected one.  Otherwise it only reports. *)
Theorem completed_runs_are_production_grade (s : RunServices) (m : RunManifest) (r r' : Registry) (report : RunReport) :
  execute_stage_graph s m r = (r', Ok report) ->
  let grade := production_output_allowed m = true /\ is_production_eligible (rr_manifest report) = true /\
    Forall (fun st => stage_required_for_requested m st.1.2 = true -> upstream_stage_passes st.2 = true) (rr_stage_reports report) in
  let rejected := 0 < gate_rejected_factor_count report in
  (terminal_status m report = MrCompleted <-> grade /\ ~ rejected) /\ (terminal_status m report = MrCompletedWithRejectedFactors <-> grade /\ rejected) /\
  (terminal_status m report = MrReportOnly <-> ~ grade).
Proof.
  intros H. cbv zeta. apply graph_reports in H as (ev & fs & Hr & He & (st & Hin & Hn & Hst) & _). unfold terminal_status. rewrite ended_not_failed by (by rewrite Hr).
  assert (existsb (not_for_production m) (rr_stage_reports report) = false <->
    Forall (fun st => stage_required_for_requested m st.1.2 = true -> upstream_stage_passes st.2 = true) (rr_stage_reports report)) as Hreq.
  { rewrite existsb_false, Hr. split; intros Hf; rewrite Forall_forall in *; intros x Hx; apply ended_passes; auto. }
  assert (Forall (fun st => stage_required_for_requested m st.1.2 = true -> upstream_stage_passes st.2 = true) (rr_stage_reports report) ->
    is_production_eligible (rr_manifest report) = true) as Hel.
  { rewrite Hr, Forall_forall. intros Hf. apply Hst, Hf; [set_solver|]. rewrite Hn. apply resolve_required. }
  assert (is_production_eligible (rr_manifest report) = true -> FactorModel.production_eligible (rr_manifest report) = true) as Hpe.
  { unfold is_production_eligible. by intros [? _]%andb_true_iff. }
  assert (match rm_output_policy m with OutReportOnly | NoFactorOutput => true | _ => false end = true -> production_output_allowed m = false) as Hp
    by (unfold production_output_allowed; by destruct (rm_output_policy m)).
  destruct (match rm_output_policy m with OutReportOnly | NoFactorOutput => true | _ => false end); [specialize (Hp eq_refl); rewrite Hp; cbn [orb]; naive_solver|]. clear Hp.
  destruct (production_output_allowed m), (FactorModel.production_eligible (rr_manifest report)), (existsb (not_for_production m) (rr_stage_reports report)) eqn:E;
    cbn [orb negb]; try (split_and!; split; intros; naive_solver congruence).
  destruct (0 <? gate_rejected_factor_count report) eqn:Eg; [assert (0 < gate_rejected_factor_count report) by lia | assert (~ 0 < gate_rejected_factor_count report) by lia]; naive_solver.
Qed.

(** *** What the schedules produce *)

Lemma evidence_input s m a : execute_evidence_stages s m = Ok a -> rs_resolve s = Ok (ea_input a).
Proof.
  unfold execute_evidence_stages. intros H. chain H. injection H as <-. destruct a0 as [input b0]. cbn [fst ea_input]. unfold resolve_inputs_stage in E.
  destruct (rs_resolve s) as [report|]; [|by destruct (persist_stage_report s ResolveInputs EsFailed)]. chain E. by injection E as <- <-.
Qed.

Lemma graph_input s m r r' report : execute_stage_graph s m r = (r', Ok report) -> exists input, rs_resolve s = Ok input /\ rr_manifest report = ir_manifest input.
Proof.
  unfold execute_stage_graph. destruct (execute_evidence_stages s m) as [a|] eqn:Ea; [|done]. apply evidence_input in Ea. intros H. exists (ea_input a). split; [done|].
  destruct (production_output_allowed m); [|by injection H as <- <-]. unfold execute_factor_stages in H. destruct (evaluate_run_factors s m a) as [[reports gates]|]; [|done].
  destruct (write_gate_factors _ _ _ _ _) as [r1 [k|e]]; [|done]. destruct (persist_stage_report _ _ _); [|done]. by injection H as <- <-.
Qed.

Lemma ineligible_reports_only s m r r' report : execute_stage_graph s m r = (r', Ok report) -> is_production_eligible (rr_manifest report) = false -> terminal_status m report = MrReportOnly.
Proof.
  intros H Hn. apply graph_reports in H as (ev & fs & Hr & He & (st & Hin & Hname & Hst) & _). unfold terminal_status. rewrite ended_not_failed by (by rewrite Hr).
  assert (existsb (not_for_production m) (rr_stage_reports report) = true) as ->; [|by rewrite orb_true_r].
  apply existsb_exists. exists st. rewrite <- list_elem_of_In, Hr. split; [set_solver|].
  destruct (not_for_production m st) eqn:E; [done|]. assert (stage_ended st.2 = true) as Hend by (rewrite Forall_forall in He; apply He; set_solver).
  apply (proj1 (ended_passes m st Hend)) in E; [|rewrite Hname; apply resolve_required]. apply Hst in E. congruence.
Qed.

(** A factor of a run without eligible inputs is no candidate, when the gate of its inputs is on. *)
Lemma ineligible_no_candidate s m a reports gates : evaluate_run_factors s m a = Ok (reports, gates) -> gate_enabled (fm_quality_gate_policy (rm_factors m)) QgPointInTime = true ->
  is_production_eligible (ir_manifest (ea_input a)) = false -> Forall (fun f => cf_status (bf_value f) <> FCandidate) (qe_factors gates).
Proof.
  unfold evaluate_run_factors. intros H Hg Hn. chain H. injection H as <- <-. apply Forall_forall. intros f Hf Hc. unfold evaluate_gates in Hf. cbn [qe_factors] in Hf.
  apply list_elem_of_fmap in Hf as (x & -> & Hx). apply elem_of_lookup_imap in Hx as (i & g & -> & Hi). cbn [fst gate_factor with_status bf_value cf_status] in Hc.
  apply gated_candidate in Hc as [(_ & _ & Hb)|Hc].
  - apply blocking_iff in Hb. destruct (gates_of_value (gate_context m a (ea_reports a ++ [a0])) (rs_gate_clock s i) (bf_value g)) as (b & _ & Hpit & _).
    pose proof (Hb _ _ _ Hpit Hg) as Hp. apply andb_true_iff in Hp as [Hp _]. cbn [gate_context gc_pit_manifest] in Hp. congruence.
  - apply list_elem_of_lookup_2 in Hi. rewrite app_nil_r in Hi.
    assert (exists d, made_by (factor_context m a) (rs_factor_stamps s) d g) as [d Hm]
      by (apply elem_of_app in Hi as [?|?]; [exists true; by apply built_by | exists false; by apply report_only_by]).
    destruct Hm as (o & j & _ & _ & ->). unfold factor_value in Hc. destruct (rs_factor_stamps s j) as [[id g] now]. cbn in Hc. by destruct (bo_draft o).
Qed.

(** The schedules that can never be eligible: all but the one of the execution quality. *)
Lemma scheduled_inputs_never_found t mode task config window : task ∈ schedule_for_mode mode -> tk_schedule_id task <> "execution-quality-hourly" ->
  ~ inputs_found t (scheduled_inputs task config window).
Proof.
  intros Hin Hid (_ & _ & _ & Htruth & Hbal & _). unfold schedule_for_mode in Hin. rewrite !elem_of_cons in Hin.
  destruct Hin as [->|[->|[->|[->|Hin]]]]; [done| | | |by apply not_elem_of_nil in Hin].
  - destruct (Hbal eq_refl) as (h & at_ & x & Hh & _). done.
  - destruct (Htruth eq_refl) as (id & at_ & Hi & _). by apply not_elem_of_nil in Hi.
  - destruct (Htruth eq_refl) as (id & at_ & Hi & _). by apply not_elem_of_nil in Hi.
Qed.

(** C36: Of the four schedules only the one of the execution quality can put factors out.  A run that another of them enqueues lists
    no market and no account, so with every repository in place its settlement truth or its balance is always missing, whatever the tables hold: if its graph
    ends, the run only reports, and none of the factors that it stores is a candidate, although its policy asks for candidates. *)
Theorem scheduled_runs_only_report hash t mode task config window (s : RunServices) (m : RunManifest) (r r' : Registry) (report : RunReport) :
  task ∈ schedule_for_mode mode -> tk_schedule_id task <> "execution-quality-hourly" -> pt_unconfigured t = [] -> NoDup (cm_market_id <$> pt_markets t) ->
  rs_resolve s = resolve hash t (scheduled_inputs task config window) -> fm_quality_gate_policy (rm_factors m) = default_policy ->
  execute_stage_graph s m r = (r', Ok report) ->
  terminal_status m report = MrReportOnly /\
  forall id row, rg_factors r' !! id = Some row -> rg_factors r !! id = Some row \/ cf_status (fr_value row) <> FCandidate.
Proof.
  intros Hin Hid Hu Hn Hres Hpol H. destruct (graph_input s m r r' report H) as (input & Hi & Hm).
  assert (is_production_eligible (ir_manifest input) = false) as Hne.
  { apply not_true_iff_false. intros He. apply (scheduled_inputs_never_found t mode task config window Hin Hid).
    rewrite Hres in Hi. unfold resolve in Hi. destruct (resolve_state t (scheduled_inputs task config window)) as [st|] eqn:E; [|done]. destruct (hash st); [|done].
    injection Hi as <-. apply (resolve_state_clean t _ st Hu Hn E). unfold is_production_eligible in He. cbn in He. unfold clean. by destruct (rn_fatal_errors st). }
  split; [by eapply ineligible_reports_only; [|rewrite Hm]|].
  unfold execute_stage_graph in H. destruct (execute_evidence_stages s m) as [a|] eqn:Ea; [|done]. apply evidence_input in Ea. rewrite Hi in Ea. injection Ea as ->.
  destruct (production_output_allowed m); [|injection H as <- <-; by left].
  unfold execute_factor_stages in H. destruct (evaluate_run_factors s m a) as [[reports gates]|] eqn:Ev; [|done].
  assert (Forall (fun f => cf_status (bf_value f) <> FCandidate) (qe_factors gates)) as Hf.
  { eapply ineligible_no_candidate; [exact Ev| |done]. by rewrite Hpol. }
  destruct (write_gate_factors _ _ _ _ _) as [r1 [k|e]] eqn:Ew; [|done]. destruct (persist_stage_report _ _ _); [|done]. injection H as <- <-.
  intros id row Hrow. exact (write_gate_factors_status m _ (fun x => x <> FCandidate) Hf _ _ _ _ _ _ _ Ew Hrow).
Qed.

(** *** Every run ends *)

Lemma transition_running t id q target p : load_run t id = Some q -> mr_status q = MrRunning -> (target = MrFailed -> is_Some (rp_failure_code p)) ->
  exists u, transition t id MrRunning target p = Ok (Transitioned u, transition_update t id MrRunning target p) /\
    load_run (transition_update t id MrRunning target p) id = Some u /\ mr_status u = target /\ mr_failure_code u = or_else (rp_failure_code p) (mr_failure_code q) /\
    mr_finished_at u = or_else (rp_finished_at p) (mr_finished_at q).
Proof.
  intros Hl Hs Hc. unfold transition, transition_q. assert (bool_decide (target = MrFailed) && match rp_failure_code p with None => true | Some _ => false end = false) as ->.
  { case_bool_decide as Ht; [|done]. by destruct (Hc Ht) as [c ->]. }
  rewrite Hl, bool_decide_eq_true_2 by done. cbn [negb]. unfold transition_update. rewrite update_run_where_load, Hl by done. cbn [fmap option_fmap option_map].
  rewrite bool_decide_eq_true_2 by done. eexists. by split_and!.
Qed.

Lemma cancel_running t id q now : load_run t id = Some q -> is_active (mr_status q) = true ->
  exists u, cancel_run t id now = (transition_update t id (mr_status q) MrCancelled (cancel_patch now), Ok RoCancelled) /\
    load_run (transition_update t id (mr_status q) MrCancelled (cancel_patch now)) id = Some u /\ mr_status u = MrCancelled.
Proof.
  intros Hl Ha. unfold cancel_run, cancel_run_q, cancel_q. rewrite Hl. assert (is_terminal_run (mr_status q) = false) as -> by (by destruct (mr_status q)).
  unfold transition_q. cbn [bool_decide andb]. rewrite bool_decide_eq_false_2 by done. cbn [andb]. rewrite Hl, bool_decide_eq_true_2 by done. cbn [negb].
  unfold transition_update. rewrite update_run_where_load, Hl by done. cbn [fmap option_fmap option_map]. rewrite bool_decide_eq_true_2 by done. eexists. by split_and!.
Qed.


(** A row whose manifest does not decode is started and left running: the error is returned before anything ends the run. *)
Lemma undecodable_run_stays_running (s : RunServices) (manifests : Z -> RunManifest) (w : ControlTables) (id : Z) (started now : Time) (q : MaterializationRun) :
  load_run (ct_runs w) id = Some q -> mr_status q = MrQueued -> mr_manifest_decodes q = false ->
  let x := execute_run s {| rt_before_acquire := false; rt_before_resolve := false |} manifests w id started now in
  is_ok x.2 = false /\ exists u, load_run (ct_runs x.1) id = Some u /\ mr_status u = MrRunning.
Proof.
  intros Hl Hs Hd. cbv zeta. unfold execute_run, try_acquire, try_acquire_q. cbn [rt_before_acquire]. rewrite Hl, bool_decide_eq_true_2 by done. cbn [negb].
  unfold start_update. rewrite update_run_where_load, Hl by done. cbn [fmap option_fmap option_map]. rewrite (bool_decide_eq_true_2 (mr_status q = MrQueued)) by done.
  set (c := set_run q _ _ _ _). rewrite (bool_decide_eq_true_2 (mr_status c = MrRunning)) by done. change (mr_manifest_decodes c) with (mr_manifest_decodes q). rewrite Hd. unfold execute_acquired_run. cbn [fst snd ct_runs is_ok].
  split; [done|]. exists c. split; [|done]. rewrite update_run_where_load, Hl by done. cbn [fmap option_fmap option_map]. by rewrite bool_decide_eq_true_2.
Qed.

(** *** Writing again *)

(** What the unique index of a run's factors compares. *)
Definition same_output (f g : ControlFactorValue) : Prop := cf_factor_type g = cf_factor_type f /\ cf_dimensions g = cf_dimensions f /\ cf_payload g = cf_payload f.

Lemma written_again_refused m r k f g row stamp : rg_factors r !! k = Some row -> written_row m f row -> same_output f g -> is_ok (write_factor m r g stamp) = false.
Proof.
  intros Hk (H1 & _ & H2 & _ & _ & _ & _ & H3 & H4) (E1 & E2 & E3). unfold write_factor. destruct (validate_as_materialization_output g) as [[]|]; [|done].
  unfold from_typed. rewrite E2, E3, H3, H4. cbn beta iota. unfold create_factor, insert_factor_q. cbn [fr_value cf_factor_id].
  destruct (rg_factors r !! cf_factor_id g); [done|]. set (row' := {| fr_value := _ |}).
  assert (existsb (fun kv => same_run_payload kv.2 row') (map_to_list (rg_factors r)) = true) as ->; [|done].
  apply existsb_exists. exists (k, row). rewrite <- list_elem_of_In. split; [by apply elem_of_map_to_list|]. unfold same_run_payload. cbn.
  rewrite H1, Z.eqb_refl, !bool_decide_eq_true_2 by congruence. done.
Qed.

(** A run that fails after it has written its first factor cannot be retried: the factor stays, and an execution
    of the same run that builds the same factor again, under any identifier, is refused by the unique index of the run's factors before it writes
    anything. *)
Theorem partial_write_blocks_retry (m : RunManifest) (r r1 r' : Registry) (stamps stamps' : nat -> Z * Time) (f f' : BuiltFactor) (fs fs' : list BuiltFactor) (e : MaterializationError) :
  write_factor m r (bf_value f) (stamps 0%nat) = Ok r1 -> write_gate_factors m r stamps 0 (f :: fs) = (r', Err e) ->
  same_output (bf_value f) (bf_value f') ->
  rg_factors r1 ⊆ rg_factors r' /\
  exists e', write_gate_factors m r' stamps' 0 (f' :: fs') = (r', Err e').
Proof.
  intros Hw. cbn [write_gate_factors]. rewrite Hw. intros Hws Hsame. apply write_factor_ok in Hw as (_ & _ & (row & Hrow & Hwr) & _).
  pose proof (write_gate_factors_grows m fs r1 (fun n => stamps (S n)) (sat_u64 (0 + 1))) as (Hsub & _). rewrite Hws in Hsub. cbn [fst] in Hsub. split; [done|].
  pose proof (written_again_refused m r' (cf_factor_id (bf_value f)) _ _ row (stamps' 0%nat) (lookup_weaken _ _ _ _ Hrow Hsub) Hwr Hsame) as Hno.
  destruct (write_factor m r' (bf_value f') (stamps' 0%nat)); [done|]. by eexists.
Qed.
End RunFacts.

(** *** What the gates leave is accepted *)

Section Accepted.
Context `{DL : DecimalLaws} {DEC : Decoding} {IT : IdText} {ED : EventDigest} {TC : TimestampColumn} {FD : FactorDigest}.

(** [validate_as_materialization_output] never is what stops [write_gate_factors]. *)
Lemma write_accepts m fs : Forall (fun f => validate_as_materialization_output (bf_value f) = Ok tt) fs ->
  forall r stamps n r' e, write_gate_factors m r stamps n fs = (r', Err e) -> (exists c, e = MeCanonicalDigest c) \/ (exists c, e = MeStorage c).
Proof.
  induction 1 as [|f fs Hf _ IH]; intros r stamps n r' e; cbn; [done|]. destruct (write_factor m r (bf_value f) (stamps 0%nat)) as [r1|e1] eqn:E; [apply IH|].
  intros [= <- <-]. unfold write_factor in E. rewrite Hf in E. destruct (from_typed _ _ _); [|injection E as <-; by eauto].
  destruct (create_factor _ _ _ _ _); [done|]. injection E as <-. by eauto.
Qed.

(** The check before a factor is stored is never what fails a documented run with the evidence gates on: whatever
    the gates leave of what the builders built passes it, so the only errors of a write are those of the digest and of the store. *)
Theorem gates_leave_storable_factors (s : RunServices) (m : RunManifest) (a : EvidenceArtifacts) (reports : list StageReportBody) (gates : QualityGateEvaluation)
    (r r' : Registry) (stamps : nat -> Z * Time) (e : MaterializationError) :
  examples_typed (ta_examples (ea_training a)) -> stamps_ok (rs_factor_stamps s) -> ttl_ok (fm_quality_gate_policy (rm_factors m)) -> run_documented (factor_context m a) ->
  (forall g, g ∈ [QgPointInTime; QgCoverage; QgStability] -> gate_enabled (fm_quality_gate_policy (rm_factors m)) g = true) ->
  evaluate_run_factors s m a = Ok (reports, gates) -> write_gate_factors m r stamps 0 (qe_factors gates) = (r', Err e) ->
  (exists c, e = MeCanonicalDigest c) \/ (exists c, e = MeStorage c).
Proof.
  intros Ht Hs Httl Hdoc Hg Hev. apply write_accepts. apply Forall_forall. intros f Hf. unfold evaluate_run_factors in Hev. chain Hev. injection Hev as <- <-.
  apply (gated_factors_accepted (factor_context m a) (rs_factor_stamps s) (gate_context m a (ea_reports a ++ [a0])) (rs_gate_clock s)); try done; apply Hg; set_solver.
Qed.
End Accepted.

(** ** A run that reports a critical drift *)

Module RunnerDemo.
#[local] Existing Instance ExactQ.exactQ.
#[local] Existing Instance BookReplayDemo.decoding.
#[local] Existing Instance FactorDemo.ids.
#[local] Existing Instance AuditDemo.demo_digest.
#[local] Existing Instance AuditDemo.demo_column.
#[local] Existing Instance GovernanceDemo.demo_factor_digest.

Definition manifest : RunManifest := {|
  rm_run_id := 1; rm_run_kind := RkScheduled; rm_factors := FactorDemo.manifest smoke_acceptance; rm_output_policy := EmitDraftCandidates;
  rm_simulation_config := {| sc_latency_shifts_ms := []; sc_adverse_selection_bps := [] |}; rm_max_replay_gap_ms := 1000; rm_stale_book_after_ms := 5000 |}.

Definition services (cancelled : nat -> bool) : RunServices := {|
  rs_resolve := Ok {| ir_manifest := FactorDemo.pit; ir_warns := false; ir_contexts := []; ir_sources := FactorDemo.bundle; ir_runtime_config := None; ir_calibration_snapshots := [] |};
  rs_book_rows := Ok ([], []);
  rs_detect := fun _ => Ok {| da_report := build_detector_report true [FactorDemo.detection 1]; da_detections := [FactorDemo.detection 1] |};
  rs_terminal_audits := fun _ => Ok []; rs_audit_funnel := Ok FactorDemo.funnel; rs_fingerprints := (["d"], ["x"], ["s"]);
  rs_hash_examples := fun _ => Ok "ds"; rs_hash_names := fun _ => Ok "names"; rs_artifact_refs := Ok []; rs_persist := fun _ => None; rs_cancelled := cancelled;
  rs_report_id := fun _ => 1; rs_factor_stamps := FactorDemo.stamps; rs_gate_clock := fun _ => 200; rs_audit_stamps := fun n => (Z.of_nat n, 1000000) |}.
Definition steady : RunServices := services (fun _ => false).

(** Portfolio and settlement evidence are incomplete, so the gates reject the factor that would halt trading. *)
Definition statuses : list EvidenceStageStatus :=
  [EsCompleted; EsCompleted; EsCompleted; EsProductionIneligible; EsInsufficientCoverage; EsProductionIneligible; EsProductionIneligible; EsCompleted; EsCompletedWithWarnings; EsCompleted].

Lemma graph_ends : exists r report, execute_stage_graph steady manifest empty_registry = (r, Ok report) /\ (snd <$> rr_stage_reports report) =
  statuses /\
  terminal_status manifest report = MrReportOnly.
Proof.
  assert (match (execute_stage_graph steady manifest empty_registry).2 with Ok report => Some (snd <$> rr_stage_reports report, terminal_status manifest report) | Err _ => None end =
    Some (statuses,
          MrReportOnly)) as H by (vm_compute; reflexivity).
  destruct (execute_stage_graph steady manifest empty_registry) as [r [report|e]]; cbn in H; [|discriminate]. injection H as H1 H2. exists r, report. split; [reflexivity|]. split; [exact H1 | exact H2].
Qed.

(** The one factor that the gates leave, on given results of the stages. *)
Definition left (x : Result EvidenceArtifacts MaterializationError) : option (Z * list (Z * FactorStatus)) :=
  match x with
  | Ok a => match evaluate_run_factors steady manifest a with
            | Ok x => Some (qe_rejected_factor_count x.2, (fun f => (cf_factor_id (bf_value f), cf_status (bf_value f))) <$> qe_factors x.2)
            | Err _ => None end
  | Err _ => None
  end.

Lemma one_left : left (execute_evidence_stages steady manifest) = Some (1, [(0, FRejected)]).
Proof. vm_compute. reflexivity. Qed.

Lemma some_pair {A B} (a a' : A) (b b' : B) : Some (a, b) = Some (a', b') -> a = a' /\ b = b'.
Proof. by intros [= -> ->]. Qed.

Lemma one_factor (l : list BuiltFactor) id st : (fun f => (cf_factor_id (bf_value f), cf_status (bf_value f))) <$> l = [(id, st)] ->
  exists f, l = [f] /\ cf_factor_id (bf_value f) = id /\ cf_status (bf_value f) = st.
Proof. destruct l as [|f [|]]; [done| |done]. intros [= <- <-]. by exists f. Qed.

Lemma left_rejected a reports gates : execute_evidence_stages steady manifest = Ok a -> evaluate_run_factors steady manifest a = Ok (reports, gates) ->
  qe_rejected_factor_count gates = 1 /\ exists f, qe_factors gates = [f] /\ cf_factor_id (bf_value f) = 0 /\ cf_status (bf_value f) = FRejected.
Proof.
  intros Ha Hg. pose proof one_left as E. rewrite Ha in E. unfold left in E. rewrite Hg in E. apply some_pair in E as [E1 E2]. split; [exact E1|].
  exact (one_factor _ _ _ E2).
Qed.

Lemma graph_stores_gated_factors_witness : exists r report row, execute_stage_graph steady manifest empty_registry = (r, Ok report) /\ rg_factors r !! 0 = Some row /\
  cf_status (fr_value row) = FRejected /\ rr_gate_rejected report = Some 1.
Proof.
  destruct graph_ends as (r & report & H & _). destruct (graph_stores_gated_factors steady manifest empty_registry r report eq_refl H) as (_ & a & reports & gates & Ha & Hg & Hr & Hf).
  destruct (left_rejected a reports gates Ha Hg) as (E1 & f & E2 & E3 & E4). rewrite E1 in Hr. rewrite E2 in Hf. apply Forall_cons in Hf as [[(row & Hrow & Hw) _] _].
  rewrite E3 in Hrow. destruct Hw as (_ & _ & _ & _ & _ & _ & Hs & _). rewrite E4 in Hs. exists r, report, row. split; [exact H|]. split; [exact Hrow|]. split; [exact Hs | exact Hr].
Defined.

Lemma completed_runs_are_production_grade_witness : exists r report, execute_stage_graph steady manifest empty_registry = (r, Ok report) /\
  exists st, st ∈ rr_stage_reports report /\ stage_required_for_requested manifest st.1.2 = true /\ upstream_stage_passes st.2 = false.
Proof.
  destruct graph_ends as (r & report & H & _ & Ht). exists r, report. split; [exact H|].
  destruct (completed_runs_are_production_grade steady manifest empty_registry r report H) as (_ & _ & Hro). apply Hro in Ht.
  destruct (existsb (fun st => stage_required_for_requested manifest st.1.2 && negb (upstream_stage_passes st.2)) (rr_stage_reports report)) eqn:E.
  - apply existsb_exists in E as (st & Hin & Hst). apply andb_true_iff in Hst as [H1 H2]. exists st. rewrite list_elem_of_In. split; [exact Hin|]. split; [exact H1|].
    by apply negb_true_iff.
  - exfalso. apply Ht. assert (is_production_eligible (rr_manifest report) = true) as Hp.
    { assert (match (execute_stage_graph steady manifest empty_registry).2 with Ok report => is_production_eligible (rr_manifest report) | Err _ => false end = true) as Hp by (vm_compute; reflexivity).
      by rewrite H in Hp. }
    split; [reflexivity|]. split; [exact Hp|]. apply existsb_false in E. eapply Forall_impl; [exact E|]. intros st Hst Hreq. cbn beta in Hst. rewrite Hreq in Hst.
    by apply negb_false_iff in Hst.
Defined.

(** The daily run of the bucket risk, on tables where the market is known, settled and traded. *)
Definition daily : ScheduledMaterialization := {|
  tk_schedule_id := "bucket-risk-daily"; tk_cadence := hours 24; tk_source_delay_secs := 900; tk_factor_types := [BucketRisk]; tk_market_ids := []; tk_event_ids := [];
  tk_data_requirements := settlement_data_requirements [DoRuntimeConfig; DoTrades; DoPositions; DoSettlementTruth]; tk_replay_account_scope := None; tk_inactive := None |}.
Definition daily_window : Time * Time := (100 * PointInTimeDemo.second, 200 * PointInTimeDemo.second).
Definition daily_manifest : RunManifest := {|
  rm_run_id := 1; rm_run_kind := RkScheduled;
  rm_factors := {| fm_requested_factor_types := [BucketRisk]; fm_quality_gate_policy := default_policy; fm_window_from := daily_window.1; fm_window_to := daily_window.2;
                   fm_runtime_config_ref := RcActiveAt daily_window.2; fm_code_git_sha := "sha"; fm_created_by := "scheduler" |};
  rm_output_policy := EmitDraftCandidates; rm_simulation_config := rm_simulation_config manifest; rm_max_replay_gap_ms := 1000; rm_stale_book_after_ms := 5000 |}.
Definition daily_services : RunServices := {|
  rs_resolve := resolve (fun _ => Ok "h") PointInTimeDemo.tables (scheduled_inputs daily (RcActiveAt daily_window.2) daily_window);
  rs_book_rows := rs_book_rows steady; rs_detect := rs_detect steady; rs_terminal_audits := rs_terminal_audits steady; rs_audit_funnel := rs_audit_funnel steady;
  rs_fingerprints := rs_fingerprints steady; rs_hash_examples := rs_hash_examples steady; rs_hash_names := rs_hash_names steady; rs_artifact_refs := rs_artifact_refs steady;
  rs_persist := rs_persist steady; rs_cancelled := rs_cancelled steady; rs_report_id := rs_report_id steady; rs_factor_stamps := rs_factor_stamps steady;
  rs_gate_clock := rs_gate_clock steady; rs_audit_stamps := rs_audit_stamps steady |}.

Lemma daily_is_scheduled : daily ∈ schedule_for_mode Live.
Proof. unfold schedule_for_mode. rewrite !elem_of_cons. right; right; left. reflexivity. Qed.

Lemma daily_ends : exists r report row, execute_stage_graph daily_services daily_manifest empty_registry = (r, Ok report) /\ rg_factors r !! 0 = Some row.
Proof.
  assert (match execute_stage_graph daily_services daily_manifest empty_registry with
          | (r, Ok report) => match rg_factors r !! 0 with Some _ => true | None => false end
          | (_, Err _) => false end = true) as H by (vm_compute; reflexivity).
  destruct (execute_stage_graph daily_services daily_manifest empty_registry) as [r [report|e]]; [|discriminate H]. destruct (rg_factors r !! 0) as [row|] eqn:E; [|discriminate H].
  exists r, report, row. split; [reflexivity | exact E].
Qed.

Lemma scheduled_runs_only_report_witness : exists r report row, execute_stage_graph daily_services daily_manifest empty_registry = (r, Ok report) /\
  rg_factors r !! 0 = Some row /\ cf_status (fr_value row) <> FCandidate /\ terminal_status daily_manifest report = MrReportOnly.
Proof.
  destruct daily_ends as (r & report & row & H & Hrow). exists r, report, row. split; [exact H|]. split; [exact Hrow|].
  assert (tk_schedule_id daily <> "execution-quality-hourly") as Hid by discriminate.
  destruct (scheduled_runs_only_report (fun _ => Ok "h") PointInTimeDemo.tables Live daily (RcActiveAt daily_window.2) daily_window daily_services daily_manifest empty_registry r report
    daily_is_scheduled Hid eq_refl PointInTimeDemo.unique eq_refl eq_refl H) as [Ht Hf].
  split; [|exact Ht]. destruct (Hf 0 row Hrow) as [H0|H0]; [|exact H0]. discriminate H0.
Defined.

(** The run of the hourly schedule, executed; the token is cancelled after the book. *)
Definition queued : ControlTables := {| ct_runs := MaterializationDemo.one; ct_registry := empty_registry |}.
Definition token : RunToken := {| rt_before_acquire := false; rt_before_resolve := false |}.


(** The factor of the run and another with its identifier, so that the second is refused. *)
Definition factors : list BuiltFactor := fa_built_factors (build_factors (FactorDemo.context EsCompleted) FactorDemo.stamps).
Definition factor : option BuiltFactor := head factors.
Definition stamps (n : nat) : Z * Time := (Z.of_nat n, 1000000).

Lemma factor_written : exists f r1 r' e, factor = Some f /\ write_factor manifest empty_registry (bf_value f) (stamps 0) = Ok r1 /\
  write_gate_factors manifest empty_registry stamps 0 [f; f] = (r', Err e) /\ size (rg_factors r') = 1%nat.
Proof.
  assert (match factor with
          | Some f => is_ok (write_factor manifest empty_registry (bf_value f) (stamps 0)) &&
              match write_gate_factors manifest empty_registry stamps 0 [f; f] with (r', Err _) => (size (rg_factors r') =? 1)%nat | _ => false end
          | None => false end = true) as H by (vm_compute; reflexivity).
  destruct factor as [f|]; [|discriminate]. destruct (write_factor manifest empty_registry (bf_value f) (stamps 0)) as [r1|] eqn:E1; [|discriminate].
  destruct (write_gate_factors manifest empty_registry stamps 0 [f; f]) as [r' [k|e]] eqn:E2; [discriminate|]. exists f, r1, r', e.
  split; [reflexivity|]. split; [exact E1|]. split; [exact E2|]. cbn [is_ok andb] in H. by apply Nat.eqb_eq.
Qed.

Lemma partial_write_blocks_retry_witness : exists f r' e', factor = Some f /\ size (rg_factors r') = 1%nat /\
  write_gate_factors manifest r' (fun n => stamps (10 + n)) 0 [f] = (r', Err e').
Proof.
  destruct factor_written as (f & r1 & r' & e & H1 & H2 & H3 & H4).
  destruct (partial_write_blocks_retry manifest empty_registry r1 r' stamps (fun n => stamps (10 + n)) f f [f] [] e H2 H3) as (_ & e' & H); [by split_and!|].
  exists f, r', e'. split; [exact H1|]. split; [exact H4 | exact H].
Defined.

(** Artifacts with the settlement stage passed: the factor is a candidate, and is written twice. *)
Definition artifacts : EvidenceArtifacts := {|
  ea_input := {| ir_manifest := FactorDemo.pit; ir_warns := false; ir_contexts := []; ir_sources := FactorDemo.bundle; ir_runtime_config := None; ir_calibration_snapshots := [] |};
  ea_detector := {| da_report := build_detector_report true [FactorDemo.detection 1]; da_detections := [FactorDemo.detection 1] |};
  ea_execution := (execution_evidence EmitDraftCandidates 5000 (rm_simulation_config manifest) {|
    ba_report := {| br_evidence_tier := ExactReplay; br_token_count_expected := 0; br_token_count_reconstructed := 0; br_l2_event_count := 0; br_snapshot_bootstrap_count := 0;
                    br_gap_count := 0; br_max_gap_ms := 0; br_median_book_age_ms := 0; br_p95_book_age_ms := 0; br_crossed_book_count := 0; br_invalid_level_count := 0;
                    br_stale_interval_ms := 0; br_insufficient_reasons := [] |}; ba_market_books := []; ba_token_timelines := [] |} []).2;
  ea_portfolio := build_portfolio FactorDemo.funnel FactorDemo.bundle; ea_settlement := FactorDemo.settlement; ea_training := FactorDemo.examples;
  ea_reports := FactorDemo.stages EsCompleted |}.

Lemma written_twice : exists reports gates r r' e, evaluate_run_factors steady manifest artifacts = Ok (reports, gates) /\ length (qe_factors gates) = 1%nat /\
  write_gate_factors manifest r stamps 0 (qe_factors gates) = (r', Err e).
Proof.
  assert (match evaluate_run_factors steady manifest artifacts with
          | Ok x => (length (qe_factors x.2) =? 1)%nat &&
              negb (is_ok (write_gate_factors manifest (write_gate_factors manifest empty_registry stamps 0 (qe_factors x.2)).1 stamps 0 (qe_factors x.2)).2)
          | Err _ => false end = true) as H by (vm_compute; reflexivity).
  destruct (evaluate_run_factors steady manifest artifacts) as [[reports gates]|]; [|discriminate H]. cbn [snd] in H. apply andb_true_iff in H as [H1 H2].
  set (r := (write_gate_factors manifest empty_registry stamps 0 (qe_factors gates)).1) in *.
  destruct (write_gate_factors manifest r stamps 0 (qe_factors gates)) as [r' [k|e]] eqn:E; [discriminate H2|]. exists reports, gates, r, r', e.
  split; [reflexivity|]. split; [by apply Nat.eqb_eq | exact E].
Qed.

Lemma run_is_documented : run_documented (factor_context manifest artifacts).
Proof. unfold run_documented. vm_compute. repeat split; try discriminate. repeat constructor; discriminate. Qed.

Lemma gates_leave_storable_factors_witness : exists reports gates r r' e, evaluate_run_factors steady manifest artifacts = Ok (reports, gates) /\
  length (qe_factors gates) = 1%nat /\ write_gate_factors manifest r stamps 0 (qe_factors gates) = (r', Err e) /\ ((exists c, e = MeCanonicalDigest c) \/ (exists c, e = MeStorage c)).
Proof.
  destruct written_twice as (reports & gates & r & r' & e & H1 & H2 & H3). exists reports, gates, r, r', e. split; [exact H1|]. split; [exact H2|]. split; [exact H3|].
  refine (gates_leave_storable_factors steady manifest artifacts reports gates r r' stamps e FactorDemo.typed FactorDemo.stamped FactorDemo.lives run_is_documented _ H1 H3).
  intros g Hg. rewrite !elem_of_cons in Hg. destruct Hg as [->|[->|[->|Hg]]]; [reflexivity..|]. by apply not_elem_of_nil in Hg.
Defined.
End RunnerDemo.
